(* ===== verification/_CoqProject ===== *)
-Q . S2P
Prelude.v
Dict.v
PyVal.v
Effects.v
PyPath.v
PyStr.v
PyBytes.v
Json.v
JsonLoad.v
ExecModels.v
Host.v
Workspace.v
Config.v
Identity.v
Keys.v
Security.v
Workspaces.v
Sandbox.v
Github.v
Fabric.v
Deterministic.v
Registry.v
Intelligence.v
Orchestrator.v
Mcp.v
Inventory.v
Telemetry.v
Worker.v
Qwen.v
Continuity.v
Mutation.v
Manager.v
Bridge.v
Sync.v
Core.v
Bootstrap.v
CustomerZero.v
Admin.v
Accounts.v
Html.v
Objects.v
Templates.v
TemplateFacts.v
TemplateErrors.v
ControlCenter.v
Secrets.v
GithubAuth.v
Process.v
Broker.v
BrokerStart.v
PageScripts.v
PageFacts.v
BrokerGate.v
BrokerClient.v
Compute.v
ComputeFacts.v
RemoteManager.v
Probe.v
Validation.v
Benchmarks.v
BenchmarkStore.v
BenchmarkDataset.v
BenchmarkFacts.v
Tooling.v
Receipts.v
Stream.v
AdminRoutes.v
AdminServer.v
AdminFacts.v
AdminSchedules.v
AdminExamples.v
PanelPages.v
Platform.v
Cli.v
CliFacts.v
Preflight.v
Witnesses.v
RuntimeWitnesses.v
ServiceWitnesses.v
