(* ===== verification/Prelude.v ===== *)
(** * Verification of the ANNY Runtime core

    The ANNY Runtime (src/runtime/) is a Python service that executes governed
    tasks on a user's machine.  This development models its decision-making
    core, operation by operation, and proves the properties that make it
    correct.  Paths below are relative to src/.

    ** The program and how its parts interact

    A task reaches the runtime through the bridge API, is admitted by the
    execution manager, routed by the orchestration kernel, and run by a worker
    in a fresh ephemeral workspace, behind the generation fence: by the
    deterministic executor, through the MCP gateway to a tool, or by a local or
    frontier model.  The continuity journal records what happened and survives
    restarts; the telemetry collector counts it.  Repository mutations are made in
    two phases over the journal and reconciled after a crash.  A second access
    path, for sessions, goes through enrollment, leases and execution contexts
    to the secured tools, governed workspaces, processes and the shell.  At
    startup the engine takes a generation, loads the journal and runs the
    three-plane bootstrap over GitHub, the repository fabric and its own
    control plane; a service synchronises the runtime with new releases.

    ** Files

    Foundations:
    - Prelude: record update, exceptions and results, automation, shared lemmas;
    - Dict: Python dictionaries; PyVal: JSON-like values and binary64 numbers;
      Effects: the state-and-exception monad and its [wp];
    - PyPath, PyStr, PyBytes: paths, text, bytes and encodings; Json and JsonLoad:
      json.dumps, and json.loads which reads back what it printed;
    - Host: files, directories and the clock.

    Execution of tasks:
    - ExecModels: runtime/execution/models.py, capability.py, policy.py;
    - Workspace: runtime/workspace/ephemeral.py;
    - Deterministic: runtime/execution/deterministic_executor.py;
    - Registry: runtime/execution/registry.py;
    - Intelligence: runtime/intelligence/models.py, layer.py;
    - Orchestrator: runtime/orchestration/ and execution/selector.py;
    - Mcp: runtime/mcp/;
    - Telemetry: runtime/telemetry/ (scrubber, envelope, collector, aggregator);
    - Worker: runtime/execution/worker.py, interfaces.py; Qwen: the local model,
      runtime/execution/qwen_executor.py, validator.py;
    - Continuity: runtime/continuity/models.py, events.py, engine.py;
    - Mutation: runtime/continuity/mutation.py, reconciler.py;
    - Manager: runtime/execution/manager.py and the fence of core/generation.py;
    - Bridge: runtime/api/bridge.py, journal/journal.py;
    - Sync: runtime/sync/.

    Sessions and security:
    - Identity: runtime/identity/enrollment.py, session/, the context of
      security/execution_context.py; Keys: runtime/identity/runtime_identity.py;
    - Security: runtime/security/, capability/gate.py, tools/registry.py;
    - Workspaces: runtime/workspace/manager.py, filesystem/service.py, sandbox/;
    - Process: runtime/process/manager.py, shell/executor.py, core/recovery.py.

    Startup:
    - Config: runtime/core/config.py, admin/port.py;
    - Core: runtime/core/generation.py, core/engine.py, events/bus.py,
      journal/mission_journal.py;
    - Github: runtime/github/; Fabric: runtime/fabric/;
    - Inventory: runtime/core/inventory.py, core/access_verifier.py;
    - Bootstrap: runtime/bootstrap/;
    - CustomerZero: runtime/continuity/state.py, operational.py, bootstrap.py.

    Services:
    - Admin: runtime/admin/csrf.py, auth.py, middleware.py, audit.py;
    - Accounts: runtime/accounts/, projects/; Secrets: runtime/secrets/;
    - GithubAuth: runtime/admin/github.py, over the interface of Secrets;
    - Broker, BrokerGate, BrokerStart: runtime/browser/broker_server.py,
      authorization.py, the account of its authorizations, and its start; PageScripts,
      PageFacts: the JavaScript it sends to a page, and its actions on the page;
      BrokerClient: runtime/browser/manager.py;
    - Compute, ComputeFacts: runtime/compute/models.py, registry.py, discovery.py,
      colab.py; RemoteManager: runtime/compute/remote_manager.py; Probe: the snippet
      discovery runs on the remote machine, and what becomes of its report; Validation:
      scripts/run_001d_interactive_colab_validation.py.

    - Benchmarks, BenchmarkDataset, BenchmarkStore, BenchmarkFacts:
      runtime/intelligence/taxonomy.py, grading.py, benchmark_runner.py,
      benchmark_dataset.py, benchmark_store.py, evidence_builder.py;
    - Tooling: runtime/tools/builtins.py, execution/executor.py, git/service.py;
    - Receipts: runtime/execution/receipt.py, updater/manager.py;
    - Stream: runtime/telemetry/stream.py;
    - AdminRoutes: runtime/admin/routes.py, dto.py; AdminServer:
      runtime/admin/server.py, a request as steps that interleave with others';
      AdminFacts, AdminSchedules: their theorems; AdminExamples: a concrete panel
      with schedules that show what the shared context does.
    - Html: f-strings and the elements, forms and attributes a browser reads in a text,
      with a check of templates that is sound for it; Objects: the objects templates
      read; Templates: runtime/admin/templates.py; TemplateFacts, TemplateErrors: their
      theorems; ControlCenter: runtime/admin/templates_cc.py, sync_ui.py; PanelPages:
      the text of the pages the routes answer with.
    - Platform: runtime/platform/, diagnostics/, telemetry/context.py,
      intelligence/telemetry.py;
    - Cli, CliFacts: cli/main.py and the start of runtime/admin/server.py;
      Preflight: scripts/preflight_check.py.
    Witnesses, RuntimeWitnesses and ServiceWitnesses hold concrete instances of the interfaces
    and, for each property with hypotheses, an input at which they hold.

    ** What the theorems show

    - Execution.  Admission either refuses without a trace or registers exactly one
      queued execution ([submit_task_spec]); an execution of another generation has
      no effect ([stale_generation_fenced]); a worker always settles
      ([start_worker_settles]); the deterministic executor ends in a status
      that agrees with its reason and never serves a denied path
      ([execute_outcome], [execute_denied_path]); the outcome is the same after a
      restart ([outcome_survives_restart]); what the local model executor returns
      is the judged answer of the verified artifact ([qwen_execute_sound]).
    - Routing and tools.  A plan is justified by the capability, the policy and the
      assessment ([plan_task_sound], [plan_deterministic_iff]); a tool call is
      accounted for on every branch and bounded by its policy ([invoke_accounted],
      [invocations_bounded]); the bridge changes nothing for a request it refuses
      ([bridge_gate]).
    - Persistence.  The journal holds after a restart exactly what was
      acknowledged, with failing writes ([acknowledged_durable], [load_accounts]);
      interrupted mutations are found and finished ones leave nothing to report
      ([interrupted_mutation_detected], [two_phases_coherent],
      [reconcile_verdict]); a stored secret is read back ([secret_survives]); the
      model registry is durable and fails closed when its
      file is corrupted ([registry_durable], [corruption_blocks], [restore_iff]).
    - Synchronisation.  In every interleaving what is staged has the expected digest
      or nothing changed, nothing is activated, and the service can always start
      again ([staged_provenance], [sync_never_activates], [sync_progress]).
    - Sessions and security.  Enrollment states are vouched for
      ([enrollment_vouched]), a lease that ended stays ended
      ([session_never_revived]), the grants file implements a table of grants
      ([store_refines]), a tool runs only with every capability granted
      ([authorized_effect], [pipeline_gate]), workspaces are isolated between
      tenants ([workspace_isolation]), the sandbox manager agrees with any lawful
      backends ([sandboxes_coherent]), processes are bounded and the shell is gated
      ([concurrency_bounded], [shell_gate]), recovery reports what earlier
      generations left ([recover_spec]).
    - Startup.  Generations are unique ([generations_unique]), the state file agrees
      with the engine ([engine_state_persisted]), the fabric is only read
      ([fabric_reads_bound]) and admission fails closed ([admission_fail_closed]),
      the bootstrap's verdict is the conjunction of its gates ([bootstrap_verdict]),
      which as the code stands never all pass ([startup_never_ready]); the
      customer-zero resolver goes through its stages in order
      ([resolver_verdict]).
    - Administration.  A request is let through only with a session, or under the
      rules that create one ([request_gate]), and in every interleaving only such
      requests are handled ([handled_only_if_admitted]) and only cookies of opened
      sessions are sent ([cookies_of_opened_sessions]); a request always ends
      ([request_ends]) and, alone, leaves the shared context as it was
      ([request_restores_context]), while concurrent ones may receive each other's
      session ([stranger_receives_session]); a page whose values hold no markup is
      well formed and its forms carry the token ([pages_closed]), the records of the
      runtime are printed, those of models and accounts excepted
      ([records_rendered]), and a search prints what it is given
      ([search_reflects]); accounts are bounded, unique by
      principal and durable ([accounts_bounded], [accounts_durable]); a token is
      reported authorized only after it validated ([validate_verdict],
      [granted_token_settled]).
    - Command line.  A created identity is the one the runtime loads
      ([bootstrap_round_trip]); the diagnosis is the conjunction of its checks
      ([doctor_verdict]); uninstalling keeps the state of the user
      ([uninstall_keeps_state]); the installer's check passes exactly when every
      import is declared and works ([preflight_passes_iff]).
    - Browser and remote compute.  Every unsafe request the broker lets through used
      an authorization of its session, once ([submissions_accounted]), the socket
      alone authorizes nothing ([socket_never_submits]), an action on an element is one
      step of the page, refused or whole ([action_on_page]), what fields hold never leaves
      the page ([values_stay_in_page]), a command of the client
      arrives as it was sent ([request_arrives]); a remote session that ended stays
      ended ([ended_forever]), a job runs only on a READY session of the browser, on
      the bridge provisioned last ([executed_on_current_bridge]), a capability is
      called tested only when its check passed ([tested_means_passed]), and what the
      probe of a machine reports is what discovery returns ([discovery_complete]); a
      validation takes one of a few courses and passes only with a job that completed
      ([validation_course], [pass_succeeded]), and evidence that passes the check of
      isolation holds no token ([isolation_sound]).
    - Benchmarks, tools and receipts.  A revocation is complete
      ([revocation_complete]), the best scorecard is a certified one of the highest
      score ([best_scorecard_spec]), the evidence covers every capability
      ([evidence_complete]); a git commit is made between the two phases of its
      mutation ([git_commit_brackets]); a stored receipt is read back
      ([stored_receipt_read]); a browser is streamed every event once
      ([stream_sends_once]).
    Further theorems of each file state the behaviours that surprise: those whose
    doc comment says what goes wrong (for instance [second_orphan_missed],
    [grant_crosses_tenants], [sibling_escape], [repository_read_denied]).

    ** How the program is modelled

    - A method that mutates objects and may raise is a function from the state to
      the new state and a result; the state reached is kept when it raises.
      Exceptions are values of [exn]; an [except] clause is a match on the class.
      [Unmodelled] marks an input on which the model says nothing: no [except]
      clause catches it.
    - Enumerations are inductive types, dataclasses are records updated with
      [r <| f := v |>], dictionaries are association lists in insertion order with
      distinct keys, sets are stdpp's [gset] where no order is observed.
      JSON values and untyped fields are [pyval].
    - Shared objects are modelled where sharing is observed: the results of a
      synchronisation live in a heap, the processes of a data directory share the
      generation file, contexts are held by the manager and reached by id.
    - The clock and the generators of identifiers are sequences; a computation draws
      the next one.  Instants are microseconds, naive or aware, and comparing one
      of each raises as in Python.
    - Files of JSON lines are lists of lines, readable or not; JSON files are
      their decoded value or a text that does not decode.  Writes that fail are
      lists of faults in the state, arbitrary in the theorems.  Paths resolve
      lexically: there are no symbolic links.
    - The network, git, model executors, processes of the operating system,
      Ed25519, Fernet, SHA-256, the YAML parser, the browser, the colab program and
      the MCP server are parameters
      (type classes), unconstrained unless a theorem names a hypothesis.  The
      network sees all requests sent before, so its answers may change.
    - Characters are code points below 256.
    - Floats are binary64 as in the Standard Library's SpecFloat; their text is a
      parameter.

    Recursion is structural except in five places: text replacement
    (Workspaces.replace_go, on the length of the text plus one, each step
    consuming a character), octal digits (PyStr.oct_digits, on the size of
    the number), the JSON parser (on the length of the text, each call consuming a
    character), the wait after a submission (Broker.poll_page, seventeen
    rounds of half a second within its eight seconds), and the matching blocks of
    two texts (Benchmarks.matching, on a length plus one, each round shortening
    the parts); the fuel is never exhausted ([poll_page_ends] and
    [matching_bounded] prove the last two).  A request of the panel is run step by
    step, and a rank of its program counter shows that it ends ([request_ends]).
    Threads of the synchronisation service are a step relation with atomic steps
    between the points where the lock is free; those of the panel's server have a
    step per access of the context they share, and one per handler.

    ** Not modelled

    The JavaScript of the panel's pages, the three scripts by which the browser broker
    marks a frame (texts, not interpreted); what a browser does after a click or a
    submission; the calls of the operating system keyring; the construction of the services at the start of the panel,
    between its identity and its sockets (Cli follows what comes before and
    after); the abbreviations of arguments the command line's parser accepts; the
    records of contracts/protocol.py, which nothing constructs; the other scripts of
    physical runs (scripts/run_001c*.py, run_001g*.py, generate_023_certification.py),
    which print what they observe; logging. *)
From Stdlib Require Export ZArith Lia Ascii.
From stdpp Require Export prelude strings.
From stdpp Require Export list.

(** ** Record update

    [r <| f := v |>] is the record [r] with field [f] replaced by [v]: the
    counterpart of a Python attribute assignment [r.f = v] on a dataclass.
    [Eta] gives the eta-expansion of a record type; the setter of a field is
    obtained from it by abstracting the projection. *)
Class Eta (R : Type) := eta : R -> R.
Class Setter {R T : Type} (proj : R -> T) := setter : (T -> T) -> R -> R.

Ltac derive_setter :=
  match goal with
  | |- @Setter ?R _ ?proj =>
      let inst := constr:(_ : Eta R) in
      let e := eval hnf in inst in
      let p := eval pattern proj in e in
      match p with
      | ?f _ =>
          let t := constr:(fun g (r : R) => f (fun r' => g (proj r')) r) in
          let t' := eval cbv beta in t in
          exact t'
      end
  end.

#[export] Hint Extern 1 (Setter _) => derive_setter : typeclass_instances.
Arguments setter {R T} proj {Setter} _ _ /.

Declare Scope runtime_scope.
Delimit Scope runtime_scope with runtime.
Open Scope runtime_scope.
Notation "r <| f := v |>" := (setter f (fun _ => v) r)
  (at level 1, left associativity, f at level 11, format "r <| f  :=  v |>")
  : runtime_scope.

(** ** Exceptions

    The exception classes the modelled code raises or dispatches on in an
    [except] clause.  [exn_str] is the value of [str(e)].
    [Unmodelled] is not an exception of the program: it marks an input on which
    the model says nothing (no [except] clause catches it, and the theorems
    exclude it). *)
Inductive exn_class :=
  | ValueError | TypeError | KeyError | AttributeError | RuntimeError
  | TimeoutError | PermissionError | FileExistsError | OSError
  | ExecutorLimitsExceeded | ExecutorSecurityError
  | MCPGatewayError | ToolNotFoundError | AuthorizationDeniedError
  | PolicyViolationError | ToolImplementationError
  | RegistryRecoveryRequired | RecoveryAttestationError
  | StaleGenerationError | SecurityViolationError | ContextAccessError
  | EnrollmentError | OperationalRepositoryNotFound | OperationalRepositoryAmbiguous
  | GitHubClientError | GitHubAuthError | GitHubNotFoundError | GitHubTimeoutError
  | GitHubRateLimitError | FabricError | JSONDecodeError | UnicodeDecodeError
  | OtherException (name : string)
  | Unmodelled.
#[export] Instance exn_class_eq_dec : EqDecision exn_class.
Proof. solve_decision. Defined.

Record exn := Exn { exn_type : exn_class; exn_str : string }.
#[export] Instance exn_eq_dec : EqDecision exn.
Proof. solve_decision. Defined.

(** [type(e).__name__] *)
Definition exn_name (c : exn_class) : string :=
  match c with
  | ValueError => "ValueError" | TypeError => "TypeError" | KeyError => "KeyError"
  | AttributeError => "AttributeError" | RuntimeError => "RuntimeError"
  | TimeoutError => "TimeoutError" | PermissionError => "PermissionError"
  | FileExistsError => "FileExistsError" | OSError => "OSError"
  | ExecutorLimitsExceeded => "ExecutorLimitsExceeded"
  | ExecutorSecurityError => "ExecutorSecurityError"
  | MCPGatewayError => "MCPGatewayError" | ToolNotFoundError => "ToolNotFoundError"
  | AuthorizationDeniedError => "AuthorizationDeniedError"
  | PolicyViolationError => "PolicyViolationError"
  | ToolImplementationError => "ToolImplementationError"
  | RegistryRecoveryRequired => "RegistryRecoveryRequired"
  | RecoveryAttestationError => "RecoveryAttestationError"
  | StaleGenerationError => "StaleGenerationError"
  | SecurityViolationError => "SecurityViolationError"
  | ContextAccessError => "ContextAccessError" | EnrollmentError => "EnrollmentError"
  | OperationalRepositoryNotFound => "OperationalRepositoryNotFoundError"
  | OperationalRepositoryAmbiguous => "OperationalRepositoryAmbiguousError"
  | GitHubClientError => "GitHubClientError" | GitHubAuthError => "GitHubAuthError"
  | GitHubNotFoundError => "GitHubNotFoundError" | GitHubTimeoutError => "GitHubTimeoutError"
  | GitHubRateLimitError => "GitHubRateLimitError" | FabricError => "FabricError"
  | JSONDecodeError => "JSONDecodeError" | UnicodeDecodeError => "UnicodeDecodeError"
  | OtherException name => name
  | Unmodelled => "Unmodelled"
  end.

(** [MCPGatewayError] is the base class of three other classes: an
    [except MCPGatewayError] clause catches all four. *)
Definition is_gateway_error (c : exn_class) : bool :=
  match c with
  | MCPGatewayError | ToolNotFoundError | AuthorizationDeniedError
  | PolicyViolationError => true
  | _ => false
  end.

(** [GitHubClientError] and its four subclasses. *)
Definition is_github_error (c : exn_class) : bool :=
  match c with
  | GitHubClientError | GitHubAuthError | GitHubNotFoundError | GitHubTimeoutError
  | GitHubRateLimitError => true
  | _ => false
  end.

(** ** Results: a call returns a value or raises *)
Inductive result (A : Type) :=
  | Ok (a : A)
  | Raise (e : exn).
Arguments Ok {A} a.
Arguments Raise {A} e.

Definition raise {A} (c : exn_class) (msg : string) : result A := Raise (Exn c msg).

Notation "'let?' x ':=' m 'in' k" :=
  (match m with Ok x => k | Raise e => Raise e end)
  (at level 10, x pattern, m at level 100, k at level 200) : runtime_scope.
Notation "'check!' m 'in' k" :=
  (match m with Ok tt => k | Raise e => Raise e end)
  (at level 10, m at level 100, k at level 200) : runtime_scope.

Definition is_ok {A} (r : result A) : bool :=
  match r with Ok _ => true | Raise _ => false end.

(** [guard_raise b c msg]: [if b: raise c(msg)]. *)
Definition guard_raise (b : bool) (c : exn_class) (msg : string) : result unit :=
  if b then raise c msg else Ok tt.

Lemma guard_raise_ok b c msg : guard_raise b c msg = Ok tt <-> b = false.
Proof. destruct b; unfold guard_raise, raise; split; intros H; (done || inv H). Qed.

(** ** Automation

    [break] destructs the scrutinee of a match or an if, in the goal or in a
    hypothesis, keeping its equation; [crush] is the development's closing tactic. *)
Ltac break_goal :=
  match goal with
  | |- context [match ?x with _ => _ end] =>
      lazymatch x with
      | context [match _ with _ => _ end] => fail
      | _ => let E := fresh "E" in destruct x eqn:E
      end
  end.
Ltac break_hyp :=
  match goal with
  | H : context [match ?x with _ => _ end] |- _ =>
      lazymatch x with
      | context [match _ with _ => _ end] => fail
      | _ => let E := fresh "E" in destruct x eqn:E
      end
  end.
Ltac break := first [break_hyp | break_goal].
Ltac bool_to_prop :=
  repeat match goal with
    | H : (_ && _)%bool = true |- _ => apply andb_true_iff in H as [? ?]
    | H : (_ || _)%bool = false |- _ => apply orb_false_iff in H as [? ?]
    | H : negb _ = true |- _ => apply negb_true_iff in H
    | H : negb _ = false |- _ => apply negb_false_iff in H
    | H : bool_decide _ = true |- _ => apply bool_decide_eq_true in H
    | H : bool_decide _ = false |- _ => apply bool_decide_eq_false in H
    | H : (_ =? _)%Z = true |- _ => apply Z.eqb_eq in H
    | H : (_ =? _)%Z = false |- _ => apply Z.eqb_neq in H
    | H : (_ <? _)%Z = true |- _ => apply Z.ltb_lt in H
    | H : (_ <? _)%Z = false |- _ => apply Z.ltb_ge in H
    | H : (_ <=? _)%Z = true |- _ => apply Z.leb_le in H
    | H : (_ <=? _)%Z = false |- _ => apply Z.leb_gt in H
    | H : (_ >? _)%Z = _ |- _ => rewrite Z.gtb_ltb in H
    | H : (_ >=? _)%Z = _ |- _ => rewrite Z.geb_leb in H
    | H : String.eqb _ _ = true |- _ => apply String.eqb_eq in H
    | H : String.eqb _ _ = false |- _ => apply String.eqb_neq in H
    end.
Ltac crush := repeat (bool_to_prop; simplify_eq/=; try break_hyp); eauto; try done; try lia.

Create HintDb runtime.

(** ** Strings *)
Notation "a =s b" := (String.eqb a b) (at level 70, no associativity) : runtime_scope.

(** Truth value of a Python string or of an optional one: empty and None are
    false. *)
Definition str_true (s : string) : bool := negb (s =s "").
Definition ostr_true (s : option string) : bool :=
  match s with Some s => str_true s | None => false end.
Definition str_or (s d : string) : string := if str_true s then s else d.
Definition ostr_or (s : option string) (d : string) : string :=
  match s with Some s => str_or s d | None => d end.

(** [s.startswith(p)] *)
Fixpoint startswith (p s : string) : bool :=
  match p, s with
  | "", _ => true
  | String a p', String b s' => Ascii.eqb a b && startswith p' s'
  | _, "" => false
  end.

(** [p in s] for strings *)
Fixpoint contains (p s : string) : bool :=
  startswith p s ||
  match s with
  | "" => false
  | String _ s' => contains p s'
  end.

Definition str_in (s : string) (l : list string) : bool := bool_decide (s ∈ l).

Lemma str_in_true s l : str_in s l = true <-> s ∈ l.
Proof. apply bool_decide_eq_true. Qed.
Lemma str_in_false s l : str_in s l = false <-> s ∉ l.
Proof. apply bool_decide_eq_false. Qed.

Lemma string_app_cons x (a b : string) : String x a +:+ b = String x (a +:+ b).
Proof. done. Qed.

Lemma startswith_app p s : startswith p (p +:+ s) = true.
Proof.
  induction p as [|a p IH]; [done|].
  rewrite string_app_cons; simpl. by rewrite Ascii.eqb_refl.
Qed.

Lemma startswith_inv p s : startswith p s = true -> exists t, s = p +:+ t.
Proof.
  revert s; induction p as [|a p IH]; intros s H; [by exists s|].
  destruct s as [|b s]; simpl in H; [done|].
  apply andb_true_iff in H as [->%Ascii.eqb_eq [t ->]%IH]. by exists t.
Qed.

Lemma string_app_assoc (a b c : string) : (a +:+ b) +:+ c = a +:+ (b +:+ c).
Proof.
  induction a as [|x a IH]; [done|]. rewrite !string_app_cons. by f_equal.
Qed.

Lemma string_app_inj_l p s t : p +:+ s = p +:+ t -> s = t.
Proof. apply (inj (String.append p)). Qed.

Lemma string_length_app (a b : string) :
  String.length (a +:+ b) = String.length a + String.length b.
Proof.
  induction a as [|x a IH]; [done|]. rewrite string_app_cons. simpl. by rewrite IH.
Qed.

Lemma string_app_nil_r (a : string) : a +:+ "" = a.
Proof. induction a as [|x a IH]; [done|]. rewrite string_app_cons. by f_equal. Qed.

(** ** Lists *)
Lemma filter_nil_iff {A} (P : A -> Prop) `{!forall x, Decision (P x)} (l : list A) :
  filter P l = [] <-> Forall (fun x => ~ P x) l.
Proof.
  induction l as [|x l IH]; [done|].
  rewrite filter_cons. case_decide; split; intros E; try done.
  - by inv E.
  - constructor; [done|]. by apply IH.
  - inv E. by apply IH.
Qed.

Lemma last_filter_elem {A} (P : A -> Prop) `{!forall x, Decision (P x)} (l : list A) x :
  last (filter P l) = Some x -> x ∈ l /\ P x.
Proof.
  intros [l' E]%last_Some.
  assert (x ∈ filter P l) as Hx by (rewrite E; set_solver).
  by apply list_elem_of_filter in Hx as [? ?].
Qed.

Lemma head_elem {A} (l : list A) x : head l = Some x -> x ∈ l.
Proof. destruct l; intros H; inv H; by left. Qed.

Lemma last_elem {A} (l : list A) x : last l = Some x -> x ∈ l.
Proof. intros [l' ->]%last_Some. set_solver. Qed.

#[export] Hint Resolve startswith_app head_elem last_elem : runtime.
