(* ===== verification/Dict.v ===== *)
(** * Insertion-ordered dictionaries

    A Python [dict] keeps its keys in insertion order, and the runtime relies on
    it ([list(d.values())], [records[-1]], first candidate of a scan), so the
    model is an association list with distinct keys: assignment replaces in
    place or appends, deletion removes, iteration goes front to back. *)
From S2P Require Import Prelude.

Abbreviation dict K V := (list (K * V)) (only parsing).

Section Dict.
Context {K V : Type} `{!EqDecision K}.
Implicit Types (d : list (K * V)) (k : K) (v : V).

(** [d.get(k)] *)
Fixpoint dget (k : K) (d : list (K * V)) : option V :=
  match d with
  | [] => None
  | (k', v) :: d' => if decide (k = k') then Some v else dget k d'
  end.

(** [d[k] = v] *)
Fixpoint dset (k : K) (v : V) (d : list (K * V)) : list (K * V) :=
  match d with
  | [] => [(k, v)]
  | (k', v') :: d' =>
      if decide (k = k') then (k', v) :: d' else (k', v') :: dset k v d'
  end.

(** [d.pop(k, None)], [del d[k]] *)
Fixpoint ddel (k : K) (d : list (K * V)) : list (K * V) :=
  match d with
  | [] => []
  | (k', v') :: d' => if decide (k = k') then d' else (k', v') :: ddel k d'
  end.

Definition dkeys (d : list (K * V)) : list K := d.*1.
Definition dvalues (d : list (K * V)) : list V := d.*2.
(** [k in d] *)
Definition dmem (k : K) (d : list (K * V)) : bool :=
  match dget k d with Some _ => true | None => false end.

(** The well-formedness of a dictionary: its keys are distinct. *)
Definition dict_wf (d : list (K * V)) : Prop := NoDup (dkeys d).

Lemma dget_dset_same k v d : dget k (dset k v d) = Some v.
Proof.
  induction d as [|[k' v'] d IH]; simpl; [by rewrite decide_True|].
  case_decide; simpl; [by rewrite decide_True|by rewrite decide_False].
Qed.

Lemma dget_dset_other k k' v d : k <> k' -> dget k' (dset k v d) = dget k' d.
Proof.
  intros Hne. induction d as [|[k0 v0] d IH]; simpl.
  - by rewrite decide_False.
  - repeat (case_decide; simpl); subst; congruence.
Qed.

Lemma dget_dset k k' v d :
  dget k' (dset k v d) = if decide (k = k') then Some v else dget k' d.
Proof.
  case_decide; subst; [apply dget_dset_same|by apply dget_dset_other].
Qed.

Lemma dget_elem k v d : dget k d = Some v -> (k, v) ∈ d.
Proof.
  induction d as [|[k' v'] d IH]; simpl; [done|].
  case_decide; intros ?; simplify_eq; [by left|right; auto].
Qed.

Lemma dget_None k d : dget k d = None <-> k ∉ dkeys d.
Proof.
  unfold dkeys. induction d as [|[k' v'] d IH]; simpl.
  - split; [intros _; apply not_elem_of_nil|done].
  - case_decide; subst.
    + split; [done|]. intros []. by left.
    + rewrite IH, not_elem_of_cons. tauto.
Qed.

Lemma dget_key k v d : dget k d = Some v -> k ∈ dkeys d.
Proof. intros ?%dget_elem. unfold dkeys. by apply (list_elem_of_fmap_2' fst _ (k, v)). Qed.

Lemma dget_wf_elem k v d : dict_wf d -> (k, v) ∈ d -> dget k d = Some v.
Proof.
  unfold dict_wf, dkeys. induction d as [|[k' v'] d IH]; simpl.
  - by intros _ ?%not_elem_of_nil.
  - intros [Hn Hd]%NoDup_cons [?|Hin]%elem_of_cons; simplify_eq.
    + by rewrite decide_True.
    + rewrite decide_False; [auto|]. intros ->. apply Hn.
      by apply (list_elem_of_fmap_2' fst _ (k', v)).
Qed.

Lemma dkeys_dset k v d :
  dkeys (dset k v d) = if dmem k d then dkeys d else dkeys d ++ [k].
Proof.
  unfold dmem, dkeys. induction d as [|[k' v'] d IH]; csimpl; [done|].
  case_decide; csimpl; [done|]. rewrite IH. by case_match.
Qed.

Lemma dset_wf k v d : dict_wf d -> dict_wf (dset k v d).
Proof.
  unfold dict_wf. rewrite dkeys_dset. unfold dmem.
  destruct (dget k d) eqn:E; [done|]. intros Hd.
  apply NoDup_app; split_and!; [done| |apply NoDup_singleton].
  intros x Hx ->%list_elem_of_singleton. by apply dget_None in E.
Qed.

Lemma ddel_subseteq k d : dkeys (ddel k d) ⊆ dkeys d.
Proof.
  unfold dkeys. induction d as [|[k' v'] d IH]; simpl; [done|].
  case_decide; simpl; set_solver.
Qed.

Lemma ddel_wf k d : dict_wf d -> dict_wf (ddel k d).
Proof.
  unfold dict_wf. induction d as [|[k' v'] d IH]; simpl; [done|].
  intros [Hn Hd]%NoDup_cons. case_decide; simpl; [done|].
  apply NoDup_cons; split; [|auto]. intros Hin. by apply Hn, (ddel_subseteq k).
Qed.

Lemma dget_ddel_same k d : dict_wf d -> dget k (ddel k d) = None.
Proof.
  unfold dict_wf. induction d as [|[k' v'] d IH]; simpl; [done|].
  intros [Hn Hd]%NoDup_cons. case_decide; subst; simpl.
  - by apply dget_None.
  - rewrite decide_False by done. auto.
Qed.

Lemma dget_ddel_other k k' d : k <> k' -> dget k' (ddel k d) = dget k' d.
Proof.
  intros Hne. induction d as [|[k0 v0] d IH]; simpl; [done|].
  repeat (case_decide; simpl); subst; congruence.
Qed.

Lemma dmem_true k d : dmem k d = true <-> k ∈ dkeys d.
Proof.
  unfold dmem. destruct (dget k d) eqn:E.
  - split; [intros _; by eapply dget_key|done].
  - apply dget_None in E. split; done.
Qed.

Lemma dmem_false k d : dmem k d = false <-> dget k d = None.
Proof. unfold dmem. by case_match. Qed.

Lemma dget_Forall (P : V -> Prop) k v d :
  Forall P (dvalues d) -> dget k d = Some v -> P v.
Proof.
  intros HF Hg%dget_elem. rewrite Forall_forall in HF. apply HF.
  by apply (list_elem_of_fmap_2' snd _ (k, v)).
Qed.

Lemma dset_Forall (P : V -> Prop) k v d :
  Forall P (dvalues d) -> P v -> Forall P (dvalues (dset k v d)).
Proof.
  unfold dvalues. induction d as [|[k' v'] d IH]; simpl; intros HF Hv.
  - by constructor.
  - inv HF. case_decide; simpl; constructor; auto.
Qed.

Lemma ddel_Forall (P : V -> Prop) k d :
  Forall P (dvalues d) -> Forall P (dvalues (ddel k d)).
Proof.
  unfold dvalues. induction d as [|[k' v'] d IH]; simpl; intros HF; [done|].
  inv HF. case_decide; simpl; [done|constructor; auto].
Qed.

Lemma dset_length_fresh k v d :
  dget k d = None -> length (dset k v d) = S (length d).
Proof.
  induction d as [|[k' v'] d IH]; simpl; [done|].
  case_decide; simpl; [done|]. intros; f_equal; auto.
Qed.

Lemma dset_fresh k v d : k ∉ dkeys d -> dset k v d = d ++ [(k, v)].
Proof.
  unfold dkeys. induction d as [|[k' v'] d IH]; csimpl; [done|].
  intros [Hne Hn]%not_elem_of_cons. rewrite decide_False by done. f_equal. auto.
Qed.

(** Rebuilding a dictionary item by item gives it back. *)
Lemma rebuild_pairs d acc :
  dict_wf (acc ++ d) -> foldl (fun a kv => dset kv.1 kv.2 a) acc d = acc ++ d.
Proof.
  revert acc. induction d as [|[k v] d IH]; intros acc Hw; simpl; [by rewrite app_nil_r|].
  rewrite dset_fresh.
  - rewrite IH; by rewrite <-app_assoc.
  - unfold dict_wf, dkeys in *. rewrite fmap_app in Hw.
    apply NoDup_app in Hw as (_ & Hd & _). intros Hk. apply (Hd k Hk). by left.
Qed.

Lemma rebuild_values (f : V -> K) d acc :
  Forall (fun kv => f kv.2 = kv.1) d ->
  foldl (fun a x => dset (f x) x a) acc (dvalues d)
  = foldl (fun a kv => dset kv.1 kv.2 a) acc d.
Proof.
  intros Hf. revert acc. unfold dvalues.
  induction Hf as [|[k v] d E Hf IH]; intros acc; csimpl in *; [done|]. by rewrite IH, E.
Qed.
End Dict.

(** Membership after an update, text keys. *)
Lemma dmem_dset {V} j k (v : V) (d : dict string V) : dmem j (dset k v d) = (j =s k) || dmem j d.
Proof.
  destruct (String.eqb_spec j k) as [->|Hne]; simpl.
  - apply not_false_iff_true. intros H%dmem_false. by rewrite dget_dset_same in H.
  - destruct (dmem j d) eqn:E.
    + apply not_false_iff_true. intros H%dmem_false. rewrite dget_dset_other in H by done.
      apply dmem_false in H. congruence.
    + apply dmem_false. rewrite dget_dset_other by done. by apply dmem_false.
Qed.
Lemma dmem_ddel {V} j k (d : dict string V) :
  dict_wf d -> dmem j (ddel k d) = negb (j =s k) && dmem j d.
Proof.
  intros Hd. destruct (String.eqb_spec j k) as [->|Hne]; simpl.
  - apply dmem_false. by apply dget_ddel_same.
  - destruct (dmem j d) eqn:E.
    + apply not_false_iff_true. intros H%dmem_false. rewrite dget_ddel_other in H by done.
      apply dmem_false in H. congruence.
    + apply dmem_false. rewrite dget_ddel_other by done. by apply dmem_false.
Qed.

#[export] Hint Resolve dset_wf ddel_wf dget_dset_same : runtime.
