(* ===== verification/PyVal.v ===== *)
(** * Python values

    The JSON-like values the runtime stores and passes around ([Dict[str, Any]]
    inputs, results, telemetry payloads) and binary64 floats with their
    comparisons. *)
From Stdlib Require Export Floats.SpecFloat.
From stdpp Require Export pretty.
From S2P Require Import Prelude Dict.

(** ** Floats

    A Python float is a binary64 number: [SpecFloat] at precision 53 and
    maximal exponent 1024.  [flit n d] is the correctly rounded quotient n/d,
    which for the literals of the code (0.85 is [flit 85 100]) is the float
    the literal denotes, since n and d are exact. *)
Definition pyfloat := spec_float.
Definition f_of_Z (z : Z) : pyfloat := binary_normalize 53 1024 z 0 false.
Definition fadd : pyfloat -> pyfloat -> pyfloat := SFadd 53 1024.
Definition fsub : pyfloat -> pyfloat -> pyfloat := SFsub 53 1024.
Definition fmul : pyfloat -> pyfloat -> pyfloat := SFmul 53 1024.
Definition fdiv : pyfloat -> pyfloat -> pyfloat := SFdiv 53 1024.
Definition flit (n d : Z) : pyfloat := fdiv (f_of_Z n) (f_of_Z d).
Definition flt (a b : pyfloat) : bool := SFltb a b.
Definition fle (a b : pyfloat) : bool := SFleb a b.
Definition fgt (a b : pyfloat) : bool := SFltb b a.
Definition fge (a b : pyfloat) : bool := SFleb b a.

(** [int(f)] on a finite float: truncation toward zero. *)
Definition f_trunc (f : pyfloat) : Z :=
  match f with
  | S754_finite s m e =>
      let a := (if e >=? 0 then Z.pos m * 2 ^ e else Z.pos m / 2 ^ (- e))%Z in
      if s then (- a)%Z else a
  | _ => 0
  end.

#[export] Instance spec_float_eq_dec : EqDecision spec_float.
Proof. solve_decision. Defined.

(** What the interpreter does with floats that the model leaves open: their
    text ([repr]) and the built-in [sum], whose rounding depends on the
    version. *)
Class FloatOps := { float_repr : pyfloat -> string; float_sum : list pyfloat -> pyfloat }.

(** ** Values *)
Inductive pyval :=
  | VNone
  | VBool (b : bool)
  | VInt (z : Z)
  | VFloat (f : pyfloat)
  | VStr (s : string)
  | VList (l : list pyval)
  | VDict (d : dict string pyval).

(** [bool(v)] *)
Definition truthy (v : pyval) : bool :=
  match v with
  | VNone => false
  | VBool b => b
  | VInt z => negb (z =? 0)%Z
  | VFloat (S754_zero _) => false
  | VFloat _ => true
  | VStr s => str_true s
  | VList l => match l with [] => false | _ => true end
  | VDict d => match d with [] => false | _ => true end
  end.

(** [type(v).__name__] *)
Definition pytype_name (v : pyval) : string :=
  match v with
  | VNone => "NoneType" | VBool _ => "bool" | VInt _ => "int" | VFloat _ => "float"
  | VStr _ => "str" | VList _ => "list" | VDict _ => "dict"
  end.

(** [d.get(k)] with the default None *)
Definition vget (k : string) (d : dict string pyval) : pyval :=
  default VNone (dget k d).
(** [d.get(k, v)] *)
Definition vget_or (k : string) (v : pyval) (d : dict string pyval) : pyval :=
  default v (dget k d).

(** [v.get(k, w)] and [v["k"]] on any value *)
Definition py_get (k : string) (w v : pyval) : result pyval :=
  match v with
  | VDict d => Ok (vget_or k w d)
  | _ => raise AttributeError ("'" +:+ pytype_name v +:+ "' object has no attribute 'get'")
  end.
Definition py_item (k : string) (v : pyval) : result pyval :=
  match v with
  | VDict d =>
      match dget k d with Some x => Ok x | None => raise KeyError ("'" +:+ k +:+ "'") end
  | VList _ => raise TypeError "list indices must be integers or slices, not str"
  | VStr _ => raise TypeError "string indices must be integers, not 'str'"
  | _ => raise TypeError ("'" +:+ pytype_name v +:+ "' object is not subscriptable")
  end.

(** [v == s] for a text *)
Definition is_text (s : string) (v : pyval) : bool :=
  match v with VStr t => s =s t | _ => false end.
Lemma is_text_true s v : is_text s v = true -> v = VStr s.
Proof. destruct v; try discriminate. simpl. intros ->%String.eqb_eq. done. Qed.
(** [s in l] *)
Definition has_text (s : string) (l : list pyval) : bool := existsb (is_text s) l.
(** [k in v] *)
Definition py_contains (k : string) (v : pyval) : result bool :=
  match v with
  | VList l => Ok (has_text k l)
  | VDict d => Ok (dmem k d)
  | VStr s => Ok (contains k s)
  | _ => raise TypeError ("argument of type '" +:+ pytype_name v +:+ "' is not iterable")
  end.

Definition is_str (v : pyval) : bool := match v with VStr _ => true | _ => false end.
Definition is_dict (v : pyval) : bool := match v with VDict _ => true | _ => false end.
Definition is_list (v : pyval) : bool := match v with VList _ => true | _ => false end.

(** Induction on values that goes through the nested lists. *)
Section pyval_ind.
Context (P : pyval -> Prop).
Context (HNone : P VNone) (HBool : forall b, P (VBool b)) (HInt : forall z, P (VInt z))
  (HFloat : forall f, P (VFloat f)) (HStr : forall s, P (VStr s))
  (HList : forall l, Forall P l -> P (VList l))
  (HDict : forall d, Forall (fun kv => P kv.2) d -> P (VDict d)).
Fixpoint pyval_nested_ind (v : pyval) : P v :=
  match v with
  | VNone => HNone
  | VBool b => HBool b
  | VInt z => HInt z
  | VFloat f => HFloat f
  | VStr s => HStr s
  | VList l =>
      HList l ((fix go (l : list pyval) : Forall P l :=
        match l with
        | [] => Forall_nil_2 P
        | v :: l' => Forall_cons_2 P v l' (pyval_nested_ind v) (go l')
        end) l)
  | VDict d =>
      HDict d ((fix go (d : dict string pyval) : Forall (fun kv => P kv.2) d :=
        match d with
        | [] => Forall_nil_2 _
        | kv :: d' => Forall_cons_2 _ kv d' (pyval_nested_ind kv.2) (go d')
        end) d)
  end.
End pyval_ind.

(** [str(z)] for an integer *)
Definition zstr (z : Z) : string := pretty z.
