(* ===== verification/Effects.v ===== *)
(** * Stateful code that raises

    A method that mutates objects and may raise is a function from the state
    to the new state and a result: the state reached is kept when an exception
    is raised, as in Python. *)
From S2P Require Import Prelude.

Definition M (S A : Type) : Type := S -> S * result A.

#[export] Instance M_ret S : MRet (M S) := fun A a s => (s, Ok a).
#[export] Instance M_bind S : MBind (M S) := fun A B f m s =>
  match m s with
  | (s', Ok a) => f a s'
  | (s', Raise e) => (s', Raise e)
  end.

Definition throw {S A} (c : exn_class) (msg : string) : M S A := fun s => (s, raise c msg).
Definition rethrow {S A} (e : exn) : M S A := fun s => (s, Raise e).
Definition gets {S A} (f : S -> A) : M S A := fun s => (s, Ok (f s)).
Definition modify {S} (f : S -> S) : M S unit := fun s => (f s, Ok tt).
Definition when {S} (b : bool) (m : M S unit) : M S unit := if b then m else mret tt.
Definition of_result {S A} (r : result A) : M S A := fun s => (s, r).

(** [try: m  except e: h(e)]; the handler decides on the class of [e]. *)
Definition try_with {S A} (m : M S A) (h : exn -> M S A) : M S A := fun s =>
  match m s with
  | (s', Ok a) => (s', Ok a)
  | (s', Raise e) => h e s'
  end.
(** [except Exception as e: h(e)]: it does not catch [Unmodelled]. *)
Definition except_all {S A} (m : M S A) (h : exn -> M S A) : M S A :=
  try_with m (fun e => match exn_type e with Unmodelled => rethrow e | _ => h e end).
Definition rescue {A} (r : result A) (h : exn -> result A) : result A :=
  match r with
  | Raise (Exn Unmodelled _) | Ok _ => r
  | Raise e => h e
  end.
(** [try: m  finally: f]: an exception of [f] replaces the one of [m]. *)
Definition try_finally {S A} (m : M S A) (f : M S unit) : M S A := fun s =>
  let '(s1, r) := m s in
  let '(s2, rf) := f s1 in
  match rf with Ok _ => (s2, r) | Raise e => (s2, Raise e) end.

(** Run a computation on a part of the state. *)
Definition zoom {S T A} (get : S -> T) (put : T -> S -> S) (m : M T A) : M S A :=
  fun s => let '(t, r) := m (get s) in (put t s, r).

(** A loop over the elements of a list. *)
Fixpoint for_each {S A} (l : list A) (f : A -> M S unit) : M S unit :=
  match l with
  | [] => mret tt
  | a :: l' => f a ;; for_each l' f
  end.

(** ** Reasoning

    [wp m s Q]: running [m] in [s] ends in a state and a result that satisfy
    [Q].  Every computation here terminates, so a precondition and [wp] state
    total correctness. *)
Definition wp {S A} (m : M S A) (s : S) (Q : S -> result A -> Prop) : Prop :=
  let '(s', r) := m s in Q s' r.

Section wp.
Context {S : Type}.

Lemma wp_mono {A} (m : M S A) s (Q Q' : S -> result A -> Prop) :
  wp m s Q -> (forall s' r, Q s' r -> Q' s' r) -> wp m s Q'.
Proof. unfold wp. destruct (m s). auto. Qed.

(** What the condition says of the outcome. *)
Lemma wp_elim {A} (m : M S A) s (Q : S -> result A -> Prop) :
  wp m s Q -> exists s' r, m s = (s', r) /\ Q s' r.
Proof. unfold wp. destruct (m s) as [s' r]. intros H. by exists s', r. Qed.
Lemma wp_any {A} (m : M S A) s (Q : S -> result A -> Prop) : (forall s' r, Q s' r) -> wp m s Q.
Proof. unfold wp. destruct (m s). auto. Qed.

Lemma wp_and {A} (m : M S A) s (Q Q' : S -> result A -> Prop) :
  wp m s Q -> wp m s Q' -> wp m s (fun s' r => Q s' r /\ Q' s' r).
Proof. unfold wp. destruct (m s). auto. Qed.

Lemma wp_ret {A} (a : A) s Q : Q s (Ok a) -> wp (mret a : M S A) s Q.
Proof. done. Qed.

Lemma wp_bind {A B} (m : M S A) (f : A -> M S B) s Q :
  wp m s (fun s' r => match r with
                      | Ok a => wp (f a) s' Q
                      | Raise e => Q s' (Raise e)
                      end) ->
  wp (m ≫= f) s Q.
Proof. unfold wp, mbind, M_bind. destruct (m s) as [s' [a|e]]; done. Qed.

Lemma wp_bind_inv {A B} (m : M S A) (f : A -> M S B) s Q :
  wp (m ≫= f) s Q ->
  wp m s (fun s' r => match r with
                      | Ok a => wp (f a) s' Q
                      | Raise e => Q s' (Raise e)
                      end).
Proof. unfold wp, mbind, M_bind. destruct (m s) as [s' [a|e]]; done. Qed.

Lemma wp_throw {A} c msg s (Q : S -> result A -> Prop) :
  Q s (Raise (Exn c msg)) -> wp (throw c msg) s Q.
Proof. done. Qed.

Lemma wp_gets {A} (f : S -> A) s Q : Q s (Ok (f s)) -> wp (gets f) s Q.
Proof. done. Qed.

Lemma wp_modify (f : S -> S) s Q : Q (f s) (Ok tt) -> wp (modify f) s Q.
Proof. done. Qed.

Lemma wp_of_result {A} (r : result A) s Q : Q s r -> wp (of_result r : M S A) s Q.
Proof. done. Qed.

Lemma wp_when b (m : M S unit) s Q :
  (b = true -> wp m s Q) -> (b = false -> Q s (Ok tt)) -> wp (when b m) s Q.
Proof. destruct b; intros H1 H2; [by apply H1|by apply H2]. Qed.

Lemma wp_try_with {A} (m : M S A) h s Q :
  wp m s (fun s' r => match r with
                      | Ok a => Q s' (Ok a)
                      | Raise e => wp (h e) s' Q
                      end) ->
  wp (try_with m h) s Q.
Proof. unfold wp, try_with. destruct (m s) as [s' [a|e]]; done. Qed.

Lemma wp_try_finally {A} (m : M S A) f s (Q : S -> result A -> Prop) :
  wp m s (fun s1 r => wp f s1 (fun s2 rf =>
    match rf with Ok _ => Q s2 r | Raise e => Q s2 (Raise e) end)) ->
  wp (try_finally m f) s Q.
Proof.
  unfold wp, try_finally. destruct (m s) as [s1 r], (f s1) as [s2 [[]|e]]; done.
Qed.

Lemma wp_zoom {T A} (get : S -> T) put (m : M T A) s Q :
  wp m (get s) (fun t r => Q (put t s) r) -> wp (zoom get put m) s Q.
Proof. unfold wp, zoom. by destruct (m (get s)). Qed.

(** What a computation never changes. *)
Definition preserves {A} (P : S -> Prop) (m : M S A) : Prop :=
  forall s, P s -> wp m s (fun s' _ => P s').

Lemma preserves_for_each {A} (P : S -> Prop) (f : A -> M S unit) l :
  (forall a, preserves P (f a)) -> preserves P (for_each l f).
Proof.
  intros Hf. induction l as [|a l IH]; intros s Hs; [done|].
  apply wp_bind. eapply wp_mono; [by apply Hf|]. intros s' [[]|e] Hs'; auto.
Qed.

Lemma preserves_ret {A} P (a : A) : preserves P (mret a : M S A).
Proof. by intros s Hs. Qed.
Lemma preserves_throw {A} P c msg : preserves P (throw c msg : M S A).
Proof. by intros s Hs. Qed.
Lemma preserves_rethrow {A} P e : preserves P (rethrow e : M S A).
Proof. by intros s Hs. Qed.
Lemma preserves_gets {A} P (f : S -> A) : preserves P (gets f).
Proof. by intros s Hs. Qed.
Lemma preserves_of_result {A} P (r : result A) : preserves P (of_result r : M S A).
Proof. by intros s Hs. Qed.
Lemma preserves_modify (P : S -> Prop) f : (forall s, P s -> P (f s)) -> preserves P (modify f).
Proof. intros H s Hs. by apply H. Qed.
Lemma preserves_bind {A B} P (m : M S A) (f : A -> M S B) :
  preserves P m -> (forall a, preserves P (f a)) -> preserves P (m ≫= f).
Proof.
  intros Hm Hf s Hs. apply wp_bind. eapply wp_mono; [by apply Hm|].
  intros s' [a|e] Hs'; [by apply Hf|done].
Qed.
Lemma preserves_when P b (m : M S unit) : preserves P m -> preserves P (when b m).
Proof. intros Hm. destruct b; [done|by intros s Hs]. Qed.
Lemma preserves_try_with {A} P (m : M S A) h :
  preserves P m -> (forall e, preserves P (h e)) -> preserves P (try_with m h).
Proof.
  intros Hm Hh s Hs. apply wp_try_with. eapply wp_mono; [by apply Hm|].
  intros s' [a|e] Hs'; [done|by apply Hh].
Qed.
Lemma preserves_except_all {A} P (m : M S A) h :
  preserves P m -> (forall e, preserves P (h e)) -> preserves P (except_all m h).
Proof.
  intros Hm Hh. apply preserves_try_with; [done|].
  intros e. destruct (exn_type e); (apply Hh || apply preserves_rethrow).
Qed.
Lemma preserves_try_finally {A} (P : S -> Prop) (m : M S A) f :
  preserves P m -> preserves P f -> preserves P (try_finally m f).
Proof.
  intros Hm Hf s Hs. apply wp_try_finally. eapply wp_mono; [by apply Hm|]. intros s1 r H1.
  eapply wp_mono; [by apply Hf|]. by intros s2 [[]|e].
Qed.
Lemma preserves_state {A} (P : S -> Prop) (m : M S A) s : preserves P m -> P s -> P (m s).1.
Proof. intros Hm Hs. specialize (Hm s Hs). unfold wp in Hm. by destruct (m s). Qed.
(** A sequence of calls, each from the state the one before it left. *)
Lemma preserves_calls {C A} (P : S -> Prop) (f : C -> M S A) l s :
  (forall x, preserves P (f x)) -> P s -> P (foldl (fun s x => (f x s).1) s l).
Proof.
  intros Hf. revert s. induction l as [|x l IH]; intros s Hs; [done|].
  apply IH. by apply preserves_state.
Qed.
End wp.
Create HintDb keeps.
#[export] Hint Resolve preserves_ret preserves_throw preserves_rethrow preserves_gets
  preserves_of_result preserves_bind preserves_when preserves_try_with preserves_except_all
  preserves_try_finally
  preserves_for_each : keeps.
#[export] Hint Extern 1 (forall _, preserves _ _) => intros : keeps.
#[export] Hint Extern 5 (preserves _ (match ?x with _ => _ end)) => destruct x : keeps.

(** Symbolic execution: one step of the program in the goal. *)
Ltac wp_step :=
  lazymatch goal with
  | |- wp (mbind _ _) _ _ => apply wp_bind
  | |- wp (mret _) _ _ => apply wp_ret
  | |- wp (throw _ _) _ _ => apply wp_throw
  | |- wp (gets _) _ _ => apply wp_gets
  | |- wp (modify _) _ _ => apply wp_modify
  | |- wp (of_result _) _ _ => apply wp_of_result
  | |- wp (when _ _) _ _ => apply wp_when; intros
  | |- wp (try_with _ _) _ _ => apply wp_try_with
  | |- wp (try_finally _ _) _ _ => apply wp_try_finally
  | |- wp (zoom _ _ _) _ _ => apply wp_zoom
  | |- wp (match ?x with _ => _ end) _ _ =>
      let E := fresh "E" in destruct x eqn:E
  | |- wp (fun _ => _) _ _ => unfold wp at 1
  end; cbv beta; cbn [setter].
Ltac wp_go := repeat wp_step.
