(* ===== verification/PyPath.v ===== *)
(** * POSIX paths

    [os.path] as the runtime uses it: [normpath], [abspath], [join],
    [basename], on strings.  Paths are compared as strings after [abspath]. *)
From S2P Require Import Prelude.

Definition slash : Ascii.ascii := "/"%char.

(** [s.split("/")] *)
Fixpoint split_slash (s : string) : list string :=
  match s with
  | "" => [""]
  | String c s' =>
      if Ascii.eqb c slash then "" :: split_slash s'
      else match split_slash s' with
           | [] => [String c ""]
           | w :: ws => String c w :: ws
           end
  end.

(** ["/".join(ws)] *)
Fixpoint join_slash (ws : list string) : string :=
  match ws with
  | [] => ""
  | [w] => w
  | w :: ws' => w +:+ "/" +:+ join_slash ws'
  end.

(** The component loop of [posixpath.normpath]; [acc] is the list of new
    components, last one first. *)
Fixpoint norm_components (absolute : bool) (ws acc : list string) : list string :=
  match ws with
  | [] => rev acc
  | w :: ws' =>
      if (w =s "") || (w =s ".") then norm_components absolute ws' acc
      else if negb (w =s "..")
              || (negb absolute && match acc with [] => true | _ => false end)
              || match acc with a :: _ => a =s ".." | [] => false end
      then norm_components absolute ws' (w :: acc)
      else match acc with
           | [] => norm_components absolute ws' []
           | _ :: acc' => norm_components absolute ws' acc'
           end
  end.

(** The leading slashes kept: one, except that exactly two are kept as two. *)
Definition initial_slashes (p : string) : string :=
  if startswith "/" p then
    if startswith "//" p && negb (startswith "///" p) then "//" else "/"
  else "".

Definition normpath (p : string) : string :=
  if p =s "" then "."
  else
    let init := initial_slashes p in
    let q := init +:+ join_slash (norm_components (str_true init) (split_slash p) []) in
    if q =s "" then "." else q.

Definition endswith_slash (p : string) : bool :=
  match last (String.list_ascii_of_string p) with
  | Some c => Ascii.eqb c slash
  | None => false
  end.

(** [os.path.join(a, b)] *)
Definition path_join (a b : string) : string :=
  if startswith "/" b then b
  else if (a =s "") || endswith_slash a then a +:+ b
  else a +:+ "/" +:+ b.

(** [os.path.abspath(p)] in the working directory [cwd] *)
Definition abspath (cwd p : string) : string :=
  normpath (if startswith "/" p then p else path_join cwd p).

(** [os.path.basename(p)]: what follows the last slash *)
Definition basename (p : string) : string := default "" (last (split_slash p)).

(** [p] lies strictly below the directory [d]: the check
    [p.startswith(d + os.sep)]. *)
Definition below (d p : string) : bool := startswith (d +:+ "/") p.

Definition no_slash (w : string) : bool := negb (contains "/" w).

(** A component that names an entry of a directory. *)
Definition proper (w : string) : Prop :=
  w <> "" /\ w <> "." /\ w <> ".." /\ no_slash w = true.

Lemma no_slash_cons c w : no_slash (String c w) = negb (Ascii.eqb c slash) && no_slash w.
Proof.
  unfold no_slash. cbn [contains startswith]. fold slash.
  rewrite (Ascii.eqb_sym slash c), andb_true_r. apply negb_orb.
Qed.

Lemma split_slash_no_slash s : Forall (fun w => no_slash w = true) (split_slash s).
Proof.
  induction s as [|c s IH]; simpl; [by constructor|].
  destruct (Ascii.eqb c slash) eqn:E; [by constructor|].
  destruct (split_slash s) as [|w ws]; [|inv IH]; constructor;
    rewrite ?no_slash_cons, ?E; auto.
Qed.

Lemma norm_components_proper ws acc :
  Forall (fun w => no_slash w = true) ws -> Forall proper acc ->
  Forall proper (norm_components true ws acc).
Proof.
  revert acc; induction ws as [|w ws IH]; intros acc Hws Hacc; simpl.
  { by apply List.Forall_rev. }
  inv Hws. destruct (w =s "") eqn:E1, (w =s ".") eqn:E2; simpl; auto.
  destruct (w =s "..") eqn:E3; simpl.
  - destruct acc as [|a acc]; [auto|]. inv Hacc.
    destruct (a =s "..") eqn:E4; [|auto].
    apply String.eqb_eq in E4; subst. by destruct H3 as (?&?&?&?).
  - apply IH; [done|]. constructor; [|done]. bool_to_prop. by repeat split.
Qed.

Lemma split_slash_app w s : no_slash w = true ->
  split_slash (w +:+ "/" +:+ s) = w :: split_slash s.
Proof.
  induction w as [|c w IH]; intros Hw; [done|].
  rewrite no_slash_cons in Hw. bool_to_prop.
  rewrite string_app_cons. simpl. by rewrite H, IH.
Qed.

Lemma split_slash_word w : no_slash w = true -> split_slash w = [w].
Proof.
  induction w as [|c w IH]; intros Hw; [done|].
  rewrite no_slash_cons in Hw. bool_to_prop. simpl. by rewrite H, IH.
Qed.

(** [split] undoes [join] on components without a slash. *)
Lemma split_join ws : ws <> [] -> Forall (fun w => no_slash w = true) ws ->
  split_slash (join_slash ws) = ws.
Proof.
  induction ws as [|w ws IH]; intros Hne Hws; [done|]. inv Hws.
  destruct ws as [|w' ws]; [by apply split_slash_word|].
  change (join_slash (w :: w' :: ws)) with (w +:+ "/" +:+ join_slash (w' :: ws)).
  by rewrite split_slash_app, IH.
Qed.

Lemma split_slash_abs s : split_slash ("/" +:+ s) = "" :: split_slash s.
Proof. done. Qed.

Lemma filter_proper ws : Forall proper ws -> filter (fun w => w <> "") ws = ws.
Proof.
  induction 1 as [|w ws (?&?&?&?) _ IH]; [done|]. by rewrite filter_cons_True, IH.
Qed.

(** The shape of [abspath]: the root and proper components, so no component
    is ["."] or [".."]. *)
Lemma abspath_shape cwd p : startswith "/" cwd = true ->
  exists ws init, Forall proper ws /\ (init = "/" \/ init = "//") /\
    abspath cwd p = init +:+ join_slash ws.
Proof.
  intros Hcwd. unfold abspath.
  assert (exists q, (if startswith "/" p then p else path_join cwd p) = String slash q)
    as [q ->].
  { destruct (startswith "/" p) eqn:E.
    - apply startswith_inv in E as [t ->]. by eexists.
    - apply startswith_inv in Hcwd as [t ->]. unfold path_join. rewrite E.
      case_match; by eexists. }
  unfold normpath. set (w := String slash q).
  exists (norm_components true (split_slash w) []), (initial_slashes w).
  assert (initial_slashes w = "/" \/ initial_slashes w = "//") as Hi.
  { unfold initial_slashes. replace (startswith "/" w) with true by done.
    destruct (startswith "//" w && _); auto. }
  split; [|split; [done|]].
  { apply norm_components_proper; [apply split_slash_no_slash|constructor]. }
  replace (w =s "") with false by done.
  by destruct Hi as [-> | ->].
Qed.

Lemma below_trans a b c : below a b = true -> below b c = true -> below a c = true.
Proof.
  unfold below. intros [x ->]%startswith_inv [y ->]%startswith_inv.
  rewrite !string_app_assoc. rewrite <-(string_app_assoc a "/"). apply startswith_app.
Qed.

Lemma join_snoc ws n : ws <> [] ->
  join_slash (ws ++ [n]) = join_slash ws +:+ "/" +:+ n.
Proof.
  induction ws as [|w ws IH]; intros Hne; [done|].
  destruct ws as [|w' ws]; [done|].
  change (join_slash ((w :: w' :: ws) ++ [n]))
    with (w +:+ "/" +:+ join_slash ((w' :: ws) ++ [n])).
  change (join_slash (w :: w' :: ws)) with (w +:+ "/" +:+ join_slash (w' :: ws)).
  by rewrite IH, !string_app_assoc.
Qed.

Lemma endswith_slash_app a b : b <> "" -> endswith_slash (a +:+ b) = endswith_slash b.
Proof.
  intros Hb. induction a as [|c a IH]; [done|]. rewrite string_app_cons.
  rewrite <-IH. unfold endswith_slash. simpl.
  destruct (String.list_ascii_of_string (a +:+ b)) eqn:E; [|done].
  destruct a; [destruct b; done|done].
Qed.

Lemma endswith_slash_word w : no_slash w = true -> endswith_slash w = false.
Proof.
  induction w as [|c w IH]; intros Hw; [done|].
  rewrite no_slash_cons in Hw. apply andb_true_iff in Hw as [Hc Hw].
  specialize (IH Hw). unfold endswith_slash in *. simpl.
  destruct (String.list_ascii_of_string w) eqn:E; [|done]. simpl. by apply negb_true_iff.
Qed.

Lemma endswith_slash_join ws : ws <> [] -> Forall proper ws ->
  endswith_slash (join_slash ws) = false.
Proof.
  intros Hne Hws. destruct ws as [|w ws _] using rev_ind; [done|].
  apply Forall_app in Hws as [_ Hw]. inv Hw. destruct H1 as (Hw & _ & _ & Hs).
  destruct ws as [|w' ws]; [by apply endswith_slash_word|].
  rewrite join_snoc, !endswith_slash_app by done. by apply endswith_slash_word.
Qed.

(** A directory other than the root: a single leading slash and at least one
    component. *)
Definition is_dir_path (d : string) : Prop :=
  exists ws, ws <> [] /\ Forall proper ws /\ d = "/" +:+ join_slash ws.

Lemma join_word_head ws : ws <> [] -> Forall proper ws ->
  exists c s, join_slash ws = String c s /\ c <> slash.
Proof.
  intros Hne Hws. destruct ws as [|w ws]; [done|]. inv Hws.
  destruct H1 as (Hw & _ & _ & Hs). destruct w as [|c w]; [done|].
  rewrite no_slash_cons in Hs. apply andb_true_iff in Hs as [Hc _].
  exists c. assert (c <> slash) as Hcs.
  { intros ->. by rewrite Ascii.eqb_refl in Hc. }
  destruct ws as [|w' ws]; eexists; split; done.
Qed.

(** What [abspath] gives below such a directory is again one. *)
Lemma below_abspath cwd d p : startswith "/" cwd = true -> is_dir_path d ->
  below d (abspath cwd p) = true -> is_dir_path (abspath cwd p).
Proof.
  intros Hcwd (ds & Hne & Hds & ->) [t Ht]%startswith_inv.
  destruct (abspath_shape cwd p Hcwd) as (ws & init & Hws & Hi & E).
  destruct (join_word_head ds) as (c & s & Ej & Hc); [done..|].
  rewrite Ej in Ht. rewrite E in Ht |- *.
  exists ws. destruct Hi as [-> | ->].
  - split_and!; [|done|done]. intros ->. done.
  - exfalso. apply Hc. rewrite !string_app_assoc in Ht. injection Ht as Ht' _. done.
Qed.

Lemma path_join_proper d n : is_dir_path d -> proper n ->
  path_join d n = d +:+ "/" +:+ n /\ is_dir_path (path_join d n).
Proof.
  intros (ws & Hne & Hws & ->) (Hn & Hn1 & Hn2 & Hs).
  assert (path_join ("/" +:+ join_slash ws) n = ("/" +:+ join_slash ws) +:+ "/" +:+ n) as ->.
  { unfold path_join. replace (startswith "/" n) with false.
    - replace ("/" +:+ join_slash ws =s "") with false by done. simpl.
      rewrite endswith_slash_app; [by rewrite endswith_slash_join|].
      destruct (join_word_head ws) as (c & s & -> & _); done.
    - destruct n as [|c n]; [done|]. rewrite no_slash_cons in Hs.
      apply andb_true_iff in Hs as [Hc _]. apply negb_true_iff in Hc.
      change (false = Ascii.eqb slash c && startswith "" n).
      by rewrite Ascii.eqb_sym, Hc. }
  split; [done|]. exists (ws ++ [n]). split_and!.
  - by destruct ws.
  - apply Forall_app. by repeat constructor.
  - by rewrite join_snoc, string_app_assoc.
Qed.

(** A normalised absolute path is its own [abspath]. *)
Lemma norm_components_id ws acc :
  Forall proper ws -> norm_components true ws acc = rev acc ++ ws.
Proof.
  revert acc. induction ws as [|w ws IH]; intros acc Hws; simpl; [by rewrite app_nil_r|].
  inv Hws. pose proof H1 as (H3 & H4 & H5 & _).
  rewrite (proj2 (String.eqb_neq w "")), (proj2 (String.eqb_neq w ".")),
    (proj2 (String.eqb_neq w "..")) by done. simpl. rewrite IH by done. simpl. by rewrite <-app_assoc.
Qed.
Lemma abspath_id cwd d : is_dir_path d -> abspath cwd d = d.
Proof.
  intros (ws & Hne & Hws & ->). unfold abspath. simpl startswith. cbv iota. unfold normpath.
  destruct (join_word_head ws) as (c & s & E & Hc); [done..|].
  assert (initial_slashes ("/" +:+ join_slash ws) = "/") as ->.
  { rewrite E. unfold initial_slashes. apply not_eq_sym, Ascii.eqb_neq in Hc. unfold slash in Hc.
    change (startswith "//" ("/" +:+ String c s)) with (Ascii.eqb "/" c && startswith "" s).
    by rewrite Hc. }
  change (("/" +:+ join_slash ws) =s "") with false. cbv iota.
  rewrite split_slash_abs, split_join by (done || by eapply Forall_impl; [done|intros ? (?&?&?&?)]).
  simpl norm_components. rewrite norm_components_id by done. done.
Qed.
