(* ===== verification/PyStr.v ===== *)
(** * Python string operations

    [strip], [splitlines], [join], [sorted] on strings, [oct]: the parts of the
    standard library the modelled code applies to text. *)
From S2P Require Import Prelude.

Definition dquote : string := String (ascii_of_N 34) "".
Definition backslash : string := String (ascii_of_N 92) "".
Definition newline : string := String (ascii_of_N 10) "".

Definition is_space (c : ascii) : bool :=
  let n := N_of_ascii c in
  ((9 <=? n) && (n <=? 13) || (28 <=? n) && (n <=? 32) || (n =? 133) || (n =? 160))%N.

Definition is_linebreak (c : ascii) : bool :=
  let n := N_of_ascii c in
  ((10 <=? n) && (n <=? 13) || (28 <=? n) && (n <=? 30) || (n =? 133))%N.

Fixpoint lstrip (s : string) : string :=
  match s with
  | String c s' => if is_space c then lstrip s' else s
  | "" => ""
  end.
Fixpoint rstrip (s : string) : string :=
  match s with
  | "" => ""
  | String c s' =>
      let t := rstrip s' in
      if (t =s "") && is_space c then "" else String c t
  end.
(** [s.strip()] *)
Definition strip (s : string) : string := rstrip (lstrip s).

(** [s.splitlines()]: a carriage return followed by a newline is one break,
    and no empty line follows a final break. *)
Fixpoint splitlines_go (cur : string) (s : string) : list string :=
  match s with
  | "" => if cur =s "" then [] else [String.rev cur]
  | String c s' =>
      if is_linebreak c then
        String.rev cur ::
          match s' with
          | String d s'' =>
              if (N_of_ascii c =? 13)%N && (N_of_ascii d =? 10)%N
              then splitlines_go "" s'' else splitlines_go "" s'
          | "" => []
          end
      else splitlines_go (String c cur) s'
  end.
Definition splitlines (s : string) : list string := splitlines_go "" s.

(** [s.split()]: runs of white space separate words. *)
Fixpoint split_words (cur : string) (s : string) : list string :=
  match s with
  | "" => if cur =s "" then [] else [String.rev cur]
  | String c s' =>
      if is_space c then
        if cur =s "" then split_words "" s' else String.rev cur :: split_words "" s'
      else split_words (String c cur) s'
  end.
(** [s.split(c)] *)
Fixpoint split_at (sep : ascii) (s : string) : list string :=
  match s with
  | "" => [""]
  | String c s' =>
      if Ascii.eqb c sep then "" :: split_at sep s'
      else match split_at sep s' with
           | [] => [String c ""]
           | w :: ws => String c w :: ws
           end
  end.

(** [sep.join(l)] *)
Definition str_join (sep : string) (l : list string) : string :=
  match l with
  | [] => ""
  | s :: l' => foldl (fun a b => a +:+ sep +:+ b) s l'
  end.

(** [sorted(l)] on strings *)
Fixpoint insert_str (s : string) (l : list string) : list string :=
  match l with
  | [] => [s]
  | t :: l' => if String.leb s t then s :: l else t :: insert_str s l'
  end.
Definition sort_strings (l : list string) : list string := foldr insert_str [] l.

Fixpoint spaces (n : nat) : string :=
  match n with O => "" | S n' => " " +:+ spaces n' end.

Fixpoint oct_digits (fuel : nat) (n : N) (acc : string) : string :=
  match fuel with
  | O => acc
  | S fuel' =>
      let acc' := String (ascii_of_N (48 + n mod 8)) acc in
      if (n <? 8)%N then acc' else oct_digits fuel' (n / 8) acc'
  end.
(** [oct(z)] for [z >= 0]: a number has at most as many octal digits as bits. *)
Definition oct (z : Z) : string :=
  "0o" +:+ oct_digits (S (N.to_nat (N.size (Z.to_N z)))) (Z.to_N z) "".

(** [s.lower()] and [s.upper()] on ASCII letters; the letters between 128 and
    256 are left as they are. *)
Definition lower_char (c : ascii) : ascii :=
  let n := N_of_ascii c in
  if ((65 <=? n) && (n <=? 90))%N then ascii_of_N (n + 32) else c.
Fixpoint lower (s : string) : string :=
  match s with "" => "" | String c s' => String (lower_char c) (lower s') end.

Definition upper_char (c : ascii) : ascii :=
  let n := N_of_ascii c in
  if ((97 <=? n) && (n <=? 122))%N then ascii_of_N (n - 32) else c.
Fixpoint upper (s : string) : string :=
  match s with "" => "" | String c s' => String (upper_char c) (upper s') end.

Definition hex_digit (n : N) : ascii :=
  ascii_of_N (if (n <? 10)%N then 48 + n else 87 + n).
Definition hex2 (n : N) : string :=
  String (hex_digit (n / 16)) (String (hex_digit (n mod 16)) "").

(** [repr(s)]: single quotes unless only double ones avoid escaping. *)
Definition squote : string := String (ascii_of_N 39) "".
Fixpoint repr_body (q : string) (s : string) : string :=
  match s with
  | "" => ""
  | String c s' =>
      let n := N_of_ascii c in
      (if (String c "" =s q) || (n =? 92)%N then backslash +:+ String c ""
       else if (n =? 10)%N then backslash +:+ "n"
       else if (n =? 13)%N then backslash +:+ "r"
       else if (n =? 9)%N then backslash +:+ "t"
       else if ((n <? 32) || (127 <=? n) && (n <=? 160) || (n =? 173))%N
       then backslash +:+ "x" +:+ hex2 n
       else String c "") +:+ repr_body q s'
  end.
Definition py_repr_str (s : string) : string :=
  let q := if contains squote s && negb (contains dquote s) then dquote else squote in
  q +:+ repr_body q s +:+ q.
(** [str(l)] for a list of strings *)
Definition py_repr_strs (l : list string) : string :=
  "[" +:+ str_join ", " (map py_repr_str l) +:+ "]".

(** Text files read with universal newlines. *)
Fixpoint universal_newlines (s : string) : string :=
  match s with
  | "" => ""
  | String c s' =>
      if Ascii.eqb c (ascii_of_N 13) then
        match s' with
        | String d s'' =>
            if Ascii.eqb d (ascii_of_N 10) then String (ascii_of_N 10) (universal_newlines s'')
            else String (ascii_of_N 10) (universal_newlines s')
        | "" => String (ascii_of_N 10) ""
        end
      else String c (universal_newlines s')
  end.

(** [s.strip(c)] for one character *)
Fixpoint lstrip_char (c : ascii) (s : string) : string :=
  match s with
  | String d s' => if Ascii.eqb c d then lstrip_char c s' else s
  | "" => ""
  end.
Definition strip_char (c : ascii) (s : string) : string :=
  String.rev (lstrip_char c (String.rev (lstrip_char c s))).

(** [s.rfind(c)] *)
Fixpoint rfind (c : ascii) (s : string) : option nat :=
  match s with
  | "" => None
  | String c' s' =>
      match rfind c s' with
      | Some n => Some (S n)
      | None => if Ascii.eqb c c' then Some 0 else None
      end
  end.
(** [s[:n]] *)
Fixpoint string_take (n : nat) (s : string) : string :=
  match n, s with
  | S n', String c s' => String c (string_take n' s')
  | _, _ => ""
  end.
(** [s[:s.find(p)]], or [s] when [p] does not occur. *)
Fixpoint before (p s : string) : string :=
  if startswith p s then ""
  else match s with "" => "" | String c s' => String c (before p s') end.
(** The value of a decimal and of a hexadecimal digit, and of a text of decimal
    digits. *)
Definition decimal_digit (c : ascii) : bool :=
  let n := N_of_ascii c in ((48 <=? n) && (n <=? 57))%N.
Fixpoint digits_value (acc : Z) (s : string) : Z :=
  match s with
  | "" => acc
  | String c s' => digits_value (acc * 10 + Z.of_N (N_of_ascii c - 48)) s'
  end.
Definition hex_value (c : ascii) : option N :=
  let n := N_of_ascii c in
  if (48 <=? n)%N && (n <=? 57)%N then Some (n - 48)%N
  else if (97 <=? n)%N && (n <=? 102)%N then Some (n - 87)%N
  else if (65 <=? n)%N && (n <=? 70)%N then Some (n - 55)%N
  else None.

Lemma insert_str_perm s l : insert_str s l ≡ₚ s :: l.
Proof.
  induction l as [|t l IH]; simpl; [done|].
  destruct (String.leb s t); [done|]. rewrite IH. constructor.
Qed.
Lemma sort_strings_perm l : sort_strings l ≡ₚ l.
Proof.
  unfold sort_strings. induction l as [|s l IH]; simpl; [done|]. by rewrite insert_str_perm, IH.
Qed.

Lemma startswith_prefix p s t : startswith p s = true -> startswith p (s +:+ t) = true.
Proof. intros (u & ->)%startswith_inv. rewrite string_app_assoc. apply startswith_app. Qed.
Lemma contains_prefix p s t : contains p s = true -> contains p (s +:+ t) = true.
Proof.
  induction s as [|c s IH]; simpl.
  - rewrite orb_false_r. destruct p; [|done]. by destruct t.
  - rewrite !orb_true_iff. intros [H|H]; [left|right; auto].
    by apply (startswith_prefix _ (String c s)).
Qed.
Lemma contains_suffix m a b : contains m b = true -> contains m (a +:+ b) = true.
Proof.
  intros Hb. induction a as [|c a IH]; [done|].
  change (String c a +:+ b) with (String c (a +:+ b)). simpl. by rewrite IH, orb_true_r.
Qed.
Lemma before_prefix p s : exists t, s = before p s +:+ t.
Proof.
  induction s as [|c s [t E]]; simpl; [by exists ""; destruct (startswith p "")|].
  destruct (startswith p (String c s)); [by exists (String c s)|].
  exists t. by rewrite string_app_cons, <-E.
Qed.
Lemma before_free p s : p <> "" -> contains p (before p s) = false.
Proof.
  intros Hp. assert (contains p "" = false) as H0 by (destruct p; [done|reflexivity]).
  induction s as [|c s IH].
  - simpl. by destruct (startswith p "").
  - cbn [before]. destruct (startswith p (String c s)) eqn:E; [exact H0|].
    cbn [contains]. rewrite IH, orb_false_r. apply not_true_iff_false. intros H.
    destruct (before_prefix p s) as [t Es].
    apply (startswith_prefix _ _ t) in H. rewrite string_app_cons, <-Es in H. congruence.
Qed.
Lemma rfind_take c s n : rfind c s = Some n ->
  exists t u, string_take (S n) s = t +:+ String c "" /\ s = (t +:+ String c "") +:+ u.
Proof.
  revert n. induction s as [|c' s IH]; intros n; simpl; [done|].
  destruct (rfind c s) as [m|].
  - intros [= <-]. destruct (IH m eq_refl) as (t & u & E1 & E2).
    exists (String c' t), u. rewrite E1, !string_app_cons. split; [done|]. by rewrite E2 at 1.
  - destruct (Ascii.eqb_spec c c') as [<-|]; [|done]. intros [= <-]. exists "", s.
    split; [by destruct s|done].
Qed.
