(* ===== verification/PyBytes.v ===== *)
(** * Bytes, UTF-8, base64 and URLs

    The encodings of the standard library that the network clients use.  Bytes
    are the characters of a string; the characters of a text are code points
    below 256, so that decoding a text with larger ones is [Unmodelled]. *)
From stdpp Require Import pretty.
From S2P Require Import Prelude PyStr.

Definition byte (n : N) : string := String (ascii_of_N n) "".

(** ** UTF-8 *)
(** [s.encode('utf-8')] *)
Fixpoint utf8_encode (s : string) : string :=
  match s with
  | "" => ""
  | String c s' =>
      let n := N_of_ascii c in
      (if (n <? 128)%N then String c ""
       else byte (192 + n / 64) +:+ byte (128 + n mod 64)) +:+ utf8_encode s'
  end.
Definition bad_byte {A} : result A := raise UnicodeDecodeError "'utf-8' codec can't decode byte".
Definition continuation (c : ascii) : bool :=
  let n := N_of_ascii c in ((128 <=? n) && (n <? 192))%N.
(** [b.decode('utf-8')]: 194 and 195 start the code points from 128 to 255,
    196 to 244 the larger ones. *)
Fixpoint utf8_decode (b : string) : result string :=
  match b with
  | "" => Ok ""
  | String c b' =>
      let n := N_of_ascii c in
      if (n <? 128)%N then let? s := utf8_decode b' in Ok (String c s)
      else if (n =? 194)%N || (n =? 195)%N then
        match b' with
        | String d b'' =>
            if continuation d
            then let? s := utf8_decode b'' in
                 Ok (String (ascii_of_N ((n - 192) * 64 + (N_of_ascii d - 128))) s)
            else bad_byte
        | "" => bad_byte
        end
      else if (195 <? n)%N && (n <=? 244)%N
      then raise Unmodelled "a code point above 255"
      else bad_byte
  end.

(** ** Base64 *)
Definition base64_value (c : ascii) : option N :=
  let n := N_of_ascii c in
  if (65 <=? n)%N && (n <=? 90)%N then Some (n - 65)%N
  else if (97 <=? n)%N && (n <=? 122)%N then Some (n - 71)%N
  else if (48 <=? n)%N && (n <=? 57)%N then Some (n + 4)%N
  else if (n =? 43)%N then Some 62%N
  else if (n =? 47)%N then Some 63%N
  else None.
Definition binascii_error : exn_class := OtherException "binascii.Error".

(** The digits read of the current group of four. *)
Inductive group := G0 | G1 (left : N) | G2 (left : N) (pads : nat) | G3 (left : N).
(** [binascii.a2b_base64] without the strict mode: characters outside of the
    alphabet are skipped, and a complete padding ends the text.  [n] counts
    the bytes decoded. *)
Fixpoint a2b (g : group) (n : nat) (s : string) : result string :=
  match s with
  | "" =>
      match g with
      | G0 => Ok ""
      | G1 _ => raise binascii_error
          ("Invalid base64-encoded string: number of data characters ("
           +:+ pretty (n / 3 * 4 + 1) +:+ ") cannot be 1 more than a multiple of 4")
      | _ => raise binascii_error "Incorrect padding"
      end
  | String c s' =>
      if Ascii.eqb c "=" then
        match g with
        | G2 l O => a2b (G2 l 1) n s'
        | G2 _ _ | G3 _ => Ok ""
        | _ => a2b g n s'
        end
      else match base64_value c with
           | None => a2b g n s'
           | Some v =>
               match g with
               | G0 => a2b (G1 v) n s'
               | G1 l => let? r := a2b (G2 (v mod 16) 0) (S n) s' in
                         Ok (String (ascii_of_N (l * 4 + v / 16)) r)
               | G2 l _ => let? r := a2b (G3 (v mod 4)) (S n) s' in
                           Ok (String (ascii_of_N (l * 16 + v / 4)) r)
               | G3 l => let? r := a2b G0 (S n) s' in
                         Ok (String (ascii_of_N (l * 64 + v)) r)
               end
           end
  end.
Fixpoint all_chars (P : ascii -> bool) (s : string) : bool :=
  match s with "" => true | String c s' => P c && all_chars P s' end.
Definition is_ascii (c : ascii) : bool := (N_of_ascii c <? 128)%N.
(** [base64.b64decode] on a text *)
Definition b64decode (s : string) : result string :=
  if all_chars is_ascii s then a2b G0 0 s
  else raise ValueError "string argument should contain only ASCII characters".

(** The encoding that [b64decode] inverts. *)
Definition base64_digit (v : N) : ascii :=
  ascii_of_N (if v <? 26 then v + 65 else if v <? 52 then v + 71 else if v <? 62 then v - 4
              else if v =? 62 then 43 else 47)%N.
Definition base64_pad : string := "=".
Fixpoint b64encode (b : string) : string :=
  let d v := String (base64_digit v) "" in
  match b with
  | "" => ""
  | String x "" => let x := N_of_ascii x in
      d (x / 4)%N +:+ d (x mod 4 * 16)%N +:+ "=="
  | String x (String y "") => let x := N_of_ascii x in let y := N_of_ascii y in
      d (x / 4)%N +:+ d (x mod 4 * 16 + y / 16)%N +:+ d (y mod 16 * 4)%N +:+ "="
  | String x (String y (String z b')) =>
      let x := N_of_ascii x in let y := N_of_ascii y in let z := N_of_ascii z in
      d (x / 4)%N +:+ d (x mod 4 * 16 + y / 16)%N +:+ d (y mod 16 * 4 + z / 64)%N
        +:+ d (z mod 64)%N +:+ b64encode b'
  end.

(** ** URLs *)
Definition upper_hex (n : N) : string := upper (hex2 n).
Definition quote_safe (c : ascii) : bool :=
  let n := N_of_ascii c in
  ((48 <=? n) && (n <=? 57) || (65 <=? n) && (n <=? 90) || (97 <=? n) && (n <=? 122)
   || (n =? 95) || (n =? 46) || (n =? 45) || (n =? 126))%N.
Fixpoint quote_bytes (b : string) : string :=
  match b with
  | "" => ""
  | String c b' =>
      (if quote_safe c then String c "" else if Ascii.eqb c " " then "+"
       else "%" +:+ upper_hex (N_of_ascii c)) +:+ quote_bytes b'
  end.
(** [urllib.parse.quote_plus] and [urlencode] *)
Definition quote_plus (s : string) : string := quote_bytes (utf8_encode s).
Definition urlencode (q : list (string * string)) : string :=
  str_join "&" (map (fun kv => quote_plus kv.1 +:+ "=" +:+ quote_plus kv.2) q).

(** ** Round trips *)
Lemma byte_value n : (n < 256)%N -> N_of_ascii (ascii_of_N n) = n.
Proof. apply N_ascii_embedding. Qed.
Lemma ascii_range c : (N_of_ascii c < 256)%N.
Proof. apply N_ascii_bounded. Qed.
Ltac n_arith := zify; Z.to_euclidean_division_equations; lia.

(** Decoding inverts encoding. *)
Lemma utf8_round_trip s : utf8_decode (utf8_encode s) = Ok s.
Proof.
  induction s as [|c s IH]; [done|]. pose proof (ascii_range c) as Hc.
  cbn [utf8_encode]. destruct (N.ltb_spec (N_of_ascii c) 128) as [H|H].
  - rewrite string_app_cons. cbn [utf8_decode]. apply N.ltb_lt in H. rewrite H.
    change ("" +:+ utf8_encode s) with (utf8_encode s). by rewrite IH.
  - unfold byte. rewrite !string_app_cons.
    repeat match goal with |- context ["" +:+ ?x] => change ("" +:+ x) with x end.
    cbn [utf8_decode].
    rewrite (byte_value (192 + _)) by n_arith.
    set (n := N_of_ascii c) in *.
    assert (n / 64 = 2 \/ n / 64 = 3)%N as Hd by n_arith.
    assert ((192 + n / 64 <? 128) = false)%N as -> by (apply N.ltb_ge; n_arith).
    assert ((192 + n / 64 =? 194) || (192 + n / 64 =? 195) = true)%N as ->.
    { by destruct Hd as [->| ->]. }
    rewrite string_app_cons. cbv iota. change ("" +:+ utf8_encode s) with (utf8_encode s).
    unfold continuation. rewrite byte_value by n_arith.
    assert ((128 <=? 128 + n mod 64) && (128 + n mod 64 <? 192) = true)%N as ->.
    { apply andb_true_iff. split; [apply N.leb_le|apply N.ltb_lt]; n_arith. }
    rewrite IH. do 2 f_equal. rewrite <- (ascii_N_embedding c). f_equal. fold n. n_arith.
Qed.

Definition b64_char (c : ascii) : bool :=
  Ascii.eqb c "=" || match base64_value c with Some _ => true | None => false end.
Fixpoint keep (P : ascii -> bool) (s : string) : string :=
  match s with
  | "" => ""
  | String c s' => if P c then String c (keep P s') else keep P s'
  end.
(** White space in an encoded text does not matter. *)
Lemma a2b_keep g n s : a2b g n s = a2b g n (keep b64_char s).
Proof.
  revert g n. induction s as [|c s IH]; intros g n; [done|]. simpl. unfold b64_char at 1.
  destruct (Ascii.eqb c "=") eqn:E; simpl.
  - rewrite E. destruct g as [|l|l [|p]|l]; auto.
  - destruct (base64_value c) as [v|] eqn:Ev; simpl; [|auto].
    rewrite E, Ev. by destruct g; rewrite IH.
Qed.

(** Each digit, as the decoder reads it. *)
Definition digit_ok (v : N) : bool :=
  negb (Ascii.eqb (base64_digit v) "=")
  && match base64_value (base64_digit v) with Some w => (w =? v)%N | None => false end.
Lemma digits_ok : forallb digit_ok (N.of_nat <$> seq 0 64) = true.
Proof. vm_compute. reflexivity. Qed.
Lemma digit_value v : (v < 64)%N ->
  Ascii.eqb (base64_digit v) "=" = false /\ base64_value (base64_digit v) = Some v.
Proof.
  intros H. assert (digit_ok v = true) as Hv.
  { refine (proj1 (forallb_forall digit_ok _) digits_ok v _). apply in_map_iff.
    exists (N.to_nat v). split; [lia|]. apply in_seq. lia. }
  unfold digit_ok in Hv. apply andb_true_iff in Hv as [H1%negb_true_iff H2].
  split; [done|]. destruct (base64_value _); [|done]. by apply N.eqb_eq in H2 as ->.
Qed.
Lemma a2b_digit g n v s : (v < 64)%N ->
  a2b g n (String (base64_digit v) s) =
    match g with
    | G0 => a2b (G1 v) n s
    | G1 l => let? r := a2b (G2 (v mod 16) 0) (S n) s in Ok (String (ascii_of_N (l * 4 + v / 16)) r)
    | G2 l _ => let? r := a2b (G3 (v mod 4)) (S n) s in Ok (String (ascii_of_N (l * 16 + v / 4)) r)
    | G3 l => let? r := a2b G0 (S n) s in Ok (String (ascii_of_N (l * 64 + v)) r)
    end.
Proof. intros H. destruct (digit_value v H) as [E1 E2]. simpl. by rewrite E1, E2. Qed.

Lemma b64_step x y z b :
  b64encode (String x (String y (String z b))) =
  let x := N_of_ascii x in let y := N_of_ascii y in let z := N_of_ascii z in
  String (base64_digit (x / 4)) (String (base64_digit (x mod 4 * 16 + y / 16))
    (String (base64_digit (y mod 16 * 4 + z / 64)) (String (base64_digit (z mod 64))
      (b64encode b)))).
Proof. done. Qed.
Lemma ascii_eq m c : m = N_of_ascii c -> ascii_of_N m = c.
Proof. intros ->. apply ascii_N_embedding. Qed.
(** The three bytes of four digits. *)
Lemma a2b_group n x y z s :
  a2b G0 n (let x := N_of_ascii x in let y := N_of_ascii y in let z := N_of_ascii z in
    String (base64_digit (x / 4)) (String (base64_digit (x mod 4 * 16 + y / 16))
      (String (base64_digit (y mod 16 * 4 + z / 64)) (String (base64_digit (z mod 64)) s))))
  = let? r := a2b G0 (3 + n) s in Ok (String x (String y (String z r))).
Proof.
  pose proof (ascii_range x) as Hx. pose proof (ascii_range y) as Hy.
  pose proof (ascii_range z) as Hz. cbv zeta.
  rewrite (a2b_digit G0) by n_arith. rewrite (a2b_digit (G1 _)) by n_arith.
  rewrite (a2b_digit (G2 _ _)) by n_arith. rewrite (a2b_digit (G3 _)) by n_arith.
  change (S (S (S n))) with (3 + n). destruct (a2b G0 (3 + n) s) as [r|e]; [|done].
  do 2 f_equal; [apply ascii_eq; n_arith|]. f_equal; [apply ascii_eq; n_arith|].
  f_equal. apply ascii_eq; n_arith.
Qed.

(** The last group, padded. *)
Lemma a2b_last1 n x : a2b G0 n (b64encode (String x "")) = Ok (String x "").
Proof.
  pose proof (ascii_range x).
  change (b64encode (String x "")) with
    (String (base64_digit (N_of_ascii x / 4)) (String (base64_digit (N_of_ascii x mod 4 * 16)) "==")).
  rewrite (a2b_digit G0) by n_arith. rewrite (a2b_digit (G1 _)) by n_arith. simpl.
  do 2 f_equal. apply ascii_eq. n_arith.
Qed.
Lemma a2b_last2 n x y :
  a2b G0 n (b64encode (String x (String y ""))) = Ok (String x (String y "")).
Proof.
  pose proof (ascii_range x). pose proof (ascii_range y).
  change (b64encode (String x (String y ""))) with
    (String (base64_digit (N_of_ascii x / 4))
      (String (base64_digit (N_of_ascii x mod 4 * 16 + N_of_ascii y / 16))
        (String (base64_digit (N_of_ascii y mod 16 * 4)) "="))).
  rewrite (a2b_digit G0) by n_arith. rewrite (a2b_digit (G1 _)) by n_arith.
  rewrite (a2b_digit (G2 _ _)) by n_arith. simpl.
  do 2 f_equal; [apply ascii_eq; n_arith|]. f_equal. apply ascii_eq. n_arith.
Qed.
Lemma a2b_encode b n : a2b G0 n (b64encode b) = Ok b.
Proof.
  assert (forall k b n, String.length b <= k -> a2b G0 n (b64encode b) = Ok b) as H;
    [|by apply (H (String.length b))].
  clear. intros k. induction k as [|k IH]; intros b n Hk; [by destruct b; simpl in Hk; [|lia]|].
  destruct b as [|x [|y [|z b]]]; [done|apply a2b_last1|apply a2b_last2|].
  rewrite b64_step, a2b_group, IH; [done|]. simpl in Hk. lia.
Qed.

(** A text whose significant characters encode [b] decodes to [b]. *)
Lemma b64_round_trip b s :
  all_chars is_ascii s = true -> keep b64_char s = b64encode b -> b64decode s = Ok b.
Proof. intros Ha Hk. unfold b64decode. rewrite Ha, a2b_keep, Hk. apply a2b_encode. Qed.
