(* ===== verification/Json.v ===== *)
(** * json.dumps

    The text [json.dumps] gives for a value: sorted keys or insertion order,
    compact or indented by two, ASCII-escaped.  The characters of a string are
    code points below 256.  The text of a float is that of [FloatOps]. *)
From S2P Require Import Prelude Dict PyVal PyStr.

(** [ESCAPE_ASCII] of the json encoder. *)
Definition escape_char (c : ascii) : string :=
  let n := N_of_ascii c in
  if (n =? 34)%N then backslash +:+ dquote
  else if (n =? 92)%N then backslash +:+ backslash
  else if (n =? 10)%N then backslash +:+ "n"
  else if (n =? 13)%N then backslash +:+ "r"
  else if (n =? 9)%N then backslash +:+ "t"
  else if (n =? 12)%N then backslash +:+ "f"
  else if (n =? 8)%N then backslash +:+ "b"
  else if ((n <? 32) || (126 <? n))%N
  then backslash +:+ "u00" +:+ hex2 n
  else String c "".

Fixpoint escape (s : string) : string :=
  match s with
  | "" => ""
  | String c s' => escape_char c +:+ escape s'
  end.
Definition json_str (s : string) : string := dquote +:+ escape s +:+ dquote.

(** [sorted(d.items())]: keys are distinct, so values are never compared. *)
Fixpoint insert_key {V} (kv : string * V) (d : dict string V) : dict string V :=
  match d with
  | [] => [kv]
  | kv' :: d' => if String.leb kv.1 kv'.1 then kv :: d else kv' :: insert_key kv d'
  end.
Definition sort_keys {V} (d : dict string V) : dict string V := foldr insert_key [] d.

(** The text of a JSON file: empty, not JSON, or a value. *)
Inductive json_text := JEmpty | JInvalid | JValue (v : pyval).

Section Dumps.
Context {float_ops : FloatOps}.

Definition json_scalar (v : pyval) : string :=
  match v with
  | VNone => "null"
  | VBool b => if b then "true" else "false"
  | VInt z => zstr z
  | VFloat f => float_repr f
  | VStr s => json_str s
  | VList _ | VDict _ => ""
  end.

(** [json.dumps(v, sort_keys=srt)]; the entries are rendered first and sorted
    after, by key. *)
Fixpoint dumps (srt : bool) (v : pyval) : string :=
  match v with
  | VList l => "[" +:+ str_join ", " (map (dumps srt) l) +:+ "]"
  | VDict d =>
      let items := map (fun kv => (kv.1, json_str kv.1 +:+ ": " +:+ dumps srt kv.2)) d in
      "{" +:+ str_join ", " (map snd (if srt then sort_keys items else items)) +:+ "}"
  | _ => json_scalar v
  end.

(** [json.dumps(v, indent=2, sort_keys=srt)] at nesting depth [n] *)
Fixpoint dumps_indent (srt : bool) (n : nat) (v : pyval) : string :=
  let nl := newline +:+ spaces (2 * S n) in
  let close := newline +:+ spaces (2 * n) in
  match v with
  | VList [] => "[]"
  | VDict [] => "{}"
  | VList l =>
      "[" +:+ nl +:+ str_join ("," +:+ nl) (map (dumps_indent srt (S n)) l)
        +:+ close +:+ "]"
  | VDict d =>
      let items :=
        map (fun kv => (kv.1, json_str kv.1 +:+ ": " +:+ dumps_indent srt (S n) kv.2)) d in
      "{" +:+ nl
        +:+ str_join ("," +:+ nl) (map snd (if srt then sort_keys items else items))
        +:+ close +:+ "}"
  | _ => json_scalar v
  end.

(** [repr(v)] and [str(v)] *)
Fixpoint py_repr (v : pyval) : string :=
  match v with
  | VNone => "None"
  | VBool b => if b then "True" else "False"
  | VInt z => zstr z
  | VFloat f => float_repr f
  | VStr s => py_repr_str s
  | VList l => "[" +:+ str_join ", " (map py_repr l) +:+ "]"
  | VDict d =>
      "{" +:+ str_join ", " (map (fun kv => py_repr_str kv.1 +:+ ": " +:+ py_repr kv.2) d)
        +:+ "}"
  end.
Definition py_str (v : pyval) : string := match v with VStr s => s | _ => py_repr v end.

(** Length of the encoded text: every character is ASCII after escaping. *)
Definition json_size (srt : bool) (v : pyval) : Z := Z.of_nat (String.length (dumps srt v)).
End Dumps.

(** The errors of a call whose arguments do not bind. *)
Definition quoted_names (l : list string) : string :=
  match l with
  | [] => ""
  | [a] => squote +:+ a +:+ squote
  | [a; b] => squote +:+ a +:+ squote +:+ " and " +:+ squote +:+ b +:+ squote
  | _ =>
      str_join ", " ((fun a => squote +:+ a +:+ squote) <$> take (length l - 1) l)
      +:+ ", and " +:+ squote +:+ default "" (last l) +:+ squote
  end.
Definition missing_arguments (f : string) (l : list string) : string :=
  f +:+ " missing " +:+ zstr (Z.of_nat (length l))
  +:+ (if length l =? 1 then " required positional argument: " else " required positional arguments: ")
  +:+ quoted_names l.
Definition unexpected_argument (f k : string) : string :=
  f +:+ " got an unexpected keyword argument " +:+ squote +:+ k +:+ squote.
