(* ===== verification/JsonLoad.v ===== *)
(** * json.loads

    The decoder of the standard library: white space, strings with their
    escapes, numbers, arrays and objects, as its C scanner reads them.  A
    character above 255 is [Unmodelled], and so is the recursion limit.  Every
    text a value is printed to, compact or indented, is decoded to the value:
    this is what lets the other files keep the value a program wrote in place
    of its text. *)
From S2P Require Import Prelude Dict PyVal PyStr PyBytes Json.

(** Why a text is not decoded: it is not JSON, an integer has more digits than
    [int] accepts, a character is above 255, or the fuel is used up. *)
Inductive failure := NotJson | BigInt (digits : nat) | WideChar | NoFuel.
Inductive parsed (A : Type) :=
  | Got (a : A) (rest : string)
  | Bad (f : failure).
Arguments Got {A} a rest.
Arguments Bad {A} f.
Notation "'let*' x ',' s ':=' m 'in' k" :=
  (match m with Got x s => k | Bad f => Bad f end)
  (at level 10, x name, s name, m at level 100, k at level 200) : runtime_scope.

(** The text of a [JSONDecodeError], which depends on the interpreter. *)
Class JsonErrors := json_error : string -> string.

(** ** Lexical elements *)
Definition json_blank (c : ascii) : bool :=
  let n := N_of_ascii c in ((n =? 32) || (n =? 9) || (n =? 10) || (n =? 13))%N.
Fixpoint skip_blanks (s : string) : string :=
  match s with
  | String c s' => if json_blank c then skip_blanks s' else s
  | "" => ""
  end.

(** What follows a character, if the text starts with it. *)
Definition expect (c : ascii) (s : string) : option string :=
  match s with
  | String c' s' => if Ascii.eqb c c' then Some s' else None
  | "" => None
  end.

Definition unescape (c : ascii) : option ascii :=
  match N_of_ascii c with
  | 34%N | 92%N | 47%N => Some c
  | 98%N => Some (ascii_of_N 8)
  | 102%N => Some (ascii_of_N 12)
  | 110%N => Some (ascii_of_N 10)
  | 114%N => Some (ascii_of_N 13)
  | 116%N => Some (ascii_of_N 9)
  | _ => None
  end.
Definition push (c : ascii) (p : parsed string) : parsed string :=
  let* t, s := p in Got (String c t) s.
(** The four digits of an escaped code point. *)
Definition code_point (a b c d : ascii) : option N :=
  match hex_value a, hex_value b, hex_value c, hex_value d with
  | Some w, Some x, Some y, Some z => Some (4096 * w + 256 * x + 16 * y + z)%N
  | _, _, _, _ => None
  end.
(** A string, after its opening quote. *)
Fixpoint scan_string (s : string) : parsed string :=
  match s with
  | "" => Bad NotJson
  | String c s1 =>
      let n := N_of_ascii c in
      if (n =? 34)%N then Got "" s1
      else if (n =? 92)%N then
        match s1 with
        | "" => Bad NotJson
        | String e s2 =>
            if Ascii.eqb e "u" then
              match s2 with
              | String a (String b (String c' (String d s3))) =>
                  match code_point a b c' d with
                  | Some v =>
                      if (v <? 256)%N then push (ascii_of_N v) (scan_string s3) else Bad WideChar
                  | None => Bad NotJson
                  end
              | _ => Bad NotJson
              end
            else match unescape e with
                 | Some c' => push c' (scan_string s2)
                 | None => Bad NotJson
                 end
        end
      else if (n <? 32)%N then Bad NotJson
      else push c (scan_string s1)
  end.

(** ** Numbers *)
Fixpoint take_digits (s : string) : string * string :=
  match s with
  | String c s' =>
      if decimal_digit c then let '(ds, r) := take_digits s' in (String c ds, r) else ("", s)
  | "" => ("", "")
  end.
(** A fraction and an exponent, when they have digits. *)
Definition take_fraction (s : string) : option string * string :=
  match expect "." s with
  | Some s' =>
      let '(ds, r) := take_digits s' in if ds =s "" then (None, s) else (Some ds, r)
  | None => (None, s)
  end.
Definition take_exponent (s : string) : option Z * string :=
  match s with
  | String c s' =>
      if Ascii.eqb c "e" || Ascii.eqb c "E" then
        let '(sign, s1) := match expect "-" s' with
                           | Some s1 => ((-1)%Z, s1)
                           | None => (1%Z, default s' (expect "+" s'))
                           end in
        let '(ds, r) := take_digits s1 in
        if ds =s "" then (None, s) else (Some (sign * digits_value 0 ds)%Z, r)
      else (None, s)
  | "" => (None, s)
  end.

(** [float] of a decimal literal: the digits [n] times ten to the [q], rounded
    correctly.  Past the two bounds the value is above the greatest float and
    below half the least one. *)
Definition decimal_float (neg : bool) (n q : Z) (digits : nat) : pyfloat :=
  match n with
  | Z.pos p =>
      if (310 <? q)%Z then S754_infinity neg
      else if (Z.of_nat digits + q <? -400)%Z then S754_zero neg
      else if (0 <=? q)%Z then
        binary_normalize 53 1024 (if neg then - (n * 10 ^ q) else n * 10 ^ q)%Z 0 neg
      else
        SFdiv 53 1024 (S754_finite neg p 0) (S754_finite false (Z.to_pos (10 ^ (- q))) 0)
  | _ => S754_zero neg
  end.
(** [sys.int_info.default_max_str_digits] *)
Definition max_str_digits : nat := Z.to_nat 4300.
Definition scan_number (s : string) : parsed pyval :=
  let '(neg, s1) := match expect "-" s with Some s' => (true, s') | None => (false, s) end in
  let '(ds, s2) := match expect "0" s1 with Some s' => ("0", s') | None => take_digits s1 end in
  if ds =s "" then Bad NotJson
  else
    let '(fraction, s3) := take_fraction s2 in
    let '(exponent, s4) := take_exponent s3 in
    match fraction, exponent with
    | None, None =>
        if (max_str_digits <? String.length ds)%nat then Bad (BigInt (String.length ds))
        else let n := digits_value 0 ds in Got (VInt (if neg then - n else n)%Z) s2
    | _, _ =>
        let fs := default "" fraction in
        let digits := ds +:+ fs in
        Got (VFloat (decimal_float neg (digits_value 0 digits)
               (default 0 exponent - Z.of_nat (String.length fs))%Z (String.length digits))) s4
    end.

(** ** Values *)
Definition constants : list (string * pyval) :=
  [("null", VNone); ("true", VBool true); ("false", VBool false);
   ("NaN", VFloat S754_nan); ("Infinity", VFloat (S754_infinity false));
   ("-Infinity", VFloat (S754_infinity true))].
Fixpoint drop_string (n : nat) (s : string) : string :=
  match n, s with
  | S n', String _ s' => drop_string n' s'
  | _, _ => s
  end.
Fixpoint scan_constant (l : list (string * pyval)) (s : string) : option (pyval * string) :=
  match l with
  | [] => None
  | (k, v) :: l' =>
      if startswith k s then Some (v, drop_string (String.length k) s) else scan_constant l' s
  end.
Definition quote : ascii := ascii_of_N 34.

Fixpoint scan_once (fuel : nat) (s : string) : parsed pyval :=
  match fuel with
  | O => Bad NoFuel
  | S n =>
      match s with
      | "" => Bad NotJson
      | String c s1 =>
          if Ascii.eqb c quote then let* t, r := scan_string s1 in Got (VStr t) r
          else if Ascii.eqb c "{" then
            match expect "}" (skip_blanks s1) with
            | Some r => Got (VDict []) r
            | None => scan_members n (skip_blanks s1) []
            end
          else if Ascii.eqb c "[" then
            match expect "]" (skip_blanks s1) with
            | Some r => Got (VList []) r
            | None => scan_elements n (skip_blanks s1) []
            end
          else match scan_constant constants s with
               | Some (v, r) => Got v r
               | None => scan_number s
               end
      end
  end
with scan_members (fuel : nat) (s : string) (acc : dict string pyval) : parsed pyval :=
  match fuel with
  | O => Bad NoFuel
  | S n =>
      match expect quote s with
      | Some s1 =>
          let* k, r := scan_string s1 in
          match expect ":" (skip_blanks r) with
          | Some r1 =>
              let* v, r2 := scan_once n (skip_blanks r1) in
              match expect "}" (skip_blanks r2), expect "," (skip_blanks r2) with
              | Some r3, _ => Got (VDict (dset k v acc)) r3
              | None, Some r3 => scan_members n (skip_blanks r3) (dset k v acc)
              | None, None => Bad NotJson
              end
          | None => Bad NotJson
          end
      | None => Bad NotJson
      end
  end
with scan_elements (fuel : nat) (s : string) (acc : list pyval) : parsed pyval :=
  match fuel with
  | O => Bad NoFuel
  | S n =>
      let* v, r2 := scan_once n s in
      match expect "]" (skip_blanks r2), expect "," (skip_blanks r2) with
      | Some r3, _ => Got (VList (acc ++ [v])) r3
      | None, Some r3 => scan_elements n (skip_blanks r3) (acc ++ [v])
      | None, None => Bad NotJson
      end
  end.

(** Every call of the scanner in two consumes a character. *)
Definition loads_fuel (s : string) : nat := 2 * String.length s + 1.
Definition parse (s : string) : pyval + failure :=
  match scan_once (loads_fuel (skip_blanks s)) (skip_blanks s) with
  | Got v r => if skip_blanks r =s "" then inl v else inr NotJson
  | Bad f => inr f
  end.

(** [json.loads(s)] *)
Definition json_loads {errors : JsonErrors} (s : string) : result pyval :=
  match parse s with
  | inl v => Ok v
  | inr NotJson => raise JSONDecodeError (json_error s)
  | inr (BigInt n) =>
      raise ValueError ("Exceeds the limit (4300 digits) for integer string conversion: value has "
        +:+ pretty n +:+ " digits; use sys.set_int_max_str_digits() to increase the limit")
  | inr WideChar => raise Unmodelled "a character above 255"
  | inr NoFuel => raise Unmodelled "no fuel"
  end.

(** [json.loads(content)] on any value *)
Definition loads_value {errors : JsonErrors} (v : pyval) : result pyval :=
  match v with
  | VStr s => json_loads s
  | _ => raise TypeError ("the JSON object must be str, bytes or bytearray, not "
                          +:+ pytype_name v)
  end.
(** ** Termination

    The scanner consumes its input, so the fuel of [parse] is never used up:
    the decoder answers on every text. *)
Lemma skip_blanks_length s : String.length (skip_blanks s) <= String.length s.
Proof. induction s as [|c s IH]; simpl; [done|]. destruct (json_blank c); simpl; lia. Qed.
Lemma expect_Some c s r : expect c s = Some r <-> s = String c r.
Proof.
  destruct s as [|c' s]; simpl; [done|]. destruct (Ascii.eqb_spec c c') as [->|Hne].
  - naive_solver.
  - split; [done|]. intros [= -> ->]. done.
Qed.
Lemma expect_same c s : expect c (String c s) = Some s.
Proof. by apply expect_Some. Qed.
Lemma take_digits_split s : s = (take_digits s).1 +:+ (take_digits s).2.
Proof.
  induction s as [|c s IH]; simpl; [done|]. destruct (decimal_digit c); [|done].
  destruct (take_digits s) as [ds r]. simpl in *. by rewrite string_app_cons, <-IH.
Qed.
Lemma take_digits_length s : String.length (take_digits s).2 <= String.length s.
Proof. rewrite (take_digits_split s) at 2. rewrite string_length_app. lia. Qed.
Lemma drop_string_length n s : String.length (drop_string n s) = String.length s - n.
Proof. revert s. induction n as [|n IH]; intros [|c s]; simpl; auto. Qed.

(** What a scan that succeeds leaves is shorter than its input. *)
Definition consumes {A} (s : string) (p : parsed A) : Prop :=
  match p with Got _ r => String.length r < String.length s | Bad f => f <> NoFuel end.
Lemma consumes_push c s p : consumes s p -> consumes s (push c p).
Proof. by destruct p. Qed.
Lemma consumes_longer {A} s s' (p : parsed A) :
  consumes s p -> String.length s <= String.length s' -> consumes s' p.
Proof. destruct p; simpl; intros; [lia|done]. Qed.

Lemma scan_string_consumes n s : String.length s <= n -> consumes s (scan_string s).
Proof.
  revert s. induction n as [|n IH]; intros [|c s] Hn; try done; simpl in Hn; [lia|].
  assert (forall s', String.length s' <= String.length s ->
            consumes (String c s) (scan_string s')) as Hrec.
  { intros s' Hs. eapply consumes_longer; [apply IH|simpl]; lia. }
  cbn [scan_string]. repeat case_match; subst; simpl in *; try done; try lia;
    apply consumes_push, Hrec; simpl; lia.
Qed.
Lemma take_fraction_length s : String.length (take_fraction s).2 <= String.length s.
Proof.
  unfold take_fraction. destruct (expect "." s) as [s'|] eqn:E; [|done].
  apply expect_Some in E as ->. pose proof (take_digits_length s').
  destruct (take_digits s') as [ds r]. case_match; simpl in *; lia.
Qed.
Lemma take_exponent_length s : String.length (take_exponent s).2 <= String.length s.
Proof.
  unfold take_exponent. destruct s as [|c s]; [done|]. case_match; [|done].
  assert (forall c s1, expect c s = Some s1 -> String.length s1 <= String.length s) as He.
  { intros c' s1 ->%expect_Some. simpl. lia. }
  destruct (expect "-" s) as [s1|] eqn:E1; [apply He in E1|
    destruct (expect "+" s) as [s1|] eqn:E2; [apply He in E2|]]; cbn [default from_option];
    match goal with |- context [take_digits ?x] =>
      pose proof (take_digits_length x); destruct (take_digits x) as [ds r] end;
    case_match; simpl in *; unfold Datatypes.id in *; lia.
Qed.
Lemma scan_number_consumes s : consumes s (scan_number s).
Proof.
  unfold scan_number.
  assert (exists neg s1, match expect "-" s with Some s' => (true, s') | None => (false, s) end
            = (neg, s1) /\ String.length s1 <= String.length s) as (neg & s1 & -> & H1).
  { destruct (expect "-" s) as [s'|] eqn:E; [apply expect_Some in E as ->|];
      do 2 eexists; (split; [done|simpl; lia]). }
  destruct (match expect "0" s1 with Some s' => ("0", s') | None => take_digits s1 end)
    as [ds s2] eqn:E2.
  assert (s1 = ds +:+ s2) as ->.
  { destruct (expect "0" s1) as [s'|] eqn:E; simplify_eq; [by apply expect_Some in E|].
    rewrite (take_digits_split s1). by rewrite E2. }
  destruct (ds =s "") eqn:Ed; [done|]. rewrite string_length_app in H1.
  assert (0 < String.length ds) as Hd by (destruct ds; [done|simpl; lia]).
  pose proof (take_fraction_length s2). destruct (take_fraction s2) as [fr s3].
  pose proof (take_exponent_length s3). destruct (take_exponent s3) as [ex s4].
  simpl in *. repeat case_match; simpl; (done || lia).
Qed.
Lemma scan_constant_consumes l s v r : Forall (fun kv => kv.1 <> "") l ->
  scan_constant l s = Some (v, r) -> String.length r < String.length s.
Proof.
  induction 1 as [|[k w] l Hk _ IH]; simpl; [done|]. destruct (startswith k s) eqn:E; [|done].
  intros [= _ <-]. apply startswith_inv in E as [t ->].
  rewrite drop_string_length, string_length_app.
  destruct k; [done|]. simpl. lia.
Qed.

(** The length of a text after its blanks and one character of punctuation. *)
Lemma expect_skip_length c s r :
  expect c (skip_blanks s) = Some r -> String.length r < String.length s.
Proof.
  intros E%expect_Some. pose proof (skip_blanks_length s). rewrite E in *. simpl in *. lia.
Qed.

Ltac scan_arith :=
  repeat match goal with
  | E : expect _ (skip_blanks _) = Some _ |- _ => apply expect_skip_length in E
  | |- context [String.length (skip_blanks ?r)] =>
      lazymatch goal with
      | _ : String.length (skip_blanks r) <= _ |- _ => fail
      | _ => pose proof (skip_blanks_length r)
      end
  end; simpl in *; lia.

Lemma scan_consumes n :
  (forall s, 2 * String.length s + 1 <= n -> consumes s (scan_once n s)) /\
  (forall s acc, 2 * String.length s + 1 <= n -> consumes s (scan_members n s acc)) /\
  (forall s acc, 2 * String.length s + 2 <= n -> consumes s (scan_elements n s acc)).
Proof.
  induction n as [|n (IH1 & IH2 & IH3)]; [by split_and!; intros; lia|].
  split_and!; intros s.
  - intros Hn. cbn [scan_once]. destruct s as [|c s]; [done|].
    destruct (Ascii.eqb c quote).
    { pose proof (scan_string_consumes _ s (le_n _)) as H.
      destruct (scan_string s); simpl in *; [lia|done]. }
    destruct (Ascii.eqb c "{").
    { destruct (expect "}" (skip_blanks s)) eqn:E; [scan_arith|].
      eapply consumes_longer; [apply IH2|]; scan_arith. }
    destruct (Ascii.eqb c "[").
    { destruct (expect "]" (skip_blanks s)) eqn:E; [scan_arith|].
      eapply consumes_longer; [apply IH3|]; scan_arith. }
    destruct (scan_constant constants _) as [[v r]|] eqn:E; [|apply scan_number_consumes].
    eapply scan_constant_consumes; [|done]. by repeat constructor.
  - intros acc Hn. cbn [scan_members]. destruct (expect quote s) as [s1|] eqn:Eq; [|done].
    apply expect_Some in Eq as ->.
    pose proof (scan_string_consumes _ s1 (le_n _)) as H1.
    destruct (scan_string s1) as [k r|]; simpl in *; [|done].
    destruct (expect ":" (skip_blanks r)) as [r1|] eqn:E1; [|done].
    assert (consumes (skip_blanks r1) (scan_once n (skip_blanks r1))) as H2 by (apply IH1; scan_arith).
    destruct (scan_once n (skip_blanks r1)) as [v r2|]; simpl in *; [|done].
    pose proof (skip_blanks_length r1).
    destruct (expect "}" (skip_blanks r2)) eqn:E2; [scan_arith|].
    destruct (expect "," (skip_blanks r2)) as [r3|] eqn:E3; [|done].
    eapply consumes_longer; [apply IH2|]; scan_arith.
  - intros acc Hn. cbn [scan_elements].
    assert (consumes s (scan_once n s)) as H2 by (apply IH1; lia).
    destruct (scan_once n s) as [v r2|]; simpl in *; [|done].
    destruct (expect "]" (skip_blanks r2)) eqn:E2; [scan_arith|].
    destruct (expect "," (skip_blanks r2)) as [r3|] eqn:E3; [|done].
    eapply consumes_longer; [apply IH3|]; scan_arith.
Qed.

Lemma parse_has_fuel s : parse s <> inr NoFuel.
Proof.
  unfold parse. pose proof (proj1 (scan_consumes (loads_fuel (skip_blanks s))) (skip_blanks s) (le_n _)).
  destruct (scan_once _ _); simpl in *; [by case_match|congruence].
Qed.

(** More fuel does not change an answer. *)
Definition answers {A} (p q : parsed A) : Prop := p <> Bad NoFuel -> q = p.
Lemma scan_more n :
  (forall s, answers (scan_once n s) (scan_once (S n) s)) /\
  (forall s acc, answers (scan_members n s acc) (scan_members (S n) s acc)) /\
  (forall s acc, answers (scan_elements n s acc) (scan_elements (S n) s acc)).
Proof.
  induction n as [|n (IH1 & IH2 & IH3)]; [by split_and!; intros ** H|].
  unfold answers in *. split_and!; intros s.
  - intros H. remember (S n) as m eqn:Em. rewrite Em in H at 1. rewrite Em at 2.
    cbn [scan_once] in *. subst m. repeat case_match; auto.
  - intros acc H. remember (S n) as m eqn:Em. rewrite Em in H at 1. rewrite Em at 2.
    cbn [scan_members] in *. subst m.
    destruct (expect quote s); [|done]. destruct (scan_string s0) as [k r|]; [|done].
    destruct (expect ":" (skip_blanks r)) as [r1|]; [|done].
    pose proof (IH1 (skip_blanks r1)) as Hv.
    destruct (scan_once n (skip_blanks r1)) as [v r2|f] eqn:Ev.
    + rewrite Hv by done. repeat case_match; auto.
    + rewrite Hv by congruence. done.
  - intros acc H. remember (S n) as m eqn:Em. rewrite Em in H at 1. rewrite Em at 2.
    cbn [scan_elements] in *. subst m. pose proof (IH1 s) as Hv.
    destruct (scan_once n s) as [v r2|f] eqn:Ev.
    + rewrite Hv by done. repeat case_match; auto.
    + rewrite Hv by congruence. done.
Qed.

(** ** Printed values are read back *)
Lemma skip_blanks_all w s : all_chars json_blank w = true -> skip_blanks (w +:+ s) = skip_blanks s.
Proof.
  induction w as [|c w IH]; [done|]. rewrite string_app_cons. simpl.
  intros [-> H]%andb_true_iff. auto.
Qed.

Lemma scan_escape_char c t : scan_string (escape_char c +:+ t) = push c (scan_string t).
Proof. destruct c as [[] [] [] [] [] [] [] []]; reflexivity. Qed.
Lemma scan_escape s t : scan_string (escape s +:+ String quote t) = Got s t.
Proof.
  induction s as [|c s IH]; [done|]. cbn [escape].
  by rewrite string_app_assoc, scan_escape_char, IH.
Qed.

Lemma digits_value_app acc a b : digits_value acc (a +:+ b) = digits_value (digits_value acc a) b.
Proof. revert acc. induction a as [|c a IH]; intros acc; [done|]. rewrite string_app_cons. apply IH. Qed.
Lemma all_chars_app P a b : all_chars P (a +:+ b) = all_chars P a && all_chars P b.
Proof.
  induction a as [|c a IH]; [done|]. rewrite string_app_cons. simpl. by rewrite IH, andb_assoc.
Qed.

(** The decimal text of a positive number. *)
Lemma pretty_char_ok x : (x < 10)%N ->
  decimal_digit (pretty_N_char x) = true /\ N_of_ascii (pretty_N_char x) = (48 + x)%N.
Proof.
  intros H. assert (forallb (fun x => decimal_digit (pretty_N_char x)
      && (N_of_ascii (pretty_N_char x) =? 48 + x)%N) (N.of_nat <$> seq 0 10) = true) as HF
    by (vm_compute; reflexivity).
  rewrite forallb_forall in HF. specialize (HF x).
  rewrite andb_true_iff, N.eqb_eq in HF. apply HF, in_map_iff.
  exists (N.to_nat x). split; [lia|]. apply in_seq. lia.
Qed.
Definition no_leading_zero (ds : string) : Prop := exists c ds', ds = String c ds' /\ c <> "0"%char.
Lemma pretty_go_digits n s : exists ds, pretty_N_go n s = ds +:+ s /\
  all_chars decimal_digit ds = true /\ digits_value 0 ds = Z.of_N n /\
  if decide (n = 0)%N then ds = "" else no_leading_zero ds.
Proof.
  revert s. induction (N.lt_wf_0 n) as [n _ IH]. intros s.
  destruct (decide (n = 0)%N) as [->|Hn].
  { exists "". by rewrite pretty_N_go_0. }
  rewrite pretty_N_go_step by lia.
  destruct (pretty_char_ok (n mod 10)) as [Hd Hv]; [n_arith|].
  destruct (IH (n / 10)%N) with (s := String (pretty_N_char (n mod 10)) s)
    as (ds & -> & Hall & Hval & Hhead); [n_arith|].
  exists (ds +:+ String (pretty_N_char (n mod 10)) ""). split_and!.
  - by rewrite string_app_assoc.
  - rewrite all_chars_app, Hall. simpl. by rewrite Hd.
  - rewrite digits_value_app, Hval. simpl. rewrite Hv. n_arith.
  - destruct (decide (n / 10 = 0)%N) as [H0|H0].
    + subst ds. do 2 eexists. split; [done|]. intros E. rewrite E in Hv. cbn in Hv. n_arith.
    + destruct Hhead as (c & ds' & -> & Hc). by do 2 eexists.
Qed.

(** What may follow a number: no digit, point or exponent. *)
Definition delimited (s : string) : bool :=
  match s with
  | String c _ =>
      negb (decimal_digit c || Ascii.eqb c "." || Ascii.eqb c "e" || Ascii.eqb c "E")
  | "" => true
  end.
Lemma take_digits_all ds s : all_chars decimal_digit ds = true -> delimited s = true ->
  take_digits (ds +:+ s) = (ds, s).
Proof.
  intros Hd Hs. induction ds as [|c ds IH].
  - destruct s as [|c s]; [done|]. simpl in *. by destruct (decimal_digit c).
  - rewrite string_app_cons. simpl in *. apply andb_true_iff in Hd as [-> Hd]. by rewrite IH.
Qed.
Lemma no_suffix s : delimited s = true -> take_fraction s = (None, s) /\ take_exponent s = (None, s).
Proof.
  destruct s as [|c s]; [done|]. unfold delimited. rewrite negb_true_iff, !orb_false_iff.
  intros [[[_ H1] H2] H3]. unfold take_fraction, expect, take_exponent.
  by rewrite Ascii.eqb_sym, H1, H2, H3.
Qed.

(** An integer whose text [int] accepts. *)
Definition short_int (z : Z) : Prop := (Z.of_nat (String.length (zstr z)) <= 4300)%Z.
Definition minus (neg : bool) : string := if neg then "-" else "".
Lemma scan_digits neg ds t z : all_chars decimal_digit ds = true -> delimited t = true ->
  no_leading_zero ds -> (Z.of_nat (String.length ds) <= 4300)%Z -> digits_value 0 ds = z ->
  scan_number (minus neg +:+ ds +:+ t) = Got (VInt (if neg then - z else z)%Z) t.
Proof.
  intros Hd Ht (c & ds' & -> & Hc) Hl Hz. destruct (no_suffix _ Ht) as [Hf He].
  assert (decimal_digit c = true) as Hc' by (simpl in Hd; by destruct (decimal_digit c)).
  assert (expect "-" (String c (ds' +:+ t)) = None) as H1.
  { unfold expect. destruct (Ascii.eqb_spec "-"%char c) as [<-|]; [by vm_compute in Hc'|done]. }
  assert (expect "0" (String c (ds' +:+ t)) = None) as H2.
  { unfold expect. destruct (Ascii.eqb_spec "0"%char c) as [<-|]; done. }
  assert (max_str_digits <? String.length (String c ds') = false)%nat as H3.
  { apply Nat.ltb_ge. unfold max_str_digits. lia. }
  unfold scan_number, minus. destruct neg.
  - change ("-" +:+ String c ds' +:+ t) with (String "-" (String c (ds' +:+ t))).
    rewrite expect_same, H2. change (String c (ds' +:+ t)) with (String c ds' +:+ t).
    rewrite (take_digits_all _ _ Hd Ht), Hf, He, H3. cbn [String.eqb]. by rewrite Hz.
  - change ("" +:+ String c ds' +:+ t) with (String c (ds' +:+ t)).
    rewrite H1, H2. change (String c (ds' +:+ t)) with (String c ds' +:+ t).
    rewrite (take_digits_all _ _ Hd Ht), Hf, He, H3. cbn [String.eqb]. by rewrite Hz.
Qed.
Lemma scan_zstr z t : short_int z -> delimited t = true ->
  scan_number (zstr z +:+ t) = Got (VInt z) t.
Proof.
  unfold short_int, zstr. intros Hs Ht. destruct z as [|p|p].
  - unfold scan_number. destruct (no_suffix _ Ht) as [Hf He].
    change (pretty 0%Z +:+ t) with (String "0" t).
    assert (expect "-" (String "0" t) = None) as H by done. by rewrite H, expect_same, Hf, He.
  - destruct (pretty_go_digits (N.pos p) "") as (ds & E & Hd & Hv & Hh). simpl in Hh.
    assert (pretty (Z.pos p) = ds) as Ep by (rewrite string_app_nil_r in E; exact E).
    rewrite Ep in *. by apply (scan_digits false).
  - destruct (pretty_go_digits (N.pos p) "") as (ds & E & Hd & Hv & Hh). simpl in Hh.
    assert (pretty (Z.neg p) = "-" +:+ ds) as Ep
      by (rewrite string_app_nil_r in E; rewrite <-E; reflexivity).
    rewrite Ep in *. rewrite string_app_assoc. rewrite string_length_app in Hs. simpl in Hs.
    rewrite (scan_digits true _ _ (Z.pos p)) by (done || lia). done.
Qed.

(** A text of a value: what [dumps] and [dumps_indent] print, with any blanks
    inside the brackets and after the commas. *)
Definition blanks (w : string) : Prop := all_chars json_blank w = true.
Definition atomic (v : pyval) : Prop :=
  match v with VNone | VBool _ | VStr _ => True | VInt z => short_int z | _ => False end.
Section Texts.
Context {float_ops : FloatOps}.

Inductive text_of : pyval -> string -> Prop :=
  | TextAtom v : atomic v -> text_of v (json_scalar v)
  | TextNoElements w : blanks w -> text_of (VList []) ("[" +:+ w +:+ "]")
  | TextList w v t l u : blanks w -> text_of v t -> more_elements l u ->
      text_of (VList (v :: l)) ("[" +:+ w +:+ t +:+ u)
  | TextNoMembers w : blanks w -> text_of (VDict []) ("{" +:+ w +:+ "}")
  | TextDict w k v t d u : blanks w -> text_of v t -> more_members d u ->
      text_of (VDict ((k, v) :: d)) ("{" +:+ w +:+ json_str k +:+ ": " +:+ t +:+ u)
with more_elements : list pyval -> string -> Prop :=
  | LastElement w : blanks w -> more_elements [] (w +:+ "]")
  | NextElement w v t l u : blanks w -> text_of v t -> more_elements l u ->
      more_elements (v :: l) ("," +:+ w +:+ t +:+ u)
with more_members : list (string * pyval) -> string -> Prop :=
  | LastMember w : blanks w -> more_members [] (w +:+ "}")
  | NextMember w k v t d u : blanks w -> text_of v t -> more_members d u ->
      more_members ((k, v) :: d) ("," +:+ w +:+ json_str k +:+ ": " +:+ t +:+ u).
Scheme text_of_mut := Minimality for text_of Sort Prop
  with more_elements_mut := Minimality for more_elements Sort Prop
  with more_members_mut := Minimality for more_members Sort Prop.
Combined Scheme text_mutind from text_of_mut, more_elements_mut, more_members_mut.

(** The dictionary an object with these members is decoded to. *)
Definition collect (acc d : dict string pyval) : dict string pyval :=
  foldl (fun acc kv => dset kv.1 kv.2 acc) acc d.
Fixpoint rebuilt (v : pyval) : pyval :=
  match v with
  | VList l => VList (map rebuilt l)
  | VDict d => VDict (collect [] (map (fun kv => (kv.1, rebuilt kv.2)) d))
  | _ => v
  end.

(** The text of a value starts with a character that is no blank and closes
    nothing. *)
Definition opens (c : ascii) : bool :=
  negb (json_blank c || Ascii.eqb "]" c || Ascii.eqb "}" c).
Definition opening (t : string) : Prop := exists c s, t = String c s /\ opens c = true.
Lemma text_opening v t : text_of v t -> opening t.
Proof.
  destruct 1 as [[| [] | z | | | |] Hv| | | |]; try done; try (by do 2 eexists; split).
  destruct z as [|p|p]; [by do 2 eexists|..].
  - destruct (pretty_go_digits (N.pos p) "") as (ds & E & Hd & _ & c & ds' & -> & Hc).
    exists c, ds'. split; [by rewrite string_app_nil_r in E|].
    simpl in Hd. apply andb_true_iff in Hd as [Hd _]. clear -Hd.
    destruct c as [[] [] [] [] [] [] [] []]; (done || by vm_compute in Hd).
  - by do 2 eexists.
Qed.
Lemma skip_opening t s : opening t -> skip_blanks (t +:+ s) = t +:+ s.
Proof.
  intros (c & r & -> & H). rewrite string_app_cons. simpl.
  unfold opens in H. by destruct (json_blank c).
Qed.
Lemma skip_open w t s : blanks w -> opening t -> skip_blanks (w +:+ t +:+ s) = t +:+ s.
Proof. intros Hw Ht. rewrite skip_blanks_all by done. by apply skip_opening. Qed.
Lemma not_closing c t s : opening t -> c = "]"%char \/ c = "}"%char -> expect c (t +:+ s) = None.
Proof.
  intros (c' & r & -> & H) Hc. rewrite string_app_cons. simpl. unfold opens in H.
  by destruct Hc as [-> | ->], (json_blank c'), (Ascii.eqb "]" c'), (Ascii.eqb "}" c').
Qed.

Lemma scan_fuel n m : n <= m ->
  (forall s v r, scan_once n s = Got v r -> scan_once m s = Got v r) /\
  (forall s acc v r, scan_members n s acc = Got v r -> scan_members m s acc = Got v r) /\
  (forall s acc v r, scan_elements n s acc = Got v r -> scan_elements m s acc = Got v r).
Proof.
  induction 1 as [|m _ (IH1 & IH2 & IH3)]; [done|]. destruct (scan_more m) as (H1 & H2 & H3).
  split_and!; intros.
  - rewrite (H1 s); [auto|]. erewrite IH1 by done. done.
  - rewrite (H2 s acc); [auto|]. erewrite IH2 by done. done.
  - rewrite (H3 s acc); [auto|]. erewrite IH3 by done. done.
Qed.

(** The scanner after an element and after a member. *)
Definition after_element (n : nat) (acc : list pyval) (s : string) : parsed pyval :=
  match expect "]" (skip_blanks s), expect "," (skip_blanks s) with
  | Some r, _ => Got (VList acc) r
  | None, Some r => scan_elements n (skip_blanks r) acc
  | None, None => Bad NotJson
  end.
Definition after_member (n : nat) (acc : dict string pyval) (s : string) : parsed pyval :=
  match expect "}" (skip_blanks s), expect "," (skip_blanks s) with
  | Some r, _ => Got (VDict acc) r
  | None, Some r => scan_members n (skip_blanks r) acc
  | None, None => Bad NotJson
  end.
Lemma scan_element n m s acc v r x r' :
  scan_once n s = Got v r -> after_element m (acc ++ [v]) r = Got x r' ->
  scan_elements (S (n `max` m)) s acc = Got x r'.
Proof.
  intros H1 H2. cbn [scan_elements].
  destruct (scan_fuel n (n `max` m)) as (E1 & _ & _); [lia|].
  destruct (scan_fuel m (n `max` m)) as (_ & _ & E3); [lia|].
  rewrite (E1 _ _ _ H1). unfold after_element in H2. repeat case_match; auto.
Qed.
Lemma json_str_opens k s : json_str k +:+ s = String quote (escape k +:+ String quote s).
Proof. unfold json_str. by rewrite !string_app_assoc. Qed.
Lemma scan_member n m k s acc v r x r' : skip_blanks s = s ->
  scan_once n s = Got v r -> after_member m (dset k v acc) r = Got x r' ->
  scan_members (S (n `max` m)) (json_str k +:+ ": " +:+ s) acc = Got x r'.
Proof.
  intros Hs H1 H2. rewrite json_str_opens. cbn [scan_members].
  rewrite expect_same, scan_escape.
  change (skip_blanks (": " +:+ s)) with (String ":" (" " +:+ s)). rewrite expect_same.
  change (skip_blanks (" " +:+ s)) with (skip_blanks s). rewrite Hs.
  destruct (scan_fuel n (n `max` m)) as (E1 & _ & _); [lia|].
  destruct (scan_fuel m (n `max` m)) as (_ & E2 & _); [lia|].
  rewrite (E1 _ _ _ H1). unfold after_member in H2. repeat case_match; auto.
Qed.

Lemma blank_delimited w c s : blanks w -> (c = "]" \/ c = "}" \/ c = ",")%char ->
  delimited (w +:+ String c s) = true.
Proof.
  intros Hw Hc. destruct w as [|b w]; [by destruct Hc as [-> | [-> | ->]]|].
  unfold blanks in Hw. simpl in Hw. apply andb_true_iff in Hw as [Hb _].
  destruct b as [[] [] [] [] [] [] [] []]; (by vm_compute in Hb) || reflexivity.
Qed.
Lemma elements_delimited l u s : more_elements l u -> delimited (u +:+ s) = true.
Proof.
  destruct 1; rewrite string_app_assoc; [|done]. apply blank_delimited; auto.
Qed.
Lemma members_delimited d u s : more_members d u -> delimited (u +:+ s) = true.
Proof.
  destruct 1; rewrite string_app_assoc; [|done]. apply blank_delimited; auto.
Qed.
Lemma scan_at_digit c s : decimal_digit c = true ->
  scan_once 1 (String c s) = scan_number (String c s) /\
  scan_once 1 (String "-" (String c s)) = scan_number (String "-" (String c s)).
Proof.
  destruct c as [[] [] [] [] [] [] [] []]; intros H; (by vm_compute in H) || by split.
Qed.
Lemma zstr_start z : exists c r, decimal_digit c = true /\
  (zstr z = String c r \/ zstr z = String "-" (String c r)).
Proof.
  destruct z as [|p|p]; [by exists "0"%char, ""; split; [|left]|..];
    destruct (pretty_go_digits (N.pos p) "") as (ds & E & Hd & _ & c & r & -> & _);
    rewrite string_app_nil_r in E; simpl in Hd; apply andb_true_iff in Hd as [Hd _];
    exists c, r; (split; [done|]).
  - by left.
  - right. change (zstr (Z.neg p)) with (String "-" (pretty_N_go (N.pos p) "")). by rewrite E.
Qed.
Lemma scan_atom v s : atomic v -> delimited s = true -> scan_once 1 (json_scalar v +:+ s) = Got v s.
Proof.
  destruct v as [| [] | z | | t | |]; intros Hv Hs; try done.
  - rewrite <-(scan_zstr z s Hv Hs). simpl json_scalar.
    destruct (zstr_start z) as (c & r & Hc & [E|E]); rewrite E, !string_app_cons;
      by apply scan_at_digit.
  - simpl json_scalar. rewrite json_str_opens. cbn [scan_once].
    rewrite Ascii.eqb_refl. by rewrite scan_escape.
Qed.

Lemma texts_scanned :
  (forall v t, text_of v t -> forall s, delimited s = true ->
     exists n, scan_once n (t +:+ s) = Got (rebuilt v) s) /\
  (forall l u, more_elements l u -> forall s acc,
     exists n, after_element n acc (u +:+ s) = Got (VList (acc ++ map rebuilt l)) s) /\
  (forall d u, more_members d u -> forall s acc, exists n, after_member n acc (u +:+ s)
     = Got (VDict (collect acc (map (fun kv => (kv.1, rebuilt kv.2)) d))) s).
Proof.
  apply text_mutind.
  - intros v Hv s Hs. exists 1. rewrite scan_atom by done. by destruct v.
  - intros w Hw s Hs. exists 1. cbn [scan_once].
    change (("[" +:+ w +:+ "]") +:+ s) with (String "[" ((w +:+ "]") +:+ s)).
    rewrite string_app_assoc, skip_blanks_all by done. done.
  - intros w v t l u Hw Ht IHt Hu IHu s Hs.
    destruct (IHt (u +:+ s)) as [n1 E1]; [by eapply elements_delimited|].
    destruct (IHu s [rebuilt v]) as [n2 E2].
    exists (S (S (n1 `max` n2))). pose proof (text_opening _ _ Ht) as Ho.
    change (("[" +:+ w +:+ t +:+ u) +:+ s) with (String "[" ((w +:+ t +:+ u) +:+ s)).
    rewrite !string_app_assoc. cbn [scan_once]. rewrite skip_open by done.
    rewrite (not_closing "]") by auto. by eapply scan_element.
  - intros w Hw s Hs. exists 1. cbn [scan_once].
    change (("{" +:+ w +:+ "}") +:+ s) with (String "{" ((w +:+ "}") +:+ s)).
    rewrite string_app_assoc, skip_blanks_all by done. done.
  - intros w k v t d u Hw Ht IHt Hu IHu s Hs.
    destruct (IHt (u +:+ s)) as [n1 E1]; [by eapply members_delimited|].
    destruct (IHu s [(k, rebuilt v)]) as [n2 E2].
    exists (S (S (n1 `max` n2))). pose proof (text_opening _ _ Ht) as Ho.
    change (("{" +:+ w +:+ json_str k +:+ ": " +:+ t +:+ u) +:+ s)
      with (String "{" ((w +:+ json_str k +:+ ": " +:+ t +:+ u) +:+ s)).
    rewrite !string_app_assoc. cbn [scan_once].
    assert (opening (json_str k)) as Hk by (do 2 eexists; split; [reflexivity|done]).
    rewrite skip_open by done. rewrite (not_closing "}") by auto.
    eapply scan_member; [by apply skip_opening|done|done].
  - intros w Hw s acc. exists 0. unfold after_element.
    rewrite string_app_assoc, skip_blanks_all by done. by rewrite app_nil_r.
  - intros w v t l u Hw Ht IHt Hu IHu s acc.
    destruct (IHt (u +:+ s)) as [n1 E1]; [by eapply elements_delimited|].
    destruct (IHu s (acc ++ [rebuilt v])) as [n2 E2].
    exists (S (n1 `max` n2)). pose proof (text_opening _ _ Ht) as Ho. unfold after_element.
    change (("," +:+ w +:+ t +:+ u) +:+ s) with (String "," ((w +:+ t +:+ u) +:+ s)).
    rewrite !string_app_assoc. change (skip_blanks (String "," ?x)) with (String "," x).
    rewrite expect_same. cbn [expect]. rewrite skip_open by done.
    rewrite <-app_assoc in E2. by eapply scan_element.
  - intros w Hw s acc. exists 0. unfold after_member.
    rewrite string_app_assoc, skip_blanks_all by done. done.
  - intros w k v t d u Hw Ht IHt Hu IHu s acc.
    destruct (IHt (u +:+ s)) as [n1 E1]; [by eapply members_delimited|].
    destruct (IHu s (dset k (rebuilt v) acc)) as [n2 E2].
    exists (S (n1 `max` n2)). pose proof (text_opening _ _ Ht) as Ho. unfold after_member.
    change (("," +:+ w +:+ json_str k +:+ ": " +:+ t +:+ u) +:+ s)
      with (String "," ((w +:+ json_str k +:+ ": " +:+ t +:+ u) +:+ s)).
    rewrite !string_app_assoc. change (skip_blanks (String "," ?x)) with (String "," x).
    rewrite expect_same. cbn [expect].
    assert (opening (json_str k)) as Hk by (do 2 eexists; split; [reflexivity|done]).
    rewrite skip_open by done. eapply scan_member; [by apply skip_opening|done|done].
Qed.

(** ** The printers give texts *)
(** A value that [json.dumps] prints without a float, whose dictionaries have
    each key once. *)
Fixpoint plain (v : pyval) : Prop :=
  match v with
  | VFloat _ => False
  | VInt z => short_int z
  | VList l => foldr (fun v P => plain v /\ P) True l
  | VDict d => dict_wf d /\ foldr (fun kv P => plain kv.2 /\ P) True d
  | _ => True
  end.
(** The value with the members of its dictionaries in the printed order. *)
Definition ordering {V} (srt : bool) (d : dict string V) : dict string V :=
  if srt then sort_keys d else d.
Fixpoint ordered (srt : bool) (v : pyval) : pyval :=
  match v with
  | VList l => VList (map (ordered srt) l)
  | VDict d => VDict (ordering srt (map (fun kv => (kv.1, ordered srt kv.2)) d))
  | _ => v
  end.

Lemma plain_list l : foldr (fun v P => plain v /\ P) True l <-> Forall plain l.
Proof. induction l as [|v l IH]; simpl; [done|]. by rewrite Forall_cons, IH. Qed.
Lemma plain_dict (d : dict string pyval) :
  foldr (fun kv P => plain kv.2 /\ P) True d <-> Forall (fun kv => plain kv.2) d.
Proof. induction d as [|v l IH]; simpl; [done|]. by rewrite Forall_cons, IH. Qed.

Lemma insert_key_perm {V} kv (d : dict string V) : insert_key kv d ≡ₚ kv :: d.
Proof.
  induction d as [|kv' d IH]; simpl; [done|]. destruct (String.leb _ _); [done|].
  by rewrite IH, Permutation_swap.
Qed.
Lemma sort_keys_perm {V} (d : dict string V) : sort_keys d ≡ₚ d.
Proof. induction d as [|kv d IH]; simpl; [done|]. by rewrite insert_key_perm, IH. Qed.
Lemma sort_keys_map {V W} (f : string * V -> W) (d : dict string V) :
  sort_keys (map (fun kv => (kv.1, f kv)) d) = map (fun kv => (kv.1, f kv)) (sort_keys d).
Proof.
  assert (forall kv d, insert_key (kv.1, f kv) (map (fun kv => (kv.1, f kv)) d)
            = map (fun kv => (kv.1, f kv)) (insert_key kv d)) as Hi.
  { intros kv d'. induction d' as [|kv' d' IH]; simpl; [done|].
    destruct (String.leb _ _); simpl; [done|]. by rewrite IH. }
  induction d as [|kv d IH]; simpl; [done|]. by rewrite IH, Hi.
Qed.

Lemma rebuilt_plain v : plain v -> rebuilt v = v.
Proof.
  induction v as [| | | | | l IH | d IH] using pyval_nested_ind; simpl; try done.
  - rewrite plain_list. intros Hp. f_equal. induction Hp; [done|].
    inv IH. simpl. f_equal; auto.
  - rewrite plain_dict. intros [Hw Hp]. f_equal.
    assert (map (fun kv => (kv.1, rebuilt kv.2)) d = d) as ->.
    { clear Hw. induction Hp as [|[k v] d Hv Hd IHd]; [done|]. inv IH. simpl in *. f_equal; auto.
      f_equal; auto. }
    by apply (rebuild_pairs d []).
Qed.
Lemma ordering_perm {V} srt (d : dict string V) : ordering srt d ≡ₚ d.
Proof. destruct srt; [apply sort_keys_perm|done]. Qed.
Lemma ordering_map {V W} srt (f : string * V -> W) (d : dict string V) :
  ordering srt (map (fun kv => (kv.1, f kv)) d) = map (fun kv => (kv.1, f kv)) (ordering srt d).
Proof. destruct srt; [apply sort_keys_map|done]. Qed.
Lemma ordered_plain srt v : plain v -> plain (ordered srt v).
Proof.
  induction v as [| | | | | l IH | d IH] using pyval_nested_ind; simpl; try done.
  - rewrite !plain_list, Forall_map. intros Hp. rewrite Forall_forall in *. auto.
  - rewrite !plain_dict. intros [Hw Hp]. unfold dict_wf, dkeys in *.
    rewrite (ordering_perm srt _), map_map. split; [exact Hw|].
    rewrite Forall_map. rewrite Forall_forall in *. intros x Hx. simpl. auto.
Qed.
Lemma ordered_same v : ordered false v = v.
Proof.
  induction v as [| | | | | l IH | d IH] using pyval_nested_ind; simpl; try done; f_equal.
  - induction IH; simpl; f_equal; auto.
  - induction IH as [|[k v] d Hv _ IHd]; simpl in *; [done|]. by rewrite Hv, IHd.
Qed.

(** Joined texts. *)
Fixpoint join_tail (sep : string) (l : list string) : string :=
  match l with [] => "" | s :: l' => sep +:+ s +:+ join_tail sep l' end.
Lemma str_join_cons sep s l : str_join sep (s :: l) = s +:+ join_tail sep l.
Proof.
  simpl. revert s. induction l as [|s' l IH]; intros s; simpl; [by rewrite string_app_nil_r|].
  by rewrite IH, !string_app_assoc.
Qed.
Lemma elements_text w e (f : pyval -> string) (g : pyval -> pyval) l : blanks w -> blanks e ->
  Forall (fun v => text_of (g v) (f v)) l ->
  more_elements (map g l) (join_tail ("," +:+ w) (map f l) +:+ e +:+ "]").
Proof.
  intros Hw He. induction 1 as [|v l Hv _ IH]; simpl; [by constructor|].
  rewrite !string_app_assoc. by constructor.
Qed.
Definition member (f : pyval -> string) (kv : string * pyval) : string :=
  json_str kv.1 +:+ ": " +:+ f kv.2.
Lemma members_text w e (f : pyval -> string) (g : pyval -> pyval) d : blanks w -> blanks e ->
  Forall (fun kv => text_of (g kv.2) (f kv.2)) d ->
  more_members (map (fun kv => (kv.1, g kv.2)) d)
    (join_tail ("," +:+ w) (map (member f) d) +:+ e +:+ "}").
Proof.
  intros Hw He. induction 1 as [|[k v] d Hv _ IH]; simpl; [by constructor|].
  unfold member at 1. rewrite !string_app_assoc. by constructor.
Qed.
Lemma list_text w w' e (f : pyval -> string) (g : pyval -> pyval) l : blanks w -> blanks w' -> blanks e ->
  Forall (fun v => text_of (g v) (f v)) l ->
  text_of (VList (map g l)) ("[" +:+ w +:+ str_join ("," +:+ w') (map f l) +:+ e +:+ "]").
Proof.
  intros Hw Hw' He. destruct 1 as [|v l Hv Hl].
  - change (str_join _ _ +:+ e +:+ "]") with (e +:+ "]"). rewrite <-(string_app_assoc w).
    apply TextNoElements. unfold blanks in *. by rewrite all_chars_app, Hw, He.
  - cbn [map]. rewrite str_join_cons, string_app_assoc. constructor; [done..|].
    by apply elements_text.
Qed.
Lemma dict_text w w' e (f : pyval -> string) (g : pyval -> pyval) d : blanks w -> blanks w' -> blanks e ->
  Forall (fun kv => text_of (g kv.2) (f kv.2)) d ->
  text_of (VDict (map (fun kv => (kv.1, g kv.2)) d))
    ("{" +:+ w +:+ str_join ("," +:+ w') (map (member f) d) +:+ e +:+ "}").
Proof.
  intros Hw Hw' He. destruct 1 as [|[k v] d Hv Hd].
  - change (str_join _ _ +:+ e +:+ "}") with (e +:+ "}"). rewrite <-(string_app_assoc w).
    apply TextNoMembers. unfold blanks in *. by rewrite all_chars_app, Hw, He.
  - cbn [map]. rewrite str_join_cons. unfold member at 1. rewrite !string_app_assoc.
    constructor; [done..|]. by apply members_text.
Qed.
(** The members as the printers order them. *)
Lemma printed_members srt f (d : dict string pyval) :
  map snd (ordering srt (map (fun kv => (kv.1, member f kv)) d)) = map (member f) (ordering srt d).
Proof. by rewrite (ordering_map srt (member f)), map_map. Qed.
Lemma ordering_Forall {V} srt P (d : dict string V) : Forall P d -> Forall P (ordering srt d).
Proof. by rewrite ordering_perm. Qed.
Lemma dumps_text srt v : plain v -> text_of (ordered srt v) (dumps srt v).
Proof.
  induction v as [| b | z | f | s | l IH | d IH] using pyval_nested_ind; intros Hp;
    try (by apply TextAtom); try by destruct Hp.
  - simpl in Hp. apply plain_list in Hp. apply (list_text "" " " ""); [done..|].
    rewrite Forall_forall in *. auto.
  - simpl in Hp. destruct Hp as [_ Hp%plain_dict]. cbn [dumps ordered].
    change (if srt then _ else _) with (ordering srt (map (fun kv => (kv.1, member (dumps srt) kv)) d)).
    rewrite printed_members, (ordering_map srt (fun kv => ordered srt kv.2)).
    apply (dict_text "" " " ""); [done..|]. apply ordering_Forall.
    rewrite Forall_forall in *. auto.
Qed.
Lemma blanks_newline n : blanks (newline +:+ spaces n).
Proof. unfold blanks. induction n as [|n IH]; [done|]. simpl in *. exact IH. Qed.
Lemma dumps_indent_text srt v n : plain v -> text_of (ordered srt v) (dumps_indent srt n v).
Proof.
  revert n. induction v as [| b | z | f | s | l IH | d IH] using pyval_nested_ind; intros n Hp;
    try (by apply TextAtom); try by destruct Hp.
  - simpl in Hp. apply plain_list in Hp. destruct l as [|v l]; [by apply (TextNoElements "")|].
    apply (list_text _ _ (newline +:+ spaces (2 * n))); try apply blanks_newline.
    rewrite Forall_forall in *. auto.
  - simpl in Hp. destruct Hp as [_ Hp%plain_dict].
    destruct d as [|kv d].
    { by destruct srt; apply (TextNoMembers ""). }
    cbn [dumps_indent ordered].
    change (if srt then _ else _) with
      (ordering srt (map (fun kv => (kv.1, member (dumps_indent srt (S n)) kv)) (kv :: d))).
    rewrite printed_members, (ordering_map srt (fun kv => ordered srt kv.2)).
    apply (dict_text _ _ (newline +:+ spaces (2 * n))); try apply blanks_newline.
    apply ordering_Forall. rewrite Forall_forall in *. auto.
Qed.

(** ** The round trip *)
Lemma parse_text v t : text_of v t -> parse t = inl (rebuilt v).
Proof.
  intros Ht. destruct (proj1 texts_scanned _ _ Ht "" eq_refl) as [n E].
  rewrite string_app_nil_r in E. pose proof (text_opening _ _ Ht) as Ho.
  assert (skip_blanks t = t) as Es
    by (rewrite <-(string_app_nil_r t) at 1; by rewrite skip_opening, string_app_nil_r).
  unfold parse. rewrite Es. pose proof (proj1 (scan_consumes (loads_fuel t)) t (le_n _)) as Hc.
  assert (scan_once (loads_fuel t) t = Got (rebuilt v) "") as ->; [|done].
  destruct (scan_once (loads_fuel t) t) as [x r|f] eqn:El.
  - pose proof (proj1 (scan_fuel _ _ (Nat.le_max_l n (loads_fuel t))) _ _ _ E) as E1.
    pose proof (proj1 (scan_fuel _ _ (Nat.le_max_r n (loads_fuel t))) _ _ _ El) as E2. congruence.
  - destruct (Nat.le_ge_cases n (loads_fuel t)) as [Hl|Hl].
    + rewrite (proj1 (scan_fuel _ _ Hl) _ _ _ E) in El. done.
    + exfalso. assert (scan_once n t = Bad f) as E'; [|congruence]. clear E.
      induction Hl as [|m _ IH]; [done|]. rewrite (proj1 (scan_more m)); [done|].
      rewrite IH. simpl in Hc. congruence.
Qed.

(** What [json.dumps] prints of a value, compact or indented, [json.loads] reads
    back, with the keys in the order they were printed. *)
Theorem json_round_trip (errors : JsonErrors) srt v : plain v ->
  json_loads (dumps srt v) = Ok (ordered srt v) /\
  forall n, json_loads (dumps_indent srt n v) = Ok (ordered srt v).
Proof.
  intros Hp. pose proof (rebuilt_plain _ (ordered_plain srt v Hp)) as Hr.
  unfold json_loads. split; [|intros n].
  - by rewrite (parse_text _ _ (dumps_text srt v Hp)), Hr.
  - by rewrite (parse_text _ _ (dumps_indent_text srt v n Hp)), Hr.
Qed.

(** *** What is printed is ASCII *)
Definition printable (c : ascii) : bool :=
  let n := N_of_ascii c in ((32 <=? n) && (n <=? 126))%N.
Lemma all_printable_app a b :
  all_chars printable a = true -> all_chars printable b = true -> all_chars printable (a +:+ b) = true.
Proof. rewrite all_chars_app. by intros -> ->. Qed.
Lemma escape_printable s : all_chars printable (escape s) = true.
Proof.
  induction s as [|c s IH]; [done|]. simpl. apply all_printable_app; [|done].
  clear. destruct c as [[] [] [] [] [] [] [] []]; by vm_compute.
Qed.
Lemma json_str_printable s : all_chars printable (json_str s) = true.
Proof. unfold json_str. by apply all_printable_app, all_printable_app; [|apply escape_printable|]. Qed.
Lemma str_join_printable sep l :
  all_chars printable sep = true -> Forall (fun s => all_chars printable s = true) l ->
  all_chars printable (str_join sep l) = true.
Proof.
  intros Hs Hl. destruct Hl as [|s l H Hl]; [done|]. rewrite str_join_cons.
  apply all_printable_app; [done|]. induction Hl; [done|]. simpl.
  by apply all_printable_app, all_printable_app.
Qed.
Lemma decimal_printable s : all_chars decimal_digit s = true -> all_chars printable s = true.
Proof.
  induction s as [|c s IH]; [done|]. simpl. intros [Hc Hs]%andb_prop. rewrite IH by done.
  destruct c as [[] [] [] [] [] [] [] []]; (by vm_compute in Hc) || done.
Qed.
Lemma zstr_printable z : all_chars printable (zstr z) = true.
Proof.
  assert (forall p, all_chars printable (pretty_N_go (N.pos p) "") = true) as K.
  { intros p. destruct (pretty_go_digits (N.pos p) "") as (ds & E & Hd & _).
    rewrite string_app_nil_r in E. rewrite E. by apply decimal_printable. }
  destruct z as [|p|p]; [done|apply K|].
  change (zstr (Z.neg p)) with (String "-" (pretty_N_go (N.pos p) "")). simpl. apply K.
Qed.
(** A printed value is a line of printable ASCII. *)
Lemma dumps_printable v : plain v -> all_chars printable (dumps false v) = true.
Proof.
  induction v as [| b | z | f | s | l IH | d IH] using pyval_nested_ind; intros Hp; cbn [dumps json_scalar].
  - done.
  - by destruct b.
  - apply zstr_printable.
  - done.
  - apply json_str_printable.
  - simpl in Hp. apply plain_list in Hp.
    apply all_printable_app, all_printable_app; [done| |done]. apply str_join_printable; [done|].
    rewrite Forall_map. rewrite Forall_forall in *. auto.
  - simpl in Hp. destruct Hp as [_ Hp%plain_dict].
    apply all_printable_app, all_printable_app; [done| |done]. apply str_join_printable; [done|].
    rewrite map_map, Forall_map. rewrite Forall_forall in *. intros kv Hkv. simpl.
    apply all_printable_app; [apply json_str_printable|]. apply all_printable_app; auto.
Qed.
Lemma printed_dict d : exists s, dumps false (VDict d) = String "{" (s +:+ "}").
Proof. eexists. reflexivity. Qed.
End Texts.
