(* ===== verification/ExecModels.v ===== *)
(** * Execution data model and capability registry

    [runtime/execution/models.py], [capability.py] and [policy.py]: statuses,
    failure reasons, worker states, tasks, execution contexts and results, model
    definitions and bindings, and the registry of governed capabilities with
    the twelve capabilities it is created with. *)
From S2P Require Import Prelude Dict PyVal.

Inductive ExecutorType := DETERMINISTIC | LOCAL_MODEL | REMOTE_MODEL.
#[export] Instance ExecutorType_eq_dec : EqDecision ExecutorType.
Proof. solve_decision. Defined.

(** A member of a [str] enumeration is its value. *)
Definition executor_type_str (e : ExecutorType) : string :=
  match e with
  | DETERMINISTIC => "DETERMINISTIC"
  | LOCAL_MODEL => "LOCAL_MODEL"
  | REMOTE_MODEL => "REMOTE_MODEL"
  end.

Record CapabilityDefinition := mkCapabilityDefinition {
  capability_id : string;
  cap_name : string;
  cap_description : string;
  cap_version : string;
  risk_level : string;
  inference_required : bool;
  deterministic_allowed : bool;
  cap_network_policy : string;
  cap_filesystem_policy : string;
  required_tools : list string;
  cap_max_runtime : Z;
  cap_max_output : Z;
  evidence_required : bool;
  preferred_executor : ExecutorType;
  fallback_executor : option ExecutorType;
  enabled : bool;
  family : string;
  side_effect : string;
  cacheable : bool;
  hermetic : bool }.

(** [CapabilityRegistry._capabilities] *)
Definition CapabilityRegistry := dict string CapabilityDefinition.

(** One row of the [caps] list of [_register_initial], and the definition the
    loop builds from it. *)
Definition initial_cap (cap_id name desc : string) (inf_req : bool)
    (pref_exec : ExecutorType) (fam side : string) (cache herm : bool)
    : CapabilityDefinition :=
  {| capability_id := cap_id; cap_name := name; cap_description := desc;
     cap_version := "1.1.0";
     risk_level := if side =s "read" then "low" else "high";
     inference_required := inf_req;
     deterministic_allowed := bool_decide (pref_exec = DETERMINISTIC);
     cap_network_policy := "disabled";
     cap_filesystem_policy := if side =s "read" then "read_only" else "workspace_only";
     required_tools := [cap_id];
     cap_max_runtime := 60; cap_max_output := 1024 * 1024;
     evidence_required := true;
     preferred_executor := pref_exec; fallback_executor := None;
     enabled := side =s "read";
     family := fam; side_effect := side; cacheable := cache; hermetic := herm |}.

Definition initial_caps : list CapabilityDefinition :=
  [ initial_cap "document.classify" "Document Classify" "Classifies a document."
      true LOCAL_MODEL "document" "read" false false;
    initial_cap "filesystem.inspect" "Filesystem Inspect" "Inspects file metadata."
      false DETERMINISTIC "filesystem" "read" true true;
    initial_cap "filesystem.list" "Filesystem List" "Lists directory contents."
      false DETERMINISTIC "filesystem" "read" true true;
    initial_cap "filesystem.hash" "Filesystem Hash" "Hashes file contents."
      false DETERMINISTIC "integrity" "read" true true;
    initial_cap "repository.inspect" "Repository Inspect" "Inspects repository metadata."
      false DETERMINISTIC "repository" "read" true true;
    initial_cap "repository.search" "Repository Search" "Searches a local repository."
      false DETERMINISTIC "repository" "read" true true;
    initial_cap "repository.read" "Repository Read" "Reads repository state and metadata."
      false DETERMINISTIC "repository" "read" true true;
    initial_cap "repository.diff" "Repository Diff" "Computes a local repository diff."
      false DETERMINISTIC "repository" "read" true true;
    initial_cap "artifact.metadata" "Artifact Metadata" "Gets local artifact metadata."
      false DETERMINISTIC "artifact" "read" true true;
    initial_cap "schema.validate" "Schema Validate"
      "Validates structured data against an explicit schema contract."
      false DETERMINISTIC "validation" "read" true true;
    initial_cap "fabric.read" "Fabric Read" "Reads operational fabric state."
      false DETERMINISTIC "fabric" "read" false false;
    initial_cap "fabric.register" "Fabric Register" "Registers a fabric entry."
      false DETERMINISTIC "fabric" "write" false false ].

(** [CapabilityRegistry.register], [get], [list_all] *)
Definition cap_register (cap : CapabilityDefinition) (r : CapabilityRegistry)
  : CapabilityRegistry := dset (capability_id cap) cap r.
Definition cap_get (id : string) (r : CapabilityRegistry) : option CapabilityDefinition :=
  dget id r.
Definition cap_list_all (r : CapabilityRegistry) : list CapabilityDefinition := dvalues r.
Definition cap_registry_init : CapabilityRegistry :=
  foldl (fun r c => cap_register c r) [] initial_caps.

(** The keys of a registry are the identifiers of its definitions: what every
    sequence of [register] calls maintains. *)
Definition cap_registry_wf (r : CapabilityRegistry) : Prop :=
  dict_wf r /\ Forall (fun kv => capability_id kv.2 = kv.1) r.

Record RuntimePolicy := mkRuntimePolicy {
  policy_version_ : string;
  allow_llm : bool;
  enforce_strict_isolation : bool }.
Definition default_policy : RuntimePolicy :=
  {| policy_version_ := "1.0.0"; allow_llm := false; enforce_strict_isolation := true |}.

(** ** Execution *)
Inductive ExecutionStatus :=
  | ES_QUEUED | ES_RUNNING | ES_SUCCEEDED | ES_FAILED | ES_TIMED_OUT
  | ES_CANCELLED | ES_LIMIT_EXCEEDED.
#[export] Instance ExecutionStatus_eq_dec : EqDecision ExecutionStatus.
Proof. solve_decision. Defined.

Inductive FailureReason :=
  | TOOL_ERROR | EXECUTION_ERROR | FR_TIMEOUT | FR_LIMIT_EXCEEDED
  | AUTHORIZATION_DENIED | INVALID_TASK | UNSUPPORTED_EXECUTOR.
#[export] Instance FailureReason_eq_dec : EqDecision FailureReason.
Proof. solve_decision. Defined.

Inductive WorkerState :=
  | WS_CREATED | WS_STARTING | WS_RUNNING | WS_SUCCEEDED | WS_FAILED
  | WS_TIMED_OUT | WS_CANCELLED | WS_LIMIT_EXCEEDED | WS_TERMINATED.
#[export] Instance WorkerState_eq_dec : EqDecision WorkerState.
Proof. solve_decision. Defined.

(** Instants are integers (microseconds since the epoch). *)
Record WorkerDefinition := mkWorkerDefinition {
  worker_id : string;
  wd_execution_id : string;
  wd_task_id : string;
  wd_account_id : string;
  wd_project_id : string;
  wd_capability_id : string;
  wd_executor_type : string;
  wd_executor_id : string;
  wd_model_id : option string;
  wd_workspace_id : string;
  wd_created_at : Z;
  wd_deadline : Z;
  wd_resource_limits : dict string pyval;
  wd_network_policy : string;
  wd_filesystem_policy : string;
  wd_state : WorkerState;
  wd_started_at : option Z;
  wd_finished_at : option Z;
  wd_department_id : option string;
  wd_routing_class : option string;
  wd_capability_family : option string }.
#[export] Instance eta_WorkerDefinition : Eta WorkerDefinition := fun r =>
  mkWorkerDefinition (worker_id r) (wd_execution_id r) (wd_task_id r) (wd_account_id r)
    (wd_project_id r) (wd_capability_id r) (wd_executor_type r) (wd_executor_id r)
    (wd_model_id r) (wd_workspace_id r) (wd_created_at r) (wd_deadline r)
    (wd_resource_limits r) (wd_network_policy r) (wd_filesystem_policy r) (wd_state r)
    (wd_started_at r) (wd_finished_at r) (wd_department_id r) (wd_routing_class r)
    (wd_capability_family r).

Record Task := mkTask {
  t_task_id : string;
  t_capability_id : string;
  t_account_id : string;
  t_project_id : string;
  t_input : dict string pyval;
  t_constraints : dict string pyval;
  t_deadline : Z;
  t_workspace_policy : string;
  t_evidence_policy : string;
  t_requested_by : string;
  t_created_at : Z;
  t_department_id : option string }.

(** The context of one execution.  It is one object shared by the manager, the
    worker and the executor: the models below pass it as state. *)
Record TaskExecutionContext := mkContext {
  c_execution_id : string;
  c_task_id : string;
  c_account_id : string;
  c_project_id : string;
  c_capability_id : string;
  c_workspace_path : string;
  c_environment : dict string string;
  c_allowed_tools : list string;
  c_deadline : Z;
  c_resource_limits : dict string pyval;
  c_network_policy : string;
  c_write_policy : string;
  c_status : ExecutionStatus;
  c_result : pyval;
  c_failure_reason : option FailureReason;
  c_error_message : option string;
  c_started_at : option Z;
  c_completed_at : option Z;
  c_duration_ms : option Z;
  c_executor_type : option string;
  c_executor_id : option string;
  c_executor_version : option string;
  c_model_id : option string;
  c_model_version : option string;
  c_policy_version : option string;
  c_input_hash : option string;
  c_result_hash : option string;
  c_evidence_ref : option string;
  c_routing_class : option string;
  c_capability_family : option string;
  c_department_id : option string;
  c_generation : option Z }.
#[export] Instance eta_TaskExecutionContext : Eta TaskExecutionContext := fun r =>
  mkContext (c_execution_id r) (c_task_id r) (c_account_id r) (c_project_id r)
    (c_capability_id r) (c_workspace_path r) (c_environment r) (c_allowed_tools r)
    (c_deadline r) (c_resource_limits r) (c_network_policy r) (c_write_policy r)
    (c_status r) (c_result r) (c_failure_reason r) (c_error_message r) (c_started_at r)
    (c_completed_at r) (c_duration_ms r) (c_executor_type r) (c_executor_id r)
    (c_executor_version r) (c_model_id r) (c_model_version r) (c_policy_version r)
    (c_input_hash r) (c_result_hash r) (c_evidence_ref r) (c_routing_class r)
    (c_capability_family r) (c_department_id r) (c_generation r).

Definition execution_status_str (s : ExecutionStatus) : string :=
  match s with
  | ES_QUEUED => "QUEUED" | ES_RUNNING => "RUNNING" | ES_SUCCEEDED => "SUCCEEDED"
  | ES_FAILED => "FAILED" | ES_TIMED_OUT => "TIMED_OUT" | ES_CANCELLED => "CANCELLED"
  | ES_LIMIT_EXCEEDED => "LIMIT_EXCEEDED"
  end.
(** [ExecutionStatus(v)]: None stands for the [ValueError]. *)
Definition execution_status_of (v : string) : option ExecutionStatus :=
  find (fun s => execution_status_str s =s v)
    [ES_QUEUED; ES_RUNNING; ES_SUCCEEDED; ES_FAILED; ES_TIMED_OUT; ES_CANCELLED;
     ES_LIMIT_EXCEEDED].
Definition failure_reason_str (r : FailureReason) : string :=
  match r with
  | TOOL_ERROR => "TOOL_ERROR" | EXECUTION_ERROR => "EXECUTION_ERROR"
  | FR_TIMEOUT => "TIMEOUT" | FR_LIMIT_EXCEEDED => "LIMIT_EXCEEDED"
  | AUTHORIZATION_DENIED => "AUTHORIZATION_DENIED" | INVALID_TASK => "INVALID_TASK"
  | UNSUPPORTED_EXECUTOR => "UNSUPPORTED_EXECUTOR"
  end.
Definition worker_state_str (s : WorkerState) : string :=
  match s with
  | WS_CREATED => "CREATED" | WS_STARTING => "STARTING" | WS_RUNNING => "RUNNING"
  | WS_SUCCEEDED => "SUCCEEDED" | WS_FAILED => "FAILED" | WS_TIMED_OUT => "TIMED_OUT"
  | WS_CANCELLED => "CANCELLED" | WS_LIMIT_EXCEEDED => "LIMIT_EXCEEDED"
  | WS_TERMINATED => "TERMINATED"
  end.

(** ** Models *)
Inductive ModelState :=
  | MS_REGISTERED | MS_AVAILABLE | MS_UNAVAILABLE | MS_INSTALL_REQUIRED
  | MS_DISABLED | MS_DEPRECATED | MS_QUARANTINED.
#[export] Instance ModelState_eq_dec : EqDecision ModelState.
Proof. solve_decision. Defined.

Definition model_state_str (s : ModelState) : string :=
  match s with
  | MS_REGISTERED => "REGISTERED" | MS_AVAILABLE => "AVAILABLE"
  | MS_UNAVAILABLE => "UNAVAILABLE" | MS_INSTALL_REQUIRED => "INSTALL_REQUIRED"
  | MS_DISABLED => "DISABLED" | MS_DEPRECATED => "DEPRECATED"
  | MS_QUARANTINED => "QUARANTINED"
  end.
(** [ModelState(v)] *)
Definition model_state_of (v : string) : option ModelState :=
  find (fun s => model_state_str s =s v)
    [MS_REGISTERED; MS_AVAILABLE; MS_UNAVAILABLE; MS_INSTALL_REQUIRED; MS_DISABLED;
     MS_DEPRECATED; MS_QUARANTINED].

Record ModelDefinition := mkModelDefinition {
  md_model_id : string;
  md_display_name : string;
  md_provider : string;
  md_executor_type : string;
  md_version : string;
  md_status : ModelState;
  md_capabilities_supported : list string;
  md_capabilities_forbidden : list string;
  md_hardware_requirements : dict string pyval;
  md_memory_requirements : dict string pyval;
  md_context_window : Z;
  md_quantization : string;
  md_artifact_uri : string;
  md_artifact_sha256 : string;
  md_runtime_interface : string;
  md_max_concurrency : Z;
  md_max_runtime : Z;
  md_max_input_size : Z;
  md_max_output_size : Z;
  md_network_policy : string;
  md_evidence_policy : string }.
#[export] Instance eta_ModelDefinition : Eta ModelDefinition := fun r =>
  mkModelDefinition (md_model_id r) (md_display_name r) (md_provider r)
    (md_executor_type r) (md_version r) (md_status r) (md_capabilities_supported r)
    (md_capabilities_forbidden r) (md_hardware_requirements r) (md_memory_requirements r)
    (md_context_window r) (md_quantization r) (md_artifact_uri r) (md_artifact_sha256 r)
    (md_runtime_interface r) (md_max_concurrency r) (md_max_runtime r)
    (md_max_input_size r) (md_max_output_size r) (md_network_policy r)
    (md_evidence_policy r).

Record ModelCapabilityBinding := mkBinding {
  b_model_id : string;
  b_capability_id : string;
  b_authorization : string;
  b_quality_profile : string;
  b_risk_limit : string;
  b_preferred : bool;
  b_fallback : bool;
  b_reason : string }.

(** ** The capability registry *)
Lemma cap_register_wf c r : cap_registry_wf r -> cap_registry_wf (cap_register c r).
Proof.
  intros [Hd Hk]. split; [by apply dset_wf|]. unfold cap_register.
  clear Hd. induction r as [|[k v] r IH]; simpl; [by repeat constructor|].
  inv Hk. case_decide; subst; constructor; auto.
Qed.

Lemma cap_registry_init_wf : cap_registry_wf cap_registry_init.
Proof.
  unfold cap_registry_init.
  assert (forall l r, cap_registry_wf r ->
            cap_registry_wf (foldl (fun r c => cap_register c r) r l)) as H.
  { induction l as [|c l IH]; simpl; auto using cap_register_wf. }
  apply H. split; constructor.
Qed.

Lemma cap_get_id id r c : cap_registry_wf r -> cap_get id r = Some c -> capability_id c = id.
Proof.
  intros [_ Hk] Hg%dget_elem. rewrite Forall_forall in Hk. by apply (Hk (id, c)).
Qed.

Lemma execution_status_roundtrip s : execution_status_of (execution_status_str s) = Some s.
Proof. by destruct s. Qed.
Lemma model_state_roundtrip s : model_state_of (model_state_str s) = Some s.
Proof. by destruct s. Qed.
