(* ===== verification/Host.v ===== *)
(** * The host: files and clock

    The part of the operating system the execution path reads and writes:
    a file system as a map from absolute normalised paths to nodes (no
    symbolic links), the clock as a sequence of readings (the n-th call of
    [datetime.now] returns [clock n]), and the file operations of [os],
    [shutil] and [open] on them. *)
From stdpp Require Export gmap.
From S2P Require Import Prelude PyVal Effects PyPath PyStr.

Inductive node :=
  | File (content : string) (mode : Z) (mtime : pyfloat)
  | Dir (mode : Z) (size : Z) (mtime : pyfloat).
Abbreviation fs := (gmap string node).

Record Host := mkHost { h_fs : fs; h_tick : nat }.
#[export] Instance eta_Host : Eta Host := fun r => mkHost (h_fs r) (h_tick r).

(** [os.path.exists], [isdir], [isfile] *)
Definition exists_ (f : fs) (p : string) : bool :=
  match f !! p with Some _ => true | None => false end.
Definition isdir (f : fs) (p : string) : bool :=
  match f !! p with Some (Dir _ _ _) => true | _ => false end.
Definition isfile (f : fs) (p : string) : bool :=
  match f !! p with Some (File _ _ _) => true | _ => false end.

Definition st_size (n : node) : Z :=
  match n with File c _ _ => Z.of_nat (String.length c) | Dir _ s _ => s end.
Definition st_mode (n : node) : Z :=
  match n with File _ m _ => m | Dir m _ _ => m end.
Definition st_mtime (n : node) : pyfloat :=
  match n with File _ _ t => t | Dir _ _ t => t end.

Definition string_drop (n : nat) (s : string) : string :=
  String.substring n (String.length s - n) s.

(** [sorted(os.listdir(p))]: the names of the entries directly below [p]. *)
Definition listdir_sorted (f : fs) (p : string) : list string :=
  let pre := p +:+ "/" in
  sort_strings (omap (fun kv =>
    let name := string_drop (String.length pre) kv.1 in
    if startswith pre kv.1 && no_slash name && str_true name then Some name else None)
    (map_to_list f)).

(** The directories on the way to [p], outermost first, [p] last. *)
Fixpoint ancestors_go (pre : string) (ws : list string) : list string :=
  match ws with
  | [] => []
  | w :: ws' => let p := pre +:+ "/" +:+ w in p :: ancestors_go p ws'
  end.
Definition ancestors (p : string) : list string :=
  ancestors_go "" (filter (fun w => w <> "") (split_slash p)).

(** The mode of the directory file type, added to the permission bits. *)
Definition S_IFDIR : Z := 16384.
Definition S_IFREG : Z := 32768.

(** [os.makedirs(p, mode, exist_ok)]: missing ancestors are created, and a
    file in the way or, without [exist_ok], an existing directory raises.
    [mode] is the leaf's; intermediate directories have 0o777 under the umask
    022. *)
Definition mkdir_missing (mode : Z) (leaf : string) (t : pyfloat) (f : fs) (p : string) : fs :=
  match f !! p with
  | Some _ => f
  | None => <[p := Dir (S_IFDIR + if p =s leaf then mode else 493) 0 t]> f
  end.
Definition makedirs (mode : Z) (exist_ok : bool) (t : pyfloat) (p : string) (f : fs)
    : result fs :=
  if existsb (isfile f) (ancestors p)
  then raise OSError ("Not a directory: " +:+ p)
  else if isdir f p && negb exist_ok
  then raise FileExistsError ("File exists: " +:+ p)
  else Ok (foldl (mkdir_missing mode p t) f (ancestors p)).

(** [shutil.rmtree(p, ignore_errors=True)] *)
Definition rmtree (p : string) (f : fs) : fs :=
  filter (fun kv => kv.1 <> p /\ below p kv.1 = false) f.

(** [open(p, "w").write(content)]: the parent must be a directory. *)
Definition dirname (p : string) : string :=
  match rev (ancestors p) with _ :: d :: _ => d | _ => "/" end.
Definition write_text (t : pyfloat) (p content : string) (f : fs) : result fs :=
  if isdir f p then raise OSError ("Is a directory: " +:+ p)
  else if isdir f (dirname p) then Ok (<[p := File content (S_IFREG + 420) t]> f)
  else raise OSError ("No such file or directory: " +:+ p).

(** Sum of the sizes of the files below [p]: [os.walk] with [getsize]. *)
Definition tree_size (p : string) (f : fs) : Z :=
  map_fold (fun k n acc =>
    match n with
    | File c _ _ => if below p k then (Z.of_nat (String.length c) + acc)%Z else acc
    | Dir _ _ _ => acc
    end) 0%Z f.

Section Ops.
Context (clock : nat -> Z).

(** [datetime.now(timezone.utc)] *)
Definition now : M Host Z := fun h =>
  (h <| h_tick := S (h_tick h) |>, Ok (clock (h_tick h))).
(** The modification time of a file written now, in seconds. *)
Definition mtime_now (h : Host) : pyfloat :=
  fdiv (f_of_Z (clock (h_tick h))) (f_of_Z 1000000).
Definition fs_op (op : pyfloat -> fs -> result fs) : M Host unit := fun h =>
  match op (mtime_now h) (h_fs h) with
  | Ok f => (h <| h_fs := f |>, Ok tt)
  | Raise e => (h, Raise e)
  end.
Definition os_makedirs (mode : Z) (exist_ok : bool) (p : string) : M Host unit :=
  fs_op (fun t => makedirs mode exist_ok t p).
Definition os_write (p content : string) : M Host unit :=
  fs_op (fun t => write_text t p content).
Definition os_rmtree (p : string) : M Host unit := modify (fun h => h <| h_fs := rmtree p (h_fs h) |>).
End Ops.

(** [int((b - a).total_seconds() * 1000)] for instants in microseconds:
    [total_seconds] is the correctly rounded quotient by a million, and [int]
    truncates the float product. *)
Definition duration_ms (a b : Z) : Z :=
  f_trunc (fmul (fdiv (f_of_Z (b - a)) (f_of_Z 1000000)) (f_of_Z 1000)).

Lemma rmtree_below p f q : q = p \/ below p q = true -> rmtree p f !! q = None.
Proof.
  intros Hq. apply map_lookup_filter_None_2. right. intros n Hn [H1 H2]. simpl in *.
  destruct Hq as [->|Hq]; [done|congruence].
Qed.

Lemma rmtree_outside p f q : q <> p -> below p q = false -> rmtree p f !! q = f !! q.
Proof.
  intros H1 H2. destruct (f !! q) as [n|] eqn:E.
  - by apply map_lookup_filter_Some_2.
  - apply map_lookup_filter_None_2. by left.
Qed.

Lemma mkdir_missing_mono mode l t f p q n :
  f !! q = Some n -> mkdir_missing mode l t f p !! q = Some n.
Proof.
  unfold mkdir_missing. intros Hq. destruct (f !! p) eqn:E; [done|].
  rewrite lookup_insert_ne; [done|]. intros ->. congruence.
Qed.

Lemma makedirs_mono mode b t p f f' q n :
  makedirs mode b t p f = Ok f' -> f !! q = Some n -> f' !! q = Some n.
Proof.
  unfold makedirs. intros H. repeat case_match; simplify_eq. clear.
  generalize (ancestors p) as l. intros l. revert f.
  induction l as [|a l IH]; intros f Hq; simpl; [done|].
  apply IH. by apply mkdir_missing_mono.
Qed.

Lemma mkdir_missing_other mode l t f p q :
  q <> p -> mkdir_missing mode l t f p !! q = f !! q.
Proof.
  unfold mkdir_missing. intros Hq. destruct (f !! p) eqn:E; [done|]. by rewrite lookup_insert_ne.
Qed.

Lemma mkdir_missing_isdir mode l t f p :
  isfile f p = false -> isdir (mkdir_missing mode l t f p) p = true.
Proof.
  unfold mkdir_missing, isfile, isdir. intros H.
  destruct (f !! p) as [[]|] eqn:E; rewrite ?E; try done. by rewrite lookup_insert_eq.
Qed.

Lemma mkdir_missing_isfile mode l t f p q :
  isfile (mkdir_missing mode l t f p) q = isfile f q.
Proof.
  unfold mkdir_missing, isfile. destruct (f !! p) eqn:E; [done|].
  destruct (decide (q = p)) as [->|Hne].
  - by rewrite lookup_insert_eq, E.
  - by rewrite lookup_insert_ne.
Qed.

Lemma mkdirs_isdir_mono mode p t l f q :
  isdir f q = true -> isdir (foldl (mkdir_missing mode p t) f l) q = true.
Proof.
  revert f. induction l as [|x l IH]; intros f Hd; simpl; [done|]. apply IH.
  unfold isdir in *. destruct (f !! q) as [n|] eqn:E; [|done].
  by rewrite (mkdir_missing_mono _ _ _ _ _ _ n).
Qed.

(** [makedirs] only creates ancestors of its path. *)
Lemma makedirs_other mode b t p f f' q :
  makedirs mode b t p f = Ok f' -> q ∉ ancestors p -> f' !! q = f !! q.
Proof.
  unfold makedirs. intros H. repeat case_match; simplify_eq. clear.
  generalize (ancestors p) as l. intros l. revert f.
  induction l as [|a l IH]; intros f Hq; simpl; [done|].
  apply not_elem_of_cons in Hq as [Hq1 Hq2]. rewrite IH by done. by apply mkdir_missing_other.
Qed.

Lemma mkdirs_isdir mode p t l f q :
  existsb (isfile f) l = false -> q ∈ l ->
  isdir (foldl (mkdir_missing mode p t) f l) q = true.
Proof.
  revert f. induction l as [|a l IH]; intros f Ef Hq; [by apply not_elem_of_nil in Hq|].
  simpl in Ef. apply orb_false_iff in Ef as [Ef1 Ef2]. simpl.
  apply elem_of_cons in Hq as [->|Hq].
  - by apply mkdirs_isdir_mono, mkdir_missing_isdir.
  - apply IH; [|done]. rewrite <-Ef2. clear. induction l as [|x l IH]; simpl; [done|].
    by rewrite mkdir_missing_isfile, IH.
Qed.

(** After it all of them are directories. *)
Lemma makedirs_isdir mode b t p f f' q :
  makedirs mode b t p f = Ok f' -> q ∈ ancestors p -> isdir f' q = true.
Proof.
  unfold makedirs. destruct (existsb _ _) eqn:Ef; [done|].
  case_match; intros; simplify_eq. by apply mkdirs_isdir.
Qed.

Lemma ancestors_last pre ws : ws <> [] ->
  last (ancestors_go pre ws) = Some (pre +:+ "/" +:+ join_slash ws).
Proof.
  revert pre. induction ws as [|w ws IH]; intros pre Hne; [done|].
  destruct ws as [|w' ws]; [done|].
  change (ancestors_go pre (w :: w' :: ws))
    with ((pre +:+ "/" +:+ w) :: ancestors_go (pre +:+ "/" +:+ w) (w' :: ws)).
  change (join_slash (w :: w' :: ws)) with (w +:+ "/" +:+ join_slash (w' :: ws)).
  rewrite last_cons, IH by done. by rewrite !string_app_assoc.
Qed.

(** An absolute normalised path is the last of its own ancestors. *)
Lemma ancestors_self ws : ws <> [] -> Forall proper ws ->
  ("/" +:+ join_slash ws) ∈ ancestors ("/" +:+ join_slash ws).
Proof.
  intros Hne Hws. apply last_elem. unfold ancestors.
  rewrite split_slash_abs, filter_cons_False by (done || (intros []; done)).
  rewrite split_join by (done || by eapply Forall_impl; [done|intros ? (?&?&?&?)]).
  rewrite filter_proper by done. by rewrite ancestors_last.
Qed.

Lemma ancestors_dir_path d : is_dir_path d -> d ∈ ancestors d.
Proof. intros (ws & ? & ? & ->). by apply ancestors_self. Qed.

(** What lies in a directory. *)
Lemma ancestors_go_snoc pre ws n :
  ws <> [] -> ancestors_go pre (ws ++ [n])
  = ancestors_go pre ws ++ [pre +:+ "/" +:+ join_slash (ws ++ [n])].
Proof.
  revert pre. induction ws as [|w ws IH]; intros pre Hne; [done|]. destruct ws as [|w' ws].
  - simpl. by rewrite !string_app_assoc.
  - change ((w :: w' :: ws) ++ [n]) with (w :: ((w' :: ws) ++ [n])).
    change (ancestors_go pre (w :: ?l)) with ((pre +:+ "/" +:+ w) :: ancestors_go (pre +:+ "/" +:+ w) l).
    simpl ancestors_go. f_equal. specialize (IH (pre +:+ "/" +:+ w)). simpl in IH. rewrite IH by done.
    simpl. do 3 f_equal. by rewrite !string_app_assoc.
Qed.
Lemma ancestors_abs ws : ws <> [] -> Forall proper ws -> ancestors ("/" +:+ join_slash ws) = ancestors_go "" ws.
Proof.
  intros Hne Hws. unfold ancestors.
  rewrite split_slash_abs, filter_cons_False by (done || (intros []; done)).
  rewrite split_join by (done || by eapply Forall_impl; [done|intros ? (?&?&?&?)]).
  by rewrite filter_proper.
Qed.
Lemma dirname_join d n : is_dir_path d -> proper n -> dirname (path_join d n) = d.
Proof.
  intros Hd Hn. destruct (path_join_proper d n Hd Hn) as [-> _].
  destruct Hd as (ws & Hne & Hws & ->).
  assert (("/" +:+ join_slash ws) +:+ "/" +:+ n = "/" +:+ join_slash (ws ++ [n])) as ->
    by (by rewrite join_snoc, string_app_assoc).
  unfold dirname. rewrite ancestors_abs; [|by destruct ws|apply Forall_app; split; [done|by apply Forall_singleton]].
  rewrite ancestors_go_snoc, rev_app_distr by done. simpl.
  pose proof (ancestors_last "" ws Hne) as Hl. apply last_Some in Hl as [l ->].
  by rewrite rev_app_distr.
Qed.
(** What lies in a directory is not on the way to it. *)
Lemma child_not_ancestor d n : is_dir_path d -> proper n -> path_join d n ∉ ancestors d.
Proof.
  intros Hd Hn. destruct (path_join_proper d n Hd Hn) as [-> _].
  assert (Forall (fun a => (String.length a <= String.length d)%nat) (ancestors d)) as Ha.
  { destruct Hd as (ws & Hne & Hws & ->). rewrite ancestors_abs by done. clear Hws n Hn.
    assert (forall pre, Forall (fun a => (String.length a <= String.length (pre +:+ "/" +:+ join_slash ws))%nat)
                          (ancestors_go pre ws)) as H.
    { induction ws as [|w ws IH]; [done|]. intros pre. destruct ws as [|w' ws].
      - apply List.Forall_cons; [done|apply List.Forall_nil].
      - change (ancestors_go pre (w :: w' :: ws)) with
          ((pre +:+ "/" +:+ w) :: ancestors_go (pre +:+ "/" +:+ w) (w' :: ws)).
        change (join_slash (w :: w' :: ws)) with (w +:+ "/" +:+ join_slash (w' :: ws)).
        apply List.Forall_cons; [rewrite !string_length_app; simpl; lia|].
        specialize (IH ltac:(done) (pre +:+ "/" +:+ w)). by rewrite !string_app_assoc in IH. }
    apply (H ""). }
  intros Hin. rewrite Forall_forall in Ha. apply Ha in Hin.
  rewrite !string_length_app in Hin. simpl in Hin. lia.
Qed.
Lemma os_write_ok clock p c h :
  isdir (h_fs h) p = false -> isdir (h_fs h) (dirname p) = true ->
  os_write clock p c h = (h <| h_fs := <[p := File c (S_IFREG + 420) (mtime_now clock h)]> (h_fs h) |>, Ok tt).
Proof. intros Hp Hd. unfold os_write, fs_op, write_text. by rewrite Hp, Hd. Qed.
