(* ===== verification/Workspace.v ===== *)
(** * Ephemeral workspaces

    [runtime/workspace/ephemeral.py]: creation, destruction and measurement of
    the directory of one execution.  The theorems show that creation yields a
    fresh directory below the base and changes nothing else than the
    directories on the way to it, and that destruction cannot touch anything
    outside the base. *)
From S2P Require Import Prelude Dict PyVal Effects PyPath PyStr Host.

Definition workspace_subdirs : list string :=
  ["input"; "work"; "output"; "logs"; "evidence"; "result"; "metadata"; "cache"].

Section Ephemeral.
(** The clock, the working directory and the argument of the constructor. *)
Context (clock : nat -> Z) (cwd : string) (base_arg : string).

Definition base_dir : string := abspath cwd base_arg.

(** [EphemeralWorkspaceManager.__init__] *)
Definition ephemeral_init : M Host unit := os_makedirs clock 448 true base_dir.

Definition workspace_path_of (execution_id project_id : string) : string :=
  abspath cwd (path_join (path_join base_dir (basename project_id)) execution_id).

Definition create_workspace (execution_id project_id : string) : M Host string :=
  when (negb (str_true execution_id) || negb (str_true project_id))
    (throw ValueError "execution_id and project_id are required") ;;
  let p := workspace_path_of execution_id project_id in
  when (negb (below base_dir p)) (throw ValueError "Workspace path escapes ephemeral base") ;;
  f ← gets h_fs;
  when (exists_ f p) (throw FileExistsError ("Workspace " +:+ p +:+ " already exists")) ;;
  os_makedirs clock 448 false p ;;
  for_each workspace_subdirs (fun name => os_makedirs clock 448 false (path_join p name)) ;;
  mret p.

Definition destroy_workspace (workspace_path : string) : M Host unit :=
  let normalized := abspath cwd workspace_path in
  when (negb (below base_dir normalized))
    (throw ValueError ("Cannot destroy path outside ephemeral base: " +:+ workspace_path)) ;;
  f ← gets h_fs;
  when (exists_ f normalized) (os_rmtree normalized).

Definition get_workspace_size (workspace_path : string) : M Host Z :=
  gets (fun h => tree_size workspace_path (h_fs h)).

Definition get_workspace_paths (workspace_path : string) : result (dict string string) :=
  let base := abspath cwd workspace_path in
  if negb (below base_dir base) then raise ValueError "Workspace path escapes ephemeral base"
  else Ok (("base", base) :: map (fun n => (n, path_join base n)) workspace_subdirs).

Lemma os_makedirs_wp mode b p h (Q : Host -> result unit -> Prop) :
  (forall f', makedirs mode b (mtime_now clock h) p (h_fs h) = Ok f' ->
     Q (h <| h_fs := f' |>) (Ok tt)) ->
  (forall e, makedirs mode b (mtime_now clock h) p (h_fs h) = Raise e -> Q h (Raise e)) ->
  wp (os_makedirs clock mode b p) h Q.
Proof.
  unfold wp, os_makedirs, fs_op. intros H1 H2.
  destruct (makedirs _ _ _ _ _) eqn:E; auto.
Qed.

(** A computation that only adds nodes. *)
Definition grows {A} (m : M Host A) : Prop :=
  forall h, wp m h (fun h' _ => forall q n, h_fs h !! q = Some n -> h_fs h' !! q = Some n).

Lemma os_makedirs_grows mode b p : grows (os_makedirs clock mode b p).
Proof.
  intros h. apply os_makedirs_wp; [|done]. intros f' Hf q n Hq. simpl.
  by eapply makedirs_mono.
Qed.

Lemma for_each_grows {A} (l : list A) f : (forall a, grows (f a)) -> grows (for_each l f).
Proof.
  intros Hf. induction l as [|a l IH]; intros h; [by apply wp_ret; intros q n Hq|].
  apply wp_bind. eapply wp_mono; [apply Hf|]. intros h1 [[]|e] H1; [|exact H1].
  eapply wp_mono; [apply IH|]. auto.
Qed.

Lemma for_each_makedirs_isdir p names h : 
  wp (for_each names (fun name => os_makedirs clock 448 false (path_join p name))) h
    (fun h' r => r = Ok tt -> forall n, n ∈ names ->
       path_join p n ∈ ancestors (path_join p n) -> isdir (h_fs h') (path_join p n) = true).
Proof.
  revert h. induction names as [|a names IH]; intros h.
  { apply wp_ret. intros _ n Hn. by apply not_elem_of_nil in Hn. }
  apply wp_bind, os_makedirs_wp; [|by intros]. intros f' Hf.
  eapply wp_mono.
  { eapply wp_and; [apply IH|].
    apply (for_each_grows names (fun name => os_makedirs clock 448 false (path_join p name))).
    intros; apply os_makedirs_grows. }
  intros h2 r [IH' Hg] Hr n Hn Hin. simpl in Hg.
  apply elem_of_cons in Hn as [->|Hn]; [|by apply IH'].
  pose proof (makedirs_isdir _ _ _ _ _ _ _ Hf Hin) as Hd. unfold isdir in *.
  destruct (f' !! _) eqn:E; [|done]. by erewrite Hg.
Qed.

Lemma workspace_subdirs_proper : Forall proper workspace_subdirs.
Proof. repeat constructor; done. Qed.

(** Creation either fails or yields a directory below the base that did
    not exist before, with its eight subdirectories; whatever existed is
    untouched, also when it fails. *)
Theorem create_workspace_spec execution_id project_id h :
  startswith "/" cwd = true -> is_dir_path base_dir ->
  wp (create_workspace execution_id project_id) h (fun h' r =>
    (forall q n, h_fs h !! q = Some n -> h_fs h' !! q = Some n) /\
    forall w, r = Ok w ->
      below base_dir w = true /\ exists_ (h_fs h) w = false /\
      isdir (h_fs h') w = true /\
      forall n, n ∈ workspace_subdirs -> isdir (h_fs h') (w +:+ "/" +:+ n) = true).
Proof.
  intros Hcwd Hbase. unfold create_workspace.
  set (p := workspace_path_of execution_id project_id).
  apply wp_bind, wp_when; intros _; [by apply wp_throw|].
  apply wp_bind, wp_when; intros Hb; [by apply wp_throw|].
  apply negb_false_iff in Hb. pose proof (below_abspath _ _ _ Hcwd Hbase Hb) as Hp.
  apply wp_bind, wp_gets, wp_bind, wp_when; intros He; [by apply wp_throw|].
  apply wp_bind, os_makedirs_wp; [|by intros]. intros f1 Hf1.
  apply wp_bind. eapply wp_mono.
  { eapply wp_and; [apply for_each_makedirs_isdir|].
    apply (for_each_grows workspace_subdirs
             (fun name => os_makedirs clock 448 false (path_join p name))).
    intros; apply os_makedirs_grows. }
  intros h2 r [Hsub Hg]. simpl in Hg.
  assert (forall q n, h_fs h !! q = Some n -> h_fs h2 !! q = Some n) as Hgrow.
  { intros q n Hq. eapply Hg, makedirs_mono; [exact Hf1|done]. }
  destruct r as [[]|e]; [|by split].
  apply wp_ret. split; [done|]. intros w [= <-]. split_and!; [done|done| |].
  - pose proof (makedirs_isdir _ _ _ _ _ _ p Hf1 (ancestors_dir_path _ Hp)) as Hd.
    unfold isdir in *. destruct (f1 !! p) eqn:E; [|done]. by erewrite Hg.
  - intros n Hn. destruct (path_join_proper p n Hp) as [<- Hpn].
    { eapply Forall_forall; [apply workspace_subdirs_proper|done]. }
    apply Hsub; [done..|]. by apply ancestors_dir_path.
Qed.

(** Destruction changes nothing that is not below the base, and when it
    succeeds nothing is left of the workspace. *)
Theorem destroy_workspace_spec workspace_path h :
  wp (destroy_workspace workspace_path) h (fun h' r =>
    (forall q, below base_dir q = false -> h_fs h' !! q = h_fs h !! q) /\
    (r = Ok tt -> exists_ (h_fs h) (abspath cwd workspace_path) = true ->
     forall q, q = abspath cwd workspace_path \/ below (abspath cwd workspace_path) q = true ->
       h_fs h' !! q = None) /\
    (below base_dir (abspath cwd workspace_path) = false ->
       h' = h /\ is_ok r = false)).
Proof.
  unfold destroy_workspace. set (p := abspath cwd workspace_path).
  apply wp_bind, wp_when; intros Hb; [by apply wp_throw|].
  apply negb_false_iff in Hb.
  apply wp_bind, wp_gets, wp_when; intros He.
  - apply wp_modify. split_and!; simpl.
    + intros q Hq. apply rmtree_outside; [by intros ->; congruence|].
      destruct (below p q) eqn:E; [|done]. by rewrite (below_trans _ _ _ Hb E) in Hq.
    + intros _ _ q Hq. by apply rmtree_below.
    + intros; congruence.
  - split_and!; [done|congruence|congruence].
Qed.
End Ephemeral.
