(* ===== verification/Config.v ===== *)
(** * Configuration

    [runtime/core/config.py] and [admin/port.py]: directories and port from the
    environment, loading and saving the configuration file, and the choice of
    the administration port.  A YAML file is its outcome under [safe_load];
    mappings have text keys, and [yaml.dump] followed by [safe_load] is the
    identity on configurations up to the order of keys. *)
From S2P Require Import Prelude Dict PyVal PyPath PyStr.

Definition RuntimeConfigError : exn_class := OtherException "RuntimeConfigError".

(** ** The environment *)
(** Environment variables, the home directory, [platform.system()], and
    whether PyYAML can be imported. *)
Class ConfigEnv := {
  environ : string -> option string;
  home : string;
  platform_system : string;
  has_yaml : bool }.

(** [str(Path(s))] *)
Definition pure_path (s : string) : string :=
  let parts := filter (fun w => w <> "" /\ w <> ".") (split_slash s) in
  match initial_slashes s, parts with
  | "", [] => "."
  | r, _ => r +:+ join_slash parts
  end.

(** [s.isdigit()]: the superscripts count, which [int] refuses. *)
Definition digit_char (c : ascii) : bool :=
  let n := N_of_ascii c in decimal_digit c || (n =? 178)%N || (n =? 179)%N || (n =? 185)%N.
Fixpoint forall_chars (P : ascii -> bool) (s : string) : bool :=
  match s with "" => true | String c s' => P c && forall_chars P s' end.
Definition isdigit (s : string) : bool := str_true s && forall_chars digit_char s.
(** [int(s)] on a text that [isdigit] accepts *)
Definition int_of_digits (s : string) : result Z :=
  if forall_chars decimal_digit s then Ok (digits_value 0 s)
  else raise ValueError ("invalid literal for int() with base 10: " +:+ py_repr_str s).

Section Environment.
Context {env : ConfigEnv}.

Definition detect_platform : string := lower platform_system.
(** [os.environ.get(name, d)] *)
Definition env_or (name d : string) : string := default d (environ name).
Definition get_install_mode : string := lower (env_or "ANNY_INSTALL_MODE" "user").
Definition get_data_dir : string :=
  if ostr_true (environ "ANNY_DATA_DIR") then pure_path (env_or "ANNY_DATA_DIR" "")
  else if get_install_mode =s "system" then "/var/lib/anny-runtime"
  else path_join (pure_path home) ".anny-runtime".
Definition get_config_dir : string := get_data_dir.
Definition get_runtime_dir : string :=
  if get_install_mode =s "system" then "/opt/anny-runtime"
  else path_join (pure_path home) ".local/share/anny-runtime".
Definition PREFERRED_PORT : Z := 3643.
Definition get_admin_port : result Z :=
  let port := env_or "ANNY_ADMIN_PORT" "" in
  if isdigit port then int_of_digits port else Ok PREFERRED_PORT.

(** ** The configuration *)
(** The fields of the dataclass, in order, each with any value the file gave. *)
Definition config_fields : list string :=
  ["data_dir"; "max_concurrent_executions"; "max_process_duration_seconds";
   "max_workspace_disk_mb"; "max_memory_mb"; "session_lease_ttl_seconds";
   "health_check_interval_seconds"; "update_check_interval_seconds"; "update_channel";
   "log_level"; "github_client_id"; "fabric_org"; "fabric_repo"; "admin_enabled"; "admin_host";
   "admin_port"; "admin_session_ttl_seconds"; "platform"].
Abbreviation RuntimeConfig := (dict string pyval).
Definition field_default (f : string) : result pyval :=
  let int z := Ok (VInt z) in
  let str s := Ok (VStr s) in
  if f =s "data_dir" then str get_data_dir
  else if f =s "max_concurrent_executions" then int 10%Z
  else if f =s "max_process_duration_seconds" then int 3600%Z
  else if f =s "max_workspace_disk_mb" then int 10240%Z
  else if f =s "max_memory_mb" then int 4096%Z
  else if f =s "session_lease_ttl_seconds" then int 3600%Z
  else if f =s "health_check_interval_seconds" then int 30%Z
  else if f =s "update_check_interval_seconds" then int 86400%Z
  else if f =s "update_channel" then str "dev"
  else if f =s "log_level" then str "INFO"
  else if f =s "github_client_id" then str (env_or "ANNY_GITHUB_CLIENT_ID" "")
  else if f =s "admin_enabled" then Ok (VBool true)
  else if f =s "admin_host" then str "127.0.0.1"
  else if f =s "admin_port" then let? p := get_admin_port in Ok (VInt p)
  else if f =s "admin_session_ttl_seconds" then int 1800%Z
  else if f =s "platform" then str detect_platform
  else Ok VNone.
(** [cls( **kwargs )] *)
Fixpoint fill_fields (kwargs : dict string pyval) (fs : list string) : result RuntimeConfig :=
  match fs with
  | [] => Ok []
  | f :: fs' =>
      let? v := match dget f kwargs with Some v => Ok v | None => field_default f end in
      let? c := fill_fields kwargs fs' in
      Ok ((f, v) :: c)
  end.
Definition make_config (kwargs : dict string pyval) : result RuntimeConfig :=
  fill_fields kwargs config_fields.

(** The configuration file. *)
Inductive yaml_file := YMissing | YBad (msg : string) | YValue (v : pyval).
Definition config_path : string := path_join get_config_dir "config.yaml".
Definition config_error {A} (msg : string) : result A := raise RuntimeConfigError msg.
Definition read_config (f : yaml_file) : result (dict string pyval) :=
  match f with
  | YMissing => Ok []
  | _ =>
      if negb has_yaml then config_error "PyYAML is required to load Runtime configuration"
      else match f with
           | YBad msg =>
               config_error ("Invalid Runtime configuration at " +:+ config_path +:+ ": " +:+ msg)
           | YValue VNone => Ok []
           | YValue (VDict d) => Ok d
           | _ => config_error ("Runtime configuration at " +:+ config_path
                                +:+ " must be a YAML mapping")
           end
  end.
(** The nested administration settings, under their flat names. *)
Definition flatten_admin (d : dict string pyval) : dict string pyval :=
  match vget_or "admin" (VDict []) d with
  | VDict admin =>
      foldl (fun d kv => if str_in ("admin_" +:+ kv.1) config_fields
                         then dset ("admin_" +:+ kv.1) kv.2 d else d) d admin
  | _ => d
  end.
Definition load_config (f : yaml_file) : result RuntimeConfig :=
  let? d := read_config f in
  let d := flatten_admin d in
  let id := env_or "ANNY_GITHUB_CLIENT_ID" "" in
  let d := if str_true id then dset "github_client_id" (VStr id) d else d in
  make_config (filter (fun kv => kv.1 ∈ config_fields) d).
(** [save]: the fields, those of the administration in a block of their own. *)
Definition admin_key (k : string) : bool := startswith "admin_" k.
Definition string_from (n : nat) (s : string) : string :=
  String.substring n (String.length s - n) s.
Definition save_config (c : RuntimeConfig) : yaml_file :=
  let admin := filter (fun kv => admin_key kv.1 = true) c in
  let rest := filter (fun kv => admin_key kv.1 = false) c in
  YValue (VDict (match admin with
                 | [] => rest
                 | _ => dset "admin" (VDict (map (fun kv => (string_from 6 kv.1, kv.2)) admin)) rest
                 end)).
End Environment.

(** ** The administration port *)
Definition FORBIDDEN_PORTS : list Z := [3434%Z].
Definition candidate_ports : list Z :=
  [3644; 3645; 3646; 3647; 3648; 3650; 3700; 3800; 3900; 4643]%Z.
(** [select_admin_port]; [check_port_available] binds a socket. *)
Definition select_admin_port (check_port_available : Z -> bool) (preferred : Z)
    (forbidden : list Z) : result Z :=
  let forbidden := forbidden ++ FORBIDDEN_PORTS in
  if bool_decide (preferred ∈ forbidden)
  then raise ValueError ("Preferred port " +:+ zstr preferred +:+ " is in the forbidden list")
  else if check_port_available preferred then Ok preferred
  else match filter (fun p => p ∉ forbidden /\ check_port_available p = true) candidate_ports with
       | p :: _ => Ok p
       | [] => raise RuntimeError "No available admin port found"
       end.

(** ** Correctness *)
Section ConfigTheorems.
Context {env : ConfigEnv}.

(** A saved configuration is loaded back field by field, the
    administration settings through their nested block; only a client id in
    the environment takes precedence over the saved one. *)
Theorem config_round_trip c :
  dkeys c = config_fields -> has_yaml = true ->
  load_config (save_config c) =
    Ok (if str_true (env_or "ANNY_GITHUB_CLIENT_ID" "")
        then dset "github_client_id" (VStr (env_or "ANNY_GITHUB_CLIENT_ID" "")) c else c).
Proof.
  intros Hk Hy. unfold config_fields in Hk.
  do 18 (destruct c as [|[? ?] c]; [done|]; injection Hk as -> Hk).
  destruct c; [|done]. unfold load_config, read_config. rewrite Hy.
  destruct (str_true (env_or "ANNY_GITHUB_CLIENT_ID" "")); vm_compute; reflexivity.
Qed.

Lemma field_default_total f :
  match field_default f with
  | Ok _ => True
  | Raise e => exn_type e = ValueError /\ is_ok get_admin_port = false
  end.
Proof.
  unfold field_default. repeat match goal with |- context [if ?b then _ else _] => destruct b end;
    try done. by destruct get_admin_port as [|e] eqn:E;
    [|unfold get_admin_port, int_of_digits, raise in E; repeat case_match; simplify_eq].
Qed.
Lemma fill_fields_spec kwargs fs :
  match fill_fields kwargs fs with
  | Ok c => dkeys c = fs /\
      forall k v, dget k kwargs = Some v -> k ∈ fs -> dget k c = Some v
  | Raise e => exn_type e = ValueError /\ is_ok get_admin_port = false
  end.
Proof.
  induction fs as [|f fs IH]; simpl; [split; [done|intros k v _ H; by inv H]|].
  pose proof (field_default_total f) as Hd.
  destruct (dget f kwargs) as [v|] eqn:E; [|destruct (field_default f) as [v|e]; [|done]].
  all: destruct (fill_fields kwargs fs) as [c|e]; [|done]; destruct IH as [IH1 IH2];
    split; [by csimpl; rewrite IH1|]; intros k w Hw Hk; simpl; case_decide as Hkf;
    [congruence|apply IH2; [done|]]; apply elem_of_cons in Hk as [?|?]; done.
Qed.
Lemma flatten_admin_other d k :
  admin_key k = false -> dget k (flatten_admin d) = dget k d.
Proof.
  intros Hk. unfold flatten_admin. destruct (vget_or _ _ d) as [| | | | | |admin]; try done.
  revert d. induction admin as [|[a v] admin IH]; intros d; [done|]. simpl. rewrite IH.
  case_match; [|done]. apply dget_dset_other. intros <-. unfold admin_key in Hk.
  by rewrite startswith_app in Hk.
Qed.
Lemma dget_filter_fields (d : dict string pyval) k (fs : list string) :
  k ∈ fs -> dget k (filter (fun kv => kv.1 ∈ fs) d) = dget k d.
Proof.
  intros Hk. induction d as [|[k' v] d IH]; [done|]. rewrite filter_cons. simpl.
  case_decide as Hf; simpl; [by rewrite IH|]. case_decide; [by subst|done].
Qed.

(** Loading fails closed: it raises RuntimeConfigError exactly when a file is
    there that cannot be read as a mapping; otherwise it gives every field, the
    file's value first, or fails on an unreadable port number of the
    environment. *)
Theorem config_fail_closed f :
  let unreadable := match f with
    | YMissing => False
    | YBad _ => True
    | YValue VNone | YValue (VDict _) => has_yaml = false
    | YValue _ => True
    end in
  match load_config f with
  | Ok c => ~ unreadable /\ dkeys c = config_fields /\
      forall k v d, f = YValue (VDict d) -> dget k d = Some v -> k ∈ config_fields ->
        admin_key k = false -> k <> "github_client_id" -> dget k c = Some v
  | Raise e => unreadable /\ exn_type e = RuntimeConfigError \/
      ~ unreadable /\ exn_type e = ValueError /\ is_ok get_admin_port = false
  end.
Proof.
  intros unreadable. unfold load_config.
  assert (match read_config f with
    | Ok d => ~ unreadable /\ forall d', f = YValue (VDict d') -> d' = d
    | Raise e => unreadable /\ exn_type e = RuntimeConfigError end) as Hr.
  { subst unreadable. unfold read_config, config_error, raise. destruct f as [|msg|[]]; simpl in *;
      destruct has_yaml; simpl; naive_solver. }
  destruct (read_config f) as [d|e]; [|by left]. destruct Hr as [Hu Hd].
  unfold make_config.
  match goal with |- context [fill_fields ?kw _] =>
    pose proof (fill_fields_spec kw config_fields) as Hs; destruct (fill_fields kw _) as [c|e] end;
    [|by right]. destruct Hs as [Hs1 Hs2]. split; [done|]. split; [done|].
  intros k v d' Hf Hg Hk Ha Hc. apply Hs2; [|done]. rewrite dget_filter_fields by done.
  rewrite (Hd d' Hf) in Hg. destruct (str_true _); [rewrite dget_dset_other by done|];
    by rewrite flatten_admin_other.
Qed.

(** The port chosen is available and never a forbidden one; when the
    preferred port is allowed, one is found unless none of the candidates is
    available. *)
Theorem admin_port_safe available preferred forbidden :
  match select_admin_port available preferred forbidden with
  | Ok p => available p = true /\ p ∉ forbidden /\ p <> 3434%Z /\
      (available preferred = true -> p = preferred)
  | Raise e => preferred ∈ forbidden \/ preferred = 3434%Z \/
      available preferred = false /\
      forall p, p ∈ candidate_ports -> available p = true -> p ∈ forbidden
  end.
Proof.
  unfold select_admin_port. case_bool_decide as Hp.
  { unfold raise. apply elem_of_app in Hp as [?|Hp]; [by left|]. right. left.
    by apply list_elem_of_singleton in Hp. }
  apply not_elem_of_app in Hp as [Hp1 Hp2]. unfold FORBIDDEN_PORTS in *.
  rewrite list_elem_of_singleton in Hp2.
  destruct (available preferred) eqn:Ha; [done|].
  destruct (filter _ candidate_ports) as [|p l] eqn:E.
  - right. right. split; [done|]. intros p Hc Hav. apply filter_nil_iff in E.
    rewrite Forall_forall in E. specialize (E p Hc). apply dec_stable. intros Hn. apply E.
    split; [|done]. intros [?|H]%elem_of_app; [done|]. apply list_elem_of_singleton in H as ->.
    revert Hc. by apply (bool_decide_unpack (3434%Z ∉ candidate_ports)).
  - assert (p ∈ filter (fun p => p ∉ forbidden ++ [3434%Z] /\ available p = true) candidate_ports)
      as Hin by (rewrite E; left).
    apply list_elem_of_filter in Hin as [[Hn Hav] _].
    apply not_elem_of_app in Hn as [? Hn]. rewrite list_elem_of_singleton in Hn. by split_and!.
Qed.
End ConfigTheorems.
