(* ===== verification/Identity.v ===== *)
(** * Instants, enrollment and sessions

    [runtime/identity/enrollment.py], the verification of
    [identity/runtime_identity.py], [runtime/session/lease.py] and
    [manager.py], with the context type of [security/execution_context.py].
    Instants are aware or naive, and comparing one of each raises, since the
    code mixes [datetime.utcnow()] with [datetime.now(timezone.utc)]. *)
From S2P Require Import Prelude Dict PyVal Effects PyPath PyStr Host.

(** ** Instants *)
(** A [datetime]: microseconds since the epoch, in UTC when aware, of the
    wall clock it was read from when naive. *)
Record moment := mkMoment { aware : bool; micros : Z }.

(** [a > b] and the other comparisons *)
Definition compare_moments (op : Z -> Z -> bool) (a b : moment) : result bool :=
  if bool_decide (aware a = aware b) then Ok (op (micros a) (micros b))
  else raise TypeError "can't compare offset-naive and offset-aware datetimes".

(** 0001-01-01 and 9999-12-31T23:59:59.999999 *)
Definition min_instant : Z := -62135596800000000.
Definition max_instant : Z := 253402300799999999.
Definition OverflowError : exn_class := OtherException "OverflowError".
(** [t + timedelta(seconds=s)] *)
Definition add_seconds (t s : Z) : result Z :=
  let t' := (t + s * 1000000)%Z in
  if (min_instant <=? t')%Z && (t' <=? max_instant)%Z then Ok t'
  else raise OverflowError "date value out of range".

(** The clock, the offset of local time from UTC, [uuid.uuid4().hex], and the Ed25519 primitive:
    [ed25519_verify key message signature] for a key of 32 bytes. *)
Class IdentityEnv := {
  id_clock : nat -> Z;
  local_offset : Z;
  id_uuid : nat -> string;
  ed25519_verify : string -> string -> string -> bool }.

(** ** Hexadecimal *)
Definition ascii_space (c : ascii) : bool :=
  let n := N_of_ascii c in ((9 <=? n) && (n <=? 13) || (n =? 32))%N.
(** [bytes.fromhex]: pairs of digits, white space between them skipped. *)
Fixpoint fromhex (s : string) : option string :=
  match s with
  | "" => Some ""
  | String a s' =>
      if ascii_space a then fromhex s'
      else match s' with
           | String b s'' =>
               match hex_value a, hex_value b, fromhex s'' with
               | Some x, Some y, Some r => Some (String (ascii_of_N (16 * x + y)) r)
               | _, _, _ => None
               end
           | "" => None
           end
  end.

(** ** Enrollment *)
Inductive EnrollmentState := UNENROLLED | ENROLLING | REGISTERED | PAIRED | READY.
#[export] Instance EnrollmentState_eq_dec : EqDecision EnrollmentState.
Proof. solve_decision. Defined.
Definition enrollment_state_name (s : EnrollmentState) : string :=
  match s with
  | UNENROLLED => "UNENROLLED" | ENROLLING => "ENROLLING" | REGISTERED => "REGISTERED"
  | PAIRED => "PAIRED" | READY => "READY"
  end.
(** [EnrollmentState[name]] *)
Definition enrollment_state_of (s : string) : option EnrollmentState :=
  if s =s "UNENROLLED" then Some UNENROLLED else if s =s "ENROLLING" then Some ENROLLING
  else if s =s "REGISTERED" then Some REGISTERED else if s =s "PAIRED" then Some PAIRED
  else if s =s "READY" then Some READY else None.

(** The manager and its file; a loaded field is any JSON value. *)
Record EnrollmentManager := mkEnrollment {
  en_state : EnrollmentState;
  en_principal : pyval;
  en_tenant_id : pyval;
  en_anny_instance_id : pyval;
  en_runtime_id : pyval;
  en_file : option pyval }.
#[export] Instance eta_EnrollmentManager : Eta EnrollmentManager := fun r =>
  mkEnrollment (en_state r) (en_principal r) (en_tenant_id r) (en_anny_instance_id r)
    (en_runtime_id r) (en_file r).
Definition new_enrollment (file : option pyval) : EnrollmentManager :=
  mkEnrollment UNENROLLED VNone VNone VNone VNone file.

Section Enrollment.
Context {env : IdentityEnv}.

(** [RuntimeIdentity.verify] on the public key, in hexadecimal. *)
Definition identity_verify (public_key message signature : string) : bool :=
  match fromhex public_key with
  | Some key => (String.length key =? 32) && ed25519_verify key message signature
  | None => false
  end.
(** [ChallengeResponse.verify_response]: any exception is a refusal. *)
Definition verify_response (public_key challenge response : string) : bool :=
  match fromhex challenge, fromhex response with
  | Some c, Some r => identity_verify public_key c r
  | _, _ => false
  end.

(** A guard on the state, then an update. *)
Definition transition (from target : EnrollmentState)
    (f : EnrollmentManager -> EnrollmentManager) : M EnrollmentManager unit :=
  m ← gets id;
  when (negb (bool_decide (en_state m = from)))
    (throw EnrollmentError ("Invalid transition from " +:+ enrollment_state_name (en_state m)
       +:+ " to " +:+ enrollment_state_name target)) ;;
  modify (fun m => (f m) <| en_state := target |>).
Definition begin_enrollment (public_key principal tenant_id challenge response : string)
    : M EnrollmentManager unit :=
  m ← gets id;
  when (negb (bool_decide (en_state m = UNENROLLED)))
    (throw EnrollmentError ("Invalid transition from " +:+ enrollment_state_name (en_state m)
       +:+ " to ENROLLING")) ;;
  when (negb (verify_response public_key challenge response))
    (throw EnrollmentError "Challenge verification failed") ;;
  modify (fun m => ((m <| en_principal := VStr principal |>) <| en_tenant_id := VStr tenant_id |>)
                     <| en_state := ENROLLING |>).
Definition register (anny_instance_id : string) : M EnrollmentManager unit :=
  transition ENROLLING REGISTERED (fun m => m <| en_anny_instance_id := VStr anny_instance_id |>).
Definition pair_runtime (runtime_id : string) : M EnrollmentManager unit :=
  transition REGISTERED PAIRED (fun m => m <| en_runtime_id := VStr runtime_id |>).
Definition activate_enrollment : M EnrollmentManager unit := transition PAIRED READY id.
Definition reset_enrollment : M EnrollmentManager unit :=
  modify (fun m => new_enrollment (en_file m)).
Definition save_enrollment : M EnrollmentManager unit :=
  modify (fun m => m <| en_file := Some (VDict
    [("state", VStr (enrollment_state_name (en_state m))); ("principal", en_principal m);
     ("tenant_id", en_tenant_id m); ("anny_instance_id", en_anny_instance_id m);
     ("runtime_id", en_runtime_id m)]) |>).
Definition load_enrollment : M EnrollmentManager unit :=
  m ← gets id;
  match en_file m with
  | None => mret tt
  | Some (VDict data) =>
      match dget "state" data with
      | Some (VStr name) =>
          match enrollment_state_of name with
          | Some st =>
              modify (fun m => (((((m <| en_state := st |>)
                <| en_principal := vget "principal" data |>)
                <| en_tenant_id := vget "tenant_id" data |>)
                <| en_anny_instance_id := vget "anny_instance_id" data |>)
                <| en_runtime_id := vget "runtime_id" data |>))
          | None => throw KeyError name
          end
      | Some (VList _ | VDict _) => throw TypeError "unhashable type"
      | Some _ => throw KeyError "state"
      | None => throw KeyError "state"
      end
  | Some _ => throw TypeError "indices must be integers"
  end.
End Enrollment.

(** ** The execution context *)
Record ExecutionContext := mkExecContext {
  ec_tenant_id : string;
  ec_account_id : string;
  ec_project_id : string;
  ec_anny_instance_id : string;
  ec_runtime_id : string;
  ec_session_id : string;
  ec_actor_id : string;
  ec_operation_id : string;
  ec_execution_id : string;
  ec_generation : Z;
  ec_issued_at : moment;
  ec_expires_at : moment;
  ec_workspace_id : option string;
  ec_capabilities : gset string }.
#[export] Instance eta_ExecutionContext : Eta ExecutionContext := fun r =>
  mkExecContext (ec_tenant_id r) (ec_account_id r) (ec_project_id r) (ec_anny_instance_id r)
    (ec_runtime_id r) (ec_session_id r) (ec_actor_id r) (ec_operation_id r) (ec_execution_id r)
    (ec_generation r) (ec_issued_at r) (ec_expires_at r) (ec_workspace_id r) (ec_capabilities r).

Definition has_capability (c : ExecutionContext) (cap : string) : bool :=
  bool_decide (cap ∈ ec_capabilities c).
(** [ExecutionContext.is_valid] *)
Definition context_is_valid (c : ExecutionContext) (current : moment) (generation : Z)
    : result bool :=
  if negb (ec_generation c =? generation)%Z then Ok false
  else
    let? late := compare_moments Z.gtb current (ec_expires_at c) in
    if late then Ok false
    else
      let? early := compare_moments Z.ltb current (ec_issued_at c) in
      Ok (negb early).

(** ** Session leases *)
Inductive SessionStatus := SL_PENDING | SL_ACTIVE | SL_EXPIRED | SL_REVOKED | SL_CLOSED.
#[export] Instance SessionStatus_eq_dec : EqDecision SessionStatus.
Proof. solve_decision. Defined.
(** Created and expiry instants are aware. *)
Record SessionLease := mkLease {
  sl_session_id : string;
  sl_principal : string;
  sl_tenant_id : string;
  sl_account_id : string;
  sl_project_id : string;
  sl_anny_instance_id : string;
  sl_runtime_id : string;
  sl_scope : string;
  sl_provider_metadata : dict string pyval;
  sl_created_at : Z;
  sl_expires_at : Z;
  sl_status : SessionStatus }.
#[export] Instance eta_SessionLease : Eta SessionLease := fun r =>
  mkLease (sl_session_id r) (sl_principal r) (sl_tenant_id r) (sl_account_id r)
    (sl_project_id r) (sl_anny_instance_id r) (sl_runtime_id r) (sl_scope r)
    (sl_provider_metadata r) (sl_created_at r) (sl_expires_at r) (sl_status r).

Definition lease_active (l : SessionLease) : bool := bool_decide (sl_status l = SL_ACTIVE).
(** [is_valid] at an instant read from the clock. *)
Definition lease_valid_at (now : Z) (l : SessionLease) : bool :=
  lease_active l && (now <? sl_expires_at l)%Z.
Definition extend_lease (seconds : Z) (l : SessionLease) : result SessionLease :=
  if negb (lease_active l) then Ok l
  else let? t := add_seconds (sl_expires_at l) seconds in Ok (l <| sl_expires_at := t |>).
Definition close_lease (l : SessionLease) : SessionLease := l <| sl_status := SL_CLOSED |>.
Definition revoke_lease (l : SessionLease) : SessionLease := l <| sl_status := SL_REVOKED |>.
Definition expire_lease (l : SessionLease) : SessionLease := l <| sl_status := SL_EXPIRED |>.

(** ** The session manager *)
(** Its leases, by session id, the enrollment it consults, and the number of
    clock readings and identifiers drawn. *)
Record SessionSt := mkSessions {
  ss_sessions : dict string SessionLease;
  ss_enrollment : EnrollmentManager;
  ss_tick : nat }.
#[export] Instance eta_SessionSt : Eta SessionSt := fun r =>
  mkSessions (ss_sessions r) (ss_enrollment r) (ss_tick r).

Section Sessions.
Context {env : IdentityEnv}.
(** [RuntimeIdentity.runtime_id] *)
Context (runtime_id : string).

Definition draw {A} (f : nat -> A) : M SessionSt A := fun s =>
  (s <| ss_tick := S (ss_tick s) |>, Ok (f (ss_tick s))).
(** [contracts.identifiers.generate_id] *)
Definition generate_id (prefix : string) : M SessionSt string :=
  u ← draw id_uuid; mret (prefix +:+ "-" +:+ u).

Definition attach (principal tenant_id account_id project_id anny_instance_id scope : string)
    (provider_metadata : dict string pyval) : M SessionSt SessionLease :=
  en ← gets ss_enrollment;
  when (negb (bool_decide (en_state en = READY)))
    (throw RuntimeError "Cannot attach session: Runtime is not enrolled and READY") ;;
  when (match en_tenant_id en with VStr t => negb (t =s tenant_id) | _ => true end)
    (throw ValueError "Tenant ID mismatch: safety violation") ;;
  session_id ← generate_id "SES";
  now ← draw id_clock;
  expires_at ← of_result (add_seconds now 3600);
  let lease := mkLease session_id principal tenant_id account_id project_id anny_instance_id
    runtime_id scope provider_metadata now expires_at SL_ACTIVE in
  modify (fun s => s <| ss_sessions := dset session_id lease (ss_sessions s) |>) ;;
  mret lease.

Definition get_session (session_id : string) (s : SessionSt) : option SessionLease :=
  dget session_id (ss_sessions s).
Definition put_lease (session_id : string) (l : SessionLease) : M SessionSt unit :=
  modify (fun s => s <| ss_sessions := dset session_id l (ss_sessions s) |>).
Definition detach (session_id : string) : M SessionSt unit :=
  l ← gets (get_session session_id);
  match l with Some l => put_lease session_id (close_lease l) | None => mret tt end.

Definition validate_session (session_id : string) (current : moment) (s : SessionSt)
    : result bool :=
  match get_session session_id s with
  | Some l =>
      if negb (lease_active l) then Ok false
      else
        let? late := compare_moments Z.geb current (mkMoment true (sl_expires_at l)) in
        if late then Ok false
        else Ok match en_tenant_id (ss_enrollment s) with
                | VStr t => sl_tenant_id l =s t | _ => false end
  | None => Ok false
  end.

Definition get_context_for_session (session_id : string) (current : moment)
    : M SessionSt (option ExecutionContext) :=
  s ← gets id;
  valid ← of_result (validate_session session_id current s);
  if negb valid then mret None
  else match get_session session_id s with
       | Some l =>
           op ← generate_id "OP";
           ex ← generate_id "EXEC";
           mret (Some (mkExecContext (sl_tenant_id l) (sl_account_id l) (sl_project_id l)
             (sl_anny_instance_id l) (sl_runtime_id l) (sl_session_id l) (sl_principal l) op ex
             1 current (mkMoment true (sl_expires_at l)) None ∅))
       | None => throw AttributeError "'NoneType' object has no attribute 'tenant_id'"
       end.

(** [heartbeat]: the clock is read only for an active lease. *)
Definition heartbeat (session_id : string) (seconds : Z) : M SessionSt unit :=
  l ← gets (get_session session_id);
  match l with
  | Some l =>
      if lease_active l then
        now ← draw id_clock;
        if lease_valid_at now l then
          l' ← of_result (extend_lease seconds l); put_lease session_id l'
        else mret tt
      else mret tt
  | None => mret tt
  end.

(** [active_sessions]: each active lease reads the clock anew. *)
Fixpoint active_leases (tick : nat) (ls : list SessionLease) : nat * list SessionLease :=
  match ls with
  | [] => (tick, [])
  | l :: ls' =>
      if lease_active l then
        let '(t, r) := active_leases (S tick) ls' in
        (t, if lease_valid_at (id_clock tick) l then l :: r else r)
      else active_leases tick ls'
  end.
Definition active_sessions : M SessionSt (list SessionLease) := fun s =>
  let '(t, r) := active_leases (ss_tick s) (dvalues (ss_sessions s)) in
  (s <| ss_tick := t |>, Ok r).

Definition expire_stale (now : Z) (l : SessionLease) : SessionLease :=
  if lease_active l && (sl_expires_at l <=? now)%Z then expire_lease l else l.
Definition cleanup_expired : M SessionSt unit :=
  now ← draw id_clock;
  modify (fun s => s <| ss_sessions := map (fun kv => (kv.1, expire_stale now kv.2))
                                          (ss_sessions s) |>).
End Sessions.

(** ** Sequences of operations *)
(** An operation on the enrollment; a caller that catches the exception of one
    goes on with the next. *)
Inductive enroll_op :=
  | OpBegin (public_key principal tenant_id challenge response : string)
  | OpRegister (anny_instance_id : string)
  | OpPair (runtime_id : string)
  | OpActivate | OpReset | OpSave | OpLoad.

Section EnrollRuns.
Context {env : IdentityEnv}.
Definition run_enroll (op : enroll_op) (m : EnrollmentManager) : EnrollmentManager :=
  (match op with
   | OpBegin k p t c r => begin_enrollment k p t c r
   | OpRegister a => register a
   | OpPair r => pair_runtime r
   | OpActivate => activate_enrollment
   | OpReset => reset_enrollment
   | OpSave => save_enrollment
   | OpLoad => load_enrollment
   end m).1.
Definition run_enrolls (ops : list enroll_op) (m : EnrollmentManager) : EnrollmentManager :=
  foldl (fun m op => run_enroll op m) m ops.

(** What the state of an enrollment vouches for: [ok] holds of the principal
    and the tenant once enrolling, the instance and the runtime are named once
    registered and paired. *)
Definition vouched (ok : string -> string -> Prop) (st : EnrollmentState)
    (principal tenant instance runtime : pyval) : Prop :=
  (st <> UNENROLLED -> exists p t, principal = VStr p /\ tenant = VStr t /\ ok p t) /\
  (st ∈ [REGISTERED; PAIRED; READY] -> exists a, instance = VStr a) /\
  (st ∈ [PAIRED; READY] -> exists r, runtime = VStr r).
Definition vouched_manager ok (m : EnrollmentManager) : Prop :=
  vouched ok (en_state m) (en_principal m) (en_tenant_id m) (en_anny_instance_id m)
    (en_runtime_id m).
(** The file was written by [save] in such a state. *)
Definition vouched_file ok (m : EnrollmentManager) : Prop :=
  match en_file m with
  | None => True
  | Some f => exists m0, vouched_manager ok m0 /\ f = VDict
      [("state", VStr (enrollment_state_name (en_state m0))); ("principal", en_principal m0);
       ("tenant_id", en_tenant_id m0); ("anny_instance_id", en_anny_instance_id m0);
       ("runtime_id", en_runtime_id m0)]
  end.

Lemma enrollment_state_roundtrip st : enrollment_state_of (enrollment_state_name st) = Some st.
Proof. by destruct st. Qed.

(** Loading what was saved gives the saved enrollment back. *)
Lemma load_saved m0 m f : en_file m = Some f ->
  f = VDict [("state", VStr (enrollment_state_name (en_state m0)));
    ("principal", en_principal m0); ("tenant_id", en_tenant_id m0);
    ("anny_instance_id", en_anny_instance_id m0); ("runtime_id", en_runtime_id m0)] ->
  load_enrollment m = (m0 <| en_file := Some f |>, Ok tt).
Proof.
  intros E ->. destruct m, m0. simpl in E. subst.
  unfold load_enrollment, mbind, M_bind, gets, id. simpl.
  by rewrite enrollment_state_roundtrip.
Qed.

Lemma vouched_weaken (ok ok' : string -> string -> Prop) st p t a r :
  (forall p t, ok p t -> ok' p t) -> vouched ok st p t a r -> vouched ok' st p t a r.
Proof. intros H (H1 & H2 & H3). split_and!; [|done..]. naive_solver. Qed.

Definition attested (ops : list enroll_op) (principal tenant : string) : Prop :=
  exists key c r, OpBegin key principal tenant c r ∈ ops /\ verify_response key c r = true.

Lemma transition_vouched ok from target f m :
  vouched_file ok m -> vouched_manager ok m ->
  (en_state m = from -> vouched_manager ok ((f m) <| en_state := target |>)) ->
  en_file (f m) = en_file m ->
  vouched_manager ok (transition from target f m).1 /\ vouched_file ok (transition from target f m).1.
Proof.
  intros Hf Hm Hnew Hfile. unfold transition, mbind, M_bind, gets, id, when.
  destruct (decide (en_state m = from)) as [E|E].
  - rewrite bool_decide_eq_true_2 by done. simpl. split; [by apply Hnew|].
    unfold vouched_file in *. simpl. by rewrite Hfile.
  - by rewrite bool_decide_eq_false_2.
Qed.

Lemma run_enroll_vouched ok op m :
  (forall k p t c r, op = OpBegin k p t c r -> verify_response k c r = true -> ok p t) ->
  vouched_manager ok m -> vouched_file ok m ->
  vouched_manager ok (run_enroll op m) /\ vouched_file ok (run_enroll op m).
Proof.
  intros Hop Hm Hf. destruct op as [k p t c r|a|r| | | |]; unfold run_enroll.
  - unfold begin_enrollment, mbind, M_bind, gets, id, when.
    destruct (negb (bool_decide (en_state m = UNENROLLED))); [done|]. simpl.
    destruct (verify_response k c r) eqn:Ev; [|done]. simpl. split; [|done].
    split_and!; simpl; [|set_solver..]. intros _. exists p, t. split_and!; [done..|].
    by eapply Hop.
  - apply transition_vouched; [done..| |done]. intros E. destruct Hm as (H1 & _ & _).
    split_and!; simpl; [intros _; apply H1; by rewrite E|by eexists|set_solver].
  - apply transition_vouched; [done..| |done]. intros E. destruct Hm as (H1 & H2 & _).
    rewrite E in *. split_and!; simpl; [intros _; by apply H1|intros _; apply H2; set_solver|by eexists].
  - apply transition_vouched; [done..| |done]. intros E. destruct Hm as (H1 & H2 & H3).
    rewrite E in *. split_and!; simpl; intros _; [by apply H1|apply H2; set_solver|apply H3; set_solver].
  - split; [|done]. split_and!; simpl; [done|set_solver..].
  - split; [done|]. unfold save_enrollment, modify, vouched_file. simpl. by exists m.
  - unfold vouched_file in Hf. destruct (en_file m) as [f|] eqn:E.
    + destruct Hf as (m0 & Hm0 & Ef). rewrite (load_saved m0 m f E Ef). simpl. split; [done|].
      unfold vouched_file. simpl. by exists m0.
    + unfold load_enrollment, mbind, M_bind, gets, id, vouched_file. rewrite E. simpl. by rewrite E.
Qed.

(** C26: Over any sequence of enrollment operations, saves, loads and failures
    on a fresh data directory, a state other than UNENROLLED carries a
    principal and a tenant whose challenge response was verified, and READY
    an instance and a runtime as well. *)
Theorem enrollment_vouched ops :
  vouched_manager (attested ops) (run_enrolls ops (new_enrollment None)).
Proof.
  enough (vouched_manager (attested ops) (run_enrolls ops (new_enrollment None)) /\
    vouched_file (attested ops) (run_enrolls ops (new_enrollment None))) by naive_solver.
  induction ops as [|op ops IH] using rev_ind.
  - split; [|done]. split_and!; simpl; [done|set_solver..].
  - unfold run_enrolls. rewrite foldl_app. simpl. destruct IH as [H1 H2].
    assert (forall p t, attested ops p t -> attested (ops ++ [op]) p t) as Hmono.
    { intros p t (k & c & r & Hin & Hv). exists k, c, r. split; [set_solver|done]. }
    apply run_enroll_vouched.
    + intros k p t c r -> Hv. exists k, c, r. split; [set_solver|done].
    + by eapply vouched_weaken.
    + unfold vouched_file in *. fold (run_enrolls ops (new_enrollment None)).
      destruct (en_file _); [|done]. destruct H2 as (m0 & Hm0 & Ef). exists m0.
      split; [by eapply vouched_weaken|done].
Qed.
End EnrollRuns.

(** ** The life of a session *)
Inductive session_op :=
  | SAttach (principal tenant_id account_id project_id anny_instance_id scope : string)
      (provider_metadata : dict string pyval)
  | SDetach (session_id : string)
  | SHeartbeat (session_id : string) (seconds : Z)
  | SContext (session_id : string) (current : moment)
  | SActive | SCleanup
  | SEnroll (op : enroll_op).

Section SessionRuns.
Context {env : IdentityEnv} (runtime_id : string).
Definition run_session (op : session_op) (s : SessionSt) : SessionSt :=
  match op with
  | SAttach p t a pr i sc md => (attach runtime_id p t a pr i sc md s).1
  | SDetach sid => (detach sid s).1
  | SHeartbeat sid n => (heartbeat sid n s).1
  | SContext sid cur => (get_context_for_session sid cur s).1
  | SActive => (active_sessions s).1
  | SCleanup => (cleanup_expired s).1
  | SEnroll op => s <| ss_enrollment := run_enroll op (ss_enrollment s) |>
  end.
Definition run_sessions (ops : list session_op) (s : SessionSt) : SessionSt :=
  foldl (fun s op => run_session op s) s ops.

(** Session ids were drawn from the generator. *)
Definition session_key (n : nat) : string := "SES" +:+ "-" +:+ id_uuid n.
Definition drawn_keys (s : SessionSt) : Prop :=
  forall k, k ∈ dkeys (ss_sessions s) -> exists n, n < ss_tick s /\ k = session_key n.

(** How an operation may change the lease under one key. *)
Definition lease_step (sid : string) (s s' : SessionSt) : Prop :=
  match get_session sid s with
  | Some l => exists l', get_session sid s' = Some l' /\
      (lease_active l = false -> lease_active l' = false /\ sl_expires_at l' = sl_expires_at l) /\
      sl_tenant_id l' = sl_tenant_id l /\ sl_principal l' = sl_principal l
  | None => True
  end.

Lemma lease_step_same sid s s' : ss_sessions s' = ss_sessions s -> lease_step sid s s'.
Proof. unfold lease_step, get_session. intros ->. destruct (dget _ _) as [l|]; [by exists l|done]. Qed.
Lemma lease_step_put sid sid' l l' s s' :
  get_session sid' s = Some l -> ss_sessions s' = dset sid' l' (ss_sessions s) ->
  (lease_active l = false -> lease_active l' = false /\ sl_expires_at l' = sl_expires_at l) ->
  sl_tenant_id l' = sl_tenant_id l -> sl_principal l' = sl_principal l ->
  lease_step sid s s'.
Proof.
  unfold lease_step, get_session. intros E -> H1 H2 H3. rewrite dget_dset. case_decide as Hd.
  - subst. rewrite E. by exists l'.
  - destruct (dget sid _) as [l0|]; [by exists l0|done].
Qed.
Lemma keys_same s s' : drawn_keys s -> dkeys (ss_sessions s') = dkeys (ss_sessions s) ->
  ss_tick s <= ss_tick s' -> drawn_keys s'.
Proof.
  intros H E Ht k Hk. rewrite E in Hk. destruct (H k Hk) as (n & Hn & ->). exists n.
  split; [lia|done].
Qed.
Lemma dkeys_put {V} k v v' (d : dict string V) : dget k d = Some v -> dkeys (dset k v' d) = dkeys d.
Proof. intros E. rewrite dkeys_dset. unfold dmem. by rewrite E. Qed.

Lemma detach_step sid sid' s : drawn_keys s ->
  drawn_keys (detach sid' s).1 /\ lease_step sid s (detach sid' s).1.
Proof.
  intros Hk. unfold detach, put_lease, mbind, M_bind, gets, modify.
  destruct (get_session sid' s) as [l|] eqn:E; simpl.
  - split; [eapply keys_same; simpl; [done|by eapply dkeys_put|lia]|].
    by eapply (lease_step_put sid sid' l).
  - split; [done|by apply lease_step_same].
Qed.

Lemma heartbeat_step sid sid' n s : drawn_keys s ->
  drawn_keys (heartbeat sid' n s).1 /\ lease_step sid s (heartbeat sid' n s).1.
Proof.
  intros Hk. unfold heartbeat, put_lease, draw, of_result, extend_lease, mbind, M_bind, gets, modify.
  assert (forall s1, ss_sessions s1 = ss_sessions s -> ss_tick s <= ss_tick s1 ->
    drawn_keys s1 /\ lease_step sid s s1) as Hsame.
  { intros s1 E Ht. split; [eapply keys_same; [done|by rewrite E|done]|by apply lease_step_same]. }
  destruct (get_session sid' s) as [l|] eqn:E; [|by apply Hsame].
  destruct (lease_active l) eqn:Ea; [|by apply Hsame]. cbv zeta beta.
  destruct (lease_valid_at _ l); [|apply Hsame; simpl; [done|lia]]. simpl.
  destruct (add_seconds _ n) as [t|e]; [|apply Hsame; simpl; [done|lia]]. simpl. split.
  - eapply keys_same; simpl; [done|by eapply dkeys_put|lia].
  - eapply (lease_step_put sid sid' l); [done|done| |done..]. by rewrite Ea.
Qed.

Lemma cleanup_step sid s : drawn_keys s ->
  drawn_keys (cleanup_expired s).1 /\ lease_step sid s (cleanup_expired s).1.
Proof.
  intros Hk. unfold cleanup_expired, draw, mbind, M_bind, modify. simpl.
  set (now := id_clock (ss_tick s)). split.
  - eapply keys_same; simpl; [done| |lia]. unfold dkeys. rewrite <- list_fmap_compose. done.
  - unfold lease_step, get_session. simpl.
    assert (forall d, dget sid (map (fun kv => (kv.1, expire_stale now kv.2)) d)
      = expire_stale now <$> dget sid d) as ->.
    { induction d as [|[k l] d IH]; [done|]. simpl. by case_decide. }
    destruct (dget sid _) as [l|]; [|done]. exists (expire_stale now l). split; [done|].
    unfold expire_stale. destruct (lease_active l) eqn:Ea; simpl; [|by rewrite Ea].
    by destruct (_ <=? _)%Z.
Qed.

Context (uuid_inj : forall m n, id_uuid m = id_uuid n -> m = n).

Lemma attach_step sid s p t a pr i sc md : drawn_keys s ->
  drawn_keys (attach runtime_id p t a pr i sc md s).1 /\
  lease_step sid s (attach runtime_id p t a pr i sc md s).1.
Proof.
  intros Hk. unfold attach, generate_id, draw, of_result, throw, when, mbind, M_bind, gets, modify.
  destruct (negb (bool_decide _)); [split; [done|by apply lease_step_same]|]. simpl.
  destruct (match en_tenant_id _ with VStr _ => _ | _ => _ end);
    [split; [done|by apply lease_step_same]|]. simpl.
  fold (session_key (ss_tick s)).
  destruct (add_seconds _ 3600) as [e|e]; simpl.
  2:{ split; [eapply keys_same; simpl; [done|done|lia]|by apply lease_step_same]. }
  split.
  - intros k. simpl. rewrite dkeys_dset. unfold dmem.
    destruct (dget _ _); [|rewrite elem_of_app, list_elem_of_singleton].
    + intros Hin. destruct (Hk k Hin) as (n & Hn & ->). exists n. split; [lia|done].
    + intros [Hin| ->]; [destruct (Hk k Hin) as (n & Hn & ->); exists n; split; [lia|done]|].
      exists (ss_tick s). split; [lia|done].
  - unfold lease_step, get_session. simpl. rewrite dget_dset. case_decide as Hd.
    + subst. destruct (dget _ _) as [l|] eqn:E; [|done].
      destruct (Hk _ (dget_key _ _ _ E)) as (n & Hn & Hs). unfold session_key in Hs.
      do 2 apply string_app_inj_l in Hs. apply uuid_inj in Hs. lia.
    + destruct (dget sid _) as [l|]; [by exists l|done].
Qed.

Lemma context_same sid cur s :
  ss_sessions (get_context_for_session sid cur s).1 = ss_sessions s /\
  ss_tick s <= ss_tick (get_context_for_session sid cur s).1.
Proof.
  unfold get_context_for_session, generate_id, draw, of_result, throw, mbind, M_bind, gets, id.
  destruct (validate_session sid cur s) as [[]|e]; simpl; [|split; [done|lia]..].
  destruct (get_session sid s); simpl; split; (done || lia).
Qed.
Lemma active_leases_tick t ls : t <= (active_leases t ls).1.
Proof.
  revert t. induction ls as [|l ls IH]; intros t; simpl; [lia|].
  destruct (lease_active l); [|apply IH].
  specialize (IH (S t)). destruct (active_leases (S t) ls). simpl in *. lia.
Qed.

Lemma run_session_step sid op s : drawn_keys s ->
  drawn_keys (run_session op s) /\ lease_step sid s (run_session op s).
Proof.
  intros Hk. destruct op as [p t a pr i sc md|sid'|sid' n|sid' cur| | |op]; simpl.
  - by apply attach_step.
  - by apply detach_step.
  - by apply heartbeat_step.
  - destruct (context_same sid' cur s) as [E Ht].
    split; [eapply keys_same; [done|by rewrite E|done]|by apply lease_step_same].
  - unfold active_sessions. pose proof (active_leases_tick (ss_tick s) (dvalues (ss_sessions s))) as Ht.
    destruct (active_leases _ _) as [t r]. simpl in *.
    split; [by eapply keys_same|by apply lease_step_same].
  - by apply cleanup_step.
  - split; [by eapply keys_same|by apply lease_step_same].
Qed.

(** C27: A lease that is closed, expired or revoked never becomes active again,
    and its expiry never moves, whatever attachments, heartbeats, clean-ups
    and enrollment changes follow; nor does any lease change tenant or
    principal. *)
Theorem session_never_revived ops ops' en sid l :
  let s := run_sessions ops (mkSessions [] en 0) in
  get_session sid s = Some l ->
  exists l', get_session sid (run_sessions ops' s) = Some l' /\
    (lease_active l = false -> lease_active l' = false /\ sl_expires_at l' = sl_expires_at l) /\
    sl_tenant_id l' = sl_tenant_id l /\ sl_principal l' = sl_principal l.
Proof.
  intros s Hl. assert (drawn_keys s) as Hk.
  { subst s. clear Hl. unfold run_sessions. induction ops as [|op ops IH] using rev_ind.
    - by intros k Hin%elem_of_nil.
    - rewrite foldl_app. simpl. by apply (run_session_step sid). }
  clearbody s. revert s l Hl Hk. induction ops' as [|op ops' IH]; intros s l Hl Hk; [by exists l|].
  simpl. destruct (run_session_step sid op s Hk) as [Hk' Hs]. unfold lease_step in Hs.
  rewrite Hl in Hs. destruct Hs as (l1 & Hl1 & Ha & Ht & Hp).
  destruct (IH _ l1 Hl1 Hk') as (l' & Hl' & Ha' & Ht' & Hp'). exists l'. split; [done|].
  rewrite Ht', Hp'. split; [|done]. intros H. destruct (Ha H) as [H1 H2].
  destruct (Ha' H1) as [H3 H4]. by rewrite H4.
Qed.
End SessionRuns.

(** ** The context of a session *)
Section SessionContext.
Context {env : IdentityEnv}.
(** A context a session issues expires at an aware instant. *)
Lemma session_context_wp sid current s :
  wp (get_context_for_session sid current) s (fun _ r =>
    match r with Ok (Some c) => aware (ec_expires_at c) = true | _ => True end).
Proof.
  unfold get_context_for_session. apply wp_bind, wp_gets, wp_bind, wp_of_result.
  destruct (validate_session _ _ _) as [[]|e]; [|done..]. simpl. unfold id.
  by destruct (get_session sid s).
Qed.

(** A context is issued exactly for an active session of the enrolled tenant
    that has not expired at the given aware instant; it carries the lease's
    identities and expiry, no workspace, no capability and generation 1.  A
    naive instant raises TypeError on an active lease. *)
Theorem session_context_spec sid current s :
  wp (get_context_for_session sid current) s (fun s' r =>
    ss_sessions s' = ss_sessions s /\
    match r with
    | Ok (Some c) => exists l, get_session sid s = Some l /\ lease_active l = true /\
        aware current = true /\ (micros current < sl_expires_at l)%Z /\
        en_tenant_id (ss_enrollment s) = VStr (ec_tenant_id c) /\
        ec_tenant_id c = sl_tenant_id l /\ ec_actor_id c = sl_principal l /\
        ec_session_id c = sl_session_id l /\
        ec_expires_at c = mkMoment true (sl_expires_at l) /\ ec_issued_at c = current /\
        ec_workspace_id c = None /\ ec_capabilities c = ∅ /\ ec_generation c = 1%Z
    | Ok None => forall l, get_session sid s = Some l -> lease_active l = true ->
        aware current = true /\ ((sl_expires_at l <= micros current)%Z \/
          en_tenant_id (ss_enrollment s) <> VStr (sl_tenant_id l))
    | Raise e => exn_type e = TypeError /\ aware current = false
    end).
Proof.
  unfold get_context_for_session. apply wp_bind, wp_gets, wp_bind, wp_of_result. unfold id.
  unfold validate_session. destruct (get_session sid s) as [l|] eqn:El; [|by apply wp_ret].
  destruct (lease_active l) eqn:Ea; simpl; [|apply wp_ret; split; [done|intros l' [= <-] ?; congruence]].
  unfold compare_moments. simpl. destruct (bool_decide _) eqn:Ew; simpl.
  2:{ split; [done|]. apply bool_decide_eq_false in Ew. split; [done|]. by destruct (aware current). }
  apply bool_decide_eq_true in Ew.
  destruct (micros current >=? sl_expires_at l)%Z eqn:Et; simpl.
  { apply wp_ret. split; [done|]. intros l' [= <-] _. split; [done|left; lia]. }
  destruct (en_tenant_id (ss_enrollment s)) as [| | | |t| |] eqn:En; simpl;
    try (apply wp_ret; split; [done|]; intros l' [= <-] _; split; [done|by right]).
  destruct (sl_tenant_id l =s t) eqn:Es; simpl.
  - apply String.eqb_eq in Es. subst. unfold wp. simpl. split; [done|]. exists l.
    split_and!; try done. lia.
  - apply wp_ret. split; [done|]. intros l' [= <-] _. split; [done|]. right. intros [= ->].
    by rewrite String.eqb_refl in Es.
Qed.
End SessionContext.
