(* ===== verification/Keys.v ===== *)
(** * The runtime's identity

    [runtime/identity/runtime_identity.py] with [contracts/identifiers.py]:
    generating the identity and its Ed25519 key pair, storing the public
    manifest and the private key in two files, loading them, signing and
    verifying.  The fields of a stored manifest that are not of the types [save]
    writes are [Unmodelled]. *)
From S2P Require Import Prelude Dict PyVal Effects PyPath PyStr PyBytes Json Host Identity.

Record RuntimeIdentity := mkIdentity {
  ri_runtime_id : string;
  ri_installation_id : string;
  ri_private_key : string;
  ri_public_key : string;
  ri_platform : string;
  ri_runtime_version : string;
  ri_protocol_version : string;
  ri_generation : Z;
  ri_created_at : string }.

Definition PROTOCOL_VERSION : string := "0.1".
Definition runtime_version : string := "0.4.0".

(** [bytes.hex()] *)
Fixpoint to_hex (b : string) : string :=
  match b with "" => "" | String c b' => hex2 (N_of_ascii c) +:+ to_hex b' end.

(** The cryptography package: a fresh private key in PEM, its public key as
    raw bytes, and signing, which fails on bytes that are not a PEM key. *)
Class KeyEnv := {
  key_identity :: IdentityEnv;
  new_private_key : nat -> string;
  public_key_of : string -> string;
  pem_sign : string -> string -> result string;
  key_isoformat : Z -> string }.

(** The identity directory: the manifest, the key, the key's mode, and how the
    coming file operations end: a failed [open] leaves the file, a failed write
    leaves it empty. *)
Inductive io_outcome := IoDone | IoOpenFails | IoWriteFails.
Record KeyDir := mkKeyDir {
  kd_manifest : option json_text;
  kd_private : option string;
  kd_mode : Z;
  kd_outcomes : list io_outcome }.
#[export] Instance eta_KeyDir : Eta KeyDir := fun r =>
  mkKeyDir (kd_manifest r) (kd_private r) (kd_mode r) (kd_outcomes r).

Section Identities.
Context {env : KeyEnv}.

(** [generate]: two identifiers, a key and an instant are drawn. *)
Definition generate (platform : string) (tick : nat) : RuntimeIdentity :=
  let private_key := new_private_key tick in
  mkIdentity ("RT-" +:+ id_uuid tick) ("INST-" +:+ id_uuid (S tick)) private_key
    (to_hex (public_key_of private_key)) platform runtime_version PROTOCOL_VERSION 1
    (key_isoformat (id_clock (S (S tick)))).

Definition public_manifest (i : RuntimeIdentity) : dict string pyval :=
  [("runtime_id", VStr (ri_runtime_id i)); ("installation_id", VStr (ri_installation_id i));
   ("public_key", VStr (ri_public_key i)); ("platform", VStr (ri_platform i));
   ("runtime_version", VStr (ri_runtime_version i));
   ("protocol_version", VStr (ri_protocol_version i));
   ("generation", VInt (ri_generation i)); ("created_at", VStr (ri_created_at i))].

(** Opening a file to write, and writing it. *)
Definition key_write (put : bool -> KeyDir -> KeyDir) : M KeyDir unit := fun d =>
  let d' := d <| kd_outcomes := tl (kd_outcomes d) |> in
  match kd_outcomes d with
  | IoOpenFails :: _ => (d', raise OSError "cannot open")
  | IoWriteFails :: _ => (put false d', raise OSError "write failed")
  | _ => (put true d', Ok tt)
  end.
(** [save]: the manifest, the key, and the mode 0o600. *)
Definition save_identity (i : RuntimeIdentity) : M KeyDir unit :=
  key_write (fun ok d => d <| kd_manifest :=
    Some (if ok then JValue (VDict (public_manifest i)) else JEmpty) |>) ;;
  key_write (fun ok d => d <| kd_private := Some (if ok then ri_private_key i else "") |>) ;;
  key_write (fun ok d => if ok then d <| kd_mode := 384%Z |> else d).

Definition str_item (k : string) (v : pyval) : result string :=
  let? x := py_item k v in
  match x with VStr s => Ok s | _ => raise Unmodelled "a manifest field of another type" end.
Definition int_item (k : string) (v : pyval) : result Z :=
  let? x := py_item k v in
  match x with VInt z => Ok z | _ => raise Unmodelled "a manifest field of another type" end.
Definition decode_manifest (private_key : string) (data : pyval) : result RuntimeIdentity :=
  let? runtime_id := str_item "runtime_id" data in
  let? installation_id := str_item "installation_id" data in
  let? public_key := str_item "public_key" data in
  let? platform := str_item "platform" data in
  let? version := str_item "runtime_version" data in
  let? protocol := str_item "protocol_version" data in
  let? generation := int_item "generation" data in
  let? created_at := str_item "created_at" data in
  Ok (mkIdentity runtime_id installation_id private_key public_key platform version protocol
        generation created_at).
(** [load] *)
Definition load_identity (d : KeyDir) : result RuntimeIdentity :=
  let missing := raise OSError "No such file or directory" in
  match kd_manifest d with
  | None => missing
  | Some (JValue data) =>
      match kd_private d with
      | None => missing
      | Some key => decode_manifest key data
      end
  | Some _ => raise JSONDecodeError "Expecting value"
  end.

Definition sign_message (i : RuntimeIdentity) (message : string) : result string :=
  pem_sign (ri_private_key i) message.
Definition verify_signature (i : RuntimeIdentity) (message signature : string) : bool :=
  identity_verify (ri_public_key i) message signature.

(** ** Correctness *)
Lemma hex_digit_value n : (n < 16)%N -> hex_value (hex_digit n) = Some n.
Proof.
  intros H. assert (forallb (fun n => bool_decide (hex_value (hex_digit n) = Some n))
    (N.of_nat <$> seq 0 16) = true) as HF by (vm_compute; reflexivity).
  apply (bool_decide_eq_true_1 _), (proj1 (forallb_forall _ _) HF), in_map_iff.
  exists (N.to_nat n). split; [lia|]. apply in_seq. lia.
Qed.
Lemma hex_digit_not_space n : (n < 16)%N -> ascii_space (hex_digit n) = false.
Proof.
  intros H. assert (forallb (fun n => negb (ascii_space (hex_digit n)))
    (N.of_nat <$> seq 0 16) = true) as HF by (vm_compute; reflexivity).
  apply negb_true_iff, (proj1 (forallb_forall _ _) HF), in_map_iff.
  exists (N.to_nat n). split; [lia|]. apply in_seq. lia.
Qed.
Lemma fromhex_to_hex b : fromhex (to_hex b) = Some b.
Proof.
  induction b as [|c b IH]; [done|]. pose proof (ascii_range c) as Hc.
  change (to_hex (String c b)) with
    (String (hex_digit (N_of_ascii c / 16)) (String (hex_digit (N_of_ascii c mod 16)) (to_hex b))).
  cbn [fromhex]. rewrite hex_digit_not_space, !hex_digit_value, IH by n_arith.
  do 2 f_equal. apply ascii_eq. n_arith.
Qed.

Lemma decode_public_manifest i : decode_manifest (ri_private_key i) (VDict (public_manifest i)) = Ok i.
Proof. by destruct i. Qed.

(** An identity that was saved is loaded back with its key, which only the
    owner may read; a save that fails midway raises. *)
Theorem identity_round_trip i d :
  wp (save_identity i) d (fun d' r =>
    match r with
    | Ok _ => load_identity d' = Ok i /\ kd_mode d' = 384%Z
    | Raise e => exn_type e = OSError /\ kd_outcomes d <> []
    end).
Proof.
  destruct d as [m p mode outcomes].
  destruct outcomes as [|[] [|[] [|[] o]]]; unfold wp, save_identity, mbind, M_bind, key_write;
    simpl; unfold load_identity; simpl; rewrite ?decode_public_manifest; done.
Qed.

(** A generated identity that was saved and loaded signs messages that its
    published key verifies. *)
Theorem generated_identity_signs platform tick d message :
  (forall n m, exists s, pem_sign (new_private_key n) m = Ok s /\
     ed25519_verify (public_key_of (new_private_key n)) m s = true) ->
  (forall n, String.length (public_key_of (new_private_key n)) = 32) ->
  kd_outcomes d = [] ->
  exists i signature, load_identity (save_identity (generate platform tick) d).1 = Ok i /\
    dget "public_key" (public_manifest i) = dget "public_key" (public_manifest (generate platform tick)) /\
    sign_message i message = Ok signature /\ verify_signature i message signature = true.
Proof.
  intros Hsign Hlen Ho. destruct (Hsign tick message) as (s & Hs & Hv).
  exists (generate platform tick), s.
  pose proof (identity_round_trip (generate platform tick) d) as H. unfold wp in H.
  destruct (save_identity _ d) as [d' [[]|e]] eqn:E; [|by destruct H].
  split; [by destruct H|]. split; [done|]. split; [done|].
  unfold verify_signature, identity_verify. simpl. rewrite fromhex_to_hex, Hlen. done.
Qed.

(** A failure between the two files of a second identity leaves its manifest
    with the key of the first. *)
Lemma torn_save i j d :
  kd_outcomes d = [IoDone; IoDone; IoDone; IoDone; IoOpenFails] ->
  exists k, load_identity (save_identity j (save_identity i d).1).1 = Ok k /\
    ri_public_key k = ri_public_key j /\ ri_private_key k = ri_private_key i.
Proof.
  destruct d as [m p mode o]. simpl. intros ->. destruct j. by eexists.
Qed.
End Identities.
