(* ===== verification/Security.v ===== *)
(** * Capabilities, grants and the execution pipelines

    [runtime/security/] and [runtime/capability/gate.py] with
    [tools/registry.py]: the capability gate, the authorization store with its
    colon-joined keys, the generation fence, the authority validator, the two
    tool registries, the authorized execution pipeline, the context guard and
    the active context of a thread.  A tool's handler is a computation on a
    state of its own: what it may change is the [S] of [handler]. *)
From S2P Require Import Prelude Dict PyVal Effects PyPath PyStr Host Identity.

(** ** Capabilities *)
Inductive Capability :=
  | FILE_READ | FILE_WRITE | PROCESS_EXECUTION | PROCESS_CONTROL | GIT_READ | GIT_WRITE
  | REMOTE_REPOSITORY_MUTATION | SECRET_USE | WORKSPACE_CREATE | WORKSPACE_DELETE
  | NETWORK_ACCESS.
#[export] Instance Capability_eq_dec : EqDecision Capability.
Proof. solve_decision. Defined.
Definition capability_list : list Capability :=
  [FILE_READ; FILE_WRITE; PROCESS_EXECUTION; PROCESS_CONTROL; GIT_READ; GIT_WRITE;
   REMOTE_REPOSITORY_MUTATION; SECRET_USE; WORKSPACE_CREATE; WORKSPACE_DELETE; NETWORK_ACCESS].
Definition capability_name (c : Capability) : string :=
  match c with
  | FILE_READ => "FILE_READ" | FILE_WRITE => "FILE_WRITE"
  | PROCESS_EXECUTION => "PROCESS_EXECUTION" | PROCESS_CONTROL => "PROCESS_CONTROL"
  | GIT_READ => "GIT_READ" | GIT_WRITE => "GIT_WRITE"
  | REMOTE_REPOSITORY_MUTATION => "REMOTE_REPOSITORY_MUTATION" | SECRET_USE => "SECRET_USE"
  | WORKSPACE_CREATE => "WORKSPACE_CREATE" | WORKSPACE_DELETE => "WORKSPACE_DELETE"
  | NETWORK_ACCESS => "NETWORK_ACCESS"
  end.
#[export] Program Instance Capability_countable : Countable Capability :=
  inj_countable capability_name
    (fun s => head (filter (fun c => capability_name c = s) capability_list)) _.
Next Obligation. by intros []. Qed.

(** ** The capability gate *)
Record CapabilityDecision := mkDecision {
  cd_allowed : bool; cd_reason : string; cd_capability : Capability;
  cd_actor_id : string; cd_workspace_id : string }.
Abbreviation gate := (gset (string * Capability * string)).
Definition gate_grant (actor : string) (c : Capability) (workspace : string) (g : gate) : gate :=
  {[(actor, c, workspace)]} ∪ g.
Definition gate_revoke (actor : string) (c : Capability) (workspace : string) (g : gate) : gate :=
  g ∖ {[(actor, c, workspace)]}.
Definition gate_check (g : gate) (actor : string) (c : Capability) (workspace : string)
    (runtime_generation current_generation : Z) : CapabilityDecision :=
  if negb (runtime_generation =? current_generation)%Z
  then mkDecision false "Stale generation" c actor workspace
  else if bool_decide ((actor, c, workspace) ∈ g) || bool_decide ((actor, c, "*") ∈ g)
  then mkDecision true "Granted explicitly" c actor workspace
  else mkDecision false "No explicit grant found" c actor workspace.

(** ** The authorization store *)
Record Grant := mkGrant {
  gr_tenant_id : string; gr_actor_id : string; gr_capability : string;
  gr_workspace_id : string; gr_generation : Z }.
(** Its grants, and its file: what decoding the file gives. *)
Record AuthStore := mkStore {
  as_grants : dict string Grant;
  as_file : option (result (dict string Grant)) }.
#[export] Instance eta_AuthStore : Eta AuthStore := fun r => mkStore (as_grants r) (as_file r).

Definition make_key (tenant actor capability workspace : string) : string :=
  tenant +:+ ":" +:+ actor +:+ ":" +:+ capability +:+ ":" +:+ workspace.
Definition store_grant (tenant actor capability workspace : string) (generation : Z)
    (s : AuthStore) : AuthStore :=
  s <| as_grants := dset (make_key tenant actor capability workspace)
                      (mkGrant tenant actor capability workspace generation) (as_grants s) |>.
Definition store_revoke (tenant actor capability workspace : string) (s : AuthStore) : AuthStore :=
  let key := make_key tenant actor capability workspace in
  if dmem key (as_grants s) then s <| as_grants := ddel key (as_grants s) |> else s.
(** A grant is looked up for the workspace, then for any; None is formatted
    as the text None. *)
Definition store_check (s : AuthStore) (c : ExecutionContext) (capability : string) : bool :=
  let key w := make_key (ec_tenant_id c) (ec_actor_id c) capability w in
  let found := match dget (key (default "None" (ec_workspace_id c))) (as_grants s) with
               | Some g => Some g
               | None => dget (key "*") (as_grants s)
               end in
  match found with
  | Some g => (gr_generation g =? ec_generation c)%Z
  | None => false
  end.
Definition store_save (s : AuthStore) : AuthStore := s <| as_file := Some (Ok (as_grants s)) |>.
Definition store_load : M AuthStore unit :=
  f ← gets as_file;
  match f with
  | None => mret tt
  | Some r => gs ← of_result r; modify (fun s => s <| as_grants := gs |>)
  end.

(** ** The fence and the validator *)
Record SecSt := mkSec { se_store : AuthStore; se_fence : Z; se_tick : nat }.
#[export] Instance eta_SecSt : Eta SecSt := fun r =>
  mkSec (se_store r) (se_fence r) (se_tick r).
Definition advance_fence (s : SecSt) : SecSt := s <| se_fence := (se_fence s + 1)%Z |>.
Definition fence_validate (c : ExecutionContext) (s : SecSt) : bool :=
  (ec_generation c =? se_fence s)%Z.

Section Validator.
Context {env : IdentityEnv}.
(** [datetime.now(tz)] for the zone of [like]. *)
Definition now_like (like : moment) (tick : nat) : moment :=
  if aware like then mkMoment true (id_clock tick)
  else mkMoment false (id_clock tick + local_offset).
(** [AuthorityValidator.validate_context] *)
Definition validate_context (c : ExecutionContext) : M SecSt ExecutionContext :=
  s ← gets id;
  when (negb (ec_generation c =? se_fence s)%Z)
    (throw SecurityViolationError "Context generation mismatch.") ;;
  let now := now_like (ec_expires_at c) (se_tick s) in
  modify (fun s => s <| se_tick := S (se_tick s) |>) ;;
  late ← of_result (compare_moments Z.gtb now (ec_expires_at c));
  when late (throw SecurityViolationError "Context has expired.") ;;
  mret (c <| ec_capabilities :=
    filter (fun cap => store_check (se_store s) c cap = true) (ec_capabilities c) |>).
End Validator.

(** ** Tool registries *)
(** A capability as a manifest lists it: an enumeration member, which has a
    [.name], or a plain string, which has none. *)
Inductive cap_ref := CapMember (c : Capability) | CapText (s : string).
Record SecureManifest := mkSecureManifest {
  sm_name : string; sm_required_capabilities : list string;
  sm_workspace_required : bool; sm_effect_class : string }.
Record ToolManifest := mkToolManifest {
  tm_name : string; tm_version : string;
  tm_input_schema : dict string pyval; tm_output_schema : dict string pyval;
  tm_required_capabilities : list Capability; tm_side_effects : list string;
  tm_execution_domain : string; tm_workspace_required : bool; tm_network_required : bool }.

(** What the pipeline reads of a manifest. *)
Class Manifest (A : Type) := {
  manifest_required : A -> list cap_ref;
  manifest_workspace : A -> bool }.
#[export] Instance SecureManifest_manifest : Manifest SecureManifest := {
  manifest_required m := CapText <$> sm_required_capabilities m;
  manifest_workspace := sm_workspace_required }.
#[export] Instance ToolManifest_manifest : Manifest ToolManifest := {
  manifest_required m := CapMember <$> tm_required_capabilities m;
  manifest_workspace := tm_workspace_required }.

(** [handler(context, **args)] *)
Definition handler (S : Type) : Type := ExecutionContext -> dict string pyval -> M S pyval.
Abbreviation tools A S := (dict string (A * handler S)) (only parsing).

Definition register_secure {S} (m : SecureManifest) (h : handler S)
    (ts : tools SecureManifest S) : tools SecureManifest S := dset (sm_name m) (m, h) ts.
Definition register_tool {S} (m : ToolManifest) (h : handler S)
    (ts : tools ToolManifest S) : tools ToolManifest S := dset (tm_name m) (m, h) ts.
Definition list_manifests {S} (ts : tools ToolManifest S) : list ToolManifest := fst <$> dvalues ts.
(** [ToolRegistry.validate_capabilities] *)
Definition validate_capabilities {S} (ts : tools ToolManifest S) (name actor : string) (g : gate)
    (workspace : string) (runtime_generation current_generation : Z) : bool :=
  match dget name ts with
  | Some (m, _) =>
      forallb (fun c => cd_allowed (gate_check g actor c workspace
                          runtime_generation current_generation)) (tm_required_capabilities m)
  | None => false
  end.

(** [SecureToolRegistry.execute] *)
Definition secure_execute {S} (ts : tools SecureManifest S) (c : ExecutionContext) (name : string)
    (args : dict string pyval) : M S pyval :=
  match dget name ts with
  | None => throw SecurityViolationError ("Tool '" +:+ name +:+ "' is not registered.")
  | Some (m, h) =>
      for_each (sm_required_capabilities m) (fun cap =>
        when (negb (has_capability c cap))
          (throw SecurityViolationError ("Missing required capability: " +:+ cap))) ;;
      when (sm_workspace_required m && negb (ostr_true (ec_workspace_id c)))
        (throw SecurityViolationError ("Tool '" +:+ name +:+ "' requires a workspace.")) ;;
      h c args
  end.

(** ** The pipeline *)
Record ExecutionReceipt := mkReceipt {
  rc_execution_id : string; rc_tool_name : string; rc_status : string;
  rc_timestamp : moment; rc_result : pyval }.
(** The identity service: tenant, generation and runtime. *)
Record IdentityService := mkIdentityService {
  is_tenant_id : string; is_generation : Z; is_runtime_id : string }.

(** The step that needs each required capability. *)
Definition require_capability {S} (c : ExecutionContext) (r : cap_ref) : M S unit :=
  match r with
  | CapMember cap =>
      when (negb (has_capability c (capability_name cap)))
        (throw SecurityViolationError
           ("Capability Authorization failure: missing " +:+ capability_name cap))
  | CapText _ => throw AttributeError "'str' object has no attribute 'name'"
  end.
(** [AuthorizedExecutionPipeline.execute], with the two readings of
    [datetime.utcnow()]. *)
Definition pipeline_execute {S A} `{Manifest A} (svc : IdentityService) (ts : tools A S)
    (now finished : Z) (context : option ExecutionContext) (name : string)
    (args : dict string pyval) : M S ExecutionReceipt :=
  match context with
  | None => throw SecurityViolationError "ExecutionContext missing"
  | Some c =>
      when (negb (str_true (ec_execution_id c)) || negb (str_true (ec_session_id c)))
        (throw SecurityViolationError "ExecutionContext structurally invalid") ;;
      when (negb (ec_tenant_id c =s is_tenant_id svc))
        (throw SecurityViolationError ("Tenant Binding failure: " +:+ ec_tenant_id c)) ;;
      valid ← of_result (context_is_valid c (mkMoment false now) (is_generation svc));
      when (negb valid)
        (throw SecurityViolationError "Session expired or generation stale") ;;
      when (negb (ec_runtime_id c =s is_runtime_id svc))
        (throw SecurityViolationError "Runtime Identity mismatch") ;;
      match dget name ts with
      | None => throw SecurityViolationError ("Tool " +:+ name +:+ " not registered")
      | Some (m, h) =>
          for_each (manifest_required m) (require_capability c) ;;
          when (manifest_workspace m && negb (ostr_true (ec_workspace_id c)))
            (throw SecurityViolationError
               "Resource Ownership failure: missing workspace_id in context") ;;
          p ← try_with (v ← h c args; mret ("SUCCESS", v))
                (fun e => mret ("FAILED", VStr (exn_str e)));
          mret (mkReceipt (ec_execution_id c) name p.1 (mkMoment false finished) p.2)
      end
  end.

(** ** The context guard *)
Definition deny (what : string) : result unit :=
  raise ContextAccessError ("CONTEXT_ACCESS_DENIED: " +:+ what).
Definition assert_account (c : ExecutionContext) (account : string) : result unit :=
  if ec_account_id c =s account then Ok tt
  else deny ("Account mismatch. Context=" +:+ ec_account_id c +:+ ", Resource=" +:+ account).
Definition assert_project (c : ExecutionContext) (project : string) : result unit :=
  if ec_project_id c =s project then Ok tt
  else deny ("Project mismatch. Context=" +:+ ec_project_id c +:+ ", Resource=" +:+ project).
(** The project of a workspace, None when the object has none. *)
Definition assert_workspace (c : ExecutionContext) (project : option string) : result unit :=
  if bool_decide (project = Some (ec_project_id c)) then Ok tt
  else deny ("Workspace project mismatch. Context=" +:+ ec_project_id c
               +:+ ", Workspace Project=" +:+ default "None" project).
Definition assert_credential_ref (c : ExecutionContext) (ref : string) : result unit :=
  if startswith ("acct-" +:+ ec_account_id c +:+ "-") ref then Ok tt
  else deny ("Invalid credential namespace. Context=" +:+ ec_account_id c +:+ ", Ref=" +:+ ref).
Definition assert_fabric_namespace (c : ExecutionContext) (namespace : string) : result unit :=
  if startswith (ec_project_id c +:+ "/") namespace then Ok tt
  else deny ("Fabric namespace mismatch. Context=" +:+ ec_project_id c
               +:+ ", Namespace=" +:+ namespace).

(** ** The active context of each thread *)
Record ActiveContext := mkActive {
  ac_account_id : string; ac_project_id : string;
  ac_workspace_id : option string; ac_repository_id : option string }.
Definition set_active_context (thread : nat) (c : ActiveContext) (l : gmap nat ActiveContext)
  : gmap nat ActiveContext := <[thread := c]> l.
Definition get_active_context (thread : nat) (l : gmap nat ActiveContext) : option ActiveContext :=
  l !! thread.
Definition clear_active_context (thread : nat) (l : gmap nat ActiveContext)
  : gmap nat ActiveContext := delete thread l.

(** ** The authorization store refines a table *)
(** The intended content: a generation for each tenant, actor, capability and
    workspace. *)
Abbreviation grant_key := (string * string * string * string)%type.
Abbreviation grants := (gmap grant_key Z).
Definition spec_check (g : grants) (tenant actor cap : string) (workspace : string)
    (generation : Z) : bool :=
  match g !! (tenant, actor, cap, workspace) with
  | Some n => (n =? generation)%Z
  | None => match g !! (tenant, actor, cap, "*") with
            | Some n => (n =? generation)%Z
            | None => false
            end
  end.
Definition colon_free (s : string) : Prop := contains ":" s = false.
Definition represents (d : dict string Grant) (g : grants) : Prop :=
  dict_wf d /\
  forall t a c w, colon_free t -> colon_free a -> colon_free c ->
    dget (make_key t a c w) d = (fun n => mkGrant t a c w n) <$> g !! (t, a, c, w).

Lemma colon_free_cons x s : colon_free (String x s) <-> x <> ":"%char /\ colon_free s.
Proof.
  unfold colon_free.
  change (contains ":" (String x s)) with ((Ascii.eqb ":" x && true) || contains ":" s).
  rewrite orb_false_iff, andb_true_r, Ascii.eqb_neq. naive_solver.
Qed.
(** A text without colon is read back from what is joined with a colon. *)
Lemma colon_split a a' b b' :
  colon_free a -> colon_free a' -> a +:+ ":" +:+ b = a' +:+ ":" +:+ b' -> a = a' /\ b = b'.
Proof.
  revert a'. induction a as [|x a IH]; intros [|y a'] Ha Ha' E.
  - simpl in E. by injection E.
  - apply colon_free_cons in Ha' as [Hy _]. simpl in E. injection E as <- _. done.
  - apply colon_free_cons in Ha as [Hx _]. simpl in E. injection E as -> _. done.
  - apply colon_free_cons in Ha as [_ Ha]. apply colon_free_cons in Ha' as [_ Ha'].
    injection E as -> E. destruct (IH a' Ha Ha' E) as [-> ->]. done.
Qed.
Lemma make_key_inj t a c w t' a' c' w' :
  colon_free t -> colon_free a -> colon_free c ->
  colon_free t' -> colon_free a' -> colon_free c' ->
  make_key t a c w = make_key t' a' c' w' -> (t, a, c, w) = (t', a', c', w').
Proof.
  intros Ht Ha Hc Ht' Ha' Hc' E. unfold make_key in E.
  apply colon_split in E as [-> E]; [|done..]. apply colon_split in E as [-> E]; [|done..].
  apply colon_split in E as [-> ->]; done.
Qed.

Lemma represents_grant d g t a c w n :
  colon_free t -> colon_free a -> colon_free c -> represents d g ->
  represents (dset (make_key t a c w) (mkGrant t a c w n) d) (<[(t, a, c, w) := n]> g).
Proof.
  intros Ht Ha Hc [Hw H]. split; [by apply dset_wf|]. intros t' a' c' w' Ht' Ha' Hc'.
  rewrite dget_dset. case_decide as E.
  - apply make_key_inj in E; [|done..]. simplify_eq. by rewrite lookup_insert_eq.
  - rewrite lookup_insert_ne by congruence. by apply H.
Qed.
Lemma represents_revoke d g t a c w :
  colon_free t -> colon_free a -> colon_free c -> represents d g ->
  represents (ddel (make_key t a c w) d) (delete (t, a, c, w) g).
Proof.
  intros Ht Ha Hc [Hw H]. split; [by apply ddel_wf|]. intros t' a' c' w' Ht' Ha' Hc'.
  destruct (decide ((t, a, c, w) = (t', a', c', w'))) as [E|E].
  - simplify_eq. by rewrite lookup_delete_eq, dget_ddel_same.
  - rewrite lookup_delete_ne by done. rewrite dget_ddel_other; [by apply H|].
    intros E'. by apply make_key_inj in E'.
Qed.
Lemma represents_check d f g c cap :
  represents d g -> colon_free (ec_tenant_id c) -> colon_free (ec_actor_id c) ->
  colon_free cap ->
  store_check (mkStore d f) c cap =
    spec_check g (ec_tenant_id c) (ec_actor_id c) cap (default "None" (ec_workspace_id c))
      (ec_generation c).
Proof.
  intros [_ H] Ht Ha Hc. unfold store_check, spec_check. simpl. rewrite !H by done.
  destruct (g !! _); simpl; [done|]. by destruct (g !! _).
Qed.

Inductive store_op :=
  | AGrant (tenant actor capability workspace : string) (generation : Z)
  | ARevoke (tenant actor capability workspace : string)
  | ASave | ALoad.
Definition run_store (op : store_op) (s : AuthStore) : AuthStore :=
  match op with
  | AGrant t a c w n => store_grant t a c w n s
  | ARevoke t a c w => store_revoke t a c w s
  | ASave => store_save s
  | ALoad => (store_load s).1
  end.
(** The specification keeps a table and the saved one. *)
Definition spec_op (op : store_op) (g : grants * option grants) : grants * option grants :=
  match op with
  | AGrant t a c w n => (<[(t, a, c, w) := n]> g.1, g.2)
  | ARevoke t a c w => (delete (t, a, c, w) g.1, g.2)
  | ASave => (g.1, Some g.1)
  | ALoad => (default g.1 g.2, g.2)
  end.
Definition op_colon_free (op : store_op) : Prop :=
  match op with
  | AGrant t a c _ _ | ARevoke t a c _ => colon_free t /\ colon_free a /\ colon_free c
  | ASave | ALoad => True
  end.
Definition store_rel (s : AuthStore) (g : grants * option grants) : Prop :=
  represents (as_grants s) g.1 /\
  match as_file s, g.2 with
  | None, None => True
  | Some (Ok d), Some g' => represents d g'
  | _, _ => False
  end.

(** One operation simulates the specification's. *)
Lemma run_store_sim op s g :
  op_colon_free op -> store_rel s g -> store_rel (run_store op s) (spec_op op g).
Proof.
  intros Hop [Hr Hf]. destruct op as [t a c w n|t a c w| |]; simpl in *.
  - split; [|done]. destruct Hop as (Ht & Ha & Hc). by apply represents_grant.
  - destruct Hop as (Ht & Ha & Hc). unfold store_revoke.
    destruct (dmem _ _) eqn:E; [split; [by apply represents_revoke|done]|].
    split; [|done]. simpl. destruct Hr as [Hw Hr]. split; [done|].
    intros t' a' c' w' Ht' Ha' Hc'.
    destruct (decide ((t, a, c, w) = (t', a', c', w'))) as [E'|E'].
    + simplify_eq. rewrite lookup_delete_eq. by apply dmem_false.
    + rewrite lookup_delete_ne by done. by apply Hr.
  - by split.
  - unfold store_load, mbind, M_bind, gets, of_result, modify.
    destruct (as_file s) as [[d|e]|] eqn:E, g.2 as [g'|]; try done.
    + split; [exact Hf|]. simpl. by rewrite E.
    + split; [exact Hr|]. simpl. by rewrite E.
Qed.

(** C12: Over identifiers without colons the authorization store is its
    specification: after any grants, revocations, saves and loads, a check
    answers what the table keyed by tenant, actor, capability and workspace
    answers. *)
Theorem store_refines ops c cap :
  Forall op_colon_free ops ->
  colon_free (ec_tenant_id c) -> colon_free (ec_actor_id c) -> colon_free cap ->
  store_check (foldl (fun s op => run_store op s) (mkStore [] None) ops) c cap =
  spec_check (foldl (fun g op => spec_op op g) (∅, None) ops).1
    (ec_tenant_id c) (ec_actor_id c) cap (default "None" (ec_workspace_id c)) (ec_generation c).
Proof.
  intros Hops Ht Ha Hc.
  assert (store_rel (foldl (fun s op => run_store op s) (mkStore [] None) ops)
    (foldl (fun g op => spec_op op g) (∅, None) ops)) as [Hr _].
  { assert (store_rel (mkStore [] None) (∅, None)) as H0.
    { split; [|done]. split; [apply NoDup_nil_2|done]. }
    revert H0. generalize (mkStore [] None) ((∅ : grants), None : option grants).
    induction Hops as [|op ops Hop _ IH]; intros s g H; [done|]. by apply IH, run_store_sim. }
  destruct (foldl _ (mkStore [] None) ops) as [d f]. by apply represents_check.
Qed.

(** The colon in the key confuses identities: a grant to actor "x:a" of
    tenant t serves actor a of tenant "t:x", for every capability. *)
Theorem grant_crosses_tenants t x a cap w c s :
  ec_tenant_id c = t +:+ ":" +:+ x -> ec_actor_id c = a -> ec_workspace_id c = Some w ->
  store_check (store_grant t (x +:+ ":" +:+ a) cap w (ec_generation c) s) c cap = true.
Proof.
  intros Ht Ha Hw. unfold store_check, store_grant. rewrite Ht, Ha, Hw. simpl.
  assert (make_key (t +:+ ":" +:+ x) a cap w = make_key t (x +:+ ":" +:+ a) cap w) as ->.
  { unfold make_key. by rewrite !string_app_assoc. }
  rewrite dget_dset_same. simpl. apply Z.eqb_refl.
Qed.

(** ** From a grant to an effect *)
Section Authority.
Context {env : IdentityEnv} {S : Type}.
Implicit Types (st : S) (c : ExecutionContext).

Lemma require_all_wp c caps st :
  wp (for_each caps (fun cap => when (negb (has_capability c cap))
        (throw SecurityViolationError ("Missing required capability: " +:+ cap))) : M S unit) st
    (fun st' r => st' = st /\ (r = Ok tt -> forall cap, cap ∈ caps -> cap ∈ ec_capabilities c)).
Proof.
  induction caps as [|cap caps IH]; [by split; [|set_solver]|].
  apply wp_bind, wp_when; intros Hc; [by apply wp_throw|].
  eapply wp_mono; [exact IH|]. intros st' r [-> H]. split; [done|]. intros Hr cap'.
  rewrite elem_of_cons. intros [->|Hin]; [|by apply H].
  apply negb_false_iff in Hc. by apply bool_decide_eq_true in Hc.
Qed.

Lemma validate_context_wp c s :
  wp (validate_context c) s (fun s' r => se_store s' = se_store s /\ forall c', r = Ok c' ->
    ec_generation c = se_fence s /\ c' = c <| ec_capabilities :=
      filter (fun cap => store_check (se_store s) c cap = true) (ec_capabilities c) |> /\
    (micros (now_like (ec_expires_at c) (se_tick s)) <= micros (ec_expires_at c))%Z).
Proof.
  unfold validate_context. apply wp_bind, wp_gets, wp_bind, wp_when; intros Hg; [by apply wp_throw|].
  apply wp_bind, wp_modify, wp_bind, wp_of_result. unfold id, compare_moments.
  destruct (bool_decide _); [|done]. apply wp_bind, wp_when; intros Hl; [by apply wp_throw|].
  apply wp_ret. split; [done|]. intros c' [= <-]. apply negb_false_iff, Z.eqb_eq in Hg.
  split_and!; [done|done|lia].
Qed.


(** What the pipeline asks of a context before a tool runs. *)
Definition has_required (c : ExecutionContext) (r : cap_ref) : Prop :=
  match r with
  | CapMember cap => capability_name cap ∈ ec_capabilities c
  | CapText _ => False
  end.
Definition pipeline_admits {A} `{Manifest A} (svc : IdentityService) (now : Z)
    (c : ExecutionContext) (m : A) : Prop :=
  str_true (ec_execution_id c) = true /\ str_true (ec_session_id c) = true /\
  ec_tenant_id c = is_tenant_id svc /\
  context_is_valid c (mkMoment false now) (is_generation svc) = Ok true /\
  ec_runtime_id c = is_runtime_id svc /\ Forall (has_required c) (manifest_required m) /\
  (manifest_workspace m = true -> ostr_true (ec_workspace_id c) = true).

Lemma require_refs_wp c refs st :
  wp (for_each refs (require_capability c) : M S unit) st (fun st' r =>
    st' = st /\ (r = Ok tt <-> Forall (has_required c) refs)).
Proof.
  induction refs as [|r refs IH]; [done|]. apply wp_bind. destruct r as [cap|t]; simpl.
  - apply wp_when; intros Hc; unfold has_capability in Hc.
    + apply negb_true_iff, bool_decide_eq_false in Hc. apply wp_throw. split; [done|].
      split; [done|]. by intros [? _]%Forall_cons.
    + apply negb_false_iff, bool_decide_eq_true in Hc. eapply wp_mono; [exact IH|].
      intros st' r [-> ->]. split; [done|]. rewrite Forall_cons. naive_solver.
  - apply wp_throw. split; [done|]. split; [done|]. by intros [? _]%Forall_cons.
Qed.

(** C11: The pipeline runs the handler of a registered tool exactly when the
    context is complete, of the service's tenant, generation and runtime, in
    its validity window, holds every required capability and a workspace
    where one is needed; the receipt reports the outcome, an exception of the
    handler as FAILED with its text.  Otherwise it raises and nothing
    happened. *)
Theorem pipeline_gate {A} `{Manifest A} svc (ts : tools A S) now finished context name args st :
  wp (pipeline_execute svc ts now finished context name args) st (fun st' r =>
    match r with
    | Ok receipt => exists c m h res, context = Some c /\ dget name ts = Some (m, h) /\
        pipeline_admits svc now c m /\ h c args st = (st', res) /\
        receipt = mkReceipt (ec_execution_id c) name
          (if is_ok res then "SUCCESS" else "FAILED") (mkMoment false finished)
          (match res with Ok v => v | Raise e => VStr (exn_str e) end)
    | Raise _ => st' = st /\ forall c m h, context = Some c -> dget name ts = Some (m, h) ->
        ~ pipeline_admits svc now c m
    end).
Proof.
  unfold pipeline_execute. destruct context as [c|]; [|by apply wp_throw].
  apply wp_bind, wp_when; intros H1.
  { apply wp_throw. split; [done|]. intros ? ? ? [= <-] _ (E1 & E2 & _). by rewrite E1, E2 in H1. }
  apply orb_false_iff in H1 as [H1 H1']. apply negb_false_iff in H1, H1'.
  apply wp_bind, wp_when; intros H2.
  { apply wp_throw. split; [done|]. intros ? ? ? [= <-] _ (_ & _ & E & _).
    by rewrite E, String.eqb_refl in H2. }
  apply negb_false_iff, String.eqb_eq in H2. apply wp_bind, wp_of_result.
  destruct (context_is_valid c _ _) as [valid|e] eqn:H3.
  2:{ split; [done|]. intros ? ? ? [= <-] _ (_ & _ & _ & E & _). by rewrite H3 in E. }
  apply wp_bind, wp_when; intros H4.
  { apply wp_throw. split; [done|]. intros ? ? ? [= <-] _ (_ & _ & _ & E & _).
    rewrite H3 in E. by simplify_eq/=. }
  apply negb_false_iff in H4 as ->. apply wp_bind, wp_when; intros H5.
  { apply wp_throw. split; [done|]. intros ? ? ? [= <-] _ (_ & _ & _ & _ & E & _).
    by rewrite E, String.eqb_refl in H5. }
  apply negb_false_iff, String.eqb_eq in H5.
  destruct (dget name ts) as [[m h]|] eqn:Hn; [|by apply wp_throw].
  apply wp_bind. eapply wp_mono; [apply require_refs_wp|]. intros st1 [[]|e] [-> H6].
  2:{ split; [done|]. intros ? ? ? [= <-] [= <- <-] (_ & _ & _ & _ & _ & E & _).
      by apply H6 in E. }
  apply wp_bind, wp_when; intros H7.
  { apply wp_throw. split; [done|]. intros ? ? ? [= <-] [= <- <-] (_ & _ & _ & _ & _ & _ & E).
    apply andb_true_iff in H7 as [E1 E2]. by rewrite (E E1) in E2. }
  assert (pipeline_admits svc now c m) as Hadm.
  { split_and!; try done; [by apply H6|]. intros Em. rewrite Em in H7. simpl in H7.
    by apply negb_false_iff in H7. }
  apply wp_bind, wp_try_with, wp_bind. unfold wp. destruct (h c args st) as [st2 [v|e]] eqn:Eh;
    simpl; exists c, m, h; eexists; split_and!; done.
Qed.
End Authority.

(** A context issued by a session never gets a tool through the pipeline:
    its instants are aware and the pipeline's clock is naive, so the
    comparison raises, or an earlier check does. *)
Theorem session_context_never_executes {env : IdentityEnv} {S A} `{Manifest A} sid current s s'
    c svc (ts : tools A S) now finished name args st :
  get_context_for_session sid current s = (s', Ok (Some c)) ->
  exists e, pipeline_execute svc ts now finished (Some c) name args st = (st, Raise e) /\
    (exn_type e = TypeError \/ exn_type e = SecurityViolationError).
Proof.
  intros Hc. pose proof (session_context_wp sid current s) as W. unfold wp in W.
  rewrite Hc in W. clear Hc.
  unfold pipeline_execute, mbind, M_bind, when, of_result.
  destruct (negb _ || negb _); [eexists; split; [done|by right]|].
  simpl. destruct (negb (ec_tenant_id c =s _)); [eexists; split; [done|by right]|]. simpl.
  unfold context_is_valid. destruct (negb (ec_generation c =? _)%Z); simpl.
  { eexists; split; [done|by right]. }
  destruct (compare_moments Z.gtb _ _) as [b|e] eqn:E; unfold compare_moments in E.
  - by rewrite W in E.
  - rewrite W in E. simpl in E. injection E as <-. eexists. split; [done|by left].
Qed.
