(* ===== verification/Workspaces.v ===== *)
(** * Governed workspaces and files

    [runtime/workspace/manager.py] and [filesystem/service.py]: the workspaces an
    execution context may use and the file operations inside them.  File contents are valid UTF-8 texts; paths resolve lexically,
    as the host has no symbolic links. *)
From S2P Require Import Prelude Dict PyVal Effects PyPath PyStr Host Identity Security.

Definition FileNotFoundError : exn_class := OtherException "FileNotFoundError".

Inductive WorkspaceState :=
  | WS_CREATING | WS_READY | WS_ACTIVE | WS_IDLE | WS_RECOVERING | WS_DESTROYING | WS_DESTROYED.
#[export] Instance WorkspaceState_eq_dec : EqDecision WorkspaceState.
Proof. solve_decision. Defined.
Record GovernedWorkspace := mkGW {
  gw_workspace_id : string;
  gw_tenant_id : string;
  gw_project_id : string;
  gw_actor_scope : list string;
  gw_repository : string;
  gw_source_revision : string;
  gw_state : WorkspaceState;
  gw_generation : Z;
  gw_local_path : string;
  gw_created_at : string;
  gw_locked_by : option string }.
#[export] Instance eta_GovernedWorkspace : Eta GovernedWorkspace := fun r =>
  mkGW (gw_workspace_id r) (gw_tenant_id r) (gw_project_id r) (gw_actor_scope r)
    (gw_repository r) (gw_source_revision r) (gw_state r) (gw_generation r) (gw_local_path r)
    (gw_created_at r) (gw_locked_by r).

(** The table of workspaces and the host. *)
Record WsSt := mkWsSt { wm_table : dict string GovernedWorkspace; wm_host : Host }.
#[export] Instance eta_WsSt : Eta WsSt := fun r => mkWsSt (wm_table r) (wm_host r).

(** [s.replace(search, by)]: left to right, not overlapping; an empty search
    matches before each character and at the end. *)
Fixpoint replace_go (fuel : nat) (search by_ s : string) : string :=
  match fuel with
  | O => s
  | S fuel' =>
      if startswith search s then
        by_ +:+ replace_go fuel' search by_ (string_drop (String.length search) s)
      else match s with
           | "" => ""
           | String c s' => String c (replace_go fuel' search by_ s')
           end
  end.
Fixpoint interleave (by_ s : string) : string :=
  by_ +:+ match s with "" => "" | String c s' => String c (interleave by_ s') end.
Definition py_replace (search by_ s : string) : string :=
  if search =s "" then interleave by_ s
  else replace_go (S (String.length s)) search by_ s.

Section Workspaces.
(** The clock, the identifiers ([str(uuid.uuid4())]), [str(time.time())], the
    working directory and the base directory. *)
Context (clock : nat -> Z) (uuid_str time_str : nat -> string) (cwd base : string).

Definition on_wm_host {A} (m : M Host A) : M WsSt A :=
  zoom wm_host (fun h s => s <| wm_host := h |>) m.
Definition wm_draw {A} (f : nat -> A) : M WsSt A :=
  on_wm_host (fun h => (h <| h_tick := S (h_tick h) |>, Ok (f (h_tick h)))).
Definition put_workspace (id : string) (w : GovernedWorkspace) : M WsSt unit :=
  modify (fun s => s <| wm_table := dset id w (wm_table s) |>).

(** [_validate_context_ownership] *)
Definition owned (c : ExecutionContext) (id : string) (s : WsSt)
    : result (option GovernedWorkspace) :=
  match dget id (wm_table s) with
  | None => Ok None
  | Some w =>
      if negb (gw_tenant_id w =s ec_tenant_id c)
      then raise PermissionError "Access denied: tenant mismatch"
      else
        check! assert_workspace c (Some (gw_project_id w)) in
        if negb (str_in (ec_actor_id c) (gw_actor_scope w)) && negb (str_in "*" (gw_actor_scope w))
        then raise PermissionError "Access denied: actor mismatch"
        else Ok (Some w)
  end.
Definition ownership (c : ExecutionContext) (id : string) : M WsSt (option GovernedWorkspace) :=
  fun s => (s, owned c id s).
Definition need_capability (c : ExecutionContext) (cap msg : string) : M WsSt unit :=
  when (negb (has_capability c cap)) (throw PermissionError msg).

Definition wm_create (c : ExecutionContext) (actor_scope : list string)
    (repository source_revision : string) : M WsSt GovernedWorkspace :=
  need_capability c "WORKSPACE_CREATE" "Access denied: missing WORKSPACE_CREATE" ;;
  id ← wm_draw uuid_str;
  t ← wm_draw time_str;
  let local_path := path_join base id in
  let w := mkGW id (ec_tenant_id c) (ec_project_id c) actor_scope repository source_revision
             WS_CREATING (ec_generation c) local_path t None in
  put_workspace id w ;;
  on_wm_host (os_makedirs clock 493 true (abspath cwd local_path)) ;;
  let w' := w <| gw_state := WS_READY |> in
  put_workspace id w' ;;
  mret w'.
Definition wm_status (c : ExecutionContext) (id : string) : M WsSt (option GovernedWorkspace) :=
  ownership c id.
Definition wm_lock (c : ExecutionContext) (id : string) : M WsSt bool :=
  w ← ownership c id;
  match w with
  | Some w => match gw_locked_by w with
              | None => put_workspace id (w <| gw_locked_by := Some (ec_actor_id c) |>) ;; mret true
              | Some _ => mret false
              end
  | None => mret false
  end.
Definition wm_unlock (c : ExecutionContext) (id : string) : M WsSt bool :=
  w ← ownership c id;
  match w with
  | Some w => if bool_decide (gw_locked_by w = Some (ec_actor_id c))
              then put_workspace id (w <| gw_locked_by := None |>) ;; mret true
              else mret false
  | None => mret false
  end.
Definition wm_destroy (c : ExecutionContext) (id : string) : M WsSt bool :=
  need_capability c "WORKSPACE_DELETE" "Access denied: missing WORKSPACE_DELETE" ;;
  w ← ownership c id;
  match w with
  | Some w =>
      when (negb (gw_generation w =? ec_generation c)%Z)
        (throw PermissionError "Access denied: generation stale") ;;
      on_wm_host (os_rmtree (abspath cwd (gw_local_path w))) ;;
      modify (fun s => s <| wm_table := ddel id (wm_table s) |>) ;;
      mret true
  | None => mret false
  end.
Definition wm_recover (c : ExecutionContext) (id : string) : M WsSt bool :=
  w ← ownership c id;
  match w with
  | Some w => if bool_decide (gw_state w = WS_DESTROYED) then mret false
              else put_workspace id (w <| gw_state := WS_READY |>) ;; mret true
  | None => mret false
  end.

(** ** Files of a workspace *)
Definition workspace_of (c : ExecutionContext) : string := default "" (ec_workspace_id c).
(** [_resolve_safe_path] *)
Definition resolve_safe_path (c : ExecutionContext) (path : string) : M WsSt string :=
  when (negb (ostr_true (ec_workspace_id c))) (throw ValueError "No workspace_id in context") ;;
  w ← wm_status c (workspace_of c);
  match w with
  | None => throw ValueError "Workspace not found"
  | Some w =>
      let root := abspath cwd (gw_local_path w) in
      let requested := abspath cwd (path_join root path) in
      when (negb (startswith root requested)) (throw ValueError "OUTSIDE_WORKSPACE error") ;;
      mret requested
  end.
Definition need_file_capability (c : ExecutionContext) (cap : string) : M WsSt unit :=
  need_capability c cap ("Access denied: missing " +:+ cap +:+ " capability").
Definition need_scope (c : ExecutionContext) : M WsSt unit :=
  when (negb (ostr_true (ec_workspace_id c)))
    (throw PermissionError "Access denied: missing workspace scope").

Definition file_read (c : ExecutionContext) (path : string) : M WsSt string :=
  need_file_capability c "FILE_READ" ;;
  need_scope c ;;
  p ← resolve_safe_path c path;
  s ← gets id;
  match h_fs (wm_host s) !! p with
  | Some (File content _ _) => mret (universal_newlines content)
  | _ => throw FileNotFoundError "File not found"
  end.
Definition file_write (c : ExecutionContext) (path content : string) : M WsSt bool :=
  need_file_capability c "FILE_WRITE" ;;
  need_scope c ;;
  p ← resolve_safe_path c path;
  on_wm_host (os_makedirs clock 493 true (dirname p)) ;;
  on_wm_host (os_write clock p content) ;;
  mret true.
Definition file_patch (c : ExecutionContext) (path search replacement : string) : M WsSt bool :=
  need_file_capability c "FILE_WRITE" ;;
  content ← file_read c path;
  let patched := py_replace search replacement content in
  if patched =s content then mret false else file_write c path patched.
Definition unlink (p : string) : M Host unit :=
  modify (fun h => h <| h_fs := delete p (h_fs h) |>).
Definition file_delete (c : ExecutionContext) (path : string) : M WsSt bool :=
  need_file_capability c "FILE_WRITE" ;;
  need_scope c ;;
  p ← resolve_safe_path c path;
  s ← gets id;
  let f := h_fs (wm_host s) in
  if exists_ f p then
    on_wm_host (if isfile f p then unlink p else os_rmtree p) ;; mret true
  else mret false.

(** The operations on workspaces and files, for statements about all. *)
Inductive ws_op :=
  | WLock (id : string) | WUnlock (id : string) | WDestroy (id : string) | WRecover (id : string)
  | WRead (path : string) | WWrite (path content : string)
  | WPatch (path search replacement : string) | WDelete (path : string).
Definition run_ws (c : ExecutionContext) (op : ws_op) (s : WsSt) : WsSt * result unit :=
  (match op with
   | WLock id => wm_lock c id ;; mret tt
   | WUnlock id => wm_unlock c id ;; mret tt
   | WDestroy id => wm_destroy c id ;; mret tt
   | WRecover id => wm_recover c id ;; mret tt
   | WRead p => file_read c p ;; mret tt
   | WWrite p x => file_write c p x ;; mret tt
   | WPatch p x y => file_patch c p x y ;; mret tt
   | WDelete p => file_delete c p ;; mret tt
   end : M WsSt unit) s.
(** The workspace an operation is about. *)
Definition op_workspace (c : ExecutionContext) (op : ws_op) : string :=
  match op with
  | WLock id | WUnlock id | WDestroy id | WRecover id => id
  | _ => workspace_of c
  end.

(** ** Ownership *)
Definition may_use (c : ExecutionContext) (w : GovernedWorkspace) : bool :=
  (gw_tenant_id w =s ec_tenant_id c) && (gw_project_id w =s ec_project_id c) &&
  (str_in (ec_actor_id c) (gw_actor_scope w) || str_in "*" (gw_actor_scope w)).
Lemma owned_spec c id s :
  match owned c id s with
  | Ok (Some w) => dget id (wm_table s) = Some w /\ may_use c w = true
  | Ok None => dget id (wm_table s) = None
  | Raise _ => exists w, dget id (wm_table s) = Some w /\ may_use c w = false
  end.
Proof.
  unfold owned, may_use. destruct (dget id (wm_table s)) as [w|] eqn:E; [|done].
  destruct (gw_tenant_id w =s ec_tenant_id c) eqn:E1; simpl; [|by exists w; rewrite E1].
  unfold assert_workspace. case_bool_decide as Hp; simpl.
  - injection Hp as Hp. destruct (str_in (ec_actor_id c) _) eqn:E2; simpl.
    + split; [done|]. by rewrite E1, Hp, String.eqb_refl, E2.
    + destruct (str_in "*" _) eqn:E3; simpl.
      * split; [done|]. by rewrite E1, Hp, String.eqb_refl, E2, E3.
      * exists w. split; [done|]. by rewrite E1, Hp, String.eqb_refl, E2, E3.
  - exists w. split; [done|]. rewrite E1. destruct (String.eqb_spec (gw_project_id w) (ec_project_id c)); [|done].
    destruct Hp. by f_equal.
Qed.
Lemma ownership_denied c id s w (Q : WsSt -> result (option GovernedWorkspace) -> Prop) :
  dget id (wm_table s) = Some w -> may_use c w = false ->
  (forall e, Q s (Raise e)) -> wp (ownership c id) s Q.
Proof.
  intros Hw Hm HQ. unfold wp, ownership. pose proof (owned_spec c id s) as H.
  destruct (owned c id s) as [[w'|]|e]; [|congruence|done].
  destruct H as [H1 H2]. congruence.
Qed.
Lemma resolve_denied c path s w :
  dget (workspace_of c) (wm_table s) = Some w -> may_use c w = false ->
  wp (resolve_safe_path c path) s (fun s' r => s' = s /\ is_ok r = false).
Proof.
  intros Hw Hm. unfold resolve_safe_path. apply wp_bind, wp_when; intros _; [by apply wp_throw|].
  apply wp_bind. by eapply ownership_denied.
Qed.

(** One step of a file operation that ends in a refusal. *)
Lemma refused_bind {A B} (m : M WsSt A) (f : A -> M WsSt B) s :
  wp m s (fun s' r => s' = s /\ is_ok r = false) ->
  wp (m ≫= f) s (fun s' r => s' = s /\ is_ok r = false).
Proof. intros H. apply wp_bind. eapply wp_mono; [exact H|]. by intros s' [a|e] [-> ?]. Qed.
Lemma need_bind {B} (b : bool) cls msg (f : unit -> M WsSt B) s :
  wp (f tt) s (fun s' r => s' = s /\ is_ok r = false) ->
  wp (when b (throw cls msg) ≫= f) s (fun s' r => s' = s /\ is_ok r = false).
Proof. intros H. apply wp_bind, wp_when; intros _; [by apply wp_throw|done]. Qed.

(** C13: No operation on a workspace or on its files, by a context of another
    tenant or project or of an actor outside the workspace's scope, changes
    anything: each raises. *)
Theorem workspace_isolation c op s w :
  dget (op_workspace c op) (wm_table s) = Some w -> may_use c w = false ->
  wp (run_ws c op) s (fun s' r => s' = s /\ is_ok r = false).
Proof.
  intros Hw Hm. destruct op as [id|id|id|id|p|p x|p x y|p]; simpl in Hw; apply refused_bind.
  1,2,4: apply wp_bind; by eapply ownership_denied.
  - apply need_bind, wp_bind. by eapply ownership_denied.
  - do 2 apply need_bind. by eapply refused_bind, resolve_denied.
  - do 2 apply need_bind. by eapply refused_bind, resolve_denied.
  - apply need_bind, refused_bind. do 2 apply need_bind. by eapply refused_bind, resolve_denied.
  - do 2 apply need_bind. by eapply refused_bind, resolve_denied.
Qed.

(** ** Where file operations reach *)
Lemma resolve_wp c path s :
  wp (resolve_safe_path c path) s (fun s' r => s' = s /\ match r with
    | Ok p => exists w, dget (workspace_of c) (wm_table s) = Some w /\ may_use c w = true /\
        p = abspath cwd (path_join (abspath cwd (gw_local_path w)) path) /\
        startswith (abspath cwd (gw_local_path w)) p = true
    | Raise _ => True end).
Proof.
  unfold resolve_safe_path. apply wp_bind, wp_when; intros _; [by apply wp_throw|].
  apply wp_bind. unfold wp, wm_status, ownership.
  pose proof (owned_spec c (workspace_of c) s) as H.
  destruct (owned c (workspace_of c) s) as [[w|]|e]; [|done..]. destruct H as [H1 H2].
  unfold when. destruct (negb _) eqn:Es; [done|]. apply negb_false_iff in Es.
  split; [done|]. by exists w.
Qed.

(** Outside the text prefix of the workspace's root, at most missing
    directories on the way to it appear. *)
Definition confined (root : string) (f f' : fs) : Prop :=
  forall q, startswith root q = false ->
    f' !! q = f !! q \/ (f !! q = None /\ exists m z t, f' !! q = Some (Dir m z t)).
Lemma confined_refl root f : confined root f f.
Proof. intros q _. by left. Qed.
Lemma startswith_below root p q :
  startswith root p = true -> below p q = true -> startswith root q = true.
Proof.
  unfold below. intros [x ->]%startswith_inv [y ->]%startswith_inv.
  rewrite !string_app_assoc. apply startswith_app.
Qed.
Lemma mkdirs_confined mode leaf t root l f :
  confined root f (foldl (mkdir_missing mode leaf t) f l).
Proof.
  revert f. induction l as [|p l IH]; intros f q Hq; [by left|]. simpl.
  destruct (IH (mkdir_missing mode leaf t f p) q Hq) as [->|[Hn Hd]].
  - unfold mkdir_missing. destruct (f !! p) eqn:E; [by left|].
    destruct (decide (p = q)) as [->|Hne]; [|left; by rewrite lookup_insert_ne].
    right. split; [done|]. rewrite lookup_insert_eq. by do 3 eexists.
  - right. split; [|done]. revert Hn. unfold mkdir_missing. destruct (f !! p) eqn:E; [done|].
    intros [? _]%lookup_insert_None. done.
Qed.

Definition ws_fs (s : WsSt) : fs := h_fs (wm_host s).
Lemma write_confined root p content t f f' :
  startswith root p = true -> write_text t p content f = Ok f' ->
  forall q, startswith root q = false -> f' !! q = f !! q.
Proof.
  unfold write_text. intros Hp. destruct (isdir f p); [done|]. destruct (isdir f _); [|done].
  intros [= <-] q Hq. rewrite lookup_insert_ne; [done|]. intros ->. congruence.
Qed.

Lemma read_pure c p s : wp (file_read c p) s (fun s' _ => s' = s).
Proof.
  apply wp_bind, wp_when; intros _; [by apply wp_throw|].
  apply wp_bind, wp_when; intros _; [by apply wp_throw|].
  apply wp_bind. eapply wp_mono; [apply resolve_wp|]. intros s1 [q|e] [-> _]; [|done].
  apply wp_bind, wp_gets. by destruct (h_fs _ !! q) as [[]|].
Qed.
Lemma write_wp c p x s w :
  dget (workspace_of c) (wm_table s) = Some w ->
  wp (file_write c p x) s (fun s' _ =>
    confined (abspath cwd (gw_local_path w)) (ws_fs s) (ws_fs s')).
Proof.
  intros Hw. apply wp_bind, wp_when; intros _; [apply wp_throw, confined_refl|].
  apply wp_bind, wp_when; intros _; [apply wp_throw, confined_refl|].
  apply wp_bind. eapply wp_mono; [apply resolve_wp|].
  intros s1 [q|e] [-> H]; [|apply confined_refl].
  destruct H as (w' & Hw' & _ & Hq & Hpre). rewrite Hw in Hw'. injection Hw' as <-.
  apply wp_bind, wp_zoom. unfold wp at 1, os_makedirs, fs_op, makedirs.
  destruct (existsb _ _); [apply confined_refl|].
  destruct (_ && _); [apply confined_refl|]. simpl.
  apply wp_bind, wp_zoom. unfold wp at 1, os_write, fs_op. simpl.
  match goal with |- context [write_text ?t q x ?f] =>
    destruct (write_text t q x f) as [f'|e] eqn:Ew end; simpl; [|apply mkdirs_confined].
  intros z Hz. unfold ws_fs. simpl. rewrite (write_confined _ _ _ _ _ _ Hpre Ew z Hz).
  by apply (mkdirs_confined _ _ _ _ _ _ z Hz).
Qed.
Lemma delete_wp c p s w :
  dget (workspace_of c) (wm_table s) = Some w ->
  wp (file_delete c p) s (fun s' _ =>
    confined (abspath cwd (gw_local_path w)) (ws_fs s) (ws_fs s')).
Proof.
  intros Hw. apply wp_bind, wp_when; intros _; [apply wp_throw, confined_refl|].
  apply wp_bind, wp_when; intros _; [apply wp_throw, confined_refl|].
  apply wp_bind. eapply wp_mono; [apply resolve_wp|].
  intros s1 [q|e] [-> H]; [|apply confined_refl].
  destruct H as (w' & Hw' & _ & Hq & Hpre). rewrite Hw in Hw'. injection Hw' as <-.
  apply wp_bind, wp_gets. unfold id. destruct (exists_ _ q); [|apply confined_refl].
  apply wp_bind, wp_zoom.
  destruct (isfile _ q); apply wp_modify; intros z Hz; left; unfold ws_fs; simpl.
  - rewrite lookup_delete_ne; [done|]. intros ->. congruence.
  - apply rmtree_outside; [intros ->; congruence|].
    destruct (below q z) eqn:E; [|done]. by rewrite (startswith_below _ _ _ Hpre E) in Hz.
Qed.

(** A file operation leaves everything outside the text prefix of the
    workspace's root as it is, missing directories above the root apart, and
    reading changes nothing. *)
Theorem files_confined c op s w :
  dget (workspace_of c) (wm_table s) = Some w ->
  match op with WRead _ | WWrite _ _ | WPatch _ _ _ | WDelete _ => True | _ => False end ->
  wp (run_ws c op) s (fun s' _ =>
    confined (abspath cwd (gw_local_path w)) (ws_fs s) (ws_fs s') /\
    match op with WRead _ => s' = s | _ => True end).
Proof.
  intros Hw Hop. destruct op as [id|id|id|id|p|p x|p x y|p]; try done; apply wp_bind.
  - eapply wp_mono; [apply read_pure|]. intros s1 [a|e] ->; (split; [apply confined_refl|done]).
  - eapply wp_mono; [by apply write_wp|]. by intros s1 [a|e] H.
  - apply wp_bind, wp_when; intros _; [apply wp_throw; split; [apply confined_refl|done]|].
    apply wp_bind. eapply wp_mono; [apply read_pure|].
    intros s1 [a|e] ->; [|split; [apply confined_refl|done]].
    cbv zeta. destruct (String.eqb _ a); [split; [apply confined_refl|done]|].
    eapply wp_mono; [by apply write_wp|]. by intros s1 [b|e] H.
  - eapply wp_mono; [by apply delete_wp|]. by intros s1 [b|e] H.
Qed.

(** Resolution only depends on the table of workspaces. *)
Lemma resolve_table c path s s1 q :
  wm_table s1 = wm_table s -> resolve_safe_path c path s = (s, Ok q) ->
  resolve_safe_path c path s1 = (s1, Ok q).
Proof.
  intros E. unfold resolve_safe_path, wm_status, ownership, owned, when, throw, mbind, M_bind.
  destruct (negb (ostr_true _)); [done|]. simpl. rewrite E.
  destruct (dget _ (wm_table s)) as [w|]; [|done].
  destruct (negb _); [done|]. destruct (assert_workspace _ _) as [[]|]; [|done].
  destruct (_ && _); [done|]. cbv zeta. destruct (negb _); [done|]. by intros [= <-].
Qed.

(** What is written to a workspace is read back, with newlines made
    uniform. *)
Theorem write_then_read c path content s s' :
  has_capability c "FILE_READ" = true ->
  file_write c path content s = (s', Ok true) ->
  file_read c path s' = (s', Ok (universal_newlines content)).
Proof.
  intros Hr Hw. unfold file_read, need_file_capability, need_capability. rewrite Hr. simpl.
  assert (wp (file_write c path content) s (fun s1 r => r = Ok true ->
    need_scope c s1 = (s1, Ok tt) /\ exists q t, resolve_safe_path c path s1 = (s1, Ok q) /\
      ws_fs s1 !! q = Some (File content 33188 t))) as W.
  { unfold file_write. apply wp_bind, wp_when; intros _; [by apply wp_throw|].
    unfold need_scope, when. destruct (negb (ostr_true (ec_workspace_id c))) eqn:Es; [done|].
    apply wp_bind, wp_ret, wp_bind.
    destruct (resolve_safe_path c path s) as [s0 rq] eqn:Eq.
    assert (s0 = s) as ->.
    { pose proof (resolve_wp c path s) as R. unfold wp in R. rewrite Eq in R. by destruct R. }
    unfold wp at 1. rewrite Eq. destruct rq as [q|e]; [|done].
    apply wp_bind, wp_zoom. unfold wp at 1, os_makedirs, fs_op.
    destruct (makedirs _ _ _ _ _) as [f1|]; [|done]. apply wp_bind, wp_zoom.
    unfold wp at 1, os_write, fs_op, write_text. simpl. destruct (isdir f1 q); [done|].
    destruct (isdir f1 (dirname q)); [|done]. simpl. intros _. split; [done|].
    eexists q, _. split; [by apply (resolve_table c path s)|]. unfold ws_fs. simpl. by rewrite lookup_insert_eq. }
  unfold wp in W. rewrite Hw in W. destruct (W eq_refl) as (Hs & q & t & Hq & Hf).
  unfold mbind, M_bind. simpl. rewrite Hs, Hq. unfold gets, id. simpl. unfold ws_fs in Hf.
  by rewrite Hf.
Qed.

(** Destroying needs the generation the workspace was created at; it removes
    the directory, everything in it and the record, and nothing else. *)
Theorem destroy_spec c id s w :
  dget id (wm_table s) = Some w -> dict_wf (wm_table s) ->
  wp (wm_destroy c id) s (fun s' r =>
    match r with
    | Ok b => b = true /\ has_capability c "WORKSPACE_DELETE" = true /\ may_use c w = true /\
        gw_generation w = ec_generation c /\ dget id (wm_table s') = None /\
        (forall id', id' <> id -> dget id' (wm_table s') = dget id' (wm_table s)) /\
        ws_fs s' = rmtree (abspath cwd (gw_local_path w)) (ws_fs s)
    | Raise _ => s' = s /\ (has_capability c "WORKSPACE_DELETE" = false \/
        may_use c w = false \/ gw_generation w <> ec_generation c)
    end).
Proof.
  intros Hw Hwf. unfold wm_destroy. apply wp_bind, wp_when; intros Hc.
  { apply wp_throw. split; [done|]. left. by apply negb_true_iff. }
  apply negb_false_iff in Hc. apply wp_bind. unfold wp at 1, ownership.
  pose proof (owned_spec c id s) as H. destruct (owned c id s) as [[w'|]|e]; [|congruence|].
  2:{ destruct H as (w' & H1 & H2). split; [done|]. right. left. congruence. }
  destruct H as [H1 H2]. rewrite Hw in H1. injection H1 as <-.
  apply wp_bind, wp_when; intros Hg.
  { apply wp_throw. split; [done|]. right. right. by apply negb_true_iff, Z.eqb_neq in Hg. }
  apply negb_false_iff, Z.eqb_eq in Hg. apply wp_bind, wp_zoom, wp_modify, wp_bind, wp_modify.
  apply wp_ret. split_and!; try done; simpl.
  - by apply dget_ddel_same.
  - intros id' Hne. by apply dget_ddel_other.
Qed.

(** A lock is held by one actor: while it is, no locking or unlocking by
    another takes it, and only its holder releases it. *)
Theorem lock_exclusive c id op s w a :
  dget id (wm_table s) = Some w -> gw_locked_by w = Some a -> ec_actor_id c <> a ->
  match op with WLock _ | WUnlock _ => True | _ => False end ->
  (gw_locked_by <$> dget id (wm_table (run_ws c op s).1)) = Some (Some a).
Proof.
  intros Hw Ha Hne Hop.
  assert (wp (run_ws c op) s (fun s' _ =>
    (gw_locked_by <$> dget id (wm_table s')) = Some (Some a))) as W.
  { assert ((gw_locked_by <$> dget id (wm_table s)) = Some (Some a)) as H0 by (by rewrite Hw; simpl; rewrite Ha).
    destruct op as [id'|id'|id'|id'|p|p x|p x y|p]; try done; unfold run_ws; do 2 apply wp_bind;
      unfold wp at 1, ownership; pose proof (owned_spec c id' s) as H;
      destruct (owned c id' s) as [[w'|]|e]; try done; destruct H as [H1 _].
    - destruct (gw_locked_by w') as [b|] eqn:Eb; [done|]. apply wp_bind, wp_modify, wp_ret.
      apply wp_ret. simpl. rewrite dget_dset. case_decide; [|done]. subst. congruence.
    - case_bool_decide as Hb; [|done]. apply wp_bind, wp_modify, wp_ret.
      apply wp_ret. simpl. rewrite dget_dset. case_decide; [|done]. subst. congruence. }
  unfold wp in W. by destruct (run_ws c op s).
Qed.
End Workspaces.

(** The check that a path is inside the workspace compares texts, so a file
    operation can write to a sibling directory whose name begins with the
    workspace's. *)
Theorem sibling_escape : exists c s w path s' q,
  dget (workspace_of c) (wm_table s) = Some w /\ may_use c w = true /\
  file_write (fun _ => 0%Z) "/" c path "x" s = (s', Ok true) /\
  isfile (ws_fs s') q = true /\ below (gw_local_path w) q = false.
Proof.
  exists (mkExecContext "t" "a" "p" "i" "r" "s" "actor" "op" "ex" 1 (mkMoment true 0)
            (mkMoment true 1) (Some "w1") {["FILE_WRITE"]}).
  exists (mkWsSt [("w1", mkGW "w1" "t" "p" ["actor"] "" "" WS_READY 1 "/ws/w1" "" None)]
            (mkHost {["/" := Dir 16877 0 (f_of_Z 0); "/ws" := Dir 16877 0 (f_of_Z 0)]} 0)).
  do 2 eexists. eexists _, "/ws/w1-other/f".
  split; [reflexivity|]. split; [reflexivity|].
  split; [instantiate (2 := "../w1-other/f"); vm_compute; reflexivity|].
  split; vm_compute; reflexivity.
Qed.
