(* ===== verification/Sandbox.v ===== *)
(** * Sandboxes

    [runtime/sandbox/policy.py], [backend.py] and [manager.py].  A backend is the
    abstract class [SandboxBackend], here an interface with its laws; the two backends of
    the code are instances that satisfy them, and the manager is proved against the
    interface.  Paths resolve lexically. *)
From S2P Require Import Prelude Dict PyVal Effects PyPath PyStr Host Identity.

(** ** Policies *)
Inductive IsolationLevel := LEVEL_1 | LEVEL_2 | LEVEL_3.
#[export] Instance IsolationLevel_eq_dec : EqDecision IsolationLevel.
Proof. solve_decision. Defined.
Record SandboxPolicy := mkPolicy {
  sp_sandbox_id : string; sp_tenant_id : string; sp_actor_id : string; sp_workspace_id : string;
  sp_isolation_level : IsolationLevel; sp_filesystem_scope : list string;
  sp_process_scope : list string; sp_network_scope : string;
  sp_resource_limits : dict string pyval; sp_generation : Z;
  sp_created_at : string; sp_expires_at : string }.
Definition default_limits : dict string pyval :=
  [("max_memory_mb", VInt 512); ("max_cpu_seconds", VInt 300); ("max_disk_mb", VInt 1024);
   ("max_processes", VInt 10)].
Definition allows_path (cwd : string) (p : SandboxPolicy) (path : string) : bool :=
  existsb (fun allowed => startswith (abspath cwd allowed) (abspath cwd path))
    (sp_filesystem_scope p).
Definition allows_executable (p : SandboxPolicy) (executable : string) : bool :=
  match sp_process_scope p with [] => true | l => str_in executable l end.
Definition allows_network (p : SandboxPolicy) : bool := negb (sp_network_scope p =s "none").
Definition select_level (operation_risk trust : string) : IsolationLevel :=
  if (operation_risk =s "high") || (trust =s "untrusted") then LEVEL_3
  else if (operation_risk =s "medium") || (trust =s "limited") then LEVEL_2
  else LEVEL_1.

(** ** Backends *)
(** The operations of a backend, on its state and the host. *)
Class SandboxBackend (B : Type) := {
  create : SandboxPolicy -> M (B * Host) string;
  destroy : string -> M (B * Host) unit;
  is_active : string -> B -> bool }.

Section Backends.
Context (clock : nat -> Z) (base_dir : string).
Definition on_files {B A} (m : M Host A) : M (B * Host) A := zoom snd (fun h s => (s.1, h)) m.
Definition on_backend {B C A} (get : B -> C) (put : C -> B -> B) (m : M (C * Host) A) : M (B * Host) A :=
  zoom (fun s => (get s.1, s.2)) (fun t s => (put t.1 s.1, t.2)) m.
Definition sandbox_path (id : string) : string := path_join base_dir id.

(** [WorkspaceBackend]: the directory of each active sandbox. *)
Record WorkspaceBackend := mkWB { wb_active : dict string string }.
#[export] Instance eta_WorkspaceBackend : Eta WorkspaceBackend := fun r => mkWB (wb_active r).
Definition workspace_create (policy : SandboxPolicy) : M (WorkspaceBackend * Host) string :=
  let id := sp_sandbox_id policy in
  let p := sandbox_path id in
  on_files (os_makedirs clock 493 true p) ;;
  on_files (os_makedirs clock 493 true (path_join p "workspace")) ;;
  on_files (os_makedirs clock 493 true (path_join p "tmp")) ;;
  modify (fun s => (s.1 <| wb_active := dset id p (wb_active s.1) |>, s.2)) ;;
  mret p.
(** [if p.exists(): shutil.rmtree(p)] *)
Definition remove_dir (p : string) : M Host unit :=
  f ← gets h_fs;
  when (exists_ f p)
    (if isfile f p then throw OSError ("Not a directory: " +:+ p) else os_rmtree p).
(** [p.rmdir()], whose [OSError] is ignored: only an empty directory goes. *)
Definition rmdir_if_empty (p : string) (f : fs) : fs :=
  if isfile f p || existsb (fun kv => below p kv.1) (map_to_list f) then f else delete p f.
Definition clear_sandbox (p : string) : M Host unit :=
  f ← gets h_fs;
  when (exists_ f p)
    (remove_dir (path_join p "tmp") ;;
     remove_dir (path_join p "workspace") ;;
     modify (fun h => h <| h_fs := rmdir_if_empty p (h_fs h) |>)).
Definition workspace_destroy (id : string) : M (WorkspaceBackend * Host) unit :=
  p ← gets (fun s => dget id (wb_active s.1));
  modify (fun s => (s.1 <| wb_active := ddel id (wb_active s.1) |>, s.2)) ;;
  match p with Some p => on_files (clear_sandbox p) | None => mret tt end.
#[export] Instance workspace_backend : SandboxBackend WorkspaceBackend := {|
  create := workspace_create; destroy := workspace_destroy;
  is_active id b := dmem id (wb_active b) |}.

(** [RestrictedProcessBackend]: a workspace backend of its own, and the root and limits
    of each active sandbox.  The limits are kept and never applied. *)
Record RestrictedProcessBackend := mkRP {
  rp_workspace : WorkspaceBackend;
  rp_active : dict string (string * dict string pyval) }.
#[export] Instance eta_Restricted : Eta RestrictedProcessBackend := fun r =>
  mkRP (rp_workspace r) (rp_active r).
Definition on_workspace {A} (m : M (WorkspaceBackend * Host) A) : M (RestrictedProcessBackend * Host) A :=
  on_backend rp_workspace (fun w b => b <| rp_workspace := w |>) m.
Definition restricted_create (policy : SandboxPolicy) : M (RestrictedProcessBackend * Host) string :=
  root ← on_workspace (create policy);
  modify (fun s => (s.1 <| rp_active :=
    dset (sp_sandbox_id policy) (root, sp_resource_limits policy) (rp_active s.1) |>, s.2)) ;;
  mret root.
Definition restricted_destroy (id : string) : M (RestrictedProcessBackend * Host) unit :=
  modify (fun s => (s.1 <| rp_active := ddel id (rp_active s.1) |>, s.2)) ;;
  on_workspace (destroy id).
#[export] Instance restricted_backend : SandboxBackend RestrictedProcessBackend := {|
  create := restricted_create; destroy := restricted_destroy;
  is_active id b := dmem id (rp_active b) |}.
End Backends.

(** ** The manager *)
(** Over any two backends, for the first and the second isolation level. *)
Record SandboxManager B1 B2 := mkSM {
  sm_level1 : B1; sm_level2 : B2; sm_policies : dict string SandboxPolicy; sm_host : Host }.
Arguments mkSM {B1 B2}.
Arguments sm_level1 {B1 B2}.
Arguments sm_level2 {B1 B2}.
Arguments sm_policies {B1 B2}.
Arguments sm_host {B1 B2}.
#[export] Instance eta_SandboxManager B1 B2 : Eta (SandboxManager B1 B2) := fun r =>
  mkSM (sm_level1 r) (sm_level2 r) (sm_policies r) (sm_host r).

Section Manager.
Context {B1 B2 : Type} `{SandboxBackend B1, SandboxBackend B2}.
Context (clock : nat -> Z) (uuid_hex : nat -> string) (isoformat : Z -> string).
#[local] Abbreviation SM := (SandboxManager B1 B2).
Definition on_sm_host {A} (m : M Host A) : M SM A := zoom sm_host (fun h s => s <| sm_host := h |>) m.
Definition on_level1 {A} (m : M (B1 * Host) A) : M SM A :=
  zoom (fun s => (sm_level1 s, sm_host s)) (fun t s => (s <| sm_level1 := t.1 |>) <| sm_host := t.2 |>) m.
Definition on_level2 {A} (m : M (B2 * Host) A) : M SM A :=
  zoom (fun s => (sm_level2 s, sm_host s)) (fun t s => (s <| sm_level2 := t.1 |>) <| sm_host := t.2 |>) m.

Definition new_sandbox_id : M SM string :=
  on_sm_host (fun h => (h <| h_tick := S (h_tick h) |>, Ok ("sbx-" +:+ string_take 12 (uuid_hex (h_tick h))))).
Definition backend_create (policy : SandboxPolicy) : M SM string :=
  match sp_isolation_level policy with
  | LEVEL_1 => on_level1 (create policy)
  | LEVEL_2 => on_level2 (create policy)
  | LEVEL_3 => throw ValueError "No backend available for isolation level: IsolationLevel.LEVEL_3"
  end.
Definition backend_destroy (level : IsolationLevel) (id : string) : M SM unit :=
  match level with
  | LEVEL_1 => on_level1 (destroy id)
  | LEVEL_2 => on_level2 (destroy id)
  | LEVEL_3 => mret tt
  end.
Definition create_sandbox (tenant actor workspace : string) (level : IsolationLevel)
    (filesystem_scope : list string) (ttl_seconds : Z) : M SM SandboxPolicy :=
  id ← new_sandbox_id;
  now_ ← on_sm_host (now clock);
  expires ← of_result (add_seconds now_ ttl_seconds);
  let policy := mkPolicy id tenant actor workspace level filesystem_scope [] "none" default_limits 1
                  (isoformat now_) (isoformat expires) in
  backend_create policy ;;
  modify (fun s => s <| sm_policies := dset id policy (sm_policies s) |>) ;;
  mret policy.
Definition check_access (cwd id path : string) (s : SM) : bool :=
  match dget id (sm_policies s) with Some p => allows_path cwd p path | None => false end.
Definition destroy_sandbox (id : string) : M SM unit :=
  p ← gets (fun s => dget id (sm_policies s));
  match p with
  | None => mret tt
  | Some p =>
      modify (fun s => s <| sm_policies := ddel id (sm_policies s) |>) ;;
      backend_destroy (sp_isolation_level p) id
  end.
Definition get_policy (id : string) (s : SM) : option SandboxPolicy := dget id (sm_policies s).
Definition list_active (s : SM) : list string := dkeys (sm_policies s).
End Manager.
(** [SandboxManager.__init__]: three backends make the directory. *)
Definition sandbox_base (data_dir : string) : string := data_dir +:+ "/sandboxes".
Definition new_manager (clock : nat -> Z) (data_dir : string)
    : M Host (SandboxManager WorkspaceBackend RestrictedProcessBackend) :=
  let base := sandbox_base data_dir in
  os_makedirs clock 493 true base ;;
  os_makedirs clock 493 true base ;;
  os_makedirs clock 493 true base ;;
  gets (fun h => mkSM (mkWB []) (mkRP (mkWB []) []) [] h).

(** ** Laws of a backend *)
(** What a sandbox may lose: its temporary files and its workspace. *)
Definition disposable (dir q : string) : Prop :=
  exists n, n ∈ ["tmp"; "workspace"] /\ (q = path_join dir n \/ below (path_join dir n) q = true).
Definition grown (h h' : Host) : Prop :=
  h_tick h <= h_tick h' /\ forall q n, h_fs h !! q = Some n -> h_fs h' !! q = Some n.
Class SandboxLaws (base_dir : string) (B : Type) `{SandboxBackend B} := {
  well_formed : B -> Prop;
  (** A sandbox is active from its creation, when that succeeds, to its destruction, even
      when that fails, and the others are not concerned. *)
  create_active policy s : well_formed s.1 -> wp (create policy) s (fun s' r =>
    well_formed s'.1 /\ forall id,
      is_active id s'.1 = is_ok r && (id =s sp_sandbox_id policy) || is_active id s.1);
  destroy_active id s : well_formed s.1 -> wp (destroy id) s (fun s' _ =>
    well_formed s'.1 /\ forall j, is_active j s'.1 = negb (j =s id) && is_active j s.1);
  (** Creating removes nothing; destroying removes what is disposable in the directory
      of the sandbox, and perhaps that directory. *)
  create_grows policy s : wp (create policy) s (fun s' _ => grown s.2 s'.2);
  destroy_contained id s : well_formed s.1 -> wp (destroy id) s (fun s' _ =>
    h_tick s.2 <= h_tick s'.2 /\
    forall q, q <> sandbox_path base_dir id -> ~ disposable (sandbox_path base_dir id) q ->
      h_fs s'.2 !! q = h_fs s.2 !! q) }.

(** ** The two backends satisfy them *)
Section Files.
Context (clock : nat -> Z).
Lemma grown_refl h : grown h h.
Proof. by split. Qed.
Lemma grown_trans h1 h2 h3 : grown h1 h2 -> grown h2 h3 -> grown h1 h3.
Proof. intros [H1 H2] [H3 H4]. split; [lia|auto]. Qed.
Lemma makedirs_grown mode b p h : wp (os_makedirs clock mode b p) h (fun h' _ => grown h h').
Proof.
  unfold wp, os_makedirs, fs_op. destruct (makedirs _ _ _ _ _) as [f|e] eqn:E; [|apply grown_refl].
  split; [done|]. intros q n Hq. by eapply makedirs_mono.
Qed.
(** What stays outside the paths of [P]. *)
Definition spares (P : string -> Prop) {A} (m : M Host A) : Prop :=
  forall h, wp m h (fun h' _ => h_tick h <= h_tick h' /\ forall q, ~ P q -> h_fs h' !! q = h_fs h !! q).
Lemma spares_bind {A B} P (m : M Host A) (g : A -> M Host B) :
  spares P m -> (forall a, spares P (g a)) -> spares P (m ≫= g).
Proof.
  intros Hm Hg h. apply wp_bind. eapply wp_mono; [apply Hm|]. intros h1 [a|e] [H1 H2]; [|done].
  eapply wp_mono; [apply Hg|]. intros h2 r [H3 H4]. split; [lia|].
  intros q Hq. by rewrite H4, H2.
Qed.
Lemma spares_gets {A} P (g : Host -> A) : spares P (gets g).
Proof. by intros h. Qed.
Lemma spares_when P b (m : M Host unit) : spares P m -> spares P (when b m).
Proof. by intros Hm; destruct b. Qed.
Lemma spares_weaken {A} (P Q : string -> Prop) (m : M Host A) :
  (forall q, P q -> Q q) -> spares P m -> spares Q m.
Proof.
  intros HPQ Hm h. eapply wp_mono; [apply Hm|]. intros h' r [H1 H2]. split; [done|].
  intros q Hq. apply H2. auto.
Qed.
Lemma remove_dir_spares p : spares (fun q => q = p \/ below p q = true) (remove_dir p).
Proof.
  apply spares_bind; [apply spares_gets|]. intros f. apply spares_when.
  destruct (isfile f p); [by intros h|]. intros h. split; [done|]. intros q Hq. simpl.
  apply rmtree_outside; [naive_solver|]. apply not_true_iff_false. naive_solver.
Qed.
Lemma clear_sandbox_spares p : spares (fun q => q = p \/ disposable p q) (clear_sandbox p).
Proof.
  apply spares_bind; [apply spares_gets|]. intros f. apply spares_when.
  apply spares_bind; [|intros _; apply spares_bind; [|intros _]].
  1-2: eapply spares_weaken; [|apply remove_dir_spares]; intros q Hq; right.
  - exists "tmp". split; [set_solver|done].
  - exists "workspace". split; [set_solver|done].
  - intros h. split; [done|]. intros q Hq. simpl. unfold rmdir_if_empty.
    case_match; [done|]. apply lookup_delete_ne. naive_solver.
Qed.
End Files.

Section Instances.
Context (clock : nat -> Z) (base_dir : string).
#[local] Instance workspace_operations : SandboxBackend WorkspaceBackend := workspace_backend clock base_dir.
#[local] Instance restricted_operations : SandboxBackend RestrictedProcessBackend := restricted_backend clock base_dir.

Definition wb_ok (b : WorkspaceBackend) : Prop :=
  dict_wf (wb_active b) /\ forall id p, dget id (wb_active b) = Some p -> p = sandbox_path base_dir id.
Lemma on_files_wp {B A} (m : M Host A) (s : B * Host) Q :
  wp m s.2 (fun h r => Q (s.1, h) r) -> wp (on_files m) s Q.
Proof. intros H. by apply wp_zoom. Qed.
(** The directories of a new sandbox, made one after the other. *)
Lemma workspace_create_wp policy (s : WorkspaceBackend * Host) :
  wp (workspace_create clock base_dir policy) s (fun s' r => grown s.2 s'.2 /\
    match r with
    | Ok p => p = sandbox_path base_dir (sp_sandbox_id policy) /\
        wb_active s'.1 = dset (sp_sandbox_id policy) p (wb_active s.1)
    | Raise _ => s'.1 = s.1
    end).
Proof.
  unfold workspace_create.
  apply wp_bind, on_files_wp. eapply wp_mono; [apply makedirs_grown|]. intros h1 [[]|e] G1; [|done].
  apply wp_bind, on_files_wp. eapply wp_mono; [apply makedirs_grown|]. simpl. intros h2 [[]|e] G2;
    [|split; [by eapply grown_trans|done]].
  apply wp_bind, on_files_wp. eapply wp_mono; [apply makedirs_grown|]. simpl. intros h3 [[]|e] G3;
    [|split; [by repeat (eapply grown_trans; [done|])|done]].
  split; [|done]. by repeat (eapply grown_trans; [done|]).
Qed.
Lemma workspace_destroy_wp id (s : WorkspaceBackend * Host) :
  wp (workspace_destroy id) s (fun s' _ =>
    wb_active s'.1 = ddel id (wb_active s.1) /\ h_tick s.2 <= h_tick s'.2 /\
    (wb_ok s.1 -> forall q, q <> sandbox_path base_dir id -> ~ disposable (sandbox_path base_dir id) q ->
       h_fs s'.2 !! q = h_fs s.2 !! q)).
Proof.
  apply wp_bind, wp_gets, wp_bind, wp_modify.
  destruct (dget id (wb_active s.1)) as [p|] eqn:E; [|by apply wp_ret].
  apply on_files_wp. eapply wp_mono; [apply (clear_sandbox_spares p)|]. intros h r [Ht Hf].
  split; [done|]. split; [exact Ht|]. intros [_ Hok] q Hq1 Hq2. simpl. apply Hf.
  apply Hok in E as ->. tauto.
Qed.
#[export] Instance workspace_laws : SandboxLaws base_dir WorkspaceBackend.
Proof.
  refine {| well_formed := wb_ok |}.
  - intros policy s [Hwf Hp]. eapply wp_mono; [apply workspace_create_wp|].
    intros s' [p|e] [_ Hs']; simpl in *.
    + destruct Hs' as [-> E]. unfold wb_ok. rewrite E. split; [split|].
      * by apply dset_wf.
      * intros id q. rewrite dget_dset. case_decide; [naive_solver|apply Hp].
      * intros id. apply dmem_dset.
    + by rewrite Hs'.
  - intros id s [Hwf Hp]. eapply wp_mono; [apply workspace_destroy_wp|]. intros s' r (E & _ & _).
    unfold wb_ok. simpl. rewrite E. split; [split|].
    + by apply ddel_wf.
    + intros j p Hj. apply Hp. destruct (decide (id = j)) as [->|Hne].
      * by rewrite dget_ddel_same in Hj.
      * by rewrite dget_ddel_other in Hj.
    + intros j. by apply dmem_ddel.
  - intros policy s. eapply wp_mono; [apply workspace_create_wp|]. by intros s' r [H _].
  - intros id s Hwf. eapply wp_mono; [apply workspace_destroy_wp|]. intros s' r (_ & Ht & H). auto.
Defined.

Definition rp_ok (b : RestrictedProcessBackend) : Prop := dict_wf (rp_active b) /\ wb_ok (rp_workspace b).
Lemma on_workspace_wp {A} (m : M (WorkspaceBackend * Host) A) (s : RestrictedProcessBackend * Host) Q :
  wp m (rp_workspace s.1, s.2) (fun t r => Q (s.1 <| rp_workspace := t.1 |>, t.2) r) -> wp (on_workspace m) s Q.
Proof. intros H. by apply wp_zoom. Qed.
#[export] Instance restricted_laws : SandboxLaws base_dir RestrictedProcessBackend.
Proof.
  refine {| well_formed := rp_ok |}.
  - intros policy s [Hwf Hb]. apply wp_bind, on_workspace_wp.
    eapply wp_mono; [apply (@create_active base_dir WorkspaceBackend _ workspace_laws policy (rp_workspace s.1, s.2) Hb)|].
    intros t [p|e] [Hok _]; [|split; [exact (conj Hwf Hok)|done]].
    split; [split; [by apply dset_wf|exact Hok]|]. intros id. apply dmem_dset.
  - intros id s [Hwf Hb]. apply wp_bind, wp_modify, on_workspace_wp.
    eapply wp_mono; [apply (@destroy_active base_dir WorkspaceBackend _ workspace_laws id (rp_workspace s.1, s.2) Hb)|].
    intros t r [Hok _]. split; [split; [by apply ddel_wf|exact Hok]|]. intros j. by apply dmem_ddel.
  - intros policy s. apply wp_bind, on_workspace_wp.
    eapply wp_mono; [apply (@create_grows base_dir WorkspaceBackend _ workspace_laws policy (rp_workspace s.1, s.2))|].
    by intros t [p|e] H.
  - intros id s [Hwf Hb]. apply wp_bind, wp_modify, on_workspace_wp.
    eapply wp_mono; [apply (@destroy_contained base_dir WorkspaceBackend _ workspace_laws id (rp_workspace s.1, s.2) Hb)|].
    by intros t r H.
Defined.
End Instances.

(** ** The manager over lawful backends *)
Section ManagerFacts.
Context (base_dir : string) {B1 B2 : Type} `{SandboxLaws base_dir B1, SandboxLaws base_dir B2}.
Context (clock : nat -> Z) (uuid_hex : nat -> string) (isoformat : Z -> string).
#[local] Abbreviation SM := (SandboxManager B1 B2).
Definition drawn_id (n : nat) : string := "sbx-" +:+ string_take 12 (uuid_hex n).
(** No identifier is drawn twice before the instant [N] of the generator. *)
Context (N : nat) (ids_distinct : forall m n, m < N -> n < N -> drawn_id m = drawn_id n -> m = n).

Inductive sandbox_op :=
  | CreateSandbox (tenant actor workspace : string) (level : IsolationLevel) (scope : list string) (ttl : Z)
  | DestroySandbox (id : string).
Definition run_op (op : sandbox_op) : M SM unit :=
  match op with
  | CreateSandbox tenant actor workspace level scope ttl =>
      create_sandbox clock uuid_hex isoformat tenant actor workspace level scope ttl ;; mret tt
  | DestroySandbox id => destroy_sandbox id
  end.
Definition run_ops (ops : list sandbox_op) (s : SM) : SM := foldl (fun s op => (run_op op s).1) s ops.

(** What the manager knows and what the backends hold. *)
Definition has_level (l : IsolationLevel) (id : string) (s : SM) : bool :=
  match dget id (sm_policies s) with Some p => bool_decide (sp_isolation_level p = l) | None => false end.
Definition active_at (l : IsolationLevel) (id : string) (s : SM) : bool :=
  match l with
  | LEVEL_1 => is_active id (sm_level1 s)
  | LEVEL_2 => is_active id (sm_level2 s)
  | LEVEL_3 => false
  end.
Definition backends_ok (s : SM) : Prop := well_formed (sm_level1 s) /\ well_formed (sm_level2 s).
Record coherent (s : SM) : Prop := mkCoherent {
  co_backends : backends_ok s;
  co_keys : dict_wf (sm_policies s);
  co_active : forall l id, active_at l id s = has_level l id s;
  co_drawn : forall id p, dget id (sm_policies s) = Some p ->
    sp_sandbox_id p = id /\ exists n, n < h_tick (sm_host s) /\ id = drawn_id n }.

(** A state with the same tables, later. *)
Definition follows (s s' : SM) : Prop :=
  sm_policies s' = sm_policies s /\ h_tick (sm_host s) <= h_tick (sm_host s').
Lemma coherent_follows s s' :
  coherent s -> follows s s' -> backends_ok s' -> (forall l id, active_at l id s' = active_at l id s) ->
  coherent s'.
Proof.
  intros [Hb Hk Ha Hd] [Hp Ht] Hb' Ha'. split; [done|by rewrite Hp|..].
  - intros l id. unfold has_level. by rewrite Hp, Ha', Ha.
  - intros id p. rewrite Hp. intros (?&n&?&?)%Hd. split; [done|]. exists n. split; [lia|done].
Qed.
Lemma follows_refl s : follows s s.
Proof. by split. Qed.
(** An identifier that is yet to be drawn is in no table. *)
Lemma coherent_fresh s n :
  coherent s -> h_tick (sm_host s) <= n -> n < N -> dget (drawn_id n) (sm_policies s) = None.
Proof.
  intros [_ _ _ Hd] Hn HN. destruct (dget _ _) as [p|] eqn:E; [|done].
  destruct (Hd _ _ E) as (_&m&Hm&E'). apply ids_distinct in E'; lia.
Qed.
Lemma has_level_dset l id policy (s : SM) j :
  has_level l j (s <| sm_policies := dset id policy (sm_policies s) |>) =
  if j =s id then bool_decide (sp_isolation_level policy = l) else has_level l j s.
Proof.
  unfold has_level. simpl. rewrite dget_dset. destruct (String.eqb_spec j id) as [->|Hne].
  - by rewrite decide_True.
  - by rewrite decide_False.
Qed.
Lemma has_level_ddel l id (s : SM) j : dict_wf (sm_policies s) ->
  has_level l j (s <| sm_policies := ddel id (sm_policies s) |>) = negb (j =s id) && has_level l j s.
Proof.
  intros Hd. unfold has_level. simpl. destruct (String.eqb_spec j id) as [->|Hne].
  - by rewrite dget_ddel_same.
  - by rewrite dget_ddel_other.
Qed.

(** The operation of the backend of a level. *)
Lemma backend_create_wp policy s : backends_ok s ->
  wp (backend_create policy) s (fun s' r => follows s s' /\ backends_ok s' /\
    (is_ok r = true -> sp_isolation_level policy <> LEVEL_3) /\
    forall l id, active_at l id s' =
      is_ok r && bool_decide (sp_isolation_level policy = l) && (id =s sp_sandbox_id policy)
      || active_at l id s).
Proof.
  intros [W1 W2]. unfold backend_create. destruct (sp_isolation_level policy) eqn:El.
  - apply wp_zoom. eapply wp_mono.
    { apply (wp_and _ _ _ _ (create_active policy (sm_level1 s, sm_host s) W1)
               (create_grows policy (sm_level1 s, sm_host s))). }
    intros [b h] r [[W A] [G _]]. split; [by split|]. split; [by split|]. split; [done|].
    intros [] id; simpl; rewrite ?andb_false_r, ?andb_true_r; [apply A|done|done].
  - apply wp_zoom. eapply wp_mono.
    { apply (wp_and _ _ _ _ (create_active policy (sm_level2 s, sm_host s) W2)
               (create_grows policy (sm_level2 s, sm_host s))). }
    intros [b h] r [[W A] [G _]]. split; [by split|]. split; [by split|]. split; [done|].
    intros [] id; simpl; rewrite ?andb_false_r, ?andb_true_r; [done|apply A|done].
  - apply wp_throw. split; [apply follows_refl|]. by repeat split.
Qed.
Lemma backend_destroy_wp level id s : backends_ok s ->
  wp (backend_destroy level id) s (fun s' _ => follows s s' /\ backends_ok s' /\
    (forall q, q <> sandbox_path base_dir id -> ~ disposable (sandbox_path base_dir id) q ->
       h_fs (sm_host s') !! q = h_fs (sm_host s) !! q) /\
    forall l j, active_at l j s' = negb (bool_decide (level = l) && (j =s id)) && active_at l j s).
Proof.
  intros [W1 W2]. destruct level; simpl.
  - apply wp_zoom. eapply wp_mono.
    { apply (wp_and _ _ _ _ (destroy_active id (sm_level1 s, sm_host s) W1)
               (destroy_contained id (sm_level1 s, sm_host s) W1)). }
    intros [b h] r [[W A] [G F]]. split; [by split|]. split; [by split|]. split; [exact F|].
    intros [] j; simpl; [apply A|done|done].
  - apply wp_zoom. eapply wp_mono.
    { apply (wp_and _ _ _ _ (destroy_active id (sm_level2 s, sm_host s) W2)
               (destroy_contained id (sm_level2 s, sm_host s) W2)). }
    intros [b h] r [[W A] [G F]]. split; [by split|]. split; [by split|]. split; [exact F|].
    intros [] j; simpl; [done|apply A|done].
  - apply wp_ret. split; [apply follows_refl|]. split; [done|]. split; [done|].
    intros [] j; simpl; by rewrite ?andb_false_r.
Qed.

Lemma register_coherent policy n s s' :
  coherent s -> follows s s' -> backends_ok s' -> sp_sandbox_id policy = drawn_id n ->
  n < h_tick (sm_host s') -> dget (drawn_id n) (sm_policies s) = None ->
  (forall l id, active_at l id s' =
     bool_decide (sp_isolation_level policy = l) && (id =s drawn_id n) || active_at l id s) ->
  coherent (s' <| sm_policies := dset (drawn_id n) policy (sm_policies s') |>).
Proof.
  intros [Hb Hk Ha Hd] [Hp Ht] Hb' Hid Hn Hfresh Ha'. split.
  - exact Hb'.
  - simpl. rewrite Hp. by apply dset_wf.
  - intros l id. rewrite has_level_dset. change (active_at l id (s' <| sm_policies := _ |>)) with (active_at l id s').
    rewrite Ha', Ha. unfold has_level. rewrite Hp. destruct (String.eqb_spec id (drawn_id n)) as [->|].
    + rewrite Hfresh. by rewrite andb_true_r, orb_false_r.
    + by rewrite andb_false_r.
  - intros id p. simpl. rewrite Hp, dget_dset. case_decide; intros Hq; simplify_eq.
    + split; [done|]. by exists n.
    + destruct (Hd _ _ Hq) as (?&m&?&?). split; [done|]. exists m. split; [lia|done].
Qed.
Lemma create_sandbox_coherent tenant actor workspace level scope ttl s :
  backends_ok s ->
  wp (create_sandbox clock uuid_hex isoformat tenant actor workspace level scope ttl) s (fun s' r =>
    backends_ok s' /\ h_tick (sm_host s) < h_tick (sm_host s') /\
    (coherent s -> h_tick (sm_host s) < N -> coherent s' /\
     match r with
     | Ok p => level <> LEVEL_3 /\ dget (sp_sandbox_id p) (sm_policies s) = None /\
         dget (sp_sandbox_id p) (sm_policies s') = Some p
     | Raise _ => sm_policies s' = sm_policies s
     end)).
Proof.
  intros Hb. unfold create_sandbox. set (n := h_tick (sm_host s)).
  apply wp_bind, wp_zoom. unfold wp at 1. cbv beta iota.
  apply wp_bind, wp_zoom. unfold now, wp at 1. cbv beta iota zeta.
  match goal with |- wp _ ?x _ => set (s1 := x) end.
  assert (follows s s1) as F1 by (split; [done|]; simpl; lia).
  assert (coherent s -> coherent s1) as Hc1 by (intros Hc; by eapply coherent_follows; [exact Hc|..|apply Hc|]).
  assert (S (S n) <= h_tick (sm_host s1)) as Hn1 by done.
  apply wp_bind, wp_of_result. destruct (add_seconds _ ttl) as [t|e]; [|split; [done|split; [lia|by split; auto]]].
  set (policy := mkPolicy _ _ _ _ _ _ _ _ _ _ _ _).
  apply wp_bind. eapply wp_mono; [by apply (backend_create_wp policy s1)|].
  intros s2 [p|e] (F2 & W2 & Hl & A2); pose proof F2 as [P2 T2]; [|split; [done|split; [lia|intros Hc HN]]].
  - apply wp_bind, wp_modify, wp_ret. split; [done|]. split; [simpl; lia|]. intros Hc HN.
    change (sp_sandbox_id policy) with (drawn_id n).
    assert (dget (drawn_id n) (sm_policies s) = None) as Hfresh by (by apply coherent_fresh).
    split; [|by split_and!; [apply Hl|..|simpl; apply dget_dset_same]].
    apply (register_coherent policy n s1 s2); auto. lia.
  - split; [by eapply coherent_follows; [apply Hc1|..]|]. done.
Qed.
Lemma destroy_sandbox_coherent id s :
  coherent s ->
  wp (destroy_sandbox id) s (fun s' _ => coherent s' /\ get_policy id s' = None /\
    (forall j, j <> id -> get_policy j s' = get_policy j s) /\
    forall q, q <> sandbox_path base_dir id -> ~ disposable (sandbox_path base_dir id) q ->
      h_fs (sm_host s') !! q = h_fs (sm_host s) !! q).
Proof.
  intros Hc. pose proof Hc as [Hb Hk Ha Hd]. apply wp_bind, wp_gets.
  destruct (dget id (sm_policies s)) as [p|] eqn:E; [|by apply wp_ret].
  apply wp_bind, wp_modify. set (s1 := s <| sm_policies := _ |>).
  assert (has_level (sp_isolation_level p) id s = true) as Hp
    by (unfold has_level; rewrite E; by apply bool_decide_eq_true).
  eapply wp_mono; [apply (backend_destroy_wp (sp_isolation_level p) id s1 Hb)|].
  intros s2 r ([P2 T2] & W2 & Hf & A2). split_and!.
  - split; [done|rewrite P2; by apply ddel_wf|..].
    + intros l j. rewrite A2. unfold has_level at 1. rewrite P2. fold (has_level l j s1).
      unfold s1. rewrite has_level_ddel by done.
      change (active_at l j (s <| sm_policies := _ |>)) with (active_at l j s). rewrite Ha.
      destruct (String.eqb_spec j id) as [->|]; [|by rewrite andb_false_r].
      rewrite andb_true_r. unfold has_level. rewrite E. simpl. by case_bool_decide.
    + intros j q. rewrite P2. intros Hq. assert (dget j (sm_policies s) = Some q) as Hj.
      { destruct (decide (id = j)) as [<-|Hne]; simpl in Hq.
        - by rewrite dget_ddel_same in Hq.
        - by rewrite dget_ddel_other in Hq. }
      destruct (Hd _ _ Hj) as (?&m&?&?). split; [done|]. exists m. simpl in T2. split; [lia|done].
  - unfold get_policy. rewrite P2. by apply dget_ddel_same.
  - intros j Hne. unfold get_policy. rewrite P2. by apply dget_ddel_other.
  - exact Hf.
Qed.
Lemma run_op_later op s : backends_ok s ->
  wp (run_op op) s (fun s' _ => backends_ok s' /\ h_tick (sm_host s) <= h_tick (sm_host s') /\
    (coherent s -> h_tick (sm_host s') <= N -> coherent s')).
Proof.
  intros Hb. destruct op as [tenant actor workspace level scope ttl|id]; simpl.
  - apply wp_bind. eapply wp_mono; [by apply create_sandbox_coherent|].
    intros s1 [p|e] (W & T & C); (split; [exact W|split; [simpl; lia|intros Hc HN; apply C; [done|simpl in *; lia]]]).
  - assert (wp (destroy_sandbox id) s (fun s' _ => backends_ok s' /\ h_tick (sm_host s) <= h_tick (sm_host s'))) as Hw.
    { apply wp_bind, wp_gets. destruct (dget id (sm_policies s)) as [p|]; [|by apply wp_ret].
      apply wp_bind, wp_modify. eapply wp_mono; [by apply backend_destroy_wp|].
      by intros s2 r ([_ T] & W & _ & _). }
    unfold wp in *. destruct (destroy_sandbox id s) as [s' r] eqn:E. destruct Hw as [W T].
    split; [done|]. split; [done|]. intros Hc _.
    pose proof (destroy_sandbox_coherent id s Hc) as Hd. unfold wp in Hd. rewrite E in Hd. apply Hd.
Qed.
Lemma run_later ops s : backends_ok s ->
  backends_ok (run_ops ops s) /\ h_tick (sm_host s) <= h_tick (sm_host (run_ops ops s)).
Proof.
  revert s. induction ops as [|op ops IH]; intros s Hb; [done|].
  pose proof (run_op_later op s Hb) as Hop. unfold wp in Hop. destruct (run_op op s) as [s1 r] eqn:E.
  destruct Hop as (W & T & _). change (run_ops (op :: ops) s) with (run_ops ops (run_op op s).1). rewrite E.
  destruct (IH s1 W) as [W' T']. split; [done|]. simpl. lia.
Qed.
Lemma run_coherent ops s :
  coherent s -> h_tick (sm_host (run_ops ops s)) <= N -> coherent (run_ops ops s).
Proof.
  revert s. induction ops as [|op ops IH]; intros s Hc HN; [done|].
  change (run_ops (op :: ops) s) with (run_ops ops (run_op op s).1) in *.
  pose proof (run_op_later op s (co_backends _ Hc)) as Hop. unfold wp in Hop.
  destruct (run_op op s) as [s1 r]. destruct Hop as (W & T & C). simpl in *.
  apply IH; [|done]. apply C; [done|]. etrans; [apply (run_later ops s1 W)|done].
Qed.
(** C32: over any sequence of creations and destructions, whichever of their file operations fail, the
    backend of a level holds exactly the sandboxes whose registered policy has
    that level, and no sandbox is registered at the third level. *)
Theorem sandboxes_coherent ops s :
  coherent s -> let s' := run_ops ops s in
  h_tick (sm_host s') <= N ->
  (forall id, is_active id (sm_level1 s') = has_level LEVEL_1 id s') /\
  (forall id, is_active id (sm_level2 s') = has_level LEVEL_2 id s') /\
  (forall id, id ∈ list_active s' ->
     exists p, get_policy id s' = Some p /\ sp_sandbox_id p = id /\ sp_isolation_level p <> LEVEL_3).
Proof.
  intros Hc s' HN. assert (coherent s') as [_ Hk Ha Hd] by (by apply run_coherent).
  split; [intros; apply (Ha LEVEL_1)|]. split; [intros; apply (Ha LEVEL_2)|]. intros id Hid.
  destruct (dget id (sm_policies s')) as [p|] eqn:E; [|by apply dget_None in E].
  exists p. split; [done|]. split; [by eapply Hd|]. intros Hl.
  pose proof (Ha LEVEL_3 id) as H3. unfold has_level in H3. rewrite E in H3. simpl in H3.
  by rewrite bool_decide_eq_true_2 in H3.
Qed.
End ManagerFacts.

(** ** The manager of the code *)
Module SandboxExamples.
Definition clock (n : nat) : Z := Z.of_nat n.
Definition uuid (n : nat) : string := String.concat "" (replicate n "a") +:+ "b".
Definition root : fs := {["/" := Dir 16877 0 (f_of_Z 0); "/data" := Dir 16877 0 (f_of_Z 0)]}.
Definition BASE : string := sandbox_base "/data".
#[local] Instance w_backend : SandboxBackend WorkspaceBackend := workspace_backend clock BASE.
#[local] Instance r_backend : SandboxBackend RestrictedProcessBackend := restricted_backend clock BASE.
Definition started : SandboxManager WorkspaceBackend RestrictedProcessBackend :=
  match (new_manager clock "/data" (mkHost root 0)).2 with
  | Ok s => s
  | Raise _ => mkSM (mkWB []) (mkRP (mkWB []) []) [] (mkHost root 0)
  end.
Definition make (level : IsolationLevel) : sandbox_op := CreateSandbox "t" "a" "w" level ["/data/project"] 3600.
Definition used : SandboxManager WorkspaceBackend RestrictedProcessBackend :=
  run_ops clock uuid zstr [make LEVEL_1; make LEVEL_2; make LEVEL_3; DestroySandbox "sbx-b"] started.
Example used_runs :
  list_active used = ["sbx-aab"] /\ is_active "sbx-b" (sm_level1 used) = false /\
  is_active "sbx-aab" (sm_level2 used) = true /\
  isdir (h_fs (sm_host used)) "/data/sandboxes/sbx-aab/tmp" = true /\
  exists_ (h_fs (sm_host used)) "/data/sandboxes/sbx-b" = false /\
  check_access "/" "sbx-aab" "/data/project-other/x" used = true.
Proof. vm_compute. by split_and!. Qed.
#[local] Instance w_laws : SandboxLaws BASE WorkspaceBackend := workspace_laws clock BASE.
#[local] Instance r_laws : SandboxLaws BASE RestrictedProcessBackend := restricted_laws clock BASE.
Lemma uuid_distinct m n : m < 10 -> n < 10 -> drawn_id uuid m = drawn_id uuid n -> m = n.
Proof.
  intros Hm Hn. do 10 (destruct m as [|m]; [do 10 (destruct n as [|n]; [vm_compute; congruence|]); lia|]). lia.
Qed.
Lemma started_coherent : coherent BASE uuid started.
Proof.
  split; [|apply NoDup_nil_2|by intros []|done].
  repeat split; try apply NoDup_nil_2; done.
Qed.
Lemma sandboxes_coherent_witness :
  is_active "sbx-aab" (sm_level2 used) = has_level LEVEL_2 "sbx-aab" used /\
  has_level LEVEL_2 "sbx-aab" used = true.
Proof.
  split; [|vm_compute; reflexivity].
  apply (sandboxes_coherent BASE clock uuid zstr 10 uuid_distinct
    [make LEVEL_1; make LEVEL_2; make LEVEL_3; DestroySandbox "sbx-b"] started started_coherent).
  vm_compute. lia.
Defined.
End SandboxExamples.
