(* ===== verification/Github.v ===== *)
(** * The GitHub client

    [runtime/github/client.py] and [discovery.py]: requests to the GitHub API
    over a network that answers anything, the decoding of files, and the
    discovery of the principal, organizations and repositories.  The network
    sees every earlier request, so its answers may change between two reads. *)
From S2P Require Import Prelude Dict PyVal Effects PyStr PyBytes Json JsonLoad.

(** ** Requests *)
Record Request := mkRequest {
  rq_method : string; rq_url : string; rq_headers : dict string string }.
(** What [urlopen] and reading the response give: the status and the bytes of a
    successful response, one of the exceptions the client names, or another one. *)
Inductive http_outcome :=
  | HttpBody (status : Z) (raw : string)
  | HttpError (code : Z) (reason : string)
  | HttpUnreachable (reason : string) (timed_out : bool)
  | HttpTimeout
  | HttpFailed (e : exn).
(** The network, given the requests sent before. *)
Class Network := {
  net_floats :: FloatOps;
  net_errors :: JsonErrors;
  urlopen : list Request -> Request -> http_outcome }.
Abbreviation Net := (list Request).

(** [for x in v] *)
Definition py_iter (v : pyval) : result (list pyval) :=
  match v with
  | VList l => Ok l
  | VDict d => Ok (VStr <$> dkeys d)
  | VStr s => Ok ((fun c => VStr (String c "")) <$> String.list_ascii_of_string s)
  | _ => raise TypeError ("'" +:+ pytype_name v +:+ "' object is not iterable")
  end.
(** [d.get(k)] on a response *)
Definition field (k : string) (v : pyval) : result pyval := py_get k VNone v.
Fixpoint map_result {A B} (f : A -> result B) (l : list A) : result (list B) :=
  match l with
  | [] => Ok []
  | a :: l' => let? b := f a in let? bs := map_result f l' in Ok (b :: bs)
  end.

(** ** The client *)
(** Its token, its secret backend, which gives the bytes of a secret, and the
    account its secret is filed under. *)
Record GitHubClient := mkClient {
  gc_token : option string;
  gc_secret : option (string -> result (option string));
  gc_account_id : option string }.

Definition GITHUB_API_BASE : string := "https://api.github.com".
Definition GITHUB_TOKEN_REF : string := "github-access-token".
Definition token_ref (c : GitHubClient) : string :=
  match gc_account_id c with
  | Some a => if str_true a then "acct-" +:+ a +:+ "-github-token" else GITHUB_TOKEN_REF
  | None => GITHUB_TOKEN_REF
  end.
Definition stored_token (retrieve : string -> result (option string)) (ref : string)
    : result string :=
  let? b := retrieve ref in
  if ostr_true b then let? t := utf8_decode (default "" b) in Ok (strip t)
  else raise GitHubAuthError "No GitHub access token available".
(** [_get_token]: an exception of the backend counts as no token. *)
Definition get_token (c : GitHubClient) : result string :=
  let no_token := raise GitHubAuthError "No GitHub access token available" in
  if ostr_true (gc_token c) then Ok (default "" (gc_token c))
  else match gc_secret c with
       | Some retrieve => rescue (stored_token retrieve (token_ref c)) (fun _ => no_token)
       | None => no_token
       end.

Section Client.
Context {network : Network}.

Definition send (r : Request) : M Net http_outcome := fun sent =>
  (sent ++ [r], Ok (urlopen sent r)).

(** The exception for an HTTP status. *)
Definition http_error (endpoint : string) (code : Z) (reason : string) : exn :=
  if (code =? 401)%Z then Exn GitHubAuthError ("GitHub API Unauthorized (401): " +:+ reason)
  else if (code =? 404)%Z
  then Exn GitHubNotFoundError ("GitHub API Resource Not Found (404): " +:+ endpoint)
  else if (code =? 403)%Z && contains "rate limit" (lower reason)
  then Exn GitHubRateLimitError ("GitHub API Rate Limit Exceeded (403): " +:+ reason)
  else Exn GitHubClientError ("GitHub API HTTP Error (" +:+ zstr code +:+ "): " +:+ reason).
Definition read_body (raw : string) : result pyval :=
  let? text := utf8_decode raw in
  if text =s "" then Ok (VDict [])
  else match json_loads text with
       | Raise (Exn JSONDecodeError msg) =>
           raise GitHubClientError ("Failed to decode GitHub API JSON response: " +:+ msg)
       | r => r
       end.
Definition read_response (url endpoint : string) (o : http_outcome) : result pyval :=
  match o with
  | HttpBody _ raw => read_body raw
  | HttpError code reason => Raise (http_error endpoint code reason)
  | HttpUnreachable reason true =>
      raise GitHubTimeoutError ("GitHub API Request timed out: " +:+ url)
  | HttpUnreachable reason false =>
      raise GitHubClientError ("GitHub API Network Error: " +:+ reason)
  | HttpTimeout => raise GitHubTimeoutError ("GitHub API Socket timed out: " +:+ url)
  | HttpFailed e => Raise e
  end.
Definition request_url (endpoint : string) (query : dict string string) : string :=
  GITHUB_API_BASE +:+ endpoint +:+
    match query with [] => "" | _ => "?" +:+ urlencode query end.
Definition request_headers (token : string) : dict string string :=
  [("Authorization", "Bearer " +:+ token); ("Accept", "application/vnd.github+json");
   ("User-Agent", "ANNY-Runtime/1.0")].
(** [_request]: no caller passes further headers. *)
Definition request (c : GitHubClient) (endpoint : string) (query : dict string string)
    : M Net pyval :=
  token ← of_result (get_token c);
  let url := request_url endpoint query in
  o ← send (mkRequest "GET" url (request_headers token));
  of_result (read_response url endpoint o).

Definition get_authenticated_principal (c : GitHubClient) : M Net pyval := request c "/user" [].
Definition list_organizations (c : GitHubClient) : M Net pyval :=
  request c "/user/orgs" [("per_page", "100")].
Definition list_repositories (c : GitHubClient) (org : option string) : M Net (list pyval) :=
  res ← (if ostr_true org
         then request c ("/orgs/" +:+ default "" org +:+ "/repos")
                [("per_page", "100"); ("type", "all")]
         else request c "/user/repos"
                [("per_page", "100"); ("affiliation", "owner,collaborator,organization_member")]);
  mret (match res with VList l => l | _ => [] end).
Definition get_repository (c : GitHubClient) (owner repo : string) : M Net pyval :=
  request c ("/repos/" +:+ owner +:+ "/" +:+ repo) [].
Definition contents_endpoint (owner repo path : string) : string :=
  "/repos/" +:+ owner +:+ "/" +:+ repo +:+ "/contents/" +:+ path.
Definition ref_query (ref : option string) : dict string string :=
  if ostr_true ref then [("ref", default "" ref)] else [].
(** [file_exists]: the exceptions carry no [status_code]. *)
Definition file_exists (c : GitHubClient) (owner repo path : string) (ref : option string)
    : M Net bool :=
  try_with (request c (contents_endpoint owner repo path) (ref_query ref) ;; mret true)
    (fun e => match exn_type e with GitHubNotFoundError => mret false | _ => rethrow e end).

(** The text of a file in a contents response. *)
Definition decode_content (v : pyval) : result pyval :=
  match v with
  | VStr s => let? b := b64decode s in let? t := utf8_decode b in Ok (VStr t)
  | _ => raise TypeError ("argument should be a bytes-like object or ASCII string, not '"
                          +:+ pytype_name v +:+ "'")
  end.
Definition file_content (path : string) (res : pyval) : result pyval :=
  let unexpected := raise GitHubClientError ("Unexpected response format for file " +:+ path) in
  match res with
  | VDict d =>
      match dget "content" d with
      | Some content =>
          match vget_or "encoding" (VStr "base64") d with
          | VStr e => if e =s "base64" then decode_content content else Ok content
          | _ => Ok content
          end
      | None => unexpected
      end
  | VStr s => Ok (VStr s)
  | _ => unexpected
  end.
Definition get_file (c : GitHubClient) (owner repo path : string) (ref : option string)
    : M Net pyval :=
  res ← request c (contents_endpoint owner repo path) (ref_query ref);
  of_result (file_content path res).
Definition search_code (c : GitHubClient) (repo query : string) : M Net pyval :=
  request c "/search/code" [("q", "repo:" +:+ repo +:+ " " +:+ query)].
Definition get_commit (c : GitHubClient) (owner repo sha : string) : M Net pyval :=
  request c ("/repos/" +:+ owner +:+ "/" +:+ repo +:+ "/commits/" +:+ sha) [].
(** [except GitHubClientError: return False] *)
Definition github_false (m : M Net bool) : M Net bool :=
  try_with m (fun e => if is_github_error (exn_type e) then mret false else rethrow e).
Definition is_commit_ancestor (c : GitHubClient) (owner repo ancestor head : string)
    : M Net bool :=
  if ancestor =s head then mret true
  else github_false
    (res ← request c ("/repos/" +:+ owner +:+ "/" +:+ repo +:+ "/compare/" +:+ ancestor
                      +:+ "..." +:+ head) [];
     mret (match res with
           | VDict d => match vget "status" d with
                        | VStr s => str_in s ["ahead"; "identical"]
                        | _ => false
                        end
           | _ => false
           end)).
Definition validate_github_sha (c : GitHubClient) (owner repo sha : string) : M Net bool :=
  github_false
    (res ← get_commit c owner repo sha;
     mret (match res with VDict d => truthy (vget "sha" d) | _ => false end)).
End Client.

(** ** Discovery *)
(** The fields hold whatever the API answered. *)
Record DiscoveredPrincipal := mkPrincipal {
  dp_login : pyval; dp_identity_type : pyval; dp_authorization_state : string;
  dp_raw_metadata : dict string pyval }.
Record DiscoveredOrganization := mkOrganization {
  do_login : pyval; do_display_name : pyval; do_repository_count : pyval;
  do_raw_metadata : dict string pyval }.
Record DiscoveredRepository := mkRepository {
  dr_full_name : pyval; dr_name : pyval; dr_owner : pyval; dr_visibility : string;
  dr_archived : pyval; dr_default_branch : pyval; dr_latest_metadata : dict string pyval }.

Definition principal_to_dict (p : DiscoveredPrincipal) : dict string pyval :=
  [("login", dp_login p); ("identity_type", dp_identity_type p);
   ("authorization_state", VStr (dp_authorization_state p));
   ("raw_metadata", VDict (dp_raw_metadata p))].
Definition organization_to_dict (o : DiscoveredOrganization) : dict string pyval :=
  [("login", do_login o); ("display_name", do_display_name o);
   ("repository_count", do_repository_count o); ("raw_metadata", VDict (do_raw_metadata o))].
Definition repository_to_dict (r : DiscoveredRepository) : dict string pyval :=
  [("full_name", dr_full_name r); ("name", dr_name r); ("owner", dr_owner r);
   ("visibility", VStr (dr_visibility r)); ("archived", dr_archived r);
   ("default_branch", dr_default_branch r); ("latest_metadata", VDict (dr_latest_metadata r))].

Definition decode_principal (v : pyval) : result DiscoveredPrincipal :=
  let? login := py_get "login" (VStr "unknown") v in
  let? identity_type := py_get "type" (VStr "User") v in
  let? id := field "id" v in
  let? name := field "name" v in
  let? email := field "email" v in
  Ok (mkPrincipal login identity_type "AUTHORIZED" [("id", id); ("name", name); ("email", email)]).
Definition decode_organization (v : pyval) : result DiscoveredOrganization :=
  let? login := py_get "login" (VStr "") v in
  let? description := field "description" v in
  let? login' := field "login" v in
  let? count := py_get "public_repos" (VInt 0) v in
  let? id := field "id" v in
  let? url := field "url" v in
  Ok (mkOrganization login (if truthy description then description else login') count
        [("id", id); ("url", url)]).
Definition owner_login (owner : pyval) : pyval :=
  match owner with VDict d => vget_or "login" (VStr "") d | _ => VStr "" end.
Definition decode_repository (v : pyval) : result DiscoveredRepository :=
  let? full_name := py_get "full_name" (VStr "") v in
  let? owner := field "owner" v in
  let? name := py_get "name" (VStr "") v in
  let? is_private := py_get "private" (VBool false) v in
  let? archived := py_get "archived" (VBool false) v in
  let? branch := py_get "default_branch" (VStr "main") v in
  let? description := field "description" v in
  let? pushed_at := field "pushed_at" v in
  let? updated_at := field "updated_at" v in
  let? stars := py_get "stargazers_count" (VInt 0) v in
  Ok (mkRepository full_name name (owner_login owner)
        (if truthy is_private then "private" else "public") archived branch
        [("description", description); ("pushed_at", pushed_at); ("updated_at", updated_at);
         ("stargazers_count", stars)]).

Section Discovery.
Context {network : Network}.
Definition discover_principal (c : GitHubClient) : M Net DiscoveredPrincipal :=
  v ← get_authenticated_principal c; of_result (decode_principal v).
Definition discover_organizations (c : GitHubClient) : M Net (list DiscoveredOrganization) :=
  v ← list_organizations c;
  l ← of_result (py_iter v);
  of_result (map_result decode_organization l).
Definition discover_repositories (c : GitHubClient) (org : option string)
    : M Net (list DiscoveredRepository) :=
  l ← list_repositories c org; of_result (map_result decode_repository l).
End Discovery.

(** ** What the client sends *)
(** A computation adds to what was sent, and only requests that satisfy [P]. *)
Definition sends {A} (P : Request -> Prop) (m : M Net A) : Prop :=
  forall sent, wp m sent (fun sent' _ => exists l, sent' = sent ++ l /\ Forall P l).

Lemma sends_silent {A} P (m : M Net A) : (forall s, (m s).1 = s) -> sends P m.
Proof.
  intros H sent. unfold wp. specialize (H sent). destruct (m sent) as [s r]. simpl in H.
  exists []. by rewrite app_nil_r.
Qed.
Lemma sends_ret {A} P (a : A) : sends P (mret a : M Net A).
Proof. by apply sends_silent. Qed.
Lemma sends_result {A} P (r : result A) : sends P (of_result r).
Proof. by apply sends_silent. Qed.
Lemma sends_rethrow {A} P e : sends P (rethrow e : M Net A).
Proof. by apply sends_silent. Qed.
Lemma sends_throw {A} P c msg : sends P (throw c msg : M Net A).
Proof. by apply sends_silent. Qed.
Lemma sends_bind {A B} P (m : M Net A) (f : A -> M Net B) :
  sends P m -> (forall a, sends P (f a)) -> sends P (m ≫= f).
Proof.
  intros Hm Hf sent. apply wp_bind. eapply wp_mono; [apply Hm|].
  intros s [a|e] (l & -> & Hl); [|by exists l].
  eapply wp_mono; [apply Hf|]. intros s' r (l' & -> & Hl').
  exists (l ++ l'). rewrite app_assoc. split; [done|by apply Forall_app].
Qed.
Lemma sends_try {A} P (m : M Net A) h :
  sends P m -> (forall e, sends P (h e)) -> sends P (try_with m h).
Proof.
  intros Hm Hh sent. apply wp_try_with. eapply wp_mono; [apply Hm|].
  intros s [a|e] (l & -> & Hl); [by exists l|].
  eapply wp_mono; [apply Hh|]. intros s' r (l' & -> & Hl').
  exists (l ++ l'). rewrite app_assoc. split; [done|by apply Forall_app].
Qed.
Lemma sends_weaken {A} (P Q : Request -> Prop) (m : M Net A) :
  (forall r, P r -> Q r) -> sends P m -> sends Q m.
Proof.
  intros HPQ Hm sent. eapply wp_mono; [apply Hm|]. intros s r (l & -> & Hl).
  exists l. split; [done|]. by eapply Forall_impl.
Qed.
(** The request of an endpoint, with the client's token. *)
Definition asks {network : Network} (c : GitHubClient) (endpoint : string)
    (query : dict string string) (r : Request) : Prop :=
  exists token, get_token c = Ok token /\
    r = mkRequest "GET" (request_url endpoint query) (request_headers token).
Lemma sends_request {network : Network} c endpoint query :
  sends (asks c endpoint query) (request c endpoint query).
Proof.
  unfold request. intros sent. apply wp_bind, wp_of_result.
  destruct (get_token c) as [token|e] eqn:E; [|exists []; by rewrite app_nil_r].
  apply wp_bind. unfold wp at 1, send. apply wp_of_result.
  eexists [_]. split; [done|]. constructor; [|done]. by exists token.
Qed.
Create HintDb sends.
#[export] Hint Resolve sends_ret sends_result sends_rethrow sends_throw sends_request : sends.
#[export] Hint Extern 4 (sends _ (_ ≫= _)) => apply sends_bind; [|intros] : sends.
#[export] Hint Extern 4 (sends _ (try_with _ _)) => apply sends_try; [|intros] : sends.
#[export] Hint Extern 5 (sends _ (match ?x with _ => _ end)) => destruct x : sends.

Section ClientTheorems.
Context {network : Network}.

Inductive github_op :=
  | GPrincipal | GOrganizations | GRepositories (org : option string)
  | GRepository (owner repo : string)
  | GFileExists (owner repo path : string) (ref : option string)
  | GFile (owner repo path : string) (ref : option string)
  | GSearch (repo query : string)
  | GCommit (owner repo sha : string)
  | GAncestor (owner repo ancestor head : string)
  | GValidate (owner repo sha : string)
  | GDiscover (org : option string).
Definition run_github (c : GitHubClient) (op : github_op) : M Net unit :=
  match op with
  | GPrincipal => get_authenticated_principal c ;; mret tt
  | GOrganizations => list_organizations c ;; mret tt
  | GRepositories org => list_repositories c org ;; mret tt
  | GRepository owner repo => get_repository c owner repo ;; mret tt
  | GFileExists owner repo path ref => file_exists c owner repo path ref ;; mret tt
  | GFile owner repo path ref => get_file c owner repo path ref ;; mret tt
  | GSearch repo query => search_code c repo query ;; mret tt
  | GCommit owner repo sha => get_commit c owner repo sha ;; mret tt
  | GAncestor owner repo a h => is_commit_ancestor c owner repo a h ;; mret tt
  | GValidate owner repo sha => validate_github_sha c owner repo sha ;; mret tt
  | GDiscover org =>
      discover_principal c ;; discover_organizations c ;; discover_repositories c org ;; mret tt
  end.

(** A read of the API, authorized by the client's token. *)
Definition api_read (c : GitHubClient) (r : Request) : Prop :=
  rq_method r = "GET" /\ startswith "https://api.github.com/" (rq_url r) = true /\
  exists token, get_token c = Ok token /\
    dget "Authorization" (rq_headers r) = Some ("Bearer " +:+ token).
Lemma sends_read c endpoint query :
  sends (api_read c) (request c (String "/" endpoint) query).
Proof.
  eapply sends_weaken; [|apply sends_request]. intros r (token & Ht & ->).
  split; [done|]. split; [done|by exists token].
Qed.
#[local] Hint Resolve sends_read : sends.
Lemma run_github_reads c op : sends (api_read c) (run_github c op).
Proof.
  destruct op; simpl;
    unfold get_authenticated_principal, list_organizations, list_repositories, get_repository,
      file_exists, get_file, search_code, get_commit, is_commit_ancestor, validate_github_sha,
      github_false, get_commit, discover_principal, discover_organizations, discover_repositories,
      get_authenticated_principal, list_organizations, list_repositories, contents_endpoint;
    eauto 12 with sends.
Qed.

(** Whatever is asked of the client, it only reads: every request is a GET
    to the GitHub API that carries the client's token, and a client without a
    token sends nothing. *)
Theorem client_read_only c ops :
  Forall (api_read c) (foldl (fun sent op => (run_github c op sent).1) [] ops) /\
  (is_ok (get_token c) = false -> foldl (fun sent op => (run_github c op sent).1) [] ops = []).
Proof.
  assert (Forall (api_read c) (foldl (fun sent op => (run_github c op sent).1) [] ops)) as H.
  { induction ops as [|op ops IH] using rev_ind; [constructor|].
    rewrite foldl_app. simpl. pose proof (run_github_reads c op
      (foldl (fun sent op => (run_github c op sent).1) [] ops)) as Hl.
    unfold wp in Hl. destruct (run_github c op _) as [s r]. simpl in *.
    destruct Hl as (l & -> & Hl). by apply Forall_app. }
  split; [done|]. intros Ht. destruct H as [|r l (_ & _ & token & E & _)]; [done|].
  by rewrite E in Ht.
Qed.

(** A file answered as base64, broken over lines in any way, is read back as
    the text that was encoded; the state of the network records one request. *)
Theorem get_file_round_trip c owner repo path ref token sent content d text status raw :
  get_token c = Ok token ->
  urlopen sent (mkRequest "GET" (request_url (contents_endpoint owner repo path) (ref_query ref))
                  (request_headers token)) = HttpBody status raw ->
  utf8_decode raw = Ok content -> content <> "" -> json_loads content = Ok (VDict d) ->
  vget_or "encoding" (VStr "base64") d = VStr "base64" ->
  (exists s, dget "content" d = Some (VStr s) /\ all_chars is_ascii s = true /\
     keep b64_char s = b64encode (utf8_encode text)) ->
  wp (get_file c owner repo path ref) sent (fun sent' r =>
    r = Ok (VStr text) /\ length sent' = S (length sent)).
Proof.
  intros Ht Ho Hu Hne Hj He (s & Hs & Ha & Hk). unfold get_file, request.
  apply wp_bind, wp_bind, wp_of_result. rewrite Ht. apply wp_bind.
  unfold wp at 1, send. rewrite Ho. apply wp_of_result. simpl. unfold read_body.
  rewrite Hu. apply String.eqb_neq in Hne. rewrite Hne, Hj. apply wp_of_result.
  split; [|rewrite length_app; simpl; lia]. simpl. rewrite Hs, He. simpl.
  by rewrite (b64_round_trip _ _ Ha Hk), utf8_round_trip.
Qed.
End ClientTheorems.
