(* ===== verification/Fabric.v ===== *)
(** * The repository fabric

    [runtime/fabric/models.py] and [github_adapter.py]: the records of the
    control repository and the adapter that reads them through the GitHub
    client.  The fields of a record hold whatever JSON value was read.  The dash
    of two messages, beyond the model's characters, is written as a hyphen. *)
From S2P Require Import Prelude Dict PyVal Effects PyStr PyBytes Json JsonLoad Github.

(** ** The records *)
Inductive FabricStatus :=
  | FS_CONNECTED | FS_UNREACHABLE | FS_AUTH_ERROR | FS_NOT_CONFIGURED | FS_IDENTITY_UNVERIFIED
  | FS_TRUST_UNVERIFIED | FS_TENANT_UNBOUND | FS_DEGRADED.
Record FabricNode := mkNode {
  fn_node_id : pyval; fn_org : pyval; fn_repo : pyval; fn_purpose : pyval;
  fn_created_at : pyval; fn_status : FabricStatus }.
Definition node_from_dict (v : pyval) : result FabricNode :=
  let? node_id := py_item "node_id" v in
  let? org := py_item "org" v in
  let? repo := py_item "repo" v in
  let? purpose := py_get "purpose" (VStr "REPOSITORY_FABRIC") v in
  let? created_at := py_get "created_at" (VStr "") v in
  Ok (mkNode node_id org repo purpose created_at FS_CONNECTED).
Record FabricTenant := mkTenant {
  ft_tenant_id : pyval; ft_runtime_id : pyval; ft_project_ids : pyval; ft_enrolled_at : pyval;
  ft_public_key_fingerprint : pyval }.
Definition tenant_from_dict (v : pyval) : result FabricTenant :=
  let? tenant_id := py_item "tenant_id" v in
  let? runtime_id := py_item "runtime_id" v in
  let? project_ids := py_get "project_ids" (VList []) v in
  let? enrolled_at := py_get "enrolled_at" (VStr "") v in
  let? fingerprint := py_get "public_key_fingerprint" VNone v in
  Ok (mkTenant tenant_id runtime_id project_ids enrolled_at fingerprint).
Record FabricProject := mkProject {
  fp_project_id : pyval; fp_tenant_id : pyval; fp_repo : pyval; fp_branch : pyval }.
Definition project_from_dict (v : pyval) : result FabricProject :=
  let? project_id := py_item "project_id" v in
  let? tenant_id := py_item "tenant_id" v in
  let? repo := py_get "repo" (VStr "") v in
  let? branch := py_get "branch" (VStr "main") v in
  Ok (mkProject project_id tenant_id repo branch).
Record FabricTrustToken := mkTrust {
  tt_runtime_id : string; tt_node_id : pyval; tt_issued_at : string; tt_expires_at : string;
  tt_signature : string; tt_verified : bool }.
Record FabricHealthResult := mkHealth {
  fh_reachable : bool; fh_node_id : option string; fh_latency_ms : pyfloat; fh_error : string }.
Record FabricPolicy := mkPolicy {
  po_revision : pyval; po_require_admission : pyval; po_allow_local_models : pyval;
  po_allow_remote_models : pyval; po_max_workspace_size_mb : pyval }.
Definition policy_from_dict (v : pyval) : result FabricPolicy :=
  let? revision := py_get "revision" (VStr "UNKNOWN") v in
  let? admission := py_get "require_admission" (VBool true) v in
  let? local_models := py_get "allow_local_models" (VBool true) v in
  let? remote_models := py_get "allow_remote_models" (VBool true) v in
  let? size := py_get "max_workspace_size_mb" (VInt 1024) v in
  Ok (mkPolicy revision admission local_models remote_models size).
Record FabricContract := mkContract {
  fc_contract_id : pyval; fc_tenant_id : pyval; fc_granted_capabilities : pyval;
  fc_revoked_capabilities : pyval }.
Definition contract_from_dict (v : pyval) : result FabricContract :=
  let? contract_id := py_get "contract_id" (VStr "UNKNOWN") v in
  let? tenant_id := py_get "tenant_id" (VStr "UNKNOWN") v in
  let? granted := py_get "granted_capabilities" (VList []) v in
  let? revoked := py_get "revoked_capabilities" (VList []) v in
  Ok (mkContract contract_id tenant_id granted revoked).

Record FabricAdmissionResult := mkAdmission {
  ad_verdict : string; ad_reason : pyval; ad_raw : pyval }.
Definition is_admitted (a : FabricAdmissionResult) : bool := ad_verdict a =s "ALLOW".

(** [FabricError(code, message)] *)
Definition fabric_error (code message : string) : exn :=
  Exn FabricError ("[" +:+ code +:+ "] " +:+ message).

(** ** The adapter *)
(** The clock, the latency of the last request, and HMAC-SHA256 in
    hexadecimal: [hmac_sha256 key message]. *)
Class FabricEnv := {
  fabric_network :: Network;
  fabric_now : Net -> Z;
  fabric_isoformat : Z -> string;
  latency_ms : Net -> pyfloat;
  hmac_sha256 : string -> string -> string }.
Record GitHubFabricAdapter := mkAdapter {
  fa_gh : GitHubClient; fa_org : string; fa_repo : string }.

(** [GitHubFabricAdapter(gh, org, repo, config)] *)
Definition new_adapter (gh : GitHubClient) (org repo : option string)
    (config : option (option string * option string)) : result GitHubFabricAdapter :=
  if ostr_true org && ostr_true repo then Ok (mkAdapter gh (default "" org) (default "" repo))
  else match config with
       | Some (Some o, Some r) =>
           if str_true o && str_true r then Ok (mkAdapter gh o r)
           else Raise (fabric_error "FABRIC_CONFIG_MISSING"
                  "fabric_org and fabric_repo must be provided explicitly or via config.")
       | _ => Raise (fabric_error "FABRIC_CONFIG_MISSING"
                "fabric_org and fabric_repo must be provided explicitly or via config.")
       end.

Section Adapter.
Context {env : FabricEnv}.
Implicit Type a : GitHubFabricAdapter.

(** [json.loads(v) if isinstance(v, str) else v] *)
Definition loads_response (v : pyval) : result pyval :=
  match v with VStr s => json_loads s | _ => Ok v end.
Definition read_file (a : GitHubFabricAdapter) (path : string) : M Net pyval :=
  get_file (fa_gh a) (fa_org a) (fa_repo a) path None.
Definition repo_endpoint (a : GitHubFabricAdapter) : string :=
  "/repos/" +:+ fa_org a +:+ "/" +:+ fa_repo a.

Definition probe_reachability (a : GitHubFabricAdapter) : M Net (bool * pyfloat * string) :=
  let zero := f_of_Z 0 in
  try_with
    (get_repository (fa_gh a) (fa_org a) (fa_repo a) ;;
     ms ← gets latency_ms;
     mret (true, ms, "SUCCESS"))
    (fun e =>
       if bool_decide (exn_type e = GitHubNotFoundError) then mret (false, zero, "NOT_FOUND")
       else if bool_decide (exn_type e = Unmodelled) then rethrow e
       else if is_github_error (exn_type e) then
         let text := lower (exn_str e) in
         if contains "401" text || contains "403" text || contains "unauthorized" text
            || contains "forbidden" text
         then mret (false, zero, "AUTH_ERROR")
         else mret (false, zero, "NETWORK_ERROR: " +:+ exn_str e)
       else mret (false, zero, "UNKNOWN: " +:+ exn_str e)).
Definition probe_health (a : GitHubFabricAdapter) : M Net FabricHealthResult :=
  p ← probe_reachability a;
  let '(reachable, ms, error) := p in mret (mkHealth reachable None ms error).

(** Reading and decoding a file, each failure a [FabricError]. *)
Definition read_or_fail {A} (body : M Net A) (missing malformed failed : string)
    (missing_text malformed_text failed_text : string) : M Net A :=
  try_with body (fun e =>
    match exn_type e with
    | GitHubNotFoundError => rethrow (fabric_error missing missing_text)
    | JSONDecodeError => rethrow (fabric_error malformed (malformed_text +:+ exn_str e))
    | Unmodelled => rethrow e
    | _ => rethrow (fabric_error failed (failed_text +:+ exn_str e))
    end).
Definition read_node_config (a : GitHubFabricAdapter) : M Net FabricNode :=
  read_or_fail
    (content ← read_file a "fabric/node.json";
     data ← of_result (loads_value content);
     of_result (node_from_dict data))
    "FABRIC_NODE_MISSING" "FABRIC_NODE_MALFORMED" "FABRIC_NODE_ERROR"
    "fabric/node.json not found in Fabric repo" "fabric/node.json is malformed JSON: "
    "Could not read fabric/node.json: ".
Definition read_json (a : GitHubFabricAdapter) (path : string) : M Net pyval :=
  content ← read_file a path; of_result (loads_value content).
Definition read_fabric_state (a : GitHubFabricAdapter) : M Net pyval :=
  read_or_fail (read_json a "fabric/state.json")
    "FABRIC_STATE_MISSING" "FABRIC_STATE_MALFORMED" "FABRIC_STATE_ERROR"
    "fabric/state.json not found in Fabric repo" "fabric/state.json is malformed: "
    "Could not read fabric/state.json: ".
Definition read_policy (a : GitHubFabricAdapter) : M Net pyval :=
  read_or_fail (read_json a "fabric/policy.json")
    "FABRIC_POLICY_MISSING" "FABRIC_POLICY_MALFORMED" "FABRIC_POLICY_ERROR"
    "fabric/policy.json not found in Fabric repo" "fabric/policy.json is malformed JSON: "
    "Could not read fabric/policy.json: ".
Definition read_contract (a : GitHubFabricAdapter) : M Net pyval :=
  read_or_fail (read_json a "fabric/contract.json")
    "FABRIC_CONTRACT_MISSING" "FABRIC_CONTRACT_MALFORMED" "FABRIC_CONTRACT_ERROR"
    "fabric/contract.json not found in Fabric repo" "fabric/contract.json is malformed JSON: "
    "Could not read fabric/contract.json: ".

(** [node_json_exists_at_remote_head]: any failure counts as absence. *)
Definition node_json_exists_at_remote_head (a : GitHubFabricAdapter) : M Net (bool * pyval) :=
  except_all
    (response ← request (fa_gh a) (repo_endpoint a +:+ "/contents/fabric/node.json") [];
     data ← of_result (loads_response response);
     mret (true, match data with VDict d => vget "sha" d | _ => VNone end))
    (fun _ => mret (false, VNone)).

Definition tenant_path (runtime_id : string) : string :=
  "fabric/tenants/" +:+ runtime_id +:+ ".json".
Definition names_runtime (runtime_id : string) (v : pyval) : bool :=
  match v with VStr s => s =s runtime_id | _ => false end.
Definition read_tenant_binding (a : GitHubFabricAdapter) (runtime_id : string)
    : M Net FabricTenant :=
  let path := tenant_path runtime_id in
  try_with
    (data ← read_json a path;
     tenant ← of_result (tenant_from_dict data);
     (if names_runtime runtime_id (ft_runtime_id tenant) then mret tenant
      else rethrow (fabric_error "TENANT_MISMATCH"
        ("Tenant record runtime_id '" +:+ py_str (ft_runtime_id tenant) +:+ "' != expected '"
         +:+ runtime_id +:+ "'"))))
    (fun e => match exn_type e with
              | GitHubNotFoundError => rethrow (fabric_error "TENANT_UNBOUND"
                  ("No tenant binding found for " +:+ runtime_id))
              | FabricError | Unmodelled => rethrow e
              | _ => rethrow (fabric_error "FABRIC_TENANT_ERROR"
                  ("Could not read " +:+ path +:+ ": " +:+ exn_str e))
              end).

(** [v.upper()] *)
Definition py_upper (v : pyval) : result string :=
  match v with
  | VStr s => Ok (upper s)
  | _ => raise AttributeError ("'" +:+ pytype_name v +:+ "' object has no attribute 'upper'")
  end.
(** [raw or {}] *)
Definition or_dict (v : pyval) : pyval := if truthy v then v else VDict [].
Definition admission_error (what : string) (e : exn) : FabricAdmissionResult :=
  mkAdmission "ERROR" (VStr (what +:+ exn_str e)) (VDict []).
(** The runtime's own admission record. *)
Definition admission_record (a : GitHubFabricAdapter) (runtime_id : string)
    : M Net FabricAdmissionResult :=
  data ← read_json a ("fabric/admissions/" +:+ runtime_id +:+ ".json");
  of_result (let? v := py_get "verdict" (VStr "UNKNOWN") data in
             let? verdict := py_upper v in
             let? reason := py_get "reason" (VStr "") data in
             Ok (mkAdmission verdict reason (or_dict data))).
(** The policy of the node, without a record. *)
Definition admission_default (a : GitHubFabricAdapter) : M Net FabricAdmissionResult :=
  try_with
    (data ← read_json a "fabric/node.json";
     of_result (let? v := py_get "default_admission_policy" (VStr "DENY") data in
                let? policy := py_upper v in
                Ok (mkAdmission policy
                      (VStr ("No explicit record - default policy from node.json: " +:+ policy))
                      (or_dict data))))
    (fun e => match exn_type e with
              | GitHubNotFoundError => mret (mkAdmission "DENY"
                  (VStr "fabric/node.json not found - cannot determine admission policy")
                  (VDict []))
              | Unmodelled => rethrow e
              | _ => mret (admission_error "Admission policy evaluation failed: " e)
              end).
Definition check_admission (a : GitHubFabricAdapter) (runtime_id : string)
    : M Net FabricAdmissionResult :=
  try_with (admission_record a runtime_id)
    (fun e => match exn_type e with
              | GitHubNotFoundError => admission_default a
              | Unmodelled => rethrow e
              | _ => mret (admission_error "Admission check failed: " e)
              end).

(** [s[:7]] *)
Definition short_sha (s : string) : string := String.substring 0 7 s.
Definition validate_provenance (a : GitHubFabricAdapter) (commit_sha : string)
    (expected_org expected_repo : option string) : M Net (bool * option string) :=
  let target_org := ostr_or expected_org (fa_org a) in
  let target_repo := ostr_or expected_repo (fa_repo a) in
  if (String.length commit_sha <? 7) then mret (false, Some "Invalid commit SHA")
  else if negb ((target_org =s fa_org a) && (target_repo =s fa_repo a)) then
    mret (false, Some ("Commit repository mismatch: " +:+ target_org +:+ "/" +:+ target_repo
                       +:+ " != " +:+ fa_org a +:+ "/" +:+ fa_repo a))
  else
    try_with
      (response ← request (fa_gh a) (repo_endpoint a +:+ "/commits/" +:+ commit_sha) [];
       data ← of_result (loads_response response);
       mret (match data with
             | VDict d => if truthy (vget "sha" d) then (true, None)
                          else (false, Some "Commit object malformed")
             | _ => (false, Some "Commit object malformed")
             end))
      (fun e => match exn_type e with
                | GitHubNotFoundError =>
                    mret (false, Some ("Commit " +:+ short_sha commit_sha +:+ " not found in "
                                       +:+ fa_org a +:+ "/" +:+ fa_repo a))
                | Unmodelled => rethrow e
                | _ => mret (false, Some ("Provenance check error: " +:+ exn_str e))
                end).

(** [get_provenance]: the record, or the commit of that name. *)
Definition get_provenance (a : GitHubFabricAdapter) (provenance_id : string) : M Net pyval :=
  let not_found := rethrow (fabric_error "PROVENANCE_NOT_FOUND"
                              ("Provenance " +:+ provenance_id +:+ " not found")) in
  let by_commit : M Net pyval :=
    res ← try_with (c ← get_commit (fa_gh a) (fa_org a) (fa_repo a) provenance_id; mret (Some c))
            (fun e => if is_github_error (exn_type e) then mret None else rethrow e);
    match res with
    | Some (VDict (kv :: d)) =>
        mret (VDict [("provenance_id", VStr provenance_id); ("org", VStr (fa_org a));
                     ("repo", VStr (fa_repo a)); ("commit_sha", vget "sha" (kv :: d));
                     ("verified", VBool true); ("raw", VDict (kv :: d))])
    | _ => not_found
    end in
  try_with (read_json a ("fabric/provenance/" +:+ provenance_id +:+ ".json"))
    (fun e => match exn_type e with GitHubNotFoundError => by_commit | _ => rethrow e end).

(** [issue_trust_token]: an HMAC under the runtime's own key, valid for an
    hour. *)
Definition issue_trust_token (a : GitHubFabricAdapter) (runtime_id private_key : string)
    : M Net FabricTrustToken :=
  gh_token ← of_result (rescue (get_token (fa_gh a)) (fun _ =>
    Raise (fabric_error "FABRIC_AUTH_ERROR" "No GitHub token available for trust generation")));
  node_id ← try_with (node ← read_node_config a; mret (fn_node_id node))
    (fun e => match exn_type e with
              | FabricError => mret (VStr "UNKNOWN-NODE")
              | _ => rethrow e
              end);
  now ← gets fabric_now;
  let issued_at := fabric_isoformat now in
  let expires_at := fabric_isoformat (now + 3600 * 1000000)%Z in
  let message := utf8_encode (runtime_id +:+ ":" +:+ py_str node_id +:+ ":" +:+ issued_at
                              +:+ ":" +:+ gh_token) in
  mret (mkTrust runtime_id node_id issued_at expires_at (hmac_sha256 private_key message) true).
End Adapter.

(** ** Correctness *)
Section AdapterTheorems.
Context {env : FabricEnv}.
Implicit Type a : GitHubFabricAdapter.

(** A read of the adapter's repository. *)
Definition repo_url (a : GitHubFabricAdapter) : string :=
  "https://api.github.com/repos/" +:+ fa_org a +:+ "/" +:+ fa_repo a.
Definition bound_read (a : GitHubFabricAdapter) (r : Request) : Prop :=
  api_read (fa_gh a) r /\
  (rq_url r = repo_url a \/ startswith (repo_url a +:+ "/") (rq_url r) = true).

Inductive fabric_op :=
  | FProbe | FHealth | FNode | FNodeHead | FTenant (runtime_id : string)
  | FAdmission (runtime_id : string) | FState | FPolicy | FContract
  | FProvenance (sha : string) (org repo : option string) | FGetProvenance (id : string)
  | FTrust (runtime_id key : string).
Definition run_fabric a (op : fabric_op) : M Net unit :=
  match op with
  | FProbe => probe_reachability a ;; mret tt
  | FHealth => probe_health a ;; mret tt
  | FNode => read_node_config a ;; mret tt
  | FNodeHead => node_json_exists_at_remote_head a ;; mret tt
  | FTenant id => read_tenant_binding a id ;; mret tt
  | FAdmission id => check_admission a id ;; mret tt
  | FState => read_fabric_state a ;; mret tt
  | FPolicy => read_policy a ;; mret tt
  | FContract => read_contract a ;; mret tt
  | FProvenance sha o r => validate_provenance a sha o r ;; mret tt
  | FGetProvenance id => get_provenance a id ;; mret tt
  | FTrust id key => issue_trust_token a id key ;; mret tt
  end.

Lemma repo_endpoint_app a rest :
  "/repos/" +:+ fa_org a +:+ "/" +:+ fa_repo a +:+ rest = repo_endpoint a +:+ rest.
Proof. unfold repo_endpoint. by rewrite !string_app_assoc. Qed.
Lemma sends_bound a rest :
  rest = "" \/ startswith "/" rest = true ->
  sends (bound_read a) (request (fa_gh a) (repo_endpoint a +:+ rest) []).
Proof.
  intros He. eapply sends_weaken; [|apply sends_request]. intros r (token & Ht & ->).
  assert (rq_url (mkRequest "GET" (request_url (repo_endpoint a +:+ rest) [])
            (request_headers token)) = repo_url a +:+ rest) as Hu.
  { simpl. unfold request_url, repo_url, repo_endpoint, GITHUB_API_BASE.
    by rewrite string_app_nil_r, !string_app_assoc. }
  split; [split; [done|split; [done|by exists token]]|]. rewrite Hu.
  destruct He as [->|He]; [left; by rewrite string_app_nil_r|].
  right. apply startswith_inv in He as [t ->]. rewrite <- string_app_assoc. apply startswith_app.
Qed.
Lemma sends_read_file a path : sends (bound_read a) (read_file a path).
Proof.
  unfold read_file, get_file, contents_endpoint, ref_query. simpl.
  rewrite repo_endpoint_app. apply sends_bind; [apply sends_bound; by right|].
  intros. apply sends_result.
Qed.
Lemma sends_gets {A} P (f : Net -> A) : sends P (gets f).
Proof. by apply sends_silent. Qed.
#[local] Hint Resolve sends_read_file sends_gets : sends.
Lemma sends_repository a : sends (bound_read a) (get_repository (fa_gh a) (fa_org a) (fa_repo a)).
Proof.
  unfold get_repository. rewrite <- (string_app_nil_r (fa_repo a)), repo_endpoint_app.
  apply sends_bound. by left.
Qed.
Lemma sends_get_commit a sha :
  sends (bound_read a) (get_commit (fa_gh a) (fa_org a) (fa_repo a) sha).
Proof. unfold get_commit. rewrite repo_endpoint_app. by apply sends_bound; right. Qed.
#[local] Hint Resolve sends_repository sends_get_commit : sends.
#[local] Hint Extern 1 (sends (bound_read _) (request _ (repo_endpoint _ +:+ _) _)) =>
  apply sends_bound; by right : sends.

Lemma run_fabric_reads a op : sends (bound_read a) (run_fabric a op).
Proof.
  destruct op; simpl;
    unfold probe_health, probe_reachability, read_node_config, node_json_exists_at_remote_head,
      read_tenant_binding, check_admission, admission_record, admission_default,
      read_fabric_state, read_policy, read_contract, validate_provenance, get_provenance,
      issue_trust_token, read_node_config, read_or_fail, except_all, read_json;
    repeat case_match; eauto 16 with sends.
Qed.

(** Whatever the adapter does, it only reads the repository it is bound to:
    every request is an authorized GET of that repository or of a path below
    it. *)
Theorem fabric_reads_bound a ops :
  Forall (bound_read a) (foldl (fun sent op => (run_fabric a op sent).1) [] ops).
Proof.
  induction ops as [|op ops IH] using rev_ind; [constructor|]. rewrite foldl_app. simpl.
  pose proof (run_fabric_reads a op (foldl (fun sent op => (run_fabric a op sent).1) [] ops)) as H.
  unfold wp in H. destruct (run_fabric a op _) as [s r]. simpl in *.
  destruct H as (l & -> & H). by apply Forall_app.
Qed.

(** Only a [FabricError] comes out. *)
Definition only_fabric_error {A} (m : M Net A) : Prop :=
  forall s, wp m s (fun _ r =>
    match r with Ok _ => True | Raise e => exn_type e = FabricError \/ exn_type e = Unmodelled end).
Lemma read_or_fail_only {A} (m : M Net A) c1 c2 c3 t1 t2 t3 :
  only_fabric_error (read_or_fail m c1 c2 c3 t1 t2 t3).
Proof.
  intros s. apply wp_try_with, wp_any. intros s' [x|e]; [done|].
  destruct (exn_type e) eqn:E; unfold wp, rethrow; simpl; auto.
Qed.

Lemma readers_only a runtime_id :
  only_fabric_error (read_node_config a) /\ only_fabric_error (read_fabric_state a) /\
  only_fabric_error (read_policy a) /\ only_fabric_error (read_contract a) /\
  only_fabric_error (read_tenant_binding a runtime_id).
Proof.
  split_and!; [apply read_or_fail_only..|].
  intros s. apply wp_try_with, wp_any. intros s' [x|e]; [done|].
  destruct (exn_type e) eqn:E; unfold wp, rethrow; simpl; auto.
Qed.

(** Reading the fabric's files never raises anything but FabricError,
    whatever the network answers and whatever the files hold: malformed JSON,
    missing fields and values of other types included. *)
Theorem readers_raise_fabric_error a runtime_id :
  only_fabric_error (read_node_config a) /\ only_fabric_error (read_fabric_state a) /\
  only_fabric_error (read_policy a) /\ only_fabric_error (read_contract a) /\
  only_fabric_error (read_tenant_binding a runtime_id).
Proof. apply readers_only. Qed.

(** The policy that a decoded file grants under a key: its text says ALLOW in
    any case of letters. *)
Definition says_allow (key : string) (v : pyval) : Prop :=
  exists d t, v = VDict d /\ dget key d = Some (VStr t) /\ upper t = "ALLOW".
Definition admission_path (runtime_id : string) : string :=
  "fabric/admissions/" +:+ runtime_id +:+ ".json".

Lemma decoded_verdict key dflt v (k : string -> result FabricAdmissionResult) :
  upper dflt <> "ALLOW" ->
  (forall d t, v = VDict d -> exists ad, k t = Ok ad /\ ad_verdict ad = t) ->
  match (let? x := py_get key (VStr dflt) v in let? t := py_upper x in k t) with
  | Ok ad => is_admitted ad = true <-> says_allow key v
  | Raise e => exn_type e = AttributeError /\ ~ says_allow key v
  end.
Proof.
  intros Hd Hk. destruct v as [| | | | | |d]; try (split; [done|by intros (? & ? & ? & _)]).
  simpl. unfold vget_or.
  assert (forall t, match k t with
    | Ok ad => is_admitted ad = true <-> t = "ALLOW"
    | Raise e => exn_type e = AttributeError /\ ~ says_allow key (VDict d) end) as Hv.
  { intros t. destruct (Hk d t eq_refl) as (ad & -> & <-). apply String.eqb_eq. }
  destruct (dget key d) as [x|] eqn:E; simpl.
  - destruct x as [| | | |t| |];
      try (split; [done|intros (? & ? & [= <-] & ? & _); congruence]).
    simpl. specialize (Hv (upper t)). destruct (k (upper t)) as [ad|e]; [|done]. rewrite Hv.
    split; [intros H; by exists d, t|]. intros (d' & t' & [= <-] & ? & ?). by simplify_eq.
  - specialize (Hv (upper dflt)). destruct (k (upper dflt)) as [ad|e]; [|done]. rewrite Hv.
    split; [done|]. intros (d' & t' & [= <-] & ? & ?). by simplify_eq.
Qed.
Lemma admission_default_verdict a s :
  wp (admission_default a) s (fun _ r =>
    match r with
    | Raise e => exn_type e = Unmodelled
    | Ok ad => is_admitted ad = true <->
        match read_json a "fabric/node.json" s with
        | (_, Ok v) => says_allow "default_admission_policy" v
        | (_, Raise _) => False
        end
    end).
Proof.
  apply wp_try_with, wp_bind. unfold wp at 1.
  destruct (read_json a "fabric/node.json" s) as [s1 [v|e]].
  - apply wp_of_result.
    pose proof (decoded_verdict "default_admission_policy" "DENY" v
      (fun policy => Ok (mkAdmission policy
        (VStr ("No explicit record - default policy from node.json: " +:+ policy))
        (or_dict v)))) as H.
    destruct (let? x := _ in _) as [ad|e]; [by apply H; [|eauto]|].
    destruct H as [He Hn]; [done|eauto|]. rewrite He. unfold wp. simpl. by split.
  - destruct (exn_type e) eqn:E; unfold wp; simpl; done.
Qed.

Lemma admission_verdict a runtime_id s :
  wp (check_admission a runtime_id) s (fun _ r =>
    match r with
    | Raise e => exn_type e = Unmodelled
    | Ok ad => is_admitted ad = true <->
        match read_json a (admission_path runtime_id) s with
        | (_, Ok v) => says_allow "verdict" v
        | (s1, Raise e) => exn_type e = GitHubNotFoundError /\
            match read_json a "fabric/node.json" s1 with
            | (_, Ok v) => says_allow "default_admission_policy" v
            | (_, Raise _) => False
            end
        end
    end).
Proof.
  apply wp_try_with. unfold admission_record, admission_path. apply wp_bind. unfold wp at 1.
  destruct (read_json a _ s) as [s1 [v|e]].
  - apply wp_of_result.
    pose proof (decoded_verdict "verdict" "UNKNOWN" v
      (fun verdict => let? reason := py_get "reason" (VStr "") v in
                      Ok (mkAdmission verdict reason (or_dict v)))) as H.
    destruct (let? x := _ in _) as [ad|e].
    + apply H; [done|]. intros d t ->. simpl. eauto.
    + destruct H as [He Hn]; [done|intros d t ->; simpl; eauto|]. rewrite He. unfold wp. simpl.
      by split.
  - destruct (exn_type e) eqn:E; try (unfold wp; simpl; split; [done|by intros [[=] _]]); [|done].
    eapply wp_mono; [apply admission_default_verdict|]. intros s2 [ad|e2]; [|done].
    intros ->. split; [done|]. by intros [_ ?].
Qed.

(** Admission fails closed: the check never raises, and it admits a runtime
    exactly when the runtime's own record says ALLOW, or when GitHub reports
    that record absent and the node's default policy says ALLOW; any other
    failure is no admission. *)
Theorem admission_fail_closed a runtime_id s :
  wp (check_admission a runtime_id) s (fun _ r =>
    match r with
    | Raise e => exn_type e = Unmodelled
    | Ok ad => is_admitted ad = true <->
        match read_json a (admission_path runtime_id) s with
        | (_, Ok v) => says_allow "verdict" v
        | (s1, Raise e) => exn_type e = GitHubNotFoundError /\
            match read_json a "fabric/node.json" s1 with
            | (_, Ok v) => says_allow "default_admission_policy" v
            | (_, Raise _) => False
            end
        end
    end).
Proof. apply admission_verdict. Qed.

(** The trust token is the runtime's own HMAC: it is issued, and marked
    verified, whatever the fabric answers. *)
Lemma trust_token_unconditional a runtime_id key token s :
  get_token (fa_gh a) = Ok token ->
  wp (issue_trust_token a runtime_id key) s (fun _ r =>
    match r with
    | Ok t => tt_verified t = true /\ tt_runtime_id t = runtime_id
    | Raise e => exn_type e = Unmodelled
    end).
Proof.
  intros Ht. unfold issue_trust_token. rewrite Ht. apply wp_bind, wp_of_result. simpl.
  apply wp_bind, wp_try_with, wp_bind.
  eapply wp_mono; [apply (read_or_fail_only _ "FABRIC_NODE_MISSING" "FABRIC_NODE_MALFORMED"
    "FABRIC_NODE_ERROR" "fabric/node.json not found in Fabric repo"
    "fabric/node.json is malformed JSON: " "Could not read fabric/node.json: ")|].
  intros s1 [node|e] H; [by apply wp_ret, wp_bind, wp_gets, wp_ret|].
  destruct H as [H|H]; rewrite H; [by apply wp_ret, wp_bind, wp_gets, wp_ret|]. exact H.
Qed.
End AdapterTheorems.
