(* ===== verification/Deterministic.v ===== *)
(** * The deterministic executor

    [runtime/execution/deterministic_executor.py]: the handlers of the local
    capabilities, the status an execution ends in for each outcome of its
    handler, the denied paths, the bound on the result and the evidence written
    to the workspace. *)
From S2P Require Import Prelude Dict PyVal Effects PyPath PyStr Json ExecModels Host Workspace.

Record ExSt := mkExSt { ex_ctx : TaskExecutionContext; ex_host : Host }.
#[export] Instance eta_ExSt : Eta ExSt := fun r => mkExSt (ex_ctx r) (ex_host r).

(** A finished [git] process: its output and return code. *)
Record CompletedProcess := mkProc { stdout : string; returncode : Z }.

Definition forbidden_paths : list string :=
  ["/var/lib/anny-runtime/secrets"; "/home/anny/.ssh"; "/root"].

Definition opt_str (o : option string) : pyval :=
  match o with Some s => VStr s | None => VNone end.
Definition opt_int (o : option Z) : pyval :=
  match o with Some z => VInt z | None => VNone end.

(** [a > m] where [m] is a limit read from a dict of [Any]. *)
Definition exceeds (a : Z) (m : pyval) : result bool :=
  match m with
  | VInt z => Ok (z <? a)%Z
  | VBool b => Ok ((if b then 1 else 0) <? a)%Z
  | VFloat f => Ok (flt f (f_of_Z a))
  | _ => raise TypeError ("'>' not supported between instances of 'int' and '"
                            +:+ pytype_name m +:+ "'")
  end.

(** What the executor uses of the machine it runs on: the clock, the working
    directory, the representation of floats and instants as text, SHA-256, the
    chunks of a file, and the [git] program.  [uuid_hex n] is the n-th random
    identifier drawn ([uuid4().hex]). *)
Class Machine := {
  clock : nat -> Z;
  uuid_hex : nat -> string;
  cwd : string;
  machine_floats :: FloatOps;
  isoformat : Z -> string;
  sha256 : string -> string;
  git_run : fs -> string -> list string -> result CompletedProcess;
  ephemeral_base : string }.

Section Deterministic.
Context {machine : Machine}.

Definition ctx_get {A} (f : TaskExecutionContext -> A) : M ExSt A := gets (fun s => f (ex_ctx s)).
Definition ctx_set (f : TaskExecutionContext -> TaskExecutionContext) : M ExSt unit :=
  modify (fun s => s <| ex_ctx := f (ex_ctx s) |>).
Definition on_host {A} (m : M Host A) : M ExSt A :=
  zoom ex_host (fun h s => s <| ex_host := h |>) m.
Definition draw_uuid : M Host string := fun h =>
  (h <| h_tick := S (h_tick h) |>, Ok (uuid_hex (h_tick h))).
Definition get_fs : M ExSt fs := gets (fun s => h_fs (ex_host s)).

Definition deadline : M ExSt unit :=
  t ← on_host (now clock);
  d ← ctx_get c_deadline;
  when (d <? t)%Z (throw TimeoutError "Deadline exceeded").

(** [_enforce_path] *)
Definition denied (path forbidden : string) : bool :=
  (path =s abspath cwd forbidden) || below (abspath cwd forbidden) path.
Definition enforce_path (path : string) : M ExSt unit :=
  for_each forbidden_paths (fun f =>
    when (denied path f)
      (throw ExecutorSecurityError ("Access to " +:+ f +:+ " is explicitly denied"))).

Definition result_size (result : dict string pyval) : Z :=
  json_size true (VDict result).

Definition limit_output (result : dict string pyval) : M ExSt unit :=
  limits ← ctx_get c_resource_limits;
  over ← of_result (exceeds (result_size result)
                      (vget_or "max_output_size" (VInt (1024 * 1024)) limits));
  when over (throw ExecutorLimitsExceeded "Output size exceeded maximum limit") ;;
  ctx_set (fun c => c <| c_result := VDict result |>).

(** [isinstance(v, str) and v], or the [ValueError] of each handler *)
Definition require_str (v : pyval) (msg : string) : M ExSt string :=
  match v with
  | VStr s => if str_true s then mret s else throw ValueError msg
  | _ => throw ValueError msg
  end.

Definition execute_filesystem_inspect (task : Task) : M ExSt unit :=
  deadline ;;
  target_path ← require_str (vget "path" (t_input task)) "Missing 'path' in input";
  let abs_target := abspath cwd target_path in
  enforce_path abs_target ;;
  f ← get_fs;
  limit_output
    match f !! abs_target with
    | None => [("error", VStr "Path does not exist"); ("path", VStr target_path)]
    | Some n =>
        [("path", VStr target_path); ("is_dir", VBool (isdir f abs_target));
         ("is_file", VBool (isfile f abs_target)); ("size_bytes", VInt (st_size n));
         ("mode", VStr (oct (st_mode n))); ("mtime", VFloat (st_mtime n))]
    end ;;
  deadline.

Definition list_entry (f : fs) (dir name : string) : pyval :=
  let full := path_join dir name in
  VDict [("name", VStr name); ("is_dir", VBool (isdir f full));
         ("is_file", VBool (isfile f full));
         ("size_bytes",
           match f !! full with
           | Some (File c _ _) => VInt (Z.of_nat (String.length c))
           | _ => VNone
           end)].

Definition execute_filesystem_list (task : Task) : M ExSt unit :=
  deadline ;;
  target_path ← require_str (vget "path" (t_input task)) "Missing 'path' in input";
  let abs_target := abspath cwd target_path in
  enforce_path abs_target ;;
  f ← get_fs;
  limit_output
    (if negb (isdir f abs_target) then
       [("error", VStr "Directory does not exist"); ("path", VStr target_path);
        ("entries", VList [])]
     else
       [("path", VStr target_path);
        ("entries", VList (map (list_entry f abs_target) (listdir_sorted f abs_target)))]).

(** Chunks of at most a mebibyte, the deadline checked after each. *)
Definition chunks (content : string) : nat :=
  N.to_nat ((N.of_nat (String.length content) + 1048575) / 1048576).
Fixpoint hash_loop (n : nat) : M ExSt unit :=
  match n with O => mret tt | S n' => deadline ;; hash_loop n' end.

Definition execute_filesystem_hash (task : Task) : M ExSt unit :=
  deadline ;;
  target_path ← require_str (vget "path" (t_input task)) "Missing 'path' in input";
  let abs_target := abspath cwd target_path in
  enforce_path abs_target ;;
  f ← get_fs;
  match f !! abs_target with
  | None =>
      limit_output [("error", VStr "Path does not exist"); ("path", VStr target_path)]
  | Some (Dir _ _ _) =>
      limit_output [("error", VStr "Cannot hash a directory"); ("path", VStr target_path)]
  | Some (File content _ _) =>
      hash_loop (chunks content) ;;
      limit_output [("path", VStr target_path); ("algorithm", VStr "sha256");
                    ("sha256", VStr (sha256 content))]
  end.

Definition git (repo : string) (args : list string) : M ExSt CompletedProcess :=
  f ← get_fs;
  of_result (git_run f repo args).

Definition repository_path (task : Task) : M ExSt string :=
  repo_path ← require_str (vget "path" (t_input task)) "Missing repository 'path' in input";
  let abs_target := abspath cwd repo_path in
  enforce_path abs_target ;;
  f ← get_fs;
  when (negb (exists_ f (path_join abs_target ".git")))
    (throw ValueError "Path is not a Git repository") ;;
  mret abs_target.

Definition execute_repository_inspect (task : Task) : M ExSt unit :=
  deadline ;;
  repo_path ← require_str (vget "path" (t_input task)) "Missing 'path' in input";
  let abs_target := abspath cwd repo_path in
  enforce_path abs_target ;;
  f ← get_fs;
  if negb (exists_ f abs_target) then
    limit_output [("error", VStr "Repository path does not exist"); ("path", VStr repo_path)]
  else
    let is_git := exists_ f (path_join abs_target ".git") in
    head ← (if is_git
            then p ← git abs_target ["rev-parse"; "HEAD"]; mret (VStr (strip (stdout p)))
            else mret VNone);
    limit_output [("path", VStr repo_path); ("is_git_repository", VBool is_git);
                  ("head", head)].

Definition execute_repository_search (task : Task) : M ExSt unit :=
  deadline ;;
  repo_path ← repository_path task;
  pattern ← require_str (vget "pattern" (t_input task)) "Missing search 'pattern'";
  result ← git repo_path ["grep"; "-n"; "-I"; "--"; pattern];
  let lines := sort_strings (filter (fun l => l <> "") (splitlines (stdout result))) in
  limit_output [("repository", VStr repo_path); ("pattern", VStr pattern);
                ("matches", VList (map VStr lines));
                ("exit_code", VInt (returncode result))].

Definition execute_repository_read (task : Task) : M ExSt unit :=
  deadline ;;
  repo_path ← repository_path task;
  head ← git repo_path ["rev-parse"; "HEAD"];
  branch ← git repo_path ["branch"; "--show-current"];
  status ← git repo_path ["status"; "--porcelain=v1"];
  let entries := splitlines (stdout status) in
  limit_output [("repository", VStr repo_path); ("head", VStr (strip (stdout head)));
                ("branch", VStr (strip (stdout branch)));
                ("dirty", VBool (match entries with [] => false | _ => true end));
                ("status_entries", VList (map VStr (sort_strings entries)))].

Definition execute_repository_diff (task : Task) : M ExSt unit :=
  deadline ;;
  repo_path ← repository_path task;
  base ← require_str (vget "base" (t_input task)) "Missing diff 'base'";
  let head := vget "head" (t_input task) in
  let args := ["diff"; "--no-ext-diff"; "--unified=3"; base] in
  args' ← (if negb (truthy head) then mret args
           else match head with
                | VStr h => mret (args ++ [h])
                | _ => throw TypeError ("expected str, bytes or os.PathLike object, not "
                                          +:+ pytype_name head)
                end);
  result ← git repo_path args';
  limit_output [("repository", VStr repo_path); ("base", VStr base);
                ("head", if truthy head then head else VStr "");
                ("exit_code", VInt (returncode result)); ("diff", VStr (stdout result))].

Definition execute_artifact_metadata (task : Task) : M ExSt unit :=
  deadline ;;
  target_path ← require_str (vget "path" (t_input task)) "Missing artifact 'path' in input";
  let abs_target := abspath cwd target_path in
  enforce_path abs_target ;;
  f ← get_fs;
  limit_output
    match f !! abs_target with
    | None => [("error", VStr "Artifact does not exist"); ("path", VStr target_path)]
    | Some n =>
        [("path", VStr target_path); ("is_file", VBool (isfile f abs_target));
         ("is_dir", VBool (isdir f abs_target)); ("size_bytes", VInt (st_size n));
         ("mtime", VFloat (st_mtime n));
         ("sha256", match n with File c _ _ => VStr (sha256 c) | _ => VNone end)]
    end.

Definition hash_dict (v : pyval) : string := sha256 (dumps true v).
Definition runtime_version : string := "1.1.0".
Definition tool_version : string := "1.1.0".

Definition observability_of (task : Task) (c : TaskExecutionContext) (ws_size res_size : Z)
    : pyval :=
  VDict [("execution_started", opt_str (isoformat <$> c_started_at c));
         ("execution_completed", opt_str (isoformat <$> c_completed_at c));
         ("duration_ms", opt_int (c_duration_ms c));
         ("exit_code", VInt (if decide (c_status c = ES_SUCCEEDED) then 0 else 1));
         ("workspace_size", VInt ws_size);
         ("result_size", VInt res_size);
         ("capability_id", VStr (t_capability_id task));
         ("events", VList [VStr "execution_started";
                           VStr ("capability_invoked: " +:+ t_capability_id task);
                           VStr "execution_completed"])].

Definition result_data_of (c : TaskExecutionContext) : pyval :=
  VDict [("status", VStr (execution_status_str (c_status c)));
         ("failure_reason", opt_str (failure_reason_str <$> c_failure_reason c));
         ("error_message", opt_str (c_error_message c));
         ("data", c_result c)].

Definition reproducibility_of (task : Task) (c : TaskExecutionContext)
    (input_hash output_hash evidence_hash : string) : pyval :=
  VDict [("task_id", VStr (t_task_id task)); ("execution_id", VStr (c_execution_id c));
         ("runtime_version", VStr runtime_version); ("tool_version", VStr tool_version);
         ("capability_id", VStr (t_capability_id task)); ("input_hash", VStr input_hash);
         ("output_hash", VStr output_hash); ("evidence_hash", VStr evidence_hash)].

Definition finalize_workspace (task : Task) : M ExSt unit :=
  ws ← ctx_get c_workspace_path;
  f ← get_fs;
  if negb (exists_ f ws) then mret tt
  else
    for_each ["logs"; "evidence"; "result"; "metadata"] (fun d =>
      on_host (os_makedirs clock 493 true (path_join ws d))) ;;
    let result_file := path_join (path_join ws "result") "result.json" in
    c ← ctx_get id;
    let result_data := result_data_of c in
    let text := dumps_indent true 0 result_data in
    on_host (os_write clock result_file text) ;;
    ws_size ← on_host (get_workspace_size ws);
    let observability := observability_of task c ws_size (Z.of_nat (String.length text)) in
    on_host (os_write clock (path_join (path_join ws "logs") "observability.json")
               (dumps_indent true 0 observability)) ;;
    let input_hash := hash_dict (VDict (t_input task)) in
    let output_hash := hash_dict result_data in
    let evidence_hash := hash_dict observability in
    let evidence_ref := path_join (path_join ws "evidence") "evidence.json" in
    ctx_set (fun c => c <| c_input_hash := Some input_hash |>
                        <| c_result_hash := Some output_hash |>
                        <| c_evidence_ref := Some evidence_ref |>) ;;
    let reproducibility := reproducibility_of task c input_hash output_hash evidence_hash in
    on_host (os_write clock (path_join (path_join ws "metadata") "reproducibility.json")
               (dumps_indent true 0 reproducibility)) ;;
    on_host (os_write clock evidence_ref
               (dumps_indent true 0
                  (VDict [("observability", observability);
                          ("reproducibility", reproducibility)]))) ;;
    over ← of_result (exceeds ws_size (vget_or "max_workspace_size"
                                         (VInt (10 * 1024 * 1024)) (c_resource_limits c)));
    when over (ctx_set (fun c => c <| c_status := ES_LIMIT_EXCEEDED |>
                                   <| c_failure_reason := Some FR_LIMIT_EXCEEDED |>
                                   <| c_error_message :=
                                        Some "Workspace size limit exceeded" |>)).

(** The [supported] table of [execute]. *)
Definition supported : dict string (Task -> M ExSt unit) :=
  [("filesystem.inspect", execute_filesystem_inspect);
   ("filesystem.list", execute_filesystem_list);
   ("filesystem.hash", execute_filesystem_hash);
   ("repository.inspect", execute_repository_inspect);
   ("repository.search", execute_repository_search);
   ("repository.read", execute_repository_read);
   ("repository.diff", execute_repository_diff);
   ("artifact.metadata", execute_artifact_metadata)].

Definition fail_with (st : ExecutionStatus) (r : FailureReason) (msg : string)
  : TaskExecutionContext -> TaskExecutionContext := fun c =>
  c <| c_status := st |> <| c_failure_reason := Some r |> <| c_error_message := Some msg |>.

(** The [except] clauses of [execute]. *)
Definition record_exception (e : exn) : TaskExecutionContext -> TaskExecutionContext :=
  match exn_type e with
  | ExecutorLimitsExceeded => fail_with ES_LIMIT_EXCEEDED FR_LIMIT_EXCEEDED (exn_str e)
  | ExecutorSecurityError => fail_with ES_FAILED AUTHORIZATION_DENIED (exn_str e)
  | TimeoutError => fail_with ES_TIMED_OUT FR_TIMEOUT (exn_str e)
  | _ => fail_with ES_FAILED EXECUTION_ERROR (exn_str e)
  end.

(** The body of the [try] with its [except] clauses. *)
Definition run_handler (h : Task -> M ExSt unit) (task : Task) : M ExSt unit :=
  try_with
    (h task ;;
     st ← ctx_get c_status;
     when (bool_decide (st = ES_RUNNING)) (ctx_set (fun c => c <| c_status := ES_SUCCEEDED |>)))
    (fun e => ctx_set (record_exception e)).

Definition execute (task : Task) : M ExSt unit :=
  st ← ctx_get c_status;
  if negb (bool_decide (st = ES_QUEUED)) then
    ctx_set (fun c => c <| c_failure_reason := Some INVALID_TASK |>
                        <| c_status := ES_FAILED |>
                        <| c_error_message := Some "Execution context is not QUEUED" |>)
  else
    t ← on_host (now clock);
    ctx_set (fun c => c <| c_status := ES_RUNNING |> <| c_started_at := Some t |>) ;;
    match dget (t_capability_id task) supported with
    | None =>
        ctx_set (fail_with ES_FAILED INVALID_TASK
                   ("Unsupported deterministic capability: " +:+ t_capability_id task))
    | Some handler =>
        try_finally (run_handler handler task)
          (t' ← on_host (now clock);
           ctx_set (fun c =>
             c <| c_completed_at := Some t' |>
               <| c_duration_ms := Some (duration_ms (default 0%Z (c_started_at c)) t') |>) ;;
           finalize_workspace task)
    end.

(** ** What a handler may change

The file system is only read, and of the context only the result changes,
to a dictionary whose encoding is within the output limit. *)
Definition output_limit (c : TaskExecutionContext) : pyval :=
  vget_or "max_output_size" (VInt (1024 * 1024)) (c_resource_limits c).
Definition within_limit (c : TaskExecutionContext) (v : pyval) : Prop :=
  exists d, v = VDict d /\ exceeds (result_size d) (output_limit c) = Ok false.
Definition handler_rel (s s' : ExSt) : Prop :=
  h_fs (ex_host s') = h_fs (ex_host s) /\
  exists v, ex_ctx s' = (ex_ctx s) <| c_result := v |> /\
    (v = c_result (ex_ctx s) \/ within_limit (ex_ctx s) v).

#[export] Instance handler_rel_preorder : PreOrder handler_rel.
Proof.
  split.
  - intros s. split; [done|]. exists (c_result (ex_ctx s)). split; [|by left].
    by destruct s as [[] ?].
  - intros s1 s2 s3 [Hf1 (v1 & E1 & H1)] [Hf2 (v2 & E2 & H2)].
    split; [congruence|]. exists v2. split; [by rewrite E2, E1|].
    rewrite E1 in H2. simpl in H2. destruct H2 as [->|H2]; [done|by right].
Qed.

Definition safe {A} (m : M ExSt A) : Prop := forall s, wp m s (fun s' _ => handler_rel s s').

Lemma safe_bind {A B} (m : M ExSt A) (f : A -> M ExSt B) :
  safe m -> (forall a, safe (f a)) -> safe (m ≫= f).
Proof.
  intros Hm Hf s. apply wp_bind. eapply wp_mono; [apply Hm|].
  intros s1 [a|e] H1; [|done]. eapply wp_mono; [apply Hf|].
  intros s2 r H2. by etrans.
Qed.
Lemma safe_ret {A} (a : A) : safe (mret a).
Proof. intros s. by apply wp_ret. Qed.
Lemma safe_throw {A} c msg : safe (throw (A:=A) c msg).
Proof. intros s. by apply wp_throw. Qed.
Lemma safe_gets {A} (f : ExSt -> A) : safe (gets f).
Proof. intros s. by apply wp_gets. Qed.
Lemma safe_of_result {A} (r : result A) : safe (of_result r).
Proof. intros s. by apply wp_of_result. Qed.
Lemma safe_when b m : safe m -> safe (when b m).
Proof. intros Hm s. apply wp_when; intros; [apply Hm|done]. Qed.
Lemma safe_now : safe (on_host (now clock)).
Proof.
  intros s. apply wp_zoom. unfold now, wp. split; [done|].
  exists (c_result (ex_ctx s)). split; [|by left]. by destruct s as [[] ?].
Qed.
Lemma safe_for_each {A} (l : list A) f : (forall a, safe (f a)) -> safe (for_each l f).
Proof.
  intros Hf. induction l as [|a l IH]; [apply safe_ret|].
  apply safe_bind; [apply Hf|intros _; apply IH].
Qed.

Create HintDb safe.
Hint Resolve safe_bind safe_ret safe_throw safe_gets safe_of_result safe_when safe_now
  safe_for_each : safe.
Hint Extern 2 (safe (match ?x with _ => _ end)) => destruct x : safe.
Hint Extern 1 (forall _, safe _) => intros : safe.

Lemma safe_deadline : safe deadline.
Proof. unfold deadline, ctx_get. auto with safe. Qed.
Lemma safe_enforce_path p : safe (enforce_path p).
Proof. unfold enforce_path. auto with safe. Qed.
Lemma safe_require_str v msg : safe (require_str v msg).
Proof. unfold require_str. auto with safe. Qed.
Lemma safe_git repo args : safe (git repo args).
Proof. unfold git, get_fs. auto with safe. Qed.
Lemma safe_get_fs : safe get_fs.
Proof. apply safe_gets. Qed.
Lemma safe_limit_output d : safe (limit_output d).
Proof.
  intros s. unfold limit_output, ctx_get. apply wp_bind, wp_gets, wp_bind, wp_of_result.
  destruct (exceeds _ _) as [over|e] eqn:E; [|done].
  apply wp_bind, wp_when; intros ->; [by apply wp_throw|]. apply wp_modify.
  split; [done|]. eexists. split; [done|]. right. by eexists.
Qed.
Hint Resolve safe_deadline safe_enforce_path safe_require_str safe_git safe_get_fs
  safe_limit_output : safe.
Lemma safe_repository_path task : safe (repository_path task).
Proof. unfold repository_path. auto 10 with safe. Qed.
Lemma safe_hash_loop n : safe (hash_loop n).
Proof. induction n; simpl; auto with safe. Qed.
Hint Resolve safe_repository_path safe_hash_loop : safe.

Ltac solve_safe f :=
  unfold f; cbv zeta;
  repeat lazymatch goal with
    | |- safe (mbind _ _) => apply safe_bind; [|intros]
    | |- safe (match ?x with _ => _ end) => destruct x
    end;
  auto with safe.

Lemma supported_safe : Forall (fun kv => forall task, safe (kv.2 task)) supported.
Proof.
  repeat apply Forall_cons_2; try apply Forall_nil_2; intros task; simpl.
  - solve_safe execute_filesystem_inspect.
  - solve_safe execute_filesystem_list.
  - solve_safe execute_filesystem_hash.
  - solve_safe execute_repository_inspect.
  - solve_safe execute_repository_search.
  - solve_safe execute_repository_read.
  - solve_safe execute_repository_diff.
  - solve_safe execute_artifact_metadata.
Qed.

Lemma safe_supported cap h task : dget cap supported = Some h -> safe (h task).
Proof.
  intros Hh%dget_elem. pose proof supported_safe as Hs.
  rewrite Forall_forall in Hs. by apply (Hs (cap, h)).
Qed.

(** ** Outcomes *)
Definition outcome_ok (c : TaskExecutionContext) (old : option FailureReason) : Prop :=
  (c_status c = ES_SUCCEEDED /\ c_failure_reason c = old) \/
  (c_status c = ES_FAILED /\
     (c_failure_reason c = Some EXECUTION_ERROR \/
      c_failure_reason c = Some AUTHORIZATION_DENIED \/
      c_failure_reason c = Some INVALID_TASK)) \/
  (c_status c = ES_TIMED_OUT /\ c_failure_reason c = Some FR_TIMEOUT) \/
  (c_status c = ES_LIMIT_EXCEEDED /\ c_failure_reason c = Some FR_LIMIT_EXCEEDED).

Lemma record_exception_outcome e c old : outcome_ok (record_exception e c) old.
Proof. unfold outcome_ok, record_exception. destruct (exn_type e); simpl; auto 10. Qed.
Lemma record_exception_result e c : c_result (record_exception e c) = c_result c.
Proof. unfold record_exception. by destruct (exn_type e). Qed.
Lemma record_exception_ws e c :
  c_workspace_path (record_exception e c) = c_workspace_path c.
Proof. unfold record_exception. by destruct (exn_type e). Qed.

(** Context fields the executor never writes. *)
Definition same_result (c c' : TaskExecutionContext) : Prop :=
  c_result c' = c_result c /\ c_workspace_path c' = c_workspace_path c.

Lemma run_handler_spec (h : Task -> M ExSt unit) task s (P : TaskExecutionContext -> Prop) :
  wp (h task) s (fun s1 r => handler_rel s s1 /\
    (r = Ok tt -> P ((ex_ctx s1) <| c_status := ES_SUCCEEDED |>)) /\
    (forall e, r = Raise e -> P (record_exception e (ex_ctx s1)))) ->
  c_status (ex_ctx s) = ES_RUNNING ->
  wp (run_handler h task) s (fun s' r => r = Ok tt /\
    h_fs (ex_host s') = h_fs (ex_host s) /\ P (ex_ctx s')).
Proof.
  intros Hh Hst. unfold run_handler. apply wp_try_with, wp_bind.
  eapply wp_mono; [exact Hh|]. intros s1 [[]|e] ([Hfs (v & Ev & _)] & Hok & Hex).
  - apply wp_bind, wp_gets, wp_when; rewrite Ev; simpl; rewrite Hst; [|done].
    intros _. apply wp_modify. split_and!; [done|done|]. simpl. auto.
  - apply wp_modify. split_and!; [done|done|]. simpl. auto.
Qed.

(** What the evidence writing may change. *)
Definition finalize_rel (s s' : ExSt) : Prop :=
  same_result (ex_ctx s) (ex_ctx s') /\
  ((c_status (ex_ctx s') = c_status (ex_ctx s) /\
    c_failure_reason (ex_ctx s') = c_failure_reason (ex_ctx s)) \/
   (c_status (ex_ctx s') = ES_LIMIT_EXCEEDED /\
    c_failure_reason (ex_ctx s') = Some FR_LIMIT_EXCEEDED)) /\
  (is_dir_path (c_workspace_path (ex_ctx s)) ->
   forall q n, below (c_workspace_path (ex_ctx s)) q = false ->
     h_fs (ex_host s) !! q = Some n -> h_fs (ex_host s') !! q = Some n).

#[export] Instance finalize_rel_preorder : PreOrder finalize_rel.
Proof.
  split.
  - intros s. split_and!; [done|by left|done].
  - intros s1 s2 s3 ((R1 & W1) & S1 & F1) ((R2 & W2) & S2 & F2).
    split_and!; [split; congruence| |].
    + destruct S2 as [[-> ->]|?]; [done|by right].
    + intros Hd q n Hq Hn. apply F2; [by rewrite W1|by rewrite W1|]. by apply F1.
Qed.

Lemma makedirs_finalize mode b p s :
  wp (on_host (os_makedirs clock mode b p)) s (fun s' _ => finalize_rel s s').
Proof.
  apply wp_zoom, os_makedirs_wp.
  - intros f' Hf. split_and!; [done|by left|]. intros _ q n _ Hn.
    by eapply makedirs_mono.
  - intros e _. split_and!; [done|by left|done].
Qed.

Lemma write_finalize d file p text s :
  proper d -> proper file -> p = path_join (path_join (c_workspace_path (ex_ctx s)) d) file ->
  wp (on_host (os_write clock p text)) s (fun s' _ => finalize_rel s s').
Proof.
  intros Hd Hf ->. set (ws := c_workspace_path (ex_ctx s)).
  apply wp_zoom. unfold wp, os_write, fs_op.
  destruct (write_text _ _ _ _) as [f'|e] eqn:Ew; (split_and!; [done|by left|]); [|done].
  intros Hws q n Hq Hn. simpl in *. unfold write_text in Ew.
  destruct (isdir _ _); [done|]. destruct (isdir _ _); [|done]. injection Ew as <-.
  destruct (path_join_proper ws d Hws Hd) as [E1 H1].
  destruct (path_join_proper _ file H1 Hf) as [E2 _].
  rewrite lookup_insert_ne; [done|]. intros <-.
  rewrite E2, E1, !string_app_assoc in Hq. unfold below in Hq.
  by rewrite <-(string_app_assoc ws "/"), startswith_app in Hq.
Qed.

Lemma ctx_hash_finalize a b c s :
  finalize_rel s (s <| ex_ctx := (ex_ctx s) <| c_input_hash := a |> <| c_result_hash := b |>
                                            <| c_evidence_ref := c |> |>).
Proof. split_and!; [done|by left|done]. Qed.

(** One step of [finalize_workspace]: it relates the states, and the rest
    runs in a related state with the same workspace path. *)
Lemma finalize_bind {B} (m : M ExSt unit) (k : unit -> M ExSt B) s0 s :
  finalize_rel s0 s ->
  wp m s (fun s' _ => finalize_rel s s') ->
  (forall s', finalize_rel s0 s' ->
     c_workspace_path (ex_ctx s') = c_workspace_path (ex_ctx s0) ->
     wp (k tt) s' (fun s'' _ => finalize_rel s0 s'')) ->
  wp (m ≫= k) s (fun s'' _ => finalize_rel s0 s'').
Proof.
  intros H0 Hm Hk. apply wp_bind. eapply wp_mono; [exact Hm|].
  intros s1 [[]|e] H1; [|by etrans]. assert (finalize_rel s0 s1) as H2 by by etrans.
  apply Hk; [done|]. apply H2.
Qed.

Lemma makedirs_all_finalize l ws s :
  wp (for_each l (fun d => on_host (os_makedirs clock 493 true (path_join ws d)))) s
    (fun s' _ => finalize_rel s s').
Proof.
  revert s. induction l as [|d l IH]; intros s; [by apply wp_ret|].
  apply finalize_bind; [done|apply makedirs_finalize|]. intros s2 H2 _.
  eapply wp_mono; [apply IH|]. intros s3 ? H3. by etrans.
Qed.

Lemma finalize_spec task s : wp (finalize_workspace task) s (fun s' _ => finalize_rel s s').
Proof.
  unfold finalize_workspace. apply wp_bind, wp_gets, wp_bind, wp_gets. cbv beta.
  destruct (exists_ _ _); cbn [negb]; [|by apply wp_ret].
  apply finalize_bind; [done| |].
  { apply makedirs_all_finalize. }
  intros s1 H1 W1. apply wp_bind, wp_gets. cbv beta.
  apply finalize_bind; [done| |].
  { apply (write_finalize "result" "result.json"); [done..|by rewrite W1]. }
  intros s2 H2 W2. apply wp_bind, wp_zoom, wp_gets. cbv beta.
  assert (s2 <| ex_host := ex_host s2 |> = s2) as -> by by destruct s2.
  apply finalize_bind; [done| |].
  { apply (write_finalize "logs" "observability.json"); [done..|by rewrite W2]. }
  intros s3 H3 W3. apply finalize_bind; [done|apply wp_modify, ctx_hash_finalize|].
  intros s4 H4 W4. apply finalize_bind; [done| |].
  { apply (write_finalize "metadata" "reproducibility.json"); [done..|by rewrite W4]. }
  intros s5 H5 W5. apply finalize_bind; [done| |].
  { apply (write_finalize "evidence" "evidence.json"); [done..|by rewrite W5]. }
  intros s6 H6 W6. apply wp_bind, wp_of_result.
  destruct (exceeds _ _) as [over|e]; [|done].
  apply wp_when; intros _; [|done]. apply wp_modify. etrans; [exact H6|].
  split_and!; [done|by right|done].
Qed.

(** What the evidence step preserves of a property of the context. *)
Definition stable (P : TaskExecutionContext -> Prop) : Prop :=
  forall c c', P c -> same_result c c' ->
    (c_status c' = c_status c /\ c_failure_reason c' = c_failure_reason c) \/
    (c_status c' = ES_LIMIT_EXCEEDED /\ c_failure_reason c' = Some FR_LIMIT_EXCEEDED) ->
    P c'.

Definition frame (ws : string) (s s' : ExSt) : Prop :=
  is_dir_path ws -> forall q n, below ws q = false ->
    h_fs (ex_host s) !! q = Some n -> h_fs (ex_host s') !! q = Some n.

(** The context with which the handler runs. *)
Definition started (t : Z) (c : TaskExecutionContext) : TaskExecutionContext :=
  c <| c_status := ES_RUNNING |> <| c_started_at := Some t |>.

Lemma execute_wp task h s (P : TaskExecutionContext -> Prop) :
  c_status (ex_ctx s) = ES_QUEUED -> dget (t_capability_id task) supported = Some h ->
  stable P ->
  (forall s0, ex_ctx s0 = started (clock (h_tick (ex_host s))) (ex_ctx s) ->
     wp (h task) s0 (fun s1 r => handler_rel s0 s1 ->
       (r = Ok tt -> P ((ex_ctx s1) <| c_status := ES_SUCCEEDED |>)) /\
       (forall e, r = Raise e -> P (record_exception e (ex_ctx s1))))) ->
  (forall c, P c -> c_workspace_path c = c_workspace_path (ex_ctx s)) ->
  wp (execute task) s (fun s' _ => P (ex_ctx s') /\
    frame (c_workspace_path (ex_ctx s)) s s').
Proof.
  intros Hq Hh HP Hpre Hws. unfold execute. apply wp_bind, wp_gets. cbv beta.
  rewrite Hq. cbn [negb bool_decide decide].
  replace (negb (bool_decide (ES_QUEUED = ES_QUEUED))) with false by done.
  apply wp_bind, wp_zoom. unfold now at 1, wp at 1.
  apply wp_bind, wp_modify. rewrite Hh. apply wp_try_finally.
  match goal with |- wp _ ?x _ => set (s0 := x) end.
  assert (Hs0 : ex_ctx s0 = started (clock (h_tick (ex_host s))) (ex_ctx s)) by done.
  assert (Hf0 : h_fs (ex_host s0) = h_fs (ex_host s)) by done.
  clearbody s0. eapply wp_mono.
  { apply (run_handler_spec _ _ _ P); [|by rewrite Hs0].
    pose proof (safe_supported _ _ task Hh s0) as Hsafe.
    eapply wp_mono; [apply (wp_and _ _ _ _ Hsafe (Hpre s0 Hs0))|].
    intros s1 r [H1 H2]. split; [done|]. by apply H2. }
  intros s1 r (-> & Hf1 & HP1). apply wp_bind, wp_zoom. unfold now at 1, wp at 1.
  apply wp_bind, wp_modify. eapply wp_mono; [apply finalize_spec|].
  intros s2 rf (Hsame & Hst & Hfr).
  assert (P (ex_ctx s2) /\ frame (c_workspace_path (ex_ctx s)) s s2) as Hgoal.
  { split.
    - eapply HP; [exact HP1|exact Hsame|exact Hst].
    - intros Hd q n Hq' Hn. pose proof (Hws _ HP1) as Hw. cbn in Hfr.
      change (c_workspace_path _) with (c_workspace_path (ex_ctx s1)) in Hfr.
      rewrite Hw in Hfr. apply Hfr; [done|done|]. by rewrite Hf1, Hf0. }
  by destruct rf as [[]|e].
Qed.

(** ** Denied paths *)
Definition refused (s0 s1 : ExSt) (r : result unit) : Prop :=
  ex_ctx s1 = ex_ctx s0 /\
  exists e, r = Raise e /\ (exn_type e = ExecutorSecurityError \/ exn_type e = TimeoutError).
Definition path_denied (p : string) : bool :=
  existsb (fun f => (p =s abspath cwd f) || below (abspath cwd f) p) forbidden_paths.

Lemma enforce_path_denied p s :
  path_denied p = true -> wp (enforce_path p) s (refused s).
Proof.
  unfold path_denied, enforce_path, denied. generalize forbidden_paths as l.
  induction l as [|f l IH]; intros Hd; [done|]. simpl in Hd.
  apply wp_bind, wp_when; intros Hf.
  - apply wp_throw. split; [done|]. eexists. split; [done|by left].
  - rewrite Hf in Hd. by apply IH.
Qed.

Lemma deadline_refused s (k : unit -> M ExSt unit) s0 :
  ex_ctx s = ex_ctx s0 ->
  (forall s', ex_ctx s' = ex_ctx s0 -> wp (k tt) s' (refused s0)) ->
  wp (deadline ≫= k) s (refused s0).
Proof.
  intros Hs Hk. apply wp_bind. unfold deadline.
  apply wp_bind, wp_zoom. unfold now at 1, wp at 1. apply wp_bind, wp_gets, wp_when; intros _.
  - apply wp_throw. split; [done|]. eexists. split; [done|by right].
  - by apply Hk.
Qed.

Lemma require_str_refused v msg s s0 (k : string -> M ExSt unit) :
  str_true v = true -> wp (k v) s (refused s0) ->
  wp (require_str (VStr v) msg ≫= k) s (refused s0).
Proof. intros Hv Hk. apply wp_bind. unfold require_str. rewrite Hv. by apply wp_ret. Qed.

Lemma enforce_refused p s s0 (k : unit -> M ExSt unit) :
  path_denied p = true -> ex_ctx s = ex_ctx s0 ->
  wp (enforce_path p ≫= k) s (refused s0).
Proof.
  intros Hp Hs. apply wp_bind. eapply wp_mono; [by apply enforce_path_denied|].
  intros s1 r [H1 (e & -> & He)]. split; [congruence|eauto].
Qed.

Lemma repository_path_refused task p s s0 (k : string -> M ExSt unit) :
  vget "path" (t_input task) = VStr p -> str_true p = true ->
  path_denied (abspath cwd p) = true -> ex_ctx s = ex_ctx s0 ->
  wp (repository_path task ≫= k) s (refused s0).
Proof.
  intros Hp Ht Hd Hs. apply wp_bind. unfold repository_path. rewrite Hp. apply wp_bind.
  unfold require_str. rewrite Ht. apply wp_ret, wp_bind.
  eapply wp_mono; [by apply enforce_path_denied|].
  intros s1 r [H1 (e & -> & He)]. split; [congruence|eauto].
Qed.

Lemma supported_refused task p :
  vget "path" (t_input task) = VStr p -> str_true p = true ->
  path_denied (abspath cwd p) = true ->
  Forall (fun kv => forall s, wp (kv.2 task) s (refused s)) supported.
Proof.
  intros Hp Ht Hd.
  repeat apply Forall_cons_2; try apply Forall_nil_2; intros s; simpl;
    (apply deadline_refused; [done|]; intros s1 Hs1);
    first [ by apply repository_path_refused with p
          | rewrite Hp; apply require_str_refused; [done|]; by apply enforce_refused ].
Qed.

(** ** Properties *)

Lemma outcome_stable old ws : stable (fun c => outcome_ok c old /\ c_workspace_path c = ws).
Proof.
  intros c c' [Ho Hw] [_ W] Hst. split; [|congruence].
  destruct Hst as [[E1 E2]|[E1 E2]]; unfold outcome_ok; rewrite ?E1, ?E2; auto 10.
Qed.

(** How an execution ends. *)
Definition ended (s s' : ExSt) : Prop :=
  outcome_ok (ex_ctx s') (c_failure_reason (ex_ctx s)) /\
  (c_status (ex_ctx s) <> ES_QUEUED -> c_status (ex_ctx s') = ES_FAILED /\
     c_failure_reason (ex_ctx s') = Some INVALID_TASK /\ ex_host s' = ex_host s) /\
  frame (c_workspace_path (ex_ctx s)) s s'.

Lemma execute_ends task s : wp (execute task) s (fun s' _ => ended s s').
Proof.
  destruct (decide (c_status (ex_ctx s) = ES_QUEUED)) as [Hq|Hq].
  - destruct (dget (t_capability_id task) supported) as [h|] eqn:Hh.
    + eapply wp_mono.
      * apply (execute_wp task h s _ Hq Hh
                 (outcome_stable (c_failure_reason (ex_ctx s)) (c_workspace_path (ex_ctx s))));
          [|by intros c [_ ?]].
        intros s0 Hs0. unfold wp. destruct (h task s0) as [s1 r].
        intros (_ & v & Ev & _). split; [intros _|intros e _].
        -- rewrite Ev, Hs0. by split; [left|].
        -- split; [apply record_exception_outcome|]. by rewrite record_exception_ws, Ev, Hs0.
      * intros s' r [[Ho _] Hf]. by split_and!.
    + unfold execute. apply wp_bind, wp_gets. rewrite Hq. 
      apply wp_bind, wp_zoom. unfold now at 1, wp at 1. apply wp_bind, wp_modify. rewrite Hh.
      apply wp_modify. split_and!; [|done|by intros ? q n].
      right; left. by split; [|right; right].
  - unfold execute. apply wp_bind, wp_gets. rewrite bool_decide_false by done.
    apply wp_modify. split_and!; [|done|by intros ? q n].
    right; left. by split; [|right; right].
Qed.


(** A path below or equal to a denied directory is refused by every
    capability: the execution does not succeed and its result is unchanged. *)
Theorem execute_denied_path task s p :
  c_status (ex_ctx s) = ES_QUEUED ->
  vget "path" (t_input task) = VStr p -> str_true p = true ->
  path_denied (abspath cwd p) = true ->
  wp (execute task) s (fun s' _ =>
    c_status (ex_ctx s') <> ES_SUCCEEDED /\ c_result (ex_ctx s') = c_result (ex_ctx s)).
Proof.
  intros Hq Hp Ht Hd. destruct (dget (t_capability_id task) supported) as [h|] eqn:Hh.
  - eapply wp_mono.
    + apply (execute_wp task h s (fun c => c_status c <> ES_SUCCEEDED /\
        c_result c = c_result (ex_ctx s) /\ c_workspace_path c = c_workspace_path (ex_ctx s))
        Hq Hh); [| |by intros c (_ & _ & ?)].
      * intros c c' (H1 & H2 & H3) [R W] Hst. split_and!; [|congruence|congruence].
        destruct Hst as [[-> _]|[-> _]]; done.
      * intros s0 Hs0. pose proof (supported_refused task p Hp Ht Hd) as HF.
        rewrite Forall_forall in HF.
        specialize (HF _ (dget_elem _ _ _ Hh) s0). simpl in HF.
        eapply wp_mono; [exact HF|]. intros s1 r [E (e & -> & He)] _.
        split; [done|]. intros ? [= <-]. rewrite record_exception_result, record_exception_ws.
        rewrite E, Hs0. split_and!; [|done|done].
        unfold record_exception. by destruct He as [-> | ->].
    + intros s' r [(H1 & H2 & _) _]. done.
  - unfold execute. apply wp_bind, wp_gets. rewrite Hq.
    apply wp_bind, wp_zoom. unfold now at 1, wp at 1. apply wp_bind, wp_modify. rewrite Hh.
    by apply wp_modify.
Qed.

(** A result is stored only if the encoded text is within the output limit
    of the context. *)
Theorem execute_result_bounded task s :
  wp (execute task) s (fun s' _ =>
    c_result (ex_ctx s') = c_result (ex_ctx s) \/
    within_limit (ex_ctx s) (c_result (ex_ctx s'))).
Proof.
  destruct (decide (c_status (ex_ctx s) = ES_QUEUED)) as [Hq|Hq];
    [destruct (dget (t_capability_id task) supported) as [h|] eqn:Hh|].
  - eapply wp_mono.
    + apply (execute_wp task h s (fun c =>
        (c_result c = c_result (ex_ctx s) \/ within_limit (ex_ctx s) (c_result c)) /\
        c_workspace_path c = c_workspace_path (ex_ctx s)) Hq Hh); [| |by intros c (_ & ?)].
      * intros c c' [H1 H2] [R W] _. rewrite R. split; [done|congruence].
      * intros s0 Hs0. unfold wp. destruct (h task s0) as [s1 r].
        intros (_ & v & Ev & Hv). rewrite Hs0 in Ev, Hv.
        split; [intros _|intros e _; rewrite record_exception_result, record_exception_ws];
          rewrite Ev; split; done.
    + intros s' r [[H1 _] _]. done.
  - unfold execute. apply wp_bind, wp_gets. rewrite Hq.
    apply wp_bind, wp_zoom. unfold now at 1, wp at 1. apply wp_bind, wp_modify. rewrite Hh.
    apply wp_modify. by left.
  - unfold execute. apply wp_bind, wp_gets. rewrite bool_decide_false by done.
    apply wp_modify. by left.
Qed.

Lemma execute_status task s : wp (execute task) s (fun s' _ =>
  c_status (ex_ctx s') ∈ [ES_SUCCEEDED; ES_FAILED; ES_TIMED_OUT; ES_LIMIT_EXCEEDED]).
Proof.
  eapply wp_mono; [apply execute_ends|]. intros s' r (Ho & _ & _). unfold outcome_ok in Ho.
  destruct Ho as [[-> _]|[[-> _]|[[-> _]|[-> _]]]]; set_solver.
Qed.

Lemma finalize_status task s :
  c_status (ex_ctx s) = ES_SUCCEEDED ->
  wp (finalize_workspace task) s (fun s' _ =>
    c_status (ex_ctx s') ∈ [ES_SUCCEEDED; ES_FAILED; ES_TIMED_OUT; ES_LIMIT_EXCEEDED]).
Proof.
  intros Hs. eapply wp_mono; [apply finalize_spec|]. intros s' r (_ & Hst & _).
  destruct Hst as [[-> _]|[-> _]]; rewrite ?Hs; set_solver.
Qed.
End Deterministic.
