(* ===== verification/Registry.v ===== *)
(** * The model registry

    [runtime/execution/registry.py]: the registry of models in memory, its file,
    and the fail-closed recovery protocol.  A file is [Written v] when it holds
    the JSON text of [v] (loading it gives [v] back: [JsonLoad.json_round_trip])
    or [Raw s] when it holds any other bytes. *)
From stdpp Require Export gmap.
From S2P Require Import Prelude Dict PyVal Effects PyPath PyStr PyBytes Json JsonLoad ExecModels.

Inductive blob := Written (v : pyval) | Raw (s : string).
Abbreviation disk := (gmap string blob).

Record HardwareProfile := mkHardware {
  hw_cpu : pyval; hw_cores : pyval; hw_ram : pyval; hw_gpu_present : pyval;
  hw_gpu_vendor : pyval; hw_gpu_memory : pyval; hw_storage_available : pyval;
  hw_os : pyval; hw_python_version : pyval }.
Record ModelPerformanceProfile := mkPerformance {
  pf_model_id : pyval; pf_capability_id : pyval; pf_executions : pyval;
  pf_successes : pyval; pf_failures : pyval; pf_timeouts : pyval;
  pf_average_latency : pyval; pf_p95_latency : pyval; pf_average_output_size : pyval;
  pf_evaluation_score : pyval; pf_last_evaluated_at : pyval }.

(** The fields of a [ModelRegistry] object. *)
Record RegMem := mkRegMem {
  models : dict string ModelDefinition;
  bindings : list ModelCapabilityBinding;
  hardware : HardwareProfile;
  performance : dict string ModelPerformanceProfile }.
#[export] Instance eta_RegMem : Eta RegMem := fun r =>
  mkRegMem (models r) (bindings r) (hardware r) (performance r).

Record RegSt := mkRegSt { r_mem : RegMem; r_disk : disk }.
#[export] Instance eta_RegSt : Eta RegSt := fun r => mkRegSt (r_mem r) (r_disk r).

Definition unknown_hardware : HardwareProfile :=
  let u := VStr "UNKNOWN" in mkHardware u u u u u u u u u.
Definition empty_mem : RegMem := mkRegMem [] [] unknown_hardware [].
Definition new_performance (model_id : string) : ModelPerformanceProfile :=
  let zero := VFloat (f_of_Z 0) in
  mkPerformance (VStr model_id) (VStr "*") (VInt 0) (VInt 0) (VInt 0) (VInt 0)
    zero zero zero zero VNone.

(** ** Serialisation: [dataclasses.asdict] with the enumeration encoder *)
Definition vstrs (l : list string) : pyval := VList (map VStr l).
Definition encode_model (m : ModelDefinition) : pyval :=
  VDict [("model_id", VStr (md_model_id m)); ("display_name", VStr (md_display_name m));
         ("provider", VStr (md_provider m)); ("executor_type", VStr (md_executor_type m));
         ("version", VStr (md_version m)); ("status", VStr (model_state_str (md_status m)));
         ("capabilities_supported", vstrs (md_capabilities_supported m));
         ("capabilities_forbidden", vstrs (md_capabilities_forbidden m));
         ("hardware_requirements", VDict (md_hardware_requirements m));
         ("memory_requirements", VDict (md_memory_requirements m));
         ("context_window", VInt (md_context_window m));
         ("quantization", VStr (md_quantization m));
         ("artifact_uri", VStr (md_artifact_uri m));
         ("artifact_sha256", VStr (md_artifact_sha256 m));
         ("runtime_interface", VStr (md_runtime_interface m));
         ("max_concurrency", VInt (md_max_concurrency m));
         ("max_runtime", VInt (md_max_runtime m));
         ("max_input_size", VInt (md_max_input_size m));
         ("max_output_size", VInt (md_max_output_size m));
         ("network_policy", VStr (md_network_policy m));
         ("evidence_policy", VStr (md_evidence_policy m))].
Definition encode_binding (b : ModelCapabilityBinding) : pyval :=
  VDict [("model_id", VStr (b_model_id b)); ("capability_id", VStr (b_capability_id b));
         ("authorization", VStr (b_authorization b));
         ("quality_profile", VStr (b_quality_profile b));
         ("risk_limit", VStr (b_risk_limit b)); ("preferred", VBool (b_preferred b));
         ("fallback", VBool (b_fallback b)); ("reason", VStr (b_reason b))].
Definition encode_hardware (h : HardwareProfile) : pyval :=
  VDict [("cpu", hw_cpu h); ("cores", hw_cores h); ("ram", hw_ram h);
         ("gpu_present", hw_gpu_present h); ("gpu_vendor", hw_gpu_vendor h);
         ("gpu_memory", hw_gpu_memory h); ("storage_available", hw_storage_available h);
         ("os", hw_os h); ("python_version", hw_python_version h)].
Definition encode_performance (p : ModelPerformanceProfile) : pyval :=
  VDict [("model_id", pf_model_id p); ("capability_id", pf_capability_id p);
         ("executions", pf_executions p); ("successes", pf_successes p);
         ("failures", pf_failures p); ("timeouts", pf_timeouts p);
         ("average_latency", pf_average_latency p); ("p95_latency", pf_p95_latency p);
         ("average_output_size", pf_average_output_size p);
         ("evaluation_score", pf_evaluation_score p);
         ("last_evaluated_at", pf_last_evaluated_at p)].

(** [_build_data] *)
Definition build_data (m : RegMem) : pyval :=
  VDict [("version", VStr "1.0");
         ("models", VList (map encode_model (dvalues (models m))));
         ("bindings", VList (map encode_binding (bindings m)));
         ("hardware", encode_hardware (hardware m));
         ("performance",
           VDict (map (fun kv => (kv.1, encode_performance kv.2)) (performance m)))].

(** ** Deserialisation

    [C( **d )] on a dataclass: the keys of [d] are exactly the fields without a
    default plus any of those with one, otherwise [TypeError].  The values are
    not checked by Python; a value of another JSON type than the annotation of
    a field that the model types is [Unmodelled]. *)
Definition check_keys (required optional : list string) (d : dict string pyval) : result unit :=
  if forallb (fun k => dmem k d) required
     && forallb (fun k => str_in k (required ++ optional)) (dkeys d)
  then Ok tt else raise TypeError "bad keyword arguments".

Definition unmodelled {A} : result A := raise Unmodelled "".
Definition as_str (v : pyval) : result string :=
  match v with VStr s => Ok s | _ => unmodelled end.
Definition as_int (v : pyval) : result Z :=
  match v with VInt z => Ok z | _ => unmodelled end.
Definition as_bool (v : pyval) : result bool :=
  match v with VBool b => Ok b | _ => unmodelled end.
Definition as_dict (v : pyval) : result (dict string pyval) :=
  match v with VDict d => Ok d | _ => unmodelled end.
Fixpoint map_result {A B} (f : A -> result B) (l : list A) : result (list B) :=
  match l with
  | [] => Ok []
  | a :: l' => let? b := f a in let? bs := map_result f l' in Ok (b :: bs)
  end.
Definition as_strs (v : pyval) : result (list string) :=
  match v with VList l => map_result as_str l | _ => unmodelled end.

Definition model_fields : list string :=
  ["model_id"; "display_name"; "provider"; "executor_type"; "version"; "status";
   "capabilities_supported"; "capabilities_forbidden"; "hardware_requirements";
   "memory_requirements"; "context_window"; "quantization"; "artifact_uri";
   "artifact_sha256"; "runtime_interface"; "max_concurrency"; "max_runtime";
   "max_input_size"; "max_output_size"; "network_policy"; "evidence_policy"].

(** The body of the loop over [data["models"]]. *)
Definition decode_model (v : pyval) : result ModelDefinition :=
  match v with
  | VDict d =>
      let f k := vget k d in
      let? st := match dget "status" d with
                 | None => raise KeyError "'status'"
                 | Some (VStr s) =>
                     match model_state_of s with
                     | Some st => Ok st
                     | None => raise ValueError "not a valid ModelState"
                     end
                 | Some _ => raise ValueError "not a valid ModelState"
                 end in
      check! check_keys model_fields [] d in
      let? model_id := as_str (f "model_id") in
      let? display_name := as_str (f "display_name") in
      let? provider := as_str (f "provider") in
      let? executor_type := as_str (f "executor_type") in
      let? version := as_str (f "version") in
      let? supported := as_strs (f "capabilities_supported") in
      let? forbidden := as_strs (f "capabilities_forbidden") in
      let? hardware := as_dict (f "hardware_requirements") in
      let? memory := as_dict (f "memory_requirements") in
      let? window := as_int (f "context_window") in
      let? quantization := as_str (f "quantization") in
      let? uri := as_str (f "artifact_uri") in
      let? sha := as_str (f "artifact_sha256") in
      let? interface := as_str (f "runtime_interface") in
      let? max_concurrency := as_int (f "max_concurrency") in
      let? max_runtime := as_int (f "max_runtime") in
      let? max_input := as_int (f "max_input_size") in
      let? max_output := as_int (f "max_output_size") in
      let? network := as_str (f "network_policy") in
      let? evidence := as_str (f "evidence_policy") in
      Ok (mkModelDefinition model_id display_name provider executor_type version st
            supported forbidden hardware memory window quantization uri sha interface
            max_concurrency max_runtime max_input max_output network evidence)
  | VStr _ | VList _ => unmodelled
  | _ => raise TypeError "object is not iterable"
  end.

Definition decode_binding (v : pyval) : result ModelCapabilityBinding :=
  match v with
  | VDict d =>
      let f k := vget k d in
      check! check_keys ["model_id"; "capability_id"; "authorization"; "quality_profile";
                         "risk_limit"; "preferred"; "fallback"; "reason"] [] d in
      let? model_id := as_str (f "model_id") in
      let? capability_id := as_str (f "capability_id") in
      let? authorization := as_str (f "authorization") in
      let? quality := as_str (f "quality_profile") in
      let? risk := as_str (f "risk_limit") in
      let? preferred := as_bool (f "preferred") in
      let? fallback := as_bool (f "fallback") in
      let? reason := as_str (f "reason") in
      Ok (mkBinding model_id capability_id authorization quality risk preferred fallback reason)
  | _ => raise TypeError "argument after ** must be a mapping"
  end.

Definition decode_hardware (v : pyval) : result HardwareProfile :=
  match v with
  | VDict d =>
      let f k := vget k d in
      check! check_keys ["cpu"; "cores"; "ram"; "gpu_present"; "gpu_vendor"; "gpu_memory";
                         "storage_available"; "os"; "python_version"] [] d in
      Ok (mkHardware (f "cpu") (f "cores") (f "ram") (f "gpu_present") (f "gpu_vendor")
            (f "gpu_memory") (f "storage_available") (f "os") (f "python_version"))
  | _ => raise TypeError "argument after ** must be a mapping"
  end.

Definition decode_performance (v : pyval) : result ModelPerformanceProfile :=
  match v with
  | VDict d =>
      let zero := VFloat (f_of_Z 0) in
      check! check_keys ["model_id"; "capability_id"]
               ["executions"; "successes"; "failures"; "timeouts"; "average_latency";
                "p95_latency"; "average_output_size"; "evaluation_score";
                "last_evaluated_at"] d in
      let g k dflt := vget_or k dflt d in
      Ok (mkPerformance (g "model_id" VNone) (g "capability_id" VNone)
            (g "executions" (VInt 0)) (g "successes" (VInt 0)) (g "failures" (VInt 0))
            (g "timeouts" (VInt 0)) (g "average_latency" zero) (g "p95_latency" zero)
            (g "average_output_size" zero) (g "evaluation_score" zero)
            (g "last_evaluated_at" VNone))
  | _ => raise TypeError "argument after ** must be a mapping"
  end.

(** Iteration over a value that should be a list. *)
Definition as_list (v : pyval) : result (list pyval) :=
  match v with
  | VList l => Ok l
  | VDict _ | VStr _ => unmodelled
  | _ => raise TypeError "object is not iterable"
  end.

(** [_load_data]; the fields are replaced in the order of the code, which
    matters to nobody when it raises: the object is then discarded. *)
Definition load_data (v : pyval) (m : RegMem) : result RegMem :=
  match v with
  | VDict d =>
      check! guard_raise (negb match dget "version" d with
                               | Some (VStr s) => s =s "1.0" | _ => false end)
               ValueError "Unsupported registry schema version" in
      let? ml := as_list (vget_or "models" (VList []) d) in
      let? ms := map_result decode_model ml in
      let? bl := as_list (vget_or "bindings" (VList []) d) in
      let? bs := map_result decode_binding bl in
      let? hw := match dget "hardware" d with
                 | Some h => decode_hardware h
                 | None => Ok (hardware m)
                 end in
      let? pd := match vget_or "performance" (VDict []) d with
                 | VDict pd => Ok pd
                 | _ => raise AttributeError "object has no attribute 'items'"
                 end in
      let? ps := map_result (fun kv =>
                   let? p := decode_performance kv.2 in Ok (kv.1, p)) pd in
      Ok (mkRegMem (foldl (fun acc x => dset (md_model_id x) x acc) [] ms) bs hw
            (foldl (fun acc kv => dset kv.1 kv.2 acc) [] ps))
  | _ => raise AttributeError "object has no attribute 'get'"
  end.

Arguments load_data : simpl never.

(** The machine as the registry sees it: the text of a decoding
    error, SHA-256, the working directory, and which writes fail. *)
Class RegistryIO := {
  reg_floats :: FloatOps;
  reg_errors :: JsonErrors;
  reg_sha256 : string -> string;
  reg_cwd : string;
  write_fault : string -> option string;
  move_fault : string -> option string }.

Section Registry.
Context {io : RegistryIO}.

Definition blob_text (b : blob) : string :=
  match b with Written v => dumps_indent false 0 v | Raw s => s end.
(** [json.load] *)
Definition json_load (b : blob) : result pyval :=
  match b with Written v => Ok v | Raw s => let? t := utf8_decode s in json_loads t end.
Definition exists_in (d : disk) (p : string) : bool :=
  match d !! p with Some _ => true | None => false end.

Definition recovery_path (storage : string) : string := storage +:+ ".recovery.json".

(** Writing to a temporary file and renaming it: the path holds the old
    content or the new one. *)
Definition write_blob (p : string) (v : pyval) : M RegSt unit := fun s =>
  match write_fault p with
  | Some msg => (s, raise OSError msg)
  | None => (s <| r_disk := <[p := Written v]> (r_disk s) |>, Ok tt)
  end.

(** [_save_to_disk] *)
Definition save_to_disk (storage : option string) : M RegSt unit :=
  match storage with
  | Some p =>
      if str_true p then v ← gets (fun s => build_data (r_mem s)); write_blob p v
      else mret tt
  | None => mret tt
  end.

Definition set_mem (f : RegMem -> RegMem) : M RegSt unit :=
  modify (fun s => s <| r_mem := f (r_mem s) |>).

Definition register_model (storage : option string) (m : ModelDefinition) : M RegSt unit :=
  ms ← gets (fun s => models (r_mem s));
  when (dmem (md_model_id m) ms)
    (throw ValueError ("Model " +:+ md_model_id m +:+ " is already registered")) ;;
  set_mem (fun r => r <| models := dset (md_model_id m) m (models r) |>
                      <| performance := dset (md_model_id m) (new_performance (md_model_id m))
                                          (performance r) |>) ;;
  save_to_disk storage.

Definition unregister (storage : option string) (model_id : string) : M RegSt unit :=
  ms ← gets (fun s => models (r_mem s));
  when (dmem model_id ms)
    (set_mem (fun r => r <| models := ddel model_id (models r) |>
                         <| performance := ddel model_id (performance r) |>) ;;
     save_to_disk storage).

Definition get_model (model_id : string) (r : RegMem) : option ModelDefinition :=
  dget model_id (models r).

Definition set_availability (storage : option string) (model_id : string) (available : bool)
    : M RegSt unit :=
  mo ← gets (fun s => get_model model_id (r_mem s));
  match mo with
  | Some m =>
      set_mem (fun r => r <| models := dset model_id
        (m <| md_status := if available then MS_AVAILABLE else MS_UNAVAILABLE |>)
        (models r) |>) ;;
      save_to_disk storage
  | None => mret tt
  end.

Definition add_binding (storage : option string) (b : ModelCapabilityBinding) : M RegSt unit :=
  set_mem (fun r => r <| bindings := bindings r ++ [b] |>) ;;
  save_to_disk storage.

Definition update_hardware_profile (storage : option string) (h : HardwareProfile)
    : M RegSt unit :=
  set_mem (fun r => r <| hardware := h |>) ;;
  save_to_disk storage.

Definition list_models (r : RegMem) : list ModelDefinition := dvalues (models r).
Definition get_bindings_for_capability (capability : string) (r : RegMem)
  : list ModelCapabilityBinding :=
  filter (fun b => b_capability_id b = capability) (bindings r).

Definition is_available (model_id : string) (r : RegMem) : bool :=
  match get_model model_id r with
  | None => false
  | Some m =>
      bool_decide (md_status m = MS_AVAILABLE)
      && str_true (md_artifact_uri m) && str_true (md_runtime_interface m)
  end.

(** [_register_initial_models] and [_register_initial_bindings] *)
Definition qwen3_8b : ModelDefinition :=
  mkModelDefinition "qwen3-8b" "Qwen3 8B Local" "local" "LOCAL_MODEL" "3.0"
    MS_INSTALL_REQUIRED ["document.classify"; "code.generation"; "text.summarize"]
    ["architecture.analysis"; "system.mutate"]
    [("memory", VStr "REQUIREMENT_PROFILE"); ("gpu", VStr "REQUIREMENT_PROFILE")]
    [("min_ram", VStr "16GB")] 32000 "int8" "local://models/qwen3-8b" "dummy_hash_for_now"
    "llama.cpp" 1 300 20000 4000 "none" "required".
Definition luna : ModelDefinition :=
  mkModelDefinition "luna" "Luna Remote" "remote" "REMOTE_MODEL" "1.0" MS_AVAILABLE
    ["architecture.analysis"; "system.mutate"; "repository.diff"] [] [] [] 128000 "fp16"
    "remote://luna-api" "" "rest" 10 600 100000 10000 "egress_only" "required".
Definition initial_models : list ModelDefinition := [qwen3_8b; luna].
Definition initial_bindings : list ModelCapabilityBinding :=
  [ mkBinding "qwen3-8b" "document.classify" "allowed" "standard" "low" false true
      "Local processing preferred for privacy";
    mkBinding "qwen3-8b" "architecture.analysis" "forbidden" "none" "none" false false
      "Insufficient reasoning capacity";
    mkBinding "luna" "architecture.analysis" "allowed" "high" "high" true false
      "Advanced reasoning model";
    mkBinding "deterministic" "repository.diff" "allowed" "perfect" "low" true true
      "Model not required" ].
Definition bootstrap (storage : option string) : M RegSt unit :=
  for_each initial_models (register_model storage) ;;
  for_each initial_bindings (add_binding storage) ;;
  save_to_disk storage.

(** [_load_from_disk] *)
Definition load_from_disk (p : string) : M RegSt unit := fun s =>
  match r_disk s !! p with
  | None => (s, raise OSError ("No such file or directory: " +:+ p))
  | Some b =>
      match (let? v := json_load b in load_data v (r_mem s)) with
      | Ok m => (s <| r_mem := m |>, Ok tt)
      | Raise e => (s, Raise e)
      end
  end.

(** The [except] clause of the constructor: quarantine the file, write the
    recovery marker, raise.  [now_iso] and [now_ts] are the two clock readings
    as text. *)
Definition marker_value (p quarantine hash now_iso reason : string) : pyval :=
  VDict [("version", VStr "1.0"); ("state", VStr "BLOCKED_OR_UNKNOWN");
         ("original_registry_path", VStr p); ("quarantine_path", VStr quarantine);
         ("original_sha256", VStr hash); ("recovery_timestamp", VStr now_iso);
         ("recovery_reason", VStr reason); ("reconstruction_required", VBool true);
         ("verification_required", VBool true)].
Definition quarantine_path (p now_ts : string) : string := p +:+ ".quarantine." +:+ now_ts.
Definition move_blob (src dst : string) : M RegSt unit := fun s =>
  match move_fault dst, r_disk s !! src with
  | Some msg, _ => (s, raise OSError msg)
  | None, None => (s, raise OSError "No such file or directory")
  | None, Some b => (s <| r_disk := <[dst := b]> (delete src (r_disk s)) |>, Ok tt)
  end.

Definition quarantine (p now_iso now_ts : string) (e : exn) : M RegSt unit :=
  let q := quarantine_path p now_ts in
  hash ← gets (fun s => match r_disk s !! p with
                        | Some b => reg_sha256 (blob_text b)
                        | None => "UNKNOWN"
                        end);
  try_with (move_blob p q)
    (fun _ => throw RegistryRecoveryRequired
                "Registry is corrupted and could not be quarantined") ;;
  write_blob (recovery_path p)
    (marker_value p q hash now_iso ("CORRUPTED_REGISTRY: " +:+ exn_str e)) ;;
  throw RegistryRecoveryRequired
    ("Corrupted model registry quarantined; explicit recovery required: "
       +:+ recovery_path p).

(** [ModelRegistry.__init__] *)
Definition construct (storage : option string) (now_iso now_ts : string) : M RegSt unit :=
  set_mem (fun _ => empty_mem) ;;
  match storage with
  | Some p =>
      if str_true p then
        d ← gets r_disk;
        when (exists_in d (recovery_path p))
          (throw RegistryRecoveryRequired
             ("Model registry recovery is required: " +:+ recovery_path p)) ;;
        if exists_in d p then
          try_with (load_from_disk p) (fun e =>
            match exn_type e with
            | Unmodelled => rethrow e
            | _ => quarantine p now_iso now_ts e
            end)
        else bootstrap storage
      else bootstrap storage
  | None => bootstrap storage
  end.

(** [open_for_recovery]: an empty registry object, only next to a marker. *)
Definition open_for_recovery (p : string) : M RegSt unit :=
  when (negb (str_true p))
    (throw RecoveryAttestationError "Recovery requires a durable registry path") ;;
  d ← gets r_disk;
  when (negb (exists_in d (recovery_path p)))
    (throw RecoveryAttestationError "No pending recovery marker exists") ;;
  set_mem (fun _ => empty_mem).

(** ** Recovery *)
Record RecoveryAttestation := mkAttestation {
  recovery_id : string;
  source_registry_hash : string;
  quarantine_reference : string;
  authority_ref : string;
  authority_decision : string;
  source_evidence_ids : list string;
  reconstructed_registry_digest : string;
  registry_payload : dict string pyval;
  verification_evidence_ids : list string;
  recovery_timestamp : string }.

(** [re.fullmatch("[A-Za-z0-9._-]{1,128}", s)] *)
Definition id_char (c : ascii) : bool :=
  let n := N_of_ascii c in
  ((65 <=? n) && (n <=? 90) || (97 <=? n) && (n <=? 122) || (48 <=? n) && (n <=? 57)
   || (n =? 46) || (n =? 95) || (n =? 45))%N.
Definition valid_recovery_id (s : string) : bool :=
  forallb id_char (String.list_ascii_of_string s)
  && (1 <=? String.length s) && (String.length s <=? 128).

Definition is_nil {A} (l : list A) : bool := match l with [] => true | _ => false end.
Definition is_str_val (v : option pyval) (s : string) : bool :=
  match v with Some (VStr t) => t =s s | _ => false end.

Definition rae (b : bool) (msg : string) : result unit :=
  guard_raise b RecoveryAttestationError msg.

(** The checks on the attestation alone. *)
Definition attestation_complete (a : RecoveryAttestation) : result unit :=
  check! rae (existsb (fun s => s =s "")
                [recovery_id a; source_registry_hash a; quarantine_reference a;
                 authority_ref a; authority_decision a; reconstructed_registry_digest a;
                 recovery_timestamp a] || is_nil (registry_payload a))
           "Recovery attestation is incomplete" in
  check! rae (is_nil (source_evidence_ids a))
           "Recovery attestation has no source evidence" in
  check! rae (is_nil (verification_evidence_ids a))
           "Recovery attestation has no verification evidence" in
  rae (negb (authority_decision a =s "APPROVE_RESTORE"))
    "Recovery authority decision is not APPROVE_RESTORE".

(** The checks against the marker and the quarantined file. *)
Definition marker_matches (a : RecoveryAttestation) (marker : dict string pyval)
    (d : disk) : result unit :=
  check! rae (negb (is_str_val (dget "state" marker) "BLOCKED_OR_UNKNOWN"))
           "Recovery marker is not in BLOCKED_OR_UNKNOWN state" in
  check! rae (negb (is_str_val (dget "original_sha256" marker) (source_registry_hash a)))
           "Source registry hash does not match recovery marker" in
  match vget_or "quarantine_path" (VStr "") marker with
  | VStr q =>
      let qr := abspath reg_cwd (quarantine_reference a) in
      check! rae (negb (qr =s abspath reg_cwd q))
               "Quarantine reference does not match recovery marker" in
      match d !! qr with
      | None => raise RecoveryAttestationError "Quarantine evidence is missing"
      | Some b =>
          rae (negb (reg_sha256 (blob_text b) =s source_registry_hash a))
            "Quarantine evidence hash mismatch"
      end
  | _ => raise TypeError "expected str, bytes or os.PathLike object"
  end.

Definition authorized (verifier : RecoveryAttestation -> result bool)
    (a : RecoveryAttestation) : result unit :=
  match verifier a with
  | Raise _ => raise RecoveryAttestationError "Recovery authority verifier failed"
  | Ok b => rae (negb b) "Recovery authority did not authorize restoration"
  end.

(** The payload loads into a fresh registry, and its text has the attested
    digest. *)
Definition payload_valid (a : RecoveryAttestation) : result unit :=
  match load_data (VDict (registry_payload a)) empty_mem with
  | Raise e =>
      match exn_type e with
      | Unmodelled => Raise e
      | _ => raise RecoveryAttestationError
               ("Reconstructed registry payload is invalid: " +:+ exn_str e)
      end
  | Ok _ =>
      rae (negb (reg_sha256 (dumps_indent false 0 (VDict (registry_payload a)))
                   =s reconstructed_registry_digest a))
        "Reconstructed registry digest mismatch"
  end.

Definition record_path (p : string) (a : RecoveryAttestation) : string :=
  p +:+ ".recovery-record." +:+ recovery_id a +:+ ".json".
Definition record_value (a : RecoveryAttestation) : pyval :=
  VDict [("version", VStr "1.0"); ("state", VStr "RESTORED_VERIFIED");
         ("recovery_id", VStr (recovery_id a));
         ("source_registry_hash", VStr (source_registry_hash a));
         ("quarantine_reference", VStr (abspath reg_cwd (quarantine_reference a)));
         ("authority_ref", VStr (authority_ref a));
         ("authority_decision", VStr (authority_decision a));
         ("source_evidence_ids", vstrs (source_evidence_ids a));
         ("verification_evidence_ids", vstrs (verification_evidence_ids a));
         ("reconstructed_registry_digest", VStr (reconstructed_registry_digest a));
         ("recovery_timestamp", VStr (recovery_timestamp a))].

Definition unlink (p : string) : M RegSt unit :=
  modify (fun s => s <| r_disk := delete p (r_disk s) |>).

(** [restore_from_attestation] on the registry of path [p] *)
Definition restore_from_attestation (p : string) (a : RecoveryAttestation)
    (verifier : RecoveryAttestation -> result bool) : M RegSt unit :=
  when (negb (str_true p))
    (throw RecoveryAttestationError "Recovery requires a durable registry path") ;;
  when (negb (valid_recovery_id (recovery_id a)))
    (throw RecoveryAttestationError "Recovery id contains invalid characters") ;;
  d ← gets r_disk;
  match d !! recovery_path p with
  | None => throw RecoveryAttestationError "No pending recovery marker exists"
  | Some mb =>
      marker ← of_result (json_load mb);
      of_result (attestation_complete a) ;;
      match marker with
      | VDict marker =>
          of_result (marker_matches a marker d) ;;
          of_result (authorized verifier a) ;;
          of_result (payload_valid a) ;;
          write_blob p (VDict (registry_payload a)) ;;
          write_blob (record_path p a) (record_value a) ;;
          unlink (recovery_path p) ;;
          load_from_disk p
      | _ => throw AttributeError "object has no attribute 'get'"
      end
  end.

(** ** Round trip *)
Lemma map_result_map {A B C} (f : B -> result C) (g : A -> B) (h : A -> C) l :
  (forall a, a ∈ l -> f (g a) = Ok (h a)) -> map_result f (map g l) = Ok (map h l).
Proof.
  induction l as [|a l IH]; intros H; simpl; [done|].
  rewrite H by left. rewrite IH; [done|]. intros b Hb. apply H. by right.
Qed.

Lemma as_strs_vstrs l : as_strs (vstrs l) = Ok l.
Proof.
  unfold as_strs, vstrs. rewrite (map_result_map _ _ id) by done. by rewrite map_id.
Qed.

Lemma decode_encode_model m : decode_model (encode_model m) = Ok m.
Proof.
  destruct m as [? ? ? ? ? []];
    (cbv -[as_strs vstrs]; rewrite !as_strs_vstrs; reflexivity).
Qed.

Lemma decode_encode_binding b : decode_binding (encode_binding b) = Ok b.
Proof. destruct b. vm_compute. reflexivity. Qed.
Lemma decode_encode_hardware h : decode_hardware (encode_hardware h) = Ok h.
Proof. destruct h. vm_compute. reflexivity. Qed.
Lemma decode_encode_performance p : decode_performance (encode_performance p) = Ok p.
Proof. destruct p. vm_compute. reflexivity. Qed.

(** The keys of the model table are the identifiers of its models. *)
Definition mem_wf (m : RegMem) : Prop :=
  dict_wf (models m) /\ Forall (fun kv => md_model_id kv.2 = kv.1) (models m) /\
  dict_wf (performance m).

Lemma load_build m m0 : load_data (build_data m) m0 =
  Ok (mkRegMem (foldl (fun acc x => dset (md_model_id x) x acc) [] (map id (dvalues (models m))))
        (map id (bindings m)) (hardware m)
        (foldl (fun acc kv => dset kv.1 kv.2 acc) [] (map id (performance m)))).
Proof.
  unfold load_data, build_data.
  set (ml := map encode_model _). set (bl := map encode_binding _).
  set (hw := encode_hardware _). set (pl := map _ (performance m)).
  change ((let? ms := map_result decode_model ml in
          let? bs := map_result decode_binding bl in
          let? hd := decode_hardware hw in
          let? ps := map_result (fun kv =>
                       let? p := decode_performance kv.2 in Ok (kv.1, p)) pl in
          Ok (mkRegMem (foldl (fun acc x => dset (md_model_id x) x acc) [] ms) bs hd
                (foldl (fun acc kv => dset kv.1 kv.2 acc) [] ps))) =
          Ok (mkRegMem (foldl (fun acc x => dset (md_model_id x) x acc) []
                          (map id (dvalues (models m))))
                (map id (bindings m)) (hardware m)
                (foldl (fun acc kv => dset kv.1 kv.2 acc) [] (map id (performance m))))).
  unfold ml, bl, hw, pl.
  rewrite (map_result_map _ _ id) by (intros; apply decode_encode_model).
  rewrite (map_result_map _ _ id) by (intros; apply decode_encode_binding).
  rewrite decode_encode_hardware.
  rewrite (map_result_map _ _ id); [done|].
  intros [k p] _. cbn [fst snd]. by rewrite decode_encode_performance.
Qed.

(** What the registry writes is read back as the same registry. *)
Theorem registry_roundtrip m m0 : mem_wf m -> load_data (build_data m) m0 = Ok m.
Proof.
  intros (Hm & Hid & Hp). rewrite load_build. rewrite !map_id.
  rewrite (rebuild_values md_model_id) by done.
  rewrite !rebuild_pairs by done. by destruct m.
Qed.

(** ** The recovery protocol *)
Lemma recovery_path_ne p : recovery_path p <> p.
Proof.
  unfold recovery_path. intros H. apply (f_equal String.length) in H.
  rewrite string_length_app in H. simpl in H. lia.
Qed.
Lemma string_app_length_ne p s : str_true s = true -> p +:+ s <> p.
Proof.
  intros Hs H. apply (f_equal String.length) in H. rewrite string_length_app in H.
  destruct s; [done|]. simpl in H. lia.
Qed.
Lemma record_recovery_ne p a : record_path p a <> recovery_path p.
Proof.
  unfold record_path, recovery_path. intros H%string_app_inj_l. done.
Qed.
Lemma quarantine_recovery_ne p ts : quarantine_path p ts <> recovery_path p.
Proof. unfold quarantine_path, recovery_path. intros H%string_app_inj_l. done. Qed.
Lemma quarantine_ne p ts : quarantine_path p ts <> p.
Proof. by apply string_app_length_ne. Qed.
Lemma record_ne p a : record_path p a <> p.
Proof. by apply string_app_length_ne. Qed.

Lemma write_blob_ok p v s : write_fault p = None ->
  write_blob p v s = (s <| r_disk := <[p := Written v]> (r_disk s) |>, Ok tt).
Proof. unfold write_blob. by intros ->. Qed.

(** While a recovery marker exists, every construction raises and leaves
    the disk as it is. *)
Theorem construct_blocked p iso ts s :
  str_true p = true -> exists_in (r_disk s) (recovery_path p) = true ->
  exists s' msg, construct (Some p) iso ts s = (s', raise RegistryRecoveryRequired msg) /\
    r_disk s' = r_disk s.
Proof.
  intros Hp He. do 2 eexists. split.
  - unfold construct, mbind, M_bind, set_mem, modify, gets. rewrite Hp. simpl. by rewrite He.
  - done.
Qed.

Definition load_of (b : blob) (m : RegMem) : result RegMem :=
  let? v := json_load b in load_data v m.

Lemma construct_load p iso ts s b :
  str_true p = true -> r_disk s !! recovery_path p = None -> r_disk s !! p = Some b ->
  construct (Some p) iso ts s =
    match load_of b empty_mem with
    | Ok m => (mkRegSt m (r_disk s), Ok tt)
    | Raise e =>
        match exn_type e with
        | Unmodelled => (mkRegSt empty_mem (r_disk s), Raise e)
        | _ => quarantine p iso ts e (mkRegSt empty_mem (r_disk s))
        end
    end.
Proof.
  intros Hp Hm Hb. unfold construct, mbind, M_bind, set_mem, modify, gets. rewrite Hp.
  simpl. unfold exists_in. rewrite Hm, Hb. simpl.
  unfold try_with, load_from_disk, load_of. simpl. rewrite Hb.
  destruct (let? v := json_load b in load_data v empty_mem) as [m|e]; [done|].
  by destruct (exn_type e).
Qed.

Lemma quarantine_ok p iso ts e s b :
  r_disk s !! p = Some b -> move_fault (quarantine_path p ts) = None ->
  write_fault (recovery_path p) = None ->
  quarantine p iso ts e s =
    (s <| r_disk := <[recovery_path p := Written
            (marker_value p (quarantine_path p ts) (reg_sha256 (blob_text b)) iso
               ("CORRUPTED_REGISTRY: " +:+ exn_str e))]>
          (<[quarantine_path p ts := b]> (delete p (r_disk s))) |>,
     raise RegistryRecoveryRequired
       ("Corrupted model registry quarantined; explicit recovery required: "
          +:+ recovery_path p)).
Proof.
  intros Hb Hmv Hw. unfold quarantine, mbind, M_bind, gets, try_with, move_blob, throw.
  rewrite Hb, Hmv. rewrite write_blob_ok by done. simpl. by destruct s.
Qed.


(** The steps of a restoration that checks have let through. *)
Definition restorable (p : string) (a : RecoveryAttestation)
    (verifier : RecoveryAttestation -> result bool) (d : disk) : Prop :=
  valid_recovery_id (recovery_id a) = true /\
  attestation_complete a = Ok tt /\
  (exists mb marker, d !! recovery_path p = Some mb /\ json_load mb = Ok (VDict marker) /\
     marker_matches a marker d = Ok tt) /\
  verifier a = Ok true /\
  payload_valid a = Ok tt.

Lemma payload_valid_loads a : payload_valid a = Ok tt ->
  exists m, load_data (VDict (registry_payload a)) empty_mem = Ok m.
Proof.
  unfold payload_valid. destruct (load_data _ _) as [m|e]; [eauto|].
  by destruct (exn_type e).
Qed.

(** Loading succeeds or not independently of the object loaded into, which
    only supplies the hardware profile a file lacks. *)
Lemma load_data_any v m m' r : load_data v m = Ok r -> exists r', load_data v m' = Ok r' /\
  models r' = models r /\ bindings r' = bindings r /\ performance r' = performance r.
Proof.
  unfold load_data. destruct v as [| | | | | |d]; try done.
  destruct (guard_raise _ _ _) as [[]|]; [|done].
  destruct (as_list _); [|done]. destruct (map_result decode_model _); [|done].
  destruct (as_list _); [|done]. destruct (map_result decode_binding _); [|done].
  destruct (dget "hardware" d) as [h|]; [destruct (decode_hardware h); [|done]|];
    destruct (vget_or "performance" (VDict []) d); try done;
    destruct (map_result _ _); try done; intros [= <-]; by eexists.
Qed.

Lemma authorized_ok verifier a : authorized verifier a = Ok tt -> verifier a = Ok true.
Proof.
  unfold authorized. destruct (verifier a) as [b|]; [|done].
  unfold rae. rewrite guard_raise_ok. by intros ->%negb_false_iff.
Qed.

Lemma restore_run p a verifier s :
  str_true p = true -> write_fault p = None -> write_fault (record_path p a) = None ->
  restorable p a verifier (r_disk s) ->
  exists s' m, restore_from_attestation p a verifier s = (s', Ok tt) /\
    load_data (VDict (registry_payload a)) (r_mem s) = Ok m /\ r_mem s' = m /\
    r_disk s' = delete (recovery_path p)
      (<[record_path p a := Written (record_value a)]>
         (<[p := Written (VDict (registry_payload a))]> (r_disk s))).
Proof.
  intros Hp Hw1 Hw2 (Hid & Hc & (mb & marker & Hmb & Hj & Hmm) & Hv & Hpv).
  destruct (payload_valid_loads _ Hpv) as [m0 Hm0].
  destruct (load_data_any _ _ (r_mem s) _ Hm0) as (m & Hm & _).
  unfold restore_from_attestation, mbind, M_bind, gets, of_result.
  rewrite Hp, Hid. simpl. rewrite Hmb, Hj, Hc, Hmm. unfold authorized, rae.
  rewrite Hv, Hpv. simpl. rewrite (write_blob_ok p) by done.
  rewrite write_blob_ok by done. unfold unlink, modify. simpl.
  unfold load_from_disk. simpl.
  rewrite lookup_delete_ne by apply recovery_path_ne.
  rewrite lookup_insert_ne by apply record_ne. rewrite lookup_insert_eq. simpl.
  rewrite Hm. by do 2 eexists.
Qed.

Ltac refute :=
  right; eexists; split; [done|]; intros (? & ? & (? & ? & ? & ? & ?) & ? & ?); congruence.

(** A restoration succeeds exactly when the attestation is complete,
    approved and authorised, agrees with the marker and with the hash of the
    quarantined file, and its payload is valid and has the attested digest;
    the marker is then gone and the registry opens with that payload. *)
Theorem restore_iff p a verifier s :
  str_true p = true -> write_fault p = None -> write_fault (record_path p a) = None ->
  wp (restore_from_attestation p a verifier) s (fun s' r =>
    (r = Ok tt <-> restorable p a verifier (r_disk s)) /\
    (r = Ok tt -> forall iso ts m0, exists m,
       construct (Some p) iso ts (s' <| r_mem := m0 |>) = (mkRegSt m (r_disk s'), Ok tt) /\
       load_data (VDict (registry_payload a)) empty_mem = Ok m) /\
    (r <> Ok tt -> r_disk s' = r_disk s)).
Proof.
  intros Hp Hw1 Hw2.
  assert (restorable p a verifier (r_disk s) \/
          exists e, restore_from_attestation p a verifier s = (s, Raise e) /\
            ~ restorable p a verifier (r_disk s)) as [HR|(e & E & Hn)].
  { unfold restorable, restore_from_attestation, mbind, M_bind, gets, of_result.
    rewrite Hp. simpl.
    destruct (valid_recovery_id _); simpl; [|refute].
    destruct (r_disk s !! recovery_path p) as [mb|]; [|refute].
    destruct (json_load mb) as [v|] eqn:E0; [|refute].
    destruct (attestation_complete a) as [[]|]; [|refute].
    destruct v as [| | | | | |marker]; try refute.
    destruct (marker_matches a marker _) as [[]|] eqn:E1; [|refute].
    destruct (authorized verifier a) as [[]|] eqn:E2.
    2:{ right. eexists. split; [done|]. intros (_ & _ & _ & Hv & _).
        unfold authorized in E2. by rewrite Hv in E2. }
    destruct (payload_valid a) as [[]|]; [|refute].
    left. apply authorized_ok in E2. split_and!; eauto 10. }
  - destruct (restore_run p a verifier s) as (s' & m & E & Hm & Hm' & Hd); [done..|].
    unfold wp. rewrite E. split_and!; [done| |done].
    intros _ iso ts m0. destruct HR as (_ & _ & _ & _ & Hpv).
    destruct (payload_valid_loads _ Hpv) as [m1 Hm1]. exists m1. split; [|done].
    rewrite (construct_load p iso ts _ (Written (VDict (registry_payload a)))).
    + unfold load_of. simpl. by rewrite Hm1.
    + done.
    + simpl. rewrite Hd. by rewrite lookup_delete_eq.
    + simpl. rewrite Hd. rewrite lookup_delete_ne by apply recovery_path_ne.
      rewrite lookup_insert_ne by apply record_ne. by rewrite lookup_insert_eq.
  - unfold wp. rewrite E. split_and!; [|done|done]. split; [done|]. by intros ?%Hn.
Qed.

(** The quarantine is not atomic.  When the marker cannot be written, or
    the process dies between the move and the write, neither the registry
    nor a marker is left, and the next construction bootstraps a fresh
    registry as if none had existed. *)
Theorem quarantine_window p iso ts s b e msg :
  str_true p = true -> r_disk s !! recovery_path p = None -> r_disk s !! p = Some b ->
  load_of b empty_mem = Raise e -> exn_type e <> Unmodelled ->
  move_fault (quarantine_path p ts) = None -> write_fault (recovery_path p) = Some msg ->
  wp (construct (Some p) iso ts) s (fun s' r =>
    r = raise OSError msg /\
    forall iso' ts', construct (Some p) iso' ts' s' = bootstrap (Some p) (mkRegSt empty_mem (r_disk s'))).
Proof.
  intros Hp Hm Hb Hl He Hmv Hw. unfold wp. rewrite (construct_load _ _ _ _ b) by done.
  rewrite Hl.
  assert (forall A (x y : A), match exn_type e with Unmodelled => x | _ => y end = y) as ->
    by (intros; by destruct (exn_type e)).
  unfold quarantine, mbind, M_bind, gets, try_with, move_blob, write_blob. simpl.
  rewrite Hb, Hmv, Hw. split; [done|]. intros iso' ts'.
  unfold construct, mbind, M_bind, set_mem, modify, gets. rewrite Hp. simpl.
  unfold exists_in. rewrite !lookup_insert_ne by
    (apply quarantine_ne || apply quarantine_recovery_ne).
  rewrite lookup_delete_ne by (intros H; symmetry in H; by apply recovery_path_ne in H).
  rewrite Hm. simpl. by rewrite lookup_delete_eq.
Qed.

(** ** Durability *)
Inductive reg_op :=
  | OpRegister (m : ModelDefinition)
  | OpUnregister (model_id : string)
  | OpAvailability (model_id : string) (available : bool)
  | OpBinding (b : ModelCapabilityBinding)
  | OpHardware (h : HardwareProfile).
Definition run_op (p : string) (op : reg_op) : M RegSt unit :=
  match op with
  | OpRegister m => register_model (Some p) m
  | OpUnregister id => unregister (Some p) id
  | OpAvailability id b => set_availability (Some p) id b
  | OpBinding b => add_binding (Some p) b
  | OpHardware h => update_hardware_profile (Some p) h
  end.
(** The caller goes on after an operation that raises. *)
Fixpoint run_ops (p : string) (ops : list reg_op) (s : RegSt) : RegSt :=
  match ops with
  | [] => s
  | op :: ops' => run_ops p ops' (run_op p op s).1
  end.

Definition durable (p : string) (s : RegSt) : Prop :=
  mem_wf (r_mem s) /\ r_disk s !! recovery_path p = None /\
  r_disk s !! p = Some (Written (build_data (r_mem s))).
Definition clean (p : string) (s : RegSt) : Prop :=
  mem_wf (r_mem s) /\ r_disk s !! recovery_path p = None.

Lemma save_durable p s : str_true p = true -> write_fault p = None -> clean p s ->
  wp (save_to_disk (Some p)) s (fun s' r => durable p s' /\ r = Ok tt).
Proof.
  intros Hp Hw [Hwf Hm]. unfold save_to_disk. rewrite Hp. apply wp_bind, wp_gets.
  unfold wp. rewrite write_blob_ok by done. split; [|done]. split_and!; simpl; [done| |].
  - rewrite lookup_insert_ne; [done|]. intros H. symmetry in H. by apply recovery_path_ne in H.
  - by rewrite lookup_insert_eq.
Qed.

Lemma keyed_dset k m d :
  md_model_id m = k -> Forall (fun kv => md_model_id kv.2 = kv.1) d ->
  Forall (fun kv => md_model_id kv.2 = kv.1) (dset k m d).
Proof.
  intros E. induction 1 as [|[k' m'] d Hk Hd IH]; simpl; [by constructor|].
  case_decide; subst; constructor; auto.
Qed.
Lemma keyed_ddel k d :
  Forall (fun kv => md_model_id kv.2 = kv.1) d ->
  Forall (fun kv => md_model_id kv.2 = kv.1) (ddel k d).
Proof.
  induction 1 as [|[k' m'] d Hk Hd IH]; simpl; [done|]. case_decide; [done|by constructor].
Qed.

Lemma update_durable p f s : str_true p = true -> write_fault p = None ->
  durable p s -> mem_wf (f (r_mem s)) ->
  wp (set_mem f ;; save_to_disk (Some p)) s (fun s' _ => durable p s').
Proof.
  intros Hp Hw (_ & Hm & _) Hf. apply wp_bind, wp_modify.
  eapply wp_mono; [apply save_durable|]; [done|done|by split|]. by intros ? ? [].
Qed.

Lemma run_op_durable p op : str_true p = true -> write_fault p = None ->
  preserves (durable p) (run_op p op).
Proof.
  intros Hp Hw s Hs. pose proof Hs as ((Hd & Hk & Hf) & _ & _).
  destruct op as [m|id|id b|b|h]; simpl.
  - apply wp_bind, wp_gets, wp_bind, wp_when; intros E; [by apply wp_throw|].
    apply update_durable; [done..|]. split_and!; simpl; auto using dset_wf, keyed_dset.
  - apply wp_bind, wp_gets, wp_when; intros E; [|done].
    apply update_durable; [done..|]. split_and!; simpl; auto using ddel_wf, keyed_ddel.
  - apply wp_bind, wp_gets. destruct (get_model id (r_mem s)) as [m|] eqn:E; [|by apply wp_ret].
    apply update_durable; [done..|]. split_and!; simpl; auto using dset_wf.
    apply keyed_dset; [|done]. apply dget_elem in E. rewrite Forall_forall in Hk.
    by apply (Hk (id, m)).
  - by apply update_durable.
  - by apply update_durable.
Qed.

(** C16: after any sequence of registrations, removals, availability changes,
    bindings and hardware updates on a durable registry, reopening the file
    gives exactly the registry in memory. *)
Theorem registry_durable p ops s iso ts m0 :
  str_true p = true -> write_fault p = None -> durable p s ->
  construct (Some p) iso ts ((run_ops p ops s) <| r_mem := m0 |>)
    = (run_ops p ops s, Ok tt).
Proof.
  intros Hp Hw Hs. assert (durable p (run_ops p ops s)) as (Hwf & Hm & Hd).
  { revert s Hs. induction ops as [|op ops IH]; intros s Hs; simpl; [done|].
    apply IH. pose proof (run_op_durable p op Hp Hw s Hs) as H. unfold wp in H.
    by destruct (run_op p op s). }
  destruct (run_ops p ops s) as [m d]. cbn [r_mem r_disk setter] in *.
  rewrite (construct_load p iso ts _ (Written (build_data m))) by done.
  unfold load_of. cbn [json_load].
  pose proof (load_build m empty_mem) as E. rewrite !map_id in E.
  destruct Hwf as (Hk & Hid & Hp').
  rewrite (rebuild_values md_model_id), !rebuild_pairs in E by done.
  rewrite E. by destruct m.
Qed.

(** The first construction establishes it. *)
Lemma bootstrap_durable p iso ts s : str_true p = true -> write_fault p = None ->
  r_disk s !! recovery_path p = None -> r_disk s !! p = None ->
  wp (construct (Some p) iso ts) s (fun s' r => durable p s' /\ r = Ok tt).
Proof.
  intros Hp Hw Hm Hn. unfold construct. apply wp_bind, wp_modify. rewrite Hp.
  apply wp_bind, wp_gets, wp_bind, wp_when; unfold exists_in; simpl;
    rewrite Hm; [done|]. intros _. rewrite Hn. unfold bootstrap.
  set (s0 := s <| r_mem := empty_mem |>).
  assert (clean p s0) as Hc.
  { split; [|done]. repeat split; constructor. }
  assert (forall m s1, clean p s1 -> dget (md_model_id m) (models (r_mem s1)) = None ->
    wp (register_model (Some p) m) s1 (fun s2 r => r = Ok tt /\ durable p s2 /\
      models (r_mem s2) = dset (md_model_id m) m (models (r_mem s1)))) as Hreg.
  { intros m s1 [(Hd & Hk & Hf) Hm1] Hfresh. apply wp_bind, wp_gets, wp_bind, wp_when.
    { intros H%dmem_true. by apply dget_None in Hfresh. }
    intros _. apply wp_bind, wp_modify. unfold save_to_disk. rewrite Hp.
    apply wp_bind, wp_gets. unfold wp. rewrite write_blob_ok by done.
    split_and!; [done| |done]. split_and!; simpl; [|..].
    - split_and!; simpl; auto using dset_wf, keyed_dset.
    - rewrite lookup_insert_ne; [done|].
      intros H. symmetry in H. by apply recovery_path_ne in H.
    - by rewrite lookup_insert_eq. }
  apply wp_bind. unfold initial_models, for_each. apply wp_bind.
  eapply wp_mono; [by apply Hreg|]. intros s1 r (-> & (Hw1 & Hm1 & _) & E1).
  apply wp_bind. eapply wp_mono; [apply Hreg; [by split|by rewrite E1]|].
  intros s2 r (-> & H2 & _). apply wp_ret. apply wp_bind.
  assert (forall l s3, durable p s3 -> wp (for_each l (add_binding (Some p))) s3
            (fun s4 r => durable p s4 /\ r = Ok tt)) as Hb.
  { induction l as [|b l IH]; intros s3 H3; [by apply wp_ret|].
    apply wp_bind. apply wp_bind, wp_modify. eapply wp_mono.
    - apply save_durable; [done|done|]. destruct H3 as (? & ? & _). by split.
    - intros s4 r [H4 ->]. by apply IH. }
  eapply wp_mono; [by apply Hb|]. intros s3 r [(? & ? & _) ->].
  by apply save_durable.
Qed.
End Registry.
