(* ===== verification/Intelligence.v ===== *)
(** * The local intelligence layer

    [runtime/intelligence/models.py] and [layer.py]: profiles of
    implementations, benchmark evidence, and the assessment that selects the
    implementation to delegate a capability to. *)
From S2P Require Import Prelude Dict PyVal.

(** ** The order of floats

    Comparisons of numbers that are not NaN agree with the lexicographic order
    of a key: sign class, exponent, mantissa. *)
Definition fkey (f : pyfloat) : Z * Z * Z :=
  match f with
  | S754_infinity true => (-2, 0, 0)%Z
  | S754_finite true m e => (-1, - e, - Z.pos m)%Z
  | S754_zero _ => (0, 0, 0)%Z
  | S754_finite false m e => (1, e, Z.pos m)%Z
  | S754_infinity false => (2, 0, 0)%Z
  | S754_nan => (3, 0, 0)%Z
  end.
Definition is_nan (f : pyfloat) : bool := match f with S754_nan => true | _ => false end.
Definition feq (a b : pyfloat) : bool := SFeqb a b.

Definition klt (a b : Z * Z * Z) : Prop :=
  let '(a1, a2, a3) := a in let '(b1, b2, b3) := b in
  (a1 < b1 \/ a1 = b1 /\ (a2 < b2 \/ a2 = b2 /\ a3 < b3))%Z.

Inductive CapabilityTier := L0 | L1 | L2 | L3 | L4.
Inductive DelegationDecision :=
  | DELEGATE | SELF_EXECUTE | ESCALATE | DEFER | FAIL_CAPABILITY_INSUFFICIENT.
Inductive CertificationStatus := CERTIFIED | STALE | REQUIRES_REBENCHMARK | REVOKED | VALID.
Inductive ResourceFit := FIT | PARTIAL | INSUFFICIENT | RF_UNKNOWN.
#[export] Instance DelegationDecision_eq_dec : EqDecision DelegationDecision.
Proof. solve_decision. Defined.
#[export] Instance CertificationStatus_eq_dec : EqDecision CertificationStatus.
Proof. solve_decision. Defined.
#[export] Instance ResourceFit_eq_dec : EqDecision ResourceFit.
Proof. solve_decision. Defined.

Definition certification_str (c : CertificationStatus) : string :=
  match c with
  | CERTIFIED => "CERTIFIED" | STALE => "STALE"
  | REQUIRES_REBENCHMARK => "REQUIRES_REBENCHMARK" | REVOKED => "REVOKED" | VALID => "VALID"
  end.

Record ImplementationProfile := mkProfile {
  ip_implementation_id : string;
  ip_capability_ids : list string;
  ip_quality_profile : string;
  ip_resource_profile : dict string pyval;
  ip_latency_profile : dict string pyval;
  ip_cost_profile : dict string pyval;
  ip_availability : bool;
  ip_certification : CertificationStatus;
  ip_artifact_references : list string;
  ip_adapter_references : list string;
  ip_base_model_revision : option string;
  ip_adapter_revision : option string;
  ip_runtime_version : option string;
  ip_hardware_profile : option (dict string pyval);
  ip_execution_class : string }.
#[export] Instance eta_ImplementationProfile : Eta ImplementationProfile := fun r =>
  mkProfile (ip_implementation_id r) (ip_capability_ids r) (ip_quality_profile r)
    (ip_resource_profile r) (ip_latency_profile r) (ip_cost_profile r) (ip_availability r)
    (ip_certification r) (ip_artifact_references r) (ip_adapter_references r)
    (ip_base_model_revision r) (ip_adapter_revision r) (ip_runtime_version r)
    (ip_hardware_profile r) (ip_execution_class r).

Record ImplementationCandidate := mkCandidate {
  ic_implementation_id : string;
  ic_execution_class : string;
  ic_availability : bool;
  ic_quality : pyfloat;
  ic_confidence : pyfloat;
  ic_latency : pyfloat;
  ic_resource_fit : ResourceFit;
  ic_policy_fit : bool;
  ic_evidence_ref : option string }.

(** [br_adapter_revision] is the attribute that [check_certification_drift]
    looks for with [getattr]; the dataclass does not declare it. *)
Record BenchmarkResult := mkBenchmark {
  br_benchmark_id : string;
  br_implementation_id : string;
  br_capability_id : string;
  br_dataset_version : string;
  br_score : pyfloat;
  br_confidence : pyfloat;
  br_latency : pyfloat;
  br_resource_usage : dict string pyval;
  br_timestamp : Z;
  br_certification_status : CertificationStatus;
  br_adapter_revision : option string }.

Record CapabilityAssessmentRequest := mkAssessmentRequest {
  ar_capability_id : string;
  ar_quality_required : pyfloat;
  ar_latency_requirement : option pyfloat;
  ar_resource_constraints : option (dict string pyval);
  ar_policy_constraints : option (dict string pyval) }.

Record Provenance := mkProvenance {
  pv_eligible_candidates : list string;
  pv_rejection_reasons : dict string string;
  pv_selected_implementation : option string }.

Record CapabilityAssessmentResponse := mkAssessmentResponse {
  as_decision : DelegationDecision;
  as_selected_implementation : option ImplementationCandidate;
  as_quality_score : pyfloat;
  as_confidence : pyfloat;
  as_tier : CapabilityTier;
  as_reason : string;
  as_provenance : Provenance }.

(** [LocalIntelligenceLayer]: the assessment cache is cleared on every change
    and never filled, so it carries no information and is left out. *)
Record Layer := mkLayer {
  implementations : dict string ImplementationProfile;
  benchmarks : dict string BenchmarkResult }.
#[export] Instance eta_Layer : Eta Layer := fun r => mkLayer (implementations r) (benchmarks r).

Definition register_implementation (p : ImplementationProfile) (l : Layer) : Layer :=
  l <| implementations := dset (ip_implementation_id p) p (implementations l) |>.
Definition remove_implementation (id : string) (l : Layer) : Layer :=
  if dmem id (implementations l)
  then l <| implementations := ddel id (implementations l) |> else l.
Definition add_benchmark_result (b : BenchmarkResult) (l : Layer) : Layer :=
  l <| benchmarks := dset (br_benchmark_id b) b (benchmarks l) |>.

Fixpoint insert_float (x : pyfloat) (l : list pyfloat) : list pyfloat :=
  match l with
  | [] => [x]
  | y :: l' => if flt x y then x :: l else y :: insert_float x l'
  end.
Definition sort_floats (l : list pyfloat) : list pyfloat :=
  foldl (fun acc x => insert_float x acc) [] l.

(** [key(a) < key(b)] for the sort key [(quality, confidence)]: tuples compare
    at the first differing component. *)
Definition cand_lt (a b : ImplementationCandidate) : bool :=
  if feq (ic_quality a) (ic_quality b) then flt (ic_confidence a) (ic_confidence b)
  else flt (ic_quality a) (ic_quality b).
(** [sort(key, reverse=True)]: descending and stable. *)
Fixpoint insert_cand (c : ImplementationCandidate) (l : list ImplementationCandidate)
    : list ImplementationCandidate :=
  match l with
  | [] => [c]
  | d :: l' => if cand_lt d c then c :: l else d :: insert_cand c l'
  end.
Definition sort_candidates (l : list ImplementationCandidate) : list ImplementationCandidate :=
  foldl (fun acc c => insert_cand c acc) [] l.

Section Layer.
Context {float_ops : FloatOps}.

Definition fzero : pyfloat := f_of_Z 0.
Definition mean (l : list pyfloat) : pyfloat :=
  fdiv (float_sum l) (f_of_Z (Z.of_nat (length l))).

Definition relevant_benchmarks (l : Layer) (impl_id capability_id : string)
  : list BenchmarkResult :=
  filter (fun b => br_implementation_id b = impl_id /\ br_capability_id b = capability_id)
    (dvalues (benchmarks l)).

Definition get_benchmark_stats (l : Layer) (impl_id capability_id : string)
  : pyfloat * pyfloat * pyfloat :=
  let relevant := relevant_benchmarks l impl_id capability_id in
  match relevant with
  | [] => (fzero, fzero, fzero)
  | _ =>
      let latencies := sort_floats (map br_latency relevant) in
      (mean (map br_score relevant), mean (map br_confidence relevant),
       nth (length latencies / 2) latencies fzero)
  end.

Definition determine_tier (score : pyfloat) : CapabilityTier :=
  if fge score (flit 95 100) then L4
  else if fge score (flit 90 100) then L3
  else if fge score (flit 85 100) then L2
  else if fge score (flit 75 100) then L1
  else L0.

Definition constraint (k : string) (c : option (dict string pyval)) : pyval :=
  match c with Some d => vget k d | None => VNone end.
Definition dict_true (c : option (dict string pyval)) : bool :=
  match c with Some (_ :: _) => true | _ => false end.

(** One iteration of the loop of [assess_capability]: the candidate, or the
    reason of the rejection. *)
Definition assess_impl (l : Layer) (req : CapabilityAssessmentRequest)
    (impl : ImplementationProfile) : string + ImplementationCandidate :=
  let impl_id := ip_implementation_id impl in
  if negb (ip_availability impl) then inl "Not available"
  else if negb (str_in (ar_capability_id req) (ip_capability_ids impl)) then
    inl ("Unsupported capability '" +:+ ar_capability_id req +:+ "'")
  else if bool_decide (ip_certification impl ∈ [STALE; REQUIRES_REBENCHMARK; REVOKED]) then
    inl ("Certification status invalid: " +:+ certification_str (ip_certification impl))
  else
    let '(score, conf, latency) := get_benchmark_stats l impl_id (ar_capability_id req) in
    if feq score fzero && feq conf fzero then inl "No valid benchmark evidence found"
    else if dict_true (ar_resource_constraints req)
            && truthy (constraint "requires_gpu" (ar_resource_constraints req))
            && negb (truthy (vget "gpu_present" (ip_resource_profile impl))) then
      inl "Resource fit incompatible: missing GPU"
    else if dict_true (ar_policy_constraints req)
            && match constraint "network" (ar_policy_constraints req) with
               | VStr s => s =s "disabled" | _ => false end
            && truthy (vget_or "requires_network" (VBool false) (ip_resource_profile impl))
    then inl "Policy denial: Implementation requires network access but policy forbids it"
    else inr (mkCandidate impl_id (ip_execution_class impl) (ip_availability impl) score
                conf latency FIT true None).

(** The loop: eligible identifiers, rejection reasons, candidates. *)
Fixpoint assess_loop (l : Layer) (req : CapabilityAssessmentRequest)
    (impls : list ImplementationProfile)
    (acc : list string * dict string string * list ImplementationCandidate)
  : list string * dict string string * list ImplementationCandidate :=
  match impls with
  | [] => acc
  | impl :: impls' =>
      let '(eligible, reasons, cands) := acc in
      let id := ip_implementation_id impl in
      assess_loop l req impls'
        match assess_impl l req impl with
        | inl reason => (eligible, dset id reason reasons, cands)
        | inr c => (eligible ++ [id], reasons, cands ++ [c])
        end
  end.

Definition valid_candidate (c : ImplementationCandidate) : bool :=
  ic_policy_fit c && bool_decide (ic_resource_fit c ∈ [FIT; PARTIAL]).

Definition impls_to_check (l : Layer) (available : option (list string))
  : list ImplementationProfile :=
  match available with
  | None => dvalues (implementations l)
  | Some ids => filter (fun p => ip_implementation_id p ∈ ids) (dvalues (implementations l))
  end.

Definition assess_capability (l : Layer) (req : CapabilityAssessmentRequest)
    (available : option (list string)) : CapabilityAssessmentResponse :=
  let '(eligible, reasons, cands) :=
    assess_loop l req (impls_to_check l available) ([], [], []) in
  match sort_candidates (filter (fun c => valid_candidate c = true) cands) with
  | [] =>
      mkAssessmentResponse FAIL_CAPABILITY_INSUFFICIENT None fzero fzero L0
        "No available implementations for capability met constraints"
        (mkProvenance eligible reasons None)
  | best :: _ =>
      let tier := determine_tier (ic_quality best) in
      let q := float_repr (ic_quality best) in
      let r := float_repr (ar_quality_required req) in
      if fge (ic_quality best) (ar_quality_required req) then
        mkAssessmentResponse DELEGATE (Some best) (ic_quality best) (ic_confidence best) tier
          ("Candidate " +:+ ic_implementation_id best +:+ " meets required quality ("
             +:+ q +:+ " >= " +:+ r +:+ ")")
          (mkProvenance eligible reasons (Some (ic_implementation_id best)))
      else
        mkAssessmentResponse ESCALATE None (ic_quality best) (ic_confidence best) tier
          ("Best candidate " +:+ ic_implementation_id best +:+ " below required quality ("
             +:+ q +:+ " < " +:+ r +:+ ")")
          (mkProvenance eligible
             (dset "all" "No candidate met required quality threshold" reasons) None)
  end.

(** [max(relevant, key=timestamp)]: the first of the latest. *)
Fixpoint latest (b : BenchmarkResult) (l : list BenchmarkResult) : BenchmarkResult :=
  match l with
  | [] => b
  | b' :: l' => latest (if (br_timestamp b <? br_timestamp b')%Z then b' else b) l'
  end.

Definition check_certification_drift (l : Layer) (p : ImplementationProfile)
  : CertificationStatus :=
  match filter (fun b => br_implementation_id b = ip_implementation_id p)
          (dvalues (benchmarks l)) with
  | [] => REQUIRES_REBENCHMARK
  | b :: bs =>
      let rev := br_adapter_revision (latest b bs) in
      if ostr_true (ip_adapter_revision p) && ostr_true rev
         && negb (bool_decide (ip_adapter_revision p = rev))
      then STALE else ip_certification p
  end.
End Layer.

(** ** Comparison lemmas *)
Lemma flt_key a b : is_nan a = false -> is_nan b = false ->
  (flt a b = true <-> klt (fkey a) (fkey b)).
Proof.
  intros Ha Hb. unfold flt, SFltb, klt, fkey.
  destruct a as [sa|[]| |[] ma ea], b as [sb|[]| |[] mb eb]; try done; simpl;
    try (split; intros; (done || lia)).
  all: change (Pos.compare_cont Eq ma mb) with (Pos.compare ma mb).
  all: destruct (Z.compare_spec ea eb), (Pos.compare_spec ma mb);
    split; intros; simpl in *; (done || lia).
Qed.

Lemma feq_key a b : is_nan a = false -> is_nan b = false ->
  (feq a b = true <-> fkey a = fkey b).
Proof.
  intros Ha Hb. unfold feq, SFeqb, fkey.
  destruct a as [sa|[]| |[] ma ea], b as [sb|[]| |[] mb eb]; try done; simpl;
    try (split; intros; (done || lia)).
  all: change (Pos.compare_cont Eq ma mb) with (Pos.compare ma mb).
  all: destruct (Z.compare_spec ea eb), (Pos.compare_spec ma mb);
    split; intros; simpl in *; simplify_eq; (done || lia).
Qed.

Lemma fge_key a b : is_nan a = false -> is_nan b = false ->
  (fge a b = true <-> ~ klt (fkey a) (fkey b)).
Proof.
  intros Ha Hb. unfold fge, SFleb, klt, fkey.
  destruct a as [sa|[]| |[] ma ea], b as [sb|[]| |[] mb eb]; try done; simpl;
    try (split; intros; (done || lia)).
  all: change (Pos.compare_cont Eq mb ma) with (Pos.compare mb ma).
  all: destruct (Z.compare_spec eb ea), (Pos.compare_spec mb ma);
    split; intros; simpl in *; (done || lia).
Qed.

Definition cand_number (c : ImplementationCandidate) : Prop :=
  is_nan (ic_quality c) = false /\ is_nan (ic_confidence c) = false.

Definition cklt (a b : ImplementationCandidate) : Prop :=
  klt (fkey (ic_quality a)) (fkey (ic_quality b)) \/
  fkey (ic_quality a) = fkey (ic_quality b) /\
    klt (fkey (ic_confidence a)) (fkey (ic_confidence b)).

Lemma klt_irrefl a : ~ klt a a.
Proof. destruct a as [[]]. unfold klt. lia. Qed.
Lemma klt_trans a b c : klt a b -> klt b c -> klt a c.
Proof. destruct a as [[]], b as [[]], c as [[]]. unfold klt. lia. Qed.
Lemma klt_cotrans a b c : ~ klt b a -> ~ klt c b -> ~ klt c a.
Proof. destruct a as [[]], b as [[]], c as [[]]. unfold klt. lia. Qed.
Lemma klt_total a b : ~ klt a b -> ~ klt b a -> a = b.
Proof.
  destruct a as [[a1 a2] a3], b as [[b1 b2] b3]. unfold klt. intros.
  assert (a1 = b1 /\ a2 = b2 /\ a3 = b3) as (-> & -> & ->); [lia|done].
Qed.

Lemma cand_lt_key a b : cand_number a -> cand_number b -> (cand_lt a b = true <-> cklt a b).
Proof.
  intros [Ha1 Ha2] [Hb1 Hb2]. unfold cand_lt, cklt.
  destruct (feq (ic_quality a) (ic_quality b)) eqn:E.
  - apply feq_key in E; [|done..]. rewrite flt_key by done. split.
    + intros H. right. by split.
    + intros [H|[_ H]]; [|done]. rewrite E in H. by apply klt_irrefl in H.
  - rewrite flt_key by done. split; [by left|]. intros [H|[H _]]; [done|].
    apply feq_key in H; [congruence|done..].
Qed.

Lemma cklt_cotrans a b c : ~ cklt b a -> ~ cklt c b -> ~ cklt c a.
Proof.
  unfold cklt. intros H1 H2 [H|[E H]].
  - assert (~ klt (fkey (ic_quality b)) (fkey (ic_quality a))) as Hb by tauto.
    assert (~ klt (fkey (ic_quality c)) (fkey (ic_quality b))) as Hc by tauto.
    by apply (klt_cotrans _ _ _ Hb Hc).
  - assert (~ klt (fkey (ic_quality b)) (fkey (ic_quality a))) as Hb by tauto.
    assert (~ klt (fkey (ic_quality c)) (fkey (ic_quality b))) as Hc by tauto.
    assert (fkey (ic_quality b) = fkey (ic_quality a)) as E2.
    { apply klt_total; [done|]. by rewrite <-E. }
    assert (~ klt (fkey (ic_confidence b)) (fkey (ic_confidence a))) as Hb' by tauto.
    assert (~ klt (fkey (ic_confidence c)) (fkey (ic_confidence b))) as Hc'
      by (intros ?; apply H2; right; split; congruence).
    by apply (klt_cotrans _ _ _ Hb' Hc').
Qed.

(** ** Sorting and selection *)
Lemma insert_cand_perm c l : insert_cand c l ≡ₚ c :: l.
Proof.
  induction l as [|d l IH]; simpl; [done|]. destruct (cand_lt d c); [done|].
  rewrite IH. constructor.
Qed.
Lemma sort_candidates_perm l : sort_candidates l ≡ₚ l.
Proof.
  unfold sort_candidates. enough (forall acc, foldl (fun a c => insert_cand c a) acc l ≡ₚ acc ++ l)
    as H by apply H.
  induction l as [|c l IH]; intros acc; simpl; [by rewrite app_nil_r|].
  rewrite IH, insert_cand_perm. simpl. rewrite (comm (++) acc (c :: l)). simpl.
  by rewrite (comm (++) l acc).
Qed.

(** The head is maximal: no other element has a greater key. *)
Definition head_max (l : list ImplementationCandidate) : Prop :=
  match l with
  | [] => True
  | b :: l' => Forall (fun c => ~ cklt b c) l'
  end.

Lemma insert_cand_max c l : Forall cand_number (c :: l) -> head_max l -> head_max (insert_cand c l).
Proof.
  destruct l as [|d l]; intros Hn Hm; [constructor|]. simpl in *.
  inversion Hn as [|? ? Hc Hl]; subst. inversion Hl as [|? ? Hd Hl']; subst.
  destruct (cand_lt d c) eqn:E.
  - apply cand_lt_key in E; [|done..]. assert (~ cklt c d) as Hcd.
    { intros H. destruct E as [E|[E1 E]], H as [H|[H1 H]].
      - eapply klt_irrefl, klt_trans; eauto.
      - rewrite H1 in E. by eapply klt_irrefl.
      - rewrite E1 in H. by eapply klt_irrefl.
      - eapply klt_irrefl, klt_trans; eauto. }
    constructor; [done|]. eapply Forall_impl; [exact Hm|]. intros x Hx.
    by apply (cklt_cotrans x d c).
  - assert (~ cklt d c) as Hdc by (intros H; apply cand_lt_key in H; [congruence|done..]).
    assert (forall x, x ∈ insert_cand c l -> ~ cklt d x) as H; [|by apply Forall_forall].
    intros x Hx. rewrite insert_cand_perm in Hx. apply elem_of_cons in Hx as [->|Hx]; [done|].
    rewrite Forall_forall in Hm. by apply Hm.
Qed.

Lemma sort_candidates_max l : Forall cand_number l -> head_max (sort_candidates l).
Proof.
  unfold sort_candidates. enough (forall acc, Forall cand_number (acc ++ l) -> head_max acc ->
    head_max (foldl (fun a c => insert_cand c a) acc l)) as H by (intros; by apply H).
  induction l as [|c l IH]; intros acc Hn Hm; simpl; [done|]. apply IH.
  - rewrite insert_cand_perm. simpl. by rewrite (Permutation_middle acc l c).
  - apply insert_cand_max; [|done]. apply Forall_app in Hn as [Ha Hc].
    inversion Hc; subst. by constructor.
Qed.

Section LayerFacts.
Context {float_ops : FloatOps}.

Definition accepted (l : Layer) (req : CapabilityAssessmentRequest)
    (impl : ImplementationProfile) : option ImplementationCandidate :=
  match assess_impl l req impl with inr c => Some c | inl _ => None end.

Lemma assess_loop_cands l req impls e r cs :
  (assess_loop l req impls (e, r, cs)).2 = cs ++ omap (accepted l req) impls.
Proof.
  revert e r cs. induction impls as [|p impls IH]; intros e r cs; simpl; [by rewrite app_nil_r|].
  unfold accepted at 1. destruct (assess_impl l req p); rewrite IH; [done|].
  by rewrite <-app_assoc.
Qed.

(** What a candidate says of its implementation. *)
Lemma assess_impl_inr l req impl c : assess_impl l req impl = inr c ->
  ip_availability impl = true /\ ar_capability_id req ∈ ip_capability_ids impl /\
  (ip_certification impl = CERTIFIED \/ ip_certification impl = VALID) /\
  ic_implementation_id c = ip_implementation_id impl /\
  ic_execution_class c = ip_execution_class impl /\
  valid_candidate c = true /\
  (ic_quality c, ic_confidence c, ic_latency c)
    = get_benchmark_stats l (ip_implementation_id impl) (ar_capability_id req) /\
  relevant_benchmarks l (ip_implementation_id impl) (ar_capability_id req) <> [].
Proof.
  unfold assess_impl. destruct (ip_availability impl); [simpl|done].
  destruct (str_in _ _) eqn:Es; [simpl|done]. apply str_in_true in Es.
  destruct (bool_decide _) eqn:Ec; [done|]. apply bool_decide_eq_false in Ec.
  destruct (get_benchmark_stats _ _ _) as [[score conf] lat] eqn:Eb.
  destruct (feq score fzero && feq conf fzero) eqn:Ez; [done|].
  destruct (_ && _ && _); [done|]. destruct (_ && _ && _); [done|].
  intros [= <-]. simpl. split_and!; try done.
  - destruct (ip_certification impl); set_solver.
  - intros Hr. unfold get_benchmark_stats in Eb. rewrite Hr in Eb.
    injection Eb as <- <- <-. by vm_compute in Ez.
Qed.

Definition accepted_all l req avail : list ImplementationCandidate :=
  omap (accepted l req) (impls_to_check l avail).

Lemma accepted_all_valid l req avail :
  filter (fun c => valid_candidate c = true) (accepted_all l req avail)
  = accepted_all l req avail.
Proof.
  unfold accepted_all. induction (impls_to_check l avail) as [|p ps IH]; simpl; [done|].
  destruct (accepted l req p) as [c|] eqn:Ea; [|exact IH].
  unfold accepted in Ea. destruct (assess_impl l req p) eqn:E; simplify_eq.
  apply assess_impl_inr in E as (_ & _ & _ & _ & _ & Hv & _).
  rewrite filter_cons_True by done. f_equal. exact IH.
Qed.

Lemma assess_cases l req avail :
  match sort_candidates (accepted_all l req avail) with
  | [] => as_decision (assess_capability l req avail) = FAIL_CAPABILITY_INSUFFICIENT /\
      as_selected_implementation (assess_capability l req avail) = None
  | b :: _ =>
      if fge (ic_quality b) (ar_quality_required req)
      then as_decision (assess_capability l req avail) = DELEGATE /\
           as_selected_implementation (assess_capability l req avail) = Some b
      else as_decision (assess_capability l req avail) = ESCALATE /\
           as_selected_implementation (assess_capability l req avail) = None
  end.
Proof.
  unfold assess_capability.
  pose proof (assess_loop_cands l req (impls_to_check l avail) [] [] []) as E.
  destruct (assess_loop _ _ _ _) as [[e r] cs]. simpl in E. subst cs.
  change (omap _ _) with (accepted_all l req avail). rewrite accepted_all_valid.
  destruct (sort_candidates _) as [|b bs]; [done|].
  destruct (fge (ic_quality b) (ar_quality_required req)); done.
Qed.

Lemma accepted_all_elem l req avail c : c ∈ accepted_all l req avail <->
  exists impl, impl ∈ impls_to_check l avail /\ assess_impl l req impl = inr c.
Proof.
  unfold accepted_all. rewrite list_elem_of_omap. unfold accepted.
  split; intros (p & Hp & H); exists p; (split; [done|]).
  - destruct (assess_impl l req p); by simplify_eq.
  - by rewrite H.
Qed.

(** An implementation is delegated to only if it is available, supports
    the capability, has a valid certification, has benchmark evidence whose
    mean score reaches the required quality, and no other acceptable
    implementation has a greater (quality, confidence). *)
Lemma assess_delegate_sound l req avail c :
  as_selected_implementation (assess_capability l req avail) = Some c ->
  as_decision (assess_capability l req avail) = DELEGATE /\
  fge (ic_quality c) (ar_quality_required req) = true /\
  (exists impl, impl ∈ impls_to_check l avail /\
     ic_implementation_id c = ip_implementation_id impl /\
     ic_execution_class c = ip_execution_class impl /\
     ip_availability impl = true /\ ar_capability_id req ∈ ip_capability_ids impl /\
     (ip_certification impl = CERTIFIED \/ ip_certification impl = VALID) /\
     relevant_benchmarks l (ip_implementation_id impl) (ar_capability_id req) <> [] /\
     ic_quality c = mean (map br_score
       (relevant_benchmarks l (ip_implementation_id impl) (ar_capability_id req)))) /\
  (Forall cand_number (accepted_all l req avail) ->
   forall c', c' ∈ accepted_all l req avail -> cand_lt c c' = false).
Proof.
  intros Hs. pose proof (assess_cases l req avail) as Hc.
  pose proof (sort_candidates_perm (accepted_all l req avail)) as Hp.
  destruct (sort_candidates (accepted_all l req avail)) as [|b bs] eqn:E; [by destruct Hc; congruence|].
  destruct (fge (ic_quality b) (ar_quality_required req)) eqn:Eq; [|destruct Hc; congruence].
  destruct Hc as [Hd Hb]. rewrite Hb in Hs. injection Hs as ->. split_and!; [done|done| |].
  - assert (c ∈ accepted_all l req avail) as Hin by (rewrite <-Hp; by left).
    apply accepted_all_elem in Hin as (impl & Hi & Ha). exists impl.
    apply assess_impl_inr in Ha as (H1 & H2 & H3 & H4 & H5 & _ & H7 & H8).
    split_and!; try done. unfold get_benchmark_stats in H7.
    destruct (relevant_benchmarks _ _ _) as [|b' bl] in H7, H8 |- *; [done|]. by injection H7.
  - intros Hn c' Hin. pose proof (sort_candidates_max _ Hn) as Hm. rewrite E in Hm. simpl in Hm.
    assert (c ∈ accepted_all l req avail) as Hcin by (rewrite <-Hp; by left).
    rewrite Forall_forall in Hn. destruct (cand_lt c c') eqn:El; [|done].
    apply cand_lt_key in El; [|by apply Hn..]. exfalso.
    rewrite <-Hp in Hin. apply elem_of_cons in Hin as [->|Hin].
    + destruct El as [H|[_ H]]; by apply klt_irrefl in H.
    + rewrite Forall_forall in Hm. by apply (Hm _ Hin).
Qed.

(** Conversely, when some acceptable implementation reaches the required
    quality, the assessment delegates. *)
Theorem assess_delegate_complete l req avail c :
  Forall cand_number (accepted_all l req avail) ->
  is_nan (ar_quality_required req) = false ->
  c ∈ accepted_all l req avail -> fge (ic_quality c) (ar_quality_required req) = true ->
  as_decision (assess_capability l req avail) = DELEGATE /\
  exists b, as_selected_implementation (assess_capability l req avail) = Some b.
Proof.
  intros Hn Hr Hin Hq. pose proof (assess_cases l req avail) as Hc.
  pose proof (sort_candidates_perm (accepted_all l req avail)) as Hp.
  pose proof (sort_candidates_max _ Hn) as Hm.
  destruct (sort_candidates (accepted_all l req avail)) as [|b bs] eqn:E.
  { rewrite <-Hp in Hin. by apply not_elem_of_nil in Hin. }
  assert (b ∈ accepted_all l req avail) as Hbin by (rewrite <-Hp; by left).
  rewrite Forall_forall in Hn. destruct (Hn _ Hin) as [Hcq _], (Hn _ Hbin) as [Hbq _].
  destruct (fge (ic_quality b) (ar_quality_required req)) eqn:Eq; [destruct Hc; eauto|].
  exfalso. apply fge_key in Hq; [|done..].
  assert (~ klt (fkey (ic_quality b)) (fkey (ic_quality c))) as Hbc.
  { rewrite <-Hp in Hin. apply elem_of_cons in Hin as [->|Hin]; [apply klt_irrefl|].
    simpl in Hm. rewrite Forall_forall in Hm. intros H. apply (Hm _ Hin). by left. }
  assert (fge (ic_quality b) (ar_quality_required req) = true) as H; [|congruence].
  apply fge_key; [done..|]. intros H. by apply (klt_cotrans _ _ _ Hq Hbc).
Qed.
End LayerFacts.
