(* ===== verification/Orchestrator.v ===== *)
(** * The orchestration kernel

    [runtime/orchestration/plan.py], [frontier.py], [kernel.py] and
    [runtime/execution/selector.py]: reconciliation of the model registry with
    the intelligence layer, and the routing of a task to an execution plan. *)
From S2P Require Import Prelude Dict PyVal ExecModels Registry Intelligence.

Inductive RoutingClass :=
  | RC_DETERMINISTIC | RC_LOCAL_MODEL | RC_FRONTIER_MODEL | RC_BLOCKED | RC_ESCALATED
  | RC_DEFERRED.
#[export] Instance RoutingClass_eq_dec : EqDecision RoutingClass.
Proof. solve_decision. Defined.
Definition routing_class_str (r : RoutingClass) : string :=
  match r with
  | RC_DETERMINISTIC => "DETERMINISTIC" | RC_LOCAL_MODEL => "LOCAL_MODEL"
  | RC_FRONTIER_MODEL => "FRONTIER_MODEL" | RC_BLOCKED => "BLOCKED"
  | RC_ESCALATED => "ESCALATED" | RC_DEFERRED => "DEFERRED"
  end.

Record ExecutionPlan := mkPlan {
  pl_task_id : string;
  pl_capability_id : string;
  pl_capability_version : string;
  pl_routing_class : RoutingClass;
  pl_executor_type : string;
  pl_executor_id : string;
  pl_model_id : option string;
  pl_model_version : option string;
  pl_policy_version : string;
  pl_authority : string;
  pl_workspace_policy : string;
  pl_deadline : option string;
  pl_resource_limits : dict string pyval;
  pl_fallback_policy : option string;
  pl_evidence_policy : dict string pyval;
  pl_decision_reason : string;
  pl_provenance : dict string pyval }.

Definition opt_val (o : option string) : pyval :=
  match o with Some s => VStr s | None => VNone end.

(** [ExecutionPlan.to_dict] *)
Definition plan_to_dict (p : ExecutionPlan) : dict string pyval :=
  [("task_id", VStr (pl_task_id p)); ("capability_id", VStr (pl_capability_id p));
   ("capability_version", VStr (pl_capability_version p));
   ("routing_class", VStr (routing_class_str (pl_routing_class p)));
   ("executor_type", VStr (pl_executor_type p)); ("executor_id", VStr (pl_executor_id p));
   ("model_id", opt_val (pl_model_id p)); ("model_version", opt_val (pl_model_version p));
   ("policy_version", VStr (pl_policy_version p)); ("authority", VStr (pl_authority p));
   ("workspace_policy", VStr (pl_workspace_policy p)); ("deadline", opt_val (pl_deadline p));
   ("resource_limits", VDict (pl_resource_limits p));
   ("fallback_policy", opt_val (pl_fallback_policy p));
   ("evidence_policy", VDict (pl_evidence_policy p));
   ("decision_reason", VStr (pl_decision_reason p));
   ("provenance", VDict (ddel "api_key" (ddel "secrets" (pl_provenance p))))].

(** The interface of a frontier executor. *)
Class FrontierExecutor := {
  fe_is_available : option string -> bool;
  fe_execute_plan : Task -> ExecutionPlan -> result (dict string pyval) }.

(** [DefaultFrontierExecutor(enabled, available_models)] *)
Definition default_frontier_models : list string :=
  ["frontier-gpt4"; "frontier-claude-3-5-sonnet"].
Definition default_frontier_available (enabled_ : bool) (ms : list string)
    (model_id : option string) : bool :=
  if negb enabled_ then false
  else match model_id with
       | Some m => str_in m ms
       | None => match ms with [] => false | _ => true end
       end.
Definition default_frontier_execute (enabled_ : bool) (ms : list string)
    (t : Task) (p : ExecutionPlan) : result (dict string pyval) :=
  if negb (default_frontier_available enabled_ ms (pl_model_id p))
  then raise RuntimeError ("Frontier model " +:+ default "None" (pl_model_id p)
                             +:+ " is unavailable or unauthorized")
  else Ok [("status", VStr "COMPLETED"); ("task_id", VStr (t_task_id t));
           ("plan_id", VStr (pl_task_id p)); ("executor", VStr "DefaultFrontierExecutor");
           ("model_id", opt_val (pl_model_id p))].
Definition DefaultFrontierExecutor (enabled_ : bool) (available_models : list string)
  : FrontierExecutor :=
  let ms := match available_models with [] => default_frontier_models | _ => available_models end in
  {| fe_is_available := default_frontier_available enabled_ ms;
     fe_execute_plan := default_frontier_execute enabled_ ms |}.

(** What [plan_task] reads of a task, with the defaults of its [getattr]s. *)
Record PlanTask := mkPlanTask {
  pt_task_id : string;
  pt_capability_id : option string;
  pt_type : string;
  pt_constraints : option (dict string pyval);
  pt_requires_network : bool;
  pt_allow_frontier : bool;
  pt_preferred_frontier_model : string }.
Definition plan_task_of (t : Task) : PlanTask :=
  mkPlanTask (t_task_id t) (Some (t_capability_id t)) "unknown" (Some (t_constraints t))
    false false "frontier-gpt4".

Record Orchestrator := mkOrchestrator {
  o_capabilities : CapabilityRegistry;
  o_registry : RegMem;
  o_layer : Layer }.
#[export] Instance eta_Orchestrator : Eta Orchestrator := fun r =>
  mkOrchestrator (o_capabilities r) (o_registry r) (o_layer r).

(** [s in v] for a string and any value. *)
Definition py_in (s : string) (v : pyval) : result bool :=
  match v with
  | VList l => Ok (existsb (fun x => match x with VStr t => t =s s | _ => false end) l)
  | VDict d => Ok (dmem s d)
  | VStr t => Ok (contains s t)
  | _ => raise TypeError "argument is not iterable"
  end.

(** The fabric contract check: revoked only if the contract can be read and
    lists the capability. *)
Definition contract_revokes (contract : option (result pyval)) (cap_id : string) : bool :=
  match contract with
  | Some (Ok (VDict d)) =>
      match py_in cap_id (vget_or "revoked_capabilities" (VList []) d) with
      | Ok b => b
      | Raise _ => false
      end
  | _ => false
  end.

Section Kernel.
Context {float_ops : FloatOps} {frontier : FrontierExecutor}.

(** One model of the loop of [_reconcile_registries]. *)
Definition model_avail (reg : RegMem) (impl_id : string) (m : ModelDefinition) : bool :=
  is_available impl_id reg &&
  (if str_in (md_executor_type m) ["REMOTE_MODEL"; "FRONTIER_MODEL"]
   then fe_is_available (Some impl_id) else true).
Definition model_caps (m : ModelDefinition) : list string :=
  match md_capabilities_supported m with [] => ["document.classify"] | l => l end.
Definition reconcile_model (reg : RegMem) (l : Layer) (kv : string * ModelDefinition) : Layer :=
  let '(impl_id, m) := kv in
  let avail := model_avail reg impl_id m in
  match dget impl_id (implementations l) with
  | Some profile =>
      l <| implementations := dset impl_id
             (profile <| ip_availability := avail |>
                      <| ip_execution_class := md_executor_type m |>
                      <| ip_capability_ids := model_caps m |>) (implementations l) |>
  | None =>
      register_implementation
        (mkProfile impl_id (model_caps m) "high" [("gpu_present", VBool false)]
           [("p50", VInt 100)] [("token_cost", VFloat fzero)] avail CERTIFIED [] []
           None None None None (md_executor_type m)) l
  end.
Definition registered_models (reg : RegMem) : dict string ModelDefinition :=
  foldl (fun d m => dset (md_model_id m) m d) [] (list_models reg).
Definition reconcile_registries (reg : RegMem) (l : Layer) : Layer :=
  let registered := registered_models reg in
  let l1 := foldl (reconcile_model reg) l registered in
  foldl (fun l id => if dmem id registered then l else remove_implementation id l)
    l1 (dkeys (implementations l1)).

(** [Orchestrator.__init__] *)
Definition new_orchestrator (caps : CapabilityRegistry) (reg : RegMem) (l : Layer)
  : Orchestrator := mkOrchestrator caps reg (reconcile_registries reg l).

Definition available_models (reg : RegMem) : list string :=
  filter (fun id => is_available id reg = true) (map md_model_id (list_models reg)).

(** The plans of the code: blocked ones all have the same shape. *)
Definition blocked_plan (task_id cap_id version policy_version reason : string)
    (prov : dict string pyval) : ExecutionPlan :=
  mkPlan task_id cap_id version RC_BLOCKED "NONE" "none" None None policy_version
    "anny-kernel" "workspace_only" None [] None [] reason prov.
Definition routed_plan (task_id cap_id version : string) (rc : RoutingClass)
    (executor_type executor_id : string) (model_id model_version : option string)
    (policy_version authority reason : string) (prov : dict string pyval) : ExecutionPlan :=
  mkPlan task_id cap_id version rc executor_type executor_id model_id model_version
    policy_version authority "workspace_only" None [] None [] reason prov.

Definition plan_task (o : Orchestrator) (task : PlanTask) (policy : RuntimePolicy)
    (allow_frontier_fallback : bool) (contract : option (result pyval))
  : Orchestrator * ExecutionPlan :=
  let cap_id := ostr_or (pt_capability_id task) (pt_type task) in
  let task_id := pt_task_id task in
  let pv := policy_version_ policy in
  let prov0 := [("task_id", VStr task_id); ("requested_capability", VStr cap_id);
                ("considered_implementations", VList []);
                ("rejection_reasons", VDict []); ("policy_applied", VStr pv)] in
  match cap_get cap_id (o_capabilities o) with
  | None =>
      (o, blocked_plan task_id (str_or cap_id "unknown") "0.0.0" pv
            ("Unknown capability: '" +:+ cap_id +:+ "'") prov0)
  | Some cap =>
      let version := cap_version cap in
      let prov1 := dset "risk_level" (VStr (risk_level cap))
                     (dset "capability_version" (VStr version) prov0) in
      let blocked reason prov := (o, blocked_plan task_id cap_id version pv reason prov) in
      if contract_revokes contract cap_id then
        blocked ("Fabric contract denial: Capability '" +:+ cap_id
                   +:+ "' is revoked by Fabric contract") prov1
      else if negb (enabled cap) then
        blocked ("Capability '" +:+ cap_id +:+ "' is disabled") prov1
      else if inference_required cap && negb (allow_llm policy) then
        blocked "Policy denial: LLM capabilities are disabled by runtime policy" prov1
      else if (cap_network_policy cap =s "disabled") && pt_requires_network task then
        blocked ("Policy denial: Capability '" +:+ cap_id +:+ "' forbids network access") prov1
      else if negb (inference_required cap) then
        if deterministic_allowed cap then
          (o, routed_plan task_id cap_id version RC_DETERMINISTIC "DETERMINISTIC"
                "deterministic-v1" None None pv "anny-governed-deterministic"
                "Non-inference capability routed to deterministic executor"
                (dset "selected_executor" (VStr "deterministic-v1") prov1))
        else
          blocked ("Capability '" +:+ cap_id
                     +:+ "' requires non-inference execution but deterministic_allowed is False")
            prov1
      else
        let o' := o <| o_layer := reconcile_registries (o_registry o) (o_layer o) |> in
        let req := mkAssessmentRequest cap_id (flit 85 100) None (pt_constraints task)
                     (Some [("network", VStr (cap_network_policy cap))]) in
        let impls := available_models (o_registry o) in
        let a := assess_capability (o_layer o') req (Some impls) in
        let reasons := map (fun kv => (kv.1, VStr kv.2)) (pv_rejection_reasons (as_provenance a)) in
        let prov2 := dset "rejection_reasons" (VDict reasons)
                       (dset "eligible_candidates"
                          (vstrs (pv_eligible_candidates (as_provenance a)))
                          (dset "available_registry_models" (vstrs impls) prov1)) in
        match as_decision a, as_selected_implementation a with
        | DELEGATE, Some c =>
            let frontier_class :=
              str_in (ic_execution_class c) ["REMOTE_MODEL"; "FRONTIER_MODEL"] in
            let executor_id :=
              if frontier_class then "frontier-executor" else "local-model-executor" in
            (o', routed_plan task_id cap_id version
                   (if frontier_class then RC_FRONTIER_MODEL else RC_LOCAL_MODEL)
                   (if frontier_class then "REMOTE_MODEL" else "LOCAL_MODEL") executor_id
                   (Some (ic_implementation_id c)) (Some "1.0.0") pv
                   ("anny-governed-" +:+ executor_id) (as_reason a)
                   (dset "selected_implementation" (VStr (ic_implementation_id c)) prov2))
        | _, _ =>
            let authorized :=
              bool_decide (fallback_executor cap = Some REMOTE_MODEL)
              || allow_frontier_fallback || pt_allow_frontier task in
            if authorized && fe_is_available None then
              let m := pt_preferred_frontier_model task in
              (o', routed_plan task_id cap_id version RC_FRONTIER_MODEL "REMOTE_MODEL"
                     "frontier-executor" (Some m) (Some "1.0.0") pv "anny-governed-frontier"
                     ("Local model unavailable (" +:+ as_reason a
                        +:+ "); routed to authorized frontier model")
                     (dset "frontier_model_id" (VStr m)
                        (dset "selected_executor" (VStr "frontier-executor") prov2)))
            else
              (o', blocked_plan task_id cap_id version pv
                     ("No valid executor available for inference-required capability '"
                        +:+ cap_id +:+ "' (" +:+ as_reason a +:+ ")")
                     (dset "downgrade_prevented" (VBool true) prov2))
        end
  end.
End Kernel.

(** ** The executor selector *)
Record ExecutorSelection := mkSelection {
  sel_executor_type : ExecutorType;
  sel_executor_id : string;
  sel_executor_version : string;
  sel_model_id : option string;
  sel_model_version : option string;
  sel_reason : string;
  sel_policy_version : string;
  sel_risk_class : string;
  sel_execution_mode : option string }.

(** [ExecutorType(v)] *)
Definition executor_type_of (v : string) : option ExecutorType :=
  find (fun e => executor_type_str e =s v) [DETERMINISTIC; LOCAL_MODEL; REMOTE_MODEL].

Section Selector.
Context {float_ops : FloatOps} {frontier : FrontierExecutor}.

(** [ExecutorSelector.select]: it registers the capability with the
    orchestrator, assigns its identifier to the task and plans. *)
Definition select (o : Orchestrator) (task : PlanTask) (cap : CapabilityDefinition)
    (policy : RuntimePolicy) : Orchestrator * result ExecutorSelection :=
  let task' := mkPlanTask (pt_task_id task) (Some (capability_id cap)) (pt_type task)
                 (pt_constraints task) (pt_requires_network task) (pt_allow_frontier task)
                 (pt_preferred_frontier_model task) in
  let o1 := o <| o_capabilities := cap_register cap (o_capabilities o) |> in
  let '(o2, plan) := plan_task o1 task' policy false None in
  (o2,
   if bool_decide (pl_routing_class plan = RC_BLOCKED)
   then raise ValueError ("Execution plan BLOCKED: " +:+ pl_decision_reason plan)
   else match executor_type_of (pl_executor_type plan) with
        | None => raise ValueError "not a valid ExecutorType"
        | Some et =>
            Ok (mkSelection et (pl_executor_id plan) "1.0.0" (pl_model_id plan)
                  (pl_model_version plan) (pl_decision_reason plan)
                  (pl_policy_version plan) (risk_level cap)
                  (Some (routing_class_str (pl_routing_class plan))))
        end).
End Selector.

(** ** Reconciliation *)
Section Reconcile.
Context {float_ops : FloatOps} {frontier : FrontierExecutor}.

Lemma registered_models_wf reg : mem_wf reg -> registered_models reg = models reg.
Proof.
  intros (Hd & Hk & _). unfold registered_models, list_models.
  by rewrite (rebuild_values md_model_id), rebuild_pairs.
Qed.

(** What reconciliation leaves in the layer for a registered model. *)
Definition reconciled (reg : RegMem) (m : ModelDefinition) (p : ImplementationProfile) : Prop :=
  ip_availability p = model_avail reg (md_model_id m) m /\
  ip_execution_class p = md_executor_type m /\
  ip_capability_ids p = model_caps m.

(** Every profile is stored under its own identifier. *)
Definition layer_wf (l : Layer) : Prop :=
  dict_wf (implementations l) /\
  Forall (fun kv => ip_implementation_id kv.2 = kv.1) (implementations l).

Lemma keyed_set {V} (f : V -> string) k v (d : dict string V) :
  f v = k -> Forall (fun kv => f kv.2 = kv.1) d -> Forall (fun kv => f kv.2 = kv.1) (dset k v d).
Proof.
  intros E. induction 1 as [|[k' v'] d Hk Hd IH]; simpl; [by constructor|].
  case_decide; subst; constructor; auto.
Qed.
Lemma keyed_del {V} (f : V -> string) k (d : dict string V) :
  Forall (fun kv => f kv.2 = kv.1) d -> Forall (fun kv => f kv.2 = kv.1) (ddel k d).
Proof.
  induction 1 as [|[k' v'] d Hk Hd IH]; simpl; [done|]. case_decide; [done|by constructor].
Qed.
Lemma keyed_get {V} (f : V -> string) k v (d : dict string V) :
  Forall (fun kv => f kv.2 = kv.1) d -> dget k d = Some v -> f v = k.
Proof. intros Hf Hg%dget_elem. rewrite Forall_forall in Hf. by apply (Hf (k, v)). Qed.

Lemma reconcile_model_wf reg l kv : layer_wf l -> layer_wf (reconcile_model reg l kv).
Proof.
  intros [Hd Hk]. destruct kv as [id m]. unfold reconcile_model.
  destruct (dget id (implementations l)) as [p|] eqn:E; split; simpl;
    auto using dset_wf; apply keyed_set; simpl; try done.
  by eapply (keyed_get ip_implementation_id).
Qed.

Lemma reconcile_model_get reg l id m k :
  dget k (implementations (reconcile_model reg l (id, m))) =
  if decide (id = k)
  then Some match dget id (implementations l) with
            | Some p => p <| ip_availability := model_avail reg id m |>
                          <| ip_execution_class := md_executor_type m |>
                          <| ip_capability_ids := model_caps m |>
            | None => mkProfile id (model_caps m) "high" [("gpu_present", VBool false)]
                        [("p50", VInt 100)] [("token_cost", VFloat fzero)]
                        (model_avail reg id m) CERTIFIED [] [] None None None None
                        (md_executor_type m)
            end
  else dget k (implementations l).
Proof.
  unfold reconcile_model. destruct (dget id (implementations l)) as [p|] eqn:E;
    simpl; by rewrite dget_dset.
Qed.

Lemma reconcile_all_get reg d l k : dict_wf d ->
  match dget k d with
  | Some m => exists p, dget k (implementations (foldl (reconcile_model reg) l d)) = Some p /\
      ip_availability p = model_avail reg k m /\ ip_execution_class p = md_executor_type m /\
      ip_capability_ids p = model_caps m
  | None => dget k (implementations (foldl (reconcile_model reg) l d)) = dget k (implementations l)
  end.
Proof.
  unfold dict_wf, dkeys. revert l. induction d as [|[id m] d IH]; intros l Hd; [done|].
  apply NoDup_cons in Hd as [Hn Hd]. specialize (IH (reconcile_model reg l (id, m)) Hd).
  change (foldl (reconcile_model reg) l ((id, m) :: d))
    with (foldl (reconcile_model reg) (reconcile_model reg l (id, m)) d).
  cbn [dget]. case_decide as Hk.
  - subst k. assert (dget id d = None) as E by by apply dget_None.
    rewrite E in IH. rewrite IH, reconcile_model_get, decide_True by done.
    eexists. split; [done|]. by destruct (dget id (implementations l)).
  - destruct (dget k d); [done|]. by rewrite IH, reconcile_model_get, decide_False.
Qed.

Lemma reconcile_all_wf reg d l : layer_wf l -> layer_wf (foldl (reconcile_model reg) l d).
Proof. revert l. induction d; intros l Hl; simpl; auto using reconcile_model_wf. Qed.

Lemma remove_implementation_wf id l : layer_wf l -> layer_wf (remove_implementation id l).
Proof.
  intros [Hd Hk]. unfold remove_implementation. destruct (dmem _ _); [|done].
  split; simpl; auto using ddel_wf, keyed_del.
Qed.
Lemma remove_implementation_get id l k : layer_wf l ->
  dget k (implementations (remove_implementation id l)) =
  if decide (id = k) then None else dget k (implementations l).
Proof.
  intros [Hd _]. unfold remove_implementation. destruct (dmem _ _) eqn:E; simpl.
  - case_decide; subst; [by apply dget_ddel_same|by apply dget_ddel_other].
  - case_decide; subst; [by apply dmem_false|done].
Qed.

Lemma purge_get (d : dict string ModelDefinition) ks l k : layer_wf l ->
  let l' := foldl (fun l id => if dmem id d then l else remove_implementation id l) l ks in
  layer_wf l' /\
  dget k (implementations l') =
    if decide (k ∈ ks) then if dmem k d then dget k (implementations l) else None
    else dget k (implementations l).
Proof.
  revert l. induction ks as [|id ks IH]; intros l Hl; cbn [foldl]; [by rewrite decide_False by set_solver|].
  destruct (dmem id d) eqn:E.
  - destruct (IH l Hl) as [Hw ->]. split; [done|].
    destruct (decide (k ∈ ks)).
    + by rewrite decide_True by set_solver.
    + destruct (decide (k = id)) as [->|]; [rewrite decide_True, E by set_solver; done|].
      by rewrite decide_False by set_solver.
  - destruct (IH (remove_implementation id l)) as [Hw ->]; [by apply remove_implementation_wf|].
    split; [done|]. rewrite remove_implementation_get by done.
    destruct (decide (id = k)) as [->|].
    + rewrite E, (decide_True (P := k ∈ k :: ks)) by set_solver. by destruct (decide _).
    + destruct (decide (k ∈ ks)).
      * by rewrite decide_True by set_solver.
      * by rewrite decide_False by set_solver.
Qed.

(** After reconciliation the intelligence layer knows exactly the
    registered models, each with the availability, execution class and
    capabilities the registry gives it. *)
Lemma reconcile_agrees reg l k : mem_wf reg -> layer_wf l ->
  layer_wf (reconcile_registries reg l) /\
  match get_model k reg with
  | Some m => exists p, dget k (implementations (reconcile_registries reg l)) = Some p /\
                reconciled reg m p
  | None => dget k (implementations (reconcile_registries reg l)) = None
  end.
Proof.
  intros Hreg Hl. unfold reconcile_registries. rewrite registered_models_wf by done.
  pose proof Hreg as (Hd & Hk & _). set (l1 := foldl (reconcile_model reg) l (models reg)).
  assert (layer_wf l1) as Hl1 by by apply reconcile_all_wf.
  destruct (purge_get (models reg) (dkeys (implementations l1)) l1 k Hl1) as [Hw E].
  split; [done|]. rewrite E. clear E Hw. pose proof (reconcile_all_get reg (models reg) l k Hd) as Hg.
  fold l1 in Hg. unfold get_model, dmem. destruct (dget k (models reg)) as [m|] eqn:Em.
  - destruct Hg as (p & Hp & Ha & Hc & Hs). rewrite Hp.
    exists p. split; [by destruct (decide _)|].
    assert (md_model_id m = k) as Eid by by eapply (keyed_get md_model_id).
    unfold reconciled. by rewrite Eid.
  - destruct (decide _) as [_|Hn]; [done|]. by apply dget_None.
Qed.
End Reconcile.

(** ** Routing *)
Section Routing.
Context {float_ops : FloatOps} {frontier : FrontierExecutor}.

Definition requested (task : PlanTask) : string := ostr_or (pt_capability_id task) (pt_type task).

(** The gates every executable plan has passed. *)
Definition admitted (o : Orchestrator) (task : PlanTask) (policy : RuntimePolicy)
    (contract : option (result pyval)) (cap : CapabilityDefinition) : Prop :=
  cap_get (requested task) (o_capabilities o) = Some cap /\
  contract_revokes contract (requested task) = false /\
  enabled cap = true /\
  (inference_required cap = true -> allow_llm policy = true) /\
  (cap_network_policy cap = "disabled" -> pt_requires_network task = false).

(** A registered model that may serve the capability: available, supporting
    it, with benchmarks whose mean score reaches 0.85. *)
Definition qualified (o : Orchestrator) (cap_id : string) (m : ModelDefinition) : Prop :=
  get_model (md_model_id m) (o_registry o) = Some m /\
  is_available (md_model_id m) (o_registry o) = true /\
  cap_id ∈ model_caps m /\
  let bs := relevant_benchmarks (reconcile_registries (o_registry o) (o_layer o))
              (md_model_id m) cap_id in
  bs <> [] /\ fge (mean (map br_score bs)) (flit 85 100) = true.

Definition remote_class (c : string) : bool := str_in c ["REMOTE_MODEL"; "FRONTIER_MODEL"].

Definition routing_sound (o : Orchestrator) (task : PlanTask) (policy : RuntimePolicy)
    (frontier_fallback : bool) (contract : option (result pyval)) (p : ExecutionPlan) : Prop :=
  match pl_routing_class p with
  | RC_BLOCKED => pl_executor_type p = "NONE" /\ pl_model_id p = None
  | RC_DETERMINISTIC =>
      pl_executor_type p = "DETERMINISTIC" /\ pl_model_id p = None /\
      exists cap, admitted o task policy contract cap /\
        inference_required cap = false /\ deterministic_allowed cap = true
  | RC_LOCAL_MODEL =>
      pl_executor_type p = "LOCAL_MODEL" /\
      exists cap m, admitted o task policy contract cap /\ inference_required cap = true /\
        pl_model_id p = Some (md_model_id m) /\ qualified o (requested task) m /\
        remote_class (md_executor_type m) = false
  | RC_FRONTIER_MODEL =>
      pl_executor_type p = "REMOTE_MODEL" /\
      exists cap, admitted o task policy contract cap /\ inference_required cap = true /\
        ((exists m, pl_model_id p = Some (md_model_id m) /\ qualified o (requested task) m /\
            remote_class (md_executor_type m) = true /\
            fe_is_available (Some (md_model_id m)) = true) \/
         (pl_model_id p = Some (pt_preferred_frontier_model task) /\
          fe_is_available None = true /\
          (fallback_executor cap = Some REMOTE_MODEL \/ frontier_fallback = true \/
           pt_allow_frontier task = true)))
  | RC_ESCALATED | RC_DEFERRED => False
  end.

(** A delegated candidate comes from a qualified registered model. *)
Lemma delegated_qualified o cap_id req c :
  mem_wf (o_registry o) -> layer_wf (o_layer o) ->
  ar_capability_id req = cap_id -> ar_quality_required req = flit 85 100 ->
  as_selected_implementation
    (assess_capability (reconcile_registries (o_registry o) (o_layer o)) req
       (Some (available_models (o_registry o)))) = Some c ->
  exists m, ic_implementation_id c = md_model_id m /\ qualified o cap_id m /\
    ic_execution_class c = md_executor_type m /\
    (remote_class (md_executor_type m) = true ->
     fe_is_available (Some (md_model_id m)) = true).
Proof.
  intros Hreg Hl Hcap Hq Hs. apply assess_delegate_sound in Hs as (_ & Hge & Himpl & _).
  destruct Himpl as (impl & Hin & Eid & Ecls & Hav & Hsup & _ & Hb & Eq).
  unfold impls_to_check in Hin. apply list_elem_of_filter in Hin as [Hids Hin].
  unfold available_models in Hids. apply list_elem_of_filter in Hids as [Hia _].
  set (l' := reconcile_registries (o_registry o) (o_layer o)) in *.
  destruct (reconcile_agrees (o_registry o) (o_layer o) (ip_implementation_id impl) Hreg Hl)
    as [[Hw Hk] Hag]. fold l' in Hw, Hk, Hag.
  assert (dget (ip_implementation_id impl) (implementations l') = Some impl) as Hget.
  { unfold dvalues in Hin. apply list_elem_of_fmap in Hin as ([k p] & -> & Hp). simpl.
    assert (ip_implementation_id p = k) as ->.
    { rewrite Forall_forall in Hk. by apply (Hk (k, p)). }
    by apply dget_wf_elem. }
  destruct (get_model (ip_implementation_id impl) (o_registry o)) as [m|] eqn:Em; [|congruence].
  destruct Hag as (p & Hp & Ha & Hc & Hcs). assert (p = impl) as -> by congruence.
  assert (md_model_id m = ip_implementation_id impl) as Emid.
  { destruct Hreg as (_ & Hkm & _). by eapply (keyed_get md_model_id). }
  exists m. unfold qualified. fold l'. rewrite Emid.
  split_and!; try assumption.
  - by rewrite <-Hcs, <-Hcap.
  - by rewrite <-Hcap.
  - rewrite <-Hq, <-Hcap. by rewrite <-Eq.
  - by rewrite Ecls.
  - intros Hrem. rewrite Ha in Hav. unfold model_avail in Hav.
    apply andb_true_iff in Hav as [_ Hav]. unfold remote_class in Hrem.
    rewrite Hrem in Hav. by rewrite Emid in Hav.
Qed.

(** The last resort of an inference capability: the frontier executor when
    authorised and available, a blocked plan otherwise. *)
Lemma fallback_sound o task policy ff contract cap :
  admitted o task policy contract cap -> inference_required cap = true ->
  forall o' reasons,
  routing_sound o task policy ff contract
    (if (bool_decide (fallback_executor cap = Some REMOTE_MODEL) || ff || pt_allow_frontier task)
        && fe_is_available None
     then (o', routed_plan (pt_task_id task) (requested task) (cap_version cap) RC_FRONTIER_MODEL
             "REMOTE_MODEL" "frontier-executor" (Some (pt_preferred_frontier_model task))
             (Some "1.0.0") (policy_version_ policy) "anny-governed-frontier"
             reasons.1.1 reasons.1.2)
     else (o', blocked_plan (pt_task_id task) (requested task) (cap_version cap)
                 (policy_version_ policy) reasons.2.1 reasons.2.2) : Orchestrator * ExecutionPlan).2.
Proof.
  intros Hadm Einf o' reasons. destruct (_ && fe_is_available None) eqn:Ef; [|done].
  apply andb_true_iff in Ef as [Ea Ef]. split; [done|]. exists cap. split_and!; [done|done|].
  right. split_and!; [done|done|]. apply orb_true_iff in Ea as [Ea|Ea]; [|auto].
  apply orb_true_iff in Ea as [Ea|Ea]; [|auto]. apply bool_decide_eq_true in Ea. auto.
Qed.

(** C4: every plan is justified.  In particular a capability that requires
    inference is never routed to the deterministic executor: without a
    qualified model or an authorised and available frontier it is blocked. *)
Theorem plan_task_sound o task policy ff contract :
  mem_wf (o_registry o) -> layer_wf (o_layer o) ->
  routing_sound o task policy ff contract (plan_task o task policy ff contract).2.
Proof.
  intros Hreg Hl. unfold plan_task, requested. cbv zeta.
  fold (requested task). set (cap_id := requested task).
  destruct (cap_get cap_id (o_capabilities o)) as [cap|] eqn:Ecap; [|done].
  destruct (contract_revokes contract cap_id) eqn:Erev; [done|].
  destruct (enabled cap) eqn:Een; [cbn [negb]|done].
  destruct (inference_required cap && negb (allow_llm policy)) eqn:Ellm; [done|].
  destruct ((cap_network_policy cap =s "disabled") && pt_requires_network task) eqn:Enet; [done|].
  assert (admitted o task policy contract cap) as Hadm.
  { split_and!; [done|done|done| |].
    - intros E. rewrite E in Ellm. simpl in Ellm. by apply negb_false_iff in Ellm.
    - intros E. rewrite E in Enet. done. }
  destruct (inference_required cap) eqn:Einf; cbn [negb].
  2:{ destruct (deterministic_allowed cap) eqn:Edet; [|done].
      split_and!; [done|done|]. exists cap. done. }
  match goal with |- context [assess_capability ?l ?r ?i] =>
    set (req := r); set (a := assess_capability l req i) end.
  assert (forall c, as_selected_implementation a = Some c -> exists m,
    ic_implementation_id c = md_model_id m /\ qualified o cap_id m /\
    ic_execution_class c = md_executor_type m /\
    (remote_class (md_executor_type m) = true ->
     fe_is_available (Some (md_model_id m)) = true)) as Hdel.
  { intros c Hc. by apply (delegated_qualified o cap_id req). }
  pose proof (fallback_sound o task policy ff contract cap Hadm Einf) as Hfb.
  destruct (as_decision a), (as_selected_implementation a) as [c|] eqn:Ec;
    try (exact (Hfb _ (_, _, (_, _)))).
  destruct (Hdel c eq_refl) as (m & E1 & Hqm & E2 & Hrem). cbn [snd routed_plan].
  fold (remote_class (ic_execution_class c)). rewrite E2.
  destruct (remote_class (md_executor_type m)) eqn:Er; unfold routing_sound; simpl.
  - split; [done|]. exists cap. split_and!; [done|done|]. left. exists m.
    rewrite E1. split_and!; try done. by apply Hrem.
  - split; [done|]. exists cap, m. rewrite E1. done.
Qed.

(** C36: the deterministic executor is chosen exactly for the admitted
    capabilities that need no inference and allow it. *)
Theorem plan_deterministic_iff o task policy ff contract :
  pl_routing_class (plan_task o task policy ff contract).2 = RC_DETERMINISTIC <->
  exists cap, admitted o task policy contract cap /\
    inference_required cap = false /\ deterministic_allowed cap = true.
Proof.
  unfold plan_task, admitted. cbv zeta. fold (requested task).
  destruct (cap_get (requested task) (o_capabilities o)) as [cap|] eqn:Ecap.
  2:{ split; [done|]. intros (cap & (E & _) & _). done. }
  split.
  - destruct (contract_revokes _ _) eqn:Er; [done|].
    destruct (enabled cap) eqn:Een; [cbn [negb]|done].
    destruct (inference_required cap) eqn:Ei; cbn [negb andb].
    + destruct (negb (allow_llm policy)); [done|].
      destruct (_ && pt_requires_network task); [done|].
      match goal with |- context [assess_capability ?l ?r ?i] =>
        generalize (assess_capability l r i) end.
      intros a. cbv zeta.
      set (fb := (bool_decide _ || _ || _) && fe_is_available None).
      destruct (as_decision a), (as_selected_implementation a) as [c|];
        first [by destruct fb | by destruct (str_in (ic_execution_class c) _)].
    + destruct (_ && pt_requires_network task) eqn:En; [done|].
      destruct (deterministic_allowed cap) eqn:Ed; [|done]. intros _. exists cap.
      split_and!; try done; [congruence|]. intros E. by rewrite E in En.
  - intros (cap' & (E & -> & Een & _ & Hnet) & Hi & Hd). injection E as <-.
    rewrite Een, Hi, Hd. simpl.
    destruct (cap_network_policy cap =s "disabled") eqn:En; simpl; [|done].
    apply String.eqb_eq in En. by rewrite Hnet.
Qed.
End Routing.
