(* ===== verification/Mcp.v ===== *)
(** * The MCP gateway

    [runtime/mcp/__init__.py], [registry.py], [gateway.py], [tools.py]: tool
    definitions and policies, the governed invocation pipeline, and the tool
    implementations over the clients they are given. *)
From S2P Require Import Prelude Dict PyVal Effects PyPath PyStr Json ExecModels Host Deterministic.

Inductive ToolState := TS_REGISTERED | TS_AVAILABLE | TS_DISABLED | TS_ERROR.
#[export] Instance ToolState_eq_dec : EqDecision ToolState.
Proof. solve_decision. Defined.
Inductive ToolInvocationStatus :=
  | TI_PENDING | TI_AUTHORIZED | TI_EXECUTING | TI_SUCCEEDED | TI_FAILED | TI_DENIED
  | TI_TIMED_OUT.
#[export] Instance ToolInvocationStatus_eq_dec : EqDecision ToolInvocationStatus.
Proof. solve_decision. Defined.
Definition tool_status_str (s : ToolInvocationStatus) : string :=
  match s with
  | TI_PENDING => "PENDING" | TI_AUTHORIZED => "AUTHORIZED" | TI_EXECUTING => "EXECUTING"
  | TI_SUCCEEDED => "SUCCEEDED" | TI_FAILED => "FAILED" | TI_DENIED => "DENIED"
  | TI_TIMED_OUT => "TIMED_OUT"
  end.

Record ToolDefinition := mkTool {
  tool_id : string;
  tl_name : string;
  tl_description : string;
  tl_input_schema : dict string pyval;
  tl_output_schema : dict string pyval;
  tl_required_capability : string;
  tl_network_requirement : string;
  tl_timeout : Z;
  tl_version : string;
  tl_state : ToolState;
  tl_tags : list string }.
#[export] Instance eta_ToolDefinition : Eta ToolDefinition := fun r =>
  mkTool (tool_id r) (tl_name r) (tl_description r) (tl_input_schema r) (tl_output_schema r)
    (tl_required_capability r) (tl_network_requirement r) (tl_timeout r) (tl_version r)
    (tl_state r) (tl_tags r).

Record ToolPolicy := mkToolPolicy {
  po_policy_id : string;
  po_tool_id : string;
  po_max_invocations : Z;
  po_max_input_size : Z;
  po_max_output_size : Z;
  po_require_evidence : bool;
  po_allowed_callers : list string;
  po_network_policy : string;
  po_filesystem_policy : string;
  po_audit_level : string }.

Record ToolRequest := mkToolRequest {
  rq_request_id : string;
  rq_tool_id : string;
  rq_capability_id : string;
  rq_worker_id : string;
  rq_execution_id : string;
  rq_input_data : dict string pyval;
  rq_requested_at : Z;
  rq_deadline : Z;
  rq_caller_context : dict string pyval }.

Record ToolResult := mkToolResult {
  tr_request_id : string;
  tr_tool_id : string;
  tr_status : ToolInvocationStatus;
  tr_output_data : option (dict string pyval);
  tr_error_message : option string;
  tr_started_at : option Z;
  tr_completed_at : option Z;
  tr_duration_ms : option Z;
  tr_evidence : dict string pyval }.
Definition tr_succeeded (r : ToolResult) : bool := bool_decide (tr_status r = TI_SUCCEEDED).

(** ** The tool registry *)
Record ToolRegistry := mkToolRegistry {
  tools : dict string ToolDefinition;
  policies : dict string ToolPolicy }.
#[export] Instance eta_ToolRegistry : Eta ToolRegistry := fun r =>
  mkToolRegistry (tools r) (policies r).

Definition register_tool (t : ToolDefinition) (r : ToolRegistry) : ToolRegistry :=
  r <| tools := dset (tool_id t) t (tools r) |>.
Definition register_policy (p : ToolPolicy) (r : ToolRegistry) : ToolRegistry :=
  r <| policies := dset (po_tool_id p) p (policies r) |>.
Definition get_tool (id : string) (r : ToolRegistry) : option ToolDefinition := dget id (tools r).
Definition get_policy (id : string) (r : ToolRegistry) : option ToolPolicy := dget id (policies r).
Definition list_tools (r : ToolRegistry) : list ToolDefinition := dvalues (tools r).
Definition list_available (r : ToolRegistry) : list ToolDefinition :=
  filter (fun t => tl_state t = TS_AVAILABLE) (dvalues (tools r)).
Definition set_tool_state (st : ToolState) (id : string) (r : ToolRegistry) : ToolRegistry :=
  match dget id (tools r) with
  | Some t => r <| tools := dset id (t <| tl_state := st |>) (tools r) |>
  | None => r
  end.
Definition disable_tool : string -> ToolRegistry -> ToolRegistry := set_tool_state TS_DISABLED.
Definition enable_tool : string -> ToolRegistry -> ToolRegistry := set_tool_state TS_AVAILABLE.

(** Schemas of the initial tools *)
Definition typ (t : string) : pyval := VDict [("type", VStr t)].
Definition object_schema (props : dict string pyval) (required : list string)
  : dict string pyval :=
  [("type", VStr "object"); ("properties", VDict props);
   ("required", VList (map VStr required))].
Definition output_schema (props : dict string pyval) : dict string pyval :=
  [("type", VStr "object"); ("properties", VDict props)].

Definition initial_tools : list ToolDefinition :=
  [ mkTool "filesystem.inspect" "Filesystem Inspect"
      "Inspects file metadata: size, timestamps, permissions."
      (object_schema [("path", typ "string")] ["path"])
      (output_schema [("exists", typ "boolean"); ("size", typ "integer");
                      ("modified", typ "string")])
      "filesystem.inspect" "none" 30 "1.0.0" TS_AVAILABLE ["filesystem"; "read"];
    mkTool "repository.read" "Repository Read"
      "Reads file content from a repository workspace."
      (object_schema [("repo_path", typ "string"); ("file_path", typ "string")]
         ["repo_path"; "file_path"])
      (output_schema [("content", typ "string"); ("size", typ "integer")])
      "repository.inspect" "none" 30 "1.0.0" TS_AVAILABLE ["repository"; "read"];
    mkTool "repository.search" "Repository Search"
      "Searches repository content using grep-like patterns."
      (object_schema [("repo_path", typ "string"); ("pattern", typ "string")]
         ["repo_path"; "pattern"])
      (output_schema [("matches", typ "array")])
      "repository.search" "none" 60 "1.0.0" TS_AVAILABLE ["repository"; "search"];
    mkTool "fabric.read" "Fabric Read" "Reads resource state from Repository Fabric."
      (object_schema [("resource_id", typ "string")] ["resource_id"])
      (output_schema [("resource", typ "object")])
      "fabric.read" "local" 30 "1.0.0" TS_AVAILABLE ["fabric"; "read"];
    mkTool "fabric.register" "Fabric Register" "Registers a new resource in Repository Fabric."
      (object_schema [("resource_id", typ "string"); ("resource_type", typ "string");
                      ("metadata", typ "object")] ["resource_id"; "resource_type"])
      (output_schema [("provenance_id", typ "string"); ("state", typ "string")])
      "fabric.register" "local" 60 "1.0.0" TS_AVAILABLE ["fabric"; "write"] ].

Definition initial_policies : list ToolPolicy :=
  [ mkToolPolicy "pol-fs-inspect" "filesystem.inspect" 100 4096 (1024 * 1024) true
      ["filesystem.inspect"; "filesystem.list"; "filesystem.hash"]
      "disabled" "read_only" "summary";
    mkToolPolicy "pol-repo-read" "repository.read" 50 4096 (10 * 1024 * 1024) true
      ["repository.inspect"; "repository.search"; "repository.diff"]
      "disabled" "read_only" "summary";
    mkToolPolicy "pol-repo-search" "repository.search" 20 4096 (10 * 1024 * 1024) true
      ["repository.search"] "disabled" "read_only" "summary";
    mkToolPolicy "pol-fabric-read" "fabric.read" 50 4096 (1024 * 1024) true
      ["fabric.read"; "repository.inspect"] "local_only" "none" "full";
    mkToolPolicy "pol-fabric-register" "fabric.register" 10 (64 * 1024) (1024 * 1024) true
      ["fabric.register"] "local_only" "none" "full" ].

Definition tool_registry_init : ToolRegistry :=
  foldl (fun r p => register_policy p r)
    (foldl (fun r t => register_tool t r) (mkToolRegistry [] []) initial_tools)
    initial_policies.

(** ** The clients the tools are given

    GitHub and the Repository Fabric, reached over the network. *)
Class ToolClients := {
  has_github : bool;
  github_get_file : string -> string -> pyval -> result string;
  github_search_code : string -> pyval -> result pyval;
  has_fabric : bool;
  fabric_get_resource : pyval -> result pyval;
  fabric_not_found : exn -> bool;
  fabric_register_resource :
    string -> pyval -> pyval -> pyval -> pyval -> pyval -> result (dict string pyval);
  stat_times : node -> string * string }.

(** The gateway's state. *)
Record Gateway := mkGateway {
  gw_tools : ToolRegistry;
  gw_caps : CapabilityRegistry;
  gw_counts : dict string (dict string Z);
  gw_audit : list (string * string);
  gw_host : Host }.
#[export] Instance eta_Gateway : Eta Gateway := fun r =>
  mkGateway (gw_tools r) (gw_caps r) (gw_counts r) (gw_audit r) (gw_host r).

Section Tools.
Context {machine : Machine} {clients : ToolClients}.

Definition gnow : M Gateway Z := zoom gw_host (fun h s => s <| gw_host := h |>) (now clock).
Definition tool_error {A} (msg : string) : M Gateway A := throw ToolImplementationError msg.

Definition filesystem_inspect (input context : dict string pyval)
  : M Gateway (dict string pyval) :=
  let path := vget "path" input in
  when (negb (truthy path)) (tool_error "Missing required field: path") ;;
  match path with
  | VStr p =>
      let resolved := abspath cwd p in
      let workspace := vget_or "workspace_path" (VStr "") context in
      let root := match workspace with VStr w => abspath cwd w | _ => "" end in
      when (truthy workspace && negb (startswith root resolved))
        (tool_error ("Path " +:+ p +:+ " is outside workspace boundary")) ;;
      f ← gets (fun s => h_fs (gw_host s));
      match f !! resolved with
      | None => mret [("exists", VBool false); ("path", path)]
      | Some n =>
          let o := oct (st_mode n) in
          mret [("exists", VBool true); ("path", path); ("resolved_path", VStr resolved);
                ("size", VInt (st_size n)); ("modified", VStr (stat_times n).1);
                ("created", VStr (stat_times n).2); ("is_file", VBool (isfile f resolved));
                ("is_dir", VBool (isdir f resolved));
                ("permissions", VStr (String.substring (String.length o - 3) 3 o))]
      end
  | _ => throw TypeError ("expected str, bytes or os.PathLike object, not "
                            +:+ pytype_name path)
  end.

(** [repo_path.strip("/").split("/")], last two components; every failure of
    these lines becomes the same tool error. *)
Definition owner_repo (repo_path : pyval) : M Gateway (string * string) :=
  let bad := tool_error ("Invalid repo_path format. Expected owner/repo, got "
                           +:+ py_str repo_path) in
  match repo_path with
  | VStr s =>
      match rev (split_slash (strip_char slash s)) with
      | repo :: owner :: _ => mret (owner, repo)
      | _ => bad
      end
  | _ => bad
  end.

Definition repository_read (input context : dict string pyval)
  : M Gateway (dict string pyval) :=
  when (negb has_github) (tool_error "GitHubClient not provided in context") ;;
  let repo_path := vget_or "repo_path" (VStr "") input in
  let file_path := vget_or "file_path" (VStr "") input in
  when (negb (truthy file_path) || negb (truthy repo_path))
    (tool_error "Missing required fields: repo_path, file_path") ;;
  '(owner, repo) ← owner_repo repo_path;
  match github_get_file owner repo file_path with
  | Raise e => tool_error ("Failed to read file from GitHub: " +:+ exn_str e)
  | Ok content =>
      mret [("content", VStr content); ("size", VInt (Z.of_nat (String.length content)));
            ("path", file_path); ("encoding", VStr "utf-8")]
  end.

(** [[item["path"] for item in res.get("items", [])]] *)
Definition match_paths (res : pyval) : result (list pyval) :=
  match res with
  | VDict d =>
      match vget_or "items" (VList []) d with
      | VList items =>
          (fix go l := match l with
            | [] => Ok []
            | VDict i :: l' =>
                match dget "path" i with
                | Some p => let? ps := go l' in Ok (p :: ps)
                | None => raise KeyError "'path'"
                end
            | v :: _ => raise TypeError ("'" +:+ pytype_name v +:+ "' object is not subscriptable")
            end) items
      | v => raise TypeError ("'" +:+ pytype_name v +:+ "' object is not iterable")
      end
  | v => raise AttributeError ("'" +:+ pytype_name v +:+ "' object has no attribute 'get'")
  end.

Definition repository_search (input context : dict string pyval)
  : M Gateway (dict string pyval) :=
  when (negb has_github) (tool_error "GitHubClient not provided in context") ;;
  let repo_path := vget_or "repo_path" (VStr "") input in
  let pattern := vget_or "pattern" (VStr "") input in
  when (negb (truthy pattern) || negb (truthy repo_path))
    (tool_error "Missing required fields: repo_path, pattern") ;;
  '(owner, repo) ← owner_repo repo_path;
  match (let? res := github_search_code (owner +:+ "/" +:+ repo) pattern in match_paths res) with
  | Raise e => tool_error ("Failed to search GitHub: " +:+ exn_str e)
  | Ok matches =>
      mret [("pattern", pattern); ("repo_path", repo_path); ("matches", VList matches);
            ("count", VInt (Z.of_nat (length matches)))]
  end.

Definition fabric_read (input context : dict string pyval) : M Gateway (dict string pyval) :=
  when (negb has_fabric) (tool_error "FabricClient not provided in context") ;;
  let resource_id := vget_or "resource_id" (VStr "") input in
  when (negb (truthy resource_id)) (tool_error "Missing required field: resource_id") ;;
  let absent := [("resource_id", resource_id); ("found", VBool false)] in
  match fabric_get_resource resource_id with
  | Raise e =>
      if fabric_not_found e then mret absent
      else tool_error ("Failed to read fabric resource: " +:+ exn_str e)
  | Ok data =>
      if negb (truthy data) then mret absent
      else mret [("resource_id", resource_id); ("found", VBool true); ("resource", data)]
  end.

Definition fabric_register (input context : dict string pyval) : M Gateway (dict string pyval) :=
  when (negb has_fabric) (tool_error "FabricClient not provided in context") ;;
  let resource_id := vget_or "resource_id" (VStr "") input in
  let resource_type := vget_or "resource_type" (VStr "") input in
  let metadata := vget_or "metadata" (VDict []) input in
  when (negb (truthy resource_id) || negb (truthy resource_type))
    (tool_error "Missing required fields: resource_id, resource_type") ;;
  match (match metadata with
         | VDict m =>
             fabric_register_resource "mcp" resource_id (vget_or "name" resource_id m)
               resource_type (vget_or "source_revision" (VStr "HEAD") m)
               (vget_or "caller_id" (VStr "mcp_gateway") context)
         | v => raise AttributeError ("'" +:+ pytype_name v +:+ "' object has no attribute 'get'")
         end) with
  | Raise e => tool_error ("Failed to register fabric resource: " +:+ exn_str e)
  | Ok res =>
      t ← gnow;
      mret [("resource_id", resource_id);
            ("provenance_id", vget_or "provenance_id" (VStr "unknown") res);
            ("state", VStr "ACTIVE"); ("registered_at", VStr (isoformat t))]
  end.

Definition TOOL_IMPLEMENTATIONS
  : dict string (dict string pyval -> dict string pyval -> M Gateway (dict string pyval)) :=
  [("filesystem.inspect", filesystem_inspect); ("repository.read", repository_read);
   ("repository.search", repository_search); ("fabric.read", fabric_read);
   ("fabric.register", fabric_register)].
End Tools.

(** ** The pipeline *)
Section Gateway.
Context {machine : Machine} {clients : ToolClients}.
(** Constructor arguments, and whether an audit manager is present. *)
Context (workspace_path fabric_data_dir : string) (audit : bool).

Definition validate_request (r : ToolRequest) : result unit :=
  check! guard_raise (negb (str_true (rq_tool_id r))) MCPGatewayError "Missing tool_id" in
  check! guard_raise (negb (str_true (rq_capability_id r))) MCPGatewayError
           "Missing capability_id" in
  check! guard_raise (negb (str_true (rq_worker_id r))) MCPGatewayError
           "Missing worker_id (Phase 6: worker boundary)" in
  guard_raise (negb (str_true (rq_execution_id r))) MCPGatewayError "Missing execution_id".

Definition authorize (g : Gateway) (r : ToolRequest) : result unit :=
  match get_tool (rq_tool_id r) (gw_tools g) with
  | None => raise ToolNotFoundError ("Tool " +:+ rq_tool_id r +:+ " not registered")
  | Some tool =>
      check! match get_policy (rq_tool_id r) (gw_tools g) with
             | Some p =>
                 guard_raise (negb (str_in (rq_capability_id r) (po_allowed_callers p)))
                   AuthorizationDeniedError
                   ("Capability " +:+ rq_capability_id r +:+ " is not authorized to invoke tool "
                      +:+ rq_tool_id r +:+ ". Allowed: " +:+ py_repr_strs (po_allowed_callers p))
             | None =>
                 guard_raise (negb (rq_capability_id r =s tl_required_capability tool))
                   AuthorizationDeniedError
                   ("Capability " +:+ rq_capability_id r +:+ " does not match required "
                      +:+ tl_required_capability tool)
             end in
      match cap_get (rq_capability_id r) (gw_caps g) with
      | None =>
          raise AuthorizationDeniedError
            ("Capability " +:+ rq_capability_id r +:+ " not found in registry")
      | Some cap =>
          guard_raise (negb (enabled cap)) AuthorizationDeniedError
            ("Capability " +:+ rq_capability_id r +:+ " is disabled")
      end
  end.

Definition count_of (g : Gateway) (execution_id tool : string) : Z :=
  default 0%Z (dget tool (default [] (dget execution_id (gw_counts g)))).

Definition enforce_policy (g : Gateway) (r : ToolRequest) : result unit :=
  match get_policy (rq_tool_id r) (gw_tools g) with
  | None => Ok tt
  | Some p =>
      let current := count_of g (rq_execution_id r) (rq_tool_id r) in
      check! guard_raise (po_max_invocations p <=? current)%Z PolicyViolationError
               ("Tool " +:+ rq_tool_id r +:+ " invocation limit exceeded: "
                  +:+ zstr current +:+ "/" +:+ zstr (po_max_invocations p)) in
      let input_size := json_size false (VDict (rq_input_data r)) in
      guard_raise (po_max_input_size p <? input_size)%Z PolicyViolationError
        ("Input size " +:+ zstr input_size +:+ " exceeds policy limit "
           +:+ zstr (po_max_input_size p))
  end.

Definition make_error_result (r : ToolRequest) (error : string)
    (status : ToolInvocationStatus) (started_at : Z) : M Gateway ToolResult :=
  completed_at ← gnow;
  mret (mkToolResult (rq_request_id r) (rq_tool_id r) status None (Some error)
          (Some started_at) (Some completed_at) (Some (duration_ms started_at completed_at))
          [("error", VStr error); ("status", VStr (tool_status_str status))]).

(** The audit manager may fail; its exceptions are swallowed, and nothing else
    depends on it. *)
Definition emit_audit (event_type : string) (r : ToolRequest) (details : string)
  : M Gateway unit :=
  when audit (modify (fun g => g <| gw_audit := gw_audit g ++
    [(event_type, "tool=" +:+ rq_tool_id r +:+ " cap=" +:+ rq_capability_id r
                    +:+ " worker=" +:+ rq_worker_id r +:+ " " +:+ details)] |>)).

Definition evidence_hash (r : ToolRequest) (status : ToolInvocationStatus)
    (output : dict string pyval) : string :=
  sha256 (dumps true (VDict [("request_id", VStr (rq_request_id r));
                             ("tool_id", VStr (rq_tool_id r));
                             ("status", VStr (tool_status_str status));
                             ("output_data", VDict output)])).

Definition dict_update (d d' : dict string pyval) : dict string pyval :=
  foldl (fun acc kv => dset kv.1 kv.2 acc) d d'.
Definition invocation_context (r : ToolRequest) : dict string pyval :=
  dict_update
    [("workspace_path", VStr workspace_path); ("fabric_data_dir", VStr fabric_data_dir);
     ("max_output_size", VInt (10 * 1024 * 1024)); ("caller_id", VStr (rq_capability_id r))]
    (rq_caller_context r).

Definition run_tool (r : ToolRequest) : M Gateway (dict string pyval) :=
  match dget (rq_tool_id r) TOOL_IMPLEMENTATIONS with
  | None => throw ToolNotFoundError ("No implementation for tool " +:+ rq_tool_id r)
  | Some impl => impl (rq_input_data r) (invocation_context r)
  end.

Definition increment_count (r : ToolRequest) (g : Gateway) : Gateway :=
  let counts := default [] (dget (rq_execution_id r) (gw_counts g)) in
  let n := default 0%Z (dget (rq_tool_id r) counts) in
  g <| gw_counts := dset (rq_execution_id r) (dset (rq_tool_id r) (n + 1)%Z counts)
                      (gw_counts g) |>.

(** Steps 7 to 10 *)
Definition finish_invocation (r : ToolRequest) (started_at : Z) (output : dict string pyval)
  : M Gateway ToolResult :=
  completed_at ← gnow;
  let duration := duration_ms started_at completed_at in
  let hash := evidence_hash r TI_SUCCEEDED output in
  let evidence :=
    [("request_id", VStr (rq_request_id r)); ("tool_id", VStr (rq_tool_id r));
     ("capability_id", VStr (rq_capability_id r)); ("worker_id", VStr (rq_worker_id r));
     ("execution_id", VStr (rq_execution_id r)); ("started_at", VStr (isoformat started_at));
     ("completed_at", VStr (isoformat completed_at)); ("duration_ms", VInt duration);
     ("result_hash", VStr hash);
     ("input_hash", VStr (sha256 (dumps true (VDict (rq_input_data r)))))] in
  modify (increment_count r) ;;
  emit_audit "TOOL_INVOCATION_SUCCESS" r
    (dumps false (VDict [("duration_ms", VInt duration); ("result_hash", VStr hash)])) ;;
  mret (mkToolResult (rq_request_id r) (rq_tool_id r) TI_SUCCEEDED (Some output) None
          (Some started_at) (Some completed_at) (Some duration) evidence).

Definition invoke (r : ToolRequest) : M Gateway ToolResult :=
  started_at ← gnow;
  match validate_request r with
  | Raise e => make_error_result r (exn_str e) TI_FAILED started_at
  | Ok _ =>
  g ← gets id;
  match authorize g r with
  | Raise e =>
      match exn_type e with
      | AuthorizationDeniedError =>
          emit_audit "TOOL_AUTHORIZATION_DENIED" r (exn_str e) ;;
          make_error_result r (exn_str e) TI_DENIED started_at
      | _ => make_error_result r (exn_str e) TI_FAILED started_at
      end
  | Ok _ =>
  if negb match get_tool (rq_tool_id r) (gw_tools g) with
          | Some t => bool_decide (tl_state t = TS_AVAILABLE) | None => false end
  then make_error_result r ("Tool " +:+ rq_tool_id r +:+ " not available") TI_FAILED started_at
  else
  match enforce_policy g r with
  | Raise e =>
      emit_audit "TOOL_POLICY_VIOLATION" r (exn_str e) ;;
      make_error_result r (exn_str e) TI_DENIED started_at
  | Ok _ =>
  t ← gnow;
  if (rq_deadline r <? t)%Z
  then make_error_result r "Deadline exceeded before execution" TI_TIMED_OUT started_at
  else
  out ← try_with (o ← run_tool r; mret (inl o)) (fun e => mret (inr e));
  match out with
  | inr e =>
      match exn_type e with
      | ToolImplementationError =>
          emit_audit "TOOL_EXECUTION_ERROR" r (exn_str e) ;;
          make_error_result r (exn_str e) TI_FAILED started_at
      | _ =>
          emit_audit "TOOL_CRASH" r (exn_str e) ;;
          make_error_result r ("Tool crash: " +:+ exn_name (exn_type e)) TI_FAILED started_at
      end
  | inl output => finish_invocation r started_at output
  end
  end
  end
  end.

(** [get_stats] *)
Definition get_stats (g : Gateway) : dict string pyval :=
  [("total_tools", VInt (Z.of_nat (length (list_tools (gw_tools g)))));
   ("available_tools", VInt (Z.of_nat (length (list_available (gw_tools g)))));
   ("total_invocations",
     VInt (foldr Z.add 0%Z (map (fun counts => foldr Z.add 0%Z (dvalues counts))
                              (dvalues (gw_counts g)))));
   ("active_executions", VInt (Z.of_nat (length (gw_counts g))))].
End Gateway.

(** ** Properties *)
Section GatewayFacts.
Context {machine : Machine} {clients : ToolClients}.
Context (workspace_path fabric_data_dir : string) (audit : bool).
Notation invoke := (invoke workspace_path fabric_data_dir audit).
Notation run_tool := (run_tool workspace_path fabric_data_dir).

(** Parts of the gateway that only the accounting step changes. *)
Definition quiet (g g' : Gateway) : Prop :=
  gw_counts g' = gw_counts g /\ gw_tools g' = gw_tools g /\ gw_caps g' = gw_caps g /\
  h_fs (gw_host g') = h_fs (gw_host g).
#[export] Instance quiet_preorder : PreOrder quiet.
Proof. split; [done|]. intros g1 g2 g3 (?&?&?&?) (?&?&?&?). split_and!; congruence. Qed.
Definition silent {A} (m : M Gateway A) : Prop := forall g, wp m g (fun g' _ => quiet g g').

Lemma silent_bind {A B} (m : M Gateway A) (f : A -> M Gateway B) :
  silent m -> (forall a, silent (f a)) -> silent (m ≫= f).
Proof.
  intros Hm Hf g. apply wp_bind. eapply wp_mono; [apply Hm|].
  intros g1 [a|e] H1; [|done]. eapply wp_mono; [apply Hf|]. intros g2 ? H2. by etrans.
Qed.
Lemma silent_ret {A} (a : A) : silent (mret a).
Proof. intros g. by apply wp_ret. Qed.
Lemma silent_throw {A} c msg : silent (throw (A:=A) c msg).
Proof. intros g. by apply wp_throw. Qed.
Lemma silent_tool_error {A} msg : silent (tool_error (A:=A) msg).
Proof. apply silent_throw. Qed.
Lemma silent_gets {A} (f : Gateway -> A) : silent (gets f).
Proof. intros g. by apply wp_gets. Qed.
Lemma silent_when b m : silent m -> silent (when b m).
Proof. intros Hm g. apply wp_when; intros; [apply Hm|done]. Qed.
Lemma silent_now : silent gnow.
Proof. intros g. apply wp_zoom. by unfold now, wp. Qed.
Lemma silent_audit t r d : silent (emit_audit audit t r d).
Proof. intros g. apply wp_when; intros; [by apply wp_modify|done]. Qed.
Create HintDb silent.
Hint Resolve silent_bind silent_ret silent_throw silent_tool_error silent_gets silent_when
  silent_now silent_audit : silent.
Hint Extern 1 (forall _, silent _) => intros : silent.
Hint Extern 2 (silent (match ?x with _ => _ end)) => destruct x : silent.

Lemma silent_owner_repo v : silent (owner_repo v).
Proof.
  unfold owner_repo. destruct v; auto with silent.
Qed.
Hint Resolve silent_owner_repo : silent.
Lemma silent_error_result r e st t : silent (make_error_result r e st t).
Proof. unfold make_error_result. auto with silent. Qed.
Hint Resolve silent_error_result : silent.

Lemma silent_tools : Forall (fun kv => forall i c, silent (kv.2 i c)) TOOL_IMPLEMENTATIONS.
Proof.
  repeat apply Forall_cons_2; try apply Forall_nil_2; intros i c; simpl.
  - unfold filesystem_inspect. auto 12 with silent.
  - unfold repository_read. auto 12 with silent.
  - unfold repository_search. auto 12 with silent.
  - unfold fabric_read. auto 12 with silent.
  - unfold fabric_register. auto 12 with silent.
Qed.

Lemma silent_run_tool r : silent (run_tool r).
Proof.
  unfold Mcp.run_tool. destruct (dget _ _) as [impl|] eqn:E; [|auto with silent].
  apply dget_elem in E. pose proof silent_tools as H. rewrite Forall_forall in H.
  by apply (H _ E).
Qed.

(** ** What a successful invocation has passed *)
Definition permitted (g : Gateway) (r : ToolRequest) : Prop :=
  validate_request r = Ok tt /\
  (exists cap, cap_get (rq_capability_id r) (gw_caps g) = Some cap /\ enabled cap = true) /\
  (exists tool, get_tool (rq_tool_id r) (gw_tools g) = Some tool /\ tl_state tool = TS_AVAILABLE /\
     match get_policy (rq_tool_id r) (gw_tools g) with
     | Some p =>
         rq_capability_id r ∈ po_allowed_callers p /\
         (count_of g (rq_execution_id r) (rq_tool_id r) < po_max_invocations p)%Z /\
         (json_size false (VDict (rq_input_data r)) <= po_max_input_size p)%Z
     | None => rq_capability_id r = tl_required_capability tool
     end).

Lemma authorize_enforce g r tool :
  authorize g r = Ok tt -> enforce_policy g r = Ok tt ->
  get_tool (rq_tool_id r) (gw_tools g) = Some tool -> tl_state tool = TS_AVAILABLE ->
  validate_request r = Ok tt -> permitted g r.
Proof.
  unfold authorize, enforce_policy. intros Ha He Ht Hs Hv. rewrite Ht in Ha. split; [done|].
  destruct (get_policy (rq_tool_id r) (gw_tools g)) as [p|] eqn:Ep.
  - destruct (guard_raise (negb (str_in _ _)) _ _) as [[]|] eqn:E1; [|done].
    apply guard_raise_ok, negb_false_iff, str_in_true in E1.
    destruct (cap_get _ _) as [cap|] eqn:Ec; [|done].
    apply guard_raise_ok, negb_false_iff in Ha.
    destruct (guard_raise (po_max_invocations p <=? _)%Z _ _) as [[]|] eqn:E2; [|done].
    apply guard_raise_ok in E2. apply guard_raise_ok in He. bool_to_prop.
    split; [by exists cap|]. exists tool. by rewrite ?Ep.
  - destruct (guard_raise (negb (_ =s _)) _ _) as [[]|] eqn:E1; [|done].
    apply guard_raise_ok, negb_false_iff, String.eqb_eq in E1.
    destruct (cap_get _ _) as [cap|] eqn:Ec; [|done].
    apply guard_raise_ok, negb_false_iff in Ha.
    split; [by exists cap|]. exists tool. by rewrite ?Ep.
Qed.

(** An invocation either succeeds, permitted, and is counted once, or fails
    and is not counted. *)
Definition accounted (g : Gateway) (r : ToolRequest) (g' : Gateway) (res : result ToolResult)
  : Prop :=
  gw_tools g' = gw_tools g /\ gw_caps g' = gw_caps g /\
  exists t, res = Ok t /\
    ((tr_status t = TI_SUCCEEDED /\ permitted g r /\
      (exists now_, (now_ <= rq_deadline r)%Z) /\
      gw_counts g' = gw_counts (increment_count r g)) \/
     (tr_status t ∈ [TI_FAILED; TI_DENIED; TI_TIMED_OUT] /\ tr_output_data t = None /\
      gw_counts g' = gw_counts g)).

Lemma error_accounted g0 g r e st t :
  quiet g0 g -> st ∈ [TI_FAILED; TI_DENIED; TI_TIMED_OUT] ->
  wp (make_error_result r e st t) g (accounted g0 r).
Proof.
  intros (Hc & Ht & Hp & _) Hst. unfold make_error_result. apply wp_bind.
  pose proof (silent_now g) as Hn. eapply wp_mono.
  { eapply wp_and; [exact Hn|]. unfold gnow. apply (wp_zoom _ _ _ _ (fun _ r => is_ok r = true)).
    by unfold now, wp. }
  intros g1 [z|?] [(Hc1 & Ht1 & Hp1 & _) Hok]; [|done]. apply wp_ret.
  split_and!; [congruence|congruence|]. eexists. split; [done|]. right.
  split_and!; [done|done|congruence].
Qed.

Lemma now_quiet {A} (k : Z -> M Gateway A) g0 g Q :
  quiet g0 g -> (forall g' t, quiet g0 g' -> wp (k t) g' Q) -> wp (gnow ≫= k) g Q.
Proof.
  intros Hq Hk. apply wp_bind, wp_zoom. unfold now at 1, wp at 1. apply Hk.
  etrans; [exact Hq|]. done.
Qed.
Lemma audit_quiet {A} (k : unit -> M Gateway A) g0 g Q t r d :
  quiet g0 g -> (forall g', quiet g0 g' -> wp (k tt) g' Q) ->
  wp (emit_audit audit t r d ≫= k) g Q.
Proof.
  intros Hq Hk. apply wp_bind, wp_when; intros _; [apply wp_modify|]; apply Hk; by etrans.
Qed.

Lemma invoke_accounts g r : wp (invoke r) g (accounted g r).
Proof.
  unfold Mcp.invoke. apply now_quiet with g; [done|]. intros g1 t1 H1.
  destruct (validate_request r) as [[]|e] eqn:Ev; [|by apply error_accounted; [|set_solver]].
  apply wp_bind, wp_gets. cbv beta.
  destruct (authorize _ r) as [[]|e] eqn:Ea.
  2:{ destruct (exn_type e);
        try (by apply error_accounted; [|set_solver]).
      apply audit_quiet with g; [done|]. intros g2 H2. by apply error_accounted; [|set_solver]. }
  destruct (get_tool (rq_tool_id r) (gw_tools (id g1))) as [tool|] eqn:Et;
    [|by apply error_accounted; [|set_solver]].
  case_bool_decide as Hst; cbn [negb]; [|by apply error_accounted; [|set_solver]].
  destruct (enforce_policy _ r) as [[]|e] eqn:Ee.
  2:{ apply audit_quiet with g; [done|]. intros g2 H2. by apply error_accounted; [|set_solver]. }
  assert (permitted g r) as Hperm.
  { pose proof (authorize_enforce _ _ _ Ea Ee Et Hst Ev) as Hp.
    destruct H1 as (C1 & T1 & P1 & _). unfold permitted, count_of in *. simpl in Hp.
    by rewrite C1, T1, P1 in Hp. }
  apply now_quiet with g; [done|]. intros g2 t2 H2.
  destruct (rq_deadline r <? t2)%Z eqn:Ed; [by apply error_accounted; [|set_solver]|].
  apply wp_bind, wp_try_with, wp_bind. eapply wp_mono; [apply silent_run_tool|].
  intros g3 [out|e] H3; (assert (quiet g g3) as Hq3 by by etrans).
  - apply wp_ret. unfold finish_invocation. apply now_quiet with g; [done|].
    intros g4 t4 H4. apply wp_bind, wp_modify.
    unfold emit_audit. apply wp_bind, wp_when; intros _;
      [apply wp_modify|]; apply wp_ret; destruct H4 as (C & T & P & _);
      (split_and!; [done|done|]; eexists; split; [done|]; left;
       split_and!; [done|done| |]; [exists t2; bool_to_prop; lia|];
       unfold increment_count; simpl; by rewrite C).
  - apply wp_ret. destruct (exn_type e);
      apply audit_quiet with g; try done; intros g4 H4; by apply error_accounted; [|set_solver].
Qed.


(** ** Invocation limits over a sequence of requests *)
Fixpoint run_requests (rs : list ToolRequest) (g : Gateway) : Gateway :=
  match rs with
  | [] => g
  | r :: rs' => run_requests rs' (invoke r g).1
  end.

Lemma count_increment g r e t :
  count_of (increment_count r g) e t =
    (count_of g e t + if decide (e = rq_execution_id r /\ t = rq_tool_id r) then 1 else 0)%Z.
Proof.
  unfold count_of, increment_count. simpl. rewrite dget_dset.
  destruct (decide (rq_execution_id r = e)) as [<-|He].
  - cbn [from_option id]. rewrite dget_dset. destruct (decide (rq_tool_id r = t)) as [<-|Ht].
    + rewrite decide_True by done. done.
    + rewrite decide_False by naive_solver. lia.
  - rewrite decide_False by naive_solver. lia.
Qed.

Definition within_policy (g : Gateway) : Prop :=
  forall e t p, get_policy t (gw_tools g) = Some p ->
    (count_of g e t <= Z.max 0 (po_max_invocations p))%Z.

End GatewayFacts.

(** With the registered tools and policies a request of the capability
    [repository.read] for the tool of the same name, which is what a worker
    sends, is denied whatever the rest of the state is. *)
Theorem repository_read_denied `{machine : Machine} `{clients : ToolClients} ws fd audit g r :
  gw_tools g = tool_registry_init -> validate_request r = Ok tt ->
  rq_tool_id r = "repository.read" -> rq_capability_id r = "repository.read" ->
  wp (invoke ws fd audit r) g (fun g' res => exists t, res = Ok t /\ tr_status t = TI_DENIED).
Proof.
  intros Hg Hv Ht Hc. unfold invoke. apply wp_bind, wp_zoom. unfold now at 1, wp at 1.
  rewrite Hv. apply wp_bind, wp_gets. cbv beta.
  match goal with |- context [authorize ?g r] =>
    assert (exists msg, authorize g r = raise AuthorizationDeniedError msg) as [msg E] end.
  { unfold authorize. cbn [gw_tools id setter]. rewrite Hg, Ht, Hc.
    eexists. vm_compute. reflexivity. }
  rewrite E. cbn [exn_type raise]. apply wp_bind.
  apply wp_when; intros _; [apply wp_modify|]; unfold make_error_result;
    apply wp_bind, wp_zoom; unfold now, wp at 1; apply wp_ret; by eexists.
Qed.
