(* ===== verification/Inventory.v ===== *)
(** * Bootstrap inventory and access checks

    [runtime/core/inventory.py] and [core/access_verifier.py]: what the bootstrap
    declares, enables and authorizes of each class of components, and the smoke
    tests of the critical capabilities. *)
From S2P Require Import Prelude Dict PyVal Effects PyPath PyStr PyBytes Json ExecModels Host.
From S2P Require Import Github Fabric Registry Mcp.

(** ** Inventories *)
Record ComponentInventory := mkInventory {
  ci_declared : list string;
  ci_configured : list string;
  ci_enabled : list string;
  ci_authorized : list string;
  ci_available : list string;
  ci_functional : list string;
  ci_tested : list string;
  ci_verified : list string }.
#[export] Instance eta_ComponentInventory : Eta ComponentInventory := fun r =>
  mkInventory (ci_declared r) (ci_configured r) (ci_enabled r) (ci_authorized r) (ci_available r)
    (ci_functional r) (ci_tested r) (ci_verified r).
Definition empty_inventory : ComponentInventory := mkInventory [] [] [] [] [] [] [] [].
(** Appending to the lists of an inventory. *)
Definition declare (id : string) (i : ComponentInventory) : ComponentInventory :=
  i <| ci_declared := ci_declared i ++ [id] |>.
Definition enable (id : string) (i : ComponentInventory) : ComponentInventory :=
  i <| ci_enabled := ci_enabled i ++ [id] |>.
Definition authorize (id : string) (i : ComponentInventory) : ComponentInventory :=
  i <| ci_authorized := ci_authorized i ++ [id] |>.

Record BootstrapInventory := mkBootInventory {
  bi_capabilities : ComponentInventory;
  bi_tools : ComponentInventory;
  bi_models : ComponentInventory;
  bi_workers : ComponentInventory;
  bi_connectors : ComponentInventory;
  bi_error : option string }.

(** The contract a discovery is given: an object, or the JSON value the
    bootstrap passes, which has no attributes. *)
Inductive contract_arg := CObject (c : FabricContract) | CJson (v : pyval).
Definition contract_true (c : option contract_arg) : bool :=
  match c with None => false | Some (CObject _) => true | Some (CJson v) => truthy v end.
Definition contract_field (name : string) (f : FabricContract -> pyval) (c : contract_arg)
    : result pyval :=
  match c with
  | CObject c => Ok (f c)
  | CJson v => raise AttributeError ("'" +:+ pytype_name v +:+ "' object has no attribute '"
                                     +:+ name +:+ "'")
  end.
(** [set(v)]: its elements must be hashable. *)
Definition hashable (v : pyval) : bool :=
  match v with VList _ | VDict _ => false | _ => true end.
Definition py_set (v : pyval) : result (list pyval) :=
  let? l := py_iter v in
  if forallb hashable l then Ok l else raise TypeError "unhashable type".

(** The discovery's arguments: the registries it is given, the models of a given
    registry, the names of the tools of a given one. *)
Record InventoryDiscovery := mkDiscovery {
  id_capabilities : option CapabilityRegistry;
  id_tools : option (list string);
  id_models : option (list ModelDefinition);
  id_workers : bool;
  id_static_connectors : list string;
  id_contract : option contract_arg }.

Section Discovery.
Context {io : RegistryIO}.
(** Whether the imports of a module of the runtime resolve. *)
Context (importable : string -> bool).
Implicit Type d : InventoryDiscovery.

(** The capabilities granted and revoked by the contract. *)
Definition contract_terms d : result (list pyval * list pyval) :=
  match id_contract d with
  | Some c =>
      if contract_true (Some c) then
        let? granted := contract_field "granted_capabilities" fc_granted_capabilities c in
        let? granted := py_set granted in
        let? revoked := contract_field "revoked_capabilities" fc_revoked_capabilities c in
        let? revoked := py_set revoked in
        Ok (granted, revoked)
      else Ok ([], [])
  | None => Ok ([], [])
  end.
Definition cap_authorized (granted revoked : list pyval) (cid : string) : bool :=
  (match granted with [] => true | _ => has_text cid granted end) && negb (has_text cid revoked).
Definition add_capability (granted revoked : list pyval) (cap : CapabilityDefinition)
    (i : ComponentInventory) : ComponentInventory :=
  let cid := capability_id cap in
  let i := declare cid i in
  if enabled cap then
    let i := enable cid i in
    if cap_authorized granted revoked cid then authorize cid i else i
  else i.
Definition discover_capabilities d : result ComponentInventory :=
  let caps := cap_list_all (default cap_registry_init (id_capabilities d)) in
  let? terms := contract_terms d in
  Ok (foldl (fun i cap => add_capability terms.1 terms.2 cap i) empty_inventory caps).

(** [register_builtins], called with the registry alone *)
Definition builtin_tools : result (list string) :=
  raise TypeError ("register_builtins() missing 5 required positional arguments: "
    +:+ "'filesystem', 'process', 'shell', 'git', and 'workspace'").
Definition add_all (id : string) (i : ComponentInventory) : ComponentInventory :=
  authorize id (enable id (declare id i)).
Definition discover_tools d : result ComponentInventory :=
  let? names := match id_tools d with Some names => Ok names | None => builtin_tools end in
  let inv := foldl (fun i name => add_all name i) empty_inventory names in
  let mcp := map (fun t => "mcp." +:+ tool_id t) (list_tools tool_registry_init) in
  Ok (foldl (fun i id => if str_in id (ci_declared i) then i else add_all id i) inv mcp).

(** [ModelRegistry().list_models()] *)
Definition fresh_models : result (list ModelDefinition) :=
  match construct None "" "" (mkRegSt empty_mem ∅) with
  | (s, Ok _) => Ok (list_models (r_mem s))
  | (_, Raise e) => Raise e
  end.
(** [model.state]: a model definition has a [status] and no [state]. *)
Definition model_state (m : ModelDefinition) : result ModelState :=
  raise AttributeError "'ModelDefinition' object has no attribute 'state'".
Definition add_model (m : ModelDefinition) (i : ComponentInventory)
    : result ComponentInventory :=
  let id := md_model_id m in
  let i := declare id i in
  let? st := model_state m in
  Ok (match st with
      | MS_AVAILABLE => authorize id (enable id i)
      | MS_DISABLED | MS_QUARANTINED | MS_DEPRECATED => i
      | _ => enable id i
      end).
Fixpoint add_models (ms : list ModelDefinition) (i : ComponentInventory)
    : result ComponentInventory :=
  match ms with
  | [] => Ok i
  | m :: ms' => let? i' := add_model m i in add_models ms' i'
  end.
Definition discover_models d : result ComponentInventory :=
  let? ms := match id_models d with Some ms => Ok ms | None => fresh_models end in
  add_models ms empty_inventory.

Definition L2_WORKERS : list string :=
  ["ANNA"; "IRIS"; "KIRA"; "KLARA"; "RUTH"; "MINA"; "STELLA"; "ZARA"].
(** [self._worker_manager.list_active()]: the worker manager has no such
    method. *)
Definition active_workers : result (list string) :=
  raise AttributeError "'WorkerManager' object has no attribute 'list_active'".
Definition discover_workers d : result ComponentInventory :=
  let inv := mkInventory L2_WORKERS [] L2_WORKERS L2_WORKERS [] [] [] [] in
  if id_workers d then
    match active_workers with
    | Ok ids => Ok (foldl (fun i id => if str_in id (ci_declared i) then i
                                       else enable id (declare id i)) inv ids)
    | Raise _ => Ok inv
    end
  else Ok inv.

(** The connectors: module, symbol, and whether the module defines it. *)
Definition connector_checks : list (string * string * string * bool) :=
  [("github", "runtime.github.client", "GitHubClient", true);
   ("fabric.github", "runtime.fabric.github_adapter", "GitHubFabricAdapter", true);
   ("compute.colab", "runtime.compute.colab", "ColabComputeProvider", true);
   ("browser.cdp", "runtime.browser.broker_server", "BrowserBrokerServer", false);
   ("api.bridge", "runtime.api.bridge", "router", false)].
Definition add_connector (c : string * string * string * bool) (i : ComponentInventory)
    : ComponentInventory :=
  let '(id, module, _, defined) := c in
  let i := declare id i in
  if importable module && defined then authorize id (enable id i) else i.
Definition discover_connectors d : result ComponentInventory :=
  let inv := foldl (fun i c => add_connector c i) empty_inventory connector_checks in
  Ok (foldl (fun i id => if str_in id (ci_declared i) then i else declare id i) inv
        (id_static_connectors d)).

(** [discover]: a class that fails is left empty and its error recorded. *)
Definition or_empty (r : result ComponentInventory) : ComponentInventory :=
  match r with Ok i => i | Raise _ => empty_inventory end.
Definition error_of (name : string) (r : result ComponentInventory) : list string :=
  match r with Ok _ => [] | Raise e => [name +:+ ": " +:+ exn_str e] end.
Definition discover d : BootstrapInventory :=
  let caps := discover_capabilities d in
  let tools := discover_tools d in
  let models := discover_models d in
  let workers := discover_workers d in
  let connectors := discover_connectors d in
  let errors := error_of "capabilities" caps ++ error_of "tools" tools
    ++ error_of "models" models ++ error_of "workers" workers
    ++ error_of "connectors" connectors in
  mkBootInventory (or_empty caps) (or_empty tools) (or_empty models) (or_empty workers)
    (or_empty connectors)
    (match errors with [] => None | _ => Some (str_join "; " errors) end).
End Discovery.

(** ** Access checks *)
Record AccessTestResult := mkTest {
  at_capability_id : string; at_passed : bool; at_evidence : string; at_error : option string }.
Record AccessVerificationResult := mkVerification {
  av_passed : bool; av_results : list AccessTestResult; av_critical_failures : list string }.
Definition CRITICAL_CAPABILITIES : list string :=
  ["repository.read"; "repository.search"; "filesystem.inspect"; "filesystem.list"; "fabric.read";
   "runtime.status"; "runtime.execution"; "tool.resolve"; "model.resolve"; "worker.resolve"].

Record CriticalAccessVerifier := mkVerifier {
  cv_authorized : list string;
  cv_data_dir : string;
  cv_fabric : option GitHubFabricAdapter;
  cv_github : option GitHubClient }.

Section Verifier.
Context {io : RegistryIO} {env : FabricEnv}.
(** The file system, the working directory, and the order in which the set of
    critical capabilities is iterated. *)
Context (files : fs) (work_dir : string) (iteration : list string).
Implicit Type v : CriticalAccessVerifier.

Definition data_path v : string := abspath work_dir (cv_data_dir v).
(** [os.stat(data_dir).st_mode], [len(os.listdir(data_dir))] *)
Definition stat_mode v : result Z :=
  match files !! data_path v with
  | Some n => Ok (st_mode n)
  | None => raise OSError ("[Errno 2] No such file or directory: '" +:+ cv_data_dir v +:+ "'")
  end.
Definition list_count v : result nat :=
  match files !! data_path v with
  | Some (Dir _ _ _) => Ok (length (listdir_sorted files (data_path v)))
  | Some (File _ _ _) => raise OSError ("[Errno 20] Not a directory: '" +:+ cv_data_dir v +:+ "'")
  | None => raise OSError ("[Errno 2] No such file or directory: '" +:+ cv_data_dir v +:+ "'")
  end.
(** [self._github.list_repos()]: the client has no such method. *)
Definition list_repos (c : GitHubClient) : result (list pyval) :=
  raise AttributeError "'GitHubClient' object has no attribute 'list_repos'".
(** A test that succeeds with a text or fails with the exception's. *)
Definition tested (cap failure : string) (r : result string) : AccessTestResult :=
  match r with
  | Ok evidence => mkTest cap true evidence None
  | Raise e => mkTest cap false failure (Some (exn_str e))
  end.
Definition count_text (n : nat) : string := zstr (Z.of_nat n).

Definition test_repository_read v : AccessTestResult :=
  match cv_github v with
  | None => mkTest "repository.read" false "NO_GITHUB_CLIENT" (Some "GitHub client not initialized")
  | Some c => tested "repository.read" "REPOS_FETCH_FAILED"
      (let? repos := list_repos c in Ok ("REPOS_ACCESSIBLE count=" +:+ count_text (length repos)))
  end.
Definition test_repository_search v : AccessTestResult :=
  match cv_github v with
  | None => mkTest "repository.search" true
              ("SEARCH_LOCAL_SUBSTRATE_OK path=" +:+ cv_data_dir v) None
  | Some c => tested "repository.search" "SEARCH_VERIFICATION_FAILED"
      (let? repos := list_repos c in Ok ("SEARCH_INDEX_VERIFIED count=" +:+ count_text (length repos)))
  end.
Definition test_filesystem_inspect v : AccessTestResult :=
  tested "filesystem.inspect" "STAT_FAILED"
    (let? m := stat_mode v in Ok ("STAT_OK path=" +:+ cv_data_dir v +:+ " mode=" +:+ oct m)).
Definition test_filesystem_list v : AccessTestResult :=
  tested "filesystem.list" "LS_FAILED"
    (let? n := list_count v in
     Ok ("LS_OK path=" +:+ cv_data_dir v +:+ " count=" +:+ count_text n)).
Definition test_fabric_read v : M Net AccessTestResult :=
  match cv_fabric v with
  | None => mret (mkTest "fabric.read" false "NO_FABRIC_CLIENT"
                    (Some "Fabric adapter not initialized"))
  | Some a =>
      except_all
        (node ← read_node_config a;
         mret (mkTest "fabric.read" true
                 ("NODE_CONFIG_READ node_id=" +:+ py_str (fn_node_id node)) None))
        (fun e => mret (mkTest "fabric.read" false "NODE_CONFIG_FAILED" (Some (exn_str e))))
  end.
Definition test_runtime_status v : AccessTestResult :=
  tested "runtime.status" "STATUS_CHECK_FAILED"
    (let? m := stat_mode v in
     Ok ("RUNTIME_STATUS_VERIFIED path=" +:+ cv_data_dir v +:+ " st_mode=" +:+ oct m)).
Definition test_runtime_execution v : AccessTestResult :=
  mkTest "runtime.execution" true
    ("EXECUTION_SUBSTRATE_VERIFIED exists="
     +:+ (if exists_ files (data_path v) then "True" else "False")) None.
Definition test_tool_resolve v : AccessTestResult :=
  mkTest "tool.resolve" true
    ("TOOL_RESOLVE_VERIFIED count=" +:+ count_text (length (list_tools tool_registry_init))) None.
Definition test_model_resolve v : AccessTestResult :=
  tested "model.resolve" "MODEL_RESOLVE_FAILED"
    (let? ms := fresh_models in Ok ("MODEL_RESOLVE_VERIFIED count=" +:+ count_text (length ms))).
Definition test_worker_resolve v : AccessTestResult :=
  mkTest "worker.resolve" true "WORKER_RESOLVE_VERIFIED worker_manager_available=True" None.

(** [_run_test] *)
Definition run_test v (cap : string) : M Net AccessTestResult :=
  if cap =s "repository.read" then mret (test_repository_read v)
  else if cap =s "repository.search" then mret (test_repository_search v)
  else if cap =s "filesystem.inspect" then mret (test_filesystem_inspect v)
  else if cap =s "filesystem.list" then mret (test_filesystem_list v)
  else if cap =s "fabric.read" then test_fabric_read v
  else if cap =s "runtime.status" then mret (test_runtime_status v)
  else if cap =s "runtime.execution" then mret (test_runtime_execution v)
  else if cap =s "tool.resolve" then mret (test_tool_resolve v)
  else if cap =s "model.resolve" then mret (test_model_resolve v)
  else if cap =s "worker.resolve" then mret (test_worker_resolve v)
  else mret (mkTest cap true "NO_TEST_DEFINED" None).
Definition unauthorized (cap : string) : AccessTestResult :=
  mkTest cap false "UNAUTHORIZED"
    (Some "Required critical capability is not authorized by the fabric contract.").
(** One capability, added to the result. *)
Definition check_capability v (cap : string) (r : AccessVerificationResult)
    : M Net AccessVerificationResult :=
  test ← (if str_in cap (cv_authorized v) then run_test v cap else mret (unauthorized cap));
  mret (if at_passed test
        then mkVerification (av_passed r) (av_results r ++ [test]) (av_critical_failures r)
        else mkVerification false (av_results r ++ [test]) (av_critical_failures r ++ [cap])).
Fixpoint check_all v (caps : list string) (r : AccessVerificationResult)
    : M Net AccessVerificationResult :=
  match caps with
  | [] => mret r
  | cap :: caps' => r' ← check_capability v cap r; check_all v caps' r'
  end.
Definition verify_access v : M Net AccessVerificationResult :=
  check_all v iteration (mkVerification true [] []).
End Verifier.

(** ** Correctness *)
Section InventoryTheorems.
Context {io : RegistryIO} (importable : string -> bool).

(** Nothing is authorized that is not enabled, nor enabled that is not
    declared. *)
Definition layered (i : ComponentInventory) : Prop :=
  ci_authorized i ⊆ ci_enabled i /\ ci_enabled i ⊆ ci_declared i.
Lemma layered_empty : layered empty_inventory.
Proof. by split. Qed.
Lemma layered_declare id i : layered i -> layered (declare id i).
Proof. intros [H1 H2]. split; [done|]. simpl. set_solver. Qed.
Lemma layered_enable id i : layered i -> id ∈ ci_declared i -> layered (enable id i).
Proof. intros [H1 H2] Hd. split; simpl; set_solver. Qed.
Lemma layered_authorize id i : layered i -> id ∈ ci_enabled i -> layered (authorize id i).
Proof. intros [H1 H2] Hd. split; simpl; set_solver. Qed.
Lemma declared_declare id i : id ∈ ci_declared (declare id i).
Proof. simpl. set_solver. Qed.
Lemma enabled_enable id i : id ∈ ci_enabled (enable id i).
Proof. simpl. set_solver. Qed.
#[local] Hint Resolve layered_empty layered_declare layered_enable layered_authorize
  declared_declare enabled_enable : inventory.
Lemma layered_add_all id i : layered i -> layered (add_all id i).
Proof. unfold add_all. auto with inventory. Qed.
#[local] Hint Resolve layered_add_all : inventory.
Lemma layered_foldl {A} (f : ComponentInventory -> A -> ComponentInventory) l i :
  (forall i a, layered i -> layered (f i a)) -> layered i -> layered (foldl f i l).
Proof. intros Hf. revert i. induction l as [|a l IH]; simpl; auto. Qed.

Lemma ok_inj {A} (a b : A) : Ok a = Ok b -> a = b.
Proof. congruence. Qed.
Lemma layered_capabilities d i : discover_capabilities d = Ok i -> layered i.
Proof.
  unfold discover_capabilities. destruct (contract_terms d) as [[g r]|]; [|done].
  intros <-%ok_inj. apply layered_foldl; [|auto with inventory].
  intros i cap H. unfold add_capability. repeat case_match; auto with inventory.
Qed.
Lemma layered_tools d i : discover_tools d = Ok i -> layered i.
Proof.
  unfold discover_tools. destruct (id_tools d) as [names|]; [|done].
  intros <-%ok_inj. apply layered_foldl.
  - intros i' id H. case_match; auto with inventory.
  - apply layered_foldl; auto with inventory.
Qed.
Lemma layered_models d i : discover_models d = Ok i -> layered i.
Proof.
  unfold discover_models. destruct (id_models d) as [[|m ms]|]; [|done|done].
  intros <-%ok_inj. auto with inventory.
Qed.
Lemma layered_workers d i : discover_workers d = Ok i -> layered i.
Proof. unfold discover_workers. by destruct (id_workers d); intros <-%ok_inj. Qed.
Lemma layered_connectors d i : discover_connectors importable d = Ok i -> layered i.
Proof.
  unfold discover_connectors. intros <-%ok_inj. apply layered_foldl.
  - intros i id H. case_match; auto with inventory.
  - apply layered_foldl; [|auto with inventory]. intros i [[[id m] sy] def] H.
    unfold add_connector. case_match; auto with inventory.
Qed.
Lemma layered_or_empty r : (forall i, r = Ok i -> layered i) -> layered (or_empty r).
Proof. destruct r; simpl; auto with inventory. Qed.

(** In every inventory the bootstrap discovers, whatever registries,
    contract and importable modules it finds, what is authorized is enabled and
    what is enabled is declared, for each class of components. *)
Theorem inventory_layered d :
  let inv := discover importable d in
  layered (bi_capabilities inv) /\ layered (bi_tools inv) /\ layered (bi_models inv) /\
  layered (bi_workers inv) /\ layered (bi_connectors inv).
Proof.
  split_and!; apply layered_or_empty; [apply layered_capabilities|apply layered_tools
    |apply layered_models|apply layered_workers|apply layered_connectors].
Qed.

Lemma foldl_capabilities g r caps i :
  let i' := foldl (fun i cap => add_capability g r cap i) i caps in
  ci_declared i' = ci_declared i ++ map capability_id caps /\
  ci_enabled i' = ci_enabled i ++ map capability_id (filter (fun c => enabled c = true) caps) /\
  ci_authorized i' = ci_authorized i ++ map capability_id
    (filter (fun c => enabled c = true /\ cap_authorized g r (capability_id c) = true) caps).
Proof.
  revert i. induction caps as [|cap caps IH]; intros i; simpl; [by rewrite !app_nil_r|].
  destruct (IH (add_capability g r cap i)) as (H1 & H2 & H3).
  rewrite H1, H2, H3, !filter_cons. unfold add_capability.
  destruct (enabled cap); [|by rewrite !decide_False by naive_solver; simpl; rewrite <- app_assoc].
  rewrite (decide_True (P := true = true)) by done.
  destruct (cap_authorized g r (capability_id cap));
    [rewrite decide_True by done|rewrite decide_False by naive_solver];
    simpl; rewrite <- ?app_assoc; done.
Qed.

(** A capability is authorized at bootstrap exactly when an enabled
    definition of the registry has its name, the contract revokes nothing of
    that name, and grants it or grants nothing by name; a contract that cannot
    be read as one yields no authorization at all. *)
Theorem authorized_capabilities d cid :
  cid ∈ ci_authorized (bi_capabilities (discover importable d)) <->
  exists cap granted revoked, contract_terms d = Ok (granted, revoked) /\
    cap ∈ cap_list_all (default cap_registry_init (id_capabilities d)) /\
    capability_id cap = cid /\ enabled cap = true /\
    (granted = [] \/ VStr cid ∈ granted) /\ VStr cid ∉ revoked.
Proof.
  assert (forall l, has_text cid l = true <-> VStr cid ∈ l) as Ht.
  { intros l. unfold has_text. rewrite existsb_exists. split.
    - intros (x & Hx & H). destruct x; try done. simpl in H. apply String.eqb_eq in H as ->.
      by apply list_elem_of_In.
    - intros H. exists (VStr cid). split; [by apply list_elem_of_In|]. apply String.eqb_refl. }
  assert (forall g r, cap_authorized g r cid = true <->
    (g = [] \/ VStr cid ∈ g) /\ VStr cid ∉ r) as Ha.
  { intros g r. unfold cap_authorized. rewrite andb_true_iff, negb_true_iff, <- not_true_iff_false, Ht.
    destruct g as [|v g]; [naive_solver|]. rewrite Ht. naive_solver. }
  unfold discover, discover_capabilities. simpl.
  destruct (contract_terms d) as [[g r]|e]; simpl; [|split; [intros H; by inv H|naive_solver]].
  destruct (foldl_capabilities g r (cap_list_all (default cap_registry_init (id_capabilities d)))
    empty_inventory) as (_ & _ & ->). simpl. rewrite list_elem_of_In, in_map_iff. split.
  - intros (cap & <- & Hin). apply list_elem_of_In, list_elem_of_filter in Hin as [[He Hc] Hin].
    exists cap, g, r. by rewrite Ha in Hc.
  - intros (cap & g' & r' & [= <- <-] & Hin & <- & He & Hg). exists cap. split; [done|].
    apply list_elem_of_In, list_elem_of_filter. by rewrite Ha.
Qed.

(** Without registries, as the engine calls it, the tools and the models cannot
    be listed. *)
Lemma engine_inventory_empty contract :
  let inv := discover importable (mkDiscovery None None None false [] contract) in
  ci_declared (bi_tools inv) = [] /\ ci_declared (bi_models inv) = [] /\ bi_error inv <> None.
Proof.
  split_and!; [done|done|]. unfold discover. simpl bi_error.
  destruct (error_of "capabilities" _); discriminate.
Qed.
End InventoryTheorems.

Section VerifierTheorems.
Context {io : RegistryIO} {env : FabricEnv} (files : fs) (work_dir : string).
Context (iteration : list string).
Context (iteration_perm : iteration ≡ₚ CRITICAL_CAPABILITIES).
Implicit Type v : CriticalAccessVerifier.

Lemma tested_id cap failure r : at_capability_id (tested cap failure r) = cap.
Proof. by destruct r. Qed.
(** The outcome of a test of [cap]: one for [repository.read] never passes. *)
Definition test_outcome (cap : string) (r : result AccessTestResult) : Prop :=
  match r with
  | Ok t => at_capability_id t = cap /\ (cap = "repository.read" -> at_passed t = false)
  | Raise e => exn_type e = Unmodelled
  end.
Lemma fabric_read_outcome v s :
  wp (test_fabric_read v) s (fun _ r => test_outcome "fabric.read" r).
Proof.
  unfold test_fabric_read. destruct (cv_fabric v) as [a|]; [|done].
  apply wp_try_with, wp_bind, wp_any. intros s' [n|e]; [done|].
  by destruct (exn_type e) eqn:E.
Qed.
Lemma run_test_outcome v cap s :
  wp (run_test files work_dir v cap) s (fun _ r => test_outcome cap r).
Proof.
  unfold run_test.
  repeat match goal with |- context [if ?a =s ?b then _ else _] =>
    destruct (String.eqb_spec a b) as [->|] end;
    try apply fabric_read_outcome; unfold wp; simpl;
    unfold test_repository_read, test_repository_search; try destruct (cv_github v); simpl;
    (split; [done || apply tested_id|done]).
Qed.

(** The results so far decide the verdict. *)
Definition verdict_ok v (r : AccessVerificationResult) : Prop :=
  av_passed r = forallb at_passed (av_results r) /\
  av_critical_failures r =
    map at_capability_id (filter (fun t => at_passed t = false) (av_results r)) /\
  Forall (fun t => (at_passed t = true -> at_capability_id t ∈ cv_authorized v) /\
    (at_capability_id t = "repository.read" -> at_passed t = false)) (av_results r).
Lemma add_test_ok v r t cap :
  verdict_ok v r -> at_capability_id t = cap ->
  (at_passed t = true -> cap ∈ cv_authorized v) ->
  (cap = "repository.read" -> at_passed t = false) ->
  verdict_ok v (if at_passed t
    then mkVerification (av_passed r) (av_results r ++ [t]) (av_critical_failures r)
    else mkVerification false (av_results r ++ [t]) (av_critical_failures r ++ [cap])).
Proof.
  intros (Hp & Hf & Ha) Hid Hauth Hrr.
  assert (Forall (fun t => (at_passed t = true -> at_capability_id t ∈ cv_authorized v) /\
    (at_capability_id t = "repository.read" -> at_passed t = false)) (av_results r ++ [t])) as HF.
  { apply Forall_app. split; [done|]. constructor; [by rewrite Hid|done]. }
  unfold verdict_ok. destruct (at_passed t) eqn:E; simpl;
    rewrite forallb_app, filter_app, map_app, filter_cons; simpl; rewrite E.
  - rewrite decide_False by done. by rewrite Hp, Hf, !andb_true_r, app_nil_r.
  - rewrite decide_True by done. simpl. by rewrite Hf, Hid, andb_false_r.
Qed.
Definition extends v (caps : list string) (r : AccessVerificationResult)
    (res : result AccessVerificationResult) : Prop :=
  match res with
  | Ok r' => verdict_ok v r' /\
      map at_capability_id (av_results r') = map at_capability_id (av_results r) ++ caps
  | Raise e => exn_type e = Unmodelled
  end.
Lemma check_capability_ok v cap r s :
  verdict_ok v r ->
  wp (check_capability files work_dir v cap r) s (fun _ res => extends v [cap] r res).
Proof.
  intros Hr. unfold check_capability. apply wp_bind.
  destruct (str_in cap (cv_authorized v)) eqn:E.
  - eapply wp_mono; [apply run_test_outcome|]. intros s1 [t|e]; [|done].
    intros [Hid Hrr]. apply wp_ret. split.
    + apply add_test_ok; auto. intros _. by apply str_in_true.
    + destruct (at_passed t); simpl; by rewrite map_app; simpl; rewrite Hid.
  - apply wp_ret, wp_ret. split; [|simpl; by rewrite map_app].
    by apply (add_test_ok v r (unauthorized cap)).
Qed.
Lemma check_all_ok v caps r s :
  verdict_ok v r ->
  wp (check_all files work_dir v caps r) s (fun _ res => extends v caps r res).
Proof.
  revert r s. induction caps as [|cap caps IH]; intros r s Hr.
  - split; [done|by rewrite app_nil_r].
  - simpl. apply wp_bind. eapply wp_mono; [by apply check_capability_ok|].
    intros s1 [r1|e]; [|done]. intros [H1 H2]. eapply wp_mono; [by apply IH|].
    intros s2 [r2|e]; [|done]. intros [H3 H4]. split; [done|].
    by rewrite H4, H2, <- app_assoc.
Qed.

Lemma verified_run v s :
  wp (verify_access files work_dir iteration v) s (fun _ res =>
    match res with
    | Ok r => verdict_ok v r /\ map at_capability_id (av_results r) ≡ₚ CRITICAL_CAPABILITIES
    | Raise e => exn_type e = Unmodelled
    end).
Proof.
  eapply wp_mono; [apply check_all_ok; by split_and!|].
  intros s' [r|e]; [|done]. intros [H Hids]. split; [done|]. simpl in Hids. by rewrite Hids.
Qed.
Lemma failed_elem v r cap :
  verdict_ok v r -> cap ∈ av_critical_failures r <->
  exists t, t ∈ av_results r /\ at_capability_id t = cap /\ at_passed t = false.
Proof.
  intros (_ & -> & _). rewrite list_elem_of_In, in_map_iff. split.
  - intros (t & <- & Ht). apply list_elem_of_In, list_elem_of_filter in Ht as [? ?]. by exists t.
  - intros (t & ? & <- & ?). exists t. split; [done|]. by apply list_elem_of_In, list_elem_of_filter.
Qed.
Lemma passed_failures v r : verdict_ok v r -> av_passed r = true <-> av_critical_failures r = [].
Proof.
  intros (-> & -> & _). rewrite forallb_forall. split; intros H.
  - replace (filter _ _) with (@nil AccessTestResult); [done|].
    symmetry. apply filter_nil_iff, Forall_forall. intros t Ht.
    apply list_elem_of_In in Ht. by rewrite (H t Ht).
  - apply map_eq_nil, filter_nil_iff in H. intros t Ht.
    apply list_elem_of_In in Ht. rewrite Forall_forall in H. apply not_false_iff_true. by apply H.
Qed.
Lemma critical_result r cap :
  map at_capability_id (av_results r) ≡ₚ CRITICAL_CAPABILITIES -> cap ∈ CRITICAL_CAPABILITIES ->
  exists t, t ∈ av_results r /\ at_capability_id t = cap.
Proof.
  intros Hids Hc. rewrite <- Hids in Hc. apply list_elem_of_In, in_map_iff in Hc as (t & ? & ?).
  exists t. by rewrite list_elem_of_In.
Qed.

(** The access check tests every critical capability once, in whatever order
    the set is iterated; it passes exactly when it lists no failure, it lists
    exactly the capabilities whose test failed, and a critical capability that
    is not authorized is always among them. *)
Theorem access_verdict v s :
  wp (verify_access files work_dir iteration v) s (fun _ res =>
    match res with
    | Ok r => map at_capability_id (av_results r) ≡ₚ CRITICAL_CAPABILITIES /\
        (av_passed r = true <-> av_critical_failures r = []) /\
        (forall cap, cap ∈ av_critical_failures r <->
           exists t, t ∈ av_results r /\ at_capability_id t = cap /\ at_passed t = false) /\
        (forall cap, cap ∈ CRITICAL_CAPABILITIES -> cap ∉ cv_authorized v ->
           cap ∈ av_critical_failures r)
    | Raise e => exn_type e = Unmodelled
    end).
Proof.
  eapply wp_mono; [apply verified_run|]. intros s' [r|e]; [|done]. intros [H Hids].
  split; [done|]. split; [by eapply passed_failures|]. split; [intros; by eapply failed_elem|].
  intros cap Hc Hn. destruct (critical_result r cap Hids Hc) as (t & Ht & Hid).
  apply (failed_elem v r cap H). exists t. split; [done|]. split; [done|].
  destruct H as (_ & _ & HF). rewrite Forall_forall in HF. destruct (HF t Ht) as [Ha _].
  destruct (at_passed t); [|done]. by destruct Hn; rewrite <- Hid; apply Ha.
Qed.

(** With the present client the check never passes: the test of
    repository.read calls a method the client does not have. *)
Lemma access_never_passes v s :
  wp (verify_access files work_dir iteration v) s (fun _ res =>
    match res with Ok r => av_passed r = false | Raise e => exn_type e = Unmodelled end).
Proof.
  eapply wp_mono; [apply verified_run|]. intros s' [r|e]; [|done]. intros [H Hids].
  destruct (critical_result r "repository.read" Hids) as (t & Ht & Hid); [left|].
  apply not_true_iff_false. rewrite (passed_failures v r H). intros Hnil.
  assert ("repository.read" ∈ av_critical_failures r) as Hin.
  { apply (failed_elem v r _ H). exists t. split; [done|]. split; [done|].
    destruct H as (_ & _ & HF). rewrite Forall_forall in HF. by apply HF. }
  rewrite Hnil in Hin. by inv Hin.
Qed.
End VerifierTheorems.
