(* ===== verification/Telemetry.v ===== *)
(** * Telemetry

    [runtime/telemetry/telemetry.py], [scrubber.py], [collector.py] and
    [aggregator.py]: the envelope, the scrubbing of metadata, the append-only
    log with its recent buffer, queries, and the processing matrix computed
    from the events. *)
From S2P Require Import Prelude Dict PyVal PyStr.

Record TelemetryEnvelope := mkEnvelope {
  te_event_id : string;
  te_trace_id : option string;
  te_span_id : option string;
  te_parent_span_id : option string;
  te_timestamp : option string;
  te_component : string;
  te_event_type : string;
  te_source : string;
  te_domain : string;
  te_task_id : option string;
  te_execution_id : option string;
  te_worker_id : option string;
  te_directorate_id : option string;
  te_department_id : option string;
  te_workspace_id : option string;
  te_tenant_id : option string;
  te_account_id : option string;
  te_project_id : option string;
  te_repository_id : option string;
  te_resource_id : option string;
  te_capability_id : option string;
  te_capability_family : option string;
  te_execution_mode : option string;
  te_routing_class : option string;
  te_executor_type : option string;
  te_executor_id : option string;
  te_model_id : option string;
  te_model_version : option string;
  te_policy_version : option string;
  te_status : option string;
  te_duration_ms : option Z;
  te_input_size : option Z;
  te_output_size : option Z;
  te_input_hash : option string;
  te_result_hash : option string;
  te_metadata : dict string pyval }.
#[export] Instance eta_TelemetryEnvelope : Eta TelemetryEnvelope := fun r =>
  mkEnvelope (te_event_id r) (te_trace_id r) (te_span_id r) (te_parent_span_id r)
    (te_timestamp r) (te_component r) (te_event_type r) (te_source r) (te_domain r)
    (te_task_id r) (te_execution_id r) (te_worker_id r) (te_directorate_id r)
    (te_department_id r) (te_workspace_id r) (te_tenant_id r) (te_account_id r)
    (te_project_id r) (te_repository_id r) (te_resource_id r) (te_capability_id r)
    (te_capability_family r) (te_execution_mode r) (te_routing_class r)
    (te_executor_type r) (te_executor_id r) (te_model_id r) (te_model_version r)
    (te_policy_version r) (te_status r) (te_duration_ms r) (te_input_size r)
    (te_output_size r) (te_input_hash r) (te_result_hash r) (te_metadata r).

(** [TelemetryEnvelope.create] with only the required arguments: the event
    identifier and the timestamp are drawn by the constructor; the keyword
    arguments of a call are record updates of the result. *)
Definition create_envelope (event_id timestamp component event_type source : string)
  : TelemetryEnvelope :=
  mkEnvelope event_id None None None (Some timestamp) component event_type source
    "ANNY_UNIVERSE" None None None None None None None None None None None None None None
    None None None None None None None None None None None None [].

(** [to_dict]: the fields that are not None, in order. *)
Definition str_field (k : string) (v : option string) : dict string pyval :=
  match v with Some s => [(k, VStr s)] | None => [] end.
Definition int_field (k : string) (v : option Z) : dict string pyval :=
  match v with Some z => [(k, VInt z)] | None => [] end.
Definition envelope_to_dict (e : TelemetryEnvelope) : dict string pyval :=
  [("event_id", VStr (te_event_id e))]
  ++ str_field "trace_id" (te_trace_id e) ++ str_field "span_id" (te_span_id e)
  ++ str_field "parent_span_id" (te_parent_span_id e)
  ++ str_field "timestamp" (te_timestamp e)
  ++ [("component", VStr (te_component e)); ("event_type", VStr (te_event_type e));
      ("source", VStr (te_source e)); ("domain", VStr (te_domain e))]
  ++ str_field "task_id" (te_task_id e) ++ str_field "execution_id" (te_execution_id e)
  ++ str_field "worker_id" (te_worker_id e)
  ++ str_field "directorate_id" (te_directorate_id e)
  ++ str_field "department_id" (te_department_id e)
  ++ str_field "workspace_id" (te_workspace_id e) ++ str_field "tenant_id" (te_tenant_id e)
  ++ str_field "account_id" (te_account_id e) ++ str_field "project_id" (te_project_id e)
  ++ str_field "repository_id" (te_repository_id e)
  ++ str_field "resource_id" (te_resource_id e)
  ++ str_field "capability_id" (te_capability_id e)
  ++ str_field "capability_family" (te_capability_family e)
  ++ str_field "execution_mode" (te_execution_mode e)
  ++ str_field "routing_class" (te_routing_class e)
  ++ str_field "executor_type" (te_executor_type e)
  ++ str_field "executor_id" (te_executor_id e) ++ str_field "model_id" (te_model_id e)
  ++ str_field "model_version" (te_model_version e)
  ++ str_field "policy_version" (te_policy_version e) ++ str_field "status" (te_status e)
  ++ int_field "duration_ms" (te_duration_ms e) ++ int_field "input_size" (te_input_size e)
  ++ int_field "output_size" (te_output_size e) ++ str_field "input_hash" (te_input_hash e)
  ++ str_field "result_hash" (te_result_hash e)
  ++ [("metadata", VDict (te_metadata e))].

(** ** The scrubber *)
Definition sensitive_words : list string :=
  ["token"; "key"; "password"; "secret"; "credential"; "auth"; "pat"].

(** The first line of a key and what follows it, newline included. *)
Fixpoint split_line (s : string) : string * string :=
  match s with
  | "" => ("", "")
  | String c s' =>
      if (String c "" =s newline) then ("", s)
      else let '(a, b) := split_line s' in (String c a, b)
  end.

(** The match of [.*(token|key|...).*$], ignoring case: the dot does not cross
    a newline, and the end matches before a final newline. *)
Definition is_sensitive_key (k : string) : bool :=
  let '(line, rest) := split_line k in
  existsb (fun w => contains w (lower line)) sensitive_words
  && ((rest =s "") || (rest =s newline)).

Definition redacted : pyval := VStr "[REDACTED]".
Fixpoint scrub_metadata (v : pyval) : pyval :=
  match v with
  | VDict d =>
      VDict (map (fun kv => (kv.1, if is_sensitive_key kv.1 then redacted
                                   else scrub_metadata kv.2)) d)
  | VList l => VList (map scrub_metadata l)
  | _ => v
  end.
Definition scrub_dict (d : dict string pyval) : dict string pyval :=
  map (fun kv => (kv.1, if is_sensitive_key kv.1 then redacted else scrub_metadata kv.2)) d.

(** No value under a sensitive key is visible, at any depth. *)
Fixpoint scrubbed (v : pyval) : Prop :=
  match v with
  | VDict d =>
      (fix go (d : dict string pyval) : Prop :=
        match d with
        | [] => True
        | (k, x) :: d' =>
            (if is_sensitive_key k then x = redacted else scrubbed x) /\ go d'
        end) d
  | VList l =>
      (fix go (l : list pyval) : Prop :=
        match l with [] => True | x :: l' => scrubbed x /\ go l' end) l
  | _ => True
  end.

(** ** The collector

    The log is the list of its lines, oldest first; a line is an envelope the
    collector wrote, or text from elsewhere, which a query skips or reads as
    an envelope through [parse]. *)
Inductive log_line := Logged (e : TelemetryEnvelope) | Foreign (s : string).
Record Collector := mkCollector {
  tc_log : list log_line;
  tc_recent : list TelemetryEnvelope }.
#[export] Instance eta_Collector : Eta Collector := fun r => mkCollector (tc_log r) (tc_recent r).

Definition recent_max : nat := 1000.
(** [deque(maxlen=1000).append] *)
Definition push_recent (e : TelemetryEnvelope) (l : list TelemetryEnvelope)
  : list TelemetryEnvelope :=
  let l' := l ++ [e] in drop (length l' - recent_max) l'.

(** [emit]; a failed write is swallowed and the event lost. *)
Definition emit (write_ok : bool) (e : TelemetryEnvelope) (c : Collector) : Collector :=
  let e' := match te_metadata e with
            | [] => e
            | d => e <| te_metadata := scrub_dict d |>
            end in
  if write_ok then mkCollector (tc_log c ++ [Logged e']) (push_recent e' (tc_recent c)) else c.

(** Equality of JSON values, used on strings by the callers of [query]. *)
Definition matches_filters (filters : dict string string) (e : TelemetryEnvelope) : bool :=
  forallb (fun kv => match dget kv.1 (envelope_to_dict e) with
                     | Some (VStr s) => s =s kv.2 | _ => false end) filters.

Section Query.
(** A line not written by the collector, read as an envelope if it is one. *)
Context (parse : string -> option TelemetryEnvelope).

Definition read_line (l : log_line) : option TelemetryEnvelope :=
  match l with Logged e => Some e | Foreign s => parse s end.

(** [query]: newest first, at most [limit], where a limit below one still
    returns the first match. *)
Definition query (filters : dict string string) (limit : nat) (c : Collector)
  : list TelemetryEnvelope :=
  take (Nat.max 1 limit)
    (filter (fun e => matches_filters filters e = true) (omap read_line (rev (tc_log c)))).
Definition get_trace (trace_id : string) (c : Collector) : list TelemetryEnvelope :=
  rev (query [("trace_id", trace_id)] 1000 c).
Definition get_live (c : Collector) : list TelemetryEnvelope := tc_recent c.
Definition get_timeline (limit : nat) (c : Collector) : list TelemetryEnvelope :=
  let recent := tc_recent c in
  if (limit <? length recent)%nat
  then (if limit =? 0 then recent else drop (length recent - limit) recent) else recent.
End Query.

(** ** Scrubbing theorems *)
Lemma scrubbed_dict_Forall d :
  scrubbed (VDict d) <->
  Forall (fun kv => if is_sensitive_key kv.1 then kv.2 = redacted else scrubbed kv.2) d.
Proof.
  induction d as [|[k x] d IH]; [by split|]. simpl in IH |- *. rewrite IH.
  split; [intros []; by constructor|intros H; by inv H].
Qed.
Lemma scrubbed_list_Forall l : scrubbed (VList l) <-> Forall scrubbed l.
Proof.
  induction l as [|x l IH]; [by split|]. simpl in IH |- *. rewrite IH.
  split; [intros []; by constructor|intros H; by inv H].
Qed.

Lemma scrub_idle v : scrubbed v -> scrub_metadata v = v.
Proof.
  induction v as [| | | | |l IH|d IH] using pyval_nested_ind; try done.
  - rewrite scrubbed_list_Forall. intros Hl. simpl. f_equal.
    induction Hl as [|x l Hx Hl IHl]; [done|]. inv IH. simpl. f_equal; auto.
  - rewrite scrubbed_dict_Forall. intros Hd. simpl. f_equal.
    induction Hd as [|[k x] d Hx Hd IHd]; [done|]. inv IH. simpl in *.
    destruct (is_sensitive_key k); f_equal; auto; f_equal; auto.
Qed.

Lemma scrub_scrubs v : scrubbed (scrub_metadata v).
Proof.
  induction v as [| | | | |l IH|d IH] using pyval_nested_ind; try done.
  - apply scrubbed_list_Forall. by apply Forall_map.
  - apply scrubbed_dict_Forall, Forall_map. eapply Forall_impl; [exact IH|].
    intros [k x] Hx. simpl in *. by destruct (is_sensitive_key k).
Qed.

(** C37: after scrubbing no value under a sensitive key is left, at any depth,
    and scrubbing is idempotent: it changes exactly the values that are not
    yet scrubbed. *)
Theorem scrub_metadata_correct v :
  scrubbed (scrub_metadata v) /\ scrub_metadata (scrub_metadata v) = scrub_metadata v /\
  (scrub_metadata v = v <-> scrubbed v).
Proof.
  split_and!; [apply scrub_scrubs|apply scrub_idle, scrub_scrubs|].
  split; [intros <-; apply scrub_scrubs|apply scrub_idle].
Qed.

(** The events of the log, and what holds of a collector that only emitted. *)
Definition logged (c : Collector) : list TelemetryEnvelope :=
  omap (fun l => match l with Logged e => Some e | Foreign _ => None end) (tc_log c).
Definition collector_ok (c : Collector) : Prop :=
  Forall (fun e => scrubbed (VDict (te_metadata e))) (logged c) /\
  tc_recent c = drop (length (logged c) - recent_max) (logged c).

Lemma push_recent_drop e l :
  push_recent e (drop (length l - recent_max) l)
  = drop (length (l ++ [e]) - recent_max) (l ++ [e]).
Proof.
  unfold push_recent, recent_max. rewrite !length_app, length_drop. simpl.
  rewrite !drop_app. rewrite drop_drop. f_equal; f_equal; rewrite ?length_drop; lia.
Qed.

(** Whatever is emitted, the log and the recent buffer hold only scrubbed
    metadata, and the buffer is the last thousand events of the log. *)
Theorem emit_ok ok e c : collector_ok c -> collector_ok (emit ok e c).
Proof.
  intros [Hs Hr]. unfold emit. destruct ok; [|done].
  set (e' := match te_metadata e with [] => e | d => e <| te_metadata := scrub_dict d |> end).
  unfold collector_ok, logged in *. simpl. rewrite omap_app. simpl. split.
  - apply Forall_app. split; [done|]. constructor; [|constructor].
    unfold e'. destruct (te_metadata e) as [|kv d] eqn:E; [by rewrite E|].
    apply (scrub_scrubs (VDict (kv :: d))).
  - rewrite Hr. apply push_recent_drop.
Qed.

(** ** The processing matrix *)
Record ExecState := mkExecState {
  xs_department : string;
  xs_routing : string;
  xs_status : string;
  xs_duration : option Z;
  xs_timestamp : option string;
  xs_parsed : Z }.
Record Stats := mkStats {
  st_total : Z; st_deterministic : Z; st_local : Z; st_frontier : Z; st_unknown : Z;
  st_success : Z; st_failed : Z; st_timeout : Z; st_blocked : Z;
  st_latest : option (option string * Z);
  st_durations : list Z }.
#[export] Instance eta_Stats : Eta Stats := fun r =>
  mkStats (st_total r) (st_deterministic r) (st_local r) (st_frontier r) (st_unknown r)
    (st_success r) (st_failed r) (st_timeout r) (st_blocked r) (st_latest r) (st_durations r).
Definition empty_stats : Stats := mkStats 0 0 0 0 0 0 0 0 0 None [].

Section Aggregator.
(** [dateutil.parser.isoparse] followed by the conversion to UTC. *)
Context (isoparse : string -> option Z).

Fixpoint insert_by_time (x : TelemetryEnvelope * Z) (l : list (TelemetryEnvelope * Z))
  : list (TelemetryEnvelope * Z) :=
  match l with
  | [] => [x]
  | y :: l' => if (x.2 <? y.2)%Z then x :: l else y :: insert_by_time x l'
  end.
Definition sort_by_time (l : list (TelemetryEnvelope * Z)) : list (TelemetryEnvelope * Z) :=
  foldl (fun acc x => insert_by_time x acc) [] l.

Definition valid_events (events : list TelemetryEnvelope) : list (TelemetryEnvelope * Z) :=
  omap (fun e => if ostr_true (te_timestamp e)
                 then (fun t => (e, t)) <$> isoparse (default "" (te_timestamp e))
                 else None) events.

(** One event applied to the state of its execution. *)
Definition update_state (e : TelemetryEnvelope) (t : Z) (s : ExecState) : ExecState :=
  mkExecState (ostr_or (te_department_id e) (xs_department s))
    (ostr_or (te_routing_class e) (xs_routing s))
    (if ostr_true (te_status e) then
       let st := default "" (te_status e) in
       if (xs_status s =s "SUCCEEDED") && negb (st =s "SUCCEEDED") then xs_status s else st
     else xs_status s)
    (match te_duration_ms e with Some d => Some d | None => xs_duration s end)
    (if (xs_parsed s <? t)%Z then te_timestamp e else xs_timestamp s)
    (Z.max (xs_parsed s) t).
Definition initial_state (e : TelemetryEnvelope) (t : Z) : ExecState :=
  mkExecState (ostr_or (te_department_id e) "UNKNOWN") (ostr_or (te_routing_class e) "UNKNOWN")
    "UNKNOWN" None (te_timestamp e) t.
Definition apply_event (states : dict string ExecState) (x : TelemetryEnvelope * Z)
  : dict string ExecState :=
  let '(e, t) := x in
  if ostr_true (te_execution_id e) then
    let id := default "" (te_execution_id e) in
    dset id (update_state e t (default (initial_state e t) (dget id states))) states
  else states.
Definition execution_states (events : list TelemetryEnvelope) : dict string ExecState :=
  foldl apply_event [] (sort_by_time (valid_events events)).

Definition count_state (s : ExecState) (g : Stats) : Stats :=
  let rc := xs_routing s in
  let st := xs_status s in
  let b2z (b : bool) : Z := if b then 1%Z else 0%Z in
  let known := (rc =s "DETERMINISTIC") || (rc =s "LOCAL_MODEL") || (rc =s "FRONTIER_MODEL") in
  mkStats (st_total g + 1)
    (st_deterministic g + b2z (rc =s "DETERMINISTIC"))
    (st_local g + b2z (rc =s "LOCAL_MODEL"))
    (st_frontier g + b2z (rc =s "FRONTIER_MODEL"))
    (st_unknown g + b2z (negb known))
    (st_success g + b2z (st =s "SUCCEEDED"))
    (st_failed g + b2z (st =s "FAILED"))
    (st_timeout g + b2z (st =s "TIMED_OUT"))
    (st_blocked g + b2z ((st =s "BLOCKED") || (st =s "LIMIT_EXCEEDED")))
    (match st_latest g with
     | None => Some (xs_timestamp s, xs_parsed s)
     | Some (ts, t) =>
         if negb (ostr_true ts) || (t <? xs_parsed s)%Z
         then Some (xs_timestamp s, xs_parsed s) else st_latest g
     end)
    (match xs_duration s with Some d => st_durations g ++ [d] | None => st_durations g end).

Record Matrix := mkMatrix { mx_global : Stats; mx_departments : dict string Stats }.
Definition count_execution (m : Matrix) (kv : string * ExecState) : Matrix :=
  let s := kv.2 in
  let d := default empty_stats (dget (xs_department s) (mx_departments m)) in
  mkMatrix (count_state s (mx_global m))
    (dset (xs_department s) (count_state s d) (mx_departments m)).
Definition get_matrix (events : list TelemetryEnvelope) : Matrix :=
  foldl count_execution (mkMatrix empty_stats []) (execution_states events).
(** [sum(durations) / len(durations)] *)
Definition average_duration (s : Stats) : pyfloat :=
  match st_durations s with
  | [] => f_of_Z 0
  | l => fdiv (f_of_Z (foldr Z.add 0%Z l)) (f_of_Z (Z.of_nat (length l)))
  end.

(** ** Totals *)
Definition balanced (s : Stats) : Prop :=
  (st_total s = st_deterministic s + st_local s + st_frontier s + st_unknown s /\
   st_success s + st_failed s + st_timeout s + st_blocked s <= st_total s)%Z.
Lemma count_state_balanced s g : balanced g -> balanced (count_state s g).
Proof.
  unfold balanced, count_state. simpl. intros [-> Hle]. split.
  - destruct (xs_routing s =s "DETERMINISTIC") eqn:E1;
      [apply String.eqb_eq in E1; rewrite E1; simpl; lia|].
    destruct (xs_routing s =s "LOCAL_MODEL") eqn:E2;
      [apply String.eqb_eq in E2; rewrite E2; simpl; lia|].
    destruct (xs_routing s =s "FRONTIER_MODEL"); simpl; lia.
  - destruct (xs_status s =s "SUCCEEDED") eqn:E1;
      [apply String.eqb_eq in E1; rewrite E1; simpl; lia|].
    destruct (xs_status s =s "FAILED") eqn:E2;
      [apply String.eqb_eq in E2; rewrite E2; simpl; lia|].
    destruct (xs_status s =s "TIMED_OUT") eqn:E3;
      [apply String.eqb_eq in E3; rewrite E3; simpl; lia|].
    destruct (_ || _); simpl; lia.
Qed.

Definition sum_totals (f : Stats -> Z) (d : dict string Stats) : Z :=
  foldr Z.add 0%Z (map f (dvalues d)).
Lemma sum_totals_dset f k v d :
  sum_totals f (dset k v d) =
    (sum_totals f d - match dget k d with Some w => f w | None => 0 end + f v)%Z.
Proof.
  unfold sum_totals, dvalues. induction d as [|[k' v'] d IH]; csimpl; [lia|].
  case_decide; csimpl; [lia|]. rewrite IH. destruct (dget k d); lia.
Qed.

(** The matrix counts every execution once: the routing counters add up to
    the total, the outcome counters never exceed it, and the departments add
    up to the global figures. *)
Theorem matrix_totals events :
  let m := get_matrix events in
  st_total (mx_global m) = Z.of_nat (length (execution_states events)) /\
  balanced (mx_global m) /\ Forall balanced (dvalues (mx_departments m)) /\
  sum_totals st_total (mx_departments m) = st_total (mx_global m) /\
  sum_totals st_success (mx_departments m) = st_success (mx_global m).
Proof.
  unfold get_matrix. generalize (execution_states events) as xs. intros xs.
  enough (forall m n, st_total (mx_global m) = n -> balanced (mx_global m) ->
    Forall balanced (dvalues (mx_departments m)) ->
    sum_totals st_total (mx_departments m) = st_total (mx_global m) ->
    sum_totals st_success (mx_departments m) = st_success (mx_global m) ->
    let m' := foldl count_execution m xs in
    st_total (mx_global m') = (n + Z.of_nat (length xs))%Z /\
    balanced (mx_global m') /\ Forall balanced (dvalues (mx_departments m')) /\
    sum_totals st_total (mx_departments m') = st_total (mx_global m') /\
    sum_totals st_success (mx_departments m') = st_success (mx_global m')) as H.
  { apply (H (mkMatrix empty_stats []) 0%Z); done. }
  induction xs as [|[id s] xs IH]; intros m n Hn Hb Hd Ht Hs; simpl.
  { split_and!; [lia|done..]. }
  specialize (IH (count_execution m (id, s)) (n + 1)%Z).
  assert (balanced (default empty_stats (dget (xs_department s) (mx_departments m)))) as Hdb.
  { destruct (dget _ _) eqn:E; [by eapply (dget_Forall balanced)|done]. }
  destruct IH as (H1 & H2 & H3 & H4 & H5).
  - simpl. lia.
  - simpl. by apply count_state_balanced.
  - simpl. apply dset_Forall; [done|]. by apply count_state_balanced.
  - simpl. rewrite sum_totals_dset. destruct (dget _ _); simpl; lia.
  - simpl. rewrite sum_totals_dset. destruct (dget _ _); simpl; lia.
  - split_and!; [|done..]. rewrite H1. lia.
Qed.

(** A success is final: once an event of an execution reports SUCCEEDED,
    no event counted after it changes the status. *)
Theorem success_latched xs states id s :
  dget id states = Some s -> xs_status s = "SUCCEEDED" ->
  exists s', dget id (foldl apply_event states xs) = Some s' /\ xs_status s' = "SUCCEEDED".
Proof.
  revert states s. induction xs as [|[e t] xs IH]; intros states s Hg Hs; simpl; [eauto|].
  destruct (ostr_true (te_execution_id e)); [|by eapply IH].
  set (k := default "" (te_execution_id e)).
  destruct (decide (k = id)) as [->|Hne].
  - eapply IH; [apply dget_dset_same|]. rewrite Hg. simpl. rewrite Hs. simpl.
    destruct (ostr_true _); [|done]. destruct (_ =s _) eqn:E; [|done].
    by apply String.eqb_eq in E.
  - eapply IH; [|done]. by rewrite dget_dset_other.
Qed.
End Aggregator.
