(* ===== verification/Worker.v ===== *)
(** * Workers

    [runtime/execution/worker.py] and [interfaces.py]: creation of a worker for
    an execution, the run of a worker through the deterministic executor, the
    MCP gateway, a local model or a frontier executor, cancellation and
    termination. *)
From S2P Require Import Prelude Dict PyVal Effects PyPath PyStr Json ExecModels Host Workspace.
From S2P Require Import Deterministic Registry Orchestrator Mcp Telemetry.

(** [ContextPackage], [ModelResult] and the interface [ModelExecutor]; the
    environment variable naming the model file, and whether the file exists,
    belong to the machine. *)
Record ContextPackage := mkPackage {
  cp_task : Task;
  cp_capability : CapabilityDefinition;
  cp_authorized_input : dict string pyval;
  cp_allowed_tools : list string;
  cp_constraints : dict string pyval;
  cp_evidence_policy : string;
  cp_execution_id : string }.
Record ModelResult := mkModelResult {
  mr_status : string;
  mr_result_data : dict string pyval;
  mr_evidence : dict string pyval }.
Class ModelExecutor := {
  qwen_model_path : option string;
  model_file_exists : string -> bool;
  model_execute : string -> ContextPackage -> result ModelResult }.

(** The state a worker runs in: the table of workers, the execution context
    shared with the manager, the gateway (which holds the host) and the
    telemetry collector. *)
Record WkSt := mkWkSt {
  wk_workers : dict string WorkerDefinition;
  wk_ctx : TaskExecutionContext;
  wk_gw : Gateway;
  wk_tel : Collector }.
#[export] Instance eta_WkSt : Eta WkSt := fun r =>
  mkWkSt (wk_workers r) (wk_ctx r) (wk_gw r) (wk_tel r).

Definition routing_class_of (executor_type : string) : string :=
  if executor_type =s "DETERMINISTIC" then "DETERMINISTIC"
  else if executor_type =s "LOCAL_MODEL" then "LOCAL_MODEL"
  else if executor_type =s "REMOTE_MODEL" then "FRONTIER_MODEL"
  else "UNKNOWN".

Definition external_caps : list string :=
  ["fabric.read"; "repository.read"; "repository.search"; "fabric.register"].

Section Worker.
Context {machine : Machine} {clients : ToolClients} {model : ModelExecutor}
  {frontier : FrontierExecutor}.
(** Configuration: presence of the gateway and of the collector, the
    gateway's arguments, and which telemetry writes succeed. *)
Context (has_gateway has_telemetry gw_audits : bool) (gw_workspace gw_fabric : string)
  (telemetry_ok : bool).

Definition on_exec {A} (m : M ExSt A) : M WkSt A :=
  zoom (fun s => mkExSt (wk_ctx s) (gw_host (wk_gw s)))
    (fun e s => s <| wk_ctx := ex_ctx e |>
                  <| wk_gw := (wk_gw s) <| gw_host := ex_host e |> |>) m.
Definition on_gateway {A} (m : M Gateway A) : M WkSt A :=
  zoom wk_gw (fun g s => s <| wk_gw := g |>) m.
Definition on_whost {A} (m : M Host A) : M WkSt A :=
  zoom (fun s => gw_host (wk_gw s))
    (fun h s => s <| wk_gw := (wk_gw s) <| gw_host := h |> |>) m.
Definition wnow : M WkSt Z := on_whost (now clock).
Definition ctx_upd (f : TaskExecutionContext -> TaskExecutionContext) : M WkSt unit :=
  modify (fun s => s <| wk_ctx := f (wk_ctx s) |>).
Definition wget (wid : string) : M WkSt (option WorkerDefinition) :=
  gets (fun s => dget wid (wk_workers s)).
(** An attribute assignment on the worker object stored under [wid]. *)
Definition wupd (wid : string) (f : WorkerDefinition -> WorkerDefinition) : M WkSt unit :=
  modify (fun s => match dget wid (wk_workers s) with
                   | Some w => s <| wk_workers := dset wid (f w) (wk_workers s) |>
                   | None => s
                   end).
Definition set_state (wid : string) (st : WorkerState) : M WkSt unit :=
  wupd wid (fun w => w <| wd_state := st |>).
Definition finish_now (wid : string) : M WkSt unit :=
  t ← wnow; wupd wid (fun w => w <| wd_finished_at := Some t |>).

Definition worker_envelope (event_id timestamp event_type : string) (w : WorkerDefinition)
    (extra : dict string pyval) : TelemetryEnvelope :=
  (create_envelope event_id timestamp "worker" event_type "execution")
    <| te_execution_id := Some (wd_execution_id w) |>
    <| te_task_id := Some (wd_task_id w) |>
    <| te_worker_id := Some (worker_id w) |>
    <| te_capability_id := Some (wd_capability_id w) |>
    <| te_capability_family := wd_capability_family w |>
    <| te_executor_type := Some (wd_executor_type w) |>
    <| te_routing_class := wd_routing_class w |>
    <| te_executor_id := Some (wd_executor_id w) |>
    <| te_model_id := wd_model_id w |>
    <| te_department_id := Some (ostr_or (wd_department_id w) "UNKNOWN") |>
    <| te_workspace_id := Some (wd_workspace_id w) |>
    <| te_status := Some (worker_state_str (wd_state w)) |>
    <| te_metadata := extra |>
    <| te_duration_ms := match wd_started_at w, wd_finished_at w with
                         | Some a, Some b => Some (duration_ms a b)
                         | _, _ => None
                         end |>.

Definition emit_telemetry (event_type wid : string) (extra : dict string pyval) : M WkSt unit :=
  when has_telemetry
    (w ← wget wid;
     match w with
     | None => mret tt
     | Some w =>
         u ← on_whost draw_uuid;
         t ← wnow;
         let e := worker_envelope ("evt-" +:+ String.substring 0 12 u) (isoformat t)
                    event_type w extra in
         modify (fun s => s <| wk_tel := emit telemetry_ok e (wk_tel s) |>)
     end).

Definition create_worker (sel : ExecutorSelection) (task : Task) : M WkSt string :=
  u ← on_whost draw_uuid;
  let wid := "wrk-" +:+ String.substring 0 8 u in
  let etype := executor_type_str (sel_executor_type sel) in
  let rc := routing_class_of etype in
  caps ← gets (fun s => gw_caps (wk_gw s));
  let fam := if has_gateway
             then match cap_get (t_capability_id task) caps with
                  | Some c => str_or (family c) "unknown" | None => "unknown" end
             else "unknown" in
  ctx_upd (fun c => c <| c_routing_class := Some rc |> <| c_capability_family := Some fam |>
                      <| c_department_id := t_department_id task |>) ;;
  c ← gets wk_ctx;
  t ← wnow;
  let w := mkWorkerDefinition wid (c_execution_id c) (c_task_id c) (c_account_id c)
             (c_project_id c) (c_capability_id c) etype (sel_executor_id sel)
             (sel_model_id sel) (c_workspace_path c) t (c_deadline c) (c_resource_limits c)
             (c_network_policy c) (c_write_policy c) WS_CREATED None None
             (t_department_id task) (Some rc) (Some fam) in
  modify (fun s => s <| wk_workers := dset wid w (wk_workers s) |>) ;;
  emit_telemetry "task.routed" wid [] ;;
  mret wid.

Definition list_workers (s : WkSt) : list WorkerDefinition := dvalues (wk_workers s).

(** The external capabilities: one tool request through the gateway. *)
Definition run_external (wid : string) (task : Task) : M WkSt unit :=
  when (negb has_gateway)
    (throw ValueError "MCP Gateway not configured for external capabilities") ;;
  u ← on_whost draw_uuid;
  t ← wnow;
  c ← gets wk_ctx;
  let req := mkToolRequest ("treq-" +:+ String.substring 0 12 u) (t_capability_id task)
               (t_capability_id task) wid (c_execution_id c) (t_input task) t (c_deadline c)
               [("workspace_path", VStr (c_workspace_path c))] in
  r ← on_gateway (invoke gw_workspace gw_fabric gw_audits req);
  (if tr_succeeded r then
     ctx_upd (fun c => c <| c_status := ES_SUCCEEDED |>
                         <| c_result := match tr_output_data r with
                                        | Some d => VDict d | None => VNone end |>
                         <| c_result_hash := match dget "result_hash" (tr_evidence r) with
                                             | Some (VStr h) => Some h | _ => None end |>)
   else
     let msg := default "None" (tr_error_message r) in
     match tr_status r with
     | TI_DENIED => throw ExecutorSecurityError msg
     | TI_TIMED_OUT => throw TimeoutError msg
     | _ => throw (OtherException "Exception") msg
     end) ;;
  on_exec (finalize_workspace task).

(** A run that stops before the status is inspected: [return] in the [try]. *)
Inductive run_outcome := Finished | Returned.

Definition unavailable (wid msg : string) : M WkSt run_outcome :=
  ctx_upd (fun c => c <| c_status := ES_FAILED |> <| c_failure_reason := Some EXECUTION_ERROR |>
                      <| c_error_message := Some msg |>) ;;
  set_state wid WS_FAILED ;;
  emit_telemetry "execution.failed" wid [("classification", VStr "UNAVAILABLE")] ;;
  mret Returned.

Definition run_local (wid : string) (task : Task) (cap : CapabilityDefinition)
  : M WkSt run_outcome :=
  let path := default "" qwen_model_path in
  if negb (str_true path) || negb (model_file_exists path)
  then unavailable wid "Local model unavailable"
  else
    r ← of_result (model_execute path
          (mkPackage task cap (t_input task) (required_tools cap) (t_constraints task)
             (t_evidence_policy task) ""));
    let tel := match vget_or "telemetry" (VDict []) (mr_evidence r) with
               | VDict d => d | _ => [] end in
    ctx_upd (fun c => c <| c_status := ES_SUCCEEDED |> <| c_result := VDict (mr_result_data r) |>
                        <| c_result_hash := match dget "result_hash" tel with
                                            | Some (VStr h) => Some h | _ => None end |>) ;;
    emit_telemetry "inference_completed" wid tel ;;
    mret Finished.

Definition run_frontier (wid : string) (task : Task) (w : WorkerDefinition)
  : M WkSt run_outcome :=
  let model_id := ostr_or (wd_model_id w) "luna" in
  let plan := mkPlan (t_task_id task) (t_capability_id task) "1.0.0" RC_FRONTIER_MODEL
                "REMOTE_MODEL" (str_or (wd_executor_id w) "frontier-executor")
                (Some model_id) (Some "1.0.0") "v1.0" "anny-kernel" "workspace_only"
                None [] None [] "" [] in
  if fe_is_available (Some model_id) then
    r ← of_result (fe_execute_plan task plan);
    ctx_upd (fun c => c <| c_status := ES_SUCCEEDED |> <| c_result := VDict r |>
                        <| c_result_hash := Some "frontier_exec_hash" |>) ;;
    emit_telemetry "inference_completed" wid [("executor", VStr "frontier")] ;;
    mret Finished
  else unavailable wid ("Frontier model " +:+ model_id +:+ " unavailable").

(** The body of the [try] up to the inspection of the status. *)
Definition run_body (wid : string) (task : Task) (cap : CapabilityDefinition)
    (w : WorkerDefinition) : M WkSt run_outcome :=
  t ← wnow;
  when (wd_deadline w <? t)%Z (throw TimeoutError "Deadline exceeded before execution") ;;
  if wd_executor_type w =s "DETERMINISTIC" then
    (if str_in (t_capability_id task) external_caps
     then run_external wid task
     else on_exec (execute task)) ;;
    mret Finished
  else if wd_executor_type w =s "LOCAL_MODEL" then run_local wid task cap
  else if str_in (wd_executor_type w) ["REMOTE_MODEL"; "FRONTIER_MODEL"] then
    run_frontier wid task w
  else
    ctx_upd (fun c => c <| c_status := ES_FAILED |>
                        <| c_failure_reason := Some UNSUPPORTED_EXECUTOR |>) ;;
    set_state wid WS_FAILED ;;
    emit_telemetry "execution.failed" wid [("classification", VStr "UNSUPPORTED_EXECUTOR")] ;;
    mret Returned.

Definition conclude (wid : string) : M WkSt unit :=
  c ← gets wk_ctx;
  match c_status c with
  | ES_SUCCEEDED =>
      set_state wid WS_SUCCEEDED ;; finish_now wid ;;
      emit_telemetry "execution.completed" wid [("result_hash", opt_str (c_result_hash c))]
  | ES_TIMED_OUT =>
      set_state wid WS_TIMED_OUT ;; finish_now wid ;; emit_telemetry "execution.timeout" wid []
  | ES_LIMIT_EXCEEDED =>
      set_state wid WS_LIMIT_EXCEEDED ;; finish_now wid ;;
      emit_telemetry "execution.blocked" wid [("exit_code", VStr "LIMIT_EXCEEDED")]
  | _ =>
      set_state wid WS_FAILED ;; finish_now wid ;;
      emit_telemetry "execution.failed" wid
        [("exit_code", VStr match c_failure_reason c with
                            | Some r => failure_reason_str r | None => "UNKNOWN" end)]
  end.

(** The [except] clauses. *)
Definition crash (wid : string) (e : exn) : M WkSt unit :=
  match exn_type e with
  | TimeoutError =>
      set_state wid WS_TIMED_OUT ;; finish_now wid ;;
      ctx_upd (fun c => c <| c_status := ES_TIMED_OUT |>
                          <| c_failure_reason := Some FR_TIMEOUT |>) ;;
      emit_telemetry "execution.timeout" wid []
  | ExecutorLimitsExceeded =>
      set_state wid WS_LIMIT_EXCEEDED ;; finish_now wid ;;
      ctx_upd (fail_with ES_LIMIT_EXCEEDED FR_LIMIT_EXCEEDED (exn_str e)) ;;
      emit_telemetry "execution.blocked" wid [("exit_code", VStr "LIMIT_EXCEEDED")]
  | ExecutorSecurityError =>
      set_state wid WS_FAILED ;; finish_now wid ;;
      ctx_upd (fail_with ES_FAILED AUTHORIZATION_DENIED (exn_str e)) ;;
      emit_telemetry "execution.blocked" wid [("exit_code", VStr "SECURITY_ERROR")]
  | _ =>
      set_state wid WS_FAILED ;; finish_now wid ;;
      ctx_upd (fail_with ES_FAILED EXECUTION_ERROR ("Worker crash: " +:+ exn_str e)) ;;
      emit_telemetry "execution.failed" wid
        [("exit_code", VStr "CRASH"); ("reason", VStr (exn_str e))]
  end.

(** (How a state reads inside the message depends on the Python version.) *)
Definition start_worker (wid : string) (task : Task) (cap : CapabilityDefinition)
  : M WkSt unit :=
  wo ← wget wid;
  match wo with
  | None => throw ValueError ("Worker " +:+ wid +:+ " not found")
  | Some w =>
      when (negb (bool_decide (wd_state w = WS_CREATED)))
        (throw ValueError ("Worker " +:+ wid +:+ " is in state "
           +:+ worker_state_str (wd_state w) +:+ ", cannot start")) ;;
      set_state wid WS_STARTING ;;
      t ← wnow;
      wupd wid (fun w => w <| wd_started_at := Some t |>) ;;
      set_state wid WS_RUNNING ;;
      emit_telemetry "execution.started" wid [] ;;
      try_with (r ← run_body wid task cap w;
                match r with Returned => mret tt | Finished => conclude wid end)
        (crash wid)
  end.

Definition active (st : WorkerState) : bool :=
  match st with WS_CREATED | WS_STARTING | WS_RUNNING => true | _ => false end.

Definition cancel_worker (wid : string) : M WkSt unit :=
  wo ← wget wid;
  match wo with
  | None => mret tt
  | Some w =>
      when (active (wd_state w))
        (set_state wid WS_CANCELLED ;; finish_now wid ;;
         emit_telemetry "execution.cancelled" wid [])
  end.

Definition terminate_worker (wid : string) : M WkSt unit :=
  wo ← wget wid;
  match wo with
  | None => mret tt
  | Some w =>
      when (active (wd_state w))
        (set_state wid WS_TERMINATED ;; emit_telemetry "execution.terminated" wid [])
  end.
End Worker.

(** ** Properties *)
Section WorkerFacts.
Context {machine : Machine} {clients : ToolClients} {model : ModelExecutor}
  {frontier : FrontierExecutor}.
Context (has_gateway has_telemetry gw_audits : bool) (gw_workspace gw_fabric : string)
  (telemetry_ok : bool).
Notation emit_telemetry := (emit_telemetry has_telemetry telemetry_ok).
Notation run_body := (run_body has_gateway has_telemetry gw_audits gw_workspace gw_fabric telemetry_ok).
Notation run_external := (run_external has_gateway gw_audits gw_workspace gw_fabric).
Notation start_worker :=
  (start_worker has_gateway has_telemetry gw_audits gw_workspace gw_fabric telemetry_ok).
Notation cancel_worker := (cancel_worker has_telemetry telemetry_ok).
Notation terminate_worker := (terminate_worker has_telemetry telemetry_ok).

Lemma wnow_wp s (Q : WkSt -> result Z -> Prop) :
  (forall s' t, wk_workers s' = wk_workers s -> wk_ctx s' = wk_ctx s -> Q s' (Ok t)) ->
  wp wnow s Q.
Proof. intros H. apply wp_zoom. unfold now, wp. by apply H. Qed.

Lemma uuid_wp s (Q : WkSt -> result string -> Prop) :
  (forall s' u, wk_workers s' = wk_workers s -> wk_ctx s' = wk_ctx s -> Q s' (Ok u)) ->
  wp (on_whost draw_uuid) s Q.
Proof. intros H. apply wp_zoom. unfold draw_uuid, wp. by apply H. Qed.

Lemma emit_wp ev wid extra s (Q : WkSt -> result unit -> Prop) :
  (forall s', wk_workers s' = wk_workers s -> wk_ctx s' = wk_ctx s -> Q s' (Ok tt)) ->
  wp (emit_telemetry ev wid extra) s Q.
Proof.
  intros H. apply wp_when; intros _; [|by apply H]. apply wp_bind, wp_gets.
  destruct (dget wid (wk_workers s)) as [w|]; [|by apply wp_ret, H].
  apply wp_bind, uuid_wp. intros s1 u W1 C1. apply wp_bind, wnow_wp.
  intros s2 t W2 C2. apply wp_modify. apply H; simpl; congruence.
Qed.

Lemma wupd_wp wid f w s (Q : WkSt -> result unit -> Prop) :
  dget wid (wk_workers s) = Some w ->
  (forall s', dget wid (wk_workers s') = Some (f w) -> wk_ctx s' = wk_ctx s -> Q s' (Ok tt)) ->
  wp (wupd wid f) s Q.
Proof. intros Hw H. apply wp_modify. rewrite Hw. apply H; simpl; [apply dget_dset_same|done]. Qed.

Lemma finish_wp wid w s (Q : WkSt -> result unit -> Prop) :
  dget wid (wk_workers s) = Some w ->
  (forall s' w', dget wid (wk_workers s') = Some w' -> wd_state w' = wd_state w ->
     wk_ctx s' = wk_ctx s -> Q s' (Ok tt)) ->
  wp (finish_now wid) s Q.
Proof.
  intros Hw H. apply wp_bind, wnow_wp. intros s1 t W1 C1.
  apply (wupd_wp _ _ w); [by rewrite W1|]. intros s2 W2 C2. eapply H; [done|done|congruence].
Qed.

(** The worker state that stands for an execution status. *)
Definition agrees (ws : WorkerState) (cs : ExecutionStatus) : Prop :=
  (ws, cs) ∈ [(WS_SUCCEEDED, ES_SUCCEEDED); (WS_FAILED, ES_FAILED);
              (WS_TIMED_OUT, ES_TIMED_OUT); (WS_LIMIT_EXCEEDED, ES_LIMIT_EXCEEDED)].
Definition settled (wid : string) (s : WkSt) : Prop :=
  exists w, dget wid (wk_workers s) = Some w /\ agrees (wd_state w) (c_status (wk_ctx s)).
Definition terminal_status (cs : ExecutionStatus) : Prop :=
  cs ∈ [ES_SUCCEEDED; ES_FAILED; ES_TIMED_OUT; ES_LIMIT_EXCEEDED].

(** Set the worker's state, stamp it, possibly update the context, emit. *)
Lemma settle wid w st (f : TaskExecutionContext -> TaskExecutionContext) ev extra s :
  dget wid (wk_workers s) = Some w -> agrees st (c_status (f (wk_ctx s))) ->
  wp (set_state wid st ;; finish_now wid ;; ctx_upd f ;; emit_telemetry ev wid extra) s
    (fun s' r => r = Ok tt /\ settled wid s').
Proof.
  intros Hw Ha. apply wp_bind, (wupd_wp _ _ w); [done|]. intros s1 W1 C1.
  apply wp_bind. eapply finish_wp; [done|]. intros s2 w2 W2 S2 C2.
  apply wp_bind, wp_modify. apply emit_wp. simpl. intros s3 W3 C3. split; [done|].
  exists w2. rewrite W3, C3. split; [done|]. rewrite S2. simpl. by rewrite C2, C1.
Qed.
Lemma settle_plain wid w st ev extra s :
  dget wid (wk_workers s) = Some w -> agrees st (c_status (wk_ctx s)) ->
  wp (set_state wid st ;; finish_now wid ;; emit_telemetry ev wid extra) s
    (fun s' r => r = Ok tt /\ settled wid s').
Proof.
  intros Hw Ha. apply wp_bind, (wupd_wp _ _ w); [done|]. intros s1 W1 C1.
  apply wp_bind. eapply finish_wp; [done|]. intros s2 w2 W2 S2 C2.
  apply emit_wp. intros s3 W3 C3. split; [done|].
  exists w2. rewrite W3, C3. split; [done|]. rewrite S2. simpl. by rewrite C2, C1.
Qed.

Lemma crash_settles wid w e s : dget wid (wk_workers s) = Some w ->
  wp (crash has_telemetry telemetry_ok wid e) s (fun s' r => r = Ok tt /\ settled wid s').
Proof.
  intros Hw. unfold crash.
  destruct (exn_type e); apply (settle wid w); try done; unfold agrees; set_solver.
Qed.

Lemma conclude_settles wid w s : dget wid (wk_workers s) = Some w ->
  terminal_status (c_status (wk_ctx s)) ->
  wp (conclude has_telemetry telemetry_ok wid) s (fun s' r => r = Ok tt /\ settled wid s').
Proof.
  intros Hw Ht. unfold conclude. apply wp_bind, wp_gets. unfold terminal_status in Ht.
  destruct (c_status (wk_ctx s)) eqn:E; try set_solver;
    (apply (settle_plain wid w); [done|]; unfold agrees; rewrite E; set_solver).
Qed.

Lemma unavailable_wp wid w msg s : dget wid (wk_workers s) = Some w ->
  wp (unavailable has_telemetry telemetry_ok wid msg) s
    (fun s' r => r = Ok Returned /\ settled wid s').
Proof.
  intros Hw. apply wp_bind, wp_modify. apply wp_bind.
  apply (wupd_wp _ _ w); [done|]. intros s1 W1 C1. apply wp_bind, emit_wp.
  intros s2 W2 C2. apply wp_ret. split; [done|]. eexists. rewrite W2, C2. split; [done|].
  rewrite C1. unfold agrees. simpl. set_solver.
Qed.

(** What the body leaves: a terminal status to conclude from, a worker that
    is already settled, or an exception for the handler. *)
Definition body_post (wid : string) (s' : WkSt) (r : result run_outcome) : Prop :=
  match r with
  | Ok Finished => (exists w', dget wid (wk_workers s') = Some w') /\
                   terminal_status (c_status (wk_ctx s'))
  | Ok Returned => settled wid s'
  | Raise _ => exists w', dget wid (wk_workers s') = Some w'
  end.

Lemma on_exec_workers {A} (m : M ExSt A) s :
  wp (on_exec m) s (fun s' _ => wk_workers s' = wk_workers s).
Proof. apply wp_zoom. unfold wp. by destruct (m _). Qed.

Lemma execute_terminal task s :
  wp (on_exec (execute task)) s (fun s' _ =>
    wk_workers s' = wk_workers s /\ terminal_status (c_status (wk_ctx s'))).
Proof.
  apply wp_zoom. eapply wp_mono; [apply execute_status|]. intros e r He. simpl.
  split; [done|]. exact He.
Qed.

Lemma run_external_post wid w task s : dget wid (wk_workers s) = Some w ->
  wp (run_external wid task) s (fun s' r =>
    wk_workers s' = wk_workers s /\ (r = Ok tt -> terminal_status (c_status (wk_ctx s')))).
Proof.
  intros Hw. unfold Worker.run_external. apply wp_bind, wp_when; intros _; [by apply wp_throw|].
  apply wp_bind, uuid_wp. intros s1 u W1 C1. apply wp_bind, wnow_wp. intros s2 t W2 C2.
  apply wp_bind, wp_gets, wp_bind, wp_zoom. unfold wp at 1.
  match goal with |- context [invoke ?a ?b ?c ?d ?e] => destruct (invoke a b c d e) as [g [r|e']] end;
    cbn; [|by rewrite W2, W1].
  apply wp_bind. destruct (tr_succeeded r).
  - apply wp_modify. apply wp_zoom. eapply wp_mono; [by apply finalize_status|].
    intros e r' He. simpl. rewrite W2, W1. split; [done|]. by intros _.
  - destruct (tr_status r); apply wp_throw; simpl; by rewrite W2, W1.
Qed.

Lemma run_body_post wid w task cap w0 s : dget wid (wk_workers s) = Some w ->
  wp (run_body wid task cap w0) s (body_post wid).
Proof.
  intros Hw. unfold Worker.run_body. apply wp_bind, wnow_wp. intros s1 t W1 C1.
  apply wp_bind, wp_when; intros _; [apply wp_throw; exists w; congruence|].
  assert (Hw1 : dget wid (wk_workers s1) = Some w) by congruence. clear W1 C1.
  destruct (wd_executor_type w0 =s "DETERMINISTIC").
  - apply wp_bind. destruct (str_in _ _).
    + eapply wp_mono; [by eapply run_external_post|]. intros s2 [[]|e] [W2 H2].
      * apply wp_ret. split; [exists w; congruence|auto].
      * exists w. congruence.
    + eapply wp_mono; [apply execute_terminal|]. intros s2 [[]|e] [W2 H2].
      * apply wp_ret. split; [exists w; congruence|auto].
      * exists w. congruence.
  - destruct (wd_executor_type w0 =s "LOCAL_MODEL").
    + unfold run_local. destruct (_ || _).
      * eapply wp_mono; [by apply (unavailable_wp wid w)|]. by intros s2 r [-> H].
      * apply wp_bind, wp_of_result. destruct (model_execute _ _) as [r|e]; [|by exists w].
        apply wp_bind, wp_modify, wp_bind, emit_wp. intros s2 W2 C2. apply wp_ret.
        split; [exists w; by rewrite W2|]. rewrite C2. unfold terminal_status. simpl. set_solver.
    + destruct (str_in _ _).
      * unfold run_frontier. destruct (fe_is_available _).
        -- apply wp_bind, wp_of_result. destruct (fe_execute_plan _ _) as [r|e]; [|by exists w].
           apply wp_bind, wp_modify, wp_bind, emit_wp. intros s2 W2 C2. apply wp_ret.
           split; [exists w; by rewrite W2|]. rewrite C2. unfold terminal_status. simpl. set_solver.
        -- eapply wp_mono; [by apply (unavailable_wp wid w)|]. by intros s2 r [-> H].
      * apply wp_bind, wp_modify, wp_bind, (wupd_wp _ _ w); [done|]. intros s2 W2 C2.
        apply wp_bind, emit_wp. intros s3 W3 C3. apply wp_ret. eexists.
        rewrite W3, C3, C2. split; [done|]. unfold agrees. simpl. set_solver.
Qed.

(** C2: starting a created worker never raises; it ends with the worker in a
    terminal state that agrees with the status of the execution context,
    whatever the executor, the gateway or a model does.  A worker in any
    other state cannot be started, and nothing changes. *)
Theorem start_worker_settles wid w task cap s :
  dget wid (wk_workers s) = Some w ->
  wp (start_worker wid task cap) s (fun s' r =>
    if decide (wd_state w = WS_CREATED) then r = Ok tt /\ settled wid s'
    else s' = s /\ is_ok r = false).
Proof.
  intros Hw. unfold Worker.start_worker. apply wp_bind, wp_gets. rewrite Hw.
  apply wp_bind, wp_when; intros Hst.
  { apply wp_throw. apply negb_true_iff, bool_decide_eq_false in Hst.
    by destruct (decide _). }
  apply negb_false_iff, bool_decide_eq_true in Hst.
  destruct (decide (wd_state w = WS_CREATED)) as [_|]; [|done].
  apply wp_bind, (wupd_wp _ _ w); [done|]. intros s1 W1 C1.
  apply wp_bind, wnow_wp. intros s2 t W2 C2. rewrite <-W2 in W1.
  apply wp_bind. eapply wupd_wp; [exact W1|]. intros s3 W3 C3.
  apply wp_bind. eapply wupd_wp; [exact W3|]. intros s4 W4 C4.
  apply wp_bind, emit_wp. intros s5 W5 C5. rewrite <-W5 in W4.
  apply wp_try_with, wp_bind. eapply wp_mono; [by eapply run_body_post|].
  intros s6 [[|]|e] H6; simpl in H6.
  - destruct H6 as [[w' Hw'] Ht]. eapply wp_mono; [by eapply conclude_settles|].
    by intros s7 r [-> H7].
  - by apply wp_ret.
  - destruct H6 as [w' Hw']. eapply wp_mono; [by eapply crash_settles|].
    by intros s7 r [-> H7].
Qed.

(** Cancelling or terminating a worker that is no longer active changes
    nothing, so a settled worker keeps its state; an active one moves to the
    requested state. *)
Theorem cancel_terminate_spec wid w s :
  dget wid (wk_workers s) = Some w ->
  wp (cancel_worker wid) s (fun s' r => r = Ok tt /\
    if active (wd_state w)
    then exists w', dget wid (wk_workers s') = Some w' /\ wd_state w' = WS_CANCELLED
    else s' = s) /\
  wp (terminate_worker wid) s (fun s' r => r = Ok tt /\
    if active (wd_state w)
    then exists w', dget wid (wk_workers s') = Some w' /\ wd_state w' = WS_TERMINATED
    else s' = s).
Proof.
  intros Hw. split.
  - apply wp_bind, wp_gets. rewrite Hw. apply wp_when; intros ->; [|done].
    apply wp_bind, (wupd_wp _ _ w); [done|]. intros s1 W1 C1.
    apply wp_bind. eapply finish_wp; [done|]. intros s2 w2 W2 S2 C2.
    apply emit_wp. intros s3 W3 C3. split; [done|]. exists w2. rewrite W3.
    split; [done|]. by rewrite S2.
  - apply wp_bind, wp_gets. rewrite Hw. apply wp_when; intros ->; [|done].
    apply wp_bind, (wupd_wp _ _ w); [done|]. intros s1 W1 C1.
    apply emit_wp. intros s3 W3 C3. split; [done|]. eexists. by rewrite W3.
Qed.
End WorkerFacts.
