(* ===== verification/Qwen.v ===== *)
(** * The local model executor

    [runtime/execution/qwen_executor.py] and [validator.py]: the artifact, the
    limits of the input and of the output, the prompt, the trimming of what the
    model writes, its validation, and the result with its telemetry.  The model
    (llama.cpp) and the process figures are arguments; the executor so defined
    is an instance of the interface the workers use. *)
From S2P Require Import Prelude Dict PyVal Effects PyStr PyBytes Json JsonLoad ExecModels Host.
From S2P Require Import Workspace Deterministic Orchestrator Mcp Telemetry Worker.

(** ** The model and the machine *)
Record Sampling := mkSampling {
  sp_max_tokens : pyval; sp_temperature : pyval; sp_top_p : pyval; sp_seed : pyval }.
(** The first choice of a completion, and its usage figures. *)
Record Completion := mkCompletion {
  co_text : string; co_completion_tokens : Z; co_prompt_tokens : Z }.

(** The artifact: whether the path exists, and what reading it gives; the
    readings of [time.time], of the resident memory and of the processor;
    loading the model and running it; the text of a set, whose order varies. *)
Class ModelBackend := {
  mb_machine :: Machine;
  mb_errors :: JsonErrors;
  mb_model_path : option string;
  artifact : string -> option (result string);
  wall_time : nat -> pyfloat;
  resident_memory : nat -> Z;
  cpu_percent : pyfloat;
  load_model : string -> pyval -> pyval -> result unit;
  run_model : string -> pyval -> Sampling -> string -> result Completion;
  set_text : list string -> string }.

Section Executor.
Context {backend : ModelBackend}.

(** ** Validation *)
Definition ModelOutputInvalid : exn_class := OtherException "ModelOutputInvalid".
Definition model_output_invalid {A} (msg : string) : result A :=
  raise ModelOutputInvalid msg.
Definition required_fields : list string := ["class"; "confidence"; "reason_codes"].
Definition allowed_classes : list string := ["confidential"; "public"; "internal"; "restricted"].
(** [isinstance(v, (int, float))], then [0.0 <= v <= 1.0]. *)
Definition is_number (v : pyval) : bool :=
  match v with VInt _ | VBool _ | VFloat _ => true | _ => false end.
Definition in_unit (v : pyval) : bool :=
  match v with
  | VInt z => ((0 <=? z) && (z <=? 1))%Z
  | VBool _ => true
  | VFloat f => fle (f_of_Z 0) f && fle f (f_of_Z 1)
  | _ => false
  end.
Definition check_fields (d : dict string pyval) : result (dict string pyval) :=
  let missing := List.filter (fun k => negb (dmem k d)) required_fields in
  if match missing with [] => false | _ => true end
  then model_output_invalid ("Missing required fields: " +:+ set_text missing)
  else
    match vget "class" d with
    | VStr cls =>
        if negb (str_in cls allowed_classes)
        then model_output_invalid ("'class' must be one of " +:+ set_text allowed_classes)
        else if negb (is_number (vget "confidence" d))
        then model_output_invalid "'confidence' must be a number"
        else if negb (in_unit (vget "confidence" d))
        then model_output_invalid "'confidence' must be between 0.0 and 1.0"
        else if negb (is_list (vget "reason_codes" d))
        then model_output_invalid "'reason_codes' must be a list"
        else Ok d
    | _ => model_output_invalid "'class' must be a string"
    end.
(** [ModelResultValidator.validate_document_classification] *)
Definition validate_document_classification (output : string) : result (dict string pyval) :=
  match json_loads output with
  | Raise (Exn JSONDecodeError e) => model_output_invalid ("Output is not valid JSON: " +:+ e)
  | Raise e => Raise e
  | Ok (VDict d) => check_fields d
  | Ok _ => model_output_invalid "Output must be a JSON object"
  end.

(** ** The text of the model *)
Definition trim_output (text : string) : string :=
  let raw := before "</think>" ("{" +:+ text) in
  match rfind "}" raw with Some n => string_take (S n) raw | None => raw end.

Definition escaped_quote : string := backslash +:+ dquote.
Definition quoted (q s : string) : string := q +:+ s +:+ q.
Definition prompt (text : pyval) : string :=
  "<|im_start|>system" +:+ newline +:+
  "You are a strict classification AI. Output strictly valid JSON. Schema: {" +:+
  quoted escaped_quote "class" +:+ ": string, " +:+ quoted escaped_quote "confidence" +:+
  ": float, " +:+ quoted escaped_quote "reason_codes" +:+ ": list[string]}. The " +:+
  quoted escaped_quote "class" +:+ " MUST be one of: [" +:+
  str_join ", " (quoted dquote <$> allowed_classes) +:+ "].<|im_end|>" +:+ newline +:+
  "<|im_start|>user" +:+ newline +:+ "Classify this document: " +:+ py_str text +:+
  "<|im_end|>" +:+ newline +:+ "<|im_start|>assistant" +:+ newline +:+ "{".

(** ** Execution *)
Definition verify_artifact (path : string) (expected : option string) : result unit :=
  match artifact path with
  | None => raise ExecutorSecurityError "ARTIFACT_MISSING"
  | Some contents =>
      if ostr_true expected then
        let? bytes := contents in
        guard_raise (negb (sha256 bytes =s default "" expected))
          ExecutorSecurityError "ARTIFACT_INTEGRITY_UNKNOWN"
      else Ok tt
  end.
(** [int((b - a) * 1000)] *)
Definition elapsed_ms (a b : pyfloat) : Z := f_trunc (fmul (fsub b a) (f_of_Z 1000)).

Definition telemetry_of (input_size output_size : Z) (max_context : pyval) (sampling : Sampling)
    (c : Completion) (result_hash : string) : dict string pyval :=
  let total := elapsed_ms (wall_time 4) (wall_time 5) in
  [("model_loaded_ms", VInt (elapsed_ms (wall_time 0) (wall_time 3)));
   ("first_token_latency_ms", VInt (total / Z.max (co_completion_tokens c) 1));
   ("total_latency_ms", VInt total);
   ("input_size_bytes", VInt input_size);
   ("input_tokens", VInt (co_prompt_tokens c));
   ("tokens_generated", VInt (co_completion_tokens c));
   ("output_size_bytes", VInt output_size);
   ("result_hash", VStr result_hash);
   ("memory_peak_mb",
    VFloat (fdiv (f_of_Z (resident_memory 1 - resident_memory 0)) (f_of_Z 1048576)));
   ("cpu_usage_pct", VFloat cpu_percent);
   ("sampling", VDict [("temperature", sp_temperature sampling); ("top_p", sp_top_p sampling);
                       ("max_tokens", sp_max_tokens sampling); ("seed", sp_seed sampling);
                       ("context_size", max_context)])].

(** The status and the data of a trimmed output: only [ModelOutputInvalid] is
    caught. *)
Definition judge (raw : string) : result (string * dict string pyval) :=
  match validate_document_classification raw with
  | Ok d => Ok ("SUCCEEDED", d)
  | Raise e =>
      if decide (exn_type e = ModelOutputInvalid)
      then Ok ("MODEL_OUTPUT_INVALID", [("error", VStr (exn_str e)); ("raw", VStr raw)])
      else Raise e
  end.

Definition qwen_execute (path : string) (expected : option string) (p : ContextPackage)
    : result ModelResult :=
  check! verify_artifact path expected in
  check! guard_raise (negb (cap_network_policy (cp_capability p) =s "disabled"))
    ExecutorSecurityError "Local model requires disabled network policy" in
  let limits := cp_constraints p in
  let max_context := vget_or "max_context" (VInt 32000) limits in
  let max_output := vget_or "max_output" (VInt 4000) limits in
  let local_memory := VDict [("input", VDict (cp_authorized_input p));
                             ("schema", VStr "document.classify")] in
  let input_size := json_size false local_memory in
  let? over := exceeds input_size max_context in
  check! guard_raise over ExecutorLimitsExceeded "Input exceeds max_context" in
  let text := vget_or "text" (VStr "") (cp_authorized_input p) in
  let sampling := mkSampling (vget_or "max_tokens" max_output limits)
    (vget_or "temperature" (VFloat (f_of_Z 0)) limits)
    (vget_or "top_p" (VFloat (f_of_Z 1)) limits) (vget_or "seed" (VInt 42) limits) in
  check! load_model path max_context (sp_seed sampling) in
  let? c := run_model path max_context sampling (prompt text) in
  let raw := trim_output (co_text c) in
  let output_size := Z.of_nat (String.length (utf8_encode raw)) in
  let? over := exceeds output_size max_output in
  check! guard_raise over ExecutorLimitsExceeded "Output exceeds max_output" in
  let? (status, data) := judge raw in
  let result_hash := sha256 (dumps true (VDict data)) in
  Ok (mkModelResult status data
        [("telemetry", VDict (telemetry_of input_size output_size max_context sampling c
                                result_hash))]).

(** The executor a worker builds, without an expected digest. *)
#[export] Instance qwen_executor : ModelExecutor := {
  qwen_model_path := mb_model_path;
  model_file_exists path := match artifact path with Some _ => true | None => false end;
  model_execute path p := qwen_execute path None p }.
End Executor.

(** ** Correctness *)
(** The trimmed text is a prefix of the model's, without the mark that ends its
    reasoning, and it ends in a brace when it has one. *)
Lemma trim_output_spec text :
  (exists rest, "{" +:+ text = trim_output text +:+ rest) /\
  contains "</think>" (trim_output text) = false /\
  (rfind "}" (before "</think>" ("{" +:+ text)) = None \/
   exists t, trim_output text = t +:+ "}").
Proof.
  unfold trim_output. destruct (before_prefix "</think>" ("{" +:+ text)) as [rest E].
  pose proof (before_free "</think>" ("{" +:+ text) ltac:(done)) as Hf.
  destruct (rfind "}" _) as [n|] eqn:Er.
  - destruct (rfind_take _ _ _ Er) as (t & u & E1 & E2). rewrite E1. split_and!.
    + exists (u +:+ rest). rewrite <-string_app_assoc, <-E2. exact E.
    + apply not_true_iff_false. intros H. apply (contains_prefix _ _ u) in H.
      rewrite <-E2 in H. congruence.
    + right. by exists t.
  - split_and!; [by exists rest|done|by left].
Qed.

Section Correctness.
Context {backend : ModelBackend}.

(** A classification of a document. *)
Definition classified (d : dict string pyval) : Prop :=
  exists cls confidence reasons,
    dget "class" d = Some (VStr cls) /\ cls ∈ allowed_classes /\
    dget "confidence" d = Some confidence /\ is_number confidence = true /\
    in_unit confidence = true /\ dget "reason_codes" d = Some (VList reasons).

Lemma check_fields_Ok d d' : check_fields d = Ok d' <-> d' = d /\ classified d.
Proof.
  unfold check_fields, classified, model_output_invalid, raise, vget, dmem, str_in.
  unfold required_fields. cbn [List.filter].
  destruct (dget "class" d) as [cls|]; [|by split; [|intros (_ & ? & ? & ? & [=] & _)]].
  destruct (dget "confidence" d) as [conf|];
    [|by split; [|intros (_ & ? & ? & ? & _ & _ & [=] & _)]].
  destruct (dget "reason_codes" d) as [reasons|];
    [|by split; [|intros (_ & ? & ? & ? & _ & _ & _ & _ & _ & [=])]].
  simpl. destruct cls; try by split; [|intros (_ & ? & ? & ? & [=] & _)].
  case_bool_decide as Hc; simpl;
    [|by split; [|intros (_ & ? & ? & ? & [= <-] & ? & _)]].
  destruct (is_number conf) eqn:E1; simpl;
    [|split; [done|intros (_ & ? & ? & ? & _ & _ & [= <-] & ? & _); congruence]].
  destruct (in_unit conf) eqn:E2; simpl;
    [|split; [done|intros (_ & ? & ? & ? & _ & _ & [= <-] & _ & ? & _); congruence]].
  destruct reasons as [| | | | | l |]; simpl;
    try by split; [|intros (_ & ? & ? & ? & _ & _ & _ & _ & _ & [=])].
  split; [|by intros [-> _]]. intros [= <-]. split; [done|]. by exists s, conf, l.
Qed.
Lemma validate_spec output d :
  validate_document_classification output = Ok d <->
  json_loads output = Ok (VDict d) /\ classified d.
Proof.
  unfold validate_document_classification.
  destruct (json_loads output) as [v|[c e]].
  - destruct v; try (split; [done|intros [[=] _]]). rewrite check_fields_Ok. naive_solver.
  - destruct c; split; (done || intros [[=] _]).
Qed.

(** The verdict on a trimmed output. *)
Definition verdict (raw status : string) (data : dict string pyval) : Prop :=
  status = "SUCCEEDED" /\ json_loads raw = Ok (VDict data) /\ classified data \/
  status = "MODEL_OUTPUT_INVALID" /\ (exists e, data = [("error", VStr e); ("raw", VStr raw)]) /\
    forall d, json_loads raw = Ok (VDict d) -> ~ classified d.
Lemma judge_Ok raw status data : judge raw = Ok (status, data) -> verdict raw status data.
Proof.
  unfold judge. destruct (validate_document_classification raw) as [d|e] eqn:E.
  - intros [= <- <-]. left. by apply validate_spec in E.
  - case_decide; [|done]. intros [= <- <-]. right. split; [done|]. split; [by eexists|].
    intros d Hd Hc. rewrite (proj2 (validate_spec raw d)) in E; [done|by split].
Qed.

(** What the executor vouches for when it returns: the artifact exists and has
    the expected digest, the capability has no network, the input and the output
    are within the limits, the model's text was trimmed and judged, and the hash
    is that of the data. *)
Definition vouched_result (path : string) (expected : option string) (p : ContextPackage)
    (r : ModelResult) : Prop :=
  verify_artifact path expected = Ok tt /\
  cap_network_policy (cp_capability p) = "disabled" /\
  exists max_context max_output sampling text c tel,
    max_context = vget_or "max_context" (VInt 32000) (cp_constraints p) /\
    max_output = vget_or "max_output" (VInt 4000) (cp_constraints p) /\
    exceeds (json_size false (VDict [("input", VDict (cp_authorized_input p));
                                     ("schema", VStr "document.classify")])) max_context = Ok false /\
    text = vget_or "text" (VStr "") (cp_authorized_input p) /\
    run_model path max_context sampling (prompt text) = Ok c /\
    exceeds (Z.of_nat (String.length (utf8_encode (trim_output (co_text c))))) max_output = Ok false /\
    verdict (trim_output (co_text c)) (mr_status r) (mr_result_data r) /\
    mr_evidence r = [("telemetry", VDict tel)] /\
    dget "result_hash" tel = Some (VStr (sha256 (dumps true (VDict (mr_result_data r))))).

Lemma exceeds_guard r c msg (k : result ModelResult) v :
  (let? over := r in check! guard_raise over c msg in k) = Ok v -> r = Ok false /\ k = Ok v.
Proof. destruct r as [[]|]; done. Qed.

(** C33: An execution by the local model that returns ran the artifact with the
    expected digest, for a capability without network, on the prompt of the text
    it was given, with input and output inside the limits; its status and data are
    the verdict on the trimmed answer, and its telemetry holds the hash of the
    data. *)
Theorem qwen_execute_sound path expected p r :
  qwen_execute path expected p = Ok r -> vouched_result path expected p r.
Proof.
  unfold qwen_execute, vouched_result. intros H.
  destruct (verify_artifact path expected) as [[]|]; [|done].
  destruct (cap_network_policy (cp_capability p) =s "disabled") eqn:En; [|done].
  apply String.eqb_eq in En. cbn [guard_raise negb] in H.
  apply exceeds_guard in H as [Hin H]. destruct (load_model _ _ _) as [[]|]; [|done].
  match type of H with context [run_model ?a ?b ?c ?d] =>
    destruct (run_model a b c d) as [co|] eqn:Er; [|done] end.
  apply exceeds_guard in H as [Hout H].
  destruct (judge _) as [[status data]|] eqn:Ej; [|done]. injection H as <-.
  apply judge_Ok in Ej. do 2 (split; [done|]). by do 6 eexists; split_and!.
Qed.

(** A worker takes whatever the model answered as a success. *)
Context (has_telemetry telemetry_ok : bool).
Theorem model_verdict_ignored path wid task cap s r :
  mb_model_path = Some path -> path <> "" -> artifact path <> None ->
  model_execute path (mkPackage task cap (t_input task) (required_tools cap) (t_constraints task)
                        (t_evidence_policy task) "") = Ok r ->
  wp (run_local has_telemetry telemetry_ok wid task cap) s (fun s' o =>
    o = Ok Finished /\ c_status (wk_ctx s') = ES_SUCCEEDED /\
    c_result (wk_ctx s') = VDict (mr_result_data r) /\
    (exists tel, mr_evidence r = [("telemetry", VDict tel)] /\
      c_result_hash (wk_ctx s') = Some (sha256 (dumps true (VDict (mr_result_data r)))))).
Proof.
  intros Hp Hne Ha He. unfold run_local. cbn [qwen_model_path model_file_exists qwen_executor].
  rewrite Hp. apply String.eqb_neq in Hne. unfold str_true.
  cbn [default from_option Datatypes.id]. rewrite Hne.
  destruct (artifact path); [|done]. rewrite He. apply wp_bind, wp_of_result.
  destruct (qwen_execute_sound _ _ _ _ He)
    as (_ & _ & mc & mo & sp & text & co & tel & _ & _ & _ & _ & _ & _ & _ & Ht & Hh).
  apply wp_bind, wp_modify. apply wp_bind, emit_wp. intros s' _ Hc. apply wp_ret.
  rewrite Hc, Ht. cbn [vget_or dget decide_rel default from_option]. simpl. rewrite Hh.
  split_and!; [done..|]. by exists tel.
Qed.
End Correctness.
