(* ===== verification/Continuity.v ===== *)
(** * The continuity engine

    [runtime/continuity/models.py], [events.py] and [engine.py]: the records and
    events of the operational journal, their append-only files, loading with
    quarantine of unreadable lines, and the reconstruction of an execution.

    A line of a file is blank, holds a value (a JSON object with the fields of
    the dataclass, of the annotated types), or holds something that does not
    load, with the error loading it raises. *)
From S2P Require Import Prelude Dict PyVal Effects.

Inductive line (A : Type) :=
  | LBlank
  | LGood (a : A)
  | LBad (raw error : string).
Arguments LBlank {A}.
Arguments LGood {A} a.
Arguments LBad {A} raw error.

(** [ContinuityStatus], [BootstrapStatus], and the event types: [str]
    enumerations, equal to their values, kept as strings because loaded
    objects hold plain strings. *)
Definition CS_PENDING : string := "PENDING".
Definition CS_ACTIVE : string := "ACTIVE".
Definition CS_COMPLETE : string := "COMPLETE".
Definition CS_FAILED : string := "FAILED".
Definition CS_NOT_CERTIFIED : string := "NOT_CERTIFIED".
Definition CS_BLOCKED : string := "BLOCKED".
Inductive BootstrapStatus := COHERENT | DEGRADED | RECONCILIATION_REQUIRED | UNVERIFIED.
#[export] Instance BootstrapStatus_eq_dec : EqDecision BootstrapStatus.
Proof. solve_decision. Defined.

Record ContinuityRecord := mkRecord {
  cr_continuity_id : string;
  cr_mission_id : string;
  cr_task_id : string;
  cr_parent_task_id : option string;
  cr_step_id : string;
  cr_parent_step_id : option string;
  cr_created_at : string;
  cr_started_at : option string;
  cr_updated_at : string;
  cr_completed_at : option string;
  cr_certified_at : option string;
  cr_actor_id : string;
  cr_actor_level : string;
  cr_parent_actor_id : option string;
  cr_status : string;
  cr_implementation_state : string;
  cr_verification_state : string;
  cr_certification_state : string;
  cr_objective : string;
  cr_reason : string;
  cr_repository : option string;
  cr_branch : option string;
  cr_commit_before : option string;
  cr_commit_after : option string;
  cr_files_changed : list string;
  cr_change_summary : option string;
  cr_actions : list string;
  cr_tools : list string;
  cr_tests : list string;
  cr_test_results : list pyval;
  cr_evidence_refs : list string;
  cr_artifact_refs : list string;
  cr_decision_refs : list string;
  cr_blocker_refs : list string;
  cr_fabric_node : option string;
  cr_fabric_tenant : option string;
  cr_fabric_project : option string;
  cr_resource_ids : list string;
  cr_state_before : option string;
  cr_state_after : option string;
  cr_current_step : option string;
  cr_last_completed_step : option string;
  cr_next_action : option string;
  cr_handoff_target : option string;
  cr_handoff_status : option string;
  cr_execution_id : option string }.
#[export] Instance eta_ContinuityRecord : Eta ContinuityRecord := fun r =>
  mkRecord (cr_continuity_id r) (cr_mission_id r) (cr_task_id r) (cr_parent_task_id r) (cr_step_id r) (cr_parent_step_id r) (cr_created_at r) (cr_started_at r) (cr_updated_at r)
    (cr_completed_at r) (cr_certified_at r) (cr_actor_id r) (cr_actor_level r)
    (cr_parent_actor_id r) (cr_status r) (cr_implementation_state r) (cr_verification_state r) (cr_certification_state r) (cr_objective r) (cr_reason r) (cr_repository r)
    (cr_branch r) (cr_commit_before r) (cr_commit_after r) (cr_files_changed r)
    (cr_change_summary r) (cr_actions r) (cr_tools r) (cr_tests r) (cr_test_results r)
    (cr_evidence_refs r) (cr_artifact_refs r) (cr_decision_refs r) (cr_blocker_refs r)
    (cr_fabric_node r) (cr_fabric_tenant r) (cr_fabric_project r) (cr_resource_ids r)
    (cr_state_before r) (cr_state_after r) (cr_current_step r) (cr_last_completed_step r)
    (cr_next_action r) (cr_handoff_target r) (cr_handoff_status r) (cr_execution_id r).

Record EventRecord := mkEvent {
  ev_event_id : string;
  ev_sequence : Z;
  ev_timestamp : string;
  ev_mission_id : string;
  ev_task_id : string;
  ev_step_id : string;
  ev_parent_event_id : option string;
  ev_actor_id : string;
  ev_actor_level : string;
  ev_parent_actor_id : option string;
  ev_event_type : string;
  ev_target : string;
  ev_intent : string;
  ev_inputs : dict string pyval;
  ev_repository : option string;
  ev_branch : option string;
  ev_commit_before : option string;
  ev_commit_after : option string;
  ev_files_changed : list string;
  ev_observation : string;
  ev_result : string;
  ev_evidence_refs : list string;
  ev_test_results : list pyval;
  ev_decision_ref : option string;
  ev_state_change : option string;
  ev_status : string;
  ev_implementation_state : string;
  ev_verification_state : string;
  ev_certification_state : string;
  ev_blocker_refs : list string;
  ev_next_action : option string;
  ev_fabric_node : option string;
  ev_fabric_tenant : option string;
  ev_fabric_project : option string;
  ev_resource_ids : option (list string);
  ev_state_before : option string;
  ev_state_after : option string;
  ev_execution_id : option string }.
#[export] Instance eta_EventRecord : Eta EventRecord := fun r =>
  mkEvent (ev_event_id r) (ev_sequence r) (ev_timestamp r) (ev_mission_id r) (ev_task_id r)
    (ev_step_id r) (ev_parent_event_id r) (ev_actor_id r) (ev_actor_level r)
    (ev_parent_actor_id r) (ev_event_type r) (ev_target r) (ev_intent r) (ev_inputs r)
    (ev_repository r) (ev_branch r) (ev_commit_before r) (ev_commit_after r)
    (ev_files_changed r) (ev_observation r) (ev_result r) (ev_evidence_refs r)
    (ev_test_results r) (ev_decision_ref r) (ev_state_change r) (ev_status r)
    (ev_implementation_state r) (ev_verification_state r) (ev_certification_state r)
    (ev_blocker_refs r) (ev_next_action r) (ev_fabric_node r) (ev_fabric_tenant r)
    (ev_fabric_project r) (ev_resource_ids r) (ev_state_before r) (ev_state_after r)
    (ev_execution_id r).

(** [ContinuityRecord.create] at an instant, with a fresh identifier *)
Definition create_record (id now mission_id task_id step_id actor_id actor_level objective : string)
    (execution_id : option string) : ContinuityRecord :=
  mkRecord id mission_id task_id None step_id None now None now None None actor_id actor_level
    None CS_PENDING CS_PENDING CS_PENDING CS_NOT_CERTIFIED objective "" None None None None [] None
    [] [] [] [] [] [] [] [] None None None [] None None (Some step_id) None None None None
    execution_id.

Inductive CorruptionSeverity := CLEAN | RECOVERED | QUARANTINED | SEV_BLOCKED.
#[export] Instance CorruptionSeverity_eq_dec : EqDecision CorruptionSeverity.
Proof. solve_decision. Defined.

Record QuarantineEntry := mkQuarantine {
  q_file : string;
  q_line_no : Z;
  q_raw_content : string;
  q_error : string }.

(** The fields of the engine and its three files; the identifiers and instants
    it draws are numbered by [en_tick], and [en_faults] says which of the coming
    writes fail ([true] is a failure, an exhausted list means no more). *)
Record Engine := mkEngine {
  en_records : dict string ContinuityRecord;
  en_events : list EventRecord;
  en_sequence : Z;
  en_quarantined : list QuarantineEntry;
  en_corruption : CorruptionSeverity;
  en_records_file : option (list (line ContinuityRecord));
  en_events_file : option (list (line EventRecord));
  en_quarantine_file : list QuarantineEntry;
  en_tick : nat;
  en_faults : list bool }.
#[export] Instance eta_Engine : Eta Engine := fun r =>
  mkEngine (en_records r) (en_events r) (en_sequence r) (en_quarantined r) (en_corruption r)
    (en_records_file r) (en_events_file r) (en_quarantine_file r) (en_tick r) (en_faults r).

Section Engine.
(** The names of the two files, for the quarantine entries. *)
Context (records_path events_path : string).

(** One write to a file: it fails with nothing written, or appends. *)
Definition write (f : Engine -> Engine) : M Engine unit := fun e =>
  match en_faults e with
  | true :: fs => (e <| en_faults := fs |>, raise OSError "write failed")
  | false :: fs => (f (e <| en_faults := fs |>), Ok tt)
  | [] => (f e, Ok tt)
  end.
Definition append_line {A} (file : option (list (line A))) (a : A) : option (list (line A)) :=
  Some (default [] file ++ [LGood a]).

(** [_append_to_quarantine]: a failure is logged. *)
Definition append_to_quarantine (q : QuarantineEntry) : M Engine unit :=
  try_with (write (fun e => e <| en_quarantine_file := en_quarantine_file e ++ [q] |>))
    (fun _ => mret tt).
Definition quarantine_line (q : QuarantineEntry) : M Engine unit :=
  modify (fun e => (e <| en_quarantined := en_quarantined e ++ [q] |>)
                     <| en_corruption := QUARANTINED |>) ;;
  append_to_quarantine q.

(** [load]: replay of the two files. *)
Definition load_record_line (n : Z) (l : line ContinuityRecord) : M Engine unit :=
  match l with
  | LBlank => mret tt
  | LGood r => modify (fun e => e <| en_records := dset (cr_continuity_id r) r (en_records e) |>)
  | LBad raw err => quarantine_line (mkQuarantine records_path n raw err)
  end.
Definition load_event (ev : EventRecord) (e : Engine) : Engine :=
  let bad := (ev_sequence ev <=? en_sequence e)%Z in
  let ev := if bad then ev <| ev_sequence := (en_sequence e + 1)%Z |> else ev in
  (((if bad then e <| en_corruption := RECOVERED |> else e)
      <| en_events := en_events e ++ [ev] |>)
     <| en_sequence := if (en_sequence e <? ev_sequence ev)%Z then ev_sequence ev
                       else en_sequence e |>).
Definition load_event_line (n : Z) (l : line EventRecord) : M Engine unit :=
  match l with
  | LBlank => mret tt
  | LGood ev => modify (load_event ev)
  | LBad raw err => quarantine_line (mkQuarantine events_path n raw err)
  end.
Fixpoint load_lines {A} (step : Z -> line A -> M Engine unit) (n : Z) (ls : list (line A))
    : M Engine unit :=
  match ls with
  | [] => mret tt
  | l :: ls' => step n l ;; load_lines step (n + 1) ls'
  end.
Definition clear (e : Engine) : Engine :=
  ((((e <| en_records := [] |>) <| en_events := [] |>) <| en_sequence := 0%Z |>)
     <| en_quarantined := [] |>) <| en_corruption := CLEAN |>.
Definition load : M Engine unit :=
  modify clear ;;
  rf ← gets en_records_file;
  load_lines load_record_line 1 (default [] rf) ;;
  ef ← gets en_events_file;
  load_lines load_event_line 1 (default [] ef).

Definition save_record (r : ContinuityRecord) : M Engine unit :=
  modify (fun e => e <| en_records := dset (cr_continuity_id r) r (en_records e) |>) ;;
  write (fun e => e <| en_records_file := append_line (en_records_file e) r |>).

(** [append_event]: the event given its sequence number is returned, for the
    caller that keeps a reference to it. *)
Definition append_event (ev : EventRecord) : M Engine EventRecord :=
  s ← gets en_sequence;
  let ev := ev <| ev_sequence := (s + 1)%Z |> in
  modify (fun e => (e <| en_sequence := ev_sequence ev |>)
                     <| en_events := en_events e ++ [ev] |>) ;;
  write (fun e => e <| en_events_file := append_line (en_events_file e) ev |>) ;;
  mret ev.

Definition get_record (id : string) (e : Engine) : option ContinuityRecord :=
  dget id (en_records e).
Definition get_records_by_mission (m : string) (e : Engine) : list ContinuityRecord :=
  filter (fun r => cr_mission_id r = m) (dvalues (en_records e)).
Definition get_events_by_mission (m : string) (e : Engine) : list EventRecord :=
  filter (fun v => ev_mission_id v = m) (en_events e).
Definition get_records_by_task (t : string) (e : Engine) : list ContinuityRecord :=
  filter (fun r => cr_task_id r = t) (dvalues (en_records e)).
Definition get_events_by_task (t : string) (e : Engine) : list EventRecord :=
  filter (fun v => ev_task_id v = t) (en_events e).
End Engine.

(** ** Reconstruction of an execution *)
Definition ovstr (s : option string) : pyval :=
  match s with Some s => VStr s | None => VNone end.
Definition vstrs (l : list string) : pyval := VList (VStr <$> l).

Definition relevant_record (id : string) (r : ContinuityRecord) : bool :=
  bool_decide (cr_execution_id r = Some id) || (cr_task_id r =s id)
  || (cr_continuity_id r =s id).
Definition relevant_event (id : string) (ev : EventRecord) : bool :=
  bool_decide (ev_execution_id ev = Some id) || (ev_task_id ev =s id)
  || match vget "execution_id" (ev_inputs ev) with VStr s => s =s id | _ => false end.

(** [sorted(events, key=lambda x: x.sequence)]: a stable sort. *)
Fixpoint insert_by_seq (ev : EventRecord) (l : list EventRecord) : list EventRecord :=
  match l with
  | [] => [ev]
  | v :: l' => if (ev_sequence ev <=? ev_sequence v)%Z then ev :: l
               else v :: insert_by_seq ev l'
  end.
Definition sort_by_seq (l : list EventRecord) : list EventRecord := foldr insert_by_seq [] l.

Definition terminal_event_statuses : list string :=
  ["COMPLETE"; "SUCCESS"; "FAILED"; "VERIFIED"; "SUCCEEDED"; "TIMED_OUT"].

Definition reconstructed_status (rec : option ContinuityRecord) (last : option EventRecord)
    : string :=
  match last, rec with
  | Some ev, Some r =>
      if str_in (ev_status ev) terminal_event_statuses then ev_status ev else cr_status r
  | Some ev, None => ev_status ev
  | None, Some r => cr_status r
  | None, None => "UNKNOWN"
  end.

Definition input_keys : list string :=
  ["routing_class"; "executor_type"; "executor_id"; "model_id"; "model_version"; "worker_id";
   "generation"; "failure_reason"; "error_message"].

Definition reconstruct_execution (id : string) (e : Engine) : option (dict string pyval) :=
  let recs := filter (fun r => relevant_record id r = true) (dvalues (en_records e)) in
  let evs := filter (fun v => relevant_event id v = true) (en_events e) in
  match recs, evs with
  | [], [] => None
  | _, _ =>
      let rec := last recs in
      let sorted := sort_by_seq evs in
      let ev := last sorted in
      let pick (f : ContinuityRecord -> pyval) (g : EventRecord -> pyval) (d : pyval) :=
        match rec, ev with Some r, _ => f r | None, Some v => g v | None, None => d end in
      Some (
        [("execution_id", VStr id);
         ("task_id", pick (fun r => VStr (cr_task_id r)) (fun v => VStr (ev_task_id v)) (VStr id));
         ("capability_id", pick (fun r => VStr (cr_step_id r)) (fun v => VStr (ev_step_id v))
                             (VStr "unknown"));
         ("status", VStr (reconstructed_status rec ev));
         ("events_count", VInt (Z.of_nat (length sorted)));
         ("latest_event_type",
           VStr (match ev with Some v => ev_event_type v | None => "None" end));
         ("latest_sequence", VInt (match ev with Some v => ev_sequence v | None => 0%Z end));
         ("evidence_refs", pick (fun r => vstrs (cr_evidence_refs r))
                             (fun v => vstrs (ev_evidence_refs v)) (VList []));
         ("files_changed", pick (fun r => vstrs (cr_files_changed r))
                             (fun v => vstrs (ev_files_changed v)) (VList []));
         ("commit_before", pick (fun r => ovstr (cr_commit_before r))
                             (fun v => ovstr (ev_commit_before v)) VNone);
         ("commit_after", pick (fun r => ovstr (cr_commit_after r))
                             (fun v => ovstr (ev_commit_after v)) VNone);
         ("fabric_node", pick (fun r => ovstr (cr_fabric_node r))
                             (fun v => ovstr (ev_fabric_node v)) VNone);
         ("fabric_tenant", pick (fun r => ovstr (cr_fabric_tenant r))
                             (fun v => ovstr (ev_fabric_tenant v)) VNone)]
        ++ match ev with
           | Some v => map (fun k => (k, vget k (ev_inputs v))) input_keys
           | None => []
           end)
  end.

(** ** What loading yields *)
Definition good_of {A} (l : line A) : option A := match l with LGood a => Some a | _ => None end.
Definition goods {A} (ls : list (line A)) : list A := omap good_of ls.
Fixpoint bads {A} (path : string) (n : Z) (ls : list (line A)) : list QuarantineEntry :=
  match ls with
  | [] => []
  | LBad raw err :: ls' => mkQuarantine path n raw err :: bads path (n + 1) ls'
  | _ :: ls' => bads path (n + 1) ls'
  end.
Definition replay (d : dict string ContinuityRecord) (rs : list ContinuityRecord) :=
  foldl (fun d r => dset (cr_continuity_id r) r d) d rs.
Fixpoint renumber (s : Z) (evs : list EventRecord) : list EventRecord :=
  match evs with
  | [] => []
  | ev :: evs' =>
      let ev := if (ev_sequence ev <=? s)%Z then ev <| ev_sequence := (s + 1)%Z |> else ev in
      ev :: renumber (ev_sequence ev) evs'
  end.
Fixpoint increasing (s : Z) (evs : list EventRecord) : Prop :=
  match evs with
  | [] => True
  | ev :: evs' => (s < ev_sequence ev)%Z /\ increasing (ev_sequence ev) evs'
  end.
Definition last_seq (s : Z) (evs : list EventRecord) : Z :=
  match last evs with Some ev => ev_sequence ev | None => s end.

Lemma renumber_increasing s evs : increasing s (renumber s evs).
Proof.
  revert s; induction evs as [|ev evs IH]; intros s; simpl; [done|].
  split; [|apply IH]. destruct (_ <=? _)%Z eqn:E; bool_to_prop; simpl; lia.
Qed.

Lemma renumber_length s evs : length (renumber s evs) = length evs.
Proof. revert s; induction evs as [|ev evs IH]; intros s; csimpl; [done|]. by rewrite IH. Qed.

Lemma renumber_id s evs : renumber s evs = evs <-> increasing s evs.
Proof.
  revert s; induction evs as [|ev evs IH]; intros s; simpl; [done|].
  destruct (_ <=? _)%Z eqn:E; bool_to_prop.
  - split; [|lia]. intros [= He _]. apply (f_equal ev_sequence) in He. simpl in He. lia.
  - rewrite <-(IH (ev_sequence ev)). split; [by intros [= ?]|by intros [_ ->]].
Qed.

Lemma last_seq_cons s ev evs : last_seq s (ev :: evs) = last_seq (ev_sequence ev) evs.
Proof. unfold last_seq. rewrite last_cons. by destruct (last evs). Qed.

Lemma last_seq_snoc s evs ev : last_seq s (evs ++ [ev]) = ev_sequence ev.
Proof. unfold last_seq. by rewrite last_snoc. Qed.

Lemma increasing_app s evs evs' :
  increasing s (evs ++ evs') <-> increasing s evs /\ increasing (last_seq s evs) evs'.
Proof.
  revert s; induction evs as [|ev evs IH]; intros s; simpl; [tauto|].
  rewrite IH, last_seq_cons. tauto.
Qed.

Lemma goods_app {A} (l l' : list (line A)) : goods (l ++ l') = goods l ++ goods l'.
Proof. apply omap_app. Qed.

Lemma bads_app {A} p n (l l' : list (line A)) :
  bads p n (l ++ l') = bads p n l ++ bads p (n + Z.of_nat (length l)) l'.
Proof.
  revert n; induction l as [|x l IH]; intros n; cbn [app length bads].
  - f_equal; lia.
  - replace (n + Z.of_nat (S (length l)))%Z with (n + 1 + Z.of_nat (length l))%Z by lia.
    by destruct x; rewrite IH.
Qed.

Lemma append_line_goods {A} (f : option (list (line A))) a :
  goods (default [] (append_line f a)) = goods (default [] f) ++ [a].
Proof. unfold append_line; simpl. by rewrite goods_app. Qed.

Lemma append_line_bads {A} (f : option (list (line A))) a p :
  bads p 1 (default [] (append_line f a)) = bads p 1 (default [] f).
Proof. unfold append_line; simpl. rewrite bads_app. apply app_nil_r. Qed.

Section Load.
Context (rp ep : string).

(** What a quarantined line changes, whether or not its copy is written. *)
Lemma quarantine_line_effect q e :
  exists qf fs, quarantine_line q e
    = (((((e <| en_quarantined := en_quarantined e ++ [q] |>) <| en_corruption := QUARANTINED |>)
           <| en_quarantine_file := qf |>) <| en_faults := fs |>), Ok tt).
Proof.
  unfold quarantine_line, append_to_quarantine, try_with, write, modify, mbind, M_bind.
  destruct e as [? ? ? ? ? ? ? ? ? [|[] fs]]; simpl; eauto.
Qed.

Lemma load_records_spec ls : forall n e, exists e',
  load_lines (load_record_line rp) n ls e = (e', Ok tt)
  /\ en_records e' = replay (en_records e) (goods ls)
  /\ en_quarantined e' = en_quarantined e ++ bads rp n ls
  /\ en_corruption e' = match bads rp n ls with [] => en_corruption e | _ => QUARANTINED end
  /\ (en_events e', en_sequence e', en_records_file e', en_events_file e', en_tick e')
     = (en_events e, en_sequence e, en_records_file e, en_events_file e, en_tick e).
Proof.
  induction ls as [|l ls IH]; intros n e; [exists e; by rewrite app_nil_r|].
  cbn [load_lines]. destruct l as [|r|raw err]; cbn [load_record_line].
  - apply (IH (n + 1)%Z e).
  - destruct (IH (n + 1)%Z (e <| en_records := dset (cr_continuity_id r) r (en_records e) |>))
      as (e' & He & H). exists e'. split; [apply He|]. apply H.
  - destruct (quarantine_line_effect (mkQuarantine rp n raw err) e) as (qf & fs & Hq).
    unfold mbind, M_bind. rewrite Hq.
    edestruct (IH (n + 1)%Z) as (e' & He & H1 & H2 & H3 & H4).
    exists e'. split; [exact He|]. simpl in *. rewrite H1, H2, H3, H4, <-app_assoc.
    split_and!; try done. by destruct (bads rp (n + 1) ls).
Qed.

Lemma load_events_spec ls : forall n e, exists e',
  load_lines (load_event_line ep) n ls e = (e', Ok tt)
  /\ en_events e' = en_events e ++ renumber (en_sequence e) (goods ls)
  /\ en_sequence e' = last_seq (en_sequence e) (renumber (en_sequence e) (goods ls))
  /\ en_quarantined e' = en_quarantined e ++ bads ep n ls
  /\ (en_corruption e' = CLEAN <->
        en_corruption e = CLEAN /\ bads ep n ls = [] /\ increasing (en_sequence e) (goods ls))
  /\ (en_records e', en_records_file e', en_events_file e', en_tick e')
     = (en_records e, en_records_file e, en_events_file e, en_tick e).
Proof.
  induction ls as [|l ls IH]; intros n e.
  { exists e. rewrite !app_nil_r. simpl. split_and!; naive_solver. }
  cbn [load_lines]. destruct l as [|ev|raw err]; cbn [load_event_line].
  - apply (IH (n + 1)%Z e).
  - destruct (IH (n + 1)%Z (load_event ev e)) as (e' & He & H1 & H2 & H3 & H4 & H5).
    exists e'. split; [exact He|]. cbn [bads goods omap list_omap good_of renumber increasing].
    rewrite H1, H2, H3, H4, H5, last_seq_cons. unfold load_event, goods.
    destruct (ev_sequence ev <=? en_sequence e)%Z eqn:E; bool_to_prop; simpl;
      rewrite <-app_assoc; simpl.
    + rewrite (proj2 (Z.ltb_lt _ _)) by lia. split_and!; try done. split; intros; naive_solver lia.
    + rewrite (proj2 (Z.ltb_lt _ _)) by lia. split_and!; try done. naive_solver.
  - destruct (quarantine_line_effect (mkQuarantine ep n raw err) e) as (qf & fs & Hq).
    unfold mbind, M_bind. rewrite Hq.
    edestruct (IH (n + 1)%Z) as (e' & He & H1 & H2 & H3 & H4 & H5).
    exists e'. split; [exact He|]. simpl in *. rewrite H1, H2, H3, H4, H5, <-app_assoc.
    split_and!; try done. split; naive_solver.
Qed.
End Load.

Arguments append_line : simpl never.
Arguments goods : simpl never.

Lemma load_run rp ep e : exists e',
  load rp ep e = (e', Ok tt)
  /\ en_records e' = replay [] (goods (default [] (en_records_file e)))
  /\ en_events e' = renumber 0 (goods (default [] (en_events_file e)))
  /\ en_sequence e' = last_seq 0 (en_events e')
  /\ en_quarantined e' = bads rp 1 (default [] (en_records_file e))
                         ++ bads ep 1 (default [] (en_events_file e))
  /\ (en_corruption e' = CLEAN <->
        en_quarantined e' = [] /\ increasing 0 (goods (default [] (en_events_file e))))
  /\ (en_records_file e', en_events_file e', en_tick e')
     = (en_records_file e, en_events_file e, en_tick e).
Proof.
  destruct (load_records_spec rp (default [] (en_records_file e)) 1 (clear e))
    as (e1 & H1 & R1 & Q1 & C1 & K1).
  destruct (load_events_spec ep (default [] (en_events_file e1)) 1 e1)
    as (e2 & H2 & V2 & S2 & Q2 & C2 & K2).
  exists e2. unfold load, mbind, M_bind, modify, gets.
  change (en_records_file (clear e)) with (en_records_file e). rewrite H1, H2. simpl in *.
  injection K1 as Kev Kseq Krf Kef Kt. injection K2 as L1 L2 L3 L4.
  rewrite Kev, Kseq, Kef, C1, Q1 in *. simpl in *.
  split_and!; [done|congruence|done|congruence|done| |congruence].
  rewrite C2, Q2. destruct (bads rp 1 _), (bads ep 1 _); naive_solver.
Qed.

(** Loading needs no identifier and, when no write is to fail, leaves it so. *)
Lemma load_faults rp ep e : en_faults e = [] -> en_faults (load rp ep e).1 = [].
Proof.
  intros Hf.
  assert (forall A (step : Z -> line A -> M Engine unit) ls,
    (forall n l, preserves (fun e => en_faults e = []) (step n l)) ->
    forall n, preserves (fun e => en_faults e = []) (load_lines step n ls)) as Hl.
  { intros A step ls Hs. induction ls as [|l ls IH]; intros n e' He'; [done|].
    cbn [load_lines]. wp_step. eapply wp_mono; [by apply Hs|]. intros e1 [[]|x] H1; auto.
    by apply IH. }
  assert (forall q, preserves (fun e => en_faults e = []) (quarantine_line q)) as Hq.
  { intros q e' He'. unfold wp, quarantine_line, append_to_quarantine, try_with, write, mbind,
      M_bind, modify. simpl. by rewrite He'. }
  assert (preserves (fun e => en_faults e = []) (load rp ep)) as Hp.
  { intros e' He'. unfold load. wp_go. eapply wp_mono; [apply Hl; [|done]|].
    { intros n [|r|raw err] e1 H1; [done|done|by apply Hq]. }
    intros e1 [[]|x] H1; [|done]. wp_go.
    apply Hl; [|done]. intros n [|ev|raw err] e2 H2; [done| |by apply Hq].
    unfold wp, load_event_line, modify, load_event. by destruct (_ <=? _)%Z. }
  specialize (Hp e Hf). unfold wp in Hp. by destruct (load rp ep e).
Qed.

Lemma replay_keyed rs d :
  dict_wf d -> Forall (fun kv => cr_continuity_id kv.2 = kv.1) d ->
  dict_wf (replay d rs) /\ Forall (fun kv => cr_continuity_id kv.2 = kv.1) (replay d rs).
Proof.
  revert d; induction rs as [|r rs IH]; intros d Hw HF; [done|]. simpl. apply IH; [by apply dset_wf|].
  clear Hw IH. induction HF as [|[k v] d Hkv HF IHd]; simpl; [by repeat constructor|].
  case_decide; simpl in *; constructor; auto.
Qed.


(** ** Durability

    A client's calls: each saves a record or appends an event, and its write may
    fail.  [run_ops] also returns what was acknowledged: the records and events
    whose call returned. *)
Inductive journal_op := OpSave (r : ContinuityRecord) | OpAppend (ev : EventRecord).

Definition run_op (o : journal_op) (e : Engine) (acked : list ContinuityRecord * list EventRecord)
    : Engine * (list ContinuityRecord * list EventRecord) :=
  match o with
  | OpSave r =>
      match save_record r e with
      | (e', Ok _) => (e', (acked.1 ++ [r], acked.2))
      | (e', Raise _) => (e', acked)
      end
  | OpAppend ev =>
      match append_event ev e with
      | (e', Ok ev') => (e', (acked.1, acked.2 ++ [ev']))
      | (e', Raise _) => (e', acked)
      end
  end.
Fixpoint run_ops (os : list journal_op) (e : Engine) acked :=
  match os with
  | [] => (e, acked)
  | o :: os' => let '(e', acked') := run_op o e acked in run_ops os' e' acked'
  end.

(** The files hold exactly the acknowledged records and events, all readable. *)
Record files_hold (rp ep : string) (rs0 : list ContinuityRecord) (vs0 : list EventRecord)
    (e : Engine) (acked : list ContinuityRecord * list EventRecord) : Prop := {
  fh_records : goods (default [] (en_records_file e)) = rs0 ++ acked.1;
  fh_events : goods (default [] (en_events_file e)) = vs0 ++ acked.2;
  fh_bad_r : bads rp 1 (default [] (en_records_file e)) = [];
  fh_bad_e : bads ep 1 (default [] (en_events_file e)) = [];
  fh_inc : increasing 0 (vs0 ++ acked.2);
  fh_seq : (last_seq 0 (vs0 ++ acked.2) <= en_sequence e)%Z }.

Lemma write_cases f e : exists fs,
  write f e = (f (e <| en_faults := fs |>), Ok tt)
  \/ write f e = (e <| en_faults := fs |>, raise OSError "write failed").
Proof.
  unfold write. destruct e as [? ? ? ? ? ? ? ? ? [|[] fs]]; simpl;
    [exists []|exists fs|exists fs]; auto.
Qed.

Lemma run_op_holds rp ep rs0 vs0 o e a e' a' :
  files_hold rp ep rs0 vs0 e a -> run_op o e a = (e', a') -> files_hold rp ep rs0 vs0 e' a'.
Proof.
  intros [H1 H2 H3 H4 H5 H6] Hr. destruct o as [r|ev]; simpl in Hr.
  - unfold save_record, mbind, M_bind, modify in Hr.
    match type of Hr with context [write ?f ?x] =>
      destruct (write_cases f x) as (fs & [Hw|Hw]); rewrite Hw in Hr end;
      inv Hr; constructor; cbn -[append_line goods last_seq increasing]; rewrite ?append_line_goods, ?append_line_bads; auto.
    rewrite H1. by rewrite app_assoc.
  - unfold append_event, mbind, M_bind, gets, modify in Hr.
    match type of Hr with context [write ?f ?x] =>
      destruct (write_cases f x) as (fs & [Hw|Hw]); rewrite Hw in Hr end;
      inv Hr; constructor; cbn -[append_line goods last_seq increasing]; rewrite ?append_line_goods, ?append_line_bads; auto;
      try (simpl; lia).
    + rewrite H2. by rewrite app_assoc.
    + rewrite app_assoc, increasing_app. simpl. split_and!; [done| |done]. lia.
    + rewrite app_assoc, last_seq_snoc. simpl. lia.
Qed.

Lemma run_ops_holds rp ep rs0 vs0 os : forall e a e' a',
  files_hold rp ep rs0 vs0 e a -> run_ops os e a = (e', a') -> files_hold rp ep rs0 vs0 e' a'.
Proof.
  induction os as [|o os IH]; intros e a e' a' H Hr; simpl in Hr; [by inv Hr|].
  destruct (run_op o e a) as [e1 a1] eqn:E. eapply IH; [|done]. by eapply run_op_holds.
Qed.

Lemma restart_recovers rp ep e0 e os e' acked :
  load rp ep e0 = (e, Ok tt) -> en_corruption e = CLEAN ->
  run_ops os e ([], []) = (e', acked) ->
  exists r, load rp ep e' = (r, Ok tt)
    /\ en_records r = replay (en_records e) acked.1
    /\ en_events r = en_events e ++ acked.2
    /\ en_corruption r = CLEAN /\ en_quarantined r = [].
Proof.
  intros Hl Hc Hr.
  destruct (load_run rp ep e0) as (e1 & He & HR & HV & HS & HQ & HC & HK).
  assert (e1 = e) as -> by congruence.
  injection HK as K1 K2 _. apply HC in Hc as [Hq Hi]. rewrite Hq in HQ.
  symmetry in HQ. apply app_eq_nil in HQ as [Hb1 Hb2].
  pose proof (proj2 (renumber_id _ _) Hi) as Hn. rewrite Hn in HV.
  eapply (run_ops_holds rp ep (goods (default [] (en_records_file e)))
            (goods (default [] (en_events_file e)))) in Hr; cycle 1.
  { constructor; simpl; rewrite ?app_nil_r, ?K1, ?K2; try done. rewrite HS, HV. done. }
  destruct Hr as [F1 F2 F3 F4 F5 F6].
  destruct (load_run rp ep e') as (r & Hr & RR & RV & _ & RQ & RC & _). exists r.
  assert (en_quarantined r = []) as Hrq by (by rewrite RQ, F3, F4).
  split_and!; try done.
  - rewrite RR, F1, HR, <-K1. unfold replay. by rewrite foldl_app.
  - rewrite RV, F2, HV, <-K2. by apply renumber_id.
  - apply RC. split; [done|]. by rewrite F2.
Qed.

(** Without failing writes, memory is what was acknowledged. *)
Lemma run_ops_memory rs0 vs0 os : forall e a e' a',
  en_faults e = [] -> en_records e = replay rs0 a.1 -> en_events e = vs0 ++ a.2 ->
  run_ops os e a = (e', a') ->
  en_records e' = replay rs0 a'.1 /\ en_events e' = vs0 ++ a'.2.
Proof.
  induction os as [|o os IH]; intros e a e' a' Hf HR HV Hr; simpl in Hr; [by inv Hr|].
  destruct o as [r|ev]; simpl in Hr;
    unfold save_record, append_event, mbind, M_bind, gets, modify, write in Hr;
    simpl in Hr; rewrite Hf in Hr; simpl in Hr; eapply IH in Hr; try done; simpl.
  - rewrite HR. unfold replay. by rewrite foldl_app.
  - by rewrite HV, <-app_assoc.
Qed.

Lemma reconstruct_same id e e' :
  en_records e = en_records e' -> en_events e = en_events e' ->
  reconstruct_execution id e = reconstruct_execution id e'.
Proof. unfold reconstruct_execution. by intros -> ->. Qed.


(** A bad line can be hidden by a good one.  With one unreadable record and one event
    whose number has to be repaired, the engine has quarantined a line
    and its status says RECOVERED, as after a harmless repair. *)
Theorem recovered_hides_quarantine rp ep raw err ev e :
  (ev_sequence ev <= 0)%Z ->
  en_records_file e = Some [LBad raw err] -> en_events_file e = Some [LGood ev] ->
  exists e', load rp ep e = (e', Ok tt)
    /\ en_quarantined e' = [mkQuarantine rp 1 raw err] /\ en_corruption e' = RECOVERED.
Proof.
  intros Hs Hr He. unfold load, mbind, M_bind, modify, gets. simpl. rewrite Hr. simpl.
  unfold mbind, M_bind.
  destruct (quarantine_line_effect (mkQuarantine rp 1 raw err) (clear e)) as (qf & fs & Hq).
  rewrite Hq. simpl. rewrite He. simpl. unfold mbind, M_bind, modify. unfold load_event. simpl.
  rewrite (proj2 (Z.leb_le _ _)) by done. eexists. split_and!; simpl; done.
Qed.

(** ** Reconstruction *)
Lemma increasing_lb s evs v : increasing s evs -> v ∈ evs -> (s < ev_sequence v)%Z.
Proof.
  revert s; induction evs as [|w evs IH]; intros s; simpl; [by intros _ ?%not_elem_of_nil|].
  intros [H1 H2] [->|Hv]%elem_of_cons; [done|]. specialize (IH _ H2 Hv). lia.
Qed.

Lemma sort_by_seq_id s evs : increasing s evs -> sort_by_seq evs = evs.
Proof.
  revert s; induction evs as [|v evs IH]; intros s; simpl; [done|]. intros [_ Hi].
  rewrite (IH _ Hi). destruct evs as [|w evs]; [done|]. simpl in *.
  by rewrite (proj2 (Z.leb_le _ _)) by lia.
Qed.

Lemma increasing_weaken s s' evs : (s' <= s)%Z -> increasing s evs -> increasing s' evs.
Proof. destruct evs; simpl; [done|]. intros ? [? ?]. split; [lia|done]. Qed.

Lemma increasing_filter (P : EventRecord -> Prop) `{!forall x, Decision (P x)} s evs :
  increasing s evs -> increasing s (filter P evs).
Proof.
  revert s; induction evs as [|v evs IH]; intros s; [done|]. simpl. intros [H1 H2].
  rewrite filter_cons. case_decide; simpl; [by auto|].
  apply IH. by eapply increasing_weaken; [|exact H2]; lia.
Qed.

Lemma increasing_last s evs w v :
  increasing s evs -> last evs = Some w -> v ∈ evs -> (ev_sequence v <= ev_sequence w)%Z.
Proof.
  intros Hi [l' ->]%last_Some Hv. apply increasing_app in Hi as [Hi1 Hi2].
  apply elem_of_app in Hv as [Hv| ->%list_elem_of_singleton]; [|lia].
  revert s Hi1 Hi2. clear -Hv. induction l' as [|x l' IH]; intros s; simpl; [set_solver|].
  intros [H1 H2] [H3 _]. rewrite last_seq_cons in H3.
  apply elem_of_cons in Hv as [->|Hv].
  - destruct l' as [|y l']; [unfold last_seq in H3; simpl in H3; lia|].
    assert (ev_sequence x < last_seq (ev_sequence x) (y :: l'))%Z; [|lia].
    unfold last_seq. destruct (last (y :: l')) eqn:E; [|by rewrite last_None in E].
    by eapply increasing_lb; [exact H2|eapply last_elem].
  - eapply (IH Hv (ev_sequence x)); [done|]. simpl. split; [done|done].
Qed.

(** An execution is reconstructed exactly when the journal mentions it, by
    a record or by an event; the reconstruction counts all its events, carries the
    highest of their sequence numbers, and a terminal status of its last event is
    the reported status, whatever the record says (otherwise the last record's
    status is). *)
Theorem reconstruct_spec id e :
  increasing 0 (en_events e) ->
  let recs := filter (fun r => relevant_record id r = true) (dvalues (en_records e)) in
  let evs := filter (fun v => relevant_event id v = true) (en_events e) in
  (reconstruct_execution id e = None <-> recs = [] /\ evs = []) /\
  forall d, reconstruct_execution id e = Some d ->
    dget "events_count" d = Some (VInt (Z.of_nat (length evs)))
    /\ (forall v, v ∈ evs -> exists n,
          dget "latest_sequence" d = Some (VInt n) /\ (ev_sequence v <= n)%Z)
    /\ (forall v, last evs = Some v -> ev_status v ∈ terminal_event_statuses ->
          dget "status" d = Some (VStr (ev_status v)))
    /\ (forall v r, last evs = Some v -> last recs = Some r ->
          ev_status v ∉ terminal_event_statuses ->
          dget "status" d = Some (VStr (cr_status r))).
Proof.
  intros Hi recs evs. unfold reconstruct_execution. fold recs evs.
  assert (increasing 0 evs) as Hie by (by apply increasing_filter).
  rewrite (sort_by_seq_id _ _ Hie). split.
  { destruct recs, evs; naive_solver. }
  intros d Hd.
  assert (exists rest tl, d = [("execution_id", VStr id); rest.1; rest.2;
      ("status", VStr (reconstructed_status (last recs) (last evs)));
      ("events_count", VInt (Z.of_nat (length evs))); tl.1;
      ("latest_sequence", VInt (match last evs with Some v => ev_sequence v | None => 0%Z end))]
      ++ tl.2 /\ rest.1.1 = "task_id" /\ rest.2.1 = "capability_id"
         /\ tl.1.1 = "latest_event_type") as ([[k1 v1] [k2 v2]] & [[k3 v3] tl] & -> & R1 & R2 & R3).
  { destruct recs, evs; inv Hd; eexists (_, _), (_, _); cbn [fst snd app];
      split_and!; try reflexivity. }
  simpl in R1, R2, R3. subst. simpl. split_and!; [done| | |].
  - intros v Hv. eexists; split; [reflexivity|].
    destruct (last evs) as [w|] eqn:E; [by eapply increasing_last|].
    apply last_None in E. rewrite E in Hv. by apply not_elem_of_nil in Hv.
  - intros v Hl Ht. rewrite Hl. simpl. unfold str_in. rewrite bool_decide_eq_true_2 by done.
    by destruct (last recs).
  - intros v r Hl Hr Ht. rewrite Hl, Hr. simpl. unfold str_in.
    by rewrite bool_decide_eq_false_2.
Qed.

(** ** Memory and disk in step *)
Record synced (rp ep : string) (e : Engine) : Prop := {
  sy_faults : en_faults e = [];
  sy_records : replay [] (goods (default [] (en_records_file e))) = en_records e;
  sy_events : goods (default [] (en_events_file e)) = en_events e;
  sy_bad_r : bads rp 1 (default [] (en_records_file e)) = [];
  sy_bad_e : bads ep 1 (default [] (en_events_file e)) = [];
  sy_inc : increasing 0 (en_events e);
  sy_seq : en_sequence e = last_seq 0 (en_events e) }.

Lemma synced_tick rp ep e n : synced rp ep e -> synced rp ep (e <| en_tick := n |>).
Proof. by intros []. Qed.

Lemma synced_save rp ep r e : synced rp ep e ->
  wp (save_record r) e (fun e' res => res = Ok tt /\ synced rp ep e'
    /\ en_events e' = en_events e
    /\ en_records e' = dset (cr_continuity_id r) r (en_records e)).
Proof.
  intros [F R V B1 B2 I S]. unfold wp, save_record, mbind, M_bind, modify, write.
  cbn -[append_line]. rewrite F. cbn -[append_line]. split_and!; try done.
  constructor; cbn -[append_line goods]; rewrite ?append_line_goods, ?append_line_bads; try done.
  unfold replay in *. by rewrite foldl_app, R.
Qed.

Lemma synced_append rp ep ev e : synced rp ep e ->
  wp (append_event ev) e (fun e' res =>
    let ev' := ev <| ev_sequence := (en_sequence e + 1)%Z |> in
    res = Ok ev' /\ synced rp ep e' /\ en_events e' = en_events e ++ [ev']
    /\ en_records e' = en_records e).
Proof.
  intros [F R V B1 B2 I S]. unfold wp, append_event, mbind, M_bind, gets, modify, write.
  cbn -[append_line]. rewrite F. cbn -[append_line]. split_and!; try done.
  constructor; cbn -[append_line goods increasing last_seq];
    rewrite ?append_line_goods, ?append_line_bads; try done.
  - by rewrite V.
  - apply increasing_app. split; [done|]. simpl. lia.
  - by rewrite last_seq_snoc.
Qed.

Lemma synced_load rp ep e : synced rp ep e -> exists e',
  load rp ep e = (e', Ok tt) /\ en_records e' = en_records e /\ en_events e' = en_events e.
Proof.
  intros [F R V B1 B2 I S]. destruct (load_run rp ep e) as (e' & He & HR & HV & _).
  exists e'. split_and!; [done|congruence|]. rewrite HV, V. by apply renumber_id.
Qed.

(** The reconstruction when the last event of the journal is about the
    execution and has a terminal status. *)
Lemma reconstruct_last id e evs v :
  increasing 0 (en_events e) -> en_events e = evs ++ [v] -> relevant_event id v = true ->
  ev_status v ∈ terminal_event_statuses ->
  exists d t c, reconstruct_execution id e = Some d
    /\ vget "status" d = VStr (ev_status v) /\ vget "task_id" d = VStr t
    /\ vget "capability_id" d = VStr c
    /\ Forall (fun k => vget k d = vget k (ev_inputs v)) input_keys.
Proof.
  intros Hi Hv Hr Ht. unfold reconstruct_execution.
  rewrite (sort_by_seq_id 0) by (by apply increasing_filter).
  set (recs := filter _ (dvalues _)).
  assert (filter (fun v => relevant_event id v = true) (en_events e)
    = filter (fun v => relevant_event id v = true) evs ++ [v]) as ->.
  { rewrite Hv, filter_app. f_equal. rewrite filter_cons, decide_True by done. done. }
  rewrite last_snoc. destruct (filter _ evs ++ [v]) as [|v0 l0] eqn:E.
  { by apply app_nil in E as [_ ?]. }
  assert (str_in (ev_status v) terminal_event_statuses = true) as Hs by (by apply str_in_true).
  destruct recs as [|r recs'];
    [|destruct (last (r :: recs')) as [r'|]];
    (do 3 eexists; split; [reflexivity|]);
    unfold vget; cbn; rewrite ?Hs; split_and!; try done; repeat constructor.
Qed.
