(* ===== verification/Mutation.v ===== *)
(** * Repository mutations in two phases, and their reconciliation

    [runtime/continuity/mutation.py] ([RepositoryMutationContract]) and
    [reconciler.py] ([Reconciler]) over the continuity engine: a mutation is
    prepared (record ACTIVE, MUTATION_PREPARED event) and finalized (record
    COMPLETE, MUTATION_FINALIZED and REPOSITORY_MUTATED events); the reconciler
    looks for prepared mutations that were never finalized and for completed
    records without a mutation event. *)
From S2P Require Import Prelude Dict PyVal Effects Host Deterministic Continuity.

Definition MUTATION_PREPARED : string := "MUTATION_PREPARED".
Definition MUTATION_FINALIZED : string := "MUTATION_FINALIZED".
Definition REPOSITORY_MUTATED : string := "REPOSITORY_MUTATED".
Definition BLOCKER_CREATED : string := "BLOCKER_CREATED".

(** The answer of [git rev-parse HEAD || echo ''] in a directory, stripped;
    empty when git cannot be run. *)
Class GitHead := git_head : option string -> string.

Section Mutation.
Context {machine : Machine} {git : GitHead}.

(** [uuid.uuid4().hex] and [datetime.now(timezone.utc).isoformat()] *)
Definition fresh_id : M Engine string := fun e =>
  (e <| en_tick := S (en_tick e) |>, Ok (uuid_hex (en_tick e))).
Definition now_iso : M Engine string := fun e =>
  (e <| en_tick := S (en_tick e) |>, Ok (isoformat (clock (en_tick e)))).

Definition step_records (mission_id step_id : string) (e : Engine) : list ContinuityRecord :=
  filter (fun r => cr_step_id r = step_id) (get_records_by_mission mission_id e).

Definition prepare_mutation (mission_id task_id step_id actor_id actor_level repository branch
    commit_before reason action next_action : string) (execution_id : option string)
    : M Engine EventRecord :=
  records ← gets (step_records mission_id step_id);
  match last records with
  | None => throw ValueError
      ("Cannot mutate repository: No active continuity record for step " +:+ step_id)
  | Some r =>
      t ← now_iso;
      let r := ((((r <| cr_repository := Some repository |>) <| cr_branch := Some branch |>)
        <| cr_commit_before := Some commit_before |>) <| cr_reason := reason |>)
        <| cr_next_action := Some next_action |> in
      let r := if ostr_true execution_id then r <| cr_execution_id := execution_id |> else r in
      let r := (r <| cr_implementation_state := CS_ACTIVE |>) <| cr_updated_at := t |> in
      save_record r ;;
      id ← fresh_id;
      t' ← now_iso;
      append_event
        (mkEvent id 0 t' mission_id task_id step_id None actor_id actor_level None
           MUTATION_PREPARED repository action
           (match execution_id with
            | Some x => if str_true x
                        then [("branch", VStr branch); ("execution_id", VStr x)]
                        else [("branch", VStr branch)]
            | None => [("branch", VStr branch)]
            end)
           (Some repository) (Some branch) (Some commit_before) None []
           ("Prepared mutation for repository " +:+ repository) "PREPARED" [] [] None
           (Some CS_ACTIVE) CS_ACTIVE CS_ACTIVE (cr_verification_state r)
           (cr_certification_state r) [] (Some next_action) None None None None None None
           execution_id)
  end.

(** The two events of a finalized mutation differ in their type, parent and
    observation. *)
Definition finalized_event (p : EventRecord) (r : ContinuityRecord) (id t : string)
    (parent : string) (type observation commit_after : string)
    (files_changed evidence_refs : list string) : EventRecord :=
  mkEvent id 0 t (ev_mission_id p) (ev_task_id p) (ev_step_id p) (Some parent) (ev_actor_id p)
    (ev_actor_level p) None type (ev_target p) (ev_intent p) (ev_inputs p) (ev_repository p)
    (ev_branch p) (ev_commit_before p) (Some commit_after) files_changed observation "SUCCESS"
    evidence_refs [] None (Some CS_COMPLETE) CS_COMPLETE CS_COMPLETE (cr_verification_state r)
    (cr_certification_state r) [] (ev_next_action p) None None None None None None
    (ev_execution_id p).

Definition finalize_mutation (p : EventRecord) (commit_after : string)
    (files_changed tests evidence_refs : list string) : M Engine EventRecord :=
  records ← gets (step_records (ev_mission_id p) (ev_step_id p));
  match last records with
  | None => throw ValueError
      ("Cannot finalize: No active continuity record for step " +:+ ev_step_id p)
  | Some r =>
      t ← now_iso;
      let r := (((r <| cr_commit_after := Some commit_after |>)
        <| cr_files_changed := cr_files_changed r ++ files_changed |>)
        <| cr_tests := cr_tests r ++ tests |>)
        <| cr_evidence_refs := cr_evidence_refs r ++ evidence_refs |> in
      let r := (r <| cr_implementation_state := CS_COMPLETE |>) <| cr_updated_at := t |> in
      save_record r ;;
      let repo := default "None" (ev_repository p) in
      id1 ← fresh_id; t1 ← now_iso;
      ev ← append_event (finalized_event p r id1 t1 (ev_event_id p) MUTATION_FINALIZED
             ("Finalized mutation for repository " +:+ repo) commit_after
             files_changed evidence_refs);
      id2 ← fresh_id; t2 ← now_iso;
      append_event (finalized_event p r id2 t2 (ev_event_id ev) REPOSITORY_MUTATED
             ("Mutated repository " +:+ repo) commit_after files_changed evidence_refs) ;;
      mret ev
  end.

(** ** The reconciler *)
Definition create_gap_event (mission_id task_id step_id reason : string) : M Engine unit :=
  id ← fresh_id; t ← now_iso;
  append_event
    (mkEvent id 0 t mission_id task_id step_id None "SYSTEM" "L0" None BLOCKER_CREATED
       "CONTINUITY" "RECONCILIATION" [("reason", VStr reason)] None None None None []
       ("CONTINUITY_GAP: " +:+ reason) "FAILED" [] [] None (Some CS_BLOCKED) CS_BLOCKED
       CS_PENDING CS_PENDING CS_NOT_CERTIFIED [] (Some "RECONCILE_STATE") None None None None
       None None None) ;;
  mret tt.
Definition gap_for (r : ContinuityRecord) (reason : string) : M Engine unit :=
  create_gap_event (cr_mission_id r) (cr_task_id r) (cr_step_id r) reason.

Definition step_events (step : string) (types : list string) (evs : list EventRecord)
    : list EventRecord :=
  filter (fun v => ev_step_id v = step /\ ev_event_type v ∈ types) evs.

(** [current_head and prep.commit_before and current_head != prep.commit_before] *)
Definition commit_happened (prep : EventRecord) : bool :=
  let head := git_head (ev_repository prep) in
  str_true head && ostr_true (ev_commit_before prep)
  && negb (bool_decide (Some head = ev_commit_before prep)).

(** The orphaned-PREPARE check of one record; returns the record, whose
    status it may change, and whether it found a gap. *)
Definition check_orphan (r : ContinuityRecord) : M Engine (ContinuityRecord * bool) :=
  if (cr_implementation_state r =s CS_ACTIVE) && ostr_true (cr_repository r) then
    evs ← gets en_events;
    match last (step_events (cr_step_id r) [MUTATION_PREPARED] evs),
          step_events (cr_step_id r) [MUTATION_FINALIZED] evs with
    | Some prep, [] =>
        let '(status, reason) :=
          if commit_happened prep then
            ("COMMITTED_UNFINALIZED",
             "COMMITTED_UNFINALIZED: Found unfinalized commit "
             +:+ git_head (ev_repository prep) +:+ " for prepared mutation from "
             +:+ default "None" (ev_commit_before prep))
          else ("PREPARED_NO_COMMIT",
                "PREPARED_NO_COMMIT: Process died before git commit was executed.") in
        let r := r <| cr_status := status |> in
        save_record r ;; gap_for r reason ;; mret (r, true)
    | _, _ => mret (r, false)
    end
  else mret (r, false).

Definition check_complete (r : ContinuityRecord) : M Engine bool :=
  if (cr_status r =s CS_COMPLETE) && ostr_true (cr_repository r) then
    evs ← gets en_events;
    match step_events (cr_step_id r) [REPOSITORY_MUTATED; MUTATION_FINALIZED] evs with
    | [] =>
        gap_for r ("Step marked COMPLETE with repository, but no MUTATION_FINALIZED or "
                   +:+ "REPOSITORY_MUTATED event found.") ;;
        mret true
    | _ => mret false
    end
  else mret false.

Definition reconcile_mission_002 (r : ContinuityRecord) : M Engine unit :=
  match cr_evidence_refs r with
  | [] =>
      if cr_status r =s CS_COMPLETE then
        save_record ((r <| cr_status := "ORPHANED_REQUIRES_RECONCILIATION" |>)
          <| cr_reason := "Mission 002-R2-PHYSICAL marked as COMPLETE but missing physical evidence refs." |>) ;;
        gap_for r "MISSION-002-R2-PHYSICAL is missing required evidence."
      else mret tt
  | _ => mret tt
  end.

Definition reconcile_record (r : ContinuityRecord) : M Engine bool :=
  checked ← check_orphan r;
  let '(r, orphan) := checked in
  unproven ← check_complete r;
  (if cr_mission_id r =s "MISSION-002-R2-PHYSICAL"
   then reconcile_mission_002 r else mret tt) ;;
  mret (orphan || unproven).

Fixpoint reconcile_records (rs : list ContinuityRecord) (status : BootstrapStatus)
    : M Engine BootstrapStatus :=
  match rs with
  | [] => mret status
  | r :: rs' =>
      gap ← reconcile_record r;
      reconcile_records rs' (if (gap : bool) then RECONCILIATION_REQUIRED else status)
  end.

(** [reconcile]: the records are the ones present at its start; the list of
    events is the live one, which grows with the gap events. *)
Definition reconcile : M Engine BootstrapStatus :=
  rs ← gets (fun e => dvalues (en_records e));
  reconcile_records rs COHERENT.
End Mutation.

(** ** Properties *)
Section Properties.
Context {machine : Machine} {git : GitHead}.
Implicit Types (e : Engine) (r : ContinuityRecord).

Lemma write_ok f e : en_faults e = [] -> write f e = (f e, Ok tt).
Proof. unfold write. by intros ->. Qed.

Lemma save_record_ok r e : en_faults e = [] ->
  save_record r e
  = ((e <| en_records := dset (cr_continuity_id r) r (en_records e) |>)
       <| en_records_file := append_line (en_records_file e) r |>, Ok tt).
Proof. intros Hf. unfold save_record, mbind, M_bind, modify. by rewrite write_ok. Qed.

Lemma append_event_ok ev e : en_faults e = [] ->
  let ev' := ev <| ev_sequence := (en_sequence e + 1)%Z |> in
  append_event ev e
  = (((e <| en_sequence := (en_sequence e + 1)%Z |>) <| en_events := en_events e ++ [ev'] |>)
       <| en_events_file := append_line (en_events_file e) ev' |>, Ok ev').
Proof.
  intros Hf ev'. unfold append_event, mbind, M_bind, gets, modify. by rewrite write_ok.
Qed.

(** The same with the state reached named, so that it stays small. *)
Lemma save_record_step r e : en_faults e = [] -> exists e',
  save_record r e = (e', Ok tt)
  /\ en_records e' = dset (cr_continuity_id r) r (en_records e)
  /\ en_records_file e' = append_line (en_records_file e) r
  /\ (en_faults e', en_events e', en_events_file e', en_sequence e')
     = ([], en_events e, en_events_file e, en_sequence e).
Proof. intros Hf. rewrite save_record_ok by done. eexists. split; [done|]. simpl. by rewrite Hf. Qed.

Lemma append_event_step ev e : en_faults e = [] -> exists e' ev',
  append_event ev e = (e', Ok ev') /\ ev' = ev <| ev_sequence := (en_sequence e + 1)%Z |>
  /\ en_events e' = en_events e ++ [ev']
  /\ en_events_file e' = append_line (en_events_file e) ev'
  /\ en_sequence e' = (en_sequence e + 1)%Z
  /\ (en_faults e', en_records e', en_records_file e')
     = ([], en_records e, en_records_file e).
Proof.
  intros Hf. rewrite append_event_ok by done. do 2 eexists. split; [done|]. simpl.
  by rewrite Hf.
Qed.

(** What the reconciler looks for in a record, given the events. *)
Definition orphaned (evs : list EventRecord) r : bool :=
  (cr_implementation_state r =s CS_ACTIVE) && ostr_true (cr_repository r)
  && match step_events (cr_step_id r) [MUTATION_PREPARED] evs,
           step_events (cr_step_id r) [MUTATION_FINALIZED] evs with
     | _ :: _, [] => true | _, _ => false end.
Definition unproven (evs : list EventRecord) r : bool :=
  (cr_status r =s CS_COMPLETE) && ostr_true (cr_repository r)
  && match step_events (cr_step_id r) [REPOSITORY_MUTATED; MUTATION_FINALIZED] evs with
     | [] => true | _ => false end.

(** Reconciling only adds gap events, which no check reads. *)
Definition extends_by_gaps e e' : Prop :=
  en_faults e' = en_faults e
  /\ exists gaps, en_events e' = en_events e ++ gaps
       /\ Forall (fun v => ev_event_type v = BLOCKER_CREATED) gaps.

Lemma extends_refl e : extends_by_gaps e e.
Proof. split; [done|]. exists []. by rewrite app_nil_r. Qed.
Lemma extends_save e d f :
  extends_by_gaps e ((e <| en_records := d |>) <| en_records_file := f |>).
Proof. split; [done|]. exists []. by rewrite app_nil_r. Qed.
Lemma extends_trans e1 e2 e3 :
  extends_by_gaps e1 e2 -> extends_by_gaps e2 e3 -> extends_by_gaps e1 e3.
Proof.
  intros [F1 (g1 & H1 & B1)] [F2 (g2 & H2 & B2)]. split; [congruence|].
  exists (g1 ++ g2). rewrite H2, H1, <-app_assoc. split; [done|]. by apply Forall_app.
Qed.

Lemma step_events_gaps step types evs gaps :
  BLOCKER_CREATED ∉ types -> Forall (fun v => ev_event_type v = BLOCKER_CREATED) gaps ->
  step_events step types (evs ++ gaps) = step_events step types evs.
Proof.
  intros Ht HF. unfold step_events. rewrite filter_app.
  replace (filter _ gaps) with (@nil EventRecord); [apply app_nil_r|].
  symmetry. apply filter_nil_iff. eapply Forall_impl; [exact HF|].
  intros v Hv [_ Hin]. by rewrite Hv in Hin.
Qed.

Lemma orphaned_extends e e' r :
  extends_by_gaps e e' -> orphaned (en_events e') r = orphaned (en_events e) r.
Proof.
  intros [_ (g & -> & HF)]. unfold orphaned.
  rewrite !step_events_gaps by (done || set_solver). done.
Qed.
Lemma unproven_extends e e' r :
  extends_by_gaps e e' -> unproven (en_events e') r = unproven (en_events e) r.
Proof.
  intros [_ (g & -> & HF)]. unfold unproven.
  by rewrite step_events_gaps by (done || set_solver).
Qed.

Lemma gap_for_ok r reason e : en_faults e = [] -> exists e',
  gap_for r reason e = (e', Ok tt) /\ extends_by_gaps e e'
  /\ en_records e' = en_records e /\ length (en_events e') = S (length (en_events e)).
Proof.
  intros Hf. unfold gap_for, create_gap_event, mbind, M_bind, fresh_id, now_iso.
  rewrite append_event_ok by done. eexists. split; [done|]. split; [split|]; simpl.
  - done.
  - eexists. split; [reflexivity|]. by repeat constructor.
  - split; [done|]. rewrite length_app. simpl. lia.
Qed.

(** The status an orphaned record gets: its last prepared mutation, compared
    with the head of the repository. *)
Definition orphan_status (evs : list EventRecord) r : string :=
  match last (step_events (cr_step_id r) [MUTATION_PREPARED] evs) with
  | Some prep => if commit_happened prep then "COMMITTED_UNFINALIZED" else "PREPARED_NO_COMMIT"
  | None => cr_status r
  end.
Definition settled (evs : list EventRecord) r : ContinuityRecord :=
  if orphaned evs r then r <| cr_status := orphan_status evs r |> else r.

Lemma orphan_status_incomplete evs r :
  orphaned evs r = true -> orphan_status evs r <> CS_COMPLETE.
Proof.
  unfold orphaned, orphan_status. intros [_ H]%andb_true_iff.
  destruct (step_events _ [MUTATION_PREPARED] _) as [|v l] eqn:E; [done|].
  destruct (last (v :: l)) as [p|] eqn:El; [|by apply last_None in El].
  by destruct (commit_happened p).
Qed.

Lemma check_orphan_ok r e : en_faults e = [] -> exists e',
  check_orphan r e = (e', Ok (settled (en_events e) r, orphaned (en_events e) r))
  /\ extends_by_gaps e e'
  /\ en_records e' = (if orphaned (en_events e) r
                      then dset (cr_continuity_id r) (settled (en_events e) r) (en_records e)
                      else en_records e).
Proof.
  intros Hf. unfold check_orphan, settled, orphaned, orphan_status.
  destruct (_ && _)%bool; simpl; [|exists e; eauto using extends_refl].
  unfold mbind, M_bind, gets.
  destruct (step_events _ [MUTATION_PREPARED] _) as [|v l] eqn:E.
  { exists e; simpl; eauto using extends_refl. }
  destruct (last (v :: l)) as [p|] eqn:El; [|by apply last_None in El].
  destruct (step_events _ [MUTATION_FINALIZED] _); [|exists e; eauto using extends_refl].
  destruct (commit_happened p).
  all: rewrite save_record_ok by done.
  all: match goal with |- context [gap_for ?r ?why ?e] =>
         destruct (gap_for_ok r why e) as (e' & Hg & Hx & Hr & _); [done|] end.
  all: rewrite Hg; exists e'; split_and!; [done| |exact Hr].
  all: eapply extends_trans; [apply extends_save|exact Hx].
Qed.

Lemma check_complete_ok r e : en_faults e = [] -> exists e',
  check_complete r e = (e', Ok (unproven (en_events e) r))
  /\ extends_by_gaps e e' /\ en_records e' = en_records e.
Proof.
  intros Hf. unfold check_complete, unproven.
  destruct (_ && _)%bool; simpl; [|exists e; eauto using extends_refl].
  unfold mbind, M_bind, gets.
  destruct (step_events _ _ _); [|exists e; eauto using extends_refl].
  match goal with |- context [gap_for ?r ?why ?e] =>
    destruct (gap_for_ok r why e Hf) as (e' & Hg & Hx & Hr & _) end.
  rewrite Hg. exists e'; auto.
Qed.

Lemma mission_002_ok r e : en_faults e = [] -> exists e',
  reconcile_mission_002 r e = (e', Ok tt) /\ extends_by_gaps e e'
  /\ (cr_status r <> CS_COMPLETE -> en_records e' = en_records e)
  /\ (forall k, k <> cr_continuity_id r -> dget k (en_records e') = dget k (en_records e)).
Proof.
  intros Hf. unfold reconcile_mission_002.
  destruct (cr_evidence_refs r); [|exists e; eauto using extends_refl].
  destruct (cr_status r =s CS_COMPLETE) eqn:E; bool_to_prop; [|exists e; eauto using extends_refl].
  unfold mbind, M_bind. rewrite save_record_ok by done.
  match goal with |- context [gap_for ?r ?why ?e] =>
    destruct (gap_for_ok r why e) as (e' & Hg & Hx & Hr & _); [done|] end.
  rewrite Hg. exists e'. split_and!; [done| |done|].
  - eapply extends_trans; [apply extends_save|exact Hx].
  - intros k Hk. rewrite Hr. simpl. by apply dget_dset_other.
Qed.

Definition incoherent (evs : list EventRecord) r : bool := orphaned evs r || unproven evs r.

Lemma reconcile_record_ok r e : en_faults e = [] -> exists e',
  reconcile_record r e = (e', Ok (orphaned (en_events e) r || unproven (en_events e) r))
  /\ extends_by_gaps e e'
  /\ (orphaned (en_events e) r = true ->
      dget (cr_continuity_id r) (en_records e') = Some (settled (en_events e) r))
  /\ (forall k, k <> cr_continuity_id r -> dget k (en_records e') = dget k (en_records e)).
Proof.
  intros Hf. unfold reconcile_record, mbind, M_bind.
  destruct (check_orphan_ok r e Hf) as (e1 & H1 & X1 & R1). rewrite H1. cbv beta iota.
  destruct (check_complete_ok (settled (en_events e) r) e1) as (e2 & H2 & X2 & R2);
    [by destruct X1 as [-> _]|]. rewrite H2.
  rewrite (unproven_extends _ _ _ X1) in *.
  pose proof (extends_trans _ _ _ X1 X2) as X12.
  assert (Hid : cr_continuity_id (settled (en_events e) r) = cr_continuity_id r)
    by (unfold settled; by destruct (orphaned _ _)).
  assert (exists e3, (if cr_mission_id (settled (en_events e) r) =s "MISSION-002-R2-PHYSICAL"
      then reconcile_mission_002 (settled (en_events e) r) else mret tt) e2 = (e3, Ok tt)
    /\ extends_by_gaps e2 e3
    /\ (cr_status (settled (en_events e) r) <> CS_COMPLETE -> en_records e3 = en_records e2)
    /\ (forall k, k <> cr_continuity_id r -> dget k (en_records e3) = dget k (en_records e2)))
    as (e3 & H3 & X3 & R3 & R4).
  { destruct (_ =s _); [|exists e2; eauto using extends_refl].
    destruct (mission_002_ok (settled (en_events e) r) e2) as (e3 & ? & ? & ? & ?);
      [by destruct X12 as [-> _]|]. rewrite Hid in *. eauto 10. }
  rewrite H3. exists e3. split_and!.
  - do 3 f_equal. unfold settled. by destruct (orphaned _ _).
  - by eapply extends_trans.
  - intros Ho. rewrite R3, R2, R1, Ho.
    + apply dget_dset_same.
    + unfold settled. rewrite Ho. simpl. by apply orphan_status_incomplete.
  - intros k Hk. rewrite R4, R2, R1 by done.
    destruct (orphaned _ _); [by apply dget_dset_other|done].
Qed.

Lemma reconcile_records_ok rs : forall e0 e st, en_faults e = [] -> extends_by_gaps e0 e ->
  NoDup (cr_continuity_id <$> rs) ->
  exists e', reconcile_records rs st e
    = (e', Ok (if existsb (incoherent (en_events e0)) rs then RECONCILIATION_REQUIRED else st))
  /\ extends_by_gaps e0 e'
  /\ (forall r, r ∈ rs -> orphaned (en_events e0) r = true ->
        dget (cr_continuity_id r) (en_records e') = Some (settled (en_events e0) r))
  /\ (forall k, k ∉ cr_continuity_id <$> rs -> dget k (en_records e') = dget k (en_records e)).
Proof.
  induction rs as [|r rs IH]; intros e0 e st Hf Hx Hn; simpl.
  { exists e. split_and!; try done. by intros r ?%not_elem_of_nil. }
  rewrite fmap_cons in Hn. apply NoDup_cons in Hn as [Hni Hn].
  destruct (reconcile_record_ok r e Hf) as (e1 & H1 & X1 & S1 & K1).
  unfold mbind, M_bind. rewrite H1.
  rewrite (orphaned_extends _ _ r Hx), (unproven_extends _ _ r Hx) in *.
  assert (settled (en_events e) r = settled (en_events e0) r) as Hset.
  { unfold settled, orphan_status. rewrite (orphaned_extends _ _ r Hx).
    destruct Hx as [_ (g & -> & HF)]. by rewrite step_events_gaps by (done || set_solver). }
  rewrite Hset in *.
  destruct (IH e0 e1 (if incoherent (en_events e0) r then RECONCILIATION_REQUIRED else st))
    as (e2 & H2 & X2 & S2 & K2); [by destruct X1 as [-> _]|by eapply extends_trans|done|].
  exists e2. fold (incoherent (en_events e0) r). rewrite H2. split_and!; [|done| |].
  - by destruct (incoherent _ r), (existsb _ _).
  - intros r' [->|Hr]%elem_of_cons Ho; [|by apply S2]. rewrite K2 by done. by apply S1.
  - intros k [Hk1 Hk2]%not_elem_of_cons. rewrite K2 by done. by apply K1.
Qed.

(** The records are stored under their own identifiers. *)
Definition keyed (d : dict string ContinuityRecord) : Prop :=
  dict_wf d /\ Forall (fun kv => cr_continuity_id kv.2 = kv.1) d.

Lemma keyed_ids d : keyed d -> cr_continuity_id <$> dvalues d = dkeys d.
Proof.
  intros [_ H]. unfold dvalues, dkeys. rewrite <-list_fmap_compose.
  apply list_fmap_ext. intros i x Hx. eapply Forall_lookup_1 in H; [|done]. done.
Qed.

(** reconciliation always terminates with one of two verdicts: COHERENT
    exactly when no record is an unfinalized prepared mutation and none is a completed one
    without a mutation event.  Every orphaned record is settled: its stored status says
    whether the repository's head moved past the commit the mutation was
    prepared from. *)
Theorem reconcile_verdict e :
  en_faults e = [] -> keyed (en_records e) ->
  exists e' st, reconcile e = (e', Ok st)
    /\ (st = COHERENT \/ st = RECONCILIATION_REQUIRED)
    /\ (st = COHERENT <-> Forall (fun r => incoherent (en_events e) r = false)
                            (dvalues (en_records e)))
    /\ (forall r, r ∈ dvalues (en_records e) -> orphaned (en_events e) r = true ->
          dget (cr_continuity_id r) (en_records e')
          = Some (r <| cr_status := orphan_status (en_events e) r |>)).
Proof.
  intros Hf Hk. unfold reconcile, mbind, M_bind, gets.
  destruct (reconcile_records_ok (dvalues (en_records e)) e e COHERENT Hf (extends_refl e))
    as (e' & H & _ & S & _); [rewrite keyed_ids by done; apply Hk|].
  rewrite H. do 2 eexists. split; [done|].
  assert (existsb (incoherent (en_events e)) (dvalues (en_records e)) = false <->
          Forall (fun r => incoherent (en_events e) r = false) (dvalues (en_records e))) as Hx.
  { rewrite <-not_true_iff_false, existsb_exists, Forall_forall. split.
    - intros Hn r Hr. apply not_true_iff_false. intros Hi. apply Hn. exists r.
      by rewrite <-list_elem_of_In.
    - intros HF (r & Hr%list_elem_of_In & Hi). by rewrite HF in Hi. }
  split_and!.
  - destruct (existsb _ _); auto.
  - rewrite <-Hx. by destruct (existsb _ _).
  - intros r Hr Ho. rewrite S by done. unfold settled. by rewrite Ho.
Qed.

(** ** The two phases *)
Section Phases.
Context (mission_id task_id step_id actor_id actor_level repository branch commit_before
  reason action next_action : string) (execution_id : option string).

Abbreviation prepare := (prepare_mutation mission_id task_id step_id actor_id actor_level
  repository branch commit_before reason action next_action execution_id).

Lemma step_records_last m st e r :
  last (step_records m st e) = Some r ->
  cr_step_id r = st /\ cr_mission_id r = m /\ r ∈ dvalues (en_records e).
Proof.
  intros [Hr H1]%last_filter_elem. split; [done|].
  by apply list_elem_of_filter in Hr.
Qed.

Lemma prepare_ok e r :
  en_faults e = [] -> last (step_records mission_id step_id e) = Some r ->
  exists e' p r', prepare e = (e', Ok p)
    /\ en_faults e' = []
    /\ en_events e' = en_events e ++ [p]
    /\ en_events_file e' = append_line (en_events_file e) p
    /\ en_records e' = dset (cr_continuity_id r) r' (en_records e)
    /\ en_records_file e' = append_line (en_records_file e) r'
    /\ (ev_event_type p, ev_step_id p, ev_mission_id p) = (MUTATION_PREPARED, step_id, mission_id)
    /\ (ev_repository p, ev_commit_before p) = (Some repository, Some commit_before)
    /\ (cr_continuity_id r', cr_step_id r', cr_mission_id r')
       = (cr_continuity_id r, step_id, mission_id)
    /\ (cr_repository r', cr_implementation_state r', cr_status r')
       = (Some repository, CS_ACTIVE, cr_status r)
    /\ ev_sequence p = (en_sequence e + 1)%Z /\ en_sequence e' = (en_sequence e + 1)%Z.
Proof.
  intros Hf Hr. pose proof (step_records_last _ _ _ _ Hr) as (Hs & Hm & _).
  unfold prepare_mutation, gets, mbind, M_bind. rewrite Hr. unfold now_iso, fresh_id.
  match goal with |- context [save_record ?r ?e] =>
    destruct (save_record_step r e) as (e1 & H1 & R1 & RF1 & K1); [done|] end.
  injection K1 as F1 V1 VF1 S1. rewrite H1.
  match goal with |- context [append_event ?v ?e] =>
    destruct (append_event_step v e) as (e2 & p & H2 & Hp & V2 & VF2 & S2 & K2); [done|] end.
  injection K2 as F2 R2 RF2. rewrite H2. exists e2, p.
  cbn in R2, RF2, V2, VF2, S2, Hp.
  rewrite F2, R2, RF2, V2, VF2, S2, R1, RF1, V1, VF1, S1. rewrite S1 in Hp. clear - Hp Hs Hm.
  eexists (if ostr_true execution_id then _ else _). split; [reflexivity|]. subst p. cbn.
  destruct (ostr_true execution_id); cbn; split_and!; try reflexivity; by rewrite Hs, Hm.
Qed.

Lemma step_events_snoc st types evs v :
  step_events st types (evs ++ [v])
  = step_events st types evs
    ++ (if bool_decide (ev_step_id v = st /\ ev_event_type v ∈ types) then [v] else []).
Proof.
  unfold step_events. rewrite filter_app, filter_cons. case_decide; case_bool_decide; try done.
Qed.

(** Reloading a clean journal to which one record and one event were added. *)
Lemma reload_one rp ep d e e1 r' p :
  load rp ep d = (e, Ok tt) -> en_corruption e = CLEAN -> en_faults e1 = [] ->
  en_records_file e1 = append_line (en_records_file e) r' ->
  en_events_file e1 = append_line (en_events_file e) p ->
  ev_sequence p = (en_sequence e + 1)%Z ->
  exists e2, load rp ep e1 = (e2, Ok tt)
    /\ en_records e2 = dset (cr_continuity_id r') r' (en_records e)
    /\ en_events e2 = en_events e ++ [p] /\ keyed (en_records e2) /\ en_faults e2 = [].
Proof.
  intros Hl Hc F1 RF VF S1.
  destruct (load_run rp ep d) as (e' & He & HR & HV & HS & _ & HC & HK).
  assert (e' = e) as -> by congruence. injection HK as K1 K2 _. apply HC in Hc as [_ Hi].
  destruct (load_run rp ep e1) as (e2 & H2 & R2 & V2 & _).
  pose proof (proj2 (renumber_id _ _) Hi) as Hn. rewrite Hn in HV.
  rewrite VF, append_line_goods, K2 in V2. rewrite RF, append_line_goods, K1 in R2.
  exists e2. split_and!; [done| | | |].
  - rewrite R2, HR. unfold replay. by rewrite foldl_app.
  - rewrite V2, HV. apply renumber_id, increasing_app. split; [done|].
    cbn [increasing]. rewrite S1, HS, HV. split; [lia|done].
  - rewrite R2. apply replay_keyed; [by apply NoDup_nil_2|constructor].
  - pose proof (load_faults rp ep e1 F1) as F2. by rewrite H2 in F2.
Qed.

Lemma existsb_elem {A} (f : A -> bool) l x : x ∈ l -> f x = true -> existsb f l = true.
Proof. intros Hx Hf. apply existsb_exists. exists x. by rewrite <-list_elem_of_In. Qed.


(** A second interrupted mutation of a step is missed.  Where the step already has a
    finalized mutation and the journal is coherent, a mutation prepared and
    never finalized leaves the verdict COHERENT, whatever the repository's head. *)
Theorem second_orphan_missed e r :
  en_faults e = [] -> keyed (en_records e) ->
  last (step_records mission_id step_id e) = Some r ->
  step_events step_id [MUTATION_FINALIZED] (en_events e) <> [] ->
  Forall (fun r => incoherent (en_events e) r = false) (dvalues (en_records e)) ->
  exists e1 p e2, prepare e = (e1, Ok p) /\ ev_event_type p = MUTATION_PREPARED
    /\ reconcile e1 = (e2, Ok COHERENT).
Proof.
  intros Hf Hk Hr Hfin Hco.
  destruct (prepare_ok e r Hf Hr) as (e1 & p & r' & Hp & F1 & V1 & _ & R1 & _ & P1 & _
    & Q1 & _).
  injection P1 as P11 P12 P13. injection Q1 as Q11 Q12 Q13.
  assert (forall st types, MUTATION_PREPARED ∉ types ->
    step_events st types (en_events e1) = step_events st types (en_events e)) as Hsame.
  { intros st types Ht. rewrite V1, step_events_snoc.
    rewrite bool_decide_eq_false_2 by (rewrite P11; tauto). apply app_nil_r. }
  assert (step_events step_id [REPOSITORY_MUTATED; MUTATION_FINALIZED] (en_events e) <> [])
    as Hmut.
  { intros Hn%filter_nil_iff. apply Hfin, filter_nil_iff. eapply Forall_impl; [exact Hn|].
    intros v Hv [H1 H2]. apply Hv. split; [done|]. by right. }
  assert (forall q, cr_step_id q = step_id \/ incoherent (en_events e) q = false ->
                    incoherent (en_events e1) q = false) as Hinc.
  { intros q Hq. unfold incoherent, orphaned, unproven in *.
    rewrite !(Hsame _ [MUTATION_FINALIZED]), !(Hsame _ [REPOSITORY_MUTATED; _]) by set_solver.
    destruct (decide (cr_step_id q = step_id)) as [Es|Es].
    - rewrite Es. destruct (step_events _ [MUTATION_FINALIZED] _) eqn:E1; [done|].
      destruct (step_events _ [_; _] _) eqn:E2; [done|].
      destruct (step_events step_id [MUTATION_PREPARED] (en_events e1)); by rewrite !andb_false_r.
    - destruct Hq as [Hq|Hq]; [done|]. rewrite V1, step_events_snoc.
      rewrite bool_decide_eq_false_2 by (rewrite P12; naive_solver). by rewrite app_nil_r. }
  assert (keyed (en_records e1)) as Hk1.
  { rewrite R1, <-Q11. destruct Hk. apply (replay_keyed [r']); done. }
  destruct (reconcile_records_ok (dvalues (en_records e1)) e1 e1 COHERENT F1 (extends_refl e1))
    as (e2 & H2 & _); [rewrite keyed_ids by done; apply Hk1|].
  exists e1, p, e2. split_and!; [done|done|].
  unfold reconcile, mbind, M_bind, gets. rewrite H2.
  replace (existsb _ _) with false; [done|]. symmetry. apply not_true_iff_false.
  rewrite existsb_exists. intros (q & Hq & Hi). apply list_elem_of_In in Hq.
  enough (incoherent (en_events e1) q = false) by congruence. apply Hinc.
  rewrite R1 in Hq. clear -Hq Hco Q12.
  assert (Forall (fun q => cr_step_id q = step_id \/ incoherent (en_events e) q = false)
    (dvalues (dset (cr_continuity_id r) r' (en_records e)))) as HF.
  { apply dset_Forall; [|by left]. eapply Forall_impl; [exact Hco|]. by right. }
  rewrite Forall_forall in HF. by apply HF.
Qed.

Lemma last_filter_split {A} (P : A -> Prop) `{!forall x, Decision (P x)} (l : list A) x :
  last (filter P l) = Some x -> exists l1 l2, l = l1 ++ x :: l2 /\ filter P l2 = [] /\ P x.
Proof.
  induction l as [|y l IH]; [done|]. rewrite filter_cons.
  destruct (filter P l) eqn:E.
  - case_decide; [|done]. intros [= ->]. by exists [], l.
  - case_decide; [rewrite last_cons_cons|]; intros (l1 & l2 & -> & ?)%IH; by exists (y :: l1), l2.
Qed.

Lemma step_events_elem st types evs v :
  v ∈ evs -> ev_step_id v = st -> ev_event_type v ∈ types -> step_events st types evs <> [].
Proof.
  intros Hv Hs Ht Hn. assert (v ∈ step_events st types evs) as Hin.
  { by apply list_elem_of_filter. }
  rewrite Hn in Hin. by apply not_elem_of_nil in Hin.
Qed.

Lemma finalized_coherent evs q v :
  v ∈ evs -> ev_step_id v = cr_step_id q -> ev_event_type v = MUTATION_FINALIZED ->
  incoherent evs q = false.
Proof.
  intros Hv Hs Ht. unfold incoherent, orphaned, unproven.
  pose proof (step_events_elem _ [MUTATION_FINALIZED] _ _ Hv Hs) as H1.
  pose proof (step_events_elem _ [REPOSITORY_MUTATED; MUTATION_FINALIZED] _ _ Hv Hs) as H2.
  rewrite Ht in H1, H2. specialize (H1 ltac:(set_solver)). specialize (H2 ltac:(set_solver)).
  destruct (step_events _ [MUTATION_FINALIZED] _); [done|].
  destruct (step_events _ [_; _] _); [done|].
  by destruct (step_events (cr_step_id q) [MUTATION_PREPARED] evs); rewrite !andb_false_r.
Qed.

(** The record a step's calls find is still the one they find once it has
    been saved with new contents. *)
Lemma step_records_saved m st e r r' :
  keyed (en_records e) -> last (step_records m st e) = Some r ->
  cr_continuity_id r' = cr_continuity_id r -> cr_step_id r' = st -> cr_mission_id r' = m ->
  forall e', en_records e' = dset (cr_continuity_id r) r' (en_records e) ->
  last (step_records m st e') = Some r'.
Proof.
  intros [Hw Hk] Hl Hid Hs Hm e' HR. unfold step_records, get_records_by_mission in *.
  rewrite list_filter_filter in *. rewrite HR. clear HR.
  revert Hw Hk Hl. generalize (en_records e) as d. intros d Hw Hk Hl.
  apply last_filter_split in Hl as (l1 & l2 & Hd & Hn & Hp).
  unfold dvalues in *. apply fmap_app_inv in Hd as (d1 & d2 & -> & Hd2 & ->).
  symmetry in Hd2. apply fmap_cons_inv in Hd2 as ([k x] & d2' & Hx & -> & ->).
  simpl in Hx. subst x.
  apply Forall_app in Hk as [_ Hk]. apply Forall_cons in Hk as [Hk _]. simpl in Hk. subst k.
  assert (dset (cr_continuity_id r) r' (d1 ++ (cr_continuity_id r, r) :: d2')
          = d1 ++ (cr_continuity_id r, r') :: d2') as ->.
  { unfold dict_wf, dkeys in Hw. rewrite fmap_app in Hw. apply NoDup_app in Hw as (_ & Hw & _).
    clear -Hw. induction d1 as [|[k x] d1 IH]; simpl; [by rewrite decide_True|].
    rewrite decide_False.
    - f_equal. apply IH. intros y Hy. apply Hw. simpl. by right.
    - intros <-. apply (Hw (cr_continuity_id r)); simpl; set_solver. }
  rewrite fmap_app, fmap_cons, filter_app, filter_cons. simpl.
  rewrite decide_True by done. rewrite Hn. by rewrite last_snoc.
Qed.

Lemma finalize_ok e p r ca fc ts er :
  en_faults e = [] -> last (step_records (ev_mission_id p) (ev_step_id p) e) = Some r ->
  exists e' f c r', finalize_mutation p ca fc ts er e = (e', Ok f)
    /\ en_events e' = en_events e ++ [f; c]
    /\ en_records e' = dset (cr_continuity_id r) r' (en_records e)
    /\ (ev_event_type f, ev_step_id f, ev_parent_event_id f)
       = (MUTATION_FINALIZED, ev_step_id p, Some (ev_event_id p))
    /\ (ev_event_type c, ev_step_id c, ev_parent_event_id c)
       = (REPOSITORY_MUTATED, ev_step_id p, Some (ev_event_id f))
    /\ (ev_sequence f, ev_sequence c) = (en_sequence e + 1, en_sequence e + 2)%Z
    /\ (ev_commit_before f, ev_commit_after f) = (ev_commit_before p, Some ca)
    /\ (cr_continuity_id r', cr_step_id r', cr_mission_id r', cr_repository r',
        cr_commit_before r')
       = (cr_continuity_id r, cr_step_id r, cr_mission_id r, cr_repository r,
          cr_commit_before r)
    /\ (cr_implementation_state r', cr_commit_after r', cr_files_changed r')
       = (CS_COMPLETE, Some ca, cr_files_changed r ++ fc).
Proof.
  intros Hf Hr. unfold finalize_mutation, gets, mbind, M_bind. rewrite Hr.
  unfold now_iso, fresh_id.
  match goal with |- context [save_record ?r ?e] =>
    destruct (save_record_step r e) as (e1 & H1 & R1 & RF1 & K1); [done|] end.
  injection K1 as F1 V1 VF1 S1. rewrite H1.
  match goal with |- context [append_event ?v ?e] =>
    destruct (append_event_step v e) as (e2 & f & H2 & Hp & V2 & VF2 & S2 & K2); [done|] end.
  injection K2 as F2 R2 RF2. rewrite H2.
  match goal with |- context [append_event ?v ?e] =>
    destruct (append_event_step v e) as (e3 & c & H3 & Hc & V3 & VF3 & S3 & K3); [done|] end.
  injection K3 as F3 R3 RF3. rewrite H3. exists e3, f, c.
  eexists. split; [reflexivity|]. rewrite V3, R3. simpl. rewrite V2, R2. simpl.
  rewrite V1, R1, <-app_assoc. subst f c. cbn in *. rewrite S2. simpl. rewrite S1.
  split_and!; try done. f_equal. lia.
Qed.

(** the two phases, run to the end, leave a coherent journal.  After a
    prepared and a finalized mutation the journal has gained the three events PREPARED,
    FINALIZED, MUTATED, with consecutive numbers and each the parent of the next; the
    record of the step is COMPLETE with both commits; and the reconciler finds nothing
    to report about any record of that step. *)
Theorem two_phases_coherent e r ca fc ts er :
  en_faults e = [] -> keyed (en_records e) ->
  last (step_records mission_id step_id e) = Some r ->
  exists e1 e2 p f c r', prepare e = (e1, Ok p) /\ finalize_mutation p ca fc ts er e1 = (e2, Ok f)
    /\ en_events e2 = en_events e ++ [p; f; c]
    /\ (ev_event_type p, ev_event_type f, ev_event_type c)
       = (MUTATION_PREPARED, MUTATION_FINALIZED, REPOSITORY_MUTATED)
    /\ (ev_parent_event_id f, ev_parent_event_id c) = (Some (ev_event_id p), Some (ev_event_id f))
    /\ (ev_sequence p, ev_sequence f, ev_sequence c)
       = (en_sequence e + 1, en_sequence e + 2, en_sequence e + 3)%Z
    /\ dget (cr_continuity_id r) (en_records e2) = Some r'
    /\ (cr_implementation_state r', cr_commit_after r') = (CS_COMPLETE, Some ca)
    /\ forall q, cr_step_id q = step_id -> incoherent (en_events e2) q = false.
Proof.
  intros Hf Hk Hr.
  destruct (prepare_ok e r Hf Hr) as (e1 & p & r1 & Hp & F1 & V1 & _ & R1 & _ & P1 & P2
    & Q1 & Q2 & S1 & S2).
  injection P1 as P11 P12 P13. injection Q1 as Q11 Q12 Q13.
  pose proof (step_records_saved _ _ _ _ r1 Hk Hr Q11 Q12 Q13 e1 R1) as Hr1.
  rewrite <-P12, <-P13 in Hr1.
  destruct (finalize_ok e1 p r1 ca fc ts er F1 Hr1) as (e2 & f & c & r2 & Hfin & V2 & R2 & T1
    & T2 & T3 & T4 & T5 & T6).
  exists e1, e2, p, f, c, r2. injection T1 as T11 T12 T13. injection T2 as T21 T22 T23.
  injection T3 as T31 T32. injection T6 as T61 T62 T63.
  split_and!; try done.
  - by rewrite V2, V1, <-app_assoc.
  - congruence.
  - congruence.
  - rewrite S1, T31, T32, S2. f_equal; [f_equal; lia|lia].
  - rewrite R2, Q11. apply dget_dset_same.
  - congruence.
  - intros q Hq. apply (finalized_coherent _ _ f); [|by rewrite T12, P12|done].
    rewrite V2. set_solver.
Qed.
End Phases.
End Properties.
