(* ===== verification/Manager.v ===== *)
(** * The execution manager

    [runtime/execution/manager.py] and the fence of
    [runtime/core/generation.py]: admission of a task (capability checks,
    selection of an executor, workspace, context, worker, journal), its
    synchronous execution behind the generation fence, and the answers about an
    execution, from memory or reconstructed from the journal. *)
From S2P Require Import Prelude Dict PyVal Effects PyPath PyStr ExecModels Host Workspace.
From S2P Require Import Deterministic Registry Intelligence Orchestrator Mcp Telemetry Worker.
From S2P Require Import Continuity Mutation.

(** ** The generation fence *)
Definition validate_generation (current : Z) (generation : Z) : bool := (generation =? current)%Z.
Definition fence (current : Z) (generation : Z) : result unit :=
  guard_raise (negb (validate_generation current generation)) StaleGenerationError
    ("Generation mismatch. Expected " +:+ zstr current +:+ ", got " +:+ zstr generation).

(** The manager's tables, with the parts it drives: the workers, the gateway
    (which holds the capability registry and the host), the telemetry, the orchestrator
    behind the selector, the continuity engine, and the runtime's generation. *)
Record MgSt := mkMgSt {
  mg_tasks : dict string Task;
  mg_executions : dict string TaskExecutionContext;
  mg_workers : dict string WorkerDefinition;
  mg_gw : Gateway;
  mg_tel : Collector;
  mg_orch : Orchestrator;
  mg_engine : Engine;
  mg_generation : Z }.
#[export] Instance eta_MgSt : Eta MgSt := fun r =>
  mkMgSt (mg_tasks r) (mg_executions r) (mg_workers r) (mg_gw r) (mg_tel r) (mg_orch r)
    (mg_engine r) (mg_generation r).

(** [str(uuid)]: the 32 hexadecimal digits with dashes *)
Definition uuid_str (hex : string) : string :=
  String.substring 0 8 hex +:+ "-" +:+ String.substring 8 4 hex +:+ "-"
  +:+ String.substring 12 4 hex +:+ "-" +:+ String.substring 16 4 hex +:+ "-"
  +:+ String.substring 20 12 hex.

Section Manager.
Context {machine : Machine} {clients : ToolClients} {model : ModelExecutor}
  {frontier : FrontierExecutor} {git : GitHead}.
(** Configuration: collector, gateway audit, paths, runtime engine and continuity
    engine present or not, and the directory evidence is kept in. *)
Context (has_telemetry gw_audits : bool) (gw_fabric : string) (telemetry_ok : bool)
  (has_runtime has_continuity : bool) (evidence_base : string).

Definition mg_host (s : MgSt) : Host := gw_host (mg_gw s).
Definition set_host (h : Host) (s : MgSt) : MgSt :=
  s <| mg_gw := (mg_gw s) <| gw_host := h |> |>.
Definition on_mhost {A} (m : M Host A) : M MgSt A := zoom mg_host set_host m.
(** The engine draws its identifiers and instants from the same machine. *)
Definition on_engine {A} (m : M Engine A) : M MgSt A :=
  zoom (fun s => (mg_engine s) <| en_tick := h_tick (mg_host s) |>)
    (fun e s => set_host ((mg_host s) <| h_tick := en_tick e |>) (s <| mg_engine := e |>)) m.
(** The worker manager acts on the context object of one execution. *)
Definition with_context {A} (execution_id : string) (c : TaskExecutionContext) (m : M WkSt A)
  : M MgSt A :=
  zoom (fun s => mkWkSt (mg_workers s) (default c (dget execution_id (mg_executions s)))
                   (mg_gw s) (mg_tel s))
    (fun w s => (((s <| mg_workers := wk_workers w |>)
                    <| mg_executions := dset execution_id (wk_ctx w) (mg_executions s) |>)
                   <| mg_gw := wk_gw w |>) <| mg_tel := wk_tel w |>) m.

(** [f"evt-{uuid.uuid4().hex[:8]}"] *)
Definition event_id : M Engine string :=
  h ← fresh_id; mret ("evt-" +:+ String.substring 0 8 h).

Definition task_created_envelope (id t execution_id : string) (task : Task)
  : TelemetryEnvelope :=
  (create_envelope id t "manager" "task.created" "execution")
    <| te_execution_id := Some execution_id |> <| te_task_id := Some (t_task_id task) |>
    <| te_capability_id := Some (t_capability_id task) |>
    <| te_department_id := Some (ostr_or (t_department_id task) "UNKNOWN") |>
    <| te_project_id := Some (t_project_id task) |>.

(** An event of the journal about an execution. *)
Definition execution_event (task : Task) (id t execution_id type intent : string)
    (inputs : dict string pyval) (observation status verification : string)
    (evidence : list string) (next_action : option string) : EventRecord :=
  mkEvent id 0 t "DEFAULT_MISSION" (t_task_id task) (t_capability_id task) None
    (t_requested_by task) "L0" None type (t_capability_id task) intent inputs None None None
    None [] observation status evidence [] None (Some status) status status verification
    CS_NOT_CERTIFIED [] next_action None None None None None None (Some execution_id).

Definition routing_inputs (c : TaskExecutionContext) : dict string pyval :=
  [("execution_id", VStr (c_execution_id c)); ("routing_class", ovstr (c_routing_class c));
   ("executor_type", ovstr (c_executor_type c)); ("executor_id", ovstr (c_executor_id c));
   ("model_id", ovstr (c_model_id c));
   ("generation", match c_generation c with Some g => VInt g | None => VNone end)].
Definition outcome_inputs (c : TaskExecutionContext) : dict string pyval :=
  routing_inputs c
  ++ [("failure_reason", match c_failure_reason c with
                         | Some r => VStr (failure_reason_str r) | None => VNone end);
      ("error_message", ovstr (c_error_message c))].

Definition new_context (execution_id : string) (task : Task) (cap : CapabilityDefinition)
    (sel : ExecutorSelection) (workspace_path : string) (generation : Z)
    : TaskExecutionContext :=
  let etype := executor_type_str (sel_executor_type sel) in
  mkContext execution_id (t_task_id task) (t_account_id task) (t_project_id task)
    (t_capability_id task) workspace_path [] (required_tools cap) (t_deadline task)
    [("max_output_size", VInt (cap_max_output cap));
     ("max_workspace_size", VInt (10 * 1024 * 1024))]
    (cap_network_policy cap) (cap_filesystem_policy cap) ES_QUEUED VNone None None None None
    None (Some etype) (Some (sel_executor_id sel)) (Some (sel_executor_version sel))
    (sel_model_id sel) (sel_model_version sel) (Some (sel_policy_version sel)) None None None
    (Some (routing_class_of etype)) (Some (family cap)) (t_department_id task)
    (Some generation).

Definition journal_queued (task : Task) (c : TaskExecutionContext) : M Engine unit :=
  let eid := c_execution_id c in
  now ← now_iso;
  rid ← fresh_id;
  save_record (create_record rid now "DEFAULT_MISSION" (t_task_id task) (t_capability_id task)
    (t_requested_by task) "L0" ("Task queued: " +:+ t_task_id task) (Some eid)) ;;
  id ← event_id;
  t ← now_iso;
  append_event (execution_event task id t eid "TASK_CREATED"
    ("Task queued: " +:+ t_task_id task) (routing_inputs c)
    ("Execution QUEUED (" +:+ eid +:+ ")") "QUEUED" "PENDING" [] (Some "EXECUTE")) ;;
  mret tt.

(** The admission checks on the capability. *)
Definition admit_capability (task : Task) (caps : CapabilityRegistry)
  : result CapabilityDefinition :=
  match cap_get (t_capability_id task) caps with
  | None => raise ValueError ("Unknown capability: " +:+ t_capability_id task)
  | Some cap =>
      check! guard_raise (negb (enabled cap)) ValueError
               ("Capability is disabled: " +:+ t_capability_id task) in
      check! guard_raise (negb (side_effect cap =s "read") && deterministic_allowed cap)
               ValueError ("Deterministic write capability requires a governed write executor: "
                           +:+ t_capability_id task) in
      Ok cap
  end.

Definition announce (execution_id : string) (task : Task) : M MgSt unit :=
  when has_telemetry
    (u ← on_mhost draw_uuid;
     t ← on_mhost (now clock);
     modify (fun s => s <| mg_tel := emit telemetry_ok
       (task_created_envelope ("evt-" +:+ String.substring 0 12 u) (isoformat t)
          execution_id task) (mg_tel s) |>)).

(** The selector plans on the task itself and assigns its capability. *)
Definition select_executor (task : Task) (cap : CapabilityDefinition)
  : M MgSt ExecutorSelection := fun s =>
  let '(o, r) := select (mg_orch s) (plan_task_of task) cap default_policy in
  (s <| mg_orch := o |>, r).

Definition submit_task (task : Task) : M MgSt TaskExecutionContext :=
  u ← on_mhost draw_uuid;
  let eid := uuid_str u in
  announce eid task ;;
  caps ← gets (fun s => gw_caps (mg_gw s));
  cap ← of_result (admit_capability task caps);
  sel ← select_executor task cap;
  path ← try_with
    (on_mhost (create_workspace clock cwd ephemeral_base eid (t_project_id task)))
    (fun e => throw RuntimeError ("Failed to create workspace: " +:+ exn_str e));
  gen ← gets (fun s => if has_runtime then mg_generation s else 1%Z);
  let c := new_context eid task cap sel path gen in
  modify (fun s => (s <| mg_tasks := dset eid task (mg_tasks s) |>)
                     <| mg_executions := dset eid c (mg_executions s) |>) ;;
  with_context eid c (create_worker true has_telemetry telemetry_ok sel task) ;;
  c' ← gets (fun s => default c (dget eid (mg_executions s)));
  when has_continuity (on_engine (journal_queued task c')) ;;
  mret c'.

(** The worker of an execution: the first one made for it. *)
Definition worker_of (execution_id : string) (s : MgSt) : option WorkerDefinition :=
  head (filter (fun w => wd_execution_id w = execution_id) (dvalues (mg_workers s))).

(** An update of the context object of an execution, and of a worker object. *)
Definition upd_context (eid : string) (f : TaskExecutionContext -> TaskExecutionContext)
  : M MgSt unit :=
  modify (fun s => match dget eid (mg_executions s) with
                   | Some c => s <| mg_executions := dset eid (f c) (mg_executions s) |>
                   | None => s
                   end).
Definition upd_worker (wid : string) (f : WorkerDefinition -> WorkerDefinition) : M MgSt unit :=
  modify (fun s => match dget wid (mg_workers s) with
                   | Some w => s <| mg_workers := dset wid (f w) (mg_workers s) |>
                   | None => s
                   end).
Definition get_context (eid : string) (c : TaskExecutionContext) : M MgSt TaskExecutionContext :=
  gets (fun s => default c (dget eid (mg_executions s))).

Definition fenced_out (eid : string) (task : Task) (c : TaskExecutionContext) (wid : string)
    (e : exn) : M MgSt (option TaskExecutionContext) :=
  upd_context eid (fun c => ((c <| c_status := ES_FAILED |>)
    <| c_failure_reason := Some AUTHORIZATION_DENIED |>)
    <| c_error_message := Some (exn_str e) |>) ;;
  upd_worker wid (fun w => w <| wd_state := WS_FAILED |>) ;;
  c' ← get_context eid c;
  when has_continuity
    (on_engine (id ← event_id; t ← now_iso;
       append_event (execution_event task id t eid "ACTION_FAILED"
         ("Execution fenced for " +:+ eid) (outcome_inputs c')
         ("Fencing failed: " +:+ exn_str e) "FAILED" "FAILED" [] None) ;;
       mret tt)) ;;
  mret (Some c').

(** [shutil.copy2(src, dst)] where [dst] is not a directory *)
Definition copy2 (src dst : string) : M Host unit := fun h =>
  match h_fs h !! src with
  | Some (File content mode mtime) =>
      (h <| h_fs := <[dst := File content mode mtime]> (h_fs h) |>, Ok tt)
  | Some (Dir _ _ _) => (h, raise OSError ("Is a directory: " +:+ src))
  | None => (h, raise OSError ("No such file or directory: " +:+ src))
  end.
Definition evidence_files (workspace : string) : list (string * string) :=
  [(workspace +:+ "/evidence.json", "evidence.json");
   (workspace +:+ "/reproducibility.json", "reproducibility.json");
   (workspace +:+ "/logs/observability.json", "observability.json")].
Definition preserve_evidence (eid workspace : string) : M Host unit :=
  let dir := evidence_base +:+ "/evidence/" +:+ eid in
  os_makedirs clock 493 true dir ;;
  for_each (evidence_files workspace) (fun '(src, name) =>
    f ← gets h_fs;
    when (exists_ f src) (copy2 src (dir +:+ "/" +:+ name))).

Definition verification_of (c : TaskExecutionContext) : string :=
  if bool_decide (c_status c = ES_SUCCEEDED) then "VERIFIED" else "FAILED".
Definition hash_list (c : TaskExecutionContext) : list string :=
  match c_result_hash c with Some h => if str_true h then [h] else [] | None => [] end.

(** The record of the execution: by identifier, else the last of the task. *)
Definition execution_record (eid : string) (task : Task) (e : Engine)
  : option ContinuityRecord :=
  match get_record eid e with
  | Some r => Some r
  | None => last (get_records_by_task (t_task_id task) e)
  end.
Definition journal_outcome (eid : string) (task : Task) (c : TaskExecutionContext)
  : M Engine unit :=
  rec ← gets (execution_record eid task);
  match rec with
  | None => mret tt
  | Some r =>
      t ← now_iso;
      save_record ((((r <| cr_status := execution_status_str (c_status c) |>)
        <| cr_completed_at := Some t |>)
        <| cr_verification_state := verification_of c |>)
        <| cr_evidence_refs := cr_evidence_refs r ++ hash_list c |>)
  end ;;
  id ← event_id; t ← now_iso;
  let st := execution_status_str (c_status c) in
  append_event (execution_event task id t eid
    (if bool_decide (c_status c = ES_SUCCEEDED) then "ACTION_COMPLETED" else "ACTION_FAILED")
    ("Execution completed for " +:+ eid) (outcome_inputs c)
    ("Execution status: " +:+ st) st (verification_of c) (hash_list c) None) ;;
  mret tt.

Definition settled_status (st : ExecutionStatus) : bool :=
  match st with
  | ES_SUCCEEDED | ES_FAILED | ES_TIMED_OUT | ES_LIMIT_EXCEEDED => true | _ => false
  end.

Definition run_worker (eid : string) (task : Task) (cap : CapabilityDefinition)
    (c : TaskExecutionContext) (wid : string) : M MgSt unit :=
  with_context eid c
    (start_worker true has_telemetry gw_audits "" gw_fabric telemetry_ok wid task cap ;;
     terminate_worker has_telemetry telemetry_ok wid).

Definition conclude_execution (eid : string) (task : Task) (c : TaskExecutionContext)
  : M MgSt unit :=
  when (settled_status (c_status c))
    (on_mhost (preserve_evidence eid (c_workspace_path c)) ;;
     when (t_workspace_policy task =s "destroy_on_complete")
       (on_mhost (destroy_workspace cwd ephemeral_base (c_workspace_path c)))) ;;
  when has_continuity (on_engine (journal_outcome eid task c)).

(** [execute_sync]: the last path of the method has no [return], so the
    result is None there. *)
Definition execute_sync (eid : string) : M MgSt (option TaskExecutionContext) :=
  s ← gets id;
  match dget eid (mg_executions s), dget eid (mg_tasks s) with
  | Some c, Some task =>
      match cap_get (t_capability_id task) (gw_caps (mg_gw s)) with
      | None => throw ValueError "Capability not found for execution"
      | Some cap =>
          match worker_of eid s with
          | None => throw ValueError "Worker not found for execution"
          | Some w =>
              match (if has_runtime then c_generation c else None) with
              | Some g =>
                  match fence (mg_generation s) g with
                  | Raise e => fenced_out eid task c (worker_id w) e
                  | Ok _ =>
                      run_worker eid task cap c (worker_id w) ;;
                      c' ← get_context eid c;
                      conclude_execution eid task c' ;;
                      mret None
                  end
              | None =>
                  run_worker eid task cap c (worker_id w) ;;
                  c' ← get_context eid c;
                  conclude_execution eid task c' ;;
                  mret None
              end
          end
      end
  | _, _ => throw ValueError "Execution not found"
  end.

(** The context rebuilt from a reconstruction of the journal; fields of a
    journalled event that are not texts are outside the model. *)
Definition text_field (k : string) (d : dict string pyval) : result (option string) :=
  match vget k d with
  | VNone => Ok None
  | VStr s => Ok (Some s)
  | _ => raise Unmodelled ""
  end.
Definition int_field_of (k : string) (d : dict string pyval) : result (option Z) :=
  match vget k d with
  | VNone => Ok None
  | VInt z => Ok (Some z)
  | _ => raise Unmodelled ""
  end.
Definition reconstructed_context (eid : string) (now : Z) (d : dict string pyval)
  : result TaskExecutionContext :=
  let? task_id := text_field "task_id" d in
  let? cap := text_field "capability_id" d in
  let? status := text_field "status" d in
  let? rc := text_field "routing_class" d in
  let? et := text_field "executor_type" d in
  let? ei := text_field "executor_id" d in
  let? mi := text_field "model_id" d in
  let? gen := int_field_of "generation" d in
  Ok (mkContext eid (default eid task_id) "RECONSTRUCTED" "RECONSTRUCTED"
        (default "unknown" cap) "" [] [] now [] "none" "none"
        (default ES_FAILED (execution_status_of (default "FAILED" status)))
        VNone None None None None None et ei None mi None None None None None rc
        None None gen).

Definition get_execution (eid : string) : M MgSt (option TaskExecutionContext) :=
  s ← gets id;
  match dget eid (mg_executions s) with
  | Some c => mret (Some c)
  | None =>
      if negb has_continuity then mret None
      else match reconstruct_execution eid (mg_engine s) with
           | None => mret None
           | Some d =>
               t ← on_mhost (now clock);
               c ← of_result (reconstructed_context eid t d);
               modify (fun s => s <| mg_executions := dset eid c (mg_executions s) |>) ;;
               mret (Some c)
           end
  end.

(** [get_all_executions]: sorted by identifier *)
Fixpoint insert_execution (c : TaskExecutionContext) (l : list TaskExecutionContext)
  : list TaskExecutionContext :=
  match l with
  | [] => [c]
  | d :: l' => if String.leb (c_execution_id c) (c_execution_id d) then c :: l
               else d :: insert_execution c l'
  end.
Definition get_all_executions (s : MgSt) : list TaskExecutionContext :=
  foldr insert_execution [] (dvalues (mg_executions s)).
End Manager.

(** ** Properties *)
Section Facts.
Context {machine : Machine} {clients : ToolClients} {model : ModelExecutor}
  {frontier : FrontierExecutor} {git : GitHead}.
Context (has_telemetry gw_audits : bool) (gw_fabric : string) (telemetry_ok : bool)
  (has_runtime has_continuity : bool) (evidence_base rp ep : string).
Abbreviation submit_task := (submit_task has_telemetry telemetry_ok has_runtime has_continuity).
Abbreviation execute_sync := (execute_sync has_telemetry gw_audits gw_fabric telemetry_ok
  has_runtime has_continuity evidence_base).
Abbreviation get_execution := (get_execution has_continuity).

Lemma event_id_wp (e : Engine) (Q : Engine -> result string -> Prop) :
  (forall e' s, (exists n, e' = e <| en_tick := n |>) -> Q e' (Ok s)) -> wp event_id e Q.
Proof. intros H. apply wp_bind. unfold wp at 1, fresh_id. apply wp_ret, H. eauto. Qed.
Lemma now_iso_wp (e : Engine) (Q : Engine -> result string -> Prop) :
  (forall e' s, (exists n, e' = e <| en_tick := n |>) -> Q e' (Ok s)) -> wp now_iso e Q.
Proof. intros H. unfold wp, now_iso. apply H. eauto. Qed.
Lemma fresh_id_wp (e : Engine) (Q : Engine -> result string -> Prop) :
  (forall e' s, (exists n, e' = e <| en_tick := n |>) -> Q e' (Ok s)) -> wp fresh_id e Q.
Proof. intros H. unfold wp, fresh_id. apply H. eauto. Qed.

(** Appending one event about an execution, with its identifier and instant. *)
Lemma append_about (mk : string -> string -> EventRecord) (P : EventRecord -> Prop) e :
  (forall id t n, P ((mk id t) <| ev_sequence := n |>)) -> synced rp ep e ->
  wp (id ← event_id; t ← now_iso; append_event (mk id t) ;; mret tt) e (fun e' r =>
    r = Ok tt /\ synced rp ep e' /\ en_records e' = en_records e
    /\ exists v, en_events e' = en_events e ++ [v] /\ P v).
Proof.
  intros HP Hs. apply wp_bind, event_id_wp. intros e1 s [n1 ->].
  apply wp_bind, now_iso_wp. intros e2 t [n2 ->]. apply wp_bind.
  eapply wp_mono; [apply (synced_append rp ep); auto using synced_tick|].
  intros e3 r (-> & H3 & V3 & R3). apply wp_ret. split_and!; [done|done|done|].
  rewrite V3. eauto.
Qed.

Lemma journal_outcome_wp eid task c e : synced rp ep e ->
  wp (journal_outcome eid task c) e (fun e' r =>
    r = Ok tt /\ synced rp ep e' /\ exists v, en_events e' = en_events e ++ [v]
      /\ (ev_execution_id v, ev_status v, ev_inputs v)
         = (Some eid, execution_status_str (c_status c), outcome_inputs c)).
Proof.
  intros Hs. unfold journal_outcome. apply wp_bind, wp_gets, wp_bind.
  apply (wp_mono _ _ (fun e' r => r = Ok tt /\ synced rp ep e' /\ en_events e' = en_events e)).
  - destruct (execution_record eid task e); [|by apply wp_ret].
    apply wp_bind, now_iso_wp. intros e1 t [n ->].
    eapply wp_mono; [apply (synced_save rp ep); auto using synced_tick|].
    by intros e2 r (-> & H2 & V2 & _).
  - intros e1 r (-> & H1 & V1). rewrite <-V1.
    eapply wp_mono; [apply (append_about _ (fun v => (ev_execution_id v, ev_status v, ev_inputs v)
      = (Some eid, execution_status_str (c_status c), outcome_inputs c))); [|done]|].
    + by intros id t n.
    + by intros e2 r2 (-> & ? & _ & H).
Qed.

Lemma journal_queued_wp task c e : synced rp ep e ->
  wp (journal_queued task c) e (fun e' r =>
    r = Ok tt /\ synced rp ep e' /\ exists v q, en_events e' = en_events e ++ [v]
      /\ (ev_execution_id v, ev_status v, ev_inputs v)
         = (Some (c_execution_id c), "QUEUED", routing_inputs c)
      /\ en_records e' = dset (cr_continuity_id q) q (en_records e)
      /\ (cr_execution_id q, cr_task_id q, cr_status q)
         = (Some (c_execution_id c), t_task_id task, CS_PENDING)).
Proof.
  intros Hs. unfold journal_queued. apply wp_bind, now_iso_wp. intros e1 t1 [n1 ->].
  apply wp_bind, fresh_id_wp. intros e2 rid [n2 ->]. apply wp_bind.
  eapply wp_mono; [apply (synced_save rp ep); auto using synced_tick|].
  intros e3 r (-> & H3 & V3 & R3). simpl in V3, R3. rewrite <-V3.
  eapply wp_mono; [apply (append_about _ (fun v => (ev_execution_id v, ev_status v, ev_inputs v)
    = (Some (c_execution_id c), "QUEUED", routing_inputs c))); [|done]|].
  - by intros id t n.
  - intros e4 r (-> & H4 & R4 & v & V4 & Hv). split_and!; [done|done|].
    exists v, (create_record rid t1 "DEFAULT_MISSION" (t_task_id task) (t_capability_id task)
      (t_requested_by task) "L0" ("Task queued: " +:+ t_task_id task)
      (Some (c_execution_id c))).
    by rewrite R4, R3.
Qed.

(** Operations on the host leave everything else alone. *)
Lemma on_mhost_wp {A} (m : M Host A) s (Q : MgSt -> result A -> Prop) :
  (forall h r, m (mg_host s) = (h, r) -> Q (set_host h s) r) -> wp (on_mhost m) s Q.
Proof. intros H. apply wp_zoom. unfold wp. destruct (m (mg_host s)) eqn:E. by apply H. Qed.

Lemma on_engine_wp {A} (m : M Engine A) s (Q : MgSt -> result A -> Prop) :
  wp m ((mg_engine s) <| en_tick := h_tick (mg_host s) |>) (fun e r =>
    Q (set_host ((mg_host s) <| h_tick := en_tick e |>) (s <| mg_engine := e |>)) r) ->
  wp (on_engine m) s Q.
Proof. intros H. unfold on_engine. apply wp_zoom. exact H. Qed.

(** What running the worker does to the tables: the context stays registered. *)
Lemma run_worker_wp eid task cap c wid s :
  wp (run_worker has_telemetry gw_audits gw_fabric telemetry_ok eid task cap c wid) s
    (fun s' _ => mg_tasks s' = mg_tasks s /\ mg_engine s' = mg_engine s
       /\ exists c', mg_executions s' = dset eid c' (mg_executions s)).
Proof.
  apply wp_zoom. unfold wp.
  match goal with |- context [let '(_, _) := ?x in _] => destruct x as [w r] end.
  simpl. eauto.
Qed.

Lemma conclude_wp eid task c s : has_continuity = true -> synced rp ep (mg_engine s) ->
  wp (conclude_execution has_continuity evidence_base eid task c) s (fun s' r =>
    mg_executions s' = mg_executions s /\
    (r = Ok tt -> synced rp ep (mg_engine s') /\ exists v,
      en_events (mg_engine s') = en_events (mg_engine s) ++ [v]
      /\ (ev_execution_id v, ev_status v, ev_inputs v)
         = (Some eid, execution_status_str (c_status c), outcome_inputs c))).
Proof.
  intros Hc Hs. unfold conclude_execution. rewrite Hc. apply wp_bind.
  apply (wp_mono _ _ (fun s' r => mg_executions s' = mg_executions s
                                  /\ mg_engine s' = mg_engine s)).
  - apply wp_when; intros _; [|done]. apply wp_bind, on_mhost_wp.
    intros h [[]|e] _; [|done]. apply wp_when; intros _; [|done].
    by apply on_mhost_wp.
  - intros s1 [[]|e] [X1 E1]; [|done]. unfold when. apply on_engine_wp. rewrite E1.
    eapply wp_mono; [apply journal_outcome_wp; auto using synced_tick|].
    intros e2 r (-> & H2 & v & V2 & Hv). simpl. split; [done|]. intros _. split; [done|].
    exists v. by rewrite V2.
Qed.

Definition fenced (eid : string) (s : MgSt) : bool :=
  match dget eid (mg_executions s) with
  | Some c => match c_generation c with
              | Some g => has_runtime && negb (g =? mg_generation s)%Z
              | None => false
              end
  | None => false
  end.

(** The two ways an execution goes once it is found. *)
Lemma execute_sync_cases eid s :
  (exists e, execute_sync eid s = (s, Raise e))
  \/ (exists c task cap w, dget eid (mg_executions s) = Some c /\ dget eid (mg_tasks s) = Some task
      /\ worker_of eid s = Some w
      /\ execute_sync eid s =
         (if fenced eid s
          then fenced_out has_continuity eid task c (worker_id w)
                 (Exn StaleGenerationError ("Generation mismatch. Expected "
                    +:+ zstr (mg_generation s) +:+ ", got "
                    +:+ zstr (default 0%Z (c_generation c)))) s
          else (run_worker has_telemetry gw_audits gw_fabric telemetry_ok eid task cap c
                  (worker_id w) ;;
                c' ← get_context eid c;
                conclude_execution has_continuity evidence_base eid task c' ;;
                mret None) s)).
Proof.
  destruct (dget eid (mg_executions s)) as [c|] eqn:E1;
    [|left; eexists; unfold Manager.execute_sync, mbind, M_bind, gets, id; by rewrite E1].
  destruct (dget eid (mg_tasks s)) as [task|] eqn:E2;
    [|left; eexists; unfold Manager.execute_sync, mbind, M_bind, gets, id; by rewrite E1, E2].
  destruct (cap_get (t_capability_id task) (gw_caps (mg_gw s))) as [cap|] eqn:E3;
    [|left; eexists; unfold Manager.execute_sync, mbind, M_bind, gets, id; by rewrite E1, E2, E3].
  destruct (worker_of eid s) as [w|] eqn:E4;
    [|left; eexists; unfold Manager.execute_sync, mbind, M_bind, gets, id;
      by rewrite E1, E2, E3, E4].
  right. exists c, task, cap, w. split; [done|]. split; [done|]. split; [done|].
  unfold fenced, Manager.execute_sync, mbind, M_bind, gets, id. rewrite E1, E2, E3, E4.
  destruct has_runtime, (c_generation c) as [g|]; try done.
  unfold fence, validate_generation, guard_raise, raise.
  by destruct (g =? mg_generation s)%Z.
Qed.

Lemma upd_context_wp eid f c s (Q : MgSt -> result unit -> Prop) :
  dget eid (mg_executions s) = Some c ->
  (forall s', mg_executions s' = dset eid (f c) (mg_executions s) ->
     (mg_workers s', mg_gw s', mg_engine s') = (mg_workers s, mg_gw s, mg_engine s) ->
     Q s' (Ok tt)) ->
  wp (upd_context eid f) s Q.
Proof. intros Hc H. apply wp_modify. rewrite Hc. by apply H. Qed.
Lemma upd_worker_wp wid f w s (Q : MgSt -> result unit -> Prop) :
  dget wid (mg_workers s) = Some w ->
  (forall s', mg_workers s' = dset wid (f w) (mg_workers s) ->
     (mg_executions s', mg_gw s', mg_engine s') = (mg_executions s, mg_gw s, mg_engine s) ->
     Q s' (Ok tt)) ->
  wp (upd_worker wid f) s Q.
Proof. intros Hw H. apply wp_modify. rewrite Hw. by apply H. Qed.

(** C6: the fence.  An execution admitted under another generation of the runtime is not run:
    nothing is written to the file system, no tool is invoked or audited, the context
    comes back FAILED with AUTHORIZATION_DENIED and stays registered so, its worker is
    FAILED, and the journal gains one event that says so. *)
Theorem stale_generation_fenced eid c task w cap s g :
  has_runtime = true -> has_continuity = true -> synced rp ep (mg_engine s) ->
  dget eid (mg_executions s) = Some c -> dget eid (mg_tasks s) = Some task ->
  cap_get (t_capability_id task) (gw_caps (mg_gw s)) = Some cap ->
  worker_of eid s = Some w -> dget (worker_id w) (mg_workers s) = Some w ->
  c_generation c = Some g -> g <> mg_generation s ->
  wp (execute_sync eid) s (fun s' r => exists c' v, r = Ok (Some c')
    /\ dget eid (mg_executions s') = Some c'
    /\ (c_status c', c_failure_reason c') = (ES_FAILED, Some AUTHORIZATION_DENIED)
    /\ h_fs (mg_host s') = h_fs (mg_host s)
    /\ gw_audit (mg_gw s') = gw_audit (mg_gw s) /\ gw_counts (mg_gw s') = gw_counts (mg_gw s)
    /\ dget (worker_id w) (mg_workers s') = Some (w <| wd_state := WS_FAILED |>)
    /\ en_events (mg_engine s') = en_events (mg_engine s) ++ [v]
    /\ (ev_execution_id v, ev_status v) = (Some eid, "FAILED")
    /\ synced rp ep (mg_engine s')).
Proof.
  intros -> -> Hs Hc Ht Hcap Hw Hd Hg Hne. unfold Manager.execute_sync.
  apply wp_bind, wp_gets. unfold id. rewrite Hc, Ht, Hcap, Hw, Hg.
  unfold fence, validate_generation, guard_raise, raise.
  rewrite (proj2 (Z.eqb_neq _ _) Hne). cbn [negb].
  unfold fenced_out. apply wp_bind, (upd_context_wp _ _ c); [done|]. intros s1 X1 Y1.
  injection Y1 as W1 G1 E1. rewrite <-W1 in Hd.
  apply wp_bind, (upd_worker_wp _ _ w); [done|]. intros s2 W2 Y2.
  injection Y2 as X2 G2 E2. apply wp_bind, wp_gets, wp_bind.
  rewrite X2, X1, dget_dset_same. cbn [default from_option id].
  unfold when. apply on_engine_wp.
  eapply wp_mono; [apply (append_about _ (fun v => (ev_execution_id v, ev_status v)
    = (Some eid, "FAILED"))); [by intros id t n|]|].
  { apply synced_tick. by rewrite E2, E1. }
  intros e r (-> & He & _ & v & Hv & Hp). apply wp_ret.
  eexists _, v. split; [reflexivity|]. unfold mg_host, set_host in *. simpl in *.
  rewrite X2, X1, W2, G2, G1, !dget_dset_same, Hv, E2, E1. by split_and!.
Qed.

Lemma fenced_out_some eid task c wid e s s' r :
  fenced_out has_continuity eid task c wid e s = (s', Ok r) -> is_Some r.
Proof.
  unfold fenced_out, mbind, M_bind, upd_context, upd_worker, modify, get_context, gets.
  destruct (when _ _ _) as [s1 [[]|e']]; intros He; inv He. by eexists.
Qed.

(** What [execute_sync] returns.  Its annotation promises the execution's context, but a call
    that returns normally returns None unless the execution was fenced out. *)
Theorem execute_sync_returns_none eid s s' r :
  execute_sync eid s = (s', Ok r) -> is_Some r <-> fenced eid s = true.
Proof.
  intros He. destruct (execute_sync_cases eid s) as [[e H]|(c & task & cap & w & _ & _ & _ & H)];
    rewrite H in He; [by inv He|].
  destruct (fenced eid s).
  - split; [done|]. intros _. by eapply fenced_out_some.
  - split; [|done]. unfold mbind, M_bind in He.
    destruct (run_worker _ _ _ _ _ _ _ _ _ _) as [s1 [[]|e]]; [|by inv He].
    unfold get_context, gets in He. destruct (conclude_execution _ _ _ _ _ _) as [s2 [[]|e]]; inv He.
    by intros [? ?].
Qed.

Lemma create_worker_wp hg sel task s :
  wp (create_worker hg has_telemetry telemetry_ok sel task) s (fun s' r =>
    exists wid w, r = Ok wid /\ wk_workers s' = dset wid w (wk_workers s)
      /\ (worker_id w, wd_execution_id w, wd_state w)
         = (wid, c_execution_id (wk_ctx s), WS_CREATED)
      /\ (c_execution_id (wk_ctx s'), c_status (wk_ctx s'), c_generation (wk_ctx s'))
         = (c_execution_id (wk_ctx s), c_status (wk_ctx s), c_generation (wk_ctx s))).
Proof.
  unfold create_worker. apply wp_bind, uuid_wp. intros s1 u W1 C1.
  apply wp_bind, wp_gets, wp_bind, wp_modify, wp_bind, wp_gets, wp_bind, wnow_wp.
  intros s2 t W2 C2. apply wp_bind, wp_modify, wp_bind, emit_wp. intros s3 W3 C3.
  apply wp_ret. do 2 eexists. split; [done|]. split; [rewrite W3; simpl; by rewrite W2, <-W1|].
  rewrite C3. simpl. rewrite C2. simpl. by rewrite C1.
Qed.

(** The part of the manager's state the admission's first steps leave alone. *)
Definition tables (s : MgSt) :=
  (mg_tasks s, mg_executions s, mg_workers s, mg_engine s, mg_generation s, gw_caps (mg_gw s)).

Lemma announce_wp eid task s (Q : MgSt -> result unit -> Prop) :
  (forall s', tables s' = tables s -> Q s' (Ok tt)) ->
  wp (announce has_telemetry telemetry_ok eid task) s Q.
Proof.
  intros H. apply wp_when; intros _; [|by apply H].
  apply wp_bind, on_mhost_wp. unfold draw_uuid. intros h u [= <- <-].
  apply wp_bind, on_mhost_wp. unfold now. intros h t [= <- <-].
  apply wp_modify. by apply H.
Qed.

Lemma admit_capability_ok task caps cap : admit_capability task caps = Ok cap ->
  cap_get (t_capability_id task) caps = Some cap /\ enabled cap = true
  /\ (side_effect cap = "read" \/ deterministic_allowed cap = false).
Proof.
  unfold admit_capability. destruct (cap_get _ _) as [cap'|]; [|done].
  destruct (guard_raise _ _ _) as [[]|] eqn:E1; [|done]. apply guard_raise_ok in E1.
  destruct (guard_raise (_ && _) _ _) as [[]|] eqn:E2; [|done]. apply guard_raise_ok in E2.
  intros [= <-]. apply negb_false_iff in E1. split_and!; [done..|].
  apply andb_false_iff in E2 as [E2|E2]; bool_to_prop; auto.
Qed.

Lemma submit_registers task s :
  wp (submit_task task) s (fun s' r =>
    match r with
    | Raise _ => True
    | Ok c => c_generation c = Some (if has_runtime then mg_generation s else 1%Z)
        /\ dget (c_execution_id c) (mg_executions s') = Some c
        /\ mg_generation s' = mg_generation s
    end).
Proof.
  unfold Manager.submit_task.
  apply wp_bind, on_mhost_wp. unfold draw_uuid. intros h u [= <- <-].
  apply wp_bind, announce_wp. intros s1 T1. unfold tables in T1. simpl in T1.
  injection T1 as A1 A2 A3 A4 A5 A6.
  apply wp_bind, wp_gets, wp_bind, wp_of_result.
  destruct (admit_capability _ _) as [cap|e]; [|done]. apply wp_bind.
  unfold wp at 1, select_executor. destruct (select _ _ _ _) as [o [sel|e]]; [|done].
  apply wp_bind, wp_try_with, on_mhost_wp. intros h [path|e] _; [|by apply wp_throw].
  apply wp_bind, wp_gets, wp_bind, wp_modify, wp_bind. simpl. rewrite A5.
  unfold with_context. apply wp_zoom.
  eapply wp_mono; [apply create_worker_wp|]. simpl. rewrite dget_dset_same. simpl.
  intros w' r (wid & w & -> & HW & Hw & Hctx). injection Hctx as C1 C2 C3.
  apply wp_bind, wp_gets, wp_bind. simpl. rewrite dget_dset_same. simpl.
  apply wp_when; intros _; [apply on_engine_wp|apply wp_ret; simpl; by rewrite C1, dget_dset_same].
  unfold wp at 1. destruct (journal_queued _ _ _) as [e [[]|x]]; [|done].
  apply wp_ret. simpl. by rewrite C1, dget_dset_same.
Qed.


Lemma text_field_ovstr k d o : vget k d = ovstr o -> text_field k d = Ok o.
Proof. unfold text_field. intros ->. by destruct o. Qed.
Lemma text_field_some k d x : vget k d = VStr x -> text_field k d = Ok (Some x).
Proof. unfold text_field. by intros ->. Qed.
Lemma int_field_opt k d o :
  vget k d = match o with Some g => VInt g | None => VNone end -> int_field_of k d = Ok o.
Proof. unfold int_field_of. intros ->. by destruct o. Qed.

(** Running an execution to its end without an exception appends one event
    with its outcome to a journal that stays synchronised. *)
Lemma execution_journalled eid task cap c wid s :
  has_continuity = true -> synced rp ep (mg_engine s) ->
  wp (run_worker has_telemetry gw_audits gw_fabric telemetry_ok eid task cap c wid ;;
      c' ← get_context eid c;
      conclude_execution has_continuity evidence_base eid task c' ;;
      mret None : M MgSt (option TaskExecutionContext)) s (fun s' r => r = Ok None -> exists c' v,
    dget eid (mg_executions s') = Some c' /\ synced rp ep (mg_engine s')
    /\ en_events (mg_engine s') = en_events (mg_engine s) ++ [v]
    /\ (ev_execution_id v, ev_status v, ev_inputs v)
       = (Some eid, execution_status_str (c_status c'), outcome_inputs c')).
Proof.
  intros Hcont Hs. apply wp_bind. eapply wp_mono; [apply run_worker_wp|].
  intros s1 [[]|e] (_ & E1 & c' & X1); [|done]. apply wp_bind, wp_gets, wp_bind.
  rewrite X1, dget_dset_same. simpl. rewrite <-E1 in Hs.
  eapply wp_mono; [by apply conclude_wp|].
  intros s3 [[]|e] [X3 H3]; [|done]. apply wp_ret. intros _.
  destruct (H3 eq_refl) as (Y3 & v & V3 & Hv). exists c', v.
  by rewrite X3, X1, dget_dset_same, <-E1.
Qed.

(** Reading back a journal entry that carries the outcome of [c]. *)
Lemma reconstructed_ok eid now d t cap c :
  vget "task_id" d = VStr t -> vget "capability_id" d = VStr cap ->
  vget "status" d = VStr (execution_status_str (c_status c)) ->
  vget "routing_class" d = ovstr (c_routing_class c) ->
  vget "executor_type" d = ovstr (c_executor_type c) ->
  vget "executor_id" d = ovstr (c_executor_id c) -> vget "model_id" d = ovstr (c_model_id c) ->
  vget "generation" d = match c_generation c with Some g => VInt g | None => VNone end ->
  reconstructed_context eid now d = Ok
    (mkContext eid t "RECONSTRUCTED" "RECONSTRUCTED" cap "" [] [] now [] "none" "none" (c_status c)
      VNone None None None None None (c_executor_type c) (c_executor_id c) None (c_model_id c)
      None None None None None (c_routing_class c) None None (c_generation c)).
Proof.
  intros. unfold reconstructed_context.
  rewrite (text_field_some "task_id" d t), (text_field_some "capability_id" d cap),
    (text_field_some "status" d (execution_status_str (c_status c))) by done.
  rewrite (text_field_ovstr "routing_class" d (c_routing_class c)),
    (text_field_ovstr "executor_type" d (c_executor_type c)),
    (text_field_ovstr "executor_id" d (c_executor_id c)),
    (text_field_ovstr "model_id" d (c_model_id c)),
    (int_field_opt "generation" d (c_generation c)) by done.
  cbn [default from_option id]. by rewrite execution_status_roundtrip.
Qed.

(** C1: an execution's outcome survives a restart.  When an execution ran and its status
    is SUCCEEDED, FAILED or TIMED_OUT, a manager started afresh on the same journal
    reports it with the same status, executor, model, routing class and generation. *)
Theorem outcome_survives_restart eid s s' c e2 s2 :
  has_continuity = true -> synced rp ep (mg_engine s) ->
  execute_sync eid s = (s', Ok None) -> dget eid (mg_executions s') = Some c ->
  c_status c ∈ [ES_SUCCEEDED; ES_FAILED; ES_TIMED_OUT] ->
  load rp ep (mg_engine s') = (e2, Ok tt) ->
  mg_engine s2 = e2 -> dget eid (mg_executions s2) = None ->
  wp (get_execution eid) s2 (fun _ r => exists c2, r = Ok (Some c2)
    /\ c_status c2 = c_status c
    /\ (c_executor_type c2, c_executor_id c2, c_model_id c2, c_routing_class c2,
        c_generation c2)
       = (c_executor_type c, c_executor_id c, c_model_id c, c_routing_class c,
          c_generation c)).
Proof.
  intros Hcont Hs He Hc Hst Hl <- Hn.
  destruct (execute_sync_cases eid s) as [[e H]|(c0 & task & cap & w & _ & _ & _ & H)];
    rewrite H in He; [by inv He|].
  destruct (fenced eid s); [by apply fenced_out_some in He as [? ?]|].
  assert (Hw := execution_journalled eid task cap c0 (worker_id w) s Hcont Hs).
  unfold wp in Hw. rewrite He in Hw. destruct (Hw eq_refl) as (c' & v & Hc' & Hs' & V & Hv).
  rewrite Hc in Hc'. injection Hc' as <-. injection Hv as Hv1 Hv2 Hv3.
  destruct (synced_load _ _ _ Hs') as (e2 & Hl2 & R2 & V2). rewrite Hl in Hl2.
  injection Hl2 as Hl2. unfold Manager.get_execution. apply wp_bind, wp_gets. unfold id.
  rewrite Hn, Hcont. cbn [negb].
  destruct (reconstruct_last eid (mg_engine s2) (en_events (mg_engine s)) v)
    as (d & t & cap' & Hd & D1 & D2 & D3 & D4).
  - rewrite Hl2, V2. apply Hs'.
  - by rewrite Hl2, V2.
  - unfold relevant_event. by rewrite Hv1, bool_decide_eq_true_2.
  - rewrite Hv2. by destruct (c_status c); try set_solver; unfold terminal_event_statuses; set_solver.
  - rewrite Hd. apply wp_bind, on_mhost_wp. unfold now. intros h r [= <- <-].
    apply wp_bind, wp_of_result. unfold input_keys in D4. rewrite Hv3 in D4.
    repeat (apply Forall_cons in D4 as [? D4]).
    rewrite (reconstructed_ok eid _ d t cap' c) by (try congruence; done).
    apply wp_bind, wp_modify, wp_ret. eexists. split; [reflexivity|]. done.
Qed.
End Facts.
