(* ===== verification/Bridge.v ===== *)
(** * The bridge API and the operation journal

    [runtime/api/bridge.py] ([BridgeRouter]) and [runtime/journal/journal.py]
    ([OperationJournal]): authentication and validation of an external request, its
    execution through the execution manager, and the answers about a task or
    an execution, read back from the journal. *)
From S2P Require Import Prelude Dict PyVal Effects PyPath PyStr ExecModels Host.
From S2P Require Import Deterministic Registry Intelligence Orchestrator Mcp Telemetry Worker.
From S2P Require Import Continuity Mutation Manager.

(** ** The operation journal *)
Record JournalEntry := mkEntry {
  je_entry_id : string;
  je_operation_id : string;
  je_execution_id : string;
  je_session_id : string;
  je_tenant_id : string;
  je_account_id : string;
  je_project_id : string;
  je_actor_id : string;
  je_workspace_id : string;
  je_tool : string;
  je_state : string;
  je_started_at : string;
  je_runtime_generation : Z;
  je_finished_at : option string;
  je_metadata : dict string pyval }.

(** The entries in memory, and the file. *)
Record OpJournal := mkOpJournal {
  oj_entries : list JournalEntry;
  oj_file : list (line JournalEntry) }.

(** [OperationJournal(data_dir)]: lines that do not load are skipped. *)
Definition open_journal (file : list (line JournalEntry)) : OpJournal :=
  mkOpJournal (goods file) file.
Definition record_entry (e : JournalEntry) (j : OpJournal) : OpJournal :=
  mkOpJournal (oj_entries j ++ [e]) (oj_file j ++ [LGood e]).
Definition get_entry (id : string) (j : OpJournal) : option JournalEntry :=
  head (filter (fun e => je_entry_id e = id) (oj_entries j)).
Definition get_operation (id : string) (j : OpJournal) : list JournalEntry :=
  filter (fun e => je_operation_id e = id) (oj_entries j).
Definition get_journal_execution (id : string) (j : OpJournal) : list JournalEntry :=
  filter (fun e => je_execution_id e = id) (oj_entries j).
Definition get_interrupted (generation : Z) (j : OpJournal) : list JournalEntry :=
  filter (fun e => (je_runtime_generation e <? generation)%Z
                   && negb (str_in (je_state e) ["COMPLETED"; "FAILED"]) = true) (oj_entries j).

(** ** Requests and responses *)
Definition ALLOWED_CAPABILITIES : list string :=
  ["fabric.read"; "repository.read"; "repository.search"; "fabric.register"].
Definition ALLOWED_FIELDS : list string :=
  ["intent"; "requested_capability"; "input"; "constraints"].
Definition FORBIDDEN_CONSTRAINTS : list string := ["network"; "admin"].

(** The body of a request: none, bytes that are not JSON, or a JSON value. *)
Inductive body := BEmpty | BInvalid | BJson (v : pyval).

Record Response := mkResponse { rs_status : Z; rs_body : dict string pyval }.
Definition send_error (error message : string) (status : Z) : Response :=
  mkResponse status [("error", VStr error); ("message", VStr message)].

(** The state a request acts on: the manager and the journal's file. *)
Record BrSt := mkBrSt { br_mg : MgSt; br_file : list (line JournalEntry) }.
#[export] Instance eta_BrSt : Eta BrSt := fun r => mkBrSt (br_mg r) (br_file r).

Section Bridge.
Context {machine : Machine} {clients : ToolClients} {model : ModelExecutor}
  {frontier : FrontierExecutor} {git : GitHead}.
(** The manager's configuration, whether there is a manager, and the secret
    stored for the bridge (None without a secret backend or a secret). *)
Context (has_telemetry gw_audits : bool) (gw_fabric : string) (telemetry_ok : bool)
  (has_runtime has_continuity : bool) (evidence_base : string)
  (has_manager : bool) (bridge_token : option string).

(** [_authenticate]: whether it passes. *)
Definition authenticate (token : option string) : bool :=
  ostr_true token && ostr_true bridge_token && bool_decide (token = bridge_token).

Definition on_manager {A} (m : M MgSt A) : M BrSt A :=
  zoom br_mg (fun g s => s <| br_mg := g |>) m.
Definition journal_entry (prefix : string) (task : Task) (c : TaskExecutionContext)
    (state started : string) (finished : option string) (intent : pyval) : JournalEntry :=
  mkEntry (prefix +:+ c_execution_id c) (t_task_id task) (c_execution_id c) "bridge_session"
    "test-tenant" "bridge-account" "bridge-project" "chatgpt_luna"
    (str_or (c_workspace_path c) "") (t_capability_id task) state started 1 finished
    [("intent", intent); ("source", VStr "chatgpt_luna")].
Definition log_entry (e : JournalEntry) : M BrSt unit :=
  modify (fun s => s <| br_file := oj_file (record_entry e (open_journal (br_file s))) |>).

Definition no_status : exn :=
  Exn AttributeError "'NoneType' object has no attribute 'status'".

(** The body of the [try] of [handle_create_task]. *)
Definition run_task (intent : pyval) (capability : string)
    (input constraints : dict string pyval) : M BrSt Response :=
  now_ ← on_manager (on_mhost (now clock));
  u ← on_manager (on_mhost draw_uuid);
  let task := mkTask ("tsk-" +:+ String.substring 0 12 u) capability "bridge-account"
                "bridge-project" input constraints (now_ + 60 * 1000000)%Z "keep" "journal"
                "chatgpt_luna" now_ None in
  c ← on_manager (submit_task has_telemetry telemetry_ok has_runtime has_continuity task);
  log_entry (journal_entry "ev-q-" task c "QUEUED" (isoformat now_) None intent) ;;
  log_entry (journal_entry "ev-r-" task c "RUNNING" (isoformat now_) None intent) ;;
  r ← on_manager (execute_sync has_telemetry gw_audits gw_fabric telemetry_ok has_runtime
                    has_continuity evidence_base (c_execution_id c));
  finished ← on_manager (on_mhost (now clock));
  match r with
  | None => rethrow no_status
  | Some c' =>
      let st := execution_status_str (c_status c') in
      log_entry (journal_entry "ev-t-" task c' st (isoformat now_)
                   (Some (isoformat finished)) intent) ;;
      mret (mkResponse 201 [("task_id", VStr (t_task_id task));
                            ("execution_id", VStr (c_execution_id c'));
                            ("status", VStr st); ("source", VStr "chatgpt_luna")])
  end.

(** What [handle_create_task] decides before it runs anything: an error
    response, or the checked parts of the request. *)
Definition check_request (b : body)
  : result (Response + (pyval * string * dict string pyval * dict string pyval)) :=
  match b with
  | BEmpty => Ok (inl (send_error "BRIDGE_INVALID_REQUEST" "Empty request body" 400))
  | BInvalid => Ok (inl (send_error "BRIDGE_INVALID_REQUEST" "Invalid JSON" 400))
  | BJson (VDict data) =>
      if existsb (fun k => negb (str_in k ALLOWED_FIELDS)) (dkeys data)
      then Ok (inl (send_error "BRIDGE_INVALID_REQUEST" "Prohibited fields in request" 400))
      else
        let intent := vget "intent" data in
        let capability := vget "requested_capability" data in
        if negb (truthy intent) || negb (truthy capability)
        then Ok (inl (send_error "BRIDGE_INVALID_REQUEST"
                        "Missing intent or requested_capability" 400))
        else match vget_or "constraints" (VDict []) data with
             | VDict constraints =>
                 if existsb (fun k => str_in k FORBIDDEN_CONSTRAINTS) (dkeys constraints)
                 then Ok (inl (send_error "POLICY_DENIED" "Constraint override not permitted" 403))
                 else
                   let not_found := Ok (inl (send_error "CAPABILITY_NOT_FOUND"
                                           "Capability not available via bridge" 404)) in
                   match capability with
                   | VStr c =>
                       if negb (str_in c ALLOWED_CAPABILITIES) then not_found
                       else if negb has_manager
                       then Ok (inl (send_error "EXECUTION_FAILED"
                                       "Execution subsystem unavailable" 503))
                       else match vget_or "input" (VDict []) data with
                            | VDict i => Ok (inr (intent, c, i, constraints))
                            | _ => raise Unmodelled ""
                            end
                   | VList _ | VDict _ => raise TypeError "unhashable type"
                   | _ => not_found
                   end
             | _ => raise AttributeError "object has no attribute 'keys'"
             end
  | BJson _ => raise AttributeError "object has no attribute 'keys'"
  end.

Definition handle_create_task (b : body) : M BrSt Response :=
  checked ← of_result (check_request b);
  match checked with
  | inl error => mret error
  | inr (intent, c, i, constraints) =>
      try_with (run_task intent c i constraints)
        (fun _ => mret (send_error "EXECUTION_FAILED" "Task execution failed" 500))
  end.

Definition handle_get_task (task_id : string) (s : BrSt) : Response :=
  match last (get_operation task_id (open_journal (br_file s))) with
  | None => send_error "RESULT_UNAVAILABLE" "Task not found" 404
  | Some e => mkResponse 200
      [("task_id", VStr (je_operation_id e)); ("execution_id", VStr (je_execution_id e));
       ("capability", VStr (je_tool e)); ("state", VStr (je_state e));
       ("intent", vget_or "intent" (VStr "") (je_metadata e));
       ("source", vget_or "source" (VStr "chatgpt_luna") (je_metadata e))]
  end.

Definition handle_get_execution (exec_id : string) (s : BrSt) : Response :=
  match last (get_journal_execution exec_id (open_journal (br_file s))) with
  | None => send_error "RESULT_UNAVAILABLE" "Execution not found" 404
  | Some e => mkResponse 200
      [("execution_id", VStr (je_execution_id e)); ("task_id", VStr (je_operation_id e));
       ("capability", VStr (je_tool e)); ("state", VStr (je_state e));
       ("source", vget_or "source" (VStr "chatgpt_luna") (je_metadata e));
       ("evidence_durability", VStr "DURABLE")]
  end.

(** [path.split("/")[-1]] *)
Definition last_segment (path : string) : string := default "" (last (split_slash path)).

Definition dispatch (method path : string) (token : option string) (b : body)
  : M BrSt Response :=
  if negb (authenticate token)
  then mret (send_error "BRIDGE_AUTH_ERROR" "Invalid or missing credentials" 401)
  else if (method =s "POST") && (path =s "/api/v1/bridge/tasks") then handle_create_task b
  else if (method =s "GET") && startswith "/api/v1/bridge/tasks/" path
  then gets (handle_get_task (last_segment path))
  else if (method =s "GET") && startswith "/api/v1/bridge/executions/" path
  then gets (handle_get_execution (last_segment path))
  else mret (send_error "NOT_FOUND" "Unknown bridge endpoint" 404).
End Bridge.

(** ** Properties *)
Section BridgeFacts.
Context {machine : Machine} {clients : ToolClients} {model : ModelExecutor}
  {frontier : FrontierExecutor} {git : GitHead}.
Context (has_telemetry gw_audits : bool) (gw_fabric : string) (telemetry_ok : bool)
  (has_runtime has_continuity : bool) (evidence_base : string)
  (has_manager : bool) (bridge_token : option string).
Abbreviation run_task := (run_task has_telemetry gw_audits gw_fabric telemetry_ok has_runtime
  has_continuity evidence_base).
Abbreviation dispatch := (dispatch has_telemetry gw_audits gw_fabric telemetry_ok has_runtime
  has_continuity evidence_base has_manager bridge_token).

Lemma on_manager_wp {A} (m : M MgSt A) s (Q : BrSt -> result A -> Prop) :
  wp m (br_mg s) (fun g r => Q (s <| br_mg := g |>) r) -> wp (on_manager m) s Q.
Proof. intros H. unfold on_manager. apply wp_zoom. exact H. Qed.

(** Recording in the journal, and reading it back. *)
Lemma log_entry_goods e s :
  goods (br_file (log_entry e s).1) = goods (br_file s) ++ [e].
Proof. simpl. by rewrite goods_app. Qed.

Lemma handle_get_task_last e s tid :
  last (goods (br_file s)) = Some e -> je_operation_id e = tid ->
  exists d, handle_get_task tid s = mkResponse 200 d /\ dget "state" d = Some (VStr (je_state e)).
Proof.
  intros [l Hl]%last_Some Ht. unfold handle_get_task, get_operation, open_journal. simpl.
  rewrite Hl, filter_app, filter_cons, decide_True by done. rewrite filter_nil, last_snoc.
  by eexists.
Qed.

(** A task sent through the bridge never completes for its client.  Running it always ends in an
    exception, although the task itself may have run: either the task was refused and the
    journal is as before, or the journal gained QUEUED and RUNNING entries and no final
    one, so that asking for the task answers RUNNING. *)
Theorem bridge_task_never_reported intent c i cs s :
  wp (run_task intent c i cs) s (fun s' r => is_ok r = false /\
    (br_file s' = br_file s \/
     exists tid d, handle_get_task tid s' = mkResponse 200 d
       /\ dget "state" d = Some (VStr "RUNNING"))).
Proof.
  unfold Bridge.run_task. apply wp_bind, on_manager_wp, on_mhost_wp. unfold now.
  intros h t [= <- <-]. apply wp_bind, on_manager_wp, on_mhost_wp. unfold draw_uuid.
  intros h u [= <- <-]. set (task := mkTask _ _ _ _ _ _ _ _ _ _ _ _).
  apply wp_bind, on_manager_wp. eapply wp_mono; [apply submit_registers|].
  intros g [c1|e] Hg; [|by split; [|left]]. destruct Hg as (Hgen & Hc & Hcur).
  apply wp_bind, wp_modify, wp_bind, wp_modify, wp_bind, on_manager_wp. simpl.
  unfold wp at 1.
  match goal with |- context [execute_sync ?a ?b ?c ?d ?e ?f ?h ?x ?s] =>
    destruct (execute_sync a b c d e f h x s) as [g' r] eqn:Ex end.
  set (eq := journal_entry "ev-q-" _ _ _ _ _ _). set (er := journal_entry "ev-r-" _ _ _ _ _ _).
  assert (forall st, br_file st = (br_file s ++ [LGood eq]) ++ [LGood er] ->
    exists tid d, handle_get_task tid st = mkResponse 200 d
    /\ dget "state" d = Some (VStr "RUNNING")) as Hrun.
  { intros st Hst. exists (t_task_id task).
    apply (handle_get_task_last er); [|done]. rewrite Hst, !goods_app. apply last_snoc. }
  destruct r as [r|e]; [|by split; [|right; apply Hrun]].
  destruct (execute_sync_cases has_telemetry gw_audits gw_fabric telemetry_ok has_runtime
    has_continuity evidence_base (c_execution_id c1) g)
    as [[e H]|(c0 & tk & cap & w & H0 & _ & _ & H)]; rewrite H in Ex; [by inv Ex|].
  replace (fenced has_runtime (c_execution_id c1) g) with false in Ex.
  2:{ unfold fenced. rewrite Hc, Hgen, Hcur. destruct has_runtime; [|done].
      by rewrite Z.eqb_refl. }
  assert (r = None) as ->.
  { clear -Ex. unfold mbind, M_bind in Ex. destruct (run_worker _ _ _ _ _ _ _ _ _ _) as [s1 [[]|e]];
      [|done]. unfold get_context, gets in Ex.
    by destruct (conclude_execution _ _ _ _ _ _) as [s2 [[]|e]]; inv Ex. }
  apply wp_bind, on_manager_wp, on_mhost_wp. unfold now. intros h t [= <- <-]. split; [done|].
  right. by apply Hrun.
Qed.

Lemma check_request_ok b intent c i cs :
  check_request has_manager b = Ok (inr (intent, c, i, cs)) ->
  exists data, b = BJson (VDict data)
    /\ Forall (fun k => k ∈ ALLOWED_FIELDS) (dkeys data)
    /\ vget "requested_capability" data = VStr c /\ c ∈ ALLOWED_CAPABILITIES
    /\ vget_or "constraints" (VDict []) data = VDict cs
    /\ Forall (fun k => k ∉ FORBIDDEN_CONSTRAINTS) (dkeys cs).
Proof.
  unfold check_request. destruct b as [| |[]]; try done.
  destruct (existsb _ (dkeys d)) eqn:E1; [done|]. destruct (negb _ || _); [done|].
  destruct (vget_or "constraints" _ d) as [| | | | | |cs'] eqn:E2; try done.
  destruct (existsb _ (dkeys cs')) eqn:E3; [done|].
  destruct (vget "requested_capability" d) as [| | | |c'| |] eqn:E4; try done.
  destruct (str_in c' ALLOWED_CAPABILITIES) eqn:E5; [|done]. simpl.
  destruct (negb has_manager); [done|]. destruct (vget_or "input" _ d); try done.
  intros [= <- <- <- <-]. exists d. apply str_in_true in E5. split_and!; try done.
  - apply Forall_forall. intros k Hk. apply str_in_true.
    apply not_true_iff_false in E1. destruct (str_in k ALLOWED_FIELDS) eqn:E; [done|].
    exfalso. apply E1, existsb_exists. exists k. rewrite E. split; [by apply list_elem_of_In|done].
  - apply Forall_forall. intros k Hk. apply str_in_false.
    apply not_true_iff_false in E3. apply not_true_iff_false. intros E.
    apply E3, existsb_exists. exists k. split; [by apply list_elem_of_In|done].
Qed.

(** C35: the bridge's gate.  Whatever the method, path, token and body, a request leaves
    the runtime and the journal untouched unless it carries the bridge's secret, posts a
    JSON object with allowed fields only, asks for one of the four capabilities of the
    bridge and overrides neither the network nor the admin constraint. *)
Theorem bridge_gate method path token b s :
  (dispatch method path token b s).1 = s \/
  (token = bridge_token /\ ostr_true token = true /\ method = "POST"
   /\ exists data c cs, b = BJson (VDict data)
      /\ Forall (fun k => k ∈ ALLOWED_FIELDS) (dkeys data)
      /\ vget "requested_capability" data = VStr c /\ c ∈ ALLOWED_CAPABILITIES
      /\ vget_or "constraints" (VDict []) data = VDict cs
      /\ Forall (fun k => k ∉ FORBIDDEN_CONSTRAINTS) (dkeys cs)).
Proof.
  unfold Bridge.dispatch. destruct (authenticate bridge_token token) eqn:Ea; [|by left].
  unfold authenticate in Ea. bool_to_prop. cbn [negb].
  destruct (method =s "POST") eqn:Em; cbn [andb]; bool_to_prop.
  2:{ left. destruct ((method =s "GET") && startswith "/api/v1/bridge/tasks/" path); [reflexivity|].
      by destruct ((method =s "GET") && startswith "/api/v1/bridge/executions/" path). }
  subst method. destruct (path =s _); [|by left].
  unfold handle_create_task, mbind, M_bind, of_result.
  destruct (check_request has_manager b) as [[?|[[[intent c] i] cs]]|e] eqn:Ec; [by left| |by left].
  right. split_and!; [done..|]. apply check_request_ok in Ec as (data & Hdata). naive_solver.
Qed.
End BridgeFacts.
