(* ===== verification/Sync.v ===== *)
(** * Governed synchronisation

    [runtime/sync/models.py], [verifier.py], [github_source.py] and
    [service.py]: discovery of a release, verification of a candidate against
    an expected digest, and the service that runs one transaction in a
    background thread.  The result object of a transaction is shared by the
    service, the thread and the callers, so results live in a heap; threads
    interleave with the calls at the points where the lock is free. *)
From S2P Require Import Prelude Dict PyVal Effects PyPath PyStr Json Continuity.

(** ** Models *)
Inductive VerificationState := VS_VERIFIED | VS_INVALID | VS_MISSING_PROOF | VS_UNSUPPORTED | VS_ERROR.
#[export] Instance VerificationState_eq_dec : EqDecision VerificationState.
Proof. solve_decision. Defined.
Definition verification_state_str (v : VerificationState) : string :=
  match v with
  | VS_VERIFIED => "VERIFIED" | VS_INVALID => "INVALID" | VS_MISSING_PROOF => "MISSING_PROOF"
  | VS_UNSUPPORTED => "UNSUPPORTED" | VS_ERROR => "ERROR"
  end.

Record CandidateIdentity := mkIdentity {
  ci_source : pyval;
  ci_candidate_version : pyval;
  ci_trace_id : string;
  ci_release_id : option string;
  ci_artifact_name : pyval;
  ci_artifact_size : pyval;
  ci_content_digest : option string }.
#[export] Instance eta_CandidateIdentity : Eta CandidateIdentity := fun r =>
  mkIdentity (ci_source r) (ci_candidate_version r) (ci_trace_id r) (ci_release_id r)
    (ci_artifact_name r) (ci_artifact_size r) (ci_content_digest r).
Definition identity_to_dict (i : CandidateIdentity) : dict string pyval :=
  [("source", ci_source i); ("candidate_version", ci_candidate_version i);
   ("trace_id", VStr (ci_trace_id i)); ("release_id", ovstr (ci_release_id i));
   ("artifact_name", ci_artifact_name i); ("artifact_size", ci_artifact_size i);
   ("content_digest", ovstr (ci_content_digest i))].

Inductive SyncState :=
  | IDLE | SYNCING | SS_VERIFIED | SS_BLOCKED | SS_FAILED | SS_UNKNOWN | STAGING | STAGED
  | ACTIVATING | ROLLING_BACK | ROLLED_BACK.
#[export] Instance SyncState_eq_dec : EqDecision SyncState.
Proof. solve_decision. Defined.
Definition sync_state_str (s : SyncState) : string :=
  match s with
  | IDLE => "IDLE" | SYNCING => "SYNCING" | SS_VERIFIED => "VERIFIED" | SS_BLOCKED => "BLOCKED"
  | SS_FAILED => "FAILED" | SS_UNKNOWN => "UNKNOWN" | STAGING => "STAGING" | STAGED => "STAGED"
  | ACTIVATING => "ACTIVATING" | ROLLING_BACK => "ROLLING_BACK" | ROLLED_BACK => "ROLLED_BACK"
  end.

(** Fields taken from a provider's dictionary are any value. *)
Record SyncResult := mkSync {
  sr_sync_id : string;
  sr_trace_id : string;
  sr_requested_at : string;
  sr_sync_state : SyncState;
  sr_stage : string;
  sr_source : string;
  sr_local_version : string;
  sr_candidate_version : pyval;
  sr_discovered_revision : pyval;
  sr_comparison : string;
  sr_verification : string;
  sr_activation_performed : bool;
  sr_error_classification : option string;
  sr_evidence_id : option string;
  sr_candidate_identity : pyval;
  sr_digest_algorithm : pyval;
  sr_digest : pyval;
  sr_proof_reference : pyval;
  sr_verifier_identity : pyval;
  sr_details : dict string pyval }.
#[export] Instance eta_SyncResult : Eta SyncResult := fun r =>
  mkSync (sr_sync_id r) (sr_trace_id r) (sr_requested_at r) (sr_sync_state r) (sr_stage r)
    (sr_source r) (sr_local_version r) (sr_candidate_version r) (sr_discovered_revision r)
    (sr_comparison r) (sr_verification r) (sr_activation_performed r)
    (sr_error_classification r) (sr_evidence_id r) (sr_candidate_identity r)
    (sr_digest_algorithm r) (sr_digest r) (sr_proof_reference r) (sr_verifier_identity r)
    (sr_details r).

(** ** The verifier *)
Record VerificationResult := mkVerification {
  vr_status : VerificationState;
  vr_candidate_identity : option CandidateIdentity;
  vr_digest_algorithm : option string;
  vr_digest : option string;
  vr_proof_reference : option string;
  vr_error : option string }.
Definition verification_to_dict (v : VerificationResult) : dict string pyval :=
  [("verified", VBool (bool_decide (vr_status v = VS_VERIFIED)));
   ("status", VStr (verification_state_str (vr_status v)));
   ("candidate_identity", match vr_candidate_identity v with
                          | Some i => VDict (identity_to_dict i) | None => VNone end);
   ("digest_algorithm", ovstr (vr_digest_algorithm v)); ("digest", ovstr (vr_digest v));
   ("proof_reference", ovstr (vr_proof_reference v));
   ("verifier_identity", VStr "CandidateVerifier/1.0"); ("error", ovstr (vr_error v))].

(** SHA-256, and the download of an artifact. *)
Class SyncIO := {
  sync_floats :: FloatOps;
  sync_sha256 : string -> string;
  fetch_bytes : pyval -> result string;
  token_hex : nat -> string;
  sync_now : nat -> string }.

Section Verifier.
Context {io : SyncIO}.
Context (expected_digest : option string).

(** The first asset: [assets[0] if assets else None], when it is truthy. *)
Definition first_asset (discovered : dict string pyval) : result (option (dict string pyval)) :=
  match vget_or "assets" (VList []) discovered with
  | VList (VDict d :: _) => Ok (if truthy (VDict d) then Some d else None)
  | VList (v :: _) => if truthy v then raise AttributeError "object has no attribute 'get'"
                      else Ok None
  | VStr (String _ _) => raise AttributeError "'str' object has no attribute 'get'"
  | VDict (_ :: _) => raise KeyError "0"
  | v => if truthy v then raise TypeError "object is not subscriptable" else Ok None
  end.

(** The bytes to hash: the given ones, else a download; [inl] is an error. *)
Definition candidate_content (asset : option (dict string pyval)) (given : option string)
  : string + option string :=
  match asset with
  | Some a =>
      let url := vget "browser_download_url" a in
      if negb (ostr_true given) && truthy url then
        match fetch_bytes url with
        | Ok b => inr (Some b)
        | Raise e => inl ("ARTIFACT_DOWNLOAD_FAILED: " +:+ exn_str e)
        end
      else inr given
  | None => inr given
  end.

Definition verify_body (discovered : dict string pyval) (trace_id : string)
    (given : option string) : result VerificationResult :=
  let version := vget "candidate_version" discovered in
  let release := vget "release_id" discovered in
  if negb (truthy version)
  then Ok (mkVerification VS_INVALID None None None None (Some "MISSING_CANDIDATE_VERSION"))
  else
    let identity := mkIdentity (vget_or "source" (VStr "UNKNOWN") discovered) version trace_id
                      (if truthy release then Some (py_str release) else None) VNone VNone None in
    if negb (ostr_true expected_digest)
    then Ok (mkVerification VS_MISSING_PROOF (Some identity) None None None
               (Some "NO_PROVENANCE_AVAILABLE"))
    else
      let? asset := first_asset discovered in
      let identity := match asset with
        | Some a => (identity <| ci_artifact_name := vget "name" a |>)
                      <| ci_artifact_size := vget "size" a |>
        | None => identity
        end in
      match candidate_content asset given with
      | inl err => Ok (mkVerification VS_ERROR (Some identity) None None None (Some err))
      | inr bytes =>
          if negb (ostr_true bytes)
          then Ok (mkVerification VS_ERROR (Some identity) None None None
                     (Some "NO_CANDIDATE_BYTES_AVAILABLE"))
          else
            let digest := sync_sha256 (default "" bytes) in
            let identity := identity <| ci_content_digest := Some digest |> in
            if negb (bool_decide (Some digest = expected_digest))
            then Ok (mkVerification VS_INVALID (Some identity) (Some "sha256") (Some digest) None
                       (Some "CHECKSUM_MISMATCH"))
            else Ok (mkVerification VS_VERIFIED (Some identity) (Some "sha256") (Some digest)
                       (Some ("expected_digest:" +:+ default "" expected_digest)) None)
      end.

(** [CandidateVerifier.verify]: every exception becomes an ERROR result. *)
Definition verify (discovered : dict string pyval) (trace_id : string) (given : option string)
  : VerificationResult :=
  match verify_body discovered trace_id given with
  | Ok v => v
  | Raise e => mkVerification VS_ERROR None None None None
                 (Some ("VERIFIER_EXCEPTION: " +:+ exn_name (exn_type e)))
  end.
End Verifier.

(** ** Release discovery *)
Section Source.
(** The GitHub client: the decoded answer to a request. *)
Context (github_request : string -> result pyval).

Definition validate_repository (repository : option string) : result string :=
  let value := strip (ostr_or repository "") in
  match split_slash value with
  | [owner; name] => if str_true owner && str_true name then Ok value
                     else raise ValueError "Update source repository must be owner/name"
  | _ => raise ValueError "Update source repository must be owner/name"
  end.

(** [a or b] *)
Definition py_or (a b : pyval) : pyval := if truthy a then a else b.
Definition release_asset (v : pyval) : option pyval :=
  match v with
  | VDict a => Some (VDict [("name", vget "name" a); ("size", vget "size" a);
                            ("browser_download_url", vget "browser_download_url" a)])
  | _ => None
  end.

Definition discover_release (repository : string) : result (dict string pyval) :=
  let? answer := github_request ("/repos/" +:+ repository +:+ "/releases/latest") in
  match answer with
  | VDict release =>
      let source := ("source", VStr ("github:" +:+ repository)) in
      let tag := vget "tag_name" release in
      let revision := py_or (vget "id" release) (vget "target_commitish" release) in
      if negb (truthy tag) then
        Ok [source; ("revision", vget "id" release); ("candidate_version", VNone);
            ("authorized", VBool false); ("reason", VStr "RELEASE_TAG_UNAVAILABLE")]
      else if truthy (vget "draft" release) || truthy (vget "prerelease" release) then
        Ok [source; ("revision", revision); ("candidate_version", tag);
            ("authorized", VBool false); ("reason", VStr "NON_STABLE_RELEASE")]
      else
        match py_or (vget "assets" release) (VList []) with
        | VList assets =>
            Ok [source; ("revision", revision); ("candidate_version", tag);
                ("authorized", VBool true); ("release_id", vget "id" release);
                ("published_at", vget "published_at" release);
                ("html_url", vget "html_url" release);
                ("assets", VList (omap release_asset assets))]
        | VStr _ | VDict _ =>
            (* iterating yields strings, which are skipped *)
            Ok [source; ("revision", revision); ("candidate_version", tag);
                ("authorized", VBool true); ("release_id", vget "id" release);
                ("published_at", vget "published_at" release);
                ("html_url", vget "html_url" release); ("assets", VList [])]
        | _ => raise TypeError "object is not iterable"
        end
  | _ => raise RuntimeError "Invalid GitHub release response"
  end.
End Source.

(** ** The service *)
Inductive thread_kind := RunSync | RunStage | RunActivate | RunRollback.
#[export] Instance thread_kind_eq_dec : EqDecision thread_kind.
Proof. solve_decision. Defined.
(** A background thread: the result it works on, and whether its [try] body
    is still to run, only its [finally] block is left, or it has ended. *)
Inductive thread_phase := Pending | Closing | Dead.
#[export] Instance thread_phase_eq_dec : EqDecision thread_phase.
Proof. solve_decision. Defined.
Record thread := mkThread { th_kind : thread_kind; th_obj : nat; th_phase : thread_phase }.

Record Service := mkService {
  sv_heap : list SyncResult;
  sv_active : option nat;
  sv_latest : option nat;
  sv_threads : list thread;
  sv_file : list (line SyncResult);
  sv_local_version : string;
  sv_tick : nat }.
#[export] Instance eta_Service : Eta Service := fun r =>
  mkService (sv_heap r) (sv_active r) (sv_latest r) (sv_threads r) (sv_file r)
    (sv_local_version r) (sv_tick r).

Section Service.
Context {io : SyncIO}.
(** The providers: absent, or functions that answer or raise. *)
Context (discover : option (result (dict string pyval)))
  (verify_candidate : option (dict string pyval -> string -> result (dict string pyval))).

Definition fail_sync (e : exn) (r : SyncResult) : SyncResult :=
  ((r <| sr_sync_state := SS_FAILED |>)
     <| sr_error_classification := Some (exn_name (exn_type e)) |>)
    <| sr_details := [("message", VStr (String.substring 0 500 (exn_str e)))] |>.

(** The part of [_discover_compare_verify] after the verifier answered. *)
Definition conclude_verification (v : dict string pyval) (r : SyncResult) : SyncResult :=
  let r := ((((r <| sr_candidate_identity := vget "candidate_identity" v |>)
    <| sr_digest_algorithm := vget "digest_algorithm" v |>) <| sr_digest := vget "digest" v |>)
    <| sr_proof_reference := vget "proof_reference" v |>)
    <| sr_verifier_identity := vget "verifier_identity" v |> in
  let r := (if negb (truthy (vget "verified" v)) then
      let status := vget_or "status" (VStr "FAILED") v in
      ((r <| sr_sync_state := if is_text "UNKNOWN" status
                              then SS_UNKNOWN else SS_BLOCKED |>)
        <| sr_verification := py_str status |>)
        <| sr_error_classification :=
             Some (py_str (vget_or "error" (VStr "CANDIDATE_NOT_VERIFIED") v)) |>
    else (r <| sr_verification := "VERIFIED" |>) <| sr_sync_state := SS_VERIFIED |>) in
  (r <| sr_stage := "REPORT" |>) <| sr_details := [("activation_performed", VBool false)] |>.

Definition reason_details (msg : string) : dict string pyval := [("reason", VStr msg)].

(** [_discover_compare_verify]: the fields set before an exception stay. *)
Definition discover_compare_verify (local_version : string) (r : SyncResult)
  : SyncResult * result unit :=
  let r := r <| sr_stage := "DISCOVER" |> in
  match discover with
  | None =>
      (((((r <| sr_sync_state := SS_BLOCKED |>) <| sr_source := "UNKNOWN" |>)
         <| sr_error_classification := Some "AUTHORITATIVE_SOURCE_UNAVAILABLE" |>)
         <| sr_stage := "REPORT" |>)
         <| sr_details := reason_details "No authoritative discovery provider is configured." |>,
       Ok tt)
  | Some (Raise e) => (r, Raise e)
  | Some (Ok d) =>
      let r := ((r <| sr_source := py_str (vget_or "source" (VStr "UNKNOWN") d) |>)
        <| sr_discovered_revision := vget "revision" d |>)
        <| sr_candidate_version := vget "candidate_version" d |> in
      if negb (truthy (vget_or "authorized" (VBool false) d)) then
        ((((r <| sr_sync_state := SS_BLOCKED |>)
           <| sr_error_classification := Some "AUTHORITY_UNVERIFIED" |>)
           <| sr_stage := "REPORT" |>)
           <| sr_details := reason_details
                "Source was discovered without sufficient authority evidence." |>, Ok tt)
      else
        let candidate := sr_candidate_version r in
        if negb (truthy candidate) || is_text local_version candidate then
          (((((r <| sr_comparison := "NO_CHANGE" |>) <| sr_verification := "NOT_REQUIRED" |>)
             <| sr_sync_state := SS_VERIFIED |>) <| sr_stage := "REPORT" |>)
             <| sr_details := reason_details
                  "No verified candidate requiring change was discovered." |>, Ok tt)
        else
          let r := (r <| sr_comparison := "CANDIDATE_AVAILABLE" |>) <| sr_stage := "VERIFY" |> in
          match verify_candidate with
          | None =>
              (((r <| sr_sync_state := SS_UNKNOWN |>)
                <| sr_error_classification := Some "CANDIDATE_VERIFIER_UNAVAILABLE" |>)
                <| sr_stage := "REPORT" |>, Ok tt)
          | Some f =>
              match f d (sr_trace_id r) with
              | Ok v => (conclude_verification v r, Ok tt)
              | Raise e =>
                  (((((r <| sr_sync_state := SS_FAILED |>)
                     <| sr_error_classification := Some "VERIFIER_EXCEPTION" |>)
                     <| sr_verification := "ERROR" |>) <| sr_stage := "REPORT" |>)
                     <| sr_details := [("message", VStr (String.substring 0 500 (exn_str e)));
                                       ("activation_performed", VBool false)] |>, Ok tt)
              end
          end
  end.

(** [_run_sync], [_run_stage], [_run_activate], [_run_rollback]: the [try] body *)
Definition run_body (k : thread_kind) (local_version : string) (r : SyncResult) : SyncResult :=
  match k with
  | RunSync =>
      match discover_compare_verify local_version r with
      | (r', Ok _) => r'
      | (r', Raise e) => (fail_sync e r') <| sr_stage := "REPORT" |>
      end
  | RunStage => r <| sr_sync_state := STAGED |>
  | RunActivate => (r <| sr_sync_state := SS_BLOCKED |>)
                     <| sr_error_classification := Some "ACTIVATION_NOT_IMPLEMENTED" |>
  | RunRollback => (r <| sr_sync_state := ROLLED_BACK |>) <| sr_activation_performed := false |>
  end.

Definition object (i : nat) (s : Service) : option SyncResult := sv_heap s !! i.
Definition persist (i : nat) (s : Service) : Service :=
  match object i s with
  | Some r => s <| sv_file := sv_file s ++ [LGood r] |>
  | None => s
  end.
Definition spawn (k : thread_kind) (i : nat) (s : Service) : Service :=
  s <| sv_threads := sv_threads s ++ [mkThread k i Pending] |>.
Definition set_object (i : nat) (r : SyncResult) (s : Service) : Service :=
  s <| sv_heap := <[i := r]> (sv_heap s) |>.

(** What a call answers: started, already running, or blocked. *)
Inductive answer := Started (sync_id : string) | AlreadyRunning (state : SyncState)
  | Refused (error : string).

(** The states of an active result that make [start] refuse. *)
Definition busy (st : SyncState) : bool :=
  bool_decide (st ∈ [SYNCING; STAGING; ACTIVATING; ROLLING_BACK]).
Definition active_result (s : Service) : option SyncResult :=
  match sv_active s with Some i => object i s | None => None end.
Definition latest_result (s : Service) : option (nat * SyncResult) :=
  match sv_latest s with
  | Some i => match object i s with Some r => Some (i, r) | None => None end
  | None => None
  end.

Definition new_result (s : Service) : SyncResult :=
  mkSync ("sync-" +:+ token_hex (sv_tick s)) ("trace-" +:+ token_hex (S (sv_tick s)))
    (sync_now (sv_tick s)) SYNCING "NONE" "UNKNOWN" (sv_local_version s) VNone VNone "UNKNOWN"
    "UNKNOWN" false None None VNone VNone VNone VNone VNone [].

Definition launch (s : Service) : Service * answer :=
  let r := new_result s in
  let i := length (sv_heap s) in
  (spawn RunSync i (persist i (((s <| sv_heap := sv_heap s ++ [r] |>) <| sv_active := Some i |>)
                                <| sv_tick := S (S (sv_tick s)) |>)),
   Started (sr_sync_id r)).
Definition start (s : Service) : Service * answer :=
  match active_result s with
  | Some r => if busy (sr_sync_state r) then (s, AlreadyRunning (sr_sync_state r)) else launch s
  | None => launch s
  end.

(** [stage], [activate] and [rollback] have one shape: refuse while a result
    is active, refuse unless the latest qualifies, else move it on. *)
Definition advance (qualifies : SyncResult -> bool) (error : string) (state : SyncState)
    (stage_name : string) (k : thread_kind) (s : Service) : Service * answer :=
  match active_result s with
  | Some r => (s, AlreadyRunning (sr_sync_state r))
  | None =>
      match latest_result s with
      | Some (i, r) =>
          if qualifies r then
            (spawn k i (persist i ((set_object i ((r <| sr_sync_state := state |>)
                                                   <| sr_stage := stage_name |>) s)
                                     <| sv_active := Some i |>)),
             Started (sr_sync_id r))
          else (s, Refused error)
      | None => (s, Refused error)
      end
  end.
Definition in_state (st : SyncState) (r : SyncResult) : bool := bool_decide (sr_sync_state r = st).
Definition stage : Service -> Service * answer :=
  advance (in_state SS_VERIFIED) "Cannot stage without a VERIFIED candidate" STAGING "STAGE" RunStage.
Definition activate : Service -> Service * answer :=
  advance (in_state STAGED) "Cannot activate without a STAGED candidate" ACTIVATING "ACTIVATE"
    RunActivate.
Definition rollback : Service -> Service * answer :=
  advance sr_activation_performed "Cannot rollback when not activated" ROLLING_BACK "ROLLBACK"
    RunRollback.

(** A thread runs its body, outside the lock. *)
Definition set_thread (n : nat) (t : thread) (s : Service) : Service :=
  s <| sv_threads := <[n := t]> (sv_threads s) |>.
Definition thread_body (n : nat) (s : Service) : option Service :=
  match sv_threads s !! n with
  | Some (mkThread k i Pending) =>
      match object i s with
      | Some r =>
          let s' := set_thread n (mkThread k i Closing)
                      (set_object i (run_body k (sv_local_version s) r) s) in
          Some (match k with
                | RunRollback =>
                    if str_true (sr_local_version r)
                    then s' <| sv_local_version := sr_local_version r |> else s'
                | _ => s'
                end)
      | None => None
      end
  | _ => None
  end.

(** Then its [finally] block, under the lock. *)
Definition thread_finish (n : nat) (s : Service) : option Service :=
  match sv_threads s !! n with
  | Some (mkThread k i Closing) =>
      let s' := set_thread n (mkThread k i Dead) (s <| sv_active := None |>) in
      let s' := match k with RunSync => s' <| sv_latest := Some i |> | _ => s' end in
      Some (persist i s')
  | _ => None
  end.

(** [_load_latest]: the last non-blank line, when it loads. *)
Definition load_latest (file : list (line SyncResult)) : option SyncResult :=
  match last (filter (fun l => match l with LBlank => false | _ => true end = true) file) with
  | Some (LGood r) => Some r
  | _ => None
  end.
(** The constructor. *)
Definition new_service (file : list (line SyncResult)) (local_version : string) : Service :=
  match load_latest file with
  | Some r => mkService [r] None (Some 0) [] file local_version 0
  | None => mkService [] None None [] file local_version 0
  end.

(** One step: a thread's body or end, a call, or the process dying (its
    threads are daemons) and a service being constructed on what was
    written. *)
Inductive thread_step : Service -> Service -> Prop :=
  | step_body n s s' : thread_body n s = Some s' -> thread_step s s'
  | step_finish n s s' : thread_finish n s = Some s' -> thread_step s s'.
Inductive step (lv : string) : Service -> Service -> Prop :=
  | step_start s : step lv s (start s).1
  | step_stage s : step lv s (stage s).1
  | step_activate s : step lv s (activate s).1
  | step_rollback s : step lv s (rollback s).1
  | step_thread s s' : thread_step s s' -> step lv s s'
  | step_restart s : step lv s (new_service (sv_file s) lv).
(** The states of services that began on an empty data directory. *)
Definition reachable (lv : string) : Service -> Prop := rtc (step lv) (new_service [] lv).

(** [status] *)
Definition status_state (s : Service) : SyncState :=
  match active_result s with
  | Some r => sr_sync_state r
  | None => match latest_result s with Some (_, r) => sr_sync_state r | None => IDLE end
  end.

(** ** Invariants of the service *)
(** The verifier vouched for the candidate the result names. *)
Definition proved (r : SyncResult) : Prop :=
  exists f d v, discover = Some (Ok d) /\ verify_candidate = Some f /\ f d (sr_trace_id r) = Ok v /\
    truthy (vget "verified" v) = true /\ sr_digest r = vget "digest" v /\
    sr_candidate_version r = vget "candidate_version" d.
(** The states a verification leads to. *)
Definition cleared (st : SyncState) : bool :=
  bool_decide (st ∈ [SS_VERIFIED; STAGING; STAGED; ACTIVATING]).
Definition cleared_by (r : SyncResult) : Prop :=
  sr_comparison r = "NO_CHANGE" \/ (sr_verification r = "VERIFIED" /\ proved r).
Definition sound (r : SyncResult) : Prop :=
  sr_activation_performed r = false /\ (cleared (sr_sync_state r) = true -> cleared_by r).
(** The state of the result while a thread's body has not run. *)
Definition awaits (k : thread_kind) : option SyncState :=
  match k with
  | RunSync => Some SYNCING | RunStage => Some STAGING | RunActivate => Some ACTIVATING
  | RunRollback => None
  end.

Record inv (lv : string) (s : Service) : Prop := {
  inv_heap : forall i r, sv_heap s !! i = Some r -> sound r;
  inv_file : forall r, LGood r ∈ sv_file s -> sound r;
  inv_pending : forall n k i, sv_threads s !! n = Some (mkThread k i Pending) ->
    exists r, sv_heap s !! i = Some r /\ awaits k = Some (sr_sync_state r);
  inv_unique : forall n m k k' i, sv_threads s !! n = Some (mkThread k i Pending) ->
    sv_threads s !! m = Some (mkThread k' i Pending) -> n = m;
  inv_active : forall i, sv_active s = Some i ->
    exists n k ph, sv_threads s !! n = Some (mkThread k i ph) /\ ph <> Dead;
  inv_version : sv_local_version s = lv }.

Lemma conclude_verification_sound f d v r :
  discover = Some (Ok d) -> verify_candidate = Some f -> f d (sr_trace_id r) = Ok v ->
  sr_candidate_version r = vget "candidate_version" d -> sr_activation_performed r = false ->
  sound (conclude_verification v r).
Proof.
  intros Hd Hf Hv Hc Ha. unfold conclude_verification, sound, cleared_by, proved.
  destruct (truthy (vget "verified" v)) eqn:E; simpl.
  - split; [done|]. intros _. right. split; [done|]. exists f, d, v. done.
  - split; [done|]. destruct (is_text _ _); done.
Qed.
Lemma run_sync_sound lv r : sr_activation_performed r = false -> sound (run_body RunSync lv r).
Proof.
  intros Ha. unfold run_body, discover_compare_verify.
  destruct discover as [[d|e]|] eqn:Ed; [|done..]. cbv zeta.
  destruct (truthy (vget_or "authorized" _ d)); [|done].
  destruct (_ || _).
  { split; [done|]. intros _. by left. }
  destruct verify_candidate as [f|] eqn:Ef; [|done].
  match goal with |- context [f d ?t] => destruct (f d t) as [v|e] eqn:Ev end; [|done].
  by apply (conclude_verification_sound f d v).
Qed.
Lemma run_body_sound k lv r :
  sound r -> awaits k = Some (sr_sync_state r) -> sound (run_body k lv r).
Proof.
  intros [Ha Hc] Hk. destruct k; [by apply run_sync_sound|..]; try done.
  split; [done|]. intros _. unfold cleared_by, proved in *. apply Hc.
  simpl in Hk. by injection Hk as Hk; rewrite <- Hk.
Qed.

Lemma lookup_snoc {A} (l : list A) (x y : A) n :
  (l ++ [x]) !! n = Some y -> l !! n = Some y \/ (n = length l /\ y = x).
Proof.
  intros H. destruct (decide (n < length l)) as [Hn|Hn].
  - left. by rewrite lookup_app_l in H.
  - right. rewrite lookup_app_r in H by lia. apply list_lookup_singleton_Some in H as [? ->].
    split; [lia|done].
Qed.

(** A call that puts a result in a pending state and starts its thread. *)
Lemma inv_spawn lv k i r s s' :
  inv lv s -> sound r -> awaits k = Some (sr_sync_state r) ->
  (forall n k', sv_threads s !! n <> Some (mkThread k' i Pending)) ->
  sv_heap s' !! i = Some r -> (forall j, j <> i -> sv_heap s' !! j = sv_heap s !! j) ->
  sv_threads s' = sv_threads s ++ [mkThread k i Pending] -> sv_active s' = Some i ->
  sv_file s' = sv_file s ++ [LGood r] -> sv_local_version s' = sv_local_version s ->
  inv lv s'.
Proof.
  intros I Hr Hk Hfree Hi Hj Ht Ha Hf Hv. split.
  - intros j r' E. destruct (decide (j = i)) as [->|Hne].
    + rewrite Hi in E. by simplify_eq.
    + rewrite Hj in E by done. by eapply inv_heap.
  - intros r'. rewrite Hf, elem_of_app, list_elem_of_singleton. intros [?|[= ->]]; [|done].
    by eapply inv_file.
  - intros n k' j. rewrite Ht. intros [E|[_ E]]%lookup_snoc; [|simplify_eq; by eauto].
    destruct (decide (j = i)) as [->|Hne]; [by destruct (Hfree _ _ E)|].
    rewrite Hj by done. by eapply inv_pending.
  - intros n m k1 k2 j. rewrite Ht.
    intros [E1|[-> E1]]%lookup_snoc [E2|[-> E2]]%lookup_snoc; simplify_eq; try done.
    + by eapply inv_unique.
    + by destruct (Hfree _ _ E1).
    + by destruct (Hfree _ _ E2).
  - intros j. rewrite Ha, Ht. intros [= <-]. exists (length (sv_threads s)), k, Pending.
    by rewrite list_lookup_middle.
  - rewrite Hv. by apply (inv_version lv).
Qed.

Lemma inv_start lv s : inv lv s -> inv lv (start s).1.
Proof.
  intros I. unfold start. assert (inv lv (launch s).1) as L.
  { unfold launch, spawn, persist, object. simpl.
    rewrite list_lookup_middle by done. simpl.
    apply (inv_spawn lv RunSync (length (sv_heap s)) (new_result s) s); try done.
    - intros n k E. destruct (inv_pending lv s I _ _ _ E) as (r & E' & _).
      apply lookup_lt_Some in E'. lia.
    - simpl. by rewrite list_lookup_middle.
    - intros j Hj. simpl. destruct (decide (j < length (sv_heap s))).
      + by rewrite lookup_app_l.
      + rewrite !lookup_ge_None_2; [done|lia|rewrite length_app; simpl; lia]. }
  destruct (active_result s); [|done]. by destruct (busy _).
Qed.

(** States in which no thread is pending on a result. *)
Definition at_rest (st : SyncState) : bool :=
  negb (bool_decide (st ∈ [SYNCING; STAGING; ACTIVATING])).
Lemma awaits_busy k st : awaits k = Some st -> at_rest st = false.
Proof. by destruct k; intros [= <-]. Qed.
Lemma inv_advance lv qualifies error st name k s :
  inv lv s -> awaits k = Some st ->
  (forall r, sound r -> qualifies r = true -> at_rest (sr_sync_state r) = true /\
     cleared (sr_sync_state r) = true) ->
  inv lv (advance qualifies error st name k s).1.
Proof.
  intros I Hk Hq. unfold advance. destruct (active_result s); [done|].
  unfold latest_result, object. destruct (sv_latest s) as [i|]; [|done].
  destruct (sv_heap s !! i) as [r|] eqn:E; [|done].
  destruct (qualifies r) eqn:Eq; [|done]. simpl.
  pose proof (inv_heap lv s I _ _ E) as Hr. destruct (Hq r Hr Eq) as [Hrest Hc].
  unfold spawn, persist, object, set_object. simpl.
  assert (i < length (sv_heap s)) as Hi by (by eapply lookup_lt_Some).
  rewrite list_lookup_insert_eq by done.
  eapply (inv_spawn lv k i ((r <| sr_sync_state := st |>) <| sr_stage := name |>) s); try done.
  - destruct Hr as [Ha Hcl]. split; [done|]. intros _.
    unfold cleared_by, proved in *. by apply Hcl.
  - intros n k' E'. destruct (inv_pending lv s I _ _ _ E') as (r' & E'' & Hk').
    rewrite E in E''. simplify_eq. by rewrite (awaits_busy _ _ Hk') in Hrest.
  - simpl. by rewrite list_lookup_insert_eq.
  - intros j Hj. simpl. by rewrite list_lookup_insert_ne.
Qed.

Lemma in_state_true st r : in_state st r = true -> sr_sync_state r = st.
Proof. apply bool_decide_eq_true. Qed.
Lemma inv_stage lv s : inv lv s -> inv lv (stage s).1.
Proof.
  intros I. apply inv_advance; try done. by intros r _ ->%in_state_true.
Qed.
Lemma inv_activate lv s : inv lv s -> inv lv (activate s).1.
Proof.
  intros I. apply inv_advance; try done. by intros r _ ->%in_state_true.
Qed.
(** No result was activated, so a rollback is never started. *)
Lemma rollback_refused lv s :
  inv lv s -> (rollback s).1 = s /\ forall id, (rollback s).2 <> Started id.
Proof.
  intros I. unfold rollback, advance. destruct (active_result s); [done|].
  unfold latest_result, object. destruct (sv_latest s) as [i|]; [|done].
  destruct (sv_heap s !! i) as [r|] eqn:E; [|done].
  by destruct (inv_heap lv s I _ _ E) as [-> _].
Qed.

Lemma inv_body lv n s s' : inv lv s -> thread_body n s = Some s' -> inv lv s'.
Proof.
  intros I. unfold thread_body, object.
  destruct (sv_threads s !! n) as [[k i []]|] eqn:En; try done.
  destruct (inv_pending lv s I _ _ _ En) as (r & Er & Hk). rewrite Er. intros [= Es'].
  assert (s' = set_thread n (mkThread k i Closing)
                 (set_object i (run_body k (sv_local_version s) r) s)) as ->
    by (by destruct k).
  clear Es'. pose proof (lookup_lt_Some _ _ _ Er) as Hi.
  pose proof (lookup_lt_Some _ _ _ En) as Hn. split; simpl.
  - intros j r' E. destruct (decide (j = i)) as [->|Hj].
    + rewrite list_lookup_insert_eq in E by done. simplify_eq.
      apply run_body_sound; [|done]. by eapply inv_heap.
    + rewrite list_lookup_insert_ne in E by done. by eapply inv_heap.
  - apply (inv_file lv s I).
  - intros m k' j [[-> [? _]]|[Hm E]]%list_lookup_insert_Some; [by simplify_eq|].
    destruct (decide (j = i)) as [->|Hj].
    + by destruct Hm; eapply inv_unique.
    + rewrite list_lookup_insert_ne by done. by eapply inv_pending.
  - intros m m' k1 k2 j [[-> [? _]]|[_ E]]%list_lookup_insert_Some; [by simplify_eq|].
    intros [[-> [? _]]|[_ E']]%list_lookup_insert_Some; [by simplify_eq|].
    by eapply inv_unique.
  - intros j Hj. destruct (inv_active lv s I j Hj) as (m & k' & ph & E & Hph).
    destruct (decide (m = n)) as [->|Hm].
    + exists n, k, Closing. simplify_eq. by rewrite list_lookup_insert_eq.
    + exists m, k', ph. by rewrite list_lookup_insert_ne.
  - apply (inv_version lv s I).
Qed.

Lemma file_persist i s r :
  LGood r ∈ sv_file (persist i s) -> LGood r ∈ sv_file s \/ sv_heap s !! i = Some r.
Proof.
  unfold persist, object. destruct (sv_heap s !! i) as [r'|] eqn:E; [|by left]. simpl.
  rewrite elem_of_app, list_elem_of_singleton. intros [?|[= ->]]; [by left|by right].
Qed.
Lemma persist_same i s : exists f, persist i s = s <| sv_file := f |>.
Proof.
  unfold persist. destruct (object i s); [by eexists|]. exists (sv_file s). by destruct s.
Qed.
Lemma inv_finish lv n s s' : inv lv s -> thread_finish n s = Some s' -> inv lv s'.
Proof.
  intros I. unfold thread_finish.
  destruct (sv_threads s !! n) as [[k i []]|] eqn:En; try done.
  set (s1 := match k with RunSync => _ | _ => _ end). intros [= <-].
  assert (sv_heap s1 = sv_heap s /\ sv_file s1 = sv_file s /\ sv_active s1 = None /\
    sv_local_version s1 = sv_local_version s /\
    sv_threads s1 = <[n := mkThread k i Dead]> (sv_threads s)) as (Hh & Hf & Ha & Hv & Ht)
    by (subst s1; by destruct k).
  clearbody s1.
  assert (forall r, LGood r ∈ sv_file (persist i s1) -> sound r) as Hfile.
  { intros r [Hr|Hr]%file_persist; [rewrite Hf in Hr; by eapply inv_file|].
    rewrite Hh in Hr. by eapply inv_heap. }
  destruct (persist_same i s1) as [f E]. rewrite E in *. clear E.
  split; simpl; rewrite ?Hh, ?Ha, ?Hv, ?Ht; try done.
  - apply (inv_heap lv s I).
  - intros m k' j [[-> [? _]]|[Hm E]]%list_lookup_insert_Some; [by simplify_eq|].
    by eapply inv_pending.
  - intros m m' k1 k2 j [[-> [? _]]|[_ E]]%list_lookup_insert_Some; [by simplify_eq|].
    intros [[-> [? _]]|[_ E']]%list_lookup_insert_Some; [by simplify_eq|].
    by eapply inv_unique.
  - apply (inv_version lv s I).
Qed.

Lemma load_latest_elem file r : load_latest file = Some r -> LGood r ∈ file.
Proof.
  unfold load_latest. destruct (last _) as [[]|] eqn:E; try done. intros [= ->].
  by apply last_filter_elem in E as [? _].
Qed.
Lemma inv_new lv file : (forall r, LGood r ∈ file -> sound r) -> inv lv (new_service file lv).
Proof.
  intros Hf. unfold new_service. destruct (load_latest file) as [r|] eqn:E; split; simpl;
    try done; intros i r' Hi.
  apply list_lookup_singleton_Some in Hi as [-> ->]. by apply Hf, load_latest_elem.
Qed.

Lemma inv_step lv s s' : inv lv s -> step lv s s' -> inv lv s'.
Proof.
  intros I H. destruct H as [s|s|s|s|s s' [n|n]|s].
  - by apply inv_start.
  - by apply inv_stage.
  - by apply inv_activate.
  - by destruct (rollback_refused lv s I) as [-> _].
  - by eapply inv_body.
  - by eapply inv_finish.
  - by eapply inv_new, inv_file.
Qed.
Lemma inv_reachable lv s : reachable lv s -> inv lv s.
Proof.
  apply (rtc_ind_r (inv lv) (new_service [] lv)).
  - apply inv_new. by intros r H%elem_of_nil.
  - intros y z _ Hstep IH. by eapply inv_step.
Qed.
Lemma inv_threads lv s s' : inv lv s -> rtc thread_step s s' -> inv lv s'.
Proof.
  intros I H. induction H as [|x y z Hxy _ IH]; [done|]. apply IH.
  by eapply inv_step, step_thread.
Qed.

(** *** Progress *)
(** What is left to run: two steps of a pending thread, one of a closing one. *)
Definition phase_work (t : thread) : nat :=
  match th_phase t with Pending => 2 | Closing => 1 | Dead => 0 end.
Definition work (s : Service) : nat := sum_list_with phase_work (sv_threads s).

Lemma work_insert n t t' (l : list thread) :
  l !! n = Some t ->
  sum_list_with phase_work (<[n := t']> l) + phase_work t = sum_list_with phase_work l + phase_work t'.
Proof.
  revert n. induction l as [|u l IH]; intros [|n] E; simplify_eq/=; [lia|].
  specialize (IH n E). lia.
Qed.
Lemma work_zero s : work s = 0 -> forall n t, sv_threads s !! n = Some t -> th_phase t = Dead.
Proof.
  unfold work. induction (sv_threads s) as [|u l IH]; intros H [|n] t E; simplify_eq/=.
  - unfold phase_work in H. destruct (th_phase t); [lia..|done].
  - apply (IH ltac:(lia) n t E).
Qed.
Lemma work_persist i s : work (persist i s) = work s.
Proof. by destruct (persist_same i s) as [f ->]. Qed.

(** A live thread can always take its next step. *)
Lemma live_steps lv s n t :
  inv lv s -> sv_threads s !! n = Some t -> th_phase t <> Dead ->
  exists s', thread_step s s' /\ work s' < work s.
Proof.
  intros I En Hp. destruct t as [k i []]; [| |done].
  - destruct (inv_pending lv s I _ _ _ En) as (r & Er & Hk).
    eexists. split; [apply (step_body n); unfold thread_body, object; by rewrite En, Er|].
    pose proof (work_insert n _ (mkThread k i Closing) _ En) as W.
    destruct k; try done; unfold work, set_thread, set_object, phase_work in *; simpl in *; lia.
  - eexists. split; [apply (step_finish n); unfold thread_finish; by rewrite En|].
    pose proof (work_insert n _ (mkThread k i Dead) _ En) as W. rewrite work_persist.
    destruct k; unfold work, set_thread, phase_work in *; simpl in *; lia.
Qed.
Lemma find_live (s : Service) :
  {n & {t | sv_threads s !! n = Some t /\ th_phase t <> Dead}} +
  {forall n t, sv_threads s !! n = Some t -> th_phase t = Dead}.
Proof.
  induction (sv_threads s) as [|u l IH]; [by right|].
  destruct (decide (th_phase u = Dead)) as [Hu|Hu]; [|left; by exists 0, u].
  destruct IH as [(n & t & E)|IH]; [left; by exists (S n), t|].
  right. intros [|n] t E; simplify_eq/=; [done|]. by eapply IH.
Qed.
Lemma threads_settle lv w s :
  inv lv s -> work s <= w ->
  exists s', rtc thread_step s s' /\ forall n t, sv_threads s' !! n = Some t -> th_phase t = Dead.
Proof.
  revert s. induction w as [|w IH]; intros s I Hw.
  - exists s. split; [done|]. apply work_zero. lia.
  - destruct (find_live s) as [(n & t & En & Hp)|Hd]; [|by exists s].
    destruct (live_steps lv s n t I En Hp) as (s1 & Hstep & Hlt).
    destruct (IH s1) as (s' & Hrtc & Hdead); [by eapply inv_step, step_thread|lia|].
    exists s'. split; [by eapply rtc_l|done].
Qed.


(** Nothing the service ever holds or has written claims an activation; a
    rollback changes nothing and is never started, so the local version is
    the one the service was given. *)
Theorem sync_never_activates lv s :
  reachable lv s ->
  (forall i r, sv_heap s !! i = Some r -> sr_activation_performed r = false) /\
  (forall r, LGood r ∈ sv_file s -> sr_activation_performed r = false) /\
  (rollback s).1 = s /\ (forall id, (rollback s).2 <> Started id) /\ sv_local_version s = lv.
Proof.
  intros I%inv_reachable. split; [|split; [|split; [|split]]].
  - intros i r E. apply (inv_heap lv s I i r E).
  - intros r E. apply (inv_file lv s I r E).
  - apply (rollback_refused lv s I).
  - apply (rollback_refused lv s I).
  - apply (inv_version lv s I).
Qed.

End Service.

(** ** The service with the candidate verifier *)
Section Verified.
Context {io : SyncIO}.
Context (discover : option (result (dict string pyval))) (expected_digest : option string).
Definition candidate_verifier (d : dict string pyval) (trace_id : string)
  : result (dict string pyval) :=
  Ok (verification_to_dict (verify expected_digest d trace_id None)).

Lemma no_bytes_given asset b :
  candidate_content asset None = inr (Some b) ->
  exists a, asset = Some a /\ fetch_bytes (vget "browser_download_url" a) = Ok b.
Proof.
  unfold candidate_content. destruct asset as [a|]; [|done]. simpl.
  destruct (truthy _); [|done]. destruct (fetch_bytes _) as [c|] eqn:E; [|done].
  intros [= ->]. by exists a.
Qed.
Lemma verified_inv d trace given :
  vr_status (verify expected_digest d trace given) = VS_VERIFIED ->
  exists asset b, first_asset d = Ok asset /\ candidate_content asset given = inr (Some b) /\
    b <> "" /\ expected_digest = Some (sync_sha256 b) /\
    vr_digest (verify expected_digest d trace given) = Some (sync_sha256 b).
Proof.
  unfold verify, verify_body.
  destruct (truthy (vget "candidate_version" d)); [|done]. cbv zeta.
  destruct (ostr_true expected_digest); [|done].
  destruct (first_asset d) as [asset|e]; [|done]. simpl.
  destruct (candidate_content asset given) as [err|[b|]] eqn:Ec; [done| |done]. simpl.
  destruct b as [|x b]; [done|]. simpl.
  destruct (bool_decide _) eqn:Ed; [|done]. apply bool_decide_eq_true in Ed.
  intros _. exists asset, (String x b). done.
Qed.

End Verified.

(** ** Two behaviours of the service *)
Section Behaviours.
Context {io : SyncIO}.
Context (verify_candidate : option (dict string pyval -> string -> result (dict string pyval))).

(** Runs of one call or thread step after another. *)
Inductive act := AStart | AStage | ABody (n : nat) | AFinish (n : nat).
Definition play (discover : option (result (dict string pyval))) (a : act) (s : Service)
  : option Service :=
  match a with
  | AStart => Some (start s).1
  | AStage => Some (stage s).1
  | ABody n => thread_body discover verify_candidate n s
  | AFinish n => thread_finish n s
  end.
Fixpoint play_all discover (l : list act) (s : Service) : option Service :=
  match l with
  | [] => Some s
  | a :: l' => match play discover a s with
               | Some s' => play_all discover l' s'
               | None => None
               end
  end.
Lemma play_all_steps discover lv l s s' :
  play_all discover l s = Some s' -> rtc (step discover verify_candidate lv) s s'.
Proof.
  revert s. induction l as [|a l IH]; intros s H; [by simplify_eq/=|]. simpl in H.
  destruct (play discover a s) as [s1|] eqn:E; [|done].
  apply (rtc_l _ _ s1); [|by apply IH]. destruct a; simplify_eq/=.
  - apply step_start.
  - apply step_stage.
  - eapply step_thread, step_body, E.
  - eapply step_thread, step_finish, E.
Qed.

Lemma no_change_body d lv r :
  truthy (vget_or "authorized" (VBool false) d) = true ->
  vget "candidate_version" d = VStr lv ->
  exists r', run_body (Some (Ok d)) verify_candidate RunSync lv r = r' /\
    sr_sync_state r' = SS_VERIFIED /\ sr_verification r' = "NOT_REQUIRED" /\
    sr_digest r' = sr_digest r /\ sr_proof_reference r' = sr_proof_reference r /\
    sr_candidate_identity r' = sr_candidate_identity r.
Proof.
  intros Ha Hv. eexists. split; [done|]. unfold run_body, discover_compare_verify. cbv zeta.
  rewrite Ha.
  match goal with |- context [truthy (sr_candidate_version ?x)] =>
    assert (sr_candidate_version x = VStr lv) as -> by exact Hv end.
  assert (is_text lv (VStr lv) = true) as -> by (by apply String.eqb_refl).
  by rewrite orb_true_r.
Qed.
(** The first transaction, up to the end of its body. *)
Lemma first_sync discover lv r0 r1 l :
  r0 = new_result (new_service [] lv) -> run_body discover verify_candidate RunSync lv r0 = r1 ->
  play_all discover (AStart :: ABody 0 :: l) (new_service [] lv) =
  play_all discover l
    (mkService [r1] (Some 0) None [mkThread RunSync 0 Closing] [LGood r0] lv 2).
Proof.
  intros Hr0 Hr1. cbn [play_all play].
  assert ((start (new_service [] lv)).1 =
    mkService [r0] (Some 0) None [mkThread RunSync 0 Pending] [LGood r0] lv 2) as ->
    by (rewrite Hr0; reflexivity).
  assert (thread_body discover verify_candidate 0
      (mkService [r0] (Some 0) None [mkThread RunSync 0 Pending] [LGood r0] lv 2) =
    Some (mkService [r1] (Some 0) None [mkThread RunSync 0 Closing] [LGood r0] lv 2)) as ->
    by (rewrite <- Hr1; reflexivity).
  reflexivity.
Qed.
(** One transaction that ends VERIFIED, then its staging. *)
Lemma stage_run discover lv r0 r1 :
  r0 = new_result (new_service [] lv) -> run_body discover verify_candidate RunSync lv r0 = r1 ->
  sr_sync_state r1 = SS_VERIFIED ->
  exists s, play_all discover [AStart; ABody 0; AFinish 0; AStage; ABody 1] (new_service [] lv)
    = Some s /\ sv_heap s = [((r1 <| sr_sync_state := STAGING |>) <| sr_stage := "STAGE" |>)
                               <| sr_sync_state := STAGED |>].
Proof.
  intros Hr0 Hr1 Hst. rewrite (first_sync _ _ _ _ _ Hr0 Hr1). clear Hr0 Hr1. cbn [play_all play].
  unfold thread_finish, stage, advance, in_state. simpl. rewrite Hst. simpl.
  by eexists.
Qed.

(** When the discovered version is the local one, the result is VERIFIED
    without a verification and may be staged: it reaches STAGED with no
    digest, no proof and no identity. *)
Theorem staged_without_candidate d lv :
  truthy (vget_or "authorized" (VBool false) d) = true ->
  vget "candidate_version" d = VStr lv ->
  exists s r, reachable (Some (Ok d)) verify_candidate lv s /\ sv_heap s = [r] /\
    sr_sync_state r = STAGED /\ sr_verification r = "NOT_REQUIRED" /\
    sr_digest r = VNone /\ sr_proof_reference r = VNone /\ sr_candidate_identity r = VNone.
Proof.
  intros Ha Hv.
  destruct (no_change_body d lv (new_result (new_service [] lv)) Ha Hv)
    as (r' & Hr & Hst & Hver & Hd & Hp & Hi).
  destruct (stage_run _ lv _ r' eq_refl Hr Hst) as (s & Hs & Hh).
  eexists s, _. split; [by eapply play_all_steps|]. split; [exact Hh|]. done.
Qed.

(** A second [start] after the body of the first transaction. *)
Lemma race_run discover lv r0 r1 :
  r0 = new_result (new_service [] lv) -> run_body discover verify_candidate RunSync lv r0 = r1 ->
  busy (sr_sync_state r1) = false ->
  exists h f, play_all discover [AStart; ABody 0; AStart; AFinish 0] (new_service [] lv)
    = Some (mkService h None (Some 0)
              [mkThread RunSync 0 Dead; mkThread RunSync 1 Pending] f lv 4).
Proof.
  intros Hr0 Hr1 Hst. rewrite (first_sync _ _ _ _ _ Hr0 Hr1). clear Hr0 Hr1. cbn [play_all play].
  unfold start, active_result, object. simpl. rewrite Hst.
  do 2 eexists. reflexivity.
Qed.

(** A call of [start] between the end of a transaction's body and its
    [finally] block begins a second one, whose registration that block then
    clears: a further [start] runs beside it. *)
Theorem second_sync_starts lv :
  exists s, reachable None verify_candidate lv s /\
    sv_threads s !! 1 = Some (mkThread RunSync 1 Pending) /\ sv_active s = None /\
    (start s).2 = Started (sr_sync_id (new_result s)).
Proof.
  destruct (race_run None lv (new_result (new_service [] lv)) _ eq_refl eq_refl eq_refl)
    as (h & f & H).
  eexists. split; [eapply play_all_steps, H|]. split; [reflexivity|]. split; reflexivity.
Qed.
End Behaviours.
