(* ===== verification/Core.v ===== *)
(** * The runtime core

    [runtime/core/generation.py], [core/engine.py], [events/bus.py] and
    [journal/mission_journal.py]: the generation counter shared by the
    processes of a data directory, the engine's life cycle with its persisted
    state, the event bus and the journal of missions. *)
From S2P Require Import Prelude Dict PyVal Effects PyPath PyStr Json Host Continuity.

(** ** The generation counter *)
(** [n + 1] on a value read from JSON *)
Definition py_succ (v : pyval) : result pyval :=
  match v with
  | VInt z => Ok (VInt (z + 1))
  | VBool b => Ok (VInt (if b then 2 else 1))
  | VFloat f => Ok (VFloat (fadd f (f_of_Z 1)))
  | _ => raise TypeError "unsupported operand type(s) for +"
  end.
Definition read_generation (v : pyval) : result pyval :=
  match v with
  | VDict d => Ok (vget_or "generation" (VInt 0) d)
  | _ => raise AttributeError "object has no attribute 'get'"
  end.
(** [_load]: text that is not JSON counts as no file. *)
Definition load_generation (f : option json_text) : result pyval :=
  match f with
  | Some (JValue v) => read_generation v
  | _ => Ok (VInt 0)
  end.
(** [increment], under the file's lock: the new file and the new generation. *)
Definition generation_json (n : pyval) (timestamp : string) : json_text :=
  JValue (VDict [("generation", n); ("incremented_at", VStr timestamp)]).
Definition increment_generation (timestamp : string) (f : option json_text)
    : option json_text * result pyval :=
  let f := default JEmpty f in
  let next := match f with
              | JValue v => let? n := read_generation v in py_succ n
              | _ => py_succ (VInt 0)
              end in
  match next with
  | Ok n => (Some (generation_json n timestamp), Ok n)
  | Raise e => (Some f, Raise e)
  end.

(** The processes of a data directory: the shared file, and the generation
    each [RuntimeGeneration] object holds. *)
Record GenWorld := mkGenWorld {
  gw_file : option json_text;
  gw_instances : gmap nat pyval;
  gw_tick : nat }.
#[export] Instance eta_GenWorld : Eta GenWorld := fun r =>
  mkGenWorld (gw_file r) (gw_instances r) (gw_tick r).
Inductive gen_op := GOpen (i : nat) | GIncrement (i : nat).
Section Generations.
Context (isoformat_at : nat -> string).
(** An operation and the generation it grants, if any. *)
Definition run_gen (op : gen_op) (w : GenWorld) : GenWorld * list pyval :=
  match op with
  | GOpen i =>
      (match load_generation (gw_file w) with
       | Ok n => w <| gw_instances := <[i := n]> (gw_instances w) |>
       | Raise _ => w
       end, [])
  | GIncrement i =>
      match gw_instances w !! i with
      | None => (w, [])
      | Some _ =>
          match increment_generation (isoformat_at (gw_tick w)) (gw_file w) with
          | (f, Ok n) => (mkGenWorld f (<[i := n]> (gw_instances w)) (S (gw_tick w)), [n])
          | (f, Raise _) => (w <| gw_file := f |>, [])
          end
      end
  end.
Fixpoint run_gens (ops : list gen_op) (w : GenWorld) : GenWorld * list pyval :=
  match ops with
  | [] => (w, [])
  | op :: ops' =>
      let '(w1, g1) := run_gen op w in
      let '(w2, g2) := run_gens ops' w1 in (w2, g1 ++ g2)
  end.

(** The file says [k] and no object holds more. *)
Definition gen_inv (k : Z) (w : GenWorld) : Prop :=
  (0 <= k)%Z /\ load_generation (gw_file w) = Ok (VInt k) /\
  (forall i v, gw_instances w !! i = Some v -> exists z, v = VInt z /\ (0 <= z <= k)%Z).

Lemma increment_next ts f k :
  load_generation f = Ok (VInt k) ->
  increment_generation ts f = (Some (generation_json (VInt (k + 1)) ts), Ok (VInt (k + 1))).
Proof.
  unfold increment_generation.
  destruct f as [[| |v]|]; unfold load_generation; intros H; simpl; [by simplify_eq..| |by simplify_eq].
  by rewrite H.
Qed.
Lemma run_gen_inv op k w :
  gen_inv k w -> exists k', gen_inv k' (run_gen op w).1 /\ (k <= k')%Z /\
    (run_gen op w).2 = (if decide (k = k') then [] else [VInt k']) /\ (k' <= k + 1)%Z /\
    forall i, (run_gen op w).2 <> [] -> op = GIncrement i ->
      gw_instances (run_gen op w).1 !! i = Some (VInt k').
Proof.
  intros (Hk & Hf & Hi). destruct op as [i|i]; simpl.
  - rewrite Hf. exists k. rewrite decide_True by done. split_and!; [split_and!|lia|done|lia|done].
    + done.
    + done.
    + intros j v. simpl. rewrite lookup_insert. case_decide; intros ?; simplify_eq; [|by eauto].
      exists k. split; [done|lia].
  - destruct (gw_instances w !! i) as [v|] eqn:E.
    + rewrite (increment_next _ _ k Hf). simpl. exists (k + 1)%Z.
      rewrite decide_False by lia. split_and!; [split_and!|lia|done|lia|].
      * lia.
      * done.
      * intros j v'. simpl. rewrite lookup_insert. case_decide; intros ?; simplify_eq.
        -- exists (k + 1)%Z. split; [done|lia].
        -- destruct (Hi j v' H0) as (z & -> & ?). exists z. split; [done|lia].
      * intros j _ [= ->]. by rewrite lookup_insert_eq.
    + exists k. rewrite decide_True by done. by split_and!; [split_and!|lia|done|lia|done].
Qed.

(** The generations granted between two states of the file. *)
Definition granted (a b : Z) : list pyval := VInt <$> seqZ (a + 1) (b - a).
Lemma run_gens_inv ops k w :
  gen_inv k w -> exists k', gen_inv k' (run_gens ops w).1 /\ (k <= k')%Z /\
    (run_gens ops w).2 = granted k k'.
Proof.
  revert k w. induction ops as [|op ops IH]; intros k w Hw; simpl.
  - exists k. split_and!; [done|lia|]. unfold granted. by rewrite Z.sub_diag.
  - destruct (run_gen_inv op k w Hw) as (k1 & H1 & Hle & Hg & Hk1 & _).
    destruct (run_gen op w) as [w1 g1]. simpl in *.
    destruct (IH k1 w1 H1) as (k2 & H2 & Hle2 & Hg2).
    destruct (run_gens ops w1) as [w2 g2]. simpl in *. exists k2. split_and!; [done|lia|].
    rewrite Hg, Hg2. unfold granted. case_decide as Hd; [by subst|].
    assert (k1 = k + 1)%Z as -> by lia. simpl.
    rewrite (seqZ_cons (k + 1) (k2 - k)) by lia. csimpl. do 3 f_equal; lia.
Qed.

End Generations.

(** ** The engine *)
Inductive RuntimeState :=
  | STARTING | VERIFYING | RS_READY | WAITING_FOR_SESSION | DRAINING | STOPPED | RS_ERROR
  | ADMIN_MODE.
#[export] Instance RuntimeState_eq_dec : EqDecision RuntimeState.
Proof. solve_decision. Defined.
Definition runtime_state_name (s : RuntimeState) : string :=
  match s with
  | STARTING => "STARTING" | VERIFYING => "VERIFYING" | RS_READY => "READY"
  | WAITING_FOR_SESSION => "WAITING_FOR_SESSION" | DRAINING => "DRAINING"
  | STOPPED => "STOPPED" | RS_ERROR => "ERROR" | ADMIN_MODE => "ADMIN_MODE"
  end.

(** The engine's state, its generation, the files of its data directory (the
    continuity files are inside the continuity engine's state), its warnings,
    and which of the coming writes of the state file fail. *)
Record CoreSt := mkCore {
  co_state : RuntimeState;
  co_generation : pyval;
  co_gen_file : option json_text;
  co_state_file : option json_text;
  co_continuity : Engine;
  co_initialised : bool;
  co_report : option bool;
  co_warnings : list string;
  co_tick : nat;
  co_faults : list bool }.
#[export] Instance eta_CoreSt : Eta CoreSt := fun r =>
  mkCore (co_state r) (co_generation r) (co_gen_file r) (co_state_file r) (co_continuity r)
    (co_initialised r) (co_report r) (co_warnings r) (co_tick r) (co_faults r).

Section RuntimeEngine.
Context (isoformat_at : nat -> string) (records_path events_path : string).
(** The three-plane bootstrap on the loaded journal: readiness, or an
    exception. *)
Context (resolve : Engine -> result bool).

(** [RuntimeEngine(config)] *)
Definition new_core (gen_file state_file : option json_text) (files : Engine)
    (faults : list bool) : result CoreSt :=
  let? g := load_generation gen_file in
  Ok (mkCore STOPPED g gen_file state_file files false None [] 0 faults).

(** [_persist_state]: a temporary file renamed over the state file. *)
Definition state_json (s : CoreSt) (clean : bool) (timestamp : string) : json_text :=
  JValue (VDict [("schema_version", VInt 1); ("generation", co_generation s);
                 ("state", VStr (runtime_state_name (co_state s)));
                 ("clean_shutdown", VBool clean); ("timestamp", VStr timestamp)]).
Definition persist_state (clean : bool) : M CoreSt unit := fun s =>
  let s' := (s <| co_tick := S (co_tick s) |>) <| co_faults := tl (co_faults s) |> in
  match co_faults s with
  | true :: _ => (s', raise OSError "write failed")
  | _ => (s' <| co_state_file := Some (state_json s clean (isoformat_at (co_tick s))) |>, Ok tt)
  end.
Definition set_core_state (st : RuntimeState) : M CoreSt unit :=
  modify (fun s => s <| co_state := st |>).
Definition warn (msg : string) : M CoreSt unit :=
  modify (fun s => s <| co_warnings := co_warnings s ++ [msg] |>).

(** [RuntimeGeneration.increment] *)
Definition bump_generation : M CoreSt unit := fun s =>
  match increment_generation (isoformat_at (co_tick s)) (co_gen_file s) with
  | (f, Ok n) => (((s <| co_gen_file := f |>) <| co_generation := n |>)
                    <| co_tick := S (co_tick s) |>, Ok tt)
  | (f, Raise e) => (s <| co_gen_file := f |>, Raise e)
  end.

(** Whether the state file says the last termination was clean. *)
Definition previous_clean (f : option json_text) : bool :=
  match f with
  | None => true
  | Some (JValue (VDict d)) => truthy (vget_or "clean_shutdown" (VBool false) d)
  | Some _ => false
  end.

Definition ready_state (ready : bool) : RuntimeState :=
  if ready then WAITING_FOR_SESSION else ADMIN_MODE.
(** Resolve the bootstrap and take the state it leads to. *)
Definition derive_state : M CoreSt unit :=
  c ← gets co_continuity;
  ready ← of_result (resolve c);
  modify (fun s => s <| co_report := Some ready |>) ;;
  set_core_state (ready_state ready) ;;
  persist_state false.
(** [except Exception as e: state = ERROR; persist; raise e] *)
Definition fail_engine (e : exn) : M CoreSt unit :=
  set_core_state RS_ERROR ;; persist_state false ;; rethrow e.

Definition startup : M CoreSt unit :=
  set_core_state STARTING ;;
  bump_generation ;;
  persist_state false ;;
  try_with
    (modify (fun s => s <| co_initialised := true |>) ;;
     zoom co_continuity (fun c s => s <| co_continuity := c |>) (load records_path events_path) ;;
     f ← gets co_state_file;
     when (negb (previous_clean f))
       (warn "Abnormal termination detected! Requires reconciliation.") ;;
     derive_state)
    fail_engine.
Definition verify_runtime : M CoreSt unit :=
  set_core_state VERIFYING ;;
  persist_state false ;;
  try_with derive_state fail_engine.
(** [shutdown]: draining, closing and flushing change nothing modelled. *)
Definition shutdown : M CoreSt unit :=
  set_core_state DRAINING ;;
  set_core_state STOPPED ;;
  persist_state true.
Definition health_check (s : CoreSt) : dict string pyval :=
  [("status", VStr "ok"); ("generation", co_generation s);
   ("subsystems", VDict [("identity", VStr "ok"); ("journal", VStr "ok");
                         ("execution", VStr "ok")])].

Inductive core_op := CStartup | CVerify | CShutdown.
Definition run_core (op : core_op) (s : CoreSt) : CoreSt * result unit :=
  match op with CStartup => startup s | CVerify => verify_runtime s | CShutdown => shutdown s end.
Definition run_cores (ops : list core_op) (s : CoreSt) : CoreSt :=
  foldl (fun s op => (run_core op s).1) s ops.

(** What the state file says of the engine. *)
Definition disk_agrees (s : CoreSt) : Prop :=
  exists clean ts, co_state_file s = Some (state_json s clean ts) /\
    clean = bool_decide (co_state s = STOPPED).
Definition gen_ready (k : Z) (s : CoreSt) : Prop :=
  load_generation (co_gen_file s) = Ok (VInt k) /\ co_generation s = VInt k /\ co_faults s = [].

Lemma persist_ok clean s : co_faults s = [] -> clean = bool_decide (co_state s = STOPPED) ->
  exists s', persist_state clean s = (s', Ok tt) /\ disk_agrees s' /\ co_state s' = co_state s /\
    co_generation s' = co_generation s /\ co_gen_file s' = co_gen_file s /\ co_faults s' = [] /\
    co_continuity s' = co_continuity s /\ co_warnings s' = co_warnings s /\
    co_report s' = co_report s.
Proof.
  intros Hf Hc. unfold persist_state. rewrite Hf. eexists. split; [done|].
  split_and!; try done. by exists clean, (isoformat_at (co_tick s)).
Qed.

(** The outcome of deriving the state, an exception included. *)
Definition derived (s s' : CoreSt) (r : result unit) : Prop :=
  disk_agrees s' /\ co_generation s' = co_generation s /\ co_gen_file s' = co_gen_file s /\
  co_faults s' = [] /\ co_warnings s' = co_warnings s /\ co_continuity s' = co_continuity s /\
  match resolve (co_continuity s) with
  | Ok ready => r = Ok tt /\ co_report s' = Some ready /\
      co_state s' = ready_state ready
  | Raise e => r = Raise e /\ co_state s' = RS_ERROR
  end.
Lemma derive_or_fail s : co_faults s = [] ->
  wp (try_with derive_state fail_engine) s (derived s).
Proof.
  intros Hf. unfold derived. apply wp_try_with. unfold derive_state.
  apply wp_bind, wp_gets, wp_bind, wp_of_result.
  destruct (resolve (co_continuity s)) as [ready|e] eqn:Er.
  - apply wp_bind, wp_modify, wp_bind, wp_modify.
    match goal with |- wp _ ?s1 _ => destruct (persist_ok false s1 Hf) as
      (s2 & E & Hd & Hst & Hg & Hgf & Hfa & Hc & Hw & Hr) end; [by destruct ready|].
    unfold wp. rewrite E. split_and!; try done.
  - unfold fail_engine. apply wp_bind, wp_modify, wp_bind.
    match goal with |- wp _ ?s1 _ => destruct (persist_ok false s1 Hf eq_refl) as
      (s2 & E & Hd & Hst & Hg & Hgf & Hfa & Hc & Hw & Hr) end.
    unfold wp at 1. rewrite E. unfold wp, rethrow. split_and!; done.
Qed.

Definition abnormal : string := "Abnormal termination detected! Requires reconciliation.".
(** What a startup does on a readable counter, when its writes succeed. *)
Lemma startup_wp k s : gen_ready k s ->
  wp startup s (fun s' r => gen_ready (k + 1) s' /\ disk_agrees s' /\
    co_warnings s' = co_warnings s ++ [abnormal] /\
    exists e', load records_path events_path (co_continuity s) = (e', Ok tt) /\
      match resolve e' with
      | Ok ready => r = Ok tt /\ co_state s' = ready_state ready
      | Raise e => r = Raise e /\ co_state s' = RS_ERROR
      end).
Proof.
  intros (Hg & Hc & Hf). unfold startup. apply wp_bind, wp_modify, wp_bind.
  unfold wp at 1, bump_generation. simpl. rewrite (increment_next _ _ k Hg).
  apply wp_bind.
  match goal with |- wp _ ?s1 _ => destruct (persist_ok false s1 Hf eq_refl) as
    (s2 & E & Hd & Hst & Hg2 & Hgf & Hfa & Hc2 & Hw & Hr) end.
  unfold wp at 1. rewrite E. clear E. simpl in *.
  assert (co_state s2 <> STOPPED) as Hns by (by rewrite Hst).
  assert (forall s3, co_state_file s3 = co_state_file s2 ->
    previous_clean (co_state_file s3) = false) as Hprev.
  { intros s3 ->. destruct Hd as (clean & ts & -> & ->). by rewrite bool_decide_eq_false_2. }
  apply wp_try_with. apply wp_bind, wp_modify, wp_bind, wp_zoom. simpl.
  destruct (load_run records_path events_path (co_continuity s2)) as (e' & He & _).
  unfold wp at 1. rewrite He. apply wp_bind, wp_gets. rewrite Hprev by done. simpl.
  unfold when, warn. simpl. apply wp_bind, wp_modify.
  match goal with |- wp _ ?s3 _ => pose proof (derive_or_fail s3 Hfa) as W end.
  unfold wp, try_with in W.
  unfold wp at 1. destruct (derive_state _) as [s4 [[]|e]].
  - destruct W as (H1 & H2 & H3 & H4 & H5 & H6 & H7). simpl in *.
    split_and!; [|done|by rewrite H5, Hw|].
    + unfold gen_ready. rewrite H3, Hgf, H2, Hg2. done.
    + exists e'. rewrite <- Hc2. split; [done|]. destruct (resolve e'); naive_solver.
  - unfold wp. destruct (fail_engine e s4) as [s5 r5].
    destruct W as (H1 & H2 & H3 & H4 & H5 & H6 & H7). simpl in *.
    split_and!; [|done|by rewrite H5, Hw|].
    + unfold gen_ready. rewrite H3, Hgf, H2, Hg2. done.
    + exists e'. rewrite <- Hc2. split; [done|]. destruct (resolve e'); naive_solver.
Qed.

Lemma run_core_agrees op k s : gen_ready k s ->
  gen_ready (match op with CStartup => k + 1 | _ => k end) (run_core op s).1 /\
  disk_agrees (run_core op s).1.
Proof.
  intros Hr. destruct op; simpl.
  - pose proof (startup_wp k s Hr) as W. unfold wp in W. destruct (startup s). simpl. naive_solver.
  - destruct Hr as (Hg & Hc & Hf).
    assert (wp verify_runtime s (fun s' _ => gen_ready k s' /\ disk_agrees s')) as W.
    { unfold verify_runtime. apply wp_bind, wp_modify, wp_bind.
      match goal with |- wp _ ?s1 _ => destruct (persist_ok false s1 Hf eq_refl) as
        (s2 & E & Hd & Hst & Hg2 & Hgf & Hfa & _) end.
      unfold wp at 1. rewrite E. eapply wp_mono; [by apply derive_or_fail|].
      intros s' r (H1 & H2 & H3 & H4 & _). simpl in *.
      split; [|done]. unfold gen_ready. by rewrite H3, Hgf, H2, Hg2. }
    unfold wp in W. by destruct (verify_runtime s).
  - destruct Hr as (Hg & Hc & Hf). unfold shutdown, set_core_state, mbind, M_bind, modify. simpl.
    match goal with |- context [persist_state true ?s1] =>
      destruct (persist_ok true s1 Hf eq_refl) as (s2 & E & Hd & Hst & Hg2 & Hgf & Hfa & _) end.
    rewrite E. simpl. split; [|done]. unfold gen_ready. by rewrite Hgf, Hg2.
Qed.

Definition startups (ops : list core_op) : Z :=
  Z.of_nat (length (filter (fun op => match op with CStartup => true | _ => false end = true) ops)).

(** On a fresh data directory whose writes succeed, after any sequence of
    startups, verifications and shutdowns, failures of the bootstrap
    included, the state file holds the engine's state, says clean exactly when
    the last one was a shutdown, and the generation counts the startups. *)
Theorem engine_state_persisted files ops op :
  exists s0, new_core None None files [] = Ok s0 /\
    disk_agrees (run_cores (ops ++ [op]) s0) /\
    co_generation (run_cores (ops ++ [op]) s0) = VInt (startups (ops ++ [op])).
Proof.
  eexists. split; [done|]. set (s0 := mkCore _ _ _ _ _ _ _ _ _ _).
  assert (forall l, gen_ready (startups l) (run_cores l s0)) as H.
  { intros l. induction l as [|o l IH] using rev_ind; [done|]. unfold run_cores.
    rewrite foldl_app. simpl. destruct (run_core_agrees o _ _ IH) as [H _].
    replace (startups (l ++ [o])) with (match o with CStartup => (startups l + 1)%Z
      | _ => startups l end); [done|].
    unfold startups. rewrite filter_app, length_app, Nat2Z.inj_add.
    destruct o; [done|apply (eq_sym (Z.add_0_r _))..]. }
  split; [|by destruct (H (ops ++ [op])) as (_ & ? & _)].
  unfold run_cores. rewrite foldl_app. simpl. by eapply run_core_agrees, H.
Qed.

(** Every startup reports an abnormal termination, even after a clean
    shutdown: the state file it inspects is the one it has just written with
    clean_shutdown false. *)
Theorem startup_always_abnormal k s :
  gen_ready k s ->
  wp startup s (fun s' _ => co_warnings s' = co_warnings s ++ [abnormal]).
Proof. intros H. eapply wp_mono; [by eapply startup_wp|]. naive_solver. Qed.

(** A startup obtains the next generation, loads the journal, and ends
    waiting for a session exactly when the bootstrap finds the system
    ready, in administration mode when it does not, and in error with the
    bootstrap's exception when it fails. *)
Theorem startup_outcome k s :
  gen_ready k s ->
  wp startup s (fun s' r => co_generation s' = VInt (k + 1) /\
    exists e', load records_path events_path (co_continuity s) = (e', Ok tt) /\
      match resolve e' with
      | Ok true => r = Ok tt /\ co_state s' = WAITING_FOR_SESSION
      | Ok false => r = Ok tt /\ co_state s' = ADMIN_MODE
      | Raise e => r = Raise e /\ co_state s' = RS_ERROR
      end).
Proof.
  intros H. eapply wp_mono; [by eapply startup_wp|].
  intros s' r ((_ & Hg & _) & _ & _ & e' & He & Hr). split; [done|]. exists e'. split; [done|].
  by destruct (resolve e') as [[]|].
Qed.
End RuntimeEngine.

(** ** The event bus *)
Inductive EventType :=
  | SESSION_ATTACHED | SESSION_DETACHED | WORKSPACE_CREATED | WORKSPACE_READY
  | WORKSPACE_DESTROYED | PROCESS_STARTED | PROCESS_OUTPUT | PROCESS_EXITED
  | EXECUTION_STARTED | EXECUTION_COMPLETED | EXECUTION_FAILED | RUNTIME_HEALTH_CHANGED
  | UPDATE_AVAILABLE | UPDATE_COMPLETED | UPDATE_FAILED | RUNTIME_STARTED | RUNTIME_STOPPING
  | RUNTIME_RECOVERY | GENERATION_INCREMENTED | BOOTSTRAP_STARTED | GITHUB_DISCOVERED
  | ORGANIZATION_DISCOVERED | REPOSITORIES_DISCOVERED | OPERATIONAL_REPOSITORY_RESOLVED
  | CANONICAL_STATE_LOADED | CURRENT_MISSION_RESOLVED | BLOCKERS_LOADED | NEXT_ACTION_LOADED
  | CONTINUITY_RECONCILED | BOOTSTRAP_COMPLETED.
#[export] Instance EventType_eq_dec : EqDecision EventType.
Proof. solve_decision. Defined.
Record Event := mkEv {
  e_type : EventType; e_source : string; e_tenant_id : option string;
  e_account_id : option string; e_project_id : option string;
  e_payload : dict string pyval; e_timestamp : pyfloat }.

(** Handlers are compared by identity: a number each. *)
Record EventBus := mkBus {
  bus_subscribers : dict EventType (list nat);
  bus_history : list Event }.
#[export] Instance eta_EventBus : Eta EventBus := fun r =>
  mkBus (bus_subscribers r) (bus_history r).
Definition history_limit : nat := 100.
Definition handlers_of (t : EventType) (b : EventBus) : list nat :=
  default [] (dget t (bus_subscribers b)).
Definition subscribe (t : EventType) (h : nat) (b : EventBus) : EventBus :=
  let hs := handlers_of t b in
  b <| bus_subscribers := dset t (if bool_decide (h ∈ hs) then hs else hs ++ [h])
                            (bus_subscribers b) |>.
(** [list.remove]: the first occurrence *)
Fixpoint remove_first (h : nat) (l : list nat) : list nat :=
  match l with
  | [] => []
  | x :: l' => if decide (x = h) then l' else x :: remove_first h l'
  end.
Definition unsubscribe (t : EventType) (h : nat) (b : EventBus) : EventBus :=
  match dget t (bus_subscribers b) with
  | Some hs => b <| bus_subscribers := dset t (remove_first h hs) (bus_subscribers b) |>
  | None => b
  end.

(** [l[-n:]] for an integer [n] *)
Definition last_n {A} (n : Z) (l : list A) : list A :=
  if (n =? 0)%Z then l
  else if (0 <? n)%Z then drop (length l - Z.to_nat n) l
  else drop (Z.to_nat (- n)) l.

(** [emit], the handlers acting on a state of their own and not on the bus:
    their exceptions are swallowed. *)
Definition emit {S} (run : nat -> Event -> M S unit) (ev : Event) (b : EventBus) (s : S)
    : EventBus * S :=
  let history := bus_history b ++ [ev] in
  let history := if (history_limit <? length history)%nat
                 then last_n (Z.of_nat history_limit) history else history in
  (b <| bus_history := history |>,
   foldl (fun s h => (run h ev s).1) s (handlers_of (e_type ev) b)).
Definition history (t : option EventType) (limit : Z) (b : EventBus) : list Event :=
  last_n limit (match t with
                | Some t => filter (fun e => e_type e = t) (bus_history b)
                | None => bus_history b
                end).

Section Bus.
Context {S : Type} (run : nat -> Event -> M S unit).
Inductive bus_op := BSubscribe (t : EventType) (h : nat) | BUnsubscribe (t : EventType) (h : nat)
  | BEmit (ev : Event).
Definition run_bus (bs : EventBus * S) (op : bus_op) : EventBus * S :=
  match op with
  | BSubscribe t h => (subscribe t h bs.1, bs.2)
  | BUnsubscribe t h => (unsubscribe t h bs.1, bs.2)
  | BEmit ev => emit run ev bs.1 bs.2
  end.
Definition emitted (ops : list bus_op) : list Event :=
  omap (fun op => match op with BEmit ev => Some ev | _ => None end) ops.

Lemma last_n_nat {A} n (l : list A) : n <> 0 -> last_n (Z.of_nat n) l = drop (length l - n) l.
Proof.
  intros Hn. unfold last_n. destruct (Z.eqb_spec (Z.of_nat n) 0); [lia|].
  destruct (Z.ltb_spec 0 (Z.of_nat n)); [|lia]. by rewrite Nat2Z.id.
Qed.
Lemma last_n_app {A} n (l l' : list A) : n <> 0 ->
  last_n (Z.of_nat n) (last_n (Z.of_nat n) l ++ l') = last_n (Z.of_nat n) (l ++ l').
Proof.
  intros Hn. rewrite !last_n_nat by done. rewrite !length_app, length_drop.
  rewrite <- drop_app_le by lia. rewrite drop_drop. f_equal. lia.
Qed.
Lemma last_n_short {A} n (l : list A) : n <> 0 -> length l <= n -> last_n (Z.of_nat n) l = l.
Proof.
  intros Hn H. rewrite last_n_nat by done. by replace (length l - n) with 0 by lia.
Qed.

Lemma dget_dset_handlers t t' hs b :
  handlers_of t' (b <| bus_subscribers := dset t hs (bus_subscribers b) |>)
  = if decide (t = t') then hs else handlers_of t' b.
Proof. unfold handlers_of. simpl. rewrite dget_dset. by case_decide. Qed.
Lemma remove_first_NoDup h l : NoDup l -> NoDup (remove_first h l) /\ remove_first h l ⊆ l.
Proof.
  induction l as [|x l IH]; intros Hl; [done|]. apply NoDup_cons in Hl as [Hx Hl].
  simpl. destruct (IH Hl) as [H1 H2]. case_decide; [split; [done|set_solver]|].
  split; [|set_solver]. apply NoDup_cons. set_solver.
Qed.

Lemma emit_history {T} (f : nat -> Event -> M T unit) ev b s :
  bus_history (emit f ev b s).1 = last_n (Z.of_nat history_limit) (bus_history b ++ [ev]).
Proof.
  unfold emit. cbv zeta. cbn [fst setter bus_history eta eta_EventBus].
  destruct (history_limit <? _)%nat eqn:E; [done|]. apply Nat.ltb_ge in E.
  by rewrite last_n_short.
Qed.

(** The calls a sequence of operations makes. *)
Definition log_call (h : nat) (ev : Event) : M (list (nat * Event)) unit := fun l =>
  (l ++ [(h, ev)], Ok tt).

(** Whatever is subscribed, unsubscribed and emitted, no handler is
    subscribed twice to a type, the history is the last hundred events, and an
    emission calls each handler of its type once, in order, whether or not
    the ones before raise. *)
Theorem bus_invariant ops s :
  let b := (foldl run_bus (mkBus [] [], s) ops).1 in
  (forall t, NoDup (handlers_of t b)) /\
  bus_history b = last_n (Z.of_nat history_limit) (emitted ops) /\
  forall ev, (emit log_call ev b []).2 = (fun h => (h, ev)) <$> handlers_of (e_type ev) b.
Proof.
  intros b. split; [|split].
  - subst b. induction ops as [|op ops IH] using rev_ind; [intros t; apply NoDup_nil_2|].
    rewrite foldl_app. simpl. destruct (foldl _ _ ops) as [b s1]. simpl in IH.
    intros t'. destruct op as [t h|t h|ev]; simpl.
    + unfold subscribe. rewrite dget_dset_handlers. case_decide as E; [|by apply IH].
      case_bool_decide as Hh; [by apply IH|]. apply NoDup_app. split; [by apply IH|].
      split; [set_solver|apply NoDup_singleton].
    + unfold unsubscribe. destruct (dget t _) as [hs|] eqn:E; [|by apply IH].
      rewrite dget_dset_handlers. case_decide as Et; [|by apply IH].
      assert (NoDup hs) as Hh by (specialize (IH t); unfold handlers_of in IH; by rewrite E in IH).
      by apply remove_first_NoDup.
    + apply IH.
  - subst b. induction ops as [|op ops IH] using rev_ind; [done|].
    unfold emitted in *. rewrite foldl_app, omap_app. simpl.
    destruct (foldl _ _ ops) as [b s1]. simpl in IH.
    destruct op as [t h|t h|ev]; [by rewrite app_nil_r| |].
    + rewrite app_nil_r. unfold run_bus, unsubscribe. by destruct (dget t _).
    + change (omap _ [BEmit ev]) with [ev]. cbn [run_bus fst snd].
      by rewrite emit_history, IH, last_n_app.
  - intros ev. unfold emit. cbn [snd]. clearbody b. generalize (handlers_of (e_type ev) b) as hs.
    intros hs. change (fmap (fun h => (h, ev)) hs) with ([] ++ fmap (fun h => (h, ev)) hs).
    generalize ([] : list (nat * Event)) as l. induction hs as [|h hs IH]; intros l.
    + by rewrite app_nil_r.
    + cbn [foldl]. rewrite IH. csimpl. rewrite <- app_assoc. done.
Qed.

(** History with limit zero returns every event: the slice [-0:] is the
    whole list. *)
Theorem history_limit_zero b : history None 0 b = bus_history b.
Proof. done. Qed.
End Bus.

(** ** The mission journal *)
Record MissionJournalEntry := mkMission {
  mj_entry_id : string; mj_timestamp : string; mj_event_type : string; mj_mission_id : string;
  mj_actor : string; mj_payload : dict string pyval }.
Record MissionJournal := mkMissionJournal {
  mj_entries : list MissionJournalEntry;
  mj_file : list (line MissionJournalEntry) }.
(** [MissionJournal(data_dir)], [load]: lines that do not load are skipped. *)
Definition open_missions (file : list (line MissionJournalEntry)) : MissionJournal :=
  mkMissionJournal (goods file) file.
Definition record_mission (entry_id timestamp event_type mission_id actor : string)
    (payload : option (dict string pyval)) (j : MissionJournal)
  : MissionJournal * MissionJournalEntry :=
  let e := mkMission entry_id timestamp event_type mission_id actor (default [] payload) in
  (mkMissionJournal (mj_entries j ++ [e]) (mj_file j ++ [LGood e]), e).
Definition get_mission_events (mission_id : string) (j : MissionJournal)
  : list MissionJournalEntry := filter (fun e => mj_mission_id e = mission_id) (mj_entries j).

(** Reopening a mission journal after any recordings gives the entries it
    held, in order, and a mission's entries are found by its id. *)
Theorem missions_durable file recs :
  let j := foldl (fun j r => (record_mission r.1.1.1.1 r.1.1.1.2 r.1.1.2 r.1.2 r.2.1 r.2.2 j).1)
             (open_missions file) recs in
  open_missions (mj_file j) = j.
Proof.
  induction recs as [|r recs IH] using rev_ind; [done|]. simpl in *. rewrite foldl_app. simpl.
  set (j := foldl _ _ recs) in *. unfold open_missions in *. simpl.
  rewrite goods_app. destruct j as [es f]. simpl in *. injection IH as IH. by rewrite IH.
Qed.
