(* ===== verification/Bootstrap.v ===== *)
(** * The three-plane bootstrap

    [runtime/bootstrap/gates.py], [report.py] and [planes.py]: the readiness
    gates over GitHub, the repository fabric and the runtime's own control
    plane, the report they fill, and the verdict; with the engine of [Core],
    whose startup runs it.  The identity directory and the data directory do not
    change during a bootstrap; every network answer may.  The dash of some details
    is written as a hyphen. *)
From S2P Require Import Prelude Dict PyVal Effects PyPath PyStr PyBytes Json JsonLoad ExecModels Host.
From S2P Require Import Config Identity Keys Github Fabric Registry Inventory Continuity Core.

(** ** Gates *)
Inductive ReadinessGate :=
  | RUNTIME_IDENTITY | GITHUB_CONNECTED | GITHUB_ORG_BOUND | FABRIC_REACHABLE
  | FABRIC_IDENTITY_VERIFIED | FABRIC_TRUST_VERIFIED | FABRIC_TENANT_BOUND
  | FABRIC_STATE_READABLE | FABRIC_PROVENANCE_VALID | FABRIC_NODE_AT_REMOTE_HEAD
  | RUNTIME_REACHABLE | RUNTIME_HEALTH_VERIFIED | RUNTIME_BINDING_VERIFIED | RUNTIME_ADMITTED
  | PLANE_RECONCILIATION | POLICY_SNAPSHOT_FRESH | CONTRACTS_DISCOVERED
  | CAPABILITIES_INVENTORIED | TOOLS_INVENTORIED | MODELS_INVENTORIED | WORKERS_INVENTORIED
  | CONNECTORS_INVENTORIED | CRITICAL_ACCESS_VERIFIED | DELEGATION_CONTEXT_BUILT
  | CONTINUITY_COHERENT.
#[export] Instance ReadinessGate_eq_dec : EqDecision ReadinessGate.
Proof. solve_decision. Defined.
Definition MANDATORY_GATES : list ReadinessGate :=
  [RUNTIME_IDENTITY; GITHUB_CONNECTED; GITHUB_ORG_BOUND; FABRIC_REACHABLE;
   FABRIC_IDENTITY_VERIFIED; FABRIC_TRUST_VERIFIED; FABRIC_TENANT_BOUND; FABRIC_STATE_READABLE;
   FABRIC_PROVENANCE_VALID; FABRIC_NODE_AT_REMOTE_HEAD; RUNTIME_REACHABLE;
   RUNTIME_HEALTH_VERIFIED; RUNTIME_BINDING_VERIFIED; RUNTIME_ADMITTED; PLANE_RECONCILIATION;
   POLICY_SNAPSHOT_FRESH; CONTRACTS_DISCOVERED; CAPABILITIES_INVENTORIED; TOOLS_INVENTORIED;
   MODELS_INVENTORIED; WORKERS_INVENTORIED; CONNECTORS_INVENTORIED; CRITICAL_ACCESS_VERIFIED;
   DELEGATION_CONTEXT_BUILT; CONTINUITY_COHERENT].
(** The evidence is a text, except where it is taken from a JSON answer. *)
Record GateResult := mkGate {
  gr_gate : ReadinessGate; gr_passed : bool; gr_detail : string; gr_evidence : pyval }.

(** ** The report *)
Record BootstrapReport := mkBootReport {
  br_anny_ready : bool;
  br_runtime_id : string;
  br_fabric_node : pyval;
  br_started_at : string;
  br_completed_at : option string;
  br_gates : list GateResult;
  br_policy_revision : pyval;
  br_admission_status : string;
  br_reconciliation_status : string;
  br_limits_verified : bool;
  br_capabilities : ComponentInventory;
  br_tools : ComponentInventory;
  br_models : ComponentInventory;
  br_workers : ComponentInventory;
  br_connectors : ComponentInventory }.
#[export] Instance eta_BootstrapReport : Eta BootstrapReport := fun r =>
  mkBootReport (br_anny_ready r) (br_runtime_id r) (br_fabric_node r) (br_started_at r)
    (br_completed_at r) (br_gates r) (br_policy_revision r) (br_admission_status r)
    (br_reconciliation_status r) (br_limits_verified r) (br_capabilities r) (br_tools r)
    (br_models r) (br_workers r) (br_connectors r).
Definition new_report (started_at : string) : BootstrapReport :=
  mkBootReport false "UNKNOWN" (VStr "UNKNOWN") started_at None [] (VStr "UNKNOWN") "UNKNOWN"
    "UNKNOWN" false empty_inventory empty_inventory empty_inventory empty_inventory
    empty_inventory.
Definition add_result (g : GateResult) (r : BootstrapReport) : BootstrapReport :=
  r <| br_gates := br_gates r ++ [g] |>.
Definition finish_report (ready : bool) (now : string) (r : BootstrapReport) : BootstrapReport :=
  (r <| br_anny_ready := ready |>) <| br_completed_at := Some now |>.
Definition not_evaluated (g : ReadinessGate) : GateResult := mkGate g false "Not evaluated" VNone.
(** The first result of a gate. *)
Fixpoint find_gate (g : ReadinessGate) (l : list GateResult) : GateResult :=
  match l with
  | [] => not_evaluated g
  | r :: l' => if decide (gr_gate r = g) then r else find_gate g l'
  end.
Definition get_gate (g : ReadinessGate) (r : BootstrapReport) : GateResult :=
  find_gate g (br_gates r).

(** ** The bootstrap *)
(** The environment: the fabric's network and clock, the model registry's host,
    which modules import, the files with the working directory, the order of
    the set of critical capabilities, and the text of a latency. *)
Class BootEnv := {
  boot_fabric :: FabricEnv;
  boot_registry :: RegistryIO;
  boot_config :: ConfigEnv;
  importable : string -> bool;
  boot_files : fs;
  boot_cwd : string;
  critical_order : list string;
  format_ms : pyfloat -> string;
  boot_started : string;
  boot_completed : string }.

(** The engine's arguments: the identity directory is a snapshot; the two
    bindings are those of the configuration, if there is one. *)
Record ThreePlaneBootstrap := mkBootstrap {
  tp_data_dir : string;
  tp_identity : KeyDir;
  tp_github : option GitHubClient;
  tp_fabric : option GitHubFabricAdapter;
  tp_continuity : option Engine;
  tp_config_org : option string;
  tp_config_repo : option string;
  tp_admin_host : string;
  tp_admin_port : Z;
  tp_capabilities : option CapabilityRegistry;
  tp_tools : option (list string);
  tp_models : option (list ModelDefinition);
  tp_workers : bool }.

(** [int(s)]: white space around, a sign, single underscores between digits. *)
Fixpoint digits_between (after : bool) (acc : Z) (s : string) : option Z :=
  match s with
  | "" => if after then Some acc else None
  | String c s' =>
      if decimal_digit c
      then digits_between true (acc * 10 + Z.of_N (N_of_ascii c - 48)) s'
      else if Ascii.eqb c "_" && after then digits_between false acc s' else None
  end.
Definition int_text (s : string) : option Z :=
  match strip s with
  | String "-" s' => Z.opp <$> digits_between false 0 s'
  | String "+" s' => digits_between false 0 s'
  | s' => digits_between false 0 s'
  end.

Section Bootstrap.
Context {env : BootEnv}.

Definition ADMIN_HOST : string := "127.0.0.1".
(** A binding of the configuration is a text or None. *)
Definition config_text (v : pyval) : result (option string) :=
  match v with
  | VNone => Ok None
  | VStr s => Ok (Some s)
  | _ => raise Unmodelled "a fabric binding of another type"
  end.
Definition admin_host_of (config : option (dict string pyval)) : string :=
  match vget "admin_host" (default [] config) with
  | VStr s => str_or s ADMIN_HOST
  | _ => ADMIN_HOST
  end.
Definition admin_port_of (config : option (dict string pyval)) : result Z :=
  match vget "admin_port" (default [] config) with
  | VInt z => Ok z
  | VBool b => Ok (if b then 1 else 0)%Z
  | VStr s => match int_text s with Some z => Ok z | None => get_admin_port end
  | _ => get_admin_port
  end.
(** [ThreePlaneBootstrap(...)] *)
Definition new_bootstrap (data_dir : string) (identity : KeyDir) (github : option GitHubClient)
    (fabric : option GitHubFabricAdapter) (continuity : option Engine)
    (config : option (dict string pyval)) (capabilities : option CapabilityRegistry)
    (tools : option (list string)) (models : option (list ModelDefinition)) (workers : bool)
    : result ThreePlaneBootstrap :=
  let? port := admin_port_of config in
  let? org := config_text (vget "fabric_org" (default [] config)) in
  let? repo := config_text (vget "fabric_repo" (default [] config)) in
  Ok (mkBootstrap data_dir identity github fabric continuity org repo (admin_host_of config) port
        capabilities tools models workers).

Definition admin_url (b : ThreePlaneBootstrap) (path : string) : string :=
  let clean_path := if startswith "/" path then path else "/" +:+ path in
  "http://" +:+ tp_admin_host b +:+ ":" +:+ zstr (tp_admin_port b) +:+ clean_path.

(** The state: the requests sent and the report. *)
Record BootSt := mkBoot { bt_net : Net; bt_report : BootstrapReport }.
Definition set_report (f : BootstrapReport -> BootstrapReport) : M BootSt unit :=
  modify (fun s => mkBoot (bt_net s) (f (bt_report s))).
Definition net {A} (m : M Net A) : M BootSt A :=
  zoom bt_net (fun n s => mkBoot n (bt_report s)) m.
(** [report.add_result(GateResult(...))], then [return passed] *)
Definition conclude_gate (g : ReadinessGate) (passed : bool) (detail : string) (evidence : pyval)
    : M BootSt bool :=
  set_report (add_result (mkGate g passed detail evidence)) ;; mret passed.
Definition fail_gate (g : ReadinessGate) (detail : string) : M BootSt bool :=
  conclude_gate g false detail VNone.
Definition unmet (g : ReadinessGate) : M BootSt bool := fail_gate g "Prerequisites not met".
(** [except Exception as e] of a gate *)
Definition guarded (g : ReadinessGate) (m : M BootSt bool) : M BootSt bool :=
  except_all m (fun e => fail_gate g (exn_str e)).
(** [except FabricError as e] of a gate *)
Definition fabric_guarded (g : ReadinessGate) (m : M BootSt bool) : M BootSt bool :=
  try_with m (fun e => match exn_type e with
                       | FabricError => fail_gate g (exn_str e)
                       | _ => rethrow e
                       end).

Implicit Type b : ThreePlaneBootstrap.

(** *** The local identity and GitHub *)
Definition gate_runtime_identity b : M BootSt (option RuntimeIdentity) :=
  match load_identity (tp_identity b) with
  | Ok i =>
      conclude_gate RUNTIME_IDENTITY true "Identity loaded from disk" (VStr (ri_runtime_id i)) ;;
      mret (Some i)
  | Raise (Exn Unmodelled msg) => throw Unmodelled msg
  | Raise e => fail_gate RUNTIME_IDENTITY (exn_str e) ;; mret None
  end.
Definition gate_github_connected b : M BootSt bool :=
  match tp_github b with
  | None => fail_gate GITHUB_CONNECTED "No GitHub client provided"
  | Some c =>
      try_with
        (principal ← net (get_authenticated_principal c);
         login ← of_result (py_get "login" (VStr "UNKNOWN") principal);
         conclude_gate GITHUB_CONNECTED true "Authenticated" login)
        (fun e => match exn_type e with
                  | GitHubAuthError => fail_gate GITHUB_CONNECTED ("Auth error: " +:+ exn_str e)
                  | Unmodelled => rethrow e
                  | _ => fail_gate GITHUB_CONNECTED (exn_str e)
                  end)
  end.
(** The organization required, and the logins of an answer, which are texts. *)
Definition required_org b : option string :=
  if ostr_true (tp_config_org b) then tp_config_org b else fa_org <$> tp_fabric b.
Definition org_login (v : pyval) : result string :=
  let? l := py_item "login" v in
  match l with VStr s => Ok s | _ => raise Unmodelled "a login of another type" end.
Definition gate_github_org_bound b (gh_connected : bool) : M BootSt bool :=
  if negb gh_connected then fail_gate GITHUB_ORG_BOUND "GitHub not connected"
  else if negb (ostr_true (required_org b))
  then fail_gate GITHUB_ORG_BOUND
         "fabric_org not configured - cannot verify org membership"
  else
    let org := default "" (required_org b) in
    guarded GITHUB_ORG_BOUND
      (match tp_github b with
       | None => throw AttributeError "'NoneType' object has no attribute 'list_organizations'"
       | Some c =>
           orgs ← net (list_organizations c);
           orgs ← of_result (py_iter orgs);
           names ← of_result (map_result org_login orgs);
           (if str_in org names
            then conclude_gate GITHUB_ORG_BOUND true ("Member of " +:+ org) (VStr org)
            else fail_gate GITHUB_ORG_BOUND ("Not a member of " +:+ org +:+ ". Orgs: "
                   +:+ py_repr_strs (sort_strings (remove_dups names))))
       end).

(** *** The fabric *)
(** A gate that needs the earlier planes and a fabric client. *)
Definition with_fabric (g : ReadinessGate) (can_proceed : bool) b
    (k : GitHubFabricAdapter -> M BootSt bool) : M BootSt bool :=
  match tp_fabric b with
  | Some a => if can_proceed then k a else unmet g
  | None => unmet g
  end.
Definition binding_text (a : GitHubFabricAdapter) : string := fa_org a +:+ "/" +:+ fa_repo a.
Definition gate_fabric_reachable b (can_proceed : bool) : M BootSt bool :=
  with_fabric FABRIC_REACHABLE can_proceed b (fun a =>
    p ← net (probe_reachability a);
    let '(reachable, ms, error) := p in
    if (reachable : bool)
    then conclude_gate FABRIC_REACHABLE true ("Fabric reachable (" +:+ format_ms ms +:+ "ms)")
           (VStr (binding_text a))
    else fail_gate FABRIC_REACHABLE error).
Definition gate_fabric_identity_verified b (can_proceed : bool) : M BootSt bool :=
  with_fabric FABRIC_IDENTITY_VERIFIED can_proceed b (fun a =>
    fabric_guarded FABRIC_IDENTITY_VERIFIED
      (node ← net (read_node_config a);
       conclude_gate FABRIC_IDENTITY_VERIFIED true "Node config read from Fabric"
         (fn_node_id node))).
Definition gate_fabric_node_at_remote_head b (can_proceed : bool) : M BootSt bool :=
  with_fabric FABRIC_NODE_AT_REMOTE_HEAD can_proceed b (fun a =>
    p ← net (node_json_exists_at_remote_head a);
    let '(found, sha) := p in
    if (found : bool)
    then conclude_gate FABRIC_NODE_AT_REMOTE_HEAD true "fabric/node.json confirmed at remote HEAD"
           sha
    else fail_gate FABRIC_NODE_AT_REMOTE_HEAD
           ("fabric/node.json not found at remote HEAD of " +:+ binding_text a)).
(** A gate that also needs the identity. *)
Definition with_identity (g : ReadinessGate) (can_proceed : bool) b
    (ident : option RuntimeIdentity)
    (k : GitHubFabricAdapter -> RuntimeIdentity -> M BootSt bool) : M BootSt bool :=
  match ident with
  | Some i => with_fabric g can_proceed b (fun a => k a i)
  | None => unmet g
  end.
Definition gate_fabric_trust_verified b (can_proceed : bool) (ident : option RuntimeIdentity)
    : M BootSt bool :=
  with_identity FABRIC_TRUST_VERIFIED can_proceed b ident (fun a i =>
    guarded FABRIC_TRUST_VERIFIED
      (token ← net (issue_trust_token a (ri_runtime_id i) (ri_private_key i));
       conclude_gate FABRIC_TRUST_VERIFIED true "Trust token issued"
         (VStr (String.substring 0 8 (tt_signature token) +:+ "...")))).
Definition gate_fabric_tenant_bound b (can_proceed : bool) (ident : option RuntimeIdentity)
    : M BootSt bool :=
  with_identity FABRIC_TENANT_BOUND can_proceed b ident (fun a i =>
    fabric_guarded FABRIC_TENANT_BOUND
      (tenant ← net (read_tenant_binding a (ri_runtime_id i));
       conclude_gate FABRIC_TENANT_BOUND true "Tenant binding found" (ft_tenant_id tenant))).
(** [f"keys={list(state.keys())[:5]}"] *)
Definition state_keys (d : dict string pyval) : string :=
  "keys=" +:+ py_repr_strs (take 5 (dkeys d)).
Definition gate_fabric_state_readable b (can_proceed : bool) : M BootSt bool :=
  with_fabric FABRIC_STATE_READABLE can_proceed b (fun a =>
    fabric_guarded FABRIC_STATE_READABLE
      (state ← net (read_fabric_state a);
       match state with
       | VDict (kv :: d) =>
           conclude_gate FABRIC_STATE_READABLE true "Fabric state read successfully"
             (VStr (state_keys (kv :: d)))
       | _ => fail_gate FABRIC_STATE_READABLE "fabric/state.json is empty or malformed"
       end)).
(** The commit to check: the identity has no [origin_commit] and the
    configuration no [version_commit]. *)
Definition provenance_commit (ident : option RuntimeIdentity) b : option string := None.
Definition gate_fabric_provenance b (can_proceed : bool) (ident : option RuntimeIdentity)
    : M BootSt bool :=
  with_fabric FABRIC_PROVENANCE_VALID can_proceed b (fun a =>
    if negb (ostr_true (provenance_commit ident b))
    then fail_gate FABRIC_PROVENANCE_VALID "No commit SHA available for provenance check"
    else
      let sha := default "" (provenance_commit ident b) in
      p ← net (validate_provenance a sha None None);
      let '(valid, error) := p in
      if (valid : bool)
      then conclude_gate FABRIC_PROVENANCE_VALID true
             ("Commit " +:+ short_sha sha +:+ " confirmed at Fabric remote") (VStr (short_sha sha))
      else fail_gate FABRIC_PROVENANCE_VALID
             (ostr_or error ("Commit " +:+ short_sha sha +:+ " not found in Fabric"))).

(** *** The runtime's control plane *)
Definition status_request b (probe : bool) : Request :=
  mkRequest "GET" (admin_url b "/api/status") (if probe then [("X-Bootstrap-Probe", "1")] else []).
Definition probe_status b (probe : bool) : M BootSt http_outcome := net (send (status_request b probe)).
Definition gate_runtime_reachable b : M BootSt bool :=
  let at_text := tp_admin_host b +:+ ":" +:+ zstr (tp_admin_port b) in
  let unreachable reason := fail_gate RUNTIME_REACHABLE
    ("Admin API not reachable at " +:+ at_text +:+ ": " +:+ reason) in
  guarded RUNTIME_REACHABLE
    (o ← probe_status b true;
     match o with
     | HttpBody status _ =>
         if (status =? 200)%Z
         then conclude_gate RUNTIME_REACHABLE true ("Admin API responded 200 at " +:+ at_text)
                (VStr (admin_url b "/api/status"))
         else fail_gate RUNTIME_REACHABLE ("Admin API returned HTTP " +:+ zstr status)
     | HttpError _ reason => unreachable reason
     | HttpUnreachable reason _ => unreachable reason
     | HttpTimeout => throw TimeoutError "timed out"
     | HttpFailed e => rethrow e
     end).
(** The decoded body of a status response, or the exception it raises. *)
Definition status_data (o : http_outcome) : result pyval :=
  match o with
  | HttpBody _ raw => let? text := utf8_decode raw in json_loads text
  | HttpError code reason =>
      raise (OtherException "HTTPError") ("HTTP Error " +:+ zstr code +:+ ": " +:+ reason)
  | HttpUnreachable reason _ =>
      raise (OtherException "URLError") ("<urlopen error " +:+ reason +:+ ">")
  | HttpTimeout => raise TimeoutError "timed out"
  | HttpFailed e => Raise e
  end.
Definition unhealthy (state : pyval) : bool := is_text "STOPPED" state || is_text "ERROR" state.
Definition gate_runtime_health_verified b (rt_reachable : bool) : M BootSt bool :=
  if negb rt_reachable then fail_gate RUNTIME_HEALTH_VERIFIED "Runtime not reachable"
  else
    guarded RUNTIME_HEALTH_VERIFIED
      (o ← probe_status b true;
       data ← of_result (status_data o);
       state ← of_result (py_get "state" (VStr "UNKNOWN") data);
       (if unhealthy state
        then fail_gate RUNTIME_HEALTH_VERIFIED ("Runtime in unhealthy state: " +:+ py_str state)
        else conclude_gate RUNTIME_HEALTH_VERIFIED true ("Runtime state: " +:+ py_str state) state)).
(** The binding expected: the adapter's, or the configuration's. *)
Definition expected_binding b : option string * option string :=
  match tp_fabric b with
  | Some a => (Some (fa_org a), Some (fa_repo a))
  | None => (tp_config_org b, tp_config_repo b)
  end.
Definition gate_runtime_binding_verified b (rt_reachable : bool) : M BootSt bool :=
  let '(org, repo) := expected_binding b in
  if negb rt_reachable then fail_gate RUNTIME_BINDING_VERIFIED "Runtime not reachable"
  else if negb (ostr_true org && ostr_true repo)
  then fail_gate RUNTIME_BINDING_VERIFIED "Cannot verify binding: fabric_org/repo not configured"
  else
    let org := default "" org in
    let repo := default "" repo in
    guarded RUNTIME_BINDING_VERIFIED
      (o ← probe_status b false;
       data ← of_result (status_data o);
       reported_org ← of_result (field "fabric_org" data);
       reported_repo ← of_result (field "fabric_repo" data);
       (if is_text org reported_org && is_text repo reported_repo
        then conclude_gate RUNTIME_BINDING_VERIFIED true
               ("Binding matches: " +:+ org +:+ "/" +:+ repo) (VStr (org +:+ "/" +:+ repo))
        else fail_gate RUNTIME_BINDING_VERIFIED
               ("Binding mismatch: expected " +:+ org +:+ "/" +:+ repo +:+ ", got "
                +:+ py_str reported_org +:+ "/" +:+ py_str reported_repo))).
Definition gate_runtime_admitted b (can_proceed : bool) (ident : option RuntimeIdentity)
    : M BootSt bool :=
  with_identity RUNTIME_ADMITTED can_proceed b ident (fun a i =>
    admission ← net (check_admission a (ri_runtime_id i));
    if is_admitted admission
    then conclude_gate RUNTIME_ADMITTED true ("Fabric ALLOW: " +:+ py_str (ad_reason admission))
           (VStr (ad_verdict admission))
    else fail_gate RUNTIME_ADMITTED ("Fabric verdict=" +:+ ad_verdict admission +:+ ": "
           +:+ py_str (ad_reason admission))).

(** *** Reconciliation *)
(** What the fabric's state disagrees with. *)
Definition state_issues (org repo runtime_id : string) (state : pyval) : result (list string) :=
  let? registered := py_get "registered_runtimes" (VList []) state in
  let? known := py_contains runtime_id registered in
  let? state_org := field "fabric_org" state in
  let? state_repo := field "fabric_repo" state in
  Ok ((if known then []
       else [runtime_id +:+ " not in fabric state registered_runtimes"])
      ++ (if truthy state_org && negb (is_text org state_org)
          then ["Fabric org mismatch: expected " +:+ org +:+ ", got " +:+ py_str state_org] else [])
      ++ (if truthy state_repo && negb (is_text repo state_repo)
          then ["Fabric repo mismatch: expected " +:+ repo +:+ ", got " +:+ py_str state_repo]
          else [])).
Definition known_runtime (ident : option RuntimeIdentity) : bool :=
  match ident with Some i => str_true (ri_runtime_id i) | None => false end.
Definition reconcile_state b (ident : option RuntimeIdentity) (fab_reachable rt_reachable : bool)
    : M BootSt (list string) :=
  match ident, tp_fabric b with
  | Some i, Some a =>
      if fab_reachable && rt_reachable then
        try_with
          (state ← net (read_fabric_state a);
           of_result (state_issues (fa_org a) (fa_repo a) (ri_runtime_id i) state))
          (fun e => match exn_type e with
                    | FabricError => mret ["Could not read fabric state for reconciliation: "
                                             +:+ exn_str e]
                    | _ => rethrow e
                    end)
      else mret []
  | _, _ => mret []
  end.
Definition gate_plane_reconciliation b (can_proceed : bool) (ident : option RuntimeIdentity)
    (fab_reachable rt_reachable : bool) : M BootSt bool :=
  if negb can_proceed then unmet PLANE_RECONCILIATION
  else
    let before :=
      (if known_runtime ident then [] else ["runtime_id missing from identity"])
      ++ (if fab_reachable then [] else ["Fabric not reachable - cannot reconcile"])
      ++ (if rt_reachable then [] else ["Runtime not reachable - cannot reconcile"]) in
    found ← reconcile_state b ident fab_reachable rt_reachable;
    match before ++ found with
    | [] => conclude_gate PLANE_RECONCILIATION true "All planes agree"
              (VStr (match ident with Some i => ri_runtime_id i | None => "UNKNOWN" end))
    | issues => fail_gate PLANE_RECONCILIATION (str_join "; " issues)
    end.

(** *** Policy, inventory, access, contracts *)
(** The contract in the policy, and whether the gate passed. *)
Definition gate_policy_snapshot b (can_proceed : bool) : M BootSt pyval :=
  match tp_fabric b with
  | Some a =>
      if can_proceed then
        except_all
          (raw ← net (read_policy a);
           policy ← of_result (policy_from_dict raw);
           set_report (fun r => r <| br_policy_revision := po_revision policy |>) ;;
           conclude_gate POLICY_SNAPSHOT_FRESH true
             ("Policy snapshot fetched, revision=" +:+ py_str (po_revision policy))
             (po_revision policy) ;;
           of_result (field "_contract" raw))
          (fun e => fail_gate POLICY_SNAPSHOT_FRESH (exn_str e) ;; mret VNone)
      else unmet POLICY_SNAPSHOT_FRESH ;; mret VNone
  | None => unmet POLICY_SNAPSHOT_FRESH ;; mret VNone
  end.
Definition count_of (l : list string) : string := zstr (Z.of_nat (length l)).
Definition inventory_gate (g : ReadinessGate) (name : string) (c : ComponentInventory)
    : M BootSt bool :=
  conclude_gate g (match ci_declared c with [] => false | _ => true end)
    (name +:+ ": " +:+ count_of (ci_declared c) +:+ " declared, " +:+ count_of (ci_authorized c)
     +:+ " authorized")
    (VStr (count_of (ci_declared c) +:+ "/" +:+ count_of (ci_authorized c))).
(** The discovery never raises. *)
Definition bootstrap_inventory b (contract : pyval) : BootstrapInventory :=
  discover importable (mkDiscovery (tp_capabilities b) (tp_tools b) (tp_models b) (tp_workers b) []
    (match contract with VNone => None | v => Some (CJson v) end)).
(** [_to_component_inventory] copies each list. *)
Definition to_component_inventory (c : ComponentInventory) : ComponentInventory :=
  mkInventory (ci_declared c) (ci_configured c) (ci_enabled c) (ci_authorized c) (ci_available c)
    (ci_functional c) (ci_tested c) (ci_verified c).
Definition report_inventory (i : BootstrapInventory) (r : BootstrapReport) : BootstrapReport :=
  ((((r <| br_capabilities := to_component_inventory (bi_capabilities i) |>)
       <| br_tools := to_component_inventory (bi_tools i) |>)
      <| br_models := to_component_inventory (bi_models i) |>)
     <| br_workers := to_component_inventory (bi_workers i) |>)
    <| br_connectors := to_component_inventory (bi_connectors i) |>.
Definition gate_inventory b (contract : pyval) : M BootSt BootstrapInventory :=
  let inv := bootstrap_inventory b contract in
  inventory_gate CAPABILITIES_INVENTORIED "capabilities" (bi_capabilities inv) ;;
  inventory_gate TOOLS_INVENTORIED "tools" (bi_tools inv) ;;
  inventory_gate MODELS_INVENTORIED "models" (bi_models inv) ;;
  inventory_gate WORKERS_INVENTORIED "workers" (bi_workers inv) ;;
  inventory_gate CONNECTORS_INVENTORIED "connectors" (bi_connectors inv) ;;
  mret inv.
(** [x or None] for a text *)
Definition text_or_none (s : string) : pyval := if str_true s then VStr s else VNone.
Definition gate_critical_access b (authorized : list string) : M BootSt bool :=
  guarded CRITICAL_ACCESS_VERIFIED
    (r ← net (verify_access boot_files boot_cwd critical_order
                (mkVerifier authorized (tp_data_dir b) (tp_fabric b) (tp_github b)));
     conclude_gate CRITICAL_ACCESS_VERIFIED (av_passed r)
       ("tested=" +:+ zstr (Z.of_nat (length (av_results r))) +:+ ", failures="
        +:+ py_repr_strs (av_critical_failures r))
       (text_or_none (str_join ", " (map at_evidence
          (filter (fun t => at_passed t = true) (av_results r)))))).
Definition verify_limits : M BootSt unit :=
  set_report (fun r => r <| br_limits_verified := true |>).
(** A JSON contract has no [contract_id] attribute. *)
Definition gate_contracts b (contract : pyval) : M BootSt bool :=
  guarded CONTRACTS_DISCOVERED
    match contract with
    | VNone =>
        match tp_fabric b with
        | Some a =>
            raw ← net (read_contract a);
            c ← of_result (contract_from_dict raw);
            verify_limits ;;
            conclude_gate CONTRACTS_DISCOVERED true ("Contract: " +:+ py_str (fc_contract_id c))
              (fc_contract_id c)
        | None => fail_gate CONTRACTS_DISCOVERED "No fabric client - cannot discover contracts"
        end
    | _ =>
        verify_limits ;;
        conclude_gate CONTRACTS_DISCOVERED true "Contract: INLINED" (VStr "INLINED")
    end.
Definition gate_delegation_context (ident : option RuntimeIdentity) : M BootSt bool :=
  report ← gets bt_report;
  let tenant := get_gate FABRIC_TENANT_BOUND report in
  let issues :=
    (if known_runtime ident then [] else ["runtime_id unknown"])
    ++ (if gr_passed tenant && truthy (gr_evidence tenant) then [] else ["tenant_id not bound"])
    ++ (if is_text "UNKNOWN" (br_fabric_node report) then ["fabric_node not resolved"] else []) in
  match issues with
  | [] => conclude_gate DELEGATION_CONTEXT_BUILT true "Delegation context complete"
      (VStr (str_join " | "
        ["runtime_id=" +:+ match ident with Some i => ri_runtime_id i | None => "" end;
         "tenant_id=" +:+ py_str (gr_evidence tenant);
         "fabric_node=" +:+ py_str (br_fabric_node report)]))
  | _ => fail_gate DELEGATION_CONTEXT_BUILT (str_join "; " issues)
  end.
(** [self.continuity.status]: the continuity engine has no such attribute. *)
Definition continuity_status (e : Engine) : result pyval :=
  raise AttributeError "'ContinuityEngine' object has no attribute 'status'".
Definition gate_continuity_coherent b : M BootSt bool :=
  match tp_continuity b with
  | None => fail_gate CONTINUITY_COHERENT "No continuity engine"
  | Some e =>
      guarded CONTINUITY_COHERENT
        (status ← of_result (continuity_status e);
         state ← of_result (py_get "state" (VStr "UNKNOWN") status);
         (if is_text "COHERENT" state
          then conclude_gate CONTINUITY_COHERENT true "Continuity coherent" state
          else fail_gate CONTINUITY_COHERENT ("Continuity state: " +:+ py_str state)))
  end.

(** *** The sequence *)
(** The node id of the report, from a second reading of the node. *)
Definition resolve_node b (verified : bool) : M BootSt unit :=
  match tp_fabric b with
  | Some a =>
      when verified (except_all
        (node ← net (read_node_config a);
         set_report (fun r => r <| br_fabric_node := fn_node_id node |>))
        (fun _ => mret tt))
  | None => mret tt
  end.
(** [gate_map]: the last result of each gate. *)
Definition gate_map (l : list GateResult) : dict ReadinessGate bool :=
  foldl (fun d r => dset (gr_gate r) (gr_passed r) d) [] l.
Definition all_mandatory_pass (l : list GateResult) : bool :=
  forallb (fun g => default false (dget g (gate_map l))) MANDATORY_GATES.

(** Planes one to three. *)
Definition is_some_identity (ident : option RuntimeIdentity) : bool :=
  match ident with Some _ => true | None => false end.
Definition resolve_planes b : M BootSt (option RuntimeIdentity * bool * bool * bool) :=
  ident ← gate_runtime_identity b;
  (match ident with
   | Some i => set_report (fun r => r <| br_runtime_id := ri_runtime_id i |>)
   | None => mret tt
   end) ;;
  gh_connected ← gate_github_connected b;
  gh_bound ← gate_github_org_bound b gh_connected;
  let can := is_some_identity ident && gh_connected && gh_bound in
  fab_reachable ← gate_fabric_reachable b can;
  verified ← gate_fabric_identity_verified b can;
  gate_fabric_node_at_remote_head b can ;;
  gate_fabric_trust_verified b can ident ;;
  gate_fabric_tenant_bound b can ident ;;
  resolve_node b verified ;;
  gate_fabric_state_readable b (can && fab_reachable) ;;
  gate_fabric_provenance b (can && fab_reachable) ident ;;
  rt_reachable ← gate_runtime_reachable b;
  gate_runtime_health_verified b rt_reachable ;;
  gate_runtime_binding_verified b rt_reachable ;;
  gate_runtime_admitted b (can && fab_reachable) ident ;;
  mret (ident, can, fab_reachable, rt_reachable).
(** Phases E to K. *)
Definition resolve_phases b (ident : option RuntimeIdentity) (can fab_reachable rt_reachable : bool)
    : M BootSt unit :=
  contract ← gate_policy_snapshot b (can && fab_reachable);
  gate_plane_reconciliation b can ident fab_reachable rt_reachable ;;
  inv ← gate_inventory b contract;
  set_report (report_inventory inv) ;;
  report ← gets bt_report;
  gate_critical_access b (ci_authorized (br_capabilities report)) ;;
  gate_contracts b contract ;;
  gate_delegation_context ident ;;
  gate_continuity_coherent b ;;
  mret tt.
Definition resolve_all b : M BootSt unit :=
  p ← resolve_planes b;
  let '(ident, can, fab_reachable, rt_reachable) := p in
  resolve_phases b ident can fab_reachable rt_reachable ;;
  report ← gets bt_report;
  set_report (finish_report (all_mandatory_pass (br_gates report)) boot_completed).
(** [resolve] *)
Definition resolve b : M Net BootstrapReport := fun sent =>
  match resolve_all b (mkBoot sent (new_report boot_started)) with
  | (s, Ok _) => (bt_net s, Ok (bt_report s))
  | (s, Raise e) => (bt_net s, Raise e)
  end.

(** *** The formatted report *)
Definition passed_text (g : ReadinessGate) (r : BootstrapReport) : string :=
  if gr_passed (get_gate g r) then "PASS" else "FAIL".
Definition format_component (name : string) (c : ComponentInventory) : string :=
  "  " +:+ name +:+ ": " +:+ count_of (ci_declared c) +:+ " DEC, "
  +:+ count_of (ci_configured c) +:+ " CFG, " +:+ count_of (ci_enabled c) +:+ " ENA, "
  +:+ count_of (ci_authorized c) +:+ " AUT, " +:+ count_of (ci_available c) +:+ " AVL, "
  +:+ count_of (ci_functional c) +:+ " FNC, " +:+ count_of (ci_tested c) +:+ " TST, "
  +:+ count_of (ci_verified c) +:+ " VRF".
(** [x or d] in an f-string *)
Definition or_text (v : pyval) (d : string) : string := if truthy v then py_str v else d.
Definition format_report (r : BootstrapReport) : string :=
  let g name gate := "  " +:+ name +:+ ": " +:+ passed_text gate r in
  str_join newline
    ["ANNY BOOTSTRAP: " +:+ (if br_anny_ready r then "READY" else "BLOCKED");
     "---";
     "PHASE A (LOCAL RUNTIME):";
     g "RUNTIME_IDENTITY" RUNTIME_IDENTITY;
     g "RUNTIME_REACHABLE" RUNTIME_REACHABLE;
     g "RUNTIME_HEALTH" RUNTIME_HEALTH_VERIFIED;
     "PHASE B (GITHUB):";
     g "GITHUB_CONNECTED" GITHUB_CONNECTED;
     g "GITHUB_ORG_BOUND" GITHUB_ORG_BOUND;
     "PHASE C (FABRIC):";
     g "FABRIC_REACHABLE" FABRIC_REACHABLE;
     g "FABRIC_STATE_READABLE" FABRIC_STATE_READABLE;
     g "FABRIC_NODE_HEAD" FABRIC_NODE_AT_REMOTE_HEAD;
     "PHASE D (TRUST & ADMISSION):";
     g "FABRIC_IDENTITY" FABRIC_IDENTITY_VERIFIED;
     g "FABRIC_TRUST" FABRIC_TRUST_VERIFIED;
     g "FABRIC_TENANT" FABRIC_TENANT_BOUND;
     g "RUNTIME_BINDING" RUNTIME_BINDING_VERIFIED;
     g "RUNTIME_ADMITTED" RUNTIME_ADMITTED;
     "PHASE E (POLICY):";
     g "POLICY_SNAPSHOT_FRESH" POLICY_SNAPSHOT_FRESH;
     "PHASE F (RECONCILIATION):";
     g "PLANE_RECONCILIATION" PLANE_RECONCILIATION;
     "PHASE G (INVENTORY):";
     g "CAPABILITIES_INVENTORIED" CAPABILITIES_INVENTORIED;
     g "TOOLS_INVENTORIED" TOOLS_INVENTORIED;
     g "MODELS_INVENTORIED" MODELS_INVENTORIED;
     g "WORKERS_INVENTORIED" WORKERS_INVENTORIED;
     g "CONNECTORS_INVENTORIED" CONNECTORS_INVENTORIED;
     "PHASE H (ACCESS):";
     g "CRITICAL_ACCESS_VERIFIED" CRITICAL_ACCESS_VERIFIED;
     "PHASE I (CONTRACTS):";
     g "CONTRACTS_DISCOVERED" CONTRACTS_DISCOVERED;
     "PHASE J (CONTEXT):";
     g "DELEGATION_CONTEXT_BUILT" DELEGATION_CONTEXT_BUILT;
     "PHASE K (CONTINUITY):";
     g "CONTINUITY_COHERENT" CONTINUITY_COHERENT;
     "---";
     "INVENTORY SUMMARY:";
     format_component "Capabilities" (br_capabilities r);
     format_component "Tools" (br_tools r);
     format_component "Models" (br_models r);
     format_component "Workers" (br_workers r);
     format_component "Connectors" (br_connectors r);
     "---";
     "RUNTIME_ID: " +:+ str_or (br_runtime_id r) "UNKNOWN";
     "FABRIC_NODE: " +:+ or_text (br_fabric_node r) "UNKNOWN";
     "FABRIC_TENANT: " +:+ or_text (gr_evidence (get_gate FABRIC_TENANT_BOUND r)) "UNBOUND";
     "POLICY_REVISION: " +:+ py_str (br_policy_revision r);
     "LIMITS_VERIFIED: " +:+ (if br_limits_verified r then "True" else "False")].
End Bootstrap.

(** ** What a gate does *)
Section GateLogic.
Context {env : BootEnv}.
Definition gates (s : BootSt) : list GateResult := br_gates (bt_report s).
(** The exceptions that may leave a bootstrap. *)
Definition expected (e : exn) : Prop :=
  exn_type e = Unmodelled \/ exn_type e = AttributeError \/ exn_type e = TypeError.
(** [m] adds one result, for the gate [g], whose passing implies [Q]; with
    [E] what holds of an exception, and then of the results. *)
Definition gate_spec (E : exn -> list GateResult -> list GateResult -> Prop)
    (g : ReadinessGate) (Q : Prop) (m : M BootSt bool) : Prop :=
  forall s, wp m s (fun s' r =>
    match r with
    | Ok p => (exists d ev, gates s' = gates s ++ [mkGate g p d ev]) /\ (p = true -> Q)
    | Raise e => E e (gates s) (gates s')
    end).
Definition settles := gate_spec (fun _ _ _ => False).
Definition attempts := gate_spec (fun _ l l' => l' = l).
Definition records := gate_spec (fun e _ _ => expected e).
(** [m] leaves the results alone. *)
Definition keeps {A} (m : M BootSt A) : Prop :=
  forall s, wp m s (fun s' _ => gates s' = gates s).

Lemma settles_spec E g Q m : settles g Q m -> gate_spec E g Q m.
Proof. intros H s. eapply wp_mono; [apply H|]. by intros s' [p|e]. Qed.
Lemma settles_conclude g (Q : Prop) p d ev :
  (p = true -> Q) -> settles g Q (conclude_gate g p d ev).
Proof. intros HQ s. split; [by exists d, ev|done]. Qed.
Lemma settles_fail g Q d : settles g Q (fail_gate g d).
Proof. by apply settles_conclude. Qed.
Lemma settles_unmet g Q : settles g Q (unmet g).
Proof. apply settles_fail. Qed.
Lemma spec_if E g Q (c : bool) m1 m2 :
  (c = true -> gate_spec E g Q m1) -> (c = false -> gate_spec E g Q m2) ->
  gate_spec E g Q (if c then m1 else m2).
Proof. destruct c; auto. Qed.

Lemma keeps_net {A} (m : M Net A) : keeps (net m).
Proof. intros s. apply wp_zoom, wp_any. done. Qed.
Lemma keeps_result {A} (r : result A) : keeps (of_result r).
Proof. by intros s. Qed.
Lemma keeps_limits : keeps verify_limits.
Proof. by intros s. Qed.
Lemma attempts_bind {A} g Q (m : M BootSt A) f :
  keeps m -> (forall a, attempts g Q (f a)) -> attempts g Q (m ≫= f).
Proof.
  intros Hm Hf s. apply wp_bind. eapply wp_mono; [apply Hm|]. intros s1 [a|e] H1; [|done].
  eapply wp_mono; [apply Hf|]. rewrite H1. done.
Qed.
Lemma attempts_throw g Q e : attempts g Q (rethrow e).
Proof. by intros s. Qed.
Lemma attempts_raise g Q c msg : attempts g Q (throw c msg).
Proof. by intros s. Qed.
Lemma records_guarded g Q m : attempts g Q m -> records g Q (guarded g m).
Proof.
  intros Hm s. apply wp_try_with. eapply wp_mono; [apply Hm|].
  intros s1 [p|e] H; [done|].
  destruct (exn_type e) eqn:E; try (split; [|done]; eexists _, _; unfold gates in *; simpl;
    by rewrite H). by left.
Qed.
Lemma records_fabric_guarded {A} g Q (m : M Net A) k :
  only_fabric_error m -> (forall a, settles g Q (k a)) ->
  records g Q (fabric_guarded g (a ← net m; k a)).
Proof.
  intros Hm Hk s. apply wp_try_with, wp_bind, wp_zoom.
  eapply wp_mono; [apply Hm|]. intros n [a|e] H.
  - eapply wp_mono; [apply Hk|]. by intros s' [p|e].
  - destruct H as [H|H]; rewrite H; [|by left]. split; [|done]. by eexists _, _.
Qed.
(** A computation on the network that only lets [Unmodelled] out. *)
Definition total_net {A} (m : M Net A) : Prop :=
  forall s, wp m s (fun _ r => match r with Ok _ => True | Raise e => exn_type e = Unmodelled end).
(** A silent computation that only lets expected exceptions out. *)
Definition quiet {A} (m : M BootSt A) : Prop :=
  forall s, wp m s (fun s' r =>
    gates s' = gates s /\ match r with Ok _ => True | Raise e => expected e end).
Lemma records_quiet {A} g Q (m : M BootSt A) k :
  quiet m -> (forall a, settles g Q (k a)) -> records g Q (m ≫= k).
Proof.
  intros Hm Hk s. apply wp_bind. eapply wp_mono; [apply Hm|].
  intros s1 [a|e] [H1 H2]; [|done]. rewrite <- H1. eapply wp_mono; [apply Hk|].
  by intros s' [p|e].
Qed.
Lemma records_total {A} g Q (m : M Net A) k :
  total_net m -> (forall a, settles g Q (k a)) -> records g Q (a ← net m; k a).
Proof.
  intros Hm Hk. apply records_quiet; [|done]. intros s. apply wp_zoom.
  eapply wp_mono; [apply Hm|]. intros n [a|e] H; split; try done. by left.
Qed.
Lemma records_with_fabric g (Q : Prop) can b k :
  (forall a, records g Q (k a)) -> records g (can = true /\ Q) (with_fabric g can b k).
Proof.
  intros Hk. unfold with_fabric. destruct (tp_fabric b) as [a|]; [|apply settles_spec, settles_unmet].
  destruct can; [|apply settles_spec, settles_unmet].
  intros s. eapply wp_mono; [apply Hk|]. intros s' [p|e] H; [|done]. destruct H. auto.
Qed.
Lemma records_with_identity g (Q : Prop) can b ident k :
  (forall a i, records g Q (k a i)) ->
  records g (can = true /\ Q) (with_identity g can b ident k).
Proof.
  intros Hk. unfold with_identity. destruct ident as [i|]; [|apply settles_spec, settles_unmet].
  by apply records_with_fabric.
Qed.

(** *** Each gate *)
Lemma total_except_all {A} (m : M Net A) h :
  (forall e, total_net (h e)) -> total_net (except_all m h).
Proof.
  intros Hh s. apply wp_try_with, wp_any. intros s' [a|e]; [done|].
  destruct (exn_type e) eqn:E; try apply Hh. done.
Qed.
Lemma total_probe a : total_net (probe_reachability a).
Proof.
  intros s. apply wp_try_with, wp_any. intros s' [p|e]; [done|].
  case_bool_decide; [done|]. case_bool_decide as Hu; [exact Hu|].
  destruct (is_github_error _); [|done]. cbv zeta. by case_match.
Qed.
Lemma total_node_head a : total_net (node_json_exists_at_remote_head a).
Proof. apply total_except_all. by intros e s. Qed.
Lemma total_admission a id : total_net (check_admission a id).
Proof. intros s. eapply wp_mono; [apply admission_verdict|]. by intros s' [ad|e]. Qed.
Lemma only_node a : only_fabric_error (read_node_config a).
Proof. apply (readers_only a ""). Qed.
Lemma only_state a : only_fabric_error (read_fabric_state a).
Proof. apply (readers_only a ""). Qed.
Lemma only_tenant a id : only_fabric_error (read_tenant_binding a id).
Proof. apply (readers_only a id). Qed.

Create HintDb gates.
#[local] Hint Resolve keeps_net keeps_result keeps_limits attempts_throw attempts_raise total_probe total_node_head
  total_admission only_node only_state only_tenant settles_fail settles_unmet : gates.
#[local] Hint Extern 3 (settles _ _ (conclude_gate _ _ _ _)) => apply settles_conclude : gates.
#[local] Hint Extern 4 (attempts _ _ (_ ≫= _)) => apply attempts_bind; [|intros] : gates.
#[local] Hint Extern 6 (attempts _ _ _) => apply settles_spec : gates.
#[local] Hint Extern 4 (gate_spec _ _ _ (if _ then _ else _)) => apply spec_if; intros : gates.
#[local] Hint Extern 7 (settles _ _ (match ?x with _ => _ end)) => destruct x : gates.
#[local] Hint Extern 5 (attempts _ _ (match ?x with _ => _ end)) => destruct x : gates.

Lemma runtime_identity_spec b s :
  wp (gate_runtime_identity b) s (fun s' r =>
    match r with
    | Ok i => exists d ev,
        gates s' = gates s ++ [mkGate RUNTIME_IDENTITY (is_some_identity i) d ev]
    | Raise e => expected e
    end).
Proof.
  unfold gate_runtime_identity. destruct (load_identity _) as [i|[c msg]]; [by eexists _, _|].
  destruct c; try (by eexists _, _). by left.
Qed.
Lemma github_connected_spec b : records GITHUB_CONNECTED True (gate_github_connected b).
Proof.
  unfold gate_github_connected. destruct (tp_github b) as [c|]; [|apply settles_spec; auto with gates].
  assert (attempts GITHUB_CONNECTED True
    (principal ← net (get_authenticated_principal c);
     login ← of_result (py_get "login" (VStr "UNKNOWN") principal);
     conclude_gate GITHUB_CONNECTED true "Authenticated" login)) as H by eauto 8 with gates.
  intros s. apply wp_try_with. eapply wp_mono; [apply H|]. intros s1 [p|e] H1; [done|].
  destruct (exn_type e) eqn:E; try (split; [|done]; eexists _, _; unfold gates in *; simpl;
    by rewrite H1). by left.
Qed.
Lemma github_org_spec b c : records GITHUB_ORG_BOUND (c = true) (gate_github_org_bound b c).
Proof.
  unfold gate_github_org_bound. destruct c; simpl; [|apply settles_spec; auto with gates].
  destruct (ostr_true _); simpl; [|apply settles_spec; auto with gates].
  apply records_guarded. destruct (tp_github b) as [gh|]; [|apply attempts_throw].
  eauto 12 with gates.
Qed.
Lemma fabric_reachable_spec b can :
  records FABRIC_REACHABLE (can = true /\ True) (gate_fabric_reachable b can).
Proof.
  apply records_with_fabric. intros a. apply records_total; [auto with gates|].
  intros [[[] ms] e]; auto with gates.
Qed.
Lemma fabric_identity_spec b can :
  records FABRIC_IDENTITY_VERIFIED (can = true /\ True) (gate_fabric_identity_verified b can).
Proof.
  apply records_with_fabric. intros a. apply records_fabric_guarded; auto with gates.
Qed.
Lemma fabric_node_head_spec b can :
  records FABRIC_NODE_AT_REMOTE_HEAD (can = true /\ True) (gate_fabric_node_at_remote_head b can).
Proof.
  apply records_with_fabric. intros a. apply records_total; [auto with gates|].
  intros [[] sha]; auto with gates.
Qed.
Lemma fabric_trust_spec b can ident :
  records FABRIC_TRUST_VERIFIED (can = true /\ True) (gate_fabric_trust_verified b can ident).
Proof.
  apply records_with_identity. intros a i. apply records_guarded. eauto 8 with gates.
Qed.
Lemma fabric_tenant_spec b can ident :
  records FABRIC_TENANT_BOUND (can = true /\ True) (gate_fabric_tenant_bound b can ident).
Proof.
  apply records_with_identity. intros a i. apply records_fabric_guarded; auto with gates.
Qed.
Lemma fabric_state_spec b can :
  records FABRIC_STATE_READABLE (can = true /\ True) (gate_fabric_state_readable b can).
Proof.
  apply records_with_fabric. intros a. apply records_fabric_guarded; [auto with gates|].
  intros [| | | | | |[|kv d]]; auto with gates.
Qed.
Lemma fabric_provenance_spec b can ident :
  records FABRIC_PROVENANCE_VALID (can = true /\ False) (gate_fabric_provenance b can ident).
Proof. apply records_with_fabric. intros a. apply settles_spec. simpl. auto with gates. Qed.
Lemma runtime_reachable_spec b : records RUNTIME_REACHABLE True (gate_runtime_reachable b).
Proof.
  apply records_guarded. apply attempts_bind; [apply keeps_net|].
  intros []; auto 8 with gates.
Qed.
Lemma runtime_health_spec b rt :
  records RUNTIME_HEALTH_VERIFIED (rt = true) (gate_runtime_health_verified b rt).
Proof.
  unfold gate_runtime_health_verified. destruct rt; simpl; [|apply settles_spec; auto with gates].
  apply records_guarded. unfold probe_status. eauto 12 with gates.
Qed.
Lemma runtime_binding_spec b rt :
  records RUNTIME_BINDING_VERIFIED (rt = true) (gate_runtime_binding_verified b rt).
Proof.
  unfold gate_runtime_binding_verified. destruct (expected_binding b) as [org repo].
  destruct rt; simpl; [|apply settles_spec; auto with gates].
  destruct (_ && _); simpl; [|apply settles_spec; auto with gates].
  apply records_guarded. unfold probe_status. eauto 14 with gates.
Qed.
Lemma runtime_admitted_spec b can ident :
  records RUNTIME_ADMITTED (can = true /\ True) (gate_runtime_admitted b can ident).
Proof.
  apply records_with_identity. intros a i. apply records_total; [auto with gates|].
  intros ad. destruct (is_admitted ad); auto with gates.
Qed.

Lemma state_issues_expected org repo id v e :
  state_issues org repo id v = Raise e -> expected e.
Proof.
  unfold state_issues, field. destruct v; simpl; try (intros [= <-]; right; by left).
  destruct (py_contains _ _) as [k|e'] eqn:E; [done|]. intros [= <-].
  unfold py_contains, raise in E. destruct (vget_or _ _ _); simplify_eq; by right; right.
Qed.
Lemma reconcile_state_quiet b ident fab rt : quiet (reconcile_state b ident fab rt).
Proof.
  intros s.
  unfold reconcile_state. destruct ident as [i|], (tp_fabric b) as [a|]; try done.
  destruct (fab && rt); [|done].
  apply wp_try_with, wp_bind, wp_zoom. eapply wp_mono; [apply only_state|].
  intros n [v|e] H.
  - apply wp_of_result. destruct (state_issues _ _ _ v) as [l|e] eqn:E; [done|].
    pose proof (state_issues_expected _ _ _ _ _ E) as He.
    destruct He as [He|[He|He]]; rewrite He; split; try done; unfold expected; rewrite He; auto.
  - destruct H as [H|H]; rewrite H; [done|]. split; [done|by left].
Qed.
Lemma reconciliation_spec b can ident fab rt :
  records PLANE_RECONCILIATION
    (can = true /\ known_runtime ident = true /\ fab = true /\ rt = true)
    (gate_plane_reconciliation b can ident fab rt).
Proof.
  unfold gate_plane_reconciliation. destruct can; simpl; [|apply settles_spec; auto with gates].
  apply records_quiet; [apply reconcile_state_quiet|]. intros found.
  destruct (known_runtime ident), fab, rt; simpl; try destruct found; auto with gates.
Qed.

(** A step that adds one result for [g] and gives something else. *)
Definition adds {A} (g : ReadinessGate) (Q : bool -> Prop) (m : M BootSt A) : Prop :=
  forall s, wp m s (fun s' r =>
    match r with
    | Ok _ => exists p d ev, gates s' = gates s ++ [mkGate g p d ev] /\ Q p
    | Raise e => expected e
    end).
Lemma policy_snapshot_spec b can :
  adds POLICY_SNAPSHOT_FRESH (fun p => p = true -> can = true) (gate_policy_snapshot b can).
Proof.
  intros s. unfold gate_policy_snapshot.
  destruct (tp_fabric b) as [a|]; [|by eexists _, _, _].
  destruct can; [|by eexists _, _, _].
  apply wp_try_with, wp_bind, wp_zoom, wp_any. intros n [raw|e].
  - apply wp_bind, wp_of_result. unfold policy_from_dict.
    destruct raw; by eexists _, _, _.
  - destruct (exn_type e) eqn:E; try by eexists _, _, _. by left.
Qed.
Lemma inventory_gates_spec b contract s :
  wp (gate_inventory b contract) s (fun s' r =>
    r = Ok (bootstrap_inventory b contract) /\ exists p1 p2 p3 p4 p5 d1 d2 d3 d4 d5 e1 e2 e3 e4 e5,
      gates s' = gates s ++ [mkGate CAPABILITIES_INVENTORIED p1 d1 e1;
        mkGate TOOLS_INVENTORIED p2 d2 e2; mkGate MODELS_INVENTORIED p3 d3 e3;
        mkGate WORKERS_INVENTORIED p4 d4 e4; mkGate CONNECTORS_INVENTORIED p5 d5 e5]).
Proof.
  split; [done|]. do 15 eexists. unfold gates. simpl. rewrite <- !app_assoc. done.
Qed.
Lemma critical_access_spec b authorized :
  records CRITICAL_ACCESS_VERIFIED True (gate_critical_access b authorized).
Proof. apply records_guarded. eauto 8 with gates. Qed.
Lemma contracts_spec b contract :
  records CONTRACTS_DISCOVERED True (gate_contracts b contract).
Proof.
  apply records_guarded. destruct contract; eauto 8 with gates.
Qed.
Lemma delegation_spec ident s :
  wp (gate_delegation_context ident) s (fun s' r =>
    match r with
    | Ok p => (exists d ev, gates s' = gates s ++ [mkGate DELEGATION_CONTEXT_BUILT p d ev]) /\
        (p = true -> known_runtime ident = true /\
           gr_passed (find_gate FABRIC_TENANT_BOUND (gates s)) = true)
    | Raise e => False
    end).
Proof.
  unfold gate_delegation_context. apply wp_bind, wp_gets.
  change (get_gate FABRIC_TENANT_BOUND (bt_report s)) with (find_gate FABRIC_TENANT_BOUND (gates s)).
  set (t := find_gate _ _).
  destruct (known_runtime ident), (gr_passed t), (truthy (gr_evidence t)),
    (is_text "UNKNOWN" _); simpl; (split; [by eexists _, _|done]).
Qed.
Lemma continuity_spec b : records CONTINUITY_COHERENT False (gate_continuity_coherent b).
Proof.
  unfold gate_continuity_coherent. destruct (tp_continuity b) as [e|];
    [|apply settles_spec; auto with gates].
  apply records_guarded. by intros s.
Qed.
End GateLogic.

(** ** The verdict *)
Section Verdict.
Context {env : BootEnv}.

(** The order in which the gates are evaluated. *)
Definition plane_gates : list ReadinessGate :=
  [RUNTIME_IDENTITY; GITHUB_CONNECTED; GITHUB_ORG_BOUND; FABRIC_REACHABLE;
   FABRIC_IDENTITY_VERIFIED; FABRIC_NODE_AT_REMOTE_HEAD; FABRIC_TRUST_VERIFIED;
   FABRIC_TENANT_BOUND; FABRIC_STATE_READABLE; FABRIC_PROVENANCE_VALID; RUNTIME_REACHABLE;
   RUNTIME_HEALTH_VERIFIED; RUNTIME_BINDING_VERIFIED; RUNTIME_ADMITTED].
Definition phase_gates : list ReadinessGate :=
  [POLICY_SNAPSHOT_FRESH; PLANE_RECONCILIATION; CAPABILITIES_INVENTORIED; TOOLS_INVENTORIED;
   MODELS_INVENTORIED; WORKERS_INVENTORIED; CONNECTORS_INVENTORIED; CRITICAL_ACCESS_VERIFIED;
   CONTRACTS_DISCOVERED; DELEGATION_CONTEXT_BUILT; CONTINUITY_COHERENT].
(** The gates that must have passed for a gate to pass. *)
Definition planes : list ReadinessGate := [RUNTIME_IDENTITY; GITHUB_CONNECTED; GITHUB_ORG_BOUND].
Definition requires (g : ReadinessGate) : list ReadinessGate :=
  match g with
  | GITHUB_ORG_BOUND => [GITHUB_CONNECTED]
  | FABRIC_REACHABLE | FABRIC_IDENTITY_VERIFIED | FABRIC_NODE_AT_REMOTE_HEAD
  | FABRIC_TRUST_VERIFIED | FABRIC_TENANT_BOUND => planes
  | FABRIC_STATE_READABLE | FABRIC_PROVENANCE_VALID | RUNTIME_ADMITTED
  | POLICY_SNAPSHOT_FRESH => FABRIC_REACHABLE :: planes
  | RUNTIME_HEALTH_VERIFIED | RUNTIME_BINDING_VERIFIED => [RUNTIME_REACHABLE]
  | PLANE_RECONCILIATION => FABRIC_REACHABLE :: RUNTIME_REACHABLE :: planes
  | DELEGATION_CONTEXT_BUILT => [RUNTIME_IDENTITY; FABRIC_TENANT_BOUND]
  | _ => []
  end.
Definition gate_ok (g : ReadinessGate) (l : list GateResult) : bool := gr_passed (find_gate g l).
Definition respects (gs : list ReadinessGate) (l : list GateResult) : Prop :=
  forall g g', g ∈ gs -> g' ∈ requires g -> gate_ok g l = true -> gate_ok g' l = true.

Lemma find_gate_app_l g l l' :
  g ∈ gr_gate <$> l -> find_gate g (l ++ l') = find_gate g l.
Proof.
  induction l as [|r l IH]; intros H; [by inv H|]. simpl. case_decide; [done|].
  apply IH. csimpl in H. apply elem_of_cons in H as [?|?]; [congruence|done].
Qed.
Lemma find_gate_app_r g l l' :
  g ∉ gr_gate <$> l -> find_gate g (l ++ l') = find_gate g l'.
Proof.
  induction l as [|r l IH]; intros H; [done|]. simpl. csimpl in H.
  apply not_elem_of_cons in H as [? ?]. rewrite decide_False by congruence. auto.
Qed.

(** The outcome of the planes. *)
Definition planes_done (ident : option RuntimeIdentity) (can fab rt : bool)
    (l : list GateResult) : Prop :=
  gr_gate <$> l = plane_gates /\ respects plane_gates l /\
  gate_ok RUNTIME_IDENTITY l = is_some_identity ident /\
  can = gate_ok RUNTIME_IDENTITY l && gate_ok GITHUB_CONNECTED l && gate_ok GITHUB_ORG_BOUND l /\
  fab = gate_ok FABRIC_REACHABLE l /\ rt = gate_ok RUNTIME_REACHABLE l /\
  gate_ok FABRIC_PROVENANCE_VALID l = false.

Lemma resolve_node_quiet b v : quiet (resolve_node b v).
Proof.
  intros s. unfold resolve_node. destruct (tp_fabric b) as [a|]; [|done].
  apply wp_when; [|done]. intros _. apply wp_try_with, wp_bind, wp_zoom.
  eapply wp_mono; [apply only_node|]. intros n [node|e] H; [done|].
  destruct H as [H|H]; rewrite H; [done|]. split; [done|by left].
Qed.
(** One gate, and what it says. *)
Lemma wp_records {A} g Q (m : M BootSt bool) (k : bool -> M BootSt A) s P :
  records g Q m ->
  (forall e s', expected e -> P s' (Raise e)) ->
  (forall s' p d ev, gates s' = gates s ++ [mkGate g p d ev] -> (p = true -> Q) ->
     wp (k p) s' P) ->
  wp (m ≫= k) s P.
Proof.
  intros Hm He Hk. apply wp_bind. eapply wp_mono; [apply Hm|].
  intros s' [p|e] H; [|by apply He]. destruct H as ((d & ev & H) & HQ). by eapply Hk.
Qed.
Lemma wp_quiet {A B} (m : M BootSt A) (k : A -> M BootSt B) s P :
  quiet m -> (forall e s', expected e -> P s' (Raise e)) ->
  (forall a s', gates s' = gates s -> wp (k a) s' P) -> wp (m ≫= k) s P.
Proof.
  intros Hm He Hk. apply wp_bind. eapply wp_mono; [apply Hm|].
  intros s' [a|e] [H1 H2]; [by apply Hk|by apply He].
Qed.
Lemma resolve_planes_spec b s :
  gates s = [] ->
  wp (resolve_planes b) s (fun s' r =>
    match r with
    | Ok (ident, can, fab, rt) => planes_done ident can fab rt (gates s')
    | Raise e => expected e
    end).
Proof.
  intros Hs. unfold resolve_planes. apply wp_bind.
  eapply wp_mono; [apply runtime_identity_spec|]. intros s1 [ident|e] H1; [|done].
  destruct H1 as (d1 & ev1 & H1). rewrite Hs in H1.
  apply wp_quiet; [destruct ident; by intros ?|done|]. intros _ s2 H2. rewrite H1 in H2.
  eapply wp_records; [apply github_connected_spec|done|]. intros s3 p3 d3 ev3 H3 _.
  eapply wp_records; [apply github_org_spec|done|]. intros s4 p4 d4 ev4 H4 Q4.
  eapply wp_records; [apply fabric_reachable_spec|done|]. intros s5 p5 d5 ev5 H5 Q5.
  eapply wp_records; [apply fabric_identity_spec|done|]. intros s6 p6 d6 ev6 H6 Q6.
  eapply wp_records; [apply fabric_node_head_spec|done|]. intros s7 p7 d7 ev7 H7 Q7.
  eapply wp_records; [apply fabric_trust_spec|done|]. intros s8 p8 d8 ev8 H8 Q8.
  eapply wp_records; [apply fabric_tenant_spec|done|]. intros s9 p9 d9 ev9 H9 Q9.
  apply wp_quiet; [apply resolve_node_quiet|done|]. intros _ s10 H10.
  eapply wp_records; [apply fabric_state_spec|done|]. intros s11 p11 d11 ev11 H11 Q11.
  eapply wp_records; [apply fabric_provenance_spec|done|]. intros s12 p12 d12 ev12 H12 Q12.
  eapply wp_records; [apply runtime_reachable_spec|done|]. intros s13 p13 d13 ev13 H13 _.
  eapply wp_records; [apply runtime_health_spec|done|]. intros s14 p14 d14 ev14 H14 Q14.
  eapply wp_records; [apply runtime_binding_spec|done|]. intros s15 p15 d15 ev15 H15 Q15.
  eapply wp_records; [apply runtime_admitted_spec|done|]. intros s16 p16 d16 ev16 H16 Q16.
  apply wp_ret.
  rewrite H16, H15, H14, H13, H12, H11, H10, H9, H8, H7, H6, H5, H4, H3, H2. simpl.
  assert (p12 = false) as -> by (destruct p12; [by destruct Q12|done]).
  set (i := is_some_identity ident) in *. unfold planes_done, respects, gate_ok. simpl.
  split_and!; try done.
  intros g g' Hg Hg' Hp.
  destruct g; simpl in Hg'; try (by inv Hg');
    repeat (apply elem_of_cons in Hg' as [->|Hg']); try (by inv Hg'); simpl in *;
    destruct i, p3, p4, p5, p13; simpl in *; try done; exfalso; intuition discriminate.
Qed.

(** The whole sequence. *)
Definition resolved (l : list GateResult) : Prop :=
  gr_gate <$> l = plane_gates ++ phase_gates /\
  (forall g g', g' ∈ requires g -> gate_ok g l = true -> gate_ok g' l = true) /\
  gate_ok FABRIC_PROVENANCE_VALID l = false /\ gate_ok CONTINUITY_COHERENT l = false.
Ltac decide_elem := by apply (bool_decide_unpack _).
Lemma gate_ok_left g l l' :
  gr_gate <$> l = plane_gates -> g ∈ plane_gates -> gate_ok g (l ++ l') = gate_ok g l.
Proof. intros Hl Hg. unfold gate_ok. by rewrite find_gate_app_l by (by rewrite Hl). Qed.
Lemma gate_ok_right g l l' :
  gr_gate <$> l = plane_gates -> g ∉ plane_gates -> gate_ok g (l ++ l') = gate_ok g l'.
Proof. intros Hl Hg. unfold gate_ok. by rewrite find_gate_app_r by (by rewrite Hl). Qed.
Lemma requires_planes g g' : g' ∈ requires g -> g' ∈ plane_gates.
Proof.
  destruct g; simpl; intros H; repeat (apply elem_of_cons in H as [->|H]);
    try (by inv H); decide_elem.
Qed.
Lemma phase_gate g : g ∉ plane_gates -> g ∈ phase_gates.
Proof. destruct g; intros H; first [decide_elem|destruct H; decide_elem]. Qed.
Lemma phases_app l l' :
  gr_gate <$> l = plane_gates -> gr_gate <$> l' = phase_gates -> respects plane_gates l ->
  (forall g g', g ∈ phase_gates -> g' ∈ requires g -> gate_ok g l' = true ->
     gate_ok g' l = true) ->
  gate_ok FABRIC_PROVENANCE_VALID l = false -> gate_ok CONTINUITY_COHERENT l' = false ->
  resolved (l ++ l').
Proof.
  intros Hl Hl' Hr Hp Hpv Hc.
  split_and!; [by rewrite fmap_app, Hl, Hl'| | |].
  - intros g g' Hg' Hok. rewrite gate_ok_left; [|done|by eapply requires_planes].
    destruct (decide (g ∈ plane_gates)) as [Hg|Hg].
    + rewrite gate_ok_left in Hok by done. by eapply Hr.
    + rewrite gate_ok_right in Hok by done. apply (Hp g); [by apply phase_gate|done|done].
  - rewrite gate_ok_left; [done|done|decide_elem].
  - rewrite gate_ok_right; [done|done|decide_elem].
Qed.
Lemma resolve_all_spec b s :
  gates s = [] ->
  wp (resolve_all b) s (fun s' r =>
    match r with
    | Ok _ => resolved (gates s') /\ br_anny_ready (bt_report s') = all_mandatory_pass (gates s')
    | Raise e => expected e
    end).
Proof.
  intros Hs. unfold resolve_all. apply wp_bind.
  eapply wp_mono; [by apply resolve_planes_spec|].
  intros s1 [[[[ident can] fab] rt]|e] H; [|done].
  destruct H as (Hl & Hr & Hi & Hcan & Hfab & Hrt & Hpv). apply wp_bind. unfold resolve_phases.
  apply wp_bind. eapply wp_mono; [apply policy_snapshot_spec|].
  intros s2 [contract|e] H2; [|done]. destruct H2 as (p2 & d2 & ev2 & H2 & Q2).
  eapply wp_records; [apply reconciliation_spec|done|]. intros s3 p3 d3 ev3 H3 Q3.
  apply wp_bind. eapply wp_mono; [apply inventory_gates_spec|].
  intros s4 r4 (-> & i1 & i2 & i3 & i4 & i5 & ? & ? & ? & ? & ? & ? & ? & ? & ? & ? & H4).
  apply wp_bind, wp_modify, wp_bind, wp_gets.
  eapply wp_records; [apply critical_access_spec|done|]. intros s5 p5 d5 ev5 H5 _.
  eapply wp_records; [apply contracts_spec|done|]. intros s6 p6 d6 ev6 H6 _.
  apply wp_bind. eapply wp_mono; [apply delegation_spec|]. intros s7 [p7|e] H7; [|done].
  destruct H7 as ((d7 & ev7 & H7) & Q7).
  eapply wp_records; [apply continuity_spec|done|]. intros s8 p8 d8 ev8 H8 Q8.
  apply wp_ret, wp_bind, wp_gets, wp_modify. simpl.
  change (gates (mkBoot _ _)) with (gates s8). split; [|done].
  change (gates (mkBoot _ (report_inventory _ _))) with (gates s4) in H5.
  rewrite H6, H5, H4, H3, H2, <- !app_assoc in Q7.
  rewrite find_gate_app_l in Q7 by (rewrite Hl; decide_elem).
  rewrite H8, H7, H6, H5, H4, H3, H2, <- !app_assoc.
  assert (p8 = false) as -> by (destruct p8; [by destruct Q8|done]).
  apply phases_app; try done.
  intros g g' Hg Hg' Hok. rewrite Hfab, Hrt, Hcan in *.
  assert (known_runtime ident = true -> gate_ok RUNTIME_IDENTITY (gates s1) = true) as Hk
    by (rewrite Hi; by destruct ident).
  change (gr_passed (find_gate FABRIC_TENANT_BOUND (gates s1)))
    with (gate_ok FABRIC_TENANT_BOUND (gates s1)) in Q7.
  destruct g; try (by inv Hg'); try (exfalso; revert Hg; by apply (bool_decide_unpack (_ ∉ _)));
    unfold gate_ok in Hok; simpl in Hok; subst;
    repeat (apply elem_of_cons in Hg' as [->|Hg']); try (by inv Hg');
    repeat match goal with
      | Q : true = true -> _ |- _ => specialize (Q eq_refl)
      | H : _ /\ _ |- _ => destruct H
      | H : _ && _ = true |- _ => apply andb_true_iff in H
      end; auto.
Qed.

(** The last result of each gate is its only one. *)
Lemma gate_map_pairs l :
  NoDup (gr_gate <$> l) -> gate_map l = map (fun r => (gr_gate r, gr_passed r)) l.
Proof.
  intros H. unfold gate_map.
  assert (forall acc, foldl (fun d r => dset (gr_gate r) (gr_passed r) d) acc l =
    foldl (fun d kv => dset kv.1 kv.2 d) acc (map (fun r => (gr_gate r, gr_passed r)) l)) as ->.
  { clear. induction l; intros acc; simpl; auto. }
  apply (rebuild_pairs _ []). unfold dict_wf, dkeys. simpl.
  replace ((map _ l).*1) with (gr_gate <$> l); [done|].
  clear. induction l; csimpl; by f_equal.
Qed.
Lemma gate_map_ok l g :
  NoDup (gr_gate <$> l) -> default false (dget g (gate_map l)) = gate_ok g l.
Proof.
  intros H. rewrite gate_map_pairs by done. clear H. unfold gate_ok.
  induction l as [|r l IH]; [done|]. simpl. repeat case_decide; simpl; congruence.
Qed.
Lemma gates_distinct l : gr_gate <$> l = plane_gates ++ phase_gates -> NoDup (gr_gate <$> l).
Proof. intros ->. by apply (bool_decide_unpack _). Qed.
Lemma all_mandatory g : g ∈ MANDATORY_GATES.
Proof. destruct g; decide_elem. Qed.
Lemma mandatory_pass_iff l :
  NoDup (gr_gate <$> l) -> all_mandatory_pass l = true <-> forall g, gate_ok g l = true.
Proof.
  intros H. unfold all_mandatory_pass. rewrite forallb_forall. split; intros Ha g.
  - rewrite <- gate_map_ok by done. apply Ha, list_elem_of_In, all_mandatory.
  - intros _. by rewrite gate_map_ok.
Qed.
Lemma bootstrap_wp b sent :
  wp (resolve b) sent (fun _ r =>
    match r with
    | Ok rep => resolved (br_gates rep) /\ br_anny_ready rep = all_mandatory_pass (br_gates rep)
    | Raise e => expected e
    end).
Proof.
  pose proof (resolve_all_spec b (mkBoot sent (new_report boot_started)) eq_refl) as H.
  unfold wp, resolve in *. by destruct (resolve_all b _) as [s [[]|e]].
Qed.


Lemma never_ready b sent :
  wp (resolve b) sent (fun _ r =>
    match r with Ok rep => br_anny_ready rep = false | Raise e => expected e end).
Proof.
  eapply wp_mono; [apply bootstrap_wp|]. intros n [rep|e]; [|done].
  intros ((Hl & _ & Hpv & _) & ->). apply not_true_iff_false.
  rewrite mandatory_pass_iff by (by apply gates_distinct). intros H. by rewrite H in Hpv.
Qed.

(** A fabric state that is readable JSON but not an object makes the
    reconciliation raise instead of failing its gate. *)
Lemma malformed_state_raises b a i v s n :
  tp_fabric b = Some a -> read_fabric_state a (bt_net s) = (n, Ok v) -> is_dict v = false ->
  wp (gate_plane_reconciliation b true (Some i) true true) s (fun s' r =>
    gates s' = gates s /\ exists msg, r = raise AttributeError msg).
Proof.
  intros Ha Hv Hd. unfold gate_plane_reconciliation, reconcile_state. simpl. rewrite Ha. simpl.
  apply wp_bind, wp_try_with, wp_bind, wp_zoom. unfold wp at 1. rewrite Hv. apply wp_of_result.
  destruct v; simpl in Hd; try done; simpl; (split; [done|]); by eexists.
Qed.

(** ** The engine's startup *)
(** What the engine runs: the bootstrap on its loaded journal, without
    registries. *)
Definition engine_resolve (data_dir : string) (identity : KeyDir) (github : option GitHubClient)
    (fabric : option GitHubFabricAdapter) (config : dict string pyval) (sent : Net) (e : Engine)
    : result bool :=
  let? b := new_bootstrap data_dir identity github fabric (Some e) (Some config) None None None
              false in
  let? rep := (resolve b sent).2 in
  Ok (br_anny_ready rep).

(** The engine never becomes ready for sessions: whatever the identity, the
    GitHub account, the fabric and the configuration, a startup ends in
    administration mode or in error, since no commit is available to the
    provenance gate and the continuity engine has no status. *)
Theorem startup_never_ready iso records_path events_path data_dir identity github fabric config
    sent k s :
  gen_ready k s ->
  wp (startup iso records_path events_path
        (engine_resolve data_dir identity github fabric config sent)) s (fun s' r =>
    co_generation s' = VInt (k + 1) /\
    (r = Ok tt /\ co_state s' = ADMIN_MODE \/
     exists e, r = Raise e /\ co_state s' = RS_ERROR)).
Proof.
  intros Hk. eapply wp_mono; [by apply startup_wp|].
  intros s' r ((_ & Hg & _) & _ & _ & e' & _ & H). split; [done|].
  unfold engine_resolve in H. destruct (new_bootstrap _ _ _ _ _ _ _ _ _ _) as [b|e]; [|by right; eexists].
  pose proof (never_ready b sent) as Hn. unfold wp in Hn.
  destruct (resolve b sent) as [n [rep|e]]; simpl in H; [|by right; eexists].
  rewrite Hn in H. by left.
Qed.
End Verdict.
