(* ===== verification/CustomerZero.v ===== *)
(** * The customer-zero bootstrap

    [runtime/continuity/state.py], [operational.py] and [bootstrap.py]: the
    operational repository, discovered among the repositories of a GitHub
    account or given by a local directory, and the resolver that reads the
    canonical state from it in fourteen stages.  The fields of the records hold
    whatever YAML value was read; mappings have text keys.  The local directory
    does not change during a bootstrap. *)
From S2P Require Import Prelude Dict PyVal Effects PyPath PyStr PyBytes Json JsonLoad Host Github Core.

(** ** The records *)
Inductive ContinuityStatus := CONSISTENT | DEGRADED | CONFLICTED | CS_UNKNOWN | CS_BLOCKED.
#[export] Instance ContinuityStatus_eq_dec : EqDecision ContinuityStatus.
Proof. solve_decision. Defined.
Definition status_value (s : ContinuityStatus) : string :=
  match s with
  | CONSISTENT => "CONSISTENT" | DEGRADED => "DEGRADED" | CONFLICTED => "CONFLICTED"
  | CS_UNKNOWN => "UNKNOWN" | CS_BLOCKED => "BLOCKED"
  end.
Record Blocker := mkBlocker {
  bl_id : pyval; bl_description : pyval; bl_severity : pyval;
  bl_source : pyval; bl_created_at : pyval }.
Record CurrentTask := mkTask {
  ct_id : pyval; ct_name : pyval; ct_status : pyval;
  ct_description : pyval; ct_assigned_worker : pyval }.
Record CurrentMission := mkMission {
  cm_id : pyval; cm_title : pyval; cm_status : pyval; cm_description : pyval;
  cm_tasks : list CurrentTask; cm_raw_content : pyval }.
Record NextAction := mkNextAction {
  na_action : pyval; na_actor : pyval; na_target : pyval; na_rationale : pyval }.
Record AnnyCanonicalState := mkCanonical {
  ca_repository_name : pyval; ca_revision : pyval;
  ca_bootstrap_contract_version : pyval; ca_operating_system_version : pyval;
  ca_constitution_ref : pyval; ca_current_mission : option CurrentMission;
  ca_current_task : option CurrentTask; ca_next_action : option NextAction;
  ca_blockers : list Blocker; ca_l2_workers : pyval;
  ca_referenced_evidence : list string; ca_metadata : dict string pyval }.
Record BootstrapResult := mkResult {
  bo_status : ContinuityStatus; bo_canonical_state : option AnnyCanonicalState;
  bo_stages_completed : list string; bo_blockers : list Blocker;
  bo_error_message : option string }.

(** [asdict] *)
Definition blocker_to_dict (b : Blocker) : pyval :=
  VDict [("id", bl_id b); ("description", bl_description b); ("severity", bl_severity b);
         ("source", bl_source b); ("created_at", bl_created_at b)].
Definition task_to_dict (t : CurrentTask) : pyval :=
  VDict [("id", ct_id t); ("name", ct_name t); ("status", ct_status t);
         ("description", ct_description t); ("assigned_worker", ct_assigned_worker t)].
Definition mission_to_dict (m : CurrentMission) : pyval :=
  VDict [("id", cm_id m); ("title", cm_title m); ("status", cm_status m);
         ("description", cm_description m); ("tasks", VList (task_to_dict <$> cm_tasks m));
         ("raw_content", cm_raw_content m)].
Definition next_action_to_dict (a : NextAction) : pyval :=
  VDict [("action", na_action a); ("actor", na_actor a); ("target", na_target a);
         ("rationale", na_rationale a)].
Definition oval {A} (f : A -> pyval) (o : option A) : pyval :=
  match o with Some a => f a | None => VNone end.
Definition canonical_to_dict (c : AnnyCanonicalState) : pyval :=
  VDict [("repository_name", ca_repository_name c); ("revision", ca_revision c);
         ("bootstrap_contract_version", ca_bootstrap_contract_version c);
         ("operating_system_version", ca_operating_system_version c);
         ("constitution_ref", ca_constitution_ref c);
         ("current_mission", oval mission_to_dict (ca_current_mission c));
         ("current_task", oval task_to_dict (ca_current_task c));
         ("next_action", oval next_action_to_dict (ca_next_action c));
         ("blockers", VList (blocker_to_dict <$> ca_blockers c));
         ("l2_workers", ca_l2_workers c);
         ("referenced_evidence", VList (VStr <$> ca_referenced_evidence c));
         ("metadata", VDict (ca_metadata c))].
Definition result_to_dict (r : BootstrapResult) : pyval :=
  VDict [("status", VStr (status_value (bo_status r)));
         ("canonical_state", oval canonical_to_dict (bo_canonical_state r));
         ("stages_completed", VList (VStr <$> bo_stages_completed r));
         ("blockers", VList (blocker_to_dict <$> bo_blockers r));
         ("error_message", oval VStr (bo_error_message r))].

(** ** The operational repository *)
(** The resolved repository: a local directory, or one on GitHub. *)
Inductive OperationalRepository :=
  | LocalRepo (path : string)
  | GithubRepo (owner repo default_branch : pyval).
(** The provider: its client, its override, the environment's name. *)
Record Provider := mkProvider {
  pv_github : option GitHubClient;
  pv_local_path_override : option string;
  pv_environment : string }.
(** Its cache, the requests sent, and for the resolver the event bus, the
    calls of its handlers and the readings of the clock. *)
Record CzSt := mkCz {
  cz_resolved : option OperationalRepository;
  cz_sent : Net;
  cz_bus : option EventBus;
  cz_calls : list (nat * Event);
  cz_tick : nat }.
#[export] Instance eta_CzSt : Eta CzSt := fun r =>
  mkCz (cz_resolved r) (cz_sent r) (cz_bus r) (cz_calls r) (cz_tick r).

(** The network, [yaml.safe_load], the file system with the working directory,
    and [time.time()]. *)
Class CzEnv := {
  cz_network :: Network;
  yaml_load : string -> result pyval;
  cz_files : fs;
  cz_cwd : string;
  cz_clock : nat -> pyfloat }.

Section Provider.
Context {env : CzEnv} (pv : Provider).
#[local] Instance cz_floats : FloatOps := net_floats.

Definition on_net {A} (m : M Net A) : M CzSt A :=
  zoom cz_sent (fun n s => s <| cz_sent := n |>) m.

(** What is at a path: a path with a trailing slash names a directory. *)
Definition node_at (p : string) : option node :=
  match cz_files !! abspath cz_cwd p with
  | Some (File _ _ _) as n => if endswith_slash p then None else n
  | n => n
  end.
Definition node_exists (p : string) : bool :=
  match node_at p with Some _ => true | None => false end.
Definition repo_full_name (r : OperationalRepository) : string :=
  match r with
  | LocalRepo _ => "LOCAL_CONTROLLED_TEST"
  | GithubRepo owner repo _ => py_str owner +:+ "/" +:+ py_str repo
  end.
(** A ref that is false is not sent; another is formatted. *)
Definition ref_of (branch : pyval) : option string :=
  if truthy branch then Some (py_str branch) else None.

(** The probe of one repository of the list. *)
Definition probe_files (c : GitHubClient) (owner name branch : pyval) : M CzSt bool :=
  try_with
    (marked ← on_net (file_exists c (py_str owner) (py_str name) ".anny/operational.yaml"
                        (ref_of branch));
     if (marked : bool) then mret true
     else on_net (file_exists c (py_str owner) (py_str name) "BOOTSTRAP.md" (ref_of branch)))
    (fun e => if is_github_error (exn_type e)
              then throw OperationalRepositoryNotFound "UNKNOWN_ERROR" else rethrow e).
Definition consider (c : GitHubClient) (repo : pyval) : M CzSt (list OperationalRepository) :=
  if negb (truthy repo) then mret []
  else
    owners ← of_result (py_get "owner" (VDict []) repo);
    owner ← of_result (py_get "login" VNone owners);
    name ← of_result (py_get "name" VNone repo);
    if negb (truthy owner) || negb (truthy name) then mret []
    else
      topics ← of_result (py_get "topics" (VList []) repo);
      tagged ← of_result (py_contains "anny-operational" topics);
      branch ← of_result (py_get "default_branch" (VStr "main") repo);
      if (tagged : bool) then mret [GithubRepo owner name branch]
      else
        found ← probe_files c owner name branch;
        mret (if (found : bool) then [GithubRepo owner name branch] else []).
Fixpoint consider_all (c : GitHubClient) (repos : list pyval)
    : M CzSt (list OperationalRepository) :=
  match repos with
  | [] => mret []
  | r :: rs => here ← consider c r; rest ← consider_all c rs; mret (here ++ rest)
  end.
Definition github_candidates (c : GitHubClient) : M CzSt (list OperationalRepository) :=
  try_with (repos ← on_net (list_repositories c None); consider_all c repos)
    (fun e => if is_github_error (exn_type e)
              then throw OperationalRepositoryNotFound "NETWORK_ERROR" else rethrow e).
Definition select_candidate (candidates : list OperationalRepository)
    : result OperationalRepository :=
  match candidates with
  | [] => raise OperationalRepositoryNotFound "OPERATIONAL_REPOSITORY_NOT_FOUND"
  | [r] => Ok r
  | _ => raise OperationalRepositoryAmbiguous
           ("OPERATIONAL_REPOSITORY_AMBIGUOUS: " +:+ py_repr_strs (repo_full_name <$> candidates))
  end.
Definition local_override : option string :=
  match pv_local_path_override pv with
  | Some p =>
      if str_true p && negb (pv_environment pv =s "PRODUCTION")
         && str_in (pv_environment pv) ["CONTROLLED_TEST"; "CUSTOMER_ZERO_TEST"]
         && node_exists p
      then Some p else None
  | None => None
  end.
Definition remember (r : OperationalRepository) : M CzSt (option OperationalRepository) :=
  modify (fun s => s <| cz_resolved := Some r |>) ;; mret (Some r).
Definition resolve_operational_repository : M CzSt (option OperationalRepository) :=
  s ← gets id;
  match cz_resolved s with
  | Some r => mret (Some r)
  | None =>
      match local_override with
      | Some p => remember (LocalRepo p)
      | None =>
          match pv_github pv with
          | None => mret None
          | Some c =>
              candidates ← github_candidates c;
              r ← of_result (select_candidate candidates);
              remember r
          end
      end
  end.

(** [_read_file_content]: the text of a file, or whatever the API gave for it *)
Definition read_file_content (path : string) : M CzSt pyval :=
  info ← resolve_operational_repository;
  match info, pv_github pv with
  | Some (LocalRepo base), _ =>
      mret (match node_at (path_join base path) with
            | Some (File content _ _) => VStr (universal_newlines content)
            | _ => VNone
            end)
  | Some (GithubRepo owner repo branch), Some c =>
      try_with (on_net (get_file c (py_str owner) (py_str repo) path (ref_of branch)))
        (fun e => match exn_type e with GitHubNotFoundError => mret VNone | _ => rethrow e end)
  | Some (GithubRepo _ _ _), None =>
      throw AttributeError "'NoneType' object has no attribute 'get_file'"
  | None, _ => mret VNone
  end.
Definition path_exists (path : string) : M CzSt bool :=
  info ← resolve_operational_repository;
  match info, pv_github pv with
  | Some (LocalRepo base), _ =>
      mret (node_exists (path_join base path))
  | Some (GithubRepo owner repo branch), Some c =>
      on_net (file_exists c (py_str owner) (py_str repo) path (ref_of branch))
  | Some (GithubRepo _ _ _), None =>
      throw AttributeError "'NoneType' object has no attribute 'file_exists'"
  | None, _ => mret false
  end.
(** [_parse_yaml_or_json]: a value that is not a text is read by neither. *)
Definition parse_yaml_or_json (content : pyval) : result pyval :=
  if negb (truthy content) then Ok VNone
  else match content with
       | VStr s => rescue (yaml_load s) (fun _ => rescue (json_loads s) (fun _ => Ok VNone))
       | _ => Ok VNone
       end.
Definition parse_file (path : string) : M CzSt pyval :=
  content ← read_file_content path; of_result (parse_yaml_or_json content).
Definition as_dict (v : pyval) : option (dict string pyval) :=
  match v with VDict d => Some d | _ => None end.
Definition read_dict (path : string) : M CzSt (option (dict string pyval)) :=
  v ← parse_file path; mret (as_dict v).

Definition read_bootstrap : M CzSt pyval := read_file_content "BOOTSTRAP.md".
Definition read_current_state := read_dict "state/CURRENT_STATE.yaml".
Definition read_current_mission : M CzSt (option (dict string pyval)) :=
  content ← read_file_content "state/CURRENT_MISSION.yaml";
  parsed ← of_result (parse_yaml_or_json content);
  mret (dset "_raw_content" content <$> as_dict parsed).
Definition read_blockers := read_dict "state/BLOCKERS.yaml".
Definition read_next_action := read_dict "state/NEXT_ACTION.yaml".
(** The workers a registry file lists. *)
Definition workers_of (v : pyval) : option pyval :=
  match v with
  | VList l => Some (VList l)
  | VDict d => dget "workers" d
  | _ => None
  end.
Fixpoint first_registry (paths : list string) : M CzSt pyval :=
  match paths with
  | [] => mret (VList [])
  | p :: ps =>
      v ← parse_file p;
      match workers_of v with Some w => mret w | None => first_registry ps end
  end.
Definition read_l2_registry : M CzSt pyval :=
  first_registry ["state/OFFICE_REGISTRY_001.json"; "state/L2_WORKER_REGISTRY.yaml"].
Definition read_referenced_evidence (ref : string) : M CzSt pyval := read_file_content ref.
End Provider.

(** ** The resolver *)
Section Resolver.
Context {env : CzEnv} (pv : Provider).
#[local] Instance res_floats : FloatOps := net_floats.

(** [_emit] *)
Definition emit_event (t : EventType) (payload : dict string pyval) : M CzSt unit := fun s =>
  match cz_bus s with
  | Some bus =>
      let ev := mkEv t "bootstrap_resolver" None None None payload (cz_clock (cz_tick s)) in
      let '(bus', calls) := emit log_call ev bus (cz_calls s) in
      ((((s <| cz_bus := Some bus' |>) <| cz_calls := calls |>) <| cz_tick := S (cz_tick s) |>),
       Ok tt)
  | None => (s, Ok tt)
  end.

(** A stage ends the resolution with a result or goes on with a value. *)
Abbreviation stage A := (M CzSt (BootstrapResult + A)) (only parsing).
Definition go {A} (a : A) : stage A := mret (inr a).
Definition stop {A} (r : BootstrapResult) : stage A := mret (inl r).
Definition do_ {A} (m : M CzSt A) : stage A := a ← m; go a.
Definition and_then {A B} (m : stage A) (f : A -> stage B) : stage B :=
  x ← m; match x with inl r => stop r | inr a => f a end.
#[local] Notation "'let!' x ':=' m 'in' k" := (and_then m (fun x => k))
  (at level 10, x pattern, m at level 100, k at level 200).
#[local] Notation "m ;;; k" := (and_then m (fun _ => k))
  (at level 100, k at level 200, right associativity).

Definition new_blocker (id description severity : string) : Blocker :=
  mkBlocker (VStr id) (VStr description) (VStr severity) VNone VNone.
Definition critical (id description : string) : Blocker := new_blocker id description "CRITICAL".
(** The result of an early return. *)
Definition blocked (stages : list string) (blockers : list Blocker) (msg : string)
    : BootstrapResult := mkResult CS_BLOCKED None stages blockers (Some msg).
Definition need {A} (o : option A) (stages : list string) (b : Blocker) (msg : string) : stage A :=
  match o with Some a => go a | None => stop (blocked stages [b] msg) end.
Definition need_true (b : bool) (stages : list string) (bl : Blocker) (msg : string) : stage unit :=
  if b then go tt else stop (blocked stages [bl] msg).

(** Stage 1: the errors of the resolution. *)
Definition resolution_status (msg : string) : ContinuityStatus :=
  if contains "UNAUTHORIZED" msg || contains "FORBIDDEN" msg || contains "NETWORK_ERROR" msg
     || contains "RATE_LIMITED" msg
  then CS_UNKNOWN else CS_BLOCKED.
Definition resolution_failed (msg : string) : BootstrapResult :=
  mkResult (resolution_status msg) None []
    [critical "BLK-BOOTSTRAP-001" ("Operational repository inaccessible: " +:+ msg)]
    (Some ("Operational repository resolution failed: " +:+ msg)).
Definition stage_repository : stage OperationalRepository :=
  info ← except_all
    (r ← resolve_operational_repository pv; mret (inr r : BootstrapResult + _))
    (fun e => mret (inl (resolution_failed (exn_str e))));
  match info with
  | inl r => stop r
  | inr info =>
      need info [] (critical "BLK-BOOTSTRAP-001" "Operational repository unresolved")
        "Operational repository could not be resolved."
  end.

(** Stages 1 to 3: the contract and the two directories. *)
Definition stage_contract (stages : list string) : stage (list string) :=
  let! md := do_ (read_bootstrap pv) in
  need_true (truthy md) stages
    (critical "BLK-BOOTSTRAP-002" "BOOTSTRAP.md contract missing from operational repository")
    "BOOTSTRAP.md is missing from operational repository." ;;;
  let stages := stages ++ ["1.BOOTSTRAP"] in
  let! constitution := do_ (path_exists pv "constitution/") in
  need_true constitution stages
    (critical "BLK-BOOTSTRAP-002" "constitution directory missing")
    "Constitution directory is missing." ;;;
  let stages := stages ++ ["2.CONSTITUTION"] in
  let! os := do_ (path_exists pv "os/") in
  need_true os stages (critical "BLK-BOOTSTRAP-003" "os directory missing")
    "OS directory is missing." ;;;
  go (stages ++ ["3.OPERATING_SYSTEM"]).

(** [if not d]: a mapping that is missing or empty *)
Definition nonempty (o : option (dict string pyval)) : option (dict string pyval) :=
  match o with Some [] => None | _ => o end.
(** Stages 4 and 6. *)
Definition stage_state (stages : list string) : stage (dict string pyval * list string) :=
  let! d := do_ (read_current_state pv) in
  let! cs := need (nonempty d) stages
    (critical "BLK-BOOTSTRAP-004" "state/CURRENT_STATE.yaml missing or invalid")
    "state/CURRENT_STATE.yaml is missing or invalid." in
  do_ (emit_event CANONICAL_STATE_LOADED [("schema_version", vget "schema_version" cs)]) ;;;
  go (cs, stages ++ ["4.SHARED_ORG_STATE"; "6.CURRENT_STATE"]).
(** Stage 5. *)
Definition stage_workers (stages : list string) : stage (pyval * list string) :=
  let! l2 := do_ (read_l2_registry pv) in
  go (if truthy l2 then l2 else VList [], stages ++ ["5.L2_WORKER_REGISTRY"]).

(** Stage 7: the tasks of the mission's scope. *)
Definition parse_task (item : pyval) : (Blocker * string) + CurrentTask :=
  match item with
  | VDict d =>
      let id := vget "id" d in
      let name := vget "name" d in
      let status := vget "status" d in
      if negb (truthy id) || negb (truthy status)
      then inl (critical "BLK-BOOTSTRAP-007b"
                  ("SCHEMA_MISMATCH: CURRENT_MISSION scope task missing id or status: "
                   +:+ py_str item),
                "CURRENT_MISSION scope task SCHEMA_MISMATCH.")
      else inr (mkTask id (if truthy name then name else VStr "") status VNone VNone)
  | _ => inl (critical "BLK-BOOTSTRAP-007c"
                ("SCHEMA_MISMATCH: CURRENT_MISSION scope item is not dict: " +:+ py_str item),
              "CURRENT_MISSION scope item SCHEMA_MISMATCH.")
  end.
Fixpoint parse_tasks (items : list pyval) : (Blocker * string) + list CurrentTask :=
  match items with
  | [] => inr []
  | item :: items' =>
      match parse_task item with
      | inl b => inl b
      | inr t => match parse_tasks items' with inl b => inl b | inr ts => inr (t :: ts) end
      end
  end.
(** [a or b] *)
Definition py_or (a b : pyval) : pyval := if truthy a then a else b.
Definition raw_tasks (d : dict string pyval) : list pyval :=
  match py_or (vget "scope" d) (VList []) with VList l => l | _ => [] end.
Definition parse_mission (stages : list string) (d : dict string pyval)
    : BootstrapResult + CurrentMission :=
  let mission_id := vget "mission_id" d in
  let mission_status := vget "status" d in
  if negb (truthy mission_id) || negb (truthy mission_status)
  then inl (blocked stages
              [critical "BLK-BOOTSTRAP-007a"
                 "SCHEMA_MISMATCH: CURRENT_MISSION missing mission_id or status"]
              "CURRENT_MISSION SCHEMA_MISMATCH.")
  else match parse_tasks (raw_tasks d) with
       | inl (b, msg) => inl (blocked stages [b] msg)
       | inr tasks =>
           inr (mkMission mission_id (vget "title" d) mission_status
                  (py_or (vget "objective" d) (vget "description" d)) tasks
                  (vget "_raw_content" d))
       end.
Definition stage_mission (stages : list string) : stage (CurrentMission * list string) :=
  let! d := do_ (read_current_mission pv) in
  let! d := need (nonempty d) stages
    (critical "BLK-BOOTSTRAP-007" "state/CURRENT_MISSION.yaml missing or invalid")
    "state/CURRENT_MISSION.yaml is missing or invalid." in
  let! mission := mret (parse_mission stages d) in
  do_ (emit_event CURRENT_MISSION_RESOLVED
         [("mission_id", cm_id mission); ("status", cm_status mission)]) ;;;
  go (mission, stages ++ ["7.CURRENT_MISSION"]).

(** Stage 8: the blockers of their file, else of the current state. *)
Definition parse_blocker (origin : string) (item : pyval) : Blocker :=
  let mismatch what :=
    critical "SCHEMA_MISMATCH" (origin +:+ " item " +:+ what +:+ ": " +:+ py_str item) in
  match item with
  | VDict d =>
      let id := vget "id" d in
      let description := vget "description" d in
      let severity := vget "severity" d in
      if negb (truthy id) || negb (truthy description) || negb (truthy severity)
      then mismatch "missing required fields"
      else mkBlocker id description severity VNone VNone
  | _ => mismatch "not dict"
  end.
Definition blocker_list (d : dict string pyval) : option (list pyval) :=
  match dget "blockers" d with Some (VList l) => Some l | _ => None end.
Definition parse_blockers (file : option (dict string pyval)) (cs : dict string pyval)
    : list Blocker :=
  match nonempty file ≫= blocker_list with
  | Some l => parse_blocker "BLOCKERS list" <$> l
  | None =>
      match blocker_list cs with
      | Some l => parse_blocker "CURRENT_STATE blockers" <$> l
      | None => []
      end
  end.
Definition stage_blockers (cs : dict string pyval) (stages : list string)
    : stage (list Blocker * list string) :=
  let! d := do_ (read_blockers pv) in
  let blockers := parse_blockers d cs in
  do_ (emit_event BLOCKERS_LOADED [("count", VInt (Z.of_nat (length blockers)))]) ;;;
  go (blockers, stages ++ ["8.BLOCKERS"]).

(** Stage 9: the next action of its file, else of the current state. *)
Definition plain_action (action : pyval) : NextAction :=
  mkNextAction action (VStr "ANNY") VNone VNone.
Definition parse_next_action (file : option (dict string pyval)) (cs : dict string pyval)
    : option NextAction :=
  let from_file :=
    match nonempty file with
    | None => None
    | Some d =>
        match vget_or "action" (VDict []) d with
        | VDict a => Some (mkNextAction (vget_or "WHAT" (VStr "Unspecified action") a)
                             (vget_or "OWNER" (VStr "ANNY") a)
                             (vget "DEPENDENCY" a) (vget "WHY" a))
        | VStr t => Some (plain_action (VStr t))
        | _ => None
        end
    end in
  match from_file with
  | Some a => Some a
  | None =>
      if truthy (vget "next_action" cs)
      then Some (plain_action (VStr (py_str (vget "next_action" cs)))) else None
  end.
Definition stage_action (cs : dict string pyval) (parsed : list Blocker) (stages : list string)
    : stage (NextAction * list string) :=
  let! d := do_ (read_next_action pv) in
  match parse_next_action d cs with
  | Some a =>
      do_ (emit_event NEXT_ACTION_LOADED [("action", na_action a)]) ;;;
      go (a, stages ++ ["9.NEXT_ACTION"])
  | None =>
      stop (blocked stages
              (new_blocker "BLK-BOOTSTRAP-009" "state/NEXT_ACTION.yaml missing or invalid" "HIGH"
               :: parsed)
              "NEXT_ACTION is missing.")
  end.

(** Stages 10 to 14: name, path and whether it is required. *)
Definition stage_definitions : list (string * string * bool) :=
  [("10.PROPOSALS", "proposals", false); ("11.HANDOFFS", "handoffs", false);
   ("12.ESCALATIONS", "escalations", false); ("13.REQUIRED_EVIDENCE", "evidence", false);
   ("14.RELEVANT_DOMAIN_STATE", "domain", false)].
Fixpoint stage_directories (defs : list (string * string * bool)) (stages : list string)
    : stage (list string) :=
  match defs with
  | [] => go stages
  | (name, path, required) :: defs' =>
      let! present := do_ (path_exists pv path) in
      if (present : bool) then stage_directories defs' (stages ++ [name])
      else if (required : bool)
      then stop (blocked stages
                   [critical ("BLK-BOOTSTRAP-" +:+ name) ("Required stage " +:+ name +:+ " missing")]
                   ("Required stage " +:+ name +:+ " missing."))
      else stage_directories defs' (stages ++ [name +:+ ":OPTIONAL_ABSENT"])
  end.

(** The repository's info never has a revision of its own. *)
Definition state_revision (cs : dict string pyval) : pyval :=
  match vget "timeline" cs with VDict t => vget "last_state_change" t | _ => VNone end.
Definition repo_type (r : OperationalRepository) : string :=
  match r with LocalRepo _ => "local" | GithubRepo _ _ _ => "github" end.
Definition canonical_state (info : OperationalRepository) (cs : dict string pyval)
    (mission : CurrentMission) (action : NextAction) (blockers : list Blocker) (l2 : pyval)
    : AnnyCanonicalState :=
  mkCanonical (VStr (repo_full_name info)) (state_revision cs) (VStr "1.0") (VStr "1.0")
    (VStr "constitution/") (Some mission) (head (cm_tasks mission)) (Some action) blockers l2 []
    [("repo_type", VStr (repo_type info))].

(** Everything after the resolution of the repository. *)
Definition resolve_rest (info : OperationalRepository) : stage BootstrapResult :=
  do_ (emit_event OPERATIONAL_REPOSITORY_RESOLVED [("full_name", VStr (repo_full_name info))]) ;;;
  let! stages := stage_contract ["OPERATIONAL_REPOSITORY_RESOLVED"] in
  let! (cs, stages) := stage_state stages in
  let! (l2, stages) := stage_workers stages in
  let! (mission, stages) := stage_mission stages in
  let! (blockers, stages) := stage_blockers cs stages in
  let! (action, stages) := stage_action cs blockers stages in
  let! stages := stage_directories stage_definitions stages in
  let status := match blockers with [] => CONSISTENT | _ => DEGRADED end in
  do_ (emit_event BOOTSTRAP_COMPLETED [("status", VStr (status_value status))]) ;;;
  go (mkResult status (Some (canonical_state info cs mission action blockers l2)) stages blockers
        None).
Definition resolve_stages : stage BootstrapResult :=
  do_ (emit_event BOOTSTRAP_STARTED [("status", VStr "STARTING")]) ;;;
  let! info := stage_repository in
  resolve_rest info.
Definition resolve_canonical : M CzSt BootstrapResult :=
  r ← resolve_stages; mret (match r with inl r => r | inr r => r end).
End Resolver.

(** ** What the resolver returns *)
Definition stage_order : list string :=
  ["OPERATIONAL_REPOSITORY_RESOLVED"; "1.BOOTSTRAP"; "2.CONSTITUTION"; "3.OPERATING_SYSTEM";
   "4.SHARED_ORG_STATE"; "6.CURRENT_STATE"; "5.L2_WORKER_REGISTRY"; "7.CURRENT_MISSION";
   "8.BLOCKERS"; "9.NEXT_ACTION"; "10.PROPOSALS"; "11.HANDOFFS"; "12.ESCALATIONS";
   "13.REQUIRED_EVIDENCE"; "14.RELEVANT_DOMAIN_STATE"].
(** A stage is listed by its name, one of the optional ones perhaps as absent. *)
Definition listed_as (entry name : string) : Prop :=
  entry = name \/
  entry = name +:+ ":OPTIONAL_ABSENT" /\ name ∈ (fun d => d.1.1) <$> stage_definitions.
Definition completed (n : nat) (stages : list string) : Prop :=
  Forall2 listed_as stages (take n stage_order).
(** An early end: some first stages, no state, a blocker and a message. *)
Definition halted (r : BootstrapResult) : Prop :=
  bo_canonical_state r = None /\ is_Some (bo_error_message r) /\ bo_blockers r <> [] /\
  exists n, n < length stage_order /\ completed n (bo_stages_completed r) /\
    (bo_status r = CS_BLOCKED \/ bo_status r = CS_UNKNOWN /\ n = 0).
(** A full run: every stage, the state read, and the status its blockers give. *)
Definition concluded (r : BootstrapResult) : Prop :=
  bo_error_message r = None /\ completed (length stage_order) (bo_stages_completed r) /\
  exists c, bo_canonical_state r = Some c /\ ca_blockers c = bo_blockers r /\
    is_Some (ca_current_mission c) /\ is_Some (ca_next_action c) /\
    bo_status r = (match bo_blockers r with [] => CONSISTENT | _ => DEGRADED end).

Lemma completed_prefix n stages : stages = take n stage_order -> completed n stages.
Proof.
  intros ->. unfold completed. generalize (take n stage_order) as l.
  induction l; constructor; [by left|done].
Qed.

Section Verdict.
Context {env : CzEnv} (pv : Provider).
#[local] Instance ver_floats : FloatOps := net_floats.

(** A computation that keeps the resolved repository, and raises only when it
    is read over the network. *)
Definition reads (info : OperationalRepository) {A} (m : M CzSt A) (Q : A -> Prop) : Prop :=
  forall s, cz_resolved s = Some info -> wp m s (fun s' r =>
    cz_resolved s' = Some info /\
    match r with
    | Ok a => Q a
    | Raise e => exn_type e = Unmodelled \/ repo_type info = "github"
    end).
Definition ends (Q : BootstrapResult -> Prop) {A} (R : A -> Prop) (x : BootstrapResult + A) : Prop :=
  match x with inl r => Q r | inr a => R a end.

Lemma reads_ret info {A} (a : A) (Q : A -> Prop) : Q a -> reads info (mret a) Q.
Proof. intros H s Hs. by apply wp_ret. Qed.
Lemma reads_result info {A} (r : result A) (Q : A -> Prop) :
  (forall a, Q a) -> (forall e, r = Raise e -> exn_type e = Unmodelled) ->
  reads info (of_result r) Q.
Proof. intros H He s Hs. apply wp_of_result. split; [done|]. destruct r; [done|]. left. by apply He. Qed.
Lemma reads_bind info {A B} (m : M CzSt A) (f : A -> M CzSt B) P Q :
  reads info m P -> (forall a, P a -> reads info (f a) Q) -> reads info (m ≫= f) Q.
Proof.
  intros Hm Hf s Hs. apply wp_bind. eapply wp_mono; [by apply Hm|].
  intros s' [a|e] [H1 H2]; [by apply (Hf a)|done].
Qed.
Lemma reads_mono info {A} (m : M CzSt A) (P Q : A -> Prop) :
  reads info m P -> (forall a, P a -> Q a) -> reads info m Q.
Proof.
  intros Hm H s Hs. eapply wp_mono; [by apply Hm|]. intros s' [a|e] [H1 H2]; auto.
Qed.
Lemma reads_and_then info {A B} (m : M CzSt (BootstrapResult + A)) (f : A -> _)
    P Q (R : B -> Prop) :
  reads info m (ends P Q) -> (forall a, Q a -> reads info (f a) (ends P R)) ->
  reads info (and_then m f) (ends P R).
Proof.
  intros Hm Hf. eapply reads_bind; [exact Hm|]. intros [r|a] H; [by apply reads_ret|by apply Hf].
Qed.
Lemma reads_do info {A} (m : M CzSt A) P (Q : A -> Prop) :
  reads info m Q -> reads info (do_ m) (ends P Q).
Proof. intros Hm. eapply reads_bind; [exact Hm|]. intros a H. by apply reads_ret. Qed.

Lemma on_net_wp {A} (m : M Net A) s Q :
  (forall sent r, Q (s <| cz_sent := sent |>) r) -> wp (on_net m) s Q.
Proof. intros H. apply wp_zoom, wp_any. auto. Qed.
Lemma reads_on_net info {A} (m : M Net A) (Q : A -> Prop) :
  repo_type info = "github" -> (forall a, Q a) -> reads info (on_net m) Q.
Proof. intros Hg HQ s Hs. apply on_net_wp. intros sent [a|e]; split; auto. Qed.

Lemma resolve_cached info s : cz_resolved s = Some info ->
  resolve_operational_repository pv s = (s, Ok (Some info)).
Proof.
  intros H. unfold resolve_operational_repository, gets, mbind, M_bind. cbn [id]. by rewrite H.
Qed.
Lemma reads_resolved info {A} (f : option OperationalRepository -> M CzSt A) Q :
  reads info (f (Some info)) Q -> reads info (resolve_operational_repository pv ≫= f) Q.
Proof.
  intros Hf s Hs. apply wp_bind. unfold wp at 1. rewrite (resolve_cached _ _ Hs). by apply Hf.
Qed.
Lemma reads_content info path : reads info (read_file_content pv path) (fun _ => True).
Proof.
  apply reads_resolved. destruct info as [base|owner repo branch]; [by apply reads_ret|].
  destruct (pv_github pv) as [c|].
  - intros s Hs. apply wp_try_with, on_net_wp. intros sent [v|e]; [done|].
    destruct (exn_type e); first [apply wp_ret; done|split; [done|by right]].
  - intros s Hs. apply wp_throw. split; [done|by right].
Qed.
Lemma reads_exists info path : reads info (path_exists pv path) (fun _ => True).
Proof.
  apply reads_resolved. destruct info as [base|owner repo branch]; [by apply reads_ret|].
  destruct (pv_github pv) as [c|]; [by apply reads_on_net|].
  intros s Hs. apply wp_throw. split; [done|by right].
Qed.
Lemma parse_raises v e : parse_yaml_or_json v = Raise e -> exn_type e = Unmodelled.
Proof.
  unfold parse_yaml_or_json, rescue. destruct (negb _); [done|].
  destruct v; try done. intros H.
  repeat (case_match; simplify_eq; try done).
Qed.
Lemma reads_parse info path : reads info (parse_file pv path) (fun _ => True).
Proof.
  eapply reads_bind; [apply reads_content|]. intros v _.
  apply reads_result; [done|]. apply parse_raises.
Qed.
Lemma reads_dict info path : reads info (read_dict pv path) (fun _ => True).
Proof. eapply reads_bind; [apply reads_parse|]. intros v _. by apply reads_ret. Qed.
Lemma reads_mission info : reads info (read_current_mission pv) (fun _ => True).
Proof.
  eapply reads_bind; [apply reads_content|]. intros v _.
  eapply reads_bind; [apply (reads_result _ _ (fun _ => True)); [done|apply parse_raises]|].
  intros p _. by apply reads_ret.
Qed.
Lemma reads_registry info paths : reads info (first_registry pv paths) (fun _ => True).
Proof.
  induction paths as [|p ps IH]; [by apply reads_ret|].
  eapply reads_bind; [apply reads_parse|]. intros v _. simpl.
  destruct (workers_of v); [by apply reads_ret|apply IH].
Qed.
Lemma reads_emit info t payload : reads info (emit_event t payload) (fun _ => True).
Proof.
  intros s Hs. unfold wp, emit_event. destruct (cz_bus s) as [bus|]; [|done].
  by destruct (emit _ _ _ _).
Qed.

#[local] Hint Resolve reads_content reads_exists reads_dict reads_mission reads_emit : reads.

Lemma halted_blocked n stages b bs msg : n < length stage_order -> completed n stages ->
  halted (blocked stages (b :: bs) msg).
Proof. intros Hn Hs. split; [done|]. split; [done|]. split; [done|]. exists n. auto. Qed.
Lemma reads_need info {A} (o : option A) n stages b msg :
  n < length stage_order -> completed n stages ->
  reads info (need o stages b msg) (ends halted (fun _ => True)).
Proof.
  intros Hn Hs. destruct o; apply reads_ret; [done|]. by eapply halted_blocked.
Qed.
Lemma reads_need_true info b n stages bl msg :
  n < length stage_order -> completed n stages ->
  reads info (need_true b stages bl msg) (ends halted (fun _ => True)).
Proof.
  intros Hn Hs. destruct b; apply reads_ret; [done|]. by eapply halted_blocked.
Qed.
Lemma completed_snoc n stages entry name : completed n stages ->
  stage_order !! n = Some name -> listed_as entry name -> completed (S n) (stages ++ [entry]).
Proof.
  intros Hs Hn He. unfold completed. erewrite take_S_r by exact Hn.
  apply Forall2_app; [done|]. by constructor.
Qed.
Ltac next_stage := eapply completed_snoc; [eassumption|reflexivity|by left].

Lemma stage_contract_reads info stages : completed 1 stages ->
  reads info (stage_contract pv stages) (ends halted (completed 4)).
Proof.
  intros Hs. eapply reads_and_then; [apply reads_do, reads_content|]. intros md _.
  eapply reads_and_then; [apply (reads_need_true _ _ 1); [simpl; lia|done]|]. intros _ _. cbv zeta.
  assert (completed 2 (stages ++ ["1.BOOTSTRAP"])) as H2 by next_stage.
  revert H2. generalize (stages ++ ["1.BOOTSTRAP"]) as st2. intros st2 H2.
  eapply reads_and_then; [apply reads_do, reads_exists|]. intros c _.
  eapply reads_and_then; [apply (reads_need_true _ _ 2); [simpl; lia|done]|]. intros _ _.
  assert (completed 3 (st2 ++ ["2.CONSTITUTION"])) as H3 by next_stage.
  revert H3. generalize (st2 ++ ["2.CONSTITUTION"]) as st3. intros st3 H3.
  eapply reads_and_then; [apply reads_do, reads_exists|]. intros o _.
  eapply reads_and_then; [apply (reads_need_true _ _ 3); [simpl; lia|done]|]. intros _ _.
  apply reads_ret. next_stage.
Qed.
Lemma stage_state_reads info stages : completed 4 stages ->
  reads info (stage_state pv stages) (ends halted (fun x => completed 6 x.2)).
Proof.
  intros Hs. eapply reads_and_then; [apply reads_do, reads_dict|]. intros d _.
  eapply reads_and_then; [apply (reads_need _ _ 4); [simpl; lia|done]|]. intros cs _.
  eapply reads_and_then; [apply reads_do, reads_emit|]. intros _ _. apply reads_ret. simpl.
  change ["4.SHARED_ORG_STATE"; "6.CURRENT_STATE"]
    with (["4.SHARED_ORG_STATE"] ++ ["6.CURRENT_STATE"]). rewrite app_assoc.
  assert (completed 5 (stages ++ ["4.SHARED_ORG_STATE"])) by next_stage. next_stage.
Qed.
Lemma stage_workers_reads info stages : completed 6 stages ->
  reads info (stage_workers pv stages) (ends halted (fun x => completed 7 x.2)).
Proof.
  intros Hs. eapply reads_and_then; [apply reads_do, reads_registry|]. intros l _.
  apply reads_ret. next_stage.
Qed.
Lemma parse_mission_ends n stages d : n < length stage_order -> completed n stages ->
  ends halted (fun _ => True) (parse_mission stages d).
Proof.
  intros Hn Hs. unfold parse_mission. destruct (_ || _); [by eapply halted_blocked|].
  destruct (parse_tasks _) as [[b msg]|ts]; [by eapply halted_blocked|done].
Qed.
Lemma stage_mission_reads info stages : completed 7 stages ->
  reads info (stage_mission pv stages) (ends halted (fun x => completed 8 x.2)).
Proof.
  intros Hs. eapply reads_and_then; [apply reads_do, reads_mission|]. intros d _.
  eapply reads_and_then; [apply (reads_need _ _ 7); [simpl; lia|done]|]. intros d' _.
  eapply reads_and_then;
    [apply reads_ret, (parse_mission_ends 7); [simpl; lia|done]|]. intros m _.
  eapply reads_and_then; [apply reads_do, reads_emit|]. intros _ _. apply reads_ret. next_stage.
Qed.
Lemma stage_blockers_reads info cs stages : completed 8 stages ->
  reads info (stage_blockers pv cs stages) (ends halted (fun x => completed 9 x.2)).
Proof.
  intros Hs. eapply reads_and_then; [apply reads_do, reads_dict|]. intros d _. cbv zeta.
  eapply reads_and_then; [apply reads_do, reads_emit|]. intros _ _. apply reads_ret. next_stage.
Qed.
Lemma stage_action_reads info cs bs stages : completed 9 stages ->
  reads info (stage_action pv cs bs stages) (ends halted (fun x => completed 10 x.2)).
Proof.
  intros Hs. eapply reads_and_then; [apply reads_do, reads_dict|]. intros d _.
  destruct (parse_next_action d cs) as [a|].
  - eapply reads_and_then; [apply reads_do, reads_emit|]. intros _ _. apply reads_ret. next_stage.
  - apply reads_ret. apply (halted_blocked 9); [simpl; lia|done].
Qed.
Lemma stage_directories_reads info defs n stages : completed n stages ->
  Forall (fun d => d.2 = false /\ d ∈ stage_definitions) defs ->
  (forall k d, defs !! k = Some d -> stage_order !! (n + k)%nat = Some d.1.1) ->
  reads info (stage_directories pv defs stages)
    (ends halted (completed (n + length defs))).
Proof.
  revert n stages. induction defs as [|[[name path] required] defs IH]; intros n stages Hs Hd Ho.
  { apply reads_ret. simpl. by rewrite Nat.add_0_r. }
  apply Forall_cons in Hd as [[Hr Hin] Hd]. simpl in Hr. subst required.
  simpl. rewrite Nat.add_succ_r.
  assert (stage_order !! n = Some name) as Hn.
  { specialize (Ho 0 _ eq_refl). by rewrite Nat.add_0_r in Ho. }
  assert (forall k d, defs !! k = Some d -> stage_order !! (S n + k)%nat = Some d.1.1) as Ho'.
  { intros k d Hk. specialize (Ho (S k) d Hk). by rewrite Nat.add_succ_r in Ho. }
  eapply reads_and_then; [apply reads_do, reads_exists|]. intros [|] _.
  - apply (IH (S n)); [|done|done]. eapply completed_snoc; [done|exact Hn|by left].
  - apply (IH (S n)); [|done|done]. eapply completed_snoc; [done|exact Hn|]. right.
    split; [done|]. apply list_elem_of_fmap. by exists (name, path, false).
Qed.

Lemma resolve_remembers s : wp (resolve_operational_repository pv) s (fun s' r =>
  forall info, r = Ok (Some info) -> cz_resolved s' = Some info).
Proof.
  unfold resolve_operational_repository. apply wp_bind, wp_gets. cbn [id].
  destruct (cz_resolved s) as [r|] eqn:E; [apply wp_ret; by intros ? [= <-]|].
  destruct (local_override pv) as [p|].
  { apply wp_bind, wp_modify, wp_ret. by intros ? [= <-]. }
  destruct (pv_github pv) as [c|]; [|by apply wp_ret].
  apply wp_bind, wp_any. intros s1 [cs|e]; [|done].
  apply wp_bind, wp_of_result. destruct (select_candidate cs) as [r|e]; [|done].
  apply wp_bind, wp_modify, wp_ret. by intros ? [= <-].
Qed.
Lemma resolution_failed_halted msg : halted (resolution_failed msg).
Proof.
  split; [done|]. split; [done|]. split; [done|]. exists 0.
  split; [simpl; lia|]. split; [by constructor|]. simpl. unfold resolution_status.
  destruct (_ || _); auto.
Qed.
Lemma stage_repository_wp s : wp (stage_repository pv) s (fun s' r =>
  match r with
  | Ok (inl res) => halted res
  | Ok (inr info) => cz_resolved s' = Some info
  | Raise e => exn_type e = Unmodelled
  end).
Proof.
  unfold stage_repository. apply wp_bind. unfold except_all.
  apply wp_try_with, wp_bind. eapply wp_mono; [apply resolve_remembers|].
  intros s' [info|e] H.
  - apply wp_ret. destruct info as [info|]; apply wp_ret; [by apply H|].
    apply (halted_blocked 0); [simpl; lia|constructor].
  - destruct (decide (exn_type e = Unmodelled)) as [Hu|Hu].
    + rewrite Hu. done.
    + assert (forall A (x y : A), match exn_type e with Unmodelled => x | _ => y end = y) as E.
      { intros. by destruct (exn_type e). }
      rewrite E. apply wp_ret, wp_ret, resolution_failed_halted.
Qed.

Lemma emit_event_ok t payload s : wp (emit_event t payload) s (fun _ r => r = Ok tt).
Proof.
  unfold wp, emit_event. destruct (cz_bus s) as [bus|]; [by destruct (emit _ _ _ _)|done].
Qed.
Lemma resolve_rest_reads info : reads info (resolve_rest pv info) (ends halted concluded).
Proof.
  unfold resolve_rest.
  eapply reads_and_then; [apply reads_do, reads_emit|]. intros _ _.
  eapply reads_and_then; [apply stage_contract_reads, (completed_prefix 1); done|]. intros st1 H1.
  eapply reads_and_then; [by apply stage_state_reads|]. intros [cs st2] H2.
  eapply reads_and_then; [by apply stage_workers_reads|]. intros [l2 st3] H3.
  eapply reads_and_then; [by apply stage_mission_reads|]. intros [mission st4] H4.
  eapply reads_and_then; [by apply stage_blockers_reads|]. intros [bs st5] H5.
  eapply reads_and_then; [by apply stage_action_reads|]. intros [action st6] H6.
  eapply reads_and_then; [apply (stage_directories_reads _ stage_definitions 10); [done| |]|].
  - rewrite Forall_forall. intros d Hd. split; [|done]. by repeat (apply elem_of_cons in Hd as [->|Hd]; [done|]);
      apply elem_of_nil in Hd.
  - intros k d Hk. do 5 (destruct k as [|k]; [simpl in Hk; by injection Hk as <-|]). done.
  - intros st7 H7. cbv zeta.
    eapply reads_and_then; [apply reads_do, reads_emit|]. intros _ _. apply reads_ret.
    split; [done|]. split; [exact H7|]. by eexists.
Qed.

End Verdict.

(** ** The discovery of the repository *)
Section Discovery.
Context {env : CzEnv} (pv : Provider).
#[local] Instance dis_floats : FloatOps := net_floats.

Definition on_github (r : OperationalRepository) : Prop := repo_type r = "github".
Definition all_github (r : result (list OperationalRepository)) : Prop :=
  match r with Ok l => Forall on_github l | Raise _ => True end.
Lemma consider_github c repo s : wp (consider c repo) s (fun _ r => all_github r).
Proof.
  unfold consider. destruct (negb _); [by apply wp_ret; constructor|].
  do 3 (apply wp_bind, wp_of_result; case_match; [|done]).
  destruct (_ || _); [by apply wp_ret; constructor|].
  do 3 (apply wp_bind, wp_of_result; case_match; [|done]).
  case_match; [apply wp_ret; by repeat constructor|].
  apply wp_bind, wp_any. intros s2 [b|e]; [|done]. apply wp_ret. destruct b; by repeat constructor.
Qed.
Lemma consider_all_github c repos s : wp (consider_all c repos) s (fun _ r => all_github r).
Proof.
  revert s. induction repos as [|r rs IH]; intros s; [by apply wp_ret; constructor|].
  simpl. apply wp_bind. eapply wp_mono; [apply consider_github|]. intros s1 [here|e] H; [|done].
  apply wp_bind. eapply wp_mono; [apply IH|]. intros s2 [rest|e] H'; [|done].
  apply wp_ret. by apply Forall_app.
Qed.
Lemma candidates_github c s : wp (github_candidates c) s (fun _ r => all_github r).
Proof.
  unfold github_candidates. apply wp_try_with, wp_bind, wp_any. intros s1 [repos|e].
  - eapply wp_mono; [apply consider_all_github|]. intros s2 [l|e] H; [done|].
    by destruct (is_github_error _).
  - by destruct (is_github_error _).
Qed.

(** In production a local override is ignored: what is resolved is on GitHub,
    and is the only candidate among the account's repositories. *)
Theorem production_resolution s : pv_environment pv = "PRODUCTION" -> cz_resolved s = None ->
  wp (resolve_operational_repository pv) s (fun s' r =>
    forall info, r = Ok (Some info) -> on_github info /\
      exists c, pv_github pv = Some c /\ (github_candidates c s).2 = Ok [info]).
Proof.
  intros Hp Hs. unfold resolve_operational_repository. apply wp_bind, wp_gets. cbn [id]. rewrite Hs.
  assert (local_override pv = None) as ->.
  { unfold local_override. destruct (pv_local_path_override pv); [|done].
    rewrite Hp. simpl. by rewrite andb_false_r. }
  destruct (pv_github pv) as [c|]; [|by apply wp_ret].
  apply wp_bind. destruct (wp_elim _ _ _ (candidates_github c s)) as (s1 & r & E & Hr).
  unfold wp at 1. rewrite E. destruct r as [cs|e]; [|done].
  apply wp_bind, wp_of_result. destruct (select_candidate cs) as [r|e] eqn:Es; [|done].
  apply wp_bind, wp_modify, wp_ret. intros info [= <-].
  assert (cs = [r]) as ->.
  { destruct cs as [|x [|y cs]]; simpl in Es; unfold raise in Es; by simplify_eq. }
  split; [by apply Forall_singleton|]. exists c. by rewrite E.
Qed.

(** The codes that the resolver maps to UNKNOWN for a refused or limited probe
    are never raised: the client's exceptions carry no status code, so a
    probe that GitHub refuses for whatever reason is an UNKNOWN_ERROR, which
    ends the bootstrap as BLOCKED. *)
Theorem probe_failure_blocks c owner name branch s e :
  (file_exists c (py_str owner) (py_str name) ".anny/operational.yaml" (ref_of branch)
     (cz_sent s)).2 = Raise e ->
  is_github_error (exn_type e) = true ->
  (probe_files c owner name branch s).2 = raise OperationalRepositoryNotFound "UNKNOWN_ERROR" /\
  bo_status (resolution_failed "UNKNOWN_ERROR") = CS_BLOCKED.
Proof.
  intros He Hg. split; [|done]. unfold probe_files, try_with, mbind, M_bind, on_net, zoom.
  destruct (file_exists _ _ _ _ _ _) as [n r]. simpl in He. subst r. by rewrite Hg.
Qed.
End Discovery.
