(* ===== verification/Admin.v ===== *)
(** * The administration panel's sessions and middleware

    [runtime/admin/csrf.py], [auth.py], [middleware.py] and [audit.py]: the
    browser sessions with their files, the checks each request passes before
    it is routed, the anti-forgery tokens, the cookies, and the audit log.
    An expiry is the instant whose ISO text the session holds, and the audit
    log a list of the lines written.  Parsing a cookie header and a URL is left
    to [AdminEnv]. *)
From S2P Require Import Prelude Dict PyVal Effects PyStr PyBytes Identity Continuity Core.

(** The clock, [secrets.token_hex] of 16 and of 32 bytes, the path
    [urllib.parse.urlparse] finds, the [admin_session_id] [SimpleCookie] finds
    in a header, and [datetime.isoformat]. *)
Class AdminEnv := {
  ad_clock : nat -> Z;
  token_hex_16 : nat -> string;
  token_hex_32 : nat -> string;
  url_path : string -> string;
  cookie_session_id : string -> result (option string);
  ad_isoformat : Z -> string }.

(** ** Anti-forgery tokens *)
Section Csrf.
(** [hmac.compare_digest] on texts *)
Definition compare_digest (a b : string) : result bool :=
  if all_chars is_ascii a && all_chars is_ascii b then Ok (a =s b)
  else raise TypeError "comparing strings with non-ASCII characters is not supported".
Definition validate_csrf_token (session_token request_token : option string) : result bool :=
  if negb (ostr_true session_token) || negb (ostr_true request_token) then Ok false
  else compare_digest (default "" session_token) (default "" request_token).
End Csrf.

(** ** Sessions *)
Record AdminSession := mkAdminSession {
  as_id : string; as_issued_at : Z; as_expires_at : Z; as_runtime_id : string;
  as_scope : string; as_principal : string; as_csrf_token : string }.
(** The sessions in memory, the session files, the draws made, and which of the
    coming writes fail. *)
Record AdminSt := mkAdmin {
  am_sessions : dict string AdminSession;
  am_files : dict string AdminSession;
  am_tick : nat;
  am_faults : list bool }.
#[export] Instance eta_AdminSt : Eta AdminSt := fun r =>
  mkAdmin (am_sessions r) (am_files r) (am_tick r) (am_faults r).
Record AdminSessionManager := mkManager { sm_runtime_id : string; sm_ttl_seconds : Z }.

Section Auth.
Context {env : AdminEnv} (mgr : AdminSessionManager).

Definition ad_draw {A} (f : nat -> A) : M AdminSt A := fun s =>
  (s <| am_tick := S (am_tick s) |>, Ok (f (am_tick s))).
Definition put_session (x : AdminSession) : M AdminSt unit :=
  modify (fun s => s <| am_sessions := dset (as_id x) x (am_sessions s) |>).
Definition persist_session (x : AdminSession) : M AdminSt unit := fun s =>
  match am_faults s with
  | true :: fs => (s <| am_faults := fs |>, raise OSError "write failed")
  | fs => ((s <| am_faults := tl fs |>) <| am_files := dset (as_id x) x (am_files s) |>, Ok tt)
  end.
(** The two kinds of session: identifier, then anti-forgery token, are drawn. *)
Definition new_session (ttl : Z) (scope principal : string) : M AdminSt AdminSession :=
  now ← ad_draw ad_clock;
  id ← ad_draw token_hex_16;
  expires ← of_result (add_seconds now ttl);
  csrf ← ad_draw token_hex_32;
  mret (mkAdminSession id now expires (sm_runtime_id mgr) scope principal csrf).
Definition create_session (principal : string) : M AdminSt AdminSession :=
  x ← new_session (sm_ttl_seconds mgr) "ADMIN" principal;
  put_session x ;; persist_session x ;; mret x.
Definition create_first_run_session : M AdminSt AdminSession :=
  x ← new_session 1800 "ONBOARDING_ONLY" "local-first-run";
  put_session x ;; mret x.
Definition destroy (session_id : string) : M AdminSt unit :=
  modify (fun s => (s <| am_sessions := ddel session_id (am_sessions s) |>)
                     <| am_files := ddel session_id (am_files s) |>).
Definition expired (now : Z) (x : AdminSession) : bool := (as_expires_at x <=? now)%Z.
Definition validate (session_id : string) : M AdminSt (option AdminSession) :=
  s ← gets id;
  match dget session_id (am_sessions s) with
  | None => mret None
  | Some x =>
      now ← ad_draw ad_clock;
      if expired now x then destroy session_id ;; mret None else mret (Some x)
  end.
Definition cleanup_expired : M AdminSt Z :=
  now ← ad_draw ad_clock;
  s ← gets id;
  let stale := dkeys (filter (fun kv => expired now kv.2 = true) (am_sessions s)) in
  for_each stale destroy ;; mret (Z.of_nat (length stale)).
End Auth.

(** ** The middleware *)
Definition ONBOARDING_ROUTES : list string :=
  ["/"; "/github/token"; "/github/device/init"; "/github/device/poll"; "/api/status";
   "/api/bootstrap/verify"; "/health/live"; "/health/ready"].
Definition public_paths : list string := ["/health/live"; "/health/ready"].
(** The headers a request is judged by. *)
Record Headers := mkHeaders { hd_host : option string; hd_cookie : option string }.
(** What the middleware leaves in the request's context. *)
Record Context := mkContext {
  cx_secure_cookie : bool;
  cx_admin_session : option AdminSession;
  cx_set_cookies : list string;
  cx_new_session_id : option string;
  cx_redirect_to : option string;
  cx_destroy_session : bool }.
#[export] Instance eta_Context : Eta Context := fun r =>
  mkContext (cx_secure_cookie r) (cx_admin_session r) (cx_set_cookies r) (cx_new_session_id r)
    (cx_redirect_to r) (cx_destroy_session r).

(** The text before the first [c] *)
Fixpoint before (c : ascii) (s : string) : string :=
  match s with
  | "" => ""
  | String d s' => if Ascii.eqb c d then "" else String d (before c s')
  end.
Definition host_no_port (host : string) : string :=
  if startswith "[" host then before "]" host +:+ "]" else before ":" host.
Definition is_local (host : string) : bool :=
  str_in (host_no_port host) ["127.0.0.1"; "localhost"; "::1"; "[::1]"].
Definition is_bridge (path : string) : bool := startswith "/api/v1/bridge/" path.
Definition is_public (path : string) : bool := str_in path public_paths || is_bridge path.
Definition is_onboarding (x : option AdminSession) : bool :=
  match x with Some x => as_scope x =s "ONBOARDING_ONLY" | None => false end.

Section Middleware.
(** [has_token] of the GitHub manager, when there is one. *)
Context {env : AdminEnv} (mgr : AdminSessionManager) (has_token : option bool).

Definition first_run : bool := match has_token with Some b => negb b | None => false end.
Definition session_of_cookie (cookie : option string) : M AdminSt (option AdminSession) :=
  match cookie with
  | None => mret None
  | Some header =>
      id ← of_result (cookie_session_id header);
      match id with
      | Some id => if str_true id then validate id else mret None
      | None => mret None
      end
  end.
Definition redirect (ctx : Context) : M AdminSt (bool * Context) :=
  mret (false, ctx <| cx_redirect_to := Some "/" |>).
(** The last checks: scope, local sign-in, authentication. *)
Definition authorize (path : string) (local : bool) (session : option AdminSession) (ctx : Context)
    : M AdminSt (bool * Context) :=
  if is_onboarding session && negb (str_in path ONBOARDING_ROUTES) then redirect ctx
  else if negb first_run && negb (bool_decide (is_Some session)) && local then
    x ← create_session mgr "local-admin";
    mret (true, (ctx <| cx_admin_session := Some x |>) <| cx_new_session_id := Some (as_id x) |>)
  else if negb (bool_decide (is_Some session)) && negb (is_public path) then redirect ctx
  else mret (true, ctx).
Definition process_request (path : string) (h : Headers) : M AdminSt (bool * Context) :=
  let path := url_path path in
  let local := is_local (default "" (hd_host h)) in
  session ← session_of_cookie (hd_cookie h);
  let ctx := mkContext (negb local) session [] None None false in
  if first_run && negb (bool_decide (is_Some session)) then
    if str_in path ONBOARDING_ROUTES then
      x ← create_first_run_session mgr;
      authorize path local (Some x)
        ((ctx <| cx_admin_session := Some x |>) <| cx_new_session_id := Some (as_id x) |>)
    else redirect ctx
  else authorize path local session ctx.

Definition revoke_onboarding_session (ctx : Context) : M AdminSt Context :=
  match cx_admin_session ctx with
  | Some x =>
      if as_scope x =s "ONBOARDING_ONLY" then
        destroy (as_id x) ;;
        mret ((ctx <| cx_destroy_session := true |>) <| cx_admin_session := None |>)
      else mret ctx
  | None => mret ctx
  end.
Definition csrf_exempt (path : string) : bool :=
  str_in path public_paths || is_bridge path || (path =s "/api/bootstrap/verify").
Definition process_post_body (path : string) (form : dict string (list string)) (ctx : Context)
    : result (bool * Context) :=
  if csrf_exempt (url_path path) then Ok (true, ctx)
  else match cx_admin_session ctx with
       | None => Ok (false, ctx)
       | Some x =>
           match default [""] (dget "csrf_token" form) with
           | [] => raise (OtherException "IndexError") "list index out of range"
           | token :: _ =>
               let? ok := validate_csrf_token (Some (as_csrf_token x)) (Some token) in
               Ok (if (ok : bool) then (true, ctx)
                   else (false, ctx <| cx_redirect_to := Some "/" |>))
           end
       end.

(** [Morsel.OutputString]: the attributes in alphabetical order. *)
Definition session_cookie (value : string) (max_age : Z) (secure : bool) : string :=
  "admin_session_id=" +:+ value +:+ "; HttpOnly; Max-Age=" +:+ zstr max_age
    +:+ "; Path=/; SameSite=Strict" +:+ (if secure then "; Secure" else "").
Definition process_response (ctx : Context) : Context :=
  let set := match cx_new_session_id ctx with
             | Some id =>
                 if str_true id then [session_cookie id (sm_ttl_seconds mgr) (cx_secure_cookie ctx)]
                 else []
             | None => []
             end in
  let clear := if cx_destroy_session ctx
               then [session_cookie (dquote +:+ dquote) 0 (cx_secure_cookie ctx)] else [] in
  ctx <| cx_set_cookies := cx_set_cookies ctx ++ set ++ clear |>.
End Middleware.

(** ** The audit log *)
Record AdminAuditEntry := mkAuditEntry {
  ae_admin_session_id : string; ae_action : string; ae_timestamp : string;
  ae_runtime_id : string; ae_principal : string; ae_result : string; ae_details : option string }.
(** The log file, the clock, and which of the coming writes fail. *)
Record AuditSt := mkAudit {
  al_lines : option (list (line AdminAuditEntry)); al_tick : nat; al_faults : list bool }.
#[export] Instance eta_AuditSt : Eta AuditSt := fun r =>
  mkAudit (al_lines r) (al_tick r) (al_faults r).

Section Audit.
Context {env : AdminEnv} (runtime_id : string).
(** [record]: a write that fails is only logged. *)
Definition record_action (session_id action principal res : string) (details : option string)
    : M AuditSt AdminAuditEntry := fun s =>
  let e := mkAuditEntry session_id action (ad_isoformat (ad_clock (al_tick s))) runtime_id principal
             res details in
  let s := s <| al_tick := S (al_tick s) |> in
  match al_faults s with
  | true :: fs => (s <| al_faults := fs |>, Ok e)
  | fs => ((s <| al_faults := tl fs |>)
             <| al_lines := Some (default [] (al_lines s) ++ [LGood e]) |>, Ok e)
  end.
(** [read_recent]: reading stops at a line that does not load. *)
Fixpoint read_entries (ls : list (line AdminAuditEntry)) : list AdminAuditEntry :=
  match ls with
  | [] => []
  | LGood e :: ls' => e :: read_entries ls'
  | LBlank :: ls' => read_entries ls'
  | LBad _ _ :: _ => []
  end.
Definition read_recent (count : Z) (s : AuditSt) : list AdminAuditEntry :=
  match al_lines s with
  | None => []
  | Some ls => read_entries (last_n count ls)
  end.
End Audit.

(** ** The sessions of a running panel *)
Inductive admin_op :=
  | ACreate (principal : string) | AFirstRun | AValidate (id : string) | ADestroy (id : string)
  | ACleanup | ARequest (path : string) (h : Headers) | ARevoke (ctx : Context).

Section Theorems.
Context {env : AdminEnv} (mgr : AdminSessionManager).

Definition run_admin (has_token : option bool) (op : admin_op) : M AdminSt unit :=
  match op with
  | ACreate p => create_session mgr p ;; mret tt
  | AFirstRun => create_first_run_session mgr ;; mret tt
  | AValidate id => validate id ;; mret tt
  | ADestroy id => destroy id
  | ACleanup => cleanup_expired ;; mret tt
  | ARequest path h => process_request mgr has_token path h ;; mret tt
  | ARevoke ctx => revoke_onboarding_session ctx ;; mret tt
  end.
(** The GitHub token may come and go between the operations. *)
Definition run_admins (ops : list (option bool * admin_op)) (s : AdminSt) : AdminSt :=
  foldl (fun s op => (run_admin op.1 op.2 s).1) s ops.

(** A session as one of the two constructors makes it. *)
Definition proper_session (x : AdminSession) : Prop :=
  as_runtime_id x = sm_runtime_id mgr /\
  (as_scope x = "ADMIN" /\ as_expires_at x = (as_issued_at x + sm_ttl_seconds mgr * 1000000)%Z \/
   as_scope x = "ONBOARDING_ONLY" /\ as_principal x = "local-first-run" /\
   as_expires_at x = (as_issued_at x + 1800 * 1000000)%Z).
(** Both tables are keyed by identifier, and only administrators' sessions
    are in files. *)
Definition admin_wf (s : AdminSt) : Prop :=
  dict_wf (am_sessions s) /\ dict_wf (am_files s) /\
  (forall id x, dget id (am_sessions s) = Some x -> as_id x = id /\ proper_session x) /\
  (forall id x, dget id (am_files s) = Some x ->
     as_id x = id /\ proper_session x /\ as_scope x = "ADMIN").

Lemma ad_draw_wp {A} (f : nat -> A) s Q :
  Q (s <| am_tick := S (am_tick s) |>) (Ok (f (am_tick s))) -> wp (ad_draw f) s Q.
Proof. done. Qed.
Lemma add_seconds_ok t n t' : add_seconds t n = Ok t' -> t' = (t + n * 1000000)%Z.
Proof. unfold add_seconds, raise. destruct (_ && _); intros [= <-]; done. Qed.
Lemma new_session_wp ttl scope principal s (Q : AdminSt -> result AdminSession -> Prop) :
  (forall s' r, am_sessions s' = am_sessions s -> am_files s' = am_files s ->
     am_faults s' = am_faults s ->
     (forall x, r = Ok x -> as_runtime_id x = sm_runtime_id mgr /\ as_scope x = scope /\
        as_principal x = principal /\ as_expires_at x = (as_issued_at x + ttl * 1000000)%Z) ->
     Q s' r) ->
  wp (new_session mgr ttl scope principal) s Q.
Proof.
  intros H. unfold new_session. do 2 (apply wp_bind, ad_draw_wp). apply wp_bind, wp_of_result.
  destruct (add_seconds _ _) as [t'|e] eqn:E; [|by apply H].
  apply add_seconds_ok in E as ->. apply wp_bind, ad_draw_wp, wp_ret. apply H; try done.
  intros x [= <-]. done.
Qed.
Lemma proper_admin x p : as_runtime_id x = sm_runtime_id mgr /\ as_scope x = "ADMIN" /\
  as_principal x = p /\ as_expires_at x = (as_issued_at x + sm_ttl_seconds mgr * 1000000)%Z ->
  proper_session x.
Proof. intros (H1 & H2 & _ & H3). split; auto. Qed.
Lemma proper_first_run x : as_runtime_id x = sm_runtime_id mgr /\ as_scope x = "ONBOARDING_ONLY" /\
  as_principal x = "local-first-run" /\ as_expires_at x = (as_issued_at x + 1800 * 1000000)%Z ->
  proper_session x.
Proof. intros (H1 & H2 & H3 & H4). split; auto. Qed.

(** Adding a session, and its file. *)
Lemma put_session_wf x s : proper_session x -> admin_wf s ->
  admin_wf (s <| am_sessions := dset (as_id x) x (am_sessions s) |>).
Proof.
  intros Hx (H1 & H2 & H3 & H4). split; [by apply dset_wf|]. split; [done|]. split; [|done].
  intros id y. simpl. rewrite dget_dset. case_decide as E; [|apply H3]. by intros [= <-].
Qed.
Lemma put_file_wf x s : proper_session x -> as_scope x = "ADMIN" -> admin_wf s ->
  admin_wf (s <| am_files := dset (as_id x) x (am_files s) |>).
Proof.
  intros Hx Hs (H1 & H2 & H3 & H4). split; [done|]. split; [by apply dset_wf|]. split; [done|].
  intros id y. simpl. rewrite dget_dset. case_decide as E; [|apply H4]. by intros [= <-].
Qed.
(** What a new session leaves behind. *)
Definition added (s s' : AdminSt) (x : AdminSession) : Prop :=
  am_sessions s' = dset (as_id x) x (am_sessions s).
Lemma create_session_wp p s : admin_wf s -> wp (create_session mgr p) s (fun s' r =>
  admin_wf s' /\ forall x, r = Ok x -> as_scope x = "ADMIN" /\ as_principal x = p /\ added s s' x).
Proof.
  intros Hwf. unfold create_session. apply wp_bind, new_session_wp.
  intros s1 [x|e] Hs Hf Hfa Hx.
  2:{ split; [|done]. unfold admin_wf. by rewrite Hs, Hf. }
  specialize (Hx x eq_refl). pose proof (proper_admin _ _ Hx) as Hp.
  destruct Hx as (_ & Hsc & Hpr & _).
  assert (admin_wf (s1 <| am_sessions := dset (as_id x) x (am_sessions s1) |>)) as Hw1.
  { apply put_session_wf; [done|]. unfold admin_wf. by rewrite Hs, Hf. }
  apply wp_bind, wp_modify, wp_bind. unfold wp at 1, persist_session. cbn [am_faults setter].
  destruct (am_faults _) as [|[|] fs]; simpl.
  - apply wp_ret. split; [by apply (put_file_wf x _ Hp Hsc) in Hw1|].
    intros ? [= <-]. unfold added. simpl. by rewrite Hs.
  - split; [exact Hw1|done].
  - apply wp_ret. split; [by apply (put_file_wf x _ Hp Hsc) in Hw1|].
    intros ? [= <-]. unfold added. simpl. by rewrite Hs.
Qed.
Lemma create_first_run_wp s : admin_wf s -> wp (create_first_run_session mgr) s (fun s' r =>
  admin_wf s' /\ am_files s' = am_files s /\
  forall x, r = Ok x -> as_scope x = "ONBOARDING_ONLY" /\ added s s' x).
Proof.
  intros Hwf. unfold create_first_run_session. apply wp_bind, new_session_wp.
  intros s1 [x|e] Hs Hf Hfa Hx.
  2:{ split; [|done]. unfold admin_wf. by rewrite Hs, Hf. }
  specialize (Hx x eq_refl). pose proof (proper_first_run _ Hx) as Hp.
  apply wp_bind, wp_modify, wp_ret. split; [|split; [done|]].
  - apply put_session_wf; [done|]. unfold admin_wf. by rewrite Hs, Hf.
  - intros ? [= <-]. split; [apply Hx|]. unfold added. simpl. by rewrite Hs.
Qed.
Lemma destroy_wf id s : admin_wf s -> wp (destroy id) s (fun s' r => r = Ok tt /\ admin_wf s' /\
  dget id (am_sessions s') = None /\ dget id (am_files s') = None /\
  forall id', id' <> id -> dget id' (am_sessions s') = dget id' (am_sessions s)).
Proof.
  intros (H1 & H2 & H3 & H4). apply wp_modify. split; [done|].
  split; [|split; [by apply dget_ddel_same|split; [by apply dget_ddel_same|]]].
  - split; [by apply ddel_wf|]. split; [by apply ddel_wf|]. simpl. split; intros id' x Hx.
    + destruct (decide (id' = id)) as [->|Hne]; [by rewrite dget_ddel_same in Hx|].
      rewrite dget_ddel_other in Hx by done. by apply H3.
    + destruct (decide (id' = id)) as [->|Hne]; [by rewrite dget_ddel_same in Hx|].
      rewrite dget_ddel_other in Hx by done. by apply H4.
  - intros id' Hne. simpl. by apply dget_ddel_other.
Qed.

Lemma validate_wp sid s : admin_wf s -> wp (validate sid) s (fun s' r =>
  admin_wf s' /\
  match r with
  | Ok (Some x) => as_id x = sid /\ dget sid (am_sessions s) = Some x /\
      am_sessions s' = am_sessions s /\ expired (ad_clock (am_tick s)) x = false
  | Ok None => dget sid (am_sessions s') = None /\
      forall id' x, dget id' (am_sessions s') = Some x -> dget id' (am_sessions s) = Some x
  | Raise _ => False
  end).
Proof.
  intros Hwf. unfold validate. apply wp_bind, wp_gets. cbn [id].
  destruct (dget sid (am_sessions s)) as [x|] eqn:Ex; [|by apply wp_ret].
  apply wp_bind, ad_draw_wp. destruct (expired _ x) eqn:Ee.
  - apply wp_bind. eapply wp_mono; [by apply destroy_wf|].
    intros s' r (-> & H1 & H2 & _ & H3). apply wp_ret. split; [done|]. split; [done|].
    intros id' y Hy. destruct (decide (id' = sid)) as [->|Hne]; [by rewrite H2 in Hy|].
    by rewrite H3 in Hy.
  - apply wp_ret. split; [exact Hwf|]. split; [|done]. by apply Hwf in Ex as [? _].
Qed.
Lemma cleanup_wf s : admin_wf s -> wp cleanup_expired s (fun s' r => admin_wf s').
Proof.
  intros Hwf. unfold cleanup_expired. apply wp_bind, ad_draw_wp, wp_bind, wp_gets, wp_bind.
  generalize (dkeys (filter (fun kv => expired (ad_clock (am_tick s)) kv.2 = true)
                       (am_sessions (id (s <| am_tick := S (am_tick s) |>))))) as l.
  intros l. assert (admin_wf (s <| am_tick := S (am_tick s) |>)) as H by exact Hwf.
  eapply wp_mono; [apply (preserves_for_each admin_wf destroy l); [|exact H]|].
  - intros id s1 H1. eapply wp_mono; [by apply destroy_wf|]. by intros ? ? (_ & ? & _).
  - intros s' [[]|e] Hs; [by apply wp_ret|done].
Qed.

(** The session a request comes with. *)
Definition presented (h : Headers) (s : AdminSt) (x : AdminSession) : Prop :=
  exists header, hd_cookie h = Some header /\ cookie_session_id header = Ok (Some (as_id x)) /\
    dget (as_id x) (am_sessions s) = Some x /\ expired (ad_clock (am_tick s)) x = false.
Definition no_new (s s' : AdminSt) : Prop :=
  forall id x, dget id (am_sessions s') = Some x -> dget id (am_sessions s) = Some x.
Lemma session_of_cookie_wp h s : admin_wf s -> wp (session_of_cookie (hd_cookie h)) s (fun s' r =>
  admin_wf s' /\ no_new s s' /\ forall x, r = Ok (Some x) ->
    presented h s x /\ dget (as_id x) (am_sessions s') = Some x).
Proof.
  intros Hwf.
  assert (forall r : result (option AdminSession), (forall x, r <> Ok (Some x)) ->
    admin_wf s /\ no_new s s /\ forall x, r = Ok (Some x) ->
      presented h s x /\ dget (as_id x) (am_sessions s) = Some x) as Hnone.
  { intros r Hr. split; [done|]. split; [by intros id x|]. intros x Hx. by destruct (Hr x). }
  unfold session_of_cookie. destruct (hd_cookie h) as [header|] eqn:Eh; [|by apply wp_ret, Hnone].
  apply wp_bind, wp_of_result.
  destruct (cookie_session_id header) as [[id|]|e] eqn:Ec; [|by apply wp_ret, Hnone|by apply Hnone].
  destruct (str_true id); [|by apply wp_ret, Hnone].
  eapply wp_mono; [by apply validate_wp|]. intros s' [[x|]|e] [H1 H2]; [| |done].
  - destruct H2 as (<- & Hx & Hs & He). split; [done|]. split; [by unfold no_new; rewrite Hs|].
    intros ? [= <-]. split; [by exists header|by rewrite Hs].
  - destruct H2 as [_ H2]. done.
Qed.

(** What [authorize] admits a request with. *)
Definition admitted (ht : option bool) (path : string) (h : Headers) (s s' : AdminSt)
    (ctx : Context) : Prop :=
  match cx_admin_session ctx with
  | Some x => dget (as_id x) (am_sessions s') = Some x /\
      (as_scope x = "ONBOARDING_ONLY" -> path ∈ ONBOARDING_ROUTES) /\
      (presented h s x \/
       first_run ht = true /\ as_scope x = "ONBOARDING_ONLY" \/
       first_run ht = false /\ is_local (default "" (hd_host h)) = true /\ as_scope x = "ADMIN")
  | None => is_public path = true
  end.
Lemma authorize_wp ht path h s0 session ctx s :
  admin_wf s -> cx_admin_session ctx = session ->
  (forall x, session = Some x -> dget (as_id x) (am_sessions s) = Some x /\
     (presented h s0 x \/ first_run ht = true /\ as_scope x = "ONBOARDING_ONLY")) ->
  wp (authorize mgr ht path (is_local (default "" (hd_host h))) session ctx) s (fun s' r =>
    admin_wf s' /\
    match r with
    | Ok (true, ctx') => admitted ht path h s0 s' ctx'
    | Ok (false, ctx') => cx_redirect_to ctx' = Some "/" /\ s' = s
    | Raise _ => True
    end).
Proof.
  intros Hwf Hc Hx. unfold authorize.
  destruct (is_onboarding session && _) eqn:Eo; [by apply wp_ret|].
  case_bool_decide as Hs.
  - rewrite andb_false_r. simpl. apply wp_ret. split; [done|]. unfold admitted. rewrite Hc.
    destruct Hs as [x ->]. destruct (Hx x eq_refl) as [H1 H2]. split; [done|]. split.
    + intros Hon. simpl in Eo. rewrite Hon in Eo. simpl in Eo. apply negb_false_iff in Eo.
      by apply str_in_true.
    + destruct H2; [by left|right; by left].
  - assert (session = None) as -> by (destruct session; [by destruct Hs|done]). simpl.
    rewrite andb_true_r. destruct (negb (first_run ht) && is_local _) eqn:El.
    + apply andb_true_iff in El as [Ef El]. apply negb_true_iff in Ef.
      apply wp_bind. eapply wp_mono; [by apply create_session_wp|].
      intros s' [x|e] [H1 H2]; [|done]. apply wp_ret. split; [done|].
      destruct (H2 x eq_refl) as (Hsc & _ & Ha). unfold admitted. simpl. unfold added in Ha.
      rewrite Ha, dget_dset_same. split; [done|]. rewrite Hsc. split; [done|]. right; by right.
    + destruct (is_public path) eqn:Ep; simpl; apply wp_ret; (split; [done|]); [|done].
      unfold admitted. by rewrite Hc.
Qed.
Lemma process_request_wp ht path h s : admin_wf s ->
  wp (process_request mgr ht path h) s (fun s' r =>
    admin_wf s' /\
    match r with
    | Ok (true, ctx) => admitted ht (url_path path) h s s' ctx
    | Ok (false, ctx) => cx_redirect_to ctx = Some "/" /\
        (no_new s s' \/ first_run ht = true /\ url_path path ∈ ONBOARDING_ROUTES)
    | Raise _ => True
    end).
Proof.
  intros Hwf. unfold process_request. cbv zeta. apply wp_bind.
  eapply wp_mono; [by apply session_of_cookie_wp|]. intros s1 [session|e] (H1 & H2 & H3); [|done].
  assert (forall x, session = Some x -> dget (as_id x) (am_sessions s1) = Some x /\
    (presented h s x \/ first_run ht = true /\ as_scope x = "ONBOARDING_ONLY")) as Hx.
  { intros x ->. destruct (H3 x eq_refl). auto. }
  destruct (first_run ht && _) eqn:Ef.
  - apply andb_true_iff in Ef as [Ef _]. destruct (str_in _ _) eqn:Ep.
    + apply wp_bind. eapply wp_mono; [by apply create_first_run_wp|].
      intros s2 [x|e] (H4 & _ & H5); [|done]. destruct (H5 x eq_refl) as [Hsc Ha].
      eapply wp_mono; [apply (authorize_wp ht _ h s (Some x)); [done|done|]|].
      * intros ? [= <-]. unfold added in Ha. rewrite Ha, dget_dset_same. auto.
      * intros s' [[[|] ctx]|e] [H6 H7]; (split; [done|]); [done| |done].
        destruct H7 as [H7 _]. split; [done|]. right. split; [done|]. by apply str_in_true.
    + apply wp_ret. split; [done|]. split; [done|by left].
  - eapply wp_mono; [apply (authorize_wp ht _ h s session); [done|done|exact Hx]|].
    intros s' [[[|] ctx]|e] [H6 H7]; (split; [done|]); [done| |done].
    destruct H7 as [H7 ->]. split; [done|by left].
Qed.

Lemma run_admin_wf ht op s : admin_wf s -> admin_wf (run_admin ht op s).1.
Proof.
  intros Hwf.
  assert (forall A (m : M AdminSt A), wp m s (fun s' _ => admin_wf s') ->
    admin_wf ((m ;; mret tt : M AdminSt unit) s).1) as Hm.
  { intros A m H. unfold wp in H. unfold mbind, M_bind. destruct (m s) as [s' [a|e]]; exact H. }
  destruct op as [p| |sid|sid| |path h|ctx]; simpl.
  - apply Hm. eapply wp_mono; [by apply create_session_wp|]. by intros ? ? [? _].
  - apply Hm. eapply wp_mono; [by apply create_first_run_wp|]. by intros ? ? [? _].
  - apply Hm. eapply wp_mono; [by apply validate_wp|]. by intros ? ? [? _].
  - destruct (wp_elim _ _ _ (destroy_wf sid s Hwf)) as (s' & r & E & _ & H & _).
    change (admin_wf (destroy sid s).1). by rewrite E.
  - apply Hm. by apply cleanup_wf.
  - apply Hm. eapply wp_mono; [by apply process_request_wp|]. by intros ? ? [? _].
  - apply Hm. unfold revoke_onboarding_session.
    destruct (cx_admin_session ctx) as [x|]; [|by apply wp_ret].
    destruct (as_scope x =s "ONBOARDING_ONLY"); [|by apply wp_ret].
    apply wp_bind. eapply wp_mono; [by apply destroy_wf|]. intros s' r (-> & ? & _).
    by apply wp_ret.
Qed.
Lemma run_admins_wf ops fs : admin_wf (run_admins ops (mkAdmin [] [] 0 fs)).
Proof.
  unfold run_admins.
  assert (admin_wf (mkAdmin [] [] 0 fs)) as H by (do 2 (split; [apply NoDup_nil_2|]); done).
  revert H. generalize (mkAdmin [] [] 0 fs). induction ops as [|op ops IH]; intros s H; [done|].
  apply IH. by apply run_admin_wf.
Qed.

(** Whatever the panel was asked before, and whichever of its writes failed,
    every session is of this runtime, of one of the two scopes and expires
    when that scope's time has passed, and only sessions of administrators
    are ever in a file. *)
Theorem sessions_well_formed ops fs :
  let s := run_admins ops (mkAdmin [] [] 0 fs) in
  (forall id x, dget id (am_sessions s) = Some x -> as_id x = id /\ proper_session x) /\
  (forall id x, dget id (am_files s) = Some x -> as_scope x = "ADMIN" /\ proper_session x).
Proof.
  intros s. destruct (run_admins_wf ops fs) as (_ & _ & H1 & H2). split; [exact H1|].
  intros id x Hx. destruct (H2 id x Hx) as (_ & ? & ?). auto.
Qed.

(** Whatever happened before, the panel lets a request through only if its
    path is public, or it carries a session that is in the table and has not
    expired, or one was created for it: an onboarding session while there is
    no GitHub token, or an administrator's for a request whose Host header
    names the local machine.  An onboarding session only reaches the
    onboarding routes.  A refused request is redirected, and adds no session
    but the onboarding one of its own route. *)
Theorem request_gate ops fs ht path h :
  let s := run_admins ops (mkAdmin [] [] 0 fs) in
  wp (process_request mgr ht path h) s (fun s' r =>
    match r with
    | Ok (true, ctx) => admitted ht (url_path path) h s s' ctx
    | Ok (false, ctx) => cx_redirect_to ctx = Some "/" /\
        (no_new s s' \/ first_run ht = true /\ url_path path ∈ ONBOARDING_ROUTES)
    | Raise _ => True
    end).
Proof.
  intros s. eapply wp_mono; [apply process_request_wp, run_admins_wf|].
  by intros s' r [_ H].
Qed.

(** A request without a session is signed in as an administrator when its Host
    header says localhost, whatever the path: the header, which the client
    writes, is all that is looked at. *)
Theorem host_header_signs_in path s : am_faults s = [] ->
  wp (process_request mgr (Some true) path (mkHeaders (Some "localhost:3643") None)) s (fun s' r =>
    match r with
    | Ok (b, ctx) => b = true /\ exists x, cx_admin_session ctx = Some x /\ as_scope x = "ADMIN"
    | Raise e => exn_type e = OverflowError
    end).
Proof.
  intros Hf. unfold process_request. cbv zeta. apply wp_bind, wp_ret.
  cbn [hd_host default]. replace (is_local _) with true by reflexivity.
  unfold authorize. simpl. apply wp_bind. unfold create_session, new_session.
  do 2 apply wp_bind. apply ad_draw_wp, wp_bind, ad_draw_wp, wp_bind, wp_of_result.
  unfold add_seconds at 1. destruct (_ && _); [|done]. apply wp_bind, ad_draw_wp, wp_ret.
  apply wp_bind, wp_modify, wp_bind. unfold wp at 1, persist_session. simpl. rewrite Hf.
  do 2 apply wp_ret. split; [done|]. eexists. by split.
Qed.

(** A posted form is accepted exactly on the exempt paths or with the token of
    the request's session; an empty list of tokens, or a token beyond ASCII,
    raises. *)
Theorem csrf_gate path form ctx :
  (forall x, cx_admin_session ctx = Some x ->
     all_chars is_ascii (as_csrf_token x) = true /\ as_csrf_token x <> "") ->
  let tokens := default [""] (dget "csrf_token" form) in
  match process_post_body path form ctx with
  | Ok (ok, _) => ok = true <-> csrf_exempt (url_path path) = true \/
      exists x, cx_admin_session ctx = Some x /\ head tokens = Some (as_csrf_token x)
  | Raise _ => csrf_exempt (url_path path) = false /\
      forall token, head tokens = Some token -> all_chars is_ascii token = false
  end.
Proof.
  intros Hx tokens. unfold process_post_body. fold tokens.
  destruct (csrf_exempt _) eqn:Ee; [split; [by left|done]|].
  destruct (cx_admin_session ctx) as [x|]; [|split; [done|by intros [?|(? & ? & _)]]].
  destruct (Hx x eq_refl) as [Ha Hne]. destruct tokens as [|token rest]; [done|].
  unfold validate_csrf_token, compare_digest. simpl. rewrite Ha.
  assert (str_true (as_csrf_token x) = true) as ->.
  { unfold str_true. apply String.eqb_neq in Hne. by rewrite Hne. }
  destruct (str_true token) eqn:Et; simpl.
  - destruct (all_chars is_ascii token) eqn:Eat; [|by split; [|intros ? [= <-]]].
    destruct (as_csrf_token x =s token) eqn:E.
    + apply String.eqb_eq in E as <-. split; [intros _; right; by exists x|done].
    + split; [done|]. intros [?|(y & Hy & Hh)]; [done|]. simplify_eq.
      by rewrite String.eqb_refl in E.
  - split; [done|]. intros [?|(y & Hy & Hh)]; [done|]. simplify_eq.
    unfold str_true in Et. by apply negb_false_iff, String.eqb_eq in Et.
Qed.
End Theorems.

(** ** The audit log *)
Section AuditTheorems.
Context {env : AdminEnv} (runtime_id : string).
Lemma read_entries_good l : read_entries (LGood <$> l) = l.
Proof. induction l as [|e l IH]; [done|]. simpl. by f_equal. Qed.

(** A series of actions, each with whether its write succeeds. *)
Record action := mkAction {
  ac_session : string; ac_action : string; ac_principal : string; ac_result : string;
  ac_details : option string }.
Definition record_all (l : list action) (s : AuditSt) : AuditSt :=
  foldl (fun s a => (record_action runtime_id (ac_session a) (ac_action a) (ac_principal a)
                       (ac_result a) (ac_details a) s).1) s l.
Lemma record_all_app l1 l2 s : record_all (l1 ++ l2) s = record_all l2 (record_all l1 s).
Proof. apply foldl_app. Qed.

(** With writes that succeed, the most recent entries are the last actions, in
    the order they were recorded. *)
Theorem audit_recent l (n : nat) : n <> 0 ->
  let es := read_recent (Z.of_nat n) (record_all l (mkAudit None 0 [])) in
  length es = Nat.min n (length l) /\
  ((fun e => (ae_admin_session_id e, ae_action e, ae_principal e, ae_result e, ae_details e)) <$> es)
  = last_n (Z.of_nat n) ((fun a => (ac_session a, ac_action a, ac_principal a, ac_result a,
                                    ac_details a)) <$> l).
Proof.
  intros Hn.
  assert (forall l, exists es, al_lines (record_all l (mkAudit None 0 []))
      = (match l with [] => None | _ => Some (LGood <$> es) end) /\
    ((fun e => (ae_admin_session_id e, ae_action e, ae_principal e, ae_result e, ae_details e))
       <$> es) = (fun a => (ac_session a, ac_action a, ac_principal a, ac_result a, ac_details a))
       <$> l /\
    al_faults (record_all l (mkAudit None 0 [])) = []) as H.
  { clear l. induction l as [|a l IH] using rev_ind; [by exists []|].
    destruct IH as (es & H1 & H2 & H3). rewrite record_all_app.
    destruct (record_all l (mkAudit None 0 [])) as [lines tick faults]. simpl in H1, H3.
    subst lines faults. simpl.
    eexists (es ++ [mkAuditEntry _ _ _ _ _ _ _]). split; [|split; [|done]].
    - rewrite fmap_app. destruct l as [|b l]; simpl; [|done]. by destruct es.
    - rewrite !fmap_app, H2. done. }
  destruct (H l) as (es & H1 & H2 & _). unfold read_recent. rewrite H1.
  assert (length es = length l) as Hl.
  { apply (f_equal length) in H2. by rewrite !length_fmap in H2. }
  destruct l as [|a l]; [destruct es; [|done]; simpl; split; [by destruct n|]|].
  { rewrite last_n_nat by done. by destruct n. }
  rewrite !last_n_nat by done. rewrite !length_fmap, Hl.
  rewrite <- (fmap_drop LGood), read_entries_good. split; [rewrite length_drop, Hl; lia|].
  by rewrite !fmap_drop, H2.
Qed.
End AuditTheorems.
