(* ===== verification/Accounts.v ===== *)
(** * Accounts and projects

    [runtime/accounts/] and [runtime/projects/]: two registries that keep each
    record in a JSON file of its own.  What they share, a table and a directory
    of files, is stated once for any record format.  Files are listed in an
    order the system chooses, identifiers have no slash, and a file
    whose fields are not of the types the registries write is [Unmodelled]. *)
From stdpp Require Import gmap.
From S2P Require Import Prelude Dict PyVal Effects PyStr Json Keys.

(** How the records of a registry are identified and stored: [rec_decode]
    gives no record where building one raises. *)
Class RecordFormat (R : Type) := {
  rec_id : R -> string;
  rec_encode : R -> pyval;
  rec_decode : pyval -> result (option R) }.
(** The law of a format: what is written is read back. *)
Class LawfulFormat (R : Type) `{RecordFormat R} := {
  rec_round_trip : forall r : R, rec_decode (rec_encode r) = Ok (Some r) }.

(** A node of the directory: a file with its text, or something else. *)
Inductive dir_node := TextFile (t : json_text) | OtherNode.
(** The directory, its listing order given by the system. *)
Class Listing := {
  list_dir : gmap string dir_node -> list (string * dir_node);
  list_dir_perm : forall m, list_dir m ≡ₚ map_to_list m }.

Record DirSt (R : Type) := mkDirSt {
  di_table : dict string R;
  di_files : gmap string dir_node;
  di_tick : nat;
  di_outcomes : list io_outcome }.
Arguments mkDirSt {R}. Arguments di_table {R}. Arguments di_files {R}.
Arguments di_tick {R}. Arguments di_outcomes {R}.
#[export] Instance eta_DirSt R : Eta (DirSt R) := fun r =>
  mkDirSt (di_table r) (di_files r) (di_tick r) (di_outcomes r).

Lemma elem_dkeys_dset {V} (x k : string) (v : V) d : x ∈ dkeys (dset k v d) <-> x = k \/ x ∈ dkeys d.
Proof.
  rewrite dkeys_dset. destruct (dmem k d) eqn:E; [apply dmem_true in E|]; set_solver.
Qed.

(** [s.endswith(suffix)] *)
Fixpoint endswith (suffix s : string) : bool :=
  (suffix =s s) || match s with "" => false | String _ s' => endswith suffix s' end.
Lemma endswith_step suffix s : endswith suffix s =
  (suffix =s s) || match s with "" => false | String _ s' => endswith suffix s' end.
Proof. by destruct s. Qed.
Lemma endswith_app a suffix : endswith suffix (a +:+ suffix) = true.
Proof.
  induction a as [|c a IH]; [by rewrite endswith_step, String.eqb_refl|].
  rewrite string_app_cons, endswith_step, IH. apply orb_true_r.
Qed.

(** ** The shared registry *)
Section Directory.
Context {R : Type} {format : RecordFormat R} {listing : Listing}.

Definition file_name (id : string) : string := id +:+ ".json".
Definition json_name : string -> bool := endswith ".json".
(** [load]: a file that cannot be read as a record is skipped. *)
Definition load_file (table : dict string R) (f : string * dir_node) : result (dict string R) :=
  if negb (json_name f.1) then Ok table
  else match f.2 with
       | TextFile (JValue v) =>
           let? r := rec_decode v in
           Ok (match r with Some r => dset (rec_id r) r table | None => table end)
       | _ => Ok table
       end.
Fixpoint load_files (table : dict string R) (fs : list (string * dir_node))
    : result (dict string R) :=
  match fs with
  | [] => Ok table
  | f :: fs' => let? t := load_file table f in load_files t fs'
  end.
Definition load_table : M (DirSt R) unit :=
  fs ← gets (fun s => list_dir (di_files s));
  t ← of_result (load_files [] fs);
  modify (fun s => s <| di_table := t |>).
(** [save]: opening the file empties it before it is written. *)
Definition save_record (r : R) : M (DirSt R) unit := fun s =>
  let name := file_name (rec_id r) in
  let s' := s <| di_outcomes := tl (di_outcomes s) |> in
  match head (di_outcomes s) with
  | Some IoOpenFails => (s', raise OSError "open failed")
  | Some IoWriteFails =>
      (s' <| di_files := <[name := TextFile JEmpty]> (di_files s) |>, raise OSError "write failed")
  | _ => (s' <| di_files := <[name := TextFile (JValue (rec_encode r))]> (di_files s) |>, Ok tt)
  end.
Definition add_record (r : R) : M (DirSt R) R :=
  modify (fun s => s <| di_table := dset (rec_id r) r (di_table s) |>) ;;
  save_record r ;;
  mret r.
Definition get_record (id : string) (s : DirSt R) : option R := dget id (di_table s).
Definition list_records (s : DirSt R) : list R := dvalues (di_table s).
Definition delete_record (id : string) : M (DirSt R) bool :=
  s ← gets Datatypes.id;
  if dmem id (di_table s) then
    modify (fun s => (s <| di_table := ddel id (di_table s) |>)
                       <| di_files := delete (file_name id) (di_files s) |>) ;;
    mret true
  else mret false.
Definition dir_draw {A} (f : nat -> A) : M (DirSt R) A := fun s =>
  (s <| di_tick := S (di_tick s) |>, Ok (f (di_tick s))).

(** ** Loading what was written *)
Context {lawful : LawfulFormat R}.
(** A file as the registry leaves it: torn, or one record under its name. *)
Definition written (f : string * dir_node) : Prop :=
  f.2 = TextFile JEmpty \/
  exists r, f = (file_name (rec_id r), TextFile (JValue (rec_encode r))).

Lemma file_name_inj a b : file_name a = file_name b -> a = b.
Proof.
  unfold file_name. revert b. induction a as [|c a IH]; intros b H.
  - destruct b as [|d b]; [done|]. simpl in H.
    apply (f_equal String.length) in H. rewrite string_app_cons in H. simpl in H.
    rewrite string_length_app in H. simpl in H. lia.
  - destruct b as [|d b].
    + apply (f_equal String.length) in H. rewrite string_app_cons in H. simpl in H.
      rewrite string_length_app in H. simpl in H. lia.
    + rewrite !string_app_cons in H. injection H as -> H. f_equal. by apply IH.
Qed.
Lemma load_written table r :
  load_file table (file_name (rec_id r), TextFile (JValue (rec_encode r)))
  = Ok (dset (rec_id r) r table).
Proof.
  unfold load_file, json_name, file_name. cbn [fst snd]. rewrite endswith_app. simpl.
  by rewrite rec_round_trip.
Qed.
Lemma load_files_ok fs table : Forall written fs -> NoDup (fs.*1) -> dict_wf table ->
  exists t, load_files table fs = Ok t /\ dict_wf t /\
    (forall id r, dget id t = Some r -> dget id table = Some r \/
       id = rec_id r /\ (file_name id, TextFile (JValue (rec_encode r))) ∈ fs) /\
    (forall r, (file_name (rec_id r), TextFile (JValue (rec_encode r))) ∈ fs ->
       dget (rec_id r) t = Some r) /\
    (forall id, file_name id ∉ fs.*1 -> dget id t = dget id table).
Proof.
  revert table. induction fs as [|f fs IH]; intros table Hf Hn Ht.
  { exists table. repeat split; try done; [by left|]. intros r Hr. by apply elem_of_nil in Hr. }
  apply Forall_cons in Hf as [Hw Hf]. simpl in Hn. apply NoDup_cons in Hn as [Hnf Hn].
  assert (exists t1, load_file table f = Ok t1 /\ dict_wf t1 /\
    (t1 = table /\ f.2 = TextFile JEmpty \/
     exists r, f = (file_name (rec_id r), TextFile (JValue (rec_encode r))) /\
       t1 = dset (rec_id r) r table)) as (t1 & E1 & Hw1 & H1).
  { destruct Hw as [He|(r & ->)].
    - exists table. unfold load_file. rewrite He. split; [by destruct (negb _)|].
      split; [done|by left].
    - exists (dset (rec_id r) r table). rewrite load_written. split; [done|].
      split; [by apply dset_wf|]. right. by exists r. }
  simpl. rewrite E1. destruct (IH t1 Hf Hn Hw1) as (t & E & Hwt & Ha & Hb & Hc).
  exists t. split; [done|]. split; [done|]. split; [|split].
  - intros id r Hr. destruct (Ha id r Hr) as [Hr1|[-> Hr1]]; [|right; split; [done|by right]].
    destruct H1 as [[-> _]|(r1 & -> & ->)]; [by left|]. rewrite dget_dset in Hr1.
    case_decide as Ed; [|by left]. right. injection Hr1 as ->. subst. split; [done|by left].
  - intros r Hr. apply elem_of_cons in Hr as [Hr|Hr]; [|by apply Hb].
    rewrite Hc.
    + destruct H1 as [[_ He]|(r1 & E2 & ->)]; [by rewrite <- Hr in He|].
      rewrite E2 in Hr. injection Hr as Hid Hv.
      assert (Ok (Some r) = Ok (Some r1)) as [= ->].
      { rewrite <- !rec_round_trip. by rewrite Hv. }
      apply dget_dset_same.
    + rewrite <- Hr in Hnf. exact Hnf.
  - intros id Hid. simpl in Hid. apply not_elem_of_cons in Hid as [Hid1 Hid2].
    rewrite (Hc id Hid2). destruct H1 as [[-> _]|(r1 & -> & ->)]; [done|].
    apply dget_dset_other. intros <-. by apply Hid1.
Qed.

(** The directory's state: every good file holds a record of the table's
    identifiers. *)
Definition dir_inv (s : DirSt R) : Prop :=
  dict_wf (di_table s) /\
  (forall id r, dget id (di_table s) = Some r -> rec_id r = id) /\
  (forall name node, di_files s !! name = Some node -> written (name, node)) /\
  (forall id v, di_files s !! file_name id = Some (TextFile (JValue v)) -> id ∈ dkeys (di_table s)).
(** With writes that succeed the files are the table. *)
Definition in_step (s : DirSt R) : Prop :=
  di_outcomes s = [] /\
  (forall id r, dget id (di_table s) = Some r ->
     di_files s !! file_name id = Some (TextFile (JValue (rec_encode r)))) /\
  (forall name node, di_files s !! name = Some node ->
     exists id r, name = file_name id /\ dget id (di_table s) = Some r).

Lemma load_table_wp s : dir_inv s -> wp load_table s (fun s' r =>
  r = Ok tt /\ dir_inv s' /\ di_files s' = di_files s /\ di_outcomes s' = di_outcomes s /\
  (length (di_table s') <= length (di_table s))%nat /\
  (in_step s -> in_step s' /\ forall id, dget id (di_table s') = dget id (di_table s))).
Proof.
  intros (H1 & H2 & H3 & H4). unfold load_table. apply wp_bind, wp_gets, wp_bind, wp_of_result.
  pose proof (list_dir_perm (di_files s)) as Hp.
  destruct (load_files_ok (list_dir (di_files s)) []) as (t & E & Hwt & Ha & Hb & Hc).
  - rewrite Hp, Forall_forall. intros [name node] Hx. apply elem_of_map_to_list in Hx. by apply H3.
  - rewrite Hp. apply NoDup_fst_map_to_list.
  - apply NoDup_nil_2.
  - assert (forall id r, dget id t = Some r -> id = rec_id r /\
      di_files s !! file_name id = Some (TextFile (JValue (rec_encode r)))) as Ha'.
    { intros id r Hr. destruct (Ha id r Hr) as [?|[-> Hin]]; [done|]. split; [done|].
      rewrite Hp in Hin. by apply elem_of_map_to_list in Hin. }
    assert (forall r, di_files s !! file_name (rec_id r) = Some (TextFile (JValue (rec_encode r))) ->
      dget (rec_id r) t = Some r) as Hb'.
    { intros r Hr. apply Hb. rewrite Hp. by apply elem_of_map_to_list. }
    rewrite E. apply wp_modify. split; [done|]. split; [|split; [done|split; [done|split]]].
    + split; [done|]. split; [intros id r Hr; by destruct (Ha' id r Hr) as [-> _]|].
      split; [done|]. simpl. intros id v Hv. destruct (H3 _ _ Hv) as [?|(r & [= Hid Hn])]; [done|].
      apply file_name_inj in Hid as ->. subst v. eapply dget_key. by apply Hb'.
    + simpl. rewrite <- (length_fmap fst t), <- (length_fmap fst (di_table s)).
      apply submseteq_length, NoDup_submseteq; [exact Hwt|]. intros id Hid.
      destruct (dget id t) as [r|] eqn:Er; [|by apply dget_None in Er].
      destruct (Ha' id r Er) as [_ Hf]. by eapply H4.
    + intros (I1 & I2 & I3).
      assert (forall id, dget id t = dget id (di_table s)) as Heq.
      { intros id. destruct (dget id (di_table s)) as [r|] eqn:Er.
        - pose proof (H2 _ _ Er) as <-. apply Hb'. by apply I2.
        - destruct (dget id t) as [r|] eqn:Et; [|done]. destruct (Ha' id r Et) as [_ Hf].
          destruct (I3 _ _ Hf) as (id' & r' & Hid & Hr').
          apply file_name_inj in Hid as ->. by rewrite Er in Hr'. }
      split; [|exact Heq]. split; [done|]. split; [intros id r; simpl; rewrite Heq; apply I2|].
      simpl. intros name node Hx. destruct (I3 name node Hx) as (id & r & -> & Hr).
      exists id, r. by rewrite Heq.
Qed.
Lemma add_record_wp r s : dir_inv s -> wp (add_record r) s (fun s' x =>
  dir_inv s' /\ di_table s' = dset (rec_id r) r (di_table s) /\
  (in_step s -> in_step s') /\
  match x with Ok y => y = r | Raise e => exn_type e = OSError end).
Proof.
  intros (H1 & H2 & H3 & H4). unfold add_record. apply wp_bind, wp_modify, wp_bind.
  assert (forall n o, dir_inv (mkDirSt (dset (rec_id r) r (di_table s))
    (<[file_name (rec_id r) := n]> (di_files s)) (di_tick s) o) <->
    written (file_name (rec_id r), n)) as Hw.
  { intros n o. split.
    - intros (_ & _ & H & _). apply H. simpl. apply lookup_insert_eq.
    - intros Hn. split; [by apply dset_wf|]. split; [|split]; simpl.
      + intros id x. rewrite dget_dset. case_decide as E; [by intros [= <-]|apply H2].
      + intros name node Hx. destruct (decide (name = file_name (rec_id r))) as [->|Hne].
        * rewrite lookup_insert_eq in Hx. by injection Hx as <-.
        * rewrite lookup_insert_ne in Hx by done. by apply H3.
      + intros id v Hx. apply elem_dkeys_dset. destruct (decide (id = rec_id r)); [by left|].
        rewrite lookup_insert_ne in Hx by (intros E; by apply file_name_inj in E).
        right. by eapply H4. }
  unfold wp at 1, save_record. simpl.
  destruct (di_outcomes s) as [|[| |] os] eqn:Eo; simpl.
  - apply wp_ret. split; [apply Hw; right; by exists r|]. split; [done|].
    split; [|done]. intros (I1 & I2 & I3). split; [done|]. split; simpl.
    + intros id x. rewrite dget_dset. case_decide as E; [intros [= <-]; subst id|].
      * apply lookup_insert_eq.
      * intros Hx. rewrite lookup_insert_ne by (intros E'; by apply file_name_inj in E'). by apply I2.
    + intros name node Hx. destruct (decide (name = file_name (rec_id r))) as [->|Hne].
      * exists (rec_id r), r. split; [done|apply dget_dset_same].
      * rewrite lookup_insert_ne in Hx by done. destruct (I3 name node Hx) as (id & x & -> & Hid).
        exists id, x. split; [done|]. rewrite dget_dset_other; [done|]. by intros <-.
  - apply wp_ret. split; [apply Hw; right; by exists r|]. split; [done|].
    split; [|done]. intros (Ho & _). by rewrite Eo in Ho.
  - split; [|split; [done|split; [intros (Ho & _); by rewrite Eo in Ho|done]]].
    split; [by apply dset_wf|]. split; [|split]; simpl; [|done|].
    + intros id x. rewrite dget_dset. case_decide as E; [by intros [= <-]|apply H2].
    + intros id v Hx. apply elem_dkeys_dset. right. by eapply H4.
  - split; [apply Hw; by left|]. split; [done|]. split; [|done].
    intros (Ho & _). by rewrite Eo in Ho.
Qed.
Lemma delete_record_wp id s : dir_inv s -> wp (delete_record id) s (fun s' x =>
  dir_inv s' /\ (di_table s' = di_table s \/ di_table s' = ddel id (di_table s)) /\
  x = Ok (dmem id (di_table s)) /\ dget id (di_table s') = None /\
  (in_step s -> in_step s')).
Proof.
  intros (H1 & H2 & H3 & H4). unfold delete_record. apply wp_bind, wp_gets.
  change (Datatypes.id s) with s. destruct (dmem id (di_table s)) eqn:Em.
  2:{ apply wp_ret. split; [done|]. split; [by left|]. split; [done|]. split; [|done].
      by apply dmem_false. }
  apply wp_bind, wp_modify, wp_ret. split; [|split; [by right|split; [done|split]]].
  - split; [by apply ddel_wf|]. split; [|split]; simpl.
    + intros id' x Hx. destruct (decide (id' = id)) as [->|Hne]; [by rewrite dget_ddel_same in Hx|].
      rewrite dget_ddel_other in Hx by done. by apply H2.
    + intros name node Hx. apply lookup_delete_Some in Hx as [_ Hx]. by apply H3.
    + intros id' v Hx. apply lookup_delete_Some in Hx as [Hne Hx]. apply H4 in Hx.
      destruct (dget id' (ddel id (di_table s))) as [x|] eqn:E; [by eapply dget_key|].
      rewrite dget_ddel_other in E by (intros ->; by apply Hne).
      by apply dget_None in E.
  - simpl. by apply dget_ddel_same.
  - intros (I1 & I2 & I3). split; [done|]. split; simpl.
    + intros id' x Hx. destruct (decide (id' = id)) as [->|Hne]; [by rewrite dget_ddel_same in Hx|].
      rewrite dget_ddel_other in Hx by done.
      rewrite lookup_delete_ne by (intros E; by apply file_name_inj in E). by apply I2.
    + intros name node Hx. apply lookup_delete_Some in Hx as [Hne Hx].
      destruct (I3 name node Hx) as (id' & x & -> & Hid'). exists id', x. split; [done|].
      rewrite dget_ddel_other; [done|]. intros ->. by apply Hne.
Qed.
End Directory.

(** ** Accounts *)
Inductive AccountStatus := AC_ACTIVE | AC_SUSPENDED | AC_DISCONNECTED.
Definition account_status_value (s : AccountStatus) : string :=
  match s with
  | AC_ACTIVE => "ACTIVE" | AC_SUSPENDED => "SUSPENDED" | AC_DISCONNECTED => "DISCONNECTED"
  end.
Definition account_status_of (s : string) : option AccountStatus :=
  find (fun x => account_status_value x =s s) [AC_ACTIVE; AC_SUSPENDED; AC_DISCONNECTED].
Record Account := mkAccount {
  ac_account_id : string; ac_github_principal : string; ac_account_type : string;
  ac_credential_ref : string; ac_status : AccountStatus; ac_created_at : Z }.

(** ** Projects *)
Inductive ProjectStatus := PJ_ACTIVE | PJ_ARCHIVED | PJ_SUSPENDED.
Definition project_status_value (s : ProjectStatus) : string :=
  match s with
  | PJ_ACTIVE => "ACTIVE" | PJ_ARCHIVED => "ARCHIVED" | PJ_SUSPENDED => "SUSPENDED"
  end.
Definition project_status_of (s : string) : option ProjectStatus :=
  find (fun x => project_status_value x =s s) [PJ_ACTIVE; PJ_ARCHIVED; PJ_SUSPENDED].
Record Project := mkProject {
  pj_project_id : string; pj_account_id : string; pj_name : string;
  pj_repository_id : option string; pj_status : ProjectStatus; pj_created_at : Z }.

(** The clock, [uuid.uuid4().hex[:8]], [isoformat] and [fromisoformat]. *)
Class AccountEnv := {
  acc_clock : nat -> Z;
  uuid8 : nat -> string;
  acc_isoformat : Z -> string;
  acc_fromisoformat : string -> option Z }.
(** The documented inverse: ISO texts are read back. *)
Class IsoRoundTrip `{AccountEnv} := {
  iso_round_trip : forall z, acc_fromisoformat (acc_isoformat z) = Some z }.

Section Formats.
Context {env : AccountEnv}.
Definition unmodelled_field {A} : result A := raise Unmodelled "a field of another type".
(** [data[k]] for a text: a missing key raises and the file is skipped. *)
Definition text_field (k : string) (d : dict string pyval) : result (option string) :=
  match dget k d with
  | Some (VStr s) => Ok (Some s)
  | Some _ => unmodelled_field
  | None => Ok None
  end.
Definition account_to_data (a : Account) : pyval :=
  VDict [("account_id", VStr (ac_account_id a)); ("github_principal", VStr (ac_github_principal a));
         ("account_type", VStr (ac_account_type a)); ("credential_ref", VStr (ac_credential_ref a));
         ("status", VStr (account_status_value (ac_status a)));
         ("created_at", VStr (acc_isoformat (ac_created_at a)))].
Definition account_of_data (v : pyval) : result (option Account) :=
  match v with
  | VDict d =>
      let? id := text_field "account_id" d in
      let? principal := text_field "github_principal" d in
      let? type := text_field "account_type" d in
      let? ref := text_field "credential_ref" d in
      let? status := text_field "status" d in
      let? created := text_field "created_at" d in
      Ok (id ← id; principal ← principal; type ← type; ref ← ref;
          status ← status ≫= account_status_of; created ← created ≫= acc_fromisoformat;
          Some (mkAccount id principal type ref status created))
  | _ => Ok None
  end.
#[export] Instance account_format : RecordFormat Account := {
  rec_id := ac_account_id; rec_encode := account_to_data; rec_decode := account_of_data }.

Definition project_to_data (p : Project) : pyval :=
  VDict [("project_id", VStr (pj_project_id p)); ("account_id", VStr (pj_account_id p));
         ("name", VStr (pj_name p));
         ("repository_id", match pj_repository_id p with Some r => VStr r | None => VNone end);
         ("status", VStr (project_status_value (pj_status p)));
         ("created_at", VStr (acc_isoformat (pj_created_at p)))].
Definition repository_field (d : dict string pyval) : result (option string) :=
  match vget "repository_id" d with
  | VNone => Ok None
  | VStr s => Ok (Some s)
  | _ => unmodelled_field
  end.
Definition project_of_data (v : pyval) : result (option Project) :=
  match v with
  | VDict d =>
      let? id := text_field "project_id" d in
      let? account := text_field "account_id" d in
      let? name := text_field "name" d in
      let? repository := repository_field d in
      let? status := text_field "status" d in
      let? created := text_field "created_at" d in
      Ok (id ← id; account ← account; name ← name;
          status ← status ≫= project_status_of; created ← created ≫= acc_fromisoformat;
          Some (mkProject id account name repository status created))
  | _ => Ok None
  end.
#[export] Instance project_format : RecordFormat Project := {
  rec_id := pj_project_id; rec_encode := project_to_data; rec_decode := project_of_data }.

#[export] Instance account_lawful {iso : IsoRoundTrip} : LawfulFormat Account.
Proof.
  constructor. intros [id principal type ref status created]. simpl.
  rewrite iso_round_trip. by destruct status.
Qed.
#[export] Instance project_lawful {iso : IsoRoundTrip} : LawfulFormat Project.
Proof.
  constructor. intros [id account name repository status created]. simpl.
  unfold repository_field, vget. simpl.
  destruct repository; simpl; rewrite iso_round_trip; by destruct status.
Qed.
End Formats.

Section Registries.
Context {env : AccountEnv} {listing : Listing}.
Definition MAX_ACCOUNTS : nat := 5.
Definition find_by_principal (principal : string) (s : DirSt Account) : option Account :=
  find (fun a => lower (ac_github_principal a) =s lower principal) (list_records s).
Definition create_account (principal account_type : string) : M (DirSt Account) Account :=
  s ← gets id;
  when (MAX_ACCOUNTS <=? length (di_table s))
    (throw ValueError ("Maximum of " +:+ zstr (Z.of_nat MAX_ACCOUNTS) +:+ " accounts reached")) ;;
  match find_by_principal principal s with
  | Some a => mret a
  | None =>
      u ← dir_draw uuid8;
      now ← dir_draw acc_clock;
      let account_id := "acct-" +:+ u in
      add_record (mkAccount account_id principal account_type (account_id +:+ "-github-token")
                    AC_ACTIVE now)
  end.
Definition create_project (account_id name : string) (repository_id : option string)
    : M (DirSt Project) Project :=
  u ← dir_draw uuid8;
  now ← dir_draw acc_clock;
  add_record (mkProject ("proj-" +:+ u) account_id name repository_id PJ_ACTIVE now).
Definition list_projects (account_id : option string) (s : DirSt Project) : list Project :=
  if ostr_true account_id
  then filter (fun p => pj_account_id p = default "" account_id) (list_records s)
  else list_records s.
End Registries.

(** ** What the registries promise *)
Inductive account_op :=
  | ACreateAccount (principal account_type : string) | ADeleteAccount (id : string) | AReload.
Inductive project_op :=
  | PCreate (account_id name : string) (repository_id : option string) | PDelete (id : string)
  | PReload.

Section Theorems.
Context {env : AccountEnv} {iso : IsoRoundTrip} {listing : Listing}.

(** Reloading is what constructing the registry again does. *)
Definition run_account (op : account_op) (s : DirSt Account) : DirSt Account :=
  match op with
  | ACreateAccount p t => (create_account p t s).1
  | ADeleteAccount id => (delete_record id s).1
  | AReload => (load_table s).1
  end.
Definition run_project (op : project_op) (s : DirSt Project) : DirSt Project :=
  match op with
  | PCreate a n r => (create_project a n r s).1
  | PDelete id => (delete_record id s).1
  | PReload => (load_table s).1
  end.
Definition run_accounts (ops : list account_op) (s : DirSt Account) : DirSt Account :=
  foldl (fun s op => run_account op s) s ops.
Definition run_projects (ops : list project_op) (s : DirSt Project) : DirSt Project :=
  foldl (fun s op => run_project op s) s ops.
Definition empty_dir {R} (outcomes : list io_outcome) : DirSt R := mkDirSt [] ∅ 0 outcomes.

Lemma empty_dir_inv {R} `{RecordFormat R} outcomes : dir_inv (empty_dir (R := R) outcomes).
Proof.
  split; [apply NoDup_nil_2|]. split; [done|]. split; intros ? ? H'; simpl in H'; by rewrite lookup_empty in H'.
Qed.
Lemma empty_in_step {R} `{RecordFormat R} : in_step (empty_dir (R := R) []).
Proof. split; [done|]. split; [done|]. intros ? ? H'. simpl in H'. by rewrite lookup_empty in H'. Qed.

(** No two accounts have principals that differ only in case. *)
Definition principals_unique (s : DirSt Account) : Prop :=
  forall id id' a a', dget id (di_table s) = Some a -> dget id' (di_table s) = Some a' ->
    lower (ac_github_principal a) = lower (ac_github_principal a') -> id = id'.
Definition accounts_inv (s : DirSt Account) : Prop :=
  dir_inv s /\ (length (di_table s) <= MAX_ACCOUNTS)%nat.

Lemma find_by_principal_None p s : find_by_principal p s = None ->
  forall id a, dget id (di_table s) = Some a -> lower (ac_github_principal a) <> lower p.
Proof.
  intros Hf id a Ha E. eapply find_none with (x := a) in Hf; simpl in Hf.
  - apply String.eqb_neq in Hf. by apply Hf.
  - unfold list_records, dvalues. apply list_elem_of_In, list_elem_of_fmap.
    exists (id, a). split; [done|]. by apply dget_elem.
Qed.
Lemma length_dset_le {V} (k : string) (v : V) d : (length (dset k v d) <= S (length d))%nat.
Proof. induction d as [|[k' v'] d IH]; simpl; [lia|]. case_decide; simpl; lia. Qed.
Lemma length_ddel_le {V} (k : string) (d : dict string V) : (length (ddel k d) <= length d)%nat.
Proof. induction d as [|[k' v'] d IH]; simpl; [lia|]. case_decide; simpl; lia. Qed.

Lemma create_account_wp p t s : accounts_inv s -> wp (create_account p t) s (fun s' r =>
  accounts_inv s' /\
  (in_step s -> in_step s') /\
  (principals_unique s -> principals_unique s') /\
  match r with
  | Ok a => lower (ac_github_principal a) = lower p /\ dget (ac_account_id a) (di_table s') = Some a
  | Raise e => exn_type e = ValueError /\ length (di_table s) = MAX_ACCOUNTS /\ s' = s \/
      exn_type e = OSError
  end).
Proof.
  intros [Hd Hl]. unfold create_account. apply wp_bind, wp_gets. change (id s) with s.
  apply wp_bind, wp_when; intros Em.
  { apply wp_throw. apply Nat.leb_le in Em. split; [done|]. split; [done|]. split; [done|].
    left. split; [done|]. split; [unfold MAX_ACCOUNTS in *; lia|done]. }
  apply Nat.leb_gt in Em. destruct (find_by_principal p s) as [a|] eqn:Ef.
  { apply wp_ret. split; [done|]. split; [done|]. split; [done|].
    unfold find_by_principal in Ef. apply find_some in Ef as [Hin Ha].
    apply String.eqb_eq in Ha. split; [done|].
    unfold list_records, dvalues in Hin. apply list_elem_of_In, list_elem_of_fmap in Hin
      as ([id x] & -> & Hin). simpl in *. destruct Hd as (H1 & H2 & _).
    pose proof (dget_wf_elem _ _ _ H1 Hin) as Hg. pose proof (H2 _ _ Hg) as E. simpl in E.
    by rewrite E. }
  apply wp_bind. unfold wp at 1, dir_draw. apply wp_bind. unfold wp at 1, dir_draw.
  cbv zeta. eapply wp_mono; [by apply add_record_wp|].
  intros s' r (Hi & Ht & Hs & Hr). simpl in Ht. split; [|split; [|split]].
  - split; [done|]. rewrite Ht. pose proof (length_dset_le ("acct-" +:+ uuid8 (di_tick s))
      (mkAccount ("acct-" +:+ uuid8 (di_tick s)) p t
         (("acct-" +:+ uuid8 (di_tick s)) +:+ "-github-token") AC_ACTIVE
         (acc_clock (S (di_tick s)))) (di_table s)). unfold MAX_ACCOUNTS in *. simpl in *. lia.
  - intros Hin. by apply Hs.
  - intros Hu id id' a a'. rewrite Ht, !dget_dset.
    pose proof (find_by_principal_None _ _ Ef) as Hne.
    do 2 case_decide; intros Ha Ha' E; simplify_eq; try done; simpl in E.
    + by destruct (Hne _ _ Ha').
    + by destruct (Hne _ _ Ha).
    + by apply (Hu id id' a a').
  - destruct r as [a|e]; [|by right]. subst a. split; [done|]. rewrite Ht. apply dget_dset_same.
Qed.

Lemma reload_unique (s s' : DirSt Account) :
  (forall id, dget id (di_table s') = dget id (di_table s)) ->
  principals_unique s -> principals_unique s'.
Proof. intros He Hu id id' a a'. rewrite !He. apply Hu. Qed.

Lemma run_account_inv op s : accounts_inv s ->
  accounts_inv (run_account op s) /\
  (in_step s -> in_step (run_account op s) /\
     (principals_unique s -> principals_unique (run_account op s))).
Proof.
  intros [Hd Hl]. destruct op as [p t|id|]; simpl.
  - destruct (wp_elim _ _ _ (create_account_wp p t s (conj Hd Hl))) as (s' & r & -> & H1 & H2 & H3 & _).
    split; [exact H1|]. intros Hi. split; [by apply H2|exact H3].
  - destruct (wp_elim _ _ _ (delete_record_wp id s Hd)) as (s' & r & -> & H1 & H2 & _ & _ & H3).
    split.
    + split; [exact H1|]. simpl. destruct H2 as [->| ->]; [done|].
      pose proof (length_ddel_le id (di_table s)). lia.
    + intros Hi. split; [by apply H3|]. intros Hu id1 id2 a a'. simpl.
      destruct H2 as [->| ->]; [apply Hu|]. destruct Hd as [Hw _].
      intros Ha Ha'. destruct (decide (id1 = id)) as [->|N1]; [by rewrite dget_ddel_same in Ha|].
      destruct (decide (id2 = id)) as [->|N2]; [by rewrite dget_ddel_same in Ha'|].
      rewrite dget_ddel_other in Ha, Ha' by done. by apply (Hu id1 id2 a a').
  - destruct (wp_elim _ _ _ (load_table_wp s Hd)) as (s' & r & -> & _ & H1 & _ & _ & H2 & H3).
    simpl. split; [split; [done|lia]|]. intros Hi. destruct (H3 Hi) as [H4 H5].
    split; [done|by apply reload_unique].
Qed.

(** Whatever accounts are created and deleted, however often the registry
    is constructed again, whichever writes fail and even if identifiers
    collide, it never holds more than five accounts. *)
Theorem accounts_bounded ops outcomes :
  (length (di_table (run_accounts ops (empty_dir outcomes))) <= MAX_ACCOUNTS)%nat.
Proof.
  assert (accounts_inv (run_accounts ops (empty_dir outcomes))) as [_ H]; [|exact H].
  unfold run_accounts. assert (accounts_inv (empty_dir outcomes)) as H.
  { split; [apply empty_dir_inv|]. simpl. unfold MAX_ACCOUNTS. lia. }
  revert H. generalize (empty_dir (R := Account) outcomes).
  induction ops as [|op ops IH]; intros s H; [exact H|].
  apply IH. by apply run_account_inv.
Qed.

Lemma run_accounts_in_step ops : let s := run_accounts ops (empty_dir []) in
  accounts_inv s /\ in_step s /\ principals_unique s.
Proof.
  intros s. subst s. unfold run_accounts.
  assert (accounts_inv (empty_dir []) /\ in_step (empty_dir (R := Account) []) /\
    principals_unique (empty_dir [])) as H.
  { split; [|split; [apply empty_in_step|done]].
    split; [apply empty_dir_inv|]. simpl. unfold MAX_ACCOUNTS. lia. }
  revert H. generalize (empty_dir (R := Account) []).
  induction ops as [|op ops IH]; intros s (H1 & H2 & H3); [done|].
  apply IH. destruct (run_account_inv op s H1) as [H4 H5]. destruct (H5 H2) as [H6 H7].
  split; [exact H4|split; [exact H6|by apply H7]].
Qed.
(** With writes that succeed, constructing the registry again gives every
    account back, and no two accounts have the same principal. *)
Theorem accounts_durable ops : let s := run_accounts ops (empty_dir []) in
  principals_unique s /\
  forall id, dget id (di_table (run_account AReload s)) = dget id (di_table s).
Proof.
  intros s. destruct (run_accounts_in_step ops) as ((Hd & _) & Hi & Hu). split; [exact Hu|].
  simpl. destruct (wp_elim _ _ _ (load_table_wp _ Hd)) as (s' & r & E & _ & _ & _ & _ & _ & H3).
  fold s in E. rewrite E. by apply H3.
Qed.
(** A full registry refuses a principal it already knows: the number is looked
    at before the principal. *)
Theorem known_principal_refused s p t a : find_by_principal p s = Some a ->
  length (di_table s) = MAX_ACCOUNTS ->
  create_account p t s = (s, raise ValueError "Maximum of 5 accounts reached").
Proof.
  intros _ Hl. unfold create_account, mbind, M_bind, gets, when. change (id s) with s.
  rewrite Hl. reflexivity.
Qed.

Lemma create_project_wp a n r s : dir_inv s -> wp (create_project a n r) s (fun s' _ =>
  dir_inv s' /\ (in_step s -> in_step s')).
Proof.
  intros Hd. unfold create_project. apply wp_bind. unfold wp at 1, dir_draw.
  apply wp_bind. unfold wp at 1, dir_draw. eapply wp_mono; [by apply add_record_wp|].
  intros s' x (H1 & _ & H2 & _). by split.
Qed.
(** The same for projects: with writes that succeed nothing is lost, and a
    listing for an account holds its projects alone. *)
Theorem projects_durable ops account : let s := run_projects ops (empty_dir []) in
  (forall id, dget id (di_table (run_project PReload s)) = dget id (di_table s)) /\
  Forall (fun p => account = "" \/ pj_account_id p = account) (list_projects (Some account) s).
Proof.
  intros s. split.
  - assert (dir_inv s /\ in_step s) as [Hd Hi].
    { subst s. unfold run_projects.
      assert (dir_inv (empty_dir (R := Project) []) /\ in_step (empty_dir (R := Project) [])) as H
        by (split; [apply empty_dir_inv|apply empty_in_step]).
      revert H. generalize (empty_dir (R := Project) []).
      induction ops as [|op ops IH]; intros s [H1 H2]; [done|]. apply IH.
      destruct op as [a n r|id|]; simpl.
      - destruct (wp_elim _ _ _ (create_project_wp a n r s H1)) as (s' & x & -> & H3 & H4). auto.
      - destruct (wp_elim _ _ _ (delete_record_wp id s H1)) as (s' & x & -> & H3 & _ & _ & _ & H4).
        auto.
      - destruct (wp_elim _ _ _ (load_table_wp s H1)) as (s' & x & -> & _ & H3 & _ & _ & _ & H4).
        destruct (H4 H2). auto. }
    simpl. destruct (wp_elim _ _ _ (load_table_wp _ Hd)) as (s' & r & -> & _ & _ & _ & _ & _ & H3).
    by apply H3.
  - unfold list_projects. destruct (ostr_true (Some account)) eqn:E.
    + rewrite Forall_forall. intros p Hp. apply list_elem_of_filter in Hp as [Hp _]. by right.
    + rewrite Forall_forall. intros p _. left. simpl in E. unfold str_true in E.
      by apply negb_false_iff, String.eqb_eq in E.
Qed.
End Theorems.
