(* ===== verification/Html.v ===== *)
(** * HTML documents and the templates that print them

    The text of an f-string with the provenance of its parts, the reading of a
    template's literal, a scanner of HTML that a page must satisfy, and a check of
    a template that is computed once and holds for every value of its holes.

    The scanner follows the tokenizer of the HTML standard on the states the
    pages use (data, tags, quoted attributes, comments, the raw text of script and
    style) and refuses the rest.  It keeps the open elements and, inside a
    form, whether the form carries the token the server asks for. *)
From S2P Require Import Prelude Dict PyStr.

(** ** Documents *)
(** A part of a page: text of the program, or the text of a value put in it. *)
Inductive piece := Lit (s : string) | Val (s : string).
Definition doc := list piece.
Definition piece_text (p : piece) : string := match p with Lit s | Val s => s end.
Fixpoint text (d : doc) : string :=
  match d with [] => "" | p :: d' => piece_text p +:+ text d' end.
(** The texts that come from values. *)
Definition values (d : doc) : list string :=
  omap (fun p => match p with Val s => Some s | Lit _ => None end) d.
Definition literals (d : doc) : list string :=
  omap (fun p => match p with Lit s => Some s | Val _ => None end) d.

(** ** Literals of f-strings
    The literal is written with [~] where the source has a double quote, which no
    template contains; [{name}] is a hole, [{{] and [}}] are braces. *)
Inductive tpiece := TChar (c : ascii) | THole (n : string).
Definition tilde : ascii := "~".
Definition quote_char : ascii := ascii_of_N 34.
Definition unquote (c : ascii) : ascii := if Ascii.eqb c tilde then quote_char else c.
Fixpoint quoted (s : string) : string :=
  match s with "" => "" | String c s' => String (unquote c) (quoted s') end.
(** What was read: text, an opening or a closing brace, the start of a name. *)
Inductive reading := RText | ROpen | RClose | RHole (n : string).
Fixpoint parse_from (st : reading) (s : string) : list tpiece :=
  match s with
  | "" => []
  | String c s' =>
      match st with
      | RText =>
          if Ascii.eqb c "{" then parse_from ROpen s'
          else if Ascii.eqb c "}" then parse_from RClose s'
          else TChar (unquote c) :: parse_from RText s'
      | ROpen =>
          if Ascii.eqb c "{" then TChar c :: parse_from RText s'
          else parse_from (RHole (String c "")) s'
      | RClose => TChar c :: parse_from RText s'
      | RHole n =>
          if Ascii.eqb c "}" then THole n :: parse_from RText s'
          else parse_from (RHole (n +:+ String c "")) s'
      end
  end.
Definition parse (s : string) : list tpiece := parse_from RText s.
Abbreviation holes := (list (string * doc)).
Definition hole (h : holes) (n : string) : doc := default [] (dget n h).
Definition fill_piece (h : holes) (p : tpiece) : doc :=
  match p with TChar c => [Lit (String c "")] | THole n => hole h n end.
Definition fill (h : holes) (t : list tpiece) : doc := t ≫= fill_piece h.
(** The f-string [s] with the values [h] of its expressions. *)
Definition fmt (s : string) (h : holes) : doc := fill h (parse s).

Definition TEST := fmt "<a href=~{path}~>{{x}}</a>" [("path", [Val "u"])].
Example parse_example : text TEST = "<a href=" +:+ dquote +:+ "u" +:+ dquote +:+ ">{x}</a>".
Proof. reflexivity. Qed.

(** ** The scanner *)
Definition is_alpha (c : ascii) : bool :=
  let n := N_of_ascii (lower_char c) in ((97 <=? n) && (n <=? 122))%N.
Definition html_space (c : ascii) : bool :=
  let n := N_of_ascii c in ((n =? 32) || (n =? 10) || (n =? 9) || (n =? 12) || (n =? 13))%N.
Definition is_char (n : N) (c : ascii) : bool := Ascii.eqb c (ascii_of_N n).
Definition snoc (s : string) (c : ascii) : string := s +:+ String c "".
(** Elements without content, and elements whose content is raw text. *)
Definition void_elements : list string := ["meta"; "link"; "img"; "input"; "br"; "hr"].
Definition raw_elements : list string := ["style"; "script"].

(** What the scanner does with the values of attributes: it builds them, and
    compares them with a text and with the token of the session.  None: it
    cannot tell. *)
Class AttrValue (V : Type) := {
  v_nil : V;
  v_snoc : V -> ascii -> V;
  v_is : string -> V -> option bool;
  v_token : V -> option bool }.

Section Scanner.
Context {V : Type} `{AttrValue V}.

Abbreviation attrs := (list (string * V)).
Inductive mode :=
  | MData
  | MOpen
  | MTag (t : string)
  | MEnd (t : string)
  | MBefore (t : string) (a : attrs)
  | MAttr (t : string) (a : attrs) (n : string)
  | MEq (t : string) (a : attrs) (n : string)
  | MValue (q : ascii) (t : string) (a : attrs) (n : string) (v : V)
  | MAfter (t : string) (a : attrs)
  | MSlash (t : string) (a : attrs)
  | MBang (s : string)
  | MComment (dashes : nat)
  | MRaw (t : string) (seen : string).
(** The open elements, innermost first, and the form being read: whether it
    may be closed. *)
Record scanning := mkScanning {
  sc_mode : mode; sc_stack : list string; sc_form : option bool }.

(** The form after an element [t] with attributes [a]. *)
Definition enter_form (a : attrs) : option (option bool) :=
  match dget "method" a with
  | None => Some (Some true)
  | Some v => b ← v_is "POST" v; if (b : bool) then Some (Some false) else None
  end.
Definition see_input (a : attrs) (f : option bool) : option (option bool) :=
  match f, dget "name" a with
  | Some _, Some v =>
      b ← v_is "csrf_token" v;
      if (b : bool) then
        w ← dget "value" a; ok ← v_token w;
        if (ok : bool) then Some (Some true) else None
      else Some f
  | _, _ => Some f
  end.
Definition open_tag (t : string) (a : attrs) (st : list string) (f : option bool) : option scanning :=
  if str_in t void_elements then
    f' ← (if t =s "input" then see_input a f else Some f); Some (mkScanning MData st f')
  else if str_in t raw_elements then Some (mkScanning (MRaw t "") (t :: st) f)
  else if t =s "form" then
    match f with
    | Some _ => None
    | None => f' ← enter_form a; Some (mkScanning MData (t :: st) f')
    end
  else Some (mkScanning MData (t :: st) f).
Definition close_tag (t : string) (st : list string) (f : option bool) : option scanning :=
  match st with
  | t' :: st' =>
      if t =s t' then
        if t =s "form" then
          match f with Some true => Some (mkScanning MData st' None) | _ => None end
        else Some (mkScanning MData st' f)
      else None
  | [] => None
  end.

(** One character. *)
Definition step (s : scanning) (c : ascii) : option scanning :=
  let st := sc_stack s in
  let f := sc_form s in
  let go m := Some (mkScanning m st f) in
  let lt := is_char 60 c in let gt := is_char 62 c in
  let slash := is_char 47 c in let dash := is_char 45 c in
  let dq := is_char 34 c in let sq := is_char 39 c in
  match sc_mode s with
  | MData => if lt then go MOpen else go MData
  | MOpen =>
      if slash then go (MEnd "")
      else if is_char 33 c then go (MBang "")
      else if is_alpha c then go (MTag (String (lower_char c) "")) else None
  | MTag t =>
      if html_space c then go (MBefore t [])
      else if slash then go (MSlash t [])
      else if gt then open_tag t [] st f
      else if lt then None else go (MTag (snoc t (lower_char c)))
  | MEnd t =>
      if gt then close_tag t st f
      else if lt || html_space c then None else go (MEnd (snoc t (lower_char c)))
  | MBefore t a =>
      if html_space c then go (MBefore t a)
      else if slash then go (MSlash t a)
      else if gt then open_tag t a st f
      else if lt || dq || sq || is_char 61 c then None
      else go (MAttr t a (String c ""))
  | MAttr t a n =>
      if is_char 61 c then go (MEq t a n)
      else if html_space c then go (MBefore t (a ++ [(n, v_nil)]))
      else if gt then open_tag t (a ++ [(n, v_nil)]) st f
      else if lt || dq || sq || slash then None
      else go (MAttr t a (snoc n c))
  | MEq t a n => if dq || sq then go (MValue c t a n v_nil) else None
  | MValue q t a n v =>
      if Ascii.eqb c q then go (MAfter t (a ++ [(n, v)]))
      else go (MValue q t a n (v_snoc v c))
  | MAfter t a =>
      if html_space c then go (MBefore t a)
      else if slash then go (MSlash t a)
      else if gt then open_tag t a st f else None
  | MSlash t a => if gt && str_in t void_elements then open_tag t a st f else None
  | MBang b =>
      if gt then go MData
      else if snoc b c =s "--" then go (MComment 0) else go (MBang (snoc b c))
  | MComment n =>
      if gt && (2 <=? n) then go MData else go (MComment (if dash then S n else 0))
  | MRaw t seen =>
      let seen' := snoc seen (lower_char c) in
      if seen' =s "</" +:+ t then go (MEnd t)
      else if startswith seen' ("</" +:+ t) then go (MRaw t seen')
      else go (MRaw t (if lt then "<" else ""))
  end.
Fixpoint scan (s : scanning) (l : string) : option scanning :=
  match l with
  | "" => Some s
  | String c l' => s' ← step s c; scan s' l'
  end.

Lemma scan_app s l1 l2 : scan s (l1 +:+ l2) = s' ← scan s l1; scan s' l2.
Proof.
  revert s. induction l1 as [|c l1 IH]; intros s; [done|].
  change (String c l1 +:+ l2) with (String c (l1 +:+ l2)). simpl.
  destruct (step s c) as [s'|]; [apply IH|done].
Qed.
End Scanner.
Arguments mode V : clear implicits.
Arguments scanning V : clear implicits.

(** ** Morphisms of the values of attributes, and the frame of the stack *)
Class ValueMap {V W} `{AttrValue V, AttrValue W} (f : V -> W) := {
  map_nil : f v_nil = v_nil;
  map_snoc v c : f (v_snoc v c) = v_snoc (f v) c;
  map_is s v b : v_is s v = Some b -> v_is s (f v) = Some b;
  map_token v b : v_token v = Some b -> v_token (f v) = Some b }.

Section Morphism.
Context {V W} (f : V -> W).
Definition map_attrs (a : list (string * V)) : list (string * W) := prod_map id f <$> a.
Definition map_mode (m : mode V) : mode W :=
  match m with
  | MData => MData | MOpen => MOpen | MTag t => MTag t | MEnd t => MEnd t
  | MBefore t a => MBefore t (map_attrs a)
  | MAttr t a n => MAttr t (map_attrs a) n
  | MEq t a n => MEq t (map_attrs a) n
  | MValue q t a n v => MValue q t (map_attrs a) n (f v)
  | MAfter t a => MAfter t (map_attrs a)
  | MSlash t a => MSlash t (map_attrs a)
  | MBang s => MBang s | MComment n => MComment n | MRaw t s => MRaw t s
  end.
Definition map_scanning (s : scanning V) : scanning W :=
  mkScanning (map_mode (sc_mode s)) (sc_stack s) (sc_form s).
Lemma dget_map_attrs k a : dget k (map_attrs a) = f <$> dget k a.
Proof. induction a as [|[k' v] a IH]; simpl; [done|]. by case_decide. Qed.
Lemma map_attrs_app a n v : map_attrs (a ++ [(n, v)]) = map_attrs a ++ [(n, f v)].
Proof. unfold map_attrs. by rewrite fmap_app. Qed.

Context `{ValueMap V W f}.
Ltac follow :=
  repeat (simplify_option_eq || match goal with
    | H : (if ?b then _ else _) = Some _ |- _ => destruct b eqn:?; try discriminate
    | H : match ?x with _ => _ end = Some _ |- _ => destruct x eqn:?; try discriminate
    end).
Lemma enter_form_map a r : enter_form a = Some r -> enter_form (map_attrs a) = Some r.
Proof.
  unfold enter_form. rewrite dget_map_attrs. destruct (dget "method" a) as [v|]; simpl; [|done].
  destruct (v_is "POST" v) as [b|] eqn:E; [|done]. by rewrite (map_is _ _ _ E).
Qed.
Lemma see_input_map a g r : see_input a g = Some r -> see_input (map_attrs a) g = Some r.
Proof.
  unfold see_input. rewrite !dget_map_attrs. destruct g as [g|]; [|done].
  destruct (dget "name" a) as [v|]; simpl; [|done].
  destruct (v_is "csrf_token" v) as [b|] eqn:E; [|done]. rewrite (map_is _ _ _ E). simpl.
  destruct b; [|done]. destruct (dget "value" a) as [w|]; [|done]. simpl.
  destruct (v_token w) as [k|] eqn:Ew; [|done]. by rewrite (map_token _ _ Ew).
Qed.
Lemma open_tag_map t a st g s :
  open_tag t a st g = Some s -> open_tag t (map_attrs a) st g = Some (map_scanning s).
Proof.
  unfold open_tag. destruct (str_in t void_elements) eqn:Ev.
  - destruct (t =s "input"); simpl.
    + destruct (see_input a g) as [g'|] eqn:E; [|done]. rewrite (see_input_map _ _ _ E).
      simpl. by intros [= <-].
    + by intros [= <-].
  - destruct (str_in t raw_elements); [by intros [= <-]|]. destruct (t =s "form"); [|by intros [= <-]].
    destruct g; [done|]. destruct (enter_form a) as [g'|] eqn:E; [|done].
    rewrite (enter_form_map _ _ E). simpl. by intros [= <-].
Qed.
Lemma close_tag_map t st g s :
  close_tag (V:=V) t st g = Some s -> close_tag (V:=W) t st g = Some (map_scanning s).
Proof.
  unfold close_tag. destruct st as [|t' st]; [done|]. destruct (t =s t'); [|done].
  destruct (t =s "form"); [destruct g as [[]|]; try done|]; by intros [= <-].
Qed.
Lemma map_attrs_nil a n : map_attrs a ++ [(n, v_nil)] = map_attrs (a ++ [(n, v_nil)]).
Proof. by rewrite map_attrs_app, (map_nil (f:=f)). Qed.
Lemma step_map s c s' : step s c = Some s' -> step (map_scanning s) c = Some (map_scanning s').
Proof.
  unfold step. destruct s as [m st g]. simpl.
  destruct m; simpl; intros Hs; follow;
    rewrite ?map_attrs_nil, <-?map_attrs_app; eauto using open_tag_map, close_tag_map;
    rewrite <-?(map_nil (f:=f)), <-?(map_snoc (f:=f)); try done.
  by apply (open_tag_map t []).
Qed.
End Morphism.

Section Frame.
Context {V} `{AttrValue V}.
Definition above (k : list string) (s : scanning V) : scanning V :=
  mkScanning (sc_mode s) (sc_stack s ++ k) (sc_form s).
Lemma step_above k s c s' : step s c = Some s' -> step (above k s) c = Some (above k s').
Proof.
  unfold step. destruct s as [m st g]. simpl.
  assert (forall t a r, open_tag t a st g = Some r -> open_tag t a (st ++ k) g = Some (above k r)) as Ho.
  { intros t a r. unfold open_tag. intros Hr. repeat case_match; simplify_option_eq; done. }
  assert (forall t r, close_tag (V:=V) t st g = Some r -> close_tag t (st ++ k) g = Some (above k r)) as Hc.
  { intros t r. unfold close_tag. intros Hr. destruct st; [done|]. simpl in *.
    repeat case_match; simplify_eq; done. }
  destruct m; intros Hs; repeat case_match; simplify_eq; eauto.
Qed.
Lemma scan_above k l : forall s s', scan s l = Some s' -> scan (above k s) l = Some (above k s').
Proof.
  induction l as [|c l IH]; simpl; intros s s' Hs; [by simplify_eq|].
  destruct (step s c) as [s1|] eqn:E; [|done]. rewrite (step_above _ _ _ _ E). by apply IH.
Qed.
End Frame.

(** ** Checking a template
    The check runs the scanner over the literal, with the holes as atoms of
    attribute values.  What may stand in a hole:
    - [KPlain]: a text without [<] or double quote, in the data, in a
      double-quoted value or in raw text;
    - [KToken]: the token of the session, which is such a text;
    - [KRaw]: a text without [<], in raw text only;
    - [KInner], [KOuter]: markup that closes what it opens, [KOuter] with forms. *)
Inductive kind := KPlain | KToken | KRaw | KInner | KOuter.
Inductive atom := AChar (c : ascii) | AHole (n : string).
Fixpoint atoms_text (l : list atom) : option string :=
  match l with
  | [] => Some ""
  | AChar c :: l' => s ← atoms_text l'; Some (String c s)
  | AHole _ :: _ => None
  end.
Fixpoint str_forall (P : ascii -> bool) (s : string) : bool :=
  match s with "" => true | String c s' => P c && str_forall P s' end.
Definition plain (s : string) : bool := str_forall (fun c => negb (is_char 60 c || is_char 34 c)) s.
Definition untagged (s : string) : bool := str_forall (fun c => negb (is_char 60 c)) s.
Lemma str_forall_app P s1 s2 : str_forall P (s1 +:+ s2) = str_forall P s1 && str_forall P s2.
Proof.
  induction s1 as [|c s1 IH]; [done|]. change (String c s1 +:+ s2) with (String c (s1 +:+ s2)).
  simpl. by rewrite IH, andb_assoc.
Qed.
Lemma plain_untagged s : plain s = true -> untagged s = true.
Proof.
  unfold plain, untagged. induction s as [|c s IH]; [done|]. simpl.
  intros [Hc Hs]%andb_true_iff. rewrite IH by done. by destruct (is_char 60 c).
Qed.

(** The values of attributes as the server's token [tok] meets them. *)
Definition concrete (tok : string) : AttrValue string := {|
  v_nil := ""; v_snoc := snoc; v_is s v := Some (s =s v); v_token v := Some (tok =s v) |}.
Definition start {V} : scanning V := mkScanning MData [] None.
(** Every element of the page is closed in order, and every POST form in it
    carries the token. *)
Definition page_ok (tok s : string) : Prop :=
  scan (H := concrete tok) start s = Some start.
Definition inner (tok : string) (d : doc) : Prop :=
  forall st f, scan (H := concrete tok) (mkScanning MData st f) (text d) = Some (mkScanning MData st f).
Definition outer (tok : string) (d : doc) : Prop :=
  forall st, scan (H := concrete tok) (mkScanning MData st None) (text d)
             = Some (mkScanning MData st None).

Section Check.
Context (kind_of : string -> kind).
#[local] Instance abstract : AttrValue (list atom) := {|
  v_nil := []; v_snoc v c := v ++ [AChar c];
  v_is s v := (fun t => s =s t) <$> atoms_text v;
  v_token v := match v with
               | [AHole n] => match kind_of n with KToken => Some true | _ => None end
               | _ => None
               end |}.
Definition check_hole (s : scanning (list atom)) (n : string) : option (scanning (list atom)) :=
  match kind_of n, sc_mode s with
  | KPlain, MData | KToken, MData | KInner, MData => Some s
  | KPlain, MValue q t a m v | KToken, MValue q t a m v =>
      if Ascii.eqb q quote_char
      then Some (mkScanning (MValue q t a m (v ++ [AHole n])) (sc_stack s) (sc_form s)) else None
  | KPlain, MRaw t "" | KToken, MRaw t "" | KRaw, MRaw t "" => Some s
  | KOuter, MData => match sc_form s with None => Some s | Some _ => None end
  | _, _ => None
  end.
Fixpoint check (s : scanning (list atom)) (t : list tpiece) : option (scanning (list atom)) :=
  match t with
  | [] => Some s
  | TChar c :: t' => s' ← step s c; check s' t'
  | THole n :: t' => s' ← check_hole s n; check s' t'
  end.
Definition tpl_holes (t : list tpiece) : list string :=
  omap (fun p => match p with THole n => Some n | TChar _ => None end) t.

Context (tok : string) (h : holes).
#[local] Instance concrete_tok : AttrValue string := concrete tok.
Definition hole_ok (n : string) : Prop :=
  match kind_of n with
  | KPlain => plain (text (hole h n)) = true
  | KToken => text (hole h n) = tok /\ plain tok = true
  | KRaw => untagged (text (hole h n)) = true
  | KInner => inner tok (hole h n)
  | KOuter => outer tok (hole h n)
  end.

(** The text of a value read by the check. *)
Definition atom_text (a : atom) : string :=
  match a with
  | AChar c => String c ""
  | AHole n => match kind_of n with KToken => tok | _ => text (hole h n) end
  end.
Fixpoint atoms (l : list atom) : string :=
  match l with [] => "" | a :: l' => atom_text a +:+ atoms l' end.
Lemma atoms_app l1 l2 : atoms (l1 ++ l2) = atoms l1 +:+ atoms l2.
Proof. induction l1 as [|a l1 IH]; simpl; [done|]. by rewrite IH, string_app_assoc. Qed.
Lemma atoms_text_sound l s : atoms_text l = Some s -> atoms l = s.
Proof.
  revert s. induction l as [|[c|n] l IH]; intros s Hs; simplify_option_eq; [done|].
  simpl. by rewrite (IH _ eq_refl).
Qed.
#[local] Instance atoms_map : ValueMap atoms.
Proof.
  split.
  - done.
  - intros v c. simpl. rewrite atoms_app. done.
  - intros s v b. simpl. destruct (atoms_text v) as [t|] eqn:E; [|done].
    rewrite (atoms_text_sound _ _ E). done.
  - intros v b. simpl. repeat case_match; try done. intros [= <-]. simpl.
    by rewrite H2, string_app_nil_r, String.eqb_refl.
Qed.

(** What a text without markup does in each mode. *)
Lemma scan_data st f s :
  untagged s = true -> scan (V:=string) (mkScanning MData st f) s = Some (mkScanning MData st f).
Proof.
  induction s as [|c s IH]; [done|]. intros [Hc Hs]%andb_true_iff. simpl.
  unfold step. simpl. destruct (is_char 60 c); [done|]. by apply IH.
Qed.
Lemma scan_value st f t a n v s :
  plain s = true ->
  scan (V:=string) (mkScanning (MValue quote_char t a n v) st f) s
  = Some (mkScanning (MValue quote_char t a n (v +:+ s)) st f).
Proof.
  revert v. induction s as [|c s IH]; intros v; [by rewrite string_app_nil_r|].
  intros [Hc Hs]%andb_true_iff. simpl. unfold step. simpl.
  change (Ascii.eqb c quote_char) with (is_char 34 c).
  destruct (is_char 60 c), (is_char 34 c); try done. simpl. rewrite IH by done.
  unfold snoc. by rewrite string_app_assoc.
Qed.
Lemma lower_lt c : is_char 60 (lower_char c) = is_char 60 c.
Proof. by destruct c as [[] [] [] [] [] [] [] []]. Qed.
Lemma scan_raw st f t s :
  untagged s = true ->
  scan (V:=string) (mkScanning (MRaw t "") st f) s = Some (mkScanning (MRaw t "") st f).
Proof.
  induction s as [|c s IH]; [done|]. intros [Hc Hs]%andb_true_iff.
  apply negb_true_iff in Hc. simpl. unfold step. cbn [sc_mode sc_stack sc_form].
  assert (Ascii.eqb (lower_char c) "<" = false) as Hl by (etrans; [apply lower_lt|done]).
  replace (snoc "" (lower_char c) =s "</" +:+ t) with false
    by (simpl; by rewrite Hl).
  replace (startswith (snoc "" (lower_char c)) ("</" +:+ t)) with false
    by (simpl; by rewrite Hl).
  rewrite Hc. by apply IH.
Qed.
Lemma text_app d1 d2 : text (d1 ++ d2) = text d1 +:+ text d2.
Proof. induction d1 as [|x d1 IH]; simpl; [done|]. by rewrite IH, string_app_assoc. Qed.

Lemma check_hole_sound s n s' :
  check_hole s n = Some s' -> hole_ok n ->
  scan (map_scanning atoms s) (text (hole h n)) = Some (map_scanning atoms s').
Proof.
  unfold check_hole, hole_ok. destruct s as [m st f]. simpl. intros Hs Hn.
  assert (forall q t a m v, kind_of n = KPlain \/ kind_of n = KToken ->
      plain (text (hole h n)) = true ->
      (if Ascii.eqb q quote_char
       then Some (mkScanning (MValue q t a m (v ++ [AHole n])) st f) else None) = Some s' ->
      scan (map_scanning atoms (mkScanning (MValue q t a m v) st f)) (text (hole h n))
      = Some (map_scanning atoms s')) as Hv.
  { intros q t a m' v Hk Hp Hq. destruct (Ascii.eqb_spec q quote_char) as [->|]; simplify_eq.
    unfold map_scanning. simpl. rewrite scan_value by done. rewrite atoms_app. simpl.
    rewrite string_app_nil_r. destruct Hk as [Hk|Hk]; rewrite Hk in Hn |- *; [done|].
    by destruct Hn as [-> _]. }
  assert (kind_of n = KPlain \/ kind_of n = KToken -> plain (text (hole h n)) = true) as Hp.
  { intros [Hk|Hk]; rewrite Hk in Hn; [done|]. by destruct Hn as [-> Hn]. }
  destruct (kind_of n) eqn:Ek; destruct m; try done; try (apply Hv; auto; done);
    try (destruct seen; [|done]); try (destruct f; [done|]); simplify_eq; unfold map_scanning; simpl;
    first [apply Hn | apply scan_data | apply scan_raw]; auto using plain_untagged.
Qed.
Lemma check_sound t : forall s s',
  check s t = Some s' -> Forall hole_ok (tpl_holes t) ->
  scan (map_scanning atoms s) (text (fill h t)) = Some (map_scanning atoms s').
Proof.
  induction t as [|[c|n] t IH]; simpl; intros s s' Hs Hh; [by simplify_eq| |].
  - destruct (step s c) as [s1|] eqn:E; [|done]. simpl in *.
    rewrite (step_map atoms _ _ _ E). by apply IH.
  - destruct (check_hole s n) as [s1|] eqn:E; [|done]. inv Hh.
    change (fill h (THole n :: t)) with (hole h n ++ fill h t).
    rewrite text_app, scan_app, (check_hole_sound _ _ _ E) by done. by apply IH.
Qed.

(** A template that leaves the state it found, whatever the open elements. *)
Definition restores (f : option bool) (t : list tpiece) : bool :=
  match check (mkScanning MData [] f) t with
  | Some (mkScanning MData [] f') => bool_decide (f = f')
  | _ => false
  end.
Lemma restores_sound f t st :
  restores f t = true -> Forall hole_ok (tpl_holes t) ->
  scan (V:=string) (mkScanning MData st f) (text (fill h t)) = Some (mkScanning MData st f).
Proof.
  unfold restores. intros Hr Hh.
  destruct (check (mkScanning MData [] f) t) as [[m k g]|] eqn:E; [|done].
  destruct m; try done. destruct k; [|done]. apply bool_decide_eq_true in Hr as <-.
  pose proof (check_sound _ _ _ E Hh) as Hc. exact (scan_above st _ _ _ Hc).
Qed.
Definition inner_template (s : string) : bool :=
  forallb (fun f => restores f (parse s)) [None; Some false; Some true].
Lemma fmt_inner s :
  inner_template s = true -> Forall hole_ok (tpl_holes (parse s)) -> inner tok (fmt s h).
Proof.
  unfold inner_template. simpl. rewrite !andb_true_iff. intros (H1 & H2 & H3 & _) Hh st f.
  apply restores_sound; [|done]. by destruct f as [[]|].
Qed.
Lemma fmt_outer s :
  restores None (parse s) = true -> Forall hole_ok (tpl_holes (parse s)) -> outer tok (fmt s h).
Proof. intros Hr Hh st. by apply restores_sound. Qed.
End Check.

(** ** Closed markup *)
Section Closed.
Context (tok : string).
Lemma inner_outer d : inner tok d -> outer tok d.
Proof. intros Hd st. apply Hd. Qed.
Lemma outer_page d : outer tok d -> page_ok tok (text d).
Proof. intros Hd. apply (Hd []). Qed.
Lemma inner_nil : inner tok [].
Proof. done. Qed.
Lemma inner_app d1 d2 : inner tok d1 -> inner tok d2 -> inner tok (d1 ++ d2).
Proof. intros H1 H2 st f. rewrite text_app, scan_app, H1. apply H2. Qed.
Lemma inner_concat l : Forall (inner tok) l -> inner tok (concat l).
Proof. induction 1; simpl; auto using inner_nil, inner_app. Qed.
Lemma inner_text d : plain (text d) = true -> inner tok d.
Proof. intros Hd st f. by apply scan_data, plain_untagged. Qed.
End Closed.
