(* ===== verification/Objects.v ===== *)
(** * Python objects the templates read

    The panel's templates are untyped: they read attributes, keys and slices of
    whatever the handler found.  An object is its class and its attributes; reading
    one that is not there raises.  The objects of the execution model, of the
    accounts and of the registries are given as the templates see them. *)
From S2P Require Import Prelude Dict PyVal PyStr Json ExecModels Accounts.

Inductive pyobj :=
  | PVal (v : pyval)
  | PTime (t : Z)
  | PObj (cls : string) (fields : dict string pyobj).
Definition str (s : string) : pyobj := PVal (VStr s).

(** What the runtime's own code does not determine: [isoformat], and [str] of an
    object and of an instant. *)
Class ObjectEnv := { obj_isoformat : Z -> string; obj_repr : pyobj -> string }.

Definition obj_type_name (o : pyobj) : string :=
  match o with PVal v => pytype_name v | PTime _ => "datetime.datetime" | PObj c _ => c end.
Definition no_attribute {A} (o : pyobj) (k : string) : result A :=
  raise AttributeError
    (squote +:+ obj_type_name o +:+ squote +:+ " object has no attribute "
     +:+ squote +:+ k +:+ squote).
(** [o.k] *)
Definition attr (k : string) (o : pyobj) : result pyobj :=
  match o with
  | PObj _ fs => match dget k fs with Some x => Ok x | None => no_attribute o k end
  | _ => no_attribute o k
  end.
(** [hasattr(o, k)] *)
Definition hasattr (k : string) (o : pyobj) : bool :=
  match o with PObj _ fs => dmem k fs | _ => false end.
(** [bool(o)] *)
Definition obj_truthy (o : pyobj) : bool := match o with PVal v => truthy v | _ => true end.
Definition obj_is (s : string) (o : pyobj) : bool :=
  match o with PVal v => is_text s v | _ => false end.
Definition obj_in (l : list string) (o : pyobj) : bool := existsb (fun s => obj_is s o) l.

(** ** Expressions that may raise *)
Definition rbind {A B} (f : A -> result B) (e : result A) : result B := let? x := e in f x.
Definition field (k : string) (e : result pyobj) : result pyobj := rbind (attr k) e.
Notation "e ∙ k" := (field k e) (at level 40, left associativity).
(** [e.get(k, d)] *)
Definition getd (k : string) (d : pyval) : result pyobj -> result pyobj := rbind (fun o =>
  match o with
  | PVal v => let? x := py_get k d v in Ok (PVal x)
  | _ => no_attribute o "get"
  end).
(** [e[:n]] *)
Definition slice (n : nat) : result pyobj -> result pyobj := rbind (fun o =>
  match o with
  | PVal (VStr s) => Ok (str (string_take n s))
  | PVal (VList l) => Ok (PVal (VList (take n l)))
  | PVal (VDict _) => raise TypeError "unhashable type: 'slice'"
  | _ => raise TypeError (squote +:+ obj_type_name o +:+ squote +:+ " object is not subscriptable")
  end).
(** [a if c else b], [a or b], [a if c is not None else b] *)
Definition cond {A} (c : result pyobj) (a b : result A) : result A :=
  let? x := c in if obj_truthy x then a else b.
Definition or_else (a b : result pyobj) : result pyobj :=
  let? x := a in if obj_truthy x then Ok x else b.
Definition if_some {A} (c : result pyobj) (a b : result A) : result A :=
  let? x := c in match x with PVal VNone => b | _ => a end.
(** [isinstance(o, dict)] and the dictionary a page starts from *)
Definition is_dict_obj (o : pyobj) : bool := match o with PVal (VDict _) => true | _ => false end.
(** [', '.join(e)] *)
Definition joined : result pyobj -> result pyobj := rbind (fun o =>
  match o with
  | PVal (VList l) =>
      match list_find (fun v => is_str v = false) l with
      | Some (i, v) =>
          raise TypeError ("sequence item " +:+ zstr (Z.of_nat i) +:+ ": expected str instance, "
                           +:+ pytype_name v +:+ " found")
      | None => Ok (str (str_join ", " (omap (fun v => match v with VStr s => Some s | _ => None end) l)))
      end
  | _ => raise TypeError "can only join an iterable"
  end).
(** [len(e)] *)
Definition length_of : result pyobj -> result pyobj := rbind (fun o =>
  match o with
  | PVal (VList l) => Ok (PVal (VInt (Z.of_nat (length l))))
  | PVal (VDict d) => Ok (PVal (VInt (Z.of_nat (length d))))
  | PVal (VStr s) => Ok (PVal (VInt (Z.of_nat (String.length s))))
  | _ => raise TypeError ("object of type " +:+ squote +:+ obj_type_name o +:+ squote +:+ " has no len()")
  end).
(** [for x in e], the keys of a dictionary and the characters of a text included *)
Definition iterate : result pyobj -> result (list pyobj) := rbind (fun o =>
  match o with
  | PVal (VList l) => Ok (PVal <$> l)
  | PVal (VDict d) => Ok (str <$> dkeys d)
  | PVal (VStr s) => Ok ((fun c => str (String c "")) <$> String.list_ascii_of_string s)
  | _ => raise TypeError (squote +:+ obj_type_name o +:+ squote +:+ " object is not iterable")
  end).
Fixpoint results {A} (l : list (result A)) : result (list A) :=
  match l with
  | [] => Ok []
  | e :: l' => let? x := e in let? r := results l' in Ok (x :: r)
  end.

Section Show.
Context {float_ops : FloatOps} `{ObjectEnv}.
(** [f"{o}"] *)
Definition obj_str (o : pyobj) : string :=
  match o with PVal v => py_str v | _ => obj_repr o end.
(** [e.isoformat()] *)
Definition isofmt : result pyobj -> result pyobj := rbind (fun o =>
  match o with PTime t => Ok (str (obj_isoformat t)) | _ => no_attribute o "isoformat" end).
End Show.

(** ** The objects of the runtime *)
Definition enum (cls v : string) : pyobj := PObj cls [("name", str v); ("value", str v)].
Definition opt_str (o : option string) : pyobj := PVal (from_option VStr VNone o).
Definition opt_time (o : option Z) : pyobj := from_option PTime (PVal VNone) o.
Definition opt_int (o : option Z) : pyobj := PVal (from_option VInt VNone o).
Definition executor_object (e : ExecutorType) : pyobj := enum "ExecutorType" (executor_type_str e).
Definition texts (l : list string) : pyobj := PVal (VList (VStr <$> l)).
Definition capability_object (c : CapabilityDefinition) : pyobj :=
  PObj "CapabilityDefinition"
    [("capability_id", str (capability_id c)); ("name", str (cap_name c));
     ("description", str (cap_description c)); ("version", str (cap_version c));
     ("risk_level", str (risk_level c)); ("inference_required", PVal (VBool (inference_required c)));
     ("deterministic_allowed", PVal (VBool (deterministic_allowed c)));
     ("network_policy", str (cap_network_policy c)); ("filesystem_policy", str (cap_filesystem_policy c));
     ("required_tools", texts (required_tools c)); ("max_runtime", PVal (VInt (cap_max_runtime c)));
     ("max_output", PVal (VInt (cap_max_output c)));
     ("evidence_required", PVal (VBool (evidence_required c)));
     ("preferred_executor", executor_object (preferred_executor c));
     ("fallback_executor", from_option executor_object (PVal VNone) (fallback_executor c));
     ("enabled", PVal (VBool (enabled c))); ("family", str (family c));
     ("side_effect", str (side_effect c)); ("cacheable", PVal (VBool (cacheable c)));
     ("hermetic", PVal (VBool (hermetic c)))].
Definition policy_object (p : RuntimePolicy) : pyobj :=
  PObj "RuntimePolicy"
    [("version", str (policy_version_ p)); ("allow_llm", PVal (VBool (allow_llm p)));
     ("enforce_strict_isolation", PVal (VBool (enforce_strict_isolation p)))].
Definition worker_object (w : WorkerDefinition) : pyobj :=
  PObj "WorkerDefinition"
    [("worker_id", str (worker_id w)); ("execution_id", str (wd_execution_id w));
     ("task_id", str (wd_task_id w)); ("account_id", str (wd_account_id w));
     ("project_id", str (wd_project_id w)); ("capability_id", str (wd_capability_id w));
     ("executor_type", str (wd_executor_type w)); ("executor_id", str (wd_executor_id w));
     ("model_id", opt_str (wd_model_id w)); ("workspace_id", str (wd_workspace_id w));
     ("created_at", PTime (wd_created_at w)); ("deadline", PTime (wd_deadline w));
     ("resource_limits", PVal (VDict (wd_resource_limits w)));
     ("network_policy", str (wd_network_policy w)); ("filesystem_policy", str (wd_filesystem_policy w));
     ("state", enum "WorkerState" (worker_state_str (wd_state w)));
     ("started_at", opt_time (wd_started_at w)); ("finished_at", opt_time (wd_finished_at w));
     ("department_id", opt_str (wd_department_id w)); ("routing_class", opt_str (wd_routing_class w));
     ("capability_family", opt_str (wd_capability_family w))].
Definition task_object (t : Task) : pyobj :=
  PObj "Task"
    [("task_id", str (t_task_id t)); ("capability_id", str (t_capability_id t));
     ("account_id", str (t_account_id t)); ("project_id", str (t_project_id t));
     ("input", PVal (VDict (t_input t))); ("constraints", PVal (VDict (t_constraints t)));
     ("deadline", PTime (t_deadline t)); ("workspace_policy", str (t_workspace_policy t));
     ("evidence_policy", str (t_evidence_policy t)); ("requested_by", str (t_requested_by t));
     ("created_at", PTime (t_created_at t)); ("department_id", opt_str (t_department_id t))].
(** The attributes of a [TaskExecutionContext] that identify it and tell its
    outcome. *)
Definition execution_object (e : TaskExecutionContext) : pyobj :=
  PObj "TaskExecutionContext"
    [("execution_id", str (c_execution_id e)); ("task_id", str (c_task_id e));
     ("account_id", str (c_account_id e)); ("project_id", str (c_project_id e));
     ("capability_id", str (c_capability_id e)); ("workspace_path", str (c_workspace_path e));
     ("deadline", PTime (c_deadline e));
     ("status", enum "ExecutionStatus" (execution_status_str (c_status e)));
     ("result", PVal (c_result e)); ("error_message", opt_str (c_error_message e));
     ("started_at", opt_time (c_started_at e)); ("completed_at", opt_time (c_completed_at e));
     ("duration_ms", opt_int (c_duration_ms e)); ("executor_type", opt_str (c_executor_type e));
     ("executor_id", opt_str (c_executor_id e)); ("model_id", opt_str (c_model_id e))].
Definition model_object (m : ModelDefinition) : pyobj :=
  PObj "ModelDefinition"
    [("model_id", str (md_model_id m)); ("display_name", str (md_display_name m));
     ("provider", str (md_provider m)); ("executor_type", str (md_executor_type m));
     ("version", str (md_version m)); ("status", enum "ModelState" (model_state_str (md_status m)));
     ("capabilities_supported", texts (md_capabilities_supported m));
     ("capabilities_forbidden", texts (md_capabilities_forbidden m));
     ("hardware_requirements", PVal (VDict (md_hardware_requirements m)));
     ("memory_requirements", PVal (VDict (md_memory_requirements m)));
     ("context_window", PVal (VInt (md_context_window m))); ("quantization", str (md_quantization m));
     ("artifact_uri", str (md_artifact_uri m)); ("artifact_sha256", str (md_artifact_sha256 m));
     ("runtime_interface", str (md_runtime_interface m));
     ("max_concurrency", PVal (VInt (md_max_concurrency m)));
     ("max_runtime", PVal (VInt (md_max_runtime m)));
     ("max_input_size", PVal (VInt (md_max_input_size m)));
     ("max_output_size", PVal (VInt (md_max_output_size m)));
     ("network_policy", str (md_network_policy m)); ("evidence_policy", str (md_evidence_policy m))].
Definition binding_object (b : ModelCapabilityBinding) : pyobj :=
  PObj "ModelCapabilityBinding"
    [("model_id", str (b_model_id b)); ("capability_id", str (b_capability_id b));
     ("authorization", str (b_authorization b)); ("quality_profile", str (b_quality_profile b));
     ("risk_limit", str (b_risk_limit b)); ("preferred", PVal (VBool (b_preferred b)));
     ("fallback", PVal (VBool (b_fallback b))); ("reason", str (b_reason b))].
Definition account_object (a : Account) : pyobj :=
  PObj "Account"
    [("account_id", str (ac_account_id a)); ("github_principal", str (ac_github_principal a));
     ("account_type", str (ac_account_type a)); ("credential_ref", str (ac_credential_ref a));
     ("status", enum "AccountStatus" (account_status_value (ac_status a)));
     ("created_at", PTime (ac_created_at a))].
