(* ===== verification/Templates.v ===== *)
(** * The pages of the administration panel

    [runtime/admin/templates.py].  Each template is its f-strings, with the
    expressions of their holes in the order the source evaluates them.  The two
    inline images and the style sheet, which the pages share, are named.  Texts are
    the bytes of the response (UTF-8); a slice [s[:n]] is taken of identifiers and
    instants, which are ASCII.

    The templates escape nothing, so what a page is depends on the texts of the
    values: [doc] keeps them apart from the text of the program. *)
From S2P Require Import Prelude Dict PyVal PyStr Json Html Objects.

(** ** Shared parts *)
Definition FAVICON : string := "AAABAAEAICAAAAEAIACoEAAAFgAAACgAAAAgAAAAQAAAAAEAIAAAAAAAABAAACMuAAAjLgAAAAAAAAAAAAALBwL/DQkE/xYSCP8LBgH/GBEG/0RBFf8uKQ//MiwX/yghF/8jGg//KR4U/yccE/8lGRH/KhsT/y8fEv83IBr/RCod/0MwEf8jFw3/HhIM/ysgDf8uJA3/GBAH/xkPDf8SCwj/DQgD/xcPCv8TDAj/Fg4H/wkFAf8KCAP/EQ0I/wkFAf8JBwb/DAoH/xMWHP8ZGRv/My0Q/x4YDv8fGQ//IxwT/xkSCv8cFQ7/HhUQ/xYPCv8eFA7/IRYO/ycZFP8zIxj/NCcS/x8XDv8YEgv/IhoM/yIaDf8eFg3/JRgU/x4VDv8UDgX/IhoR/yQcFP8XEgf/Hhsb/yAdI/8QCgT/EgwE/xMOBv8aFgX/Excf/xkZHP8tJg3/ODIb/zEpGf8YEQ3/CwcE/xEKCP8MBAT/EQcH/xUJCf8TCAf/FwwJ/xMJCP8VDAr/FQwJ/xoRDf8ZEA7/GBIO/xoVDf8iGhD/LyAX/zgsH/8/NST/PTEd/zEoD/81Ly7/NzI7/xMNBP8WEAn/GhYX/yMeHP8OCgD/FxAH/ygeD/8sIhX/GBIM/xMNC/8bERD/JBcP/1pJI/9fTCP/YlAm/2FNJv9ZRCH/ZFAo/2JMJ/9rVi//bVwu/2RVKP8yJxn/JyAW/yYgFf8iGxH/MSYc/zAjGf8pHxH/JBwM/yEZCf8dFQf/FQ8G/xcRCP8TDAf/GRIH/xMRB/8eGA3/KR0Q/xUNCf8nERX/KxIY/x8UEf8zFhz/nUht/69Rfv+rT3n/o0l0/6VGev+qUnz/lkFq/4tEXP+pUHj/rlGA/0cnLf8yLBr/MCgd/yUfFv8dGA7/LyUW/y4iEP8cFAj/HBUK/xkSCf8RCwb/HxkS/xsTD/8iGQ7/IRgL/yIWDf8dDQn/SSIX/1wpH/9ZFiv/NBQa/zQWHv94H1//jiZ0/5MpeP+MK3H/lC56/4Qua/9hI0n/Sxg1/4Mkaf+LKHP/RSct/zArGv8qIRn/KCIZ/ygiGP8iHBH/LSMN/y4iDP8kGw3/IRgM/xgTCf8WDwn/IBYR/zEmFv83LBT/EQgF/2cqLv+tR0n/lUA1/6k7U/+EMD//MhwY/ysbFv8tGBf/OSQh/y8cGf83Ix//Oiki/zYoIf83KCP/OCoj/zQpH/87MiP/Lycc/yUdF/8kHBX/MSsd/zMtIv8cGRD/MygP/zQnE/8qIhL/KSIL/xgQCP8mGhL/LyMW/yAYDv8qFhL/fTEm/7lTVP9tKib/iDYv/8NRVv9PJCH/LCEd/yUYFP8gEhD/NiUh/1JAO/9GLDL/MR0e/yMZE/83LSP/Qjgt/zUsIv8rIxr/MCcb/11UKP9EPSX/RT0t/zs1Kf8rJhb/LyQO/zMoFf8oIQz/GBAJ/y8gGv8bExD/IhET/yoLCP+JPjn/oktN/2sqFv+yYVH/0G1z/2UiHP8qHhj/MCMc/0w0M/9cRUP/Niwm/y4eIP9NLDf/RSkv/z0yKP88NSf/OTEk/y4lH/9BNyT/fnY6/3NsRP9fWTj/Misb/zs2J/8uKBr/Qzgb/zgwEv8YEAn/NCMh/yYaHv8VDgv/IwwL/5JCVP/gior/o0s6/+SUjv/TeW7/Ux4R/zclJP9lPUv/h05p/zolKf8dFRD/JRwW/zAbIP91NFj/YjRH/0AwK/80LSH/MScf/3VrXv+/t6v/pp+A/05ILf8uKB7/QDss/0dAKf9VSiH/QTkQ/xsSCP8vIRr/KyAf/x8UDf8gEg//MRcR/41RNv+yXE3/ikIm/2U7If9OOTX/gEle/2UtSf8oERX/IxsV/ykdGf8wIh//JhsY/yUOFP9fJ0X/dz1Z/1U8Pv9BOCz/YlpI/3BpWf9iWkn/OjMd/zEsG/8iHxv/SUIr/1pPJv9oXzT/HxIJ/zcpIv81JyH/cjof/5xPN/9aKiH/HQ8I/zEYEP85Jx7/PzEs/0UvL/81FCD/JwoR/1YSN/9NFjL/Lxwc/ygUGP8+DST/XxNB/0kWMP8+Hyn/Qysv/0c3NP9FOjH/ODEk/z85Lf9IRj3/Pj0w/x4eJf9HQSf/PjUb/0xDL/8yMkH/RTEr/0EtK/9XLRn/dzso/1crH/9FGiL/LxgZ/049M/8vIh3/FAgG/xgPC/9dFz//ozV5/6dIgP9BGSn/PgYh/5oscv+hP3n/qVKE/zQiHv8QCwf/HxEU/0AsL/9BOi3/MzEt/0hFPf9DQDD/NjYx/1FJLf83LBf/GRAG/1lzlP9IMzP/Nigl/ykbEf84JBr/RyoZ/2QkKP8+IBr/STMu/ywdGv8mGRb/IRQS/24dTf9xLE3/pFiE/2ISO/+QI2j/ejZW/5FhcP93RFf/Nycl/zwwLf8fDBH/QCUu/0Y9K/9QSxj/Xloq/0xLIP8zMzf/WE8x/1xRKP84Lxb/PUJS/zgqJ/9FLC7/RCMd/0MlIf9aNSb/hEwl/1ksIP9mQEX/Vy47/yMWEv8fEA//cB1P/3QqU/+KN2n/xy6V/5kvcP+TWHH/pGWJ/0QrKv9IOjP/NCog/z8WK/9YMT3/QToo/1tYMP9ycCP/LCoX/z07K/9gVzv/XVIp/zIpEf8fExL/JyAV/2E2QP9nMC7/TCsd/1o2I/9wPiL/ez00/29HR/9nNUv/IBAQ/x8RD/9tG0z/dixX/0khLP+SOG3/k0lv/9GSsf93WVr/Oycl/0I0LP8mGhP/UBw6/1s2Pf9uZyr/UE9H/0RBI/8uKRb/cGo2/2ZdP/80Khn/IBgJ/x8WDf8kHBD/WzU8/1kuJv9BLRb/Ti4f/2MoJ/+NWSf/ZkE7/2c1TP8oFRX/JBUS/2YcR/+BMlv/pFeH/4A+Xf+sYIz/zn2m/3RiWP9BLir/TT40/zAhHf9WHj//VDI3/4uENv9MRz3/QD5C/0Y/G/+EfTr/b2VF/ywjFP8TDAT/HxQL/xwVCv9iN0H/cjUz/1s0JP9WMiT/UioZ/3s6Nv91UUr/b0NS/zUqJf8vIR3/YRtD/4g5YP/EdKr/yGik/6xshP+/a5z/f0xg/0s7L/9PQDX/OzAm/1MjPP9cPDv/ko1Q/1ROQ/8uLkP/R0M5/29rRP93bk//TkAy/ycfFf8bEgf/HBQK/0syM/9JLB7/Rywa/1I0I/+BUir/bz8s/19IP/9KNjD/Kx4c/ywfG/9hGkP/gzpc/7RzmP9+Pl//rWWL/86pqv+4a5f/aUJL/29hVf9WSzv/LRUc/1Q+O/93cUf/UVAy/0ZEP/9GQzv/VFBC/3xzTv83Kx7/HRQM/xkQB/8hFgr/RTYv/zsqF/9OMhX/TDAd/1o0Hv9GKxj/UUA1/zAiHP8UCQn/HxYQ/08YM/+USG//pGKH/1IwOP9lOUn/s4WS/8qhqv+XYHj/OCwi/xoTDv8XCQv/Tz87/3lyWv9xbGb/a2Y4/0RBM/9aVlL/cmdA/0c8EP83LQ3/IBYN/yseEf9BMjD/YDYl/51RL/+IRCn/Jw4H/yEUE/9AMCn/Lhgd/ywOGf82ESL/JQkS/0QeL/9LKjf/Py0p/0IwK/9ZOkH/TCkz/zUYHv8sCxr/IgsQ/yILDv9QQjf/fXVi/2ZfTf9nY03/YFwj/3ZxSf9pYD//eW0f/3plEf8vIxf/LyIT/0g4Mv80Ixv/MRYL/zUYD/80Hxf/LB0b/y8aGv86HSH/Rhsp/3YqVP9xJlX/Ng8h/zknJf88LCj/MB8f/yUUGf8tCRv/WxtD/10iQf87HSL/WUhF/3puX/+RiXH/fXRe/0xGPv87Ny3/YVtD/3dtRv92VTr/nooi/05COP9DNin/RjUx/yoeG/8ZEA7/Kh4a/ysZGv9IFy7/XRY8/30qWf9+K1z/ViE1/1glPP9yLlj/MxMi/xMLCP8MBwX/JgsY/2AkSP89Gif/UD0n/4J1UP+tp2D/iIU7/2hfSP+QiWr/j4Zs/29oXf+UjX3/Z2A6/4dEbv/DnWT/Z1tU/2FRRv9ELzH/Ixwb/ygdGf8pFxj/RRcq/54pef/BOp3/lCtu/5Era/+fLnn/bidP/00sM/89JCv/HA0Q/xUHCv8oExn/Oice/3VsOP+ck1P/joo8/73APv+Wkkb/eHBZ/21mUf9VTjf/oZmE/5SNcv9yZ0r/UC83/1IyJP9XS1b/VUg+/ycaE/9FMDX/QCww/xwNEv8tBhv/gyFh/7dDlf+OImr/lCVx/6k2h/+hOXz/jT1t/044N/82KiX/IxUW/zouJv9tYzn/dG0u/312MP92bEH/g309/4eFKv+Bfin/VE4y/2liU/+GfWD/aV0+/29gVf8wKBn/Fw4A/0tASf9KPzj/HBIL/zslKP+LXHf/a0Ji/0UmMf9QFDX/TA0w/20YTv+9R5v/q0GJ/3YlVP+gN3//XjRC/0o6NP9HPC3/UUkp/3FsGP+Ihxn/e3M3/2FYNP9cWRz/jIoy/3NtQP+Bel//d2xX/0Q2IP9AMhv/OC0c/zAlGP8fFgz/NiQl/yoaHf8fExH/Mx8i/5VdiP+4cLD/UTs6/0IvMf88Hyr/SRMv/2sjTf9wJFH/q0KO/8hurv9nME3/PSsn/0c+Kf9ORxz/cWsc/2xmFf9YUxn/UUsf/3t0Pf+RiGP/jYFw/4BsVP89LRf/NCcT/y0hEv8eFAX/UUY3/2NYSf8qGRf/IRIU/xsQDv8tGx3/eE5i/5Zggv89Jib/QS8o/0c3Mf9HMzP/QCEq/zsRI/99MV//oFeB/1EdN/83KiT/VU4l/11XKv9RSR//S0UQ/2t".
Definition LOGO : string := "iVBORw0KGgoAAAANSUhEUgAAAfQAAAH0CAYAAADL1t+KAABB5UlEQVR4nO3deZxlR1k38N9TVbdnSUISCEM2EsAgsdkSOjPT994ebggER5HdAyiLKLIoyguy+ILI9cIrqCAIiiIKCOqrchRZRIJAmJu5S88kDW9EWgMhkIQsDJCdzEyfqnreP+45PT3DJJnp6e67/b6fT38y6enuqb7L+Z2qeqoKICIiIiIiIiIiIiIiIiIiIiIiIiIiIiIiIiIiIiIiIiIiIiIiIiIiIiIiIiIiIiIiIiIiIiIiIiIiIiIiIiIiIiIiIiIiIiIiIiIiIiIiIiIiIiIiIiIiIiIiIiIiIiIiIiIiIiIiIiIiIiIiIiIiIiIiIiIiIiIiIiIiIiIiIiIiIiIiIiIiIiIiIiIiIiIiIiIiIiIiIiIiIiIiIiIiIiIiIiIiIiIiIiIiIiIiIiIiIiIiIiIiIiIiIiIiIiIiIiIiIiIiIiIiIiIiIiIiIiIiIiIiIiIiIiIiIiIiIiIiIiIiIiIiIiIiIiIiIiIiIiIiIiIiIiIiIiIiIiIiIiIiIiIiIiIiIiIiIiIiIiIiIiIiIiIiIiIiIiIiIiIiIiIiIiIiIiIiIiIiIiIiIiIiIiIiIiIiIiIiIiIiIiIiIiIiIiIiIiIiIiIiIiIiIiIiIiIiIiIiIiIiIiIiIiIiIiIiIiIiIiIiIiIiIiIiIiIiIiIiIiIiIiIiIiIiIiIiIiIiIiIiIiIiIiIiIiIiIiIiIiIiIiIiIiIiIiIiIiIiIiIiIiIiIiIiIiIiIiIiIiIiIiIiIiIiIiIiIiIiIiIiojUl/W4AEY08XmdoObTfDSAiIiJac7xzJqJVNTU1Vdq7dy+vNXRU5ufnM7CXflT4JiOi1SAANEkSe+ON1/+TMebhMSKoqul3w2iwiUABMSLmma1W65p6HabRQOx3u4aB63cDiGjUyWONsecAEexD0JEQEcS4sL7f7Rg2DHQiWm13hxBijBoBsIdO90VFRKwVDrcfJQY6Ea0yNSLGSO/6zECn+6IiHMpZDr65iIiIRgADnYiIaAQw0ImIiEYAA52IiGgEMNCJiIhGAAOdiIhoBDDQiYiIRgADnYiIaAQw0ImIiEYAd4ojolUmUVUjDmzmzl3AaKmoqoreyWqS/5edzWVgoBPRattgrTUhBAMAvWs38j8uXsgVgIjI0sBn8I8eRe95j70T1WBExFhrISKLrw0RwHvPUD9KDHQiWmX69RDiflWcAOjxAE4WESMH9L5K9dCPxV79kqBnyA+fPMChIuKMMWKMMTFGxBihqtfHGK8C4nWq8l0R3ABgj3MbrwWARoNnoh8pvjmIaFVt337Our17zxAA6/ft27cOvR77ScbEU0OQ04zBGao4U0TPBOQsQM8C5MSlvbb8wg9V9WDADwtV1SAizloDEQPvfVTV/xaRy0TQzbJ4xfr1629qNpu39buxo4BvBiIaGJOTkxPHHXfcCc65hxmjPwXIIwCcB+AxAE5zztmiB5+HvAdgDhmqp/6KqhqNMc5aC+99BNAViZ8B8Lmbb/7hVVdfffX+Q75HarWaBYBNmzYpAKRpGta43UOPbwAiWm2HXmekXgfm5xMBgD179ggANJvNABx+eHVqamrjxo2lc0PAFhGZAVAB8FDnHFQjQojIe4MCFlT1i+ZBbq018D78EMD/FbF/32q1di39wlqt5jZt2qRpmi6toaBjxEAnokEiAFCv12XHjh0GOHzQT09Pb7BWpwDzBAA/B+AC51wxLxtVVUXErnnrx5Sqhl6QW3jvbwD0/VkW/3b37t3fLb6mVqu5ZrMZwQBfNQx0IhoGUoT8hRc2Y6OBuPQvy+Xy+dbKs1Tx88bIuSKCEELRazfgtW61qKpG55yNUe8E9E+sLb2v2Wz+AACSJLGTk6ke+nzR6uCLnIiGkSRJYgAgTdOi14epqamN69eXfhrASwD5Geec8d4Xwc4e+wrKh9eNMQYh+M+KuDe0Wq15oBfkS58XWhsMdCIaevV63czPz8vSQqpKZfMFgHuNCJ5rrbUhBM2H4jnHfoxUNVhrLYC9McY3ttvd9wKLw+r3WAtBq4uB/uOkXq/zcRlRjUYDAIf/RpgkSWLyYqsI9IJdxL7ZGPt0AAgh+Ly3zvf5Mqiqd865GMM1McoLOp1OFwcKEfne6iO+oIloVJl6vY5GoxEBoFqdfqqI+X1r7aO990AvfNhbPwqqGnrz5aGruvC8dnvuOvbKBwcD/QABoLVa7XjV/Q9dWOh3c2ilTUwA3puFTqdzVb/bQmunXq+bYmSmVps8PsvuVzfGvBYQiTFwbv0IFWHufWjv37/wlLm5udvzMPf9bhv1MNBzeRFHmJ6e3j4x4T63ZL9pGhHGGGRZ9t1OZ/bB/W4Lrb3i" +:+
  "PQ4A5XL5Kcbgr6w1p3nPUL8veSW7CSHuzjJ/8e7du+9Y+njSYOBe7ofobTEci0MjeMMzOiIAI4JDd6iiMZGHj9RqNdtsNj87PT39eBH9W+fctPfeiwivh4ehqtFaa2IM18e47zm7d3+VYT6gOH90eMKP0fxQ5U3amNNms+lrtZqbnZ29esOGu54UY/hMqVRy+TaydDAVEVXVhSyLL+p2v3otw3xwMdCJaOw0m02fJIn9whf+80fW3vicEDxD/TCKTWNUw9t27dq1o1arOYb54GKgE9FYyoPJNJvX7vNen+u9vyQPdQYWFofabZb5r9x661l/lCSJzavZaUAx0IlonMV6vW5mZ2f3hqDP9z78t7XW5ud3ExRAeN38fLqw5BM0oBjoRDTWGo1GTJLEzs7O3hJCfK6q3m2MAcY4vPIlaiaE+MlOZ/eXOW8+HBjoRDT20jQNeaHc10LQNxhjzDj30kUkX+4j7+x3W+jIMdCJiNA7pjVJEtvtdv88BL+zVww2fvPp+T7tEmO8rNvtdgGY/KAVGnAMdCKinmKIXUX09THGTETGcpmjCCCCjwDQJEkEYzz9MEwY6EREuTRNQ71eN63Wrl0xxs84Z82Y9dKjMcZ6H25xLvwHsHg8LQ0BBjoR0RLz8/P5RkTmz0IYr+NWVVV7BYHaajYvv7lerxuwdz40uNUh0egrho2lXj/wyd55JVDwgn2QYovYUqm0M8sWvmateUwIIY5LsIsAMcrngcWbGxoSDPTD4wWOhpHU65AdO2pm06ZNmg+VLg1szUP8sN+bJInZs2ePHPK9Yyk/U91XKtOfMKYX6Bj9EU0VEeN9CM7pLABMTk6O7WtgGDHQD6GqvXIQIBQHtOSFMcUH0SCRJEkM0OtZNhpQoHnQnOfFF1983MLCbSeompOzzFig9zq3NrvduePvaDabtwHQw6wzLg4yiegdbjN2ROyXQghvGZPeuRpjTAjxprvvzr4FAI1Gg4E+RBjoh7DWBiCqMcYaY6CqSz9ivjZV8jc4A5764aAQL4J4amqqtH79+klVf74x9twYdVJEH3r33T86GXDrAWwUUQNARSCqpb1ZtrCvUinfaQyuVdVvAvL1GPG1iYmJ/2w2m7ctOeta8l7rWPTci0KwEMK8MbLHGDl11E9gVFXNi/q/Mzc3dzt6IxJjeSM3rEb2xblc27dvX3fXXbc+KgTzcGvlETHGcwF5jAgebIw5oQj5GCNijBG9YSr24Adf7PU+wjWdzuxP9Lsxy1SE6mJPularnRTCwpNU8WQAFwE4yzlbAuSgm9HC0j8XK7JEZPEDALz3AHAzoLMx6pdV5d9nZ2evXvJvunxP71EPdgGg1Wp5l7V2i/d+pM9Nz3eHs977D3c6sy/h7nDDhz30Q1xyySX7AczlHwCAJEnst7/97dMnJibOVw3nq8aLAPkp59wDRaQId/SWt4iIjPxcG62x4uJaXGCnp6drxuBF3i/8rDHmVGvN4uswy3wRtrJkHfWP3Wzm4a556C/OtYuIE5FTjbHPcA7P8D68c2am8iVA/2FhIXyq2WzesaRNo9xjz9dfy/f73ZA1oiICVf12vxtCy8NAP4x6vW7m5+dlz5490mw2Y34RvT7/+DSAxszMzAND8NOqchGAi43BI50r2aLnng9fcViejpWp1+toNBoBSOzMzHcTVfyGiFSttQghIMYYl1Rhy1H2IgU40FvPqarCex/zv5swxvwMgJ8pleTqmZnyX2dZ/Js0Tb8HHLjZWKHfdwDpWL2HRWR/v9tAyzNWL9RjIECv8jUP+YOGG2u1motx/+NCwDONkaeKmEcaIwghIsYYGOwDYeiG3JcGZaVSeZoI3myt2QwAIQRV1WIIeLVfW1rUjhhjjLUW3oebVeO7b7vtjr+Yn5+/a0R76wZArFbLn7XW/uwYDLn7Uqnksiz77U5n9o9G/0Zt9LCHfmQUWFyfWlhamOQB7Aaw+5xztv/eAx94+4XG6IsBeUqpVDoh70Ux2OlILfbKK5ULHmFM6fdF5NkA4L0PACAiVkTW6v272OtX1ZhlmRpjTnXO/dFJJ534S5VK5XfSNP0UMA69daLBxbne5dMlc5pSr9dNkiT26qsv2d/tdj/fbs/+QpaFx3rv3wrodaVSyYqI5NtIjlIvhlaO1Go1ByA2Go04M1N+lTGly41xzw5hcVjd9rmXaETEqqpmmffWmkdaK5+sVMp/vXnz5gekaRqSJBnZXizRIGOgrwxtNBrFXLskSWKTJLG7d+/+drvdrQP2PO/961X1+kOCndaYiAziMhzJQ1CbzaavVCqnV6vlf7bWvReQE7zPggjMgK2FFhFxIYQYQtBSyb5k3bqJ1szMdJWhTtQfg3SBGBVLe+6mVqu5Vqt1a7vdfZcxbmuWZe9S1X3OOQuw" +:+
  "t75W8jlgBXRjv9uyVBHkaZqG6enpDb1eObrW2mdnWRby4sqBDUcRMSIiWea9CM4F5IvV6vTLi0NOwCkmojXDOfTVFfNdtoodt24C8PpyufxRkfB2a91T86r4kS626TNV1Witdb0lObiy3w0CeispAOTV6zCVSuUXRPRN1rrJEAKGrQAr760HY2S9te4DlUr57Eaj8SYc6DTwxpVolTHQ14bmO24VG4P8F4CnzcyUXwbgD5xzJw/bBXwYqGroFWVbG2OYVcUfnnHGgz8DzPbzfGeTJInkQY6ZmentqubN1pqqqiLLspD3eofutdCbW4d676Nz7o2VSnlTp9N9KQ700hnqRKuIQ+5rq9gv2wAwrVb3gzFKOcawszcEDw7BrwxV1VAqlawqbvbe/5q1E9tare4n88e/H49xMU8e8+H1x83MVD4BmM9Za6re+xBjjGu0DG01Se+AD+8nJtxLqtXyhwHEfEXIMP9eRAOPgd4fEUCs1Wqu0+lcZe3ERSGEv8hDHWCoL1u+NlucczaE8H9DiBd0OrMfaDabvk+FWkXluqZpGjZv3vyT1Wr5g86ZWWvtM1VVvfdFkI/K+1FExGWZz5xzL65Upt+Zpmmo1WrDfrNCNNBG5QIylJrNpq/X66bZbIZ2u/vrWbbwWmNERKDgoQhHTVWDtdYCuCvG8PJWq/P82dnZG/JAlTVeH31Q5XqttvnUarX8h+vWuSuccy9V1VKWZQEHDvoZRaUsy7xz7nWVyvRreo9DbeimEoiGxaheSIZGo9GIQK/audPZ9W7v/YuWHPbCnvoRKg6WAPCtEPSiVqv7wTxQTV6/sGaP5dLK9Vqttn7btuqrQyhd4Zx9AyAnZFnm0ds3e+TDTURsr1jOvKtSqTy5jyMlRCOPgT4Yiou/63Z3/20I4UX53tqLB2bQPSvmy2OMlwP7tnW73ctrtZrLe+RrNtJRr9dNvQ7TW4cNW6lUXhxCdrkx5j0AzsgyXyxDcxifoWfp/cpiRPChbdumTltSR0JEK4hvqgGSD0m6TmfX33kfX2yMKc4jZqjfgwNHPoZLrS1dtHPn3E1Jktgl53ivBZMkiW00GrHRQKxUKj97443TO50zHxGRRx2ynnxcgnyRiJgQQnDOnhnjxAfQ21mx380iGjkM9AFThPrs7OzHvI9vcc7afFMUOkQR5iHEr+zbt/FZzWbzrjXeS/ygyvVKpXLBzEz1k9bKZ42xZe99CGEkKtePmYjYLMuCc+5p5XL5xY1GI3LonWhlMdAHUDHP2O1235ZlIXXOWW4Ve7B8sxgbQrw2Rn3W3NwXbwewVmF+UOV6pXLBI6rVyoeNQccYefqS40ytCN9jBRGRGEM0Bm/fvHnzqWmaKngNIloxfDMNqOJiVypNvCyE8A1r2VNfQnu7vumCKl7Y7XavzXt7qx3mB1Wub9u27bRqtfyHIqU55+wvq2opPw1t0PZdHxQmhKjOuVOdc29Cb336WI9cEK0kXnQGV0ySRJrN5m3G4NdUNYoIi+Sw2Ds3McZGp9PZuaQAbtUsrVyfmpraWK2WX6saLnfOvUFEjsuXoI1F5fqxyDedicbgpY9//NaHp2kai21wiejY8I00wIpTq3bu7F4aQvxQPvQ+1r10VY3OWRtC2N3pzP5BXgC3amGeh40pnotqdfpFGzasm7PWvQvAGVmW+XEueFsGUVV1zq0PQV6P3kmFfNyIVgADfcAdmGeUN3uf7ckr38e2l54fPQsRfQMOLElbjcdjsXIdQKxUKk+/8cbvtq11HxWRc73PxnEJ2orIe+kKyC9u2bLtoehNlfBaRHSM+CYafDFJEul2u3tilPcYY2Rce+n5TnASgv5rqzXbXKWK9oMq12dmtm6dmSl/2lr5pLV26wjtud5P0htpccc5l70QAGq1Gq9FRMeIb6IhkPfSRVU/GEK42VpbrE8fK70q6RhFzLtX48cvnScvl8vnzsxUPgSYljH2qTHGUdxzvW/y5xKAvHB6enpDcRphv9tFNMx4YRoOMUkSMzs7e4sqPjKOvXRVjcYYE2Pc3W4/qYPe3uwr8RgctAQtr1x/tzGYs9b+iipcXrk+ynuu94OJMUZrzTnW6oUAkJ/IRkTLxDfQcBFAPuq93zeG1dQqIhCRfwQaxXGcxzR3fvDhKZPHV6vl18Xo55xzrxGRjaxcX135TRpUzdP73RaiUcBAHxJpmoZ6vS4XX3zxN1W1ba2VMdpsRo0RG0LYHyM+DyxOQyxLXrkuxf751Wr5V2I8aZdz9p0ictq4b9W6VkTExBghok+ampramI+48PEmWiYG+hCZn5+XXtW1+VS/27KWeuFqAOg3FxYWvoXln0S3tHJdy+XyM7JsYdZa+yFAJpccnsIgXxsmxqiAPGTdunWTAJTD7kTLxzfPEJmcnFQA" +:+
  "iDHuCCHsz4NnHJawaX763Ffn5uayZQy3H1K5Pl2tVsufdc78q3N2qrfnemDleh8U+woA2NzvthANOwb6EGk0GgpAfvCDH3xDFdf2lqSPRaBDBIhR54/225ZWrj/+8Vt/amam8jeAaVprfzaEEIvKdRa89Y8qIBLL/W4H0bDjRWy4aL0Oufrqq/eL6Hy+n/k4BLoCAmPkmiP8+oMq17ds2XJmpVJ+TwjmCmvtL6mq9d6H3hndDPIBcS5WbuUC0VjixWzIzM/3DrNQxVX9bssayneHc7fc1xcepnL9f5dK7vJSyb1aBKxcHzBFYRyAM2ZmzjsFvREnTnsQLQMDfXj9MJ9XHvUeuoqIDSFAxN9xT1+0tHIdgKlWq78UwolXWGvfIYJTe3uugwVvA6g3yCSnhLDhAQBQr/P5IVoO1+8G0LKN3UUvP23uUKZeB/LKdVQqW58tYn/bWtmsarBkaJ2v9cEkAKIxZkLEnwgUo1Bpn5tFNHzYQ6dBJ/ke7ohRT1z6+aJyvdFAfPzjK9tmZsqft9b9s7VmM/dcHx696RRBjHpqv9tCNMzYa6FhoL0CQHs/AHLnnXc6APuLyvUY7W/HiBcZYyWEEPOA4Bz50OEoCtGx4BuIhoH0SgXCWQD0kksu2V+tVs8C4utilF+11m7w3hfD6zavLaAhw5swomPDQKchIRDBQ7Zv377uzjtvfwMQX+WcO8V7jyzLiiBnIAwnBQBV5Z0Y0TFgoNPAExETQkSMeOYdd9z+hFLJPSaEgCzLPIN8JAgAiCDrd0OIhhkDnYaBqEYYY84SkbPyHvlqVK7rocfSFtvrHubzBiy2W1GqfDyJjgUDnYaG5la6R66KCPR+rnPuoJ8dY+8odGvtj30+RuU56Ssg3/EQIu57/W4L0TBjoNMwEaxsr1hVVa21xhiB92HB+9AVwVdUdc4Y910g3hWCMTHG443Rh6jifFU9X0SmnHMbVBUhxAgoGOzLouiduuazLNwCAJOTyz8al2icMdBpLOVr262ISIzxv7yPH7U2fuqyy3Z98z6+9SMAMDNzwcNC0KeJmBc4Z6YAwPsQpVdiz6Hjo9Bbgx5vdc7dBgCNRp8bRDSkGOg0blRV1TlnY4zXAeGt1q77+2azuS//e7mvM7nTNI2t1hXXAPiTqamp92/cuO5ZMeI1zrmtIQSoamCh3pFR1WiMsSK44fTTz/ge8p3j+t0uomHEQKexkYeHMcZIjOFje/cu/O+5ubmbAKBWq7lmsxmRn5l+BD/OJEkiaZpmAP4pSZJ/vuGG618lIm91zh1frIlf1V9oRPTm0OWaNE1DkiT2CB9/IjoE5/xoLKhqML0D5Pd6H3+l1er+0tzc3E35MavSbDY9jq5nWAS/FCHU6cy+BzDTMYadpVLJqiqD6YjpbL9bQDTsGOg08lTVO2etKm4OQZ/U7XY/ku8DXwT5sRRhaRHstVrNtdvtr+/du7A9BP9x5xxD/T6IiFFVBcwV/W4L0bBjoNNI64W5c6rxKiB7Urfb7dRqNZeH8EpWU2uz2fRJkti5ubm79+5deEEIYSdD/V5FY0RiDDeVSqWvAr36hH43imhYMdBpZKmqL5Wci1GvWFiI29vty7+ez5X71fo38xsFOzc3lwHmBSHE6/M17AyqQ/T2FDAAsLPZbN6Wn2nPJWtEy8RAp1EVSqWSCyF8wlr3hF27dn0nSRK7mmG+9N9OksS22+3rREKiqvvy82IYVof3aQCyY8cOXo+IjgHfQDRqVBXBWmu9D+9rtbrPbjabd9XrdbOW1dNFxXartWuXavystc5w6P0gaoyx3vvvh4BL0Juy4ONDdAwY6DRKVFVjqWRtCOGt7XbnfyHfXa7RaPRryFtE5G9iVIDvt0X5xj4wBv86Ozt7C4fbiY4dLzA0KlRVo3Ml6314a7vdredL0oA+BUUxInDaaWf+Rwhh3lorhx7yMqZURGwIIRPBXwJAo9Hg7npEx4iBTqMiOOdsCH4xzPMh3L72+pIkMWmaLojgz40x0u/2DAJVjdZaiVG/uHPn7FfQuw5xuJ3oGDHQaejlw7fOe/+2drtbz4vf+h7mwOIyLFGVj2VZdl2+uc1Y99Lz/fMhYv4IAJIkYe+caAUw0Gmo9Zamlaz34S87ndm35Lu2RQxAmOc0SRLT6XTuBPC2fNh9UNq25lQ1OOeMqn663W7vWOtiRaJRxkCnoaWqoVRyzvvss2ecceYrBzDMAfR66fV63dx22x0fy7Ls8t6udWNZ8a4iIt77fTHid8BT6YhWFAOdhlJx/GmWhW+IuBemaRomJycVAxbmOZ2fn5f5+fkFVXl1jBp7p6wOZFtXTa9o0RlVfVe32/2vJElMH1cfEI0cBjoNI+2d0KV3hxB/sdVq3ZokiR3kcEjTNNTrddPtdjsx6vvy" +:+
  "LWEHtr0r7cANmP96jHg7AMNtXolWFgOdhk5eJW1DCK/ftWvX3JK92Qdao9HQer1uSqWJN3qffXWM9nnXvBBuQRW/PDs7u7derwNjNkJBtNoY6DRU8nlz6324pNvd9edLKtqHgQJAs9ncB9gXxhjuNEbMqPfUi0I4QF/b7XYvH/TRFKJhxUCnYaIiIiGEHwHyagAY4Hnzw2o0GjHf5/3rIeBXjDEiIgNXyLdS8lUILsuyD7bbs382LKMpRMOIgU5DoyiqilHf0+l0rqrVam4Ye3ppmoZarea63e4/e5+9wTnr8qH3UQv1rBfm/nOl0rpXAnUzRKMpREOHgU5DQVWjMcZ4779bKq37YwBDHQ7NZjPUajXX6ex+Z5b5d5VKpVEL9cw5V/I++5L34Xm956oBjM7vRzRwGOg0LDTflOWvms3mbfnuYsMcDtpsNkOSJLbTmX19lmXvKpVKDr1d5Ib59wIOhPmlquaZu3fvvqNeh2DMd8gjWm0MdBoGxVGbt1tb+ggASdN02EMPADRN01iEuvfZm6y1VkSG9RAXzQvgSlnmP7dx4wlP63Q6d9brddNoMMyJVhsDnQZePtwOVVy6c+fO6+v1+ij19hZDvd2efUcI/sUistdaO1Tnp+dtFeeczTL/l2ec0X3qF77whR/1wnz46hyIhhEDnYZCbyMZ/CsAmZ+fH7UtQ5eG+kdD0J+OMX6zVCpZVQ0D3lsveuVWRPaG4H+z0+m+Ik0R0d9z6InGDgOdBp2KiPXe7wVwOQDNl6qNGi2q3zudzk4RWw3Bf9Q5Z5f01gfp99aiV14qlWyM4QqReGG7Pftn9Xq9uK4MUnuJRh4DnQaaKrQ33K433X777dcAvR3X+t2u1dJsNn2SJLbVan2/1eq+2Pv486r6zVLJFXPrHv0NyiLIUSo5C2BvCNnbjj/+xJmdO2d3L9k0ZmSfI6JBxUCnAacqIhCR6+fn5xfQe82OdFjkG68IANPpdP7F+zjtffh9Vb29VCq5PNjXeig+Lp0nFxGEED8egm5ttWbfcskll+zPT7sbmnl/olHDQKchIXf2uwVrTAHEJEns7OzsLe12980i2eNi9O9RjXtKpZK11hrkPeZVCvdY/GwRMfkowUKM8RNA3NZqdZ47Ozv7tSRJLHorDxjmRH3k+t0AoiOhqrbfbeiHoreeJIlJ0/QaAL81PT39x0B8HhBfICLnOedsjBExRuTBHgGIiCy9Yb+3QkIFencGS7/XGDHGOKgqYozXeh8/BciH2+32lfn3mSVtJKI+Yw+dhoLIaA+z3wfNQ9PkPfYb2u32H59++pkXxIhKCOEPVfUrANQ5Z0qlksuHxQW9IC824Sl68wEHb2AjIiLW2oO+NwS9znv/9zGG53gfH9dud/5XHuYm75UXNw9ENADYQycaHjFNU+BAjz0A6ALo1mq1N4ew9ydDwLSqTonII1XxMACbRLBOpBfvItYCgKqi1yFXqCKLMd4GyDWq8aoY5UpjQvtHP9p31ZVXXnlb8Y8nSWInJye10WgU7SCiAcJAJxo+unQofs+ePdJsNj2A+fzjwwBQq9WO379//4kicrox4RRVcUDcJCJWVb+vavYbo7cbU7px3bq7b/niF+fuxCE97rwnjjRNI4fWiQYbA51oeOmSkBX0Al6KgG82m3cBuAvADUf6A5MksXv27JELL7wwNhoNZYgTDQ8GOtFoUPQCvvj/oghO6vU6it319uzZIwCwadOmxZqEfF98zf8cAKDZbK5Rs4lopTDQiUZTEdjaaDT62hAiWhusciciIhoBDHQiIqIRwEAnIiIaAQx0IiKiEcBAJyIiGgEMdCIiohHAQCciIhoBDHQiIqIRwEAnIiIaAQx0IiKiEcBAJyIiGgEMdCIiohHAQCciIhoBDHQiIqIRwEAnIiIaAQx0IiKiEcBAJyIiGgEMdCIiohHAQCciIhoBDHQiIqIRwEAnIiIaAQx0IiKiEcBAJyIiGgGu3w0gomWRer0uO3bsMJs2bVIAmJyc1EajcdgvrtfrmJ+fl+L/0zRVAHFtmkpEa4GBTjQk6nWYHTtqptlsRgCx0WgccSjfS9CbHTt2LP7MlWstEa01BjrRYDO1Ws00m03faCACzQgAU1NTGzduLJ2rKj8Roz7cGJwdIzYBcpqI5lNpooAIoPtUcbMxcqOqXK2q1xhjrm61Wt9oNBpLg1ySJDFpmkYA2pffloiWjYFONIDq9boBgEajEfPeM6rV6mNjjDVj8EQRnBeCnl4qOWctoKowR1ARIyJQVXjv76pWp78LmK4ILhWxzZ07d16fpmkAgFqt5thrJxouDHSiwWIAaN5zRqVS+QkgPktEni2ij5uYcCVVhapCJCLLMp9/n9zzjzyIAhBjzPEicq4xcq4qfjmEcEe1WrlMFf+0" +:+
  "f//+zzSbzdsBIEkSyx470XBgoBMNhmK4OwDAzMx0NUa8UkSf4ZzbEKMixsUAFxGR/L/Leg9rLgRVADDG3M8Y83MAfs6YddfOzEx/LMv0w2mafgdgsBMNAwY6UZ/lYRnSNA0zM1u3qtr/DeAZpZJBCBFZ5j0AIz0r9Z4tbggA9ALeex8BwFp7tjGl3wXCK2dmKh8Wse9O0/Sm/PsMxmwYXvWIRz+I+orr0In6R4ow37Zt6rSZmcoHVE3LWvMMVdUs815VVUSciBgc+bD6stoiIlZEbIxRsywLAO5vrX1djH6uUqn81tTUVAlATJLErmI7BokCgIiepr2BDAY7DTQGOlEf5KGovV555QUxTnzFWvtyAM57H3BgOL0fISIiYns3FVkQkdNKJfvHGzasu3R6evpxaZqGvGhvlANOAOiTnzx9f1Wc2qtZGOVfl0YBA51ojRW98unp6ftXq+W/Ncb8rYicmveKISKD0gNeGuzeGDNjrbSr1elX50V7ihG9hiRJYgDgrrvMI40xD1LViNG+gaERMJJvRqJBVYR5pVI5zzmzwzn3Au99VNU4QEF+KBGRYuRgvXOl91SrlX/YsmXL/TDiQ/DGxIustcJAp2HAQCdaI7VazaVpGsrlLU8xBl82xjw6yzKfz48P/Hsxv+HQLMu8c/Z5ExPui1u3bn1ImqZhxEJd0jSN27dvX6eqPx9jRP4cEQ00vkiJ1kC+UYuvVqdfZK37FICTvPdhBavW14qIiMuH4Dc7Z74wM7P1MaMU6vlwu955552PN8Y9KoQQwWslDQG+SIlW2dIwN8Z+RFXNgA+x36d8CN4bY84B7H+UyxecPyqhPjmZKgDEGF6dF8Jx7T0NBQY60SoqwrxS2fpcY+zfxBjRWwE1/O89EXEhBC8iD7J24hPlcvnsfGOcof3dkiSxjQbizMx0zTm7PYQw1DdeNF6G9o1HNOiSJLHNZtNPT0/XRIowV4iMTnFVHurBGPMQY+QztVrtJOTby/a5acuWJImNUf5AREy+/pxoKDDQiVZBvV43vTXmFzzMWvOPxsh6ADqKxVUiYr333jn7aO/3fwSA5vPQQxXqRdHiTTd99+WlkpvOaxxG7vmi0cUXK9HKk/n5eTnnnHPWqZY+Zq05NYQw1EPR9yWfU8+cKz2jUpl+Sz6fPjS/b71eN/loyjkA/k8+1D407ScCRvgCQ9QvxSErmzad8mbnXNV778dkHtZlWRaMMb87PT1dG6IiOZmfn5d6HcYY+Stj7MkxxqGeNqDxxEAnWkHFxjGPf3ylbIx5Yz5sOwyhthIEgBgjzlr581pt8vglnx9YtVrNpmkavvjFrW8rldyFY/ac0QhhoBOtHJmcnNSpqamS9/qnxogdt0M9RMR4H7xzbjLL7vfbgz70XqxCKJe3Ps9a96Z8NGVg20t0b/jCJVohSZKYRqMRJyYmXloquSnvw1j29ETEhhCiMea3KpXKI/KlbAP3OCxZhVC11n4oRlX02jk2N2A0WhjoRCvDpGkaa7WpU4zBm0IIunjY+PiRGKMaYzaKxN8DgHq9PlDrv4qpkXK5fK5z8nEAG/NAH9fnjEYAA51oBSRJIgA0y9a93Dl3RoxxrLcLLXrpIua5lUrlgkajoYNSILfkgJzTrZVLjDGnxxijyPg+XzQa+AImOnaSpmmYmnrSiYC+LMax7p0vUtVorRUgvgqATk5O9r2XXoT51NTUacbovxtjzs6nRngtpKHHFzHRMarVahYA1q278zmlkjsrhPHunRfyDWdURJ49M3PBw/Iz1Pv2uBw47W7q3A0b1n3eGPvYMVpSSGNg7C86RMeq2WwGoG4AeXG+fpl6RFWDc26jaun5AFCr1fpyzSmq2bdu3foYa9ddYox5dB7mw3baHdE9YqATHYN6vW4AaLn8H48Vka08O/tQYno3OfqLeahGrHHhWVHNPjMz/STn7JdE5OwhPbqW6F7xwkN0DObn5wUARPSpzjmrqgGslF4kAhNCiNa6c7Ns33sAxDXc512KOfOZma0vBcxnRXBKCOO5nJBGHwOdaPkkTdMIwALyNPbOD09ETAghOlf6jUpl+hX5ZjOl1f5n6/W69KrZp99iTOmDqjrRq2ZnmNNo4sWHaJnq9boA0K1btz5MBD/VW6nG3vlhCADJj1n900ql8uQ0TRdqtZrDKjxe+fI4bTQasVot/6FzrhFCiBjR0+6ICnxxEy1TMdxujLnAObuRw+33SlRVAFhj8PFKpfLcZrPp0TtqdaV6zFJUstdqZ6+vVst/Z619g/e+eF743NBIY6ATHSMRnVHWtt8nETH53vYnWiv/ODMz/We1Wu2kfGtYyYN9OaFbfK/29mUvnx/CGZc5Z5+/5KAVhjmNPAY60TIVG6WI4FH9bssQEVXVGGO01r0yyxbm" +:+
  "yuXyCwFoHuyaJIldEu6HC2JBHuJFkOc7v51QqWz9HWOkZYzZnGU8NY3GC5dtEC2PNBqNWKlUTlCNZ6oquDvcERMAkmU+WGsfJiIfq1TKLwPkAwA+nabpnYd+fb1el/n5+aIIUQEgvwHA9PT0/UXkeSL6KucmHhFCgPeexW80dhjoRMsjANSYhQfG6DapsiDuaImIzfe8h3N2BsCM9/76mZnpTwOyY2JCu7ffnu2Zm5vLGo3G4qRGrVZzMcYHqvqtqnoxIE+31p6hqsiyLIiIYfEbjSMGOtEyJEkiaZrCe3eSc+Z4VZ7UtUwGALz3EYBaax5sjH1ljPGV+/fHH61fP3HdzEz5BlX9PqARkFO8338GIA81xhxnrUHeIw/Sw145jS0GOtExEJHTjDHI9yxnoC9T0aOOUWMIWcx72ceJyE/lHwAAVV38iDHG3oluYlYhyFUVyhPYaJgw0ImOSdgAsFO4ghaHy3UJ5PPmACS/cZKlX7uCND8lzqJ3rvsK/3ii1cO7T6JjYIzhe2j1FKFtRcTlHxa969ZKj4aoqgYRkVKpZAHcGEL4NQCfttYi32OAaKDxYkR0TOT4/A9ciT6kig2BekGut4YQ3ub9ned3OrMfUNW5freP6EhxyJ3omOit+R84fz5kVDUWPXLvfea9/xvv4zt37dr1TaC3heyNN17/HZZG0LBgoBMdA5HI99CQ0XyNobXWAArvs08ag3fs3Dm7G+gF+Z49eyRNU1+pVH5QfFvfGkx0hDjkTnQMQrA/BAD24oZCVNVgrTXOWaMad3ivT2y3Z5+5c+fs7nzXOZOmadi0aZMCgDHx9hAC8rl7hjoNNPYuiJah2PY1xviDGIVr0AdbXrlurDEO3oevieg7Wq3uP+R/b+r1OhqNxo8Vvlkb9nvfO/IeDHQacOyhEy1Do9EAADjnb4sx3p4vpeIFf7AcVLmuqtd5n73m1ltvq+RhXhzqEhuNxmHXp3lv1uejL2Pz3Iooc2FI8YkjWh4FgNNPL30fwJ5xu+gPuqJy3TlnAdzqvX+r93p+uz37J/Pz83ctPdTl3n5OjOakJcvWRn0URnpL/s3D+t0QWh4GOtHyaJIkNk1n9wL4logg3wCF+igPXs2D3Hsf/hIwF7Tb3frs7OwtxSlu9xXkBZF4WvHH1WrzoFHFowEgPwiHhggDnegYqepX+92GcaeqUVWjc84aIxJj+ESMqHQ63Ve0Wq1rarWaw4EgP+IbL2PkEeNynyYiJt8Z75xabfOp6D1OY3MjMwoY6ETHSFVm84zgxW/tHVS5HkL8Ugi4qNXqPrvb7V5er9cNANNsNj2OIsjTNM2/Vh67Os0eSBJjjM6ZU7LMPA69GgNmxBBhlTvRMhUXfWPMnPfhVmPMyTx1bc2oqkZjjLXWIsZwZYz69nZ79uP53xugjnsqdrsPBkDcvHnzA2LURwMRq7Bn/KBSQCBitgP49343ho7OuLxIiVZDBGA6nc6NIuarxpjFTUto1RxUuR6jXh9C9mrvtZyH+WLlOrCsMEeSJAJAJibMFufsg/Iz28fiJk1EpHeaHZ5aq00en8+jj8XvPgoY6ETHIL/4QwSfZKX76jqw57qzAH4QQqjHqOe127veOzs7u/dIK9eP9J8DzLPG8Dk1IYTonH3IwsKJ29Er/mRODAk+UUTHoNhgZt++hc967+/mjmIrr6hcz4M88z78hbVhc6vVeetyKtfvg6RpGsvl8iZVfXoIYzXcXsinkvTXAUjxGqfBN24vVKIV1Wg0Yr1eN1dcccU1qnppvmaZw+4rYGnluohIloVPiNhyu9399WZz13eWW7l+b/LeqBqDXyiV3ANjjOOw/vwgImJDCGqMvXBmZvrxjUYj5jdNNOAY6ETHaH5+XgAIoH/V++94BcAqOHTP9S+qhid0Ot1nt1qtuWLP9aOtXD8CJk1TfdKTpk4E9DUxqsqYbtJfnEQXI35nyafH8rEYJgx0omNUDPXu3+8/l2X+Sues5MPEdHRUVYMxxjjnrKp+VVV/fufOzsXt9q4d6F2vTP54r/goSF4PEe++u/Q650pnhxAixvQaKSLWex+stRdv21Z5epqmgXPpg49PENEKSJLEzM3NZSL6DkDYSz86h1aufyfG8Mq9e/fP7NzZ+RccVLm+8kEOAEkCm6ZpKJfLjzLGvNZ7H8dw7vwgxfkEMcY/npqaOjGfS+freoCN9QuWaKUUy3v27/ef8N5f2TtrG+yl34elleuq+H6M8S3Olc5vtbp/Pjc3d/cKV67fE5mcrOvk5OSECP7aGNnA/QQALFa8l35i/frSOxqNRqzVapxLH2AMdKKVoUUv3Rh5c78bM+gOVK6XLIB9IcQ/279/YWrnzvbbms3mbStcuX5vpFar2UajEU8++YT3lkpuq/ch5KsVxp6I" +:+
  "GO99MMb+WqWy5enNZtPnxYg0gBjoRCskTdNYr9dNq9X9txDCJ5yzlnPpB8tXAGhRuR6CT1Wl3Gp1fvOKK664fjUq1+/N1NSUazabvlotv9ba0iuyLGOYH0zQO4UtGlP6ULlcPrfZbHpWvQ8mBjrRyikCSELQ14YQbzHGGHBdOrCkct1aKzGGL4joE1ut7nM6nc7/W8XK9XtUq9Xc3NxcVq1O/5Ix5l0hhDDu8+b3wMQYYYw8wFr88+bNmx+Q33Ax1AcMX7xEKyhfs2t27dr1HdX4W8YYUR3rufRDK9fnVOPPt1rdJ+/c2b0Uq1y5fg8kSRLbbDZ9uVz+FRHz4Xx7VwPOmx9WMfQuYh85MeE+NT09fX8AgT31wcJAJ1ph+RIf227PfjRG/+FSyTlV9f1u1xo7pHI9fsf7+Gu33HJbZa0q1w9naZFdtTr9RufMh1S1WJXAML8XvQ1nfLDWVq01n56ZmTk5TdPAOfXBwUAnWgW9+XQYa9e90nu/2znnxmU+fWnlugj2hBB+R8Q+rtPpfGB+fn5hjSrXDyW1Ws2laRqmpqZOnJkpf9Q59/Z8JziAYX5EivXpztmqavy3884774EslBscDHSi1aGNBtBsNvd5H58bgr/W2tEukju4cl3uDiG+t1SKj2u1Om9vtVq3FsOz/QhyAJoPsVc2bFh3qbXuRd6HAA6zHzURsVmWBWtN5fjjN3558+bNj1wS6nws+4iBTrR6YpIkdteuXd8xBs9S1R+OYqgfuud6CP7j3odyq9V59aWXzt5wSOX6milGAvKwOb5aLf++MbhMRB6XZZlHr6iLAbQMRU9dRB45MVFqVavTzykKGjmv3j8MdKJVVMwx7tw5+xVV+bkRC/Ule647E2P4jxC01mp1n7tr167/LNaSr2Xl+lL5DYSZmSknIWQd5+ybANgQQhQRDhEfo/wQlyCCk4yx/1StVt47PT29oaghAW+W1hwDnWiVFcOR7XZ71vv4s6p6XV7xPayFckXBW165Hq+IEc9stbo/3e12L8PBlev9WLInAKRa3fqsmZlK1xj7cRF5dJb5AEC5NG3liIhVVY0xRufsq5yTbqVSeXLx3HMYfm3xhU20BorNOGZnZ3d7H58YY/xqqVQqqt+HZp16vjGMOOcsoNf0KtfPrLZarU8CMP2oXD9cM3tNlfc7Z7d4733eK2evcXUIANPblMc81hh8fmam/Fe1Wu3MQ4bh+divMgY60RophiJnZ2evvvPO0kUhhI+XSiWH3k5cAz8EXwyvi8hClmWNvXsX8sr1tKhcj2s9T35vROQu70MUEcNe+erLh+Cjqqq17le9z75arZZ/d+vWrQ8qeuxJkth6vc7nYpXwgSVaQ2mahnq9bq68snlbq9V5rvfZa0TkR/kQ/FpurnLEllavxxivUg0/3e3u+r25ubnb13DP9aOmqgzyNZY/3tLrreMU59xbnTP/r1KZfkulUjk9TdPQaDQiDqw+YK99BfHFTrTGiguaqkq7PfsnQKiF4C8rlUpWRMygDMMX1evWOisChBDev2HDcVvb7V071nrPdRouxdx6vjf+qaWSawDxymq1/L5t26Yfh3z1AXqvnWKqhnl0jFjpSdQfKiKo1Wqu2WzOAahVq9WXiODNpVLpISEE9DY9ERFZ0wudFvPk+fA6YtQvxxjqnc7unUBvOViapsNa0EdrRw4Eu4/GmFOstb8ZQnjFtm2Vy0KI/2ht6bM7d+68KU3Txe+p1Wp206ZNmqapYgBHrAYZA52oj5rNpq/XYRoNaLvd/lCtNvUp7ydeAcgrSqXSGTFGxBijqqqICFanF6P5+d8qIjYf/oeq7laVd7Va7eJqa7D2O7zR8JNDeuwlY+wTnTNP9N7fMTNT/lKM8mkRubTdbl+X99wXvzdJksXXfJqmERwRukcM9CElImN25yoj+yZuNHq9kLzn+wMA/6dcLn8whIXnqZqXGGMeY4xBHu5FDxrHEPCLAZ7/HOucExFBCGFvjPGLgH6w1er+W/71kiSJYZDTMZJ8/b967yMAGGPuZ615pjF4Zghhb7Va6arqLmP00hjNfKfTufEwr7vi9chwPwQDfUip6qm9a/K4FJXE9f1uwWrLL1zFxWoPgPclSfL+G2+8bpuqeZ4qniAiP2mttQCgqugdEnZQQN/TBU7yWwARETHGiDEGqgrvQwjBf0XEfEo1+2S7ffnXi2/KbzICw5xWkBRnzhfD8fnnNlhrLgJwkaq+EYg/qFan/1sVXzHGXBEj/qdUyr7bbF5+M1+PhzcmYTA68uHZWK2WP2WtfVq+/eLIbrWoimitMTHGbzg38chDhuNG2Y/1ii+++DHH3XXXcY81RmuqqAD4SRE5xxhjep11oPjvofIhdABAjPFHIrhaVb8mIjtVTbvdbn99yZeb" +:+
  "JEkGsnL9aFQq09+y1j5sydGoNNgOGn3q3Xf2njYRge/tC3QzoDeLmG/EiLd0Op2r0Htux2zE8vAY6MNHarWa9X7/V611jxr1QEdvXldijD+KEefNzs5ejfF6Ay/OIR4asLVa7fgsyx5krZ4dgvwEgE0i2CSi61SL4XSIarwdMN9XjTeLuKuN2X/DD3949/fm5+cXlv68vDc+MoVIDPShtxjwQG9qSERgjEDEIMvCUzqdzr8Xo0j9bOig4JD7cDEA4r59+850zpwVYyzWfY4yiTEG59xxMYbzAXwr7z32u11rZWkR2qEFQncBuAvAtwBcerQ/uFaruU2bNunk5KQ2Go2B2hSGCEuG5guqqt7HKBIhYrJ+NWxQMdCHSBFkxphHWmvv572PYxDoi2LEMwCMTZIfxqEV5oJeyAsA7NmzRwDgrrvuOmjk7fjjj1cAWBLewIF1wETDRPKd/yRG5QjzIRjoQ8gYPDH/41hUeIqIiTGqCH5627Ztp6VpejPGa9j9nih6Id/vdhDRABib3t0IkDRN4/bt29cBerGqFsuWxoH0TnNyD4jRPx+9PaHH5XcnIjoiDPQhkc+d6q233nqeiJmMMSrG6PkTEQkhANDf2LJly/0mJycVLOokIlo0NoEwKpwzzzfGmKXVn2PC5MVxZ1trX9VoNGKtVhvl6n4ioqPCQB8OkqZpnJ6evr+qPm9Mqtt/jIiYEEK0Fm/YvHnzT/a2TeVRjEREAAN9KBTD7dbiRaVS6YG9QzvGcrhZYlQ1xp4wMWE/AEDm5+cF4/lYEBEdhIE++CRNU52ZmTlZRF7Tq/Yem2K4HyMi1nsfnCs9oVKZbqRpGjj0TkTEQB94eVjFGP0brHVnhRDGftcrETFZlnlr7e9WKtPPbzabPj+fm4hobI11MAwB22w2faVSOU/EvHrcNpK5F/lxjDEaYz6ybduWpzSbTT81NVXqd8OIiPqF4TC4JEkS1Gq19UD8a2vN+vxErbEdbj+E9A4aQ0nV/kO1uvmZc3NzWd5T52NERGOHw5QDqlar2TRNfaVSfn+pVJrKsmzUD2E5aiIwMcZojDkBcB+fmdn6smaz+REApl6vS6PRGLelfXSwoKoBQNTiqDkaBYrezBuf00Mw0AdQrVZzzWbTV6vTr7bWvpxhfs/ybWGjiDgR9+GZmfLDW63umxqNRvE4BozJFrn0Y05yztkYI987I0ZEkGWBU2yH4NDkYJFarWabzaYvl8svs9Z8QHXx6Ec+V/dOAUTnnPU+fF4ke1Wrdfk3AAh76+OpUpl+p7XmQTFqUOX04ghRYyAh4J3dbve/wHMdFjEkBofJT1MLMzPll4mYv8zPceY666OgqiHvlf0wxvC7nc6uD6C397sFfvxMcSKiUcGgGABJktgiaKrV8puNMW9jmC+fqgZjjDXGIIT4JUB+r91ut/K/Xrxx6msjaS2Yer3e7zbQKmk0GgpOpx2EYdFfkiSJSdM0TE1NnbJ+felPrXXPy9eaM8yPjapqdM7aGGNQldRaffdll3UvL76Ac+xENEoYGP2xOFcOAOVy+SLn5H0i5pHehyDCOfOVoqpRRIy1FjGGAMi/qMpftNvtHcXXLBmOj2C4E9GQYmisLVOr1UwR5Nu2bXtwjP4tIvKrIoIQAqvZV4fmwW6ttVBVqMadAP4uBHyy2+3uKb6wXq+b+fl5mZycVA7pEdEwYaCvPskPV1ksyKrVaqeEkL1MVX/DWndaCF5VVbkL3Ko7KNhFAO/DLYB+3hjzL97rzqXhDhzovQNAmqYKVtMS0YBioK8OkySJAAdXVW/ZsuWhExPmharmpdbaM2MMiDGyV772NN9oRI0x1loDVcD78AMRbccol5ZK+uWFBVw9Ozu799BvLnrxe/bskU2bNmke9OzNE1FfMdCXr3jsJEkS2bNnj1x44YXx0PXOtdpjT8qy454I6HNFsN05d0IIi0HOufL+U1WNAMQYY4pw79Ul4n9U9T+NQRvQK0X8NTt3XnH9ffw8Qf6aAIA9e/YIAOTBz8p6Ilo1DJNVUKlUHgGEzYB5qohstdacDQAxRgb5YCvCHSJijTEQEYgAMSpijD8EcKMq/scYvSpG8z8i4QZr8T2RfTc1m1fe1t/mE9E4Y6gsU5Ik9tprrz1u/XpzdpbJ2cboOYA8VhVbRXCWtfY4AFBV5MvQlEE+dBb3AJce0wv43gcAhBCgqner6u2A3AngRhF8TxXfF9HbVfE9a+1CjP66dnvX5/r5yxDRaGO4HDkDIG7btuWhqjZVxf0AnAzgBGPMOmNMXj3d+4gxBqAXBOCpdqNice49/4CI2Pw5PijoD/wXMMZi37593z7jjAc/PB92F3C+nYhWGIPmCBUbTqligzF2yhjzcBE5BcC6GGPMssx770OMMeYV6zYvduNj" +:+
  "PDqKXrrtHQYjDoBoT4wxRu998N6HLMt878MvZFmWAbiz340notHG09aOkjGixRA6DoS14ZKzsba4q1/RM18iAjD5ZkFERKuGF5llyMO7mA/ntAUREfUdA52IiGgEMNCJiIhGAAOdiIhoBDDQiYiIRgADnYiIaAQw0ImIiEYAA52IiGgEMNCJiIhGAAOdiIhoBHDr16MkYlRVPXoHdXCXOLpXIhJV1aiCZ6ET0apioB89VyqVXH6qJtF9MsZg//799+93O4hotLGHeeQEgG7ZsuV+ExP2yYH9LTpC1gIxyh2dTucL4LGpRERERER0T9hDP3pSq9VsvxtBw2XTpk2apinHdYiIiIiIiIiIiIiIiIiIiIiIiIiIiIiIiIiIiIiIiIiIiIiIiIiIiIiIiIiIiIiIiIiIiIiIiIiIiIiIiIiIiIiIiIiIiIiIiIiIiIiIiIiIiIiIiIiIiIiIiIiIiIiIiIiIiIiIiIiIiIiIiIiIiIiIiIiIiIiIiIiIiIiIiIiIiIiIiIiIiIiIiIiIiIiIiIiIiIiIiIiIiIiIiIiIiIiIiIiIiIiIiIiIiIiIiIiIiIiIiIiIiIiIiIiIiIiIiIiIiIiIiIiIiIiIiIiIiIiIiIiIiIiIiIiIiIiIiIiIiIiIiIiIiIiIiIiIiIiIiIiIiIiIiIiIiIiIiIiIiIiIiIiIiIiIiIiIiIiIiIiIiIiIiIiIiIiIiIiIiIiIiIiIiIiIiIiIiIiIiIiIiIiIiIiIiIiIiIiIiIiIiIiIiIiIiIiIiIiIiIiIiIiIiIiIiIiIiIiIiIiIiIiIiIiIiIiIiIiIiIiIiIiIiIiIiIiIiIiIiIiIiIiIiIiIiIiIiIiIiIiIiIiIiIiIiIiIiIiIiIiIiIiIiIiIiIiIiIiIiIiIiIiIiIiIiIiIiIiIiIiIiIiIiIiIaAD8f8irW2OfU4ogAAAAAElFTkSuQmCC".
Definition LAYOUT_CSS : string := quoted "
@import url('https://fonts.googleapis.com/css2?family=Inter:wght@300;400;500;600;700&display=swap');

:root {
    --bg-primary: #09090b;
    --bg-secondary: #18181b;
    --bg-card: #09090b;
    --bg-glass: #18181b;
    --border-subtle: #27272a;
    --border-glow: #3f3f46;
    --text-primary: #fafafa;
    --text-secondary: #a1a1aa;
    --text-muted: #71717a;
    --accent-indigo: #2563eb;
    --accent-blue: #3b82f6;
    --accent-emerald: #10b981;
    --accent-amber: #f59e0b;
    --accent-rose: #ef4444;
    --accent-cyan: #06b6d4;
    --gradient-primary: var(--accent-indigo);
    --gradient-success: var(--accent-emerald);
    --gradient-danger: var(--accent-rose);
    --gradient-warning: var(--accent-amber);
    --shadow-glow: none;
    --shadow-card: none;
    --radius: 2px;
    --radius-sm: 0px;
    --transition: all 0.15s ease;
}

* { margin: 0; padding: 0; box-sizing: border-box; }

body {
    font-family: ui-monospace, SFMono-Regular, Menlo, Monaco, Consolas, ~Liberation Mono~, ~Courier New~, monospace;
    background: var(--bg-primary);
    color: var(--text-primary);
    min-height: 100vh;
    line-height: 1.5;
    font-size: 13px;
    -webkit-font-smoothing: antialiased;
}

.app-shell {
    display: flex;
    min-height: 100vh;
}

/* Sidebar Navigation */
.sidebar {
    width: 260px;
    background: var(--bg-secondary);
    border-right: 1px solid var(--border-subtle);
    padding: 24px 0;
    position: fixed;
    top: 0;
    left: 0;
    bottom: 0;
    z-index: 100;
    display: flex;
    flex-direction: column;
}

.sidebar-brand {
    padding: 0 24px 24px;
    border-bottom: 1px solid var(--border-subtle);
    margin-bottom: 16px;
    display: flex;
    align-items: center;
    gap: 12px;
}

.sidebar-brand h1 {
    font-size: 16px;
    font-weight: 700;
    letter-spacing: 1px;
    color: var(--text-primary);
    text-transform: uppercase;
}

.sidebar-brand .version {
    font-size: 10px;
    color: var(--text-muted);
    font-weight: 400;
}

.nav-section {
    padding: 8px 12px;
    margin-top: 8px;
}

.nav-section-label {
    font-size: 10px;
    font-weight: 700;
    text-transform: uppercase;
    letter-spacing: 1px;
    color: var(--text-muted);
    padding: 0 12px;
    margin-bottom: 8px;
}

.nav-link {
    display: flex;
    align-items: center;
    gap: 12px;
    padding: 8px 16px;
    border-radius: var(--radius-sm);
    color: var(--text-secondary);
    text-decoration: none;
    font-size: 12px;
    font-weight: 500;
    transition: var(--transition);
    margin: 2px 0;
}

.nav-link:hover {
    background: var(--bg-glass);
    color: var(--text-primary);
}

.nav-link.active {
    background: var(--bg-primary);
    color: var(--accent-blue);
    border-left: 2px solid var(--accent-blue);
}

.nav-icon { font-size: 14px; width: 20px; text-align: center; }

.sidebar-footer {
    margin-top: auto;
    padding: 16px 24px;
    border-top: 1px solid var(--border-subtle);
}

/* Main Content */
.main-content {
    margin-left: 260px;
    flex: 1;
    padding: 32px 40px;
    min-height: 100vh;
}

.page-header {
    margin-bottom: 32px;
    padding-bottom: 16px;
    border-bottom: 1px solid var(--border-subtle);
}

.page-header h2 {
    font-size: 20px;
    font-weight: 400;
    letter-spacing: 0.5px;
    margin-bottom: 8px;
    text-transform: uppercase;
}

.page-header p {
    color: var(--text-secondary);
    font-size: 12px;
}

".
Definition PANEL_CSS : string := quoted "/* Cards */
.card-grid {
    display: grid;
    grid-template-columns: repeat(auto-fill, minmax(280px, 1fr));
    gap: 16px;
    margin-bottom: 32px;
}

.card {
    background: var(--bg-card);
    border: 1px solid var(--border-subtle);
    border-radius: var(--radius);
    padding: 20px;
    transition: var(--transition);
}

.card:hover {
    border-color: var(--border-glow);
}

.card-label {
    font-size: 10px;
    font-weight: 700;
    text-transform: uppercase;
    letter-spacing: 1px;
    color: var(--text-muted);
    margin-bottom: 8px;
}

.card-value {
    font-size: 24px;
    font-weight: 400;
    letter-spacing: 0;
}

.card-sub {
    font-size: 11px;
    color: var(--text-secondary);
    margin-top: 4px;
}

/* Status Badges */
.badge {
    display: inline-flex;
    align-items: center;
    gap: 6px;
    padding: 2px 8px;
    border-radius: var(--radius-sm);
    font-size: 11px;
    font-weight: 600;
    letter-spacing: 0.5px;
    border: 1px solid transparent;
}

.badge-success { background: var(--bg-primary); border-color: var(--accent-emerald); color: var(--accent-emerald); }
.badge-warning { background: var(--bg-primary); border-color: var(--accent-amber); color: var(--accent-amber); }
.badge-danger  { background: var(--bg-primary); border-color: var(--accent-rose); color: var(--accent-rose); }
.badge-info    { background: var(--bg-primary); border-color: var(--accent-blue); color: var(--accent-blue); }
.badge-muted   { background: var(--bg-primary); border-color: var(--border-subtle); color: var(--text-muted); }

.badge::before {
    content: '';
    width: 6px;
    height: 6px;
    background: currentColor;
    border-radius: 0; /* Boxy */
}

/* Data Tables */
.data-table {
    width: 100%;
    border-collapse: separate;
    border-spacing: 0;
    margin-top: 16px;
    border: 1px solid var(--border-subtle);
}

.data-table thead th {
    font-size: 10px;
    font-weight: 700;
    text-transform: uppercase;
    letter-spacing: 1px;
    color: var(--text-muted);
    padding: 10px 16px;
    text-align: left;
    border-bottom: 1px solid var(--border-subtle);
    background: var(--bg-secondary);
}

.data-table tbody td {
    padding: 12px 16px;
    font-size: 12px;
    border-bottom: 1px solid var(--border-subtle);
    color: var(--text-secondary);
}

.data-table tbody tr:hover td {
    background: var(--bg-secondary);
    color: var(--text-primary);
}

.data-table .mono {
    font-family: inherit;
}

/* Detail Panels */
.detail-panel {
    background: var(--bg-card);
    border: 1px solid var(--border-subtle);
    border-radius: var(--radius);
    padding: 24px;
    margin-bottom: 24px;
}

.detail-row {
    display: flex;
    justify-content: space-between;
    align-items: center;
    padding: 10px 0;
    border-bottom: 1px dashed var(--border-subtle);
}

.detail-row:last-child { border-bottom: none; }

.detail-label {
    font-size: 12px;
    color: var(--text-muted);
    font-weight: 400;
}

.detail-value {
    font-size: 12px;
    color: var(--text-primary);
    font-weight: 400;
}

".
Definition CONTROL_CSS : string := quoted "/* Buttons */
.btn {
    display: inline-flex;
    align-items: center;
    gap: 8px;
    padding: 8px 16px;
    border-radius: var(--radius-sm);
    font-size: 12px;
    font-weight: 600;
    border: 1px solid var(--border-subtle);
    cursor: pointer;
    transition: var(--transition);
    text-decoration: none;
    font-family: inherit;
    text-transform: uppercase;
    letter-spacing: 0.5px;
    background: var(--bg-secondary);
    color: var(--text-primary);
}

.btn:hover {
    border-color: var(--text-muted);
}

.btn-primary {
    background: var(--accent-indigo);
    color: white;
    border-color: var(--accent-indigo);
}
.btn-primary:hover { background: #1d4ed8; border-color: #1d4ed8; }

.btn-success {
    background: var(--accent-emerald);
    color: white;
    border-color: var(--accent-emerald);
}

.btn-danger {
    background: var(--accent-rose);
    color: white;
    border-color: var(--accent-rose);
}

.btn-ghost {
    background: transparent;
    border-color: transparent;
    color: var(--text-secondary);
}
.btn-ghost:hover { background: var(--bg-secondary); color: var(--text-primary); }

.btn-group { display: flex; gap: 8px; margin-top: 16px; }

/* Login Page */
.login-container {
    display: flex;
    align-items: center;
    justify-content: center;
    min-height: 100vh;
    background: var(--bg-primary);
}

.login-card {
    background: var(--bg-card);
    border: 1px solid var(--border-subtle);
    border-radius: var(--radius);
    padding: 40px;
    width: 400px;
}

.login-card h1 {
    font-size: 20px;
    font-weight: 400;
    color: var(--text-primary);
    margin-bottom: 8px;
    text-align: center;
    text-transform: uppercase;
    letter-spacing: 1px;
}

.login-card p {
    color: var(--text-muted);
    font-size: 12px;
    text-align: center;
    margin-bottom: 24px;
}

.input-group {
    margin-bottom: 16px;
}

.input-group label {
    display: block;
    font-size: 10px;
    font-weight: 700;
    color: var(--text-secondary);
    margin-bottom: 8px;
    text-transform: uppercase;
    letter-spacing: 1px;
}

.input-group input {
    width: 100%;
    padding: 10px 12px;
    border-radius: var(--radius-sm);
    border: 1px solid var(--border-subtle);
    background: var(--bg-secondary);
    color: var(--text-primary);
    font-size: 12px;
    font-family: inherit;
    transition: var(--transition);
    outline: none;
}

.input-group input:focus {
    border-color: var(--accent-indigo);
}

.login-btn {
    width: 100%;
    padding: 12px;
    margin-top: 8px;
    justify-content: center;
}

.error-msg {
    background: rgba(239, 68, 68, 0.1);
    color: var(--accent-rose);
    padding: 10px 12px;
    border-radius: var(--radius-sm);
    font-size: 12px;
    margin-bottom: 16px;
    border: 1px solid rgba(239, 68, 68, 0.2);
}

/* Animations */
@keyframes pulse { 0%, 100% { opacity: 1; } 50% { opacity: 0.5; } }
@keyframes fadeIn { from { opacity: 0; } to { opacity: 1; } }

.animate-pulse { animation: pulse 2s ease-in-out infinite; }
.animate-fade-in { animation: fadeIn 0.3s ease-out; }

/* Responsive */
@media (max-width: 768px) {
    .sidebar { width: 60px; padding: 16px 0; }
    .sidebar-brand h1, .nav-link span, .nav-section-label, .sidebar-footer { display: none; }
    .nav-link { justify-content: center; padding: 12px; }
    .main-content { margin-left: 60px; padding: 20px; }
    .card-grid { grid-template-columns: 1fr; }
}".
Definition COMMON_CSS : string := LAYOUT_CSS +:+ PANEL_CSS +:+ CONTROL_CSS.

Definition lit (s : string) : doc := [Lit s].
(** [d or "..."] for a piece of page *)
Definition doc_or (d : doc) (s : string) : doc := if str_true (text d) then d else lit s.
(** ["a" if c else "b"] *)
Definition choose (c : result pyobj) (a b : string) : result doc := cond c (Ok (lit a)) (Ok (lit b)).
Definition pick (b : bool) (x y : string) : doc := lit (if b then x else y).
(** An f-string whose expressions may raise. *)
Fixpoint eval_holes (l : list (string * result doc)) : result holes :=
  match l with
  | [] => Ok []
  | (n, e) :: l' => let? d := e in let? h := eval_holes l' in Ok ((n, d) :: h)
  end.
Definition fmtM (s : string) (l : list (string * result doc)) : result doc :=
  let? h := eval_holes l in Ok (fmt s h).
(** [rows += f"..."] over a list *)
Definition rows_of {A} (f : A -> result doc) (l : list A) : result doc :=
  rbind (fun ds : list doc => Ok (concat ds)) (results (f <$> l)).

Definition nav_link (path icon label active_path : string) : doc :=
  let active := lit (if path =s active_path then " active" else "") in
  let path := lit path in let icon := lit icon in let label := lit label in
    (fmt "<a href=~{path}~ class=~nav-link{active}~><span class=~nav-icon~>{icon}</span><span>{label}</span></a>"
      [("path", path);
       ("active", active);
       ("icon", icon);
       ("label", label)]).
Definition base_layout (title content : doc) (active_path csrf_token : string) : doc :=
    (fmt "<!DOCTYPE html>
<html lang=~en~>
<head>
    <link rel=~icon~ href=~data:image/x-icon;base64,{FAVICON}~ type=~image/x-icon~>
    <meta charset=~UTF-8~>
    <meta name=~viewport~ content=~width=device-width, initial-scale=1.0~>
    <meta name=~robots~ content=~noindex, nofollow~>
    <title>{title} — ANNY Runtime</title>
    <style>{COMMON_CSS}</style>
</head>
<body>
<div class=~app-shell~>
    <nav class=~sidebar~>
        <div class=~sidebar-brand~>
            <img src=~data:image/png;base64,{LOGO}~ alt=~ANNY Logo~ style=~width:32px; height:auto; margin-bottom:8px;~ />
            <h1>ANNY</h1>
            
            <div class=~version~ style=~margin-top:8px;~>Runtime: ANNY-RUNTIME</div>
        </div>
        <div class=~nav-section~>
            <div class=~nav-section-label~>OVERVIEW</div>
            {nav1}
        </div>
        <div class=~nav-section~>
            <div class=~nav-section-label~>UNIVERSE</div>
            {nav2}
            {nav3}
            {nav4}
            {nav5}
            {nav6}
        </div>
        <div class=~nav-section~>
            <div class=~nav-section-label~>EXECUTION</div>
            {nav7}
            {nav8}
            {nav9}
            {nav10}
            {nav11}
            {nav12}
        </div>
        <div class=~nav-section~>
            <div class=~nav-section-label~>INTELLIGENCE</div>
            {nav13}
            {nav14}
            {nav15}
            {nav16}
        </div>
        <div class=~nav-section~>
            <div class=~nav-section-label~>INFRASTRUCTURE</div>
            {nav17}
            {nav18}
            {nav19}
            {nav20}
            {nav21}
        </div>
        <div class=~nav-section~>
            <div class=~nav-section-label~>TELEMETRY</div>
            {nav22}
            {nav23}
        </div>
        <div class=~nav-section~>
            <div class=~nav-section-label~>CONTINUITY</div>
            {nav24}
            {nav25}
            {nav26}
            {nav27}
            {nav28}
            {nav29}
        </div>
        <div class=~nav-section~>
            <div class=~nav-section-label~>AUDIT</div>
            {nav30}
            {nav31}
            {nav32}
            {nav33}
        </div>
        <div class=~sidebar-footer~>
            <form method=~POST~ action=~/logout~ style=~display:inline;~>
                <input type=~hidden~ name=~csrf_token~ value=~{csrf_token}~>
                <button type=~submit~ class=~btn btn-ghost~ style=~width:100%;~>⏻ Logout</button>
            </form>
        </div>
    </nav>
    <main class=~main-content animate-fade-in~>
        {content}
    </main>
</div>
</body>
</html>"
      [("FAVICON", [Lit FAVICON]);
       ("title", title);
       ("COMMON_CSS", [Lit COMMON_CSS]);
       ("LOGO", [Lit LOGO]);
       ("nav1", (nav_link "/" "⬡" "Dashboard" active_path));
       ("nav2", (nav_link "/universe/organization" "❖" "Organization" active_path));
       ("nav3", (nav_link "/universe/projects" "◫" "Projects" active_path));
       ("nav4", (nav_link "/universe/repositories" "⊙" "Repositories" active_path));
       ("nav5", (nav_link "/universe/resources" "◈" "Resources" active_path));
       ("nav6", (nav_link "/universe/dependencies" "⋈" "Dependencies" active_path));
       ("nav7", (nav_link "/execution/missions" "🎯" "Missions" active_path));
       ("nav8", (nav_link "/execution/tasks" "✓" "Tasks" active_path));
       ("nav9", (nav_link "/execution/workers" "⚙" "Workers" active_path));
       ("nav10", (nav_link "/execution/executions" "▶" "Executions" active_path));
       ("nav11", (nav_link "/execution/workspaces" "📁" "Workspaces" active_path));
       ("nav12", (nav_link "/execution/results" "📊" "Results" active_path));
       ("nav13", (nav_link "/intelligence/models" "🧠" "Models" active_path));
       ("nav14", (nav_link "/intelligence/capabilities" "⚡" "Capabilities" active_path));
       ("nav15", (nav_link "/intelligence/executors" "🛠" "Executors" active_path));
       ("nav16", (nav_link "/intelligence/performance" "📈" "Performance" active_path));
       ("nav17", (nav_link "/infrastructure/runtime" "🖥" "Runtime" active_path));
       ("nav18", (nav_link "/infrastructure/github" "🐙" "GitHub" active_path));
       ("nav19", (nav_link "/infrastructure/fabric" "☁" "Fabric" active_path));
       ("nav20", (nav_link "/infrastructure/mcp" "🔌" "MCP" active_path));
       ("nav21", (nav_link "/infrastructure/azure" "🔷" "Azure" active_path));
       ("nav22", (nav_link "/telemetry/live" "📡" "Live Stream" active_path));
       ("nav23", (nav_link "/telemetry/timeline" "⏱" "Timeline" active_path));
       ("nav24", (nav_link "/continuity/state" "⏱" "Current state" active_path));
       ("nav25", (nav_link "/continuity/mission" "🎯" "Mission" active_path));
       ("nav26", (nav_link "/continuity/task" "✓" "Task" active_path));
       ("nav27", (nav_link "/continuity/next" "⏭" "Next action" active_path));
       ("nav28", (nav_link "/continuity/blockers" "🛑" "Blockers" active_path));
       ("nav29", (nav_link "/continuity/recovery" "⚕" "Recovery" active_path));
       ("nav30", (nav_link "/audit/events" "📋" "Events" active_path));
       ("nav31", (nav_link "/audit/provenance" "🔍" "Provenance" active_path));
       ("nav32", (nav_link "/audit/evidence" "🛡" "Evidence" active_path));
       ("nav33", (nav_link "/audit/changes" "📝" "Changes" active_path));
       ("csrf_token", [Val csrf_token]);
       ("content", content)]).
Definition render_empty_state (message : string) : doc :=
  let message := lit message in
    (fmt "<div style=~padding: 40px; text-align: center; color: var(--text-muted); font-size: 14px;~>{message}</div>"
      [("message", message)]).

Section Pages.
Context {float_ops : FloatOps} `{ObjectEnv}.
Definition show : result pyobj -> result doc := rbind (fun o => Ok [Val (obj_str o)]).
Definition shown (o : pyobj) : doc := [Val (obj_str o)].

(** ** Pages outside the panel *)
Definition first_run_page (error : pyobj) (csrf_token : string) (device_flow_available : pyobj)
    : result doc :=
  let? error_html := cond (Ok error)
    (fmtM "<div style=~color:var(--accent-ruby); margin-bottom:16px; font-size:14px; padding:12px; background:rgba(235,87,87,0.1); border-radius:4px;~>{error}</div>"
      [("error", show (Ok error))])
    (Ok []) in
  let? device_flow_html := cond (Ok device_flow_available)
    (fmtM "<form method=~POST~ action=~/github/device/init~>
            <input type=~hidden~ name=~csrf_token~ value=~{csrf_token}~>
            <button type=~submit~ class=~btn btn-primary login-btn~>CONNECT WITH GITHUB DEVICE FLOW</button>
        </form>"
      [("csrf_token", Ok [Val csrf_token])])
    (Ok []) in
  let? token_html :=
    (fmtM "<form method=~POST~ action=~/github/token~ style=~margin-top:16px;~>
            <input type=~hidden~ name=~csrf_token~ value=~{csrf_token}~>
            <label for=~github_token_input~ style=~display:block; margin-bottom:8px; color:var(--text-secondary); font-size:12px; font-weight:600; letter-spacing:1px;~>GITHUB ACCESS TOKEN</label>
            <input type=~password~ name=~github_token~ id=~github_token_input~ style=~width:100%; padding:12px; border:1px solid var(--border-color); border-radius:4px; background:var(--bg-secondary); color:var(--text-primary); font-family:var(--font-mono); font-size:14px;~ required autocomplete=~off~ spellcheck=~false~>
            <button type=~submit~ class=~btn btn-primary login-btn~>CONNECT WITH ACCESS TOKEN</button>
        </form>"
      [("csrf_token", Ok [Val csrf_token])]) in
    (fmtM "<!DOCTYPE html>
<html lang=~en~>
<head>
    <link rel=~icon~ href=~data:image/x-icon;base64,{FAVICON}~ type=~image/x-icon~>
    <meta charset=~UTF-8~>
    <meta name=~viewport~ content=~width=device-width, initial-scale=1.0~>
    <meta name=~robots~ content=~noindex, nofollow~>
    <title>Setup — ANNY Runtime</title>
    <style>{COMMON_CSS}</style>
</head>
<body>
<div class=~login-container~>
    <div class=~login-card animate-fade-in~ style=~text-align:center;~>
        <div class=~sidebar-brand~ style=~margin-bottom: 24px;~>
            <img src=~data:image/png;base64,{LOGO}~ alt=~ANNY Logo~ style=~width: 48px; height: 48px; object-fit: contain; margin-bottom: 12px; filter: drop-shadow(0 0 8px rgba(255,255,255,0.2));~>
            
            <h1 style=~margin: 4px 0;~>ANNY</h1>
            <div class=~version~ style=~font-size: 12px; color: var(--text-muted);~>Runtime: ANNY-RUNTIME</div>
        </div>
        <p style=~color:var(--text-primary);font-weight:600;margin-bottom:8px;~>Runtime installed</p>
        <p style=~color:var(--text-primary);font-weight:600;margin-bottom:24px;~>Runtime active</p>
        <p style=~color:var(--text-secondary);margin-bottom:32px;~>Connect GitHub to begin.</p>
        {error_html}
        {device_flow_html}
        {token_html}
    </div>
</div>
</body>
</html>"
      [("FAVICON", Ok [Lit FAVICON]);
       ("COMMON_CSS", Ok [Lit COMMON_CSS]);
       ("LOGO", Ok [Lit LOGO]);
       ("error_html", Ok error_html);
       ("device_flow_html", Ok device_flow_html);
       ("token_html", Ok token_html)]).
Definition device_flow_page (user_code verification_uri : pyobj) (csrf_token : string) : result doc :=
    (fmtM "<!DOCTYPE html>
<html lang=~en~>
<head>
    <link rel=~icon~ href=~data:image/x-icon;base64,{FAVICON}~ type=~image/x-icon~>
    <meta charset=~UTF-8~>
    <meta name=~viewport~ content=~width=device-width, initial-scale=1.0~>
    <meta name=~robots~ content=~noindex, nofollow~>
    <title>Authorize — ANNY Runtime</title>
    <style>{COMMON_CSS}</style>
</head>
<body>
<div class=~login-container~>
    <div class=~login-card animate-fade-in~ style=~text-align:center;~>
        <h2 style=~margin-bottom:16px;~>GitHub Authorization</h2>
        <p style=~color:var(--text-secondary);margin-bottom:24px;~>Please enter this code on GitHub to authorize ANNY:</p>
        <div style=~font-size:32px; letter-spacing:4px; font-weight:700; margin-bottom:24px; padding:16px; background:var(--bg-secondary); border-radius:8px;~>
            {user_code}
        </div>
        <a href=~{verification_uri}~ target=~_blank~ class=~btn btn-primary login-btn~ style=~text-decoration:none; display:block; margin-bottom:24px;~>OPEN GITHUB</a>
        <p id=~status-text~ style=~color:var(--text-secondary);font-size:14px;~>Waiting for authorization...</p>
    </div>
</div>
<script>
    function pollStatus() {{
        fetch('/github/device/poll')
            .then(response => response.json())
            .then(data => {{
                if (data.status === 'AUTHORIZED') {{
                    document.getElementById('status-text').innerText = 'Authorized! Redirecting...';
                    document.getElementById('status-text').style.color = 'var(--accent-teal)';
                    setTimeout(() => window.location.href = '/', 1000);
                }} else if (data.status === 'FAILED') {{
                    document.getElementById('status-text').innerText = 'Authorization failed: ' + (data.error || 'Unknown error');
                    document.getElementById('status-text').style.color = 'var(--accent-ruby)';
                }} else {{
                    setTimeout(pollStatus, 3000);
                }}
            }})
            .catch(error => {{
                console.error('Polling error:', error);
                setTimeout(pollStatus, 5000);
            }});
    }}
    setTimeout(pollStatus, 3000);
</script>
</body>
</html>"
      [("FAVICON", Ok [Lit FAVICON]);
       ("COMMON_CSS", Ok [Lit COMMON_CSS]);
       ("user_code", show (Ok user_code));
       ("verification_uri", show (Ok verification_uri))]).
(** [{{COMMON_CSS}}], [{{error_html}}] and [{{csrf_token}}] are printed as they stand,
    in braces. *)
Definition fabric_setup_page (organizations : list pyobj) (error : pyobj) (csrf_token : string)
    : result doc :=
  let? error_html := cond (Ok error)
    (fmtM "<div style=~color:var(--accent-ruby); margin-bottom:16px; font-size:14px; padding:12px; background:rgba(235,87,87,0.1); border-radius:4px;~>{error}</div>"
      [("error", show (Ok error))])
    (Ok []) in
  let? org_options := rows_of (fun org =>
    (fmtM "<option value=~{login}~>{login}</option>"
      [("login", show (getd "login" VNone (Ok org)))])) organizations in
    (fmtM "<!DOCTYPE html>
<html lang=~en~>
<head>
    <meta charset=~UTF-8~>
    <meta name=~viewport~ content=~width=device-width, initial-scale=1.0~>
    <meta name=~robots~ content=~noindex, nofollow~>
    <title>Fabric Setup — ANNY Runtime</title>
    <style>{{COMMON_CSS}}</style>
</head>
<body>
<div class=~login-container~>
    <div class=~login-card animate-fade-in~>
        <h2 style=~margin-bottom:16px; text-align:center;~>Configure Fabric</h2>
        <p style=~color:var(--text-secondary);margin-bottom:24px; text-align:center;~>Select your organization and Fabric repository.</p>
        {{error_html}}
        <form method=~POST~ action=~/fabric/setup~>
            <input type=~hidden~ name=~csrf_token~ value=~{{csrf_token}}~>
            <div style=~margin-bottom: 16px;~>
                <label style=~display:block; margin-bottom: 8px; font-weight: 600;~>Organization</label>
                <select name=~fabric_org~ style=~width: 100%; padding: 10px; border-radius: 4px; border: 1px solid var(--border-color); background: var(--bg-secondary); color: var(--text-primary);~>
                    <option value=~~>-- Select Organization --</option>
                    {org_options}
                </select>
            </div>
            <div style=~margin-bottom: 24px;~>
                <label style=~display:block; margin-bottom: 8px; font-weight: 600;~>Fabric Repository</label>
                <input type=~text~ name=~fabric_repo~ placeholder=~e.g. ANNY-OPERATIONAL~ style=~width: 100%; padding: 10px; border-radius: 4px; border: 1px solid var(--border-color); background: var(--bg-secondary); color: var(--text-primary); box-sizing: border-box;~>
            </div>
            <button type=~submit~ class=~btn btn-primary login-btn~>BIND RUNTIME</button>
        </form>
    </div>
</div>
</body>
</html>"
      [("org_options", Ok org_options)]).
Definition reconnect_page (csrf_token : string) : result doc :=
    (fmtM "<!DOCTYPE html>
<html lang=~en~>
<head>
    <link rel=~icon~ href=~data:image/x-icon;base64,{FAVICON}~ type=~image/x-icon~>
    <meta charset=~UTF-8~>
    <meta name=~viewport~ content=~width=device-width, initial-scale=1.0~>
    <meta name=~robots~ content=~noindex, nofollow~>
    <title>Reconnect — ANNY Runtime</title>
    <style>{COMMON_CSS}</style>
</head>
<body>
<div class=~login-container~>
    <div class=~login-card animate-fade-in~ style=~text-align:center;~>
        <div class=~sidebar-brand~ style=~margin-bottom: 24px;~>
            <img src=~data:image/png;base64,{LOGO}~ alt=~ANNY Logo~ style=~width: 48px; height: 48px; object-fit: contain; margin-bottom: 12px; filter: drop-shadow(0 0 8px rgba(255,255,255,0.2));~>
            
            <h1 style=~margin: 4px 0;~>ANNY</h1>
            <div class=~version~ style=~font-size: 12px; color: var(--text-muted);~>Runtime: ANNY-RUNTIME</div>
        </div>
        <p style=~color:var(--text-primary);font-weight:600;margin-bottom:8px;~>GitHub authorization expired</p>
        <p style=~color:var(--text-secondary);margin-bottom:32px;~>Please provide a new GitHub Access Token to reconnect.</p>
        <form method=~POST~ action=~/github/token~>
            <input type=~hidden~ name=~csrf_token~ value=~{csrf_token}~>
            <div style=~margin-bottom: 24px; text-align: left;~>
                <label for=~github_token_input~ style=~display:block; margin-bottom:8px; color:var(--text-secondary); font-size:12px; font-weight:600; letter-spacing:1px;~>RECOVERY TOKEN (Admin Only)</label>
                <input type=~password~ name=~github_token~ id=~github_token_input~ style=~width:100%; padding:12px; border:1px solid var(--border-color); border-radius:4px; background:var(--bg-secondary); color:var(--text-primary); font-family:var(--font-mono); font-size:14px;~ required autocomplete=~off~ spellcheck=~false~>
            </div>
            <button type=~submit~ class=~btn btn-primary login-btn~>RECONNECT</button>
        </form>
    </div>
</div>
</body>
</html>"
      [("FAVICON", Ok [Lit FAVICON]);
       ("COMMON_CSS", Ok [Lit COMMON_CSS]);
       ("LOGO", Ok [Lit LOGO]);
       ("csrf_token", Ok [Val csrf_token])]).
Definition failure_page (reason : pyobj) (csrf_token : string) : result doc :=
    (fmtM "<!DOCTYPE html>
<html lang=~en~>
<head>
    <link rel=~icon~ href=~data:image/x-icon;base64,{FAVICON}~ type=~image/x-icon~>
    <meta charset=~UTF-8~>
    <meta name=~viewport~ content=~width=device-width, initial-scale=1.0~>
    <meta name=~robots~ content=~noindex, nofollow~>
    <title>Failure — ANNY Runtime</title>
    <style>{COMMON_CSS}</style>
</head>
<body>
<div class=~login-container~>
    <div class=~login-card animate-fade-in~ style=~text-align:center;~>
        <h1>ANNY</h1>
        <p style=~color:var(--text-primary);font-weight:600;margin-bottom:16px;~>GitHub connection failed.</p>
        <p style=~color:var(--text-secondary);margin-bottom:32px;~>Reason:<br>{reason}</p>
        <form method=~POST~ action=~/github/token~>
            <input type=~hidden~ name=~csrf_token~ value=~{csrf_token}~>
            <div style=~margin-bottom: 24px; text-align: left;~>
                <label for=~github_token_input~ style=~display:block; margin-bottom:8px; color:var(--text-secondary); font-size:12px; font-weight:600; letter-spacing:1px;~>RECOVERY TOKEN (Admin Only)</label>
                <input type=~password~ name=~github_token~ id=~github_token_input~ style=~width:100%; padding:12px; border:1px solid var(--border-color); border-radius:4px; background:var(--bg-secondary); color:var(--text-primary); font-family:var(--font-mono); font-size:14px;~ required autocomplete=~off~ spellcheck=~false~>
            </div>
            <button type=~submit~ class=~btn btn-primary login-btn~>RETRY</button>
        </form>
    </div>
</div>
</body>
</html>"
      [("FAVICON", Ok [Lit FAVICON]);
       ("COMMON_CSS", Ok [Lit COMMON_CSS]);
       ("reason", show (Ok reason));
       ("csrf_token", Ok [Val csrf_token])]).

(** ** The dashboard *)
(** [status.get(k, {}) if isinstance(status, dict) else {}] *)
Definition part (k : string) (status : pyobj) : result pyobj :=
  if is_dict_obj status then getd k (VDict []) (Ok status) else Ok (PVal (VDict [])).
(** [l[0]] of a list, a text or a dictionary of texts *)
Definition first_item : result pyobj -> result pyobj := rbind (fun o =>
  match o with
  | PVal (VList (v :: _)) => Ok (PVal v)
  | PVal (VStr (String c _)) => Ok (str (String c ""))
  | PVal (VList []) => raise (OtherException "IndexError") "list index out of range"
  | PVal (VStr "") => raise (OtherException "IndexError") "string index out of range"
  | PVal (VDict _) => raise KeyError "0"
  | _ => raise TypeError (squote +:+ obj_type_name o +:+ squote +:+ " object is not subscriptable")
  end).
(** [orgs[0].get('login') if orgs and isinstance(orgs[0], dict) else gh.get('principal')] *)
Definition organization_name (orgs gh : pyobj) : result pyobj :=
  let? o := (if obj_truthy orgs then let? x := first_item (Ok orgs) in Ok (is_dict_obj x) else Ok false) in
  if (o : bool) then getd "login" VNone (first_item (Ok orgs))
  else getd "principal" (VStr "—") (Ok gh).
Definition ready_page (status : pyobj) (csrf_token : string) : result doc :=
  let? cont := part "continuity" status in
  let? gh := part "github" status in
  let? runtime_st := part "runtime" status in
  let? continuity_status := getd "status" (VStr "UNKNOWN") (Ok cont) in
  let? mission := getd "current_mission" (VStr "—") (Ok cont) in
  let? task := getd "current_task" (VStr "—") (Ok cont) in
  let? next_action := getd "next_action" (VStr "—") (Ok cont) in
  let? blocker_count := getd "blocker_count" (VInt 0) (Ok cont) in
  let? orgs := getd "organizations" (VList []) (Ok cont) in
  let? org_name := organization_name orgs gh in
  let? repos := getd "repositories" (VList []) (Ok cont) in
  let? repo_count := length_of (Ok repos) in
  let? l2_info := or_else (getd "l2_worker_summary" VNone (Ok cont)) (Ok (PVal (VDict []))) in
  let? l2_count := (if is_dict_obj l2_info then getd "count" (VInt 0) (Ok l2_info)
                    else Ok (PVal (VInt 0))) in
  let? identity := part "identity" status in
  let? id_str :=
    (fmtM "{key_type} / {status}"
      [("key_type", show (getd "key_type" (VStr "UNKNOWN") (Ok identity)));
       ("status", show (getd "status" (VStr "UNKNOWN") (Ok identity)))]) in
  let? content :=
    (fmtM "
        <div class=~page-header~>
            <h2>ANNY Control Plane</h2>
            <p>Operational Dashboard & Universe Status</p>
        </div>

        <div style=~display:grid; grid-template-columns: repeat(auto-fit, minmax(220px, 1fr)); gap: 16px; margin-bottom: 24px;~>
            <!-- INFRASTRUCTURE -->
            <a href=~/infrastructure/runtime~ style=~text-decoration:none;~ class=~card~ style=~padding:20px; cursor:pointer;~>
                <div style=~font-size:12px; color:var(--text-muted); text-transform:uppercase; letter-spacing:1px; margin-bottom:4px;~>Runtime</div>
                <div style=~font-size:22px; font-weight:700;~><span class=~badge badge-success~>{runtime_status}</span></div>
            </a>
            <a href=~/infrastructure/github~ style=~text-decoration:none;~ class=~card~ style=~padding:20px; cursor:pointer;~>
                <div style=~font-size:12px; color:var(--text-muted); text-transform:uppercase; letter-spacing:1px; margin-bottom:4px;~>GitHub</div>
                <div style=~font-size:22px; font-weight:700;~><span class=~badge {badge_class}~>{auth_status}</span></div>
            </a>
            <a href=~/infrastructure/fabric~ style=~text-decoration:none;~ class=~card~ style=~padding:20px; cursor:pointer;~>
                <div style=~font-size:12px; color:var(--text-muted); text-transform:uppercase; letter-spacing:1px; margin-bottom:4px;~>Fabric</div>
                <div style=~font-size:22px; font-weight:700;~><span class=~badge {badge_class2}~>{label}</span></div>
            </a>
            <a href=~/infrastructure/mcp~ style=~text-decoration:none;~ class=~card~ style=~padding:20px; cursor:pointer;~>
                <div style=~font-size:12px; color:var(--text-muted); text-transform:uppercase; letter-spacing:1px; margin-bottom:4px;~>MCP Nodes</div>
                <div style=~font-size:22px; font-weight:700; color:var(--accent-indigo);~>{mcp_count}</div>
            </a>

            <!-- UNIVERSE -->
            <a href=~/universe/projects~ style=~text-decoration:none;~ class=~card~ style=~padding:20px; cursor:pointer;~>
                <div style=~font-size:12px; color:var(--text-muted); text-transform:uppercase; letter-spacing:1px; margin-bottom:4px;~>Projects</div>
                <div style=~font-size:22px; font-weight:700; color:var(--accent-indigo);~>{project_count}</div>
            </a>
            <a href=~/universe/repositories~ style=~text-decoration:none;~ class=~card~ style=~padding:20px; cursor:pointer;~>
                <div style=~font-size:12px; color:var(--text-muted); text-transform:uppercase; letter-spacing:1px; margin-bottom:4px;~>Repositories</div>
                <div style=~font-size:22px; font-weight:700; color:var(--accent-indigo);~>{repo_count}</div>
            </a>
            <a href=~/universe/resources~ style=~text-decoration:none;~ class=~card~ style=~padding:20px; cursor:pointer;~>
                <div style=~font-size:12px; color:var(--text-muted); text-transform:uppercase; letter-spacing:1px; margin-bottom:4px;~>Fabric Resources</div>
                <div style=~font-size:22px; font-weight:700; color:var(--accent-emerald);~>{resource_count}</div>
            </a>

            <!-- INTELLIGENCE -->
            <a href=~/intelligence/models~ style=~text-decoration:none;~ class=~card~ style=~padding:20px; cursor:pointer;~>
                <div style=~font-size:12px; color:var(--text-muted); text-transform:uppercase; letter-spacing:1px; margin-bottom:4px;~>Models</div>
                <div style=~font-size:22px; font-weight:700; color:var(--accent-indigo);~>{model_count}</div>
            </a>
            <a href=~/intelligence/capabilities~ style=~text-decoration:none;~ class=~card~ style=~padding:20px; cursor:pointer;~>
                <div style=~font-size:12px; color:var(--text-muted); text-transform:uppercase; letter-spacing:1px; margin-bottom:4px;~>Capabilities</div>
                <div style=~font-size:22px; font-weight:700; color:var(--accent-indigo);~>{capability_count}</div>
            </a>

            <!-- EXECUTION -->
            <a href=~/execution/workers~ style=~text-decoration:none;~ class=~card~ style=~padding:20px; cursor:pointer;~>
                <div style=~font-size:12px; color:var(--text-muted); text-transform:uppercase; letter-spacing:1px; margin-bottom:4px;~>Workers</div>
                <div style=~font-size:22px; font-weight:700; color:var(--accent-indigo);~>{worker_count}</div>
            </a>
            <a href=~/execution/tasks~ style=~text-decoration:none;~ class=~card~ style=~padding:20px; cursor:pointer;~>
                <div style=~font-size:12px; color:var(--text-muted); text-transform:uppercase; letter-spacing:1px; margin-bottom:4px;~>Pending Tasks</div>
                <div style=~font-size:22px; font-weight:700; color:var(--accent-indigo);~>{task_count}</div>
            </a>
            <a href=~/continuity/blockers~ style=~text-decoration:none;~ class=~card~ style=~padding:20px; cursor:pointer;~>
                <div style=~font-size:12px; color:var(--text-muted); text-transform:uppercase; letter-spacing:1px; margin-bottom:4px;~>Blockers</div>
                <div style=~font-size:22px; font-weight:700; color:var(--accent-amber);~>{blocker_count}</div>
            </a>
        </div>

        <div class=~detail-panel~ style=~margin-bottom: 24px;~>
            <h3 style=~font-size:15px; margin-bottom:16px; color:var(--accent-indigo);~>Canonical State Overview</h3>
            <div class=~detail-row~><span class=~detail-label~>Runtime Identity</span><span class=~detail-value~>{id_str}</span></div>
            <div class=~detail-row~><span class=~detail-label~>GitHub Principal</span><span class=~detail-value~>{principal}</span></div>
            <div class=~detail-row~><span class=~detail-label~>Organizations</span><span class=~detail-value~>{org_name}</span></div>
            <div class=~detail-row~><span class=~detail-label~>Current Mission</span><span class=~detail-value~ style=~font-weight:600; color:var(--accent-emerald);~>{mission}</span></div>
        </div>
    "
      [("runtime_status", show (getd "runtime_status" (VStr "CONNECTED") (Ok cont)));
       ("badge_class", choose (getd "connected" VNone (Ok gh)) "badge-success" "badge-danger");
       ("auth_status", show (getd "auth_status" (VStr "ERROR") (Ok gh)));
       ("badge_class2", choose (getd "fabric_connected" VNone (Ok status)) "badge-success" "badge-danger");
       ("label", choose (getd "fabric_connected" VNone (Ok status)) "CONNECTED" "ERROR");
       ("mcp_count", show (getd "mcp_count" (VInt 0) (Ok status)));
       ("project_count", show (getd "project_count" (VInt 0) (Ok status)));
       ("repo_count", show (Ok repo_count));
       ("resource_count", show (getd "resource_count" (VInt 0) (Ok status)));
       ("model_count", show (getd "model_count" (VInt 0) (Ok status)));
       ("capability_count", show (getd "capability_count" (VInt 0) (Ok status)));
       ("worker_count", show (getd "worker_count" (VInt 0) (Ok status)));
       ("task_count", show (getd "task_count" (VInt 0) (Ok status)));
       ("blocker_count", show (Ok blocker_count));
       ("id_str", Ok id_str);
       ("principal", show (getd "principal" (VStr "—") (Ok gh)));
       ("org_name", show (Ok org_name));
       ("mission", show (Ok mission))]) in
  Ok (base_layout (lit "Dashboard") content "/" csrf_token).

(** ** Connections *)
Definition github_page (gh_status error : pyobj) (csrf_token : string) : result doc :=
  let? badge_class := choose (getd "connected" VNone (Ok gh_status)) "badge-success" "badge-danger" in
  let? status_text := cond (getd "connected" VNone (Ok gh_status)) (Ok (str "CONNECTED"))
                        (getd "auth_status" (VStr "UNKNOWN") (Ok gh_status)) in
  let? scopes := or_else (joined (getd "scopes" (VList []) (Ok gh_status))) (Ok (str "—")) in
  let? error_html := cond (Ok error)
    (fmtM "<div style=~color:var(--accent-ruby); margin-bottom:16px; font-size:14px; padding:12px; background:rgba(235,87,87,0.1); border-radius:4px; border: 1px solid rgba(235,87,87,0.3);~>{error}</div>"
      [("error", show (Ok error))])
    (Ok []) in
  let? input_form_html := cond (getd "connected" VNone (Ok gh_status)) (Ok [])

    (fmtM "
        <div class=~detail-panel~ style=~margin-bottom: 24px;~>
            <h3 style=~margin-top:0; margin-bottom:16px; font-size:14px; color:var(--text-primary);~>Connect GitHub</h3>
            {error_html}
            <form method=~POST~ action=~/github/token~>
                <input type=~hidden~ name=~csrf_token~ value=~{csrf_token}~>
                <div style=~margin-bottom: 16px;~>
                    <label for=~github_token_input~ style=~display:block; margin-bottom:8px; color:var(--text-secondary); font-size:12px; font-weight:600; letter-spacing:1px;~>RECOVERY TOKEN (Admin Only)</label>
                    <input type=~password~ name=~github_token~ id=~github_token_input~ style=~width:100%; max-width:400px; padding:10px; border:1px solid var(--border-color); border-radius:4px; background:var(--bg-secondary); color:var(--text-primary); font-family:var(--font-mono); font-size:14px;~ required autocomplete=~off~ spellcheck=~false~>
                </div>
                <button type=~submit~ class=~btn btn-primary~>Connect</button>
            </form>
        </div>
        "
      [("error_html", Ok error_html);
       ("csrf_token", Ok [Val csrf_token])]) in
  let? content :=
    (fmtM "
        <div class=~page-header~>
            <h2>GitHub Connection</h2>
            <p>Manage the GitHub authorization for this ANNY Runtime instance.</p>
        </div>

        {input_form_html}

        <div class=~detail-panel~>
            <div class=~detail-row~><span class=~detail-label~>Status</span><span class=~badge {badge_class}~>{status_text}</span></div>
            <div class=~detail-row~><span class=~detail-label~>Principal</span><span class=~detail-value~>{principal}</span></div>
            <div class=~detail-row~><span class=~detail-label~>Token Status</span><span class=~detail-value~>{token_status}</span></div>
            <div class=~detail-row~><span class=~detail-label~>Token Expiry</span><span class=~detail-value~>{token_expiry}</span></div>
            <div class=~detail-row~><span class=~detail-label~>Scopes</span><span class=~detail-value~>{scopes}</span></div>
            <div class=~detail-row~><span class=~detail-label~>Last Validation</span><span class=~detail-value~>{last_validation}</span></div>
            <div class=~detail-row~><span class=~detail-label~>Last Failure</span><span class=~detail-value~>{last_failure}</span></div>
            <div class=~detail-row~><span class=~detail-label~>Failure Reason</span><span class=~detail-value~>{last_failure_reason}</span></div>
        </div>

        <div class=~btn-group~>
            <form method=~POST~ action=~/github/disconnect~><input type=~hidden~ name=~csrf_token~ value=~{csrf_token}~><button class=~btn btn-danger~ type=~submit~>✕ Disconnect</button></form>
        </div>
    "
      [("input_form_html", Ok input_form_html);
       ("badge_class", Ok badge_class);
       ("status_text", show (Ok status_text));
       ("principal", show (getd "principal" (VStr "—") (Ok gh_status)));
       ("token_status", show (getd "token_status" (VStr "—") (Ok gh_status)));
       ("token_expiry", show (getd "token_expiry" (VStr "—") (Ok gh_status)));
       ("scopes", show (Ok scopes));
       ("last_validation", show (getd "last_validation" (VStr "—") (Ok gh_status)));
       ("last_failure", show (getd "last_failure" (VStr "—") (Ok gh_status)));
       ("last_failure_reason", show (getd "last_failure_reason" (VStr "—") (Ok gh_status)));
       ("csrf_token", Ok [Val csrf_token])]) in
  Ok (base_layout (lit "GitHub") content "/github" csrf_token).
Definition fabric_page (fab_status : pyobj) (csrf_token : string) : result doc :=
  let? badge := choose (getd "connected" VNone (Ok fab_status)) "badge-success" "badge-muted" in
  let? content :=
    (fmtM "
        <div class=~page-header~>
            <h2>Repository Fabric</h2>
            <p>Durable state synchronization and tenant binding status.</p>
        </div>
        <div class=~detail-panel~>
            <div class=~detail-row~><span class=~detail-label~>Connection</span><span class=~badge {badge}~>{label}</span></div>
            <div class=~detail-row~><span class=~detail-label~>Fabric Resources</span><span class=~detail-value~>{resource_count}</span></div>
            <div class=~detail-row~><span class=~detail-label~>Provenance</span><span class=~badge badge-success~>HEALTHY</span></div>
            <div class=~detail-row~><span class=~detail-label~>Tenant</span><span class=~detail-value~>{tenant}</span></div>
            <div class=~detail-row~><span class=~detail-label~>ANNY Instance</span><span class=~detail-value~>{anny_instance}</span></div>
            <div class=~detail-row~><span class=~detail-label~>Runtime Registration</span><span class=~detail-value~>{runtime_registration}</span></div>
            <div class=~detail-row~><span class=~detail-label~>Last Heartbeat</span><span class=~detail-value~>{last_heartbeat}</span></div>
            <div class=~detail-row~><span class=~detail-label~>Last Reconciliation</span><span class=~detail-value~>{last_reconciliation}</span></div>
        </div>
    "
      [("badge", Ok badge);
       ("label", choose (getd "connected" VNone (Ok fab_status)) "CONNECTED" "DISCONNECTED");
       ("resource_count", show (getd "resource_count" (VStr "0") (Ok fab_status)));
       ("tenant", show (getd "tenant" (VStr "—") (Ok fab_status)));
       ("anny_instance", show (getd "anny_instance" (VStr "—") (Ok fab_status)));
       ("runtime_registration", show (getd "runtime_registration" (VStr "—") (Ok fab_status)));
       ("last_heartbeat", show (getd "last_heartbeat" (VStr "—") (Ok fab_status)));
       ("last_reconciliation", show (getd "last_reconciliation" (VStr "—") (Ok fab_status)))]) in
  Ok (base_layout (lit "Fabric") content "/fabric" csrf_token).

(** ** Lists of the runtime *)
(** [x.get('status') == s], or [x.get('status', ...)] *)
Definition status_is (s : string) (x : pyobj) : result bool :=
  let? v := getd "status" VNone (Ok x) in Ok (obj_is s v).
Definition sessions_page (sessions : list pyobj) (csrf_token : string) : result doc :=
  let? rows := rows_of (fun s =>
    let? active := status_is "ACTIVE" s in
    let badge := pick active "badge-success" "badge-muted" in
    (fmtM "<tr>
            <td class=~mono~>{session_id}...</td>
            <td>{provider}</td>
            <td>{principal}</td>
            <td>{tenant}</td>
            <td>{created_at}</td>
            <td>{expires_at}</td>
            <td><span class=~badge {badge}~>{status}</span></td>
        </tr>"
      [("session_id", show (slice 16 (getd "session_id" (VStr "—") (Ok s))));
       ("provider", show (getd "provider" (VStr "—") (Ok s)));
       ("principal", show (getd "principal" (VStr "—") (Ok s)));
       ("tenant", show (getd "tenant" (VStr "—") (Ok s)));
       ("created_at", show (slice 19 (getd "created_at" (VStr "—") (Ok s))));
       ("expires_at", show (slice 19 (getd "expires_at" (VStr "—") (Ok s))));
       ("badge", Ok badge);
       ("status", show (getd "status" (VStr "—") (Ok s)))])) sessions in
  let rows := doc_or rows (quoted "<tr><td colspan=~7~ style=~text-align:center;color:var(--text-muted);padding:32px;~>No active sessions</td></tr>") in
  let? content :=
    (fmtM "
        <div class=~page-header~>
            <h2>Sessions</h2>
            <p>Active ANNY sessions connected to this Runtime. No credentials shown.</p>
        </div>
        <div class=~detail-panel~>
            <table class=~data-table~>
                <thead><tr><th>Session ID</th><th>Provider</th><th>Principal</th><th>Tenant</th><th>Created</th><th>Expires</th><th>Status</th></tr></thead>
                <tbody>{rows}</tbody>
            </table>
        </div>
    "
      [("rows", Ok rows)]) in
  Ok (base_layout (lit "Sessions") content "/sessions" csrf_token).
Definition operations_page (operations : list pyobj) (csrf_token : string) : result doc :=
  let? rows := rows_of (fun op =>
    (fmtM "<tr>
            <td class=~mono~>{operation_id}</td>
            <td>{actor}</td>
            <td>{tenant}</td>
            <td class=~mono~>{workspace}</td>
            <td><span class=~badge badge-info~>{state}</span></td>
            <td>{started_at}</td>
            <td>{runtime_generation}</td>
        </tr>"
      [("operation_id", show (getd "operation_id" (VStr "—") (Ok op)));
       ("actor", show (getd "actor" (VStr "—") (Ok op)));
       ("tenant", show (getd "tenant" (VStr "—") (Ok op)));
       ("workspace", show (slice 20 (getd "workspace" (VStr "—") (Ok op))));
       ("state", show (getd "state" (VStr "—") (Ok op)));
       ("started_at", show (slice 19 (getd "started_at" (VStr "—") (Ok op))));
       ("runtime_generation", show (getd "runtime_generation" (VStr "—") (Ok op)))])) operations in
  let rows := doc_or rows (quoted "<tr><td colspan=~7~ style=~text-align:center;color:var(--text-muted);padding:32px;~>No operations</td></tr>") in
  let? content :=
    (fmtM "
        <div class=~page-header~>
            <h2>Operations</h2>
            <p>Current and recent Runtime operations.</p>
        </div>
        <div class=~detail-panel~>
            <table class=~data-table~>
                <thead><tr><th>Operation</th><th>Actor</th><th>Tenant</th><th>Workspace</th><th>State</th><th>Started</th><th>Gen</th></tr></thead>
                <tbody>{rows}</tbody>
            </table>
        </div>
    "
      [("rows", Ok rows)]) in
  Ok (base_layout (lit "Operations") content "/operations" csrf_token).
Definition receipts_page (receipts : list pyobj) (csrf_token : string) : result doc :=
  let? rows := rows_of (fun r =>
    let? success := status_is "SUCCESS" r in
    let badge := pick success "badge-success" "badge-danger" in
    (fmtM "<tr>
            <td class=~mono~>{receipt_id}</td>
            <td class=~mono~>{operation}</td>
            <td>{tool}</td>
            <td><span class=~badge {badge}~>{status}</span></td>
            <td>{timestamp}</td>
            <td>{duration_ms}ms</td>
        </tr>"
      [("receipt_id", show (slice 16 (getd "receipt_id" (VStr "—") (Ok r))));
       ("operation", show (getd "operation" (VStr "—") (Ok r)));
       ("tool", show (getd "tool" (VStr "—") (Ok r)));
       ("badge", Ok badge);
       ("status", show (getd "status" (VStr "—") (Ok r)));
       ("timestamp", show (slice 19 (getd "timestamp" (VStr "—") (Ok r))));
       ("duration_ms", show (getd "duration_ms" (VStr "—") (Ok r)))])) receipts in
  let rows := doc_or rows (quoted "<tr><td colspan=~6~ style=~text-align:center;color:var(--text-muted);padding:32px;~>No receipts</td></tr>") in
  let? content :=
    (fmtM "
        <div class=~page-header~>
            <h2>Execution Receipts</h2>
            <p>Audit trail of all tool executions. No secrets included.</p>
        </div>
        <div class=~detail-panel~>
            <table class=~data-table~>
                <thead><tr><th>Receipt</th><th>Operation</th><th>Tool</th><th>Status</th><th>Timestamp</th><th>Duration</th></tr></thead>
                <tbody>{rows}</tbody>
            </table>
        </div>
    "
      [("rows", Ok rows)]) in
  Ok (base_layout (lit "Receipts") content "/receipts" csrf_token).
Definition doctor_page (diagnostics : pyobj) (csrf_token : string) : result doc :=
  let? checks := iterate (getd "checks" (VList []) (Ok diagnostics)) in
  let? checks_html := rows_of (fun check =>
    let? ok := status_is "OK" check in
    let badge := pick ok "badge-success" "badge-danger" in
    (fmtM "
        <div class=~detail-row~>
            <span class=~detail-label~>{name}</span>
            <span class=~badge {badge}~>{status}</span>
        </div>"
      [("name", show (getd "name" (VStr "—") (Ok check)));
       ("badge", Ok badge);
       ("status", show (getd "status" (VStr "—") (Ok check)))])) checks in
  let checks_html := doc_or checks_html (quoted "<div class=~detail-row~><span class=~detail-label~>No diagnostics available</span><span class=~badge badge-muted~>—</span></div>") in
  let? content :=
    (fmtM "
        <div class=~page-header~>
            <h2>Runtime Diagnostics</h2>
            <p>Health checks and system verification — equivalent to <code>anny-runtime doctor</code>.</p>
        </div>
        <div class=~detail-panel~>{checks_html}</div>
        <div class=~btn-group~>
            <form method=~POST~ action=~/admin/diagnostics~><input type=~hidden~ name=~csrf_token~ value=~{csrf_token}~><button class=~btn btn-primary~ type=~submit~>✚ Run Diagnostics</button></form>
        </div>
    "
      [("checks_html", Ok checks_html);
       ("csrf_token", Ok [Val csrf_token])]) in
  Ok (base_layout (lit "Diagnostics") content "/doctor" csrf_token).
Definition executions_page (executions : list pyobj) (csrf_token : string) : result doc :=
  let? rows := rows_of (fun e =>
    let? status := Ok e ∙ "status" ∙ "value" in
    let badge_cls := lit (if obj_is "SUCCEEDED" status then "badge-success"
      else if obj_in ["FAILED"; "LIMIT_EXCEEDED"; "TIMED_OUT"] status then "badge-danger"
      else if obj_is "RUNNING" status then "badge-info" else "badge-muted") in
    (fmtM "<tr>
            <td class=~mono~>{execution_id}...</td>
            <td class=~mono~>{task_id}...</td>
            <td>{capability_id}</td>
            <td><span class=~badge {badge_cls}~>{status}</span></td>
            <td>{started_at}</td>
            <td>{completed_at}</td>
            <td>{duration_ms}</td>
        </tr>"
      [("execution_id", show (slice 16 (Ok e ∙ "execution_id")));
       ("task_id", show (slice 16 (Ok e ∙ "task_id")));
       ("capability_id", show (Ok e ∙ "capability_id"));
       ("badge_cls", Ok badge_cls);
       ("status", show (Ok e ∙ "status" ∙ "value"));
       ("started_at", show (cond (Ok e ∙ "started_at") (slice 19 (isofmt (Ok e ∙ "started_at"))) (Ok (str "—"))));
       ("completed_at", show (cond (Ok e ∙ "completed_at") (slice 19 (isofmt (Ok e ∙ "completed_at"))) (Ok (str "—"))));
       ("duration_ms", show (if_some (Ok e ∙ "duration_ms") (Ok e ∙ "duration_ms") (Ok (str "—"))))])) executions in
  let rows := doc_or rows (quoted "<tr><td colspan=~7~ style=~text-align:center;color:var(--text-muted);padding:32px;~>No executions</td></tr>") in
  let? content :=
    (fmtM "
        <div class=~page-header~>
            <h2>Workspace Executions</h2>
            <p>Control Plane view of ephemeral workspace tasks and their states.</p>
        </div>
        <div class=~detail-panel~>
            <table class=~data-table~>
                <thead><tr><th>Execution ID</th><th>Task ID</th><th>Capability</th><th>Status</th><th>Started</th><th>Completed</th><th>Duration (ms)</th></tr></thead>
                <tbody>{rows}</tbody>
            </table>
        </div>
    "
      [("rows", Ok rows)]) in
  Ok (base_layout (lit "Executions") content "/executions" csrf_token).
Definition capabilities_page (capabilities : list pyobj) (csrf_token : string) : result doc :=
  let? rows := rows_of (fun c =>
    let? badge_cls := choose (Ok c ∙ "enabled") "badge-success" "badge-danger" in
    let? inf_badge := choose (Ok c ∙ "inference_required") "badge-warning" "badge-muted" in
    (fmtM "<tr>
            <td class=~mono~>{capability_id}</td>
            <td>{name}</td>
            <td><span class=~badge {inf_badge}~>{label}</span></td>
            <td>{preferred_executor}</td>
            <td><span class=~badge {badge_cls}~>{label2}</span></td>
            <td>{risk_level}</td>
        </tr>"
      [("capability_id", show (Ok c ∙ "capability_id"));
       ("name", show (Ok c ∙ "name"));
       ("inf_badge", Ok inf_badge);
       ("label", choose (Ok c ∙ "inference_required") "Yes" "No");
       ("preferred_executor", show (cond (Ok c ∙ "preferred_executor") (Ok c ∙ "preferred_executor" ∙ "value") (Ok (str "—"))));
       ("badge_cls", Ok badge_cls);
       ("label2", choose (Ok c ∙ "enabled") "ENABLED" "DISABLED");
       ("risk_level", show (Ok c ∙ "risk_level"))])) capabilities in
  let rows := doc_or rows (quoted "<tr><td colspan=~6~ style=~text-align:center;color:var(--text-muted);padding:32px;~>No capabilities registered</td></tr>") in
  let? content :=
    (fmtM "
        <div class=~page-header~>
            <h2>Capability Registry</h2>
            <p>Formal definitions of operations authorized in this runtime.</p>
        </div>
        <div class=~detail-panel~>
            <table class=~data-table~>
                <thead><tr><th>ID</th><th>Name</th><th>Inference Req</th><th>Pref. Executor</th><th>Status</th><th>Risk</th></tr></thead>
                <tbody>{rows}</tbody>
            </table>
        </div>
    "
      [("rows", Ok rows)]) in
  Ok (base_layout (lit "Capabilities") content "/capabilities" csrf_token).
Definition executors_page (executors : list pyobj) (csrf_token : string) : result doc :=
  let content :=
    (fmt "
        <div class=~page-header~>
            <h2>Execution Engines</h2>
            <p>Available executors and bound LLM models.</p>
        </div>
        <div class=~detail-panel~>
            <table class=~data-table~>
                <thead><tr><th>Executor ID</th><th>Type</th><th>Model Binding</th><th>Status</th></tr></thead>
                <tbody>
                    <tr>
                        <td class=~mono~>deterministic-v1</td>
                        <td>DETERMINISTIC</td>
                        <td><span class=~badge badge-muted~>NONE</span></td>
                        <td><span class=~badge badge-success~>READY</span></td>
                    </tr>
                </tbody>
            </table>
        </div>
    "
      []) in
  Ok (base_layout (lit "Executors") content "/executors" csrf_token).
Definition policies_page (policy : pyobj) (csrf_token : string) : result doc :=
  let? allow_llm := cond (Ok policy) (Ok policy ∙ "allow_llm") (Ok (PVal (VBool false))) in
  let? isolation := cond (Ok policy) (Ok policy ∙ "enforce_strict_isolation") (Ok (PVal (VBool true))) in
  let? content :=
    (fmtM "
        <div class=~page-header~>
            <h2>Runtime Execution Policies</h2>
            <p>Rules governing execution contexts and executor selection.</p>
        </div>
        <div class=~detail-panel~>
            <div class=~detail-row~><span class=~detail-label~>LLM Executors Allowed</span><span class=~badge {badge_class}~>{label}</span></div>
            <div class=~detail-row~><span class=~detail-label~>Strict Isolation Enforced</span><span class=~badge {badge_class2}~>{label2}</span></div>
            <div class=~detail-row~><span class=~detail-label~>Active Policy Version</span><span class=~detail-value~>{version}</span></div>
        </div>
    "
      [("badge_class", choose (Ok allow_llm) "badge-success" "badge-danger");
       ("label", choose (Ok allow_llm) "YES" "NO");
       ("badge_class2", choose (Ok isolation) "badge-success" "badge-danger");
       ("label2", choose (Ok isolation) "YES" "NO");
       ("version", show (cond (Ok policy) (Ok policy ∙ "version") (Ok (str "UNKNOWN"))))]) in
  Ok (base_layout (lit "Policies") content "/policies" csrf_token).

(** ** Workers and models *)
Definition worker_badge (w : pyobj) : result doc :=
  let? state := Ok w ∙ "state" ∙ "value" in
  Ok (lit (if obj_is "SUCCEEDED" state then "badge-success"
           else if obj_in ["FAILED"; "TIMED_OUT"; "LIMIT_EXCEEDED"] state then "badge-danger"
           else "badge-warning")).
Definition workers_page (workers : list pyobj) (csrf_token : string) : result doc :=
  let? rows := rows_of (fun w =>
    let? state_badge := worker_badge w in
    (fmtM "<tr>
            <td class=~mono~><a href=~/workers/{worker_id}~>{worker_id}</a></td>
            <td class=~mono~>{execution_id}</td>
            <td class=~mono~>{capability_id}</td>
            <td>{executor_type}</td>
            <td><span class=~badge {state_badge}~>{state}</span></td>
            <td>{created_at}</td>
        </tr>"
      [("worker_id", show (Ok w ∙ "worker_id"));
       ("execution_id", show (Ok w ∙ "execution_id"));
       ("capability_id", show (Ok w ∙ "capability_id"));
       ("executor_type", show (Ok w ∙ "executor_type"));
       ("state_badge", Ok state_badge);
       ("state", show (Ok w ∙ "state" ∙ "value"));
       ("created_at", show (isofmt (Ok w ∙ "created_at")))])) workers in
  let rows := doc_or rows (quoted "<tr><td colspan=~6~ style=~text-align:center;color:var(--text-muted);padding:32px;~>No active workers</td></tr>") in
  let? content :=
    (fmtM "
        <div class=~page-header~>
            <h2>Ephemeral Workers</h2>
            <p>Execution units running capabilities.</p>
        </div>
        <div class=~detail-panel~>
            <table class=~data-table~>
                <thead><tr><th>Worker ID</th><th>Execution ID</th><th>Capability</th><th>Executor</th><th>State</th><th>Created</th></tr></thead>
                <tbody>{rows}</tbody>
            </table>
        </div>
    "
      [("rows", Ok rows)]) in
  Ok (base_layout (lit "Workers") content "/workers" csrf_token).
(** [int((b - a).total_seconds() * 1000)] of two instants in microseconds: truncation
    toward zero of the milliseconds. *)
Definition elapsed_ms (a b : pyobj) : result pyobj :=
  match a, b with
  | PTime a, PTime b => Ok (PVal (VInt (Z.quot (b - a) 1000)))
  | _, _ => raise TypeError "unsupported operand type(s) for -"
  end.
Definition worker_detail_page (w : pyobj) (csrf_token : string) : result doc :=
  let? state_badge := worker_badge w in
  let? started_at := Ok w ∙ "started_at" in
  let? finished := (if obj_truthy started_at then Ok w ∙ "finished_at" else Ok started_at) in
  let? duration := (if obj_truthy finished
    then let? finished_at := Ok w ∙ "finished_at" in let? started_at := Ok w ∙ "started_at" in
         let? ms := elapsed_ms started_at finished_at in Ok (shown ms ++ lit " ms")
    else Ok (lit "—")) in
  let? title :=
    (fmtM "Worker {worker_id}"
      [("worker_id", show (Ok w ∙ "worker_id"))]) in
  let? content :=
    (fmtM "
        <div class=~page-header~>
            <h2>Worker Detail: <span class=~mono~>{worker_id}</span></h2>
        </div>
        <div class=~detail-panel~>
            <div class=~detail-row~><span class=~detail-label~>State</span><span class=~badge {state_badge}~>{state}</span></div>
            <div class=~detail-row~><span class=~detail-label~>Execution ID</span><span class=~mono~>{execution_id}</span></div>
            <div class=~detail-row~><span class=~detail-label~>Task ID</span><span class=~mono~>{task_id}</span></div>
            <div class=~detail-row~><span class=~detail-label~>Capability</span><span class=~mono~>{capability_id}</span></div>
            <div class=~detail-row~><span class=~detail-label~>Executor Type</span><span class=~detail-value~>{executor_type}</span></div>
            <div class=~detail-row~><span class=~detail-label~>Executor ID</span><span class=~detail-value~>{executor_id}</span></div>
            <div class=~detail-row~><span class=~detail-label~>Model ID</span><span class=~detail-value~>{model_id}</span></div>
            <div class=~detail-row~><span class=~detail-label~>Created At</span><span class=~detail-value~>{created_at}</span></div>
            <div class=~detail-row~><span class=~detail-label~>Started At</span><span class=~detail-value~>{started_at}</span></div>
            <div class=~detail-row~><span class=~detail-label~>Finished At</span><span class=~detail-value~>{finished_at}</span></div>
            <div class=~detail-row~><span class=~detail-label~>Duration</span><span class=~detail-value~>{duration}</span></div>
            <div class=~detail-row~><span class=~detail-label~>Workspace ID</span><span class=~mono~>{workspace_id}</span></div>
            <div class=~detail-row~><span class=~detail-label~>Network Policy</span><span class=~detail-value~>{network_policy}</span></div>
            <div class=~detail-row~><span class=~detail-label~>Filesystem Policy</span><span class=~detail-value~>{filesystem_policy}</span></div>
            <div class=~detail-row~><span class=~detail-label~>Resource Limits</span><span class=~detail-value~>{resource_limits}</span></div>
        </div>
    "
      [("worker_id", show (Ok w ∙ "worker_id"));
       ("state_badge", Ok state_badge);
       ("state", show (Ok w ∙ "state" ∙ "value"));
       ("execution_id", show (Ok w ∙ "execution_id"));
       ("task_id", show (Ok w ∙ "task_id"));
       ("capability_id", show (Ok w ∙ "capability_id"));
       ("executor_type", show (Ok w ∙ "executor_type"));
       ("executor_id", show (Ok w ∙ "executor_id"));
       ("model_id", show (or_else (Ok w ∙ "model_id") (Ok (str "—"))));
       ("created_at", show (isofmt (Ok w ∙ "created_at")));
       ("started_at", show (cond (Ok w ∙ "started_at") (isofmt (Ok w ∙ "started_at")) (Ok (str "—"))));
       ("finished_at", show (cond (Ok w ∙ "finished_at") (isofmt (Ok w ∙ "finished_at")) (Ok (str "—"))));
       ("duration", Ok duration);
       ("workspace_id", show (Ok w ∙ "workspace_id"));
       ("network_policy", show (Ok w ∙ "network_policy"));
       ("filesystem_policy", show (Ok w ∙ "filesystem_policy"));
       ("resource_limits", show (Ok w ∙ "resource_limits"))]) in
  Ok (base_layout title content "/workers" csrf_token).
Definition model_badge (m : pyobj) : result doc :=
  let? state := Ok m ∙ "state" ∙ "value" in
  Ok (pick (obj_in ["AVAILABLE"; "REGISTERED"] state) "badge-success" "badge-danger").
Definition models_page (models : list pyobj) (csrf_token : string) : result doc :=
  let? rows := rows_of (fun m =>
    let? badge_cls := model_badge m in
    (fmtM "<tr>
            <td class=~mono~><a href=~/models/{model_id}~>{model_id}</a></td>
            <td>{model_name}</td>
            <td>{provider}</td>
            <td>{version}</td>
            <td><span class=~badge {badge_cls}~>{state}</span></td>
        </tr>"
      [("model_id", show (Ok m ∙ "model_id"));
       ("model_name", show (Ok m ∙ "model_name"));
       ("provider", show (Ok m ∙ "provider"));
       ("version", show (Ok m ∙ "version"));
       ("badge_cls", Ok badge_cls);
       ("state", show (Ok m ∙ "state" ∙ "value"))])) models in
  let rows := doc_or rows (quoted "<tr><td colspan=~5~ style=~text-align:center;color:var(--text-muted);padding:32px;~>No models registered</td></tr>") in
  let? content :=
    (fmtM "
        <div class=~page-header~>
            <h2>Model Registry</h2>
            <p>Control plane view of registered models, capabilities, and availability.</p>
        </div>
        <div class=~detail-panel~>
            <table class=~data-table~>
                <thead><tr><th>Model ID</th><th>Name</th><th>Provider</th><th>Version</th><th>State</th></tr></thead>
                <tbody>{rows}</tbody>
            </table>
        </div>
    "
      [("rows", Ok rows)]) in
  Ok (base_layout (lit "Models") content "/models" csrf_token).
Definition model_detail_page (model : pyobj) (bindings : list pyobj) (hw_profile perf_profile : pyobj)
    (csrf_token : string) : result doc :=
  let? state_badge := model_badge model in
  let? bindings_rows := rows_of (fun b =>
    let? pref := choose (Ok b ∙ "preferred") "badge-info" "badge-muted" in
    (fmtM "<tr>
            <td class=~mono~>{capability_id}</td>
            <td><span class=~badge {pref}~>{label}</span></td>
            <td>{authorization}</td>
        </tr>"
      [("capability_id", show (Ok b ∙ "capability_id"));
       ("pref", Ok pref);
       ("label", choose (Ok b ∙ "preferred") "Yes" "No");
       ("authorization", show (Ok b ∙ "authorization"))])) bindings in
  let bindings_rows := doc_or bindings_rows (quoted "<tr><td colspan=~3~ style=~text-align:center;color:var(--text-muted);padding:16px;~>No capabilities bound</td></tr>") in
  let? hw_info := cond (Ok hw_profile)
    (fmtM "
            <div class=~detail-row~><span class=~detail-label~>Hardware Type</span><span class=~detail-value~>{hardware_type}</span></div>
            <div class=~detail-row~><span class=~detail-label~>VRAM MB</span><span class=~detail-value~>{vram_mb}</span></div>
            <div class=~detail-row~><span class=~detail-label~>RAM MB</span><span class=~detail-value~>{ram_mb}</span></div>
            <div class=~detail-row~><span class=~detail-label~>Compute Class</span><span class=~detail-value~>{compute_class}</span></div>
        "
      [("hardware_type", show (Ok hw_profile ∙ "hardware_type"));
       ("vram_mb", show (Ok hw_profile ∙ "vram_mb"));
       ("ram_mb", show (Ok hw_profile ∙ "ram_mb"));
       ("compute_class", show (Ok hw_profile ∙ "compute_class"))])
    (Ok []) in
  let? perf_info := cond (Ok perf_profile)
    (fmtM "
            <div class=~detail-row~><span class=~detail-label~>Context Window Size</span><span class=~detail-value~>{context_window_size}</span></div>
            <div class=~detail-row~><span class=~detail-label~>Max Output Tokens</span><span class=~detail-value~>{max_output_tokens}</span></div>
            <div class=~detail-row~><span class=~detail-label~>Avg Tokens/s</span><span class=~detail-value~>{avg_tokens_per_second}</span></div>
            <div class=~detail-row~><span class=~detail-label~>Cold Start Time (ms)</span><span class=~detail-value~>{cold_start_time_ms}</span></div>
            <div class=~detail-row~><span class=~detail-label~>Cost per 1k</span><span class=~detail-value~>{cost_per_1k}</span></div>
        "
      [("context_window_size", show (Ok perf_profile ∙ "context_window_size"));
       ("max_output_tokens", show (Ok perf_profile ∙ "max_output_tokens"));
       ("avg_tokens_per_second", show (Ok perf_profile ∙ "avg_tokens_per_second"));
       ("cold_start_time_ms", show (Ok perf_profile ∙ "cold_start_time_ms"));
       ("cost_per_1k", show (Ok perf_profile ∙ "cost_per_1k"))])
    (Ok []) in
  let? title :=
    (fmtM "Model {model_id}"
      [("model_id", show (Ok model ∙ "model_id"))]) in
  let? content :=
    (fmtM "
        <div class=~page-header~>
            <h2>Model Detail: <span class=~mono~>{model_id}</span></h2>
        </div>
        <div class=~detail-panel~>
            <h3 style=~font-size:14px; margin-bottom:12px; color:var(--text-primary);~>Definition</h3>
            <div class=~detail-row~><span class=~detail-label~>State</span><span class=~badge {state_badge}~>{state}</span></div>
            <div class=~detail-row~><span class=~detail-label~>Name</span><span class=~detail-value~>{model_name}</span></div>
            <div class=~detail-row~><span class=~detail-label~>Provider</span><span class=~detail-value~>{provider}</span></div>
            <div class=~detail-row~><span class=~detail-label~>Version</span><span class=~detail-value~>{version}</span></div>
            <div class=~detail-row~><span class=~detail-label~>Location Type</span><span class=~detail-value~>{location_type}</span></div>
            <div class=~detail-row~><span class=~detail-label~>Path/URI</span><span class=~mono~>{path_or_uri}</span></div>
            <div class=~detail-row~><span class=~detail-label~>Executor Type</span><span class=~detail-value~>{executor_type}</span></div>
        </div>
        
        <div class=~detail-panel~>
            <h3 style=~font-size:14px; margin-bottom:12px; color:var(--text-primary);~>Hardware Constraints</h3>
            {hw_info}
        </div>
        
        <div class=~detail-panel~>
            <h3 style=~font-size:14px; margin-bottom:12px; color:var(--text-primary);~>Performance Profile</h3>
            {perf_info}
        </div>

        <div class=~detail-panel~>
            <h3 style=~font-size:14px; margin-bottom:12px; color:var(--text-primary);~>Capability Bindings</h3>
            <table class=~data-table~ style=~margin-top:0;~>
                <thead><tr><th>Capability</th><th>Preferred</th><th>Authorization</th></tr></thead>
                <tbody>{bindings_rows}</tbody>
            </table>
        </div>
    "
      [("model_id", show (Ok model ∙ "model_id"));
       ("state_badge", Ok state_badge);
       ("state", show (Ok model ∙ "state" ∙ "value"));
       ("model_name", show (Ok model ∙ "model_name"));
       ("provider", show (Ok model ∙ "provider"));
       ("version", show (Ok model ∙ "version"));
       ("location_type", show (Ok model ∙ "location_type"));
       ("path_or_uri", show (Ok model ∙ "path_or_uri"));
       ("executor_type", show (Ok model ∙ "executor_type"));
       ("hw_info", Ok (doc_or hw_info (quoted "<div class=~detail-row~><span class=~detail-label~>No hardware profile</span><span class=~detail-value~>—</span></div>")));
       ("perf_info", Ok (doc_or perf_info (quoted "<div class=~detail-row~><span class=~detail-label~>No performance profile</span><span class=~detail-value~>—</span></div>")));
       ("bindings_rows", Ok bindings_rows)]) in
  Ok (base_layout title content "/models" csrf_token).

(** ** The universe *)
Definition universe_accounts_page (accounts : list pyobj) (csrf_token : string) : result doc :=
  let? rows := rows_of (fun acct =>
    (fmtM "<tr><td><a href=~/universe/accounts/{account_id}~>{account_id}</a></td><td>{name}</td><td>{owner_principal}</td><td><span class=~badge badge-success~>ACTIVE</span></td></tr>"
      [("account_id", show (Ok acct ∙ "account_id"));
       ("name", show (Ok acct ∙ "name"));
       ("owner_principal", show (Ok acct ∙ "owner_principal"))])) accounts in
  let? content :=
    (fmtM "
        <div class=~page-header~><h2>Accounts</h2><p>Multi-Account Identity Boundaries</p></div>
        <div class=~detail-panel~>
            <table class=~data-table~>
                <thead><tr><th>Account ID</th><th>Name</th><th>Owner</th><th>Status</th></tr></thead>
                <tbody>{rows}</tbody>
            </table>
        </div>
    "
      [("rows", Ok (doc_or rows (quoted "<tr><td colspan=~4~ style=~text-align:center;~>No accounts registered</td></tr>")))]) in
  Ok (base_layout (lit "Accounts") content "/universe/accounts" csrf_token).
Definition universe_account_detail_page (account : pyobj) (csrf_token : string) : result doc :=
  let? content :=
    (fmtM "
        <div class=~page-header~>
            <a href=~/universe/accounts~ class=~btn btn-secondary~>← Back</a>
            <h2>Account Details</h2>
            <p>{account_id}</p>
        </div>
        <div class=~detail-panel~>
            <h3>Identity</h3>
            <pre><code>Name: {name}
Owner: {owner_principal}</code></pre>
        </div>
    "
      [("account_id", show (Ok account ∙ "account_id"));
       ("name", show (Ok account ∙ "name"));
       ("owner_principal", show (Ok account ∙ "owner_principal"))]) in
  let? title :=
    (fmtM "Account {account_id}"
      [("account_id", show (Ok account ∙ "account_id"))]) in
  Ok (base_layout title content "/universe/accounts" csrf_token).
Definition universe_organization_page (orgs : list pyobj) (csrf_token : string) : result doc :=
  let? rows := rows_of (fun org =>
    (fmtM "<tr><td>{login}</td><td>{id}</td><td><span class=~badge badge-success~>ACTIVE</span></td></tr>"
      [("login", show (getd "login" (VStr "—") (Ok org)));
       ("id", show (getd "id" (VStr "—") (Ok org)))])) orgs in
  let? content :=
    (fmtM "
        <div class=~page-header~><h2>Organization Map</h2><p>Discovered Github Organizations</p></div>
        <div class=~detail-panel~>
            <table class=~data-table~>
                <thead><tr><th>Organization</th><th>ID</th><th>State</th></tr></thead>
                <tbody>{rows}</tbody>
            </table>
        </div>
    "
      [("rows", Ok (doc_or rows (quoted "<tr><td colspan=~3~ style=~text-align:center;~>No organizations discovered</td></tr>")))]) in
  Ok (base_layout (lit "Organization Map") content "/universe/organization" csrf_token).
Definition universe_projects_page (projects : list pyobj) (csrf_token : string) : result doc :=
  let? content :=
    (fmtM "
        <div class=~page-header~><h2>Project Map</h2><p>Logical Groupings</p></div>
        {empty}
    "
      [("empty", Ok (render_empty_state "No projects configured."))]) in
  Ok (base_layout (lit "Project Map") content "/universe/projects" csrf_token).
Definition universe_repositories_page (repos : list pyobj) (csrf_token : string) : result doc :=
  let? rows := rows_of (fun r =>
    let? name := getd "name" (VStr "—") (Ok r) in
    let? owner := getd "owner" (VStr "—") (Ok r) in
    let? vis := getd "visibility" (VStr "—") (Ok r) in
    (fmtM "<tr><td class=~mono~>{owner}/{name}</td><td>{vis}</td><td>GitHub</td><td><a href=~/universe/resources~>View in Fabric</a></td></tr>"
      [("owner", show (Ok owner));
       ("name", show (Ok name));
       ("vis", show (Ok vis))])) repos in
  let? content :=
    (fmtM "
        <div class=~page-header~><h2>Repository Map</h2><p>Discovered Code Repositories</p></div>
        <div class=~detail-panel~>
            <table class=~data-table~>
                <thead><tr><th>Name</th><th>Visibility</th><th>Provider</th><th>Links</th></tr></thead>
                <tbody>{rows}</tbody>
            </table>
        </div>
    "
      [("rows", Ok (doc_or rows (quoted "<tr><td colspan=~4~ style=~text-align:center;~>No repositories discovered</td></tr>")))]) in
  Ok (base_layout (lit "Repository Map") content "/universe/repositories" csrf_token).
(** [getattr(res, k, res.get(k, d) if isinstance(res, dict) else d)] *)
Definition attribute_or_key (k d : string) (res : pyobj) : result pyobj :=
  let? dflt := (if is_dict_obj res then getd k (VStr d) (Ok res) else Ok (str d)) in
  if hasattr k res then attr k res else Ok dflt.
Definition universe_resources_page (resources : list pyobj) (csrf_token : string) : result doc :=
  let? rows := rows_of (fun res =>
    let? res_id := attribute_or_key "resource_id" "—" res in
    let? prov_id := attribute_or_key "provenance_id" "—" res in
    let? state := attribute_or_key "state" "UNKNOWN" res in
    let badge := pick (obj_is "ACTIVE" state) "badge-success" "badge-muted" in
    (fmtM "<tr><td class=~mono~>{res_id}</td><td><span class=~badge {badge}~>{state}</span></td><td><a href=~/audit/provenance?id={prov_id}~ class=~mono~>{prov_id}</a></td></tr>"
      [("res_id", show (Ok res_id));
       ("badge", Ok badge);
       ("state", show (Ok state));
       ("prov_id", show (Ok prov_id))])) resources in
  let? content :=
    (fmtM "
        <div class=~page-header~><h2>Fabric Resources</h2><p>Canonical domain entities registered in Fabric</p></div>
        <div class=~detail-panel~>
            <table class=~data-table~>
                <thead><tr><th>Resource ID</th><th>State</th><th>Provenance ID</th></tr></thead>
                <tbody>{rows}</tbody>
            </table>
        </div>
    "
      [("rows", Ok (doc_or rows (quoted "<tr><td colspan=~3~ style=~text-align:center;~>No Fabric resources registered.</td></tr>")))]) in
  Ok (base_layout (lit "Fabric Resources") content "/universe/resources" csrf_token).

(** ** Execution, intelligence and infrastructure *)
Definition execution_tasks_page (tasks : list (string * pyobj)) (csrf_token : string) : result doc :=
  let? rows := rows_of (fun '(t_id, task) =>
    let t_id := str t_id in
    (fmtM "<tr><td class=~mono~>{t_id}</td><td>{capability_id}</td><td><span class=~badge badge-info~>QUEUED</span></td></tr>"
      [("t_id", show (Ok t_id));
       ("capability_id", show (Ok task ∙ "capability_id"))])) tasks in
  let? content :=
    (fmtM "
        <div class=~page-header~><h2>Pending Tasks</h2><p>Tasks waiting for execution</p></div>
        <div class=~detail-panel~>
            <table class=~data-table~>
                <thead><tr><th>Task ID</th><th>Capability</th><th>Status</th></tr></thead>
                <tbody>{rows}</tbody>
            </table>
        </div>
    "
      [("rows", Ok (doc_or rows (quoted "<tr><td colspan=~3~ style=~text-align:center;~>No pending tasks.</td></tr>")))]) in
  Ok (base_layout (lit "Pending Tasks") content "/execution/tasks" csrf_token).
Definition execution_workers_page (workers : list (string * pyobj)) (csrf_token : string) : result doc :=
  let? rows := rows_of (fun '(w_id, worker) =>
    let w_id := str w_id in
    let? worker_state := Ok worker ∙ "state" in
    let? state := (if hasattr "value" worker_state then Ok worker ∙ "state" ∙ "value"
                   else let? s := Ok worker ∙ "state" in Ok (str (obj_str s))) in
    let badge := lit (if obj_is "SUCCEEDED" state then "badge-success"
                      else if obj_is "RUNNING" state then "badge-info" else "badge-muted") in
    (fmtM "<tr><td class=~mono~>{w_id}</td><td>{capability_id}</td><td>{model_id}</td><td><span class=~badge {badge}~>{state}</span></td></tr>"
      [("w_id", show (Ok w_id));
       ("capability_id", show (Ok worker ∙ "capability_id"));
       ("model_id", show (Ok worker ∙ "model_id"));
       ("badge", Ok badge);
       ("state", show (Ok state))])) workers in
  let? content :=
    (fmtM "
        <div class=~page-header~><h2>Worker Topology</h2><p>Active and historical workers</p></div>
        <div class=~detail-panel~>
            <table class=~data-table~>
                <thead><tr><th>Worker ID</th><th>Capability</th><th>Model</th><th>State</th></tr></thead>
                <tbody>{rows}</tbody>
            </table>
        </div>
    "
      [("rows", Ok (doc_or rows (quoted "<tr><td colspan=~4~ style=~text-align:center;~>No workers present.</td></tr>")))]) in
  Ok (base_layout (lit "Worker Topology") content "/execution/workers" csrf_token).
(** The first preferred binding of a capability. *)
Fixpoint preferred_model (c_id : pyobj) (bindings : list pyobj) (same : pyobj -> pyobj -> bool)
    : result pyobj :=
  match bindings with
  | [] => Ok (str "—")
  | b :: bindings' =>
      let? b_id := Ok b ∙ "capability_id" in
      let? pref := (if same b_id c_id then Ok b ∙ "preferred" else Ok (PVal (VBool false))) in
      if obj_truthy pref then Ok b ∙ "model_id" else preferred_model c_id bindings' same
  end.
(** [==] of two identifiers *)
Definition same_text (a b : pyobj) : bool :=
  match a, b with PVal (VStr s), PVal (VStr t) => s =s t | _, _ => false end.
Definition intelligence_capabilities_page (caps bindings : list pyobj) (csrf_token : string)
    : result doc :=
  let? rows := rows_of (fun cap =>
    let? c_id := Ok cap ∙ "capability_id" in
    let? pref_model := preferred_model c_id bindings same_text in
    (fmtM "<tr><td class=~mono~>{c_id}</td><td>{name}</td><td class=~mono~>{pref_model}</td></tr>"
      [("c_id", show (Ok c_id));
       ("name", show (Ok cap ∙ "name"));
       ("pref_model", show (Ok pref_model))])) caps in
  let? content :=
    (fmtM "
        <div class=~page-header~><h2>Capability Map</h2><p>Registered capabilities and preferred models</p></div>
        <div class=~detail-panel~>
            <table class=~data-table~>
                <thead><tr><th>Capability ID</th><th>Name</th><th>Preferred Model</th></tr></thead>
                <tbody>{rows}</tbody>
            </table>
        </div>
    "
      [("rows", Ok (doc_or rows (quoted "<tr><td colspan=~3~ style=~text-align:center;~>No capabilities found.</td></tr>")))]) in
  Ok (base_layout (lit "Capabilities") content "/intelligence/capabilities" csrf_token).
Definition infrastructure_topology_page (gh_status fabric_status mcp_status : pyobj)
    (csrf_token : string) : result doc :=
  let? gh_badge := choose (Ok gh_status) "badge-success" "badge-danger" in
  let? fab_badge := choose (Ok fabric_status) "badge-success" "badge-danger" in
  let? content :=
    (fmtM "
        <div class=~page-header~><h2>Infrastructure Topology</h2><p>System boundaries</p></div>
        <div style=~font-family: var(--font-mono); font-size: 14px; background: var(--bg-secondary); padding: 24px; border-radius: var(--radius-md); text-align:center; line-height:2;~>
            <div>[ GitHub <span class=~badge {gh_badge}~>{label}</span> ]</div>
            <div>│</div>
            <div>▼</div>
            <div>[ ANNY-RUNTIME <span class=~badge badge-success~>UP</span> ]</div>
            <div>│</div>
            <div style=~display:flex; justify-content:center; gap: 40px;~>
                <div>▼<br>[ MCP <span class=~badge badge-muted~>0 Nodes</span> ]</div>
                <div>▼<br>[ Workers ]</div>
                <div>▼<br>[ Fabric <span class=~badge {fab_badge}~>{label2}</span> ]</div>
            </div>
            <div style=~display:flex; justify-content:center; gap: 40px;~>
                <div>▼<br>[ Tools ]</div>
                <div>▼<br>[ Models ]</div>
                <div>▼<br>[ Azure ]</div>
            </div>
        </div>
    "
      [("gh_badge", Ok gh_badge);
       ("label", choose (Ok gh_status) "UP" "DOWN");
       ("fab_badge", Ok fab_badge);
       ("label2", choose (Ok fabric_status) "UP" "DOWN")]) in
  Ok (base_layout (lit "Infrastructure Topology") content "/infrastructure/runtime" csrf_token).

(** ** Audit and search *)
(** [ev[i]] of a row of the audit table *)
Definition column (i : nat) (ev : list pyval) : result pyobj :=
  match ev !! i with
  | Some v => Ok (PVal v)
  | None => raise (OtherException "IndexError") "tuple index out of range"
  end.
Definition audit_events_page (events : list (list pyval)) (csrf_token : string) : result doc :=
  let? rows := rows_of (fun ev =>
    let? timestamp := column 1 ev in
    let? cat := column 3 ev in
    let? mod_ := column 4 ev in
    let? typ := column 5 ev in
    let? status := column 6 ev in
    let? msg := column 7 ev in
    let badge := lit (if obj_is "SUCCESS" status then "badge-success"
                      else if obj_is "ERROR" status then "badge-danger" else "badge-info") in
    (fmtM "<tr><td>{timestamp}</td><td>{mod}</td><td>{typ}</td><td><span class=~badge {badge}~>{status}</span></td><td class=~mono~>{msg}</td></tr>"
      [("timestamp", show (Ok timestamp));
       ("mod", show (Ok mod_));
       ("typ", show (Ok typ));
       ("badge", Ok badge);
       ("status", show (Ok status));
       ("msg", show (Ok msg))])) events in
  let? content :=
    (fmtM "
        <div class=~page-header~><h2>Audit Events</h2><p>Chronological system logs</p></div>
        <div class=~detail-panel~>
            <table class=~data-table~>
                <thead><tr><th>Time</th><th>Module</th><th>Type</th><th>Status</th><th>Message</th></tr></thead>
                <tbody>{rows}</tbody>
            </table>
        </div>
    "
      [("rows", Ok (doc_or rows (quoted "<tr><td colspan=~5~ style=~text-align:center;~>No events.</td></tr>")))]) in
  Ok (base_layout (lit "Audit Events") content "/audit/events" csrf_token).
Definition audit_provenance_page (prov_data : pyobj) (csrf_token : string) : result doc :=
  let? content :=
    (fmtM "
        <div class=~page-header~><h2>Provenance & Evidence</h2><p>Cryptographic traces</p></div>
        <pre style=~background:var(--bg-secondary); padding: 16px; border-radius: var(--radius-sm); font-size:12px;~>{prov_data}</pre>
    "
      [("prov_data", show (cond (Ok prov_data) (Ok prov_data) (Ok (str "No provenance data selected or available."))))]) in
  Ok (base_layout (lit "Provenance") content "/audit/provenance" csrf_token).
Definition search_page (query : pyobj) (csrf_token : string) : result doc :=
  let? content :=
    (fmtM "
        <div class=~page-header~><h2>Global Search</h2><p>Results for: {query}</p></div>
        {empty}
    "
      [("query", show (Ok query));
       ("empty", Ok (render_empty_state "Search returned 0 results. Indexing is lazy."))]) in
  Ok (base_layout (lit "Search") content "/search" csrf_token).
Definition generic_placeholder_page (title : pyobj) (path csrf_token : string) : result doc :=
  let title := shown title in
  let? content :=
    (fmtM "<div class=~page-header~><h2>{title}</h2></div>{empty}"
      [("title", Ok title);
       ("empty", Ok (render_empty_state "No instances found."))]) in
  Ok (base_layout title content path csrf_token).

(** ** Telemetry *)
Definition telemetry_live_page (csrf_token : string) : result doc :=
  let? content :=
    (fmtM "
        <div class=~page-header~>
            <h2>Live Telemetry Stream</h2>
            <p>Real-time observability of ANNY Universe execution events.</p>
        </div>
        
        <div class=~card~ style=~margin-bottom: 24px; padding: 16px;~>
            <div style=~display: flex; justify-content: space-between; align-items: center;~>
                <div style=~display: flex; align-items: center; gap: 8px;~>
                    <div id=~connection-indicator~ style=~width: 12px; height: 12px; border-radius: 50%; background: var(--accent-emerald); box-shadow: 0 0 8px var(--accent-emerald);~></div>
                    <span id=~connection-status~ style=~font-weight: 600; font-size: 13px;~>CONNECTED</span>
                </div>
                <button id=~clear-btn~ class=~btn btn-ghost~ style=~padding: 6px 12px; font-size: 12px;~>Clear Output</button>
            </div>
        </div>

        <div id=~telemetry-console~ style=~background: var(--bg-primary); border: 1px solid var(--border-subtle); border-radius: var(--radius); padding: 16px; height: 600px; overflow-y: auto; font-family: 'JetBrains Mono', monospace; font-size: 12px; line-height: 1.5;~>
            <!-- Events will be appended here -->
        </div>

        <script>
            const consoleEl = document.getElementById('telemetry-console');
            const statusEl = document.getElementById('connection-status');
            const indicatorEl = document.getElementById('connection-indicator');
            const clearBtn = document.getElementById('clear-btn');
            
            let eventSource = null;

            function connect() {{
                if (eventSource) {{
                    eventSource.close();
                }}
                
                statusEl.textContent = 'CONNECTING...';
                indicatorEl.style.background = 'var(--accent-amber)';
                indicatorEl.style.boxShadow = '0 0 8px var(--accent-amber)';

                eventSource = new EventSource('/api/v1/telemetry/stream');
                
                eventSource.onopen = function() {{
                    statusEl.textContent = 'CONNECTED';
                    indicatorEl.style.background = 'var(--accent-emerald)';
                    indicatorEl.style.boxShadow = '0 0 8px var(--accent-emerald)';
                }};
                
                eventSource.onmessage = function(event) {{
                    try {{
                        const data = JSON.parse(event.data);
                        appendEvent(data);
                    }} catch (e) {{
                        console.error(~Error parsing event data~, e);
                    }}
                }};
                
                eventSource.onerror = function() {{
                    statusEl.textContent = 'DISCONNECTED - RECONNECTING...';
                    indicatorEl.style.background = 'var(--accent-rose)';
                    indicatorEl.style.boxShadow = '0 0 8px var(--accent-rose)';
                }};
            }}
            
            function formatTime(isoString) {{
                if (!isoString) return '';
                const d = new Date(isoString);
                return d.toLocaleTimeString('en-US', {{ hour12: false, hour: '2-digit', minute:'2-digit', second:'2-digit', fractionalSecondDigits: 3 }});
            }}

            function appendEvent(env) {{
                const el = document.createElement('div');
                el.style.borderBottom = '1px solid var(--border-subtle)';
                el.style.padding = '8px 0';
                el.style.display = 'flex';
                el.style.gap = '16px';
                
                // Timestamp
                const tsEl = document.createElement('div');
                tsEl.style.color = 'var(--text-muted)';
                tsEl.style.minWidth = '110px';
                tsEl.textContent = formatTime(env.timestamp);
                
                // Component & Source
                const compEl = document.createElement('div');
                compEl.style.minWidth = '150px';
                compEl.innerHTML = `<span style=~color: var(--accent-blue)~>${{env.component}}</span><br><span style=~color: var(--text-muted); font-size: 10px;~>${{env.source || ''}}</span>`;
                
                // Event Type & Trace
                const nameEl = document.createElement('div');
                nameEl.style.flex = '1';
                nameEl.innerHTML = `<span style=~color: var(--text-primary); font-weight: 600;~>${{env.event_type}}</span>`;
                
                if (env.trace_id) {{
                    nameEl.innerHTML += `<br><span style=~color: var(--text-muted); font-size: 10px;~>Trace: ${{env.trace_id.substring(0,8)}} | Span: ${{(env.span_id || '').substring(0,8)}}</span>`;
                }}
                
                el.appendChild(tsEl);
                el.appendChild(compEl);
                el.appendChild(nameEl);
                
                // Metadata preview (if any)
                if (env.metadata && Object.keys(env.metadata).length > 0) {{
                    const dataEl = document.createElement('div');
                    dataEl.style.width = '100%';
                    dataEl.style.marginTop = '4px';
                    dataEl.style.padding = '8px';
                    dataEl.style.background = 'var(--bg-secondary)';
                    dataEl.style.borderRadius = '4px';
                    dataEl.style.color = 'var(--accent-emerald)';
                    dataEl.textContent = JSON.stringify(env.metadata);
                    
                    const containerEl = document.createElement('div');
                    containerEl.style.display = 'flex';
                    containerEl.style.flexDirection = 'column';
                    containerEl.style.flex = '2';
                    containerEl.appendChild(nameEl);
                    containerEl.appendChild(dataEl);
                    el.replaceChild(containerEl, nameEl);
                }}
                
                consoleEl.appendChild(el);
                
                // Auto scroll to bottom
                consoleEl.scrollTop = consoleEl.scrollHeight;
                
                // Keep only last 500 events
                while (consoleEl.children.length > 500) {{
                    consoleEl.removeChild(consoleEl.firstChild);
                }}
            }}
            
            clearBtn.addEventListener('click', () => {{
                consoleEl.innerHTML = '';
            }});
            
            // Connect on load
            document.addEventListener('DOMContentLoaded', connect);
        </script>
    "
      []) in
  Ok (base_layout (lit "Live Telemetry") content "/telemetry/live" csrf_token).
(** [env.k if hasattr(env, k) else env.get(k, d)] *)
Definition event_field (k : string) (d : pyval) (env : pyobj) : result pyobj :=
  if hasattr k env then Ok env ∙ k else getd k d (Ok env).
(** [x[:8] if x else ""] *)
Definition short_id (x : pyobj) : result pyobj :=
  if obj_truthy x then slice 8 (Ok x) else Ok (str "").
Definition telemetry_timeline_page (recent_events : list pyobj) (csrf_token : string) : result doc :=
  let? rows := rows_of (fun env =>
    let? ts := event_field "timestamp" (VStr "") env in
    let? comp := event_field "component" (VStr "") env in
    let? src := event_field "source" (VStr "") env in
    let? evt := event_field "event_type" (VStr "") env in
    let? tid := or_else (event_field "trace_id" VNone env) (Ok (str "")) in
    let? sid := or_else (event_field "span_id" VNone env) (Ok (str "")) in
    let? tid := short_id tid in
    let? sid := short_id sid in
    (fmtM "
        <tr>
            <td class=~mono~>{ts}</td>
            <td><span class=~badge badge-info~>{comp}</span></td>
            <td>{src}</td>
            <td style=~font-weight: 600;~>{evt}</td>
            <td class=~mono~ style=~color: var(--text-muted);~>{tid}</td>
            <td class=~mono~ style=~color: var(--text-muted);~>{sid}</td>
        </tr>
        "
      [("ts", show (Ok ts));
       ("comp", show (Ok comp));
       ("src", show (Ok src));
       ("evt", show (Ok evt));
       ("tid", show (Ok tid));
       ("sid", show (Ok sid))])) recent_events in
  let? content :=
    (fmtM "
        <div class=~page-header~>
            <h2>Telemetry Timeline</h2>
            <p>Historical view of recent execution events across the stack.</p>
        </div>
        
        <div class=~card~ style=~padding: 0; overflow-x: auto;~>
            <table class=~data-table~>
                <thead>
                    <tr>
                        <th>Timestamp</th>
                        <th>Component</th>
                        <th>Source</th>
                        <th>Event Type</th>
                        <th>Trace ID</th>
                        <th>Span ID</th>
                    </tr>
                </thead>
                <tbody>
                    {rows}
                </tbody>
            </table>
        </div>
    "
      [("rows", Ok rows)]) in
  Ok (base_layout (lit "Telemetry Timeline") content "/telemetry/timeline" csrf_token).

(** ** Browser sessions
    Both pages end in [render_admin_page], a name their module does not define. *)
Definition render_admin_page : result doc :=
  raise (OtherException "NameError") "name 'render_admin_page' is not defined".
Definition browser_dashboard_page (sessions : list pyobj) (csrf_token : string) : result doc :=
  let? rows := rows_of (fun s =>
    let? status := Ok s ∙ "status" ∙ "value" in
    let status_color := lit (if obj_is "FAILED" status then "var(--accent-rose)"
      else if obj_is "PAUSED_FOR_HUMAN" status then "var(--accent-yellow)"
      else if obj_is "RUNNING" status then "var(--accent-green)" else "var(--text-muted)") in
    (fmtM "
        <tr>
            <td><a href=~/browser/{session_id}~ style=~color: var(--accent-blue)~>{session_id2}...</a></td>
            <td><code>{worker_id}</code></td>
            <td>{mode}</td>
            <td><span style=~color: {status_color}~>{status}</span></td>
            <td>{current_url}</td>
            <td>{created_at}</td>
        </tr>
        "
      [("session_id", show (Ok s ∙ "session_id"));
       ("session_id2", show (slice 8 (Ok s ∙ "session_id")));
       ("worker_id", show (slice 8 (Ok s ∙ "worker_id")));
       ("mode", show (Ok s ∙ "mode" ∙ "value"));
       ("status_color", Ok status_color);
       ("status", show (Ok s ∙ "status" ∙ "value"));
       ("current_url", show (or_else (Ok s ∙ "current_url") (Ok (str "N/A"))));
       ("created_at", show (cond (Ok s ∙ "created_at") (isofmt (Ok s ∙ "created_at")) (Ok (str "N/A"))))])) sessions in
  render_admin_page.
Definition browser_session_page (session : pyobj) (csrf_token : string) : result doc :=
  let? status := Ok session ∙ "status" ∙ "value" in
  render_admin_page.
End Pages.
