(* ===== verification/TemplateFacts.v ===== *)
(** * What the pages are, as HTML

    A page whose values hold no [<] and no double quote closes every element it
    opens, in order, and every POST form of it carries the token of the session.
    The proof checks each template once, with its holes as unknowns, and composes
    the checks the way the templates compose. *)
From S2P Require Import Prelude Dict PyVal PyStr Json ExecModels Accounts Html Objects Templates.

(** What stands in a hole, by its name. *)
Definition kind_of (n : string) : kind :=
  if n =s "csrf_token" then KToken
  else if n =s "COMMON_CSS" then KRaw
  else if str_in n ["content"; "device_flow_html"; "token_html"; "input_form_html"] then KOuter
  else if str_in n ["rows"; "bindings_rows"; "error_html"; "checks_html"; "hw_info"; "perf_info";
                    "org_options"; "empty"] || startswith "nav" n then KInner
  else KPlain.

(** ** Documents and results that keep to their kind *)
Section Tame.
Context (tok : string).
Definition keeps_kind (k : kind) (d : doc) : Prop :=
  match k with
  | KPlain => plain (text d) = true
  | KToken => text d = tok /\ plain tok = true
  | KRaw => untagged (text d) = true
  | KInner => inner tok d
  | KOuter => outer tok d
  end.
Definition tame (k : kind) (d : doc) : Prop := Forall (fun s => plain s = true) (values d) -> keeps_kind k d.
Definition yields (k : kind) (e : result doc) : Prop :=
  match e with Ok d => tame k d | Raise _ => True end.

Lemma values_app d1 d2 : values (d1 ++ d2) = values d1 ++ values d2.
Proof. apply omap_app. Qed.
Lemma values_fill h t n : n ∈ tpl_holes t -> values (hole h n) ⊆ values (fill h t).
Proof.
  induction t as [|[c|m] t IH]; simpl; [set_solver|exact IH|].
  change (fill h (THole m :: t)) with (hole h m ++ fill h t). rewrite values_app. set_solver.
Qed.
Lemma plain_values (l k : list string) :
  k ⊆ l -> Forall (fun s => plain s = true) l -> Forall (fun s => plain s = true) k.
Proof. rewrite !Forall_forall. set_solver. Qed.
Lemma holes_tame h t :
  Forall (fun n => tame (kind_of n) (hole h n)) (tpl_holes t) ->
  Forall (fun s => plain s = true) (values (fill h t)) ->
  Forall (hole_ok kind_of tok h) (tpl_holes t).
Proof.
  rewrite !(Forall_forall _ (tpl_holes t)). intros Ht Hv n Hn. specialize (Ht n Hn).
  unfold tame, keeps_kind in Ht. unfold hole_ok.
  pose proof (plain_values _ _ (values_fill h t n Hn) Hv) as Hp.
  destruct (kind_of n); auto.
Qed.
Lemma fmt_tame_inner s h :
  inner_template kind_of s = true ->
  Forall (fun n => tame (kind_of n) (hole h n)) (tpl_holes (parse s)) -> tame KInner (fmt s h).
Proof. intros Hs Hh Hv. apply (fmt_inner kind_of); auto using holes_tame. Qed.
Lemma fmt_tame_outer s h :
  restores kind_of None (parse s) = true ->
  Forall (fun n => tame (kind_of n) (hole h n)) (tpl_holes (parse s)) -> tame KOuter (fmt s h).
Proof. intros Hs Hh Hv. apply (fmt_outer kind_of); auto using holes_tame. Qed.

(** The literal of a template whose holes are all texts. *)
Definition plain_template (t : list tpiece) : bool :=
  forallb (fun p => match p with
                    | TChar c => plain (String c "")
                    | THole n => match kind_of n with KPlain => true | _ => false end
                    end) t.
Lemma plain_app s1 s2 : plain (s1 +:+ s2) = plain s1 && plain s2.
Proof. apply str_forall_app. Qed.
Lemma fmt_tame_plain s h :
  plain_template (parse s) = true ->
  Forall (fun n => tame (kind_of n) (hole h n)) (tpl_holes (parse s)) -> tame KPlain (fmt s h).
Proof.
  unfold fmt. intros Hs Hh Hv. apply holes_tame in Hh; [|done]. clear Hv. simpl.
  induction (parse s) as [|[c|n] t IH]; [done| |]; simpl in *.
  - apply andb_true_iff in Hs as [Hc Hs].
    change (text (fill h (TChar c :: t))) with (String c "" +:+ text (fill h t)).
    rewrite plain_app, Hc. auto.
  - apply andb_true_iff in Hs as [Hk Hs]. inv Hh.
    change (fill h (THole n :: t)) with (hole h n ++ fill h t).
    rewrite text_app, plain_app. unfold hole_ok in *. destruct (kind_of n); try done.
    rewrite H1. auto.
Qed.

Lemma tame_plain_inner d : tame KPlain d -> tame KInner d.
Proof. intros Hd Hv. apply inner_text, Hd, Hv. Qed.
Lemma tame_inner_outer d : tame KInner d -> tame KOuter d.
Proof. intros Hd Hv. apply inner_outer, Hd, Hv. Qed.
Lemma tame_nil : tame KInner [].
Proof. done. Qed.
Lemma tame_app_plain d1 d2 : tame KPlain d1 -> tame KPlain d2 -> tame KPlain (d1 ++ d2).
Proof.
  intros H1 H2 Hv. rewrite values_app in Hv. apply Forall_app in Hv as [Hv1 Hv2].
  simpl. rewrite text_app, plain_app. apply andb_true_iff. split; [by apply H1|by apply H2].
Qed.
Lemma tame_concat l : Forall (tame KInner) l -> tame KInner (concat l).
Proof.
  intros Hl Hv. apply inner_concat. rewrite Forall_forall in *. intros d Hd. apply Hl; [done|].
  eapply plain_values; [|exact Hv]. intros s Hs. clear Hv. induction l as [|e l IH]; [set_solver|].
  simpl. rewrite values_app. apply elem_of_app. apply elem_of_cons in Hd as [->|Hd]; [by left|].
  right. apply IH; [|done]. set_solver.
Qed.
Lemma tame_lit s : plain s = true -> tame KPlain (lit s).
Proof. intros Hs _. simpl. by rewrite string_app_nil_r. Qed.
Lemma tame_lit_raw s : untagged s = true -> tame KRaw (lit s).
Proof. intros Hs _. simpl. by rewrite string_app_nil_r. Qed.
Lemma tame_pick b x y : plain x = true -> plain y = true -> tame KPlain (pick b x y).
Proof. intros. apply tame_lit. by destruct b. Qed.
Lemma tame_val s : tame KPlain [Val s].
Proof. intros Hv. inv Hv. simpl. by rewrite string_app_nil_r. Qed.
Lemma tame_token : tame KToken [Val tok].
Proof. intros Hv. inv Hv. simpl. by rewrite string_app_nil_r. Qed.
(** A literal that is markup. *)
Fixpoint chars (s : string) : list tpiece :=
  match s with "" => [] | String c s' => TChar c :: chars s' end.
Lemma text_chars h s : text (fill h (chars s)) = s.
Proof.
  induction s as [|c s IH]; [done|]. simpl.
  change (text (fill h (TChar c :: chars s))) with (String c (text (fill h (chars s)))). by rewrite IH.
Qed.
Lemma holes_chars s : tpl_holes (chars s) = [].
Proof. induction s; [done|]. done. Qed.
Lemma tame_markup s :
  forallb (fun f => restores kind_of f (chars s)) [None; Some false; Some true] = true ->
  tame KInner (lit s).
Proof.
  simpl. rewrite !andb_true_iff. intros (H1 & H2 & H3 & _) _ st f. simpl.
  rewrite string_app_nil_r, <-(text_chars [] s) at 1.
  apply restores_sound with kind_of; [by destruct f as [[]|]|by rewrite holes_chars].
Qed.
Lemma tame_doc_or d s :
  tame KInner d -> tame KInner (lit s) -> tame KInner (doc_or d s).
Proof. unfold doc_or. by case_match. Qed.

(** ** Results *)
Lemma yields_ok k d : tame k d -> yields k (Ok d).
Proof. done. Qed.
Lemma yields_raise k e : yields k (Raise e).
Proof. done. Qed.
Lemma yields_let {A} k (e : result A) f :
  (forall x, e = Ok x -> yields k (f x)) -> yields k (let? x := e in f x).
Proof. destruct e; simpl; auto using yields_raise. Qed.
Lemma yields_let_doc j k (e : result doc) f :
  yields j e -> (forall d, tame j d -> yields k (f d)) -> yields k (let? d := e in f d).
Proof. destruct e; simpl; auto. Qed.
Lemma yields_cond k c a b : yields k a -> yields k b -> yields k (cond c a b).
Proof. intros. apply yields_let. intros x _. by case_match. Qed.
Lemma yields_choose c a b : plain a = true -> plain b = true -> yields KPlain (choose c a b).
Proof. intros. apply yields_cond; by apply tame_lit. Qed.
Lemma results_forall {A B} (P : B -> Prop) (f : A -> result B) l r :
  (forall x y, f x = Ok y -> P y) -> results (f <$> l) = Ok r -> Forall P r.
Proof.
  intros Hf. revert r. induction l as [|x l IH]; csimpl; intros r Hr; [by simplify_eq|].
  destruct (f x) as [y|] eqn:E; [|done]. destruct (results (f <$> l)) as [r'|]; simplify_eq/=.
  constructor; eauto.
Qed.
Lemma yields_rows {A} (f : A -> result doc) l :
  (forall x, yields KInner (f x)) -> yields KInner (rows_of f l).
Proof.
  intros Hf. unfold rows_of. apply yields_let. intros ds Hds. apply tame_concat. eapply results_forall; [|exact Hds].
  intros x d E. specialize (Hf x). by rewrite E in Hf.
Qed.
Definition hole_result (l : list (string * result doc)) (n : string) : result doc :=
  default (Ok []) (dget n l).
Lemma hole_result_found l n e : dget n l = Some e -> hole_result l n = e.
Proof. unfold hole_result. by intros ->. Qed.
Lemma hole_found l n d : dget n l = Some d -> hole l n = d.
Proof. unfold hole. by intros ->. Qed.
Lemma eval_holes_hole l h n :
  eval_holes l = Ok h -> hole_result l n = Ok (hole h n).
Proof.
  revert h. induction l as [|[m e] l IH]; simpl; intros h Hh; [by simplify_eq|].
  destruct e as [d|]; [|done]. destruct (eval_holes l) as [h'|]; simplify_eq.
  unfold hole_result, hole. simpl. case_decide; [done|]. by apply IH.
Qed.
Lemma yields_fmtM k s l :
  (forall h, Forall (fun n => tame (kind_of n) (hole h n)) (tpl_holes (parse s)) -> tame k (fmt s h)) ->
  Forall (fun n => yields (kind_of n) (hole_result l n)) (tpl_holes (parse s)) -> yields k (fmtM s l).
Proof.
  intros Hk Hl. apply yields_let. intros h Hh. apply Hk.
  eapply Forall_impl; [exact Hl|]. intros n. simpl. by rewrite (eval_holes_hole _ _ _ Hh).
Qed.
Section Values.
Context {float_ops : FloatOps} `{ObjectEnv}.
Lemma yields_show e : yields KPlain (show e).
Proof. apply yields_let. intros x _. apply tame_val. Qed.
Lemma tame_shown o : tame KPlain (shown o).
Proof. apply tame_val. Qed.
End Values.
End Tame.

Lemma yields_zeta tok j k (d : doc) f :
  tame tok j d -> (forall d, tame tok j d -> yields tok k (f d)) -> yields tok k (let x := d in f x).
Proof. auto. Qed.

(** ** Automation
    The goals of a page are the kinds of its parts; a template is checked by
    computation, and its holes are the goals that remain. *)
Ltac computed := vm_compute; reflexivity.
Ltac lookup_in n l :=
  lazymatch l with
  | (n, ?d) :: _ => d
  | _ :: ?l' => lookup_in n l'
  end.
Ltac find_hole :=
  match goal with
  | |- yields ?t (kind_of ?n) (hole_result ?l ?n) =>
      let k := eval vm_compute in (kind_of n) in
      let e := lookup_in n l in
      rewrite (hole_result_found l n e eq_refl); change (yields t k e)
  | |- tame ?t (kind_of ?n) (hole ?l ?n) =>
      let k := eval vm_compute in (kind_of n) in
      let d := lookup_in n l in rewrite (hole_found l n d eq_refl); change (tame t k d)
  end.
Ltac holes_of :=
  match goal with
  | |- Forall ?P ?l =>
      let l' := eval vm_compute in l in change (Forall P l');
      repeat apply List.Forall_cons; [..|apply List.Forall_nil]
  end;
  cbv beta; find_hole.
Ltac template :=
  match goal with
  | |- tame _ KInner (fmt _ _) => apply fmt_tame_inner; [computed|holes_of]
  | |- tame _ KOuter (fmt _ _) => apply fmt_tame_outer; [computed|holes_of]
  | |- tame _ KPlain (fmt _ _) => apply fmt_tame_plain; [computed|holes_of]
  | |- yields _ KInner (fmtM _ _) =>
      apply yields_fmtM; [intros ?; apply fmt_tame_inner; computed|holes_of]
  | |- yields _ KOuter (fmtM _ _) =>
      apply yields_fmtM; [intros ?; apply fmt_tame_outer; computed|holes_of]
  | |- yields _ KPlain (fmtM _ _) =>
      apply yields_fmtM; [intros ?; apply fmt_tame_plain; computed|holes_of]
  end.


Section Layout.
Context (tok : string).
Lemma nav_inner path icon label active :
  plain path = true -> plain icon = true -> plain label = true ->
  tame tok KInner (nav_link path icon label active).
Proof.
  intros. unfold nav_link. cbv zeta. template; apply tame_lit; [done| |done..].
  by destruct (path =s active).
Qed.
Lemma empty_inner message : plain message = true -> tame tok KInner (render_empty_state message).
Proof. intros. unfold render_empty_state. cbv zeta. template. by apply tame_lit. Qed.
Lemma base_layout_outer title content active :
  tame tok KPlain title -> tame tok KOuter content -> tame tok KOuter (base_layout title content active tok).
Proof.
  intros Ht Hc. unfold base_layout. template;
    first [done | apply tame_token | apply nav_inner; computed | apply tame_lit; computed
           | apply tame_lit_raw; computed].
Qed.
End Layout.

(** The badges of workers and models are one of two or three classes. *)
Section Badges.
Context (tok : string).
Lemma worker_badge_plain w : yields tok KPlain (worker_badge w).
Proof. apply yields_let. intros x _. apply yields_ok, tame_lit. by repeat case_match. Qed.
Lemma model_badge_plain m : yields tok KPlain (model_badge m).
Proof. apply yields_let. intros x _. by apply yields_ok, tame_pick. Qed.
End Badges.

(** One step on a page: what a part of it must be, by its form. *)
Ltac part :=
  lazymatch goal with
  | |- forall _, _ => intros ?
  | |- plain (if ?b then _ else _) = true => destruct b
  | |- plain _ = true => computed
  | |- yields _ _ (Ok _) => apply yields_ok
  | |- yields _ _ (raise _ _) => apply yields_raise
  | |- yields _ _ render_admin_page => apply yields_raise
  | |- yields _ _ (match ?p with (_, _) => _ end) => destruct p
  | |- yields _ KPlain (worker_badge _) => apply worker_badge_plain
  | |- yields _ KPlain (model_badge _) => apply model_badge_plain
  | |- yields _ KPlain (show _) => apply yields_show
  | |- yields _ KPlain (choose _ _ _) => apply yields_choose
  | |- yields _ _ (cond _ _ _) => apply yields_cond
  | |- yields _ KInner (rows_of _ _) => apply yields_rows
  | |- yields _ _ (fmtM _ _) => template
  | |- yields _ _ (if ?b then _ else _) => destruct b
  | |- tame _ KToken _ => apply tame_token
  | |- tame _ KPlain (lit _) => apply tame_lit
  | |- tame _ KPlain (pick _ _ _) => apply tame_pick
  | |- tame _ KPlain (shown _) => apply tame_shown
  | |- tame _ KPlain [Val _] => apply tame_val
  | |- tame _ KPlain [Lit _] => apply tame_lit
  | |- tame _ KPlain (_ ++ _) => apply tame_app_plain
  | |- tame _ _ (fmt _ _) => template
  | |- tame _ KRaw _ => apply tame_lit_raw; computed
  | |- tame _ KOuter (base_layout _ _ _ _) => apply base_layout_outer
  | |- tame _ KInner (render_empty_state _) => apply empty_inner
  | |- tame _ KInner (doc_or _ _) => apply tame_doc_or
  | |- tame _ KInner (lit _) => apply tame_markup; computed
  | |- tame _ KInner [] => apply tame_nil
  | |- tame _ KOuter [] => apply tame_inner_outer, tame_nil
  | |- tame _ KOuter _ => first [assumption | apply tame_inner_outer; assumption]
  | |- tame _ _ _ => assumption
  end.
Ltac page :=
  repeat lazymatch goal with
  | |- yields _ _ (let x := _ in _) =>
      first [apply (yields_zeta _ KPlain); [solve [repeat part]|intros ? ?]
            |apply (yields_zeta _ KInner); [solve [repeat part]|intros ? ?]
            |apply (yields_zeta _ KOuter); [solve [repeat part]|intros ? ?]]
  | |- yields _ _ (match ?e with Ok _ => _ | Raise _ => _ end) =>
      match type of e with
      | result ?T =>
          unify T doc;
          first [eapply (yields_let_doc _ KPlain); [solve [page]|intros ? ?]
                |eapply (yields_let_doc _ KInner); [solve [page]|intros ? ?]
                |eapply (yields_let_doc _ KOuter); [solve [page]|intros ? ?]]
      | _ => apply yields_let; intros ? _
      end
  | |- _ => part
  end.

(** ** The pages *)
Section Closed.
Context (tok : string).
Context {float_ops : FloatOps} `{ObjectEnv}.
Lemma first_run_closed error flow : yields tok KOuter (first_run_page error tok flow).
Proof. unfold first_run_page. page. Qed.
Lemma device_flow_closed code uri : yields tok KOuter (device_flow_page code uri tok).
Proof. unfold device_flow_page. page. Qed.
Lemma reconnect_closed : yields tok KOuter (reconnect_page tok).
Proof. unfold reconnect_page. page. Qed.
Lemma failure_closed reason : yields tok KOuter (failure_page reason tok).
Proof. unfold failure_page. page. Qed.
Lemma ready_closed status : yields tok KOuter (ready_page status tok).
Proof. unfold ready_page. page. Qed.
Lemma github_closed status error : yields tok KOuter (github_page status error tok).
Proof. unfold github_page. page. Qed.
Lemma fabric_closed status : yields tok KOuter (fabric_page status tok).
Proof. unfold fabric_page. page. Qed.
Lemma sessions_closed l : yields tok KOuter (sessions_page l tok).
Proof. unfold sessions_page. page. Qed.
Lemma operations_closed l : yields tok KOuter (operations_page l tok).
Proof. unfold operations_page. page. Qed.
Lemma receipts_closed l : yields tok KOuter (receipts_page l tok).
Proof. unfold receipts_page. page. Qed.
Lemma doctor_closed d : yields tok KOuter (doctor_page d tok).
Proof. unfold doctor_page. page. Qed.
Lemma executions_closed l : yields tok KOuter (executions_page l tok).
Proof. unfold executions_page. page. Qed.
Lemma capabilities_closed l : yields tok KOuter (capabilities_page l tok).
Proof. unfold capabilities_page. page. Qed.
Lemma executors_closed l : yields tok KOuter (executors_page l tok).
Proof. unfold executors_page. page. Qed.
Lemma policies_closed p : yields tok KOuter (policies_page p tok).
Proof. unfold policies_page. page. Qed.
Lemma workers_closed l : yields tok KOuter (workers_page l tok).
Proof. unfold workers_page. page. Qed.
Lemma worker_detail_closed w : yields tok KOuter (worker_detail_page w tok).
Proof. unfold worker_detail_page. page. Qed.
Lemma models_closed l : yields tok KOuter (models_page l tok).
Proof. unfold models_page. page. Qed.
Lemma model_detail_closed m l hw perf : yields tok KOuter (model_detail_page m l hw perf tok).
Proof. unfold model_detail_page. page. Qed.
Lemma universe_accounts_closed l : yields tok KOuter (universe_accounts_page l tok).
Proof. unfold universe_accounts_page. page. Qed.
Lemma universe_account_detail_closed a : yields tok KOuter (universe_account_detail_page a tok).
Proof. unfold universe_account_detail_page. page. Qed.
Lemma universe_organization_closed l : yields tok KOuter (universe_organization_page l tok).
Proof. unfold universe_organization_page. page. Qed.
Lemma universe_projects_closed l : yields tok KOuter (universe_projects_page l tok).
Proof. unfold universe_projects_page. page. Qed.
Lemma universe_repositories_closed l : yields tok KOuter (universe_repositories_page l tok).
Proof. unfold universe_repositories_page. page. Qed.
Lemma universe_resources_closed l : yields tok KOuter (universe_resources_page l tok).
Proof. unfold universe_resources_page. page. Qed.
Lemma execution_tasks_closed l : yields tok KOuter (execution_tasks_page l tok).
Proof. unfold execution_tasks_page. page. Qed.
Lemma execution_workers_closed l : yields tok KOuter (execution_workers_page l tok).
Proof. unfold execution_workers_page. page. Qed.
Lemma intelligence_capabilities_closed l bs : yields tok KOuter (intelligence_capabilities_page l bs tok).
Proof. unfold intelligence_capabilities_page. page. Qed.
Lemma infrastructure_topology_closed gh fab mcp : yields tok KOuter (infrastructure_topology_page gh fab mcp tok).
Proof. unfold infrastructure_topology_page. page. Qed.
Lemma audit_events_closed l : yields tok KOuter (audit_events_page l tok).
Proof. unfold audit_events_page. page. Qed.
Lemma audit_provenance_closed d : yields tok KOuter (audit_provenance_page d tok).
Proof. unfold audit_provenance_page. page. Qed.
Lemma search_closed q : yields tok KOuter (search_page q tok).
Proof. unfold search_page. page. Qed.
Lemma generic_placeholder_closed title path : yields tok KOuter (generic_placeholder_page title path tok).
Proof. unfold generic_placeholder_page. page. Qed.
Lemma telemetry_live_closed : yields tok KOuter (telemetry_live_page tok).
Proof. unfold telemetry_live_page. page. Qed.
Lemma telemetry_timeline_closed l : yields tok KOuter (telemetry_timeline_page l tok).
Proof. unfold telemetry_timeline_page. page. Qed.
Lemma browser_dashboard_closed l : yields tok KOuter (browser_dashboard_page l tok).
Proof. unfold browser_dashboard_page. page. Qed.
Lemma browser_session_closed x : yields tok KOuter (browser_session_page x tok).
Proof. unfold browser_session_page. page. Qed.
End Closed.

(** A call of a template: every page but [fabric_setup_page], which no route shows. *)
Inductive template_call :=
  | FirstRunPage (error flow : pyobj)
  | DeviceFlowPage (code uri : pyobj)
  | ReconnectPage
  | FailurePage (reason : pyobj)
  | ReadyPage (status : pyobj)
  | GithubPage (status error : pyobj)
  | FabricPage (status : pyobj)
  | SessionsPage (l : list pyobj)
  | OperationsPage (l : list pyobj)
  | ReceiptsPage (l : list pyobj)
  | DoctorPage (d : pyobj)
  | ExecutionsPage (l : list pyobj)
  | CapabilitiesPage (l : list pyobj)
  | ExecutorsPage (l : list pyobj)
  | PoliciesPage (p : pyobj)
  | WorkersPage (l : list pyobj)
  | WorkerDetailPage (w : pyobj)
  | ModelsPage (l : list pyobj)
  | ModelDetailPage (m : pyobj) (l : list pyobj) (hw perf : pyobj)
  | UniverseAccountsPage (l : list pyobj)
  | UniverseAccountDetailPage (a : pyobj)
  | UniverseOrganizationPage (l : list pyobj)
  | UniverseProjectsPage (l : list pyobj)
  | UniverseRepositoriesPage (l : list pyobj)
  | UniverseResourcesPage (l : list pyobj)
  | ExecutionTasksPage (l : list (string * pyobj))
  | ExecutionWorkersPage (l : list (string * pyobj))
  | IntelligenceCapabilitiesPage (l bs : list pyobj)
  | InfrastructureTopologyPage (gh fab mcp : pyobj)
  | AuditEventsPage (l : list (list pyval))
  | AuditProvenancePage (d : pyobj)
  | SearchPage (q : pyobj)
  | GenericPlaceholderPage (title : pyobj) (path : string)
  | TelemetryLivePage
  | TelemetryTimelinePage (l : list pyobj)
  | BrowserDashboardPage (l : list pyobj)
  | BrowserSessionPage (x : pyobj).
Section Call.
Context {float_ops : FloatOps} `{ObjectEnv}.
Definition run_template (c : template_call) (csrf_token : string) : result doc :=
  match c with
  | FirstRunPage error flow => first_run_page error csrf_token flow
  | DeviceFlowPage code uri => device_flow_page code uri csrf_token
  | ReconnectPage => reconnect_page csrf_token
  | FailurePage reason => failure_page reason csrf_token
  | ReadyPage status => ready_page status csrf_token
  | GithubPage status error => github_page status error csrf_token
  | FabricPage status => fabric_page status csrf_token
  | SessionsPage l => sessions_page l csrf_token
  | OperationsPage l => operations_page l csrf_token
  | ReceiptsPage l => receipts_page l csrf_token
  | DoctorPage d => doctor_page d csrf_token
  | ExecutionsPage l => executions_page l csrf_token
  | CapabilitiesPage l => capabilities_page l csrf_token
  | ExecutorsPage l => executors_page l csrf_token
  | PoliciesPage p => policies_page p csrf_token
  | WorkersPage l => workers_page l csrf_token
  | WorkerDetailPage w => worker_detail_page w csrf_token
  | ModelsPage l => models_page l csrf_token
  | ModelDetailPage m l hw perf => model_detail_page m l hw perf csrf_token
  | UniverseAccountsPage l => universe_accounts_page l csrf_token
  | UniverseAccountDetailPage a => universe_account_detail_page a csrf_token
  | UniverseOrganizationPage l => universe_organization_page l csrf_token
  | UniverseProjectsPage l => universe_projects_page l csrf_token
  | UniverseRepositoriesPage l => universe_repositories_page l csrf_token
  | UniverseResourcesPage l => universe_resources_page l csrf_token
  | ExecutionTasksPage l => execution_tasks_page l csrf_token
  | ExecutionWorkersPage l => execution_workers_page l csrf_token
  | IntelligenceCapabilitiesPage l bs => intelligence_capabilities_page l bs csrf_token
  | InfrastructureTopologyPage gh fab mcp => infrastructure_topology_page gh fab mcp csrf_token
  | AuditEventsPage l => audit_events_page l csrf_token
  | AuditProvenancePage d => audit_provenance_page d csrf_token
  | SearchPage q => search_page q csrf_token
  | GenericPlaceholderPage title path => generic_placeholder_page title path csrf_token
  | TelemetryLivePage => telemetry_live_page csrf_token
  | TelemetryTimelinePage l => telemetry_timeline_page l csrf_token
  | BrowserDashboardPage l => browser_dashboard_page l csrf_token
  | BrowserSessionPage x => browser_session_page x csrf_token
  end.

End Call.
