(* ===== verification/TemplateErrors.v ===== *)
(** * Pages that are shown, pages that fail, and what a query becomes

    The templates of the lists read attributes: on the objects of the runtime, which
    pages are always printed and which raise as soon as there is something to show.
    A query is printed where the browser reads markup. *)
From S2P Require Import Prelude Dict PyVal PyStr Json ExecModels Accounts Html Objects Templates TemplateFacts.

Section Shown.
Context {float_ops : FloatOps} `{ObjectEnv}.

Definition shows (e : result doc) : Prop := exists d, e = Ok d.
Lemma results_total {A B} (f : A -> result B) l :
  (forall x, x ∈ l -> exists y, f x = Ok y) -> exists r, results (f <$> l) = Ok r.
Proof.
  intros Hf. induction l as [|x l IH]; csimpl; [by eexists|].
  destruct (Hf x) as [d ->]; [by left|]. destruct IH as [ds ->]; [|by eexists].
  intros y Hy. apply Hf. by right.
Qed.
Lemma rows_shown {A} (f : A -> result doc) l :
  (forall x, x ∈ l -> shows (f x)) -> shows (rows_of f l).
Proof.
  intros Hf. destruct (results_total f l Hf) as [ds E]. exists (concat ds).
  unfold rows_of. by rewrite E.
Qed.
Lemma rows_shown_map {A} (g : A -> pyobj) f l : (forall x, shows (f (g x))) -> shows (rows_of f (g <$> l)).
Proof. intros Hf. apply rows_shown. intros y (x & -> & _)%list_elem_of_fmap. apply Hf. Qed.
Lemma is_ok_shows e : is_ok e = true -> shows e.
Proof. destruct e; [by eexists|done]. Qed.
Lemma shows_rows k l : shows l -> (forall d, shows (k d)) -> shows (let? d := l in k d).
Proof. intros [d ->] Hk. apply Hk. Qed.
Ltac computed_ok := apply is_ok_shows; vm_compute; reflexivity.

(** The pages of workers, executions, capabilities, tasks and the policy are printed
    for every state of the runtime. *)
Lemma workers_shown ws tok : shows (workers_page (worker_object <$> ws) tok).
Proof.
  apply shows_rows; [|intros; computed_ok]. apply rows_shown_map. intros w. computed_ok.
Qed.
Lemma worker_detail_shown w tok : shows (worker_detail_page (worker_object w) tok).
Proof. destruct w as [? ? ? ? ? ? ? ? [[]|] ? ? ? ? ? ? ? [s|] [f|]]; computed_ok. Qed.
Lemma executions_shown es tok : shows (executions_page (execution_object <$> es) tok).
Proof.
  apply shows_rows; [|intros; computed_ok]. apply rows_shown_map. intros e.
  unfold execution_object. destruct (c_started_at e), (c_completed_at e), (c_duration_ms e); computed_ok.
Qed.
Lemma capabilities_shown cs tok : shows (capabilities_page (capability_object <$> cs) tok).
Proof.
  apply shows_rows; [|intros; computed_ok]. apply rows_shown_map. intros c.
  unfold capability_object. destruct (enabled c), (inference_required c); computed_ok.
Qed.
Lemma policies_shown p tok : shows (policies_page (policy_object p) tok).
Proof. destruct p as [v [] []]; computed_ok. Qed.
Lemma tasks_shown ts tok : shows (execution_tasks_page (prod_map id task_object <$> ts) tok).
Proof.
  apply shows_rows; [|intros; computed_ok]. apply rows_shown.
  intros y ([k t] & -> & _)%list_elem_of_fmap. computed_ok.
Qed.
Lemma topology_shown ws tok : shows (execution_workers_page (prod_map id worker_object <$> ws) tok).
Proof.
  apply shows_rows; [|intros; computed_ok]. apply rows_shown.
  intros y ([k w] & -> & _)%list_elem_of_fmap. computed_ok.
Qed.
Lemma preferred_shown c bs : exists o, preferred_model c (binding_object <$> bs) same_text = Ok o.
Proof.
  induction bs as [|b bs IH]; csimpl; [by eexists|].
  simpl. match goal with |- context [if ?x then Ok _ else _] => destruct x end; [|exact IH].
  destruct (b_preferred b); [by eexists|exact IH].
Qed.
Lemma intelligence_shown cs bs tok :
  shows (intelligence_capabilities_page (capability_object <$> cs) (binding_object <$> bs) tok).
Proof.
  apply shows_rows; [|intros; computed_ok]. apply rows_shown_map. intros c. cbv beta.
  change (Ok (capability_object c) ∙ "capability_id") with (Ok (str (capability_id c))). cbv iota beta.
  destruct (preferred_shown (str (capability_id c)) bs) as [o ->]. computed_ok.
Qed.

(** The attributes two templates read do not exist: a page with a model or an account on
    it raises. *)
Lemma rows_raise {A} (f : A -> result doc) x l e : f x = Raise e -> rows_of f (x :: l) = Raise e.
Proof. intros Hf. unfold rows_of. csimpl. by rewrite Hf. Qed.
Definition missing (cls k : string) : exn :=
  Exn AttributeError (squote +:+ cls +:+ squote +:+ " object has no attribute " +:+ squote +:+ k +:+ squote).
Lemma raises_rows (l : result doc) e k : l = Raise e -> (let? d := l in k d : result doc) = Raise e.
Proof. by intros ->. Qed.
Lemma models_raise m ms tok :
  models_page (model_object <$> m :: ms) tok = Raise (missing "ModelDefinition" "state").
Proof. apply raises_rows. csimpl. by apply rows_raise. Qed.
Lemma model_detail_raises m bs hw perf tok :
  model_detail_page (model_object m) bs hw perf tok = Raise (missing "ModelDefinition" "state").
Proof. done. Qed.
Lemma accounts_raise a l tok :
  universe_accounts_page (account_object <$> a :: l) tok = Raise (missing "Account" "name").
Proof. apply raises_rows. csimpl. by apply rows_raise. Qed.
Lemma account_detail_raises a tok :
  universe_account_detail_page (account_object a) tok = Raise (missing "Account" "name").
Proof. done. Qed.
(** For every state of the runtime the pages of workers, executions, capabilities, the
    policy, tasks and bindings are printed, with every attribute they read present; the
    lists of models and of accounts are printed only when empty, since their rows read
    an attribute the records do not have. *)
Theorem records_rendered tok :
  (forall ws, shows (workers_page (worker_object <$> ws) tok)) /\
  (forall w, shows (worker_detail_page (worker_object w) tok)) /\
  (forall es, shows (executions_page (execution_object <$> es) tok)) /\
  (forall cs, shows (capabilities_page (capability_object <$> cs) tok)) /\
  (forall p, shows (policies_page (policy_object p) tok)) /\
  (forall ts, shows (execution_tasks_page (prod_map id task_object <$> ts) tok)) /\
  (forall ws, shows (execution_workers_page (prod_map id worker_object <$> ws) tok)) /\
  (forall cs bs, shows (intelligence_capabilities_page (capability_object <$> cs) (binding_object <$> bs) tok)) /\
  (forall ms, shows (models_page (model_object <$> ms) tok) <-> ms = []) /\
  (forall l, shows (universe_accounts_page (account_object <$> l) tok) <-> l = []).
Proof.
  split_and!; intros.
  - apply workers_shown.
  - apply worker_detail_shown.
  - apply executions_shown.
  - apply capabilities_shown.
  - apply policies_shown.
  - apply tasks_shown.
  - apply topology_shown.
  - apply intelligence_shown.
  - split; [|intros ->; computed_ok]. intros [d Hd]. destruct ms as [|m ms]; [done|].
    rewrite models_raise in Hd. discriminate.
  - split; [|intros ->; computed_ok]. intros [d Hd]. destruct l as [|a l]; [done|].
    rewrite accounts_raise in Hd. discriminate.
Qed.
End Shown.

(** ** Where a value stands
    [arrives d v]: the browser reads the text [v] of [d] in the data state, where a
    [<] opens a tag. *)
Section Arrival.
Context (tok : string).
#[local] Instance token_values : AttrValue string := concrete tok.
Definition arrives (d : doc) (v : string) : Prop := forall st, exists pre post st',
  text d = pre +:+ v +:+ post /\
  scan (mkScanning MData st None) pre = Some (mkScanning MData st' None).

Fixpoint before_hole (n : string) (t : list tpiece) : option (list tpiece) :=
  match t with
  | [] => None
  | THole m :: t' => if m =s n then Some [] else cons (THole m) <$> before_hole n t'
  | TChar c :: t' => cons (TChar c) <$> before_hole n t'
  end.
Definition in_data (t : list tpiece) : bool :=
  match check kind_of (mkScanning MData [] None) t with
  | Some (mkScanning MData _ None) => true
  | _ => false
  end.
Definition stands_in_data (n s : string) : bool :=
  match before_hole n (parse s) with Some t => in_data t | None => false end.
Definition holes_before (n s : string) : list string :=
  match before_hole n (parse s) with Some t => tpl_holes t | None => [] end.
Lemma before_hole_split n t t1 : before_hole n t = Some t1 -> exists t2, t = t1 ++ THole n :: t2.
Proof.
  revert t1. induction t as [|[c|m] t IH]; simpl; intros t1 Ht; [done| |].
  - destruct (before_hole n t) as [t0|]; simplify_eq/=. destruct (IH _ eq_refl) as [t2 ->]. by exists t2.
  - destruct (String.eqb_spec m n) as [->|]; simplify_eq/=; [by exists t|].
    destruct (before_hole n t) as [t0|]; simplify_eq/=. destruct (IH _ eq_refl) as [t2 ->]. by exists t2.
Qed.
Lemma fill_app h t1 t2 : fill h (t1 ++ t2) = fill h t1 ++ fill h t2.
Proof. apply bind_app. Qed.
Lemma arrives_fmt n s h v :
  stands_in_data n s = true ->
  Forall (fun m => keeps_kind tok (kind_of m) (hole h m)) (holes_before n s) ->
  arrives (hole h n) v -> arrives (fmt s h) v.
Proof.
  unfold stands_in_data, holes_before, fmt. intros Hs Hh Hv st.
  destruct (before_hole n (parse s)) as [t1|] eqn:E; [|done].
  destruct (before_hole_split _ _ _ E) as [t2 ->]. unfold in_data in Hs.
  destruct (check kind_of _ t1) as [[[] k [|]]|] eqn:Ec; try done.
  assert (Forall (hole_ok kind_of tok h) (tpl_holes t1)) as Ho.
  { eapply Forall_impl; [exact Hh|]. intros m. unfold keeps_kind, hole_ok. by destruct (kind_of m). }
  assert (scan (mkScanning MData st None) (text (fill h t1))
          = Some (mkScanning MData (k ++ st) None)) as Hc
    by exact (scan_above st _ _ _ (check_sound kind_of tok h _ _ _ Ec Ho)).
  destruct (Hv (k ++ st)) as (pre & post & st' & Ht & Hp).
  exists (text (fill h t1) +:+ pre), (post +:+ text (fill h t2)), st'. split.
  - rewrite fill_app, text_app. change (fill h (THole n :: t2)) with (hole h n ++ fill h t2).
    by rewrite text_app, Ht, !string_app_assoc.
  - by rewrite scan_app, Hc.
Qed.
Lemma arrives_val v : arrives [Val v] v.
Proof. intros st. exists "", "", st. simpl. by rewrite string_app_nil_r. Qed.
Lemma tame_keeps k d : tame tok k d -> Forall (fun s => plain s = true) (values d) -> keeps_kind tok k d.
Proof. auto. Qed.
Lemma layout_arrives title content active v :
  plain tok = true -> plain (text title) = true -> arrives content v ->
  arrives (base_layout title content active tok) v.
Proof.
  intros Htok Ht Hv. unfold base_layout. apply (arrives_fmt "content"); [computed| |].
  - match goal with |- Forall ?P ?l =>
      let l' := eval vm_compute in l in change (Forall P l'); repeat apply List.Forall_cons end;
      [..|apply List.Forall_nil].
    all: match goal with |- keeps_kind _ (kind_of ?n) (hole ?l ?n) =>
      let k := eval vm_compute in (kind_of n) in
      let d := lookup_in n l in rewrite (hole_found l n d eq_refl); change (keeps_kind tok k d) end.
    all: first [exact Ht | split; [apply string_app_nil_r|exact Htok]
               |apply tame_keeps; [first [apply nav_inner; computed | apply tame_lit; computed
                                         |apply tame_lit_raw; computed]|constructor]].
  - exact Hv.
Qed.

(** The search page: whatever the query is, the browser reads it as markup. *)
Lemma search_arrives `{FloatOps} `{ObjectEnv} q d :
  plain tok = true -> search_page (str q) tok = Ok d -> arrives d q.
Proof.
  intros Htok Hd. unfold search_page in Hd. simpl in Hd. simplify_eq.
  apply layout_arrives; [done|done|]. apply (arrives_fmt "query"); [computed|constructor|].
  apply arrives_val.
Qed.

(** The page of the fabric's setup prints [{csrf_token}], in braces, whatever the token:
    its form is refused. *)
Lemma fabric_setup_same `{FloatOps} `{ObjectEnv} orgs error tok' :
  fabric_setup_page orgs error tok = fabric_setup_page orgs error tok'.
Proof. done. Qed.
Definition FIELD : string := quoted "<input type=~hidden~ name=~csrf_token~ value=~{csrf_token}~>".
Lemma scan_stops (s s' : scanning string) a b c :
  scan s a = Some s' -> scan s' c = None -> scan s (a +:+ c +:+ b) = None.
Proof. intros Ha Hc. rewrite scan_app, Ha. simpl. by rewrite scan_app, Hc. Qed.
Lemma field_refused st :
  tok <> "{csrf_token}" -> scan (mkScanning MData st (Some false)) FIELD = None.
Proof. intros Ht%String.eqb_neq. vm_compute in Ht |- *. by rewrite Ht. Qed.
Lemma fabric_setup_refused `{FloatOps} `{ObjectEnv} d :
  tok <> "{csrf_token}" -> fabric_setup_page [] (PVal VNone) tok = Ok d -> ~ page_ok tok (text d).
Proof.
  intros Ht Hd. rewrite (fabric_setup_same _ _ "") in Hd.
  set (t := match fabric_setup_page [] (PVal VNone) "" with Ok d => text d | _ => "" end).
  assert (text d = t) as -> by (unfold t; by rewrite Hd). clear Hd.
  assert (exists b, t = before FIELD t +:+ FIELD +:+ b) as [b ->]
    by (exists (String.substring (String.length (before FIELD t) + String.length FIELD) (String.length t) t);
        vm_compute; reflexivity).
  assert (exists st, scan start (before FIELD t) = Some (mkScanning MData st (Some false))) as [st Hs]
    by (eexists; vm_compute; reflexivity).
  intros Hok. pose proof (scan_stops _ _ _ b _ Hs (field_refused st Ht)) as Hn.
  pose proof (eq_trans (eq_sym Hn) Hok). discriminate.
Qed.
End Arrival.
