(* ===== verification/ControlCenter.v ===== *)
(** * The control center and the injection of its SYNC controls

    [runtime/admin/templates_cc.py] and [sync_ui.py]: the text of the dashboard,
    and the insertion of a button, a panel, a style sheet and a script around the
    page that was printed. *)
From S2P Require Import Prelude Dict PyVal PyStr Json Html.
From S2P Require Workspaces.

(** [s[n:]] *)
Fixpoint skip_chars (n : nat) (s : string) : string :=
  match n, s with
  | S n', String _ s' => skip_chars n' s'
  | _, _ => s
  end.
(** [s.replace(m, r, 1)] *)
Fixpoint replace_first (m r s : string) : string :=
  if startswith m s then r +:+ skip_chars (String.length m) s
  else match s with "" => "" | String c s' => String c (replace_first m r s') end.

(** ** [control_center_page] *)
Definition HEAD : string := quoted (
  "<!DOCTYPE html>
<html lang=~en~>
<head>
    <meta charset=~UTF-8~>
    <meta name=~viewport~ content=~width=device-width, initial-scale=1.0~>
    <title>ANNY CONTROL CENTER</title>
    <link rel=~preconnect~ href=~https://fonts.googleapis.com~>
    <link rel=~preconnect~ href=~https://fonts.gstatic.com~ crossorigin>
    <link href=~https://fonts.googleapis.com/css2?family=Inter:wght@300;400;600;700&family=JetBrains+Mono:wght@400;700&display=swap~ rel=~stylesheet~>
    <style>
        :root {
            --bg-color: #0b0f19;
            --panel-bg: #111827;
            --text-primary: #f3f4f6;
            --text-secondary: #9ca3af;
            --accent: #3b82f6;
            --accent-hover: #2563eb;
            --success: #10b981;
            --warning: #f59e0b;
            --danger: #ef4444;
            --border: #1f2937;
            --verifying: #8b5cf6;
        }
        * { box-sizing: border-box; }
        body {
            margin: 0; padding: 0;
            background-color: var(--bg-color);
            color: var(--text-primary);
            font-family: 'Inter', sans-serif;
            display: flex; flex-direction: column; min-height: 100vh;
        }
        header {
            background-color: var(--panel-bg);
            border-bottom: 1px solid var(--border);
            padding: 1rem 2rem;
            display: flex; justify-content: space-between; align-items: center;
            position: sticky; top: 0; z-index: 100;
            box-shadow: 0 4px 12px rgba(0,0,0,.3);
        }
        .header-left h1 {
            font-size: 1.3rem; font-weight: 700; letter-spacing: .08em; margin: 0;
            background: linear-gradient(90deg, #60a5fa, #a78bfa);
            -webkit-background-clip: text; -webkit-text-fill-color: transparent;
        }
        .header-left .sub { font-size: .75rem; color: var(--text-secondary); margin-top: .2rem; }
        .header-actions { display: flex; align-items: center; gap: 1rem; }
        #last-verified { font-size: .75rem; color: var(--text-secondary); }
        #verify-btn {
            background: linear-gradient(135deg, #3b82f6, #6366f1);
            color: #fff; border: none; padding: .45rem 1.1rem;
            border-radius: 6px; font-weight: 600; font-size: .85rem;
            cursor: pointer; transition: opacity .2s;
        }
        #verify-btn:hover { opacity: .85; }
        #verify-btn:disabled { opacity: .4; cursor: not-allowed; }
        main {
            padding: 1.5rem;
            display: grid;
            grid-template-columns: repeat(auto-fit, minmax(380px, 1fr));
            gap: 1.25rem;
        }
        .panel {
            background-color: var(--panel-bg);
            border: 1px solid var(--border);
            border-radius: 10px; padding: 1.25rem;
            box-shadow: 0 4px 6px rgba(0,0,0,.15);
        }
        .panel.full { grid-column: 1 / -1; }
        .panel h2 {
            font-size: .75rem; text-transform: uppercase; letter-spacing: .08em;
            color: var(--text-secondary); margin: 0 0 1rem;
            border-bottom: 1px solid var(--border); padding-bottom: .5rem;
        }
        .kv-grid {
            display: grid; grid-template-columns: 1fr 1fr; gap: .75rem;
        }
        .kv { display: flex; flex-direction: column; }
        .kv .lbl { font-size: .65rem; color: var(--text-secondary); text-transform: uppercase; margin-bottom: .2rem; }
        .kv .val { font-family: 'JetBrains Mono', monospace; font-size: .85rem; font-weight: 600; }
        .badge {
            display: inline-block; padding: .15rem .45rem; border-radius: 4px;
            font-size: .7rem; font-weight: 700; text-transform: uppercase; letter-spacing: .04em;
        }
" +:+
  "        .pass, .ready, .ok, .connected, .admitted, .coherent, .authorized { background: rgba(16,185,129,.15); color: #10b981; }
        .fail, .blocked, .error { background: rgba(239,68,68,.15); color: #ef4444; }
        .verifying, .starting { background: rgba(139,92,246,.15); color: #8b5cf6; }
        .stale, .pending, .not_configured, .unavailable, .unauthorized { background: rgba(245,158,11,.15); color: #f59e0b; }
        .unknown { background: rgba(156,163,175,.12); color: #9ca3af; }
        table { width: 100%; border-collapse: collapse; font-size: .82rem; }
        th, td { padding: .45rem .5rem; text-align: left; border-bottom: 1px solid var(--border); }
        th { color: var(--text-secondary); font-weight: 600; text-transform: uppercase; font-size: .68rem; }
        .mono { font-family: 'JetBrains Mono', monospace; }
        .dot { width:8px; height:8px; border-radius:50%; background:var(--border); display:inline-block; }
        .dot.on { background:#10b981; }
        .dot.off { background:#1f2937; }
        .pulse { animation: pulse 2s infinite; }
        @keyframes pulse { 0%,100%{opacity:1} 50%{opacity:.5} }
        @media(max-width:640px){ main{grid-template-columns:1fr} }
    </style>
</head>
").
Definition PANELS : string := quoted (
  "<body>
<header>
    <div class=~header-left~>
        <h1>⬡ ANNY CONTROL CENTER</h1>
        <div class=~sub~>
            State: <span id=~rt-state-badge~ class=~badge unknown pulse~>LOADING</span>
            &nbsp;|&nbsp; Ready: <span id=~rt-ready-badge~ class=~badge unknown~>--</span>
        </div>
    </div>
    <div class=~header-actions~>
        <span id=~last-verified~>LAST POLLED: —</span>
        <button id=~verify-btn~ onclick=~triggerVerify()~>⟳ VERIFY NOW</button>
    </div>
</header>
<main>

<!-- Top-Level State -->
<div class=~panel~>
    <h2>Top-Level State</h2>
    <div class=~kv-grid~>
        <div class=~kv~><span class=~lbl~>ANNY STATUS</span><span class=~val~ id=~st-anny~>--</span></div>
        <div class=~kv~><span class=~lbl~>RUNTIME HEALTH</span><span class=~val~ id=~st-health~>--</span></div>
        <div class=~kv~><span class=~lbl~>GITHUB STATUS</span><span class=~val~ id=~st-github~>--</span></div>
        <div class=~kv~><span class=~lbl~>FABRIC STATUS</span><span class=~val~ id=~st-fabric~>--</span></div>
        <div class=~kv~><span class=~lbl~>ADMISSION STATUS</span><span class=~val~ id=~st-admission~>--</span></div>
        <div class=~kv~><span class=~lbl~>RECONCILIATION</span><span class=~val~ id=~st-recon~>--</span></div>
    </div>
</div>

<!-- Operational Snapshot -->
<div class=~panel~>
    <h2>Operational Snapshot</h2>
    <div class=~kv-grid~>
        <div class=~kv~><span class=~lbl~>RUNTIME ID</span><span class=~val mono~ id=~snap-id~>--</span></div>
        <div class=~kv~><span class=~lbl~>VERSION</span><span class=~val mono~ id=~snap-ver~>--</span></div>
        <div class=~kv~><span class=~lbl~>FABRIC ORG</span><span class=~val mono~ id=~snap-fab-org~>--</span></div>
        <div class=~kv~><span class=~lbl~>FABRIC REPO</span><span class=~val mono~ id=~snap-fab-repo~>--</span></div>
        <div class=~kv~><span class=~lbl~>FABRIC NODE</span><span class=~val mono~ id=~snap-fab-node~>--</span></div>
        <div class=~kv~><span class=~lbl~>TENANT</span><span class=~val mono~ id=~snap-tenant~>--</span></div>
        <div class=~kv~><span class=~lbl~>POLICY REV</span><span class=~val mono~ id=~snap-pol-rev~>--</span></div>
        <div class=~kv~><span class=~lbl~>CONTRACT REV</span><span class=~val mono~ id=~snap-con-rev~>--</span></div>
    </div>
</div>

<!-- Bootstrap Verification -->
<div class=~panel full~>
    <h2>Bootstrap Verification</h2>
    <div style=~overflow-x:auto~>
        <table>
            <thead><tr><th>Phase</th><th>Gate</th><th>Result</th><th>Detail</th><th>Evidence</th></tr></thead>
            <tbody id=~gates-tbody~><tr><td colspan=~5~ style=~color:var(--text-secondary)~>Loading...</td></tr></tbody>
        </table>
    </div>
</div>

<!-- Runtime Health -->
<div class=~panel~>
    <h2>Runtime Health</h2>
    <table><thead><tr><th>Subsystem</th><th>Status</th></tr></thead>
    <tbody id=~health-tbody~></tbody></table>
</div>

<!-- Repository Fabric -->
<div class=~panel~>
    <h2>Repository Fabric</h2>
    <table><thead><tr><th>Component</th><th>Status</th></tr></thead>
    <tbody id=~fabric-tbody~></tbody></table>
</div>

<!-- Access Verification -->
<div class=~panel~>
    <h2>Access Verification</h2>
    <table><thead><tr><th>Capability</th><th>Expected</th><th>Result</th></tr></thead>
    <tbody id=~access-tbody~></tbody></table>
</div>

<!-- Current Contract -->
<div class=~panel~>
    <h2>Current Contract</h2>
    <div id=~contract-div~></div>
</div>

<!-- Capability Inventory -->
<div class=~panel full~>
    <h2>Capability Inventory</h2>
    <div style=~overflow-x:auto~>
        <table>
            <thead><tr>
                <th>Capability ID</th>
                <th title=~DECLARED~>DEC</th><th title=~CONFIGURED~>CFG</th>
" +:+
  "                <th title=~ENABLED~>ENA</th><th title=~AUTHORIZED~>AUT</th>
                <th title=~AVAILABLE~>AVL</th><th title=~FUNCTIONAL~>FNC</th>
                <th title=~TESTED~>TST</th><th title=~VERIFIED~>VRF</th>
            </tr></thead>
            <tbody id=~cap-tbody~></tbody>
        </table>
    </div>
</div>

<!-- Tools -->
<div class=~panel~>
    <h2>Tools</h2>
    <table><thead><tr><th>Tool</th><th>Status</th></tr></thead>
    <tbody id=~tools-tbody~></tbody></table>
</div>

<!-- Models -->
<div class=~panel~>
    <h2>Models</h2>
    <table><thead><tr><th>Model</th><th>Status</th></tr></thead>
    <tbody id=~models-tbody~></tbody></table>
</div>

<!-- Workers -->
<div class=~panel~>
    <h2>Workers</h2>
    <table><thead><tr><th>Worker Profile</th><th>Status</th></tr></thead>
    <tbody id=~workers-tbody~></tbody></table>
</div>

<!-- Connectors -->
<div class=~panel~>
    <h2>Connectors</h2>
    <table><thead><tr><th>Connector</th><th>Status</th></tr></thead>
    <tbody id=~connectors-tbody~></tbody></table>
</div>

<!-- Processing Matrix -->
<div class=~panel full~>
    <h2>Processing Matrix</h2>
    <div style=~overflow-x:auto~>
        <table>
            <thead><tr>
                <th>Department</th>
                <th title=~Total Tasks~>Total</th>
                <th title=~Deterministic Plane~>DET</th>
                <th title=~Local Model Plane~>LOC</th>
                <th title=~Frontier Model Plane~>FRN</th>
                <th title=~Unknown Plane~>UNK</th>
                <th title=~Succeeded~>SUC</th>
                <th title=~Failed~>FAL</th>
                <th title=~Timed Out~>TMO</th>
                <th title=~Blocked~>BLK</th>
                <th title=~Average Duration (ms)~>Avg(ms)</th>
            </tr></thead>
            <tbody id=~matrix-tbody~><tr><td colspan=~11~ style=~color:var(--text-secondary)~>Loading...</td></tr></tbody>
        </table>
    </div>
</div>

<!-- Continuity -->
<div class=~panel full~>
    <h2>Continuity</h2>
    <div class=~kv-grid~>
        <div class=~kv~><span class=~lbl~>CURRENT MISSION</span><span class=~val mono~ id=~cont-mission~>--</span></div>
        <div class=~kv~><span class=~lbl~>CURRENT TASK</span><span class=~val mono~ id=~cont-task~>--</span></div>
        <div class=~kv~><span class=~lbl~>CURRENT STEP</span><span class=~val mono~ id=~cont-step~>--</span></div>
        <div class=~kv~><span class=~lbl~>NEXT ACTION</span><span class=~val mono~ id=~cont-action~>--</span></div>
        <div class=~kv~><span class=~lbl~>BLOCKERS</span><span class=~val mono~ id=~cont-blockers~>--</span></div>
        <div class=~kv~><span class=~lbl~>STATUS</span><span class=~val~ id=~cont-status~>--</span></div>
    </div>
</div>

</main>
").
Definition UPDATE_SCRIPT : string := quoted (
  "<script>
const CSRF_TOKEN = ~__CSRF__~;

function badge(text) {
    if (!text) return '<span class=~badge unknown~>UNKNOWN</span>';
    const u = String(text).toUpperCase().split(' ').join('_');
    const cls = (['PASS','READY','OK','CONNECTED','ADMITTED','COHERENT','AUTHORIZED'].includes(u) ? 'pass' :
                 ['FAIL','BLOCKED','ERROR','DENIED'].includes(u) ? 'fail' :
                 ['VERIFYING','STARTING'].includes(u) ? 'verifying' :
                 ['STALE','PENDING','NOT_CONFIGURED','UNAVAILABLE','UNAUTHORIZED'].includes(u) ? 'stale' : 'unknown');
    return '<span class=~badge ' + cls + '~>' + u + '</span>';
}

function dot(v) { return '<span class=~dot ' + (v ? 'on' : 'off') + '~></span>'; }

function setInner(id, html) {
    const el = document.getElementById(id);
    if (el) el.innerHTML = html;
}
function setText(id, text) {
    const el = document.getElementById(id);
    if (el) el.textContent = text || '--';
}

function populateTable(tbodyId, arr, cols) {
    if (!arr || !arr.length) {
        setInner(tbodyId, '<tr><td colspan=~' + cols + '~ style=~color:var(--text-secondary)~>None</td></tr>');
        return;
    }
    setInner(tbodyId, arr.map(function(i) {
        return '<tr><td class=~mono~>' + (i.name || i.id || '--') + '</td><td>' + badge(i.status) + '</td></tr>';
    }).join(''));
}

function updateUI(d) {
    // Header badges
    const stateBadge = document.getElementById('rt-state-badge');
    if (stateBadge) {
        stateBadge.innerHTML = (d.runtime_state || 'UNKNOWN');
        stateBadge.className = 'badge ' + (d.runtime_state || 'unknown').toLowerCase().replace(/_/g,'-');
        const isActive = ['STARTING','VERIFYING'].includes((d.runtime_state||'').toUpperCase());
        if (isActive) stateBadge.classList.add('pulse'); else stateBadge.classList.remove('pulse');
    }
    setInner('rt-ready-badge', badge(d.anny_ready ? 'PASS' : (d.runtime_state === 'STARTING' ? 'VERIFYING' : 'BLOCKED')));

    // Top-level state
    setInner('st-anny', badge(d.anny_ready ? 'READY' : 'BLOCKED'));
    setInner('st-health', badge(d.runtime_health));
    setInner('st-github', badge(d.github_status));
    setInner('st-fabric', badge(d.fabric_status));
    setInner('st-admission', badge(d.admission_status));
    setInner('st-recon', badge(d.reconciliation_status));

    // Timestamp
    if (d.timestamp) setText('last-verified', 'LAST POLLED: ' + d.timestamp);

    // Snapshot
    setText('snap-id', d.runtime_id);
    setText('snap-ver', d.runtime_version);
    setText('snap-fab-org', d.fabric_org);
    setText('snap-fab-repo', d.fabric_repo);
    setText('snap-fab-node', d.fabric_node);
    setText('snap-tenant', d.tenant);
    setText('snap-pol-rev', d.policy_revision);
    setText('snap-con-rev', d.contract_revision);

    // Gates
    if (d.gates && d.gates.length) {
        setInner('gates-tbody', d.gates.map(function(g) {
            return '<tr><td>' + (g.phase||'') + '</td><td class=~mono~>' + (g.gate||'') + '</td><td>' +
                   badge(g.status) + '</td><td>' + (g.detail||'') + '</td><td class=~mono~ style=~font-size:.7rem~>' +
                   (g.evidence||'') + '</td></tr>';
        }).join(''));
    } else if (d.runtime_state === 'STARTING') {
        setInner('gates-tbody', '<tr><td colspan=~5~ style=~color:var(--verifying)~>Bootstrap running...</td></tr>');
    }

    // Health
    if (d.health && Object.keys(d.health).length) {
        setInner('health-tbody', Object.entries(d.health).map(function(kv) {
            return '<tr><td class=~mono~>' + kv[0] + '</td><td>' + badge(kv[1]) + '</td></tr>';
        }).join(''));
    }

    // Fabric details
    if (d.fabric_details && Object.keys(d.fabric_details).length) {
" +:+
  "        setInner('fabric-tbody', Object.entries(d.fabric_details).map(function(kv) {
            return '<tr><td class=~mono~>' + kv[0] + '</td><td>' + badge(kv[1]) + '</td></tr>';
        }).join(''));
    } else {
        setInner('fabric-tbody', '<tr><td class=~mono~>fabric</td><td>' + badge(d.fabric_status) + '</td></tr>');
    }

    // Access
    if (d.access && d.access.length) {
        setInner('access-tbody', d.access.map(function(a) {
            return '<tr><td class=~mono~>' + a.capability + '</td><td class=~mono~>' + a.expected + '</td><td>' + badge(a.result) + '</td></tr>';
        }).join(''));
    } else {
        setInner('access-tbody', '<tr><td colspan=~3~ style=~color:var(--text-secondary)~>None</td></tr>');
    }

    // Contract
    if (d.contract) {
        setInner('contract-div',
            '<div style=~margin-bottom:.4rem~><strong>ALLOWED:</strong> <span class=~mono~>' + (d.contract.allowed||'NONE') + '</span></div>' +
            '<div style=~margin-bottom:.4rem~><strong>DENIED:</strong> <span class=~mono~>' + (d.contract.denied||'NONE') + '</span></div>' +
            '<div style=~margin-bottom:.4rem~><strong>NETWORK:</strong> <span class=~mono~>' + (d.contract.network||'UNKNOWN') + '</span></div>' +
            '<div><strong>WORKER LIMITS:</strong> <span class=~mono~>' + (d.contract.worker_limits||'UNKNOWN') + '</span></div>'
        );
    }

    // Capabilities
    if (d.capabilities && d.capabilities.length) {
        setInner('cap-tbody', d.capabilities.map(function(c) {
            var s = c.states || {};
            return '<tr><td class=~mono~>' + c.id + '</td>' +
                   ['DECLARED','CONFIGURED','ENABLED','AUTHORIZED','AVAILABLE','FUNCTIONAL','TESTED','VERIFIED'].map(function(k) {
                       return '<td>' + dot(s[k]) + '</td>';
                   }).join('') + '</tr>';
        }).join(''));
    } else {
        setInner('cap-tbody', '<tr><td colspan=~9~ style=~color:var(--text-secondary)~>No capabilities declared</td></tr>');
    }

    // Inventories
    populateTable('tools-tbody', d.tools, 2);
    populateTable('models-tbody', d.models, 2);
    populateTable('workers-tbody', d.workers, 2);
    populateTable('connectors-tbody', d.connectors, 2);

    // Continuity
    if (d.continuity) {
        setText('cont-mission', d.continuity.mission);
        setText('cont-task', d.continuity.task);
        setText('cont-step', d.continuity.step);
        setText('cont-action', d.continuity.action);
        setText('cont-blockers', d.continuity.blockers);
        setInner('cont-status', badge(d.continuity.status));
    }
}

").
Definition REQUEST_SCRIPT : string := quoted (
  "async function fetchStatus() {
    try {
        const r = await fetch('/api/status');
        if (!r.ok) return;
        const d = await r.json();
        updateUI(d);
        const now = new Date().toISOString().replace('T',' ').substring(0,19);
        setText('last-verified', 'LAST POLLED: ' + now + ' UTC');
    } catch(e) {
        console.error('Status fetch failed:', e);
    }
}

async function fetchProcessingMatrix() {
    try {
        const r = await fetch('/api/processing/matrix');
        if (!r.ok) return;
        const d = await r.json();
        
        let html = '';
        if (d.global) {
            html += '<tr><td class=~mono~ style=~font-weight:bold~>ALL</td>' +
                   '<td>' + (d.global.total||0) + '</td>' +
                   '<td>' + (d.global.deterministic||0) + '</td>' +
                   '<td>' + (d.global.local_model||0) + '</td>' +
                   '<td>' + (d.global.frontier_model||0) + '</td>' +
                   '<td>' + (d.global.unknown||0) + '</td>' +
                   '<td>' + (d.global.success||0) + '</td>' +
                   '<td>' + (d.global.failed||0) + '</td>' +
                   '<td>' + (d.global.timeout||0) + '</td>' +
                   '<td>' + (d.global.blocked||0) + '</td>' +
                   '<td>' + Math.round(d.global.average_duration||0) + '</td></tr>';
        }
        if (d.departments && Object.keys(d.departments).length > 0) {
            for (const [dept, stats] of Object.entries(d.departments)) {
                html += '<tr><td class=~mono~>' + (dept||'UNKNOWN') + '</td>' +
                       '<td>' + (stats.total||0) + '</td>' +
                       '<td>' + (stats.deterministic||0) + '</td>' +
                       '<td>' + (stats.local_model||0) + '</td>' +
                       '<td>' + (stats.frontier_model||0) + '</td>' +
                       '<td>' + (stats.unknown||0) + '</td>' +
                       '<td>' + (stats.success||0) + '</td>' +
                       '<td>' + (stats.failed||0) + '</td>' +
                       '<td>' + (stats.timeout||0) + '</td>' +
                       '<td>' + (stats.blocked||0) + '</td>' +
                       '<td>' + Math.round(stats.average_duration||0) + '</td></tr>';
            }
        }
        if (!html) {
            html = '<tr><td colspan=~11~ style=~color:var(--text-secondary)~>No telemetry data</td></tr>';
        }
        setInner('matrix-tbody', html);
    } catch(e) {
        console.error('Matrix fetch failed:', e);
    }
}

async function triggerVerify() {
    const btn = document.getElementById('verify-btn');
    btn.disabled = true; btn.textContent = '⟳ VERIFYING...';
    try {
        await fetch('/api/bootstrap/verify', {
            method: 'POST',
            headers: { 'Content-Type': 'application/x-www-form-urlencoded' },
            body: 'csrf_token=' + encodeURIComponent(CSRF_TOKEN)
        });
        setTimeout(fetchStatus, 500);
    } catch(e) { console.error(e); }
    finally { btn.disabled = false; btn.textContent = '⟳ VERIFY NOW'; }
}

fetchStatus();
fetchProcessingMatrix();
setInterval(function() {
    fetchStatus();
    fetchProcessingMatrix();
}, 2000);
</script>
</body>
</html>").
Definition CONTROL_CENTER : string := HEAD +:+ PANELS +:+ UPDATE_SCRIPT +:+ REQUEST_SCRIPT.
Definition control_center_page (csrf_token : string) : string :=
  Workspaces.py_replace "__CSRF__" csrf_token CONTROL_CENTER.

(** ** [inject_sync_controls] *)
Definition SYNC_CSS : string := quoted "
<style id=~anny-sync-ui-css~>
#anny-sync-btn{background:linear-gradient(135deg,#7c3aed,#9333ea);color:#fff;border:none;padding:.45rem 1.1rem;border-radius:6px;font-weight:700;font-size:.85rem;cursor:pointer}
#anny-sync-btn:disabled{opacity:.45;cursor:not-allowed}
#anny-sync-panel{grid-column:1/-1;border:1px solid #4c1d95;background:linear-gradient(180deg,rgba(76,29,149,.18),rgba(17,24,39,.95));border-radius:10px;padding:1rem 1.25rem;box-shadow:0 4px 12px rgba(0,0,0,.18)}
#anny-sync-grid{display:grid;grid-template-columns:repeat(6,minmax(120px,1fr));gap:.8rem}
.anny-sync-k{display:flex;flex-direction:column}.anny-sync-k small{font-size:.62rem;color:#9ca3af;text-transform:uppercase}.anny-sync-k strong{font-family:'JetBrains Mono',monospace;font-size:.78rem;margin-top:.2rem;overflow-wrap:anywhere}
#anny-sync-message{margin-top:.7rem;color:#c4b5fd;font-size:.72rem}.anny-sync-actions{display:flex;gap:.5rem;margin-top:.8rem;flex-wrap:wrap}.anny-sync-actions button{background:#1f2937;color:#fff;border:1px solid #374151;padding:.35rem .7rem;border-radius:5px;font-size:.72rem;cursor:pointer}.anny-sync-actions button:disabled{opacity:.4;cursor:not-allowed}
@media(max-width:900px){#anny-sync-grid{grid-template-columns:repeat(2,minmax(120px,1fr))}}
</style>
".
Definition SYNC_PANEL : string := quoted "
<div id=~anny-sync-panel~>
  <div style=~display:flex;justify-content:space-between;align-items:center;gap:.75rem;flex-wrap:wrap~>
    <div>
      <div style=~font-size:.75rem;text-transform:uppercase;letter-spacing:.08em;color:#c4b5fd;font-weight:700~>Governed SYNC</div>
      <div style=~font-size:.68rem;color:#9ca3af;margin-top:.15rem~>SYNC is separate from VERIFY, STAGE and ACTIVATE.</div>
    </div>
    <button id=~anny-sync-btn~ onclick=~annySyncNow()~>⟳ SYNC NOW</button>
  </div>
  <div id=~anny-sync-grid~ style=~margin-top:.9rem~>
    <div class=~anny-sync-k~><small>State</small><strong id=~anny-sync-state~>UNKNOWN</strong></div>
    <div class=~anny-sync-k~><small>Stage</small><strong id=~anny-sync-stage~>NONE</strong></div>
    <div class=~anny-sync-k~><small>Local version</small><strong id=~anny-sync-local~>UNKNOWN</strong></div>
    <div class=~anny-sync-k~><small>Candidate</small><strong id=~anny-sync-candidate~>—</strong></div>
    <div class=~anny-sync-k~><small>Trace</small><strong id=~anny-sync-trace~>—</strong></div>
    <div class=~anny-sync-k~><small>Activation</small><strong id=~anny-sync-activation~>FALSE</strong></div>
  </div>
  <div class=~anny-sync-actions~>
    <button id=~anny-sync-refresh~ onclick=~annySyncPoll()~>REFRESH SYNC STATUS</button>
    <button id=~anny-sync-stage-btn~ onclick=~annySyncStage()~ disabled>STAGE</button>
    <button id=~anny-sync-activate-btn~ onclick=~annySyncActivate()~ disabled>ACTIVATE</button>
    <button id=~anny-sync-rollback-btn~ onclick=~annySyncRollback()~ disabled>ROLLBACK</button>
  </div>
  <div id=~anny-sync-message~>SYNC status has not been read yet.</div>
</div>
".
Definition sync_js (token : string) : string := text (fmt "
<script id=~anny-sync-ui-js~>
(function(){{
  const ANNY_SYNC_CSRF = {token};
  const stateColors = {{VERIFIED:'#10b981',SYNCING:'#8b5cf6',BLOCKED:'#ef4444',FAILED:'#ef4444',UNKNOWN:'#9ca3af',IDLE:'#9ca3af'}};
  function text(id, value){{const el=document.getElementById(id);if(el)el.textContent=(value===null||value===undefined||value==='')?'—':String(value);}}
  function render(d){{
    const state=String(d.sync_state||'UNKNOWN').toUpperCase();
    text('anny-sync-state', state);
    text('anny-sync-stage', d.stage||'NONE');
    text('anny-sync-local', d.local_version||'UNKNOWN');
    text('anny-sync-candidate', d.candidate_version||'—');
    text('anny-sync-trace', d.trace_id||'—');
    text('anny-sync-activation', d.activation_performed ? 'TRUE' : 'FALSE');
    const stateEl=document.getElementById('anny-sync-state');if(stateEl)stateEl.style.color=stateColors[state]||'#9ca3af';
    const btn=document.getElementById('anny-sync-btn');if(btn)btn.disabled=(state==='SYNCING' || state==='STAGING' || state==='ACTIVATING' || state==='ROLLING_BACK');
    const stageBtn = document.getElementById('anny-sync-stage-btn');
    if(stageBtn) stageBtn.disabled = (state !== 'VERIFIED');
    const activateBtn = document.getElementById('anny-sync-activate-btn');
    if(activateBtn) activateBtn.disabled = (state !== 'STAGED');
    const rollbackBtn = document.getElementById('anny-sync-rollback-btn');
    if(rollbackBtn) rollbackBtn.disabled = (!d.activation_performed || state==='ROLLING_BACK');
    const msg=document.getElementById('anny-sync-message');
    if(msg){{
      const err=d.error_classification?(' — '+d.error_classification):'';
      msg.textContent='SYNC '+state+' / stage '+String(d.stage||'NONE')+err;
    }}
  }}
  window.annySyncPoll=function(){{
    fetch('/api/sync/status',{{credentials:'same-origin',cache:'no-store'}})
      .then(r=>r.json()).then(render).catch(()=>render({{sync_state:'UNKNOWN',error_classification:'STATUS_UNAVAILABLE'}}));
  }};
  window.annySyncNow=function(){{
    const btn=document.getElementById('anny-sync-btn');if(btn)btn.disabled=true;
    const body=new URLSearchParams();body.set('csrf_token',ANNY_SYNC_CSRF);
    fetch('/api/sync',{{method:'POST',credentials:'same-origin',headers:{{'Content-Type':'application/x-www-form-urlencoded'}},body}})
      .then(r=>r.json()).then(d=>{{
        text('anny-sync-trace',d.trace_id||'—');
        const msg=document.getElementById('anny-sync-message');if(msg)msg.textContent='SYNC requested; reading durable result…';
        annySyncPoll();
      }})
      .catch(()=>render({{sync_state:'FAILED',error_classification:'SYNC_REQUEST_FAILED'}}))
      .finally(()=>setTimeout(annySyncPoll,250));
  }};
  window.addEventListener('load',function(){{annySyncPoll();setInterval(annySyncPoll,3000);}});
}})();
</script>
"
  [("token", [Val token])]).
Definition INJECTED_HEADER : string :=
  quoted "<button id=~anny-sync-btn~ onclick=~annySyncNow()~>⟳ SYNC NOW</button>".
(** [if 'id="..."' not in page: page = page.replace(marker, text, 1)] *)
Definition insert_once (id marker inserted page : string) : string :=
  if contains (quoted id) page then page else replace_first marker inserted page.
Definition HEADER_MARK : string := "</div>" +:+ newline +:+ "</header>".
Definition MAIN_MARK : string := "<main>" +:+ newline.
Definition inject_sync_controls (page csrf_token : string) : string :=
  let token := json_str csrf_token in
  let page := insert_once "id=~anny-sync-btn~" HEADER_MARK
    ("</div>" +:+ INJECTED_HEADER +:+ newline +:+ "</header>") page in
  let page := insert_once "id=~anny-sync-panel~" MAIN_MARK (MAIN_MARK +:+ SYNC_PANEL +:+ newline) page in
  let page := insert_once "id=~anny-sync-ui-css~" "</head>" (SYNC_CSS +:+ newline +:+ "</head>") page in
  insert_once "id=~anny-sync-ui-js~" "</body>" (sync_js token +:+ newline +:+ "</body>") page.

(** ** What the injection does *)
Lemma skip_chars_app m b : skip_chars (String.length m) (m +:+ b) = b.
Proof.
  induction m as [|c m IH]; [done|]. change (String c m +:+ b) with (String c (m +:+ b)). exact IH.
Qed.
(** The first occurrence of a text is replaced. *)
Lemma replace_first_split m r s :
  contains m s = true -> exists a b, s = a +:+ m +:+ b /\ replace_first m r s = a +:+ r +:+ b.
Proof.
  induction s as [|c s IH]; simpl.
  - destruct m; [|done]. intros _. exists "", "". by rewrite string_app_nil_r.
  - destruct (startswith m (String c s)) eqn:E.
    + intros _. apply startswith_inv in E as [u Hu]. exists "", u. rewrite Hu.
      change ("" +:+ m +:+ u) with (m +:+ u). split; [done|].
      change ("" +:+ r +:+ u) with (r +:+ u). by rewrite skip_chars_app.
    + simpl. intros (a & b & -> & Hr)%IH. exists (String c a), b. split; [done|].
      rewrite Hr. done.
Qed.
(** The inserted part is on the page afterwards, where the page has its marker, and is not
    inserted again. *)
Lemma insert_once_present id marker inserted page :
  contains marker page = true -> contains (quoted id) inserted = true ->
  contains (quoted id) (insert_once id marker inserted page) = true.
Proof.
  intros Hm Hi. unfold insert_once. destruct (contains (quoted id) page) eqn:E; [done|].
  destruct (replace_first_split _ inserted _ Hm) as (a & b & _ & ->).
  apply contains_suffix, contains_prefix, Hi.
Qed.
Lemma insert_once_idempotent id marker inserted inserted' page :
  contains marker page = true -> contains (quoted id) inserted = true ->
  insert_once id marker inserted' (insert_once id marker inserted page)
  = insert_once id marker inserted page.
Proof. intros Hm Hi. unfold insert_once at 1. by rewrite insert_once_present. Qed.

Fixpoint occurrences (m s : string) : nat :=
  match s with "" => 0 | String _ s' => (if startswith m s then 1 else 0) + occurrences m s' end.
Definition closed_page (tok s : string) : bool :=
  match scan (H := concrete tok) start s with
  | Some (mkScanning MData [] None) => true
  | _ => false
  end.
(** The dashboard of a session: it is well formed, the panel, the style sheet and
    the script are on it once, a second injection changes nothing; but the page has two
    elements with the identifier of the button, the one put in its header and the one of the panel. *)
Definition SERVED : string := inject_sync_controls (control_center_page "4f2a") "4f2a".
Example dashboard_served :
  closed_page "4f2a" SERVED = true /\ (inject_sync_controls SERVED "4f2a" =s SERVED) = true /\
  (fun id => occurrences (quoted id) SERVED)
    <$> ["id=~anny-sync-panel~"; "id=~anny-sync-ui-css~"; "id=~anny-sync-ui-js~"; "id=~anny-sync-btn~"]
  = [1; 1; 1; 2].
Proof. vm_compute. by split_and!. Qed.
