(* ===== verification/Secrets.v ===== *)
(** * Secrets

    [runtime/secrets/backend.py] and [broker.py]: the contract of a secret
    backend, the encrypted files that implement it, the two brokers that wrap a
    backend (by capability and tenant, by account), and the handles given to
    operations.  Whatever satisfies the contract ([LawfulBackend]) can be wrapped:
    the wrappers satisfy it again. *)
From stdpp Require Import gmap.
From S2P Require Import Prelude Dict PyVal Effects PyPath PyStr PyBytes Host Identity Keys Accounts.

(** ** The contract *)
Class SecretBackend (S : Type) := {
  sb_store : string -> string -> M S bool;
  sb_retrieve : string -> M S (option string);
  sb_delete : string -> M S bool;
  sb_exists : string -> M S bool;
  sb_list : M S (list string) }.

(** [holds s ref]: the secret filed under [ref].  An operation that raises says
    nothing about its own reference, and no operation concerns another one. *)
Class LawfulBackend S {B : SecretBackend S} := {
  holds : S -> string -> option string;
  store_law ref v s : wp (sb_store ref v) s (fun s' r =>
    (forall ref', ref' <> ref -> holds s' ref' = holds s ref') /\
    forall b, r = Ok b -> b = true /\ holds s' ref = Some v);
  retrieve_law ref s : wp (sb_retrieve ref) s (fun s' r =>
    (forall ref', holds s' ref' = holds s ref') /\ forall o, r = Ok o -> o = holds s ref);
  delete_law ref s : wp (sb_delete ref) s (fun s' r =>
    (forall ref', ref' <> ref -> holds s' ref' = holds s ref') /\
    forall b, r = Ok b -> holds s' ref = None);
  exists_law ref s : wp (sb_exists ref) s (fun s' r =>
    (forall ref', holds s' ref' = holds s ref') /\ (r = Ok false -> holds s ref = None));
  list_law s : wp sb_list s (fun s' r =>
    (forall ref', holds s' ref' = holds s ref') /\
    forall l ref, r = Ok l -> holds s ref <> None -> ref ∈ l) }.
Arguments holds {S B _}.

(** ** Encrypted files *)
(** Fernet with a key, given how many tokens were made before; SHA-256, as
    bytes; the mode of a created file. *)
Class Crypto := {
  fernet_encrypt : string -> nat -> string -> string;
  fernet_decrypt : string -> string -> option string;
  sha256_digest : string -> string;
  creation_mode : Z }.

Record secret_file := mkSecretFile { sf_bytes : string; sf_mode : Z }.
(** The directory of secrets, which no other program writes, the tokens made,
    and how the coming file operations end: a failed [open] leaves the file, a
    failed write leaves it empty. *)
Record SecretDir := mkSecretDir {
  sd_files : gmap string secret_file;
  sd_tokens : nat;
  sd_outcomes : list io_outcome }.
#[export] Instance eta_SecretDir : Eta SecretDir := fun r =>
  mkSecretDir (sd_files r) (sd_tokens r) (sd_outcomes r).

Section Files.
Context {crypto : Crypto}.

(** The key: 32 bytes as they are, anything else hashed; Fernet takes it in the
    URL-safe alphabet. *)
Definition derived_key (master_key : string) : string :=
  if (String.length master_key =? 32)%nat then master_key else sha256_digest master_key.
Definition urlsafe (c : ascii) : ascii :=
  if Ascii.eqb c "+" then "-"%char else if Ascii.eqb c "/" then "_"%char else c.
Fixpoint map_chars (f : ascii -> ascii) (s : string) : string :=
  match s with "" => "" | String c s' => String (f c) (map_chars f s') end.
Definition urlsafe_b64encode (b : string) : string := map_chars urlsafe (b64encode b).
Context (master_key : string).
Definition fernet_key : string := urlsafe_b64encode (derived_key master_key).

(** [\w] below 256: letters, digits, numeric signs and the underscore. *)
Definition word_char (c : ascii) : bool :=
  let n := N_of_ascii c in
  ((48 <=? n) && (n <=? 57) || (65 <=? n) && (n <=? 90) || (97 <=? n) && (n <=? 122)
   || (n =? 95) || (n =? 170) || (n =? 178) || (n =? 179) || (n =? 181) || (n =? 185)
   || (n =? 186) || (188 <=? n) && (n <=? 190) || (192 <=? n) && negb (n =? 215) && negb (n =? 247))%N.
Definition reference_char (c : ascii) : bool :=
  word_char c || Ascii.eqb c "-" || Ascii.eqb c ".".
(** [re.match(r'^[\w\-\.]+$', s)]: [$] also matches before a final newline. *)
Fixpoint matches_more (s : string) : bool :=
  match s with
  | "" => true
  | String c s' => (s =s newline) || reference_char c && matches_more s'
  end.
Definition matches_reference (s : string) : bool :=
  match s with String c s' => reference_char c && matches_more s' | "" => false end.

(** What a reference names: the directory itself or an entry of it. *)
Inductive place := TheDirectory | Entry (name : string).
(** [_safe_reference]: a match has no slash, so only "." and ".." are special.
    The file system refuses names of more than 255 bytes in its own way. *)
Definition safe_reference (ref : string) : result place :=
  if negb (matches_reference ref) then raise ValueError "UNSAFE_REFERENCE"
  else if ref =s ".." then raise ValueError "UNSAFE_REFERENCE"
  else if ref =s "." then Ok TheDirectory
  else if (255 <? String.length (utf8_encode ref))%nat then raise Unmodelled "a name that is too long"
  else Ok (Entry ref).
Definition is_a_directory {A} : result A := raise OSError "Is a directory".

(** One file operation: how it ends. *)
Definition next_outcome : M SecretDir io_outcome := fun d =>
  (d <| sd_outcomes := tl (sd_outcomes d) |>, Ok (default IoDone (head (sd_outcomes d)))).
Definition put_file (name : string) (bytes : string) : M SecretDir unit :=
  modify (fun d => d <| sd_files := <[name := mkSecretFile bytes
      (match sd_files d !! name with Some f => sf_mode f | None => creation_mode end)]>
      (sd_files d) |>).
Definition encrypt_bytes (value : string) : M SecretDir string := fun d =>
  (d <| sd_tokens := S (sd_tokens d) |>, Ok (fernet_encrypt fernet_key (sd_tokens d) value)).
(** [_decrypt] *)
Definition decrypt_bytes (bytes : string) : option string := fernet_decrypt fernet_key bytes.

Definition file_store (ref value : string) : M SecretDir bool :=
  p ← of_result (safe_reference ref);
  encrypted ← encrypt_bytes value;
  match p with
  | TheDirectory => of_result is_a_directory
  | Entry name =>
      o ← next_outcome;
      match o with
      | IoOpenFails => throw OSError "cannot open"
      | IoWriteFails => put_file name "" ;; throw OSError "write failed"
      | IoDone =>
          put_file name encrypted ;;
          o ← next_outcome;
          match o with
          | IoDone =>
              modify (fun d => d <| sd_files := <[name := mkSecretFile encrypted 384]> (sd_files d) |>) ;;
              mret true
          | _ => throw OSError "cannot change the mode"
          end
      end
  end.
Definition file_retrieve (ref : string) : M SecretDir (option string) :=
  p ← of_result (safe_reference ref);
  match p with
  | TheDirectory => of_result is_a_directory
  | Entry name =>
      f ← gets (fun d => sd_files d !! name);
      match f with
      | None => mret None
      | Some f =>
          o ← next_outcome;
          match o with
          | IoDone => mret (decrypt_bytes (sf_bytes f))
          | _ => throw OSError "cannot read"
          end
      end
  end.
Definition file_delete (ref : string) : M SecretDir bool :=
  p ← of_result (safe_reference ref);
  match p with
  | TheDirectory => of_result is_a_directory
  | Entry name =>
      present ← gets (fun d => bool_decide (name ∈ dom (sd_files d)));
      if (present : bool) then
        o ← next_outcome;
        match o with
        | IoDone => modify (fun d => d <| sd_files := delete name (sd_files d) |>) ;; mret true
        | _ => throw OSError "cannot remove"
        end
      else mret false
  end.
Definition file_exists (ref : string) : M SecretDir bool :=
  p ← of_result (safe_reference ref);
  match p with
  | TheDirectory => mret true
  | Entry name => gets (fun d => bool_decide (name ∈ dom (sd_files d)))
  end.
(** The order of a directory is the file system's. *)
Definition file_list : M SecretDir (list string) := gets (fun d => (map_to_list (sd_files d)).*1).

#[export] Instance file_backend : SecretBackend SecretDir := {
  sb_store := file_store;
  sb_retrieve := file_retrieve;
  sb_delete := file_delete;
  sb_exists := file_exists;
  sb_list := file_list }.
End Files.

(** ** The brokers *)
Section Brokers.
Context {S : Type} (B : SecretBackend S).

(** [SecureBroker._check_access] *)
Definition check_access (context : ExecutionContext) (tenant_id : string) : result unit :=
  check! guard_raise (negb (has_capability context "SECRET_USE"))
    PermissionError "Missing SECRET_USE capability" in
  guard_raise (negb (ec_tenant_id context =s tenant_id)) PermissionError "Tenant scope mismatch".
Definition secure_broker (context : ExecutionContext) (tenant_id : string) : SecretBackend S :=
  let gated {A} (m : M S A) : M S A := of_result (check_access context tenant_id) ;; m in {|
  sb_store ref v := gated (sb_store ref v);
  sb_retrieve ref := gated (sb_retrieve ref);
  sb_delete ref := gated (sb_delete ref);
  sb_exists ref := gated (sb_exists ref);
  sb_list := gated sb_list |}.

(** [AccountCredentialBroker] *)
Definition account_prefix (account_id : string) : string := "acct-" +:+ account_id +:+ "-".
Definition check_namespace (account_id ref : string) : result unit :=
  guard_raise (negb (startswith (account_prefix account_id) ref)) ContextAccessError
    ("CONTEXT_ACCESS_DENIED: Invalid credential namespace. Expected prefix "
      +:+ account_prefix account_id +:+ ", got " +:+ ref).
Definition credential_ref_for (account_id service : string) : string :=
  account_prefix account_id +:+ service.
Definition account_broker (account_id : string) : SecretBackend S :=
  let named {A} (ref : string) (m : M S A) : M S A :=
    of_result (check_namespace account_id ref) ;; m in {|
  sb_store ref v := named ref (sb_store ref v);
  sb_retrieve ref := named ref (sb_retrieve ref);
  sb_delete ref := named ref (sb_delete ref);
  sb_exists ref := named ref (sb_exists ref);
  sb_list := l ← sb_list; mret (List.filter (startswith (account_prefix account_id)) l) |}.

(** [broker.py]: a handle is its reference and value until it is released;
    [SecretBroker] passes the other operations on ([revoke] is [delete]). *)
Record SecretHandle := mkHandle { sh_reference : string; sh_value : string; sh_released : bool }.
Definition handle_value (h : SecretHandle) : result string :=
  if sh_released h then raise RuntimeError "Secret handle already released" else Ok (sh_value h).
Definition release_handle (h : SecretHandle) : SecretHandle := mkHandle (sh_reference h) "" true.
Definition use_secret (ref : string) : M S (option SecretHandle) :=
  v ← sb_retrieve ref;
  mret (match v with Some v => Some (mkHandle ref v false) | None => None end).
Definition revoke_secret (ref : string) : M S bool := sb_delete ref.
End Brokers.

(** ** The files keep the contract *)
Ltac run_file := unfold wp, mbind, M_bind, of_result, gets, modify, mret, M_ret, next_outcome,
  encrypt_bytes, put_file, throw; simpl.
Section FileLaws.
Context {crypto : Crypto} (master_key : string).
Context (fernet_law : forall key n v, fernet_decrypt key (fernet_encrypt key n v) = Some v).

Definition file_holds (d : SecretDir) (ref : string) : option string :=
  match safe_reference ref with
  | Ok (Entry name) => sd_files d !! name ≫= fun f => decrypt_bytes master_key (sf_bytes f)
  | _ => None
  end.
Lemma safe_reference_entry ref name : safe_reference ref = Ok (Entry name) -> name = ref.
Proof. unfold safe_reference. repeat case_match; naive_solver. Qed.

(** Changing the entry of one reference keeps what the others hold. *)
Lemma file_holds_other d d' ref ref' :
  (forall name, name <> ref -> sd_files d' !! name = sd_files d !! name) -> ref' <> ref ->
  file_holds d' ref' = file_holds d ref'.
Proof.
  intros H Hne. unfold file_holds. destruct (safe_reference ref') as [[|name]|] eqn:E; [done| |done].
  apply safe_reference_entry in E as ->. by rewrite H.
Qed.

Lemma file_store_law ref v d : wp (file_store master_key ref v) d (fun d' r =>
  (forall ref', ref' <> ref -> file_holds d' ref' = file_holds d ref') /\
  forall b, r = Ok b -> b = true /\ file_holds d' ref = Some v).
Proof.
  unfold file_store. run_file. destruct (safe_reference ref) as [[|name]|] eqn:E; [done| |done].
  pose proof (safe_reference_entry _ _ E) as ->. destruct d as [fs n os]. simpl.
  assert (forall d', (forall name, name <> ref -> sd_files d' !! name = fs !! name) ->
            forall ref', ref' <> ref -> file_holds d' ref' = file_holds (mkSecretDir fs n os) ref') as Hoth.
  { intros d' H ref' Hne. by eapply file_holds_other. }
  destruct os as [|[] [|[] os]]; simpl; (split; [apply Hoth; intros name Hn; simpl;
    by rewrite ?lookup_insert_ne by done|intros b Hb; simplify_eq]); (split; [done|]);
    unfold file_holds; rewrite E; simpl; rewrite lookup_insert_eq; apply fernet_law.
Qed.
Lemma file_retrieve_law ref d : wp (file_retrieve master_key ref) d (fun d' r =>
  (forall ref', file_holds d' ref' = file_holds d ref') /\ forall o, r = Ok o -> o = file_holds d ref).
Proof.
  unfold file_retrieve. run_file. destruct (safe_reference ref) as [[|name]|] eqn:E; [done| |done].
  unfold file_holds. rewrite E. simpl. destruct (sd_files d !! name) as [f|]; [|naive_solver].
  destruct (default IoDone (head (sd_outcomes d))); naive_solver.
Qed.
Lemma file_delete_law ref d : wp (file_delete ref) d (fun d' r =>
  (forall ref', ref' <> ref -> file_holds d' ref' = file_holds d ref') /\
  forall b, r = Ok b -> file_holds d' ref = None).
Proof.
  unfold file_delete. run_file. destruct (safe_reference ref) as [[|name]|] eqn:E; [done| |done].
  pose proof (safe_reference_entry _ _ E) as ->. case_bool_decide as Hd.
  - destruct (default IoDone (head (sd_outcomes d))); [|done..]. split.
    + intros ref' Hne. eapply file_holds_other; [|done]. intros name' Hn. simpl.
      by rewrite lookup_delete_ne.
    + intros b _. unfold file_holds. rewrite E. simpl. by rewrite lookup_delete_eq.
  - split; [done|]. intros b _. unfold file_holds. rewrite E.
    apply not_elem_of_dom in Hd. by rewrite Hd.
Qed.
Lemma file_exists_law ref d : wp (file_exists ref) d (fun d' r =>
  (forall ref', file_holds d' ref' = file_holds d ref') /\ (r = Ok false -> file_holds d ref = None)).
Proof.
  unfold file_exists. run_file. destruct (safe_reference ref) as [[|name]|] eqn:E; [done| |done].
  split; [done|]. intros [= Hd]. apply bool_decide_eq_false, not_elem_of_dom in Hd.
  unfold file_holds. by rewrite E, Hd.
Qed.
Lemma file_list_law d : wp file_list d (fun d' r =>
  (forall ref', file_holds d' ref' = file_holds d ref') /\
  forall l ref, r = Ok l -> file_holds d ref <> None -> ref ∈ l).
Proof.
  split; [done|]. intros l ref [= <-]. unfold file_holds.
  destruct (safe_reference ref) as [[|name]|] eqn:E; [done| |done].
  apply safe_reference_entry in E as ->. destruct (sd_files d !! ref) as [f|] eqn:Ef; [|done].
  intros _. apply list_elem_of_fmap. exists (ref, f). split; [done|]. by apply elem_of_map_to_list.
Qed.
#[local] Instance file_lawful : @LawfulBackend SecretDir (file_backend master_key).
Proof.
  refine (@Build_LawfulBackend _ (file_backend master_key) file_holds _ _ _ _ _).
  - exact file_store_law.
  - exact file_retrieve_law.
  - exact file_delete_law.
  - exact file_exists_law.
  - exact file_list_law.
Defined.
End FileLaws.

(** ** The brokers keep it too *)
Section BrokerLaws.
Context {S : Type} (B : SecretBackend S) (L : @LawfulBackend S B).

(** A call behind a check: it raises without an effect, or it is the call. *)
Lemma guarded_wp {A} (r : result unit) (m : M S A) s (Q : S -> result A -> Prop) :
  (r = Ok tt -> wp m s Q) -> (forall e, r = Raise e -> Q s (Raise e)) -> wp (of_result r ;; m) s Q.
Proof. destruct r as [[]|e]; intros H1 H2; [by apply H1|by apply H2]. Qed.
Ltac guarded law := intros; apply guarded_wp; [intros _; apply law|intros e _; split; [done|try done]].

Lemma secure_lawful context tenant_id : @LawfulBackend S (secure_broker B context tenant_id).
Proof.
  refine (@Build_LawfulBackend _ (secure_broker B context tenant_id) holds _ _ _ _ _).
  - guarded store_law.
  - guarded retrieve_law.
  - guarded delete_law.
  - guarded exists_law.
  - guarded list_law.
Defined.

Definition namespaced (account_id : string) (s : S) (ref : string) : option string :=
  if startswith (account_prefix account_id) ref then holds s ref else None.
Lemma check_namespace_Ok account_id ref :
  check_namespace account_id ref = Ok tt <-> startswith (account_prefix account_id) ref = true.
Proof. unfold check_namespace. by rewrite guard_raise_ok, negb_false_iff. Qed.
Lemma namespaced_eq account_id s s' ref :
  (startswith (account_prefix account_id) ref = true -> holds s' ref = holds s ref) ->
  namespaced account_id s' ref = namespaced account_id s ref.
Proof. unfold namespaced. intros H. case_match; [by apply H|done]. Qed.
Lemma namespaced_in account_id s ref : check_namespace account_id ref = Ok tt ->
  namespaced account_id s ref = holds s ref.
Proof. unfold namespaced. by intros ->%check_namespace_Ok. Qed.
Lemma account_lawful account_id : @LawfulBackend S (account_broker B account_id).
Proof.
  refine (@Build_LawfulBackend _ (account_broker B account_id) (namespaced account_id) _ _ _ _ _);
    intros; [apply guarded_wp; [intros Hn|done]..|].
  - eapply wp_mono; [apply store_law|]. intros s' r [H1 H2].
    split; [intros; by apply namespaced_eq; auto|]. by rewrite namespaced_in.
  - eapply wp_mono; [apply retrieve_law|]. intros s' r [H1 H2].
    split; [intros; by apply namespaced_eq; auto|]. by rewrite namespaced_in.
  - eapply wp_mono; [apply delete_law|]. intros s' r [H1 H2].
    split; [intros; by apply namespaced_eq; auto|]. by rewrite namespaced_in.
  - eapply wp_mono; [apply exists_law|]. intros s' r [H1 H2].
    split; [intros; by apply namespaced_eq; auto|]. by rewrite namespaced_in.
  - apply wp_bind. eapply wp_mono; [apply list_law|]. intros s' [l|e] [H1 H2];
      (split; [intros; by apply namespaced_eq; auto|]); [|done].
    intros l' ref [= <-]. unfold namespaced. intros Hh.
    destruct (startswith (account_prefix account_id) ref) eqn:En; [|done].
    apply list_elem_of_In, filter_In. rewrite <-list_elem_of_In. eauto.
Defined.

(** ** Any sequence of calls *)
Inductive secret_call :=
  | CallStore (ref value : string) | CallRetrieve (ref : string) | CallDelete (ref : string)
  | CallExists (ref : string) | CallList.
Definition make_call (c : secret_call) : M S unit :=
  match c with
  | CallStore ref v => sb_store ref v ;; mret tt
  | CallRetrieve ref => sb_retrieve ref ;; mret tt
  | CallDelete ref => sb_delete ref ;; mret tt
  | CallExists ref => sb_exists ref ;; mret tt
  | CallList => sb_list ;; mret tt
  end.
(** The calls made, each with whether it returned. *)
Fixpoint make_calls (cs : list secret_call) (s : S) : S * list (secret_call * bool) :=
  match cs with
  | [] => (s, [])
  | c :: cs' =>
      let '(s1, r) := make_call c s in
      let '(s2, log) := make_calls cs' s1 in (s2, (c, is_ok r) :: log)
  end.
Definition call_reference (c : secret_call) : option string :=
  match c with
  | CallStore ref _ | CallRetrieve ref | CallDelete ref | CallExists ref => Some ref
  | CallList => None
  end.
(** What a client knows of a reference after a call: the value it stored, that
    it was deleted, or nothing after a failure. *)
Definition learn (ref : string) (known : option (option string)) (e : secret_call * bool)
    : option (option string) :=
  match e with
  | (CallStore ref' v, ok) =>
      if decide (ref' = ref) then if (ok : bool) then Some (Some v) else None else known
  | (CallDelete ref', ok) =>
      if decide (ref' = ref) then if (ok : bool) then Some None else None else known
  | _ => known
  end.
Definition agrees_with (known : option (option string)) (o : option string) : Prop :=
  forall k, known = Some k -> o = k.

Lemma make_call_learns ref known c s : agrees_with known (holds s ref) ->
  wp (make_call c) s (fun s' r => agrees_with (learn ref known (c, is_ok r)) (holds s' ref)).
Proof.
  intros Hk. destruct c as [ref' v|ref'|ref'|ref'|]; apply wp_bind.
  - eapply wp_mono; [apply store_law|]. intros s' r [H1 H2].
    destruct r as [b|e]; [apply wp_ret|]; simpl; case_decide as Hd; subst;
      try (by rewrite H1 by congruence); intros k [= <-]. by destruct (H2 b eq_refl).
  - eapply wp_mono; [apply retrieve_law|]. intros s' [] [H _]; [apply wp_ret|]; simpl; by rewrite H.
  - eapply wp_mono; [apply delete_law|]. intros s' r [H1 H2].
    destruct r as [b|e]; [apply wp_ret|]; simpl; case_decide as Hd; subst;
      try (by rewrite H1 by congruence); intros k [= <-]. by apply (H2 b).
  - eapply wp_mono; [apply exists_law|]. intros s' [] [H _]; [apply wp_ret|]; simpl; by rewrite H.
  - eapply wp_mono; [apply list_law|]. intros s' [] [H _]; [apply wp_ret|]; simpl; by rewrite H.
Qed.

(** A call leaves the secrets of other references. *)
Lemma make_call_other c ref s : call_reference c <> Some ref ->
  wp (make_call c) s (fun s' _ => holds s' ref = holds s ref).
Proof.
  intros Hc. destruct c as [ref' v|ref'|ref'|ref'|]; simpl in Hc; apply wp_bind.
  - eapply wp_mono; [apply store_law|]. intros s' [] [H _]; [apply wp_ret|]; apply H; congruence.
  - eapply wp_mono; [apply retrieve_law|]. intros s' [] [H _]; [apply wp_ret|]; apply H.
  - eapply wp_mono; [apply delete_law|]. intros s' [] [H _]; [apply wp_ret|]; apply H; congruence.
  - eapply wp_mono; [apply exists_law|]. intros s' [] [H _]; [apply wp_ret|]; apply H.
  - eapply wp_mono; [apply list_law|]. intros s' [] [H _]; [apply wp_ret|]; apply H.
Qed.

(** A backend that keeps the contract implements the map its client keeps: after
    any calls, a retrieval that returns gives what the client knows. *)
Theorem backend_refines ref cs s known : agrees_with known (holds s ref) ->
  let '(s', log) := make_calls cs s in
  wp (sb_retrieve ref) s' (fun _ r =>
    forall o k, r = Ok o -> foldl (learn ref) known log = Some k -> o = k).
Proof.
  revert s known. induction cs as [|c cs IH]; intros s known Hk; simpl.
  - eapply wp_mono; [apply retrieve_law|]. intros s' r [_ H] o k Hr Hf. rewrite (H o Hr). by apply Hk.
  - pose proof (make_call_learns ref known c s Hk) as H. unfold wp at 1 in H.
    destruct (make_call c s) as [s1 r]. specialize (IH s1 _ H).
    destruct (make_calls cs s1) as [s2 log]. exact IH.
Qed.
End BrokerLaws.

(** ** Theorems *)
Section Theorems.
Context {crypto : Crypto} (master_key : string).
#[local] Existing Instance file_backend.

(** A call by a context without the capability or of another tenant reaches
    nothing. *)
Theorem secure_gate context tenant_id c d :
  has_capability context "SECRET_USE" = false \/ ec_tenant_id context <> tenant_id ->
  wp (make_call (secure_broker (file_backend master_key) context tenant_id) c) d (fun d' r =>
    d' = d /\ exists msg, r = raise PermissionError msg).
Proof.
  intros H. assert (exists msg, check_access context tenant_id = raise PermissionError msg) as [msg E].
  { unfold check_access. destruct (has_capability context "SECRET_USE"); simpl; [|by eexists].
    destruct H as [|Hn]; [done|]. apply String.eqb_neq in Hn. rewrite Hn. by eexists. }
  assert (forall A B (m : M SecretDir A) (k : A -> M SecretDir B),
            wp ((of_result (check_access context tenant_id) ;; m) ≫= k) d
              (fun d' r => d' = d /\ exists msg, r = raise PermissionError msg)) as Hg.
  { intros A B m k. apply wp_bind, wp_bind, wp_of_result. rewrite E. by split; [|exists msg]. }
  destruct c; apply Hg.
Qed.

(** What a broker of one account does never concerns another account whose
    identifier is as long. *)
Lemma prefixes_apart a b ref : String.length a = String.length b -> a <> b ->
  startswith (account_prefix a) ref = true -> startswith (account_prefix b) ref = false.
Proof.
  intros Hl Hne (t & E)%startswith_inv. apply not_true_iff_false. intros (u & E')%startswith_inv.
  unfold account_prefix in *. rewrite E, !string_app_assoc in E'.
  apply string_app_inj_l in E'. clear E. apply Hne. revert b Hl Hne E'.
  induction a as [|x a IH]; intros [|y b] Hl Hne E; simpl in Hl; try lia; [done|].
  rewrite !string_app_cons in E. injection E as -> E. f_equal.
  apply IH; [lia|congruence|done].
Qed.
(** A call through the broker of an account is the backend's call, on a name of
    the account. *)
Lemma account_call b c d (Q : SecretDir -> result unit -> Prop) :
  (forall ref, call_reference c = Some ref -> startswith (account_prefix b) ref = true ->
     wp (make_call (file_backend master_key) c) d Q) ->
  (forall ref e, call_reference c = Some ref -> check_namespace b ref = Raise e -> Q d (Raise e)) ->
  (c = CallList -> Q d (Ok tt)) ->
  wp (make_call (account_broker (file_backend master_key) b) c) d Q.
Proof.
  intros H1 H2 H3. destruct c as [ref v|ref|ref|ref|]; [..|by apply H3];
    (apply wp_bind, guarded_wp; [intros Hn%check_namespace_Ok|intros e He; by eapply H2]);
    specialize (H1 ref eq_refl Hn); by apply wp_bind_inv in H1.
Qed.
Theorem account_isolated (laws : forall key n v, fernet_decrypt key (fernet_encrypt key n v) = Some v)
    a b c ref d :
  String.length a = String.length b -> a <> b -> startswith (account_prefix a) ref = true ->
  wp (make_call (account_broker (file_backend master_key) b) c) d (fun d' r =>
    file_holds master_key d' ref = file_holds master_key d ref /\
    (call_reference c = Some ref -> d' = d /\ exists msg, r = raise ContextAccessError msg)).
Proof.
  intros Hl Hne Hr. pose proof (prefixes_apart a b ref Hl Hne Hr) as Hb.
  apply account_call.
  - intros ref' Hc Hn. assert (ref' <> ref) as Hd by congruence.
    eapply wp_mono; [apply (make_call_other _ (file_lawful master_key laws) c ref); congruence|].
    intros s' r H. split; [exact H|congruence].
  - intros ref' e Hc Hn. split; [done|]. intros E. split; [done|].
    unfold check_namespace, guard_raise in Hn. case_match; [|done]. injection Hn as <-. by eexists.
  - by intros ->.
Qed.

(** An account whose identifier extends another's with a dash files its secrets
    in the other's namespace. *)
Lemma namespaces_overlap a tail service :
  check_namespace a (credential_ref_for (a +:+ "-" +:+ tail) service) = Ok tt.
Proof.
  apply check_namespace_Ok. unfold credential_ref_for, account_prefix.
  replace (("acct-" +:+ (a +:+ "-" +:+ tail) +:+ "-") +:+ service)
    with (("acct-" +:+ a +:+ "-") +:+ tail +:+ "-" +:+ service) by (by rewrite !string_app_assoc).
  apply startswith_app.
Qed.

(** The reference an account is created with lies outside the namespace of the
    account's own broker. *)
Definition hex_char (c : ascii) : bool := bool_decide (hex_value c <> None).
Lemma hex_text_apart u p : all_chars hex_char u = true ->
  startswith ("acct" +:+ p) (u +:+ "-github-token") = false.
Proof.
  intros Hu.
  change ("acct" +:+ p) with (String "a" (String "c" (String "c" (String "t" p)))).
  destruct u as [|c1 [|c2 [|c3 [|c4 u]]]]; rewrite ?string_app_cons;
    change ("" +:+ "-github-token") with "-github-token"; cbn [startswith];
    repeat match goal with |- context [Ascii.eqb ?b ?c] => is_var c;
      destruct (Ascii.eqb_spec b c) as [<-|]; [|done] end; try done.
Qed.
Lemma startswith_app_l a p s : startswith (a +:+ p) (a +:+ s) = startswith p s.
Proof.
  induction a as [|c a IH]; [done|]. rewrite !string_app_cons. simpl. by rewrite Ascii.eqb_refl.
Qed.
Lemma credential_outside_namespace {env : AccountEnv} principal account_type s :
  (forall n, all_chars hex_char (uuid8 n) = true) ->
  wp (create_account principal account_type) s (fun _ r =>
    forall a, r = Ok a -> find_by_principal principal s = None ->
      exists msg, check_namespace (ac_account_id a) (ac_credential_ref a) = raise ContextAccessError msg).
Proof.
  intros Hu. unfold create_account. apply wp_bind, wp_gets, wp_bind, wp_when; [by intros _|intros _].
  change (Datatypes.id s) with s. destruct (find_by_principal principal s) as [a0|] eqn:Ef.
  { by apply wp_ret. }
  apply wp_bind. unfold wp at 1, dir_draw. apply wp_bind. unfold wp at 1.
  apply wp_bind, wp_modify. apply wp_bind. eapply wp_any. intros s' [[]|e]; [apply wp_ret|done].
  intros a [= <-] _. cbn [ac_account_id ac_credential_ref]. unfold check_namespace, account_prefix.
  eexists. rewrite !string_app_assoc, startswith_app_l.
  change ("acct-" +:+ ?x) with ("acct" +:+ ("-" +:+ x)). by rewrite hex_text_apart.
Qed.

(** The file of [ref] holds the value, its owner's alone. *)
Definition kept (ref value : string) (d : SecretDir) : Prop :=
  sd_outcomes d = [] /\ exists f, sd_files d !! ref = Some f /\ sf_mode f = 384%Z /\
    decrypt_bytes master_key (sf_bytes f) = Some value.
Definition spares (ref : string) (c : secret_call) : Prop :=
  match c with CallStore ref' _ | CallDelete ref' => ref' <> ref | _ => True end.
Lemma make_call_kept ref value c : spares ref c ->
  preserves (kept ref value) (make_call (file_backend master_key) c).
Proof.
  intros Hc d [Ho (f & Hf & Hm & Hd)].
  assert (forall fs n, fs !! ref = Some f -> kept ref value (mkSecretDir fs n [])) as Hk
    by (intros fs n H; split; [done|]; by exists f).
  destruct d as [fs n os]. simpl in *. subst os.
  destruct c as [ref' v|ref'|ref'|ref'|]; simpl in *;
    unfold file_store, file_retrieve, file_delete, file_exists, file_list; run_file;
    try (destruct (safe_reference ref') as [[|name]|] eqn:E; try by apply Hk);
    try (apply safe_reference_entry in E as ->; simpl).
  - apply Hk. by rewrite !lookup_insert_ne by done.
  - destruct (fs !! ref'); by apply Hk.
  - case_bool_decide; simpl; apply Hk; rewrite ?lookup_delete_ne by done; done.
  - by apply Hk.
Qed.
(** C25: A secret that was stored is there, in a file of its owner's alone, until it
    is stored again or deleted, whatever else is done meanwhile. *)
Theorem secret_survives (laws : forall key n v, fernet_decrypt key (fernet_encrypt key n v) = Some v)
    ref value cs d :
  safe_reference ref = Ok (Entry ref) -> sd_outcomes d = [] -> Forall (spares ref) cs ->
  let '(d1, r1) := file_store master_key ref value d in
  let '(d2, _) := make_calls (file_backend master_key) cs d1 in
  r1 = Ok true /\ kept ref value d2 /\ (file_retrieve master_key ref d2).2 = Ok (Some value).
Proof.
  intros Href Ho Hcs. destruct (file_store master_key ref value d) as [d1 r1] eqn:E.
  assert (r1 = Ok true /\ kept ref value d1) as [-> Hk].
  { revert E. unfold file_store. run_file. rewrite Href. destruct d as [fs n os]. simpl in *.
    subst os. intros [= <- <-]. split; [done|]. split; [done|]. eexists. simpl.
    rewrite lookup_insert_eq. split; [done|]. split; [done|]. apply laws. }
  assert (kept ref value (make_calls (file_backend master_key) cs d1).1) as H.
  { clear E. revert d1 Hk. induction Hcs as [|c cs Hc _ IH]; intros d1 Hk; simpl; [done|].
    pose proof (make_call_kept ref value c Hc d1 Hk) as H. unfold wp in H.
    destruct (make_call _ c d1) as [d' r]. specialize (IH d' H).
    by destruct (make_calls _ cs d'). }
  destruct (make_calls _ cs d1) as [d2 log]. cbn [fst] in H. split; [done|]. split; [done|].
  destruct H as [Ho2 (f & Hf & _ & Hd)]. unfold file_retrieve. run_file. rewrite Href. simpl.
  rewrite Hf. simpl. rewrite Ho2. simpl. by rewrite Hd.
Qed.
End Theorems.
