(* ===== verification/GithubAuth.v ===== *)
(** * GitHub authorization

    [runtime/admin/github.py]: the manager that obtains a GitHub token by the
    device flow or by hand, validates it, and keeps its status.  Tokens are held
    by any secret backend; GitHub is an argument that answers anything.  The
    collector of telemetry is the list of what it was given; its [emit] does not
    raise. *)
From S2P Require Import Prelude Dict PyVal Effects PyStr PyBytes Json JsonLoad Github Secrets.

(** ** GitHub *)
Record AuthRequest := mkAuthRequest {
  aq_url : string; aq_data : option string; aq_headers : dict string string }.
(** A response with its status, body and [X-OAuth-Scopes] header, an
    [HTTPError], or another exception. *)
Inductive api_reply :=
  | Reply (code : Z) (body : string) (scopes : option string)
  | RefusedWith (code : Z) (msg : string)
  | NoReply (e : exn).
Class AuthWorld := {
  gw_floats :: FloatOps;
  gw_errors :: JsonErrors;
  gw_reply : list AuthRequest -> api_reply;
  gw_delay : nat -> N;
  gw_isoformat : Z -> string }.
(** What failed: an [HTTPError], or an exception. *)
Inductive failure := HttpFailure (code : Z) (msg : string) | OtherFailure (e : exn).
Definition failure_str (f : failure) : string :=
  match f with HttpFailure _ msg => msg | OtherFailure e => exn_str e end.
Definition failure_name (f : failure) : string :=
  match f with HttpFailure _ _ => "HTTPError" | OtherFailure e => exn_name (exn_type e) end.

Definition REQUIRED_GITHUB_SCOPES : list string := ["repo"; "read:org"].
Definition GITHUB_DEVICE_CODE_URL : string := "https://github.com/login/device/code".
Definition GITHUB_ACCESS_TOKEN_URL : string := "https://github.com/login/oauth/access_token".
Definition GITHUB_API_USER_URL : string := "https://api.github.com/user".

(** ** State *)
(** The fields hold what was loaded, which may be anything. *)
Record GitHubCredentialState := mkCredential {
  cs_principal : pyval;
  cs_auth_status : pyval;
  cs_token_status : pyval;
  cs_token_expiry : pyval;
  cs_scopes : pyval;
  cs_last_validation : pyval;
  cs_last_failure : pyval;
  cs_last_failure_reason : pyval }.
#[export] Instance eta_Credential : Eta GitHubCredentialState := fun r =>
  mkCredential (cs_principal r) (cs_auth_status r) (cs_token_status r) (cs_token_expiry r)
    (cs_scopes r) (cs_last_validation r) (cs_last_failure r) (cs_last_failure_reason r).
Definition fresh_credential : GitHubCredentialState :=
  mkCredential VNone (VStr "UNAUTHORIZED") (VStr "MISSING") VNone (VList []) VNone VNone VNone.
Definition credential_fields (c : GitHubCredentialState) : dict string pyval :=
  [("principal", cs_principal c); ("auth_status", cs_auth_status c);
   ("token_status", cs_token_status c); ("token_expiry", cs_token_expiry c);
   ("scopes", cs_scopes c); ("last_validation", cs_last_validation c);
   ("last_failure", cs_last_failure c); ("last_failure_reason", cs_last_failure_reason c)].
(** [GitHubCredentialState( **data )] *)
Definition credential_of (data : pyval) : result GitHubCredentialState :=
  match data with
  | VDict d =>
      match find (fun k => negb (dmem k (credential_fields fresh_credential))) (dkeys d) with
      | Some k =>
          raise TypeError ("GitHubCredentialState.__init__() got an unexpected keyword argument '"
                           +:+ k +:+ "'")
      | None =>
          let value (f : GitHubCredentialState -> pyval) k := vget_or k (f fresh_credential) d in
          Ok (mkCredential (value cs_principal "principal") (value cs_auth_status "auth_status")
                (value cs_token_status "token_status") (value cs_token_expiry "token_expiry")
                (value cs_scopes "scopes") (value cs_last_validation "last_validation")
                (value cs_last_failure "last_failure")
                (value cs_last_failure_reason "last_failure_reason"))
      end
  | _ =>
      raise TypeError ("GitHubCredentialState() argument after ** must be a mapping, not "
                       +:+ pytype_name data)
  end.

(** [started_at] in nanoseconds. *)
Record GitHubDeviceFlowState := mkFlow {
  fl_device_code : pyval;
  fl_user_code : pyval;
  fl_verification_uri : pyval;
  fl_expires_in : pyval;
  fl_interval : pyval;
  fl_started_at : Z }.
#[export] Instance eta_Flow : Eta GitHubDeviceFlowState := fun r =>
  mkFlow (fl_device_code r) (fl_user_code r) (fl_verification_uri r) (fl_expires_in r)
    (fl_interval r) (fl_started_at r).
(** An event given to the collector. *)
Record auth_event := mkAuthEvent {
  ev_type : string; ev_duration : option Z; ev_metadata : list (string * pyval) }.

Record GitHubAuthManager (S : Type) := mkAuthManager {
  ga_secrets : S;
  ga_state : GitHubCredentialState;
  ga_flow : option GitHubDeviceFlowState;
  ga_sent : list AuthRequest;
  ga_events : list auth_event;
  ga_now : Z;
  ga_tick : nat }.
Arguments mkAuthManager {S}. Arguments ga_secrets {S}. Arguments ga_state {S}.
Arguments ga_flow {S}. Arguments ga_sent {S}. Arguments ga_events {S}. Arguments ga_now {S}.
Arguments ga_tick {S}.
#[export] Instance eta_AuthManager S : Eta (GitHubAuthManager S) := fun r =>
  mkAuthManager (ga_secrets r) (ga_state r) (ga_flow r) (ga_sent r) (ga_events r) (ga_now r)
    (ga_tick r).

Section Auth.
Context {world : AuthWorld} {S : Type} {B : SecretBackend S}.
(** The configuration of a manager. *)
Context (client_id : string) (collects : bool) (account_id : option string).
Abbreviation A := (GitHubAuthManager S).

Definition token_ref : string :=
  match account_id with
  | Some a => if str_true a then "acct-" +:+ a +:+ "-github-token" else "github-access-token"
  | None => "github-access-token"
  end.
Definition state_ref : string :=
  match account_id with
  | Some a => if str_true a then "acct-" +:+ a +:+ "-github-state" else "github-state"
  | None => "github-state"
  end.

Definition secretly {X} (m : M S X) : M A X :=
  zoom ga_secrets (fun s a => a <| ga_secrets := s |>) m.
Definition auth_now : M A Z := fun a =>
  let t := (ga_now a + Z.of_N (gw_delay (ga_tick a)))%Z in
  (a <| ga_now := t |> <| ga_tick := Datatypes.S (ga_tick a) |>, Ok t).
Definition iso_now : M A pyval := t ← auth_now; mret (VStr (gw_isoformat t)).
Definition update_state (f : GitHubCredentialState -> GitHubCredentialState) : M A unit :=
  modify (fun a => a <| ga_state := f (ga_state a) |>).
Definition set_flow (f : option GitHubDeviceFlowState) : M A unit :=
  modify (fun a => a <| ga_flow := f |>).
Definition emit (type : string) (duration : option Z) (metadata : list (string * pyval)) : M A unit :=
  when collects (modify (fun a => a <| ga_events := ga_events a ++ [mkAuthEvent type duration metadata] |>)).

(** [_load_state] and [_save_state]; both log and go on when they fail. *)
Definition load_state : M A unit :=
  except_all
    (bytes ← secretly (sb_retrieve state_ref);
     match bytes with
     | None => mret tt
     | Some bytes =>
         if bytes =s "" then mret tt
         else
           text ← of_result (utf8_decode bytes);
           data ← of_result (json_loads text);
           c ← of_result (credential_of data);
           update_state (fun _ => c)
     end)
    (fun _ => mret tt).
Definition save_state : M A unit :=
  except_all
    (c ← gets ga_state;
     secretly (sb_store state_ref (utf8_encode (dumps false (VDict (credential_fields c))))) ;; mret tt)
    (fun _ => mret tt).
Definition new_auth_manager (secrets : S) (now : Z) : A * result unit :=
  load_state (mkAuthManager secrets fresh_credential None [] [] now 0).

Definition get_status : M A (dict string pyval) :=
  c ← gets ga_state;
  scopes ← of_result (py_iter (cs_scopes c));
  mret (("connected", VBool (is_text "AUTHORIZED" (cs_auth_status c)))
        :: credential_fields (c <| cs_scopes := VList scopes |>)).
Definition has_token : M A bool := secretly (sb_exists token_ref).
Definition disconnect : M A unit :=
  secretly (sb_delete token_ref) ;;
  secretly (sb_delete state_ref) ;;
  update_state (fun _ => fresh_credential) ;;
  save_state.

(** ** Requests *)
Definition send (req : AuthRequest) : M A api_reply :=
  modify (fun a => a <| ga_sent := ga_sent a ++ [req] |>) ;;
  gets (fun a => gw_reply (ga_sent a)).
(** The JSON of a response, and its scopes header. *)
Definition read_reply (r : api_reply) : failure + (pyval * string * Z) :=
  match r with
  | Reply code body scopes =>
      match (let? s := utf8_decode body in json_loads s) with
      | Ok v => inr (v, default "" scopes, code)
      | Raise e => inl (OtherFailure e)
      end
  | RefusedWith code msg => inl (HttpFailure code msg)
  | NoReply e => inl (OtherFailure e)
  end.
(** A failure the code handles: not one the model leaves out. *)
Definition handled {X} (f : failure) (k : M A X) : M A X :=
  match f with
  | OtherFailure e => if decide (exn_type e = Unmodelled) then rethrow e else k
  | HttpFailure _ _ => k
  end.
Definition millis (start now : Z) : Z := ((now - start) / 1000000)%Z.
Definition request_json (operation : string) (req : AuthRequest)
    : M A (failure + (pyval * string)) :=
  emit "github.request.started" None [("operation", VStr operation)] ;;
  start ← auth_now;
  r ← send req;
  now ← auth_now;
  match read_reply r with
  | inr (v, scopes, code) =>
      emit "github.request.completed" (Some (millis start now))
        [("operation", VStr operation); ("status_code", VInt code)] ;;
      mret (inr (v, scopes))
  | inl f =>
      handled f
        (emit "github.request.failed" (Some (millis start now))
           [("operation", VStr operation); ("error", VStr (failure_name f))] ;;
         mret (inl f))
  end.
Definition user_request (token : string) : AuthRequest :=
  mkAuthRequest GITHUB_API_USER_URL None
    [("Authorization", "Bearer " +:+ token); ("Accept", "application/vnd.github.v3+json")].
Definition accept_json : dict string string := [("Accept", "application/json")].

Definition split_scopes (header : string) : list string :=
  List.filter str_true (strip <$> split_at "," header).
Definition missing_scopes (scopes : list string) : list string :=
  List.filter (fun s => negb (str_in s scopes)) REQUIRED_GITHUB_SCOPES.

(** ** Validation *)
Definition credential_failed (auth token : string) (reason : string) : M A bool :=
  update_state (fun c => c <| cs_auth_status := VStr auth |> <| cs_token_status := VStr token |>) ;;
  now ← iso_now;
  update_state (fun c => c <| cs_last_failure := now |> <| cs_last_failure_reason := VStr reason |>) ;;
  save_state ;;
  mret false.
Definition validation_failed (f : failure) : M A bool :=
  match f with
  | HttpFailure code _ =>
      let expired := (code =? 401)%Z in
      credential_failed (if expired then "EXPIRED" else "DEGRADED")
        (if expired then "EXPIRED" else "UNKNOWN") ("HTTP " +:+ zstr code)
  | OtherFailure e => credential_failed "DEGRADED" "UNKNOWN" (exn_str e)
  end.
Definition validated (user : pyval) (header : string) : M A bool :=
  let scopes := split_scopes header in
  principal ← of_result (py_get "login" (VStr "unknown") user);
  now ← iso_now;
  update_state (fun c => c <| cs_principal := principal |> <| cs_scopes := VList (VStr <$> scopes) |>
                           <| cs_last_validation := now |>) ;;
  match rev (missing_scopes scopes) with
  | [] =>
      update_state (fun c => c <| cs_auth_status := VStr "AUTHORIZED" |>
        <| cs_token_status := VStr "VALID" |> <| cs_last_failure := VNone |>
        <| cs_last_failure_reason := VNone |>) ;;
      save_state ;;
      mret true
  | missing =>
      update_state (fun c => c <| cs_auth_status := VStr "DEGRADED" |>
        <| cs_token_status := VStr "INSUFFICIENT_SCOPE" |> <| cs_last_failure := now |>
        <| cs_last_failure_reason :=
             VStr ("Missing required GitHub scopes: " +:+ str_join ", " missing) |>) ;;
      save_state ;;
      mret false
  end.
Definition validate : M A bool :=
  bytes ← secretly (sb_retrieve token_ref);
  let bytes := default "" bytes in
  if bytes =s "" then
    update_state (fun c => c <| cs_auth_status := VStr "UNAUTHORIZED" |>
      <| cs_token_status := VStr "MISSING" |> <| cs_principal := VNone |> <| cs_scopes := VList [] |>) ;;
    save_state ;;
    mret false
  else
    token ← of_result (utf8_decode bytes);
    r ← request_json "validate" (user_request token);
    match r with
    | inl f => validation_failed f
    | inr (user, header) =>
        except_all (validated user header) (fun e => validation_failed (OtherFailure e))
    end.

(** ** The device flow *)
Definition open_flow (result : pyval) : M A GitHubDeviceFlowState :=
  device_code ← of_result (py_item "device_code" result);
  user_code ← of_result (py_item "user_code" result);
  uri ← of_result (py_item "verification_uri" result);
  expires_in ← of_result (py_get "expires_in" (VInt 900) result);
  interval ← of_result (py_get "interval" (VInt 5) result);
  now ← auth_now;
  let f := mkFlow device_code user_code uri expires_in interval now in
  set_flow (Some f) ;;
  mret f.
Definition flow_failed (f : failure) : M A (option GitHubDeviceFlowState) :=
  now ← iso_now;
  update_state (fun c => c <| cs_last_failure := now |> <| cs_last_failure_reason := VStr (failure_str f) |>) ;;
  save_state ;;
  mret None.
Definition initiate_device_flow : M A (option GitHubDeviceFlowState) :=
  if client_id =s "" then mret None
  else
    r ← send (mkAuthRequest GITHUB_DEVICE_CODE_URL
                (Some (urlencode [("client_id", client_id); ("scope", "repo read:org")])) accept_json);
    match read_reply r with
    | inl f => handled f (flow_failed f)
    | inr (v, _, _) =>
        except_all (f ← open_flow v; mret (Some f)) (fun e => flow_failed (OtherFailure e))
    end.

(** [elapsed > expires_in] *)
Definition elapsed_beyond (elapsed : Z) (expires_in : pyval) : result bool :=
  match expires_in with
  | VInt n => Ok (n * 1000000000 <? elapsed)%Z
  | VBool b => Ok ((if b then 1000000000 else 0) <? elapsed)%Z
  | VFloat _ => raise Unmodelled "a fraction of seconds"
  | v => raise TypeError ("'>' not supported between instances of 'float' and '"
                          +:+ pytype_name v +:+ "'")
  end.
(** [v += 5] *)
Definition plus_five (v : pyval) : result pyval :=
  match v with
  | VInt n => Ok (VInt (n + 5))
  | VBool b => Ok (VInt (if b then 6 else 5))
  | VFloat _ => raise Unmodelled "a fraction of seconds"
  | VStr _ => raise TypeError "can only concatenate str (not int) to str"
  | VList _ => raise TypeError "'int' object is not iterable"
  | _ => raise TypeError ("unsupported operand type(s) for +=: '" +:+ pytype_name v +:+ "' and 'int'")
  end.
Definition poll_error (msg : pyval) : dict string pyval := [("status", VStr "ERROR"); ("error", msg)].
Definition status_only (s : string) : dict string pyval := [("status", VStr s)].
Definition poll_token (result : pyval) : M A (dict string pyval) :=
  token ← of_result (py_item "access_token" result);
  match token with
  | VStr token =>
      secretly (sb_store token_ref (utf8_encode token)) ;;
      set_flow None ;;
      valid ← validate;
      if (valid : bool) then mret (status_only "AUTHORIZED")
      else
        secretly (sb_delete token_ref) ;;
        mret (poll_error (VStr "GitHub authorization did not satisfy required scopes"))
  | _ => throw AttributeError ("'" +:+ pytype_name token +:+ "' object has no attribute 'encode'")
  end.
Definition poll_pending (f : GitHubDeviceFlowState) (result : pyval) : M A (dict string pyval) :=
  error ← of_result (py_get "error" (VStr "unknown") result);
  if is_text "authorization_pending" error then mret (status_only "PENDING")
  else if is_text "slow_down" error then
    interval ← of_result (plus_five (fl_interval f));
    set_flow (Some (f <| fl_interval := interval |>)) ;;
    mret (status_only "SLOW_DOWN")
  else if is_text "expired_token" error then set_flow None ;; mret (status_only "EXPIRED")
  else if is_text "access_denied" error then set_flow None ;; mret (status_only "DENIED")
  else mret (poll_error error).
Definition poll_reply (f : GitHubDeviceFlowState) (result : pyval) : M A (dict string pyval) :=
  granted ← of_result (py_contains "access_token" result);
  if (granted : bool) then poll_token result else poll_pending f result.
Definition poll_request (f : GitHubDeviceFlowState) : AuthRequest :=
  mkAuthRequest GITHUB_ACCESS_TOKEN_URL
    (Some (urlencode [("client_id", client_id); ("device_code", py_str (fl_device_code f));
                      ("grant_type", "urn:ietf:params:oauth:grant-type:device_code")])) accept_json.
Definition poll_device_flow : M A (dict string pyval) :=
  f ← gets ga_flow;
  match f with
  | None => mret (status_only "NO_ACTIVE_FLOW")
  | Some f =>
      now ← auth_now;
      late ← of_result (elapsed_beyond (now - fl_started_at f) (fl_expires_in f));
      if (late : bool) then set_flow None ;; mret (status_only "EXPIRED")
      else
        r ← request_json "poll_device_flow" (poll_request f);
        match r with
        | inl e => mret (poll_error (VStr (failure_str e)))
        | inr (result, _) =>
            except_all (poll_reply f result) (fun e => mret (poll_error (VStr (exn_str e))))
        end
  end.

(** ** A token given by hand *)
Definition token_result (success : bool) (principal : pyval) (scopes : list string) (error : pyval)
    : dict string pyval :=
  [("success", VBool success); ("principal", principal); ("scopes", VList (VStr <$> scopes));
   ("error", error)].
Definition token_refused (msg : string) : dict string pyval := token_result false VNone [] (VStr msg).
Definition token_failed (f : failure) : dict string pyval :=
  match f with
  | HttpFailure code _ =>
      token_refused (if bool_decide (code = 401 \/ code = 403)%Z
                     then "GitHub connection failed. Token may be invalid or expired."
                     else "HTTP " +:+ zstr code)
  | OtherFailure _ => token_refused ("Connection error: " +:+ failure_name f)
  end.
Definition accept_token (token : string) (user : pyval) (header : string) : M A (dict string pyval) :=
  principal ← of_result (py_get "login" (VStr "unknown") user);
  let scopes := split_scopes header in
  match missing_scopes scopes with
  | [] =>
      secretly (sb_store token_ref (utf8_encode token)) ;;
      update_state (fun c => c <| cs_principal := principal |> <| cs_auth_status := VStr "AUTHORIZED" |>
        <| cs_token_status := VStr "VALID" |> <| cs_scopes := VList (VStr <$> scopes) |>) ;;
      now ← iso_now;
      update_state (fun c => c <| cs_last_validation := now |> <| cs_last_failure := VNone |>
        <| cs_last_failure_reason := VNone |>) ;;
      save_state ;;
      mret (token_result true principal scopes VNone)
  | missing =>
      mret (token_result false principal scopes
              (VStr ("Missing required scopes: " +:+ str_join ", " missing)))
  end.
Definition store_and_validate_token (token : string) : M A (dict string pyval) :=
  r ← request_json "store_and_validate_token" (user_request token);
  match r with
  | inl f => mret (token_failed f)
  | inr (user, header) =>
      except_all (accept_token token user header) (fun e => mret (token_failed (OtherFailure e)))
  end.
End Auth.

(** ** What the manager keeps *)
(** A status that reads AUTHORIZED comes with the required scopes. *)
Definition authorized (c : GitHubCredentialState) : bool := is_text "AUTHORIZED" (cs_auth_status c).
Definition scoped (c : GitHubCredentialState) : Prop :=
  authorized c = true ->
  exists scopes, cs_scopes c = VList (VStr <$> scopes) /\ missing_scopes scopes = [].

Section Keeps.
Context {world : AuthWorld} {S : Type} {B : SecretBackend S}.
Context (client_id : string) (collects : bool) (account_id : option string).
Abbreviation A := (GitHubAuthManager S).
(** A property of the manager that time, requests, telemetry and changes of the
    secrets among [I] keep. *)
Class Ambient (P : A -> Prop) : Prop := {
  ambient_same a a' : ga_secrets a' = ga_secrets a -> ga_state a' = ga_state a -> P a -> P a' }.

Context (P : A -> Prop) `{!Ambient P}.
Lemma ambient_modify f :
  (forall a, ga_secrets (f a) = ga_secrets a) -> (forall a, ga_state (f a) = ga_state a) ->
  preserves P (modify f).
Proof. intros H1 H2. apply preserves_modify. intros a. by apply ambient_same. Qed.
Lemma ambient_now : preserves P auth_now.
Proof. intros a Ha. unfold wp, auth_now. by apply (ambient_same a). Qed.
#[local] Hint Resolve ambient_now : keeps.
#[local] Hint Extern 1 (preserves _ (modify _)) => (apply ambient_modify; reflexivity) : keeps.
Lemma ambient_iso_now : preserves P iso_now.
Proof. unfold iso_now. auto with keeps. Qed.
Lemma ambient_set_flow f : preserves P (set_flow f).
Proof. unfold set_flow. auto with keeps. Qed.
Lemma ambient_emit type d m : preserves P (emit collects type d m).
Proof. unfold emit. auto with keeps. Qed.
Lemma ambient_send r : preserves P (send r).
Proof. unfold send. auto with keeps. Qed.
#[local] Hint Resolve ambient_emit ambient_send : keeps.
Lemma ambient_handled {X} f (k : M A X) : preserves P k -> preserves P (handled f k).
Proof. intros. unfold handled. auto with keeps. Qed.
#[local] Hint Resolve ambient_handled : keeps.
Lemma ambient_request op r : preserves P (request_json collects op r).
Proof. unfold request_json. auto 20 with keeps. Qed.
End Keeps.
Arguments ambient_same {S P _}.
#[export] Hint Resolve ambient_now ambient_iso_now ambient_set_flow ambient_emit ambient_send
  ambient_handled ambient_request : keeps.
#[export] Hint Extern 1 (Ambient _) => apply _ : keeps.

Section Authorization.
Context {world : AuthWorld} {S : Type} {B : SecretBackend S} {L : LawfulBackend S}.
Context (client_id : string) (collects : bool) (account_id : option string).
Abbreviation A := (GitHubAuthManager S).

Lemma refs_differ : token_ref account_id <> state_ref account_id.
Proof.
  unfold token_ref, state_ref. destruct account_id as [a|]; [|done]. destruct (str_true a); [|done].
  rewrite <-!string_app_assoc. intros H%string_app_inj_l. done.
Qed.

(** The secrets other than the status are not touched by saving it. *)
Definition keeps_secrets (a a' : A) : Prop :=
  forall ref, ref <> state_ref account_id -> holds (ga_secrets a') ref = holds (ga_secrets a) ref.
Lemma save_state_spec (a : A) : wp (save_state account_id) a (fun a' r =>
  ga_state a' = ga_state a /\ keeps_secrets a a').
Proof.
  unfold save_state, secretly. apply wp_try_with, wp_bind, wp_gets, wp_bind, wp_zoom.
  eapply wp_mono; [apply store_law|]. intros s' [b|e] [H _].
  - apply wp_ret. split; [done|]. intros ref Hr. by apply H.
  - destruct (exn_type e); (split; [done|]); intros ref Hr; by apply H.
Qed.

Definition same (a a' : A) : Prop := ga_secrets a' = ga_secrets a /\ ga_state a' = ga_state a.
#[local] Instance same_ambient a : Ambient (same a).
Proof. split. intros a1 a2 E1 E2 [H1 H2]. split; congruence. Qed.
Lemma request_same op r a : wp (request_json collects op r) a (fun a' _ => same a a').
Proof. by apply (ambient_request _ (same a)). Qed.
Lemma iso_now_spec a (Q : A -> result pyval -> Prop) :
  (forall a' t, same a a' -> Q a' (Ok t)) -> wp iso_now a Q.
Proof. intros H. unfold iso_now. apply wp_bind. by apply H. Qed.

(** A status saved: it reads [b], and only the status file was written. *)
Definition settled_as (a a' : A) (b : bool) : Prop :=
  authorized (ga_state a') = b /\ scoped (ga_state a') /\ keeps_secrets a a'.
Lemma settled_unauthorized a a' :
  authorized (ga_state a') = false -> keeps_secrets a a' -> settled_as a a' false.
Proof. intros H Hk. split; [done|split; [|done]]. intros H'. congruence. Qed.
Lemma save_settled a0 a (b : bool) :
  settled_as a0 a b ->
  wp (save_state account_id ;; mret b) a (fun a' r =>
    settled_as a0 a' b /\ forall b', r = Ok b' -> b' = b).
Proof.
  intros (H1 & H2 & H3). apply wp_bind. eapply wp_mono; [apply save_state_spec|].
  intros a' r [E K].
  assert (settled_as a0 a' b) as Hs.
  { unfold settled_as. rewrite E. split_and!; [done..|]. intros ref Hr. by rewrite K, H3. }
  destruct r as [[]|e]; [apply wp_ret|]; (split; [done|]); by intros b' [= <-].
Qed.
Lemma credential_failed_spec a0 a auth token reason :
  ("AUTHORIZED" =s auth) = false -> keeps_secrets a0 a ->
  wp (credential_failed account_id auth token reason) a (fun a' r =>
    settled_as a0 a' false /\ forall b', r = Ok b' -> b' = false).
Proof.
  intros Hs Hk. unfold credential_failed. apply wp_bind, wp_modify, wp_bind, iso_now_spec.
  intros a1 t [E1 E2]. apply wp_bind, wp_modify, save_settled, settled_unauthorized.
  - simpl. rewrite E2. exact Hs.
  - intros ref Hr. simpl. rewrite E1. by apply Hk.
Qed.
Lemma validation_failed_spec a0 a f :
  keeps_secrets a0 a ->
  wp (validation_failed account_id f) a (fun a' r =>
    settled_as a0 a' false /\ forall b', r = Ok b' -> b' = false).
Proof.
  intros Hk. unfold validation_failed.
  destruct f as [code msg|e]; [destruct (code =? 401)%Z|]; by apply credential_failed_spec.
Qed.
Lemma validated_spec a0 a user header :
  keeps_secrets a0 a ->
  wp (validated account_id user header) a (fun a' r =>
    match r with
    | Ok b => settled_as a0 a' b
    | Raise _ => keeps_secrets a0 a'
    end).
Proof.
  intros Hk. unfold validated. apply wp_bind, wp_of_result. destruct (py_get _ _ _) as [p|e]; [|done].
  apply wp_bind, iso_now_spec. intros a1 t [E1 E2]. apply wp_bind, wp_modify.
  assert (forall (a2 : A) (b : bool), authorized (ga_state a2) = b -> scoped (ga_state a2) ->
    ga_secrets a2 = ga_secrets a1 ->
    wp (save_state account_id ;; mret b) a2 (fun a' r =>
      match r with Ok b => settled_as a0 a' b | Raise _ => keeps_secrets a0 a' end)) as K.
  { intros a2 b H1 H2 H3. eapply wp_mono.
    - apply (save_settled a0). split; [exact H1|split; [exact H2|]].
      intros ref Hr. rewrite H3, E1. by apply Hk.
    - intros a3 [b'|e] [H4 H5]; [by rewrite (H5 b' eq_refl)|apply H4]. }
  destruct (rev (missing_scopes _)) as [|m l] eqn:Em; apply wp_bind, wp_modify, K; try done.
  intros _. exists (split_scopes header). split; [done|].
  by rewrite <-(rev_involutive (missing_scopes _)), Em.
Qed.

(** validate returns true exactly when it leaves an AUTHORIZED status, which
    always comes with the required scopes and for a token that was held; it
    changes no secret but the saved status, whatever GitHub and the secret
    backend do. *)
Theorem validate_verdict (a : A) :
  wp (validate collects account_id) a (fun a' r => keeps_secrets a a' /\ forall b, r = Ok b ->
    authorized (ga_state a') = b /\ scoped (ga_state a') /\
    (b = true -> exists token, holds (ga_secrets a) (token_ref account_id) = Some token)).
Proof.
  unfold validate, secretly. apply wp_bind, wp_zoom.
  eapply wp_mono; [apply retrieve_law|]. intros s [o|e] [Hs Ho]; [|split; [by intros ref _|done]].
  specialize (Ho o eq_refl).
  set (a1 := a <| ga_secrets := s |>). assert (keeps_secrets a a1) as K1 by (intros ref _; apply Hs).
  destruct (default "" o =s "") eqn:Eo.
  - apply wp_bind, wp_modify. eapply wp_mono.
    + apply (save_settled a), settled_unauthorized; [done|exact K1].
    + intros a2 r [(H1 & H2 & H3) H4]. split; [done|]. intros b ->.
      specialize (H4 b eq_refl) as ->. done.
  - destruct o as [token|]; [|done].
    apply wp_bind, wp_of_result. destruct (utf8_decode _) as [t|e]; [|done].
    apply wp_bind. eapply wp_mono; [apply request_same|]. intros a2 r [E1 E2].
    assert (keeps_secrets a a2) as K2 by (intros ref Hr; rewrite E1; by apply K1).
    destruct r as [[f|[user header]]|e]; [| |done].
    + eapply wp_mono; [by apply (validation_failed_spec a)|]. intros a3 r [(H1 & H2 & H3) H4].
      split; [done|]. intros b ->. specialize (H4 b eq_refl) as ->. done.
    + apply wp_try_with. eapply wp_mono; [by apply (validated_spec a)|].
      intros a3 [b|e] H; [split; [apply H|]; intros b' [= <-]; destruct H as (H1 & H2 & _); eauto|].
      assert (wp (validation_failed account_id (OtherFailure e)) a3 (fun a' r =>
        keeps_secrets a a' /\ forall b, r = Ok b -> authorized (ga_state a') = b /\
          scoped (ga_state a') /\
          (b = true -> exists token, holds (ga_secrets a) (token_ref account_id) = Some token))) as K.
      { eapply wp_mono; [by apply (validation_failed_spec a)|]. intros a4 r [(H1 & H2 & H3) H4].
        split; [done|]. intros b ->. specialize (H4 b eq_refl) as ->. done. }
      destruct (exn_type e); (exact K || done).
Qed.

(** A poll that answers AUTHORIZED leaves the granted token stored and an
    AUTHORIZED status with the required scopes; when the granted token does not
    validate, no token is left, the one held before included. *)
Theorem granted_token_settled (result : pyval) (a : A) :
  wp (poll_token collects account_id result) a (fun a' r => forall d, r = Ok d ->
    (d = status_only "AUTHORIZED" /\ authorized (ga_state a') = true /\ scoped (ga_state a') /\
     exists token, py_item "access_token" result = Ok (VStr token) /\
       holds (ga_secrets a') (token_ref account_id) = Some (utf8_encode token)) \/
    (d = poll_error (VStr "GitHub authorization did not satisfy required scopes") /\
     authorized (ga_state a') = false /\ holds (ga_secrets a') (token_ref account_id) = None)).
Proof.
  unfold poll_token, secretly. apply wp_bind, wp_of_result.
  destruct (py_item _ _) as [v|e] eqn:Ev; [|done]. destruct v as [| | | |token| |]; try done.
  apply wp_bind, wp_zoom. eapply wp_mono; [apply store_law|].
  intros s [b|e] [_ Hb]; [|done]. destruct (Hb b eq_refl) as [_ Hs].
  apply wp_bind, wp_modify, wp_bind. eapply wp_mono; [apply validate_verdict|].
  intros a2 [v|e] [K Hv]; [|done]. destruct (Hv v eq_refl) as (H1 & H2 & _).
  destruct v.
  - apply wp_ret. intros d [= <-]. left. split_and!; [done..|]. exists token. split; [done|].
    rewrite K by apply refs_differ. exact Hs.
  - apply wp_bind, wp_zoom. eapply wp_mono; [apply delete_law|]. intros s' [b'|e] [_ Hd]; [|done].
    apply wp_ret. intros d [= <-]. right. split_and!; [done..|]. by apply (Hd b').
Qed.

(** *** Every operation keeps an AUTHORIZED status scoped *)
Definition Scoped (a : A) : Prop := scoped (ga_state a).
#[local] Instance Scoped_ambient : Ambient Scoped.
Proof. split. unfold Scoped. intros a a' _ E. by rewrite E. Qed.
Lemma scoped_secretly {X} (m : M S X) : preserves Scoped (secretly m).
Proof. intros a Ha. unfold secretly. apply wp_zoom. unfold wp. by destruct (m (ga_secrets a)). Qed.
Lemma scoped_update f : (forall c, scoped c -> scoped (f c)) -> preserves Scoped (update_state f).
Proof. intros H. apply preserves_modify. intros a. apply H. Qed.
#[local] Hint Resolve scoped_secretly : keeps.
Lemma scoped_save : preserves Scoped (save_state account_id).
Proof. unfold save_state. auto with keeps. Qed.
#[local] Hint Resolve scoped_save : keeps.
Lemma scoped_failed auth token reason :
  ("AUTHORIZED" =s auth) = false -> preserves Scoped (credential_failed account_id auth token reason).
Proof.
  intros H. unfold credential_failed. apply preserves_bind.
  - apply scoped_update. intros c _ Hc. change (("AUTHORIZED" =s auth) = true) in Hc. congruence.
  - intros _. apply preserves_bind; [auto with keeps|intros t].
    apply preserves_bind; [by apply scoped_update|auto with keeps].
Qed.
Lemma scoped_validation_failed f : preserves Scoped (validation_failed account_id f).
Proof. unfold validation_failed. destruct f as [c m|e]; [destruct (c =? 401)%Z|]; by apply scoped_failed. Qed.
Lemma scoped_validated user header : preserves Scoped (validated account_id user header).
Proof.
  unfold validated. do 2 (apply preserves_bind; [auto with keeps|intros]). intros b Hb.
  apply wp_bind, wp_modify. assert (preserves Scoped (save_state account_id)) by apply scoped_save.
  destruct (rev (missing_scopes _)) as [|m l] eqn:Em; apply wp_bind, wp_modify.
  - assert (preserves Scoped (save_state account_id ;; mret true)) as K by (auto with keeps).
    apply K. intros _. exists (split_scopes header). split; [done|].
    by rewrite <-(rev_involutive (missing_scopes _)), Em.
  - assert (preserves Scoped (save_state account_id ;; mret false)) as K by (auto with keeps).
    by apply K.
Qed.
#[local] Hint Resolve scoped_validation_failed scoped_validated : keeps.
Lemma scoped_validate : preserves Scoped (validate collects account_id).
Proof.
  assert (preserves Scoped (update_state (fun c => c <| cs_auth_status := VStr "UNAUTHORIZED" |>
    <| cs_token_status := VStr "MISSING" |> <| cs_principal := VNone |> <| cs_scopes := VList [] |>)))
    by (by apply scoped_update).
  unfold validate. auto 20 with keeps.
Qed.
#[local] Hint Resolve scoped_validate : keeps.
Lemma scoped_flow_failed f : preserves Scoped (flow_failed account_id f).
Proof.
  unfold flow_failed. apply preserves_bind; [auto with keeps|intros t].
  apply preserves_bind; [by apply scoped_update|auto with keeps].
Qed.
#[local] Hint Resolve scoped_flow_failed : keeps.
Lemma scoped_initiate : preserves Scoped (initiate_device_flow client_id account_id).
Proof. unfold initiate_device_flow, open_flow. auto 30 with keeps. Qed.
Lemma scoped_poll : preserves Scoped (poll_device_flow client_id collects account_id).
Proof. unfold poll_device_flow, poll_reply, poll_token, poll_pending. auto 40 with keeps. Qed.
Lemma scoped_accept token user header : preserves Scoped (accept_token account_id token user header).
Proof.
  unfold accept_token. apply preserves_bind; [auto with keeps|intros p].
  destruct (missing_scopes _) as [|m l] eqn:Em; [|auto with keeps].
  do 2 (apply preserves_bind; [auto with keeps; apply scoped_update; intros c _ _; eauto|intros]).
  apply preserves_bind; [auto with keeps|intros t].
  apply preserves_bind; [by apply scoped_update|auto with keeps].
Qed.
#[local] Hint Resolve scoped_accept : keeps.
Lemma scoped_store token : preserves Scoped (store_and_validate_token collects account_id token).
Proof. unfold store_and_validate_token. auto 20 with keeps. Qed.
Lemma scoped_disconnect : preserves Scoped (disconnect account_id).
Proof.
  assert (preserves Scoped (update_state (fun _ => fresh_credential))) by (by apply scoped_update).
  unfold disconnect. auto 20 with keeps.
Qed.

(** What a panel does with the manager. *)
Inductive auth_operation :=
  | Initiate | Poll | Validate | GiveToken (token : string) | Disconnect | Inquire.
Definition auth_perform (o : auth_operation) : M A unit :=
  match o with
  | Initiate => initiate_device_flow client_id account_id ;; mret tt
  | Poll => poll_device_flow client_id collects account_id ;; mret tt
  | Validate => validate collects account_id ;; mret tt
  | GiveToken t => store_and_validate_token collects account_id t ;; mret tt
  | Disconnect => disconnect account_id
  | Inquire => get_status ;; has_token account_id ;; mret tt
  end.
Definition auth_run (os : list auth_operation) (a : A) : A :=
  foldl (fun a o => (auth_perform o a).1) a os.

(** Over any operations, answers of GitHub and failures of the secret
    backend, a manager whose loaded status was sound reads AUTHORIZED only with
    the required scopes. *)
Theorem authorized_scoped (os : list auth_operation) (a : A) :
  scoped (ga_state a) -> scoped (ga_state (auth_run os a)).
Proof.
  revert a. induction os as [|o os IH]; intros a Ha; [done|]. apply IH.
  assert (preserves Scoped (auth_perform o)) as H.
  { pose proof scoped_initiate. pose proof scoped_poll. pose proof scoped_store.
    destruct o; cbn [auth_perform]; unfold get_status, has_token; auto 20 with keeps.
    apply scoped_disconnect. }
  specialize (H a Ha). unfold wp in H. by destruct (auth_perform o a).
Qed.

(** A status that was saved is what a new manager starts with, or, when it
    cannot be read, the initial one. *)
Theorem credential_reloads (c : GitHubCredentialState) (s : S) (now : Z) :
  plain (VDict (credential_fields c)) ->
  holds s (state_ref account_id) = Some (utf8_encode (dumps false (VDict (credential_fields c)))) ->
  let a := (new_auth_manager account_id s now).1 in
  ga_state a = c \/ ga_state a = fresh_credential.
Proof.
  intros Hp Hh. cbv zeta. unfold new_auth_manager.
  assert (wp (load_state account_id) (mkAuthManager s fresh_credential None [] [] now 0)
    (fun a _ => ga_state a = c \/ ga_state a = fresh_credential)) as H.
  { unfold load_state, secretly. apply wp_try_with, wp_bind, wp_zoom.
    eapply wp_mono; [apply retrieve_law|]. intros s' [o|e] [_ Ho].
    2:{ destruct (exn_type e); by right. }
    pose proof (Ho o eq_refl) as Eo. change (o = holds s (state_ref account_id)) in Eo.
    rewrite Hh in Eo. subst o. destruct (_ =s ""); [by right|].
    apply wp_bind, wp_of_result. rewrite utf8_round_trip. apply wp_bind, wp_of_result.
    destruct (json_round_trip _ false _ Hp) as [-> _]. rewrite ordered_same.
    apply wp_bind, wp_of_result. destruct c. left. reflexivity. }
  unfold wp in H. by destruct (load_state _ _).
Qed.
End Authorization.
