(* ===== verification/Process.v ===== *)
(** * Processes, the shell and recovery

    [runtime/process/manager.py], [shell/executor.py] and [core/recovery.py]:
    the processes started for an execution context, the classification of
    shell commands by effect, and the recovery procedure after a restart.
    Starting a process and waiting for it are calls of the operating system,
    given by [ProcessOS]. *)
From S2P Require Import Prelude Dict PyVal Effects PyPath PyStr Host Identity Security.
From S2P Require Import Core Continuity Bridge.

Inductive ProcessState :=
  | PS_PENDING | PS_RUNNING | PS_COMPLETED | PS_FAILED | PS_TIMED_OUT | PS_KILLED.
#[export] Instance ProcessState_eq_dec : EqDecision ProcessState.
Proof. solve_decision. Defined.
Record ProcessRecord := mkProcess {
  pr_process_id : string;
  pr_execution_id : string;
  pr_operation_id : string;
  pr_actor_id : string;
  pr_session_id : string;
  pr_tenant_id : string;
  pr_workspace_id : option string;
  pr_command : list string;
  pr_state : ProcessState;
  pr_pid : option Z;
  pr_exit_code : option Z;
  pr_stdout : string;
  pr_stderr : string;
  pr_started_at : string;
  pr_finished_at : option string;
  pr_timeout_seconds : Z;
  pr_runtime_generation : Z }.
#[export] Instance eta_ProcessRecord : Eta ProcessRecord := fun r =>
  mkProcess (pr_process_id r) (pr_execution_id r) (pr_operation_id r) (pr_actor_id r)
    (pr_session_id r) (pr_tenant_id r) (pr_workspace_id r) (pr_command r) (pr_state r)
    (pr_pid r) (pr_exit_code r) (pr_stdout r) (pr_stderr r) (pr_started_at r) (pr_finished_at r)
    (pr_timeout_seconds r) (pr_runtime_generation r).

(** What waiting gives: the outputs and the exit code, or the outputs of a
    process killed at the timeout. *)
Inductive wait_outcome :=
  | Exited (stdout stderr : string) (code : Z)
  | Expired (stdout stderr : string).
Class ProcessOS := {
  popen : nat -> list string -> string -> result Z;
  communicate : nat -> string -> Z -> wait_outcome;
  process_uuid : nat -> string;
  time_text : nat -> string }.

(** The table of processes, those with a handle, and the draws made. *)
Record PmSt := mkPm {
  pm_processes : dict string ProcessRecord;
  pm_handles : list string;
  pm_tick : nat }.
#[export] Instance eta_PmSt : Eta PmSt := fun r =>
  mkPm (pm_processes r) (pm_handles r) (pm_tick r).

Section Processes.
Context {os : ProcessOS} (max_concurrent : Z).

Definition running (r : ProcessRecord) : bool := bool_decide (pr_state r = PS_RUNNING).
Definition active_processes (s : PmSt) : list ProcessRecord :=
  filter (fun r => running r = true) (dvalues (pm_processes s)).
Definition pm_draw {A} (f : nat -> A) : M PmSt A := fun s =>
  (s <| pm_tick := S (pm_tick s) |>, Ok (f (pm_tick s))).
Definition put_process (id : string) (r : ProcessRecord) : M PmSt unit :=
  modify (fun s => s <| pm_processes := dset id r (pm_processes s) |>).

(** [_validate_ownership] *)
Definition process_owned (c : ExecutionContext) (id : string) (s : PmSt)
    : result (option ProcessRecord) :=
  match dget id (pm_processes s) with
  | None => Ok None
  | Some r =>
      if negb (pr_tenant_id r =s ec_tenant_id c)
      then raise PermissionError "Access denied: tenant mismatch"
      else if negb (pr_actor_id r =s ec_actor_id c)
      then raise PermissionError "Access denied: actor mismatch"
      else if negb (bool_decide (pr_workspace_id r = ec_workspace_id c))
      then raise PermissionError "Access denied: workspace mismatch"
      else if negb (pr_runtime_generation r =? ec_generation c)%Z
      then raise PermissionError "Access denied: generation stale"
      else Ok (Some r)
  end.
Definition own_process (c : ExecutionContext) (id : string) : M PmSt (option ProcessRecord) :=
  fun s => (s, process_owned c id s).

Definition start_process (c : ExecutionContext) (command : list string) (workspace_path : string)
    (timeout : Z) : M PmSt ProcessRecord :=
  when (negb (has_capability c "PROCESS_EXECUTION"))
    (throw PermissionError "Access denied: missing PROCESS_EXECUTION capability") ;;
  active ← gets active_processes;
  when (max_concurrent <=? Z.of_nat (length active))%Z
    (throw RuntimeError "Max concurrent executions reached") ;;
  id ← pm_draw process_uuid;
  t ← pm_draw time_text;
  let r := mkProcess id (ec_execution_id c) (ec_operation_id c) (ec_actor_id c) (ec_session_id c)
    (ec_tenant_id c) (ec_workspace_id c) command PS_PENDING None None "" "" t None timeout
    (ec_generation c) in
  pid ← pm_draw (fun n => popen n command workspace_path);
  match pid with
  | Ok pid =>
      let r := (r <| pr_pid := Some pid |>) <| pr_state := PS_RUNNING |> in
      put_process id r ;;
      modify (fun s => s <| pm_handles := id :: pm_handles s |>) ;;
      mret r
  | Raise e =>
      t' ← pm_draw time_text;
      let r := ((r <| pr_state := PS_FAILED |>) <| pr_stderr := exn_str e |>)
                 <| pr_finished_at := Some t' |> in
      put_process id r ;;
      mret r
  end.

Definition has_handle (id : string) (s : PmSt) : bool := str_in id (pm_handles s).
Definition stop_process (c : ExecutionContext) (id : string) : M PmSt (option ProcessRecord) :=
  when (negb (has_capability c "PROCESS_CONTROL"))
    (throw PermissionError "Access denied: missing PROCESS_CONTROL capability") ;;
  r ← own_process c id;
  match r with
  | None => mret None
  | Some r =>
      h ← gets (has_handle id);
      if h && running r then
        t ← pm_draw time_text;
        let r := (r <| pr_state := PS_KILLED |>) <| pr_finished_at := Some t |> in
        put_process id r ;; mret (Some r)
      else mret (Some r)
  end.

Definition waited (o : wait_outcome) (r : ProcessRecord) : ProcessRecord :=
  match o with
  | Exited out err code =>
      (((r <| pr_stdout := out |>) <| pr_stderr := err |>) <| pr_exit_code := Some code |>)
        <| pr_state := if (code =? 0)%Z then PS_COMPLETED else PS_FAILED |>
  | Expired out err =>
      ((r <| pr_state := PS_TIMED_OUT |>) <| pr_stdout := out |>) <| pr_stderr := err |>
  end.
Definition wait_process (c : ExecutionContext) (id : string) (timeout : Z)
    : M PmSt (option ProcessRecord) :=
  r ← own_process c id;
  match r with
  | None => mret None
  | Some r =>
      h ← gets (has_handle id);
      if negb h || negb (running r) then mret (Some r)
      else
        o ← pm_draw (fun n => communicate n id timeout);
        t ← pm_draw time_text;
        let r := (waited o r) <| pr_finished_at := Some t |> in
        put_process id r ;; mret (Some r)
  end.
Definition stale_killed (current_generation : Z) (r : ProcessRecord) : ProcessRecord :=
  if (pr_runtime_generation r <? current_generation)%Z && running r
  then r <| pr_state := PS_KILLED |> else r.
Definition mark_stale (current_generation : Z) (s : PmSt) : PmSt :=
  s <| pm_processes := map (fun kv => (kv.1, stale_killed current_generation kv.2))
                         (pm_processes s) |>.

Inductive pm_op :=
  | PStart (c : ExecutionContext) (command : list string) (workspace_path : string) (timeout : Z)
  | PStop (c : ExecutionContext) (id : string)
  | PWait (c : ExecutionContext) (id : string) (timeout : Z)
  | PStale (generation : Z).
Definition run_pm (op : pm_op) (s : PmSt) : PmSt :=
  match op with
  | PStart c cmd p t => (start_process c cmd p t s).1
  | PStop c id => (stop_process c id s).1
  | PWait c id t => (wait_process c id t s).1
  | PStale g => mark_stale g s
  end.

(** ** Invariants *)
Definition count_running (d : dict string ProcessRecord) : nat :=
  length (filter (fun r => running r = true) (dvalues d)).
Lemma count_dset id r d :
  count_running (dset id r d) + (if from_option running false (dget id d) then 1 else 0)
  = count_running d + (if running r then 1 else 0).
Proof.
  unfold count_running, dvalues. induction d as [|[k v] d IH]; csimpl.
  - rewrite filter_cons. destruct (running r); case_decide; simpl; (lia || done).
  - case_decide; csimpl; rewrite !filter_cons; destruct (running v), (running r);
      repeat case_decide; simpl in *; (lia || done || idtac).
Qed.
Lemma count_put_idle id r s : running r = false ->
  count_running (dset id r (pm_processes s)) <= count_running (pm_processes s).
Proof. intros Hr. pose proof (count_dset id r (pm_processes s)) as H. rewrite Hr in H. lia. Qed.
Lemma count_stale g d :
  count_running (map (fun kv => (kv.1, stale_killed g kv.2)) d) <= count_running d.
Proof.
  unfold count_running, dvalues. induction d as [|[k v] d IH]; csimpl; [done|].
  rewrite !filter_cons.
  assert (running (stale_killed g v) = true -> running v = true) as Hv.
  { unfold stale_killed. destruct (running v) eqn:E; [done|]. by rewrite andb_false_r, E. }
  destruct (decide (running (stale_killed g v) = true)) as [H1|H1],
    (decide (running v = true)) as [H2|H2]; simpl; (lia || tauto).
Qed.

(** A bound on the running processes that an operation keeps. *)
Definition bounded (s : PmSt) : Prop :=
  (Z.of_nat (count_running (pm_processes s)) <= Z.max 0 max_concurrent)%Z.
Lemma bounded_le s s' :
  count_running (pm_processes s') <= count_running (pm_processes s) -> bounded s -> bounded s'.
Proof. unfold bounded. lia. Qed.

Lemma start_bounded c cmd p t s : bounded s -> bounded (start_process c cmd p t s).1.
Proof.
  intros Hb. enough (wp (start_process c cmd p t) s (fun s' _ => bounded s')) as W
    by (unfold wp in W; by destruct (start_process _ _ _ _ s)).
  unfold start_process. apply wp_bind, wp_when; intros _; [by apply wp_throw|].
  apply wp_bind, wp_gets, wp_bind, wp_when; intros Hm; [by apply wp_throw|].
  apply Z.leb_gt in Hm. unfold pm_draw, put_process.
  do 2 (apply wp_bind; unfold wp at 1). apply wp_bind. unfold wp at 1. simpl.
  destruct (popen _ cmd p) as [pid|e].
  - apply wp_bind, wp_modify, wp_bind, wp_modify, wp_ret. unfold bounded. simpl.
    match goal with |- context [dset ?id ?r ?d] => pose proof (count_dset id r d) as H end.
    unfold active_processes in Hm. fold (count_running (pm_processes s)) in Hm.
    simpl in H. repeat case_match; lia.
  - apply wp_bind. unfold wp at 1. apply wp_bind, wp_modify, wp_ret.
    apply (bounded_le s); [|exact Hb]. simpl. by apply (count_put_idle _ _ s).
Qed.

Lemma owned_process_spec c id s r : process_owned c id s = Ok (Some r) ->
  dget id (pm_processes s) = Some r.
Proof.
  unfold process_owned. destruct (dget id _) as [r'|]; [|done].
  repeat (destruct (negb _); [done|]). congruence.
Qed.
(** What stopping and waiting do to the table. *)
Definition settles (id : string) (s s' : PmSt) : Prop :=
  pm_processes s' = pm_processes s \/
  exists r r', dget id (pm_processes s) = Some r /\ running r = true /\ running r' = false /\
    pm_processes s' = dset id r' (pm_processes s).
Lemma stop_settles c id s : settles id s (stop_process c id s).1.
Proof.
  enough (wp (stop_process c id) s (fun s' _ => settles id s s')) as W
    by (unfold wp in W; by destruct (stop_process c id s)).
  unfold stop_process. apply wp_bind, wp_when; intros _; [apply wp_throw; by left|].
  apply wp_bind. unfold wp at 1, own_process.
  destruct (process_owned c id s) as [[r|]|e] eqn:Eo; [|by left..].
  apply owned_process_spec in Eo. apply wp_bind, wp_gets.
  destruct (has_handle id s); [|by left]. destruct (running r) eqn:Er; [|by left].
  simpl. apply wp_bind. unfold wp at 1, pm_draw. apply wp_bind, wp_modify, wp_ret. right.
  exists r. eexists. split_and!; [done|done| |done]. done.
Qed.
Lemma wait_settles c id t s : settles id s (wait_process c id t s).1.
Proof.
  enough (wp (wait_process c id t) s (fun s' _ => settles id s s')) as W
    by (unfold wp in W; by destruct (wait_process c id t s)).
  unfold wait_process. apply wp_bind. unfold wp at 1, own_process.
  destruct (process_owned c id s) as [[r|]|e] eqn:Eo; [|by left..].
  apply owned_process_spec in Eo. apply wp_bind, wp_gets.
  destruct (has_handle id s); [|by left]. destruct (running r) eqn:Er; [|by left].
  simpl. apply wp_bind. unfold wp at 1, pm_draw. apply wp_bind. unfold wp at 1.
  apply wp_bind, wp_modify, wp_ret. right. exists r. eexists. split_and!; [done|done| |done].
  destruct (communicate _ _ _) as [out err code|out err]; unfold waited; [|done].
  by destruct (code =? 0)%Z.
Qed.
Lemma settles_bounded id s s' : settles id s s' -> bounded s -> bounded s'.
Proof.
  intros [E|(r & r' & _ & _ & Hr & E)]; apply bounded_le; rewrite E; [done|].
  by apply count_put_idle.
Qed.


(** A process that is no longer running keeps its record: stopping it,
    waiting for it and marking stale change nothing of it. *)
Theorem finished_is_final op id r s :
  dget id (pm_processes s) = Some r -> running r = false ->
  match op with PStart _ _ _ _ => False | _ => True end ->
  dget id (pm_processes (run_pm op s)) = Some r.
Proof.
  intros Hr Hn Hop.
  assert (forall id' s', settles id' s s' -> dget id (pm_processes s') = Some r) as H.
  { intros id' s' [->|(r1 & r2 & H1 & H2 & _ & ->)]; [done|]. rewrite dget_dset.
    case_decide; [|done]. subst. congruence. }
  destruct op as [c cmd p t|c id'|c id' t|g]; [done| | |].
  - eapply H, stop_settles.
  - eapply H, wait_settles.
  - simpl. clear H Hop. induction (pm_processes s) as [|[k v] d IH]; [done|]. simpl in *.
    case_decide; [|by apply IH]. injection Hr as ->. unfold stale_killed.
    by rewrite Hn, andb_false_r.
Qed.
End Processes.

(** ** The shell *)
Inductive ShellEffect := READONLY | WORKSPACE_MUTATING | EF_PROCESS_CONTROL | REMOTE_MUTATION
  | EF_UNKNOWN.
#[export] Instance ShellEffect_eq_dec : EqDecision ShellEffect.
Proof. solve_decision. Defined.
Definition readonly_cmds : list string :=
  ["ls"; "cat"; "grep"; "find"; "head"; "tail"; "wc"; "diff"].
Definition mutating_cmds : list string := ["mkdir"; "cp"; "mv"; "rm"; "touch"; "chmod"; "sed"].
Definition process_cmds : list string := ["kill"; "pkill"; "killall"].
Definition classify_command (command : string) : ShellEffect :=
  let words := split_words "" command in
  let base := default "" (head words) in
  if str_in base readonly_cmds then READONLY
  else if str_in base mutating_cmds then WORKSPACE_MUTATING
  else if str_in base process_cmds then EF_PROCESS_CONTROL
  else
    let git := match words with
               | w :: sub :: _ =>
                   if w =s "git" then
                     if str_in sub ["status"; "log"; "diff"] then Some READONLY
                     else if str_in sub ["push"; "remote"] then Some REMOTE_MUTATION
                     else None
                   else None
               | _ => None
               end in
    match git with
    | Some e => e
    | None =>
        if (base =s "echo") && contains ">" command then WORKSPACE_MUTATING
        else if contains "curl -X POST" command || contains "wget --post" command
        then REMOTE_MUTATION
        else EF_UNKNOWN
    end.
Definition effect_capability (e : ShellEffect) : option string :=
  match e with
  | READONLY => Some "FILE_READ" | WORKSPACE_MUTATING => Some "FILE_WRITE"
  | EF_PROCESS_CONTROL => Some "PROCESS_CONTROL"
  | REMOTE_MUTATION => Some "REMOTE_REPOSITORY_MUTATION" | EF_UNKNOWN => None
  end.

Record ShellResult := mkShell { sr_exit_code : Z; sr_stdout : string; sr_stderr : string }.
Section Shell.
Context {os : ProcessOS} (max_concurrent : Z).
(** [workspace_manager.status(workspace_id)]: the directory of the workspace,
    if there is one. *)
Context (workspace_status : string -> result (option string)).

(** [ShellExecutor.execute], without the duration. *)
Definition shell_execute (c : ExecutionContext) (command : string) (timeout : Z)
    : M PmSt ShellResult :=
  match effect_capability (classify_command command) with
  | None => throw PermissionError "Effect UNKNOWN: Action denied by default"
  | Some cap =>
      when (negb (has_capability c cap))
        (throw PermissionError ("Action requires capability " +:+ cap)) ;;
      when (negb (ostr_true (ec_workspace_id c)))
        (throw ValueError "Context must have a workspace_id") ;;
      ws ← of_result (workspace_status (default "" (ec_workspace_id c)));
      match ws with
      | None => throw ValueError "Workspace not found"
      | Some path =>
          r ← start_process max_concurrent c ["bash"; "-c"; command] path timeout;
          r ← wait_process c (pr_process_id r) timeout;
          mret match r with
               | Some r => mkShell (default (-1)%Z (pr_exit_code r)) (pr_stdout r) (pr_stderr r)
               | None => mkShell (-1) "" ""
               end
      end
  end.

(** C30: A shell command starts a process only for a context that holds the
    capability of the command's effect and PROCESS_EXECUTION, in a workspace
    that exists; a command of unknown effect never does. *)
Theorem shell_gate c command timeout s :
  wp (shell_execute c command timeout) s (fun s' r =>
    pm_processes s' = pm_processes s \/
    exists cap path, effect_capability (classify_command command) = Some cap /\
      cap ∈ ec_capabilities c /\ "PROCESS_EXECUTION" ∈ ec_capabilities c /\
      ostr_true (ec_workspace_id c) = true /\
      workspace_status (default "" (ec_workspace_id c)) = Ok (Some path)).
Proof.
  unfold shell_execute. destruct (effect_capability _) as [cap|]; [|apply wp_throw; by left].
  apply wp_bind, wp_when; intros H1; [apply wp_throw; by left|].
  apply wp_bind, wp_when; intros H2; [apply wp_throw; by left|].
  apply wp_bind, wp_of_result.
  destruct (workspace_status _) as [[path|]|e] eqn:Ew; [|apply wp_throw; by left|by left].
  apply negb_false_iff in H1, H2. apply bool_decide_eq_true in H1.
  destruct (has_capability c "PROCESS_EXECUTION") eqn:Hp.
  - apply wp_any. intros s' r. right. exists cap, path.
    split_and!; try done. by apply bool_decide_eq_true in Hp.
  - apply wp_bind. unfold start_process. rewrite Hp. apply wp_bind, wp_when; [|done].
    intros _. apply wp_throw. by left.
Qed.
End Shell.

Lemma split_words_ls rest : head (split_words "" ("ls " +:+ rest)) = Some "ls".
Proof. reflexivity. Qed.
(** A command is classified by its first word alone: whatever follows ls,
    removals and redirections included, counts as reading. *)
Theorem classify_first_word rest : classify_command ("ls " +:+ rest) = READONLY.
Proof. unfold classify_command. rewrite split_words_ls. reflexivity. Qed.

(** ** Recovery *)
Record RecoveryReport := mkReport {
  rp_previous_generation : Z; rp_new_generation : Z; rp_interrupted : list string;
  rp_recovered_workspaces : list string; rp_timestamp : string }.
(** The journal's file and what it loaded, the processes, the generation and
    the events emitted. *)
Record RecSt := mkRec {
  re_journal : OpJournal; re_processes : PmSt; re_generation : Z; re_bus : EventBus }.
Definition report_dict (r : RecoveryReport) : dict string pyval :=
  [("previous_generation", VInt (rp_previous_generation r));
   ("new_generation", VInt (rp_new_generation r));
   ("interrupted_operations", VList (VStr <$> rp_interrupted r)); ("stale_processes", VNone);
   ("recovered_workspaces", VList (VStr <$> rp_recovered_workspaces r));
   ("recovery_timestamp", VStr (rp_timestamp r))].

Section Recovery.
(** The emission to the bus's handlers, and the workspaces listed: none when the
    manager has no such method. *)
Context (notify : Event -> EventBus -> EventBus) (listed : list string)
  (timestamp : string) (event_time : pyfloat).
Definition recovery_event (t : EventType) (payload : dict string pyval) : Event :=
  mkEv t "RecoveryManager" None None None payload event_time.
(** [RecoveryManager.recover]; the operations form a set, listed in some
    order. *)
Definition recover (s : RecSt) : RecSt * RecoveryReport :=
  let j := open_journal (oj_file (re_journal s)) in
  let interrupted := remove_dups (je_operation_id <$> get_interrupted (re_generation s) j) in
  let g := re_generation s in
  let ps := mark_stale g (re_processes s) in
  let report := mkReport g (g + 1) interrupted listed timestamp in
  let bus := notify (recovery_event RUNTIME_RECOVERY [("report", VDict (report_dict report))])
               (re_bus s) in
  let bus := notify (recovery_event GENERATION_INCREMENTED
               [("previous_generation", VInt g); ("new_generation", VInt (g + 1))]) bus in
  (mkRec j ps (g + 1) bus, report).

(** Recovery reports exactly the operations of earlier generations that
    were left unfinished, each once, and kills the running processes of
    earlier generations only: the processes and operations of the generation
    being recovered from are left running and unreported. *)
Theorem recover_spec s :
  let '(s', r) := recover s in
  re_generation s' = (re_generation s + 1)%Z /\
  NoDup (rp_interrupted r) /\
  (forall op, op ∈ rp_interrupted r <-> exists e, e ∈ goods (oj_file (re_journal s)) /\
     je_operation_id e = op /\ (je_runtime_generation e < re_generation s)%Z /\
     je_state e <> "COMPLETED" /\ je_state e <> "FAILED") /\
  (forall id p, dget id (pm_processes (re_processes s)) = Some p ->
     exists p', dget id (pm_processes (re_processes s')) = Some p' /\
       (running p = true -> running p' = true <->
          (re_generation s <= pr_runtime_generation p)%Z)).
Proof.
  unfold recover. cbn [re_generation rp_interrupted re_processes]. split; [done|].
  split; [apply NoDup_remove_dups|]. split.
  - intros op. rewrite elem_of_remove_dups, list_elem_of_fmap. split.
    + intros (e & -> & He). apply list_elem_of_filter in He as [Hc He].
      apply andb_true_iff in Hc as [Hg Hs]. apply Z.ltb_lt in Hg.
      apply negb_true_iff, str_in_false in Hs. exists e. split_and!; try done; set_solver.
    + intros (e & He & <- & Hg & H1 & H2). exists e. split; [done|].
      apply list_elem_of_filter. split; [|done]. apply andb_true_iff. split; [by apply Z.ltb_lt|].
      apply negb_true_iff, str_in_false. set_solver.
  - intros id p. unfold mark_stale. simpl.
    induction (pm_processes (re_processes s)) as [|[k v] d IH]; [done|]. simpl.
    case_decide; [|done]. intros [= ->]. eexists. split; [done|]. intros Hr.
    unfold stale_killed. rewrite Hr, andb_true_r. destruct (Z.ltb_spec (pr_runtime_generation p) (re_generation s)).
    + split; [done|]. intros. lia.
    + rewrite Hr. split; [lia|done].
Qed.
End Recovery.
