(* ===== verification/Broker.v ===== *)
(** * The browser broker

    [runtime/browser/broker_server.py] with [authorization.py]: the governed
    browser process, the DevTools connection with the listener that answers
    intercepted requests, authorizations of form submissions, the actions on
    page elements, and the requests that arrive on the socket.  The browser is
    an argument that answers anything; the JavaScript sent to it is named here and
    modelled in PageScripts.  Requests are served one at a time; the listener's events may
    come at every exchange with the browser.  The system clock does not go
    back. *)
From S2P Require Import Prelude Dict PyVal Effects PyStr PyBytes Json JsonLoad Config Identity.

(** ** The world *)
(** The scripts of the module, with the values interpolated in them. *)
Inductive page_script :=
  | MarkFrame (token : string) | ReadFrameMark | ClearFrameMark | ReadForm | SubmitForm
  | ObservePage | ObservePageBriefly | FindElements (text role tag type : string) | ClickElement
  | CheckTextTarget | TypeText (text : pyval) | FillText (text : pyval) | ClearText
  | CheckControlTarget | SelectOption (option_identity : pyval) | CheckBox | UncheckBox.

Record Sent := mkSent { st_method : string; st_params : dict string pyval }.
(** What an exchange with the browser comes to, and the events the listener
    receives before it: the message of the response, a failed send, or none. *)
Inductive exchange :=
  | Answer (response : dict string pyval)
  | SendFails (msg : string)
  | NoAnswer (msg : string).
(** The world: names, the time each reading takes, whether a process runs,
    the connection, the browser's reaction to what was sent, Chrome and the
    window tool. *)
Class BrowserWorld := {
  bw_floats :: FloatOps;
  bw_errors :: JsonErrors;
  js : page_script -> string;
  set_text : list string -> string;
  bw_uuid : nat -> string;
  bw_delay : nat -> N;
  bw_alive : Z -> nat -> bool;
  bw_wait : Z -> nat -> bool;
  bw_connect : nat -> bool;
  bw_exchange : list Sent -> list (dict string pyval) * exchange;
  bw_profile_dir : string;
  bw_mkdir : nat -> result unit;
  bw_chrome_exists : nat -> bool;
  bw_environ : dict string string;
  bw_popen : list string -> dict string string -> nat -> result Z;
  bw_xdotool_exists : nat -> bool;
  bw_xdotool : list string -> nat -> result string }.

(** ** State *)
Inductive BrokerState := BR_STOPPED | BR_STARTING | BR_RUNNING | BR_STOPPING | BR_FAILED.
Definition broker_state_value (s : BrokerState) : string :=
  match s with
  | BR_STOPPED => "STOPPED" | BR_STARTING => "STARTING" | BR_RUNNING => "RUNNING"
  | BR_STOPPING => "STOPPING" | BR_FAILED => "FAILED"
  end.
Inductive BrowserState :=
  | B_CREATED | B_LAUNCHING | B_RUNNING | B_NAVIGATING | B_READY | B_HIDDEN | B_CLOSING
  | B_CLOSED | B_FAILED.
Definition browser_state_value (s : BrowserState) : string :=
  match s with
  | B_CREATED => "CREATED" | B_LAUNCHING => "LAUNCHING" | B_RUNNING => "RUNNING"
  | B_NAVIGATING => "NAVIGATING" | B_READY => "READY" | B_HIDDEN => "HIDDEN"
  | B_CLOSING => "CLOSING" | B_CLOSED => "CLOSED" | B_FAILED => "FAILED"
  end.

#[export] Instance BrowserState_eq_dec : EqDecision BrowserState.
Proof. solve_decision. Defined.
#[export] Instance BrokerState_eq_dec : EqDecision BrokerState.
Proof. solve_decision. Defined.

(** An element found in the page, in the session it was found in. *)
Record target := mkTarget {
  tg_backend_node : pyval; tg_node_obj : pyval; tg_session : option string }.
(** An authorization issued, and one consumed by a submission. *)
Record authorization := mkAuth {
  au_target : string; au_session : option string; au_expires_at : Z; au_method : string;
  au_url : string; au_frame : string; au_issued_at : Z }.
Record PendingSubmissionAuthorization := mkPending { pn_auth_id : string; pn_auth : authorization }.
(** The history the theorems speak of; the code does not keep it. *)
Inductive ledger_entry :=
  | Issued (auth_id : string) (a : authorization)
  | Consumed (auth_id : string) (session : option string) (now : Z)
  | Released (auth_id : string) (method url frame : string).

(** [bk_listening]: the listener thread of the connection is running. *)
Record Broker := mkBroker {
  bk_process : option Z;
  bk_broker_state : BrokerState;
  bk_browser_state : BrowserState;
  bk_last_url : option string;
  bk_connected : bool;
  bk_listening : bool;
  bk_session : option string;
  bk_targets : dict string target;
  bk_pending : option PendingSubmissionAuthorization;
  bk_auths : dict string authorization;
  bk_sent : list Sent;
  bk_ledger : list ledger_entry;
  bk_now : Z;
  bk_tick : nat }.
#[export] Instance eta_Broker : Eta Broker := fun r =>
  mkBroker (bk_process r) (bk_broker_state r) (bk_browser_state r) (bk_last_url r)
    (bk_connected r) (bk_listening r) (bk_session r) (bk_targets r) (bk_pending r) (bk_auths r)
    (bk_sent r) (bk_ledger r) (bk_now r) (bk_tick r).
Definition response : Type := dict string pyval.
Definition error_response (msg : string) : response :=
  [("status", VStr "error"); ("message", VStr msg)].

Section Broker.
Context {world : BrowserWorld}.

Definition draw {A} (f : nat -> A) : M Broker A := fun b =>
  (b <| bk_tick := S (bk_tick b) |>, Ok (f (bk_tick b))).
(** [time.time()], in nanoseconds, and [time.sleep]. *)
Definition time_now : M Broker Z :=
  d ← draw bw_delay;
  modify (fun b => b <| bk_now := (bk_now b + Z.of_N d)%Z |>) ;;
  gets bk_now.
Definition second : Z := 1000000000.
Definition sleep (ns : Z) : M Broker unit :=
  modify (fun b => b <| bk_now := (bk_now b + ns)%Z |>).
Definition set_browser_state (s : BrowserState) : M Broker unit :=
  modify (fun b => b <| bk_browser_state := s |>).
Definition enter (e : ledger_entry) : M Broker unit :=
  modify (fun b => b <| bk_ledger := bk_ledger b ++ [e] |>).
Definition session_value (s : option string) : pyval :=
  match s with Some s => VStr s | None => VNone end.

(** ** Intercepted requests *)
Definition sent_message (method : string) (params : dict string pyval) : M Broker unit :=
  modify (fun b => b <| bk_sent := bk_sent b ++ [mkSent method params] |>).
(** [_send_cdp_async] *)
Definition send_cdp_async (method : string) (params : dict string pyval) : M Broker unit :=
  c ← gets bk_connected; when c (sent_message method params).
Definition safe_methods : list string := ["GET"; "HEAD"; "OPTIONS"].
Definition as_text (v : pyval) : result string :=
  match v with
  | VStr s => Ok s
  | _ => raise AttributeError ("'" +:+ pytype_name v +:+ "' object has no attribute of str")
  end.
(** [len(v)] of the entries, and the first one. *)
Definition first_entry (v : pyval) : result (option pyval) :=
  match v with
  | VList l => Ok (head l)
  | VStr s => if s =s "" then Ok None else raise AttributeError "'str' object has no attribute 'get'"
  | VDict [] => Ok None
  | VDict _ => raise KeyError "0"
  | _ => raise TypeError ("object of type '" +:+ pytype_name v +:+ "' has no len()")
  end.
(** [get_b64_post] *)
Definition get_b64_post (req : pyval) : result pyval :=
  let? has_entries := py_contains "postDataEntries" req in
  let? first := if has_entries
                then let? v := py_item "postDataEntries" req in first_entry v else Ok None in
  match first with
  | Some e => py_get "bytes" VNone e
  | None =>
      let? has_data := py_contains "postData" req in
      if has_data then
        let? v := py_item "postData" req in
        let? s := as_text v in Ok (VStr (b64encode (utf8_encode s)))
      else Ok VNone
  end.
Definition without_fragment (url : string) : string := before "#" url.
(** Whether a request is the one a submission was authorized for. *)
Definition request_matches (p : PendingSubmissionAuthorization) (method : string) (url frame : pyval)
    : result bool :=
  let a := pn_auth p in
  if negb (au_method a =s method) then Ok false
  else
    let? u := as_text url in
    Ok ((without_fragment u =s without_fragment (au_url a)) && is_text (au_frame a) frame).
Definition fail_request (request_id : pyval) : M Broker unit :=
  send_cdp_async "Fetch.failRequest" [("requestId", request_id); ("errorReason", VStr "AccessDenied")].

(** [_handle_cdp_event]; the thread it starts for the request let through sends
    one message, whose answer nobody reads. *)
Definition request_paused (params : pyval) : M Broker unit :=
  request_id ← of_result (py_get "requestId" VNone params);
  req ← of_result (py_get "request" (VDict []) params);
  m ← of_result (py_get "method" (VStr "") req);
  m ← of_result (as_text m);
  let method := upper m in
  url ← of_result (py_get "url" VNone req);
  if str_in method safe_methods
  then send_cdp_async "Fetch.continueRequest" [("requestId", request_id)]
  else
    pending ← gets bk_pending;
    match pending with
    | None => fail_request request_id
    | Some p =>
        frame ← of_result (py_get "frameId" (VStr "") params);
        ok ← of_result (request_matches p method url frame);
        if (ok : bool) then
          modify (fun b => b <| bk_pending := None |>) ;;
          enter (Released (pn_auth_id p) method (default "" (match url with VStr u => Some u | _ => None end))
                   (au_frame (pn_auth p))) ;;
          post ← of_result (get_b64_post req);
          send_cdp_async "Fetch.continueRequest"
            (("requestId", request_id) :: if truthy post then [("postData", post)] else [])
        else fail_request request_id
    end.
Definition handle_cdp_event (event : pyval) : M Broker unit :=
  m ← of_result (py_get "method" VNone event);
  params ← of_result (py_get "params" (VDict []) event);
  if is_text "Fetch.requestPaused" m then request_paused params else mret tt.
(** The listener on one event: an exception ends its thread. *)
Definition listen (event : dict string pyval) : M Broker unit :=
  on ← gets (fun b => bk_connected b && bk_listening b);
  when on (except_all (handle_cdp_event (VDict event))
             (fun _ => modify (fun b => b <| bk_listening := false |>))).

(** ** Exchanges with the browser *)
(** [_get_ws] *)
Definition get_ws : M Broker bool :=
  c ← gets bk_connected;
  if (c : bool) then mret true
  else
    ok ← draw bw_connect;
    when ok (modify (fun b => b <| bk_connected := true |> <| bk_listening := true |>)) ;;
    mret ok.
Definition disconnect : M Broker unit := modify (fun b => b <| bk_connected := false |>).
(** [_cdp_request]: without a listener no response is ever seen. *)
Definition cdp_request (method : string) (params : dict string pyval) : M Broker pyval :=
  ok ← get_ws;
  if negb ok then throw RuntimeError "CDP WebSocket is unavailable."
  else
    sent_message method params ;;
    sent ← gets bk_sent;
    let '(events, outcome) := bw_exchange sent in
    match outcome with
    | SendFails msg =>
        disconnect ;; throw RuntimeError ("CDP communication failed: " +:+ msg)
    | _ =>
        for_each events listen ;;
        on ← gets bk_listening;
        match outcome with
        | Answer r =>
            if negb on then throw RuntimeError "CDP request timed out."
            else match dget "error" r with
                 | Some e => throw RuntimeError ("CDP Error: " +:+ py_str e)
                 | None => mret (vget_or "result" (VDict []) r)
                 end
        | NoAnswer msg => throw RuntimeError msg
        | SendFails msg => throw RuntimeError msg
        end
    end.
Definition call_function (obj_id : pyval) (s : page_script) : M Broker pyval :=
  cdp_request "Runtime.callFunctionOn"
    [("objectId", obj_id); ("functionDeclaration", VStr (js s)); ("returnByValue", VBool true)].
(** [res.get("result", {}).get("value", {})] *)
Definition value_of (res : pyval) : result pyval :=
  let? r := py_get "result" (VDict []) res in py_get "value" (VDict []) r.
(** The message of the exception a script raised, if it did. *)
Definition script_exception (res : pyval) : result (option string) :=
  let? b := py_contains "exceptionDetails" res in
  if b then let? e := py_item "exceptionDetails" res in Ok (Some (py_str e)) else Ok None.
(** [val["error"]], if there is one. *)
Definition script_error (val : pyval) : result (option pyval) :=
  let? b := py_contains "error" val in
  if b then let? e := py_item "error" val in Ok (Some e) else Ok None.

(** [self.process is None or self.process.poll() is not None], negated *)
Definition is_running : M Broker bool :=
  p ← gets bk_process;
  match p with Some pid => draw (bw_alive pid) | None => mret false end.
Definition not_running : response := error_response "Browser is not running.".
Definition when_running (m : M Broker response) : M Broker response :=
  r ← is_running; if (r : bool) then m else mret not_running.

(** ** The process *)
Definition CHROME_BINARY : string := "/usr/bin/google-chrome".
Definition ALLOWED_SCHEMES : list string := ["http://"; "https://"; "about:"].
Definition CHROME_FLAGS : list string :=
  ["--no-first-run"; "--no-default-browser-check"; "--new-window";
   "--disable-background-timer-throttling"; "--disable-backgrounding-occluded-windows";
   "--disable-renderer-backgrounding"; "--remote-debugging-port=0";
   "--remote-debugging-address=127.0.0.1"].
Definition bad_characters : list string :=
  [newline; String (ascii_of_N 13) ""; String (ascii_of_N 0) ""; "`"; "$"; ";"; "|"; ">"; "<"; " "].
(** [_validate_url] *)
Definition validate_url (url : pyval) : result string :=
  match url with
  | VStr u =>
      if u =s "" then raise ValueError "url must be a non-empty string"
      else if negb (existsb (fun s => startswith s u) ALLOWED_SCHEMES)
      then raise ValueError ("url scheme not allowed. Must start with one of ("
                             +:+ str_join ", " (py_repr_str <$> ALLOWED_SCHEMES) +:+ ")")
      else match find (fun c => contains c u) bad_characters with
           | Some c => raise ValueError ("Forbidden character " +:+ py_repr_str c +:+ " in url")
           | None => Ok u
           end
  | _ => raise ValueError "url must be a non-empty string"
  end.
Definition env_keys : list string :=
  ["DISPLAY"; "WAYLAND_DISPLAY"; "XDG_RUNTIME_DIR"; "DBUS_SESSION_BUS_ADDRESS"; "XAUTHORITY";
   "HOME"; "PATH"; "USER"; "LOGNAME"].
Definition build_chrome_env : dict string string :=
  omap (fun k => (fun v => (k, v)) <$> dget k bw_environ) env_keys.
Definition chrome_args (url : string) : list string :=
  CHROME_BINARY :: ("--user-data-dir=" +:+ bw_profile_dir) :: CHROME_FLAGS ++ ["--app=" +:+ url].

Definition browser_value (s : BrowserState) : pyval := VStr (browser_state_value s).
(** The state reset by a launch and by a stop. *)
Definition reset_session (session : option string) : M Broker unit :=
  modify (fun b => b <| bk_connected := false |> <| bk_session := session |> <| bk_targets := [] |>
                     <| bk_pending := None |> <| bk_auths := [] |>).
Definition process_response (message : list (string * pyval)) (pid : Z) : M Broker response :=
  s ← gets bk_browser_state;
  mret ([("status", VStr "ok")] ++ message ++
        [("pid", VInt pid); ("browser_state", browser_value s); ("profile", VStr bw_profile_dir);
         ("binary", VStr CHROME_BINARY)]).
Definition launch (url : string) : M Broker response :=
  found ← draw bw_chrome_exists;
  if negb found then
    set_browser_state B_FAILED ;;
    mret (error_response ("Chrome binary not found: " +:+ CHROME_BINARY))
  else
    made ← draw bw_mkdir;
    of_result made ;;
    set_browser_state B_LAUNCHING ;;
    modify (fun b => b <| bk_last_url := Some url |>) ;;
    session ← draw bw_uuid;
    reset_session (Some session) ;;
    started ← draw (bw_popen (chrome_args url) build_chrome_env);
    match started with
    | Raise e =>
        set_browser_state B_FAILED ;;
        modify (fun b => b <| bk_process := None |>) ;;
        mret (error_response ("Popen failed: " +:+ exn_str e))
    | Ok pid =>
        modify (fun b => b <| bk_process := Some pid |>) ;;
        set_browser_state B_RUNNING ;;
        process_response [] pid
    end.
Definition start_browser (url : pyval) : M Broker response :=
  match validate_url url with
  | Raise e => mret (error_response (exn_str e))
  | Ok u =>
      p ← gets bk_process;
      match p with
      | None => launch u
      | Some pid =>
          alive ← draw (bw_alive pid);
          if (alive : bool)
          then process_response [("message", VStr "Browser already running")] pid
          else launch u
      end
  end.

(** Terminating Chrome: five seconds, then a kill and three more. *)
Definition terminate_process (pid : Z) : M Broker unit :=
  set_browser_state B_CLOSING ;;
  ended ← draw (bw_wait pid);
  (if (ended : bool) then mret tt
   else
     ended ← draw (bw_wait pid);
     if (ended : bool) then mret tt
     else throw (OtherException "TimeoutExpired") "timed out after 3 seconds") ;;
  modify (fun b => b <| bk_process := None |>).
Definition stop_browser : M Broker response :=
  p ← gets bk_process;
  (match p with
   | None => mret tt
   | Some pid =>
       alive ← draw (bw_alive pid); if (alive : bool) then terminate_process pid else mret tt
   end) ;;
  set_browser_state B_CLOSED ;;
  reset_session None ;;
  mret [("status", VStr "ok"); ("browser_state", browser_value B_CLOSED)].

(** The dash of two messages below, a character above 255, is written as a hyphen. *)
Definition XDOTOOL : string := "/home/anny/.local/bin/xdotool".
Definition hide_windows (pid : Z) : M Broker response :=
  out ← draw (bw_xdotool ["search"; "--pid"; zstr pid]);
  out ← of_result out;
  let wids := split_words "" out in
  match wids with
  | [] =>
      s ← gets bk_browser_state;
      mret [("status", VStr "ok"); ("browser_state", browser_value s);
            ("message", VStr "No windows found for PID (may already be hidden)")]
  | _ =>
      for_each wids (fun w => r ← draw (bw_xdotool ["windowminimize"; w]); of_result r ;; mret tt) ;;
      set_browser_state B_HIDDEN ;;
      mret [("status", VStr "ok"); ("browser_state", browser_value B_HIDDEN); ("pid", VInt pid);
            ("windows_hidden", VList (VStr <$> wids))]
  end.
Definition hide_message (status message : string) : M Broker response :=
  s ← gets bk_browser_state;
  mret [("status", VStr status); ("browser_state", browser_value s); ("message", VStr message)].
Definition hide_browser : M Broker response :=
  running ← is_running;
  p ← gets bk_process;
  match (if (running : bool) then p else None) with
  | None => hide_message "ok" "Browser not running - nothing to hide"
  | Some pid =>
      found ← draw bw_xdotool_exists;
      if negb found then hide_message "unavailable" "xdotool not installed - hide not possible"
      else
        except_all (hide_windows pid) (fun e =>
          hide_message "error" (if decide (exn_type e = OtherException "TimeoutExpired")
                                then "xdotool timed out" else "hide_browser error: " +:+ exn_str e))
  end.

Definition navigate (url : pyval) : M Broker response :=
  match validate_url url with
  | Raise e => mret (error_response (exn_str e))
  | Ok u =>
      running ← is_running;
      if negb running
      then mret (error_response "Browser is not running. Use START_BROWSER first.")
      else
        set_browser_state B_NAVIGATING ;;
        modify (fun b => b <| bk_last_url := Some u |>) ;;
        except_all
          (cdp_request "Page.navigate" [("url", VStr u)] ;;
           set_browser_state B_RUNNING ;;
           mret [("status", VStr "ok"); ("browser_state", browser_value B_RUNNING); ("url", VStr u)])
          (fun e =>
             set_browser_state B_FAILED ;;
             mret (error_response ("CDP navigate failed: " +:+ exn_str e)))
  end.

(** The entry of the history a step leads to: [entries[index]] within bounds. *)
Definition history_entry (history : pyval) (step : Z) : result (option pyval) :=
  let? index := py_get "currentIndex" (VInt 0) history in
  let? entries := py_get "entries" (VList []) history in
  match index, entries with
  | VInt i, VList l =>
      let n := (i + step)%Z in
      Ok (if ((0 <=? n) && (n <? Z.of_nat (length l)))%Z then l !! Z.to_nat n else None)
  | _, _ => raise Unmodelled "a history of another shape"
  end.
Definition optional_text (v : pyval) : result (option string) :=
  match v with
  | VStr s => Ok (Some s)
  | VNone => Ok None
  | _ => raise Unmodelled "a URL of another type"
  end.
Definition navigate_history (step : Z) : M Broker unit :=
  history ← cdp_request "Page.getNavigationHistory" [];
  entry ← of_result (history_entry history step);
  match entry with
  | None => mret tt
  | Some entry =>
      id ← of_result (py_item "id" entry);
      cdp_request "Page.navigateToHistoryEntry" [("entryId", id)] ;;
      u ← of_result (py_get "url" VNone entry);
      u ← of_result (optional_text u);
      modify (fun b => b <| bk_last_url := u |>)
  end.
Definition navigate_action (action : pyval) : M Broker response :=
  let done := mret [("status", VStr "ok"); ("action", action)] in
  when_running
    (except_all
       (if is_text "back" action then navigate_history (-1) ;; done
        else if is_text "forward" action then navigate_history 1 ;; done
        else if is_text "reload" action then cdp_request "Page.reload" [] ;; done
        else mret (error_response ("Unknown action " +:+ py_str action)))
       (fun e => mret (error_response ("CDP action failed: " +:+ exn_str e)))).

Definition restart_browser : M Broker response :=
  u ← gets bk_last_url;
  if ostr_true u then
    stop_browser ;; u ← gets bk_last_url; start_browser (session_value u)
  else mret (error_response "No URL to restart to. Use START_BROWSER first.").

Definition get_status : M Broker response :=
  p ← gets bk_process;
  running ← is_running;
  s ← gets bk_browser_state;
  when (match p with Some _ => negb running | None => false end
        && bool_decide (s = B_RUNNING \/ s = B_HIDDEN)) (set_browser_state B_FAILED) ;;
  s ← gets bk_browser_state;
  br ← gets bk_broker_state;
  mret [("status", VStr "ok"); ("running", VBool running);
        ("pid", match p with Some pid => if (running : bool) then VInt pid else VNone | None => VNone end);
        ("broker_state", VStr (broker_state_value br)); ("browser_state", browser_value s);
        ("profile", VStr bw_profile_dir); ("binary", VStr CHROME_BINARY)].

(** ** Elements of the page *)
(** [d.get(k)] where the key is any value of a request. *)
Definition lookup {A} (k : pyval) (d : dict string A) : result (option A) :=
  match k with
  | VStr s => Ok (dget s d)
  | VList _ | VDict _ => raise TypeError ("unhashable type: '" +:+ pytype_name k +:+ "'")
  | _ => Ok None
  end.
Definition TARGET_STALE : response := error_response "TARGET_STALE".
(** The record of a target found in the current session. *)
Definition current_target (target_id : pyval) : M Broker (option target) :=
  targets ← gets bk_targets;
  t ← of_result (lookup target_id targets);
  session ← gets bk_session;
  mret (match t with
        | Some t => if decide (tg_session t = session) then Some t else None
        | None => None
        end).
(** The object of a node, unless the document has changed. *)
Definition resolve_node (t : target) : M Broker (option pyval) :=
  try_with
    (res ← cdp_request "DOM.resolveNode" [("backendNodeId", tg_backend_node t)]; mret (Some res))
    (fun e => if decide (exn_type e = RuntimeError) then mret None else rethrow e) ≫= fun res =>
  of_result
    match res with
    | None => Ok None
    | Some res =>
        let? b := py_contains "object" res in
        if negb b then Ok None
        else
          let? o := py_item "object" res in
          let? b := py_contains "objectId" o in
          if b then let? id := py_item "objectId" o in Ok (Some id) else Ok None
    end.

Definition observe_with (s : page_script) : M Broker response :=
  when_running
    (except_all
       (res ← cdp_request "Runtime.evaluate"
               [("expression", VStr (js s)); ("returnByValue", VBool true)];
        exc ← of_result (script_exception res);
        match exc with
        | Some msg => mret (error_response msg)
        | None =>
            val ← of_result (value_of res);
            mret [("status", VStr "ok"); ("observation", val)]
        end)
       (fun e => mret (error_response ("CDP observe failed: " +:+ exn_str e)))).
Definition observe : M Broker response := observe_with ObservePage.
Definition observe_with_timeout : M Broker response := observe_with ObservePageBriefly.
Definition is_ok_response (r : response) : bool := is_text "ok" (vget "status" r).
(** The response after an action, with what the page looks like then. *)
Definition observed (action : list (string * pyval)) : M Broker response :=
  obs ← observe;
  mret ([("status", VStr "ok"); ("result", VStr "success"); ("action", VDict action)] ++
        [if is_ok_response obs then ("observation", vget "observation" obs)
         else ("observation_error", vget "message" obs)]).

(** A script run on an object: the error it reports or raises, or [k]. *)
Definition run_script (obj_id : pyval) (s : page_script) (k : pyval -> M Broker response)
    : M Broker response :=
  res ← call_function obj_id s;
  exc ← of_result (script_exception res);
  match exc with
  | Some msg => mret (error_response msg)
  | None =>
      val ← of_result (value_of res);
      err ← of_result (script_error val);
      match err with
      | Some e => mret [("status", VStr "error"); ("message", e)]
      | None => k val
      end
  end.

(** *** Finding elements *)
Definition query_text (k : string) (query : dict string pyval) : result string :=
  let? s := as_text (vget_or k (VStr "") query) in Ok (lower s).
Definition text_fields : list string :=
  ["role"; "name"; "text"; "tag"; "type"; "group"; "selected_options_json"; "validity_flags_json"].
Definition flag_fields : list string :=
  ["value_present"; "disabled"; "required"; "valid"; "checked"; "multiple"].
(** The node and the data of an element, from the properties of its record. *)
Fixpoint element_data (props : list pyval) (node : option pyval) (meta : dict string pyval)
    : result (option pyval * dict string pyval) :=
  match props with
  | [] => Ok (node, meta)
  | p :: props' =>
      let? name := py_item "name" p in
      if is_text "node" name then
        let? v := py_item "value" p in
        let? id := py_item "objectId" v in element_data props' (Some id) meta
      else
        match name with
        | VStr k =>
            if str_in k text_fields then
              let? v := py_item "value" p in
              let? x := py_get "value" (VStr "") v in element_data props' node (dset k x meta)
            else if str_in k flag_fields then
              let? v := py_item "value" p in
              let? x := py_get "value" (VBool false) v in element_data props' node (dset k x meta)
            else element_data props' node meta
        | _ => element_data props' node meta
        end
  end.
(** The two fields that hold JSON texts. *)
Definition expand_options (meta : dict string pyval) : dict string pyval :=
  match dget "selected_options_json" meta with
  | None => meta
  | Some v =>
      ddel "selected_options_json"
        (dset "selected_options" (match loads_value v with Ok x => x | Raise _ => VList [] end) meta)
  end.
Definition expand_flags (meta : dict string pyval) : dict string pyval :=
  match dget "validity_flags_json" meta with
  | None => meta
  | Some v =>
      ddel "validity_flags_json"
        (match loads_value v with Ok x => dset "validity_flags" x meta | Raise _ => meta end)
  end.
Definition own_properties (obj_id : pyval) : M Broker (list pyval) :=
  res ← cdp_request "Runtime.getProperties" [("objectId", obj_id); ("ownProperties", VBool true)];
  ps ← of_result (py_get "result" (VList []) res);
  match ps with VList l => mret l | _ => throw Unmodelled "properties of another shape" end.
(** One property of the array of results: a target, if it is an element with a
    node that can be described. *)
Definition find_property (prop : pyval) : M Broker (list pyval) :=
  name ← of_result (py_get "name" VNone prop);
  name ← of_result (as_text name);
  if negb (isdigit name) then mret []
  else
    v ← of_result (py_item "value" prop);
    item ← of_result (py_item "objectId" v);
    props ← own_properties item;
    data ← of_result (element_data props None []);
    let meta := expand_flags (expand_options data.2) in
    match data.1 with
    | None => mret []
    | Some node =>
        if negb (truthy node) then mret []
        else
          d ← cdp_request "DOM.describeNode" [("objectId", node)];
          n ← of_result (py_get "node" (VDict []) d);
          backend ← of_result (py_get "backendNodeId" VNone n);
          match backend with
          | VNone => mret []
          | _ =>
              u ← draw bw_uuid;
              session ← gets bk_session;
              let target_id := "bt_" +:+ u in
              modify (fun b => b <| bk_targets :=
                dset target_id (mkTarget backend node session) (bk_targets b) |>) ;;
              mret [VDict (foldl (fun a kv => dset kv.1 kv.2 a) [("target_id", VStr target_id)] meta)]
          end
    end.
Fixpoint find_properties (props : list pyval) : M Broker (list pyval) :=
  match props with
  | [] => mret []
  | p :: props' => l ← find_property p; l' ← find_properties props'; mret (l ++ l')
  end.
Definition found (targets : list pyval) : response :=
  [("status", VStr "ok"); ("targets", VList targets)].
Definition find_elements (text role tag type : string) : M Broker response :=
  res ← cdp_request "Runtime.evaluate"
          [("expression", VStr (js (FindElements text role tag type))); ("returnByValue", VBool false)];
  exc ← of_result (script_exception res);
  match exc with
  | Some msg => mret (error_response msg)
  | None =>
      r ← of_result (py_get "result" (VDict []) res);
      arr ← of_result (py_get "objectId" VNone r);
      if negb (truthy arr) then mret (found [])
      else
        props ← own_properties arr;
        targets ← find_properties props;
        mret (found targets)
  end.
Definition find_ (query : dict string pyval) : M Broker response :=
  when_running
    (text ← of_result (query_text "text" query);
     role ← of_result (query_text "role" query);
     tag ← of_result (query_text "tag" query);
     type ← of_result (query_text "type" query);
     except_all (cdp_request "DOM.enable" [] ;; mret tt) (fun _ => mret tt) ;;
     except_all (find_elements text role tag type)
       (fun e => mret (error_response ("CDP find failed: " +:+ exn_str e)))).

(** *** Acting on elements *)
Definition with_target (target_id : pyval) (k : target -> M Broker response) : M Broker response :=
  t ← current_target target_id;
  match t with Some t => k t | None => mret TARGET_STALE end.
Definition action_on (type : string) (target_id : pyval) : list (string * pyval) :=
  [("type", VStr type); ("target_id", target_id)].
Definition click (target_id : pyval) : M Broker response :=
  when_running
    (with_target target_id (fun t =>
       except_all
         (obj ← resolve_node t;
          match obj with
          | None => mret TARGET_STALE
          | Some obj => run_script obj ClickElement (fun _ => observed (action_on "click" target_id))
          end)
         (fun e => mret (error_response ("CDP click failed: " +:+ exn_str e))))).
(** [_validate_text_target], then the script [s]. *)
Definition edit (target_id : pyval) (s : page_script) (action : list (string * pyval))
    : M Broker response :=
  when_running
    (with_target target_id (fun t =>
       obj ← resolve_node t;
       match obj with
       | None => mret TARGET_STALE
       | Some obj => run_script obj CheckTextTarget (fun _ => run_script obj s (fun _ => observed action))
       end)).
Definition type_text (target_id text : pyval) : M Broker response :=
  edit target_id (TypeText text) (action_on "type" target_id).
Definition fill (target_id text : pyval) : M Broker response :=
  edit target_id (FillText text) (action_on "fill" target_id).
(** [clear] does not look at what the script returns. *)
Definition run_unchecked (obj_id : pyval) (s : page_script) (k : M Broker response)
    : M Broker response :=
  res ← call_function obj_id s;
  exc ← of_result (script_exception res);
  match exc with Some msg => mret (error_response msg) | None => k end.
Definition clear (target_id : pyval) : M Broker response :=
  when_running
    (with_target target_id (fun t =>
       obj ← resolve_node t;
       match obj with
       | None => mret TARGET_STALE
       | Some obj => run_script obj CheckTextTarget (fun _ =>
           run_unchecked obj ClearText (observed (action_on "clear" target_id)))
       end)).
(** [_validate_control_target]: the object, and the tag and type of the control. *)
Definition with_control (target_id : pyval) (k : pyval -> pyval -> pyval -> M Broker response)
    : M Broker response :=
  with_target target_id (fun t =>
    if negb (truthy (tg_node_obj t)) then mret (error_response "Target node object ID missing")
    else
      res ← call_function (tg_node_obj t) CheckControlTarget;
      exc ← of_result (script_exception res);
      match exc with
      | Some _ => mret TARGET_STALE
      | None =>
          val ← of_result (value_of res);
          err ← of_result (script_error val);
          match err with
          | Some e => mret [("status", VStr "error"); ("message", e)]
          | None =>
              tag ← of_result (py_item "tag" val);
              type ← of_result (py_item "type" val);
              k (tg_node_obj t) tag type
          end
      end).
Definition select (target_id option_identity : pyval) : M Broker response :=
  with_control target_id (fun obj tag _ =>
    if negb (is_text "select" tag) then mret (error_response "TARGET_NOT_SELECT")
    else run_script obj (SelectOption option_identity) (fun _ =>
           observed (action_on "select" target_id ++ [("option", option_identity)]))).
Definition check (target_id : pyval) : M Broker response :=
  with_control target_id (fun obj tag type =>
    if negb (is_text "input" tag) || negb (is_text "checkbox" type || is_text "radio" type)
    then mret (error_response "TARGET_UNSUPPORTED_CONTROL")
    else run_unchecked obj CheckBox (observed (action_on "check" target_id))).
Definition uncheck (target_id : pyval) : M Broker response :=
  with_control target_id (fun obj tag type =>
    if negb (is_text "input" tag) then mret (error_response "TARGET_UNSUPPORTED_CONTROL")
    else if is_text "radio" type then mret (error_response "TARGET_UNSUPPORTED_ACTION")
    else if negb (is_text "checkbox" type) then mret (error_response "TARGET_UNSUPPORTED_CONTROL")
    else run_unchecked obj UncheckBox (observed (action_on "uncheck" target_id))).

(** ** Submissions *)
Definition text_value (v : pyval) : result string :=
  match v with VStr s => Ok s | _ => raise Unmodelled "a value the protocol gives as text" end.
(** [get_frames]: the frame of a tree and those below it, in order. *)
Fixpoint get_frames (tree : pyval) : result (list string) :=
  match tree with
  | VDict d =>
      let? frame := py_item "frame" (VDict d) in
      let? id := py_item "id" frame in
      let? id := text_value id in
      let? below :=
        (fix children (d : dict string pyval) : result (list string) :=
           match d with
           | [] => Ok []
           | (k, v) :: d' =>
               if k =s "childFrames" then
                 match v with
                 | VList l =>
                     (fix each (l : list pyval) : result (list string) :=
                        match l with
                        | [] => Ok []
                        | t :: l' =>
                            let? a := get_frames t in let? b := each l' in Ok (a ++ b)
                        end) l
                 | _ => raise Unmodelled "children of another shape"
                 end
               else children d'
           end) d in
      Ok (id :: below)
  | _ => raise TypeError ("'" +:+ pytype_name tree +:+ "' object is not subscriptable")
  end.
(** The context of a frame whose document carries the mark. *)
Definition marked_context (token frame : string) : M Broker (option pyval) :=
  except_all
    (w ← cdp_request "Page.createIsolatedWorld"
           [("frameId", VStr frame); ("worldName", VStr "anny_auth")];
     ctx ← of_result (py_item "executionContextId" w);
     res ← cdp_request "Runtime.evaluate"
             [("contextId", ctx); ("expression", VStr (js ReadFrameMark))];
     r ← of_result (py_get "result" (VDict []) res);
     val ← of_result (py_get "value" VNone r);
     mret (if is_text token val then Some ctx else None))
    (fun _ => mret None).
Fixpoint find_frame (token : string) (frames : list string) (frame : string) : M Broker string :=
  match frames with
  | [] => mret frame
  | f :: frames' =>
      ctx ← marked_context token f;
      match ctx with
      | None => find_frame token frames' frame
      | Some ctx =>
          cleaned ← except_all
            (cdp_request "Runtime.evaluate"
               [("contextId", ctx); ("expression", VStr (js ClearFrameMark))] ;; mret true)
            (fun _ => mret false);
          if (cleaned : bool) then mret f else find_frame token frames' f
      end
  end.
(** [time.time() + expires_in] *)
Definition expiry (now : Z) (expires_in : pyval) : result Z :=
  match expires_in with
  | VInt n => Ok (now + n * second)%Z
  | VBool b => Ok (now + (if b then second else 0))%Z
  | VFloat _ => raise Unmodelled "a fraction of seconds"
  | _ => raise TypeError ("unsupported operand type(s) for +: 'float' and '"
                          +:+ pytype_name expires_in +:+ "'")
  end.
(** What the form of an element would send, by a frame, as an authorization. *)
Definition authorize_form (target_id : string) (session : option string) (expires_in : pyval)
    (frame : string) (val : pyval) : M Broker response :=
  auth_id ← draw bw_uuid;
  now ← time_now;
  expires_at ← of_result (expiry now expires_in);
  method ← of_result (let? v := py_item "method" val in text_value v);
  url ← of_result (let? v := py_item "action" val in text_value v);
  issued_at ← time_now;
  let a := mkAuth target_id session expires_at method url frame issued_at in
  modify (fun b => b <| bk_auths := dset auth_id a (bk_auths b) |>) ;;
  enter (Issued auth_id a) ;;
  mret [("status", VStr "ok"); ("auth_id", VStr auth_id)].
Definition session_is (session_id : pyval) (s : option string) : bool :=
  match session_id, s with
  | VStr a, Some b => a =s b
  | VNone, None => true
  | _, _ => false
  end.
Definition issue_auth (target_id session_id expires_in : pyval) : M Broker response :=
  when_running
    (with_target target_id (fun t =>
       session ← gets bk_session;
       if negb (session_is session_id session)
       then mret (error_response "AUTHORIZATION_SESSION_MISMATCH")
       else
         obj ← resolve_node t;
         match obj with
         | None => mret TARGET_STALE
         | Some obj =>
             token ← draw bw_uuid;
             cdp_request "Runtime.callFunctionOn"
               [("objectId", obj); ("functionDeclaration", VStr (js (MarkFrame token)))] ;;
             tree ← cdp_request "Page.getFrameTree" [];
             tree ← of_result (py_item "frameTree" tree);
             frames ← of_result (get_frames tree);
             frame ← find_frame token frames "";
             if frame =s "" then mret (error_response "FRAME_IDENTITY_MISSING")
             else
               target_id ← of_result (text_value target_id);
               run_script obj ReadForm (authorize_form target_id session expires_in frame)
         end)).

Definition submit_action (target_id : pyval) : pyval := VDict (action_on "submit" target_id).
Definition refuse_submit (msg : string) (target_id : pyval) : M Broker response :=
  mret (error_response msg ++ [("action", submit_action target_id)]).
(** The observations after a submission, every half second for eight seconds. *)
Fixpoint poll_page (fuel : nat) (deadline : Z) (obs : response) : M Broker response :=
  match fuel with
  | O => throw Unmodelled "no fuel"
  | S n =>
      now ← time_now;
      if (deadline <=? now)%Z then mret obs
      else
        sleep (second / 2) ;;
        candidate ← observe_with_timeout;
        if is_ok_response candidate then
          url ← of_result (py_get "url" (VStr "") (vget_or "observation" (VDict []) candidate));
          if truthy url && negb (is_text "about:blank" url) then mret candidate
          else poll_page n deadline candidate
        else poll_page n deadline obs
  end.
Definition poll_fuel : nat := 17.
Definition submit_result (target_id : pyval) (a : authorization) (obs : response) : response :=
  let action := VDict (action_on "submit" target_id ++ [("authorization_used", VBool true)]) in
  let request := VDict [("method", VStr (au_method a)); ("destination", VStr (au_url a))] in
  [("status", VStr "ok");
   ("result", VStr (if is_ok_response obs then "REQUEST_ACCEPTED" else "POST_ACTION_FAILED"));
   ("action", action); ("request", request);
   if is_ok_response obs then ("observation", vget "observation" obs)
   else ("observation_error", vget "message" obs)].
Definition drop_pending : M Broker unit := modify (fun b => b <| bk_pending := None |>).
Definition submit_form (target_id : pyval) (a : authorization) (p : PendingSubmissionAuthorization)
    (obj : pyval) : M Broker response :=
  modify (fun b => b <| bk_pending := Some p |>) ;;
  res ← call_function obj SubmitForm;
  exc ← of_result (script_exception res);
  match exc with
  | Some msg => drop_pending ;; mret (error_response msg)
  | None =>
      val ← of_result (value_of res);
      err ← of_result (script_error val);
      match err with
      | Some e => drop_pending ;; mret [("status", VStr "error"); ("message", e)]
      | None =>
          now ← time_now;
          obs ← poll_page poll_fuel (now + 8 * second)
                  (error_response "Timed out waiting for post-submission page");
          mret (submit_result target_id a obs)
      end
  end.
Definition submit (target_id auth_id : pyval) : M Broker response :=
  when_running
    (if negb (truthy auth_id) then refuse_submit "MISSING_AUTHORIZATION" target_id
     else
       auths ← gets bk_auths;
       auth ← of_result (lookup auth_id auths);
       match auth, auth_id with
       | Some a, VStr id =>
           session ← gets bk_session;
           if negb (bool_decide (au_session a = session))
           then refuse_submit "AUTHORIZATION_SESSION_MISMATCH" target_id
           else if negb (is_text (au_target a) target_id)
           then refuse_submit "AUTHORIZATION_TARGET_MISMATCH" target_id
           else
             now ← time_now;
             if (au_expires_at a <? now)%Z then refuse_submit "AUTHORIZATION_EXPIRED" target_id
             else
               modify (fun b => b <| bk_auths := ddel id (bk_auths b) |>) ;;
               enter (Consumed id session now) ;;
               with_target target_id (fun t =>
                 obj ← resolve_node t;
                 match obj with
                 | None => mret TARGET_STALE
                 | Some obj => submit_form target_id a (mkPending id a) obj
                 end)
       | _, _ => refuse_submit "INVALID_AUTHORIZATION" target_id
       end).

(** ** Requests on the socket *)
Definition REQUIRED_FIELDS : list (string * list string) :=
  [("START_BROWSER", ["url"]); ("STOP_BROWSER", []); ("STATUS", []); ("HIDE_BROWSER", []);
   ("NAVIGATE", ["url"]); ("NAVIGATE_ACTION", ["action"]); ("OBSERVE", []); ("RESTART_BROWSER", []);
   ("FIND", ["query"]); ("CLICK", ["target_id"]); ("TYPE", ["target_id"; "text"]);
   ("FILL", ["target_id"; "text"]); ("CLEAR", ["target_id"]);
   ("SELECT", ["target_id"; "option_identity"]); ("CHECK", ["target_id"]); ("UNCHECK", ["target_id"]);
   ("SUBMIT", ["target_id"])].
Definition FORBIDDEN_FIELDS : list string :=
  ["binary"; "executable"; "shell"; "profile"; "profile_dir"; "flags"; "args"; "uid"; "gid"; "env";
   "script"; "objectId"; "password"].
(** [_validate_schema]: the error, or the command and the request. *)
Definition validate_schema (request : pyval) : string + (string * dict string pyval) :=
  match request with
  | VDict r =>
      match vget "command" r with
      | VStr command =>
          if command =s "" then inl "Missing or invalid 'command' field"
          else match dget command REQUIRED_FIELDS with
               | None => inl ("Unknown command: " +:+ py_repr_str command)
               | Some fields =>
                   match find (fun f => negb (dmem f r)) fields with
                   | Some f => inl ("Missing required field " +:+ py_repr_str f +:+ " for command "
                                    +:+ py_repr_str command)
                   | None =>
                       match List.filter (fun f => dmem f r) FORBIDDEN_FIELDS with
                       | [] => inr (command, r)
                       | l => inl ("Forbidden fields in request: " +:+ set_text l)
                       end
                   end
               end
      | _ => inl "Missing or invalid 'command' field"
      end
  | _ => inl "Request must be a JSON object"
  end.

(** [except ValueError as e] around two of the commands. *)
Definition value_errors (m : M Broker response) : M Broker response :=
  try_with m (fun e =>
    if decide (exn_type e = ValueError) then mret (error_response (exn_str e)) else rethrow e).
Definition dispatch_command (command : string) (r : dict string pyval) : M Broker response :=
  let arg k := of_result (py_item k (VDict r)) : M Broker pyval in
  if command =s "START_BROWSER" then value_errors (u ← arg "url"; start_browser u)
  else if command =s "STOP_BROWSER" then stop_browser
  else if command =s "STATUS" then get_status
  else if command =s "HIDE_BROWSER" then hide_browser
  else if command =s "ISSUE_AUTH" then
    t ← arg "target_id"; s ← arg "session_id"; issue_auth t s (vget_or "expires_in" (VInt 300) r)
  else if command =s "NAVIGATE" then value_errors (u ← arg "url"; navigate u)
  else if command =s "NAVIGATE_ACTION" then a ← arg "action"; navigate_action a
  else if command =s "OBSERVE" then observe
  else if command =s "FIND" then
    q ← arg "query";
    match q with VDict q => find_ q | _ => mret (error_response "query must be an object") end
  else if command =s "CLICK" then t ← arg "target_id"; click t
  else if command =s "TYPE" then t ← arg "target_id"; x ← arg "text"; type_text t x
  else if command =s "FILL" then t ← arg "target_id"; x ← arg "text"; fill t x
  else if command =s "CLEAR" then t ← arg "target_id"; clear t
  else if command =s "SELECT" then t ← arg "target_id"; o ← arg "option_identity"; select t o
  else if command =s "CHECK" then t ← arg "target_id"; check t
  else if command =s "UNCHECK" then t ← arg "target_id"; uncheck t
  else if command =s "SUBMIT" then t ← arg "target_id"; submit t (vget "auth_id" r)
  else if command =s "RESTART_BROWSER" then restart_browser
  else mret (error_response "Unhandled command").

(** [json.loads] of bytes, but for the encodings it tells by a mark or a zero
    byte at the start. *)
Definition loads_bytes (raw : string) : result pyval :=
  let code n := match String.get n raw with Some c => N_of_ascii c | None => 1%N end in
  if bool_decide (code 0%nat ∈ [0; 239; 254; 255]%N) || (N.eqb (code 1%nat) 0)
  then raise Unmodelled "another encoding"
  else let? s := utf8_decode raw in json_loads s.
(** [raw.strip()] of bytes *)
Fixpoint lstrip_bytes (s : string) : string :=
  match s with String c s' => if ascii_space c then lstrip_bytes s' else s | "" => "" end.
Fixpoint rstrip_bytes (s : string) : string :=
  match s with
  | "" => ""
  | String c s' =>
      let r := rstrip_bytes s' in if (r =s "") && ascii_space c then "" else String c r
  end.
Definition MAX_REQUEST_BYTES : nat := Z.to_nat 4096.
(** [rfile.readline(n)]: up to a newline, which is kept, or [n] bytes. *)
Fixpoint readline (n : nat) (s : string) : string :=
  match n, s with
  | S n', String c s' =>
      String c (if Ascii.eqb c (ascii_of_N 10) then "" else readline n' s')
  | _, _ => ""
  end.
(** [BrokerHandler.handle]: the response sent for what a client writes. *)
Definition handle (input : string) : M Broker (option response) :=
  let raw := rstrip_bytes (lstrip_bytes (readline MAX_REQUEST_BYTES input)) in
  if raw =s "" then mret None
  else
    except_all
      (match loads_bytes raw with
       | Raise (Exn JSONDecodeError e) => mret (Some (error_response ("JSON parse error: " +:+ e)))
       | Raise e => rethrow e
       | Ok request =>
           match validate_schema request with
           | inl err => mret (Some (error_response err))
           | inr (command, r) => resp ← dispatch_command command r; mret (Some resp)
           end
       end)
      (fun _ => mret (Some (error_response "Internal broker error"))).

(** A broker starts stopped, its server running; closing the server stops the
    browser.  Neither runs as root. *)
Definition check_not_root (uid : Z) : result unit :=
  guard_raise (uid =? 0)%Z RuntimeError "Browser Broker must not run as root.".
Definition new_broker (uid now : Z) : result Broker :=
  check! check_not_root uid in
  Ok (mkBroker None BR_STOPPED B_CLOSED None false false None [] None [] [] [] now 0).
Definition new_server (uid now : Z) : result Broker :=
  let? b := new_broker uid now in Ok (b <| bk_broker_state := BR_RUNNING |>).
Definition server_close : M Broker unit :=
  stop_browser ;; modify (fun b => b <| bk_broker_state := BR_STOPPED |>).

(** What is at the socket's path; a stale socket of ours is removed. *)
Inductive socket_path := NoSocket | ASocket (uid : Z) | NotASocket.
Definition prepare_socket (uid : Z) (path : string) (p : socket_path) : result socket_path :=
  check! check_not_root uid in
  match p with
  | NoSocket => Ok NoSocket
  | NotASocket =>
      raise RuntimeError (path +:+ " exists and is not a socket - refusing to remove")
  | ASocket owner =>
      if (owner =? uid)%Z then Ok NoSocket
      else raise RuntimeError ("Stale socket " +:+ path +:+ " owned by uid=" +:+ zstr owner +:+ ", not us")
  end.
End Broker.
