(* ===== verification/BrokerStart.v ===== *)
(** * Starting the browser broker

    The parts of [runtime/browser/broker_server.py] around the broker: the directory of
    the browser's profile, the discovery of its DevTools address, and [main], from the
    socket to its removal. *)
From S2P Require Import Prelude Dict PyVal Effects PyPath PyStr Json Broker.

(** ** The profile *)
Definition PROFILE_BASE (home : string) : string := path_join (path_join home ".anny") "browser-profiles".
(** [_validate_profile]: the directory of a profile. *)
Definition validate_profile (base : string) (name : pyval) : result string :=
  match name with
  | VStr s =>
      if s =s "" then raise ValueError "profile must be a non-empty string"
      else if contains "/" s || contains backslash s || contains ".." s
      then raise ValueError "profile must be a simple name, not a path"
      else
        let resolved := abspath "/" (path_join base s) in
        let root := abspath "/" base in
        if (resolved =s root) || below root resolved then Ok resolved
        else raise ValueError ("Profile " +:+ py_repr_str s +:+ " resolves outside allowed base")
  | _ => raise ValueError "profile must be a non-empty string"
  end.

Definition simple_name (s : string) : bool :=
  negb (s =s "") && negb (contains "/" s || contains backslash s || contains ".." s).
Lemma abspath_dot base : is_dir_path base -> abspath "/" (path_join base ".") = base.
Proof.
  intros Hb. pose proof Hb as (ws & Hne & Hws & ->).
  assert (path_join ("/" +:+ join_slash ws) "." = "/" +:+ join_slash (ws ++ ["."])) as ->.
  { unfold path_join. simpl startswith. cbv iota.
    replace ("/" +:+ join_slash ws =s "") with false by done. simpl orb.
    rewrite endswith_slash_app; [|destruct (join_word_head ws) as (c & s & -> & _); done].
    rewrite endswith_slash_join by done. by rewrite join_snoc, string_app_assoc. }
  unfold abspath. simpl startswith. cbv iota. unfold normpath.
  destruct (join_word_head ws) as (c & s & E & Hc); [done..|].
  assert (exists t, join_slash (ws ++ ["."]) = String c t) as [t Et]
    by (rewrite join_snoc by done; rewrite E; by eexists).
  assert (initial_slashes ("/" +:+ join_slash (ws ++ ["."])) = "/") as ->.
  { rewrite Et. unfold initial_slashes. apply not_eq_sym, Ascii.eqb_neq in Hc. unfold slash in Hc.
    change (startswith "//" ("/" +:+ String c t)) with (Ascii.eqb "/" c && startswith "" t).
    by rewrite Hc. }
  change (("/" +:+ join_slash (ws ++ ["."])) =s "") with false. cbv iota.
  rewrite split_slash_abs, split_join; cycle 1.
  { by destruct ws. }
  { apply Forall_app. split; [by eapply Forall_impl; [done|intros ? (?&?&?&?)]|by repeat constructor]. }
  simpl norm_components.
  assert (forall acc, norm_components true (ws ++ ["."]) acc = rev acc ++ ws) as ->.
  { clear -Hws. induction Hws as [|w ws Hw Hws IH]; intros acc; simpl; [by rewrite app_nil_r|].
    destruct Hw as (H3 & H4 & H5 & _).
    rewrite (proj2 (String.eqb_neq w "")), (proj2 (String.eqb_neq w ".")),
      (proj2 (String.eqb_neq w "..")) by done. simpl. rewrite IH. simpl. by rewrite <-app_assoc. }
  done.
Qed.
(** A name is accepted exactly when it is simple; its directory is directly in the base,
    or is the base itself for the name [.]: the check of containment never
    refuses. *)
Theorem validate_profile_spec base s :
  is_dir_path base ->
  if simple_name s
  then validate_profile base (VStr s) = Ok (if s =s "." then base else base +:+ "/" +:+ s)
  else exists msg, validate_profile base (VStr s) = Raise (Exn ValueError msg).
Proof.
  intros Hb. unfold simple_name, validate_profile.
  destruct (String.eqb_spec s "") as [->|Hs]; simpl; [by eexists|].
  destruct (contains "/" s || contains backslash s || contains ".." s) eqn:Hc; simpl; [by eexists|].
  rewrite (abspath_id _ _ Hb). apply orb_false_iff in Hc as [[Hslash _]%orb_false_iff Hdots].
  destruct (String.eqb_spec s ".") as [->|Hdot].
  - rewrite abspath_dot by done. by rewrite String.eqb_refl.
  - assert (proper s) as Hp.
    { split_and!; [done..| |]; [intros ->; discriminate|]. unfold no_slash. by rewrite Hslash. }
    destruct (path_join_proper base s Hb Hp) as [E Hd]. rewrite (abspath_id _ _ Hd), E.
    assert (below base (base +:+ "/" +:+ s) = true) as ->
      by (unfold below; rewrite <-string_app_assoc; apply startswith_app).
    by rewrite orb_true_r.
Qed.

(** ** The DevTools address *)
(** A reading of the port file, and of the list of pages. *)
Inductive port_reading := PortMissing | PortUnreadable | PortLines (lines : list string).
Section Discovery.
Context (read_port : nat -> port_reading) (json_list : string -> nat -> result pyval).
(** Ten readings; an empty first line ends the search too. *)
Fixpoint find_port (tries k : nat) : option string :=
  match tries with
  | O => None
  | S n => match read_port k with PortLines (l :: _) => Some (strip l) | _ => find_port n (S k) end
  end.
(** The address of the first page that has one. *)
Fixpoint first_page (targets : list pyval) : result (option pyval) :=
  match targets with
  | [] => Ok None
  | t :: l =>
      let? ty := py_get "type" VNone t in
      if is_text "page" ty then
        let? has := py_contains "webSocketDebuggerUrl" t in
        if (has : bool) then let? url := py_item "webSocketDebuggerUrl" t in Ok (Some url)
        else first_page l
      else first_page l
  end.
Definition iterated (v : pyval) : result (list pyval) :=
  match v with
  | VList l => Ok l
  | VDict d => Ok (VStr <$> dkeys d)
  | VStr s => Ok ((fun c => VStr (String c "")) <$> String.list_ascii_of_string s)
  | _ => raise TypeError (squote +:+ pytype_name v +:+ squote +:+ " object is not iterable")
  end.
Definition page_of (port : string) (k : nat) : option pyval :=
  match (let? targets := json_list port k in let? l := iterated targets in first_page l) with
  | Ok u => u
  | Raise _ => None
  end.
(** Five requests, whatever each comes to. *)
Fixpoint find_page (port : string) (tries k : nat) : option pyval :=
  match tries with
  | O => None
  | S n => match page_of port k with Some u => Some u | None => find_page port n (S k) end
  end.
(** [_get_cdp_ws_url], with the address found before, if any. *)
Definition get_cdp_ws_url (known : option pyval) : option pyval :=
  if truthy (default VNone known) then known
  else match find_port 10 0 with
       | Some port => if str_true port then find_page port 5 0 else None
       | None => None
       end.
(** The answer of the first request that gives an address. *)
Lemma find_page_first port tries k :
  find_page port tries k = head (omap (page_of port) (seq k tries)).
Proof.
  revert k. induction tries as [|n IH]; intros k; [done|]. simpl. rewrite IH.
  by destruct (page_of port k).
Qed.
End Discovery.

(** ** [main] *)
Section Main.
Context {w : BrowserWorld}.
(** What the process leaves: the broker, when there was one, and what is at the socket's path. *)
Record left := mkLeft { lf_broker : option Broker; lf_socket : socket_path }.
(** The socket is made, its mode is set and read back; what the server does until it ends
    is [serve]; the socket is removed then, if it can be. *)
Definition broker_main (uid now actual_mode : Z) (path : string) (p : socket_path)
    (serve : M Broker unit) (removable : bool) : left * result unit :=
  match prepare_socket uid path p with
  | Raise e => (mkLeft None p, Raise e)
  | Ok _ =>
      match new_server uid now with
      | Raise e => (mkLeft None NoSocket, Raise e)
      | Ok b =>
          if negb (actual_mode =? 384)%Z
          then (mkLeft (Some b) (ASocket uid),
                raise RuntimeError ("Socket permissions check failed: got " +:+ oct actual_mode))
          else
            let '(b', r) := serve b in
            (mkLeft (Some (b' <| bk_broker_state := BR_STOPPED |>))
               (if removable then NoSocket else ASocket uid), r)
      end
  end.
(** The server runs only for an ordinary user, on a path that was free or held a socket of
    that user, with a socket no one else may use; afterwards the broker is stopped and
    the socket is gone if it could be removed. *)
Theorem main_guarded uid now mode path p serve removable :
  let '(l, r) := broker_main uid now mode path p serve removable in
  (exists b, new_server uid now = Ok b /\ uid <> 0%Z /\ (p = NoSocket \/ p = ASocket uid) /\ mode = 384%Z /\
     lf_broker l = Some ((serve b).1 <| bk_broker_state := BR_STOPPED |>) /\
     (removable = true -> lf_socket l = NoSocket)) \/
  (exists msg, r = Raise (Exn RuntimeError msg)).
Proof.
  unfold broker_main, prepare_socket, check_not_root, guard_raise, new_server, new_broker, check_not_root, guard_raise.
  destruct (uid =? 0)%Z eqn:Hu; [right; by eexists|]. apply Z.eqb_neq in Hu.
  destruct p as [|owner|]; [| |right; by eexists].
  2: destruct (owner =? uid)%Z eqn:Ho; [apply Z.eqb_eq in Ho as ->|right; by eexists].
  all: destruct (mode =? 384)%Z eqn:Hm; [apply Z.eqb_eq in Hm as ->|right; by eexists].
  all: simpl; destruct (serve _) as [b' r] eqn:Es; left; eexists; split; [reflexivity|];
    simpl; rewrite Es; split_and!; auto; by intros ->.
Qed.
End Main.
