(* ===== verification/PageScripts.v ===== *)
(** * The scripts the broker runs in a page

    The JavaScript that [runtime/browser/broker_server.py] sends: what a script reads
    of an element, what it changes, what it answers.  The page keeps what the scripts see
    of a document, in document order, under the object names of the DevTools protocol;
    its texts are ASCII.  The three scripts that mark a frame are not interpreted. *)
From S2P Require Import Prelude Dict PyVal Effects PyStr Json Broker.

(** ** The document *)
(** [option] elements, and the [validity] of a control. *)
Record choice := mkChoice { op_text : string; op_value : string; op_selected : bool }.
Record Validity := mkValidity {
  v_valid : bool; value_missing : bool; type_mismatch : bool; pattern_mismatch : bool;
  too_long : bool; too_short : bool; range_underflow : bool; range_overflow : bool;
  step_mismatch : bool }.
(** An element: its attributes, its box, and the properties the scripts read, where an
    absent one is the empty or false value they take it for.  [el_type] is the property
    [type], which need not be the attribute; [el_form] is the nearest enclosing form. *)
Record Element := mkElement {
  el_tag : string;
  el_attrs : dict string string;
  el_width : Z;
  el_height : Z;
  el_disabled : bool;
  el_required : bool;
  el_type : string;
  el_title : string;
  el_name : string;
  el_id : string;
  el_href : string;
  el_text : string;
  el_value : string;
  el_checked : bool;
  el_multiple : bool;
  el_options : list choice;
  el_validity : option Validity;
  el_form : option string;
  el_parent : option string }.
#[export] Instance eta_Element : Eta Element := fun e =>
  mkElement (el_tag e) (el_attrs e) (el_width e) (el_height e) (el_disabled e) (el_required e)
    (el_type e) (el_title e) (el_name e) (el_id e) (el_href e) (el_text e) (el_value e)
    (el_checked e) (el_multiple e) (el_options e) (el_validity e) (el_form e) (el_parent e).

(** What the scripts make happen, besides the properties they set. *)
Inductive effect :=
  | Dispatched (node kind : string)
  | Clicked (node : string)
  | RequestSubmit (form : string) (submitter : option string)
  | FormSubmit (form : string).
Record Page := mkPage {
  pg_url : string;
  pg_title : string;
  pg_body : option string;
  pg_nodes : dict string Element;
  pg_effects : list effect }.
#[export] Instance eta_Page : Eta Page := fun p =>
  mkPage (pg_url p) (pg_title p) (pg_body p) (pg_nodes p) (pg_effects p).

(** [a || b] on texts, and [String.prototype.trim]. *)
Definition js_or (a b : string) : string := if a =s "" then b else a.
Definition js_blank (c : ascii) : bool :=
  let n := N_of_ascii c in ((9 <=? n) && (n <=? 13) || (n =? 32))%N.
Fixpoint js_trim_left (s : string) : string :=
  match s with
  | String c s' => if js_blank c then js_trim_left s' else s
  | "" => ""
  end.
Fixpoint js_trim_right (s : string) : string :=
  match s with
  | String c s' => let t := js_trim_right s' in
                   if js_blank c && (t =s "") then "" else String c t
  | "" => ""
  end.
Definition js_trim (s : string) : string := js_trim_right (js_trim_left s).
(** [getAttribute(k) || w] *)
Definition attr_or (k w : string) (e : Element) : string :=
  js_or (default "" (dget k (el_attrs e))) w.
Definition invisible (e : Element) : bool := ((el_width e =? 0) || (el_height e =? 0))%Z.
Definition script_fails (msg : string) : pyval := VDict [("error", VStr msg)].
Definition script_done : pyval := VDict [("success", VBool true)].

(** How the browser resolves a reference, [JSON.stringify], and the two questions of a
    submission: whether the form has [requestSubmit], and whether it raises. *)
Class PageEnv := {
  resolve : string -> string -> string;
  stringify : pyval -> string;
  has_request_submit : string -> bool;
  request_submit_raises : Page -> string -> option string -> bool }.

Section Scripts.
Context {env : PageEnv}.

(** ** Deciding on a target *)
(** [closest('form')] *)
Definition closest_form (id : string) (e : Element) (p : Page) : option (string * Element) :=
  if el_tag e =s "form" then Some (id, e)
  else match el_form e with
       | Some k => match dget k (pg_nodes p) with Some f => Some (k, f) | None => None end
       | None => None
       end.
Definition visible_and_enabled (e : Element) : option string :=
  if invisible e then Some "TARGET_INVISIBLE"
  else if el_disabled e then Some "TARGET_DISABLED" else None.
(** The script of [_validate_text_target]. *)
Definition text_target (e : Element) : option string :=
  match visible_and_enabled e with
  | Some err => Some err
  | None =>
      if negb (el_tag e =s "input") && negb (el_tag e =s "textarea") then Some "TARGET_NOT_EDITABLE"
      else if (el_tag e =s "input") && negb (str_in (lower (attr_or "type" "text" e)) ["text"; "search"])
      then Some "TARGET_PROTECTED" else None
  end.
(** The script of [_validate_control_target]. *)
Definition control_target (e : Element) : option string :=
  let type := default "" (dget "type" (el_attrs e)) in
  match visible_and_enabled e with
  | Some err => Some err
  | None =>
      if negb (el_tag e =s "select") && negb (el_tag e =s "input") then Some "TARGET_UNSUPPORTED_CONTROL"
      else if (el_tag e =s "input") && negb (type =s "checkbox") && negb (type =s "radio")
      then Some "TARGET_UNSUPPORTED_CONTROL"
      else if (el_tag e =s "select") && el_multiple e then Some "TARGET_UNSUPPORTED_CONTROL"
      else None
  end.
(** The script of [click]. *)
Definition in_form (id : string) (e : Element) (p : Page) : bool :=
  match closest_form id e p with Some _ => true | None => false end.
Definition is_submit (id : string) (e : Element) (p : Page) : bool :=
  (el_tag e =s "input") && (el_type e =s "submit")
  || (el_tag e =s "button") && ((el_type e =s "submit") || (el_type e =s "") && in_form id e p).
Definition click_target (id : string) (e : Element) (p : Page) : option string :=
  match visible_and_enabled e with
  | Some err => Some err
  | None => if is_submit id e p then Some "TARGET_SUBMIT_REQUIRES_AUTHORIZATION" else None
  end.
(** The text a script of [type] or [fill] would write, against the line breaks that
    submit a form. *)
Definition entry_target (txt : string) (e : Element) : option string :=
  if negb (el_tag e =s "textarea")
     && (contains (String "010" "") txt || contains (String "013" "") txt)
  then Some "TARGET_SUBMIT_REQUIRES_AUTHORIZATION" else None.

(** ** Changing the page *)
Definition put_node (id : string) (e : Element) (p : Page) : Page :=
  p <| pg_nodes := dset id e (pg_nodes p) |>.
Definition happens (l : list effect) (p : Page) : Page :=
  p <| pg_effects := pg_effects p ++ l |>.
(** The assignment of a script, with the two events after it. *)
Definition changed (id : string) (e : Element) (p : Page) : Page :=
  happens [Dispatched id "input"; Dispatched id "change"] (put_node id e p).
(** [checked = true] on a radio button: the others of its group are no longer. *)
Definition same_group (a b : Element) : bool :=
  (lower (attr_or "type" "text" b) =s "radio") && negb (el_name a =s "") && (el_name a =s el_name b)
  && bool_decide (el_form a = el_form b).
Definition clear_group (e : Element) (nodes : dict string Element) : dict string Element :=
  if lower (attr_or "type" "text" e) =s "radio"
  then map (fun kv => (kv.1, if same_group e kv.2 then kv.2 <| el_checked := false |> else kv.2)) nodes
  else nodes.
Definition set_checked (id : string) (v : bool) (e : Element) (p : Page) : Page :=
  changed id (e <| el_checked := v |>)
    (if v then p <| pg_nodes := clear_group e (pg_nodes p) |> else p).
(** The options with the one text, and the selection that moves to the first. *)
Definition choices (ident : string) (e : Element) : list choice :=
  filter (fun o => op_text o = ident) (el_options e).
Definition selected (ident : string) (e : Element) : Element :=
  e <| el_options := map (fun o => mkChoice (op_text o) (op_value o) (op_text o =s ident)) (el_options e) |>.

(** The form of [submit]: the control that submits it, and the two ways of doing so. *)
Definition submitter (id : string) (e : Element) (p : Page) : option string :=
  if (el_type e =s "submit") || (el_type e =s "image") then Some id
  else
    match el_parent e with
    | Some k => match dget k (pg_nodes p) with
                | Some q => if el_type q =s "submit" then Some k else None
                | None => None
                end
    | None => None
    end.
Definition submission (id form : string) (e : Element) (p : Page) : list effect :=
  let who := submitter id e p in
  if has_request_submit form
  then RequestSubmit form who :: if request_submit_raises p form who then [FormSubmit form] else []
  else [FormSubmit form].
Definition submit_script (id : string) (e : Element) (p : Page) : Page * pyval :=
  match visible_and_enabled e with
  | Some err => (p, script_fails err)
  | None =>
      match closest_form id e p with
      | None => (p, script_fails "TARGET_NOT_IN_FORM")
      | Some (form, _) => (happens (submission id form e p) p, script_done)
      end
  end.
(** The script of [issue_auth]: where the form would send, and how. *)
Definition read_form (id : string) (e : Element) (p : Page) : pyval :=
  match closest_form id e p with
  | None => script_fails "TARGET_NOT_IN_FORM"
  | Some (_, f) =>
      let action := default "" (dget "action" (el_attrs f)) in
      VDict [("action", VStr (if action =s "" then pg_url p else resolve (pg_url p) action));
             ("method", VStr (upper (attr_or "method" "get" f)))]
  end.

(** ** What a page tells *)
Definition input_kind (e : Element) : string :=
  attr_or "type" (if el_tag e =s "textarea" then "textarea"
                  else if el_tag e =s "select" then "select" else "text") e.
Definition is_valid (e : Element) : bool :=
  match el_validity e with Some v => v_valid v | None => true end.
Definition is_field (e : Element) : bool := (el_tag e =s "input") || (el_tag e =s "textarea").
(** The state of a control, as [observe] reports it. *)
Definition control_state (e : Element) : list (string * pyval) :=
  if is_field e then
    ("value_present", VBool (negb (el_value e =s ""))) ::
    (if (input_kind e =s "checkbox") || (input_kind e =s "radio")
     then ("checked", VBool (el_checked e)) ::
          (if input_kind e =s "radio" then [("group", VStr (el_name e))] else [])
     else [])
  else
    [("multiple", VBool (el_multiple e));
     ("selected_options", VList (map (fun o => VDict [("text", VStr (op_text o));
                                                      ("value_present", VBool (negb (op_value o =s "")))])
                                   (filter op_selected (el_options e))))].
Definition observed_input (e : Element) : pyval :=
  VDict ([("tag", VStr (el_tag e)); ("type", VStr (input_kind e));
          ("name", VStr (attr_or "aria-label" (js_or (el_name e) (el_id e)) e));
          ("disabled", VBool (el_disabled e)); ("required", VBool (el_required e));
          ("valid", VBool (is_valid e))] ++ control_state e).
Definition link (e : Element) : pyval :=
  VDict [("text", VStr (js_trim (el_text e))); ("href", VStr (el_href e))].
Definition elements (f : Element -> bool) (p : Page) : list Element := filter f (map snd (pg_nodes p)).
Definition is_control (e : Element) : bool := is_field e || (el_tag e =s "select").
(** [observe] *)
Definition observe_page (p : Page) : pyval :=
  VDict [("url", VStr (pg_url p)); ("title", VStr (pg_title p));
         ("text", VStr (default "" (pg_body p)));
         ("links", VList (map link (elements (fun e => (el_tag e =s "a") && negb (el_href e =s "")) p)));
         ("inputs", VList (map observed_input (elements is_control p)))].
(** [_observe_with_timeout] *)
Definition observe_briefly (p : Page) : pyval :=
  VDict [("url", VStr (pg_url p)); ("title", VStr (pg_title p));
         ("text", VStr (string_take 500 (js_trim (default "" (pg_body p)))));
         ("links", VList (map link (elements (fun e => (el_tag e =s "a") && dmem "href" (el_attrs e)) p)));
         ("inputs", VList [])].

(** [find]: which elements match, what is said of one, and the twenty first. *)
Definition element_role (e : Element) : string :=
  attr_or "role" (if el_tag e =s "a" then "link" else if el_tag e =s "button" then "button" else "") e.
Definition element_label (e : Element) : string := attr_or "aria-label" (el_title e) e.
Definition element_kind (e : Element) : string :=
  lower (attr_or "type" (if el_tag e =s "textarea" then "textarea"
                         else if el_tag e =s "select" then "select" else "") e).
Definition passed_over : list string := ["html"; "head"; "body"; "script"; "style"].
Definition wanted (query value : string) : bool := (query =s "") || (value =s query).
Definition matches_query (text role tag type : string) (e : Element) : bool :=
  ((text =s "") || contains text (lower (js_trim (el_text e))) || contains text (lower (element_label e)))
  && wanted role (default "" (dget "role" (el_attrs e))) && wanted tag (el_tag e)
  && wanted type (element_kind e)
  && negb ((tag =s "") && str_in (el_tag e) passed_over).
Definition validity_flags (v : Validity) : pyval :=
  VDict [("value_missing", VBool (value_missing v)); ("type_mismatch", VBool (type_mismatch v));
         ("pattern_mismatch", VBool (pattern_mismatch v)); ("too_long", VBool (too_long v));
         ("too_short", VBool (too_short v)); ("range_underflow", VBool (range_underflow v));
         ("range_overflow", VBool (range_overflow v)); ("step_mismatch", VBool (step_mismatch v))].
Definition described_kind (e : Element) : string :=
  if is_field e then attr_or "type" (if el_tag e =s "textarea" then "textarea" else "text") e
  else if el_tag e =s "select" then "select" else "".
(** A field that holds a text of JSON, unless the text is empty. *)
Definition json_field (k s : string) : list (string * pyval) := if s =s "" then [] else [(k, VStr s)].
(** The record of an element, without the node itself. *)
Definition described (e : Element) : dict string pyval :=
  [("role", VStr (element_role e)); ("name", VStr (element_label e));
   ("text", VStr (js_trim (el_text e))); ("tag", VStr (el_tag e)); ("type", VStr (described_kind e));
   ("disabled", VBool (el_disabled e)); ("required", VBool (el_required e));
   ("valid", VBool (is_valid e))]
  ++ (if is_field e then [("value_present", VBool (negb (el_value e =s "")))] else [])
  ++ (if is_field e && ((described_kind e =s "checkbox") || (described_kind e =s "radio"))
      then ("checked", VBool (el_checked e)) ::
           (if described_kind e =s "radio" then [("group", VStr (el_name e))] else [])
      else [])
  ++ (if el_tag e =s "select"
      then ("multiple", VBool (el_multiple e)) ::
           json_field "selected_options_json"
             (stringify (VList (map (fun o => VStr (op_text o)) (filter op_selected (el_options e)))))
      else [])
  ++ match el_validity e with
     | Some v => json_field "validity_flags_json" (stringify (validity_flags v))
     | None => []
     end.
Definition find_nodes (text role tag type : string) (p : Page) : list (string * Element) :=
  take 20 (filter (fun kv => matches_query text role tag type kv.2) (pg_nodes p)).

(** ** Running a script *)
Definition answer_of (err : option string) : pyval :=
  match err with Some e => script_fails e | None => script_done end.
(** A script that refuses or changes the page. *)
Definition guarded (err : option string) (p p' : Page) : Page * result pyval :=
  match err with Some e => (p, Ok (script_fails e)) | None => (p', Ok script_done) end.
Definition no_text {A} : result A := raise Unmodelled "a value that is not a text".
(** The script of [click], those of [type], [fill] and [clear], of [select], and of
    [check] ([v] true) and [uncheck]. *)
Definition click_script (id : string) (e : Element) (p : Page) : Page * result pyval :=
  guarded (click_target id e p) p (happens [Clicked id] p).
Definition type_script (txt id : string) (e : Element) (p : Page) : Page * result pyval :=
  guarded (entry_target txt e) p (changed id (e <| el_value := el_value e +:+ txt |>) p).
Definition fill_script (txt id : string) (e : Element) (p : Page) : Page * result pyval :=
  guarded (entry_target txt e) p (changed id (e <| el_value := txt |>) p).
Definition clear_script (id : string) (e : Element) (p : Page) : Page * result pyval :=
  (changed id (e <| el_value := "" |>) p, Ok script_done).
Definition select_script (ident : pyval) (id : string) (e : Element) (p : Page) : Page * result pyval :=
  let l := match ident with VStr s => choices s e | _ => [] end in
  match l, ident with
  | [], _ => (p, Ok (script_fails "OPTION_NOT_FOUND"))
  | [_], VStr s => (changed id (selected s e) p, Ok script_done)
  | l, _ => (p, Ok (VDict [("error", VStr "AMBIGUOUS_MATCH"); ("matches", VInt (Z.of_nat (length l)))]))
  end.
Definition check_script (v : bool) (id : string) (e : Element) (p : Page) : Page * result pyval :=
  if Bool.eqb (el_checked e) v
  then (p, Ok (VDict [("success", VBool true); ("idempotent", VBool true)]))
  else (set_checked id v e p, Ok script_done).
Definition control_script (e : Element) : pyval :=
  match control_target e with
  | Some err => script_fails err
  | None => VDict [("success", VBool true); ("tag", VStr (el_tag e));
                   ("type", VStr (default "" (dget "type" (el_attrs e))))]
  end.
(** A function called on an element. *)
Definition call_on (s : page_script) (id : string) (e : Element) (p : Page) : Page * result pyval :=
  match s with
  | CheckTextTarget => (p, Ok (answer_of (text_target e)))
  | CheckControlTarget => (p, Ok (control_script e))
  | ClickElement => click_script id e p
  | TypeText (VStr txt) => type_script txt id e p
  | FillText (VStr txt) => fill_script txt id e p
  | TypeText _ | FillText _ => (p, no_text)
  | ClearText => clear_script id e p
  | SelectOption ident => select_script ident id e p
  | CheckBox => check_script true id e p
  | UncheckBox => check_script false id e p
  | SubmitForm => let '(p', v) := submit_script id e p in (p', Ok v)
  | ReadForm => (p, Ok (read_form id e p))
  | MarkFrame _ | ReadFrameMark | ClearFrameMark | ObservePage | ObservePageBriefly | FindElements _ _ _ _ =>
      (p, raise Unmodelled "not a function of an element")
  end.
(** An expression evaluated for its value. *)
Definition evaluated (s : page_script) (p : Page) : result pyval :=
  match s with
  | ObservePage => Ok (observe_page p)
  | ObservePageBriefly => Ok (observe_briefly p)
  | _ => raise Unmodelled "not an expression of a value"
  end.
End Scripts.
