(* ===== verification/PageFacts.v ===== *)
(** * What an action of the broker does to the page

    The actions of the broker check a target with one script and act with another; in a
    browser that runs the scripts of PageScripts on a page, each is one step on that page:
    it is refused and nothing changes, or it has its effect and reports what the page
    shows then.  And what the scripts report of a page. *)
From S2P Require Import Prelude Dict PyVal Effects PyStr Json Broker PageScripts.

(** ** The actions *)
Inductive action :=
  | Type_ (text : string) | Fill (text : string) | Clear | Click
  | Select (ident : string) | Check_ | Uncheck.
Section Actions.
Context {world : BrowserWorld}.
Definition act (a : action) (target_id : pyval) : M Broker response :=
  match a with
  | Type_ s => type_text target_id (VStr s)
  | Fill s => fill target_id (VStr s)
  | Clear => clear target_id
  | Click => click target_id
  | Select o => select target_id (VStr o)
  | Check_ => check target_id
  | Uncheck => uncheck target_id
  end.
End Actions.
Definition action_named (a : action) (target_id : pyval) : list (string * pyval) :=
  match a with
  | Type_ _ => action_on "type" target_id
  | Fill _ => action_on "fill" target_id
  | Clear => action_on "clear" target_id
  | Click => action_on "click" target_id
  | Select o => action_on "select" target_id ++ [("option", VStr o)]
  | Check_ => action_on "check" target_id
  | Uncheck => action_on "uncheck" target_id
  end.
Definition scripts_of (a : action) : list page_script :=
  ObservePage ::
  match a with
  | Type_ s => [CheckTextTarget; TypeText (VStr s)]
  | Fill s => [CheckTextTarget; FillText (VStr s)]
  | Clear => [CheckTextTarget; ClearText]
  | Click => [ClickElement]
  | Select o => [CheckControlTarget; SelectOption (VStr o)]
  | Check_ => [CheckControlTarget; CheckBox]
  | Uncheck => [CheckControlTarget; UncheckBox]
  end.

(** What an action promises: why it is refused, and the page it leaves otherwise. *)
Definition or_else (a b : option string) : option string := match a with Some e => Some e | None => b end.
Definition unless (ok : bool) (err : string) : option string := if ok then None else Some err.
Definition option_error (ident : string) (e : Element) : option string :=
  match choices ident e with
  | [] => Some "OPTION_NOT_FOUND" | [_] => None | _ => Some "AMBIGUOUS_MATCH"
  end.
Definition attr_type (e : Element) : string := default "" (dget "type" (el_attrs e)).
Definition refusal (a : action) (id : string) (e : Element) (p : Page) : option string :=
  match a with
  | Type_ s | Fill s => or_else (text_target e) (entry_target s e)
  | Clear => text_target e
  | Click => click_target id e p
  | Select o =>
      or_else (control_target e)
        (or_else (unless (el_tag e =s "select") "TARGET_NOT_SELECT") (option_error o e))
  | Check_ => or_else (control_target e) (unless (el_tag e =s "input") "TARGET_UNSUPPORTED_CONTROL")
  | Uncheck =>
      or_else (control_target e)
        (or_else (unless (el_tag e =s "input") "TARGET_UNSUPPORTED_CONTROL")
           (unless (negb (attr_type e =s "radio")) "TARGET_UNSUPPORTED_ACTION"))
  end.
Definition outcome (a : action) (id : string) (e : Element) (p : Page) : Page :=
  match a with
  | Type_ s => changed id (e <| el_value := el_value e +:+ s |>) p
  | Fill s => changed id (e <| el_value := s |>) p
  | Clear => changed id (e <| el_value := "" |>) p
  | Click => happens [Clicked id] p
  | Select o => changed id (selected o e) p
  | Check_ => if el_checked e then p else set_checked id true e p
  | Uncheck => if el_checked e then set_checked id false e p else p
  end.

#[local] Arguments String.eqb : simpl never.
Lemma is_text_str s s' : is_text s (VStr s') = (s' =s s).
Proof. apply String.eqb_sym. Qed.

(** ** A browser that runs the scripts *)
Definition function_call `{BrowserWorld} (id : string) (s : page_script) : Sent :=
  mkSent "Runtime.callFunctionOn"
    [("objectId", VStr id); ("functionDeclaration", VStr (js s)); ("returnByValue", VBool true)].
Definition evaluation `{BrowserWorld} (s : page_script) : Sent :=
  mkSent "Runtime.evaluate" [("expression", VStr (js s)); ("returnByValue", VBool true)].
Definition resolution (node : pyval) : Sent := mkSent "DOM.resolveNode" [("backendNodeId", node)].
Definition remote_value (r : result pyval) : dict string pyval :=
  match r with
  | Ok v => [("result", VDict [("value", v)])]
  | Raise e => [("result", VDict []); ("exceptionDetails", VStr (exn_str e))]
  end.
Definition answers (d : dict string pyval) : list (dict string pyval) * exchange :=
  ([], Answer [("result", VDict d)]).

(** The page after the messages sent, and the object a node resolves to: the browser
    answers [scripts] with what they compute there, and intercepts nothing meanwhile. *)
Class Browses `{BrowserWorld} `{PageEnv} (scripts : list page_script)
    (page_at : list Sent -> Page) (node_of : pyval -> option string) : Prop := {
  browser_calls h id e s :
    s ∈ scripts -> dget id (pg_nodes (page_at h)) = Some e ->
    bw_exchange (h ++ [function_call id s]) = answers (remote_value (call_on s id e (page_at h)).2) /\
    page_at (h ++ [function_call id s]) = (call_on s id e (page_at h)).1;
  browser_evaluates h s :
    s ∈ scripts ->
    bw_exchange (h ++ [evaluation s]) = answers (remote_value (evaluated s (page_at h))) /\
    page_at (h ++ [evaluation s]) = page_at h;
  browser_resolves h node id :
    node_of node = Some id ->
    bw_exchange (h ++ [resolution node]) = answers [("object", VDict [("objectId", VStr id)])] /\
    page_at (h ++ [resolution node]) = page_at h }.

Section Connected.
Context {world : BrowserWorld} {env : PageEnv}.
Context {scripts : list page_script} {page_at : list Sent -> Page} {node_of : pyval -> option string}.
Context `{!Browses scripts page_at node_of}.
Context (T : dict string target) (session : option string).

(** The broker of a running browser, connected, that shows the page [p]. *)
Record sees (p : Page) (b : Broker) : Prop := {
  sees_process : exists pid, bk_process b = Some pid /\ forall n, bw_alive pid n = true;
  sees_connected : bk_connected b = true;
  sees_listening : bk_listening b = true;
  sees_targets : bk_targets b = T;
  sees_session : bk_session b = session;
  sees_page : page_at (bk_sent b) = p }.
(** [m] turns the page [p] into [p'] and returns [x]. *)
Definition does {A} (m : M Broker A) (p p' : Page) (x : A) : Prop :=
  forall b, sees p b -> wp m b (fun b' r => sees p' b' /\ r = Ok x).

Lemma does_ret {A} (x : A) p : does (mret x) p p x.
Proof. by intros b Hb. Qed.
Lemma does_bind {A B} (m : M Broker A) (k : A -> M Broker B) p p1 p' x y :
  does m p p1 x -> does (k x) p1 p' y -> does (m ≫= k) p p' y.
Proof.
  intros Hm Hk b Hb. apply wp_bind. eapply wp_mono; [by apply Hm|].
  intros b1 r [H1 ->]. by apply Hk.
Qed.
Lemma does_ok {A} (r : result A) x p : r = Ok x -> does (of_result r) p p x.
Proof. by intros -> b Hb. Qed.
Lemma does_try {A} (m : M Broker A) h p p' x : does m p p' x -> does (try_with m h) p p' x.
Proof.
  intros Hm b Hb. apply wp_try_with. eapply wp_mono; [by apply Hm|]. by intros b1 r [H1 ->].
Qed.
Lemma does_when_running m p p' x : does m p p' x -> does (when_running m) p p' x.
Proof.
  intros Hm. apply does_bind with p true; [|done].
  intros b Hb. destruct (sees_process _ _ Hb) as (pid & Hp & Ha).
  unfold is_running. apply wp_bind. unfold wp, gets. rewrite Hp. unfold draw. rewrite Ha.
  split; [|done]. destruct Hb. by split.
Qed.
Lemma does_request method params p p' d :
  (forall h, page_at h = p ->
     bw_exchange (h ++ [mkSent method params]) = answers d /\
     page_at (h ++ [mkSent method params]) = p') ->
  does (cdp_request method params) p p' (VDict d).
Proof.
  intros Hx b []. destruct (Hx (bk_sent b) ltac:(done)) as [E1 E2].
  unfold cdp_request, get_ws, sent_message, wp.
  cbv [mbind M_bind gets modify]. rewrite sees_connected0. simpl. rewrite E1. simpl.
  rewrite sees_listening0. simpl. split; [|done]. by split.
Qed.
Lemma does_call s id e p p' r :
  s ∈ scripts -> dget id (pg_nodes p) = Some e -> call_on s id e p = (p', r) ->
  does (call_function (VStr id) s) p p' (VDict (remote_value r)).
Proof.
  intros Hs He Hc. apply does_request. intros h <-.
  destruct (browser_calls h id e s Hs He) as [E1 E2]. unfold function_call in *.
  rewrite E1, E2, Hc. done.
Qed.
Lemma does_run_script s id e k p p1 p2 v x :
  s ∈ scripts -> dget id (pg_nodes p) = Some e -> call_on s id e p = (p1, Ok v) ->
  match script_error v with
  | Ok None => does (k v) p1 p2 x
  | Ok (Some err) => p2 = p1 /\ x = [("status", VStr "error"); ("message", err)]
  | Raise _ => False
  end ->
  does (run_script (VStr id) s k) p p2 x.
Proof.
  intros Hs He Hc Hk. unfold run_script.
  eapply does_bind; [by eapply does_call|]. eapply does_bind; [by apply does_ok|]. simpl.
  eapply does_bind; [by apply does_ok|]. change (vget_or _ _ _) with v.
  destruct (script_error v) as [[err|]|]; [|by eapply does_bind; [apply does_ok|]|done].
  destruct Hk as [-> ->]. eapply does_bind; [by apply does_ok|]. apply does_ret.
Qed.
(** A script that answers [guarded]. *)
Lemma does_guarded s id e k p err p' p2 x :
  s ∈ scripts -> dget id (pg_nodes p) = Some e -> call_on s id e p = guarded err p p' ->
  match err with
  | Some msg => p2 = p /\ x = error_response msg
  | None => does (k script_done) p' p2 x
  end ->
  does (run_script (VStr id) s k) p p2 x.
Proof. intros Hs He Hc Hk. destruct err; by eapply does_run_script. Qed.

Definition success (named : list (string * pyval)) (p : Page) : response :=
  [("status", VStr "ok"); ("result", VStr "success"); ("action", VDict named);
   ("observation", observe_page p)].
Lemma does_observed named p : ObservePage ∈ scripts -> does (observed named) p p (success named p).
Proof.
  intros Hs. apply does_bind with p [("status", VStr "ok"); ("observation", observe_page p)];
    [|apply does_ret].
  apply does_when_running, does_try.
  apply does_bind with p (VDict (remote_value (evaluated ObservePage p))).
  - apply does_request. intros h <-. by apply browser_evaluates.
  - eapply does_bind; [by apply does_ok|]. eapply does_bind; [by apply does_ok|]. apply does_ret.
Qed.

(** *** A target of the page *)
Context (t id : string) (tg : target) (e : Element).
Context (Ht : dget t T = Some tg) (Hsession : tg_session tg = session).
Context (Hobject : tg_node_obj tg = VStr id) (Hid : id <> "").
Context (Hnode : node_of (tg_backend_node tg) = Some id).

Lemma does_with_target k p p' x :
  does (k tg) p p' x -> does (with_target (VStr t) k) p p' x.
Proof.
  intros Hk. apply does_bind with p (Some tg); [|done]. intros b Hb.
  unfold wp, current_target. cbv [mbind M_bind gets]. rewrite (sees_targets _ _ Hb). simpl.
  rewrite Ht. simpl. rewrite (sees_session _ _ Hb). by rewrite decide_True.
Qed.
Lemma does_resolve p : does (resolve_node tg) p p (Some (VStr id)).
Proof.
  unfold resolve_node. apply does_bind with p (Some (VDict [("object", VDict [("objectId", VStr id)])]));
    [|by apply does_ok].
  apply does_try. eapply does_bind; [|apply does_ret].
  apply does_request. intros h <-. by apply browser_resolves.
Qed.
Lemma does_text_target p p' k x :
  CheckTextTarget ∈ scripts -> dget id (pg_nodes p) = Some e ->
  match text_target e with
  | Some msg => p' = p /\ x = error_response msg
  | None => does (k (VStr id)) p p' x
  end ->
  does (when_running (with_target (VStr t) (fun t =>
     obj ← resolve_node t;
     match obj with
     | None => mret TARGET_STALE
     | Some obj => run_script obj CheckTextTarget (fun _ => k obj)
     end))) p p' x.
Proof.
  intros Hs He Hk. apply does_when_running, does_with_target.
  eapply does_bind; [apply does_resolve|]. simpl.
  eapply (does_guarded _ _ _ _ _ (text_target e)); [done..| |done].
  simpl. by destruct (text_target e).
Qed.
Lemma does_unchecked s e' p p1 v k x :
  s ∈ scripts -> dget id (pg_nodes p) = Some e' -> call_on s id e' p = (p1, Ok v) ->
  does k p1 p1 x -> does (run_unchecked (VStr id) s k) p p1 x.
Proof.
  intros Hs He Hc Hk. unfold run_unchecked.
  eapply does_bind; [by eapply does_call|]. by eapply does_bind; [by apply does_ok|].
Qed.
Lemma does_control p p' k x :
  CheckControlTarget ∈ scripts -> dget id (pg_nodes p) = Some e ->
  match control_target e with
  | Some msg => p' = p /\ x = error_response msg
  | None => does (k (VStr id) (VStr (el_tag e)) (VStr (attr_type e))) p p' x
  end ->
  does (with_control (VStr t) k) p p' x.
Proof.
  intros Hs He Hk. apply does_with_target. rewrite Hobject. simpl.
  unfold str_true. destruct (id =s "") eqn:E; [by apply String.eqb_eq in E|]. simpl.
  eapply does_bind; [by eapply does_call|]. simpl. unfold control_script.
  destruct (control_target e) as [msg|].
  - destruct Hk as [-> ->]. repeat (eapply does_bind; [by apply does_ok|]). apply does_ret.
  - by repeat (eapply does_bind; [by apply does_ok|]).
Qed.

(** An input that is a control is a box or a radio button. *)
Lemma control_is_box :
  control_target e = None -> (el_tag e =s "input") = true ->
  (attr_type e =s "checkbox") || (attr_type e =s "radio") = true.
Proof.
  unfold control_target, attr_type. intros H Et. destruct (visible_and_enabled e); [done|].
  rewrite Et, andb_false_r in H. simpl in H. by destruct (_ =s "checkbox"), (_ =s "radio").
Qed.
(** The two scripts of [type] and [fill], and those of [check] and [uncheck]. *)
Lemma does_enter s txt e' p named :
  CheckTextTarget ∈ scripts -> s ∈ scripts -> ObservePage ∈ scripts ->
  dget id (pg_nodes p) = Some e ->
  call_on s id e p = guarded (entry_target txt e) p (changed id e' p) ->
  let err := or_else (text_target e) (entry_target txt e) in
  let p' := match err with Some _ => p | None => changed id e' p end in
  does (edit (VStr t) s named) p p'
    match err with Some msg => error_response msg | None => success named p' end.
Proof.
  intros Hc Hs Ho He Hcall.
  apply (does_text_target p _ (fun obj => run_script obj s (fun _ => observed named))); [done..|].
  destruct (text_target e); [done|]. simpl. eapply does_guarded; [done..|].
  destruct (entry_target txt e); [done|]. by apply does_observed.
Qed.
Lemma does_mark (v : bool) s p named :
  s = (if v then CheckBox else UncheckBox) -> s ∈ scripts -> ObservePage ∈ scripts ->
  dget id (pg_nodes p) = Some e ->
  let p' := if Bool.eqb (el_checked e) v then p else set_checked id v e p in
  does (run_unchecked (VStr id) s (observed named)) p p' (success named p').
Proof.
  intros -> Hs Ho He p'. subst p'.
  set (told := if Bool.eqb (el_checked e) v
               then VDict [("success", VBool true); ("idempotent", VBool true)] else script_done).
  apply (does_unchecked _ e _ _ told); [done..| |by apply does_observed].
  unfold told. destruct v; simpl; unfold check_script; by destruct (Bool.eqb (el_checked e) _).
Qed.
(** An action of the broker is one step of the page. *)
Lemma does_act a p :
  (forall s, s ∈ scripts_of a -> s ∈ scripts) -> dget id (pg_nodes p) = Some e ->
  let p' := match refusal a id e p with Some _ => p | None => outcome a id e p end in
  does (act a (VStr t)) p p'
    match refusal a id e p with
    | Some msg => error_response msg
    | None => success (action_named a (VStr t)) p'
    end.
Proof.
  intros Hs He. pose proof (does_observed (action_named a (VStr t))) as Ho.
  assert (ObservePage ∈ scripts) as Hobs by (apply Hs; left).
  assert (forall s k, scripts_of a !! k = Some s -> s ∈ scripts) as Hin
    by (intros s k Hk; eapply Hs, list_elem_of_lookup_2, Hk).
  destruct a; cbn [act refusal outcome action_named] in *.
  - by apply does_enter; [apply (Hin _ 1)|apply (Hin _ 2)|..].
  - by apply does_enter; [apply (Hin _ 1)|apply (Hin _ 2)|..].
  - apply (does_text_target p _ (fun obj => run_unchecked obj ClearText (observed _)));
      [by apply (Hin _ 1)|done|].
    destruct (text_target e); [done|].
    by eapply does_unchecked; [apply (Hin _ 2)|..|apply Ho].
  - apply does_when_running, does_with_target, does_try.
    eapply does_bind; [apply does_resolve|]. simpl.
    eapply does_guarded; [by apply (Hin _ 1)|done..|].
    destruct (click_target id e p); [done|]. by apply Ho.
  - apply does_control; [by apply (Hin _ 1)|done|]. rewrite is_text_str.
    destruct (control_target e); [done|]. cbn [or_else].
    destruct (el_tag e =s "select"); [|by apply does_ret]. cbn [negb unless or_else].
    unfold option_error. destruct (choices _ e) as [|o [|o' l]] eqn:E;
      (eapply does_run_script; [by apply (Hin _ 2)|done|by simpl; unfold select_script; rewrite E|]); simpl; [done|by apply Ho|done].
  - apply does_control; [by apply (Hin _ 1)|done|]. rewrite !is_text_str.
    destruct (control_target e) eqn:E; [done|]. cbn [or_else].
    destruct (el_tag e =s "input") eqn:Et; [|by apply does_ret]. cbn [negb orb unless].
    rewrite (control_is_box E Et).
    pose proof (does_mark true CheckBox p (action_on "check" (VStr t)) eq_refl (Hin _ 2 eq_refl) Hobs He) as H.
    by destruct (el_checked e).
  - apply does_control; [by apply (Hin _ 1)|done|]. rewrite !is_text_str.
    destruct (control_target e) eqn:E; [done|]. cbn [or_else].
    destruct (el_tag e =s "input") eqn:Et; [|by apply does_ret]. cbn [negb or_else unless].
    pose proof (control_is_box E Et) as Hb.
    destruct (attr_type e =s "radio"); [by apply does_ret|]. rewrite orb_false_r in Hb. rewrite Hb.
    pose proof (does_mark false UncheckBox p (action_on "uncheck" (VStr t)) eq_refl (Hin _ 2 eq_refl) Hobs He) as H.
    by destruct (el_checked e).
Qed.
End Connected.

(** ** What is reported *)
Section Reports.
Context {env : PageEnv}.
(** The reply of the broker to an action, by what the page is. *)
Definition reply (a : action) (target_id id : string) (e : Element) (p : Page) : response :=
  match refusal a id e p with
  | Some msg => error_response msg
  | None => success (action_named a (VStr target_id)) (outcome a id e p)
  end.
Definition page_after (a : action) (id : string) (e : Element) (p : Page) : Page :=
  match refusal a id e p with Some _ => p | None => outcome a id e p end.

(** *** What is told of the values of fields *)
(** A value of which only its presence remains. *)
Definition mask (s : string) : string := if s =s "" then "" else "*".
Definition masked_choice (o : choice) : choice := mkChoice (op_text o) (mask (op_value o)) (op_selected o).
Definition masked (e : Element) : Element :=
  e <| el_value := mask (el_value e) |> <| el_options := map masked_choice (el_options e) |>.
Definition masked_page (p : Page) : Page :=
  p <| pg_nodes := map (fun kv => (kv.1, masked kv.2)) (pg_nodes p) |>.

Lemma mask_empty s : (mask s =s "") = (s =s "").
Proof. unfold mask. by destruct (s =s "") eqn:E; rewrite ?E. Qed.
Lemma mask_app s s' : mask (mask s +:+ s') = mask (s +:+ s').
Proof.
  unfold mask. destruct (s =s "") eqn:E; [by apply String.eqb_eq in E as ->|].
  destruct s; [done|]. by destruct s'.
Qed.
Lemma masked_selected l :
  filter op_selected (map masked_choice l) = map masked_choice (filter op_selected l).
Proof.
  induction l as [|o l IH]; [done|]. cbn [map]. rewrite !filter_cons, IH.
  cbn [masked_choice op_selected]. by destruct (decide (op_selected o)).
Qed.
Lemma masked_choices ident e : choices ident (masked e) = map masked_choice (choices ident e).
Proof.
  unfold choices. simpl. induction (el_options e) as [|o l IH]; [done|].
  cbn [map]. rewrite !filter_cons, IH. cbn [masked_choice op_text]. by destruct (decide (op_text o = ident)).
Qed.
Lemma masked_option o :
  VDict [("text", VStr (op_text (masked_choice o)));
         ("value_present", VBool (negb (op_value (masked_choice o) =s "")))] =
  VDict [("text", VStr (op_text o)); ("value_present", VBool (negb (op_value o =s "")))].
Proof. simpl. by rewrite mask_empty. Qed.
Lemma masked_input e : observed_input (masked e) = observed_input e.
Proof.
  unfold observed_input, control_state. cbn [masked el_value el_options setter]. simpl.
  rewrite mask_empty, masked_selected, map_map.
  by rewrite (map_ext _ _ masked_option).
Qed.
Lemma masked_described e : described (masked e) = described e.
Proof.
  unfold described. simpl. rewrite mask_empty, masked_selected, map_map. done.
Qed.
Lemma masked_values nodes :
  map snd (map (fun kv : string * Element => (kv.1, masked kv.2)) nodes) = map masked (map snd nodes).
Proof. by rewrite !map_map. Qed.
Lemma masked_elements (f : Element -> bool) p :
  (forall e, f (masked e) = f e) -> elements f (masked_page p) = map masked (elements f p).
Proof.
  intros Hf. unfold elements. simpl. rewrite masked_values.
  induction (map snd (pg_nodes p)) as [|e l IH]; [done|]. cbn [map]. rewrite !filter_cons, Hf, IH.
  by destruct (decide (f e)).
Qed.
Lemma masked_observation p : observe_page (masked_page p) = observe_page p.
Proof.
  unfold observe_page. rewrite !masked_elements by done. simpl. rewrite !map_map.
  by rewrite (map_ext _ _ masked_input).
Qed.
Lemma masked_brief_observation p : observe_briefly (masked_page p) = observe_briefly p.
Proof. unfold observe_briefly. rewrite !masked_elements by done. simpl. by rewrite !map_map. Qed.

Lemma mask_mask s : mask (mask s) = mask s.
Proof. unfold mask. by destruct (s =s "") eqn:E; rewrite ?E. Qed.
Lemma masked_masked e : masked (masked e) = masked e.
Proof.
  unfold masked. simpl. rewrite mask_mask, map_map. f_equal. apply map_ext. intros o.
  unfold masked_choice. simpl. by rewrite mask_mask.
Qed.
Definition masked_nodes : dict string Element -> dict string Element :=
  map (fun kv => (kv.1, masked kv.2)).
Lemma masked_twice nodes : masked_nodes (masked_nodes nodes) = masked_nodes nodes.
Proof. unfold masked_nodes. rewrite map_map. apply map_ext. intros [k e]. simpl. by rewrite masked_masked. Qed.
Lemma masked_put id e nodes : masked_nodes (dset id e nodes) = dset id (masked e) (masked_nodes nodes).
Proof. induction nodes as [|[k f] nodes IH]; [done|]. simpl. case_decide; simpl; by rewrite ?IH. Qed.
Lemma masked_get id nodes : dget id (masked_nodes nodes) = masked <$> dget id nodes.
Proof. induction nodes as [|[k f] nodes IH]; [done|]. simpl. by case_decide. Qed.
Lemma masked_clear e nodes : masked_nodes (clear_group e nodes) = clear_group (masked e) (masked_nodes nodes).
Proof.
  unfold clear_group. simpl. destruct (_ =s "radio"); [|done].
  unfold masked_nodes. rewrite !map_map. apply map_ext. intros [k f]. simpl.
  change (same_group (masked e) (masked f)) with (same_group e f). by destruct (same_group e f).
Qed.
(** A page whose observation is settled by what it is like without its values. *)
Lemma observed_alike p p' : masked_page p = masked_page p' -> observe_page p = observe_page p'.
Proof. intros H. by rewrite <- (masked_observation p), H, masked_observation. Qed.
Lemma masked_changed id e e' p p' :
  masked e = masked e' -> masked_page p = masked_page p' -> pg_effects p = pg_effects p' ->
  masked_page (changed id e p) = masked_page (changed id e' p').
Proof.
  intros He Hp Hf. unfold masked_page, changed, happens, put_node in *. simpl in *.
  fold masked_nodes in *. injection Hp as ? ? ? Hn _.
  change (map _ ?l) with (masked_nodes l). 
  by rewrite !masked_put, He, Hn, Hf; congruence.
Qed.
Lemma masked_in_form id e p : in_form id (masked e) (masked_page p) = in_form id e p.
Proof.
  unfold in_form, closest_form. simpl. destruct (el_tag e =s "form"); [done|].
  destruct (el_form e) as [k|]; [|done].
  change (map _ (pg_nodes p)) with (masked_nodes (pg_nodes p)). rewrite masked_get. by destruct (dget k _).
Qed.
Lemma masked_refusal a id e p : refusal a id (masked e) (masked_page p) = refusal a id e p.
Proof.
  destruct a; try done; simpl.
  - unfold click_target, is_submit. by rewrite masked_in_form.
  - unfold option_error. rewrite masked_choices. by destruct (choices ident e) as [|? [|]].
Qed.
Lemma masked_set_checked id v e p :
  masked_page (set_checked id v (masked e) (masked_page p)) = masked_page (set_checked id v e p).
Proof.
  unfold set_checked. apply masked_changed; [| |by destruct v].
  - exact (masked_masked (e <| el_checked := v |>)).
  - unfold masked_page. destruct v; simpl; fold masked_nodes; f_equal;
      [|apply masked_twice].
    change (map _ ?l) with (masked_nodes l). by rewrite <- masked_clear, masked_twice.
Qed.
Lemma masked_value e s s' :
  mask s = mask s' -> masked ((masked e) <| el_value := s |>) = masked (e <| el_value := s' |>).
Proof.
  intros H. pose proof (f_equal (fun e => e <| el_value := mask s |>) (masked_masked e)) as E.
  unfold masked in *. simpl in *. by rewrite <- H.
Qed.
Lemma masked_selection o e : masked (selected o (masked e)) = masked (selected o e).
Proof. unfold masked, selected. simpl. rewrite mask_mask, !map_map. f_equal. apply map_ext. intros c. unfold masked_choice. simpl. by rewrite mask_mask. Qed.
Lemma masked_page_twice p : masked_page (masked_page p) = masked_page p.
Proof. unfold masked_page. simpl. f_equal. apply masked_twice. Qed.
Lemma masked_outcome a id e p :
  masked_page (outcome a id (masked e) (masked_page p)) = masked_page (outcome a id e p).
Proof.
  pose proof (masked_page_twice p) as Hp. destruct a; cbn [outcome].
  - apply masked_changed; [by apply masked_value, mask_app|done..].
  - apply masked_changed; [by apply masked_value|done..].
  - apply masked_changed; [by apply masked_value|done..].
  - unfold masked_page, happens in *. simpl in *. by injection Hp as ->.
  - apply masked_changed; [apply masked_selection|done..].
  - simpl. destruct (el_checked e); [done|apply masked_set_checked].
  - simpl. destruct (el_checked e); [apply masked_set_checked|done].
Qed.
Lemma masked_found text role tag type p :
  find_nodes text role tag type (masked_page p) =
  map (fun kv => (kv.1, masked kv.2)) (find_nodes text role tag type p).
Proof.
  unfold find_nodes. simpl. rewrite <- firstn_map. f_equal.
  induction (pg_nodes p) as [|[k e] l IH]; [done|]. cbn [map]. rewrite !filter_cons, IH.
  cbn [snd]. change (matches_query text role tag type (masked e)) with (matches_query text role tag type e).
  by destruct (decide (matches_query text role tag type e)).
Qed.
(** What FIND tells of a page: the objects found and their records. *)
Definition found_records (text role tag type : string) (p : Page) : list (string * dict string pyval) :=
  map (fun kv => (kv.1, described kv.2)) (find_nodes text role tag type p).

End Reports.

(** ** The broker and the page *)
Section Page.
Context {world : BrowserWorld} {env : PageEnv}.
Context {page_at : list Sent -> Page} {node_of : pyval -> option string}.

End Page.

(** ** What FIND reads of a record *)
(** The properties of the record of an element, as the protocol lists them. *)
Definition remote_properties (node : string) (d : dict string pyval) : list pyval :=
  VDict [("name", VStr "node"); ("value", VDict [("objectId", VStr node)])]
  :: map (fun kv => VDict [("name", VStr kv.1); ("value", VDict [("value", kv.2)])]) d.
(** The broker reads every field of the record the script made, and the node. *)
Lemma described_read `{PageEnv} (node : string) (e : Element) :
  element_data (remote_properties node (described e)) None [] = Ok (Some (VStr node), described e).
Proof.
  unfold described, json_field.
  destruct (is_field e) eqn:Ef, (el_tag e =s "select") eqn:Es, (described_kind e =s "checkbox"),
    (described_kind e =s "radio"), (el_validity e); simpl;
    repeat (destruct (stringify _ =s ""); simpl); try reflexivity.
Qed.

(** ** Controls that submit, and clicks *)
Section Submitters.
Context {env : PageEnv}.
(** What CLICK refuses as a control that submits, SUBMIT would submit by ... *)
Lemma refused_submits (id : string) (e : Element) (p : Page) :
  is_submit id e p = true -> el_type e <> "" -> submitter id e p = Some id.
Proof.
  unfold is_submit, submitter. intros H Ht.
  destruct (el_type e =s "submit") eqn:E; [done|]. exfalso. apply Ht, String.eqb_eq.
  rewrite !andb_false_r in H. simpl in H. destruct (el_type e =s ""); [done|].
  by rewrite andb_false_r in H.
Qed.
(** ... but not the other way round: an image button, and whatever stands in a submit
    button, submit the form by SUBMIT and are clicked without an authorization. *)
Lemma image_button_clicked (id : string) (e : Element) (p : Page) :
  visible_and_enabled e = None -> el_tag e = "input" -> el_type e = "image" ->
  submitter id e p = Some id /\ refusal Click id e p = None.
Proof.
  unfold submitter. cbn [refusal]. unfold click_target, is_submit. by intros -> -> ->.
Qed.
Lemma inside_button_clicked (id k : string) (e q : Element) (p : Page) :
  visible_and_enabled e = None -> el_tag e = "span" -> el_type e = "" -> el_parent e = Some k ->
  dget k (pg_nodes p) = Some q -> el_type q = "submit" ->
  submitter id e p = Some k /\ refusal Click id e p = None.
Proof.
  unfold submitter. cbn [refusal]. unfold click_target, is_submit. by intros -> -> -> -> -> ->.
Qed.
(** A password, a hidden field and whatever is neither a text nor a search field is
    never written to. *)
Lemma protected_fields (id s : string) (e : Element) (p : Page) :
  el_tag e = "input" -> lower (attr_type e) ∉ ["text"; "search"; ""] ->
  exists msg, refusal (Type_ s) id e p = Some msg /\ refusal (Fill s) id e p = Some msg /\
              refusal Clear id e p = Some msg.
Proof.
  intros Ht Hk. cbn [refusal]. unfold text_target. destruct (visible_and_enabled e) as [msg|]; [by exists msg|].
  exists "TARGET_PROTECTED". rewrite Ht. simpl. unfold attr_or, js_or. fold (attr_type e).
  destruct (attr_type e =s "") eqn:E.
  - apply String.eqb_eq in E. rewrite E in Hk. destruct Hk. simpl. by do 2 right; left.
  - assert (str_in (lower (attr_type e)) ["text"; "search"] = false) as ->; [|done].
    apply str_in_false. intros H. apply Hk. apply elem_of_cons in H as [->|H]; [left|].
    apply list_elem_of_singleton in H as ->. right; left.
Qed.
End Submitters.

(** ** A page with a text field *)
Module PageExamples.
Definition field : Element :=
  mkElement "input" [] 120 20 false false "text" "" "q" "" "" "" "old" false false [] None None None.
Definition page : Page := mkPage "https://a.example/" "A" (Some "Hello") [("o1", field)] [].
Definition typed : list page_script := scripts_of (Type_ "er").
#[local] Instance env : PageEnv := {
  resolve _ s := s; stringify _ := "{}"; has_request_submit _ := true;
  request_submit_raises _ _ _ := false }.
Definition script_text (s : page_script) : string :=
  match s with
  | ObservePage => "observe" | CheckTextTarget => "check" | TypeText (VStr s) => "type " +:+ s | _ => ""
  end.
Definition decode (text : string) : page_script :=
  default ReadFrameMark (head (filter (fun s => script_text s = text) typed)).
(** The browser: one message on a page, and its answer. *)
Definition receive (p : Page) (m : Sent) : Page * dict string pyval :=
  match st_params m with
  | [(_, VStr id); (_, VStr text); _] =>
      match dget id (pg_nodes p) with
      | Some e => let '(p', r) := call_on (decode text) id e p in (p', remote_value r)
      | None => (p, [])
      end
  | [(_, VStr text); _] => (p, remote_value (evaluated (decode text) p))
  | _ => (p, [("object", VDict [("objectId", VStr "o1")])])
  end.
Definition page_at (h : list Sent) : Page := foldl (fun p m => (receive p m).1) page h.
#[local] Instance world : BrowserWorld := {
  bw_floats := {| float_repr _ := "0.0"; float_sum _ := SpecFloat.S754_zero false |};
  bw_errors := fun _ => "not JSON";
  js := script_text;
  Broker.set_text l := "{" +:+ str_join ", " l +:+ "}";
  bw_uuid _ := "u";
  bw_delay _ := 1%N;
  bw_alive _ _ := true;
  bw_wait _ _ := true;
  bw_connect _ := true;
  bw_exchange h := match last h with
                   | Some m => answers (receive (page_at (removelast h)) m).2
                   | None => answers []
                   end;
  bw_profile_dir := "/p";
  bw_mkdir _ := Ok tt;
  bw_chrome_exists _ := true;
  bw_environ := [];
  bw_popen _ _ _ := Ok 100%Z;
  bw_xdotool_exists _ := false;
  bw_xdotool _ _ := Ok "" }.
Definition node_of (v : pyval) : option string := match v with VInt 7 => Some "o1" | _ => None end.
Lemma page_at_snoc h m : page_at (h ++ [m]) = (receive (page_at h) m).1.
Proof. unfold page_at. by rewrite foldl_app. Qed.
Lemma exchange_snoc h m : bw_exchange (h ++ [m]) = answers (receive (page_at h) m).2.
Proof. simpl. by rewrite last_snoc, removelast_last. Qed.
Lemma decode_text s : s ∈ typed -> decode (script_text s) = s.
Proof. intros Hs. repeat (apply elem_of_cons in Hs as [->|Hs]; [reflexivity|]). by apply elem_of_nil in Hs. Qed.
#[local] Instance browses : Browses typed page_at node_of.
Proof.
  split; intros h; setoid_rewrite exchange_snoc; setoid_rewrite page_at_snoc.
  - intros id e s Hs He. cbn [receive function_call st_params js world].
    rewrite He, (decode_text s Hs). by destruct (call_on s id e (page_at h)).
  - intros s Hs. cbn [receive evaluation st_params js world]. by rewrite (decode_text s Hs).
  - intros node id H. unfold node_of in H. by repeat case_match; simplify_eq.
Qed.
Definition broker : Broker :=
  mkBroker (Some 100%Z) BR_RUNNING B_READY None true true (Some "u")
    [("bt_u", mkTarget (VInt 7) (VStr "o1") (Some "u"))] None [] [] [] 0 0.
End PageExamples.
