(* ===== verification/BrokerGate.v ===== *)
(** * The gate of the browser broker

    What the operations of [Broker] do to the state that decides which requests
    leave the browser: the session, the targets, the authorizations, the pending
    submission, and the history of all three.  The rules are proved once, for any
    property the steps of that state keep; the properties follow by showing that
    those steps keep them. *)
From S2P Require Import Prelude Dict PyVal Effects PyStr PyBytes Json JsonLoad Config Identity.
From S2P Require Import Broker.

(** ** Operations from outside *)
Section Operations.
Context {world : BrowserWorld}.
(** A line on the socket, a call of the process itself, an event between two
    calls, the server closed. *)
Inductive operation :=
  | Line (input : string)
  | Authorize (target_id session_id expires_in : pyval)
  | Event (event : dict string pyval)
  | Close.
Definition perform (o : operation) : M Broker unit :=
  match o with
  | Line input => handle input ;; mret tt
  | Authorize t s e => issue_auth t s e ;; mret tt
  | Event event => listen event
  | Close => server_close
  end.
(** An exception of a call reaches its caller; the broker goes on. *)
Definition perform_all (os : list operation) (b : Broker) : Broker :=
  foldl (fun b o => (perform o b).1) b os.
End Operations.

(** ** Steps of the gate *)
Definition gate (b : Broker) :=
  (bk_session b, bk_targets b, bk_auths b, bk_pending b, bk_ledger b).
Definition released (p : PendingSubmissionAuthorization) (method : string) (url : pyval) : ledger_entry :=
  Released (pn_auth_id p) method (default "" (match url with VStr u => Some u | _ => None end))
    (au_frame (pn_auth p)).

(** A property that an exchange with the browser keeps, whatever events come. *)
Class Stable (P : Broker -> Prop) : Prop := {
  stable_gate b b' : gate b' = gate b -> (bk_now b <= bk_now b')%Z -> P b -> P b';
  stable_release b p method url frame :
    bk_pending b = Some p -> request_matches p method url frame = Ok true -> P b ->
    P (b <| bk_pending := None |> <| bk_ledger := bk_ledger b ++ [released p method url] |>) }.
(** One that the operations of the protocol other than SUBMIT keep. *)
Class Lasting (P : Broker -> Prop) : Prop := {
  lasting_stable :: Stable P;
  lasting_reset b s : P b ->
    P (b <| bk_session := s |> <| bk_targets := [] |> <| bk_pending := None |> <| bk_auths := [] |>);
  lasting_target b id node obj : P b ->
    P (b <| bk_targets := dset id (mkTarget node obj (bk_session b)) (bk_targets b) |>) }.

Section Exchanges.
Context {world : BrowserWorld} (P : Broker -> Prop) `{!Stable P}.

Lemma keeps_modify f :
  (forall b, gate (f b) = gate b) -> (forall b, (bk_now b <= bk_now (f b))%Z) ->
  preserves P (modify f).
Proof. intros H Hn. apply preserves_modify. intros b. by apply stable_gate. Qed.
Lemma keeps_draw {A} (f : nat -> A) : preserves P (draw f).
Proof. intros b Hb. unfold wp, draw. by apply (stable_gate b); [|apply Z.le_refl|]. Qed.
#[local] Hint Resolve keeps_draw : keeps.
#[local] Hint Extern 1 (preserves _ (modify _)) => (apply keeps_modify; intros; reflexivity) : keeps.

Lemma keeps_time_now : preserves P time_now.
Proof.
  unfold time_now. apply preserves_bind; [auto with keeps|intros d].
  apply preserves_bind; [|auto with keeps]. apply keeps_modify; [done|intros b; simpl; lia].
Qed.
Lemma keeps_sleep ns : (0 <= ns)%Z -> preserves P (sleep ns).
Proof. intros. apply keeps_modify; [done|intros b; simpl; lia]. Qed.
Lemma keeps_set_browser_state s : preserves P (set_browser_state s).
Proof. unfold set_browser_state. auto with keeps. Qed.
Lemma keeps_send method params : preserves P (send_cdp_async method params).
Proof. unfold send_cdp_async, sent_message. auto 10 with keeps. Qed.
#[local] Hint Resolve keeps_time_now keeps_set_browser_state keeps_send : keeps.

Lemma keeps_release p method url frame (m : M Broker unit) :
  request_matches p method url frame = Ok true -> preserves P m ->
  forall b, bk_pending b = Some p -> P b ->
  wp (modify (fun b => b <| bk_pending := None |>) ;; enter (released p method url) ;; m) b
     (fun b' _ => P b').
Proof.
  intros Hm Hk b Hp Hb. apply wp_bind, wp_modify, wp_bind, wp_modify, Hk.
  by apply (stable_release b p method url frame).
Qed.
Lemma keeps_fail_request id : preserves P (fail_request id).
Proof. unfold fail_request. auto with keeps. Qed.
#[local] Hint Resolve keeps_fail_request : keeps.
Lemma keeps_request_paused params : preserves P (request_paused params).
Proof.
  unfold request_paused. do 5 (apply preserves_bind; [auto with keeps|intros]).
  destruct (str_in _ _); [auto with keeps|].
  intros b Hb. apply wp_bind, wp_gets. destruct (bk_pending b) as [p|] eqn:Hp; [|by apply keeps_fail_request].
  apply wp_bind, wp_of_result. destruct (py_get "frameId" _ _) as [frame|e]; [|done].
  apply wp_bind, wp_of_result. destruct (request_matches _ _ _ _) as [ok|e] eqn:Hm; [|done].
  destruct ok; [|by apply keeps_fail_request].
  eapply keeps_release; eauto. auto with keeps.
Qed.
#[local] Hint Resolve keeps_request_paused : keeps.
Lemma keeps_listen event : preserves P (listen event).
Proof. unfold listen, handle_cdp_event. auto 12 with keeps. Qed.
#[local] Hint Resolve keeps_listen : keeps.
Lemma keeps_get_ws : preserves P get_ws.
Proof. unfold get_ws. auto 12 with keeps. Qed.
Lemma keeps_disconnect : preserves P disconnect.
Proof. unfold disconnect. auto with keeps. Qed.
#[local] Hint Resolve keeps_get_ws keeps_disconnect : keeps.
Lemma keeps_cdp_request method params : preserves P (cdp_request method params).
Proof. unfold cdp_request, sent_message. auto 20 with keeps. Qed.
#[local] Hint Resolve keeps_cdp_request : keeps.
Lemma keeps_call_function obj s : preserves P (call_function obj s).
Proof. unfold call_function. auto with keeps. Qed.
Lemma keeps_is_running : preserves P is_running.
Proof. unfold is_running. auto 10 with keeps. Qed.
#[local] Hint Resolve keeps_call_function keeps_is_running : keeps.
Lemma keeps_when_running m : preserves P m -> preserves P (when_running m).
Proof. intros. unfold when_running, not_running. auto 10 with keeps. Qed.
Lemma keeps_current_target t : preserves P (current_target t).
Proof. unfold current_target. auto 10 with keeps. Qed.
Lemma keeps_resolve_node t : preserves P (resolve_node t).
Proof. unfold resolve_node. auto 15 with keeps. Qed.
#[local] Hint Resolve keeps_when_running keeps_current_target keeps_resolve_node : keeps.
Lemma keeps_with_target t k : (forall t, preserves P (k t)) -> preserves P (with_target t k).
Proof. intros. unfold with_target. auto 10 with keeps. Qed.
Lemma keeps_observe_with s : preserves P (observe_with s).
Proof. unfold observe_with. auto 20 with keeps. Qed.
#[local] Hint Resolve keeps_with_target keeps_observe_with : keeps.
Lemma keeps_observed action : preserves P (observed action).
Proof. unfold observed, observe. auto 10 with keeps. Qed.
Lemma keeps_run_script obj s k : (forall v, preserves P (k v)) -> preserves P (run_script obj s k).
Proof. intros. unfold run_script. auto 20 with keeps. Qed.
Lemma keeps_run_unchecked obj s k : preserves P k -> preserves P (run_unchecked obj s k).
Proof. intros. unfold run_unchecked. auto 15 with keeps. Qed.
#[local] Hint Resolve keeps_observed keeps_run_script keeps_run_unchecked : keeps.
Lemma keeps_with_control t k : (forall o g y, preserves P (k o g y)) -> preserves P (with_control t k).
Proof. intros. unfold with_control. auto 30 with keeps. Qed.
#[local] Hint Resolve keeps_with_control : keeps.

(** *** The actions on a page *)
Lemma keeps_click t : preserves P (click t).
Proof. unfold click. auto 20 with keeps. Qed.
Lemma keeps_edit t s action : preserves P (edit t s action).
Proof. unfold edit. auto 20 with keeps. Qed.
Lemma keeps_clear t : preserves P (clear t).
Proof. unfold clear. auto 20 with keeps. Qed.
Lemma keeps_select t o : preserves P (select t o).
Proof. unfold select. auto 20 with keeps. Qed.
Lemma keeps_check t : preserves P (check t).
Proof. unfold check. auto 20 with keeps. Qed.
Lemma keeps_uncheck t : preserves P (uncheck t).
Proof. unfold uncheck. auto 20 with keeps. Qed.
Lemma keeps_navigate url : preserves P (navigate url).
Proof. unfold navigate. auto 20 with keeps. Qed.
Lemma keeps_navigate_history step : preserves P (navigate_history step).
Proof. unfold navigate_history. auto 20 with keeps. Qed.
#[local] Hint Resolve keeps_navigate_history : keeps.
Lemma keeps_navigate_action action : preserves P (navigate_action action).
Proof. unfold navigate_action. auto 20 with keeps. Qed.
Lemma keeps_hide_message s m : preserves P (hide_message s m).
Proof. unfold hide_message. auto 10 with keeps. Qed.
Lemma keeps_hide_windows pid : preserves P (hide_windows pid).
Proof. unfold hide_windows. auto 20 with keeps. Qed.
#[local] Hint Resolve keeps_hide_message keeps_hide_windows : keeps.
Lemma keeps_hide_browser : preserves P hide_browser.
Proof. unfold hide_browser. auto 20 with keeps. Qed.
Lemma keeps_get_status : preserves P get_status.
Proof. unfold get_status. auto 20 with keeps. Qed.
Lemma keeps_terminate pid : preserves P (terminate_process pid).
Proof. unfold terminate_process. auto 20 with keeps. Qed.
Lemma keeps_process_response l pid : preserves P (process_response l pid).
Proof. unfold process_response. auto 20 with keeps. Qed.

(** *** The parts of ISSUE_AUTH and SUBMIT *)
Lemma keeps_marked_context token f : preserves P (marked_context token f).
Proof. unfold marked_context. auto 20 with keeps. Qed.
#[local] Hint Resolve keeps_marked_context : keeps.
Lemma keeps_find_frame token frames f : preserves P (find_frame token frames f).
Proof. revert f. induction frames; intros; cbn [find_frame]; auto 20 with keeps. Qed.
Lemma keeps_poll_page fuel deadline obs : preserves P (poll_page fuel deadline obs).
Proof.
  revert obs. induction fuel; intros; cbn [poll_page]; [auto with keeps|].
  assert (preserves P (sleep (second / 2))) by (by apply keeps_sleep).
  unfold observe_with_timeout. auto 20 with keeps.
Qed.
End Exchanges.

#[export] Hint Resolve keeps_draw keeps_time_now keeps_set_browser_state keeps_listen
  keeps_cdp_request keeps_call_function keeps_is_running keeps_when_running keeps_current_target
  keeps_resolve_node keeps_with_target keeps_observe_with keeps_observed keeps_run_script
  keeps_click keeps_edit keeps_clear keeps_select keeps_check keeps_uncheck keeps_navigate
  keeps_navigate_action keeps_hide_browser keeps_get_status keeps_terminate keeps_process_response
  keeps_find_frame keeps_poll_page : keeps.
#[export] Hint Extern 1 (Stable _) => apply _ : keeps.
#[export] Hint Extern 1 (preserves _ (modify _)) => (apply keeps_modify; [apply _|reflexivity|intros; apply Z.le_refl]) : keeps.

(** ** The other operations of the protocol *)
Section Protocol.
Context {world : BrowserWorld} (P : Broker -> Prop) `{!Lasting P}.

Lemma keeps_reset_session s : preserves P (reset_session s).
Proof.
  unfold reset_session. apply preserves_modify. intros b Hb.
  eapply (stable_gate (b <| bk_session := s |> <| bk_targets := [] |> <| bk_pending := None |>
                         <| bk_auths := [] |>)); [done|apply Z.le_refl|by apply lasting_reset].
Qed.
#[local] Hint Resolve keeps_reset_session : keeps.
Lemma keeps_launch url : preserves P (launch url).
Proof. unfold launch. auto 30 with keeps. Qed.
#[local] Hint Resolve keeps_launch : keeps.
Lemma keeps_start_browser url : preserves P (start_browser url).
Proof. unfold start_browser. auto 30 with keeps. Qed.
Lemma keeps_stop_browser : preserves P stop_browser.
Proof. unfold stop_browser. auto 30 with keeps. Qed.
#[local] Hint Resolve keeps_start_browser keeps_stop_browser : keeps.
Lemma keeps_restart_browser : preserves P restart_browser.
Proof. unfold restart_browser. auto 30 with keeps. Qed.
Lemma keeps_server_close : preserves P server_close.
Proof. unfold server_close. auto 30 with keeps. Qed.

Lemma keeps_find_property prop : preserves P (find_property prop).
Proof.
  unfold find_property, own_properties.
  do 2 (apply preserves_bind; [auto with keeps|intros]). case_match; [auto with keeps|].
  do 4 (apply preserves_bind; [auto 20 with keeps|intros]).
  case_match; [|auto with keeps]. case_match; [auto with keeps|].
  do 3 (apply preserves_bind; [auto with keeps|intros]).
  case_match; auto with keeps.
  all: (apply preserves_bind; [auto with keeps|intros]); intros b1 Hb1.
  all: apply wp_bind, wp_gets, wp_bind, wp_modify, wp_ret; by apply lasting_target.
Qed.
#[local] Hint Resolve keeps_find_property : keeps.
Lemma keeps_find_properties props : preserves P (find_properties props).
Proof. induction props; cbn [find_properties]; auto 20 with keeps. Qed.
#[local] Hint Resolve keeps_find_properties : keeps.
Lemma keeps_find_ query : preserves P (find_ query).
Proof. unfold find_, find_elements, own_properties. auto 40 with keeps. Qed.
#[local] Hint Resolve keeps_restart_browser keeps_find_ : keeps.

(** A request that passes the schema names a command of the table. *)
Lemma validate_schema_command request command r :
  validate_schema request = inr (command, r) -> is_Some (dget command REQUIRED_FIELDS).
Proof.
  unfold validate_schema. intros H. repeat case_match; simplify_eq. eauto.
Qed.
Lemma keeps_dispatch command r :
  is_Some (dget command REQUIRED_FIELDS) -> (forall t a, preserves P (submit t a)) ->
  preserves P (dispatch_command command r).
Proof.
  intros Hc Hs. unfold dispatch_command, value_errors, type_text, fill, observe.
  do 4 (case_match; [auto 20 with keeps|]).
  destruct (command =s "ISSUE_AUTH") eqn:E; [|auto 40 with keeps].
  apply String.eqb_eq in E as ->. by apply is_Some_None in Hc.
Qed.
Lemma keeps_handle input :
  (forall t a, preserves P (submit t a)) -> preserves P (handle input).
Proof.
  intros Hs. unfold handle. case_match; [auto with keeps|].
  apply preserves_except_all; [|auto with keeps].
  case_match.
  - destruct (validate_schema _) as [err|[command r]] eqn:E; [auto with keeps|].
    apply validate_schema_command in E. apply preserves_bind; [by apply keeps_dispatch|auto with keeps].
  - auto 20 with keeps.
Qed.

(** The operations keep what ISSUE_AUTH and SUBMIT keep. *)
Lemma keeps_perform o :
  (forall t a, preserves P (submit t a)) ->
  (forall t s e, o = Authorize t s e -> preserves P (issue_auth t s e)) -> preserves P (perform o).
Proof.
  intros Hs Ha. destruct o; cbn [perform].
  - apply preserves_bind; [by apply keeps_handle|auto with keeps].
  - apply preserves_bind; [by apply Ha|auto with keeps].
  - auto with keeps.
  - apply keeps_server_close.
Qed.
Lemma keeps_perform_all os b :
  (forall t a, preserves P (submit t a)) ->
  (forall t s e, Authorize t s e ∈ os -> preserves P (issue_auth t s e)) ->
  P b -> P (perform_all os b).
Proof.
  intros Hs Ha. unfold perform_all. revert b. induction os as [|o os IH]; intros b Hb; [done|].
  apply IH; [intros t s e H; apply Ha; by right|].
  assert (wp (perform o) b (fun b' _ => P b')) as H.
  { apply keeps_perform; [done| |done]. intros t s e ->. apply Ha. left. }
  unfold wp in H. by destruct (perform o b).
Qed.
End Protocol.

(** ** Every request let through was authorized *)
Definition issued_as (id : string) (e : ledger_entry) : bool :=
  match e with Issued i _ => i =s id | _ => false end.
Definition consumed_as (id : string) (e : ledger_entry) : bool :=
  match e with Consumed i _ _ => i =s id | _ => false end.
Definition released_as (id : string) (e : ledger_entry) : bool :=
  match e with Released i _ _ _ => i =s id | _ => false end.
Definition count (f : ledger_entry -> bool) (l : list ledger_entry) : nat := length (List.filter f l).
(** An authorization is consumed in the session it was issued in, before it
    expires, no more often than it was issued; a request is released no more
    often than its authorization was consumed, and is the one authorized. *)
Definition justified (past : list ledger_entry) (e : ledger_entry) : Prop :=
  match e with
  | Issued _ _ => True
  | Consumed id session now =>
      count (consumed_as id) past < count (issued_as id) past /\
      exists a, Issued id a ∈ past /\ au_session a = session /\ (now <= au_expires_at a)%Z
  | Released id method url frame =>
      count (released_as id) past < count (consumed_as id) past /\
      exists a, Issued id a ∈ past /\ method = au_method a /\ frame = au_frame a /\
        without_fragment url = without_fragment (au_url a)
  end.
Definition accounted (l : list ledger_entry) : Prop :=
  forall past e future, l = past ++ e :: future -> justified past e.

Lemma count_snoc f l e : count f (l ++ [e]) = count f l + Nat.b2n (f e).
Proof. unfold count. rewrite List.filter_app, length_app. simpl. by destruct (f e). Qed.
Lemma accounted_snoc l e : accounted l -> justified l e -> accounted (l ++ [e]).
Proof.
  intros Hl He past e' future E. destruct future as [|x future _] using rev_ind.
  - by apply app_inj_tail in E as [-> ->].
  - rewrite app_comm_cons, app_assoc in E. apply app_inj_tail in E as [E _]. by eapply Hl.
Qed.

(** The authorizations of the table and the pending one are issued; what may be
    consumed and released is within what was; [held]: consumed, not yet armed. *)
Definition is_pending (id : string) (b : Broker) : bool :=
  match bk_pending b with Some p => pn_auth_id p =s id | None => false end.
Record Accounted (held : option string) (b : Broker) : Prop := {
  acc_ledger : accounted (bk_ledger b);
  acc_wf : dict_wf (bk_auths b);
  acc_auths id a : dget id (bk_auths b) = Some a -> Issued id a ∈ bk_ledger b;
  acc_pending p : bk_pending b = Some p -> Issued (pn_auth_id p) (pn_auth p) ∈ bk_ledger b;
  acc_consumed id :
    count (consumed_as id) (bk_ledger b) + Nat.b2n (dmem id (bk_auths b))
    <= count (issued_as id) (bk_ledger b);
  acc_released id :
    count (released_as id) (bk_ledger b) + Nat.b2n (is_pending id b)
      + Nat.b2n (bool_decide (held = Some id))
    <= count (consumed_as id) (bk_ledger b) }.

Lemma request_matches_Ok p method url frame :
  request_matches p method url frame = Ok true ->
  au_method (pn_auth p) = method /\ frame = VStr (au_frame (pn_auth p)) /\
  exists u, url = VStr u /\ without_fragment u = without_fragment (au_url (pn_auth p)).
Proof.
  unfold request_matches. intros H. destruct (_ =s method) eqn:Em; [|done].
  apply String.eqb_eq in Em. destruct url; try done. simpl in H.
  apply (f_equal (fun r => match r with Ok b => b | _ => false end)), andb_prop in H as [Hu Hf]. apply String.eqb_eq in Hu.
  unfold is_text in Hf. destruct frame; try done. apply String.eqb_eq in Hf.
  subst. eauto 10.
Qed.

#[export] Instance Accounted_lasting held : Lasting (Accounted held).
Proof.
  split; [split|..].
  - unfold gate. intros b b' E _ [H1 H2 H3 H4 H5 H6]. injection E as E1 E2 E3 E4 E5.
    split; unfold is_pending; rewrite ?E3, ?E4, ?E5; auto.
  - intros b p method url frame Hp (Em & Ef & u & -> & Eu)%request_matches_Ok [H1 H2 H3 H4 H5 H6].
    unfold released; simpl. specialize (H4 p Hp).
    split; simpl; [|done|..].
    + apply accounted_snoc; [done|]. split; [|eauto 10].
      specialize (H6 (pn_auth_id p)). unfold is_pending in H6. rewrite Hp, String.eqb_refl in H6.
      simpl in H6. lia.
    + intros id a Ha. apply elem_of_app. left. auto.
    + done.
    + intros id. rewrite !count_snoc. simpl. rewrite !Nat.add_0_r. apply H5.
    + intros id. rewrite !count_snoc. simpl. specialize (H6 id). unfold is_pending in *.
      rewrite Hp in H6. simpl in *. lia.
  - intros b s [H1 H2 H3 H4 H5 H6]. split; simpl; try done; [by apply NoDup_nil|..].
    + intros id. specialize (H5 id). simpl. lia.
    + intros id. specialize (H6 id). unfold is_pending; simpl. lia.
  - intros b id node obj [H1 H2 H3 H4 H5 H6]. by split.
Qed.
Lemma Accounted_weaken held b : Accounted held b -> Accounted None b.
Proof.
  intros [H1 H2 H3 H4 H5 H6]. split; try done. intros id. specialize (H6 id).
  rewrite (bool_decide_eq_false_2 (None = Some id)) by done. simpl. lia.
Qed.
Lemma Accounted_issue held id a b :
  Accounted held b ->
  Accounted held (b <| bk_auths := dset id a (bk_auths b) |>
                    <| bk_ledger := bk_ledger b ++ [Issued id a] |>).
Proof.
  intros [H1 H2 H3 H4 H5 H6]. split; simpl.
  - by apply accounted_snoc.
  - by apply dset_wf.
  - intros i x. rewrite dget_dset, elem_of_app, list_elem_of_singleton.
    case_decide; intros Hx; simplify_eq; auto.
  - intros p Hp. apply elem_of_app. auto.
  - intros i. rewrite !count_snoc. simpl. specialize (H5 i). unfold dmem in *. rewrite dget_dset.
    case_decide; subst; [rewrite String.eqb_refl; simpl; lia|].
    destruct (id =s i); simpl in *; lia.
  - intros i. rewrite !count_snoc. simpl. specialize (H6 i). unfold is_pending in *. simpl. lia.
Qed.
Lemma Accounted_consume id a session now b :
  dget id (bk_auths b) = Some a -> au_session a = session -> (now <= au_expires_at a)%Z ->
  Accounted None b ->
  Accounted (Some id) (b <| bk_auths := ddel id (bk_auths b) |>
                         <| bk_ledger := bk_ledger b ++ [Consumed id session now] |>).
Proof.
  intros Ha Hs Hn [H1 H2 H3 H4 H5 H6].
  assert (dmem id (bk_auths b) = true) as Hm by (unfold dmem; by rewrite Ha).
  split; simpl.
  - apply accounted_snoc; [done|]. split; [|eauto].
    specialize (H5 id). rewrite Hm in H5. simpl in H5. lia.
  - by apply ddel_wf.
  - intros i x Hx. apply elem_of_app. left. apply H3. revert Hx.
    destruct (decide (id = i)) as [<-|]; [by rewrite dget_ddel_same|by rewrite dget_ddel_other].
  - intros p Hp. apply elem_of_app. auto.
  - intros i. rewrite !count_snoc. simpl. specialize (H5 i).
    destruct (decide (id = i)) as [<-|Hi].
    + rewrite Hm in H5. unfold dmem. rewrite dget_ddel_same, String.eqb_refl by done. simpl in *. lia.
    + apply String.eqb_neq in Hi as E. rewrite E. unfold dmem in *. rewrite dget_ddel_other by done.
      simpl in *. lia.
  - intros i. rewrite !count_snoc. specialize (H6 i). unfold is_pending in *. simpl in *.
    destruct (decide (id = i)) as [<-|Hi].
    + rewrite String.eqb_refl, bool_decide_eq_true_2 by done. simpl. lia.
    + apply String.eqb_neq in Hi as E. rewrite E, bool_decide_eq_false_2 by congruence. simpl. lia.
Qed.
Lemma Accounted_arm id a b :
  Issued id a ∈ bk_ledger b -> Accounted (Some id) b ->
  Accounted None (b <| bk_pending := Some (mkPending id a) |>).
Proof.
  intros Hi [H1 H2 H3 H4 H5 H6]. split; simpl; try done; [by intros p [= <-]|].
  intros i. specialize (H6 i). unfold is_pending in *. simpl.
  destruct (decide (id = i)) as [<-|Hne].
  - rewrite String.eqb_refl. rewrite bool_decide_eq_true_2 in H6 by done. simpl in *. lia.
  - apply String.eqb_neq in Hne. rewrite Hne. simpl. lia.
Qed.
Lemma Accounted_drop held b : Accounted held b -> Accounted held (b <| bk_pending := None |>).
Proof.
  intros [H1 H2 H3 H4 H5 H6]. split; simpl; try done.
  intros i. specialize (H6 i). unfold is_pending in *. simpl in *. lia.
Qed.

Lemma Stable_and P Q : Stable P -> Stable Q -> Stable (fun b => P b /\ Q b).
Proof.
  intros HP HQ. split.
  - intros b b' E Hn [H1 H2]. split; by eapply stable_gate.
  - intros b p method url frame Hp Hm [H1 H2]. split; by eapply stable_release.
Qed.
Lemma Stable_entry e : Stable (fun b => e ∈ bk_ledger b).
Proof.
  split.
  - unfold gate. intros b b' E _ H. injection E as _ _ _ _ E. by rewrite E.
  - intros b p method url frame _ _ H. apply elem_of_app. by left.
Qed.

Section Accounting.
Context {world : BrowserWorld}.

Lemma accounted_authorize_form held target session expires frame val :
  preserves (Accounted held) (authorize_form target session expires frame val).
Proof.
  unfold authorize_form.
  repeat (apply preserves_bind; [solve [auto with keeps]|intros]).
  intros b Hb. apply wp_bind, wp_modify, wp_bind, wp_modify, wp_ret. by apply (Accounted_issue _ _ _ b).
Qed.
Lemma accounted_issue_auth held target session expires :
  preserves (Accounted held) (issue_auth target session expires).
Proof.
  pose proof (accounted_authorize_form held) as H. unfold issue_auth. auto 40 with keeps.
Qed.
Lemma accounted_drop held : preserves (Accounted held) drop_pending.
Proof. apply preserves_modify, Accounted_drop. Qed.
Lemma accounted_submit_form target id a obj b :
  Accounted (Some id) b /\ Issued id a ∈ bk_ledger b ->
  wp (submit_form target a (mkPending id a) obj) b (fun b' _ => Accounted None b').
Proof.
  intros [Hb Hi]. unfold submit_form. apply wp_bind, wp_modify.
  pose proof (accounted_drop None).
  assert (forall m : M Broker response, preserves (Accounted None) m ->
    wp m (b <| bk_pending := Some (mkPending id a) |>) (fun b' _ => Accounted None b')) as K.
  { intros m Hm. by apply Hm, Accounted_arm. }
  apply K. auto 30 with keeps.
Qed.
Lemma wp_time_now b (Q : Broker -> result Z -> Prop) :
  (forall b' now, gate b' = gate b -> (bk_now b <= bk_now b')%Z -> bk_now b' = now -> Q b' (Ok now)) -> wp time_now b Q.
Proof. intros H. unfold time_now. apply wp_bind. apply H; simpl; [done|lia|done]. Qed.
(** The rest of a submission whose authorization was consumed. *)
Lemma accounted_consumed target id a b :
  Accounted (Some id) b /\ Issued id a ∈ bk_ledger b ->
  wp (with_target target (fun t =>
        obj ← resolve_node t;
        match obj with
        | None => mret TARGET_STALE
        | Some obj => submit_form target a (mkPending id a) obj
        end)) b (fun b' _ => Accounted None b').
Proof.
  set (Held := fun b => Accounted (Some id) b /\ Issued id a ∈ bk_ledger b).
  assert (Stable Held) by (apply Stable_and; [apply _|apply Stable_entry]).
  assert (forall b, Held b -> Accounted None b) as W by (intros ? [? _]; by eapply Accounted_weaken).
  intros Hb. unfold with_target. apply wp_bind.
  eapply wp_mono; [by apply (keeps_current_target Held)|]. intros b1 [[t|]|e] H1; [|by apply wp_ret, W|by apply W].
  apply wp_bind. eapply wp_mono; [by apply (keeps_resolve_node Held)|].
  intros b2 [[obj|]|e] H2; auto; [by apply accounted_submit_form|by apply wp_ret, W].
Qed.
Lemma accounted_submit target auth_id : preserves (Accounted None) (submit target auth_id).
Proof.
  unfold submit. apply keeps_when_running; [apply _|].
  case_match; [unfold refuse_submit; auto with keeps|].
  intros b Hb. apply wp_bind, wp_gets, wp_bind, wp_of_result.
  destruct (lookup auth_id (bk_auths b)) as [[a|]|e] eqn:El; [|done..].
  destruct auth_id as [| | | |id| |]; try done. simpl in El. simplify_eq.
  apply wp_bind, wp_gets. case_bool_decide as Es; simpl; [|done].
  case_match; [done|]. apply wp_bind, wp_time_now. intros b1 now E Hn _.
  assert (Accounted None b1) as Hb1 by (by eapply stable_gate).
  destruct (au_expires_at a <? now)%Z eqn:Et; [done|]. apply Z.ltb_ge in Et.
  unfold gate in E. injection E as E1 E2 E3 E4 E5.
  apply wp_bind, wp_modify, wp_bind, wp_modify. apply accounted_consumed. split.
  - apply (Accounted_consume _ a _ _ b1); congruence.
  - simpl. apply elem_of_app. left. rewrite E5. by eapply acc_auths.
Qed.

Lemma new_server_gate uid now b : new_server uid now = Ok b -> gate b = (None, [], [], None, []).
Proof.
  unfold new_server, new_broker. destruct (check_not_root uid) as [[]|]; simpl; [|done].
  by intros [= <-].
Qed.
Lemma accounted_new uid now b : new_server uid now = Ok b -> Accounted None b.
Proof.
  intros H%new_server_gate. unfold gate in H. injection H as E1 E2 E3 E4 E5.
  split; unfold is_pending; rewrite ?E3, ?E4, ?E5; try done; [|by apply NoDup_nil].
  intros past e future H. by destruct past.
Qed.

End Accounting.

(** ** The socket alone authorizes nothing *)
Definition Unissued (b : Broker) : Prop :=
  bk_auths b = [] /\ bk_pending b = None /\ bk_ledger b = [].
#[export] Instance Unissued_lasting : Lasting Unissued.
Proof.
  unfold Unissued. split; [split|..].
  - unfold gate. intros b b' E _. injection E as E1 E2 E3 E4 E5. by rewrite E3, E4, E5.
  - intros b p method url frame Hp _ (_ & H & _). congruence.
  - intros b s (H1 & H2 & H3). done.
  - intros b id node obj H. exact H.
Qed.

Section Socket.
Context {world : BrowserWorld}.
(** Without an authorization a submission is refused, and sends nothing. *)
Definition refused_by (b b' : Broker) (r : result response) : Prop :=
  gate b' = gate b /\ bk_sent b' = bk_sent b /\
  match r with Ok resp => vget "status" resp = VStr "error" | Raise _ => True end.
Lemma unissued_submit target auth_id b :
  bk_auths b = [] -> wp (submit target auth_id) b (refused_by b).
Proof.
  intros Hb. unfold submit, when_running, is_running, draw, refuse_submit.
  assert (forall k, lookup k (A := authorization) [] = Ok None \/
                    exists e, lookup k (A := authorization) [] = Raise e) as L.
  { intros k. destruct k; simpl; eauto. }
  do 2 apply wp_bind. apply wp_gets. destruct (bk_process b) as [pid|]; [|done].
  unfold wp at 1. destruct (bw_alive pid (bk_tick b)); [|done].
  destruct (negb (truthy auth_id)); [done|]. apply wp_bind, wp_gets, wp_bind, wp_of_result.
  cbv beta. change (bk_auths (b <| bk_tick := S (bk_tick b) |>)) with (bk_auths b). rewrite Hb.
  by destruct (L auth_id) as [->|[e ->]].
Qed.

(** No sequence of lines on the socket, events and closings issues an
    authorization: nothing unsafe is ever let through, and every submission is
    refused with nothing sent. *)
Theorem socket_never_submits (uid now : Z) (os : list operation) (b : Broker) :
  new_server uid now = Ok b -> (forall t s e, Authorize t s e ∉ os) ->
  let b' := perform_all os b in
  bk_ledger b' = [] /\ forall target auth_id, wp (submit target auth_id) b' (refused_by b').
Proof.
  intros Hn%new_server_gate Ho. assert (Unissued (perform_all os b)) as (H1 & H2 & H3).
  { apply (keeps_perform_all Unissued).
    - intros t a b0 Hb0. eapply wp_mono; [apply unissued_submit, Hb0|].
      intros b1 r (E & _). injection E as E1 E2 E3 E4 E5.
      unfold Unissued. by rewrite E3, E4, E5.
    - intros t s e H. by apply Ho in H.
    - unfold gate in Hn. unfold Unissued. injection Hn as E1 E2 E3 E4 E5. by rewrite E3, E4, E5. }
  split; [done|]. intros. by apply unissued_submit.
Qed.
End Socket.

(** ** Sessions *)
(** Targets and authorizations are of the current session. *)
Definition InSession (b : Broker) : Prop :=
  Forall (fun t => tg_session t = bk_session b) (dvalues (bk_targets b)) /\
  Forall (fun a => au_session a = bk_session b) (dvalues (bk_auths b)).
#[export] Instance InSession_lasting : Lasting InSession.
Proof.
  unfold InSession. split; [split|..].
  - unfold gate. intros b b' E _. injection E as E1 E2 E3 E4 E5. by rewrite E1, E2, E3.
  - done.
  - intros b s _. split; apply Forall_nil_2.
  - intros b id node obj [H1 H2]. split; [by apply dset_Forall|done].
Qed.
Lemma InSession_pending p b : InSession b -> InSession (b <| bk_pending := p |>).
Proof. done. Qed.
Lemma Stable_session s : Stable (fun b => bk_session b = s).
Proof. split; [|done]. unfold gate. intros b b' E _ <-. by injection E. Qed.

Section Sessions.
Context {world : BrowserWorld}.
#[local] Hint Resolve InSession_pending : keeps.

Lemma in_session_issue_auth target session expires :
  preserves InSession (issue_auth target session expires).
Proof.
  unfold issue_auth. apply keeps_when_running; [apply _|]. apply keeps_with_target; try apply _.
  intros t b Hb. apply wp_bind, wp_gets.
  set (Here := fun b' => InSession b' /\ bk_session b' = bk_session b).
  assert (Stable Here) by (apply Stable_and; [apply _|apply Stable_session]).
  assert (forall target frame val, preserves Here
            (authorize_form target (bk_session b) expires frame val)) as A.
  { intros. unfold authorize_form. repeat (apply preserves_bind; [solve [auto with keeps]|intros]).
    intros b1 [[H1 H2] E]. apply wp_bind, wp_modify, wp_bind, wp_modify, wp_ret.
    repeat split; simpl; [done|by apply dset_Forall|done]. }
  eapply (wp_mono _ _ (fun b' _ => Here b')); [|by intros b1 r [? _]].
  match goal with |- wp ?m _ _ => assert (preserves Here m) as K by (auto 40 with keeps) end.
  by apply K.
Qed.
Lemma in_session_submit target auth_id : preserves InSession (submit target auth_id).
Proof.
  assert (forall p, preserves InSession (modify (fun b => b <| bk_pending := p |>))) as D
    by (intros p; apply preserves_modify; auto with keeps).
  assert (forall i, preserves InSession (modify (fun b => b <| bk_auths := ddel i (bk_auths b) |>))).
  { intros i. apply preserves_modify. intros b [H1 H2]. split; [done|by apply ddel_Forall]. }
  assert (forall e, preserves InSession (enter e)) by (intros e; by apply preserves_modify).
  assert (preserves InSession drop_pending) by apply D.
  unfold submit, refuse_submit, submit_form. auto 60 with keeps.
Qed.

(** Every target and authorization the broker holds is of the current
    session: those of a browser that was stopped or started again are unknown. *)
Theorem sessions_separated (uid now : Z) (os : list operation) (b : Broker) :
  new_server uid now = Ok b -> InSession (perform_all os b).
Proof.
  intros Hn%new_server_gate. apply (keeps_perform_all InSession).
  - apply in_session_submit.
  - intros. apply in_session_issue_auth.
  - injection Hn as E1 E2 E3 E4 E5. unfold InSession. by rewrite E2, E3.
Qed.
End Sessions.

(** ** What the gate does to a request *)
Section Requests.
Context {world : BrowserWorld}.

(** The event of a request the browser paused, as the protocol gives it. *)
Definition paused (id : pyval) (method url frame : string) : pyval :=
  VDict [("requestId", id);
         ("request", VDict [("method", VStr method); ("url", VStr url)]); ("frameId", VStr frame)].
(** Whether a request is let through: it is safe, or the one authorized. *)
Definition permitted (b : Broker) (method url frame : string) : bool :=
  str_in (upper method) safe_methods ||
  match bk_pending b with
  | None => false
  | Some p =>
      (au_method (pn_auth p) =s upper method)
      && (without_fragment url =s without_fragment (au_url (pn_auth p)))
      && (au_frame (pn_auth p) =s frame)
  end.
Definition verdict (b : Broker) (id : pyval) (method url frame : string) : Sent :=
  if permitted b method url frame then mkSent "Fetch.continueRequest" [("requestId", id)]
  else mkSent "Fetch.failRequest" [("requestId", id); ("errorReason", VStr "AccessDenied")].

(** A paused request gets one answer: it continues exactly when it is safe or
    the one a submission awaits, which is then no longer awaited, and fails
    otherwise; authorizations and session stay. *)
Theorem paused_verdict (b : Broker) (id : pyval) (method url frame : string) :
  bk_connected b = true ->
  wp (request_paused (paused id method url frame)) b (fun b' r =>
    r = Ok tt /\ bk_sent b' = bk_sent b ++ [verdict b id method url frame] /\
    bk_auths b' = bk_auths b /\ bk_session b' = bk_session b /\
    bk_pending b' = if permitted b method url frame && negb (str_in (upper method) safe_methods)
                    then None else bk_pending b).
Proof.
  intros Hc. unfold verdict, permitted, request_paused, paused.
  assert (forall m p b0, bk_connected b0 = true ->
    send_cdp_async m p b0 = (b0 <| bk_sent := bk_sent b0 ++ [mkSent m p] |>, Ok tt)) as Send.
  { intros m p b0 E. unfold send_cdp_async, gets, mbind, M_bind. by rewrite E. }
  apply wp_bind, wp_of_result.
  change (py_get "requestId" _ _) with (Ok id : result pyval).
  apply wp_bind, wp_of_result.
  change (py_get "request" _ _) with (Ok (VDict [("method", VStr method); ("url", VStr url)]) : result pyval).
  apply wp_bind, wp_of_result. change (py_get "method" _ _) with (Ok (VStr method) : result pyval).
  apply wp_bind, wp_of_result. change (as_text _) with (Ok method : result string).
  apply wp_bind, wp_of_result. change (py_get "url" _ _) with (Ok (VStr url) : result pyval).
  cbv beta iota zeta. destruct (str_in (upper method) safe_methods); [by unfold wp; rewrite Send|].
  apply wp_bind, wp_gets. destruct (bk_pending b) as [p|] eqn:Hp;
    [|by unfold wp, fail_request; rewrite Send].
  apply wp_bind, wp_of_result. change (py_get "frameId" _ _) with (Ok (VStr frame) : result pyval).
  apply wp_bind, wp_of_result. unfold request_matches, as_text, is_text.
  destruct (au_method (pn_auth p) =s upper method); cbn [negb orb andb]; cbv beta iota zeta;
    [|by unfold wp, fail_request; rewrite Send].
  destruct (_ && _); [|by unfold wp, fail_request; rewrite Send].
  apply wp_bind, wp_modify, wp_bind, wp_modify, wp_bind, wp_of_result.
  change (get_b64_post _) with (Ok VNone : result pyval). cbv beta iota.
  unfold wp. by rewrite Send.
Qed.
End Requests.

(** ** Waiting for the page *)
Lemma Stable_clock t : Stable (fun b => (t <= bk_now b)%Z).
Proof. split; [intros b b' _ H1 H2; lia|done]. Qed.

Section Polling.
Context {world : BrowserWorld}.
Lemma bind_run {S A B} (m : M S A) (f : A -> M S B) s :
  (m ≫= f) s = match m s with (s', Ok a) => f a s' | (s', Raise e) => (s', Raise e) end.
Proof. done. Qed.
Lemma poll_page_enough n k deadline obs b :
  (deadline <= bk_now b + Z.of_nat n * (second / 2))%Z ->
  poll_page (S n + k) deadline obs b = poll_page (S n) deadline obs b.
Proof.
  revert obs b. induction n as [|n IH]; intros obs b Hb; cbn [poll_page Nat.add];
    rewrite !bind_run; destruct (wp_elim _ _ _ (wp_time_now b
      (fun b' r => bk_now b <= bk_now b' /\ r = Ok (bk_now b'))%Z
      (fun b' now _ H E => conj H (f_equal Ok (eq_sym E))))) as (b1 & r & -> & Hn & ->).
  - destruct (_ <=? _)%Z eqn:E; [done|]. apply Z.leb_gt in E. lia.
  - destruct (_ <=? _)%Z eqn:E; [done|]. rewrite !bind_run. unfold sleep, modify.
    set (b2 := b1 <| bk_now := (bk_now b1 + second / 2)%Z |>).
    rewrite !bind_run. assert (wp observe_with_timeout b2 (fun b3 _ => bk_now b2 <= bk_now b3)%Z) as H3
      by (apply (keeps_observe_with _ (Stable0 := Stable_clock (bk_now b2))); lia).
    unfold wp in H3. destruct (observe_with_timeout b2) as [b3 [c|e]]; [|done].
    assert (deadline <= bk_now b3 + Z.of_nat n * (second / 2))%Z as H4.
    { change (bk_now b2) with (bk_now b1 + second / 2)%Z in H3.
      rewrite Nat2Z.inj_succ, Z.mul_succ_l in Hb. lia. }
    destruct (is_ok_response c); [|by apply IH].
    rewrite !bind_run. unfold of_result. destruct (py_get _ _ _) as [u|e]; [|done].
    destruct (_ && _); [done|by apply IH].
Qed.
(** Eight seconds in steps of half a second: after seventeen rounds the wait
    for the page of a submission is over, whatever the page and the clock do. *)
Theorem poll_page_ends (k : nat) (obs : response) (b : Broker) :
  let deadline := (bk_now b + 8 * second)%Z in
  poll_page (poll_fuel + k) deadline obs b = poll_page poll_fuel deadline obs b.
Proof. apply (poll_page_enough 16), Z.add_le_mono_l. by vm_compute. Qed.
End Polling.
