(* ===== verification/BrokerClient.v ===== *)
(** * The client of the browser broker

    [runtime/browser/manager.py]: the requests [BrowserSessionManager] sends on
    the broker's socket, each on a connection of its own, and what it makes of
    the responses.  The connection, and how much of a response has arrived when
    it is read, are arguments. *)
From S2P Require Import Prelude Dict PyVal Effects PyStr PyBytes Json JsonLoad Config Identity.
From S2P Require Import Broker BrokerGate.

(** Whether the socket exists, whether a connection opens, and the number of
    bytes that [recv] finds, at least one, or the failure it ends in. *)
Class Ipc := {
  ipc_socket : nat -> bool;
  ipc_connect : nat -> result unit;
  ipc_arrived : nat -> result nat }.

Section Client.
Context {world : BrowserWorld} {ipc : Ipc}.
Definition RECV_BYTES : nat := Z.to_nat 4096.
Definition encode_line (v : pyval) : string := utf8_encode (dumps false v +:+ newline).
(** One exchange on a connection. *)
Definition exchange_line (payload : dict string pyval) : M Broker pyval :=
  c ← draw ipc_connect;
  of_result c ;;
  resp ← handle (encode_line (VDict payload));
  n ← draw ipc_arrived;
  n ← of_result n;
  let written := match resp with Some r => encode_line (VDict r) | None => "" end in
  let data := string_take (Nat.min RECV_BYTES (S n)) written in
  if data =s "" then mret (VDict (error_response "Empty response from broker"))
  else s ← of_result (utf8_decode data); of_result (json_loads (strip s)).
(** [_send_ipc] *)
Definition send_ipc (command : string) (kwargs : list (string * pyval)) : M Broker pyval :=
  there ← draw ipc_socket;
  if negb there then mret (VDict (error_response "Broker unavailable"))
  else
    except_all (exchange_line (foldl (fun d kv => dset kv.1 kv.2 d) [("command", VStr command)] kwargs))
      (fun e => mret (VDict (error_response (exn_str e)))).

(** *** The methods *)
Definition client_launch (url : pyval) : M Broker unit :=
  res ← send_ipc "START_BROWSER" [("url", url)];
  status ← of_result (py_get "status" VNone res);
  if is_text "ok" status then mret tt
  else of_result (py_get "message" VNone res) ;; mret tt.
Definition client_hide : M Broker pyval := send_ipc "HIDE_BROWSER" [].
Definition client_navigate (url : pyval) : M Broker pyval := send_ipc "NAVIGATE" [("url", url)].
Definition client_restart : M Broker pyval := send_ipc "RESTART_BROWSER" [].
Definition client_get_status : M Broker pyval := send_ipc "STATUS" [].
Definition client_is_running : M Broker bool :=
  res ← client_get_status;
  status ← of_result (py_get "status" VNone res);
  if is_text "ok" status then
    running ← of_result (py_get "running" VNone res);
    mret (match running with VBool b => b | _ => false end)
  else mret false.
Definition client_terminate : M Broker unit := send_ipc "STOP_BROWSER" [] ;; mret tt.
Definition client_navigate_action (action : pyval) : M Broker pyval :=
  send_ipc "NAVIGATE_ACTION" [("action", action)].
Definition client_observe : M Broker pyval := send_ipc "OBSERVE" [].
Definition client_find (query : pyval) : M Broker pyval := send_ipc "FIND" [("query", query)].
Definition client_click (t : pyval) : M Broker pyval := send_ipc "CLICK" [("target_id", t)].
Definition client_type (t text : pyval) : M Broker pyval :=
  send_ipc "TYPE" [("target_id", t); ("text", text)].
Definition client_fill (t text : pyval) : M Broker pyval :=
  send_ipc "FILL" [("target_id", t); ("text", text)].
Definition client_clear (t : pyval) : M Broker pyval := send_ipc "CLEAR" [("target_id", t)].
Definition client_select (t option_identity : pyval) : M Broker pyval :=
  send_ipc "SELECT" [("target_id", t); ("option_identity", option_identity)].
Definition client_check (t : pyval) : M Broker pyval := send_ipc "CHECK" [("target_id", t)].
Definition client_uncheck (t : pyval) : M Broker pyval := send_ipc "UNCHECK" [("target_id", t)].
Definition client_issue_authorization (t session expires_in : pyval) : M Broker pyval :=
  send_ipc "ISSUE_AUTH" [("target_id", t); ("session_id", session); ("expires_in", expires_in)].
Definition client_submit (t auth_id : pyval) : M Broker pyval :=
  send_ipc "SUBMIT" [("target_id", t); ("auth_id", auth_id)].

(** ** A request arrives as it was sent *)
Lemma printable_spec c : printable c = true ->
  (N_of_ascii c <? 128)%N = true /\ Ascii.eqb c (ascii_of_N 10) = false.
Proof. destruct c as [[] [] [] [] [] [] [] []]; intros H; (by vm_compute in H) || done. Qed.
Lemma printable_encoded s t :
  all_chars printable s = true -> utf8_encode (s +:+ t) = s +:+ utf8_encode t.
Proof.
  induction s as [|c s IH]; [done|]. intros [Hc Hs]%andb_prop. apply printable_spec in Hc as [Hc _].
  rewrite !string_app_cons. cbn [utf8_encode]. by rewrite Hc, IH.
Qed.
Lemma printable_decoded s : all_chars printable s = true -> utf8_decode s = Ok s.
Proof.
  induction s as [|c s IH]; [done|]. intros [Hc Hs]%andb_prop. apply printable_spec in Hc as [Hc _].
  cbn [utf8_decode]. by rewrite Hc, IH.
Qed.
Lemma printable_line n s :
  all_chars printable s = true -> String.length s < n -> readline n (s +:+ newline) = s +:+ newline.
Proof.
  revert n. induction s as [|c s IH]; intros n Hs Hn; [by destruct n as [|[]]; [lia|..]|].
  apply andb_prop in Hs as [[_ Hc]%printable_spec Hs]. destruct n as [|n]; [simpl in Hn; lia|].
  rewrite string_app_cons. cbn [readline]. rewrite Hc, IH; [done|done|simpl in Hn; lia].
Qed.
Lemma rstrip_line s c :
  ascii_space c = false -> rstrip_bytes (s +:+ String c newline) = s +:+ String c "".
Proof.
  intros Hc. induction s as [|x s IH].
  - simpl. by rewrite Hc.
  - rewrite !string_app_cons. cbn [rstrip_bytes]. rewrite IH. by destruct s.
Qed.

Definition served (command : string) (r : dict string pyval) : M Broker (option response) :=
  except_all (resp ← dispatch_command command r; mret (Some resp))
    (fun _ => mret (Some (error_response "Internal broker error"))).
Lemma printed_bytes v : plain v -> (exists d, v = VDict d) -> loads_bytes (dumps false v) = Ok v.
Proof.
  intros Hp [d ->]. pose proof (dumps_printable _ Hp) as Ht.
  unfold loads_bytes. rewrite printable_decoded by done.
  destruct (printed_dict d) as [s Es]. rewrite Es in Ht.
  assert (exists c w, s +:+ "}" = String c w) as (c & w & Ew) by (destruct s; simpl; eauto).
  rewrite Ew in Ht. simpl in Ht. apply andb_prop in Ht as [Hc _].
  assert (N.eqb (N_of_ascii c) 0 = false) as E0.
  { destruct c as [[] [] [] [] [] [] [] []]; (by vm_compute in Hc) || done. }
  rewrite Es, Ew. cbn [String.get]. rewrite E0, orb_false_r.
  change (bool_decide _) with false. cbv iota. rewrite <-Ew, <-Es.
  destruct (json_round_trip _ false (VDict d) Hp) as [H _].
  change (json_loads (dumps false (VDict d)) = Ok (VDict d)). by rewrite H, ordered_same.
Qed.
(** A request the client sends that fits the broker's line reaches the
    dispatch as it was given, or is refused by the schema as it was given. *)
Theorem request_arrives (payload : dict string pyval) (b : Broker) :
  plain (VDict payload) -> String.length (dumps false (VDict payload)) < MAX_REQUEST_BYTES ->
  handle (encode_line (VDict payload)) b =
  match validate_schema (VDict payload) with
  | inl err => (b, Ok (Some (error_response err)))
  | inr (command, r) => served command r b
  end.
Proof.
  intros Hp Hl. unfold handle, encode_line.
  rewrite (printable_encoded _ newline) by (by apply dumps_printable).
  change (utf8_encode newline) with newline.
  rewrite printable_line by (done || by apply dumps_printable).
  destruct (printed_dict payload) as [s Es].
  assert (rstrip_bytes (lstrip_bytes (dumps false (VDict payload) +:+ newline))
          = dumps false (VDict payload)) as ->.
  { rewrite Es. change (String "{" (s +:+ "}")) with (String "{" s +:+ "}").
    rewrite string_app_assoc. rewrite string_app_cons. cbn [lstrip_bytes].
    change (ascii_space "{") with false. cbv iota. rewrite <-string_app_cons.
    by apply rstrip_line. }
  destruct (dumps false (VDict payload) =s "") eqn:E0.
  { apply String.eqb_eq in E0. by rewrite Es in E0. }
  rewrite printed_bytes by eauto.
  destruct (validate_schema _) as [err|[command r]] eqn:Ev; [done|]. by unfold served.
Qed.

(** What part of the response says that the command is unknown. *)
Definition unknown_command : response := error_response "Unknown command: 'ISSUE_AUTH'".
Definition is_refusal (v : pyval) : bool :=
  match v with VDict d => is_text "error" (vget "status" d) | _ => false end.
Definition refusal_or_error (r : result pyval) : bool :=
  match r with Ok v => is_refusal v | Raise _ => true end.
Lemma refusal_prefixes :
  forallb (fun n => refusal_or_error (json_loads (strip (string_take n (encode_line (VDict unknown_command))))))
    (seq 0 65) = true.
Proof. by vm_compute. Qed.
Lemma string_take_all n s : String.length s <= n -> string_take n s = s.
Proof.
  revert n. induction s as [|c s IH]; intros [|n] H; simpl in *; try done; [lia|].
  f_equal. apply IH. lia.
Qed.
(** However much of the refusal has arrived, it is not an authorization. *)
Lemma refusal_read n s : utf8_decode (string_take n (encode_line (VDict unknown_command))) = Ok s ->
  refusal_or_error (json_loads (strip s)) = true.
Proof.
  assert (forall k, k < 65 -> refusal_or_error (json_loads (strip (string_take k (encode_line (VDict unknown_command))))) = true) as K.
  { intros k Hk. pose proof refusal_prefixes as H. rewrite forallb_forall in H. apply H, in_seq. lia. }
  assert (forall k, k < 65 -> utf8_decode (string_take k (encode_line (VDict unknown_command)))
                              = Ok (string_take k (encode_line (VDict unknown_command)))) as D.
  { intros k Hk. do 65 (destruct k as [|k]; [by vm_compute|]). lia. }
  destruct (decide (n < 65)) as [Hn|Hn].
  - rewrite D by done. intros H. replace s with (string_take n (encode_line (VDict unknown_command))) by congruence. by apply K.
  - rewrite string_take_all by (vm_compute; vm_compute in Hn; lia).
    rewrite <-(string_take_all 64 (encode_line _)) by (by vm_compute).
    rewrite D by lia. intros H. replace s with (string_take 64 (encode_line (VDict unknown_command))) by congruence.
    apply K. lia.
Qed.

(** Asked by its client for an authorization, a broker in any state refuses:
    the command is not in its table, so it issues none and sends nothing. *)
Theorem authorization_unavailable (t session expires : pyval) (b : Broker) :
  let payload := [("command", VStr "ISSUE_AUTH"); ("target_id", t); ("session_id", session);
                  ("expires_in", expires)] in
  plain (VDict payload) -> String.length (dumps false (VDict payload)) < MAX_REQUEST_BYTES ->
  wp (client_issue_authorization t session expires) b (fun b' r =>
    gate b' = gate b /\ bk_sent b' = bk_sent b /\ forall v, r = Ok v -> is_refusal v = true).
Proof.
  intros payload Hp Hl. unfold client_issue_authorization, send_ipc, exchange_line, draw.
  apply wp_bind. unfold wp at 1. destruct (ipc_socket _); cbn [negb].
  2:{ apply wp_ret. split_and!; [done..|]. by intros v [= <-]. }
  change (foldl _ _ _) with payload.
  assert (forall e b', gate b' = gate b -> bk_sent b' = bk_sent b ->
    wp (match exn_type e with Unmodelled => rethrow e
        | _ => mret (VDict (error_response (exn_str e))) end : M Broker pyval) b'
      (fun b' r => gate b' = gate b /\ bk_sent b' = bk_sent b /\
                   forall v, r = Ok v -> is_refusal v = true)) as H.
  { intros e b' E1 E2. destruct (exn_type e); split_and!; try done; by intros v [= <-]. }
  apply wp_try_with, wp_bind. unfold wp at 1. apply wp_bind, wp_of_result.
  destruct (ipc_connect _) as [[]|e]; [|by apply H].
  apply wp_bind. unfold wp at 1. rewrite request_arrives by done.
  change (validate_schema (VDict payload)) with
    (inl "Unknown command: 'ISSUE_AUTH'" : string + (string * dict string pyval)).
  cbv iota. apply wp_bind. unfold wp at 1. apply wp_bind, wp_of_result.
  destruct (ipc_arrived _) as [n|e]; [|by apply H].
  cbv zeta iota. destruct (_ =s "") eqn:E0; [by split_and!; [..|intros v [= <-]]|].
  apply wp_bind, wp_of_result. destruct (utf8_decode _) as [s|e] eqn:Es; [|by apply H].
  apply wp_of_result. apply refusal_read in Es.
  destruct (json_loads (strip s)) as [v|e]; [|by apply H].
  split_and!; [done..|]. by intros v' [= <-].
Qed.
End Client.
