(* ===== verification/Compute.v ===== *)
(** * Remote compute

    [runtime/compute/]: the data of remote sessions (models.py), the registry of
    observed capabilities (registry.py), the two transports to Google Colab and
    the provider that routes to them (colab.py), the discovery of resources
    (discovery.py).  Sessions and jobs are objects the callers share, so they
    live in a heap and are held by reference.  The colab program, the MCP server
    and the clock are arguments that answer anything. *)
From S2P Require Import Prelude Dict PyVal Effects PyStr Json JsonLoad.

(** ** Data *)
Inductive RemoteSessionState :=
  | RS_DISCONNECTED | RS_AUTH_PENDING | RS_CONNECTING | RS_PROVISIONING | RS_CONNECTED | RS_AUDITING
  | RS_READY | RS_DEGRADED | RS_EXPIRED | RS_FAILED | RS_TERMINATING | RS_TERMINATED.
#[export] Instance RemoteSessionState_eq_dec : EqDecision RemoteSessionState.
Proof. solve_decision. Defined.
Definition session_states : list (string * RemoteSessionState) :=
  [("DISCONNECTED", RS_DISCONNECTED); ("AUTH_PENDING", RS_AUTH_PENDING); ("CONNECTING", RS_CONNECTING);
   ("PROVISIONING", RS_PROVISIONING); ("CONNECTED", RS_CONNECTED); ("AUDITING", RS_AUDITING);
   ("READY", RS_READY); ("DEGRADED", RS_DEGRADED); ("EXPIRED", RS_EXPIRED); ("FAILED", RS_FAILED);
   ("TERMINATING", RS_TERMINATING); ("TERMINATED", RS_TERMINATED)].
Definition remote_state_value (s : RemoteSessionState) : string :=
  match find (fun kv => bool_decide (kv.2 = s)) session_states with Some kv => kv.1 | None => "" end.
(** [RemoteSessionState.NAME] *)
Definition remote_state (name : string) : result RemoteSessionState :=
  match dget name session_states with
  | Some s => Ok s
  | None => raise AttributeError ("type object 'RemoteSessionState' has no attribute '" +:+ name +:+ "'")
  end.
Inductive TrustLevel := TL_UNKNOWN | TL_DECLARED | TL_OBSERVED.
Inductive ExecutionClassification := EC_TEST | EC_MOCK | EC_EMULATED | EC_REAL_REMOTE.
Record TrustProfile := mkTrust {
  tp_cpu : TrustLevel; tp_cores : TrustLevel; tp_ram : TrustLevel; tp_gpu_present : TrustLevel;
  tp_gpu_vendor : TrustLevel; tp_gpu_model : TrustLevel; tp_vram : TrustLevel;
  tp_accelerator_type : TrustLevel; tp_runtime : TrustLevel; tp_python_version : TrustLevel }.
Definition trust_accelerator (l : TrustLevel) : TrustProfile :=
  mkTrust TL_UNKNOWN TL_UNKNOWN TL_UNKNOWN TL_UNKNOWN TL_UNKNOWN TL_UNKNOWN TL_UNKNOWN l TL_UNKNOWN
    TL_UNKNOWN.
Record RemoteComputeResourceProfile := mkProfile {
  rp_cpu : option string; rp_cores : option Z; rp_ram : option Z; rp_gpu_present : option bool;
  rp_gpu_vendor : option string; rp_gpu_model : option string; rp_vram : option Z;
  rp_accelerator_type : option string; rp_runtime : option string; rp_python_version : option string;
  rp_observed_at : option Z; rp_trust_levels : TrustProfile }.
Record RemoteComputeLease := Lease {
  ls_expires_at : Z; ls_lease_id : option string; ls_session_id : option string;
  ls_issued_at : option Z; ls_max_runtime : option Z; ls_renewable : bool;
  ls_renewal_policy : option string }.
Definition mkLease (expires_at : Z) (issued_at : option Z) : RemoteComputeLease :=
  Lease expires_at None None issued_at None true None.
Record RemoteComputeArtifact := mkArtifact {
  ra_artifact_id : string; ra_job_id : string; ra_artifact_type : string; ra_reference : string;
  ra_sha256 : string; ra_size : Z; ra_created_at : Z; ra_source_session : string }.
(** A job, with the attributes the transports set on it. *)
Record RemoteComputeJob := Job {
  jb_job_id : string;
  jb_session_id : string;
  jb_work_package_ref : string;
  jb_created_at : Z;
  jb_status : string;
  jb_deadline : Z;
  jb_resource_limits : dict string pyval;
  jb_network_policy : string;
  jb_started_at : option Z;
  jb_finished_at : option Z;
  jb_artifact_refs : list string;
  jb_evidence_ref : option string;
  jb_code : option string;
  jb_script : option string;
  jb_state : option string;
  jb_error : option string;
  jb_stdout : option string;
  jb_stderr : option string }.
#[export] Instance eta_Job : Eta RemoteComputeJob := fun r =>
  Job (jb_job_id r) (jb_session_id r) (jb_work_package_ref r) (jb_created_at r) (jb_status r)
    (jb_deadline r) (jb_resource_limits r) (jb_network_policy r) (jb_started_at r) (jb_finished_at r)
    (jb_artifact_refs r) (jb_evidence_ref r) (jb_code r) (jb_script r) (jb_state r) (jb_error r)
    (jb_stdout r) (jb_stderr r).
(** A job as its constructor leaves it, then given its code. *)
Definition mkJob (job_id session_id work_package_ref : string) (created_at : Z) (status : string)
    (deadline : Z) (code : option string) : RemoteComputeJob :=
  Job job_id session_id work_package_ref created_at status deadline [] "DENY_ALL" None None [] None
    code None None None None None.
Record RemoteComputeSession := Session {
  rc_session_id : string;
  rc_provider_id : string;
  rc_state : RemoteSessionState;
  rc_classification : ExecutionClassification;
  rc_lease : option RemoteComputeLease;
  rc_profile : option RemoteComputeResourceProfile;
  rc_requested_accelerator : option string;
  rc_assigned_accelerator : option string;
  rc_observed_accelerator : option string;
  rc_created_at : option Z;
  rc_error : option string;
  rc_metadata : dict string pyval }.
#[export] Instance eta_Session : Eta RemoteComputeSession := fun r =>
  Session (rc_session_id r) (rc_provider_id r) (rc_state r) (rc_classification r) (rc_lease r)
    (rc_profile r) (rc_requested_accelerator r) (rc_assigned_accelerator r)
    (rc_observed_accelerator r) (rc_created_at r) (rc_error r) (rc_metadata r).
Definition mkSession (session_id provider_id : string) (s : RemoteSessionState)
    (cls : ExecutionClassification) (lease : option RemoteComputeLease)
    (requested : option string) (created_at : option Z) (metadata : dict string pyval) :=
  Session session_id provider_id s cls lease None requested None None created_at None metadata.

(** ** The world *)
(** What a run of the colab program comes to. *)
Inductive cli_outcome :=
  | Completed (returncode : Z) (stdout stderr : string)
  | CliMissing
  | CliTimedOut (msg : string)
  | CliRaises (e : exn).
(** The answer of an MCP tool: its error flag, and the text attribute and the
    representation of its first content. *)
Record ToolReply := mkToolReply { tl_error : bool; tl_content : option (option string * string) }.
(** [cw_run] knows the commands run before; the others are indexed by the number
    of answers drawn. *)
Class ColabWorld := {
  cw_floats :: FloatOps;
  cw_errors :: JsonErrors;
  cw_run : list (list string) -> cli_outcome;
  cw_clock : nat -> Z;
  cw_isoformat : Z -> string;
  cw_strftime : Z -> string;
  cw_uuid8 : nat -> string;
  cw_temp_file : nat -> result string;
  cw_unlink : nat -> result unit;
  cw_start : nat -> result unit;
  cw_call : string -> dict string string -> nat -> result ToolReply;
  cw_tools : nat -> result (list string);
  cw_set_text : list string -> string }.

(** ** State *)
Inductive ProviderAvailability := AVAILABLE | UNAVAILABLE | PA_UNKNOWN.
#[export] Instance ProviderAvailability_eq_dec : EqDecision ProviderAvailability.
Proof. solve_decision. Defined.
(** A provider with its two transports: the heap of sessions and jobs, the table
    of sessions, the program and what is known of it, the current bridge, the
    commands run, the calls made on each bridge, and the answers drawn. *)
Record Colab := mkColab {
  cb_sessions : list RemoteComputeSession;
  cb_jobs : list RemoteComputeJob;
  cb_table : dict string nat;
  cb_cli_path : option string;
  cb_availability : option ProviderAvailability;
  cb_cli_version : option string;
  cb_cli_help : option string;
  cb_bridge : option nat;
  cb_bridges : nat;
  cb_runs : list (list string);
  cb_calls : list (nat * string * dict string string);
  cb_tick : nat }.
#[export] Instance eta_Colab : Eta Colab := fun r =>
  mkColab (cb_sessions r) (cb_jobs r) (cb_table r) (cb_cli_path r) (cb_availability r)
    (cb_cli_version r) (cb_cli_help r) (cb_bridge r) (cb_bridges r) (cb_runs r) (cb_calls r)
    (cb_tick r).

Definition ColabCLIError : exn_class := OtherException "ColabCLIError".
Definition ColabCLINotFoundError : exn_class := OtherException "ColabCLINotFoundError".

Section Colab.
Context {world : ColabWorld}.

Definition answer {A} (f : nat -> A) : M Colab A := fun c =>
  (c <| cb_tick := S (cb_tick c) |>, Ok (f (cb_tick c))).
Definition utc_now : M Colab Z := answer cw_clock.
(** A reference that is not in the heap does not occur. *)
Definition get_session (r : nat) : M Colab RemoteComputeSession := fun c =>
  match cb_sessions c !! r with
  | Some s => (c, Ok s)
  | None => (c, raise Unmodelled "no such session")
  end.
Definition update_session (r : nat) (f : RemoteComputeSession -> RemoteComputeSession) : M Colab unit :=
  modify (fun c => c <| cb_sessions := alter f r (cb_sessions c) |>).
Definition set_session_state (r : nat) (s : RemoteSessionState) : M Colab unit :=
  update_session r (fun x => x <| rc_state := s |>).
Definition new_session (s : RemoteComputeSession) : M Colab nat := fun c =>
  (c <| cb_sessions := cb_sessions c ++ [s] |>, Ok (length (cb_sessions c))).
Definition get_job (j : nat) : M Colab RemoteComputeJob := fun c =>
  match cb_jobs c !! j with
  | Some x => (c, Ok x)
  | None => (c, raise Unmodelled "no such job")
  end.
Definition update_job (j : nat) (f : RemoteComputeJob -> RemoteComputeJob) : M Colab unit :=
  modify (fun c => c <| cb_jobs := alter f j (cb_jobs c) |>).
Definition new_job (x : RemoteComputeJob) : M Colab nat := fun c =>
  (c <| cb_jobs := cb_jobs c ++ [x] |>, Ok (length (cb_jobs c))).

(** ** Security helpers *)
Definition FORBIDDEN_CONTEXT_KEYS : list string :=
  ["credentials"; "token"; "private_keys"; "secret"; "api_key"; "password"; "cookie";
   "session_cookie"; "browser_cookie"].
(** The context of a provisioning; its lease duration is a time difference. *)
Record provision_context := mkProvision { pc_values : dict string pyval; pc_lease_duration : option Z }.
Definition assert_no_credentials (ctx : provision_context) : result unit :=
  match List.filter (fun k => dmem k (pc_values ctx)) FORBIDDEN_CONTEXT_KEYS with
  | [] => Ok tt
  | l => raise ValueError ("Security violation: forbidden keys in provision() context: " +:+ cw_set_text l)
  end.
Definition check_lease (r : nat) : M Colab unit :=
  s ← get_session r;
  match rc_lease s with
  | None => mret tt
  | Some l =>
      now ← utc_now;
      when (ls_expires_at l <? now)%Z (set_session_state r RS_EXPIRED)
  end.
Definition hour : Z := 3600000000.
Definition lease_duration (ctx : provision_context) : Z := default hour (pc_lease_duration ctx).
(** [context.get(k)] where a text is meant. *)
Definition text_or_none (k : string) (ctx : provision_context) : result (option string) :=
  match vget k (pc_values ctx) with
  | VStr s => Ok (if s =s "" then None else Some s)
  | v => if truthy v then raise Unmodelled "a context value of another type" else Ok None
  end.
Definition session_name (prefix : string) (ctx : provision_context) : M Colab string :=
  n ← of_result (text_or_none "session_name" ctx);
  match n with Some n => mret n | None => u ← answer cw_uuid8; mret (prefix +:+ u) end.

(** ** Status lines *)
(** The pieces of a regular expression, with what follows as a continuation
    that may fail, so that a repetition gives characters back. *)
Fixpoint literally {A} (p s : string) (k : string -> option A) : option A :=
  match p, s with
  | "", _ => k s
  | String a p', String b s' => if Ascii.eqb a b then literally p' s' k else None
  | _, "" => None
  end.
(** [p*] after [acc], longest first. *)
Fixpoint many {A} (p : ascii -> bool) (acc : string) (s : string) (k : string -> string -> option A)
    : option A :=
  match s with
  | String c s' =>
      if p c then
        match many p (acc +:+ String c "") s' k with
        | Some x => Some x
        | None => k acc s
        end
      else k acc s
  | "" => k acc s
  end.
Definition some {A} (p : ascii -> bool) (s : string) (k : string -> string -> option A) : option A :=
  match s with
  | String c s' => if p c then many p (String c "") s' k else None
  | "" => None
  end.
(** [p+?]: shortest first. *)
Fixpoint few {A} (p : ascii -> bool) (acc : string) (s : string) (k : string -> string -> option A)
    : option A :=
  match s with
  | String c s' =>
      if p c then
        let acc := acc +:+ String c "" in
        match k acc s' with Some x => Some x | None => few p acc s' k end
      else None
  | "" => None
  end.
Record status_line := mkStatusLine {
  sl_name : string; sl_backend_id : string; sl_hardware : string; sl_variant : string;
  sl_status : string }.
Definition blank (c : ascii) : bool := is_space c.
Definition inked (c : ascii) : bool := negb (is_space c).
Definition not_newline (c : ascii) : bool := negb (Ascii.eqb c (ascii_of_N 10)).
(** [\s*\|\s*label:\s*(\S+)] *)
Definition field_after {A} (label s : string) (k : string -> string -> option A) : option A :=
  many blank "" s (fun _ s => literally "|" s (fun s => many blank "" s (fun _ s =>
    literally label s (fun s => many blank "" s (fun _ s => some inked s k))))).
Definition status_here (s : string) : option status_line :=
  literally "[" s (fun s => few not_newline "" s (fun name s => literally "]" s (fun s =>
    some blank s (fun _ s => some inked s (fun backend s =>
      field_after "Hardware:" s (fun hardware s =>
        field_after "Variant:" s (fun variant s =>
          let line := mkStatusLine name backend hardware variant in
          match field_after "Status:" s (fun status _ => Some status) with
          | Some status => Some (line status)
          | None => Some (line "UNKNOWN")
          end))))))).
(** [_parse_session_status_line]: the first place where the pattern matches. *)
Fixpoint parse_session_status_line (s : string) : option status_line :=
  match status_here s with
  | Some l => Some l
  | None => match s with String _ s' => parse_session_status_line s' | "" => None end
  end.
Definition first_status (output : string) : option status_line :=
  head (omap parse_session_status_line (splitlines output)).

(** ** The program *)
Definition CLI_CANDIDATES : list string := ["colab"; "google-colab-cli"; "colab-cli"].
Definition find_cli (which : string -> option string) : option string :=
  head (omap which CLI_CANDIDATES).
Definition run_command (args : list string) : M Colab cli_outcome :=
  modify (fun c => c <| cb_runs := cb_runs c ++ [args] |>) ;;
  gets (fun c => cw_run (cb_runs c)).
Definition set_availability (a : ProviderAvailability) : M Colab ProviderAvailability :=
  modify (fun c => c <| cb_availability := Some a |>) ;; mret a.
Definition either (a b : string) : string := if a =s "" then b else a.
Definition probe_availability : M Colab ProviderAvailability :=
  path ← gets cb_cli_path;
  match path with
  | None => set_availability UNAVAILABLE
  | Some path =>
      r ← run_command [path; "version"];
      match r with
      | CliMissing | CliTimedOut _ => set_availability UNAVAILABLE
      | CliRaises e => rethrow e
      | Completed _ out err =>
          modify (fun c => c <| cb_cli_version := Some (strip (either out err)) |>) ;;
          r ← run_command [path; "--help"];
          let help := match r with Completed _ out err => Some (either out err) | _ => None end in
          modify (fun c => c <| cb_cli_help := help |>) ;;
          set_availability AVAILABLE
      end
  end.
Definition not_available (path : option string) : string :=
  "Colab CLI not available. cli_path="
  +:+ match path with Some p => py_repr_str p | None => "None" end
  +:+ ". Install google-colab-cli and re-run probe_availability().".
Definition assert_available : M Colab unit :=
  a ← gets cb_availability;
  (match a with None => probe_availability ;; mret tt | Some _ => mret tt end) ;;
  a ← gets cb_availability;
  path ← gets cb_cli_path;
  when (negb (bool_decide (a = Some AVAILABLE))) (throw ColabCLINotFoundError (not_available path)).
Definition determine_classification (confirmed : bool) : M Colab ExecutionClassification :=
  a ← gets cb_availability;
  mret (if bool_decide (a = Some AVAILABLE) && confirmed then EC_REAL_REMOTE else EC_TEST).
(** [_run_cli_raw] *)
Definition run_cli_raw (args : list string) : M Colab (Z * string * string) :=
  assert_available ;;
  path ← gets cb_cli_path;
  r ← run_command (default "" path :: args);
  match r with
  | Completed rc out err => mret (rc, out, err)
  | CliMissing => throw ColabCLINotFoundError ("CLI binary not found: " +:+ default "None" path)
  | CliTimedOut _ => throw ColabCLIError "CLI command timed out"
  | CliRaises e => rethrow e
  end.

(** ** The CLI transport *)
Definition cli_provision (ctx : provision_context) : M Colab nat :=
  of_result (assert_no_credentials ctx) ;;
  assert_available ;;
  name ← session_name "anny-" ctx;
  accelerator ← of_result (text_or_none "accelerator" ctx);
  r ← run_cli_raw (["new"; "--session"; name]
                   ++ match accelerator with Some a => ["--gpu"; a] | None => [] end);
  let '(rc, out, err) := r in
  if negb (rc =? 0)%Z then
    throw ColabCLIError ("colab new failed (exit " +:+ zstr rc +:+ "): " +:+ strip (either err out))
  else if negb (contains "Session READY" (out +:+ err)) then
    throw ColabCLIError ("Session creation did not confirm READY state. Output: "
                         +:+ py_repr_str (out +:+ err))
  else
    now ← utc_now;
    cls ← determine_classification true;
    new_session (mkSession name "google-colab" RS_CONNECTED cls
                   (Some (mkLease (now + lease_duration ctx) (Some now))) accelerator (Some now) []).
Definition cli_inspect (r : nat) : M Colab RemoteComputeResourceProfile :=
  check_lease r ;;
  s ← get_session r;
  if bool_decide (rc_state s = RS_EXPIRED \/ rc_state s = RS_TERMINATED) then
    throw RuntimeError ("Cannot inspect session in state " +:+ remote_state_value (rc_state s))
  else
    assert_available ;;
    out ← run_cli_raw ["status"; "--session"; rc_session_id s];
    let '(rc, out, err) := out in
    let line := if (rc =? 0)%Z then first_status (out +:+ err) else None in
    let hardware := sl_hardware <$> line in
    let gpu_present := (fun h => negb (h =s "CPU")) <$> hardware in
    update_session r (fun x => x <| rc_observed_accelerator := hardware |>) ;;
    now ← utc_now;
    mret (mkProfile None None None gpu_present None
            (if default false gpu_present then hardware else None) None hardware None None (Some now)
            (trust_accelerator (match hardware with Some _ => TL_OBSERVED | None => TL_UNKNOWN end))).
Definition state_of (r : nat) : M Colab RemoteSessionState := s ← get_session r; mret (rc_state s).
Definition ended (s : RemoteSessionState) : bool :=
  bool_decide (s = RS_EXPIRED \/ s = RS_TERMINATED \/ s = RS_FAILED).
Definition cli_health (r : nat) : M Colab RemoteSessionState :=
  check_lease r ;;
  s ← get_session r;
  if ended (rc_state s) then mret (rc_state s)
  else
    assert_available ;;
    out ← run_cli_raw ["status"; "--session"; rc_session_id s];
    let '(rc, out, err) := out in
    let output := out +:+ err in
    (if negb (rc =? 0)%Z || contains "not found" (lower output) then set_session_state r RS_TERMINATED
     else
       let status := upper (default "UNKNOWN" (sl_status <$> first_status output)) in
       if str_in status ["IDLE"; "BUSY"; "RUNNING"] then set_session_state r RS_CONNECTED
       else if status =s "TERMINATED" then set_session_state r RS_TERMINATED
       else if status =s "FAILED" then set_session_state r RS_FAILED
       else mret tt) ;;
    state_of r.
(** [getattr(job, "code", None) or getattr(job, "script", None)] *)
Definition job_code (j : RemoteComputeJob) : option string :=
  match jb_code j with
  | Some c => if c =s "" then jb_script j else Some c
  | None => jb_script j
  end.
Definition no_code : string := "RemoteComputeJob has no executable code payload.".
Definition cli_execute (r j : nat) : M Colab nat :=
  check_lease r ;;
  s ← get_session r;
  if bool_decide (rc_state s = RS_TERMINATED) then
    throw RuntimeError "Cannot execute on TERMINATED session."
  else if negb (bool_decide (rc_state s = RS_READY)) then
    throw RuntimeError ("Cannot execute. Session state is " +:+ remote_state_value (rc_state s)
                        +:+ ". Must be READY.")
  else
    assert_available ;;
    job ← get_job j;
    if negb (ostr_true (job_code job)) then throw ValueError no_code
    else
      tmp ← answer cw_temp_file;
      tmp ← of_result tmp;
      out ← try_finally (run_cli_raw ["exec"; "--session"; rc_session_id s; "--file"; tmp])
              (u ← answer cw_unlink; of_result u);
      let '(rc, out, err) := out in
      if negb (rc =? 0)%Z then
        let error := strip (either err out) in
        update_job j (fun x => x <| jb_state := Some "FAILED" |> <| jb_error := Some error |>) ;;
        throw ColabCLIError ("colab exec failed (exit " +:+ zstr rc +:+ "): " +:+ error)
      else
        update_job j (fun x => x <| jb_state := Some "COMPLETED" |> <| jb_stdout := Some out |>) ;;
        mret j.
Definition cli_collect (r j : nat) : M Colab (list RemoteComputeArtifact) :=
  check_lease r ;; assert_available ;; mret [].
Definition cli_terminate (r : nat) : M Colab unit :=
  s ← get_session r;
  try_finally
    (try_with
       (assert_available ;;
        run_cli_raw ["stop"; "--session"; rc_session_id s] ;; mret tt)
       (fun e => if decide (exn_type e = ColabCLINotFoundError \/ exn_type e = ColabCLIError)
                 then mret tt else rethrow e))
    (set_session_state r RS_TERMINATED).

(** ** The browser transport *)
Definition stop_bridge : M Colab unit := modify (fun c => c <| cb_bridge := None |>).
Definition new_bridge : M Colab unit :=
  modify (fun c => c <| cb_bridge := Some (cb_bridges c) |> <| cb_bridges := S (cb_bridges c) |>).
Definition call_tool (tool : string) (args : dict string string) : M Colab ToolReply :=
  b ← gets cb_bridge;
  modify (fun c => c <| cb_calls := cb_calls c ++ [(default 0 b, tool, args)] |>) ;;
  r ← answer (cw_call tool args);
  of_result r.
Definition failed_session (name : string) (now : Z) (ctx : provision_context) (msg : string) : M Colab nat :=
  stop_bridge ;;
  new_session (mkSession name "google-colab" RS_FAILED EC_TEST
                 (Some (mkLease (now + lease_duration ctx) (Some now))) None (Some now)
                 [("error", VStr msg)]).
Definition attach : M Colab unit :=
  res ← call_tool "open_colab_browser_connection" [];
  let text := match tl_content res with Some (t, _) => default "" t | None => "" end in
  when (tl_error res || (text =s "false"))
    (throw RuntimeError ("Connection timeout or denied: " +:+ text)).
Definition browser_provision (ctx : provision_context) : M Colab nat :=
  of_result (assert_no_credentials ctx) ;;
  name ← session_name "anny-browser-" ctx;
  accelerator ← of_result (text_or_none "accelerator" ctx);
  now ← utc_now;
  stop_bridge ;;
  new_bridge ;;
  started ← except_all (u ← answer cw_start; of_result u ;; mret (Ok tt)) (fun e => mret (Raise e));
  match started with
  | Raise e => failed_session name now ctx ("MCP Start Failed: " +:+ exn_str e)
  | Ok _ =>
      attached ← except_all (attach ;; mret (Ok tt)) (fun e => mret (Raise e));
      match attached with
      | Raise e => failed_session name now ctx ("Browser attach failed: " +:+ exn_str e)
      | Ok _ =>
          new_session (mkSession name "google-colab" RS_READY EC_REAL_REMOTE
                         (Some (mkLease (now + lease_duration ctx) (Some now))) accelerator (Some now)
                         [("transport", VStr "browser"); ("browser_state", VStr "ATTACHED")])
      end
  end.
Definition browser_inspect (r : nat) : M Colab RemoteComputeResourceProfile :=
  check_lease r ;;
  now ← utc_now;
  mret (mkProfile None None None None None None None None None None (Some now)
          (trust_accelerator TL_UNKNOWN)).
Definition list_tools : M Colab (list string) := t ← answer cw_tools; of_result t.
Definition browser_health (r : nat) : M Colab RemoteSessionState :=
  check_lease r ;;
  s ← state_of r;
  if ended s then mret s
  else
    b ← gets cb_bridge;
    (match b with
     | None => set_session_state r RS_TERMINATED
     | Some _ =>
         except_all (list_tools ;; set_session_state r RS_READY)
           (fun _ => set_session_state r RS_TERMINATED)
     end) ;;
    state_of r.
Definition EXEC_TOOLS : list string := ["python"; "run_python"; "execute_python"; "execute_cell"].
Definition execution_failed (j : nat) (e : exn) : M Colab unit :=
  update_job j (fun x => x <| jb_status := "FAILED" |> <| jb_error := Some (exn_str e) |>) ;;
  throw ColabCLIError ("Colab MCP execution failed: " +:+ exn_str e).
Definition browser_execute (r j : nat) : M Colab nat :=
  check_lease r ;;
  s ← state_of r;
  if negb (bool_decide (s = RS_READY)) then
    throw RuntimeError ("Cannot execute on browser session in state: RemoteSessionState."
                        +:+ remote_state_value s)
  else
    b ← gets cb_bridge;
    match b with
    | None => throw RuntimeError "MCP bridge is not active."
    | Some _ =>
        job ← get_job j;
        match job_code job with
        | Some code =>
            if code =s "" then throw ValueError no_code
            else
              tools ← list_tools;
              match find (fun t => str_in t tools) EXEC_TOOLS with
              | None =>
                  throw RuntimeError ("No execution tool found in MCP session. Available tools: "
                                      +:+ cw_set_text tools)
              | Some tool =>
                  except_all
                    (res ← call_tool tool [("code", code)];
                     let text := match tl_content res with Some (t, str) => default str t | None => "" end in
                     update_job j (fun x =>
                       if tl_error res then x <| jb_status := "FAILED" |> <| jb_stderr := Some text |>
                       else x <| jb_status := "COMPLETED" |> <| jb_stdout := Some text |>))
                    (execution_failed j) ;;
                  mret j
              end
        | None => throw ValueError no_code
        end
    end.
Definition browser_collect (r j : nat) : M Colab (list RemoteComputeArtifact) :=
  check_lease r ;; mret [].
Definition browser_terminate (r : nat) : M Colab unit :=
  set_session_state r RS_TERMINATED ;; stop_bridge.

(** ** The provider *)
(** [_get_transport] of a context and of a session: whether it is the browser's. *)
Definition context_in_browser (ctx : provision_context) : bool :=
  is_text "browser" (vget_or "transport_type" (VStr "cli") (pc_values ctx)).
Definition in_browser (s : RemoteComputeSession) : bool :=
  is_text "browser" (vget_or "transport" (VStr "cli") (rc_metadata s)).
Definition provision (ctx : provision_context) : M Colab nat :=
  r ← (if context_in_browser ctx then browser_provision ctx else cli_provision ctx);
  s ← get_session r;
  modify (fun c => c <| cb_table := dset (rc_session_id s) r (cb_table c) |>) ;;
  mret r.
Definition routed {A} (r : nat) (cli browser : M Colab A) : M Colab A :=
  s ← get_session r; if in_browser s then browser else cli.
Definition inspect (r : nat) := routed r (cli_inspect r) (browser_inspect r).
Definition health (r : nat) := routed r (cli_health r) (browser_health r).
Definition execute (r j : nat) := routed r (cli_execute r j) (browser_execute r j).
Definition collect (r j : nat) := routed r (cli_collect r j) (browser_collect r j).
Definition terminate (r : nat) := routed r (cli_terminate r) (browser_terminate r).
Definition new_provider (which : string -> option string) (cli_path : option string) : Colab :=
  mkColab [] [] [] (if ostr_true cli_path then cli_path else find_cli which) None None None None 0 [] [] 0.

(** ** Observed capabilities *)
Inductive CapabilityState := CS_UNKNOWN | CS_OBSERVED | CS_TESTED | CS_UNAVAILABLE.
Definition capability_state_value (s : CapabilityState) : string :=
  match s with
  | CS_UNKNOWN => "UNKNOWN" | CS_OBSERVED => "OBSERVED" | CS_TESTED => "TESTED"
  | CS_UNAVAILABLE => "UNAVAILABLE"
  end.
(** The details are whatever the remote side reported. *)
Record RuntimeCapability := mkRuntimeCapability {
  rcp_name : string; rcp_state : CapabilityState; rcp_observed_at : option Z; rcp_details : pyval }.
Definition capability_to_dict (c : RuntimeCapability) : pyval :=
  VDict [("name", VStr (rcp_name c)); ("state", VStr (capability_state_value (rcp_state c)));
         ("observed_at", match rcp_observed_at c with Some t => VStr (cw_isoformat t) | None => VNone end);
         ("details", rcp_details c)].
Abbreviation CapabilityTable := (dict string RuntimeCapability).
Definition register_capability (name : string) (s : CapabilityState) (details : pyval)
    (r : CapabilityTable) : M Colab CapabilityTable :=
  now ← utc_now; mret (dset name (mkRuntimeCapability name s (Some now) details) r).
Definition get_capability (name : string) (r : CapabilityTable) : option RuntimeCapability := dget name r.
Definition list_capabilities (r : CapabilityTable) : list RuntimeCapability := dvalues r.
Definition table_to_dict (r : CapabilityTable) : dict string pyval :=
  [("capabilities", VList (capability_to_dict <$> dvalues r)); ("count", VInt (Z.of_nat (length r)))].

(** One line of [from_resource_profile]: the state of a capability, if the
    profile says anything of it, and its details. *)
Definition SOFTWARE : list (string * string) :=
  [("software.python", "python_version"); ("software.pytorch", "torch_version");
   ("software.transformers", "transformers_version"); ("software.peft", "peft_version");
   ("software.bitsandbytes", "bitsandbytes_version"); ("software.accelerate", "accelerate_version")].
Definition seen (name : string) (s : CapabilityState) : list (string * CapabilityState * pyval) :=
  [(name, s, VNone)].
Definition software_entry (profile : dict string pyval) (pkg key : string)
    : list (string * CapabilityState * pyval) :=
  let val := vget key profile in
  if truthy val && negb (is_text "UNKNOWN" val) && negb (is_text "NOT_INSTALLED" val)
  then [(pkg, CS_OBSERVED, val)]
  else if is_text "NOT_INSTALLED" val then seen pkg CS_UNAVAILABLE
  else seen pkg CS_UNKNOWN.
Definition profile_entries (profile : dict string pyval) : list (string * CapabilityState * pyval) :=
  let get k := vget k profile in
  let text k d := py_str (vget_or k (VStr d) profile) in
  let gpu := truthy (vget_or "gpu_present" (VBool false) profile) in
  let passed k := is_text "PASS" (get k) in
  (if truthy (get "cpu") && negb (is_text "UNKNOWN" (get "cpu"))
   then [("cpu.compute", CS_OBSERVED,
          VStr (text "cpu_count" "?" +:+ " cores, " +:+ text "ram_gb" "?" +:+ " GB RAM"))]
   else seen "cpu.compute" CS_UNKNOWN)
  ++ (if gpu
      then [("gpu.compute", CS_OBSERVED,
             VStr (text "gpu_name" "UNKNOWN" +:+ ", " +:+ text "vram_gb" "UNKNOWN" +:+ " GB VRAM"))]
      else seen "gpu.compute" CS_UNAVAILABLE)
  ++ (if truthy (vget_or "tpu_present" (VBool false) profile)
      then [("tpu.compute", CS_OBSERVED, vget_or "tpu_type" (VStr "UNKNOWN") profile)]
      else seen "tpu.compute" CS_UNAVAILABLE)
  ++ (if truthy (vget_or "cuda_available" (VBool false) profile)
      then [("cuda", CS_OBSERVED,
             VStr ("CUDA " +:+ text "cuda_version" "?" +:+ ", Driver " +:+ text "driver_version" "?"))]
      else seen "cuda" (if gpu then CS_UNKNOWN else CS_UNAVAILABLE))
  ++ seen "remote.execution" (if passed "remote_execution" then CS_TESTED else CS_UNKNOWN)
  ++ concat ((fun kv => software_entry profile kv.1 kv.2) <$> SOFTWARE)
  ++ (if passed "causallm_inference"
      then [("model.causal_lm", CS_TESTED, vget_or "causallm_model_class" (VStr "UNKNOWN") profile)]
      else seen "model.causal_lm" CS_UNKNOWN)
  ++ (if passed "cuda_tensor_test" then seen "gpu.tensor_compute" CS_TESTED
      else if gpu then seen "gpu.tensor_compute" CS_UNKNOWN else [])
  ++ (if passed "fp16_test" then seen "gpu.fp16" CS_TESTED
      else if gpu then seen "gpu.fp16" CS_UNKNOWN else []).
Fixpoint register_all (entries : list (string * CapabilityState * pyval)) (r : CapabilityTable)
    : M Colab CapabilityTable :=
  match entries with
  | [] => mret r
  | (name, s, details) :: l => r ← register_capability name s details r; register_all l r
  end.
Definition from_resource_profile (profile : dict string pyval) (r : CapabilityTable)
    : M Colab CapabilityTable :=
  utc_now ;; register_all (profile_entries profile) r.

(** ** Discovery *)
(** The snippet the remote side runs. *)
Context (DISCOVERY_CODE : string).
Definition AUDIT_PREFIX : string := "AUDIT_JSON:".
Definition audit_line (stdout : string) : option string :=
  find (startswith AUDIT_PREFIX) (splitlines stdout).
Definition audited (now : Z) (line : string) : result (dict string pyval) :=
  let? data := json_loads (strip (String.substring 11 (String.length line) line)) in
  match data with
  | VDict d =>
      Ok (dset "_discovery_status" (VStr "COMPLETED")
            (dset "_discovery_timestamp" (VStr (cw_isoformat now)) d))
  | VList _ => raise TypeError "list indices must be integers or slices, not str"
  | _ => raise TypeError ("'" +:+ pytype_name data +:+ "' object does not support item assignment")
  end.
Definition discover (run : nat -> nat -> M Colab nat) (r : nat) : M Colab (dict string pyval) :=
  now ← utc_now;
  s ← get_session r;
  j ← new_job (mkJob ("discovery-" +:+ cw_strftime now) (rc_session_id s) "runtime_discovery" now "PENDING"
                 (now + 300000000) (Some DISCOVERY_CODE));
  except_all
    (j ← run r j;
     job ← get_job j;
     let stdout := default "" (jb_stdout job) in
     match audit_line stdout with
     | Some line => of_result (audited now line)
     | None =>
         mret [("_discovery_status", VStr "PARTIAL"); ("_discovery_timestamp", VStr (cw_isoformat now));
               ("remote_execution", VStr "PASS"); ("_raw_output", VStr (string_take 1000 stdout))]
     end)
    (fun e => mret [("_discovery_status", VStr "FAILED");
                    ("_discovery_timestamp", VStr (cw_isoformat now)); ("_error", VStr (exn_str e))]).
End Colab.
