(* ===== verification/ComputeFacts.v ===== *)
(** * What the remote compute providers guarantee

    Over any sequence of calls of a provider, whatever the colab program, the
    MCP server and the clock do: the states sessions can reach, and what runs on
    them.  The reading of status lines, and what a profile makes of the
    capability registry. *)
From S2P Require Import Prelude Dict PyVal Effects PyStr Json JsonLoad Compute.

(** ** Calls of a provider *)
Section Calls.
Context {world : ColabWorld}.
Inductive provider_call :=
  | CProvision (ctx : provision_context)
  | CInspect (r : nat)
  | CHealth (r : nat)
  | CExecute (r j : nat)
  | CCollect (r j : nat)
  | CTerminate (r : nat)
  | CProbe
  | CSubmit (j : RemoteComputeJob).
Definition make_provider_call (c : provider_call) : M Colab unit :=
  match c with
  | CProvision ctx => provision ctx ;; mret tt
  | CInspect r => inspect r ;; mret tt
  | CHealth r => health r ;; mret tt
  | CExecute r j => execute r j ;; mret tt
  | CCollect r j => collect r j ;; mret tt
  | CTerminate r => terminate r
  | CProbe => probe_availability ;; mret tt
  | CSubmit j => new_job j ;; mret tt
  end.
Definition make_provider_calls (cs : list provider_call) (c : Colab) : Colab :=
  foldl (fun c x => (make_provider_call x c).1) c cs.
End Calls.

(** A property of the sessions, which what leaves them alone keeps. *)
Class OfSessions (P : Colab -> Prop) : Prop :=
  of_sessions : forall c c', cb_sessions c' = cb_sessions c -> P c -> P c'.

Section Frame.
Context {world : ColabWorld} (P : Colab -> Prop) `{!OfSessions P}.

Lemma frame_modify f : (forall c, cb_sessions (f c) = cb_sessions c) -> preserves P (modify f).
Proof. intros H. apply preserves_modify. intros c. by apply of_sessions. Qed.
Lemma frame_answer {A} (f : nat -> A) : preserves P (answer f).
Proof. intros c Hc. unfold wp, answer. by apply (of_sessions c). Qed.
Lemma frame_get_session r : preserves P (get_session r).
Proof. intros c Hc. unfold wp, get_session. by destruct (cb_sessions c !! r). Qed.
Lemma frame_get_job j : preserves P (get_job j).
Proof. intros c Hc. unfold wp, get_job. by destruct (cb_jobs c !! j). Qed.
Lemma frame_new_job x : preserves P (new_job x).
Proof. intros c Hc. unfold wp, new_job. by apply (of_sessions c). Qed.
#[local] Hint Resolve frame_answer frame_get_session frame_get_job frame_new_job : keeps.
#[local] Hint Extern 1 (preserves _ (modify _)) => (apply frame_modify; reflexivity) : keeps.
Lemma frame_utc_now : preserves P utc_now.
Proof. unfold utc_now. auto with keeps. Qed.
Lemma frame_update_job j f : preserves P (update_job j f).
Proof. unfold update_job. auto with keeps. Qed.
Lemma frame_run_command args : preserves P (run_command args).
Proof. unfold run_command. auto with keeps. Qed.
#[local] Hint Resolve frame_utc_now frame_update_job frame_run_command : keeps.
Lemma frame_probe : preserves P probe_availability.
Proof. unfold probe_availability, set_availability. auto 20 with keeps. Qed.
#[local] Hint Resolve frame_probe : keeps.
Lemma frame_assert_available : preserves P assert_available.
Proof. unfold assert_available. auto 20 with keeps. Qed.
#[local] Hint Resolve frame_assert_available : keeps.
Lemma frame_run_cli_raw args : preserves P (run_cli_raw args).
Proof. unfold run_cli_raw. auto 20 with keeps. Qed.
Lemma frame_session_name p ctx : preserves P (session_name p ctx).
Proof. unfold session_name. auto 10 with keeps. Qed.
Lemma frame_classification b : preserves P (determine_classification b).
Proof. unfold determine_classification. auto with keeps. Qed.
Lemma frame_stop_bridge : preserves P stop_bridge.
Proof. unfold stop_bridge. auto with keeps. Qed.
Lemma frame_new_bridge : preserves P new_bridge.
Proof. unfold new_bridge. auto with keeps. Qed.
Lemma frame_call_tool t args : preserves P (call_tool t args).
Proof. unfold call_tool. auto 10 with keeps. Qed.
#[local] Hint Resolve frame_call_tool : keeps.
Lemma frame_attach : preserves P attach.
Proof. unfold attach. auto 10 with keeps. Qed.
Lemma frame_list_tools : preserves P list_tools.
Proof. unfold list_tools. auto with keeps. Qed.
Lemma frame_execution_failed j e : preserves P (execution_failed j e).
Proof. unfold execution_failed. auto with keeps. Qed.
Lemma frame_state_of r : preserves P (state_of r).
Proof. unfold state_of. auto with keeps. Qed.
End Frame.
#[export] Hint Resolve frame_answer frame_get_session frame_get_job frame_new_job frame_utc_now
  frame_update_job frame_run_command frame_probe frame_assert_available frame_run_cli_raw
  frame_session_name frame_classification frame_stop_bridge frame_new_bridge frame_call_tool
  frame_attach frame_list_tools frame_execution_failed frame_state_of : keeps.
#[export] Hint Extern 1 (OfSessions _) => apply _ : keeps.
#[export] Hint Extern 1 (preserves _ (modify _)) => (apply frame_modify; [apply _|reflexivity]) : keeps.
Section Routed.
Context {world : ColabWorld} (P : Colab -> Prop) `{!OfSessions P}.
Lemma preserves_routed {A} r (m1 m2 : M Colab A) :
  preserves P m1 -> preserves P m2 -> preserves P (routed r m1 m2).
Proof. intros H1 H2. unfold routed. auto with keeps. Qed.
(** The calls of a provider keep what its operations keep. *)
Lemma preserves_provider_calls cs c :
  (forall ctx, preserves P (provision ctx)) ->
  (forall r, preserves P (cli_inspect r) /\ preserves P (browser_inspect r)) ->
  (forall r, preserves P (health r)) ->
  (forall r j, preserves P (cli_execute r j) /\ preserves P (browser_execute r j)) ->
  (forall r j, preserves P (cli_collect r j) /\ preserves P (browser_collect r j)) ->
  (forall r, preserves P (cli_terminate r) /\ preserves P (browser_terminate r)) ->
  P c -> P (make_provider_calls cs c).
Proof.
  intros Hp Hi Hh He Hc Ht. apply preserves_calls. intros x.
  destruct x as [ctx|r|r|r j|r j|r| |j]; simpl;
    repeat (apply preserves_bind; [|intros; apply preserves_ret]); try done;
    auto with keeps; apply preserves_routed; naive_solver.
Qed.
End Routed.

(** ** A session that ended stays ended *)
Section Ended.
Context {world : ColabWorld} (r : nat).
Definition Ended (c : Colab) : Prop :=
  exists s, cb_sessions c !! r = Some s /\ ended (rc_state s) = true.
#[export] Instance Ended_of_sessions : OfSessions Ended.
Proof. intros c c' E [s H]. exists s. by rewrite E. Qed.
Lemma ended_new_session s : preserves Ended (new_session s).
Proof.
  intros c [x [Hx He]]. unfold wp, new_session. exists x. split; [|done].
  simpl. by apply lookup_app_l_Some.
Qed.
Lemma ended_update r' f :
  (r' = r -> forall s, ended (rc_state s) = true -> ended (rc_state (f s)) = true) ->
  preserves Ended (update_session r' f).
Proof.
  intros H. apply preserves_modify. intros c [x [Hx He]]. unfold Ended. simpl.
  destruct (decide (r' = r)) as [->|Hne].
  - exists (f x). rewrite list_lookup_alter_eq, Hx. auto.
  - exists x. by rewrite list_lookup_alter_ne.
Qed.
Lemma ended_set r' s : (r' = r -> ended s = true) -> preserves Ended (set_session_state r' s).
Proof. intros H. apply ended_update. intros E s0 _. by apply H. Qed.
#[local] Hint Resolve ended_new_session : keeps.
#[local] Hint Extern 1 (preserves _ (set_session_state _ _)) => (by apply ended_set) : keeps.
Lemma ended_check_lease r' : preserves Ended (check_lease r').
Proof. unfold check_lease. auto 10 with keeps. Qed.
#[local] Hint Resolve ended_check_lease : keeps.
(** Reading the session itself gives an ended state. *)
Lemma ended_read {A} r' (k : RemoteComputeSession -> M Colab A) :
  (forall s, (r' = r -> ended (rc_state s) = true) -> preserves Ended (k s)) ->
  preserves Ended (s ← get_session r'; k s).
Proof.
  intros Hk c Hc. pose proof Hc as (x & Hx & He). apply wp_bind. unfold wp at 1, get_session.
  destruct (cb_sessions c !! r') as [s|] eqn:Es; [|exact Hc].
  apply Hk; [|exact Hc]. intros ->. congruence.
Qed.
Lemma ended_read_state {A} r' (k : RemoteSessionState -> M Colab A) :
  (forall s, (r' = r -> ended s = true) -> preserves Ended (k s)) ->
  preserves Ended (s ← state_of r'; k s).
Proof.
  intros Hk c Hc. apply wp_bind. unfold state_of. apply wp_bind.
  pose proof Hc as (x & Hx & He). unfold wp at 1, get_session.
  destruct (cb_sessions c !! r') as [s|] eqn:Es; [|exact Hc].
  apply wp_ret, Hk; [|exact Hc]. intros ->. congruence.
Qed.
Lemma ended_cli_health r' : preserves Ended (cli_health r').
Proof.
  unfold cli_health. apply preserves_bind; [auto with keeps|intros _].
  apply ended_read. intros s Hs. destruct (ended (rc_state s)) eqn:Ee; [auto with keeps|].
  assert (forall st, preserves Ended (set_session_state r' st)).
  { intros st. apply ended_set. intros E. specialize (Hs E). congruence. }
  auto 30 with keeps.
Qed.
Lemma ended_browser_health r' : preserves Ended (browser_health r').
Proof.
  unfold browser_health. apply preserves_bind; [auto with keeps|intros _].
  apply ended_read_state. intros s Hs. destruct (ended s) eqn:Ee; [auto with keeps|].
  assert (forall st, preserves Ended (set_session_state r' st)).
  { intros st. apply ended_set. intros E. specialize (Hs E). congruence. }
  auto 30 with keeps.
Qed.
Lemma ended_cli_execute r' j : preserves Ended (cli_execute r' j).
Proof. unfold cli_execute. auto 40 with keeps. Qed.
Lemma ended_browser_execute r' j : preserves Ended (browser_execute r' j).
Proof. unfold browser_execute. auto 40 with keeps. Qed.
Lemma ended_cli_inspect r' : preserves Ended (cli_inspect r').
Proof.
  assert (forall h, preserves Ended (update_session r' (fun x => x <| rc_observed_accelerator := h |>)))
    by (intros h; by apply ended_update).
  unfold cli_inspect. auto 40 with keeps.
Qed.
Lemma ended_provision ctx : preserves Ended (provision ctx).
Proof.
  unfold provision, browser_provision, cli_provision, failed_session. auto 60 with keeps.
Qed.
End Ended.

(** A session that expired, failed or was terminated is never revived: whatever
    calls follow, it stays in one of the three states. *)
Theorem ended_forever `{world : ColabWorld} r c cs :
  Ended r c -> Ended r (make_provider_calls cs c).
Proof.
  apply preserves_provider_calls; [apply _|..]; intros; try split;
    unfold health, browser_inspect, browser_collect, browser_terminate, cli_collect, cli_terminate;
    try apply preserves_routed;
    assert (forall r', preserves (Ended r) (set_session_state r' RS_TERMINATED))
      by (intros; by apply ended_set);
    auto 20 using ended_provision, ended_cli_inspect, ended_cli_health,
      ended_browser_health, ended_cli_execute, ended_browser_execute, ended_check_lease
      with keeps.
Qed.

(** ** The CLI transport never has a ready session *)
Section Idle.
Context {world : ColabWorld}.
(** A session whose calls go to the CLI is not ready. *)
Definition idle (s : RemoteComputeSession) : Prop := in_browser s = false -> rc_state s <> RS_READY.
Definition CliIdle (c : Colab) : Prop := Forall idle (cb_sessions c).
(** The calls of session [r] go to the browser. *)
Definition Browses (r : nat) (c : Colab) : Prop :=
  exists s, cb_sessions c !! r = Some s /\ in_browser s = true.
Definition IdleWith (r : nat) (c : Colab) : Prop := CliIdle c /\ Browses r c.
#[local] Instance CliIdle_of_sessions : OfSessions CliIdle.
Proof. intros c c' E. unfold CliIdle. by rewrite E. Qed.
#[local] Instance IdleWith_of_sessions r : OfSessions (IdleWith r).
Proof. intros c c' E. unfold IdleWith, CliIdle, Browses. by rewrite E. Qed.
Lemma idle_new s : idle s -> preserves CliIdle (new_session s).
Proof. intros H c Hc. unfold wp, new_session, CliIdle in *. simpl.
  apply Forall_app. split; [done|by constructor]. Qed.
Lemma idle_update r f : (forall s, idle s -> idle (f s)) -> preserves CliIdle (update_session r f).
Proof.
  intros H. apply preserves_modify. intros c Hc. unfold CliIdle in *. simpl.
  by apply Forall_alter; [|intros; apply H].
Qed.
Lemma idle_set r s : s <> RS_READY -> preserves CliIdle (set_session_state r s).
Proof. intros H. apply idle_update. by intros x _ _. Qed.
Lemma browser_set r s : preserves (IdleWith r) (set_session_state r s).
Proof.
  apply preserves_modify. intros c [Hc (x & Hx & Hb)]. split.
  - apply Forall_alter; [done|]. intros y Hy _ Hf. cbn in Hf. unfold in_browser in *. simpl in Hf. congruence.
  - exists (x <| rc_state := s |>). simpl. by rewrite list_lookup_alter_eq, Hx.
Qed.
#[local] Hint Extern 1 (preserves _ (set_session_state _ _)) => (by apply idle_set) : keeps.
#[local] Hint Extern 1 (preserves _ (new_session _)) =>
  (apply idle_new; intros Hb; first [discriminate Hb | discriminate]) : keeps.
#[local] Hint Resolve browser_set : keeps.
Lemma idle_check_lease r : preserves CliIdle (check_lease r).
Proof. unfold check_lease. auto 10 with keeps. Qed.
Lemma browses_check_lease r : preserves (IdleWith r) (check_lease r).
Proof. unfold check_lease. auto 10 with keeps. Qed.
#[local] Hint Resolve idle_check_lease browses_check_lease : keeps.
Lemma idle_health r : preserves CliIdle (health r).
Proof.
  intros c Hc. unfold health, routed. apply wp_bind. unfold wp at 1, get_session.
  destruct (cb_sessions c !! r) as [s|] eqn:Es; [|done].
  destruct (in_browser s) eqn:Eb.
  - assert (preserves (IdleWith r) (browser_health r)) as Hp
      by (unfold browser_health; auto 40 with keeps).
    eapply wp_mono; [apply Hp; split; [done|by exists s]|]. by intros ?? [??].
  - revert c Hc Es. assert (preserves CliIdle (cli_health r)) as Hp
      by (unfold cli_health; auto 40 with keeps).
    intros c Hc _. by apply Hp.
Qed.
Lemma idle_provision ctx : preserves CliIdle (provision ctx).
Proof.
  unfold provision, browser_provision, cli_provision, failed_session.
  auto 60 with keeps.
Qed.
End Idle.

Section NeverReady.
Context {world : ColabWorld}.
Lemma idle_calls cs c : CliIdle c -> CliIdle (make_provider_calls cs c).
Proof.
  apply preserves_provider_calls; [apply CliIdle_of_sessions|..]; intros; try split;
    unfold browser_inspect, browser_collect, browser_terminate, cli_collect, cli_terminate,
      cli_inspect, cli_execute, browser_execute;
    assert (forall r, preserves CliIdle (set_session_state r RS_TERMINATED)) by (intros; by apply idle_set);
    assert (forall r h, preserves CliIdle (update_session r (fun x => x <| rc_observed_accelerator := h |>)))
      by (intros; by apply idle_update);
    assert (OfSessions CliIdle) by apply CliIdle_of_sessions;
    auto 40 using idle_provision, idle_health, idle_check_lease with keeps.
Qed.
(** The lease check of a session leaves its transport, the jobs, the bridge and
    what was run. *)
Definition quiet (c c' : Colab) : Prop :=
  cb_runs c' = cb_runs c /\ cb_jobs c' = cb_jobs c /\ cb_bridge c' = cb_bridge c /\
  cb_calls c' = cb_calls c.
Lemma check_lease_frame r c s Q :
  cb_sessions c !! r = Some s ->
  (forall c' st, cb_sessions c' !! r = Some (s <| rc_state := st |>) -> st <> RS_READY \/ st = rc_state s ->
     quiet c c' -> Q c' (Ok tt)) ->
  wp (check_lease r) c Q.
Proof.
  intros Hs HQ. unfold check_lease. apply wp_bind. unfold wp at 1, get_session. rewrite Hs.
  destruct (rc_lease s) as [l|]; [|apply wp_ret, (HQ c (rc_state s)); [by rewrite Hs; destruct s|by auto|done]].
  apply wp_bind. unfold wp at 1, utc_now, answer. apply wp_when; intros _.
  - apply wp_modify, (HQ _ RS_EXPIRED); [|by left|done]. simpl. by rewrite list_lookup_alter_eq, Hs.
  - apply (HQ _ (rc_state s)); simpl; [by rewrite Hs; destruct s|by auto|done].
Qed.
Lemma cli_execute_refused r j c s :
  cb_sessions c !! r = Some s -> rc_state s <> RS_READY ->
  wp (cli_execute r j) c (fun c' o => (exists msg, o = raise RuntimeError msg) /\ quiet c c').
Proof.
  intros Hs Hr. unfold cli_execute. apply wp_bind, (check_lease_frame r c s); [done|].
  intros c' st Hs' Hst Hq. apply wp_bind. unfold wp at 1, get_session. rewrite Hs'. simpl.
  destruct (bool_decide (st = RS_TERMINATED)); [by split; [eexists|]|].
  rewrite bool_decide_eq_false_2 by (destruct Hst; congruence). by split; [eexists|].
Qed.
(** What an execution by the browser that returns did. *)
Definition sent_by_browser (r j : nat) (c c' : Colab) : Prop :=
  exists s job code b tool,
    cb_sessions c !! r = Some s /\ in_browser s = true /\ rc_state s = RS_READY /\
    cb_jobs c !! j = Some job /\ job_code job = Some code /\ cb_bridge c = Some b /\
    tool ∈ EXEC_TOOLS /\ cb_calls c' = cb_calls c ++ [(b, tool, [("code", code)])].
Lemma browser_execute_sent r j c s :
  cb_sessions c !! r = Some s -> in_browser s = true ->
  wp (browser_execute r j) c (fun c' o => forall j', o = Ok j' -> j' = j /\ sent_by_browser r j c c').
Proof.
  intros Hs Hb. unfold browser_execute. apply wp_bind, (check_lease_frame r c s); [done|].
  intros c1 st Hs' Hst (Hru & Hjb & Hbr & Hca). apply wp_bind. unfold state_of. apply wp_bind.
  unfold wp at 1, get_session. rewrite Hs'. apply wp_ret. cbn [rc_state setter].
  destruct (decide (st = RS_READY)) as [->|Hne].
  2:{ rewrite bool_decide_eq_false_2 by done. by intros j'. }
  rewrite bool_decide_eq_true_2 by done. cbn [negb rc_state] in *. destruct Hst as [Hst|Hst]; [done|].
  apply wp_bind, wp_gets. destruct (cb_bridge c1) as [b|] eqn:Eb; [|by intros j'].
  apply wp_bind. unfold wp at 1, get_job. destruct (cb_jobs c1 !! j) as [job|] eqn:Ej; [|by intros j'].
  destruct (job_code job) as [code|] eqn:Ec; [|by intros j'].
  destruct (code =s ""); [by intros j'|].
  apply wp_bind. unfold list_tools. apply wp_bind. unfold wp at 1, answer. apply wp_of_result.
  destruct (cw_tools (cb_tick c1)) as [tools|e]; [|by intros j'].
  cbv beta iota. destruct (find (fun t => str_in t tools) EXEC_TOOLS) as [tool|] eqn:Et; [|by intros j'].
  apply wp_bind. unfold except_all. apply wp_try_with, wp_bind. unfold call_tool.
  apply wp_bind, wp_gets, wp_bind, wp_modify, wp_bind. unfold wp at 1, answer. apply wp_of_result.
  simpl. rewrite Eb.
  destruct (cw_call tool _ _) as [reply|e].
  - apply wp_modify, wp_ret. intros j' [= <-]. split; [done|].
    exists s, job, code, b, tool. simpl. rewrite <- Hst, <- Hjb, <- Hbr, <- Hca.
    repeat split; try done. apply find_some in Et as [Et _]. by apply list_elem_of_In.
  - destruct (exn_type e); try (by intros j'); apply wp_bind, wp_modify; by intros j'.
Qed.

(** Nothing ever runs on a session of the CLI transport: whatever calls were
    made since the provider was created, executing a job on such a session
    raises, starts no command and leaves every job as it was, because no call
    brings the session to READY. *)
Theorem cli_never_executes which path cs r j s :
  let c := make_provider_calls cs (new_provider which path) in
  cb_sessions c !! r = Some s -> in_browser s = false ->
  exists c' msg, execute r j c = (c', raise RuntimeError msg) /\
                 cb_runs c' = cb_runs c /\ cb_jobs c' = cb_jobs c.
Proof.
  intros c Hs Hb.
  assert (CliIdle c) as Hi by (apply idle_calls; by constructor).
  assert (rc_state s <> RS_READY) as Hr by (eapply (Forall_lookup_1 _ _ _ _ Hi Hs), Hb).
  destruct (wp_elim _ _ _ (cli_execute_refused r j c s Hs (Hr))) as (c' & o & E & [msg ->] & Hq).
  exists c', msg. destruct Hq as (? & ? & _). split; [|done].
  unfold execute, routed, mbind, M_bind, get_session. by rewrite Hs, Hb.
Qed.
(** C31: An execution that returns was on a READY session of the browser, and the
    code of the job went, once, through the first execution tool offered, to the
    bridge the transport holds at that time: the bridge of the session
    provisioned last, whichever session the job was for. *)
Theorem executed_on_current_bridge which path cs r j :
  let c := make_provider_calls cs (new_provider which path) in
  forall c' j', execute r j c = (c', Ok j') -> j' = j /\ sent_by_browser r j c c'.
Proof.
  intros c c' j' E.
  assert (CliIdle c) as Hi by (apply idle_calls; by constructor).
  unfold execute, routed, mbind, M_bind, get_session in E.
  destruct (cb_sessions c !! r) as [s|] eqn:Hs; [|done]. destruct (in_browser s) eqn:Hb.
  - destruct (wp_elim _ _ _ (browser_execute_sent r j c s Hs Hb)) as (c2 & o & E' & H).
    rewrite E in E'. injection E' as <- <-. by apply H.
  - assert (rc_state s <> RS_READY) as Hr by (eapply (Forall_lookup_1 _ _ _ _ Hi Hs), Hb).
    destruct (wp_elim _ _ _ (cli_execute_refused r j c s Hs Hr)) as (c2 & o & E' & [msg ->] & _).
    rewrite E in E'. discriminate.
Qed.
End NeverReady.

(** ** Discovery and capabilities *)
Section Capabilities.
Context {world : ColabWorld}.
(** A name the table has comes from one of the entries, with its state. *)
Lemma register_all_lookup entries table c :
  wp (register_all entries table) c (fun _ o => exists t, o = Ok t /\
    forall name cap, dget name t = Some cap ->
      dget name table = Some cap \/ In (name, rcp_state cap, rcp_details cap) entries).
Proof.
  revert table c. induction entries as [|[[name s] d] l IH]; intros table c; [eexists; eauto|].
  apply wp_bind. unfold register_capability, utc_now. apply wp_bind. unfold wp at 1, answer.
  apply wp_ret. eapply wp_mono; [apply IH|]. intros _ o (t & -> & H). exists t. split; [done|].
  intros n cap Hn. destruct (H n cap Hn) as [Hd|Hi]; [|right; by right].
  rewrite dget_dset in Hd. case_decide; simplify_eq; [right; by left|by left].
Qed.
(** The checks a capability needs to be called TESTED. *)
Definition CHECKS : list (string * string) :=
  [("remote.execution", "remote_execution"); ("model.causal_lm", "causallm_inference");
   ("gpu.tensor_compute", "cuda_tensor_test"); ("gpu.fp16", "fp16_test")].
Definition justified (p : dict string pyval) (e : string * CapabilityState * pyval) : Prop :=
  e.1.2 = CS_TESTED -> exists key, In (e.1.1, key) CHECKS /\ vget key p = VStr "PASS".
Lemma software_not_tested p pkg key : Forall (justified p) (software_entry p pkg key).
Proof.
  unfold software_entry, seen. repeat case_match; repeat constructor; intros E; discriminate E.
Qed.
Lemma justified_check p name key d :
  In (name, key) CHECKS -> is_text "PASS" (vget key p) = true -> justified p (name, CS_TESTED, d).
Proof. intros H E _. exists key. split; [done|by apply is_text_true]. Qed.
Lemma justified_other p name s d : s <> CS_TESTED -> justified p (name, s, d).
Proof. by intros H E. Qed.
Lemma entries_justified p : Forall (justified p) (profile_entries p).
Proof.
  unfold profile_entries, seen. rewrite !Forall_app. repeat split.
  all: try (by repeat case_match; repeat constructor; apply justified_other).
  - destruct (is_text "PASS" (vget "remote_execution" p)) eqn:E;
      (constructor; [|constructor]); [|by apply justified_other].
    apply (justified_check _ _ "remote_execution"); [by left|done].
  - apply Forall_concat, Forall_fmap, Forall_true. intros [pkg key]. apply software_not_tested.
  - destruct (is_text "PASS" (vget "causallm_inference" p)) eqn:E;
      (constructor; [|constructor]); [|by apply justified_other].
    apply (justified_check _ _ "causallm_inference"); [right; by left|done].
  - destruct (is_text "PASS" (vget "cuda_tensor_test" p)) eqn:E.
    + constructor; [|constructor].
      apply (justified_check _ _ "cuda_tensor_test"); [right; right; by left|done].
    + case_match; repeat constructor; by apply justified_other.
  - destruct (is_text "PASS" (vget "fp16_test" p)) eqn:E.
    + constructor; [|constructor]. apply (justified_check _ _ "fp16_test"); [by do 3 right; left|done].
    + case_match; repeat constructor; by apply justified_other.
Qed.
(** A capability is called TESTED only when the profile reports the check of
    that capability as passed. *)
Theorem tested_means_passed p c name cap :
  exists t, (from_resource_profile p [] c).2 = Ok t /\
    (dget name t = Some cap -> rcp_state cap = CS_TESTED ->
     exists key, In (name, key) CHECKS /\ vget key p = VStr "PASS").
Proof.
  unfold from_resource_profile, utc_now, mbind, M_bind, answer.
  destruct (wp_elim _ _ _ (register_all_lookup (profile_entries p) []
    (c <| cb_tick := S (cb_tick c) |>))) as (c' & o & E & t & -> & H).
  exists t. rewrite E. split; [done|]. intros Hn Hs. destruct (H _ _ Hn) as [?|Hi]; [done|].
  rewrite Hs in Hi. pose proof (entries_justified p) as Hj. rewrite List.Forall_forall in Hj.
  by apply (Hj _ Hi).
Qed.
(** The check of remote execution is reported as passed for any job that
    returned without an audit line: also for one whose execution failed, which
    is what the browser transport returns for a tool error.  The registry then
    has remote execution as TESTED. *)
Theorem unaudited_job_tested DISCOVERY_CODE run r c s :
  cb_sessions c !! r = Some s ->
  (forall j c1, wp (run r j) c1 (fun c2 o => o = Ok j /\ exists x, cb_jobs c2 !! j = Some x /\ jb_stdout x = None)) ->
  exists c' p, discover DISCOVERY_CODE run r c = (c', Ok p) /\
    In ("remote.execution", CS_TESTED, VNone) (profile_entries p).
Proof.
  intros Hs Hrun.
  destruct (wp_elim (discover DISCOVERY_CODE run r) c (fun _ o => exists p, o = Ok p /\
    In ("remote.execution", CS_TESTED, VNone) (profile_entries p))) as (c' & o & E & p & -> & H);
    [|by exists c', p].
  unfold discover. apply wp_bind. unfold wp at 1, utc_now, answer. apply wp_bind.
  unfold wp at 1, get_session. change (cb_sessions _ !! r) with (cb_sessions c !! r). rewrite Hs.
  apply wp_bind. unfold wp at 1, new_job.
  unfold except_all. apply wp_try_with, wp_bind. eapply wp_mono; [apply Hrun|].
  intros c2 o [-> (x & Hx & Hout)]. apply wp_bind. unfold wp at 1, get_job. rewrite Hx, Hout.
  eexists. split; [reflexivity|]. simpl. auto 10.
Qed.
End Capabilities.

(** ** Reading a status line *)
Section StatusLines.
Fixpoint all_of (p : ascii -> bool) (s : string) : bool :=
  match s with "" => true | String c s' => p c && all_of p s' end.
Lemma all_of_impl p q s : (forall c, p c = true -> q c = true) -> all_of p s = true -> all_of q s = true.
Proof.
  intros H. induction s as [|c s IH]; [done|]. intros [Hc Hs]%andb_true_iff. simpl.
  by rewrite (H c Hc), IH.
Qed.
Definition starts_with_none (p : ascii -> bool) (s : string) : Prop :=
  match s with "" => True | String c _ => p c = false end.
Lemma many_longest {A} p w s acc (k : string -> string -> option A) x :
  all_of p w = true -> starts_with_none p s -> k (acc +:+ w) s = Some x ->
  many p acc (w +:+ s) k = Some x.
Proof.
  revert acc. induction w as [|c w IH]; intros acc Hw Hs Hk.
  - rewrite string_app_nil_r in Hk. change (many p acc s k = Some x).
    destruct s as [|c s]; [done|]. simpl in *. by rewrite Hs.
  - apply andb_true_iff in Hw as [Hc Hw]. rewrite string_app_cons. simpl. rewrite Hc, (IH (acc +:+ String c "")); [done..|].
    by rewrite string_app_assoc.
Qed.
Lemma some_longest {A} p w s (k : string -> string -> option A) x :
  w <> "" -> all_of p w = true -> starts_with_none p s -> k w s = Some x -> some p (w +:+ s) k = Some x.
Proof.
  intros Hne Hw Hs Hk. destruct w as [|c w]; [done|]. apply andb_true_iff in Hw as [Hc Hw].
  rewrite string_app_cons. simpl. rewrite Hc. by apply many_longest.
Qed.
Lemma some_refused {A} p c s (k : string -> string -> option A) : p c = false -> some p (String c s) k = None.
Proof. simpl. by intros ->. Qed.
(** The first place where what follows succeeds. *)
Lemma few_stop {A} p w s acc (k : string -> string -> option A) x :
  w <> "" -> all_of p w = true -> k (acc +:+ w) s = Some x ->
  (forall a u v, w = a +:+ u -> u <> "" -> v = u +:+ s -> k (acc +:+ a) v = None) ->
  few p acc (w +:+ s) k = Some x.
Proof.
  intros Hne Hw Hk Hno. revert acc Hne Hw Hk Hno. induction w as [|c w IH]; intros acc Hne Hw Hk Hno; [done|].
  apply andb_true_iff in Hw as [Hc Hw]. rewrite string_app_cons. simpl. rewrite Hc.
  destruct (decide (w = "")) as [->|Hw']; [change ("" +:+ s) with s; by rewrite Hk|].
  rewrite (Hno (String c "") w) by done. apply IH; [done..| |].
  - by rewrite string_app_assoc.
  - intros a u v -> Hu Hv. rewrite string_app_assoc. by apply (Hno _ u).
Qed.
Lemma literally_self {A} p s (k : string -> option A) : literally p (p +:+ s) k = k s.
Proof. induction p as [|c p IH]; [done|]. rewrite string_app_cons. simpl. by rewrite Ascii.eqb_refl. Qed.
Lemma literally_other {A} a p b s (k : string -> option A) :
  a <> b -> literally (String a p) (String b s) k = None.
Proof. intros H%Ascii.eqb_neq. cbn [literally]. by rewrite H. Qed.
Lemma field_after_found {A} label w s (k : string -> string -> option A) x :
  starts_with_none blank (label +:+ " ") -> w <> "" -> all_of inked w = true -> starts_with_none inked s ->
  k w s = Some x -> field_after label (" | " +:+ label +:+ " " +:+ w +:+ s) k = Some x.
Proof.
  intros Hl Hne Hw Hs Hk. unfold field_after.
  change (" | " +:+ label +:+ " " +:+ w +:+ s) with (" " +:+ "|" +:+ " " +:+ label +:+ " " +:+ w +:+ s).
  apply many_longest; [done..|]. rewrite literally_self. apply many_longest; [done| |].
  { destruct label; done. }
  rewrite literally_self. apply many_longest; [done| |by apply some_longest].
  destruct w as [|c w]; [done|]. apply andb_true_iff in Hw as [Hc _]. unfold inked in Hc.
  rewrite string_app_cons. simpl. unfold blank. by destruct (is_space c).
Qed.
Lemma parse_here s l : status_here s = Some l -> parse_session_status_line s = Some l.
Proof. intros E. destruct s; cbn [parse_session_status_line]; by rewrite E. Qed.
(** A line as the program writes it. *)
Definition print_status_line (l : status_line) : string :=
  "[" +:+ sl_name l +:+ "] " +:+ sl_backend_id l +:+ " | Hardware: " +:+ sl_hardware l
  +:+ " | Variant: " +:+ sl_variant l +:+ " | Status: " +:+ sl_status l.
Definition word (s : string) : Prop := s <> "" /\ all_of inked s = true.
(** Reading a status line gives back its five parts, when the name holds neither
    a closing bracket nor a line break and the other parts are words. *)
Theorem status_line_read l :
  sl_name l <> "" -> all_of (fun c => not_newline c && negb (Ascii.eqb c "]")) (sl_name l) = true ->
  word (sl_backend_id l) -> word (sl_hardware l) -> word (sl_variant l) -> word (sl_status l) ->
  parse_session_status_line (print_status_line l) = Some l.
Proof.
  destruct l as [name backend hardware variant status].
  cbn [sl_name sl_backend_id sl_hardware sl_variant sl_status].
  intros Hn Hname [Hb Hb'] [Hh Hh'] [Hv Hv'] [Hs Hs']. apply parse_here.
  unfold status_here, print_status_line. rewrite literally_self.
  cbn [sl_name sl_backend_id sl_hardware sl_variant sl_status]. apply few_stop; [done|..].
  - eapply all_of_impl; [|exact Hname]. by intros c [? _]%andb_true_iff.
  - change ("] " +:+ backend +:+ " | Hardware: " +:+ hardware +:+ " | Variant: " +:+ variant
              +:+ " | Status: " +:+ status)
        with ("]" +:+ " " +:+ backend +:+ " | " +:+ "Hardware:" +:+ " " +:+ hardware +:+ " | "
              +:+ "Variant:" +:+ " " +:+ variant +:+ " | " +:+ "Status:" +:+ " " +:+ status).
      rewrite literally_self. apply some_longest; [done..| |].
      { destruct backend as [|c s]; [done|]. apply andb_true_iff in Hb' as [Hc _].
        rewrite string_app_cons. simpl. unfold inked, blank in *. by destruct (is_space c). }
      apply some_longest; [done..|]. apply field_after_found; [done..|].
      apply field_after_found; [done..|].
      pose proof (field_after_found "Status:" status "" (fun st _ => Some st) status
                    eq_refl Hs Hs' I eq_refl) as Hf.
      rewrite string_app_nil_r in Hf. by rewrite Hf.
  - intros a u v -> Hu ->. destruct u as [|c u]; [done|]. rewrite string_app_cons.
      destruct (decide ("]"%char = c)) as [<-|Hc]; [|by apply literally_other].
      exfalso. clear -Hname. induction a as [|x a IH]; [done|]. rewrite string_app_cons in Hname.
      apply andb_true_iff in Hname as [_ H]. auto.
Qed.
End StatusLines.
