(* ===== verification/RemoteManager.v ===== *)
(** * The remote compute manager

    [runtime/compute/remote_manager.py]: the life of one remote session, from
    DISCONNECTED to READY.  Three of the states its code names are not members of
    [RemoteSessionState], so that naming them raises; the model looks names up
    in the table of Compute.v where the code does.  Each operation is one step:
    the connection flow, which the code runs in a thread of its own, is a step
    that may come at any time after it was started. *)
From S2P Require Import Prelude Dict PyVal Effects PyStr Json JsonLoad Compute ComputeFacts.

(** Importing the transport may fail, with the text of the error. *)
Class ManagerWorld := {
  mw_colab :: ColabWorld;
  mw_attempt_id : nat -> string;
  mw_now : nat -> string;
  mw_create : nat -> option string;
  mw_discovery_code : string }.

(** ** State *)
Record Attempt := mkAttempt {
  at_attempt_id : string; at_timestamp : string;
  at_failure_stage : option string; at_failure_reason : option string }.
(** The transports created so far, of which a transport is an index; a session
    is a reference into the heap of its transport.  [mg_started] holds the
    connection flows whose thread has not run yet. *)
Record RemoteComputeManager := mkManager {
  mg_state : RemoteSessionState;
  mg_session : option nat;
  mg_transport : option nat;
  mg_profile : option (dict string pyval);
  mg_registry : dict string RuntimeCapability;
  mg_cancel_requested : bool;
  mg_error : option string;
  mg_attempt_id : option string;
  mg_attempts : list Attempt;
  mg_transports : list Colab;
  mg_started : nat;
  mg_tick : nat }.
#[export] Instance eta_RemoteComputeManager : Eta RemoteComputeManager := fun m =>
  mkManager (mg_state m) (mg_session m) (mg_transport m) (mg_profile m) (mg_registry m)
    (mg_cancel_requested m) (mg_error m) (mg_attempt_id m) (mg_attempts m) (mg_transports m)
    (mg_started m) (mg_tick m).
Definition new_manager : RemoteComputeManager :=
  mkManager RS_DISCONNECTED None None None [] false None None [] [] 0 0.

Section Manager.
Context {world : ManagerWorld}.
Abbreviation MM := (M RemoteComputeManager).

Definition draw {A} (f : nat -> A) : MM A := fun m =>
  (m <| mg_tick := S (mg_tick m) |>, Ok (f (mg_tick m))).
Definition set_state (s : RemoteSessionState) : MM unit := modify (fun m => m <| mg_state := s |>).
(** [self._state = RemoteSessionState.NAME] *)
Definition set_named (name : string) : MM unit := s ← of_result (remote_state name); set_state s.
(** [self._state in (A, B, ...)]: the tuple is built first. *)
Fixpoint states_named (names : list string) : result (list RemoteSessionState) :=
  match names with
  | [] => Ok []
  | n :: l => let? s := remote_state n in let? rest := states_named l in Ok (s :: rest)
  end.
Definition state_in (names : list string) : MM bool :=
  l ← of_result (states_named names);
  s ← gets mg_state;
  mret (bool_decide (s ∈ l)).
(** A call of transport [i]. *)
Definition on_transport {A} (i : nat) (act : M Colab A) : MM A := fun m =>
  match mg_transports m !! i with
  | Some c => let '(c', r) := act c in (m <| mg_transports := <[i := c']> (mg_transports m) |>, r)
  | None => (m, raise Unmodelled "no such transport")
  end.
(** [BrowserColabTransport()] *)
Definition new_transport : MM nat :=
  made ← draw mw_create;
  (match made with Some e => throw (OtherException "ImportError") e | None => mret tt end) ;;
  i ← gets (fun m => length (mg_transports m));
  modify (fun m => m <| mg_transports := mg_transports m ++ [new_provider (fun _ => None) None] |>) ;;
  mret i.

(** ** Operations *)
Definition RESOURCE_KEYS : list string :=
  ["cpu"; "cpu_count"; "ram_gb"; "gpu_present"; "gpu_name"; "gpu_count"; "vram_gb"; "tpu_present";
   "tpu_type"; "cuda_available"; "cuda_version"; "driver_version"].
Definition resource_default (k : string) : pyval :=
  if str_in k ["gpu_present"; "tpu_present"; "cuda_available"] then VBool false else VNone.
Definition session_id_of (m : RemoteComputeManager) : option string :=
  match mg_session m, mg_transport m with
  | Some r, Some i => c ← mg_transports m !! i; s ← cb_sessions c !! r; Some (rc_session_id s)
  | _, _ => None
  end.
Definition text_value (o : option string) : pyval :=
  match o with Some s => VStr s | None => VNone end.
Definition get_status (m : RemoteComputeManager) : dict string pyval :=
  [("state", VStr (remote_state_value (mg_state m)));
   ("provider", VStr "google_colab");
   ("session_id", text_value (session_id_of m));
   ("error", text_value (mg_error m));
   ("attempt_id", text_value (mg_attempt_id m));
   ("attempt_count", VInt (Z.of_nat (length (mg_attempts m))));
   ("resources", match mg_profile m with
                 | Some ((_ :: _) as p) =>
                     VDict ((fun k => (k, vget_or k (resource_default k) p)) <$> RESOURCE_KEYS)
                 | _ => VNone
                 end);
   ("capabilities", VDict (table_to_dict (mg_registry m)))].

Definition connect : MM bool :=
  b ← state_in ["DISCONNECTED"; "FAILED"; "LOST"; "TERMINATED"];
  if negb b then mret false
  else
    modify (fun m => m <| mg_state := RS_CONNECTING |> <| mg_error := None |>
                       <| mg_cancel_requested := false |>) ;;
    u ← draw mw_attempt_id;
    modify (fun m => m <| mg_attempt_id := Some u |>) ;;
    now ← draw mw_now;
    modify (fun m => m <| mg_attempts := mg_attempts m ++ [mkAttempt u now None None] |>
                       <| mg_started := S (mg_started m) |>) ;;
    mret true.
Definition disconnect : MM bool :=
  s ← gets mg_state;
  if bool_decide (s = RS_DISCONNECTED) then mret true
  else
    set_state RS_TERMINATING ;;
    t ← gets mg_transport;
    r ← gets mg_session;
    (match t, r with
     | Some i, Some r => except_all (on_transport i (browser_terminate r)) (fun _ => mret tt)
     | _, _ => mret tt
     end) ;;
    modify (fun m => m <| mg_state := RS_DISCONNECTED |> <| mg_session := None |> <| mg_transport := None |>
                       <| mg_profile := None |> <| mg_registry := [] |> <| mg_error := None |>) ;;
    mret true.
Definition reconnect : MM bool := disconnect ;; connect.
Definition cancel : MM bool :=
  b ← state_in ["CONNECTING"; "WAITING_USER"; "RUNTIME_CONNECTING"; "AUDITING"];
  if negb b then mret false
  else modify (fun m => m <| mg_cancel_requested := true |>) ;; mret true.

(** [_record_attempt_failure] *)
Fixpoint record_failure (attempt : option string) (stage reason : string) (l : list Attempt) : list Attempt :=
  match l with
  | [] => []
  | a :: l =>
      if bool_decide (Some (at_attempt_id a) = attempt)
      then mkAttempt (at_attempt_id a) (at_timestamp a) (Some stage) (Some reason) :: l
      else a :: record_failure attempt stage reason l
  end.
Definition attempt_failed (attempt : option string) (stage error reason : string) : MM unit :=
  modify (fun m => m <| mg_state := RS_FAILED |> <| mg_error := Some error |>
                     <| mg_attempts := record_failure attempt stage reason (mg_attempts m) |>).
Definition attempt_text (attempt : option string) : string := default "None" attempt.
Definition provisioning_error (s : RemoteComputeSession) : string :=
  match vget_or "error" (VStr "Unknown provisioning error") (rc_metadata s) with
  | VStr e => e
  | v => py_str v
  end.
(** Phases 3 to 5, on the session [r] of transport [i]. *)
Definition audit_session (i r : nat) : MM unit :=
  profile ← on_transport i (discover mw_discovery_code browser_execute r);
  modify (fun m => m <| mg_profile := Some profile |> <| mg_registry := [] |>) ;;
  table ← on_transport i (from_resource_profile profile []);
  modify (fun m => m <| mg_registry := table |>) ;;
  set_state RS_READY ;;
  modify (fun m => m <| mg_error := None |>).
Definition do_connect (attempt : option string) : MM unit :=
  cancelled ← gets mg_cancel_requested;
  if (cancelled : bool) then set_state RS_DISCONNECTED
  else
    set_state RS_CONNECTING ;;
    made ← except_all (i ← new_transport; mret (Ok i)) (fun e => mret (Raise e));
    match made with
    | Raise e => attempt_failed attempt "TRANSPORT_INIT" ("Transport creation failed: " +:+ exn_str e) (exn_str e)
    | Ok i =>
        cancelled ← gets mg_cancel_requested;
        if (cancelled : bool) then set_state RS_DISCONNECTED
        else
          set_named "WAITING_USER" ;;
          got ← except_all
                  (r ← on_transport i (browser_provision
                         (mkProvision [("session_name", VStr ("anny-" +:+ attempt_text attempt));
                                       ("transport_type", VStr "browser")] None));
                   s ← on_transport i (get_session r);
                   mret (Ok (r, s)))
                  (fun e => mret (Raise e));
          match got with
          | Raise e => attempt_failed attempt "PROVISION" ("Provisioning failed: " +:+ exn_str e) (exn_str e)
          | Ok (r, s) =>
              if bool_decide (rc_state s = RS_FAILED)
              then attempt_failed attempt "PROVISION" (provisioning_error s) (provisioning_error s)
              else
                modify (fun m => m <| mg_session := Some r |> <| mg_transport := Some i |>
                                   <| mg_state := RS_AUDITING |>) ;;
                cancelled ← gets mg_cancel_requested;
                (if (cancelled : bool) then disconnect ;; mret tt else audit_session i r)
          end
    end.
Definition connect_worker : MM unit :=
  attempt ← gets mg_attempt_id;
  except_all (do_connect attempt)
    (fun e => attempt_failed attempt "WORKER" (exn_str e) (exn_str e)).
(** A started connection flow runs. *)
Definition run_worker : MM unit :=
  n ← gets mg_started;
  match n with
  | 0 => mret tt
  | S n => modify (fun m => m <| mg_started := n |>) ;; connect_worker
  end.
End Manager.

(** ** What the manager can do *)
Section Unreachable.
Context {world : ManagerWorld}.
Lemma named_unknown name m :
  dget name session_states = None ->
  set_named name m =
    (m, raise AttributeError ("type object 'RemoteSessionState' has no attribute '" +:+ name +:+ "'")).
Proof. unfold set_named, remote_state, mbind, M_bind, of_result. by intros ->. Qed.
Lemma connect_raises m :
  connect m = (m, raise AttributeError "type object 'RemoteSessionState' has no attribute 'LOST'").
Proof. done. Qed.
Lemma cancel_raises m :
  cancel m = (m, raise AttributeError "type object 'RemoteSessionState' has no attribute 'WAITING_USER'").
Proof. done. Qed.

Inductive manager_call := MConnect | MDisconnect | MReconnect | MCancel | MWorker.
Definition make_manager_call (c : manager_call) : M RemoteComputeManager bool :=
  match c with
  | MConnect => connect | MDisconnect => disconnect | MReconnect => reconnect | MCancel => cancel
  | MWorker => run_worker ;; mret true
  end.
Definition make_manager_calls (cs : list manager_call) (m : RemoteComputeManager) :=
  foldl (fun m c => (make_manager_call c m).1) m cs.
(** No session is ever connected: connect raises in every state, because the
    tuple of states it tests names one that does not exist, so that no thread is
    started, and the manager is for ever as it was created. *)
Theorem manager_never_connects cs :
  make_manager_calls cs new_manager = new_manager /\
  (forall m, exists msg, connect m = (m, raise AttributeError msg)) /\
  (forall m, exists msg, cancel m = (m, raise AttributeError msg)).
Proof.
  repeat split; [|intros m; eexists; apply connect_raises|intros m; eexists; apply cancel_raises].
  unfold make_manager_calls. eapply (preserves_calls (fun m => m = new_manager)); [|done].
  intros [] m ->; done.
Qed.

(** Even a connection flow that were started would not connect: it ends
    DISCONNECTED, when it was cancelled before the transport was made, and
    FAILED otherwise, with no session, no profile and no capability. *)
Definition unconnected (m m' : RemoteComputeManager) : Prop :=
  mg_session m' = mg_session m /\ mg_transport m' = mg_transport m /\
  mg_profile m' = mg_profile m /\ mg_registry m' = mg_registry m.
Theorem flow_never_connects m :
  let m' := (connect_worker m).1 in
  (mg_state m' = RS_FAILED \/ mg_state m' = RS_DISCONNECTED /\ mg_cancel_requested m = true) /\
  unconnected m m'.
Proof.
  intros m'. subst m'. cut (wp connect_worker m (fun m' _ => (mg_state m' = RS_FAILED \/
    mg_state m' = RS_DISCONNECTED /\ mg_cancel_requested m = true) /\ unconnected m m')).
  { unfold wp. by destruct (connect_worker m). }
  unfold connect_worker, except_all, do_connect, new_transport, draw. apply wp_bind, wp_gets, wp_try_with.
  apply wp_bind, wp_gets. destruct (mg_cancel_requested m) eqn:Ec; [apply wp_modify; by split; [right|]|].
  apply wp_bind, wp_modify, wp_bind, wp_try_with, wp_bind, wp_bind. unfold wp at 1.
  apply wp_bind. simpl. destruct (mw_create (mg_tick m)) as [e|].
  - apply wp_throw, wp_ret, wp_modify. by split; [left|].
  - apply wp_ret, wp_bind, wp_gets, wp_bind, wp_modify, wp_ret, wp_ret, wp_bind, wp_gets. simpl. rewrite Ec.
    apply wp_bind. unfold wp at 1. rewrite named_unknown by done. simpl. by split; [left|].
Qed.
End Unreachable.
