(* ===== verification/Probe.v ===== *)
(** * The probe of a remote machine

    The snippet that discovery runs on the remote side ([_DISCOVERY_CODE] of
    runtime/compute/discovery.py), as a function of what the machine answers, and what
    the capability registry makes of its report.  The rounded quotients are arguments. *)
From S2P Require Import Prelude Dict PyVal Effects PyStr PyBytes Json JsonLoad Config Compute ComputeFacts.

(** ** The machine *)
(** What [subprocess.run] of nvidia-smi comes to. *)
Inductive smi := SmiRaises | SmiRan (returncode : Z) (stdout : string).
(** What importing a package comes to: its [__version__], if it has one. *)
Inductive package := NotInstalled | Broken | Installed (version : option string).
(** [torch], once imported: each question may raise (not an [ImportError]). *)
Record Torch := mkTorch {
  to_available : result bool; to_version : result string;
  to_cuda_version : result pyval; to_capability : result (list Z) }.
Inductive torch_import := TorchMissing | TorchRaises | TorchLoaded (t : Torch).
(** [rm_gigabytes n k] is [round(n / 1024 ** k, 2)], and [rm_vram] the same of a text,
    in megabytes, if it is a number. *)
Class RemoteMachine := {
  rm_platform : result string;
  rm_cpu_count : result pyval;
  rm_memory : result Z;
  rm_meminfo : result (list string);
  rm_gigabytes : Z -> N -> pyval;
  rm_smi : smi;
  rm_vram : string -> option pyval;
  rm_accel0 : bool;
  rm_colab_tpu_addr : option string;
  rm_torch : torch_import;
  rm_sys_version : string;
  rm_packages : string -> package;
  rm_smoke : result string }.

(** [s.split(", ")] and [s.count(newline)] *)
Fixpoint split_comma (cur s : string) : list string :=
  match s with
  | "" => [String.rev cur]
  | String c s' =>
      if startswith ", " s then
        String.rev cur :: match s' with String _ s'' => split_comma "" s'' | "" => [] end
      else split_comma (String c cur) s'
  end.
Fixpoint newlines (s : string) : nat :=
  match s with "" => 0 | String c s' => Nat.b2n (N_of_ascii c =? 10)%N + newlines s' end.

Section Probe.
Context `{RemoteMachine}.
Definition probe_step : Type := dict string pyval -> dict string pyval.
Definition put (k : string) (v : pyval) : probe_step := dset k v.
Definition puts (l : list (string * pyval)) : probe_step := fun d => foldl (fun d kv => dset kv.1 kv.2 d) d l.

Definition probe_cpu : probe_step :=
  match rm_platform, rm_cpu_count with
  | Ok p, Ok n => puts [("cpu", VStr p); ("cpu_count", n)]
  | Raise e, _ | Ok _, Raise e => puts [("cpu", VStr ("ERROR: " +:+ exn_str e)); ("cpu_count", VNone)]
  end.
(** The line of /proc/meminfo, when psutil does not answer. *)
Definition meminfo_kb (line : string) : option Z :=
  match split_words "" line with
  | _ :: kb :: _ => match int_of_digits kb with Ok n => Some n | Raise _ => None end
  | _ => None
  end.
Definition probe_ram : probe_step :=
  match rm_memory with
  | Ok n => put "ram_gb" (rm_gigabytes n 3)
  | Raise _ =>
      match rm_meminfo with
      | Raise _ => put "ram_gb" VNone
      | Ok lines =>
          match find (startswith "MemTotal") lines with
          | None => id
          | Some line => put "ram_gb" match meminfo_kb line with
                                      | Some kb => rm_gigabytes kb 2
                                      | None => VNone
                                      end
          end
      end
  end.
(** The fields of one line of nvidia-smi, taken from all of its output. *)
Definition gpu_fields (out : string) : list (string * pyval) :=
  let parts := split_comma "" out in
  [("gpu_present", VBool true);
   ("gpu_name", VStr (default "UNKNOWN" (parts !! 0)));
   ("vram_gb", match parts !! 1 with Some s => default VNone (rm_vram s) | None => VNone end);
   ("driver_version", VStr (default "UNKNOWN" (parts !! 2)));
   ("gpu_count", VInt (Z.of_nat (newlines out + 1)))].
Definition smi_output : option string :=
  match rm_smi with
  | SmiRan code out => if (code =? 0)%Z && negb (strip out =s "") then Some (strip out) else None
  | SmiRaises => None
  end.
Definition probe_gpu : probe_step :=
  match smi_output with
  | Some out => puts (gpu_fields out)
  | None => put "gpu_present" (VBool false)
  end.
Definition tpu_found : bool :=
  rm_accel0 || contains "TPU" (default "" rm_colab_tpu_addr).
Definition probe_tpu : probe_step :=
  puts (("tpu_present", VBool tpu_found) ::
        if tpu_found then [("tpu_type", VStr (default "UNKNOWN" rm_colab_tpu_addr))] else []).
(** [str(x) for x in (major, minor)], joined. *)
Definition capability_text (l : list Z) : string := str_join "." (map zstr l).
Definition torch_fields (t : Torch) : list (string * pyval) :=
  let failed := [("cuda_available", VBool false)] in
  match to_available t with
  | Raise _ => failed
  | Ok avail =>
      ("cuda_available", VBool avail) ::
      match to_version t with
      | Raise _ => failed
      | Ok v =>
          ("torch_version", VStr v) ::
          if avail : bool then
            match to_cuda_version t with
            | Raise _ => failed
            | Ok c =>
                ("cuda_version", c) ::
                match to_capability t with
                | Raise _ => failed
                | Ok l => [("compute_capability", VStr (capability_text l))]
                end
            end
          else [("cuda_version", VNone)]
      end
  end.
Definition probe_cuda : probe_step :=
  match rm_torch with
  | TorchMissing => puts [("cuda_available", VBool false); ("torch_version", VStr "NOT_INSTALLED")]
  | TorchRaises => put "cuda_available" (VBool false)
  | TorchLoaded t => puts (torch_fields t)
  end.
Definition PROBED_PACKAGES : list (string * string) :=
  [("transformers_version", "transformers"); ("peft_version", "peft");
   ("bitsandbytes_version", "bitsandbytes"); ("accelerate_version", "accelerate")].
Definition package_version (p : package) : string :=
  match p with
  | NotInstalled => "NOT_INSTALLED"
  | Broken | Installed None => "UNKNOWN"
  | Installed (Some v) => v
  end.
Definition probe_packages : probe_step :=
  puts (map (fun kv => (kv.1, VStr (package_version (rm_packages kv.2)))) PROBED_PACKAGES).
Definition probe_python : probe_step :=
  put "python_version" (VStr (default "" (head (split_words "" rm_sys_version)))).
Definition probe_smoke : probe_step :=
  puts match rm_smoke with
       | Ok c => [("causallm_inference", VStr "PASS"); ("causallm_model_class", VStr c)]
       | Raise e => [("causallm_inference", VStr ("FAIL: " +:+ exn_str e));
                     ("causallm_model_class", VStr "UNKNOWN")]
       end.
(** [result] at the end of the snippet, and the line it prints. *)
Definition probe : dict string pyval :=
  probe_smoke (put "remote_execution" (VStr "PASS")
    (probe_packages (probe_python (probe_cuda (probe_tpu (probe_gpu (probe_ram (probe_cpu [])))))))).
Definition probe_line `{FloatOps} : string :=
  AUDIT_PREFIX +:+ " " +:+ dumps false (VDict probe) +:+ newline.
End Probe.

(** ** What the report says *)
Section Reports.
Context `{RemoteMachine}.
Lemma vget_dset k k' v d : vget k (dset k' v d) = if k' =s k then v else vget k d.
Proof.
  unfold vget. rewrite dget_dset. destruct (k' =s k) eqn:E.
  - apply String.eqb_eq in E as ->. by rewrite decide_True.
  - apply String.eqb_neq in E. by rewrite decide_False.
Qed.
Lemma vget_puts k l d : Forall (fun kv => kv.1 <> k) l -> vget k (puts l d) = vget k d.
Proof.
  unfold puts. revert d. induction l as [|[k' v] l IH]; intros d Hl; [done|].
  apply Forall_cons in Hl as [Hk Hl]. simpl. rewrite IH by done. rewrite vget_dset.
  simpl in Hk. by rewrite (proj2 (String.eqb_neq _ _) Hk).
Qed.
Lemma torch_keys k t :
  str_in k ["cuda_available"; "torch_version"; "cuda_version"; "compute_capability"] = false ->
  Forall (fun kv => kv.1 <> k) (torch_fields t).
Proof.
  intros Hk%str_in_false. rewrite !not_elem_of_cons in Hk. destruct Hk as (H1 & H2 & H3 & H4 & _).
  unfold torch_fields. repeat case_match; repeat (constructor; [by apply not_eq_sym|]); constructor.
Qed.
Lemma cuda_silent k d :
  str_in k ["cuda_available"; "torch_version"; "cuda_version"; "compute_capability"] = false ->
  vget k (probe_cuda d) = vget k d.
Proof.
  intros Hk. unfold probe_cuda. destruct rm_torch as [| |t]; [| |by apply vget_puts, torch_keys].
  all: apply str_in_false in Hk; rewrite !not_elem_of_cons in Hk; destruct Hk as (H1 & H2 & _).
  - apply vget_puts. repeat (constructor; [by apply not_eq_sym|]); constructor.
  - unfold put. rewrite vget_dset. by rewrite (proj2 (String.eqb_neq _ _) (not_eq_sym H1)).
Qed.
(** A key none of the later steps writes has the value of the earlier ones. *)
Definition late_keys : list string :=
  ["causallm_inference"; "causallm_model_class"; "remote_execution"; "python_version";
   "cuda_available"; "torch_version"; "cuda_version"; "compute_capability"; "tpu_present"; "tpu_type"]
  ++ map fst PROBED_PACKAGES.
Lemma early_key k : str_in k late_keys = false -> vget k probe = vget k (probe_gpu (probe_ram (probe_cpu []))).
Proof.
  intros Hk. pose proof Hk as Hl. apply str_in_false in Hl. unfold late_keys in Hl. simpl in Hl.
  rewrite !not_elem_of_cons in Hl. destruct_and! Hl.
  assert (forall x v d, k <> x -> vget k (put x v d) = vget k d) as Hput.
  { intros x v d Hx. unfold put. rewrite vget_dset. by rewrite (proj2 (String.eqb_neq _ _) (not_eq_sym Hx)). }
  unfold probe, probe_smoke. rewrite vget_puts.
  2: by destruct rm_smoke; repeat (constructor; [by apply not_eq_sym|]); constructor.
  rewrite Hput by done. unfold probe_packages. rewrite vget_puts.
  2: by repeat (constructor; [by apply not_eq_sym|]); constructor.
  unfold probe_python. rewrite Hput by done. rewrite cuda_silent.
  2: by apply str_in_false; rewrite !not_elem_of_cons; repeat split; try done; apply not_elem_of_nil.
  unfold probe_tpu. apply vget_puts.
  by destruct tpu_found; repeat (constructor; [by apply not_eq_sym|]); constructor.
Qed.
Lemma ram_silent k d : k <> "ram_gb" -> vget k (probe_ram d) = vget k d.
Proof.
  intros Hk. assert (forall v, vget k (put "ram_gb" v d) = vget k d) as Hput.
  { intros v. unfold put. rewrite vget_dset. by rewrite (proj2 (String.eqb_neq _ _) (not_eq_sym Hk)). }
  unfold probe_ram. repeat case_match; by rewrite ?Hput.
Qed.
Lemma cpu_silent k d : k <> "cpu" -> k <> "cpu_count" -> vget k (probe_cpu d) = vget k d.
Proof.
  intros H1 H2. unfold probe_cpu.
  destruct rm_platform, rm_cpu_count; apply vget_puts; repeat (constructor; [by apply not_eq_sym|]); constructor.
Qed.
(** A GPU is reported exactly when nvidia-smi ran and printed something. *)
Lemma gpu_reported :
  vget "gpu_present" probe = VBool (match smi_output with Some _ => true | None => false end).
Proof.
  rewrite early_key by done. unfold probe_gpu, put. destruct smi_output as [out|]; [|by rewrite vget_dset].
  change (puts (gpu_fields out)) with
    (fun d => puts (tl (gpu_fields out)) (dset "gpu_present" (VBool true) d)). cbv beta.
  rewrite vget_puts by (repeat (constructor; [discriminate|]); constructor). by rewrite vget_dset.
Qed.
(** The two checks of the tensor units are in no report. *)
Lemma tensor_checks_missing k : In k ["cuda_tensor_test"; "fp16_test"] -> vget k probe = VNone.
Proof.
  intros [<-|[<-|[]]]; rewrite early_key by done; unfold probe_gpu, put;
    (destruct smi_output as [out|]; [rewrite vget_puts by (repeat (constructor; [done|]); constructor)|rewrite vget_dset; simpl]);
    rewrite ram_silent by done; by rewrite cpu_silent.
Qed.
(** Whatever the machine, after its discovery the registry has no tensor capability
    TESTED: the checks it reads are never made. *)
Theorem tensors_never_tested `{ColabWorld} (c : Colab) (name : string) (cap : RuntimeCapability) :
  In name ["gpu.tensor_compute"; "gpu.fp16"] ->
  exists t, (from_resource_profile probe [] c).2 = Ok t /\
    (dget name t = Some cap -> rcp_state cap <> CS_TESTED).
Proof.
  intros Hname. destruct (tested_means_passed probe c name cap) as (t & Et & Ht).
  exists t. split; [done|]. intros Hc Hs. destruct (Ht Hc Hs) as (key & Hin & Hp).
  rewrite tensor_checks_missing in Hp; [done|].
  destruct Hname as [<-|[<-|[]]]; unfold CHECKS in Hin; simpl in Hin;
    repeat destruct Hin as [[= <-]|Hin]; simpl; auto; done.
Qed.
(** A CPU that could not be asked for is an observed one, named by the error. *)
Lemma cpu_error_observed `{ColabWorld} (e : exn) :
  rm_platform = Raise e ->
  exists details, In ("cpu.compute", CS_OBSERVED, details) (profile_entries probe).
Proof.
  intros He. assert (vget "cpu" probe = VStr ("ERROR: " +:+ exn_str e)) as Hc.
  { rewrite early_key by done. unfold probe_gpu.
    assert (vget "cpu" (probe_ram (probe_cpu [])) = VStr ("ERROR: " +:+ exn_str e)) as Hr.
    { rewrite ram_silent by done. unfold probe_cpu. by rewrite He. }
    destruct smi_output as [out|]; [|by unfold put; rewrite vget_dset].
    by rewrite vget_puts by (unfold gpu_fields; repeat (constructor; [discriminate|]); constructor). }
  unfold profile_entries. rewrite Hc. eexists. by left.
Qed.
(** The address of a TPU in the environment does not name it. *)
Lemma tpu_by_address (addr : string) :
  rm_accel0 = false -> rm_colab_tpu_addr = Some addr -> contains "TPU" addr = false ->
  vget "tpu_present" (probe_tpu []) = VBool false.
Proof. unfold probe_tpu, tpu_found, puts. by intros -> -> Ha; simpl; rewrite Ha. Qed.
End Reports.
(** On a machine with two GPUs the version of the driver runs into the second line. *)
Example two_gpus `{RemoteMachine} :
  vget "driver_version" (gpu_fields ("A100, 40960, 535" +:+ newline +:+ "T4, 15360, 535")) =
  VStr ("535" +:+ newline +:+ "T4").
Proof. reflexivity. Qed.

(** ** The report arrives *)
Section Discovery.
Context {world : ColabWorld} `{RemoteMachine}.
Lemma rev_app_rev s cur x : String.rev_app (String.rev_app s cur) x = String.rev_app cur (s +:+ x).
Proof. revert cur. induction s as [|c s IH]; intros cur; [done|]. simpl. by rewrite IH. Qed.
Lemma printable_unbroken c : printable c = true -> is_linebreak c = false.
Proof. destruct c as [[] [] [] [] [] [] [] []]; intros Hc; (by vm_compute in Hc) || done. Qed.
Lemma printed_line s : all_chars printable s = true -> splitlines (s +:+ newline) = [s].
Proof.
  intros Hs. assert (forall cur, splitlines_go cur (s +:+ newline) = [String.rev (String.rev_app s cur)]) as Hl.
  { induction s as [|c s IH]; intros cur; [done|]. apply andb_prop in Hs as [Hc Hs].
    rewrite string_app_cons. cbn [splitlines_go String.rev_app].
    rewrite printable_unbroken by done. by apply IH. }
  unfold splitlines. rewrite Hl. unfold String.rev. rewrite rev_app_rev. simpl. by rewrite string_app_nil_r.
Qed.
Lemma rstrip_brace s : rstrip (s +:+ "}") = s +:+ "}".
Proof.
  induction s as [|c s IH]; [done|]. rewrite string_app_cons. cbn [rstrip]. rewrite IH. by destruct s.
Qed.
Lemma substring_all n s : String.length s <= n -> String.substring 0 n s = s.
Proof.
  revert n. induction s as [|c s IH]; intros [|n] Hn; simpl in *; try done; [lia|]. by rewrite IH by lia.
Qed.
(** The report is printed in ASCII and [json.loads] reads it back: of a report without
    fractions this is proved, of the others it is what [repr] of a float promises. *)
Definition reads_back : Prop :=
  all_chars printable (dumps false (VDict probe)) = true /\
  json_loads (dumps false (VDict probe)) = Ok (VDict probe).
Lemma plain_reads_back : plain (VDict probe) -> reads_back.
Proof.
  intros Hp. split; [by apply dumps_printable|].
  destruct (json_round_trip _ false (VDict probe) Hp) as [E _]. by rewrite E, ordered_same.
Qed.
(** The line the probe prints, read back. *)
Lemma report_read now :
  reads_back ->
  exists line, audit_line probe_line = Some line /\
    audited now line = Ok (dset "_discovery_status" (VStr "COMPLETED")
                             (dset "_discovery_timestamp" (VStr (cw_isoformat now)) probe)).
Proof.
  intros [Ht Hread]. destruct (printed_dict probe) as [s Es].
  set (t := dumps false (VDict probe)) in *.
  exists (AUDIT_PREFIX +:+ " " +:+ t). split.
  - unfold audit_line, probe_line. fold t. rewrite <- !string_app_assoc.
    rewrite printed_line by done. reflexivity.
  - unfold audited. change (String.substring 11 (String.length (AUDIT_PREFIX +:+ " " +:+ t)) (AUDIT_PREFIX +:+ " " +:+ t))
      with (String.substring 0 (11 + S (String.length t)) (String " " t)).
    rewrite substring_all by (simpl; lia).
    assert (strip (String " " t) = t) as ->.
    { unfold strip. rewrite Es. apply (rstrip_brace (String "{" s)). }
    by rewrite Hread.
Qed.
(** When the transport brings back what the probe printed, discovery returns the
    report of the probe, stamped, whatever the machine. *)
Theorem discovery_complete DISCOVERY_CODE run r c s :
  reads_back -> cb_sessions c !! r = Some s ->
  (forall j c1, is_Some (cb_jobs c1 !! j) -> wp (run r j) c1 (fun c2 o => o = Ok j /\
     exists x, cb_jobs c2 !! j = Some x /\ jb_stdout x = Some probe_line)) ->
  exists c' now, discover DISCOVERY_CODE run r c = (c', Ok
    (dset "_discovery_status" (VStr "COMPLETED")
       (dset "_discovery_timestamp" (VStr (cw_isoformat now)) probe))).
Proof.
  intros Hp Hs Hrun.
  destruct (wp_elim (discover DISCOVERY_CODE run r) c (fun _ o => exists now, o = Ok
    (dset "_discovery_status" (VStr "COMPLETED")
       (dset "_discovery_timestamp" (VStr (cw_isoformat now)) probe)))) as (c' & o & E & now & ->);
    [|by exists c', now].
  unfold discover. apply wp_bind. unfold wp at 1, utc_now, answer. apply wp_bind.
  unfold wp at 1, get_session. change (cb_sessions _ !! r) with (cb_sessions c !! r). rewrite Hs.
  apply wp_bind. unfold wp at 1, new_job.
  unfold except_all. apply wp_try_with, wp_bind. eapply wp_mono; [apply Hrun|].
  { simpl. rewrite list_lookup_middle; [by eexists|done]. }
  intros c2 o [-> (x & Hx & Hout)]. apply wp_bind. unfold wp at 1, get_job. rewrite Hx, Hout.
  match goal with |- context [audited ?now _] => destruct (report_read now Hp) as (line & El & Ea) end.
  change (default "" (Some probe_line)) with probe_line. rewrite El. unfold wp, of_result. rewrite Ea. by eexists.
Qed.
End Discovery.

(** A machine with a GPU and 12.67 GB of memory. *)
Module ProbeExamples.
Definition gigabytes : pyval := VFloat (decimal_float false 1267 (-2) 4).
#[local] Instance machine : RemoteMachine := {
  rm_platform := Ok "Linux-6.1";
  rm_cpu_count := Ok (VInt 2);
  rm_memory := Ok 13604000000%Z;
  rm_meminfo := Ok [];
  rm_gigabytes _ _ := gigabytes;
  rm_smi := SmiRan 0 ("Tesla T4, 15360, 535.104" +:+ newline);
  rm_vram _ := Some (VInt 15);
  rm_accel0 := false;
  rm_colab_tpu_addr := None;
  rm_torch := TorchLoaded (mkTorch (Ok true) (Ok "2.3.0") (Ok (VStr "12.1")) (Ok [7; 5]%Z));
  rm_sys_version := "3.11.2 (main)";
  rm_packages p := if p =s "peft" then NotInstalled else Installed (Some "4.1");
  rm_smoke := raise RuntimeError "offline" }.
#[local] Instance colab : ColabWorld := {
  cw_floats := {| float_repr _ := "12.67"; float_sum _ := SpecFloat.S754_zero false |};
  cw_errors := fun _ => "not JSON";
  cw_run _ := CliMissing;
  cw_clock n := Z.of_nat n;
  cw_isoformat _ := "2026-01-01T00:00:00+00:00";
  cw_strftime _ := "20260101000000";
  cw_uuid8 _ := "abcd0123";
  cw_temp_file _ := Ok "/tmp/job.py";
  cw_unlink _ := Ok tt;
  cw_start _ := Ok tt;
  cw_call _ _ _ := Ok (mkToolReply false None);
  cw_tools _ := Ok [];
  cw_set_text _ := "{}" }.
Lemma machine_reads_back : reads_back.
Proof. split; vm_compute; reflexivity. Qed.
(** Its capabilities: the GPU is observed, the packages as installed, no tensor test. *)
Example machine_table :
  map (fun e => e.1) (profile_entries probe) =
  [("cpu.compute", CS_OBSERVED); ("gpu.compute", CS_OBSERVED); ("tpu.compute", CS_UNAVAILABLE);
   ("cuda", CS_OBSERVED); ("remote.execution", CS_TESTED); ("software.python", CS_OBSERVED);
   ("software.pytorch", CS_OBSERVED); ("software.transformers", CS_OBSERVED);
   ("software.peft", CS_UNAVAILABLE); ("software.bitsandbytes", CS_OBSERVED);
   ("software.accelerate", CS_OBSERVED); ("model.causal_lm", CS_UNKNOWN);
   ("gpu.tensor_compute", CS_UNKNOWN); ("gpu.fp16", CS_UNKNOWN)].
Proof. vm_compute. reflexivity. Qed.
End ProbeExamples.
