(* ===== verification/Validation.v ===== *)
(** * The interactive validation

    scripts/run_001d_interactive_colab_validation.py: the preflight of the host, the
    states a validation goes through, the run over the remote compute provider of
    Compute, and the evidence it scrubs, checks and writes.  What it prints is not
    kept.  A provision that does not return in time goes on in its thread, which the
    rest of the run does not wait for. *)
From S2P Require Import Prelude Dict PyVal Effects PyStr PyBytes Json JsonLoad Compute.

Class ValidationHost := {
  vh_platform : string;
  vh_environ : string -> option string;
  vh_which : string -> option string;
  vh_in_time : bool;
  vh_sha256 : string -> string;
  vh_write : result unit }.

Definition REMOTE_SUCCESS_MARKER : string := "ANNY_COLAB_MCP_OK".
Definition FORBIDDEN_EVIDENCE_KEYS : list string :=
  ["password"; "cookie"; "refresh_token"; "oauth_token"; "browser_storage"; "session_secret";
   "access_token"; "id_token"; "authorization"; "private_key"].
Definition FORBIDDEN_EVIDENCE_PATTERNS : list string := ["ya29."; "Bearer "].

(** ** The host *)
Record HostPreflight := mkPreflight {
  hp_platform : string; hp_display : bool; hp_executable : option string; hp_browser : bool;
  hp_capable : bool; hp_reason : string }.
Definition preflight_status (p : HostPreflight) : string :=
  if hp_capable p then "INTERACTIVE_BROWSER_AVAILABLE"
  else if negb (hp_display p) then "DISPLAY_UNAVAILABLE"
  else if negb (hp_browser p) then "BROWSER_EXECUTABLE_NOT_FOUND"
  else "INTERACTIVE_BROWSER_UNAVAILABLE".
Definition text_value (o : option string) : pyval := match o with Some s => VStr s | None => VNone end.
Definition preflight_to_dict (p : HostPreflight) : dict string pyval :=
  [("platform", VStr (hp_platform p)); ("display_available", VBool (hp_display p));
   ("browser_executable", text_value (hp_executable p)); ("browser_available", VBool (hp_browser p));
   ("interactive_capable", VBool (hp_capable p)); ("reason", VStr (hp_reason p));
   ("status", VStr (preflight_status p))].
Definition BROWSER_CANDIDATES : list string :=
  ["google-chrome"; "google-chrome-stable"; "chromium-browser"; "chromium"; "firefox"; "firefox-esr";
   "open"; "xdg-open"].
Definition nonempty (o : option string) : option string :=
  match o with Some s => if s =s "" then None else Some s | None => None end.
Definition first_some {A B} (f : A -> option B) (l : list A) : option B := head (omap f l).
Section OnHost.
Context {host : ValidationHost}.
(** The display server, and what is said of it. *)
Definition find_display : bool * string :=
  if str_in vh_platform ["win32"; "darwin"]
  then (true, "platform=" +:+ vh_platform +:+ " (native GUI assumed present)")
  else match first_some (fun k => nonempty (vh_environ k)) ["DISPLAY"; "WAYLAND_DISPLAY"] with
       | Some d => (true, "DISPLAY/WAYLAND_DISPLAY=" +:+ py_repr_str d)
       | None => (false, "DISPLAY and WAYLAND_DISPLAY not set (headless)")
       end.
Definition run_host_preflight : HostPreflight :=
  let '(display, why) := find_display in
  let exe := first_some (fun c => nonempty (vh_which c)) BROWSER_CANDIDATES in
  let browser := match exe with Some _ => true | None => false end in
  let reason := match exe with
                | Some x => if display then "display=" +:+ why +:+ ", browser=" +:+ x
                            else "No display: " +:+ why
                | None => if display then "Display available (" +:+ why
                                          +:+ ") but no browser executable found in PATH"
                          else "No display: " +:+ why
                end in
  mkPreflight vh_platform display exe browser (display && browser) reason.
End OnHost.

(** ** The states *)
Inductive ValidationState :=
  | VS_INIT | VS_BROWSER_REQUESTED | VS_CONNECTING | VS_CONNECTED | VS_READY | VS_EXECUTING
  | VS_COMPLETED | VS_CONNECT_FAILED | VS_AUTH_FAILED | VS_TIMEOUT | VS_DISCONNECTED
  | VS_EXECUTION_FAILED | VS_CLOSED.
#[export] Instance ValidationState_eq_dec : EqDecision ValidationState.
Proof. solve_decision. Defined.
Definition validation_state_value (s : ValidationState) : string :=
  match s with
  | VS_INIT => "INIT" | VS_BROWSER_REQUESTED => "BROWSER_REQUESTED" | VS_CONNECTING => "CONNECTING"
  | VS_CONNECTED => "CONNECTED" | VS_READY => "READY" | VS_EXECUTING => "EXECUTING"
  | VS_COMPLETED => "COMPLETED" | VS_CONNECT_FAILED => "CONNECT_FAILED" | VS_AUTH_FAILED => "AUTH_FAILED"
  | VS_TIMEOUT => "TIMEOUT" | VS_DISCONNECTED => "DISCONNECTED"
  | VS_EXECUTION_FAILED => "EXECUTION_FAILED" | VS_CLOSED => "CLOSED"
  end.
(** A run: the provider, the state and the states it has been in, the transitions and
    the evidence as they are written, and the file. *)
Record Run := mkRun {
  vr_colab : Colab;
  vr_state : ValidationState;
  vr_trace : list ValidationState;
  vr_transitions : list pyval;
  vr_evidence : dict string pyval;
  vr_file : option pyval }.
#[export] Instance eta_Run : Eta Run := fun r =>
  mkRun (vr_colab r) (vr_state r) (vr_trace r) (vr_transitions r) (vr_evidence r) (vr_file r).

(** ** The evidence *)
Definition redacted : pyval := VStr "<REDACTED>".
Definition tainted (s : string) : bool := existsb (fun p => contains p s) FORBIDDEN_EVIDENCE_PATTERNS.
Definition scrub_value (v : pyval) : pyval :=
  match v with VStr s => if tainted s then redacted else v | _ => v end.
Fixpoint scrub (v : pyval) : pyval :=
  match v with
  | VDict d =>
      VDict ((fix go (d : dict string pyval) :=
         match d with
         | [] => []
         | (k, v) :: d' =>
             (k, if str_in (lower k) FORBIDDEN_EVIDENCE_KEYS then redacted
                 else match v with
                      | VDict _ => scrub v
                      | VList l => VList (map scrub_value l)
                      | _ => scrub_value v
                      end) :: go d'
         end) d)
  | _ => v
  end.
Definition scrub_evidence (d : dict string pyval) : dict string pyval :=
  match scrub (VDict d) with VDict d' => d' | _ => d end.

Section Flow.
Context {world : ColabWorld} {host : ValidationHost}.
Definition credential_isolation_check (evidence : dict string pyval) : bool :=
  negb (existsb (fun p => contains p (dumps false (VDict evidence))) FORBIDDEN_EVIDENCE_PATTERNS).

(** ** The run *)
Definition provider {A} (m : M Colab A) : M Run A := zoom vr_colab (fun c r => r <| vr_colab := c |>) m.
Definition note (k : string) (v : pyval) : M Run unit :=
  modify (fun r => r <| vr_evidence := dset k v (vr_evidence r) |>).
Definition transition (s : ValidationState) (reason : string) (evidence : list (string * pyval)) : M Run unit :=
  modify (fun r => r <| vr_state := s |> <| vr_trace := vr_trace r ++ [s] |>) ;;
  now ← provider utc_now;
  modify (fun r => r <| vr_transitions := vr_transitions r ++
    [VDict ([("state", VStr (validation_state_value s)); ("timestamp", VStr (cw_isoformat now));
             ("reason", VStr reason)]
            ++ match evidence with [] => [] | _ => [("evidence", VDict evidence)] end)] |>).
Definition unverified : pyval := VStr "NOT_VERIFIED".
Definition skeleton (start : Z) (p : HostPreflight) : dict string pyval :=
  [("mission_id", VStr "MISSION-001D"); ("harness_version", VStr "001F");
   ("timestamp_start", VStr (cw_isoformat start)); ("runtime_id", VStr "local-dev");
   ("installation_id", VStr "00000000-0000-0000-0000-000000000000");
   ("provider", VStr "google-colab"); ("transport", VStr "browser");
   ("implementation_status", VStr "PASS"); ("host_preflight", VDict (preflight_to_dict p));
   ("browser_connection", unverified); ("remote_session", unverified);
   ("remote_execution", unverified); ("success_marker", unverified);
   ("credential_isolation", unverified);
   ("session_id", VNone); ("remote_session_id", VNone); ("job_id", VNone);
   ("interactive_status", VStr (preflight_status p)); ("browser_state_transitions", VList []);
   ("requested_accelerator", VStr "UNKNOWN"); ("assigned_accelerator", VStr "UNKNOWN");
   ("observed_accelerator", VStr "UNKNOWN"); ("hostname", VNone); ("python_version", VNone);
   ("platform", VNone); ("stdout", VNone); ("stderr", VNone); ("exit_code", VNone)].
Definition raised (what : string) (e : exn) : string :=
  what +:+ "() raised: " +:+ exn_name (exn_type e) +:+ ": " +:+ exn_str e.
Definition validation_context : provision_context :=
  mkProvision [("transport_type", VStr "browser"); ("session_name", VStr "anny-001d-validation")] None.
(** The connection: the session, if [provision] returned in time. *)
Definition connected (r : nat) : M Run unit :=
  s ← provider (get_session r);
  if bool_decide (rc_state s = RS_READY) then
    transition VS_CONNECTED "provider.provision() returned state=READY"
      [("transport", VStr "browser_mcp"); ("session_id", VStr (rc_session_id s))] ;;
    transition VS_READY "Session confirmed READY by provider" [] ;;
    note "browser_connection" (VStr "VERIFIED") ;;
    note "remote_session" (VStr "VERIFIED")
  else
    transition VS_CONNECT_FAILED
      ("provision() returned unexpected state: " +:+ remote_state_value (rc_state s)) [].
Definition connect (p : HostPreflight) : M Run (option nat) :=
  let timeout := if hp_capable p then 180%Z else 15%Z in
  if vh_in_time then
    except_all
      (r ← provider (provision validation_context); connected r ;; mret (Some r))
      (fun e => transition VS_CONNECT_FAILED (raised "provision" e) [] ;; mret None)
  else
    transition VS_TIMEOUT
      ("provision() blocked for " +:+ zstr timeout +:+ "s without browser interaction")
      [("headless", VBool (negb (hp_capable p)))] ;;
    mret None.

(** The observables of the remote side, a line each. *)
Definition after_colon (line : string) : string :=
  match split_at ":" line with _ :: l => strip (str_join ":" l) | [] => "" end.
Definition OBSERVABLES : list (string * string) :=
  [("hostname:", "hostname"); ("python_version:", "python_version"); ("platform:", "platform");
   ("GPU_OBSERVED:", "observed_accelerator")].
Definition observe_line (line : string) : M Run unit :=
  match find (fun kv => startswith kv.1 line) OBSERVABLES with
  | Some kv => note kv.2 (VStr (after_colon line))
  | None => mret tt
  end.
Definition classify_remote_success (job : RemoteComputeJob) : bool :=
  (jb_status job =s "COMPLETED") && contains REMOTE_SUCCESS_MARKER (default "" (jb_stdout job)).
Definition SMOKE_CODE : string :=
  str_join newline
    ["import sys, platform, subprocess, os"; "print('ANNY_COLAB_MCP_OK')";
     "print(f'hostname: {platform.node()}')"; "print(f'python_version: {sys.version.split()[0]}')";
     "print(f'platform: {platform.platform()}')"; "try:"; "    smi = subprocess.check_output(";
     "        ['nvidia-smi','--query-gpu=name','--format=csv,noheader'],";
     "        stderr=subprocess.DEVNULL"; "    ).decode().strip()"; "    if smi:";
     "        print(f'GPU_OBSERVED: {smi}')"; "except Exception:"; "    pass"; ""].
Definition minute : Z := 60000000.
(** What is made of a job that returned: whether it succeeded. *)
Definition returned (job : RemoteComputeJob) : M Run bool :=
  let out := default "" (jb_stdout job) in
  let done := jb_status job =s "COMPLETED" in
  note "stdout" (VStr out) ;;
  note "stderr" (VStr (default "" (jb_stderr job))) ;;
  note "exit_code" (VInt (if done then 0 else 1)) ;;
  note "remote_execution" (VStr (if done then "VERIFIED" else "FAILED")) ;;
  for_each (splitlines out) observe_line ;;
  if classify_remote_success job then
    transition VS_COMPLETED "stdout contains 'ANNY_COLAB_MCP_OK' and status=COMPLETED"
      [("exit_code", VInt (if done then 0 else 1))] ;;
    note "success_marker" (VStr "VERIFIED") ;;
    mret true
  else
    transition VS_EXECUTION_FAILED
      ("status=" +:+ py_repr_str (jb_status job) +:+ " or stdout does not contain 'ANNY_COLAB_MCP_OK'") [] ;;
    mret false.
Definition smoke_test (r : nat) : M Run bool :=
  transition VS_EXECUTING "Session READY, submitting smoke payload" [] ;;
  now ← provider utc_now;
  created ← provider utc_now;
  s ← provider (get_session r);
  j ← provider (new_job (mkJob "job_001d_smoke" (rc_session_id s) "smoke" created "PENDING"
                           (now + 5 * minute) (Some SMOKE_CODE)));
  note "session_id" (VStr (rc_session_id s)) ;;
  note "remote_session_id" (VStr (rc_session_id s)) ;;
  note "job_id" (VStr "job_001d_smoke") ;;
  except_all
    (j ← provider (execute r j); job ← provider (get_job j); returned job)
    (fun e =>
       note "stderr" (VStr (exn_str e)) ;;
       note "exit_code" (VInt 1) ;;
       transition VS_EXECUTION_FAILED (raised "execute" e) [] ;;
       mret false).
Definition close_session (r : nat) : M Run unit :=
  except_all
    (provider (terminate r) ;; transition VS_CLOSED "Session terminated cleanly" [])
    (fun _ => mret tt).
(** The classification, from the host, the success of the test and the last state. *)
Definition not_connected (s : ValidationState) : bool :=
  bool_decide (s = VS_TIMEOUT) || bool_decide (s = VS_CONNECT_FAILED).
Definition classification (capable passed : bool) (s : ValidationState) : string :=
  if capable then
    if passed then "MISSION_001D_PASS"
    else if not_connected s then "MISSION_001D_BLOCKED" else "MISSION_001D_FAILED"
  else if not_connected s then "MISSION_001D_PARTIAL" else "MISSION_001D_FAILED".
(** The evidence completed, checked, hashed and written. *)
Definition write_evidence : M Run unit :=
  now ← provider utc_now;
  note "timestamp_end" (VStr (cw_isoformat now)) ;;
  l ← gets vr_transitions;
  note "browser_state_transitions" (VList l) ;;
  modify (fun r => r <| vr_evidence := scrub_evidence (vr_evidence r) |>) ;;
  e ← gets vr_evidence;
  note "credential_isolation" (VStr (if credential_isolation_check e then "PASS" else "FAIL")) ;;
  e ← gets vr_evidence;
  note "evidence_hashes" (VDict [("sha256", VStr (vh_sha256 (dumps true (VDict e))))]) ;;
  of_result vh_write ;;
  e ← gets vr_evidence;
  modify (fun r => r <| vr_file := Some (VDict e) |>).
Definition test_session (s : option nat) : M Run bool :=
  st ← gets vr_state;
  match s with
  | Some r =>
      if bool_decide (st = VS_READY) then
        passed ← smoke_test r; close_session r ;; mret passed
      else
        note "exit_code" (VInt 1) ;;
        note "stderr" (VStr ("Session not established. Final state: " +:+ validation_state_value st)) ;;
        mret false
  | None =>
      note "exit_code" (VInt 1) ;;
      note "stderr" (VStr ("Session not established. Final state: " +:+ validation_state_value st)) ;;
      mret false
  end.
Definition run_validation : M Run string :=
  start ← provider utc_now;
  transition VS_INIT "Validation started" [] ;;
  let p := run_host_preflight in
  modify (fun r => r <| vr_evidence := skeleton start p |>) ;;
  transition VS_BROWSER_REQUESTED "Preflight complete, requesting browser transport"
    [("preflight_status", VStr (preflight_status p))] ;;
  transition VS_CONNECTING "Submitting provision() to thread with timeout"
    [("transport", VStr "browser_mcp")] ;;
  s ← connect p;
  passed ← test_session s;
  st ← gets vr_state;
  write_evidence ;;
  mret (classification (hp_capable p) passed st).
(** The exit code, and a run from the start. *)
Definition exit_code (c : string) : Z := if str_in c ["MISSION_001D_PASS"; "MISSION_001D_PARTIAL"] then 0 else 1.
Definition fresh_run : Run := mkRun (new_provider vh_which None) VS_INIT [] [] [] None.
End Flow.

(** ** The course of a run *)
Section Course.
Context {world : ColabWorld} {host : ValidationHost}.
(** What the course of a run depends on. *)
Definition course (r : Run) : ValidationState * list ValidationState * list RemoteComputeJob :=
  (vr_state r, vr_trace r, cb_jobs (vr_colab r)).
Lemma transition_wp s reason ev r (Q : Run -> result unit -> Prop) :
  (forall r', course r' = (s, vr_trace r ++ [s], cb_jobs (vr_colab r)) -> Q r' (Ok tt)) ->
  wp (transition s reason ev) r Q.
Proof. intros H. unfold transition. by apply H. Qed.
Lemma note_wp k v r (Q : Run -> result unit -> Prop) :
  (forall r', course r' = course r -> Q r' (Ok tt)) -> wp (note k v) r Q.
Proof. intros H. by apply H. Qed.
Lemma clock_wp r (Q : Run -> result Z -> Prop) :
  (forall r' t, course r' = course r -> Q r' (Ok t)) -> wp (provider utc_now) r Q.
Proof. intros H. by apply H. Qed.
Lemma observables_wp l r (Q : Run -> result unit -> Prop) :
  (forall r', course r' = course r -> Q r' (Ok tt)) -> wp (for_each l observe_line) r Q.
Proof.
  revert r. induction l as [|x l IH]; intros r H; [by apply H|]. apply wp_bind. unfold observe_line.
  destruct (find _ _) as [kv|]; [apply note_wp; intros r1 E1|apply wp_ret]; apply IH;
    intros r2 E2; apply H; congruence.
Qed.
Lemma session_wp k r (Q : Run -> result RemoteComputeSession -> Prop) :
  (forall s, Q r (Ok s)) -> (forall msg, Q r (raise Unmodelled msg)) -> wp (provider (get_session k)) r Q.
Proof.
  intros Hs Hr. apply wp_zoom. unfold wp, get_session. destruct r as [c]. simpl.
  destruct (cb_sessions c !! k); [apply Hs|apply Hr].
Qed.
Lemma provider_wp {A} (m : M Colab A) r (Q : Run -> result A -> Prop) :
  (forall c o, Q (r <| vr_colab := c |>) o) -> wp (provider m) r Q.
Proof. intros H. apply wp_zoom, wp_any. auto. Qed.

(** What a phase of the run comes to: the states it adds, the last of which is the
    state, and its result; or an input on which the model says nothing. *)
Definition goes {A} (r r' : Run) (o : result A) (P : list ValidationState -> A -> Prop) : Prop :=
  match o with
  | Ok a => exists l, vr_trace r' = vr_trace r ++ l /\ P l a /\
              vr_state r' = default (vr_state r) (last l)
  | Raise e => exn_type e = Unmodelled
  end.
Definition reached (l : list ValidationState) (s : option nat) : Prop :=
  l = [VS_TIMEOUT] \/ l = [VS_CONNECT_FAILED] \/ (l = [VS_CONNECTED; VS_READY] /\ s <> None).
(** A run of [m] that ends in an expected exception is handled by [h]. *)
Lemma except_wp {A} (m : M Run A) h r (Q : Run -> result A -> Prop) :
  wp m r (fun r' o => match o with
                      | Ok _ => Q r' o
                      | Raise e => if decide (exn_type e = Unmodelled) then Q r' o else wp (h e) r' Q
                      end) ->
  wp (except_all m h) r Q.
Proof.
  intros H. apply wp_try_with. eapply wp_mono; [exact H|]. intros r' [a|e] Hq; [done|].
  destruct (decide _) as [E|E]; [by rewrite E|]. by destruct (exn_type e).
Qed.
Lemma connected_wp k r :
  wp (connected k) r (fun r' o => match o with
    | Ok _ => goes r r' o (fun l _ => reached l (Some k))
    | Raise e => course r' = course r end).
Proof.
  unfold connected. apply wp_bind, session_wp; [intros s|done].
  destruct (bool_decide _).
  - apply wp_bind, transition_wp. intros r1 E1. apply wp_bind, transition_wp. intros r2 E2.
    apply wp_bind, note_wp. intros r3 E3. apply note_wp. intros r4 E4.
    unfold course in *. exists [VS_CONNECTED; VS_READY].
    replace (vr_trace r4) with ((vr_trace r ++ [VS_CONNECTED]) ++ [VS_READY]) by congruence.
    rewrite <-app_assoc. split; [done|]. split; [by right; right|]. simpl. congruence.
  - apply transition_wp. intros r1 E1. unfold course in *. exists [VS_CONNECT_FAILED].
    split; [congruence|]. split; [by right; left|]. simpl. congruence.
Qed.
Lemma connect_wp p r : wp (connect p) r (fun r' o => goes r r' o reached).
Proof.
  unfold connect. destruct vh_in_time.
  - apply except_wp, wp_bind, provider_wp. intros c [k|e].
    + apply wp_bind. eapply wp_mono; [apply connected_wp|]. intros r1 [[]|e] H1.
      * apply wp_ret. exact H1.
      * destruct (decide _) as [E|E]; [done|]. apply wp_bind, transition_wp. intros r2 E2.
        apply wp_ret. unfold course in *. exists [VS_CONNECT_FAILED].
        split; [|split; [by right; left|]]; simpl in *; congruence.
    + destruct (decide _) as [E|E]; [done|]. apply wp_bind, transition_wp. intros r2 E2.
      apply wp_ret. unfold course in *. exists [VS_CONNECT_FAILED].
      split; [|split; [by right; left|]]; simpl in *; congruence.
  - apply wp_bind, transition_wp. intros r1 E1. apply wp_ret. unfold course in *. exists [VS_TIMEOUT].
    split; [|split; [by left|]]; simpl in *; congruence.
Qed.
(** The job of the run succeeded on the remote side. *)
Definition succeeded (r : Run) : Prop :=
  exists j job, cb_jobs (vr_colab r) !! j = Some job /\ classify_remote_success job = true.
Definition tested (l : list ValidationState) (passed : bool) : Prop :=
  l = [VS_EXECUTING; if passed then VS_COMPLETED else VS_EXECUTION_FAILED].
Lemma returned_wp job r :
  wp (returned job) r (fun r' o =>
    let s := if classify_remote_success job then VS_COMPLETED else VS_EXECUTION_FAILED in
    o = Ok (classify_remote_success job) /\ course r' = (s, vr_trace r ++ [s], cb_jobs (vr_colab r))).
Proof.
  unfold returned. do 4 (apply wp_bind, note_wp; intros ? ?). apply wp_bind, observables_wp. intros r5 E5.
  unfold course in *. destruct (classify_remote_success job).
  - apply wp_bind, transition_wp. intros r6 E6. apply wp_bind, note_wp. intros r7 E7.
    apply wp_ret. split; [done|]. unfold course in *. congruence.
  - apply wp_bind, transition_wp. intros r6 E6. apply wp_ret. split; [done|]. unfold course in *. congruence.
Qed.
Lemma smoke_test_wp k r :
  wp (smoke_test k) r (fun r' o => goes r r' o tested /\ (o = Ok true -> succeeded r')).
Proof.
  assert (forall r' (passed : bool), let s := if passed then VS_COMPLETED else VS_EXECUTION_FAILED in
    vr_trace r' = (vr_trace r ++ [VS_EXECUTING]) ++ [s] -> vr_state r' = s ->
    goes r r' (Ok passed) tested) as Hgo.
  { intros r' passed s Ht Hs. exists [VS_EXECUTING; s]. by rewrite Ht, <-app_assoc. }
  unfold smoke_test. apply wp_bind, transition_wp. intros r1 E1.
  apply wp_bind, clock_wp. intros r2 t2 E2. apply wp_bind, clock_wp. intros r3 t3 E3.
  apply wp_bind, session_wp; [intros s|done].
  apply wp_bind, wp_zoom. unfold wp at 1, new_job.
  do 3 (apply wp_bind, note_wp; intros ? ?).
  apply except_wp, wp_bind, provider_wp. intros c [j|e].
  - apply wp_bind. apply wp_zoom. unfold wp at 1, get_job. simpl.
    destruct (cb_jobs c !! j) as [job|] eqn:Ej; [|done].
    eapply wp_mono; [apply returned_wp|]. intros r8 o [-> E8]. unfold course in *. simpl in *.
    split; [by apply Hgo; congruence|]. intros [= Hc]. exists j, job. rewrite Hc. split; [congruence|done].
  - destruct (decide _) as [E|E]; [done|].
    do 2 (apply wp_bind, note_wp; intros ? ?). apply wp_bind, transition_wp. intros r9 E9.
    apply wp_ret. split; [|done]. unfold course in *. simpl in *. by apply (Hgo _ false); congruence.
Qed.

(** Ending a session leaves the jobs as they were. *)
Section Jobs.
Context (jobs : list RemoteComputeJob).
#[local] Abbreviation same := (fun c : Colab => cb_jobs c = jobs).
Lemma jobs_modify f : (forall c, cb_jobs (f c) = cb_jobs c) -> preserves same (modify f).
Proof. intros Hf. apply preserves_modify. intros c Hc. by rewrite Hf. Qed.
Lemma jobs_session k : preserves same (get_session k).
Proof. intros c Hc. unfold wp, get_session. by destruct (cb_sessions c !! k). Qed.
#[local] Hint Resolve jobs_session : keeps.
#[local] Hint Extern 1 (preserves _ (modify _)) => (apply jobs_modify; reflexivity) : keeps.
Lemma jobs_command args : preserves same (run_command args).
Proof. unfold run_command. auto with keeps. Qed.
#[local] Hint Resolve jobs_command : keeps.
Lemma jobs_probe : preserves same probe_availability.
Proof. unfold probe_availability, set_availability. auto 20 with keeps. Qed.
#[local] Hint Resolve jobs_probe : keeps.
Lemma jobs_available : preserves same assert_available.
Proof. unfold assert_available. auto 20 with keeps. Qed.
#[local] Hint Resolve jobs_available : keeps.
Lemma jobs_cli args : preserves same (run_cli_raw args).
Proof. unfold run_cli_raw. auto 20 with keeps. Qed.
#[local] Hint Resolve jobs_cli : keeps.
Lemma jobs_terminate k : preserves same (terminate k).
Proof.
  unfold terminate, routed, cli_terminate, browser_terminate, stop_bridge, set_session_state, update_session.
  auto 20 with keeps.
Qed.
End Jobs.
Lemma close_session_wp k r :
  wp (close_session k) r (fun r' o => goes r r' o (fun l _ => l = [] \/ l = [VS_CLOSED]) /\
    cb_jobs (vr_colab r') = cb_jobs (vr_colab r)).
Proof.
  unfold close_session. apply except_wp, wp_bind, wp_zoom.
  eapply wp_mono; [by apply (jobs_terminate (cb_jobs (vr_colab r)))|]. intros c [[]|e] Hc.
  - apply transition_wp. intros r1 E1. unfold course in *. simpl in *. split; [|congruence].
    exists [VS_CLOSED]. split; [congruence|]. split; [by right|]. simpl. congruence.
  - destruct (decide _) as [E|E]; [done|]. apply wp_ret. split; [|done].
    exists []. split; [by rewrite app_nil_r|]. split; [by left|done].
Qed.
(** The states after the connection: none without a session, the test and perhaps the
    closing otherwise. *)
Definition finished (ready : bool) (l : list ValidationState) (passed : bool) : Prop :=
  if ready
  then exists closed, (closed = [] \/ closed = [VS_CLOSED]) /\
         l = [VS_EXECUTING; if passed then VS_COMPLETED else VS_EXECUTION_FAILED] ++ closed
  else l = [] /\ passed = false.
Lemma test_session_wp s r :
  wp (test_session s) r (fun r' o =>
    goes r r' o (finished (bool_decide (vr_state r = VS_READY) && bool_decide (s <> None))) /\
    (o = Ok true -> succeeded r')).
Proof.
  assert (forall st r', course r' = course r -> wp (note "exit_code" (VInt 1) ;; note "stderr" st ;; mret false) r'
    (fun r' o => goes r r' o (finished false) /\ (o = Ok true -> succeeded r'))) as Hno.
  { intros st r0 E0. apply wp_bind, note_wp. intros r1 E1. apply wp_bind, note_wp. intros r2 E2.
    apply wp_ret. split; [|done]. unfold course in *. exists [].
    split; [rewrite app_nil_r; congruence|]. split; [done|]. simpl. congruence. }
  unfold test_session. apply wp_bind, wp_gets. destruct s as [k|].
  2:{ rewrite andb_false_r. by apply Hno. }
  rewrite andb_true_r. case_bool_decide as Hst; [|by apply Hno].
  apply wp_bind. eapply wp_mono; [apply smoke_test_wp|]. intros r1 [passed|e] [H1 Hs]; [|done].
  destruct H1 as (l1 & T1 & -> & S1). apply wp_bind. eapply wp_mono; [apply close_session_wp|].
  intros r2 [[]|e] [H2 Hj]; [|done]. destruct H2 as (l2 & T2 & Hl2 & S2). apply wp_ret. split.
  - eexists. split; [by rewrite T2, T1, <-app_assoc|]. split; [by exists l2|].
    rewrite S2, S1. by destruct Hl2 as [->| ->].
  - intros [= ->]. destruct Hs as (j & job & Hjob & Hc); [done|]. exists j, job. by rewrite Hj.
Qed.
(** The evidence is written with whatever the check of isolation found. *)
Lemma write_evidence_wp r :
  wp write_evidence r (fun r' o => course r' = course r /\ o = vh_write /\
    (o = Ok tt -> vr_file r' = Some (VDict (vr_evidence r')))).
Proof.
  unfold write_evidence. apply wp_bind, clock_wp. intros r1 t E1. apply wp_bind, note_wp. intros r2 E2.
  apply wp_bind, wp_gets, wp_bind, note_wp. intros r3 E3. apply wp_bind, wp_modify, wp_bind, wp_gets.
  apply wp_bind, note_wp. intros r4 E4. apply wp_bind, wp_gets, wp_bind, note_wp. intros r5 E5.
  assert (course r5 = course r) as E by (unfold course in *; simpl in *; congruence).
  apply wp_bind, wp_of_result. destruct vh_write as [[]|e]; [|done].
  by apply wp_bind, wp_gets, wp_modify.
Qed.

(** The courses a validation can take after its three first states. *)
Definition path (passed : bool) (l : list ValidationState) : Prop :=
  (passed = false /\ (l = [VS_TIMEOUT] \/ l = [VS_CONNECT_FAILED])) \/
  exists closed, (closed = [] \/ closed = [VS_CLOSED]) /\
    l = [VS_CONNECTED; VS_READY; VS_EXECUTING; if passed then VS_COMPLETED else VS_EXECUTION_FAILED] ++ closed.
Definition capable : bool := hp_capable run_host_preflight.
(** A validation that is classified took one of the courses, its classification follows
    from the host, the course and its end, and a success is that of a job of the
    provider that completed and printed the marker.  Otherwise the file could not be
    written, or the model says nothing of what the provider met. *)
Theorem validation_course :
  exists r o, run_validation fresh_run = (r, o) /\
    match o with
    | Ok c => exists passed l st,
        vr_trace r = [VS_INIT; VS_BROWSER_REQUESTED; VS_CONNECTING] ++ l /\ path passed l /\
        last l = Some st /\ c = classification capable passed st /\
        (passed = true -> succeeded r) /\ vr_file r = Some (VDict (vr_evidence r))
    | Raise e => exn_type e = Unmodelled \/ vh_write = Raise e
    end.
Proof.
  apply wp_elim. unfold run_validation. apply wp_bind, clock_wp. intros r0 t0 E0.
  apply wp_bind, transition_wp. intros r1 E1. apply wp_bind, wp_modify.
  apply wp_bind, transition_wp. intros r2 E2. apply wp_bind, transition_wp. intros r3 E3.
  assert (vr_trace r3 = [VS_INIT; VS_BROWSER_REQUESTED; VS_CONNECTING]) as T3.
  { unfold course in *. simpl in *. injection E0 as _ T0 _. injection E1 as _ T1 _.
    injection E2 as _ T2 _. injection E3 as _ T3 _. by rewrite T3, T2, T1, T0. }
  apply wp_bind. eapply wp_mono; [apply connect_wp|]. intros r4 [s|e] H4; [|by left].
  destruct H4 as (l1 & T4 & Hl1 & S4).
  apply wp_bind. eapply wp_mono; [apply test_session_wp|]. intros r5 [passed|e] [H5 Hs]; [|by left].
  destruct H5 as (l2 & T5 & Hl2 & S5).
  apply wp_bind, wp_gets, wp_bind. eapply wp_mono; [apply write_evidence_wp|].
  intros r6 [[]|e] (E6 & Hw & Hf); [|by right]. apply wp_ret. unfold course in E6.
  injection E6 as _ T6 J6.
  exists passed, (l1 ++ l2), (vr_state r5).
  split; [by rewrite T6, T5, T4, T3, <-app_assoc|].
  assert (path passed (l1 ++ l2) /\ last (l1 ++ l2) = Some (vr_state r5)) as [Hp Hl].
  { rewrite S5, S4 in *.
    destruct Hl1 as [->|[->|[-> Hn]]]; simpl in Hl2;
      [destruct Hl2 as [-> ->]; split; [by left; auto|done]..|].
    rewrite bool_decide_eq_true_2 in Hl2 by done. simpl in Hl2.
    destruct Hl2 as (closed & Hc & ->). split; [right; by exists closed|].
    by destruct Hc as [->| ->]. }
  do 3 (split; [done|]). split; [|by apply Hf]. intros ->. destruct Hs as (j & job & Hj); [done|].
  exists j, job. by rewrite J6.
Qed.
(** PASS means that the host is interactive and the remote side printed the marker. *)
Corollary pass_succeeded r :
  run_validation fresh_run = (r, Ok "MISSION_001D_PASS") -> capable = true /\ succeeded r.
Proof.
  intros E. destruct validation_course as (r' & o & E' & H). rewrite E in E'. injection E' as <- <-.
  destruct H as (passed & l & st & _ & _ & _ & Hc & Hs & _). unfold classification in Hc.
  destruct capable, passed; [by auto|..]; by destruct (not_connected st).
Qed.
(** On a host without a display a validation that succeeds is classified as failed. *)
Corollary headless_success_fails r c :
  run_validation fresh_run = (r, Ok c) -> capable = false -> VS_COMPLETED ∈ vr_trace r ->
  c = "MISSION_001D_FAILED" /\ exit_code c = 1%Z.
Proof.
  intros E Hc Hin. destruct validation_course as (r' & o & E' & H). rewrite E in E'. injection E' as <- <-.
  destruct H as (passed & l & st & T & Hp & Hl & -> & _). rewrite Hc. unfold classification.
  rewrite T in Hin. destruct Hp as [[_ [->| ->]]|(closed & Hcl & ->)]; [set_solver..|].
  destruct Hcl as [->| ->], passed; simpl in Hl; by injection Hl as <-.
Qed.
End Course.

(** ** The isolation of credentials *)
Section Isolation.
Context {world : ColabWorld}.
(** The keys and the texts of a value, at any depth. *)
Fixpoint texts (v : pyval) : list string :=
  match v with
  | VStr s => [s]
  | VList l => concat (map texts l)
  | VDict d => concat (map (fun kv => kv.1 :: texts kv.2) d)
  | _ => []
  end.
Lemma escape_app a b : escape (a +:+ b) = escape a +:+ escape b.
Proof. induction a as [|c a IH]; [done|]. rewrite string_app_cons. cbn [escape]. by rewrite IH, string_app_assoc. Qed.
Lemma contains_self p t : contains p (p +:+ t) = true.
Proof. apply contains_prefix. destruct p as [|c p]; [done|]. cbn [contains].
  by rewrite <-(string_app_nil_r (String c p)) at 2; rewrite startswith_app. Qed.
(** A text that is not escaped is found in what a text that holds it is printed to. *)
Lemma escape_contains p s : escape p = p -> contains p s = true -> contains p (escape s) = true.
Proof.
  intros Hp. induction s as [|c s IH].
  - cbn [contains]. rewrite orb_false_r. by destruct p.
  - cbn [contains]. intros [(t & E)%startswith_inv|H]%orb_true_iff.
    + rewrite E, escape_app, Hp. apply contains_self.
    + cbn [escape]. by apply contains_suffix, IH.
Qed.
Lemma printed_contains p s : escape p = p -> contains p s = true -> contains p (json_str s) = true.
Proof. intros Hp Hs. unfold json_str. by apply contains_suffix, contains_prefix, escape_contains. Qed.
Lemma joined_contains p sep l s :
  s ∈ l -> contains p s = true -> contains p (str_join sep l) = true.
Proof.
  intros Hs Hp. destruct l as [|s0 l]; [by apply elem_of_nil in Hs|]. rewrite str_join_cons.
  apply elem_of_cons in Hs as [<-|Hs]; [by apply contains_prefix|]. apply contains_suffix.
  induction l as [|s1 l IH]; [by apply elem_of_nil in Hs|]. simpl. apply contains_suffix.
  apply elem_of_cons in Hs as [<-|Hs]; [by apply contains_prefix|]. by apply contains_suffix, IH.
Qed.
Lemma dumps_contains p v s :
  escape p = p -> s ∈ texts v -> contains p s = true -> contains p (dumps false v) = true.
Proof.
  intros Hp. induction v as [| | | | |l IH|d IH] using pyval_nested_ind; cbn [texts]; intros Hs Hc;
    try by apply elem_of_nil in Hs.
  - apply list_elem_of_singleton in Hs as ->. by apply printed_contains.
  - apply list_elem_of_In, in_concat in Hs as (t & Ht & Hst). apply in_map_iff in Ht as (x & <- & Hx).
    rewrite List.Forall_forall in IH. cbn [dumps].
    apply contains_suffix, contains_prefix, (joined_contains _ _ _ (dumps false x)).
    + by apply list_elem_of_In, in_map.
    + apply IH; [done|by apply list_elem_of_In|done].
  - apply list_elem_of_In, in_concat in Hs as (t & Ht & Hst). apply in_map_iff in Ht as (x & <- & Hx).
    rewrite List.Forall_forall in IH. cbn [dumps]. rewrite map_map.
    apply contains_suffix, contains_prefix, (joined_contains _ _ _ (json_str x.1 +:+ ": " +:+ dumps false x.2)).
    + by apply list_elem_of_In, (in_map (fun kv => json_str kv.1 +:+ ": " +:+ dumps false kv.2)).
    + destruct Hst as [<-|Hst]; [by apply contains_prefix, printed_contains|].
      do 2 apply contains_suffix. apply IH; [done|by apply list_elem_of_In|done].
Qed.
(** Evidence that passes the check holds no forbidden pattern, in any key or text at any
    depth. *)
Theorem isolation_sound (evidence : dict string pyval) :
  credential_isolation_check evidence = true ->
  Forall (fun s => tainted s = false) (texts (VDict evidence)).
Proof.
  intros H. apply Forall_forall. intros s Hs. destruct (tainted s) eqn:E; [|done].
  unfold tainted in E. apply existsb_exists in E as (p & Hp & Hc).
  unfold credential_isolation_check in H. apply negb_true_iff in H.
  enough (existsb (fun p => contains p (dumps false (VDict evidence))) FORBIDDEN_EVIDENCE_PATTERNS = true)
    by congruence.
  apply existsb_exists. exists p. split; [done|].
  apply (dumps_contains _ _ s); [by destruct Hp as [<-|[<-|[]]]|done..].
Qed.
(** The transitions are a list of dictionaries, which scrubbing leaves as it is: a token
    in the reason of a failure stays in the evidence, and the check finds it. *)
Lemma reasons_not_scrubbed (reason : string) :
  tainted reason = true ->
  let e := [("browser_state_transitions", VList [VDict [("reason", VStr reason)]])] in
  scrub_evidence e = e /\ credential_isolation_check (scrub_evidence e) = false.
Proof.
  intros Ht e. split; [done|]. change (scrub_evidence e) with e.
  destruct (credential_isolation_check e) eqn:E; [|done]. apply isolation_sound in E.
  rewrite Forall_forall in E. specialize (E reason). simpl in E. rewrite Ht in E.
  discriminate E. right; right; left.
Qed.
End Isolation.

(** ** A validation that passes *)
Module ValidationExamples.
Definition host_with (display : option string) : ValidationHost := {|
  vh_platform := "linux";
  vh_environ k := if k =s "DISPLAY" then display else None;
  vh_which c := if c =s "chromium" then Some "/usr/bin/chromium" else None;
  vh_in_time := true;
  vh_sha256 s := "sha:" +:+ zstr (Z.of_nat (String.length s));
  vh_write := Ok tt |}.
#[local] Instance colab : ColabWorld := {
  cw_floats := {| float_repr _ := "0.0"; float_sum _ := SpecFloat.S754_zero false |};
  cw_errors := fun _ => "not JSON";
  cw_run _ := CliMissing;
  cw_clock n := Z.of_nat n;
  cw_isoformat _ := "2026-01-01T00:00:00+00:00";
  cw_strftime _ := "20260101000000";
  cw_uuid8 _ := "abcd0123";
  cw_temp_file _ := Ok "/tmp/job.py";
  cw_unlink _ := Ok tt;
  cw_start _ := Ok tt;
  cw_call tool _ _ := Ok (mkToolReply false (Some
    (Some (if tool =s "run_python" then "ANNY_COLAB_MCP_OK" +:+ newline +:+ "hostname: h1" else "true"), "")));
  cw_tools _ := Ok ["run_python"];
  cw_set_text _ := "{}" }.
Definition ends (h : ValidationHost) : result string * list ValidationState :=
  let '(r, o) := run_validation (host := h) fresh_run in (o, vr_trace r).
(** On a desktop it passes; without a display the same run is a failure. *)
Lemma same_run_two_hosts :
  ends (host_with (Some ":0")) =
    (Ok "MISSION_001D_PASS",
     [VS_INIT; VS_BROWSER_REQUESTED; VS_CONNECTING; VS_CONNECTED; VS_READY; VS_EXECUTING; VS_COMPLETED;
      VS_CLOSED]) /\
  ends (host_with None) =
    (Ok "MISSION_001D_FAILED",
     [VS_INIT; VS_BROWSER_REQUESTED; VS_CONNECTING; VS_CONNECTED; VS_READY; VS_EXECUTING; VS_COMPLETED;
      VS_CLOSED]).
Proof. split; vm_compute; reflexivity. Qed.
End ValidationExamples.
