(* ===== verification/Benchmarks.v ===== *)
(** * Benchmarks of local capabilities

    [runtime/intelligence/]: the capability taxonomy (taxonomy.py), the grading of
    answers (grading.py), and the runner that executes cases against a backend,
    classifies failures and builds scorecards (benchmark_runner.py), with the data
    of models.py they use.  The backend, the clock and the machine's description
    are arguments. *)
From S2P Require Import Prelude Dict PyVal Effects PyStr Json JsonLoad Intelligence.

(** ** Taxonomy *)
Definition DETERMINISTIC_CAPABILITIES : list string :=
  ["filesystem.read"; "filesystem.write"; "filesystem.list"; "schema.validate"; "search.index";
   "search.query"; "git.clone"; "git.commit"; "git.diff"; "git.log"; "patch.apply"; "patch.parse";
   "patch.review"; "terminal.execute"; "terminal.pty"; "debug.attach"; "debug.breakpoint";
   "pytest.run"; "pytest.parse"; "workspace.index"; "workspace.search"].
Definition LOCAL_INFERENCE_CAPABILITIES : list string :=
  ["text.summarization"; "text.classification"; "text.rewriting"; "data.extraction"; "data.analysis";
   "reasoning.analysis"; "reasoning.comparison"; "code.understanding"; "code.generation";
   "code.editing"; "test.generation"; "bug.diagnosis"; "tool.use"; "tool.planning";
   "document.summarize"; "document.classify"; "architecture.analysis"].
Definition ALL_CAPABILITIES : list string := DETERMINISTIC_CAPABILITIES ++ LOCAL_INFERENCE_CAPABILITIES.
Definition CAPABILITY_FAMILIES : dict string (list string) :=
  [("language", ["text.summarization"; "text.classification"; "text.rewriting"]);
   ("information", ["data.extraction"; "data.analysis"]);
   ("reasoning", ["reasoning.analysis"; "reasoning.comparison"]);
   ("code", ["code.understanding"; "code.generation"; "code.editing"; "test.generation"; "bug.diagnosis"]);
   ("tool", ["tool.use"; "tool.planning"]);
   ("document", ["document.summarize"; "document.classify"]);
   ("schema", ["schema.validate"]);
   ("architecture", ["architecture.analysis"]);
   ("filesystem", ["filesystem.read"; "filesystem.write"; "filesystem.list"]);
   ("search", ["search.index"; "search.query"]);
   ("git", ["git.clone"; "git.commit"; "git.diff"; "git.log"]);
   ("patch", ["patch.apply"; "patch.parse"; "patch.review"]);
   ("terminal", ["terminal.execute"; "terminal.pty"]);
   ("debug", ["debug.attach"; "debug.breakpoint"]);
   ("pytest", ["pytest.run"; "pytest.parse"]);
   ("workspace", ["workspace.index"; "workspace.search"])].
Definition is_deterministic (capability_id : string) : bool := str_in capability_id DETERMINISTIC_CAPABILITIES.
Definition is_local_inference (capability_id : string) : bool :=
  str_in capability_id LOCAL_INFERENCE_CAPABILITIES.
Definition requires_benchmark (capability_id : string) : bool := is_local_inference capability_id.
Definition get_family (capability_id : string) : string :=
  match find (fun kv => str_in capability_id kv.2) CAPABILITY_FAMILIES with
  | Some kv => kv.1
  | None => "unknown"
  end.
Definition validate_capability_id (capability_id : string) : bool := str_in capability_id ALL_CAPABILITIES.

(** ** Data *)
Record BenchmarkCase := mkCase {
  bc_benchmark_id : string; bc_capability_id : string; bc_input : pyval; bc_expected_output : pyval;
  bc_grading_method : string; bc_difficulty : string; bc_dataset_partition : string;
  bc_version : string }.
Record BenchmarkScorecard := mkScorecard {
  sc_scorecard_id : string; sc_capability_id : string; sc_implementation_id : string;
  sc_implementation_revision : string; sc_benchmark_version : string; sc_dataset_version : string;
  sc_score : pyfloat; sc_confidence : pyfloat; sc_latency_p50 : pyfloat; sc_latency_p95 : pyfloat;
  sc_latency_p99 : pyfloat; sc_resource_usage : pyval;
  sc_certification_status : CertificationStatus; sc_hardware_profile : pyval;
  sc_adapter_revision : option string; sc_created_at : option Z }.
#[export] Instance eta_Scorecard : Eta BenchmarkScorecard := fun s =>
  mkScorecard (sc_scorecard_id s) (sc_capability_id s) (sc_implementation_id s)
    (sc_implementation_revision s) (sc_benchmark_version s) (sc_dataset_version s) (sc_score s)
    (sc_confidence s) (sc_latency_p50 s) (sc_latency_p95 s) (sc_latency_p99 s) (sc_resource_usage s)
    (sc_certification_status s) (sc_hardware_profile s) (sc_adapter_revision s) (sc_created_at s).
Record HardwareProfile := mkHardware {
  hw_cpu_model : string; hw_cpu_cores : Z; hw_ram_gb : pyfloat; hw_gpu_model : string;
  hw_vram_gb : pyfloat; hw_runtime_env : string; hw_os_info : string }.
Definition hardware_to_dict (h : HardwareProfile) : pyval :=
  VDict [("cpu_model", VStr (hw_cpu_model h)); ("cpu_cores", VInt (hw_cpu_cores h));
         ("ram_gb", VFloat (hw_ram_gb h)); ("gpu_model", VStr (hw_gpu_model h));
         ("vram_gb", VFloat (hw_vram_gb h)); ("runtime_env", VStr (hw_runtime_env h));
         ("os_info", VStr (hw_os_info h))].
Record RepeatabilityStats := mkStats {
  rs_run_count : Z; rs_mean : pyfloat; rs_variance : pyfloat; rs_stddev : pyfloat; rs_best : pyfloat;
  rs_worst : pyfloat; rs_scores : list pyfloat }.
Record FailureRecord := mkFailure {
  fr_case_id : string; fr_capability_id : string; fr_failure_type : string; fr_details : string;
  fr_timestamp : Z }.
Record GradingResult := mkGrading {
  gr_score : pyfloat; gr_confidence : pyfloat; gr_grading_method : string;
  gr_details : dict string pyval; gr_passed : bool }.
Record RunResult := mkRun {
  rr_case : BenchmarkCase; rr_grading : GradingResult; rr_latency_s : pyfloat;
  rr_failure : option FailureRecord }.

(** ** Rounding *)
(** [round(x, d)] of a float: the exact value times ten to the [d], rounded to
    the nearest integer, ties to even, and read back as a decimal. *)
Definition half_even (n d : Z) : Z :=
  let q := (n / d)%Z in
  let r := (n mod d)%Z in
  if (2 * r <? d)%Z then q
  else if (d <? 2 * r)%Z then (q + 1)%Z
  else if Z.even q then q else (q + 1)%Z.
Definition py_round (x : pyfloat) (d : nat) : pyfloat :=
  match x with
  | SpecFloat.S754_finite neg m e =>
      let scaled := (Zpos m * 10 ^ Z.of_nat d)%Z in
      let n := if (0 <=? e)%Z then (scaled * 2 ^ e)%Z else half_even scaled (2 ^ (- e)) in
      decimal_float neg n (- Z.of_nat d) (String.length (zstr n))
  | _ => x
  end.

(** ** Text *)
(** [re.sub(r'\s+', ' ', s)] *)
Fixpoint squeeze (in_space : bool) (s : string) : string :=
  match s with
  | "" => ""
  | String c s' =>
      if is_space c then if in_space then squeeze true s' else String " " (squeeze true s')
      else String c (squeeze false s')
  end.
Definition normalize_str (s : string) : string := squeeze false (lower (strip s)).
(** [\w] on code points below 256: letters, digits and the underscore. *)
Definition between (c : ascii) (lo hi : N) : bool := ((lo <=? N_of_ascii c) && (N_of_ascii c <=? hi))%N.
Definition word_char (c : ascii) : bool :=
  existsb (fun '(lo, hi) => between c lo hi)
    [(48, 57); (65, 90); (95, 95); (97, 122); (170, 170); (178, 179); (181, 181); (185, 186); (188, 190);
     (192, 214); (216, 246); (248, 255)]%N.
Fixpoint keep_chars (p : ascii -> bool) (s : string) : string :=
  match s with
  | "" => ""
  | String c s' => if p c then String c (keep_chars p s') else keep_chars p s'
  end.
Definition STOPWORDS : list string :=
  ["the"; "a"; "an"; "is"; "in"; "of"; "to"; "and"; "or"; "for"; "it"; "this"; "that"; "with"; "as";
   "be"; "are"; "was"; "were"; "by"; "at"; "from"; "on"].
Definition tokenize (s : string) : list string :=
  List.filter (fun t => (1 <? String.length t) && negb (str_in t STOPWORDS))
    (split_words "" (keep_chars (fun c => word_char c || is_space c) (lower s))).

(** ** Similarity of sequences *)
(** [s.splitlines(keepends=True)] *)
Fixpoint splitlines_keep (cur : string) (s : string) : list string :=
  match s with
  | "" => if cur =s "" then [] else [cur]
  | String c s' =>
      let cur' := cur +:+ String c "" in
      if is_linebreak c then
        match s' with
        | String d s'' =>
            if Ascii.eqb c (ascii_of_N 13) && Ascii.eqb d (ascii_of_N 10)
            then (cur' +:+ String d "") :: splitlines_keep "" s''
            else cur' :: splitlines_keep "" s'
        | "" => [cur']
        end
      else splitlines_keep cur' s'
  end.
(** [difflib.SequenceMatcher(None, a, b)]: of a second sequence of 200 elements or
    more, those that occur in over one per cent of it start no block. *)
Definition popular (b : list string) (x : string) : bool :=
  (200 <=? length b) && (length b / 100 + 1 <? length (List.filter (String.eqb x) b)).
(** One row of the table: the length of the block that ends at each element. *)
Fixpoint next_row (starts : string -> bool) (x : string) (b : list string) (prev : list nat) (left : nat)
    : list nat :=
  match b, prev with
  | y :: b', p :: prev' =>
      (if starts y && (x =s y) then S left else 0) :: next_row starts x b' prev' p
  | _, _ => []
  end.
(** The first longest block, as its two starts and its size. *)
Abbreviation block := (nat * nat * nat)%type.
Fixpoint scan_row (i j : nat) (row : list nat) (best : block) : block :=
  match row with
  | [] => best
  | k :: row' => scan_row i (S j) row' (if best.2 <? k then (S i - k, S j - k, k) else best)
  end.
Fixpoint scan_rows (starts : string -> bool) (i : nat) (a b : list string) (prev : list nat) (best : block)
    : block :=
  match a with
  | [] => best
  | x :: a' =>
      let row := next_row starts x b prev 0 in
      scan_rows starts (S i) a' b row (scan_row i 0 row best)
  end.
(** The common prefix of two sequences, which extends a block forwards, and, on
    the reversed sequences before it, backwards. *)
Fixpoint common (a b : list string) : nat :=
  match a, b with
  | x :: a', y :: b' => if x =s y then S (common a' b') else 0
  | _, _ => 0
  end.
Definition find_longest_match (starts : string -> bool) (a b : list string) : block :=
  let '(i, j, k) := scan_rows starts 0 a b (repeat 0 (length b)) (0, 0, 0) in
  let back := common (rev (take i a)) (rev (take j b)) in
  let fwd := common (drop (i + k) a) (drop (j + k) b) in
  (i - back, j - back, k + back + fwd).
Fixpoint matching (fuel : nat) (starts : string -> bool) (a b : list string) : nat :=
  match fuel with
  | 0 => 0
  | S fuel' =>
      let '(i, j, k) := find_longest_match starts a b in
      if k =? 0 then 0
      else k + matching fuel' starts (take i a) (take j b)
             + matching fuel' starts (drop (i + k) a) (drop (j + k) b)
  end.
Definition sequence_ratio (a b : list string) : pyfloat :=
  let n := length a + length b in
  if n =? 0 then f_of_Z 1
  else
    let matches := matching (S (length a)) (fun x => negb (popular b x)) a b in
    fdiv (fmul (f_of_Z 2) (f_of_Z (Z.of_nat matches))) (f_of_Z (Z.of_nat n)).

(** ** Grading *)
Section Grading.
Context {float_ops : FloatOps} {json_errors : JsonErrors}.

Definition PASSING_THRESHOLD : pyfloat := flit 5 10.
Definition f_count (n : nat) : pyfloat := f_of_Z (Z.of_nat n).
Definition exact_match (output expected : pyval) : GradingResult :=
  let norm_out := normalize_str (py_str output) in
  let norm_exp := normalize_str (py_str expected) in
  let same := norm_out =s norm_exp in
  mkGrading (f_of_Z (if same then 1 else 0)) (f_of_Z 1) "exact_match"
    [("normalized_output", VStr norm_out); ("normalized_expected", VStr norm_exp)] same.
(** [json.loads(v) if isinstance(v, str) else v] *)
Definition decoded (v : pyval) : result pyval := match v with VStr s => json_loads s | _ => Ok v end.
(** [float(v)] of a number. *)
Definition to_float (v : pyval) : result (option pyfloat) :=
  let of_int z :=
    match f_of_Z z with
    | SpecFloat.S754_infinity _ => raise (OtherException "OverflowError") "int too large to convert to float"
    | f => Ok (Some f)
    end in
  match v with
  | VInt z => of_int z
  | VBool b => of_int (if b then 1 else 0)%Z
  | VFloat f => Ok (Some f)
  | _ => Ok None
  end.
Definition is_number (v : pyval) : bool :=
  match v with VInt _ | VBool _ | VFloat _ => true | _ => false end.
Definition values_match (a b : pyval) (tolerance : pyfloat) : result bool :=
  match a with
  | VNone => Ok false
  | _ =>
      if is_number b && is_number a then
        let? fa := to_float a in
        let? fb := to_float b in
        Ok (match fa, fb with
            | Some x, Some y => fle (SFabs (fsub x y)) (fadd tolerance (fmul (SFabs y) (flit 1 100)))
            | _, _ => false
            end)
      else Ok (lower (strip (py_str a)) =s lower (strip (py_str b)))
  end.
(** The loop over the expected keys: what matched, and what did not. *)
Fixpoint match_keys (out : pyval) (exp : dict string pyval) (tolerance : pyfloat) : result (nat * list pyval) :=
  match exp with
  | [] => Ok (0, [])
  | (key, exp_val) :: l =>
      let? out_val := py_get key VNone out in
      let? same := values_match out_val exp_val tolerance in
      let? (matched, mismatches) := match_keys out l tolerance in
      Ok (if same then (S matched, mismatches)
          else (matched, VDict [("key", VStr key); ("expected", exp_val); ("got", out_val)] :: mismatches))
  end.
Definition no_items (v : pyval) : exn :=
  Exn AttributeError ("'" +:+ pytype_name v +:+ "' object has no attribute 'items'").
Definition unparsed (e : exn) : GradingResult :=
  mkGrading (f_of_Z 0) (flit 9 10) "structured_match"
    [("error", VStr ("JSON parse failed: " +:+ exn_str e))] false.
Definition structured_match (output expected : pyval) (tolerance : pyfloat) : result GradingResult :=
  match (let? o := decoded output in let? e := decoded expected in Ok (o, e)) with
  | Raise e =>
      if decide (exn_type e = JSONDecodeError \/ exn_type e = TypeError) then Ok (unparsed e) else Raise e
  | Ok (out, VDict exp) =>
      let? (matched, mismatches) := match_keys out exp tolerance in
      let total := length exp in
      let score := if 0 <? total then fdiv (f_count matched) (f_count total) else f_of_Z 0 in
      Ok (mkGrading score (if 0 <? total then flit 95 100 else flit 5 10) "structured_match"
            [("matched", VInt (Z.of_nat matched)); ("total", VInt (Z.of_nat total));
             ("mismatches", VList mismatches)]
            (fge score PASSING_THRESHOLD))
  | Ok (_, v) => Raise (no_items v)
  end.
Definition distinct (l : list string) : list string := remove_dups l.
Definition semantic_grading (output expected : pyval) : GradingResult :=
  let out_tokens := distinct (tokenize (py_str output)) in
  let exp_tokens := distinct (tokenize (py_str expected)) in
  match exp_tokens with
  | [] => mkGrading (f_of_Z 0) (flit 5 10) "semantic_grading" [("reason", VStr "empty_expected")] false
  | _ =>
      let intersection := List.filter (fun t => str_in t exp_tokens) out_tokens in
      let union := length out_tokens + length exp_tokens - length intersection in
      let jaccard := fdiv (f_count (length intersection)) (f_count union) in
      let recall := fdiv (f_count (length intersection)) (f_count (length exp_tokens)) in
      let score := fadd (fmul (flit 6 10) jaccard) (fmul (flit 4 10) recall) in
      let c := fadd (flit 5 10) (fmul (flit 5 100) (f_count (length exp_tokens))) in
      let confidence := if flt c (flit 95 100) then c else flit 95 100 in
      mkGrading (py_round score 4) (py_round confidence 4) "semantic_grading"
        [("jaccard", VFloat (py_round jaccard 4)); ("recall", VFloat (py_round recall 4));
         ("out_tokens", VInt (Z.of_nat (length out_tokens)));
         ("exp_tokens", VInt (Z.of_nat (length exp_tokens)))]
        (fge score PASSING_THRESHOLD)
  end.
Definition reference_comparison (output expected : pyval) : GradingResult :=
  let ratio := sequence_ratio (splitlines_keep "" (py_str expected)) (splitlines_keep "" (py_str output)) in
  mkGrading (py_round ratio 4) (flit 85 100) "reference_comparison"
    [("similarity_ratio", VFloat (py_round ratio 4))] (fge ratio PASSING_THRESHOLD).
Definition ungradable (e : exn) : GradingResult :=
  mkGrading (f_of_Z 0) (flit 95 100) "task_success" [("error", VStr (exn_str e))] false.
Definition task_success (output expected : pyval) (required_keys : list string) : result GradingResult :=
  rescue
    (let? out := decoded output in
     match out with
     | VDict d =>
         let keys := match required_keys, expected with
                     | [], VDict e => dkeys e
                     | l, _ => l
                     end in
         let missing := List.filter (fun k => negb (dmem k d)) keys in
         let passed := length missing =? 0 in
         let score := if passed then f_of_Z 1
                      else fdiv (f_count (length keys - length missing)) (f_count (length keys)) in
         Ok (mkGrading (py_round score 4) (flit 95 100) "task_success"
               [("required_keys", VList (VStr <$> keys)); ("missing_keys", VList (VStr <$> missing))] passed)
     | _ => raise ValueError "Output is not a dict"
     end)
    (fun e => Ok (ungradable e)).
Definition human_adjudication (output expected : pyval) : GradingResult :=
  mkGrading (flit 5 10) (f_of_Z 0) "human_adjudication"
    [("status", VStr "PENDING_HUMAN_REVIEW"); ("output_preview", VStr (string_take 200 (py_str output)))]
    false.
(** [GradingEngine.grade]; the options are the keyword arguments the methods take. *)
Record grading_options := mkOptions { go_tolerance : pyfloat; go_required_keys : list string }.
Definition no_options : grading_options := mkOptions (f_of_Z 0) [].
Definition grade (grading_method : string) (output expected : pyval) (o : grading_options)
    : result GradingResult :=
  if grading_method =s "exact_match" then Ok (exact_match output expected)
  else if grading_method =s "structured_match" then structured_match output expected (go_tolerance o)
  else if grading_method =s "semantic_grading" then Ok (semantic_grading output expected)
  else if grading_method =s "reference_comparison" then Ok (reference_comparison output expected)
  else if grading_method =s "task_success" then task_success output expected (go_required_keys o)
  else if grading_method =s "human_adjudication" then Ok (human_adjudication output expected)
  else raise ValueError ("Unknown grading method: " +:+ grading_method).
End Grading.

(** ** The machine *)
(** What the machine answers: [psutil] when it is installed (total memory and
    physical cores), the other counts and names, the nvidia-smi program. *)
Class MachineInfo := {
  mi_psutil : option (Z * option Z);
  mi_cpu_count : option Z;
  mi_processor : string;
  mi_machine : string;
  mi_nvidia_smi : result (Z * string);
  mi_python_version : string;
  mi_system : string;
  mi_release : string }.
Definition z_or (a b : option Z) : option Z := match a with Some 0%Z | None => b | _ => a end.
Definition or_text (a b : string) : string := if a =s "" then b else a.
(** [int(s.strip())] of an ASCII number; a text it does not read raises. *)
Definition int_of (s : string) : result Z :=
  let t := strip s in
  let (neg, digits) := match t with
                       | String c t' => if Ascii.eqb c "-" then (true, t')
                                        else if Ascii.eqb c "+" then (false, t') else (false, t)
                       | "" => (false, t)
                       end in
  if (digits =s "") || negb (keep_chars decimal_digit digits =s digits)
  then raise ValueError ("invalid literal for int() with base 10: " +:+ py_repr_str t)
  else Ok (let n := digits_value 0 digits in if (neg : bool) then - n else n)%Z.
Definition gpu_of (answer : result (Z * string)) : string * pyfloat :=
  match answer with
  | Ok (0%Z, out) =>
      if strip out =s "" then ("none", f_of_Z 0)
      else
        match split_at "," (strip out) with
        | name :: mem :: _ =>
            match int_of mem with
            | Ok z => (strip name, py_round (fdiv (f_of_Z z) (f_of_Z 1024)) 2)
            | Raise _ => (strip name, f_of_Z 0)
            end
        | name :: [] => (strip name, f_of_Z 0)
        | [] => ("none", f_of_Z 0)
        end
  | _ => ("none", f_of_Z 0)
  end.
Definition capture_hardware_profile `{MachineInfo} : HardwareProfile :=
  let (ram_gb, cpu_cores) :=
    match mi_psutil with
    | Some (total, cores) =>
        (py_round (fdiv (f_of_Z total) (f_of_Z (1024 ^ 3))) 2, z_or (z_or cores mi_cpu_count) (Some 1%Z))
    | None => (f_of_Z 0, z_or mi_cpu_count (Some 1%Z))
    end in
  let (gpu_model, vram_gb) := gpu_of mi_nvidia_smi in
  mkHardware (or_text (or_text mi_processor mi_machine) "unknown") (default 1%Z cpu_cores) ram_gb
    gpu_model vram_gb ("Python " +:+ mi_python_version) (mi_system +:+ " " +:+ mi_release).

(** ** The runner *)
(** The backend and what the runner asks of the interpreter: timers, instants and
    their texts, floats with two decimals, squares.  The answers are indexed by
    the number of questions asked before. *)
Class BenchWorld := {
  bw_floats :: FloatOps;
  bw_errors :: JsonErrors;
  bw_machine :: MachineInfo;
  bw_run : string -> pyval -> nat -> result pyval;
  bw_implementation_id : string;
  bw_implementation_revision : string;
  bw_adapter_revision : option string;
  bw_perf_counter : nat -> pyfloat;
  bw_now : nat -> Z;
  bw_stamp : Z -> string;
  bw_two_decimals : pyfloat -> string;
  bw_square : pyfloat -> pyfloat }.
Record BenchmarkRunner := mkRunner {
  bn_timeout_s : pyfloat;
  bn_events : list (string * dict string pyval);
  bn_tick : nat }.
#[export] Instance eta_Runner : Eta BenchmarkRunner := fun r =>
  mkRunner (bn_timeout_s r) (bn_events r) (bn_tick r).
Definition new_runner (timeout_s : pyfloat) : BenchmarkRunner := mkRunner timeout_s [] 0.
Definition BENCHMARK_VERSION : string := "v1.0.0".
Definition DATASET_VERSION : string := "v1.0.0".
Definition CERTIFICATION_THRESHOLD : pyfloat := flit 80 100.
Definition DEFAULT_RUNS : nat := 3.

Section Runner.
Context {world : BenchWorld}.
Definition ask {A} (f : nat -> A) : M BenchmarkRunner A := fun b =>
  (b <| bn_tick := S (bn_tick b) |>, Ok (f (bn_tick b))).
Definition report (event : string) (data : dict string pyval) : M BenchmarkRunner unit :=
  modify (fun b => b <| bn_events := bn_events b ++ [(event, data)] |>).

(** [_percentile] *)
Definition at_index (l : list pyfloat) (i : Z) : result pyfloat :=
  match l !! Z.to_nat i with
  | Some x => Ok x
  | None => raise (OtherException "IndexError") "list index out of range"
  end.
Definition percentile (sorted_vals : list pyfloat) (pct : Z) : result pyfloat :=
  match sorted_vals with
  | [] => Ok (f_of_Z 0)
  | _ =>
      let n := Z.of_nat (length sorted_vals) in
      let idx := fmul (fdiv (f_of_Z pct) (f_of_Z 100)) (f_of_Z (n - 1)) in
      let lo := f_trunc idx in
      let hi := Z.min (lo + 1) (n - 1) in
      let part := fsub idx (f_of_Z lo) in
      let? a := at_index sorted_vals lo in
      let? b := at_index sorted_vals hi in
      Ok (fadd (fmul a (fsub (f_of_Z 1) part)) (fmul b part))
  end.
(** [max] and [min] keep the first of equal values. *)
Definition f_max (l : list pyfloat) : pyfloat :=
  match l with [] => f_of_Z 0 | x :: l => foldl (fun m y => if fgt y m then y else m) x l end.
Definition f_min (l : list pyfloat) : pyfloat :=
  match l with [] => f_of_Z 0 | x :: l => foldl (fun m y => if flt y m then y else m) x l end.
Definition repeatability_stats (scores : list pyfloat) : RepeatabilityStats :=
  match scores with
  | [] => mkStats 0 (f_of_Z 0) (f_of_Z 0) (f_of_Z 0) (f_of_Z 0) (f_of_Z 0) []
  | _ =>
      let m := mean scores in
      let variance := mean ((fun s => bw_square (fsub s m)) <$> scores) in
      mkStats (Z.of_nat (length scores)) (py_round m 4) (py_round variance 6)
        (py_round (SFsqrt 53 1024 variance) 4) (py_round (f_max scores) 4) (py_round (f_min scores) 4)
        ((fun s => py_round s 4) <$> scores)
  end.
(** [sorted] of latencies *)
Fixpoint insert_float (x : pyfloat) (l : list pyfloat) : list pyfloat :=
  match l with
  | [] => [x]
  | y :: l' => if flt x y then x :: l else y :: insert_float x l'
  end.
Definition sort_floats (l : list pyfloat) : list pyfloat := foldl (fun acc x => insert_float x acc) [] l.

Definition classify_failure (e : exn) : string :=
  let msg := lower (exn_str e) in
  if contains "timeout" msg || contains "timed out" msg then "timeout"
  else if contains "permission" msg || contains "denied" msg then "policy_denied"
  else if contains "invalid" (lower (exn_name (exn_type e))) || contains "invalid" msg then "invalid_case"
  else if contains "grading" msg then "grading_failure"
  else "benchmark_failure".
Definition failure_of (e : exn) : string :=
  if decide (exn_type e = OtherException "MemoryError") then "resource_failure"
  else if decide (exn_type e = OtherException "NotImplementedError") then "implementation_failure"
  else classify_failure e.
Abbreviation outcome := (RunResult + FailureRecord)%type.
Definition failed_case (c : BenchmarkCase) (type details : string) : M BenchmarkRunner outcome :=
  now ← ask bw_now; mret (inr (mkFailure (bc_benchmark_id c) (bc_capability_id c) type details now)).
Definition run_single (c : BenchmarkCase) : M BenchmarkRunner outcome :=
  start ← ask bw_perf_counter;
  except_all
    (output ← ask (bw_run (bc_capability_id c) (bc_input c));
     output ← of_result output;
     stop ← ask bw_perf_counter;
     timeout_s ← gets bn_timeout_s;
     let latency := fsub stop start in
     if fgt latency timeout_s then
       failed_case c "timeout" ("Latency " +:+ bw_two_decimals latency +:+ "s > timeout "
                                +:+ float_repr timeout_s +:+ "s")
     else
       g ← of_result (grade (bc_grading_method c) output (bc_expected_output c) no_options);
       mret (inl (mkRun c g (py_round latency 4) None)))
    (fun e => failed_case c (failure_of e) (exn_str e)).
Definition lefts (l : list outcome) : list RunResult :=
  omap (fun o => match o with inl r => Some r | inr _ => None end) l.
Definition rights (l : list outcome) : list FailureRecord :=
  omap (fun o => match o with inl _ => None | inr f => Some f end) l.
Fixpoint run_all (l : list BenchmarkCase) : M BenchmarkRunner (list outcome) :=
  match l with
  | [] => mret []
  | c :: l => o ← run_single c; os ← run_all l; mret (o :: os)
  end.
Definition run_cases (cases : list BenchmarkCase) (runs_per_case : nat)
    : M BenchmarkRunner (list RunResult * list FailureRecord) :=
  report "capability.benchmark_started"
    [("implementation_id", VStr bw_implementation_id); ("case_count", VInt (Z.of_nat (length cases)));
     ("runs_per_case", VInt (Z.of_nat runs_per_case)); ("benchmark_version", VStr BENCHMARK_VERSION)] ;;
  os ← run_all (c ← cases; repeat c runs_per_case);
  let results := lefts os in
  let failures := rights os in
  report (match failures with [] => "capability.benchmark_completed" | _ => "capability.benchmark_failed" end)
    [("implementation_id", VStr bw_implementation_id); ("results", VInt (Z.of_nat (length results)));
     ("failures", VInt (Z.of_nat (length failures)))] ;;
  mret (results, failures).

Definition build_scorecard (capability_id : string) (results : list RunResult) (dataset_version : string)
    : M BenchmarkRunner BenchmarkScorecard :=
  let cap_results := List.filter (fun r => bc_capability_id (rr_case r) =s capability_id) results in
  let scores := (fun r => gr_score (rr_grading r)) <$> cap_results in
  let confs := (fun r => gr_confidence (rr_grading r)) <$> cap_results in
  let latencies := sort_floats (rr_latency_s <$> cap_results) in
  let stats := repeatability_stats scores in
  let mean_score := match scores with [] => f_of_Z 0 | _ => rs_mean stats end in
  let mean_conf := match confs with [] => f_of_Z 0 | _ => mean confs end in
  let cert := if fge mean_score CERTIFICATION_THRESHOLD then CERTIFIED else VALID in
  stamp ← ask bw_now;
  p50 ← of_result (percentile latencies 50);
  p95 ← of_result (percentile latencies 95);
  p99 ← of_result (percentile latencies 99);
  let hardware := capture_hardware_profile in
  now ← ask bw_now;
  when (bool_decide (cert = CERTIFIED))
    (report "capability.certified"
       [("capability_id", VStr capability_id); ("implementation_id", VStr bw_implementation_id);
        ("score", VFloat mean_score); ("confidence", VFloat mean_conf);
        ("benchmark_version", VStr BENCHMARK_VERSION)]) ;;
  mret (mkScorecard
          (capability_id +:+ "_" +:+ bw_implementation_id +:+ "_" +:+ bw_stamp stamp) capability_id
          bw_implementation_id bw_implementation_revision BENCHMARK_VERSION dataset_version
          (py_round mean_score 4) (py_round mean_conf 4) (py_round p50 4) (py_round p95 4) (py_round p99 4)
          (VDict [("ram_gb", VFloat (hw_ram_gb hardware))]) cert (hardware_to_dict hardware)
          bw_adapter_revision (Some now)).
Fixpoint repeat_runs (cases : list BenchmarkCase) (runs : nat) : M BenchmarkRunner (list pyfloat) :=
  match runs with
  | 0 => mret []
  | S runs =>
      r ← run_cases cases 1;
      rest ← repeat_runs cases runs;
      mret (((fun x => gr_score (rr_grading x)) <$> r.1) ++ rest)
  end.
Definition run_repeatability (cases : list BenchmarkCase) (capability_id : string) (runs : nat)
    : M BenchmarkRunner RepeatabilityStats :=
  scores ← repeat_runs (List.filter (fun c => bc_capability_id c =s capability_id) cases) runs;
  mret (repeatability_stats scores).
End Runner.
