(* ===== verification/BenchmarkStore.v ===== *)
(** * The scorecard store and the evidence built from it

    [runtime/intelligence/benchmark_store.py]: scorecards as JSON files of one
    directory, their status changes and queries; and evidence_builder.py, which
    writes the certificates of all capabilities with their digests.  A file holds a
    document or bytes that do not decode: what the store prints it reads back.
    Opening and writing a file may fail.  The listing of the directory is in an
    arbitrary fixed order. *)
From stdpp Require Import gmap.
From S2P Require Import Prelude Dict PyVal Effects PyStr PyPath PyBytes Json Intelligence Keys.
From S2P Require Import Host Deterministic Benchmarks.

(** ** The store *)
Inductive stored := Document (v : pyval) | Garbled.
Record BenchmarkStore := mkStore {
  bs_files : gmap string stored;
  bs_outcomes : list io_outcome }.
#[export] Instance eta_Store : Eta BenchmarkStore := fun s => mkStore (bs_files s) (bs_outcomes s).
Definition new_store (files : gmap string stored) (outcomes : list io_outcome) : BenchmarkStore :=
  mkStore files outcomes.
(** The text of an instant and the instant of a text, when it is one. *)
Class StampText := { stamp_text : Z -> string; read_stamp : string -> option Z }.

Section Store.
Context {stamps : StampText}.
Abbreviation MS := (M BenchmarkStore).

(** [_filename], below the directory. *)
Definition safe_char (c : ascii) : ascii := if Ascii.eqb c "/" || Ascii.eqb c "." then "_"%char else c.
Fixpoint safe_name (s : string) : string :=
  match s with "" => "" | String c s' => String (safe_char c) (safe_name s') end.
Definition filename (scorecard_id : string) : string := safe_name scorecard_id +:+ ".json".
Definition text_or_null (o : option string) : pyval := match o with Some s => VStr s | None => VNone end.
Definition to_dict (sc : BenchmarkScorecard) : pyval :=
  VDict [("scorecard_id", VStr (sc_scorecard_id sc)); ("capability_id", VStr (sc_capability_id sc));
         ("implementation_id", VStr (sc_implementation_id sc));
         ("implementation_revision", VStr (sc_implementation_revision sc));
         ("benchmark_version", VStr (sc_benchmark_version sc));
         ("dataset_version", VStr (sc_dataset_version sc));
         ("score", VFloat (sc_score sc)); ("confidence", VFloat (sc_confidence sc));
         ("latency_p50", VFloat (sc_latency_p50 sc)); ("latency_p95", VFloat (sc_latency_p95 sc));
         ("latency_p99", VFloat (sc_latency_p99 sc)); ("resource_usage", sc_resource_usage sc);
         ("certification_status", VStr (certification_str (sc_certification_status sc)));
         ("hardware_profile", sc_hardware_profile sc);
         ("adapter_revision", text_or_null (sc_adapter_revision sc));
         ("created_at", text_or_null (stamp_text <$> sc_created_at sc))].
(** [s.replace('Z', '+00:00')] *)
Fixpoint utc_suffix (s : string) : string :=
  match s with
  | "" => ""
  | String c s' => if Ascii.eqb c "Z" then "+00:00" +:+ utc_suffix s' else String c (utc_suffix s')
  end.
Definition read_created (v : pyval) : option Z :=
  match v with VStr s => if s =s "" then None else read_stamp (utc_suffix s) | _ => None end.
(** A field of a document; one that is not of the type of its attribute is
    outside the model. *)
Definition text_field (k : string) (d : pyval) : result string :=
  let? v := py_item k d in
  match v with VStr s => Ok s | _ => raise Unmodelled "a field of another type" end.
Definition number (v : pyval) : result pyfloat :=
  let? f := to_float v in
  match f with
  | Some f => Ok f
  | None =>
      match v with
      | VStr _ => raise Unmodelled "a number in a string"
      | _ => raise TypeError ("float() argument must be a string or a real number, not '"
                              +:+ pytype_name v +:+ "'")
      end
  end.
Definition number_field (k : string) (d : pyval) : result pyfloat := let? v := py_item k d in number v.
Definition all_statuses : list CertificationStatus := [CERTIFIED; STALE; REQUIRES_REBENCHMARK; REVOKED; VALID].
Definition status_of (s : string) : result CertificationStatus :=
  match find (fun c => certification_str c =s s) all_statuses with
  | Some c => Ok c
  | None => raise ValueError (py_repr_str s +:+ " is not a valid CertificationStatus")
  end.
Definition optional_text (v : pyval) : result (option string) :=
  match v with
  | VStr s => Ok (Some s)
  | VNone => Ok None
  | _ => raise Unmodelled "a field of another type"
  end.
Definition from_dict (d : pyval) : result BenchmarkScorecard :=
  let? created := py_get "created_at" VNone d in
  let? scorecard_id := text_field "scorecard_id" d in
  let? capability_id := text_field "capability_id" d in
  let? implementation_id := text_field "implementation_id" d in
  let? implementation_revision := text_field "implementation_revision" d in
  let? benchmark_version := text_field "benchmark_version" d in
  let? dataset_version := text_field "dataset_version" d in
  let? score := number_field "score" d in
  let? confidence := number_field "confidence" d in
  let? p50 := number_field "latency_p50" d in
  let? p95 := number_field "latency_p95" d in
  let? p99 := py_get "latency_p99" (VFloat (f_of_Z 0)) d in
  let? p99 := number p99 in
  let? resource_usage := py_get "resource_usage" (VDict []) d in
  let? status := text_field "certification_status" d in
  let? status := status_of status in
  let? hardware := py_get "hardware_profile" VNone d in
  let? adapter := py_get "adapter_revision" VNone d in
  let? adapter := optional_text adapter in
  Ok (mkScorecard scorecard_id capability_id implementation_id implementation_revision benchmark_version
        dataset_version score confidence p50 p95 p99 resource_usage status hardware adapter
        (read_created created)).
Definition decode_file (f : stored) : result BenchmarkScorecard :=
  match f with
  | Document v => from_dict v
  | Garbled => raise JSONDecodeError "not JSON"
  end.

Definition take_outcome : MS io_outcome := fun s =>
  match bs_outcomes s with
  | [] => (s, Ok IoDone)
  | o :: l => (s <| bs_outcomes := l |>, Ok o)
  end.
Definition write_file (name : string) (c : stored) : MS unit :=
  modify (fun s => s <| bs_files := <[name := c]> (bs_files s) |>).
Definition save_scorecard (sc : BenchmarkScorecard) : MS string :=
  let name := filename (sc_scorecard_id sc) in
  o ← take_outcome;
  match o with
  | IoOpenFails => throw OSError "cannot open"
  | IoWriteFails => write_file name Garbled ;; throw OSError "write failed"
  | IoDone => write_file name (Document (to_dict sc)) ;; mret name
  end.
Definition load_scorecard (scorecard_id : string) (s : BenchmarkStore) : result (option BenchmarkScorecard) :=
  match bs_files s !! filename scorecard_id with
  | None => Ok None
  | Some f => rescue (let? sc := decode_file f in Ok (Some sc)) (fun _ => Ok None)
  end.
Fixpoint endswith (p s : string) : bool :=
  (s =s p) || match s with String _ s' => endswith p s' | "" => false end.
(** The files whose name ends in .json, those that do not decode skipped. *)
Fixpoint read_all (l : list (string * stored)) : result (list BenchmarkScorecard) :=
  match l with
  | [] => Ok []
  | (name, f) :: l =>
      if endswith ".json" name then
        let? sc := rescue (let? sc := decode_file f in Ok [sc]) (fun _ => Ok []) in
        let? rest := read_all l in
        Ok (sc ++ rest)
      else read_all l
  end.
Definition list_scorecards (s : BenchmarkStore) : result (list BenchmarkScorecard) :=
  read_all (map_to_list (bs_files s)).
Definition is_card_of (capability_id implementation_id : string) (sc : BenchmarkScorecard) : bool :=
  (sc_capability_id sc =s capability_id) && (sc_implementation_id sc =s implementation_id).
(** The loop of [mark_stale] and of [revoke]. *)
Fixpoint set_status (status : CertificationStatus) (l : list BenchmarkScorecard) : MS Z :=
  match l with
  | [] => mret 0%Z
  | sc :: l =>
      save_scorecard (sc <| sc_certification_status := status |>) ;;
      n ← set_status status l;
      mret (n + 1)%Z
  end.
Definition change_status (status : CertificationStatus) (capability_id implementation_id : string) : MS Z :=
  s ← gets Datatypes.id;
  l ← of_result (list_scorecards s);
  set_status status (List.filter (is_card_of capability_id implementation_id) l).
Definition mark_stale (capability_id implementation_id : string) : MS Z :=
  change_status STALE capability_id implementation_id.
Definition revoke (capability_id implementation_id : string) : MS Z :=
  change_status REVOKED capability_id implementation_id.
Definition certified_for (capability_id : string) (sc : BenchmarkScorecard) : bool :=
  (sc_capability_id sc =s capability_id) && bool_decide (sc_certification_status sc = CERTIFIED).
(** [max(candidates, key=score)]: the first of the greatest. *)
Fixpoint best_of (best : option BenchmarkScorecard) (l : list BenchmarkScorecard) : option BenchmarkScorecard :=
  match l with
  | [] => best
  | sc :: l =>
      best_of (match best with
               | Some b => if fgt (sc_score sc) (sc_score b) then Some sc else best
               | None => Some sc
               end) l
  end.
Definition best_scorecard (capability_id : string) (s : BenchmarkStore) : result (option BenchmarkScorecard) :=
  let? l := list_scorecards s in
  Ok (best_of None (List.filter (certified_for capability_id) l)).
Fixpoint insert_card (sc : BenchmarkScorecard) (l : list BenchmarkScorecard) : list BenchmarkScorecard :=
  match l with
  | [] => [sc]
  | x :: l' => if String.leb (sc_capability_id sc) (sc_capability_id x) then sc :: l else x :: insert_card sc l'
  end.
Definition sort_cards (l : list BenchmarkScorecard) : list BenchmarkScorecard := foldr insert_card [] l.
Definition summary_entry (sc : BenchmarkScorecard) : dict string pyval :=
  [("capability_id", VStr (sc_capability_id sc)); ("implementation_id", VStr (sc_implementation_id sc));
   ("score", VFloat (sc_score sc)); ("confidence", VFloat (sc_confidence sc));
   ("latency_p50", VFloat (sc_latency_p50 sc)); ("latency_p95", VFloat (sc_latency_p95 sc));
   ("certification_status", VStr (certification_str (sc_certification_status sc)));
   ("created_at", text_or_null (stamp_text <$> sc_created_at sc))].
Definition summary (s : BenchmarkStore) : result (list (dict string pyval)) :=
  let? l := list_scorecards s in Ok (summary_entry <$> sort_cards l).
End Store.

(** ** Evidence *)
(** The files of the output directory, as their text. *)
Record EvidenceBuilder := mkEvidence {
  eb_files : gmap string string;
  eb_outcomes : list io_outcome }.
#[export] Instance eta_Evidence : Eta EvidenceBuilder := fun e => mkEvidence (eb_files e) (eb_outcomes e).
Record Manifest := mkManifest { mf_certified : Z; mf_failed : Z; mf_evidence_files : list string }.
#[export] Instance eta_Manifest : Eta Manifest := fun m =>
  mkManifest (mf_certified m) (mf_failed m) (mf_evidence_files m).

Section Evidence.
Context {stamps : StampText} {machine : Machine}.
(** The set of all capabilities is iterated in some order. *)
Context (output_dir : string) (capability_order : list string) (store : BenchmarkStore).
Abbreviation ME := (M EvidenceBuilder).

Definition out_path (name : string) : string := path_join output_dir name.
Definition write_text (name text : string) : ME unit := fun e =>
  match eb_outcomes e with
  | [] => (e <| eb_files := <[name := text]> (eb_files e) |>, Ok tt)
  | IoDone :: l => (e <| eb_files := <[name := text]> (eb_files e) |> <| eb_outcomes := l |>, Ok tt)
  | IoOpenFails :: l => (e <| eb_outcomes := l |>, raise OSError "cannot open")
  | IoWriteFails :: l =>
      (e <| eb_files := <[name := ""]> (eb_files e) |> <| eb_outcomes := l |>, raise OSError "write failed")
  end.
Definition write_json (name : string) (v : pyval) : ME unit := write_text name (dumps_indent false 0 v).
Fixpoint underscored (s : string) : string :=
  match s with
  | "" => ""
  | String c s' => String (if Ascii.eqb c "." then "_"%char else c) (underscored s')
  end.
Definition certificate_name (capability_id : string) : string :=
  "cert_" +:+ underscored capability_id +:+ ".json".
Definition certificate (best : BenchmarkScorecard) : pyval :=
  VDict [("capability_id", VStr (sc_capability_id best));
         ("implementation_id", VStr (sc_implementation_id best));
         ("score", VFloat (sc_score best)); ("confidence", VFloat (sc_confidence best));
         ("latency_p50", VFloat (sc_latency_p50 best)); ("dataset_version", VStr (sc_dataset_version best));
         ("certified_at", text_or_null (isoformat <$> sc_created_at best));
         ("hardware", sc_hardware_profile best)].
Definition taxonomy_document : pyval :=
  VDict [("families", VDict (prod_map Datatypes.id (fun l => VList (VStr <$> l)) <$> CAPABILITY_FAMILIES));
         ("all_capabilities", VList (VStr <$> sort_strings ALL_CAPABILITIES))].
Fixpoint certify_all (caps : list string) (m : Manifest) : ME Manifest :=
  match caps with
  | [] => mret m
  | cap :: caps =>
      best ← of_result (best_scorecard cap store);
      match best with
      | None => certify_all caps (m <| mf_failed := (mf_failed m + 1)%Z |>)
      | Some sc =>
          write_json (certificate_name cap) (certificate sc) ;;
          certify_all caps (m <| mf_certified := (mf_certified m + 1)%Z |>
                              <| mf_evidence_files := mf_evidence_files m ++ [certificate_name cap] |>)
      end
  end.
(** The lines of SHA256SUMS, the files read back. *)
Fixpoint checksums (names : list string) : ME string :=
  match names with
  | [] => mret ""
  | name :: names =>
      f ← gets (fun e => eb_files e !! name);
      h ← of_result (match f with
                     | Some text => Ok (sha256 (utf8_encode text))
                     | None => raise (OtherException "FileNotFoundError") name
                     end);
      rest ← checksums names;
      mret (h +:+ "  " +:+ name +:+ newline +:+ rest)
  end.
Definition manifest_document (timestamp : string) (m : Manifest) : pyval :=
  VDict [("timestamp", VStr timestamp); ("capabilities_certified", VInt (mf_certified m));
         ("capabilities_failed", VInt (mf_failed m));
         ("evidence_files", VList ((fun n => VStr (out_path n)) <$> mf_evidence_files m))].
Definition generate_all (now : Z) : ME Manifest :=
  write_json "taxonomy.json" taxonomy_document ;;
  of_result (list_scorecards store) ;;
  m ← certify_all capability_order (mkManifest 0 0 ["taxonomy.json"]);
  sums ← checksums (mf_evidence_files m);
  write_text "SHA256SUMS" sums ;;
  write_json "manifest.json" (manifest_document (isoformat now) m) ;;
  mret m.
End Evidence.
