(* ===== verification/BenchmarkDataset.v ===== *)
(** * The benchmark battery

    [runtime/intelligence/benchmark_dataset.py]: the cases of the battery, their
    partitions, and what makes the battery usable: identifiers are distinct, every
    case can be passed, and no blind case is a training case. *)
From S2P Require Import Prelude Dict PyVal Effects PyStr Json JsonLoad Benchmarks.

Definition SUMMARIZATION_CASES : list BenchmarkCase :=
  [
    mkCase "sum_train_001" "text.summarization" (VDict [("text", VStr
      "The Python programming language was created by Guido van Rossum and first released in 1991. It emphasizes code readability and simplicity. Python supports multiple programming paradigms including procedural, object-oriented, and functional programming.")])
      (VStr
      "Python is a programming language created by Guido van Rossum in 1991, known for code readability and supporting multiple paradigms.")
      "semantic_grading" "easy" "TRAIN" DATASET_VERSION;
    mkCase "sum_val_001" "text.summarization" (VDict [("text", VStr
      "Machine learning is a subfield of artificial intelligence that enables systems to learn from data without being explicitly programmed. It includes supervised learning, where models are trained on labeled examples, unsupervised learning, which discovers patterns in unlabeled data, and reinforcement learning, which learns through reward signals.")])
      (VStr
      "Machine learning enables systems to learn from data without explicit programming, encompassing supervised, unsupervised, and reinforcement learning.")
      "semantic_grading" "medium" "VALIDATION" DATASET_VERSION;
    mkCase "sum_blind_001" "text.summarization" (VDict [("text", VStr
      "Distributed computing involves multiple computers working together over a network to solve problems that a single machine cannot handle efficiently. Challenges include network latency, partial failures, data consistency across nodes, and coordination overhead. Systems like Apache Kafka, Hadoop, and Spark have emerged to address these challenges.")])
      (VStr
      "Distributed computing uses multiple networked computers to solve large problems, facing challenges of latency, failures, and consistency, addressed by systems like Kafka, Hadoop, and Spark.")
      "semantic_grading" "hard" "BLIND_TEST" DATASET_VERSION
  ].
Definition CLASSIFICATION_CASES : list BenchmarkCase :=
  [
    mkCase "cls_train_001" "text.classification" (VDict [("text", VStr
      "This product is absolutely amazing! Best purchase I have ever made."); ("labels", VList [VStr
      "positive"; VStr "negative"; VStr "neutral"])]) (VDict [("label", VStr "positive"); ("confidence",
      VFloat (flit 95 100))]) "structured_match" "easy" "TRAIN" DATASET_VERSION;
    mkCase "cls_val_001" "text.classification" (VDict [("text", VStr
      "The delivery was on time but the packaging was damaged."); ("labels", VList [VStr "positive";
      VStr "negative"; VStr "neutral"])]) (VDict [("label", VStr "neutral"); ("confidence", VFloat (flit
      7 10))]) "structured_match" "medium" "VALIDATION" DATASET_VERSION;
    mkCase "cls_blind_001" "text.classification" (VDict [("text", VStr
      "While the interface is technically functional, I find myself missing the elegance of the previous version despite acknowledging the new performance gains.");
      ("labels", VList [VStr "positive"; VStr "negative"; VStr "neutral"])]) (VDict [("label", VStr
      "neutral"); ("confidence", VFloat (flit 6 10))]) "structured_match" "hard" "BLIND_TEST"
      DATASET_VERSION
  ].
Definition EXTRACTION_CASES : list BenchmarkCase :=
  [
    mkCase "ext_train_001" "data.extraction" (VDict [("text", VStr
      "Contact John Smith at john.smith@example.com or call +1-555-0123."); ("fields", VList [VStr
      "name"; VStr "email"; VStr "phone"])]) (VDict [("name", VStr "John Smith"); ("email", VStr
      "john.smith@example.com"); ("phone", VStr "+1-555-0123")]) "structured_match" "easy" "TRAIN"
      DATASET_VERSION;
    mkCase "ext_val_001" "data.extraction" (VDict [("text", VStr
      "The meeting is scheduled for Thursday, October 15, 2026 at 3:30 PM EST in Conference Room B.");
      ("fields", VList [VStr "date"; VStr "time"; VStr "timezone"; VStr "location"])]) (VDict [("date",
      VStr "October 15, 2026"); ("time", VStr "3:30 PM"); ("timezone", VStr "EST"); ("location", VStr
      "Conference Room B")]) "structured_match" "medium" "VALIDATION" DATASET_VERSION;
    mkCase "ext_blind_001" "data.extraction" (VDict [("text", VStr
      "Invoice #INV-2026-004421 issued by Acme Corp (VAT: GB123456789) to Beta Ltd. Total: EUR 14,500.00 net, EUR 17,400.00 incl. VAT (20%).");
      ("fields", VList [VStr "invoice_number"; VStr "issuer"; VStr "vat_number"; VStr "recipient"; VStr
      "total_net"; VStr "total_gross"; VStr "vat_rate"])]) (VDict [("invoice_number", VStr
      "INV-2026-004421"); ("issuer", VStr "Acme Corp"); ("vat_number", VStr "GB123456789");
      ("recipient", VStr "Beta Ltd"); ("total_net", VStr "EUR 14,500.00"); ("total_gross", VStr
      "EUR 17,400.00"); ("vat_rate", VStr "20%")]) "structured_match" "hard" "BLIND_TEST"
      DATASET_VERSION
  ].
Definition ANALYSIS_CASES : list BenchmarkCase :=
  [
    mkCase "ana_train_001" "data.analysis" (VDict [("data", VDict [("sales", VList [VInt 100; VInt 150;
      VInt 130; VInt 170; VInt 200])]); ("question", VStr "What is the overall trend?")]) (VStr
      "Sales show a consistent upward trend over 5 periods with a generally increasing trajectory.")
      "semantic_grading" "easy" "TRAIN" DATASET_VERSION;
    mkCase "ana_val_001" "data.analysis" (VDict [("data", VDict [("response_times_ms", VList [VInt 45;
      VInt 52; VInt 48; VInt 210; VInt 47; VInt 51; VInt 49; VInt 890; VInt 46])]); ("question", VStr
      "Identify outliers and assess system health.")]) (VStr
      "Two significant outliers detected at 210ms and 890ms. System is mostly healthy with occasional spikes.")
      "semantic_grading" "medium" "VALIDATION" DATASET_VERSION;
    mkCase "ana_blind_001" "data.analysis" (VDict [("data", VDict [("conversions", VDict [("control",
      VDict [("visitors", VInt 10000); ("conversions", VInt 520)]); ("variant", VDict [("visitors", VInt
      9800); ("conversions", VInt 588)])])]); ("question", VStr
      "Evaluate A/B test and recommend action.")]) (VStr
      "Control rate 5.2%, variant rate 6.0%, lift 15.4%. Variant shows meaningful improvement; recommend deploying with monitoring.")
      "semantic_grading" "hard" "BLIND_TEST" DATASET_VERSION
  ].
Definition REWRITING_CASES : list BenchmarkCase :=
  [
    mkCase "rew_train_001" "text.rewriting" (VDict [("text", VStr
      "The utilization of the aforementioned methodological framework necessitates comprehensive pre-implementation evaluation.");
      ("target_style", VStr "plain")]) (VStr
      "Using this method requires a thorough evaluation before implementation.") "semantic_grading"
      "easy" "TRAIN" DATASET_VERSION;
    mkCase "rew_val_001" "text.rewriting" (VDict [("text", VStr "Our Q3 revenue declined 8% YoY.");
      ("target_style", VStr "executive_summary")]) (VStr
      "Third-quarter revenue fell 8% compared to the same period last year, requiring strategic review.")
      "semantic_grading" "medium" "VALIDATION" DATASET_VERSION;
    mkCase "rew_blind_001" "text.rewriting" (VDict [("text", VStr
      "sys.exit() terminates the Python interpreter."); ("target_style", VStr "user_documentation")])
      (VStr
      "The sys.exit() function stops your Python program immediately. Use it when you need to end execution at a specific point, such as after detecting a critical error.")
      "semantic_grading" "hard" "BLIND_TEST" DATASET_VERSION
  ].
Definition CODE_UNDERSTANDING_CASES : list BenchmarkCase :=
  [
    mkCase "cund_train_001" "code.understanding" (VDict [("code", VStr ("def factorial(n):" +:+ newline
      +:+ "    if n <= 1:" +:+ newline +:+ "        return 1" +:+ newline +:+
      "    return n * factorial(n - 1)")); ("question", VStr "What does this function do?")]) (VStr
      "Computes the factorial of n using recursion. Base case returns 1 when n is 1 or less.")
      "semantic_grading" "easy" "TRAIN" DATASET_VERSION;
    mkCase "cund_val_001" "code.understanding" (VDict [("code", VStr
      "result = {k: v for k, v in data.items() if v is not None and k not in excluded}"); ("question",
      VStr "Explain the expression.")]) (VStr
      "A dict comprehension that filters data keeping only entries where the value is not None and the key is not in the excluded set.")
      "semantic_grading" "medium" "VALIDATION" DATASET_VERSION;
    mkCase "cund_blind_001" "code.understanding" (VDict [("code", VStr ("def memoize(fn):" +:+ newline
      +:+ "    cache = {}" +:+ newline +:+ "    def wrapper(*args):" +:+ newline +:+
      "        if args not in cache:" +:+ newline +:+ "            cache[args] = fn(*args)" +:+ newline
      +:+ "        return cache[args]" +:+ newline +:+ "    return wrapper")); ("question", VStr
      "Explain what this decorator does and identify limitations.")]) (VStr
      "A memoization decorator that caches function results by argument tuple. Limitations: only works with hashable arguments and has unbounded cache growth.")
      "semantic_grading" "hard" "BLIND_TEST" DATASET_VERSION
  ].
Definition CODE_GENERATION_CASES : list BenchmarkCase :=
  [
    mkCase "cgen_train_001" "code.generation" (VDict [("task", VStr
      "Write a Python function that returns the sum of all even numbers in a list.")]) (VDict [("code",
      VStr ("def sum_even(lst):" +:+ newline +:+ "    return sum(x for x in lst if x % 2 == 0)"))])
      "task_success" "easy" "TRAIN" DATASET_VERSION;
    mkCase "cgen_val_001" "code.generation" (VDict [("task", VStr
      "Write a Python context manager that measures and prints execution time of a code block.")])
      (VDict [("code", VStr ("import time" +:+ newline +:+ "from contextlib import contextmanager" +:+
      newline +:+ newline +:+ "@contextmanager" +:+ newline +:+ "def timer(label='block'):" +:+ newline
      +:+ "    start = time.perf_counter()" +:+ newline +:+ "    yield" +:+ newline +:+
      "    elapsed = time.perf_counter() - start" +:+ newline +:+
      "    print(f'{label}: {elapsed:.4f}s')"))]) "task_success" "medium" "VALIDATION" DATASET_VERSION;
    mkCase "cgen_blind_001" "code.generation" (VDict [("task", VStr
      "Write a thread-safe singleton implementation in Python using a metaclass.")]) (VDict [("code",
      VStr ("import threading" +:+ newline +:+ newline +:+ "class SingletonMeta(type):" +:+ newline +:+
      "    _instances = {}" +:+ newline +:+ "    _lock = threading.Lock()" +:+ newline +:+ newline +:+
      "    def __call__(cls, *args, **kwargs):" +:+ newline +:+ "        with cls._lock:" +:+ newline
      +:+ "            if cls not in cls._instances:" +:+ newline +:+
      "                cls._instances[cls] = super().__call__(*args, **kwargs)" +:+ newline +:+
      "        return cls._instances[cls]"))]) "task_success" "hard" "BLIND_TEST" DATASET_VERSION
  ].
Definition BUG_DIAGNOSIS_CASES : list BenchmarkCase :=
  [
    mkCase "bug_train_001" "bug.diagnosis" (VDict [("code", VStr ("def divide(a, b):" +:+ newline +:+
      "    return a / b" +:+ newline +:+ newline +:+ "result = divide(10, 0)")); ("error", VStr
      "ZeroDivisionError: division by zero")]) (VStr
      "Root cause: division by zero because b is 0. Fix: add a guard checking if b is zero before dividing.")
      "semantic_grading" "easy" "TRAIN" DATASET_VERSION;
    mkCase "bug_val_001" "bug.diagnosis" (VDict [("code", VStr ("items = [1, 2, 3]" +:+ newline +:+
      "for i in range(len(items)):" +:+ newline +:+ "    items.append(i * 10)")); ("symptom", VStr
      "Program never terminates")]) (VStr
      "Root cause: mutating the list while iterating it causes the loop to run indefinitely. Fix: iterate over a copy of the original list.")
      "semantic_grading" "medium" "VALIDATION" DATASET_VERSION;
    mkCase "bug_blind_001" "bug.diagnosis" (VDict [("code", VStr ("import threading" +:+ newline +:+
      "shared = []" +:+ newline +:+ "def worker():" +:+ newline +:+ "    local = shared" +:+ newline +:+
      "    local.append(threading.current_thread().name)" +:+ newline +:+
      "threads = [threading.Thread(target=worker) for _ in range(10)]" +:+ newline +:+
      "[t.start() for t in threads]" +:+ newline +:+ "[t.join() for t in threads]" +:+ newline +:+
      "print(len(shared))")); ("symptom", VStr "Output is sometimes less than 10")]) (VStr
      "Race condition: list.append is not guaranteed atomic under all GIL conditions. Multiple threads may interleave during list resize. Fix: use threading.Lock() around append.")
      "semantic_grading" "hard" "BLIND_TEST" DATASET_VERSION
  ].
Definition TOOL_USE_CASES : list BenchmarkCase :=
  [
    mkCase "tool_train_001" "tool.use" (VDict [("task", VStr
      "Read the contents of /etc/hostname and report the hostname."); ("available_tools", VList [VStr
      "filesystem.read"])]) (VDict [("tool_calls", VList [VDict [("tool", VStr "filesystem.read");
      ("args", VDict [("path", VStr "/etc/hostname")])]])]) "task_success" "easy" "TRAIN"
      DATASET_VERSION;
    mkCase "tool_val_001" "tool.use" (VDict [("task", VStr
      "Search for Python files containing 'deprecated' in /opt/anny-runtime/runtime/.");
      ("available_tools", VList [VStr "search.query"])]) (VDict [("tool_calls", VList [VDict [("tool",
      VStr "search.query"); ("args", VDict [("path", VStr "/opt/anny-runtime/runtime/"); ("pattern",
      VStr "deprecated"); ("file_type", VStr "py")])]])]) "task_success" "medium" "VALIDATION"
      DATASET_VERSION;
    mkCase "tool_blind_001" "tool.use" (VDict [("task", VStr
      "Find commits in last 30 days modifying runtime/intelligence/ and show diff of the most recent.");
      ("available_tools", VList [VStr "git.log"; VStr "git.diff"])]) (VDict [("tool_calls", VList [VDict
      [("tool", VStr "git.log"); ("args", VDict [("since", VStr "30 days ago"); ("path", VStr
      "runtime/intelligence/")])]; VDict [("tool", VStr "git.diff"); ("args", VDict [("commit", VStr
      "HEAD"); ("path", VStr "runtime/intelligence/")])]])]) "task_success" "hard" "BLIND_TEST"
      DATASET_VERSION
  ].
Definition INITIAL_BATTERY : list BenchmarkCase :=
  SUMMARIZATION_CASES ++ CLASSIFICATION_CASES ++ EXTRACTION_CASES ++ ANALYSIS_CASES ++ REWRITING_CASES
  ++ CODE_UNDERSTANDING_CASES ++ CODE_GENERATION_CASES ++ BUG_DIAGNOSIS_CASES ++ TOOL_USE_CASES.
Definition PARTITIONS : list string := ["TRAIN"; "VALIDATION"; "BLIND_TEST"].
Definition get_partition (partition : string) : result (list BenchmarkCase) :=
  if str_in partition PARTITIONS
  then Ok (List.filter (fun c => bc_dataset_partition c =s partition) INITIAL_BATTERY)
  else raise (OtherException "AssertionError") "".
Definition get_by_capability (capability_id : string) : list BenchmarkCase :=
  List.filter (fun c => bc_capability_id c =s capability_id) INITIAL_BATTERY.
Definition get_blind_test_cases : result (list BenchmarkCase) := get_partition "BLIND_TEST".

(** ** What makes the battery usable *)
Section Battery.
Context {float_ops : FloatOps} {json_errors : JsonErrors}.
Definition passes (output : pyval) (c : BenchmarkCase) : bool :=
  match grade (bc_grading_method c) output (bc_expected_output c) no_options with
  | Ok g => gr_passed g
  | Raise _ => false
  end.
(** Every case passes with its own expected output as the answer, whatever the
    text of floats is. *)
Theorem battery_passable : Forall (fun c => passes (bc_expected_output c) c = true) INITIAL_BATTERY.
Proof. repeat constructor. Qed.
End Battery.

(** The cases of a partition, when it is one. *)
Definition in_partition (partition : string) : list BenchmarkCase :=
  match get_partition partition with Ok l => l | Raise _ => [] end.
Definition no_floats : FloatOps := {| float_repr _ := ""; float_sum _ := f_of_Z 0 |}.
Definition input_text (c : BenchmarkCase) : string := @dumps no_floats true (bc_input c).
Lemma blind_texts_new :
  Forall (fun b => Forall (fun c => input_text c <> input_text b) (in_partition "TRAIN" ++ in_partition "VALIDATION"))
    (in_partition "BLIND_TEST").
Proof. apply (bool_decide_unpack _). vm_compute. exact I. Qed.
(** Identifiers are distinct; the three partitions make up the battery, with one
    case of each for every capability that has cases, all of them capabilities
    that need a benchmark; and no blind case has the input of a case used for
    training or validation. *)
Theorem battery_well_formed :
  NoDup (bc_benchmark_id <$> INITIAL_BATTERY) /\
  Forall (fun c => requires_benchmark (bc_capability_id c) = true /\
                   (bc_dataset_partition <$> get_by_capability (bc_capability_id c)) = PARTITIONS)
    INITIAL_BATTERY /\
  Forall (fun b => Forall (fun c => bc_input c <> bc_input b) (in_partition "TRAIN" ++ in_partition "VALIDATION"))
    (in_partition "BLIND_TEST").
Proof.
  split; [|split].
  - apply (bool_decide_unpack _). vm_compute. exact I.
  - apply (bool_decide_unpack _). vm_compute. exact I.
  - eapply Forall_impl; [exact blind_texts_new|]. intros b H. eapply Forall_impl; [exact H|].
    intros c Hc E. apply Hc. unfold input_text. by rewrite E.
Qed.
