(* ===== verification/BenchmarkFacts.v ===== *)
(** * What the benchmarks guarantee

    The accounting of the runner, the grading methods and the similarity they use,
    the taxonomy, the store's round trip and its revocation, and the evidence. *)
From stdpp Require Import gmap.
From S2P Require Import Prelude Dict PyVal Effects PyStr PyBytes Json JsonLoad Intelligence Keys.
From S2P Require Import Host Deterministic Benchmarks BenchmarkStore.

(** ** Taxonomy *)
(** What [taxonomy_partition] says of one capability. *)
Definition classified (c : string) : bool :=
  eqb (validate_capability_id c) (is_deterministic c || is_local_inference c) &&
  negb (is_deterministic c && is_local_inference c) &&
  eqb (validate_capability_id c) (negb (get_family c =s "unknown")) &&
  (length (List.filter (fun kv => str_in c kv.2) CAPABILITY_FAMILIES)
   =? if validate_capability_id c then 1 else 0).
Lemma known_classified : Forall (fun c => classified c = true) ALL_CAPABILITIES.
Proof. repeat constructor. Qed.
Lemma families_known : Forall (fun kv => Forall (fun c => c ∈ ALL_CAPABILITIES) kv.2) CAPABILITY_FAMILIES.
Proof. apply (bool_decide_unpack _). vm_compute. exact I. Qed.
Lemma unknown_family c : c ∉ ALL_CAPABILITIES ->
  Forall (fun kv => str_in c kv.2 = false) CAPABILITY_FAMILIES.
Proof.
  intros Hc. eapply Forall_impl; [apply families_known|]. intros [f l] Hl. apply str_in_false.
  intros Hin. rewrite Forall_forall in Hl. by apply Hc, Hl.
Qed.
(** The two kinds of capability are disjoint, a capability is valid exactly when it
    is of one of them, and exactly the valid ones have a family, which is one. *)
Theorem taxonomy_partition c : classified c = true.
Proof.
  destruct (decide (c ∈ ALL_CAPABILITIES)) as [H|H].
  { by apply (proj1 (Forall_forall _ _) known_classified). }
  pose proof (unknown_family c H) as Hf.
  assert (c ∉ DETERMINISTIC_CAPABILITIES /\ c ∉ LOCAL_INFERENCE_CAPABILITIES) as [Hd Hl].
  { unfold ALL_CAPABILITIES in H. by rewrite not_elem_of_app in H. }
  unfold classified, get_family, validate_capability_id, is_deterministic, is_local_inference.
  rewrite !(proj2 (str_in_false _ _)) by done.
  assert (List.filter (fun kv => str_in c kv.2) CAPABILITY_FAMILIES = []) as ->.
  { revert Hf. generalize CAPABILITY_FAMILIES. induction 1 as [|kv l Hk _ IH]; [done|]. simpl. by rewrite Hk. }
  assert (find (fun kv => str_in c kv.2) CAPABILITY_FAMILIES = None) as ->; [|done].
  revert Hf. generalize CAPABILITY_FAMILIES. induction 1 as [|kv l Hk _ IH]; [done|]. simpl. by rewrite Hk.
Qed.

(** ** The runner *)
Section RunnerFacts.
Context {world : BenchWorld}.
(** A result is the grading of what the backend answered to a case. *)
Definition graded (cases : list BenchmarkCase) (r : RunResult) : Prop :=
  rr_case r ∈ cases /\
  exists n output, bw_run (bc_capability_id (rr_case r)) (bc_input (rr_case r)) n = Ok output /\
    grade (bc_grading_method (rr_case r)) output (bc_expected_output (rr_case r)) no_options =
      Ok (rr_grading r).
Definition failure_about (cases : list BenchmarkCase) (f : FailureRecord) : Prop :=
  exists c, c ∈ cases /\ fr_case_id f = bc_benchmark_id c /\ fr_capability_id f = bc_capability_id c.
Definition accounts (c : BenchmarkCase) (o : RunResult + FailureRecord) : Prop :=
  match o with inl r => rr_case r = c /\ graded [c] r | inr f => failure_about [c] f end.
Lemma run_single_accounts c b :
  wp (run_single c) b (fun b' o =>
    bn_events b' = bn_events b /\ bn_timeout_s b' = bn_timeout_s b /\
    match o with Ok x => accounts c x | Raise e => exn_type e = Unmodelled end).
Proof.
  unfold run_single. apply wp_bind. unfold wp at 1, ask. unfold except_all. apply wp_try_with.
  assert (forall type details b1,
    wp (failed_case c type details) b1 (fun b' o => bn_events b' = bn_events b1 /\
      bn_timeout_s b' = bn_timeout_s b1 /\
      match o with Ok x => accounts c x | Raise e => exn_type e = Unmodelled end)) as Hf.
  { intros type details b1. unfold failed_case. apply wp_bind. unfold wp at 1, ask. apply wp_ret.
    split; [done|]. split; [done|]. exists c. split; [by apply list_elem_of_singleton|done]. }
  assert (forall e b1, bn_events b1 = bn_events b -> bn_timeout_s b1 = bn_timeout_s b ->
    wp (match exn_type e with Unmodelled => rethrow e | _ => failed_case c (failure_of e) (exn_str e) end) b1
      (fun b' o => bn_events b' = bn_events b /\ bn_timeout_s b' = bn_timeout_s b /\
        match o with Ok x => accounts c x | Raise e => exn_type e = Unmodelled end)) as Hh.
  { intros e b1 E1 E2. rewrite <- E1, <- E2. destruct (exn_type e) eqn:Et; try apply Hf. by split_and!. }
  apply wp_bind. unfold wp at 1, ask. apply wp_bind, wp_of_result. simpl.
  destruct (bw_run _ _ _) as [output|e] eqn:Er; [|by apply Hh].
  apply wp_bind. unfold wp at 1, ask. apply wp_bind, wp_gets. simpl.
  destruct (fgt _ _).
  { eapply wp_mono; [apply Hf|]. intros b' [x|e] (H1 & H2 & H3); simpl in *.
    - by split_and!.
    - rewrite H3. by split_and!. }
  apply wp_bind, wp_of_result. destruct (grade _ _ _ _) as [g|e] eqn:Eg; [|by apply Hh].
  apply wp_ret. split; [done|]. split; [done|]. split; [done|]. split; [by apply list_elem_of_singleton|].
  by exists (S (bn_tick b)), output.
Qed.

Lemma run_all_accounts l b :
  wp (run_all l) b (fun b' o => bn_events b' = bn_events b /\
    match o with Ok os => Forall2 accounts l os | Raise e => exn_type e = Unmodelled end).
Proof.
  revert b. induction l as [|c l IH]; intros b; [by apply wp_ret|].
  apply wp_bind. eapply wp_mono; [apply run_single_accounts|]. intros b1 [x|e] (H1 & _ & H2); [|done].
  apply wp_bind. eapply wp_mono; [apply IH|]. intros b2 [os|e] (H3 & H4); (split; [congruence|]); [|done].
  by constructor.
Qed.
Lemma lefts_rights_length os : length (lefts os) + length (rights os) = length os.
Proof. induction os as [|[r|f] os IH]; simpl; lia. Qed.
Lemma accounts_lefts l os : Forall2 accounts l os -> Forall (graded l) (lefts os).
Proof.
  induction 1 as [|c [r|f] l os H _ IH]; [constructor|..]; cbn in *.
  - destruct H as [Hc [_ Hg]]. constructor; [split; [rewrite Hc; by left|done]|].
    eapply Forall_impl; [exact IH|]. intros r' [? ?]. split; [by right|done].
  - eapply Forall_impl; [exact IH|]. intros r' [? ?]. split; [by right|done].
Qed.
Lemma accounts_rights l os : Forall2 accounts l os -> Forall (failure_about l) (rights os).
Proof.
  induction 1 as [|c [r|f] l os H _ IH]; [constructor|..]; cbn in *.
  - eapply Forall_impl; [exact IH|]. intros f' (c' & ? & ?). exists c'. split; [by right|done].
  - destruct H as (c' & Hc' & H). apply list_elem_of_singleton in Hc' as ->.
    constructor; [exists c; split; [by left|done]|].
    eapply Forall_impl; [exact IH|]. intros f' (c' & ? & ?). exists c'. split; [by right|done].
Qed.
Lemma repeated_cases (cases : list BenchmarkCase) n :
  length (c ← cases; repeat c n) = length cases * n /\
  forall c, c ∈ (c ← cases; repeat c n) -> c ∈ cases.
Proof.
  induction cases as [|c cases [IH1 IH2]]; [split; [done|by intros c ?%not_elem_of_nil]|].
  split.
  { change (length (repeat c n ++ (cases ≫= fun c => repeat c n)) = S (length cases) * n).
    rewrite length_app, repeat_length, IH1. lia. }
  intros c' [H|H]%elem_of_app; [|right; by apply IH2].
  apply list_elem_of_In, repeat_spec in H as ->. by left.
Qed.
(** Every run of every case is accounted for, as a graded answer or as a failure of
    that case: there are as many as cases times runs, no exception escapes, and the
    closing event says whether there were failures. *)
Theorem run_cases_accounted cases runs b :
  wp (run_cases cases runs) b (fun b' o =>
    match o with
    | Ok (results, failures) =>
        length results + length failures = length cases * runs /\
        Forall (graded cases) results /\ Forall (failure_about cases) failures /\
        exists d1 d2, bn_events b' = bn_events b ++
          [("capability.benchmark_started", d1);
           (match failures with [] => "capability.benchmark_completed" | _ => "capability.benchmark_failed" end,
            d2)]
    | Raise e => exn_type e = Unmodelled
    end).
Proof.
  unfold run_cases, report. destruct (repeated_cases cases runs) as [Hlen Hin].
  apply wp_bind, wp_modify, wp_bind. eapply wp_mono; [apply run_all_accounts|].
  intros b1 [os|e] [H1 H2]; [|done]. apply wp_bind, wp_modify, wp_ret.
  split_and!.
  - rewrite lefts_rights_length, <- Hlen. symmetry. by eapply Forall2_length.
  - eapply Forall_impl; [by apply accounts_lefts|]. intros r [Hr Hg]. split; [by apply Hin|done].
  - eapply Forall_impl; [by apply accounts_rights|]. intros f (c & Hc & Hf). exists c. split; [by apply Hin|done].
  - eexists _, _. simpl. rewrite H1. simpl. by rewrite <- app_assoc.
Qed.
End RunnerFacts.

(** ** The store *)
Section StoreFacts.
Context {stamps : StampText}.
(** What [str] prints of an instant [fromisoformat] reads back. *)
Definition stamps_read : Prop :=
  forall t, stamp_text t <> "" /\ read_stamp (utc_suffix (stamp_text t)) = Some t.
Lemma status_of_str c : status_of (certification_str c) = Ok c.
Proof. by destruct c. Qed.
Lemma from_to_dict sc : stamps_read -> from_dict (to_dict sc) = Ok sc.
Proof.
  intros Hs. destruct sc as [a1 a2 a3 a4 a5 a6 a7 a8 a9 a10 a11 a12 status a14 adapter created].
  transitivity (Ok (mkScorecard a1 a2 a3 a4 a5 a6 a7 a8 a9 a10 a11 a12 status a14 adapter
                      (read_created (text_or_null (stamp_text <$> created))))).
  { by destruct status, adapter. }
  do 2 f_equal. destruct created as [t|]; [|done]. destruct (Hs t) as [Hne Hr]. cbn.
  apply String.eqb_neq in Hne. by rewrite Hne.
Qed.
Lemma string_app_inj_r s t p : s +:+ p = t +:+ p -> s = t.
Proof.
  revert t. induction s as [|c s IH]; intros [|d t] H; rewrite ?string_app_cons in H; try done.
  - apply (f_equal String.length) in H. cbn [String.length] in H.
    rewrite ?string_length_app in H. cbn in H. lia.
  - apply (f_equal String.length) in H. cbn [String.length] in H.
    rewrite ?string_length_app in H. cbn in H. lia.
  - injection H as -> H. f_equal. by apply IH.
Qed.
(** A saved scorecard is loaded back under its identifier, and scorecards in other
    files are left alone. *)
Theorem saved_scorecard_loads (Hs : stamps_read) sc s :
  wp (save_scorecard sc) s (fun s' o => forall name, o = Ok name ->
    load_scorecard (sc_scorecard_id sc) s' = Ok (Some sc) /\
    forall id, safe_name id <> safe_name (sc_scorecard_id sc) -> load_scorecard id s' = load_scorecard id s).
Proof.
  unfold save_scorecard, take_outcome. apply wp_bind. unfold wp at 1.
  assert (forall s1, bs_files s1 = bs_files s ->
    wp (write_file (filename (sc_scorecard_id sc)) (Document (to_dict sc)) ;;
        mret (filename (sc_scorecard_id sc))) s1 (fun s' o => forall name, o = Ok name ->
      load_scorecard (sc_scorecard_id sc) s' = Ok (Some sc) /\
      forall id, safe_name id <> safe_name (sc_scorecard_id sc) ->
        load_scorecard id s' = load_scorecard id s)) as H.
  { intros s1 E. apply wp_bind, wp_modify, wp_ret. intros _ _. unfold load_scorecard. simpl. rewrite E. split.
    - rewrite lookup_insert_eq. cbn [decode_file]. by rewrite from_to_dict.
    - intros id Hid. rewrite lookup_insert_ne; [done|]. unfold filename.
      intros Heq. apply Hid. symmetry. by apply string_app_inj_r in Heq. }
  destruct (bs_outcomes s) as [|[] l]; try by apply H.
  - by intros name.
  - apply wp_bind, wp_modify. by intros name.
Qed.

(** A listing has the scorecards of the files that decode. *)
Definition in_file (s : BenchmarkStore) (name : string) (sc : BenchmarkScorecard) : Prop :=
  exists f, bs_files s !! name = Some f /\ endswith ".json" name = true /\ decode_file f = Ok sc.
Lemma read_all_In fs l sc : read_all fs = Ok l ->
  sc ∈ l <-> exists name f, (name, f) ∈ fs /\ endswith ".json" name = true /\ decode_file f = Ok sc.
Proof.
  revert l. induction fs as [|[name f] fs IH]; intros l H.
  - injection H as <-. split; [by intros ?%not_elem_of_nil|]. intros (? & ? & ?%not_elem_of_nil & _). done.
  - cbn [read_all] in H. destruct (endswith ".json" name) eqn:En.
    + unfold rescue in H.
      assert (exists now rest, l = now ++ rest /\ read_all fs = Ok rest /\
                (sc ∈ now <-> decode_file f = Ok sc)) as (now & rest & -> & Hr & Hn).
      { destruct (decode_file f) as [x|[k msg]]; [|destruct k; try done];
          destruct (read_all fs) as [rest|]; try done; injection H as <-;
          first [exists [x], rest|exists [], rest]; (split; [done|]); (split; [done|]);
          rewrite ?list_elem_of_singleton, ?elem_of_nil; split; intros; simplify_eq; done. }
      rewrite elem_of_app, Hn, (IH _ Hr). split.
      * intros [Hd|(n & g & Hg & H')]; [exists name, f; by split; [left|]|exists n, g; by split; [right|]].
      * intros (n & g & [[= -> ->]|Hg]%elem_of_cons & He & Hd); [by left|right; by exists n, g].
    + rewrite (IH _ H). split; intros (n & g & Hg & He & Hd); exists n, g; (split; [|done]).
      * by right.
      * apply elem_of_cons in Hg as [[= -> ->]|Hg]; [congruence|done].
Qed.
Lemma listed s l sc : list_scorecards s = Ok l -> sc ∈ l <-> exists name, in_file s name sc.
Proof.
  intros H. rewrite (read_all_In _ _ _ H). unfold in_file. split.
  - intros (name & f & Hf & Hr). exists name, f. by rewrite elem_of_map_to_list in Hf.
  - intros (name & f & Hf & Hr). exists name, f. by rewrite elem_of_map_to_list.
Qed.

Lemma save_files sc s :
  wp (save_scorecard sc) s (fun s' o => forall name, o = Ok name ->
    bs_files s' = <[filename (sc_scorecard_id sc) := Document (to_dict sc)]> (bs_files s)).
Proof.
  unfold save_scorecard, take_outcome. apply wp_bind. unfold wp at 1.
  destruct (bs_outcomes s) as [|[] os]; try done.
Qed.
(** After the loop a file is as before, or holds one of the scorecards with the
    new status. *)
Lemma set_status_files status l s :
  wp (set_status status l) s (fun s' o => forall n, o = Ok n -> n = Z.of_nat (length l) /\
    forall name,
      (bs_files s' !! name = bs_files s !! name /\ forall sc, sc ∈ l -> filename (sc_scorecard_id sc) <> name) \/
      exists sc, sc ∈ l /\ filename (sc_scorecard_id sc) = name /\
        bs_files s' !! name = Some (Document (to_dict (sc <| sc_certification_status := status |>)))).
Proof.
  revert s. induction l as [|sc l IH]; intros s.
  { apply wp_ret. intros n [= <-]. split; [done|]. intros name. left. split; [done|].
    by intros sc ?%not_elem_of_nil. }
  apply wp_bind. eapply wp_mono; [apply save_files|]. intros s1 [name1|e] H1; [|by intros n].
  specialize (H1 _ eq_refl). change (bs_files s1 = <[filename (sc_scorecard_id sc) :=
    Document (to_dict (sc <| sc_certification_status := status |>))]> (bs_files s)) in H1.
  apply wp_bind. eapply wp_mono; [apply IH|].
  intros s2 [n2|e] H2; [|by intros n]. specialize (H2 _ eq_refl) as [-> H2].
  apply wp_ret. intros n [= <-]. split; [simpl; lia|]. intros name.
  destruct (H2 name) as [[E Hno]|(x & Hx & Hn & E)].
  - rewrite E, H1.
    destruct (decide (filename (sc_scorecard_id sc) = name)) as [<-|Hne].
    + right. exists sc. split; [by left|]. split; [done|]. by rewrite lookup_insert_eq.
    + left. rewrite lookup_insert_ne by done. split; [done|].
      intros x [->|Hx]%elem_of_cons; [done|by apply Hno].
  - right. exists x. by split; [right|].
Qed.
(** Every file is under the name of its scorecard, as the store writes them. *)
Definition named (s : BenchmarkStore) : Prop :=
  forall name sc, in_file s name sc -> name = filename (sc_scorecard_id sc).
Lemma set_status_named (Hs : stamps_read) status l s : named s ->
  wp (set_status status l) s (fun s' o => forall n, o = Ok n -> named s').
Proof.
  intros Hn. eapply wp_mono; [apply set_status_files|]. intros s' o H n ->.
  destruct (H n eq_refl) as [_ Hf]. intros name sc (f & Hl & He & Hd).
  destruct (Hf name) as [[E _]|(x & Hx & Hx' & E)].
  - apply Hn. exists f. by rewrite <- E.
  - rewrite E in Hl. injection Hl as <-. cbn [decode_file] in Hd. rewrite from_to_dict in Hd by done.
    injection Hd as <-. by rewrite <- Hx'.
Qed.
(** A revocation that returns is complete: no scorecard of the capability and
    implementation is anything but REVOKED, the others are as they were, and the
    count is that of the scorecards revoked. *)
Theorem revocation_complete (Hs : stamps_read) cap impl s : named s ->
  wp (revoke cap impl) s (fun s' o => forall n, o = Ok n -> named s' /\
    forall l l', list_scorecards s = Ok l -> list_scorecards s' = Ok l' ->
      n = Z.of_nat (length (List.filter (is_card_of cap impl) l)) /\
      forall sc, sc ∈ l' ->
        if is_card_of cap impl sc then sc_certification_status sc = REVOKED
        else sc ∈ l).
Proof.
  intros Hn. unfold revoke, change_status. apply wp_bind, wp_gets, wp_bind, wp_of_result.
  change (Datatypes.id s) with s. destruct (list_scorecards s) as [l|e] eqn:El; [|by intros n].
  eapply wp_mono; [apply wp_and; [apply set_status_files|by apply set_status_named]|].
  intros s' o [H1 H2] n ->. destruct (H1 n eq_refl) as [-> Hf]. split; [by apply (H2 _ eq_refl)|].
  intros l0 l' [= <-] El'. split; [done|]. intros sc Hsc.
  apply (listed _ _ _ El') in Hsc as (name & f & Hl & He & Hd).
  destruct (Hf name) as [[E Hno]|(x & Hx & Hx' & E)].
  - assert (in_file s name sc) as Hin by (exists f; by rewrite <- E).
    assert (sc ∈ l) as Hl' by (apply (listed _ _ _ El); by exists name).
    destruct (is_card_of cap impl sc) eqn:Ec; [|done].
    exfalso. apply (Hno sc); [|symmetry; by apply Hn].
    apply list_elem_of_In, filter_In. split; [by apply list_elem_of_In|done].
  - rewrite E in Hl. injection Hl as <-. cbn [decode_file] in Hd. rewrite from_to_dict in Hd by done.
    injection Hd as <-. apply list_elem_of_In, filter_In in Hx as [_ Hx].
    assert (is_card_of cap impl (x <| sc_certification_status := REVOKED |>) = true) as Hx2 by exact Hx.
    unfold is_card_of in *. simpl in *. by rewrite Hx2.
Qed.

Lemma klt_trichotomy a b : klt a b \/ a = b \/ klt b a.
Proof.
  destruct a as [[a1 a2] a3], b as [[b1 b2] b3]. unfold klt. simpl.
  destruct (Z.lt_trichotomy a1 b1) as [|[->|]], (Z.lt_trichotomy a2 b2) as [|[->|]],
    (Z.lt_trichotomy a3 b3) as [|[->|]]; auto 10; lia.
Qed.
(** The best of a list has a score no other exceeds. *)
Definition key (sc : BenchmarkScorecard) : Z * Z * Z := fkey (sc_score sc).
Definition numbered (sc : BenchmarkScorecard) : Prop := is_nan (sc_score sc) = false.
Lemma best_of_spec l b : Forall numbered l -> numbered b ->
  exists r, best_of (Some b) l = Some r /\ (r = b \/ r ∈ l) /\ ~ klt (key r) (key b) /\
    forall x, x ∈ l -> ~ klt (key r) (key x).
Proof.
  intros Hl. revert b. induction Hl as [|x l Hx _ IH]; intros b Hb.
  { exists b. split; [done|]. split; [by left|]. split; [apply klt_irrefl|]. by intros x ?%not_elem_of_nil. }
  cbn [best_of]. destruct (fgt (sc_score x) (sc_score b)) eqn:Eg.
  - apply flt_key in Eg; [|done..]. destruct (IH x Hx) as (r & -> & Hr & Hrx & Hrl). exists r.
    split; [done|]. split; [destruct Hr as [->|Hr]; right; [by left|by right]|].
    split; [intros Hk; apply Hrx; by eapply klt_trans|].
    intros y [->|Hy]%elem_of_cons; [done|by apply Hrl].
  - destruct (IH b Hb) as (r & -> & Hr & Hrb & Hrl). exists r. split; [done|].
    split; [destruct Hr as [->|Hr]; [by left|right; by right]|]. split; [done|].
    intros y [->|Hy]%elem_of_cons; [|by apply Hrl]. intros Hk.
    assert (~ klt (key b) (key x)) as Hbx.
    { intros Hk'. apply flt_key in Hk'; [|done..]. unfold fgt, flt in *. congruence. }
    apply Hbx. destruct (klt_trichotomy (key b) (key r)) as [H|[H|H]]; [by eapply klt_trans|congruence|done].
Qed.
(** The scorecard reported for a capability is one of the store's that is CERTIFIED
    for it, with a score no other such scorecard exceeds; none is reported exactly
    when there is none. *)
Theorem best_scorecard_spec cap s o :
  (forall name sc, in_file s name sc -> numbered sc) ->
  best_scorecard cap s = Ok o ->
  match o with
  | None => forall name sc, in_file s name sc -> certified_for cap sc = false
  | Some b => (exists name, in_file s name b) /\ certified_for cap b = true /\
      forall name sc, in_file s name sc -> certified_for cap sc = true ->
        fgt (sc_score sc) (sc_score b) = false
  end.
Proof.
  intros Hnum H. unfold best_scorecard in H. destruct (list_scorecards s) as [l|] eqn:El; [|done].
  injection H as <-.
  assert (forall sc, sc ∈ List.filter (certified_for cap) l <->
            (exists name, in_file s name sc) /\ certified_for cap sc = true) as Hf.
  { intros sc. rewrite <- (listed _ _ _ El), list_elem_of_In, filter_In, list_elem_of_In. done. }
  destruct (List.filter (certified_for cap) l) as [|x f] eqn:Ef.
  - intros name sc Hin. destruct (certified_for cap sc) eqn:Ec; [|done].
    exfalso. apply (not_elem_of_nil sc), Hf. by split; [exists name|].
  - assert (Forall numbered (x :: f)) as [Hx Hall]%Forall_cons.
    { apply Forall_forall. intros y [[name Hy] _]%Hf. by eapply Hnum. }
    cbn [best_of]. destruct (best_of_spec f x Hall Hx) as (r & -> & Hr & Hrx & Hrf).
    assert (r ∈ x :: f) as Hin by (destruct Hr as [->|Hr]; [by left|by right]).
    apply Hf in Hin as [Hin Hc]. split; [done|]. split; [done|]. intros name sc Hsc Hcc.
    assert (sc ∈ x :: f) as Hs by (apply Hf; by split; [exists name|]).
    destruct (fgt (sc_score sc) (sc_score r)) eqn:Eg; [|done]. exfalso. apply flt_key in Eg.
    + apply elem_of_cons in Hs as [->|Hs]; [done|by apply (Hrf sc)].
    + destruct Hin as [n Hn]. by eapply Hnum.
    + by eapply Hnum.
Qed.

(** Identifiers that differ in a dot, a slash or an underscore share a file: saving
    one scorecard replaces the other. *)
Theorem names_collide (Hs : stamps_read) sc id s :
  safe_name id = safe_name (sc_scorecard_id sc) ->
  wp (save_scorecard sc) s (fun s' o => forall name, o = Ok name -> load_scorecard id s' = Ok (Some sc)).
Proof.
  intros Hid. eapply wp_mono; [apply save_files|]. intros s' o H name ->. specialize (H _ eq_refl).
  unfold load_scorecard, filename. rewrite H, Hid. unfold filename. rewrite lookup_insert_eq. cbn [decode_file].
  by rewrite from_to_dict.
Qed.
End StoreFacts.

(** ** The evidence *)
Section EvidenceFacts.
Context {stamps : StampText} {machine : Machine} (output_dir : string) (store : BenchmarkStore).
(** Writes that return put the text there and leave the other files. *)
Lemma write_text_wp name text e :
  wp (write_text name text) e (fun e' o => o = Ok tt -> eb_files e' = <[name := text]> (eb_files e)).
Proof. unfold write_text. unfold wp. by destruct (eb_outcomes e) as [|[] l]. Qed.
(** The evidence so far: each file named in the manifest is there. *)
Definition present (m : Manifest) (e : EvidenceBuilder) : Prop :=
  forall name, name ∈ mf_evidence_files m -> is_Some (eb_files e !! name) /\
    (name = "taxonomy.json" \/ exists cap, name = certificate_name cap).
Lemma certify_all_wp caps m e : present m e ->
  wp (certify_all store caps m) e (fun e' o => forall m', o = Ok m' ->
    present m' e' /\
    (mf_certified m' + mf_failed m' = mf_certified m + mf_failed m + Z.of_nat (length caps))%Z /\
    Z.of_nat (length (mf_evidence_files m')) =
      (Z.of_nat (length (mf_evidence_files m)) + mf_certified m' - mf_certified m)%Z).
Proof.
  revert m e. induction caps as [|cap caps IH]; intros m e Hm.
  { apply wp_ret. intros m' [= <-]. split; [done|]. simpl. lia. }
  apply wp_bind, wp_of_result. destruct (best_scorecard cap store) as [[sc|]|]; [| |done].
  - apply wp_bind. eapply wp_mono; [apply write_text_wp|]. intros e1 [[]|] H1; [|done].
    specialize (H1 eq_refl). eapply wp_mono; [apply IH|].
    + intros name [Hn|Hn]%elem_of_app; rewrite H1.
      * destruct (Hm name Hn) as [[x Hx] Hk]. split; [|done].
        destruct (decide (certificate_name cap = name)) as [<-|Hne];
          [by rewrite lookup_insert_eq|rewrite lookup_insert_ne by done; by eexists].
      * apply list_elem_of_singleton in Hn as ->. rewrite lookup_insert_eq. split; [done|by right; exists cap].
    + intros e' o H m' ->. destruct (H m' eq_refl) as (Hp & Hc & Hlen). split; [done|].
      simpl in Hc, Hlen. rewrite length_app in Hlen. simpl in *. lia.
  - eapply wp_mono; [by apply IH|]. intros e' o H m' ->. destruct (H m' eq_refl) as (Hp & Hc & Hlen).
    split; [done|]. simpl in *. lia.
Qed.
(** The line of a file in the checksums. *)
Definition checksum_line (e : EvidenceBuilder) (name : string) : string :=
  sha256 (utf8_encode (default "" (eb_files e !! name))) +:+ "  " +:+ name +:+ newline.
Lemma checksums_wp names e :
  (forall name, name ∈ names -> is_Some (eb_files e !! name)) ->
  wp (checksums names) e (fun e' o => e' = e /\ o = Ok (foldr String.append "" (checksum_line e <$> names))).
Proof.
  induction names as [|name names IH]; intros Hn; [by apply wp_ret|].
  apply wp_bind, wp_gets, wp_bind, wp_of_result.
  destruct (Hn name) as [text Ht]; [by left|]. rewrite Ht. apply wp_bind.
  eapply wp_mono; [apply IH; intros x Hx; apply Hn; by right|]. intros e' o [-> ->]. apply wp_ret.
  split; [done|]. cbn [fmap list_fmap foldr]. unfold checksum_line at 2. rewrite Ht. simpl.
  by rewrite !string_app_assoc.
Qed.
(** A generation of evidence that returns counts every capability once, as certified
    or as failed, has one certificate per certified capability besides the taxonomy,
    and SHA256SUMS holds the digest of each file the manifest names, as it is. *)
Theorem evidence_complete order now e :
  wp (generate_all output_dir order store now) e (fun e' o => forall m, o = Ok m ->
    (mf_certified m + mf_failed m = Z.of_nat (length order))%Z /\
    Z.of_nat (length (mf_evidence_files m)) = (1 + mf_certified m)%Z /\
    eb_files e' !! "SHA256SUMS" =
      Some (foldr String.append "" (checksum_line e' <$> mf_evidence_files m))).
Proof.
  unfold generate_all. apply wp_bind. eapply wp_mono; [apply write_text_wp|]. intros e1 [[]|] H1; [|done].
  specialize (H1 eq_refl). apply wp_bind, wp_of_result. destruct (list_scorecards store); [|done].
  apply wp_bind. eapply wp_mono; [apply certify_all_wp|].
  { intros name Hn. apply list_elem_of_singleton in Hn as ->. rewrite H1, lookup_insert_eq. split; [done|by left]. }
  intros e2 [m|] H2; [|done]. specialize (H2 m eq_refl) as (Hp & Hc & Hlen).
  apply wp_bind. eapply wp_mono; [apply checksums_wp; by intros name [? _]%Hp|]. intros e3 o [-> ->].
  apply wp_bind. eapply wp_mono; [apply write_text_wp|]. intros e3 [[]|] H3; [|done]. specialize (H3 eq_refl).
  apply wp_bind. eapply wp_mono; [apply write_text_wp|]. intros e4 [[]|] H4; [|done]. specialize (H4 eq_refl).
  apply wp_ret. intros m' [= <-]. simpl in Hc, Hlen. split; [lia|]. split; [lia|].
  rewrite H4, lookup_insert_ne, H3, lookup_insert_eq by done. do 2 f_equal.
  apply list_fmap_ext. intros i name Hi. apply list_elem_of_lookup_2, Hp in Hi as [_ Hk].
  unfold checksum_line. rewrite H4, H3.
  assert (name <> "SHA256SUMS" /\ name <> "manifest.json") as [Hn1 Hn2].
  { destruct Hk as [->|[cap ->]]; [done|]. unfold certificate_name. by split. }
  by rewrite !lookup_insert_ne by done.
Qed.
End EvidenceFacts.

(** ** Similarity *)
Section Similarity.
Context (starts : string -> bool).
(** No entry of a row exceeds its place, counted from [o]. *)
Definition within (o : nat) (row : list nat) : Prop := forall j k, row !! j = Some k -> k <= o + S j.
Lemma next_row_within x b prev left o :
  within o prev -> left <= o -> within o (next_row starts x b prev left).
Proof.
  revert prev left o. induction b as [|y b IH]; intros [|p prev] left o Hp Hl; try (intros j k H; by destruct j).
  intros [|j] k H; simpl in H.
  - injection H as <-. destruct (starts y && (x =s y)); lia.
  - apply (IH prev p (S o)) in H; [lia| |by apply (Hp 0) in Hp || specialize (Hp 0 p eq_refl); lia].
    intros j' k' H'. specialize (Hp (S j') k' H'). lia.
Qed.
Lemma next_row_rows x b prev left i :
  Forall (fun k => k <= i) prev -> left <= i -> Forall (fun k => k <= S i) (next_row starts x b prev left).
Proof.
  revert prev left. induction b as [|y b IH]; intros [|p prev] left Hp Hl; try constructor.
  - destruct (starts y && (x =s y)); lia.
  - apply Forall_cons in Hp as [Hp Hps]. by apply IH.
Qed.
Lemma next_row_length x b prev left : length (next_row starts x b prev left) <= length b.
Proof. revert prev left. induction b as [|y b IH]; intros [|p prev] left; simpl; [lia..|]. specialize (IH prev p). lia. Qed.
(** A block inside both sequences. *)
Definition inside (n m : nat) (bl : nat * nat * nat) : Prop := bl.1.1 + bl.2 <= n /\ bl.1.2 + bl.2 <= m.
Lemma scan_row_inside n m i j row best :
  i < n -> j + length row <= m -> Forall (fun k => k <= S i) row -> within j row ->
  inside n m best -> inside n m (scan_row i j row best).
Proof.
  revert j best. induction row as [|k row IH]; intros j best Hi Hj Hr Hw Hb; [done|].
  apply Forall_cons in Hr as [Hk Hr]. cbn [scan_row]. simpl in Hj. apply IH; [done|lia|done| |].
  - intros j' k' H. specialize (Hw (S j') k' H). lia.
  - destruct (best.2 <? k); [|done]. specialize (Hw 0 k eq_refl). unfold inside. simpl. lia.
Qed.
Lemma scan_rows_inside n b i a prev best :
  i + length a <= n -> Forall (fun k => k <= i) prev -> within 0 prev ->
  inside n (length b) best -> inside n (length b) (scan_rows starts i a b prev best).
Proof.
  revert i prev best. induction a as [|x a IH]; intros i prev best Hn Hp Hw Hb; [done|].
  simpl in Hn. cbn [scan_rows].
  assert (Forall (fun k => k <= S i) (next_row starts x b prev 0)) as Hr by (apply next_row_rows; [done|lia]).
  assert (within 0 (next_row starts x b prev 0)) as Hw' by (apply next_row_within; [done|lia]).
  apply IH; [lia|done..|]. apply scan_row_inside; [lia|apply next_row_length|done..].
Qed.
Lemma common_length a b : common a b <= length a /\ common a b <= length b.
Proof.
  revert b. induction a as [|x a IH]; intros [|y b]; simpl; try lia.
  destruct (x =s y); [|lia]. specialize (IH b). lia.
Qed.
Lemma find_longest_inside a b : inside (length a) (length b) (find_longest_match starts a b).
Proof.
  unfold find_longest_match.
  assert (inside (length a) (length b) (scan_rows starts 0 a b (repeat 0 (length b)) (0, 0, 0))) as H.
  { apply scan_rows_inside; [done|..].
    - apply Forall_forall. intros k Hk%list_elem_of_In%repeat_spec. lia.
    - intros j k Hk%list_elem_of_lookup_2%list_elem_of_In%repeat_spec. lia.
    - unfold inside. simpl. lia. }
  destruct (scan_rows starts 0 a b (repeat 0 (length b)) (0, 0, 0)) as [[i j] k]. unfold inside in *. simpl in *.
  pose proof (common_length (rev (take i a)) (rev (take j b))) as [H1 H2].
  pose proof (common_length (drop (i + k) a) (drop (j + k) b)) as [H3 H4].
  rewrite !length_rev, !length_take in *. rewrite !length_drop in *. lia.
Qed.
(** What matches is in both sequences, and the recursion ends: any fuel above the
    length of the first sequence gives the same count. *)
Theorem matching_bounded fuel a b :
  matching fuel starts a b <= length a /\ matching fuel starts a b <= length b /\
  forall more, length a < fuel -> length a < more -> matching more starts a b = matching fuel starts a b.
Proof.
  revert a b. induction fuel as [|fuel IH]; intros a b; [simpl; split; [lia|]; split; [lia|]; intros; lia|].
  pose proof (find_longest_inside a b) as Hin. cbn [matching].
  destruct (find_longest_match starts a b) as [[i j] k] eqn:Ef. unfold inside in Hin. simpl in Hin.
  destruct (k =? 0) eqn:Ek.
  { split; [lia|]. split; [lia|]. intros [|more] _ Hm; [lia|]. cbn [matching]. by rewrite Ef, Ek. }
  apply Nat.eqb_neq in Ek.
  destruct (IH (take i a) (take j b)) as (L1 & L2 & L3).
  destruct (IH (drop (i + k) a) (drop (j + k) b)) as (R1 & R2 & R3).
  rewrite !length_take in *. rewrite !length_drop in *.
  split; [lia|]. split; [lia|]. intros [|more] Hf Hm; [lia|]. cbn [matching]. rewrite Ef.
  apply Nat.eqb_neq in Ek as Ek'. rewrite Ek'. rewrite L3, R3 by lia. done.
Qed.
End Similarity.

(** ** Grading *)
Section GradingFacts.
Context {float_ops : FloatOps} {json_errors : JsonErrors}.
(** Task success looks at the keys of the answer alone: any dictionary with the
    expected keys passes, whatever it holds under them, and one without a key does
    not. *)
Theorem task_success_keys (d e : dict string pyval) :
  exists g, grade "task_success" (VDict d) (VDict e) no_options = Ok g /\
    (gr_passed g = true <-> forall k, k ∈ dkeys e -> dmem k d = true).
Proof.
  eexists. split; [reflexivity|]. cbn [gr_passed].
  match goal with |- context [List.filter ?p ?l] => set (f := List.filter p l); set (keys := l) in f end.
  assert (keys = dkeys e) as Ek by (subst keys; by destruct e).
  split.
  - intros H%Nat.eqb_eq%length_zero_iff_nil k Hk. destruct (dmem k d) eqn:Ed; [done|]. exfalso.
    assert (In k f) as Hf; [|by rewrite H in Hf].
    apply filter_In. rewrite Ek, Ed. split; [by apply list_elem_of_In|done].
  - intros H. apply Nat.eqb_eq. destruct f as [|k l] eqn:Ef; [done|]. exfalso.
    assert (In k f) as [Hk Hd]%filter_In by (rewrite Ef; by left).
    rewrite Ek in Hk. rewrite H in Hd; [done|by apply list_elem_of_In].
Qed.
(** A case left to a human is never passed by the runner, and an unknown method is
    an error. *)
Theorem other_methods output expected o :
  (forall g, grade "human_adjudication" output expected o = Ok g -> gr_passed g = false) /\
  forall m, m ∉ ["exact_match"; "structured_match"; "semantic_grading"; "reference_comparison";
                 "task_success"; "human_adjudication"] ->
    grade m output expected o = raise ValueError ("Unknown grading method: " +:+ m).
Proof.
  split; [by intros g [= <-]|]. intros m Hm. unfold grade.
  repeat match goal with |- context [m =s ?x] =>
    destruct (String.eqb_spec m x) as [->|_]; [exfalso; apply Hm; rewrite !elem_of_cons; tauto|] end.
  done.
Qed.
End GradingFacts.

(** ** Certification and failures *)
Module FailingBackend.
Definition cases : list BenchmarkCase :=
  (fun n => mkCase n "text.classification" (VStr n) (VStr "positive") "exact_match" "easy" "TRAIN" "v1.0.0")
    <$> ["a"; "b"; "c"; "d"; "e"; "f"; "g"; "h"; "i"; "j"].
(** A backend that answers one case out of ten and breaks on the others. *)
#[local] Instance backend : BenchWorld := {
  bw_floats := {| float_repr _ := "0.0"; float_sum := foldl fadd (f_of_Z 0) |};
  bw_errors := fun _ => "not JSON";
  bw_machine := {| mi_psutil := None; mi_cpu_count := Some 4%Z; mi_processor := "cpu"; mi_machine := "x86_64";
                   mi_nvidia_smi := raise OSError "no such program"; mi_python_version := "3.12";
                   mi_system := "Linux"; mi_release := "6.0" |};
  bw_run _ input _ := if is_text "a" input then Ok (VStr "positive") else raise RuntimeError "model crashed";
  bw_implementation_id := "impl";
  bw_implementation_revision := "1";
  bw_adapter_revision := None;
  bw_perf_counter n := f_of_Z 0;
  bw_now n := Z.of_nat n;
  bw_stamp _ := "20260101T000000";
  bw_two_decimals _ := "0.00";
  bw_square x := fmul x x }.
Definition cards : M BenchmarkRunner (list FailureRecord * BenchmarkScorecard) :=
  r ← run_cases cases 1;
  sc ← build_scorecard "text.classification" r.1 DATASET_VERSION;
  mret (r.2, sc).
(** Failures do not count against a capability: a backend that breaks on nine cases
    out of ten is CERTIFIED with the score of the tenth. *)
Theorem certified_despite_failures :
  match (cards (new_runner (f_of_Z 30))).2 with
  | Ok (failures, sc) =>
      length failures = 9 /\ sc_certification_status sc = CERTIFIED /\ sc_score sc = f_of_Z 1
  | Raise _ => False
  end.
Proof. vm_compute. auto. Qed.
End FailingBackend.
