(* ===== verification/Tooling.v ===== *)
(** * Built-in tools, the orchestrator of tool calls, and git

    [runtime/tools/builtins.py], [execution/executor.py] and [git/service.py].  The services the built-in tools
    call, the shell and the session manager are the objects they are given: what
    their methods do is an argument. *)
From stdpp Require Import gmap.
From S2P Require Import Prelude Dict PyVal Effects PyStr Json Host Identity Security.
From S2P Require Import Deterministic Continuity Mutation.

(** ** Built-in tools *)
(** A call of a method of a service, by name, with positional arguments. *)
Class Services (S : Type) := call_service : string -> string -> list pyval -> M S pyval.
(** [lambda ctx, args: ...] *)
Abbreviation tool_body S := (ExecutionContext -> dict string pyval -> M S pyval).
Section Builtins.
Context {S : Type} {services : Services S}.
Definition manifest_of (name : string) (input output : dict string pyval) (required : list Capability)
    (side_effects : list string) (workspace_required : bool) : ToolManifest :=
  mkToolManifest name "1.0" input output required side_effects "LOCAL" workspace_required false.
Definition id_value (o : option string) : pyval := match o with Some s => VStr s | None => VNone end.
(** [args[k]] *)
Definition argument (k : string) (args : dict string pyval) : M S pyval := of_result (py_item k (VDict args)).
Definition under (k : string) (m : M S pyval) : M S pyval := v ← m; mret (VDict [(k, v)]).
Definition s_str (k : string) : string * pyval := (k, VStr "str").
Definition workspace_create : tool_body S := fun ctx args =>
  repository ← argument "repository" args;
  revision ← argument "source_revision" args;
  ws ← call_service "workspace" "create"
         [VStr (ec_tenant_id ctx); VList [VStr (ec_actor_id ctx)]; repository; revision];
  under "workspace_id" (call_service "result" "workspace_id" [ws]).
Definition workspace_status : tool_body S := fun ctx args =>
  id ← argument "workspace_id" args;
  ws ← call_service "workspace" "status" [id];
  under "status" (call_service "result" "__dict__" [ws]).
Definition fs_read : tool_body S := fun ctx args =>
  path ← argument "path" args;
  under "content" (call_service "filesystem" "read"
    [id_value (ec_workspace_id ctx); path; VStr (ec_tenant_id ctx); VStr (ec_actor_id ctx)]).
Definition fs_write : tool_body S := fun ctx args =>
  path ← argument "path" args;
  content ← argument "content" args;
  under "success" (call_service "filesystem" "write"
    [id_value (ec_workspace_id ctx); path; content; VStr (ec_tenant_id ctx); VStr (ec_actor_id ctx)]).
Definition fs_patch : tool_body S := fun ctx args =>
  path ← argument "path" args;
  search ← argument "search" args;
  replace ← argument "replace" args;
  under "success" (call_service "filesystem" "patch"
    [id_value (ec_workspace_id ctx); path; search; replace; VStr (ec_tenant_id ctx); VStr (ec_actor_id ctx)]).
Definition shell_exec : tool_body S := fun ctx args =>
  command ← argument "command" args;
  r ← call_service "shell" "execute"
        [command; id_value (ec_workspace_id ctx); VStr (ec_session_id ctx); VStr (ec_actor_id ctx);
         VStr (ec_tenant_id ctx)];
  call_service "result" "__dict__" [r].
Definition git_args (ctx : ExecutionContext) : list pyval :=
  [id_value (ec_workspace_id ctx); VStr (ec_session_id ctx); VStr (ec_actor_id ctx); VStr (ec_tenant_id ctx)].
Definition git_status_tool : tool_body S := fun ctx args =>
  under "status" (call_service "git" "status" (git_args ctx)).
Definition git_diff_tool : tool_body S := fun ctx args =>
  under "diff" (call_service "git" "diff" (git_args ctx ++ [vget "ref" args])).
Definition git_commit_tool : tool_body S := fun ctx args =>
  message ← argument "message" args;
  call_service "git" "commit" (git_args ctx ++ [message]).
Definition builtins : list (ToolManifest * tool_body S) :=
  [(manifest_of "workspace.create" [s_str "repository"; s_str "source_revision"] [s_str "workspace_id"]
      [WORKSPACE_CREATE] ["Creates local directory"] false, workspace_create);
   (manifest_of "workspace.status" [s_str "workspace_id"] [("status", VStr "dict")] [] [] true,
    workspace_status);
   (manifest_of "fs.read" [s_str "path"] [s_str "content"] [FILE_READ] [] true, fs_read);
   (manifest_of "fs.write" [s_str "path"; s_str "content"] [("success", VStr "bool")] [FILE_WRITE]
      ["Modifies file"] true, fs_write);
   (manifest_of "fs.patch" [s_str "path"; s_str "search"; s_str "replace"] [("success", VStr "bool")]
      [FILE_READ; FILE_WRITE] ["Modifies file"] true, fs_patch);
   (manifest_of "shell.exec" [s_str "command"]
      [("exit_code", VStr "int"); s_str "stdout"; s_str "stderr"] [PROCESS_EXECUTION]
      ["Executes arbitrary commands"] true, shell_exec);
   (manifest_of "git.status" [] [("status", VStr "dict")] [GIT_READ] [] true, git_status_tool);
   (manifest_of "git.diff" [s_str "ref"] [s_str "diff"] [GIT_READ] [] true, git_diff_tool);
   (manifest_of "git.commit" [s_str "message"] [s_str "commit_sha"] [GIT_WRITE] ["Creates a commit"] true,
    git_commit_tool)].
Definition register_builtins (ts : dict string (ToolManifest * tool_body S)) : dict string (ToolManifest * tool_body S) :=
  foldl (fun ts b => register_tool b.1 b.2 ts) ts builtins.
End Builtins.

(** ** The orchestrator of tool calls *)
Record ToolInvocation := mkInvocation {
  ti_name : string; ti_args : dict string pyval; ti_session_id : string; ti_actor_id : string;
  ti_tenant_id : string; ti_workspace_id : string }.
Record ToolResult := mkToolResult {
  tr_success : bool; tr_data : pyval; tr_error : string; tr_execution_time_ms : Z }.
Section Orchestrator.
Context {S : Type}.
(** The session manager, with its [validate] method when it has one; the registry,
    the gate, the generation of the process manager and that of the orchestrator;
    the milliseconds a call takes. *)
Record ExecutionOrchestrator := mkOrchestrator {
  eo_validate_session : option (string -> M S bool);
  eo_tools : dict string (ToolManifest * tool_body S);
  eo_gate : gate;
  eo_process_generation : Z;
  eo_generation : Z;
  eo_elapsed_ms : M S Z }.
(** The name of the built-in handlers. *)
Definition HANDLER : string := "register_builtins.<locals>.<lambda>()".
(** [handler( **args)]: the handlers take [ctx] and [args], so that the call binds
    when those are the keys, and then passes as the context a value that is none. *)
Definition call_with_keywords (h : tool_body S) (args : dict string pyval) : M S pyval :=
  match List.filter (fun k => negb (str_in k ["ctx"; "args"])) (dkeys args) with
  | k :: _ => throw TypeError (unexpected_argument HANDLER k)
  | [] =>
      match List.filter (fun k => negb (dmem k args)) ["ctx"; "args"] with
      | [] => throw Unmodelled "a context given as a JSON value"
      | l => throw TypeError (missing_arguments HANDLER l)
      end
  end.
Definition refused (error : string) : M S ToolResult := mret (mkToolResult false VNone error 0).
Definition run_handler (o : ExecutionOrchestrator) (h : tool_body S) (args : dict string pyval) : M S ToolResult :=
  except_all
    (data ← call_with_keywords h args;
     ms ← eo_elapsed_ms o;
     mret (mkToolResult true data "" ms))
    (fun e => ms ← eo_elapsed_ms o; mret (mkToolResult false VNone (exn_str e) ms)).
Definition orchestrate (o : ExecutionOrchestrator) (i : ToolInvocation) : M S ToolResult :=
  valid ← match eo_validate_session o with
          | Some validate => validate (ti_session_id i)
          | None => mret true
          end;
  if negb valid then refused "Invalid session"
  else if negb (validate_capabilities (eo_tools o) (ti_name i) (ti_actor_id i) (eo_gate o)
                  (ti_workspace_id i) (eo_generation o) (eo_generation o))
  then refused "Capabilities denied for tool"
  else if negb (eo_process_generation o =? eo_generation o)%Z then refused "Stale execution generation"
  else
    match dget (ti_name i) (eo_tools o) with
    | None => refused "Tool not found"
    | Some (_, h) => run_handler o h (ti_args i)
    end.
End Orchestrator.

(** ** Git *)
Record GitCaller := mkCaller {
  gc_workspace_id : string; gc_session_id : string; gc_actor_id : string; gc_tenant_id : string }.
Record CommandResult := mkCommand { cr_exit_code : Z; cr_stdout : string; cr_stderr : string }.
(** The shell executor a git service is given: its [capability_gate], when it has
    that attribute, the generation of its process manager, and its [execute] with
    keyword arguments. *)
Class GitShell (S : Type) := {
  gs_capability_gate : option gate;
  gs_generation : Z;
  gs_execute : string -> GitCaller -> M S CommandResult }.
Section Git.
Context {S : Type} {shell : GitShell S} {machine : Machine}.
(** A git service shares the state of the shell and that of the journal. *)
Abbreviation MG := (M (S * Engine)).
Definition in_shell {A} (m : M S A) : MG A := zoom fst (fun s p => (s, p.2)) m.
Definition in_journal {A} (m : M Engine A) : MG A := zoom snd (fun e p => (p.1, e)) m.
Definition check_git (cap : Capability) (c : GitCaller) : MG unit :=
  match gs_capability_gate with
  | None => throw AttributeError "'ShellExecutor' object has no attribute 'capability_gate'"
  | Some g =>
      let d := gate_check g (gc_actor_id c) cap (gc_workspace_id c) gs_generation gs_generation in
      when (negb (cd_allowed d))
        (throw PermissionError (capability_name cap +:+ " denied: " +:+ cd_reason d))
  end.
Definition git_run (command : string) (c : GitCaller) : MG CommandResult := in_shell (gs_execute command c).
Definition git_status (c : GitCaller) : MG (dict string string) :=
  check_git GIT_READ c ;;
  r ← git_run "git status --porcelain" c;
  mret [("status", strip (cr_stdout r))].
Definition git_diff (c : GitCaller) (ref : option string) : MG string :=
  check_git GIT_READ c ;;
  r ← git_run (match ref with
               | Some x => if x =s "" then "git diff" else "git diff " +:+ x
               | None => "git diff"
               end) c;
  mret (cr_stdout r).
Record CommitRequest := mkCommit {
  cm_message : string; cm_author : option string; cm_mission_id : string; cm_task_id : string;
  cm_step_id : string; cm_actor_level : string; cm_repository : string; cm_branch : string;
  cm_reason : string; cm_action : string; cm_tests : list string; cm_evidence_refs : list string;
  cm_next_action : string; cm_execution_id : option string }.
Definition commit_command (q : CommitRequest) : string :=
  "git add -A && git commit -m " +:+ py_repr_str (cm_message q)
  +:+ match cm_author q with
      | Some a => if a =s "" then "" else " --author=" +:+ py_repr_str a
      | None => ""
      end.
Definition HEAD_COMMAND : string := "git rev-parse HEAD || echo ''".
Definition CHANGED_COMMAND : string := "git diff --name-only --cached || git diff --name-only".
Definition LOG_COMMAND : string := "git log -1 --format='%H%n%an%n%s'".
Definition line (n : nat) (l : list string) : string := default "" (l !! n).
Definition prepare (c : GitCaller) (q : CommitRequest) (commit_before : string) : M Engine EventRecord :=
  prepare_mutation (cm_mission_id q) (cm_task_id q) (cm_step_id q) (gc_actor_id c)
    (cm_actor_level q) (cm_repository q) (cm_branch q) commit_before (cm_reason q) (cm_action q)
    (cm_next_action q) (cm_execution_id q).
Definition git_commit (c : GitCaller) (q : CommitRequest) (now : string) : MG (dict string string) :=
  check_git GIT_WRITE c ;;
  before ← git_run HEAD_COMMAND c;
  event ← in_journal (prepare c q (strip (cr_stdout before)));
  changed ← git_run CHANGED_COMMAND c;
  let files_changed := List.filter (fun f => negb (f =s "")) (splitlines (cr_stdout changed)) in
  git_run (commit_command q) c ;;
  log ← git_run LOG_COMMAND c;
  let lines := split_at (ascii_of_N 10) (strip (cr_stdout log)) in
  in_journal (finalize_mutation event (line 0 lines) files_changed (cm_tests q)
                (cm_evidence_refs q)) ;;
  mret [("commit_sha", line 0 lines); ("author", line 1 lines); ("message", line 2 lines);
        ("timestamp", now)].
End Git.

(** ** What these services guarantee *)
Section Facts.
Context {S : Type}.
(** The registry of the built-in tools has each of the nine under its name, and a
    tool with a side effect requires a capability. *)
Theorem builtins_registered {services : Services S} :
  NoDup ((fun b : ToolManifest * (ExecutionContext -> dict string pyval -> M S pyval) => tm_name b.1) <$> builtins) /\
  (forall b, b ∈ builtins -> dget (tm_name b.1) (register_builtins []) = Some b) /\
  Forall (fun b => tm_side_effects b.1 <> [] -> tm_required_capabilities b.1 <> []) builtins.
Proof.
  split; [|split].
  - apply (bool_decide_unpack _). vm_compute. exact I.
  - intros b Hb. repeat (apply elem_of_cons in Hb as [->|Hb]; [reflexivity|]). by apply not_elem_of_nil in Hb.
  - unfold builtins. repeat (apply Forall_cons; split; [by intros|]). done.
Qed.
(** The orchestrator calls a handler with the keyword arguments of the invocation,
    where the handlers take the context and the arguments: no call of a tool returns
    success unless its arguments are named [ctx] and [args], which the model leaves
    out, and nothing but the session check and the timer touches the state. *)
Theorem orchestrated_call_fails (P : S -> Prop) (o : ExecutionOrchestrator) (i : ToolInvocation) :
  (forall v id, eo_validate_session o = Some v -> preserves P (v id)) ->
  preserves P (eo_elapsed_ms o) ->
  forall s, P s -> wp (orchestrate o i) s (fun s' r => P s' /\ forall t, r = Ok t -> tr_success t = false).
Proof.
  intros Hv He s Hs. unfold orchestrate. apply wp_bind.
  assert (forall s1 e, P s1 -> wp (refused (S := S) e) s1
    (fun s' r => P s' /\ forall t, r = Ok t -> tr_success t = false)) as Hr.
  { intros s1 e H1. split; [done|]. by intros t [= <-]. }
  eapply (wp_mono _ _ (fun s' _ => P s')).
  { destruct (eo_validate_session o) as [v|] eqn:Ev; [by apply (Hv _ _ eq_refl)|done]. }
  intros s1 [valid|e] H1; [|by split].
  destruct (negb valid); [by apply Hr|]. destruct (negb (validate_capabilities _ _ _ _ _ _ _)); [by apply Hr|].
  destruct (negb (_ =? _)%Z); [by apply Hr|]. destruct (dget _ _) as [[m h]|]; [|by apply Hr].
  unfold run_handler, except_all. apply wp_try_with, wp_bind. unfold call_with_keywords.
  assert (forall e, wp (ms ← eo_elapsed_ms o; mret (mkToolResult false VNone (exn_str e) ms)) s1
    (fun s' r => P s' /\ forall t, r = Ok t -> tr_success t = false)) as Hf.
  { intros e. apply wp_bind. eapply wp_mono; [by apply He|]. intros s2 [ms|e'] H2; [|by split].
    apply wp_ret. split; [done|]. by intros t [= <-]. }
  destruct (List.filter _ _) as [|k l]; [|apply wp_throw; apply Hf].
  destruct (List.filter _ _) as [|k l]; apply wp_throw; [by split|apply Hf].
Qed.
End Facts.

Section GitFacts.
Context {S : Type} {shell : GitShell S} {machine : Machine}.
(** Without the attribute the code reads, which the shell executor does not have,
    every operation of the git service raises before it does anything. *)
Theorem git_needs_gate c q ref now (p : S * Engine) :
  gs_capability_gate = None ->
  exists msg, git_status c p = (p, raise AttributeError msg) /\ git_diff c ref p = (p, raise AttributeError msg) /\
    git_commit c q now p = (p, raise AttributeError msg).
Proof.
  intros Hg. unfold git_status, git_diff, git_commit, check_git, mbind, M_bind. rewrite Hg. by eexists.
Qed.
Lemma in_shell_journal {A} (m : M S A) (p : S * Engine) :
  wp (in_shell m) p (fun p' _ => p'.2 = p.2).
Proof. unfold in_shell. apply wp_zoom, wp_any. by intros. Qed.
Lemma git_run_journal cmd c (p : S * Engine) : wp (git_run cmd c) p (fun p' _ => p'.2 = p.2).
Proof. apply in_shell_journal. Qed.
(** What the journal knows of a commit: nothing, or that its mutation was prepared,
    and then, unless a command failed, what finalizing it did. *)
Definition bracketed (c : GitCaller) (q : CommitRequest) (p p' : S * Engine) (o : result (dict string string))
    : Prop :=
  p'.2 = p.2 \/
  exists before e1 r, prepare c q before p.2 = (e1, r) /\
    match r with
    | Raise e => o = Raise e /\ p'.2 = e1
    | Ok event =>
        (exists e, o = Raise e /\ p'.2 = e1) \/
        exists commit_after files_changed r2,
          finalize_mutation event commit_after files_changed (cm_tests q) (cm_evidence_refs q) e1 = (p'.2, r2) /\
          match r2 with
          | Ok _ => exists d, o = Ok d /\ dget "commit_sha" d = Some commit_after
          | Raise e => o = Raise e
          end
    end.
(** A commit without the capability changes nothing.  One that returns prepared its
    mutation before the commands that change the repository and finalized it after
    them, with the first line of the log as the commit; one that fails after the
    preparation leaves the journal with the mutation prepared, or partly
    finalized. *)
Theorem git_commit_brackets c q now (p : S * Engine) :
  wp (git_commit c q now) p (fun p' o => bracketed c q p p' o).
Proof.
  unfold git_commit. apply wp_bind. unfold check_git at 1.
  destruct gs_capability_gate as [g|]; [|by left]. apply wp_when; [by left|intros _].
  apply wp_bind. eapply wp_mono; [apply git_run_journal|]. intros p1 [before|e] H1; [|by left].
  apply wp_bind. unfold in_journal at 1. apply wp_zoom. unfold wp at 1.
  destruct (prepare c q (strip (cr_stdout before)) p1.2) as [e1 r] eqn:Ep. rewrite H1 in Ep.
  destruct r as [event|e]; [|right; by exists (strip (cr_stdout before)), e1, (Raise e)].
  assert (forall p' e, p'.2 = e1 -> bracketed c q p p' (Raise e)) as Hfail.
  { intros p' e Hp'. right. exists (strip (cr_stdout before)), e1, (Ok event). split; [done|]. left. by exists e. }
  apply wp_bind. eapply wp_mono; [apply git_run_journal|]. intros p2 [changed|e] H2; [|by apply Hfail].
  apply wp_bind. eapply wp_mono; [apply git_run_journal|]. intros p3 [committed|e] H3;
    [|apply Hfail; by rewrite H3, H2].
  apply wp_bind. eapply wp_mono; [apply git_run_journal|]. intros p4 [log|e] H4;
    [|apply Hfail; by rewrite H4, H3, H2].
  apply wp_bind. unfold in_journal. apply wp_zoom. unfold wp at 1. rewrite H4, H3, H2. cbn [snd].
  match goal with |- context [finalize_mutation ?a ?b ?f ?d ?g ?e] =>
    destruct (finalize_mutation a b f d g e) as [e2 r2] eqn:Ef end.
  destruct r2 as [ev|e].
  - apply wp_ret. right. exists (strip (cr_stdout before)), e1, (Ok event). split; [done|]. right.
    eexists _, _, _. split; [exact Ef|]. eexists. by split.
  - right. exists (strip (cr_stdout before)), e1, (Ok event). split; [done|]. right.
    eexists _, _, _. by split.
Qed.
End GitFacts.
