(* ===== verification/Receipts.v ===== *)
(** * Execution receipts and the updater

    [runtime/execution/receipt.py]: receipts as JSON files in a directory per day;
    [runtime/updater/manager.py]: the update manager, whose operations are the
    stubs the code has. *)
From stdpp Require Import gmap.
From S2P Require Import Prelude Dict PyVal Effects PyStr Json.

(** ** Receipts *)
Record ExecutionReceipt := mkReceipt {
  er_receipt_id : string; er_operation_id : string; er_execution_id : string; er_runtime_id : string;
  er_workspace_id : string; er_actor_id : string; er_session_id : string; er_tenant_id : string;
  er_tool : string; er_status : string; er_started_at : string; er_finished_at : string;
  er_runtime_generation : Z; er_duration_ms : Z; er_exit_code : option Z; er_metadata : dict string pyval }.
(** [asdict(receipt)] *)
Definition receipt_value (r : ExecutionReceipt) : pyval :=
  VDict [("receipt_id", VStr (er_receipt_id r)); ("operation_id", VStr (er_operation_id r));
         ("execution_id", VStr (er_execution_id r)); ("runtime_id", VStr (er_runtime_id r));
         ("workspace_id", VStr (er_workspace_id r)); ("actor_id", VStr (er_actor_id r));
         ("session_id", VStr (er_session_id r)); ("tenant_id", VStr (er_tenant_id r));
         ("tool", VStr (er_tool r)); ("status", VStr (er_status r)); ("started_at", VStr (er_started_at r));
         ("finished_at", VStr (er_finished_at r)); ("runtime_generation", VInt (er_runtime_generation r));
         ("duration_ms", VInt (er_duration_ms r));
         ("exit_code", match er_exit_code r with Some z => VInt z | None => VNone end);
         ("metadata", VDict (er_metadata r))].
Definition REQUIRED : list string :=
  ["receipt_id"; "operation_id"; "execution_id"; "runtime_id"; "workspace_id"; "actor_id"; "session_id";
   "tenant_id"; "tool"; "status"; "started_at"; "finished_at"; "runtime_generation"; "duration_ms"].
Definition OPTIONAL : list string := ["exit_code"; "metadata"].
(** A value of another type than its field's is outside the model. *)
Definition of_type {A} (get : pyval -> option A) (k : string) (d : dict string pyval) : result A :=
  match get (vget k d) with Some x => Ok x | None => raise Unmodelled "a field of another type" end.
Definition as_str (v : pyval) : option string := match v with VStr s => Some s | _ => None end.
Definition as_int (v : pyval) : option Z := match v with VInt z => Some z | _ => None end.
Definition as_exit (v : pyval) : option (option Z) :=
  match v with VInt z => Some (Some z) | VNone => Some None | _ => None end.
Definition as_metadata (v : pyval) : option (dict string pyval) :=
  match v with VDict d => Some d | VNone => Some [] | _ => None end.
(** [ExecutionReceipt( **data)] *)
Definition receipt_of (v : pyval) : result ExecutionReceipt :=
  match v with
  | VDict d =>
      match List.filter (fun k => negb (str_in k (REQUIRED ++ OPTIONAL))) (dkeys d),
            List.filter (fun k => negb (dmem k d)) REQUIRED with
      | k :: _, _ => raise TypeError (unexpected_argument "ExecutionReceipt.__init__()" k)
      | [], (_ :: _) as l =>
          raise TypeError (missing_arguments "ExecutionReceipt.__init__()" l)
      | [], [] =>
          let str k := of_type as_str k d in
          let? a := str "receipt_id" in let? b := str "operation_id" in let? c := str "execution_id" in
          let? e := str "runtime_id" in let? f := str "workspace_id" in let? g := str "actor_id" in
          let? h := str "session_id" in let? i := str "tenant_id" in let? j := str "tool" in
          let? k := str "status" in let? l := str "started_at" in let? m := str "finished_at" in
          let? n := of_type as_int "runtime_generation" d in
          let? o := of_type as_int "duration_ms" d in
          let? p := of_type as_exit "exit_code" d in
          let? q := of_type as_metadata "metadata" d in
          Ok (mkReceipt a b c e f g h i j k l m n o p q)
      end
  | _ => raise TypeError "argument after ** must be a mapping"
  end.

(** A file holds a document or text that does not decode; a directory per day. *)
Inductive receipt_file := ReceiptDocument (v : pyval) | ReceiptGarbled.
Abbreviation day_dir := (gmap string receipt_file).
Record ReceiptStore := mkStore { rs_days : gmap string day_dir }.
#[export] Instance eta_ReceiptStore : Eta ReceiptStore := fun s => mkStore (rs_days s).
(** A name with a slash would leave its directory. *)
Definition in_dir {A} (name : string) (k : result A) : result A :=
  if contains "/" name then raise Unmodelled "a path in a name" else k.
Definition day_of (r : ExecutionReceipt) : string :=
  if 10 <=? String.length (er_started_at r) then string_take 10 (er_started_at r) else "unknown".
Definition receipt_name (receipt_id : string) : string := receipt_id +:+ ".json".
Definition store_receipt (r : ExecutionReceipt) : M ReceiptStore unit :=
  of_result (in_dir (day_of r) (in_dir (er_receipt_id r) (Ok tt))) ;;
  modify (fun s => s <| rs_days :=
    <[day_of r := <[receipt_name (er_receipt_id r) := ReceiptDocument (receipt_value r)]>
                    (default ∅ (rs_days s !! day_of r))]> (rs_days s) |>).
Definition read_receipt (f : receipt_file) : result ExecutionReceipt :=
  match f with
  | ReceiptDocument v => receipt_of v
  | ReceiptGarbled => raise JSONDecodeError "not JSON"
  end.
(** The first directory with a file of the name, in the order of the listing. *)
Definition get_receipt (receipt_id : string) (s : ReceiptStore) : result (option ExecutionReceipt) :=
  match head (omap (fun d : string * day_dir => d.2 !! receipt_name receipt_id) (map_to_list (rs_days s))) with
  | Some f => let? r := read_receipt f in Ok (Some r)
  | None => Ok None
  end.
Fixpoint ends_in_json (s : string) : bool :=
  (s =s ".json") || match s with String _ s' => ends_in_json s' | "" => false end.
Definition wanted (operation_id : option string) (r : ExecutionReceipt) : bool :=
  match operation_id with Some o => er_operation_id r =s o | None => true end.
Fixpoint read_day (operation_id : option string) (l : list (string * receipt_file))
    : result (list ExecutionReceipt) :=
  match l with
  | [] => Ok []
  | (name, f) :: l =>
      if ends_in_json name then
        let? r := read_receipt f in
        let? rest := read_day operation_id l in
        Ok (if wanted operation_id r then r :: rest else rest)
      else read_day operation_id l
  end.
Fixpoint read_days (operation_id : option string) (l : list day_dir) : result (list ExecutionReceipt) :=
  match l with
  | [] => Ok []
  | d :: l =>
      let? now := read_day operation_id (map_to_list d) in
      let? rest := read_days operation_id l in
      Ok (now ++ rest)
  end.
Definition days_to_check (date : option string) (s : ReceiptStore) : list day_dir :=
  match date with
  | Some d => if d =s "" then (map_to_list (rs_days s)).*2 else option_list (rs_days s !! d)
  | None => (map_to_list (rs_days s)).*2
  end.
Definition list_receipts (operation_id date : option string) (s : ReceiptStore)
    : result (list ExecutionReceipt) := read_days operation_id (days_to_check date s).

(** ** Updates *)
Inductive UpdateState :=
  | UP_IDLE | UP_CHECKING | UP_DOWNLOADING | UP_VERIFYING | UP_STAGING | UP_QUIESCING | UP_ACTIVATING
  | UP_ROLLING_BACK | UP_FAILED.
Inductive UpdateChannel := CH_STABLE | CH_BETA | CH_DEV.
Record UpdateInfo := mkUpdate {
  up_version : string; up_channel : UpdateChannel; up_url : string; up_checksum : string;
  up_release_notes : string; up_published_at : string }.
Record UpdateManager := mkUpdater {
  um_config : pyval; um_current_version : string; um_state : UpdateState }.
#[export] Instance eta_UpdateManager : Eta UpdateManager := fun u =>
  mkUpdater (um_config u) (um_current_version u) (um_state u).
Definition new_updater (config : pyval) (current_version : string) : UpdateManager :=
  mkUpdater config current_version UP_IDLE.
(** An operation passes through a state and is idle again. *)
Definition passing {A} (through : UpdateState) (a : A) : M UpdateManager A :=
  modify (fun u => u <| um_state := through |>) ;;
  modify (fun u => u <| um_state := UP_IDLE |>) ;;
  mret a.
Definition check_update : M UpdateManager (option UpdateInfo) := passing UP_CHECKING None.
Definition download_update (u : UpdateInfo) : M UpdateManager string := passing UP_DOWNLOADING "/tmp/update.stub".
Definition verify_update (path expected_checksum : string) : M UpdateManager bool := passing UP_VERIFYING true.
Definition stage_update (path : string) : M UpdateManager bool := passing UP_STAGING true.
Definition activate_update : M UpdateManager bool := passing UP_ACTIVATING true.
Definition rollback_update : M UpdateManager bool := passing UP_ROLLING_BACK true.
Definition health_check : M UpdateManager bool := mret true.

(** ** What they guarantee *)
Lemma receipt_of_value r : receipt_of (receipt_value r) = Ok r.
Proof. destruct r as [a b c e f g h i j k l m n o p q]. by destruct p. Qed.
(** A stored receipt is read back, provided no other day has a receipt of the same
    identifier, and its day lists it. *)
Theorem stored_receipt_read r s :
  wp (store_receipt r) s (fun s' o => forall u, o = Ok u ->
    ((forall day d, rs_days s !! day = Some d -> day <> day_of r -> d !! receipt_name (er_receipt_id r) = None) ->
     get_receipt (er_receipt_id r) s' = Ok (Some r)) /\
    exists d, rs_days s' !! day_of r = Some d /\
      d !! receipt_name (er_receipt_id r) = Some (ReceiptDocument (receipt_value r)) /\
      (forall name, name <> receipt_name (er_receipt_id r) ->
         d !! name = default ∅ (rs_days s !! day_of r) !! name)).
Proof.
  unfold store_receipt. apply wp_bind, wp_of_result. destruct (in_dir _ _) as [[]|e]; [|by intros u].
  apply wp_modify. intros [] _. simpl. split.
  - intros Hno. unfold get_receipt. simpl.
    set (days := <[day_of r := _]> (rs_days s)).
    destruct (head _) as [f|] eqn:Eh.
    + assert (f = ReceiptDocument (receipt_value r)) as ->; [|cbn [read_receipt]; by rewrite receipt_of_value].
      apply head_Some_elem_of in Eh. apply list_elem_of_omap in Eh as ([day d] & Hin & Hf).
      apply elem_of_map_to_list in Hin. simpl in Hf. subst days.
      destruct (decide (day = day_of r)) as [->|Hne].
      * rewrite lookup_insert_eq in Hin. injection Hin as <-. rewrite lookup_insert_eq in Hf. congruence.
      * rewrite lookup_insert_ne in Hin by done. rewrite (Hno day d Hin Hne) in Hf. done.
    + exfalso. assert (day_of r ∈ (map_to_list days).*1) as Hin.
      { apply list_elem_of_fmap. eexists (_, _). split; [reflexivity|]. apply elem_of_map_to_list.
        subst days. apply lookup_insert_eq. }
      apply list_elem_of_fmap in Hin as ([day d] & E & Hd). simpl in E. subst day.
      pose proof Hd as Hl%elem_of_map_to_list. subst days. rewrite lookup_insert_eq in Hl. injection Hl as <-.
      apply head_None in Eh.
      assert (ReceiptDocument (receipt_value r) ∈
        omap (fun d : string * day_dir => d.2 !! receipt_name (er_receipt_id r)) (map_to_list
          (<[day_of r := <[receipt_name (er_receipt_id r):=ReceiptDocument (receipt_value r)]>
             (default ∅ (rs_days s !! day_of r))]> (rs_days s)))) as H.
      { apply list_elem_of_omap. eexists. split; [exact Hd|]. apply lookup_insert_eq. }
      rewrite Eh in H. by apply not_elem_of_nil in H.
  - eexists. rewrite lookup_insert_eq. split; [done|]. split; [by rewrite lookup_insert_eq|].
    intros name Hn. by rewrite lookup_insert_ne.
Qed.
(** The stubs of the updater: every path verifies whatever its checksum, no update
    is ever found, and the version never changes. *)
Theorem updater_does_nothing u path checksum info :
  (verify_update path checksum u).2 = Ok true /\ (check_update u).2 = Ok None /\
  Forall (fun u' => u' = u <| um_state := UP_IDLE |>)
    [(check_update u).1; (download_update info u).1; (verify_update path checksum u).1;
     (stage_update path u).1; (activate_update u).1; (rollback_update u).1].
Proof. split_and!; [done..|]. by repeat constructor. Qed.
