(* ===== verification/Stream.v ===== *)
(** * The telemetry stream

    [runtime/telemetry/stream.py]: the events a browser is sent as they are recorded.
    The collector's window of recent events is read once a second; each reading is
    an element of a list, and the connection fails at the writes it is given. *)
From S2P Require Import Prelude Dict PyVal Effects PyStr Json Telemetry.

(** What was written, and which of the coming writes and flushes fail. *)
Record Wire := mkWire { wr_status : option Z; wr_chunks : list string; wr_faults : list bool }.
#[export] Instance eta_Wire : Eta Wire := fun w => mkWire (wr_status w) (wr_chunks w) (wr_faults w).

Section Stream.
Context {floats : FloatOps}.
Definition wire_status (z : Z) : M Wire unit := modify (fun w => w <| wr_status := Some z |>).
Definition wire_flush : M Wire unit := fun w =>
  match wr_faults w with
  | true :: fs => (w <| wr_faults := fs |>, raise (OtherException "BrokenPipeError") "client disconnected")
  | fs => (w <| wr_faults := tl fs |>, Ok tt)
  end.
Definition wire_write (s : string) : M Wire unit :=
  wire_flush ;; modify (fun w => w <| wr_chunks := wr_chunks w ++ [s] |>).
Definition event_text (e : TelemetryEnvelope) : string :=
  "data: " +:+ dumps false (VDict (envelope_to_dict e)) +:+ newline +:+ newline.
(** One reading: the events not seen are written, and seen from then on. *)
Fixpoint send_new (seen : list string) (window : list TelemetryEnvelope) : M Wire (list string) :=
  match window with
  | [] => mret seen
  | e :: window =>
      if str_in (te_event_id e) seen then send_new seen window
      else wire_write (event_text e) ;; send_new (te_event_id e :: seen) window
  end.
(** [while True]: an exception ends the loop. *)
Fixpoint poll (seen : list string) (windows : list (list TelemetryEnvelope)) : M Wire unit :=
  match windows with
  | [] => mret tt
  | window :: windows => seen ← send_new seen window; wire_flush ;; poll seen windows
  end.
Definition handle_telemetry_stream (collector : option (list TelemetryEnvelope))
    (windows : list (list TelemetryEnvelope)) : M Wire unit :=
  match collector with
  | None => wire_status 500 ;; wire_write "TelemetryCollector not configured"
  | Some recent =>
      wire_status 200 ;;
      except_all
        (wire_flush ;;
         for_each recent (fun e => wire_write (event_text e)) ;;
         wire_flush ;;
         poll (te_event_id <$> recent) windows)
        (fun _ => mret tt)
  end.

(** ** What a browser receives *)
(** The first occurrences, by identifier, of the events not seen. *)
Fixpoint news (seen : list string) (l : list TelemetryEnvelope) : list TelemetryEnvelope :=
  match l with
  | [] => []
  | e :: l => if str_in (te_event_id e) seen then news seen l else e :: news (te_event_id e :: seen) l
  end.
Definition seen_after (seen : list string) (l : list TelemetryEnvelope) : list string :=
  foldl (fun seen e => if str_in (te_event_id e) seen then seen else te_event_id e :: seen) seen l.
(** [m] writes a prefix of [l], and all of it when it does not raise; it never
    raises on a connection that does not fail. *)
Definition writes {A} (l : list TelemetryEnvelope) (Q : A -> Prop) (m : M Wire A) : Prop :=
  forall w, wp m w (fun w' r =>
    wr_status w' = wr_status w /\ (wr_faults w = [] -> wr_faults w' = []) /\
    match r with
    | Ok a => wr_chunks w' = wr_chunks w ++ (event_text <$> l) /\ Q a
    | Raise e => exn_type e <> Unmodelled /\ wr_faults w <> [] /\ exists l', l' `prefix_of` l /\ wr_chunks w' = wr_chunks w ++ (event_text <$> l')
    end).
Lemma writes_bind {A B} l1 l2 Q1 Q (m : M Wire A) (f : A -> M Wire B) :
  writes l1 Q1 m -> (forall a, Q1 a -> writes l2 Q (f a)) -> writes (l1 ++ l2) Q (m ≫= f).
Proof.
  intros Hm Hf w. apply wp_bind. eapply wp_mono; [apply Hm|]. intros w1 [a|e] (H1 & H2 & H3).
  - destruct H3 as [H3 Ha]. eapply wp_mono; [by apply Hf|]. intros w2 [b|e] (H4 & H5 & H6);
      (split; [congruence|]; split; [by intros ?%H2%H5|]).
    + destruct H6 as [H6 Hb]. split; [|done]. by rewrite H6, H3, fmap_app, (assoc_L (++)).
    + destruct H6 as (H6 & H7 & l' & Hp & Hl). split; [done|]. split; [by intros ?%H2|]. exists (l1 ++ l').
      split; [by apply prefix_app|]. by rewrite Hl, H3, fmap_app, (assoc_L (++)).
  - split; [exact H1|]. split; [exact H2|]. destruct H3 as (H3 & H4 & l' & Hp & Hl). split; [done|]. split; [done|]. exists l'. split; [|done].
    etrans; [exact Hp|]. by apply prefix_app_r.
Qed.
Lemma writes_ret {A} (Q : A -> Prop) (a : A) : Q a -> writes [] Q (mret a).
Proof. intros H w. apply wp_ret. csimpl. by rewrite (right_id_L [] (++)). Qed.
Lemma writes_flush : writes [] (fun _ => True) wire_flush.
Proof.
  intros w. unfold wp, wire_flush. destruct (wr_faults w) as [|[|] fs] eqn:E; cbn; rewrite ?(right_id_L [] (++)); split_and!; try done.
  exists []. csimpl. by rewrite (right_id_L [] (++)).
Qed.
Lemma writes_event e : writes [e] (fun _ => True) (wire_write (event_text e)).
Proof.
  change [e] with ([] ++ [e]). apply (writes_bind [] [e] (fun _ => True)); [apply writes_flush|].
  intros _ _ w. apply wp_modify. by split_and!.
Qed.
Lemma writes_all l : writes l (fun _ => True) (for_each l (fun e => wire_write (event_text e))).
Proof.
  induction l as [|e l IH]; [by apply writes_ret|]. cbn [for_each]. change (e :: l) with ([e] ++ l).
  eapply writes_bind; [apply writes_event|done].
Qed.
Lemma writes_new seen window : writes (news seen window) (fun s => s = seen_after seen window) (send_new seen window).
Proof.
  revert seen. induction window as [|e window IH]; intros seen; [by apply writes_ret|].
  cbn [news send_new seen_after foldl]. destruct (str_in _ _) eqn:E; [apply IH|].
  change (e :: news _ _) with ([e] ++ news (te_event_id e :: seen) window).
  eapply writes_bind; [apply writes_event|]. intros _ _. apply IH.
Qed.
Lemma news_app seen l1 l2 : news seen (l1 ++ l2) = news seen l1 ++ news (seen_after seen l1) l2.
Proof.
  revert seen. induction l1 as [|e l1 IH]; intros seen; [done|]. unfold seen_after in *. cbn [app news foldl].
  destruct (str_in _ _) eqn:E; cbn [app]; by rewrite IH.
Qed.
Lemma writes_poll seen windows : writes (news seen (concat windows)) (fun _ => True) (poll seen windows).
Proof.
  revert seen. induction windows as [|window windows IH]; intros seen; [by apply writes_ret|].
  cbn [poll concat]. rewrite news_app. eapply writes_bind; [apply writes_new|]. intros s ->.
  change (news (seen_after seen window) (concat windows)) with ([] ++ news (seen_after seen window) (concat windows)).
  eapply writes_bind; [apply writes_flush|]. intros _ _. apply IH.
Qed.
(** The identifiers of the later events are new and distinct, and every event of
    every reading is among those sent. *)
Lemma news_spec seen l :
  NoDup (te_event_id <$> news seen l) /\ (forall e, e ∈ news seen l -> e ∈ l /\ te_event_id e ∉ seen) /\
  (forall e, e ∈ l -> te_event_id e ∈ seen \/ te_event_id e ∈ te_event_id <$> news seen l).
Proof.
  revert seen. induction l as [|e l IH]; intros seen.
  { split_and!; [apply NoDup_nil_2|by intros e ?%not_elem_of_nil..]. }
  cbn [news]. destruct (str_in _ _) eqn:E.
  - apply str_in_true in E. destruct (IH seen) as (H1 & H2 & H3). split_and!; [done| |].
    + intros x [? ?]%H2. split; [apply elem_of_cons; by right|done].
    + intros x [->|Hx]%elem_of_cons; [by left|by apply H3].
  - apply str_in_false in E. destruct (IH (te_event_id e :: seen)) as (H1 & H2 & H3). csimpl. split_and!.
    + apply NoDup_cons. split; [|done]. intros (x & Ex & Hx)%list_elem_of_fmap. apply H2 in Hx as [_ Hx].
      apply Hx. apply elem_of_cons. by left.
    + intros x [->|Hx]%elem_of_cons; [split; [apply elem_of_cons; by left|done]|]. apply H2 in Hx as [Hx Hn].
      split; [apply elem_of_cons; by right|]. contradict Hn. apply elem_of_cons. by right.
    + intros x [->|Hx]%elem_of_cons; [right; apply elem_of_cons; by left|].
      destruct (H3 x Hx) as [[->|?]%elem_of_cons|?]; [right; apply elem_of_cons; by left|by left|].
      right. apply elem_of_cons. by right.
Qed.
(** The stream sends the window as it is, then each later event once: a prefix of
    these when the client leaves, all of them otherwise; it never raises. *)
Theorem stream_sends_once recent windows :
  let sent := recent ++ news (te_event_id <$> recent) (concat windows) in
  (forall faults, wp (handle_telemetry_stream (Some recent) windows) (mkWire None [] faults) (fun w r =>
     r = Ok tt /\ wr_status w = Some 200%Z /\ exists l, l `prefix_of` sent /\ wr_chunks w = event_text <$> l /\
     (faults = [] -> l = sent))) /\
  NoDup (te_event_id <$> news (te_event_id <$> recent) (concat windows)) /\
  (forall window e, window ∈ windows -> e ∈ window -> te_event_id e ∈ te_event_id <$> sent).
Proof.
  intros sent. split_and!; [|apply news_spec|].
  - intros faults. unfold handle_telemetry_stream. apply wp_bind, wp_modify. unfold except_all. apply wp_try_with.
    assert (writes ([] ++ recent ++ [] ++ news (te_event_id <$> recent) (concat windows)) (fun _ : unit => True)
      (wire_flush ;; for_each recent (fun e => wire_write (event_text e)) ;; wire_flush ;; poll (te_event_id <$> recent) windows)) as H.
    { eapply writes_bind; [apply writes_flush|intros _ _]. eapply writes_bind; [apply writes_all|intros _ _].
      eapply writes_bind; [apply writes_flush|intros _ _]. apply writes_poll. }
    eapply wp_mono; [apply H|]. cbn [wr_status wr_chunks wr_faults setter app]. intros w [[]|e] (H1 & H2 & H3).
    + destruct H3 as [H3 _]. split_and!; [done..|]. exists sent. by split_and!.
    + destruct H3 as (H3 & H4 & l' & Hp & Hl).
      assert (forall Q : Wire -> result unit -> Prop, Q w (Ok tt) -> wp (match exn_type e with Unmodelled => rethrow e | _ => mret tt end) w Q) as Hr.
      { intros Q HQ. by destruct (exn_type e). }
      apply Hr. split_and!; [done..|]. exists l'. split_and!; [done..|]. by intros ->.
  - intros window e Hw He. subst sent. rewrite fmap_app, elem_of_app.
    apply news_spec. apply list_elem_of_In, in_concat. exists window. split; by apply list_elem_of_In.
Qed.
End Stream.
