(* ===== verification/AdminRoutes.v ===== *)
(** * The routes of the administration panel

    [runtime/admin/routes.py] and the records of [runtime/admin/dto.py] it uses: the
    context every request of the panel shares, what a handler reads and writes in
    it, the services it calls, and the dispatch of a path.  A page is the name of
    its template with its arguments; the text of the templates is not modelled. *)
From S2P Require Import Prelude Dict PyVal Effects PyStr PyBytes Json Identity Github Fabric.
From S2P Require Import Continuity Core Bootstrap CustomerZero Secrets GithubAuth Admin.

(** ** Pages and responses *)
Inductive page :=
  | Page (template : string) (args : list pyval)
  | WithSync (p : page) (csrf_token : string).
Inductive body := BPage (p : page) | BJson (v : pyval) | BText (s : string) | BNone.
(** What a handler has to send: a body, a redirection, or a response that another
    component writes itself. *)
Inductive content :=
  | CBody (status : Z) (b : body)
  | CRedirect (location : string)
  | CDelegated (component : string) (args : list pyval).
Record Response := mkResponse { rp_status : Z; rp_headers : list (string * string); rp_body : body }.

(** ** The shared context *)
(** A snapshot of the last bootstrap. *)
Inductive snapshot_result :=
  | SNone | SReport (r : BootstrapReport) | SContinuity (r : BootstrapResult).
Record Snapshot := mkSnapshot { sn_result : snapshot_result; sn_repos : list DiscoveredRepository }.
(** The values of the context: lists of cookies and snapshots are objects, which
    several dictionaries may hold. *)
Inductive cval :=
  | CNone | CBool (b : bool) | CText (s : string) | CSession (o : option AdminSession)
  | CCookies (l : nat) | CSnapshot (l : nat) | CService | CJson (v : pyval) | CHtml (p : page).
Abbreviation context := (dict string cval).

(** What the panel knows of the engine. *)
Record EngineView := mkEngineView {
  ev_state : string; ev_report : option BootstrapReport; ev_org : pyval; ev_repo : pyval }.
(** The GitHub authorization a panel uses. *)
Class GithubService (G : Type) := {
  gh_has_token : M G bool;
  gh_has_client_id : bool;
  gh_status : M G (dict string pyval);
  gh_store_token : string -> M G (dict string pyval);
  gh_initiate : M G (option GitHubDeviceFlowState);
  gh_poll : M G (dict string pyval);
  gh_disconnect : M G unit }.
(** The manager of [GithubAuth] is one. *)
#[export] Instance github_auth_service {world : AuthWorld} {S : Type} {B : SecretBackend S}
    (client_id : string) (collects : bool) (account_id : option string)
    : GithubService (GitHubAuthManager S) := {|
  gh_has_token := GithubAuth.has_token account_id;
  gh_has_client_id := str_true client_id;
  gh_status := GithubAuth.get_status;
  gh_store_token := GithubAuth.store_and_validate_token collects account_id;
  gh_initiate := GithubAuth.initiate_device_flow client_id account_id;
  gh_poll := GithubAuth.poll_device_flow client_id collects account_id;
  gh_disconnect := GithubAuth.disconnect account_id |}.
(** The other services: a client with the stored token, the discovery of
    repositories with it, the fabric adapter built from the configuration and its operations, the organizations of the token, the
    engine, and the objects other services give the templates. *)
Class PanelServices (S : Type) := {
  sv_github_client : M S unit;
  sv_discover : M S (list DiscoveredRepository);
  sv_fabric : M S unit;
  sv_probe_health : M S FabricHealthResult;
  sv_read_node_config : M S FabricNode;
  sv_get_provenance : string -> M S pyval;
  sv_user_orgs : M S pyval;
  sv_engine : S -> EngineView;
  sv_startup : bool -> M S unit;
  sv_spawn_verify : bool -> bool -> M S unit;
  sv_save_fabric : string -> string -> M S unit;
  sv_view : string -> list pyval -> M S pyval }.
(** The query of a path, a form's or a query's text, as [parse_qs] gives them, and
    what a template raises on its arguments, if it does (Templates has the
    templates; the objects other services give them are not known here). *)
Class PanelEnv := {
  url_query : string -> dict string (list string);
  parse_qs : string -> dict string (list string);
  template_error : string -> list pyval -> option exn }.

Record Panel (G S : Type) := mkPanel {
  pn_context : context;
  pn_lists : list (list string);
  pn_snapshots : list Snapshot;
  pn_admin : AdminSt;
  pn_audit : AuditSt;
  pn_github : G;
  pn_services : S }.
Arguments mkPanel {G S}. Arguments pn_context {G S}. Arguments pn_lists {G S}.
Arguments pn_snapshots {G S}. Arguments pn_admin {G S}. Arguments pn_audit {G S}.
Arguments pn_github {G S}. Arguments pn_services {G S}.
#[export] Instance eta_Panel G S : Eta (Panel G S) := fun p =>
  mkPanel (pn_context p) (pn_lists p) (pn_snapshots p) (pn_admin p) (pn_audit p) (pn_github p)
    (pn_services p).

(** ** Transfer objects *)
Definition opt_str (o : option string) : pyval := match o with Some s => VStr s | None => VNone end.
Definition strs (l : list string) : pyval := VList (VStr <$> l).
Record GitHubStatusDTO := mkGitHubStatus {
  gs_connected : bool; gs_principal : option string; gs_auth_status : string; gs_token_status : string;
  gs_token_expiry : option string; gs_scopes : list string; gs_last_validation : option string;
  gs_last_failure : option string; gs_last_failure_reason : option string }.
Definition github_status_to_dict (d : GitHubStatusDTO) : dict string pyval :=
  [("connected", VBool (gs_connected d)); ("principal", opt_str (gs_principal d));
   ("auth_status", VStr (gs_auth_status d)); ("token_status", VStr (gs_token_status d));
   ("token_expiry", opt_str (gs_token_expiry d)); ("scopes", strs (gs_scopes d));
   ("last_validation", opt_str (gs_last_validation d)); ("last_failure", opt_str (gs_last_failure d));
   ("last_failure_reason", opt_str (gs_last_failure_reason d))].
Record FabricStatusDTO := mkFabricStatus {
  fs_connected : bool; fs_tenant : option string; fs_anny_instance : option string;
  fs_runtime_registration : option string; fs_last_heartbeat : option string;
  fs_last_reconciliation : option string }.
Definition fabric_status_to_dict (d : FabricStatusDTO) : dict string pyval :=
  [("connected", VBool (fs_connected d)); ("tenant", opt_str (fs_tenant d));
   ("anny_instance", opt_str (fs_anny_instance d));
   ("runtime_registration", opt_str (fs_runtime_registration d));
   ("last_heartbeat", opt_str (fs_last_heartbeat d));
   ("last_reconciliation", opt_str (fs_last_reconciliation d))].
Record RepositoryDTO := mkRepositoryDTO {
  rd_full_name : pyval; rd_name : pyval; rd_owner : pyval; rd_visibility : string;
  rd_archived : pyval; rd_default_branch : pyval }.
Definition repository_dto_to_dict (d : RepositoryDTO) : pyval :=
  VDict [("full_name", rd_full_name d); ("name", rd_name d); ("owner", rd_owner d);
         ("visibility", VStr (rd_visibility d)); ("archived", rd_archived d);
         ("default_branch", rd_default_branch d)].
Record L2WorkerSummaryDTO := mkL2Summary { l2_count : Z; l2_registered_workers : list string }.
Record ContinuityDTO := mkContinuity {
  cd_status : string; cd_canonical_source : string; cd_canonical_revision : pyval;
  cd_current_mission : pyval; cd_current_task : pyval; cd_next_action : pyval; cd_blocker_count : Z;
  cd_reconciliation_status : string; cd_github_status : pyval; cd_runtime_status : string;
  cd_fabric_status : string; cd_repositories : list RepositoryDTO;
  cd_l2_worker_summary : option L2WorkerSummaryDTO }.
(** The lists of organizations and of blockers a panel makes are empty. *)
Definition continuity_to_dict (d : ContinuityDTO) : pyval :=
  VDict [("status", VStr (cd_status d)); ("canonical_source", VStr (cd_canonical_source d));
         ("canonical_revision", cd_canonical_revision d); ("current_mission", cd_current_mission d);
         ("current_task", cd_current_task d); ("next_action", cd_next_action d);
         ("blocker_count", VInt (cd_blocker_count d));
         ("reconciliation_status", VStr (cd_reconciliation_status d));
         ("github_status", cd_github_status d); ("runtime_status", VStr (cd_runtime_status d));
         ("fabric_status", VStr (cd_fabric_status d)); ("organizations", VList []);
         ("repositories", VList (repository_dto_to_dict <$> cd_repositories d)); ("blockers", VList []);
         ("l2_worker_summary",
          match cd_l2_worker_summary d with
          | Some w => VDict [("count", VInt (l2_count w));
                             ("registered_workers", strs (l2_registered_workers w))]
          | None => VNone
          end)].

(** ** Reading the context *)
Section Routes.
Context {env : AdminEnv} {penv : PanelEnv} {floats : FloatOps} (mgr : AdminSessionManager) (audit_runtime_id : string).
Context {G S : Type} {github : GithubService G} {services : PanelServices S}.
Abbreviation MP := (M (Panel G S)).

Definition get_key (k : string) : MP (option cval) := gets (fun p => dget k (pn_context p)).
Definition set_key (k : string) (v : cval) : MP unit :=
  modify (fun p => p <| pn_context := dset k v (pn_context p) |>).
Definition direct_json (v : pyval) : MP string := set_key "direct_json_response" (CJson v) ;; mret "/".
Definition in_github {A} (m : M G A) : MP A := zoom pn_github (fun g p => p <| pn_github := g |>) m.
Definition in_services {A} (m : M S A) : MP A := zoom pn_services (fun s p => p <| pn_services := s |>) m.
Definition in_admin {A} (m : M AdminSt A) : MP A := zoom pn_admin (fun a p => p <| pn_admin := a |>) m.
Definition in_audit {A} (m : M AuditSt A) : MP A := zoom pn_audit (fun a p => p <| pn_audit := a |>) m.
(** [self.context.get(k)] where a service is expected: whether there is one.  The
    server puts the text UNKNOWN for a missing engine. *)
Definition service (k : string) : MP bool :=
  v ← get_key k;
  match v with
  | Some CService => mret true
  | None | Some CNone => mret false
  | _ => throw AttributeError "'str' object has no attribute 'state'"
  end.
Definition view (name : string) (args : list pyval) : MP pyval := in_services (sv_view name args).
(** [session = self.context.get('admin_session')] *)
Definition current_session : MP (option AdminSession) :=
  v ← get_key "admin_session";
  mret (match v with Some (CSession o) => o | _ => None end).
Definition get_csrf : MP string :=
  session ← current_session;
  mret (match session with Some x => as_csrf_token x | None => "" end).
(** [template(args)] *)
Definition call_template (template : string) (args : list pyval) : MP page :=
  match template_error template args with
  | Some e => rethrow e
  | None => mret (Page template args)
  end.
(** [template(args, self._get_csrf())] *)
Definition render (template : string) (args : list pyval) : MP body :=
  csrf ← get_csrf; p ← call_template template (args ++ [VStr csrf]); mret (BPage p).
Definition placeholder (title path : string) : MP body :=
  render "generic_placeholder_page" [VStr title; VStr path].
(** [params.get(k, [''])[0]] *)
Definition first_value (k : string) (params : dict string (list string)) : MP string :=
  match default [""] (dget k params) with
  | v :: _ => mret v
  | [] => throw (OtherException "IndexError") "list index out of range"
  end.
Definition error_of (path : string) : MP pyval :=
  e ← first_value "error" (url_query path);
  mret (if e =s "" then VNone else VStr e).
Definition audit (action result : string) (details : option string) : MP unit :=
  session ← current_session;
  present ← service "audit_manager";
  match session with
  | Some x =>
      when present (in_audit (record_action audit_runtime_id (as_id x) action (as_principal x) result details) ;;
                    mret tt)
  | None => mret tt
  end.
(** The manager, when there is one with a token. *)
Definition token_present : MP bool :=
  present ← service "github_manager";
  if (present : bool) then in_github gh_has_token else mret false.
(** [_get_fabric_client]: whether the adapter could be built. *)
Definition get_fabric_client : MP bool :=
  token ← token_present;
  if (token : bool) then except_all (in_services sv_fabric ;; mret true) (fun _ => mret false)
  else mret false.

(** ** Status *)
Definition gate_name (g : ReadinessGate) : string :=
  match g with
  | RUNTIME_IDENTITY => "RUNTIME_IDENTITY" | GITHUB_CONNECTED => "GITHUB_CONNECTED"
  | GITHUB_ORG_BOUND => "GITHUB_ORG_BOUND" | FABRIC_REACHABLE => "FABRIC_REACHABLE"
  | FABRIC_IDENTITY_VERIFIED => "FABRIC_IDENTITY_VERIFIED"
  | FABRIC_TRUST_VERIFIED => "FABRIC_TRUST_VERIFIED" | FABRIC_TENANT_BOUND => "FABRIC_TENANT_BOUND"
  | FABRIC_STATE_READABLE => "FABRIC_STATE_READABLE"
  | FABRIC_PROVENANCE_VALID => "FABRIC_PROVENANCE_VALID"
  | FABRIC_NODE_AT_REMOTE_HEAD => "FABRIC_NODE_AT_REMOTE_HEAD"
  | RUNTIME_REACHABLE => "RUNTIME_REACHABLE" | RUNTIME_HEALTH_VERIFIED => "RUNTIME_HEALTH_VERIFIED"
  | RUNTIME_BINDING_VERIFIED => "RUNTIME_BINDING_VERIFIED" | RUNTIME_ADMITTED => "RUNTIME_ADMITTED"
  | PLANE_RECONCILIATION => "PLANE_RECONCILIATION"
  | POLICY_SNAPSHOT_FRESH => "POLICY_SNAPSHOT_FRESH" | CONTRACTS_DISCOVERED => "CONTRACTS_DISCOVERED"
  | CAPABILITIES_INVENTORIED => "CAPABILITIES_INVENTORIED" | TOOLS_INVENTORIED => "TOOLS_INVENTORIED"
  | MODELS_INVENTORIED => "MODELS_INVENTORIED" | WORKERS_INVENTORIED => "WORKERS_INVENTORIED"
  | CONNECTORS_INVENTORIED => "CONNECTORS_INVENTORIED"
  | CRITICAL_ACCESS_VERIFIED => "CRITICAL_ACCESS_VERIFIED"
  | DELEGATION_CONTEXT_BUILT => "DELEGATION_CONTEXT_BUILT"
  | CONTINUITY_COHERENT => "CONTINUITY_COHERENT"
  end.
Definition phase_of (name : string) : string :=
  if contains "_" name then hd "" (split_at "_" name) else "CORE".
Definition gate_entry (g : GateResult) : pyval :=
  let name := gate_name (gr_gate g) in
  let status := if gr_passed g then "PASS"
                else if is_text "STUB" (gr_evidence g) then "BLOCKED" else "FAIL" in
  VDict [("phase", VStr (phase_of name)); ("gate", VStr name); ("status", VStr status);
         ("detail", VStr (gr_detail g)); ("evidence", gr_evidence g)].
Definition runtime_health (state_name : string) (anny_ready : bool) : string :=
  if str_in state_name ["ERROR"; "STOPPED"] then "NOT_HEALTHY"
  else if str_in state_name ["STARTING"; "VERIFYING"; "ADMIN_MODE"; "DRAINING"] then "DEGRADED"
  else if str_in state_name ["READY"; "WAITING_FOR_SESSION"]
  then (if anny_ready then "HEALTHY" else "DEGRADED")
  else "UNKNOWN".
Definition engine_view : MP EngineView := gets (fun p => sv_engine (pn_services p)).
Definition ready_of (e : EngineView) : bool :=
  match ev_report e with Some r => br_anny_ready r | None => false end.
Definition RUNTIME_VERSION : string := "0.4.0".
Definition fabric_connected (node : pyval) : bool := truthy node && negb (is_text "UNKNOWN" node).
Definition status_data (e : EngineView) (gh_status : pyval) (runtime_id : string) : pyval :=
  let ready := ready_of e in
  let node := match ev_report e with Some r => br_fabric_node r | None => VStr "UNKNOWN" end in
  let na := VStr "N/A" in
  VDict [("anny_ready", VBool ready); ("runtime_state", VStr (ev_state e));
         ("runtime_health", VStr (runtime_health (ev_state e) ready)); ("github_status", gh_status);
         ("fabric_status", VStr (if fabric_connected node then "CONNECTED" else "NOT_CONFIGURED"));
         ("admission_status", VStr (if ready then "ADMITTED" else "PENDING"));
         ("reconciliation_status", VStr (if ready then "COHERENT" else "PENDING"));
         ("timestamp", VNone); ("runtime_id", VStr runtime_id);
         ("runtime_version", VStr RUNTIME_VERSION); ("github_org", gh_status);
         ("fabric_org", ev_org e); ("fabric_repo", ev_repo e); ("fabric_node", node); ("tenant", na);
         ("policy_revision", na); ("contract_revision", na);
         ("gates", VList match ev_report e with Some r => gate_entry <$> br_gates r | None => [] end);
         ("capabilities", VList []);
         ("health", VDict [("engine", VStr (ev_state e)); ("github", gh_status)]);
         ("access", VList []); ("tools", VList []); ("models", VList []); ("workers", VList []);
         ("connectors", VList []);
         ("continuity", VDict [("mission", na); ("task", na); ("step", na); ("action", na);
                               ("blockers", VStr "0"); ("status", VStr (ev_state e))])].
Definition github_status_text : MP pyval :=
  present ← service "github_manager";
  if (present : bool) then (d ← in_github gh_status; mret (vget "auth_status" d))
  else mret (VStr "UNAUTHORIZED").
Definition handle_api_status : MP string :=
  engine ← service "runtime_engine";
  if negb engine then
    direct_json (VDict [("anny_ready", VBool false); ("runtime_state", VStr "STOPPED");
                        ("error", VStr "No runtime engine")])
  else
    e ← engine_view;
    gh ← github_status_text;
    auth ← service "auth_manager";
    direct_json (status_data e gh (if (auth : bool) then sm_runtime_id mgr else "UNKNOWN")).
(** [/health/ready] *)
Definition readiness : MP content :=
  engine ← service "runtime_engine";
  if negb engine then
    mret (CBody 503 (BJson (VDict [("status", VStr "not_ready"); ("reason", VStr "No runtime engine")])))
  else
    e ← engine_view;
    mret (if ready_of e && str_in (ev_state e) ["READY"; "WAITING_FOR_SESSION"]
          then CBody 200 (BJson (VDict [("status", VStr "ready")]))
          else CBody 503 (BJson (VDict [("status", VStr "not_ready");
                 ("reason", VStr ("State=" +:+ ev_state e +:+ ", ready="
                                  +:+ (if ready_of e then "True" else "False")))]))).

(** ** Continuity *)
Definition snapshot : MP (option Snapshot) :=
  v ← get_key "bootstrap_snapshot";
  match v with
  | Some (CSnapshot l) => gets (fun p => pn_snapshots p !! l)
  | _ => mret None
  end.
Definition repository_dto (r : DiscoveredRepository) : RepositoryDTO :=
  mkRepositoryDTO (dr_full_name r) (dr_name r) (dr_owner r) (dr_visibility r) (dr_archived r)
    (dr_default_branch r).
Definition canonical_source (o : option EngineView) : string :=
  match o with
  | Some e =>
      if truthy (ev_org e) && truthy (ev_repo e)
      then py_str (ev_org e) +:+ "/" +:+ py_str (ev_repo e) else "NOT_CONFIGURED"
  | None => "NOT_CONFIGURED"
  end.
(** The status, the reconciliation, the node, mission, next action and number of
    blockers of a result. *)
Definition result_fields (r : snapshot_result) : string * string * pyval * pyval * pyval * Z :=
  match r with
  | SNone => ("BLOCKED", "INCOHERENT", VNone, VNone, VNone, 0%Z)
  | SReport r =>
      (if br_anny_ready r then "READY" else "BLOCKED",
       if br_anny_ready r then "COHERENT" else "INCOHERENT", br_fabric_node r, VNone, VNone, 0%Z)
  | SContinuity r =>
      let mission :=
        match bo_canonical_state r with
        | Some c => match ca_current_mission c with Some m => cm_id m | None => VNone end
        | None => VNone
        end in
      let next :=
        match bo_canonical_state r with
        | Some c => match ca_next_action c with Some n => na_action n | None => VNone end
        | None => VNone
        end in
      (status_value (bo_status r),
       match bo_status r with CONSISTENT => "COHERENT" | CS_BLOCKED => "INCOHERENT" | _ => "UNKNOWN" end,
       VNone, mission, next, Z.of_nat (length (bo_blockers r)))
  end.
Definition known_engine : MP (option EngineView) :=
  v ← get_key "runtime_engine";
  match v with
  | Some CService => e ← engine_view; mret (Some e)
  | _ => mret None
  end.
Definition get_continuity_dto : MP ContinuityDTO :=
  gh ← github_status_text;
  sn ← snapshot;
  match sn with
  | None =>
      mret (mkContinuity "UNKNOWN" "UNKNOWN" VNone VNone VNone VNone 0 "UNKNOWN" gh "UNKNOWN"
              "NOT_CONFIGURED" [] None)
  | Some sn =>
      e ← known_engine;
      let '(status, recon, node, mission, next, blockers) := result_fields (sn_result sn) in
      mret (mkContinuity status (canonical_source e) VNone mission VNone next blockers recon gh
              "UNKNOWN" (if truthy node then "CONNECTED" else "NOT_CONFIGURED")
              (repository_dto <$> sn_repos sn) (Some (mkL2Summary 0 [])))
  end.
Definition handle_bootstrap_api : MP content :=
  except_all (d ← get_continuity_dto; mret (CBody 200 (BJson (continuity_to_dict d))))
    (fun e => mret (CBody 500 (BJson (VDict
       [("error", VStr ("Bootstrap API error: " +:+ exn_name (exn_type e))); ("status", VStr "ERROR")])))).

(** ** Pages *)
Definition handle_dashboard (path : string) : MP body :=
  gh ← service "github_manager";
  token ← token_present;
  session ← current_session;
  error ← error_of path;
  if (gh && negb token) || is_onboarding session then
    csrf ← get_csrf;
    p ← call_template "first_run_page" [VStr csrf; error; VBool (gh && gh_has_client_id)];
    mret (BPage p)
  else render "control_center_page" [].
Definition MISSING_STATUS : GitHubStatusDTO :=
  mkGitHubStatus false None "UNAUTHORIZED" "MISSING" None [] None None None.
Definition handle_github (path : string) : MP body :=
  present ← service "github_manager";
  status ← (if (present : bool) then in_github gh_status else mret (github_status_to_dict MISSING_STATUS));
  error ← error_of path;
  render "github_page" [VDict status; error].
Definition NO_FABRIC : dict string pyval :=
  fabric_status_to_dict (mkFabricStatus false None None None None None).
(** The status after the probe, then after the reading of the node. *)
Definition probed (h : FabricHealthResult) : dict string pyval :=
  dset "latency_ms" (VFloat (fh_latency_ms h))
    (dset "node_id" (opt_str (fh_node_id h))
      (dset "fabric_status" (VStr (if fh_reachable h then "CONNECTED" else "DEGRADED")) NO_FABRIC)).
Definition registered (h : FabricHealthResult) : MP (dict string pyval) :=
  if fh_reachable h then
    except_all
      (node ← in_services sv_read_node_config;
       mret (dset "runtime_registration" (VStr "REGISTERED") (dset "node_id" (fn_node_id node) (probed h))))
      (fun _ => mret (dset "runtime_registration" (VStr "UNKNOWN") (probed h)))
  else mret (probed h).
(** An exception of the probe leaves the first status; [_get_csrf] and the template
    do not raise. *)
Definition handle_fabric : MP body :=
  client ← get_fabric_client;
  status ← (if negb client then mret (dset "fabric_status" (VStr "NOT_CONFIGURED") NO_FABRIC)
            else except_all (h ← in_services sv_probe_health; registered h)
                   (fun e => mret (dset "error" (VStr (exn_name (exn_type e)))
                                     (dset "fabric_status" (VStr "ERROR") NO_FABRIC))));
  render "fabric_page" [VDict status].
(** A list another service keeps, when there is one. *)
Definition listed (key name : string) (default : pyval) : MP pyval :=
  present ← service key;
  if (present : bool) then view name [] else mret default.
Definition listing (template key name : string) (default : pyval) : MP body :=
  v ← listed key name default; render template [v].
Definition handle_doctor : MP body :=
  render "doctor_page" [VDict [("checks", VList [VDict [("name", VStr "Core"); ("status", VStr "OK")]])]].
Definition handle_universe_organization : MP body :=
  token ← token_present;
  orgs ← (if negb token then mret []
          else
            except_all
              (in_services sv_github_client ;;
               status ← in_github gh_status;
               let principal := vget "principal" status in
               let own := if truthy principal
                          then [VDict [("login", principal); ("id", VStr "user"); ("type", VStr "User")]]
                          else [] in
               except_all
                 (v ← in_services sv_user_orgs;
                  mret (own ++ match v with VList l => l | _ => [] end))
                 (fun _ => mret own))
              (fun _ => mret []));
  render "universe_organization_page" [VList orgs].
(** The visibility of a repository is a text and has no [value]: an exception ends
    the loop at the first repository. *)
Definition repository_entry (r : DiscoveredRepository) : MP pyval :=
  throw AttributeError "'str' object has no attribute 'value'".
Fixpoint repository_entries (l : list DiscoveredRepository) : MP (list pyval) :=
  match l with
  | [] => mret []
  | r :: l =>
      except_all (e ← repository_entry r; rest ← repository_entries l; mret (e :: rest))
        (fun _ => mret [])
  end.
Definition handle_universe_repositories : MP body :=
  sn ← snapshot;
  repos ← repository_entries (match sn with Some s => sn_repos s | None => [] end);
  render "universe_repositories_page" [VList repos].
(** The fabric adapter has no [list_resources]. *)
Definition list_resources : MP pyval :=
  throw AttributeError "'GitHubFabricAdapter' object has no attribute 'list_resources'".
Definition handle_universe_resources : MP body :=
  client ← get_fabric_client;
  resources ← (if (client : bool) then except_all list_resources (fun _ => mret (VList []))
               else mret (VList []));
  render "universe_resources_page" [resources].
Definition handle_universe_accounts : MP body :=
  listing "universe_accounts_page" "account_registry" "account_registry.list_accounts" (VList []).
Definition last_segment (path : string) : string := default "" (last (split_at "/" path)).
(** Here the anti-forgery token is passed where the template expects the path. *)
Definition account_notice (title : string) : MP body :=
  render "generic_placeholder_page" [VStr title].
Definition handle_universe_account_detail (path : string) : MP body :=
  let account_id := last_segment (url_path path) in
  registry ← service "account_registry";
  if negb registry then account_notice "Account Registry Not Available"
  else
    account ← view "account_registry.get_account" [VStr account_id];
    if truthy account then render "universe_account_detail_page" [account]
    else account_notice ("Account " +:+ account_id +:+ " not found").
Definition handle_intelligence_capabilities : MP body :=
  caps ← listed "execution_manager" "execution_manager.registry.list_all" (VList []);
  bindings ← listed "execution_manager" "execution_manager.registry.model_bindings" (VList []);
  render "intelligence_capabilities_page" [caps; bindings].
Definition handle_infrastructure_topology : MP body :=
  present ← service "github_manager";
  up ← (if (present : bool) then (d ← in_github gh_status; mret (vget "connected" d))
        else mret (VBool false));
  client ← get_fabric_client;
  fabric_up ← (if (client : bool)
               then except_all (list_resources ;; mret (VBool true)) (fun _ => mret (VBool false))
               else mret (VBool false));
  render "infrastructure_topology_page" [up; fabric_up; VBool false].
(** The log's [read_recent] has no parameter [limit]. *)
Definition read_recent_limit : MP pyval :=
  throw TypeError (unexpected_argument "AdminAuditLog.read_recent()" "limit").
Definition handle_audit_events : MP body :=
  present ← service "audit_manager";
  events ← (if (present : bool) then except_all read_recent_limit (fun _ => mret (VList []))
            else mret (VList []));
  render "audit_events_page" [events].
Definition handle_audit_provenance (path : string) : MP body :=
  id ← first_value "id" (url_query path);
  data ← (if id =s "" then mret ""
          else
            client ← get_fabric_client;
            if (client : bool) then
              except_all (d ← in_services (sv_get_provenance id); mret (dumps_indent false 0 d))
                (fun _ => mret "Failed to load provenance data.")
            else mret "");
  render "audit_provenance_page" [VStr data].
Definition handle_search (path : string) : MP body :=
  q ← first_value "q" (url_query path); render "search_page" [VStr q].
(** The template calls [render_admin_page], which its module does not define. *)
Definition undefined_layout {A} : MP A :=
  throw (OtherException "NameError") "name 'render_admin_page' is not defined".
Definition handle_browser_dashboard : MP body :=
  sessions ← listed "execution_manager" "execution_manager.browser_sessions" (VList []);
  get_csrf ;; undefined_layout.

(** ** Telemetry *)
Definition filters_of (drop : list string) (q : dict string (list string)) : pyval :=
  VDict (omap (fun kv => if str_in kv.1 drop then None
                         else match kv.2 with v :: _ => Some (kv.1, VStr v) | [] => None end) q).
Definition aggregated (k : MP string) : MP string :=
  present ← service "telemetry_aggregator";
  if (present : bool) then k else direct_json (VDict [("error", VStr "Aggregator unavailable")]).
Definition handle_processing_matrix (path : string) : MP string :=
  aggregated
    (m ← view "telemetry_aggregator.get_matrix" [filters_of [] (url_query path)]; direct_json m).
Definition handle_processing_events (path : string) : MP string :=
  aggregated
    (text ← (match default ["100"] (dget "limit" (url_query path)) with
             | v :: _ => mret v
             | [] => throw (OtherException "IndexError") "list index out of range"
             end);
     limit ← of_result (match int_text text with
                        | Some z => Ok z
                        | None => raise ValueError "invalid literal for int()"
                        end);
     events ← view "telemetry_aggregator.get_events" [filters_of ["limit"] (url_query path); VInt limit];
     direct_json events).

(** ** Actions *)
Definition form_value (k : string) (form : dict string (list string)) : MP string := first_value k form.
Definition handle_logout : MP string :=
  session ← current_session;
  auth ← service "auth_manager";
  match session with
  | Some x =>
      when auth
        (in_admin (destroy (as_id x)) ;;
         present ← service "audit_manager";
         when present (in_audit (record_action audit_runtime_id (as_id x) "LOGOUT" (as_principal x) "SUCCESS" None) ;;
                       mret tt))
  | None => mret tt
  end ;;
  set_key "destroy_session" (CBool true) ;;
  mret "/".
(** A new snapshot object put in the context. *)
Definition put_snapshot (sn : Snapshot) : MP unit := fun p =>
  set_key "bootstrap_snapshot" (CSnapshot (length (pn_snapshots p)))
    (p <| pn_snapshots := pn_snapshots p ++ [sn] |>).
(** The report of an engine that started. *)
Definition engine_result : MP snapshot_result :=
  e ← engine_view; mret (match ev_report e with Some r => SReport r | None => SNone end).
(** What follows a new token: discovery and a startup, whose failures are logged,
    then a regular session in place of the onboarding one. *)
Definition rediscover : MP unit :=
  except_all
    (repos ← in_services sv_discover;
     engine ← service "runtime_engine";
     when engine
       (client ← get_fabric_client;
        in_services (sv_startup client) ;;
        r ← engine_result;
        put_snapshot (mkSnapshot r repos)))
    (fun _ => mret tt).
Definition replace_onboarding_session : MP unit :=
  session ← current_session;
  auth ← service "auth_manager";
  match session with
  | Some x =>
      when ((as_scope x =s "ONBOARDING_ONLY") && auth)
        (in_admin (destroy (as_id x)) ;;
         set_key "destroy_session" (CBool true) ;;
         y ← in_admin (create_session mgr "admin");
         set_key "new_session_id" (CText (as_id y)))
  | None => mret tt
  end.
Definition onboarded : MP unit := rediscover ;; replace_onboarding_session.
(** The page an error is shown on. *)
Definition error_page (error : string) : MP string :=
  session ← current_session;
  mret ((if is_onboarding session then "/?error=" else "/github?error=") +:+ error).
Definition handle_github_token (form : dict string (list string)) : MP string :=
  token ← form_value "github_token" form;
  if token =s "" then error_page "GitHub+Access+Token+is+required"
  else
    present ← service "github_manager";
    if negb present then mret "/"
    else
      result ← in_github (gh_store_token token);
      if truthy (vget "success" result) then
        audit "GITHUB_TOKEN_SUBMIT" "SUCCESS" None ;;
        onboarded ;;
        mret "/"
      else
        match vget_or "error" (VStr "Validation failed") result with
        | VStr msg =>
            audit "GITHUB_TOKEN_SUBMIT" "FAILED"
              (match dget "error" result with Some _ => Some msg | None => None end) ;;
            error_page (quote_plus msg)
        | VNone =>
            audit "GITHUB_TOKEN_SUBMIT" "FAILED" None ;;
            throw TypeError "quote_from_bytes() expected bytes"
        | _ => throw Unmodelled "an error of another type"
        end.
Definition handle_github_device_init : MP string :=
  present ← service "github_manager";
  if negb present then mret "/?error=GitHub+Auth+Manager+not+available"
  else
    except_all
      (flow ← in_github gh_initiate;
       match flow with
       | None => throw AttributeError "'NoneType' object has no attribute 'user_code'"
       | Some f =>
           csrf ← get_csrf;
           p ← call_template "device_flow_page" [fl_user_code f; fl_verification_uri f; VStr csrf];
           set_key "direct_html_response" (CHtml p) ;;
           mret "/"
       end)
      (fun e => mret ("/?error=" +:+ quote_plus ("Failed to initiate device flow: " +:+ exn_str e))).
Definition poll_failed (error : string) : pyval := VDict [("status", VStr "FAILED"); ("error", VStr error)].
Definition handle_github_device_poll : MP string :=
  present ← service "github_manager";
  if negb present then direct_json (poll_failed "GitHub Auth Manager not available")
  else
    except_all
      (result ← in_github gh_poll;
       when (is_text "AUTHORIZED" (vget "status" result))
         (audit "GITHUB_DEVICE_AUTH" "SUCCESS" None ;; onboarded) ;;
       direct_json (VDict result))
      (fun e => direct_json (poll_failed (exn_str e))).
Definition handle_verify_bootstrap : MP string :=
  engine ← service "runtime_engine";
  if negb engine then
    direct_json (VDict [("status", VStr "error"); ("message", VStr "No engine")])
  else
    token ← token_present;
    client ← (if (token : bool)
              then except_all (in_services sv_github_client ;; mret true) (fun _ => mret false)
              else mret false);
    fabric ← get_fabric_client;
    in_services (sv_spawn_verify client fabric) ;;
    direct_json (VDict [("status", VStr "started")]).
Definition handle_github_disconnect : MP string :=
  present ← service "github_manager";
  when present (in_github gh_disconnect ;; audit "GITHUB_DISCONNECT" "SUCCESS" None) ;;
  mret "/github".
(** An action that is only recorded. *)
Definition recorded (action location : string) : MP string := audit action "SUCCESS" None ;; mret location.
(** [self.context['bootstrap_snapshot']['result'] = r]: the object is changed. *)
Definition set_snapshot_result (r : snapshot_result) : MP unit :=
  v ← get_key "bootstrap_snapshot";
  match v with
  | Some (CSnapshot l) =>
      modify (fun p => p <| pn_snapshots := alter (fun sn => mkSnapshot r (sn_repos sn)) l (pn_snapshots p) |>)
  | _ => throw TypeError "'NoneType' object does not support item assignment"
  end.
Definition handle_fabric_setup (form : dict string (list string)) : MP string :=
  org ← form_value "fabric_org" form;
  repo ← form_value "fabric_repo" form;
  if (org =s "") || (repo =s "") then mret "/?error=Both+Organization+and+Repository+are+required"
  else
    engine ← service "runtime_engine";
    when engine
      (in_services (sv_save_fabric org repo) ;;
       audit "FABRIC_SETUP" "SUCCESS" (Some (org +:+ "/" +:+ repo)) ;;
       except_all
         (gh ← service "github_manager";
          (if negb gh then throw AttributeError "'NoneType' object has no attribute 'secret_backend'"
           else in_services sv_github_client) ;;
          client ← get_fabric_client;
          in_services (sv_startup client) ;;
          r ← engine_result;
          set_snapshot_result r)
         (fun _ => mret tt)) ;;
    mret "/".

(** ** Dispatch *)
(** What the dispatch decides: a response sent at once, or the outcome of a handler
    of the table, after which the direct responses are looked for. *)
Inductive verdict := Sent (c : content) | Routed (r : result content).
Definition attempt {A} (f : A -> content) (m : MP A) : MP verdict :=
  except_all (a ← m; mret (Routed (Ok (f a)))) (fun e => mret (Routed (Raise e))).
Definition sending (m : MP content) : MP verdict := c ← m; mret (Sent c).
Definition html (b : body) : content := CBody 200 b.
Definition not_found : content := CBody 404 (BText "404 Not Found").
Definition server_error : content := CBody 500 (BText "500 Internal Server Error").
(** A handler that leaves a JSON response in the context returns a text. *)
Definition as_text (m : MP string) : MP body := s ← m; mret (BText s).
Definition get_routes (path : string) : list (string * MP body) :=
  [("/", handle_dashboard path); ("/github", handle_github path);
   ("/github/device/poll", as_text handle_github_device_poll); ("/fabric", handle_fabric);
   ("/sessions", render "sessions_page" [VList []]); ("/operations", render "operations_page" [VList []]);
   ("/receipts", render "receipts_page" [VList []]);
   ("/executions", listing "executions_page" "execution_manager" "execution_manager.get_all_executions" (VList []));
   ("/workers", listing "workers_page" "execution_manager" "execution_manager.worker_manager.list_workers" (VList []));
   ("/capabilities", listing "capabilities_page" "execution_manager" "execution_manager.registry.list_all" (VList []));
   ("/models", listing "models_page" "execution_manager" "execution_manager.model_registry.list_models" (VList []));
   ("/executors", render "executors_page" [VList []]);
   ("/policies", listing "policies_page" "execution_manager" "execution_manager.policy" VNone);
   ("/doctor", handle_doctor); ("/universe/accounts", handle_universe_accounts);
   ("/universe/organization", handle_universe_organization);
   ("/universe/projects", listing "universe_projects_page" "project_registry" "project_registry.list_projects" (VList []));
   ("/universe/repositories", handle_universe_repositories);
   ("/universe/resources", handle_universe_resources);
   ("/execution/missions", placeholder "Missions" "/execution/missions");
   ("/execution/tasks", listing "execution_tasks_page" "execution_manager" "execution_manager._tasks" (VDict []));
   ("/execution/workers", listing "execution_workers_page" "execution_manager" "execution_manager.worker_manager.workers" (VDict []));
   ("/execution/executions", placeholder "Executions" "/execution/executions");
   ("/execution/workspaces", placeholder "Workspaces" "/execution/workspaces");
   ("/intelligence/capabilities", handle_intelligence_capabilities);
   ("/intelligence/executors", placeholder "Executors" "/intelligence/executors");
   ("/intelligence/performance", placeholder "Performance" "/intelligence/performance");
   ("/infrastructure/runtime", handle_infrastructure_topology);
   ("/continuity/timeline", placeholder "Continuity Timeline" "/continuity/timeline");
   ("/audit/events", handle_audit_events); ("/audit/provenance", handle_audit_provenance path);
   ("/audit/evidence", placeholder "Evidence" "/audit/evidence"); ("/search", handle_search path);
   ("/api/status", as_text handle_api_status);
   ("/telemetry/live", render "telemetry_live_page" []);
   ("/telemetry/timeline", listing "telemetry_timeline_page" "telemetry_collector" "telemetry_collector.get_timeline" (VList []));
   ("/api/processing/matrix", as_text (handle_processing_matrix path));
   ("/api/processing/events", as_text (handle_processing_events path));
   ("/browser", handle_browser_dashboard)].
Definition post_routes (form : dict string (list string)) : list (string * MP string) :=
  [("/logout", handle_logout); ("/github/token", handle_github_token form);
   ("/github/device/init", handle_github_device_init); ("/github/disconnect", handle_github_disconnect);
   ("/fabric/setup", handle_fabric_setup form); ("/admin/restart", recorded "RUNTIME_RESTART" "/");
   ("/admin/diagnostics", recorded "DIAGNOSTICS_RUN" "/doctor");
   ("/admin/update-check", recorded "UPDATE_CHECK" "/");
   ("/api/bootstrap/verify", handle_verify_bootstrap)].
(** [/workers/<id>] and its like: a path of two segments. *)
Definition detail (path : string) (k : string -> MP content) : MP content :=
  match split_at "/" (strip_char "/" path) with
  | [_; id] => k id
  | _ => mret not_found
  end.
Definition found (name : string) (args : list pyval) (k : pyval -> MP content) : MP content :=
  v ← (present ← service "execution_manager";
       if (present : bool) then view name args else mret VNone);
  if truthy v then k v else mret not_found.
Definition handle_worker_detail (path : string) : MP content :=
  detail path (fun id => found "execution_manager.worker_manager.get_worker" [VStr id]
    (fun w => b ← render "worker_detail_page" [w]; mret (html b))).
Definition handle_model_detail (path : string) : MP content :=
  detail path (fun id => found "execution_manager.model_registry.get_model" [VStr id]
    (fun v =>
       bindings ← view "execution_manager.model_registry.bindings_of" [VStr id];
       hardware ← view "execution_manager.model_registry.get_hardware_profile" [];
       performance ← view "execution_manager.model_registry.get_performance_profile" [VStr id];
       b ← render "model_detail_page" [v; bindings; hardware; performance];
       mret (html b))).
Definition handle_browser_session_detail (path : string) : MP content :=
  detail path (fun id => found "execution_manager.browser_session" [VStr id]
    (fun _ => get_csrf ;; undefined_layout)).
Definition dispatch_get (raw : string) : MP verdict :=
  let path := url_path raw in
  if is_bridge path then mret (Sent (CDelegated "bridge" [VStr "GET"; VStr raw]))
  else if path =s "/health/live" then mret (Sent (html (BJson (VDict [("status", VStr "alive")]))))
  else if path =s "/health/ready" then sending readiness
  else if path =s "/api/v1/continuity/bootstrap" then sending handle_bootstrap_api
  else if path =s "/api/v1/telemetry/stream" then mret (Sent (CDelegated "telemetry_stream" []))
  else if startswith "/workers/" path then sending (handle_worker_detail path)
  else if startswith "/models/" path then sending (handle_model_detail path)
  else if startswith "/browser/" path then sending (handle_browser_session_detail path)
  else if startswith "/universe/accounts/" path && negb (path =s "/universe/accounts/") then
    b ← handle_universe_account_detail raw; mret (Sent (html b))
  else
    match dget path (get_routes raw) with
    | Some h => attempt html h
    | None => mret (Sent not_found)
    end.
Definition dispatch_post (raw : string) (form : dict string (list string)) (bridge_body : string) : MP verdict :=
  let path := url_path raw in
  if is_bridge path then mret (Sent (CDelegated "bridge" [VStr "POST"; VStr raw; VStr bridge_body]))
  else
    match dget path (post_routes form) with
    | Some h => attempt CRedirect h
    | None => mret (Sent not_found)
    end.
End Routes.
