(* ===== verification/AdminServer.v ===== *)
(** * The server of the administration panel

    [runtime/admin/server.py] and the sending methods of [routes.py]: a request is
    a thread that runs the middleware, publishes its own context in the one context
    of the router, runs a handler, sends, and restores the router's context.  The
    server answers each connection in a thread of its own, so that the steps of
    several requests interleave: a step is one access of the shared context, or one
    handler.  A page is its template and arguments, whose text PanelPages gives; the lengths
    of bodies are not modelled. *)
From S2P Require Import Prelude Dict PyVal Effects PyStr PyBytes Json Identity.
From S2P Require Import Github Continuity Core Bootstrap GithubAuth Admin AdminRoutes.

(** ** Requests and threads *)
Inductive Method := GET | POST.
Record Request := mkRequest {
  rq_method : Method; rq_path : string; rq_headers : Headers;
  rq_content_type : string; rq_content_length : string; rq_body : string }.
(** Where a thread is: what it is about to do. *)
Inductive pc :=
  | Copy | Authenticate
  | RejectCookies (location : string) | RejectPublish (location : string) | RejectSend (location : string)
  | ReadBody | Save | Publish | Cookies | PublishCookies
  | Handle | Take (r : result content) | SendIt (c : content) (drop : option string) | Drop (k : string)
  | After | FinalKeys | FinalDelete (ks : list string) | FinalRestore | Done.
Record Thread := mkThread {
  th_request : Request; th_pc : pc; th_context : context; th_saved : context;
  th_form : dict string (list string); th_out : list Response; th_error : option exn }.
#[export] Instance eta_Thread : Eta Thread := fun t =>
  mkThread (th_request t) (th_pc t) (th_context t) (th_saved t) (th_form t) (th_out t) (th_error t).
Definition start (r : Request) : Thread := mkThread r Copy [] [] [] [] None.

Definition SECURITY_HEADERS : list (string * string) :=
  [("X-Content-Type-Options", "nosniff"); ("X-Frame-Options", "DENY");
   ("Content-Security-Policy",
    "default-src 'self'; style-src 'unsafe-inline' https://fonts.googleapis.com; font-src https://fonts.gstatic.com; script-src 'unsafe-inline'; connect-src 'self';")].
Definition set_cookie_headers (cookies : list string) : list (string * string) :=
  (fun c => ("Set-Cookie", c)) <$> cookies.
(** [_send_json], [_send_html], [_redirect], with the cookies of the shared context;
    a component that answers itself sends no cookie of the context. *)
Definition body_type (b : body) : string :=
  match b with BJson _ => "application/json" | _ => "text/html; charset=utf-8" end.
Definition respond (c : content) (cookies : list string) : Response :=
  match c with
  | CBody status b =>
      mkResponse status ([("Content-Type", body_type b)] ++ SECURITY_HEADERS ++ set_cookie_headers cookies) b
  | CRedirect location =>
      mkResponse 303 ([("Location", location)] ++ SECURITY_HEADERS ++ set_cookie_headers cookies) BNone
  | CDelegated component args => mkResponse 200 [] (BPage (Page component args))
  end.

Section Server.
Context {env : AdminEnv} {penv : PanelEnv} {floats : FloatOps} (mgr : AdminSessionManager) (audit_runtime_id : string).
Context {G S : Type} {github : GithubService G} {services : PanelServices S}.
Abbreviation P := (Panel G S).

(** ** Contexts *)
Definition cookies_at (ctx : context) (lists : list (list string)) : list string :=
  match dget "set_cookies" ctx with Some (CCookies l) => default [] (lists !! l) | _ => [] end.
Definition text_at (k : string) (ctx : context) : option string :=
  match dget k ctx with Some (CText s) => Some s | _ => None end.
(** What the middleware reads of a context. *)
Definition context_of (ctx : context) (lists : list (list string)) : Context :=
  mkContext (match dget "secure_cookie" ctx with Some (CBool b) => b | _ => true end)
    (match dget "admin_session" ctx with Some (CSession o) => o | _ => None end)
    (cookies_at ctx lists) (text_at "new_session_id" ctx) (text_at "redirect_to" ctx)
    (match dget "destroy_session" ctx with Some (CBool b) => b | _ => false end).
Definition set_some (k : string) (o : option string) (ctx : context) : context :=
  match o with Some s => dset k (CText s) ctx | None => ctx end.
(** What [process_request] leaves in a context, with a new list of cookies. *)
Definition authenticated_context (cx : Context) (l : nat) (ctx : context) : context :=
  set_some "redirect_to" (cx_redirect_to cx)
    (set_some "new_session_id" (cx_new_session_id cx)
      (dset "set_cookies" (CCookies l)
        (dset "admin_session" (CSession (cx_admin_session cx))
          (dset "secure_cookie" (CBool (cx_secure_cookie cx)) ctx)))).
(** [process_response(context)]: the list of cookies is extended in place. *)
Definition response_cookies (ctx : context) (lists : list (list string)) : context * list (list string) :=
  let cookies := cx_set_cookies (process_response mgr (context_of ctx lists)) in
  match dget "set_cookies" ctx with
  | Some (CCookies l) => (ctx, <[l := cookies]> lists)
  | _ => (dset "set_cookies" (CCookies (length lists)) ctx, lists ++ [cookies])
  end.
(** [self.server.router.context.update(d)] *)
Definition update (d ctx : context) : context := foldl (fun ctx kv => dset kv.1 kv.2 ctx) ctx d.
Definition shared_keys : list string := ["bootstrap_snapshot"; "sync_service"].
Definition get_excluded : list string :=
  ["admin_session"; "set_cookies"; "new_session_id"; "secure_cookie"].
Definition post_excluded : list string := get_excluded ++ ["destroy_session"].
Definition excluded (m : Method) : list string := match m with GET => get_excluded | POST => post_excluded end.
Definition keys_to_delete (saved ctx : context) : list string :=
  List.filter (fun k => negb (dmem k saved) && negb (str_in k shared_keys)) (dkeys ctx).
Definition restored (m : Method) (saved : context) : context :=
  List.filter (fun kv => negb (str_in kv.1 (excluded m))) saved.

(** ** Handlers of the server *)
Definition bare_path (path : string) : string := before "?" path.
(** [length = int(content-length)], and the body read. *)
Definition content_length (r : Request) : result Z :=
  match int_text (rq_content_length r) with
  | Some z => Ok z
  | None => raise ValueError "invalid literal for int()"
  end.
Definition is_form (r : Request) : bool :=
  lower (strip (before ";" (rq_content_type r))) =s "application/x-www-form-urlencoded".
Definition read_form (r : Request) : result (dict string (list string)) :=
  if is_form r then
    let? n := content_length r in
    if (0 <? n)%Z then
      let? text := utf8_decode (string_take (Z.to_nat n) (rq_body r)) in Ok (parse_qs text)
    else Ok []
  else Ok [].
Definition bridge_body (r : Request) : result string :=
  if is_bridge (url_path (rq_path r)) then
    let? n := content_length r in
    if (0 <? n)%Z then
      if is_form r then raise Unmodelled "a body read twice" else Ok (string_take (Z.to_nat n) (rq_body r))
    else Ok ""
  else Ok "".
(** The synchronisation service, or the answer without one. *)
Definition synced (operation : string) (unavailable : pyval) : M P verdict :=
  present ← service "sync_service";
  if (present : bool) then (v ← view ("sync_service." +:+ operation) []; mret (Sent (CBody 200 (BJson v))))
  else mret (Sent (CBody 503 (BJson unavailable))).
Definition unavailable (fields : list (string * pyval)) : pyval :=
  VDict (fields ++ [("error_classification", VStr "SYNC_SERVICE_UNAVAILABLE")]).
Definition SYNC_ACTIONS : list (string * string) :=
  [("/api/sync", "start"); ("/api/sync/stage", "stage"); ("/api/sync/activate", "activate");
   ("/api/sync/rollback", "rollback")].
Definition with_sync (session : option AdminSession) (b : body) : body :=
  if is_onboarding session then b
  else match b with
       | BPage p => BPage (WithSync p (match session with Some x => as_csrf_token x | None => "" end))
       | _ => b
       end.
Definition handle (t : Thread) : M P verdict :=
  let r := th_request t in
  let path := bare_path (rq_path r) in
  match rq_method r with
  | GET =>
      if path =s "/api/sync/status" then
        synced "status" (unavailable [("sync_state", VStr "UNKNOWN")])
      else if path =s "/" then
        b ← handle_dashboard (rq_path r);
        mret (Sent (CBody 200 (with_sync (cx_admin_session (context_of (th_context t) [])) b)))
      else dispatch_get mgr audit_runtime_id (rq_path r)
  | POST =>
      match dget path SYNC_ACTIONS with
      | Some operation =>
          synced operation (unavailable [("status", VStr "failed"); ("sync_state", VStr "FAILED")])
      | None =>
          b ← of_result (bridge_body r);
          dispatch_post mgr audit_runtime_id (rq_path r) (th_form t) b
      end
  end.
(** The direct response a routed handler left, and its key. *)
Definition direct (m : Method) (ctx : context) : option (content * string) :=
  match dget "direct_json_response" ctx with
  | Some (CJson v) => Some (CBody 200 (BJson v), "direct_json_response")
  | _ =>
      match m, dget "direct_html_response" ctx with
      | POST, Some (CHtml p) => Some (CBody 200 (BPage p), "direct_html_response")
      | _, _ => None
      end
  end.

(** ** Steps *)
Definition goto (k : pc) (t : Thread) : Thread := t <| th_pc := k |>.
Definition fail_at (e : exn) (k : pc) (t : Thread) : Thread := (goto k t) <| th_error := Some e |>.
Definition sent (r : Response) (t : Thread) : Thread := t <| th_out := th_out t ++ [r] |>.
Definition router (p : P) : context := pn_context p.
Definition on_router (ctx : context) (lists : list (list string)) (p : P) : P :=
  (p <| pn_context := ctx |>) <| pn_lists := lists |>.
Definition after_send (drop : option string) : pc :=
  match drop with Some k => Drop k | None => After end.
Definition rejection (default_location : string) (ctx : context) : string :=
  default default_location (text_at "redirect_to" ctx).
(** [self.github_manager and not self.github_manager.has_token()] *)
Definition token_known : M P (option bool) :=
  present ← service "github_manager";
  if (present : bool) then (b ← in_github gh_has_token; mret (Some b)) else mret None.
Definition authenticate (t : Thread) (p : P) : P * Thread :=
  let '(p1, ht) := token_known p in
  match ht with
  | Raise e => (p1, fail_at e Done t)
  | Ok ht =>
      let '(p2, r) := in_admin (process_request mgr ht (rq_path (th_request t)) (rq_headers (th_request t))) p1 in
      match r with
      | Raise e => (p2, fail_at e Done t)
      | Ok (ok, cx) =>
          let ctx := authenticated_context cx (length (pn_lists p2)) (th_context t) in
          (p2 <| pn_lists := pn_lists p2 ++ [[]] |>,
           goto (if (ok : bool) then match rq_method (th_request t) with GET => Save | POST => ReadBody end
                 else RejectCookies (rejection "/login" ctx))
                (t <| th_context := ctx |>))
      end
  end.
Definition read_body (t : Thread) (p : P) : Thread :=
  match read_form (th_request t) with
  | Raise e => fail_at e Done t
  | Ok form =>
      match process_post_body (rq_path (th_request t)) form (context_of (th_context t) (pn_lists p)) with
      | Raise e => fail_at e Done t
      | Ok (ok, cx) =>
          let ctx := set_some "redirect_to" (cx_redirect_to cx) (th_context t) in
          goto (if (ok : bool) then Save else RejectCookies (rejection "/" ctx))
               ((t <| th_form := form |>) <| th_context := ctx |>)
      end
  end.
Definition step (t : Thread) (p : P) : P * Thread :=
  let m := rq_method (th_request t) in
  match th_pc t with
  | Copy => (p, goto Authenticate (t <| th_context := router p |>))
  | Authenticate => authenticate t p
  | ReadBody => (p, read_body t p)
  | RejectCookies l =>
      let '(ctx, lists) := response_cookies (th_context t) (pn_lists p) in
      (p <| pn_lists := lists |>, goto (RejectPublish l) (t <| th_context := ctx |>))
  | RejectPublish l =>
      (p <| pn_context := update (List.filter (fun kv => kv.1 =s "set_cookies") (th_context t)) (router p) |>,
       goto (RejectSend l) t)
  | RejectSend l => (p, goto Done (sent (respond (CRedirect l) (cookies_at (router p) (pn_lists p))) t))
  | Save => (p, goto Publish (t <| th_saved := router p |>))
  | Publish =>
      (p <| pn_context := update (th_context t) (router p) |>,
       goto (match m with GET => Cookies | POST => Handle end) t)
  | Cookies =>
      let '(ctx, lists) := response_cookies (th_context t) (pn_lists p) in
      (p <| pn_lists := lists |>, goto PublishCookies (t <| th_context := ctx |>))
  | PublishCookies =>
      (p <| pn_context := update (List.filter (fun kv => kv.1 =s "set_cookies") (th_context t)) (router p) |>,
       goto Handle t)
  | Handle =>
      match handle t p with
      | (p', Ok (Sent c)) => (p', goto (SendIt c None) t)
      | (p', Ok (Routed r)) => (p', goto (Take r) t)
      | (p', Raise e) => (p', fail_at e FinalKeys t)
      end
  | Take (Raise _) => (p, goto (SendIt server_error None) t)
  | Take (Ok c) =>
      (p, goto (match direct m (router p) with
                | Some (c', k) => SendIt c' (Some k)
                | None => SendIt c None
                end) t)
  | SendIt c drop => (p, goto (after_send drop) (sent (respond c (cookies_at (router p) (pn_lists p))) t))
  | Drop k =>
      if dmem k (router p) then (p <| pn_context := ddel k (router p) |>, goto After t)
      else (p, goto (SendIt server_error None) t)
  | After =>
      match m with
      | GET => (p, goto FinalKeys t)
      | POST =>
          let '(ctx, lists) := response_cookies (router p) (pn_lists p) in
          (on_router ctx lists p, goto FinalKeys t)
      end
  | FinalKeys => (p, goto (FinalDelete (keys_to_delete (th_saved t) (router p))) t)
  | FinalDelete [] => (p, goto FinalRestore t)
  | FinalDelete (k :: ks) =>
      if dmem k (router p) then (p <| pn_context := ddel k (router p) |>, goto (FinalDelete ks) t)
      else (p, fail_at (Exn KeyError (py_repr_str k)) Done t)
  | FinalRestore => (p <| pn_context := update (restored m (th_saved t)) (router p) |>, goto Done t)
  | Done => (p, t)
  end.

(** ** Schedules *)
(** A thread that runs by itself for a number of steps. *)
Fixpoint run_alone (n : nat) (t : Thread) (p : P) : P * Thread :=
  match n with
  | 0 => (p, t)
  | Datatypes.S n => let '(p, t) := step t p in run_alone n t p
  end.
Record Config := mkConfig { cf_panel : P; cf_threads : list Thread }.
(** A request arrives, a thread makes a step, or the services, which other threads
    of the program use, change. *)
Inductive server_step : Config -> Config -> Prop :=
  | server_arrive r c : server_step c (mkConfig (cf_panel c) (cf_threads c ++ [start r]))
  | server_run i t p' t' c :
      cf_threads c !! i = Some t -> step t (cf_panel c) = (p', t') ->
      server_step c (mkConfig p' (<[i := t']> (cf_threads c)))
  | server_background s c :
      server_step c (mkConfig ((cf_panel c) <| pn_services := s |>) (cf_threads c)).
Definition run_schedule (l : list nat) (c : Config) : Config :=
  foldl (fun c i =>
    match cf_threads c !! i with
    | Some t => let '(p, t) := step t (cf_panel c) in mkConfig p (<[i := t]> (cf_threads c))
    | None => c
    end) c l.
(** [AdminServer(...)]: the context the router starts with. *)
Definition or_none (present : bool) : cval := if present then CService else CNone.
Definition initial_context (github_manager secret_backend event_bus engine sync : bool) : context :=
  [("auth_manager", CService); ("audit_manager", CService); ("github_manager", or_none github_manager);
   ("secret_backend", or_none secret_backend);
   ("event_bus", if event_bus then CService else CText "UNKNOWN");
   ("runtime_engine", if engine then CService else CText "UNKNOWN");
   ("local_operational_path", CNone); ("bootstrap_snapshot", CSnapshot 0); ("sync_service", or_none sync);
   ("execution_manager", CService); ("telemetry_collector", CService); ("telemetry_aggregator", CService)].
Definition initial_panel (ctx : context) (repos : list DiscoveredRepository) (admin : AdminSt)
    (audit : AuditSt) (g : G) (s : S) : P :=
  mkPanel ctx [] [mkSnapshot SNone repos] admin audit g s.
End Server.
