(* ===== verification/AdminFacts.v ===== *)
(** * What the administration panel guarantees

    The handlers keep every property of the panel that its services and the keys
    they write do not concern; a request run alone ends and leaves the shared
    context as it was; under every interleaving only admitted requests are handled
    and only cookies of sessions that were created are sent; and what interleaving
    does break. *)
From S2P Require Import Prelude Dict PyVal Effects PyStr PyBytes Json Identity.
From S2P Require Import Github Continuity Core Bootstrap GithubAuth Admin AdminRoutes AdminServer.

(** ** What handlers keep *)
(** The keys a handler may set. *)
Definition HANDLER_KEYS : list string :=
  ["direct_json_response"; "direct_html_response"; "destroy_session"; "bootstrap_snapshot"].

(** The name a computation starts with. *)
Ltac head_of t := lazymatch t with ?f _ => head_of f | _ => t end.
Section Keeps.
Context {env : AdminEnv} {penv : PanelEnv} {floats : FloatOps} (mgr : AdminSessionManager) (audit_runtime_id : string).
Context {G S : Type} {github : GithubService G} {services : PanelServices S}.
Abbreviation P := (Panel G S).
(** The replacement of an onboarding session, the one place a handler opens one. *)
Definition reopen : M P unit :=
  y ← in_admin (create_session mgr "admin"); set_key "new_session_id" (CText (as_id y)).
Class PanelInv (I : P -> Prop) : Prop := {
  inv_github p g : I p -> I (p <| pn_github := g |>);
  inv_services p s : I p -> I (p <| pn_services := s |>);
  inv_audit p a : I p -> I (p <| pn_audit := a |>);
  inv_snapshots p l : I p -> I (p <| pn_snapshots := l |>);
  inv_key p k v : k ∈ HANDLER_KEYS -> I p -> I (p <| pn_context := dset k v (pn_context p) |>);
  inv_destroy id : preserves I (in_admin (destroy id));
  inv_reopen : preserves I reopen }.

Context (I : P -> Prop) {inv : PanelInv I}.
Lemma keeps_github {A} (m : M G A) : preserves I (in_github m).
Proof. intros p Hp. apply wp_zoom. unfold wp. destruct (m _). by apply inv_github. Qed.
Lemma keeps_services {A} (m : M S A) : preserves I (in_services m).
Proof. intros p Hp. apply wp_zoom. unfold wp. destruct (m _). by apply inv_services. Qed.
Lemma keeps_audit {A} (m : M AuditSt A) : preserves I (in_audit m).
Proof. intros p Hp. apply wp_zoom. unfold wp. destruct (m _). by apply inv_audit. Qed.
Lemma keeps_key k v : k ∈ HANDLER_KEYS -> preserves I (set_key k v).
Proof. intros Hk. apply preserves_modify. intros p. by apply inv_key. Qed.
Lemma keeps_snapshot f : preserves I (modify (fun p => p <| pn_snapshots := f p |>)).
Proof. apply preserves_modify. intros p. by apply inv_snapshots. Qed.
Lemma keeps_put_snapshot sn : preserves I (put_snapshot sn).
Proof.
  intros p Hp. unfold put_snapshot, set_key, modify, wp. apply (inv_key _ "bootstrap_snapshot" _); [|].
  - unfold HANDLER_KEYS. by repeat constructor.
  - by apply inv_snapshots.
Qed.
Lemma keeps_destroy id : preserves I (in_admin (destroy id)).
Proof. apply inv_destroy. Qed.
Lemma keeps_reopen : preserves I reopen.
Proof. apply inv_reopen. Qed.
#[local] Hint Resolve keeps_github keeps_services keeps_audit keeps_snapshot keeps_put_snapshot keeps_destroy : keeps.
#[local] Hint Extern 1 (preserves _ (set_key _ _)) =>
  (apply keeps_key; apply (bool_decide_unpack _); vm_compute; exact Logic.I) : keeps.
#[local] Hint Extern 2 (preserves _ (when _ _)) => apply preserves_when : keeps.
(** Opens the definitions of the routes. *)
Ltac keeps_open := auto 20 with keeps nocore.
Lemma keeps_get_key k : preserves I (get_key k). Proof. unfold get_key. keeps_open. Qed.
#[local] Hint Resolve keeps_get_key : keeps.
Lemma keeps_service k : preserves I (service k). Proof. unfold service. keeps_open. Qed.
#[local] Hint Resolve keeps_service : keeps.
Lemma keeps_direct_json v : preserves I (direct_json v). Proof. unfold direct_json. keeps_open. Qed.
Lemma keeps_view n a : preserves I (view n a). Proof. unfold view. keeps_open. Qed.
Lemma keeps_session : preserves I current_session. Proof. unfold current_session. keeps_open. Qed.
#[local] Hint Resolve keeps_direct_json keeps_view keeps_session : keeps.
Lemma keeps_csrf : preserves I get_csrf. Proof. unfold get_csrf. keeps_open. Qed.
#[local] Hint Resolve keeps_csrf : keeps.
Lemma keeps_template t a : preserves I (call_template t a).
Proof. unfold call_template. by case_match; keeps_open. Qed.
#[local] Hint Resolve keeps_template : keeps.
Lemma keeps_render t a : preserves I (render t a). Proof. unfold render. keeps_open. Qed.
Lemma keeps_first k d : preserves I (first_value k d). Proof. unfold first_value. keeps_open. Qed.
#[local] Hint Resolve keeps_render keeps_first : keeps.
Lemma keeps_audited a r d : preserves I (audit audit_runtime_id a r d).
Proof. unfold audit. keeps_open. Qed.
Lemma keeps_token : preserves I token_present. Proof. unfold token_present. keeps_open. Qed.
#[local] Hint Resolve keeps_audited keeps_token : keeps.
Lemma keeps_fabric : preserves I get_fabric_client. Proof. unfold get_fabric_client. keeps_open. Qed.
#[local] Hint Resolve keeps_fabric : keeps.
Ltac opens := intros; match goal with |- preserves _ ?m => let h := head_of m in unfold h end; keeps_open.
Lemma keeps_status_text : preserves I github_status_text. Proof. opens. Qed.
Lemma keeps_engine_view : preserves I engine_view. Proof. opens. Qed.
Lemma keeps_error path : preserves I (error_of path). Proof. opens. Qed.
Lemma keeps_the_snapshot : preserves I snapshot. Proof. opens. Qed.
Lemma keeps_listed k n d : preserves I (listed k n d). Proof. opens. Qed.
#[local] Hint Resolve keeps_status_text keeps_engine_view keeps_error keeps_the_snapshot keeps_listed : keeps.
Lemma keeps_known_engine : preserves I known_engine. Proof. opens. Qed.
Lemma keeps_listing t k n d : preserves I (listing t k n d). Proof. opens. Qed.
Lemma keeps_placeholder t p : preserves I (placeholder t p). Proof. opens. Qed.
#[local] Hint Resolve keeps_known_engine keeps_listing keeps_placeholder : keeps.
Lemma keeps_dto : preserves I get_continuity_dto. Proof. opens. Qed.
#[local] Hint Resolve keeps_dto : keeps.
Lemma keeps_api_status : preserves I (handle_api_status mgr). Proof. opens. Qed.
Lemma keeps_readiness : preserves I readiness. Proof. opens. Qed.
Lemma keeps_bootstrap_api : preserves I handle_bootstrap_api. Proof. opens. Qed.
Lemma keeps_dashboard path : preserves I (handle_dashboard path). Proof. opens. Qed.
Lemma keeps_github_page path : preserves I (handle_github path). Proof. opens. Qed.
Lemma keeps_registered h : preserves I (registered h). Proof. opens. Qed.
#[local] Hint Resolve keeps_registered : keeps.
Lemma keeps_fabric_page : preserves I handle_fabric. Proof. opens. Qed.
Lemma keeps_doctor : preserves I handle_doctor. Proof. opens. Qed.
Lemma keeps_organization : preserves I handle_universe_organization. Proof. opens. Qed.
Lemma keeps_entries l : preserves I (repository_entries l).
Proof. induction l; unfold repository_entry; simpl; keeps_open. Qed.
#[local] Hint Resolve keeps_entries : keeps.
Lemma keeps_repositories : preserves I handle_universe_repositories. Proof. opens. Qed.
Lemma keeps_list_resources : preserves I list_resources. Proof. opens. Qed.
#[local] Hint Resolve keeps_list_resources : keeps.
Lemma keeps_resources : preserves I handle_universe_resources. Proof. opens. Qed.
Lemma keeps_accounts : preserves I handle_universe_accounts. Proof. opens. Qed.
Lemma keeps_notice t : preserves I (account_notice t). Proof. opens. Qed.
#[local] Hint Resolve keeps_notice : keeps.
Lemma keeps_account path : preserves I (handle_universe_account_detail path). Proof. opens. Qed.
Lemma keeps_capabilities : preserves I handle_intelligence_capabilities. Proof. opens. Qed.
Lemma keeps_topology : preserves I handle_infrastructure_topology. Proof. opens. Qed.
Lemma keeps_events : preserves I handle_audit_events. Proof. opens; unfold read_recent_limit; keeps_open. Qed.
Lemma keeps_provenance path : preserves I (handle_audit_provenance path). Proof. opens. Qed.
Lemma keeps_search path : preserves I (handle_search path). Proof. opens. Qed.
Lemma keeps_undefined {A} : preserves I (undefined_layout : M P A). Proof. opens. Qed.
#[local] Hint Resolve keeps_undefined : keeps.
Lemma keeps_browser : preserves I handle_browser_dashboard. Proof. opens. Qed.
Lemma keeps_matrix path : preserves I (handle_processing_matrix path). Proof. opens; unfold aggregated; keeps_open. Qed.
Lemma keeps_processing path : preserves I (handle_processing_events path). Proof. opens; unfold aggregated; keeps_open. Qed.
Lemma keeps_logout : preserves I (handle_logout audit_runtime_id). Proof. opens. Qed.
Lemma keeps_engine_result : preserves I engine_result. Proof. opens. Qed.
#[local] Hint Resolve keeps_engine_result : keeps.
Lemma keeps_rediscover : preserves I rediscover. Proof. opens. Qed.
Lemma keeps_replace : preserves I (replace_onboarding_session mgr).
Proof.
  unfold replace_onboarding_session. apply preserves_bind; [keeps_open|]. intros session.
  apply preserves_bind; [keeps_open|]. intros auth. destruct session as [x|]; [|keeps_open].
  apply preserves_when, preserves_bind; [keeps_open|]. intros _.
  apply preserves_bind; [keeps_open|]. intros _. apply inv_reopen.
Qed.
#[local] Hint Resolve keeps_rediscover keeps_replace : keeps.
Lemma keeps_onboarded : preserves I (onboarded mgr). Proof. opens. Qed.
Lemma keeps_error_page e : preserves I (error_page e). Proof. opens. Qed.
#[local] Hint Resolve keeps_onboarded keeps_error_page : keeps.
Lemma keeps_github_token form : preserves I (handle_github_token mgr audit_runtime_id form).
Proof. opens; unfold form_value; keeps_open. Qed.
Lemma keeps_device_init : preserves I handle_github_device_init. Proof. opens. Qed.
Lemma keeps_device_poll : preserves I (handle_github_device_poll mgr audit_runtime_id). Proof. opens. Qed.
Lemma keeps_verify : preserves I handle_verify_bootstrap. Proof. opens. Qed.
Lemma keeps_github_disconnect : preserves I (handle_github_disconnect audit_runtime_id). Proof. opens. Qed.
Lemma keeps_recorded a l : preserves I (recorded audit_runtime_id a l). Proof. opens. Qed.
Lemma keeps_set_result r : preserves I (set_snapshot_result r). Proof. opens. Qed.
#[local] Hint Resolve keeps_set_result : keeps.
Lemma keeps_fabric_setup form : preserves I (handle_fabric_setup audit_runtime_id form).
Proof. opens; unfold form_value; keeps_open. Qed.
#[local] Hint Resolve keeps_api_status keeps_readiness keeps_bootstrap_api keeps_dashboard keeps_github_page
  keeps_fabric_page keeps_doctor keeps_organization keeps_repositories keeps_resources keeps_accounts
  keeps_account keeps_capabilities keeps_topology keeps_events keeps_provenance keeps_search keeps_browser
  keeps_matrix keeps_processing keeps_logout keeps_github_token keeps_device_init keeps_device_poll
  keeps_verify keeps_github_disconnect keeps_recorded keeps_fabric_setup : keeps.
Lemma keeps_text m : preserves I m -> preserves I (as_text m : M P body).
Proof. unfold as_text. keeps_open. Qed.
Lemma keeps_attempt {A} f (m : M P A) : preserves I m -> preserves I (attempt f m).
Proof. unfold attempt. keeps_open. Qed.
Lemma keeps_sending m : preserves I m -> preserves I (sending m : M P verdict).
Proof. unfold sending. keeps_open. Qed.
#[local] Hint Resolve keeps_text keeps_attempt keeps_sending : keeps.
Lemma keeps_get_routes raw : Forall (fun kv => preserves I kv.2) (get_routes mgr audit_runtime_id raw).
Proof. unfold get_routes. repeat (apply Forall_cons; split; [cbn [snd]; keeps_open|]). done. Qed.
Lemma keeps_post_routes form : Forall (fun kv => preserves I kv.2) (post_routes mgr audit_runtime_id form).
Proof. unfold post_routes. repeat (apply Forall_cons; split; [cbn [snd]; keeps_open|]). done. Qed.
Lemma keeps_route {A} (l : list (string * M P A)) path h :
  Forall (fun kv => preserves I kv.2) l -> dget path l = Some h -> preserves I h.
Proof.
  induction l as [|[k m] l IH]; intros Hl Hg; [done|]. apply Forall_cons in Hl as [H1 H2].
  simpl in Hg. destruct (decide (path = k)); [|by apply IH]. by injection Hg as <-.
Qed.
Lemma keeps_detail path k : (forall id, preserves I (k id)) -> preserves I (detail path k : M P content).
Proof. intros. unfold detail. keeps_open. Qed.
Lemma keeps_found n a k : (forall v, preserves I (k v)) -> preserves I (found n a k : M P content).
Proof. intros. unfold found. keeps_open. Qed.
#[local] Hint Resolve keeps_detail keeps_found : keeps.
Lemma keeps_dispatch_get raw : preserves I (dispatch_get mgr audit_runtime_id raw).
Proof.
  unfold dispatch_get, handle_worker_detail, handle_model_detail, handle_browser_session_detail.
  repeat (case_match; [keeps_open; fail|]).
  destruct (dget _ _) as [h|] eqn:E; [|keeps_open]. apply keeps_attempt.
  by apply (keeps_route _ _ _ (keeps_get_routes raw) E).
Qed.
Lemma keeps_dispatch_post raw form b : preserves I (dispatch_post mgr audit_runtime_id raw form b).
Proof.
  unfold dispatch_post. case_match; [keeps_open|]. destruct (dget _ _) as [h|] eqn:E; [|keeps_open].
  apply keeps_attempt. by apply (keeps_route _ _ _ (keeps_post_routes form) E).
Qed.
Lemma keeps_synced o u : preserves I (synced o u). Proof. opens. Qed.
#[local] Hint Resolve keeps_dispatch_get keeps_dispatch_post keeps_synced : keeps.
(** A handler keeps what its writes and its services do not concern. *)
Lemma handle_keeps t : preserves I (handle mgr audit_runtime_id t).
Proof. opens. Qed.
End Keeps.

(** ** Updating a context *)
Section Contexts.
Lemma dget_update k (d ctx : context) : dict_wf d ->
  dget k (update d ctx) = match dget k d with Some v => Some v | None => dget k ctx end.
Proof.
  unfold update, dict_wf, dkeys. revert ctx. induction d as [|[k' v'] d IH]; intros ctx Hwf; [done|].
  csimpl in *. apply NoDup_cons in Hwf as [Hn Hwf]. rewrite IH by done. destruct (decide (k = k')) as [->|Hne].
  - apply dget_None in Hn. rewrite Hn. apply dget_dset_same.
  - destruct (dget k d); [done|]. by apply dget_dset_other.
Qed.
Lemma dget_filter_key (f : string -> bool) k (d : context) :
  dget k (List.filter (fun kv => f kv.1) d) = if f k then dget k d else None.
Proof.
  induction d as [|[k' v] d IH]; simpl; [by destruct (f k)|].
  destruct (f k') eqn:E; simpl; (destruct (decide (k = k')) as [->|Hne]); rewrite ?E; try done.
  by rewrite IH, E.
Qed.
Lemma filter_key_wf (f : string -> bool) (d : context) : dict_wf d -> dict_wf (List.filter (fun kv => f kv.1) d).
Proof.
  unfold dict_wf, dkeys. induction d as [|[k v] d IH]; intros Hwf; [done|]. csimpl in *.
  apply NoDup_cons in Hwf as [Hn Hwf]. destruct (f k); [|by apply IH]. csimpl. apply NoDup_cons.
  split; [|by apply IH]. contradict Hn. apply list_elem_of_fmap in Hn as ([k' v'] & -> & Hin).
  apply list_elem_of_fmap. exists (k', v'). split; [done|]. apply list_elem_of_In, filter_In in Hin as [Hin _].
  by apply list_elem_of_In.
Qed.
(** Deleting, one after another, the keys of a context that satisfy [f]. *)
Lemma ddel_app_skip k (kept rest : context) v : k ∉ dkeys kept ->
  ddel k (kept ++ (k, v) :: rest) = kept ++ rest.
Proof.
  unfold dkeys. induction kept as [|[k' v'] kept IH]; intros Hn; simpl; [by rewrite decide_True|].
  csimpl in Hn. apply not_elem_of_cons in Hn as [H1 H2]. rewrite decide_False by done. by rewrite IH.
Qed.
Lemma dmem_app_mid k (kept rest : context) v : dmem k (kept ++ (k, v) :: rest) = true.
Proof. apply dmem_true. unfold dkeys. rewrite fmap_app. apply elem_of_app. right. csimpl. apply elem_of_cons. by left. Qed.
(** A context of which the keys that satisfy [f] and are still there are [ks]. *)
Definition pending (f : string -> bool) (ks : list string) (ctx : context) : Prop :=
  exists kept rest, ctx = kept ++ rest /\ ks = List.filter f (dkeys rest) /\ (forall k, k ∈ dkeys kept -> f k = false).
Lemma pending_start f ctx : pending f (List.filter f (dkeys ctx)) ctx.
Proof. exists [], ctx. split_and!; [done..|]. by intros k ?%not_elem_of_nil. Qed.
Lemma pending_next f k ks ctx : pending f (k :: ks) ctx -> dmem k ctx = true /\ pending f ks (ddel k ctx).
Proof.
  intros (kept & rest & -> & Hks & Hk). revert kept Hk Hks.
  induction rest as [|[k' v] rest IH]; intros kept Hk Hks; [done|]. cbn [dkeys fmap list_fmap] in Hks. csimpl in Hks.
  destruct (f k') eqn:Ef.
  - injection Hks as <- ->. split; [apply dmem_app_mid|]. rewrite ddel_app_skip.
    + by exists kept, rest.
    + intros Hin%Hk. congruence.
  - destruct (IH (kept ++ [(k', v)])) as [H1 H2]; [|done|].
    + intros k0. unfold dkeys. rewrite fmap_app, elem_of_app. intros [?|Hin]; [by apply Hk|].
      csimpl in Hin. apply elem_of_cons in Hin as [->|?%not_elem_of_nil]; done.
    + by rewrite <- !(assoc_L (++)) in H1, H2.
Qed.
Lemma pending_end f ctx : pending f [] ctx -> forall k, k ∈ dkeys ctx -> f k = false.
Proof.
  intros (kept & rest & -> & Hks & Hk) k. unfold dkeys. rewrite fmap_app, elem_of_app. intros [Hin|Hin]; [by apply Hk|].
  destruct (f k) eqn:Ef; [|done]. assert (k ∈ List.filter f (dkeys rest)) as Hin'.
  { apply list_elem_of_In, filter_In. split; [by apply list_elem_of_In|done]. }
  rewrite <- Hks in Hin'. by apply not_elem_of_nil in Hin'.
Qed.
End Contexts.

(** ** A request run alone *)
Section Alone.
Context {env : AdminEnv} {penv : PanelEnv} {floats : FloatOps} (mgr : AdminSessionManager) (audit_runtime_id : string).
Context {G S : Type} {github : GithubService G} {services : PanelServices S}.
Abbreviation P := (Panel G S).
Abbreviation step := (step mgr audit_runtime_id).
Abbreviation run_alone := (run_alone mgr audit_runtime_id).

(** Where a thread stands: every step goes down, whatever the context holds. *)
Definition stage (k : pc) : nat :=
  match k with
  | Copy => 20 | Authenticate => 19 | ReadBody => 18
  | Save => 17 | Publish => 16 | Cookies => 15 | PublishCookies => 14 | Handle => 13 | Take _ => 12
  | SendIt _ (Some _) => 11 | Drop _ => 10 | SendIt _ None => 9 | After => 8 | FinalKeys => 7
  | RejectCookies _ => 6 | RejectPublish _ => 5 | RejectSend _ => 4
  | FinalDelete _ => 3 | FinalRestore => 2 | Done => 0
  end.
Definition left_to_delete (k : pc) : nat := match k with FinalDelete ks => length ks | _ => 0 end.
Definition closer (k' k : pc) : Prop :=
  stage k' < stage k \/ stage k' = stage k /\ left_to_delete k' < left_to_delete k.
Lemma step_closer t p : th_pc t <> Done -> closer (th_pc (step t p).2) (th_pc t).
Proof.
  destruct t as [[m path h ct cl bd] k ctx sv form out err]. unfold closer, step. cbn [th_pc th_request rq_method].
  destruct k as [| |l|l|l| | | | | | |[c|e]|c [d|]|k| | |[|k ks]| |]; intros Hne; try done;
    try (left; simpl; lia).
  - left. unfold authenticate. destruct (token_known p) as [p1 [ht|e]]; [|simpl; lia].
    destruct (in_admin _ p1) as [p2 [[[|] cx]|e]]; cbn; [destruct m; simpl; lia|lia..].
  - left. destruct (response_cookies _ _ _). simpl. lia.
  - left. unfold read_body. destruct (read_form _); [|simpl; lia].
    destruct (process_post_body _ _ _) as [[[|] cx]|e]; simpl; lia.
  - left. destruct m; simpl; lia.
  - left. destruct (response_cookies _ _ _). simpl. lia.
  - left. destruct (handle _ _ _ _) as [p' [[c|r]|e]]; simpl; lia.
  - left. destruct (direct m (router p)) as [[c' k]|]; simpl; lia.
  - left. destruct (dmem k (router p)); simpl; lia.
  - left. destruct m; [simpl; lia|]. destruct (response_cookies _ _ _). simpl. lia.
  - destruct (dmem k (router p)); simpl; [right|left]; lia.
Qed.
(** A request ends, whatever its handler, its services and the context do. *)
Theorem request_ends t p : exists n, th_pc (run_alone n t p).2 = Done.
Proof.
  remember (stage (th_pc t)) as a eqn:Ea. remember (left_to_delete (th_pc t)) as b eqn:Eb.
  revert b t p Ea Eb. induction a as [a IHa] using lt_wf_ind. induction b as [b IHb] using lt_wf_ind.
  intros t p -> ->. destruct (decide (stage (th_pc t) = 0)) as [E|E].
  { exists 0. simpl. by destruct (th_pc t) as [| | | | | | | | | | | |? [|]| | | | | |]. }
  assert (th_pc t <> Done) as Hne by (intros H; by rewrite H in E).
  pose proof (step_closer t p Hne) as Hc. destruct (step t p) as [p' t'] eqn:Es. cbn [snd] in Hc.
  assert (exists n, th_pc (run_alone n t' p').2 = Done) as [n Hn].
  { destruct Hc as [Hc|[Hs Hc]]; [by eapply (IHa _ Hc)|]. by apply (IHb _ Hc); [rewrite Hs|]. }
  exists (Datatypes.S n). cbn [AdminServer.run_alone]. rewrite Es. exact Hn.
Qed.

(** The context of a server that is answering no request: the keys requests add are
    not in it, but for the cookies a refusal leaves. *)
Definition REQUEST_KEYS : list string :=
  ["admin_session"; "new_session_id"; "secure_cookie"; "destroy_session"; "redirect_to";
   "direct_json_response"; "direct_html_response"].
Definition quiet (ctx : context) : Prop :=
  dict_wf ctx /\ (forall k, k ∈ shared_keys -> dmem k ctx = true) /\
  (forall k, k ∈ REQUEST_KEYS -> dget k ctx = None).
Definition agrees (ctx0 ctx : context) : Prop := forall k, k <> "set_cookies" -> dget k ctx = dget k ctx0.
Definition deletable (ctx0 : context) (k : string) : bool := negb (dmem k ctx0) && negb (str_in k shared_keys).
Lemma agrees_update_cookies (ctx0 d : context) :
  agrees ctx0 (update (List.filter (fun kv => kv.1 =s "set_cookies") d) ctx0).
Proof.
  unfold update, agrees. set (l := List.filter _ _). assert (forall kv, kv ∈ l -> kv.1 = "set_cookies") as Hl.
  { intros kv Hkv%list_elem_of_In. apply filter_In in Hkv as [_ H]. by apply String.eqb_eq. }
  assert (forall ctx, (forall k, k <> "set_cookies" -> dget k ctx = dget k ctx0) ->
    forall k, k <> "set_cookies" -> dget k (foldl (fun ctx kv => dset kv.1 kv.2 ctx) ctx l) = dget k ctx0) as H; [|by apply H].
  clearbody l. induction l as [|[k v] l IH]; intros ctx Hctx k0 Hk0; [by apply Hctx|]. simpl. apply IH; [| |done].
  - intros kv Hin. apply Hl. apply elem_of_cons. by right.
  - intros k1 Hk1. assert (k = "set_cookies") as -> by (apply (Hl (k, v)), elem_of_cons; by left).
    rewrite dget_dset_other by done. by apply Hctx.
Qed.
Lemma agrees_restored m ctx0 ctx : quiet ctx0 ->
  (forall k, k ∈ dkeys ctx -> deletable ctx0 k = false) -> agrees ctx0 (update (restored m ctx0) ctx).
Proof.
  intros (Hwf & Hsh & Hq) Hc k Hk. unfold restored.
  rewrite dget_update by by apply (filter_key_wf (fun k => negb (str_in k (excluded m)))).
  rewrite (dget_filter_key (fun k => negb (str_in k (excluded m)))). destruct (str_in k (excluded m)) eqn:Ee; simpl.
  - assert (k ∈ REQUEST_KEYS) as Hr.
    { apply str_in_true in Ee. unfold excluded, post_excluded, get_excluded, REQUEST_KEYS in *.
      destruct m; simpl in Ee; repeat (apply elem_of_cons in Ee as [->|Ee]; [done || by repeat constructor|]);
        by apply not_elem_of_nil in Ee. }
    rewrite (Hq _ Hr). destruct (dget k ctx) as [v|] eqn:Ed; [|done].
    apply dget_key, Hc in Ed. unfold deletable, dmem in Ed. rewrite (Hq _ Hr) in Ed. simpl in Ed.
    apply negb_false_iff, str_in_true in Ed. specialize (Hsh _ Ed). unfold dmem in Hsh. by rewrite (Hq _ Hr) in Hsh.
  - destruct (dget k ctx0) as [v|] eqn:E0; [done|]. destruct (dget k ctx) as [v|] eqn:Ed; [|done].
    apply dget_key, Hc in Ed. unfold deletable, dmem in Ed. rewrite E0 in Ed. simpl in Ed.
    apply negb_false_iff, str_in_true in Ed. specialize (Hsh _ Ed). unfold dmem in Hsh. by rewrite E0 in Hsh.
Qed.
(** What is known of the shared context at each point. *)
Definition context_at (ctx0 : context) (t : Thread) (p : P) : Prop :=
  match th_pc t with
  | Copy | Authenticate | ReadBody | RejectCookies _ | RejectPublish _ | Save => router p = ctx0
  | RejectSend _ | Done => agrees ctx0 (router p)
  | Publish => router p = ctx0 /\ th_saved t = ctx0
  | Cookies | PublishCookies | Handle | Take _ | SendIt _ _ | Drop _ | After | FinalKeys => th_saved t = ctx0
  | FinalDelete ks => th_saved t = ctx0 /\ pending (deletable ctx0) ks (router p)
  | FinalRestore => th_saved t = ctx0 /\ forall k, k ∈ dkeys (router p) -> deletable ctx0 k = false
  end.
(** Asking whether there is a token changes the GitHub manager alone. *)
Lemma token_known_keeps (I : P -> Prop) : (forall p g, I p -> I (p <| pn_github := g |>)) -> preserves I token_known.
Proof.
  intros HI. unfold token_known. apply preserves_bind; [unfold service, get_key; auto with keeps|]. intros [|]; [|auto with keeps].
  apply preserves_bind; [|auto with keeps]. intros p Hp. apply wp_zoom. unfold wp. destruct (gh_has_token (pn_github p)). by apply HI.
Qed.
Lemma authenticate_router ctx0 t (p : P) : router p = ctx0 -> router (authenticate mgr t p).1 = ctx0.
Proof.
  intros H. unfold authenticate.
  assert (router (token_known p).1 = ctx0) as Hm
    by by apply (preserves_state (fun p' => router p' = ctx0)); [apply token_known_keeps|].
  destruct (token_known p) as [p1 [ht|e]]; [|done]. cbn [fst] in Hm. unfold in_admin, zoom.
  destruct (process_request _ _ _ _ _) as [a [[ok cx]|e]]; done.
Qed.
Lemma authenticate_pc t (p : P) : exists k, th_pc (authenticate mgr t p).2 = k /\ th_saved (authenticate mgr t p).2 = th_saved t /\
  (k = Done \/ k = Save \/ k = ReadBody \/ exists l, k = RejectCookies l).
Proof.
  unfold authenticate. destruct (token_known p) as [p1 [ht|e]]; [|eexists; split_and!; [reflexivity|done|by left]].
  destruct (in_admin _ p1) as [p2 [[[|] cx]|e]]; (eexists; split_and!; [reflexivity|done|]); [|by eauto|by left].
  cbn. destruct (rq_method _); auto.
Qed.
Lemma read_body_pc t (p : P) : exists k, th_pc (read_body t p) = k /\ th_saved (read_body t p) = th_saved t /\
  (k = Done \/ k = Save \/ exists l, k = RejectCookies l).
Proof.
  unfold read_body. destruct (read_form _) as [form|e]; [|eexists; split_and!; [reflexivity|done|by left]].
  destruct (process_post_body _ _ _) as [[[|] cx]|e]; (eexists; split_and!; [reflexivity|done|]); cbn; eauto.
Qed.
Lemma context_step ctx0 t p : quiet ctx0 -> context_at ctx0 t p ->
  context_at ctx0 (step t p).2 (step t p).1.
Proof.
  intros Hq H. assert (forall p' : P, router p' = ctx0 -> agrees ctx0 (router p')) as Heq by (intros p' ->; by intros ?).
  unfold context_at in H. unfold step. destruct (th_pc t) as [| |l|l|l| | | | | | |[c|e]|c [d|]|k| | |[|k ks]| |] eqn:Ek;
    try exact H.
  - pose proof (authenticate_router ctx0 t p H) as Hr. destruct (authenticate_pc t p) as (k & Hk & _ & Hc).
    unfold context_at. rewrite Hk. destruct Hc as [->|[->|[->|[l ->]]]]; auto.
  - destruct (response_cookies _ _ _). exact H.
  - unfold context_at. cbn. rewrite H. apply agrees_update_cookies.
  - destruct (read_body_pc t p) as (k & Hk & _ & Hc). unfold context_at. cbn [fst snd]. rewrite Hk.
    destruct Hc as [->|[->|[l ->]]]; auto.
  - by split.
  - destruct H as [_ H]. unfold context_at. cbn. by destruct (rq_method (th_request t)).
  - destruct (response_cookies _ _ _). exact H.
  - destruct (handle _ _ _ _) as [p' [[c|r]|e]]; exact H.
  - unfold context_at. cbn. by destruct (direct _ _) as [[c' k]|].
  - unfold context_at. cbn. by destruct (dmem k (router p)).
  - destruct (rq_method (th_request t)); [exact H|]. destruct (response_cookies _ _ _). exact H.
  - unfold context_at. cbn. split; [done|]. rewrite H. apply pending_start.
  - destruct H as [H1 H2]. split; [done|]. by apply pending_end.
  - destruct H as [H1 H2]. destruct (pending_next _ _ _ _ H2) as [H3 H4]. rewrite H3. by split.
  - destruct H as [H1 H2]. unfold context_at. cbn. rewrite H1. by apply agrees_restored.
  - cbn [fst snd]. unfold context_at. by rewrite Ek.
Qed.

(** The cookies of a response, and those of an admitted request run alone: the one
    of the session its middleware opened, for a GET, and none for a POST. *)
Definition cookies_of (r : Response) : list string :=
  omap (fun kv => if kv.1 =s "Set-Cookie" then Some kv.2 else None) (rp_headers r).
Definition new_cookies (ctx : context) : list string :=
  match text_at "new_session_id" ctx with
  | Some id => if str_true id then [session_cookie id (sm_ttl_seconds mgr) (cx_secure_cookie (context_of ctx []))] else []
  | None => []
  end.
Definition own_cookies (t : Thread) : list string :=
  match rq_method (th_request t) with GET => new_cookies (th_context t) | POST => [] end.
Definition answers (cs : list string) (r : Response) : Prop := cookies_of r = cs \/ rp_headers r = [].
Lemma answers_respond c cs : answers cs (respond c cs).
Proof.
  assert (omap (fun kv : string * string => if kv.1 =s "Set-Cookie" then Some kv.2 else None) (set_cookie_headers cs) = cs) as H.
  { unfold set_cookie_headers. induction cs as [|c' cs IH]; csimpl; [done|]. by rewrite IH. }
  destruct c as [st b|l|n a]; [left|left|by right]; unfold cookies_of, respond; cbn [rp_headers];
    rewrite !omap_app, H; reflexivity.
Qed.
(** A context with a list of cookies of its own, still empty. *)
Definition fresh (t : Thread) (p : P) : Prop :=
  exists l, dget "set_cookies" (th_context t) = Some (CCookies l) /\ pn_lists p !! l = Some [] /\
    dget "destroy_session" (th_context t) = None /\ dict_wf (th_context t).
Definition cookies_at_pc (ctx0 : context) (t : Thread) (p : P) : Prop :=
  let own := own_cookies t in
  match th_pc t with
  | Copy => th_saved t = [] /\ th_out t = [] /\ router p = ctx0
  | Authenticate => th_saved t = [] /\ th_out t = [] /\ th_context t = ctx0
  | ReadBody | Save => th_saved t = [] /\ th_out t = [] /\ fresh t p
  | RejectCookies _ | RejectPublish _ | RejectSend _ => th_saved t = []
  | Publish => th_out t = [] /\ fresh t p
  | Cookies => th_out t = [] /\ rq_method (th_request t) = GET /\ fresh t p
  | PublishCookies => th_out t = [] /\ dict_wf (th_context t) /\ exists l,
      dget "set_cookies" (th_context t) = Some (CCookies l) /\ pn_lists p !! l = Some own
  | Handle | Take _ | SendIt _ None => cookies_at (router p) (pn_lists p) = own /\ Forall (answers own) (th_out t)
  | SendIt _ (Some k) | Drop k =>
      k ∈ HANDLER_KEYS /\ cookies_at (router p) (pn_lists p) = own /\ Forall (answers own) (th_out t)
  | After | FinalKeys | FinalDelete _ | FinalRestore => Forall (answers own) (th_out t)
  | Done => th_saved t = [] \/ Forall (answers own) (th_out t)
  end.
#[local] Instance cookies_inv cs : PanelInv mgr (fun p : P => cookies_at (router p) (pn_lists p) = cs).
Proof.
  assert (forall k v (ctx : context) ls, k <> "set_cookies" -> cookies_at (dset k v ctx) ls = cookies_at ctx ls) as Hk.
  { intros k v ctx ls Hk. unfold cookies_at. by rewrite dget_dset_other. }
  split; try done.
  - intros p k v Hin H. cbn. rewrite Hk; [done|]. intros ->. revert Hin. apply (bool_decide_unpack _). vm_compute. exact I.
  - intros id p Hp. apply wp_zoom. unfold wp. by destruct (destroy id (pn_admin p)).
  - intros p Hp. unfold reopen. apply wp_bind, wp_zoom. unfold wp at 1.
    destruct (create_session mgr "admin" (pn_admin p)) as [a [x|e]]; [|done]. apply wp_modify. cbn. by rewrite Hk.
Qed.
Lemma dget_authenticated k cx l ctx :
  dget k (authenticated_context cx l ctx) =
    if decide (k = "redirect_to") then match cx_redirect_to cx with Some s => Some (CText s) | None => dget k ctx end
    else if decide (k = "new_session_id") then match cx_new_session_id cx with Some s => Some (CText s) | None => dget k ctx end
    else if decide (k = "set_cookies") then Some (CCookies l)
    else if decide (k = "admin_session") then Some (CSession (cx_admin_session cx))
    else if decide (k = "secure_cookie") then Some (CBool (cx_secure_cookie cx))
    else dget k ctx.
Proof.
  unfold authenticated_context, set_some.
  destruct (cx_redirect_to cx), (cx_new_session_id cx); rewrite !dget_dset;
    repeat (case_decide; subst; try done).
Qed.
Lemma authenticated_wf cx l ctx : dict_wf ctx -> dict_wf (authenticated_context cx l ctx).
Proof.
  intros H. unfold authenticated_context, set_some.
  destruct (cx_redirect_to cx), (cx_new_session_id cx); repeat apply dset_wf; done.
Qed.
Lemma new_cookies_response ctx ls l : dget "set_cookies" ctx = Some (CCookies l) -> ls !! l = Some [] ->
  dget "destroy_session" ctx = None -> response_cookies mgr ctx ls = (ctx, <[l := new_cookies ctx]> ls).
Proof.
  intros H1 H2 H3. unfold response_cookies. rewrite H1. do 2 f_equal. unfold process_response, context_of, cookies_at, new_cookies.
  cbn. rewrite H1, H2, H3. cbn. destruct (text_at _ _) as [id|]; [|done]. by destruct (str_true id).
Qed.
Lemma cookies_update (d ctx : context) ls l : dict_wf d -> dget "set_cookies" d = Some (CCookies l) ->
  cookies_at (update d ctx) ls = default [] (ls !! l) /\
  cookies_at (update (List.filter (fun kv => kv.1 =s "set_cookies") d) ctx) ls = default [] (ls !! l).
Proof.
  intros Hwf H. unfold cookies_at. split; rewrite dget_update; [by rewrite H|done| |].
  - rewrite (dget_filter_key (fun k => k =s "set_cookies")). simpl. by rewrite H.
  - by apply (filter_key_wf (fun k => k =s "set_cookies")).
Qed.
Lemma authenticate_cookies ctx0 t p : quiet ctx0 -> th_saved t = [] -> th_out t = [] -> th_context t = ctx0 ->
  cookies_at_pc ctx0 (authenticate mgr t p).2 (authenticate mgr t p).1.
Proof.
  intros (Hwf & _ & Hq) Hs Ho Hc. unfold authenticate. destruct (token_known p) as [p1 [ht|e]]; [|by left].
  destruct (in_admin _ p1) as [p2 [[ok cx]|e]]; [|by left].
  set (ctx := authenticated_context _ _ _).
  assert (fresh (t <| th_context := ctx |>) (p2 <| pn_lists := pn_lists p2 ++ [[]] |>)) as Hf.
  { exists (length (pn_lists p2)). cbn. subst ctx. rewrite !dget_authenticated. repeat case_decide; try done.
    split_and!; [done|by apply list_lookup_middle| |].
    - rewrite Hc. apply Hq. unfold REQUEST_KEYS. by repeat constructor.
    - rewrite Hc. by apply authenticated_wf. }
  destruct ok; [|by unfold cookies_at_pc]. unfold cookies_at_pc. cbn. destruct (rq_method _); split_and!; done.
Qed.
Lemma read_body_cookies ctx0 t p : th_pc t = ReadBody -> cookies_at_pc ctx0 t p -> cookies_at_pc ctx0 (read_body t p) p.
Proof.
  intros Ek H. unfold cookies_at_pc in H. rewrite Ek in H. destruct H as (Hs & Ho & l & H1 & H2 & H3 & H4). unfold read_body.
  destruct (read_form _) as [form|e]; [|by left].
  destruct (process_post_body _ _ _) as [[ok cx]|e]; [|by left].
  destruct ok; [|by unfold cookies_at_pc]. unfold cookies_at_pc. cbn. split_and!; [done..|]. exists l. cbn.
  unfold set_some. destruct (cx_redirect_to cx); rewrite ?dget_dset_other by done; split_and!; try done. by apply dset_wf.
Qed.
Lemma cookies_step ctx0 t p : quiet ctx0 -> cookies_at_pc ctx0 t p ->
  cookies_at_pc ctx0 (step t p).2 (step t p).1.
Proof.
  intros Hq H. pose proof H as H0. unfold cookies_at_pc in H. unfold step.
  destruct (th_pc t) as [| |l|l|l| | | | | | |[c|e]|c [d|]|k| | |[|k ks]| |] eqn:Ek; try exact H.
  - destruct H as (H1 & H2 & H3). by apply authenticate_cookies.
  - destruct (response_cookies _ _ _). exact H.
  - by left.
  - by apply read_body_cookies.
  - destruct H as (H1 & H2 & H3). unfold cookies_at_pc. cbn. by split_and!.
  - destruct H as (H1 & l & H2 & H3 & H4 & H5). pose proof (cookies_update (th_context t) (router p) (pn_lists p) l H5 H2) as [H6 _].
    unfold cookies_at_pc. cbn. destruct (rq_method (th_request t)) eqn:Em.
    + split_and!; [done..|]. by exists l.
    + split; [|by rewrite H1]. unfold own_cookies. cbn. rewrite Em, H6, H3. done.
  - destruct H as (H1 & Hm & l & H2 & H3 & H4 & H5). rewrite (new_cookies_response _ _ l H2 H3 H4). unfold cookies_at_pc, own_cookies. cbn.
    rewrite Hm. split_and!; [done..|]. exists l. split; [done|]. apply list_lookup_insert_eq. by apply lookup_lt_Some in H3.
  - destruct H as (H1 & H2 & l & H3 & H4). unfold cookies_at_pc. cbn.
    pose proof (cookies_update (th_context t) (router p) (pn_lists p) l H2 H3) as [_ H6]. rewrite H6, H4. split; [done|]. by rewrite H1.
  - destruct H as [H1 H2]. assert (cookies_at (router (handle mgr audit_runtime_id t p).1) (pn_lists (handle mgr audit_runtime_id t p).1) = own_cookies t) as H3.
    { by apply (preserves_state (fun p : P => cookies_at (router p) (pn_lists p) = own_cookies t)); [apply (handle_keeps mgr); apply _|]. }
    destruct (handle _ _ _ _) as [p' [[c|r]|e]]; [by split|by split|exact H2].
  - unfold cookies_at_pc. cbn. unfold direct. destruct (dget "direct_json_response" (router p)) as [[]|]; try exact H;
      try (destruct (rq_method _), (dget "direct_html_response" (router p)) as [[]|]; try exact H);
      (split; [|exact H]); apply (bool_decide_unpack _); vm_compute; exact I.
  - destruct H as (H1 & H2 & H3). unfold cookies_at_pc. cbn. split_and!; [done..|]. apply Forall_app. split; [done|].
    apply Forall_singleton. assert (answers (own_cookies t) (respond c (cookies_at (router p) (pn_lists p)))) as Ha
      by (rewrite <- H2; apply answers_respond). exact Ha.
  - destruct H as (H2 & H3). unfold cookies_at_pc. cbn. apply Forall_app. split; [done|].
    apply Forall_singleton. assert (answers (own_cookies t) (respond c (cookies_at (router p) (pn_lists p)))) as Ha
      by (rewrite <- H2; apply answers_respond). exact Ha.
  - destruct H as (H1 & H2 & H3). destruct (dmem k (router p)); [exact H3|]. by split.
  - destruct (rq_method (th_request t)); [exact H|]. destruct (response_cookies _ _ _). exact H.
  - destruct (dmem k (router p)); [exact H|by right].
  - by right.
  - exact H0.
Qed.
(** A request that is admitted and answered while no other is: to a GET, the
    cookies sent are the one of the session the middleware opened for it, and to a
    POST there are none, whatever its handler did with sessions. *)
Theorem admitted_cookies r p n : quiet (router p) ->
  let '(p', t') := run_alone n (start r) p in
  th_pc t' = Done -> th_saved t' <> [] -> Forall (answers (own_cookies t')) (th_out t').
Proof.
  intros Hq. assert (forall n t p1, cookies_at_pc (router p) t p1 ->
    cookies_at_pc (router p) (run_alone n t p1).2 (run_alone n t p1).1) as H.
  { clear n. induction n as [|n IH]; intros t p1 H1; [exact H1|]. cbn [AdminServer.run_alone].
    pose proof (cookies_step (router p) t p1 Hq H1) as H2. destruct (step t p1) as [p2 t2]. by apply IH. }
  assert (cookies_at_pc (router p) (start r) p) as H0 by done.
  specialize (H n (start r) p H0). destruct (run_alone n (start r) p) as [p' t'].
  intros E Hs. unfold cookies_at_pc in H. cbn [fst snd] in H. rewrite E in H. by destruct H.
Qed.

(** ** Pages and status *)
(** The panel reports readiness exactly when it calls the runtime healthy. *)
Theorem ready_iff_healthy (p : P) : dget "runtime_engine" (router p) = Some CService ->
  exists (ready : bool) b, (readiness p).2 = Ok (CBody (if ready then 200 else 503) b) /\
    (ready = true <-> runtime_health (ev_state (sv_engine (pn_services p))) (ready_of (sv_engine (pn_services p))) = "HEALTHY").
Proof.
  intros He. unfold readiness, service, get_key, engine_view, gets, mbind, M_bind. fold (router p). rewrite He. cbn.
  set (e := sv_engine (pn_services p)). exists (ready_of e && str_in (ev_state e) ["READY"; "WAITING_FOR_SESSION"]).
  match goal with |- exists b, ?l = _ /\ _ =>
    exists (match l with Ok (CBody _ b) => b | _ => BNone end) end.
  split; [by destruct (ready_of e && _)|]. unfold runtime_health. split.
  - intros [Hr Hs]%andb_true_iff. apply str_in_true in Hs. rewrite Hr.
    repeat (apply elem_of_cons in Hs as [->|Hs]; [done|]). by apply not_elem_of_nil in Hs.
  - destruct (str_in _ ["ERROR"; _]); [done|]. destruct (str_in _ ["STARTING"; _; _; _]); [done|].
    destruct (str_in _ ["READY"; _]); [|done]. by destruct (ready_of e).
Qed.
(** Whatever was discovered, recorded or opened, the pages of repositories and of
    audit events are empty, and the one of browser sessions fails. *)
Definition shows_nothing (template : string) (m : M P body) : Prop := forall p,
  (forall csrf, template_error template [VList []; VStr csrf] = None) ->
  exists csrf, m p = (p, Ok (BPage (Page template [VList []; VStr csrf]))).
Lemma render_page template args (p : P) :
  (forall csrf, template_error template (args ++ [VStr csrf]) = None) ->
  exists csrf, render template args p = (p, Ok (BPage (Page template (args ++ [VStr csrf])))).
Proof.
  intros Ht. unfold render, call_template, get_csrf, current_session, get_key, gets, mbind, M_bind, mret, M_ret.
  destruct (match dget _ _ with Some (CSession o) => o | _ => None end) as [x|];
    rewrite Ht; by eexists.
Qed.
Theorem empty_pages :
  shows_nothing "universe_repositories_page" handle_universe_repositories /\
  (forall p : P, dget "audit_manager" (router p) = Some CService ->
     (forall csrf, template_error "audit_events_page" [VList []; VStr csrf] = None) ->
     exists csrf, handle_audit_events p = (p, Ok (BPage (Page "audit_events_page" [VList []; VStr csrf])))) /\
  (forall (p : P) b, (handle_browser_dashboard p).2 <> Ok b).
Proof.
  split_and!.
  - intros p Ht. unfold handle_universe_repositories.
    destruct (render_page "universe_repositories_page" [VList []] p Ht) as [csrf Hr].
    exists csrf. refine (eq_trans _ Hr). unfold snapshot, get_key, gets, mbind, M_bind.
    assert (forall l (q : P), repository_entries l q = (q, Ok [])) as He by (by intros [|r l] q).
    destruct (dget _ _) as [[]|]; cbn; by rewrite ?He.
  - intros p Ha Ht. unfold handle_audit_events.
    destruct (render_page "audit_events_page" [VList []] p Ht) as [csrf Hr].
    exists csrf. refine (eq_trans _ Hr). unfold service, get_key, gets, mbind, M_bind. fold (router p). by rewrite Ha.
  - intros p b. unfold handle_browser_dashboard, mbind, M_bind, undefined_layout.
    destruct (listed _ _ _ p) as [p1 [v|e]]; [|done]. destruct (get_csrf p1) as [p2 [c|e]]; done.
Qed.
End Alone.
