(* ===== verification/AdminSchedules.v ===== *)
(** * Concurrent requests of the administration panel

    Invariants of the panel's server under every interleaving of its requests: only
    cookies of sessions that were opened are sent, and only requests the middleware
    admitted are handled; and schedules that show what sharing one context does. *)
From S2P Require Import Prelude Dict PyVal Effects PyStr PyBytes Json Identity.
From S2P Require Import Github Continuity Core Bootstrap GithubAuth Admin AdminRoutes AdminServer AdminFacts.
From stdpp Require Import relations.

Section Schedules.
Context {env : AdminEnv} {penv : PanelEnv} {floats : FloatOps} (mgr : AdminSessionManager) (audit_runtime_id : string).
Context {G S : Type} {github : GithubService G} {services : PanelServices S}.
Abbreviation P := (Panel G S).
Abbreviation step := (step mgr audit_runtime_id).
Abbreviation server_step := (server_step mgr audit_runtime_id).

(** ** Only cookies of opened sessions *)
(** The identifiers drawn so far, and the cookies they give. *)
Definition drawn (a : nat) (id : string) : Prop := exists n, n < a /\ token_hex_16 n = id.
Definition cookie_ok (a : nat) (c : string) : Prop :=
  (exists id secure, drawn a id /\ c = session_cookie id (sm_ttl_seconds mgr) secure) \/
  (exists secure, c = session_cookie (dquote +:+ dquote) 0 secure).
Definition good_context (a : nat) (ctx : context) : Prop :=
  forall id, ("new_session_id", CText id) ∈ ctx -> drawn a id.
Definition good_lists (a : nat) (ls : list (list string)) : Prop := Forall (Forall (cookie_ok a)) ls.
Definition good_thread (a : nat) (t : Thread) : Prop :=
  good_context a (th_context t) /\ good_context a (th_saved t) /\
  forall r, r ∈ th_out t -> Forall (cookie_ok a) (cookies_of r).
Definition ticks (p : P) : nat := am_tick (pn_admin p).
(** A panel with at least [a] draws whose context and cookies are good. *)
Definition good_panel (a : nat) (p : P) : Prop :=
  a <= ticks p /\ good_context (ticks p) (router p) /\ good_lists (ticks p) (pn_lists p).
Lemma drawn_mono a a' id : a <= a' -> drawn a id -> drawn a' id.
Proof. intros H (n & ? & ?). exists n. split; [lia|done]. Qed.
Lemma cookie_mono a a' c : a <= a' -> cookie_ok a c -> cookie_ok a' c.
Proof. intros H [(id & b & H1 & H2)|H1]; [left; exists id, b; split; [by eapply drawn_mono|done]|by right]. Qed.
Lemma good_context_mono a a' ctx : a <= a' -> good_context a ctx -> good_context a' ctx.
Proof. intros H Hc id Hin. eapply drawn_mono; [done|]. by apply Hc. Qed.
Lemma good_lists_mono a a' ls : a <= a' -> good_lists a ls -> good_lists a' ls.
Proof.
  intros H Hl. eapply Forall_impl; [exact Hl|]. intros cs Hcs. eapply Forall_impl; [exact Hcs|].
  intros c. by apply cookie_mono.
Qed.
Lemma good_thread_mono a a' t : a <= a' -> good_thread a t -> good_thread a' t.
Proof.
  intros H (H1 & H2 & H3). split_and!; [by eapply good_context_mono..|]. intros r Hr.
  eapply Forall_impl; [by apply H3|]. intros c. by apply cookie_mono.
Qed.
(** Where an entry of a changed context comes from. *)
Lemma elem_dset (kv : string * cval) k v ctx : kv ∈ dset k v ctx -> kv = (k, v) \/ kv ∈ ctx.
Proof.
  induction ctx as [|[k' v'] ctx IH]; simpl; [by intros ->%list_elem_of_singleton; left|].
  destruct (decide (k = k')) as [<-|Hne]; intros [->|Hin]%elem_of_cons; [by left|right; apply elem_of_cons; by right|
    right; apply elem_of_cons; by left|].
  destruct (IH Hin) as [?|?]; [by left|right; apply elem_of_cons; by right].
Qed.
Lemma elem_ddel (kv : string * cval) k ctx : kv ∈ ddel k ctx -> kv ∈ ctx.
Proof.
  induction ctx as [|[k' v'] ctx IH]; simpl; [done|]. destruct (decide (k = k')).
  - intros H. apply elem_of_cons. by right.
  - intros [->|Hin]%elem_of_cons; apply elem_of_cons; [by left|right; by apply IH].
Qed.
Lemma elem_update (kv : string * cval) d ctx : kv ∈ update d ctx -> kv ∈ d \/ kv ∈ ctx.
Proof.
  unfold update. revert ctx. induction d as [|[k v] d IH]; intros ctx; simpl; [by right|]. intros Hin.
  destruct (IH _ Hin) as [H|H]; [left; apply elem_of_cons; by right|].
  apply elem_dset in H as [->|H]; [left; apply elem_of_cons; by left|by right].
Qed.
Lemma elem_filter f (kv : string * cval) ctx : kv ∈ List.filter f ctx -> kv ∈ ctx.
Proof. intros H%list_elem_of_In. apply list_elem_of_In. by apply filter_In in H as [? _]. Qed.
Lemma good_dset a k v ctx : good_context a ctx -> (forall id, k = "new_session_id" -> v = CText id -> drawn a id) ->
  good_context a (dset k v ctx).
Proof. intros H Hv id [E|Hin]%elem_dset; [|by apply H]. injection E as <- <-. by apply Hv. Qed.
Lemma good_ddel a k ctx : good_context a ctx -> good_context a (ddel k ctx).
Proof. intros H id Hin%elem_ddel. by apply H. Qed.
Lemma good_update a d ctx : good_context a d -> good_context a ctx -> good_context a (update d ctx).
Proof. intros H1 H2 id [Hin|Hin]%elem_update; [by apply H1|by apply H2]. Qed.
Lemma good_filter a f ctx : good_context a ctx -> good_context a (List.filter f ctx).
Proof. intros H id Hin%elem_filter. by apply H. Qed.
Lemma good_cookies_at a ctx ls : good_lists a ls -> Forall (cookie_ok a) (cookies_at ctx ls).
Proof.
  intros H. unfold cookies_at. destruct (dget _ _) as [[]|]; try apply List.Forall_nil.
  destruct (ls !! l) as [cs|] eqn:E; [|apply List.Forall_nil]. by apply (Forall_lookup_1 _ _ _ _ H E).
Qed.
Lemma good_response a ctx ls : good_context a ctx -> good_lists a ls ->
  good_context a (response_cookies mgr ctx ls).1 /\ good_lists a (response_cookies mgr ctx ls).2.
Proof.
  intros Hc Hl. unfold response_cookies.
  assert (Forall (cookie_ok a) (cx_set_cookies (process_response mgr (context_of ctx ls)))) as Hcs.
  { unfold process_response. cbn. apply Forall_app. split; [by apply good_cookies_at|]. apply Forall_app. split.
    - unfold text_at. destruct (dget "new_session_id" ctx) as [v|] eqn:E; [|apply List.Forall_nil].
      apply dget_elem in E. destruct v; try apply List.Forall_nil. destruct (str_true s); [|apply List.Forall_nil].
      apply Forall_singleton. left. eexists _, _. split; [by apply Hc|done].
    - destruct (match dget "destroy_session" ctx with Some (CBool b) => b | _ => false end); [|apply List.Forall_nil].
      apply Forall_singleton. right. by eexists. }
  destruct (dget "set_cookies" ctx) as [[]|]; cbn; (split; [try done|]);
    try (apply good_dset; [done|by intros ? [=]]); try (apply Forall_app; split; [done|by apply Forall_singleton]).
  apply Forall_insert; done.
Qed.
Lemma good_respond a c ctx ls : good_lists a ls -> Forall (cookie_ok a) (cookies_of (respond c (cookies_at ctx ls))).
Proof.
  intros H. destruct (answers_respond c (cookies_at ctx ls)) as [E|E]; [rewrite E; by apply good_cookies_at|].
  unfold cookies_of. rewrite E. apply List.Forall_nil.
Qed.
(** The draws of the session manager only go on, and a new session has a drawn
    identifier. *)
Definition opens {A} (f : A -> option string) (m : M AdminSt A) : Prop :=
  forall s, wp m s (fun s' r => am_tick s <= am_tick s' /\
    forall x id, r = Ok x -> f x = Some id -> drawn (am_tick s') id).
Lemma opens_quiet {A} (m : M AdminSt A) f :
  (forall s, am_tick (m s).1 = am_tick s) -> (forall s x, (m s).2 = Ok x -> f x = None) -> opens f m.
Proof.
  intros H1 H2 s. specialize (H1 s). specialize (H2 s). unfold wp. destruct (m s) as [s' r]. cbn in *.
  split; [lia|]. intros x id E Hf. specialize (H2 x E). congruence.
Qed.
Lemma opens_bind {A B} (m : M AdminSt A) (k : A -> M AdminSt B) f :
  opens (fun _ => None) m -> (forall x, opens f (k x)) -> opens f (m ≫= k).
Proof.
  intros Hm Hk s. apply wp_bind. eapply wp_mono; [apply Hm|]. intros s1 [x|e] [H1 _]; [|split; [done|by intros ? ? [=]]].
  eapply wp_mono; [apply Hk|]. intros s2 r [H2 H3]. split; [lia|done].
Qed.
Lemma opens_ret {A} (x : A) f : f x = None -> opens f (mret x).
Proof. intros H. apply opens_quiet; [done|]. by intros s y [= <-]. Qed.
Lemma opens_draw {A} (g : nat -> A) : opens (fun _ => None) (ad_draw g).
Proof. intros s. apply ad_draw_wp. split; [cbn; lia|done]. Qed.
Lemma opens_new ttl scope principal : opens (fun x => Some (as_id x)) (new_session mgr ttl scope principal).
Proof.
  intros s. unfold new_session. apply wp_bind, ad_draw_wp, wp_bind, ad_draw_wp, wp_bind, wp_of_result.
  destruct (add_seconds _ _) as [t|e]; [|split; [cbn; lia|by intros ? ? [=]]]. apply wp_bind, ad_draw_wp, wp_ret.
  split; [cbn; lia|]. intros x id [= <-] [= <-]. cbn [as_id]. eexists. split; [|reflexivity]. cbn. lia.
Qed.
(** A computation after which a session opened before is still drawn. *)
Lemma opens_after {A B} (m : M AdminSt A) (k : A -> M AdminSt B) (f : A -> option string) g :
  opens f m ->
  (forall x s, (forall id, f x = Some id -> drawn (am_tick s) id) ->
     wp (k x) s (fun s' r => am_tick s <= am_tick s' /\
       forall y id, r = Ok y -> g y = Some id -> drawn (am_tick s') id)) ->
  opens g (m ≫= k).
Proof.
  intros Hm Hk s. apply wp_bind. eapply wp_mono; [apply Hm|]. intros s1 [x|e] [H1 H2]; [|split; [done|by intros ? ? [=]]].
  eapply wp_mono; [apply Hk|].
  - intros id Hid. by eapply H2.
  - intros s2 r [H3 H4]. split; [lia|done].
Qed.
Lemma opens_create principal : opens (fun x => Some (as_id x)) (create_session mgr principal).
Proof.
  eapply opens_after; [apply opens_new|]. intros x s H. apply wp_bind, wp_modify, wp_bind.
  unfold wp at 1, persist_session. cbn [am_faults setter].
  destruct (am_faults s) as [|[|] fs]; (split; [cbn; lia|]); intros y id E Hid; try done; injection E as <-; by apply H.
Qed.
Lemma opens_first_run : opens (fun x => Some (as_id x)) (create_first_run_session mgr).
Proof.
  eapply opens_after; [apply opens_new|]. intros x s H. apply wp_bind, wp_modify, wp_ret.
  split; [cbn; lia|]. intros y id [= <-]. cbn. by apply H.
Qed.
Lemma opens_cookie c : opens (fun _ => None) (session_of_cookie c).
Proof.
  unfold session_of_cookie. destruct c as [header|]; [|by apply opens_ret].
  apply opens_bind; [by apply opens_quiet|]. intros [id|]; [|by apply opens_ret].
  destruct (str_true id); [|by apply opens_ret]. unfold Admin.validate. apply opens_bind; [by apply opens_quiet|].
  intros s0. destruct (dget id (am_sessions s0)) as [x|]; [|by apply opens_ret].
  apply opens_bind; [apply opens_draw|]. intros now. destruct (expired now x); [|by apply opens_ret].
  apply opens_bind; [by apply opens_quiet|]. intros _. by apply opens_ret.
Qed.
Lemma opens_authorize ht path local session ctx s :
  (forall id, cx_new_session_id ctx = Some id -> drawn (am_tick s) id) ->
  wp (authorize mgr ht path local session ctx) s (fun s' r => am_tick s <= am_tick s' /\
    forall y id, r = Ok y -> cx_new_session_id y.2 = Some id -> drawn (am_tick s') id).
Proof.
  intros H. unfold authorize.
  assert (forall b cx, cx_new_session_id cx = cx_new_session_id ctx ->
    wp (mret (b, cx)) s (fun s' r => am_tick s <= am_tick s' /\
      forall (y : bool * Context) id, r = Ok y -> cx_new_session_id y.2 = Some id -> drawn (am_tick s') id)) as Hr.
  { intros b cx E. apply wp_ret. split; [done|]. intros y id [= <-]. cbn [snd]. rewrite E. apply H. }
  destruct (is_onboarding session && _); [by apply Hr|]. destruct (_ && local).
  - apply wp_bind. eapply wp_mono; [apply opens_create|]. intros s1 [x|e] [H1 H2]; [|split; [done|by intros ? ? [=]]].
    apply wp_ret. split; [done|]. intros y id [= <-]. cbn. by apply (H2 x).
  - destruct (_ && negb (is_public path)); by apply Hr.
Qed.
Lemma opens_request ht path h : opens (fun r => cx_new_session_id r.2) (process_request mgr ht path h).
Proof.
  unfold process_request. cbv zeta. eapply opens_after; [apply opens_cookie|]. intros session s _.
  destruct (first_run ht && _); [|by apply opens_authorize].
  destruct (str_in _ _).
  - apply wp_bind. eapply wp_mono; [apply opens_first_run|]. intros s1 [x|e] [H1 H2]; [|split; [done|by intros ? ? [=]]].
    eapply wp_mono; [apply opens_authorize|].
    + cbn. intros id [= <-]. by apply (H2 x).
    + intros s2 r [H3 H4]. split; [lia|done].
  - apply wp_ret. split; [done|]. by intros y id [= <-].
Qed.

(** ** The invariant of cookies *)
#[local] Instance good_inv a : PanelInv mgr (good_panel a).
Proof.
  split; try done.
  - intros p k v Hin (H1 & H2 & H3). split_and!; [done| |done]. apply good_dset; [done|]. intros id ->.
    exfalso. revert Hin. apply (bool_decide_unpack _). vm_compute. exact I.
  - intros id p (H1 & H2 & H3). apply wp_zoom. unfold wp, destroy, modify. by split_and!.
  - intros p (H1 & H2 & H3). unfold reopen. apply wp_bind, wp_zoom.
    eapply wp_mono; [apply opens_create|]. intros a' r [H4 H5].
    assert (good_panel a (p <| pn_admin := a' |>)) as Hg.
    { split_and!; [unfold ticks in *; cbn; lia|by eapply good_context_mono|by eapply good_lists_mono]. }
    destruct r as [x|e]; [|done]. destruct Hg as (H6 & H7 & H8). apply wp_modify. split_and!; [done| |done].
    apply good_dset; [done|]. intros id _ [= <-]. by apply (H5 x).
Qed.
Lemma handle_good t p : good_panel (ticks p) p -> good_panel (ticks p) (handle mgr audit_runtime_id t p).1.
Proof. intros H. apply (preserves_state (good_panel (ticks p))); [|done]. apply (handle_keeps mgr); apply _. Qed.
Definition good_pair (a : nat) (p : P) (t : Thread) : Prop :=
  a <= ticks p /\ good_context (ticks p) (router p) /\ good_lists (ticks p) (pn_lists p) /\ good_thread (ticks p) t.
Lemma good_authenticate t p : good_pair (ticks p) p t ->
  good_pair (ticks p) (authenticate mgr t p).1 (authenticate mgr t p).2.
Proof.
  intros (_ & H1 & H2 & H3 & H4 & H5). unfold authenticate.
  assert (ticks (token_known p).1 = ticks p /\ router (token_known p).1 = router p /\ pn_lists (token_known p).1 = pn_lists p) as (E1 & E2 & E3).
  { apply (preserves_state (fun p' : P => ticks p' = ticks p /\ router p' = router p /\ pn_lists p' = pn_lists p)); [|done].
    by apply token_known_keeps. }
  unfold router in *. destruct (token_known p) as [p1 [ht|e]]; cbn [fst] in *;
    [|by unfold good_pair, good_thread, router; rewrite E1, E2, E3; split_and!].
  unfold in_admin, zoom. pose proof (opens_request ht (rq_path (th_request t)) (rq_headers (th_request t)) (pn_admin p1)) as Ho.
  unfold wp in Ho. destruct (process_request _ _ _ _ _) as [a' [[ok cx]|e]]; destruct Ho as [Ho1 Ho2].
  - assert (ticks p <= am_tick a') as Ht by (rewrite <- E1; exact Ho1). unfold good_pair, good_thread, ticks. cbn. change (am_tick (pn_admin p)) with (ticks p).
    split_and!; [done|rewrite E2; by eapply good_context_mono| | |by eapply good_context_mono|].
    + apply Forall_app. split; [rewrite E3; by eapply good_lists_mono|]. by apply Forall_singleton, List.Forall_nil.
    + unfold authenticated_context, set_some.
      assert (good_context (am_tick a') (th_context t)) as Hc by by eapply good_context_mono.
      destruct (cx_redirect_to cx), (cx_new_session_id cx) eqn:En; repeat apply good_dset; try done;
        try (intros ? _ [=]); subst; by eapply (Ho2 (ok, cx)).
    + intros r Hr. eapply Forall_impl; [by apply H5|]. intros c. by apply cookie_mono.
  - assert (ticks p <= am_tick a') as Ht by (rewrite <- E1; exact Ho1). unfold good_pair, good_thread, ticks. cbn. change (am_tick (pn_admin p)) with (ticks p).
    split_and!; [done|rewrite E2; by eapply good_context_mono|rewrite E3; by eapply good_lists_mono|by eapply good_context_mono..|].
    intros r Hr. eapply Forall_impl; [by apply H5|]. intros c. by apply cookie_mono.
Qed.
Ltac splits := unfold good_pair, good_thread; split_and!.
Lemma good_step t p : good_pair (ticks p) p t -> good_pair (ticks p) (step t p).1 (step t p).2.
Proof.
  intros H. pose proof H as (_ & H1 & H2 & H3 & H4 & H5). unfold step.
  assert (forall p' k, ticks p' = ticks p -> good_context (ticks p) (router p') -> good_lists (ticks p) (pn_lists p') ->
    good_pair (ticks p) p' (goto k t)) as Hp.
  { intros p' k E Hc Hl. unfold good_pair. rewrite E. by splits. }
  assert (forall k c, good_pair (ticks p) p (goto k (sent (respond c (cookies_at (router p) (pn_lists p))) t))) as Hs.
  { intros k c. unfold good_pair, good_thread; split_and!; [done..|]. cbn. intros r [Hr|Hr%list_elem_of_singleton]%elem_of_app; [by apply H5|].
    subst r. by apply good_respond. }
  assert (forall e k, good_pair (ticks p) p (fail_at e k t)) as Hf by (intros; by splits).
  destruct (th_pc t) as [| |l|l|l| | | | | | |[c|e]|c d|k| | |[|k ks]| |] eqn:Ek;
    try (apply Hp; done); try apply Hs; try exact H.
  - by splits.
  - by apply good_authenticate.
  - destruct (good_response (ticks p) _ _ H3 H2) as [G1 G2]. destruct (response_cookies _ _ _) as [ctx ls]. by splits.
  - apply Hp; [done| |done]. apply good_update; [by apply good_filter|done].
  - unfold read_body. destruct (read_form _); [|apply Hf]. destruct (process_post_body _ _ _) as [[ok cx]|e]; [|apply Hf].
    unfold good_pair, good_thread; split_and!; [done..| |done|done]. cbn. unfold set_some. destruct (cx_redirect_to cx); [|done]. by apply good_dset.
  - by splits.
  - apply Hp; [done| |done]. by apply good_update.
  - destruct (good_response (ticks p) _ _ H3 H2) as [G1 G2]. destruct (response_cookies _ _ _) as [ctx ls]. by splits.
  - apply Hp; [done| |done]. apply good_update; [by apply good_filter|done].
  - pose proof (handle_good t p (conj (Nat.le_refl _) (conj H1 H2))) as (G1 & G2 & G3).
    assert (good_thread (ticks (handle mgr audit_runtime_id t p).1) t) as G4 by (by eapply good_thread_mono).
    destruct G4 as (G4 & G5 & G6). destruct (handle _ _ _ _) as [p' [[c|r]|e]]; by splits.
  - destruct (dmem k (router p)); [|by apply Hp]. apply Hp; [done| |done]. by apply good_ddel.
  - destruct (rq_method _); [by apply Hp|]. destruct (good_response (ticks p) _ _ H1 H2) as [G1 G2].
    destruct (response_cookies _ _ _) as [ctx ls]. by apply Hp.
  - destruct (dmem k (router p)); [|apply Hf]. apply Hp; [done| |done]. by apply good_ddel.
  - apply Hp; [done| |done]. apply good_update; [by apply good_filter|done].
Qed.
Definition good_config (c : Config) : Prop :=
  let a := ticks (cf_panel c) in
  good_context a (router (cf_panel c)) /\ good_lists a (pn_lists (cf_panel c)) /\ Forall (good_thread a) (cf_threads c).
Lemma server_step_good c c' : server_step c c' -> good_config c -> good_config c'.
Proof.
  intros Hst (H1 & H2 & H3). destruct Hst as [r c|i t p' t' c Hi E|s c].
  - split_and!; [done..|]. apply Forall_app. split; [done|]. apply Forall_singleton.
    split_and!; [by intros ? ?%not_elem_of_nil..|by intros ? ?%not_elem_of_nil].
  - pose proof (Forall_lookup_1 _ _ _ _ H3 Hi) as Ht.
    pose proof (good_step t (cf_panel c) (conj (Nat.le_refl _) (conj H1 (conj H2 Ht)))) as Hg.
    rewrite E in Hg. destruct Hg as (G1 & G2 & G3 & G4). split_and!; [done..|]. apply Forall_insert; [|done].
    eapply Forall_impl; [exact H3|]. intros t0. by apply good_thread_mono.
  - by split_and!.
Qed.
(** Whatever the order of the steps of concurrent requests, a cookie of a response
    is one that clears the session or one of a session the panel opened: requests
    may receive each other's cookies, but never one of no session. *)
Theorem cookies_of_opened_sessions c0 c : good_config c0 -> rtc server_step c0 c ->
  forall t r, t ∈ cf_threads c -> r ∈ th_out t -> Forall (cookie_ok (ticks (cf_panel c))) (cookies_of r).
Proof.
  intros H0 Hr. assert (good_config c) as (_ & _ & H).
  { induction Hr as [|c0 c1 c Hs _ IH]; [done|]. apply IH. by eapply server_step_good. }
  intros t r Ht Hrt. rewrite Forall_forall in H. by apply (H t Ht).
Qed.

(** ** Only admitted requests are handled *)
Definition session_at (ctx : context) : option AdminSession := cx_admin_session (context_of ctx []).
Definition raw_path (t : Thread) : string := rq_path (th_request t).
(** Past the checks of the middleware. *)
Definition passed (k : pc) : bool :=
  match k with
  | Copy | Authenticate | RejectCookies _ | RejectPublish _ | RejectSend _ | Done => false
  | _ => true
  end.
(** The form's token is that of the request's session, where one is asked for. *)
Definition posted (t : Thread) : Prop :=
  csrf_exempt (url_path (raw_path t)) = true \/
  exists x, session_at (th_context t) = Some x /\
    head (default [""] (dget "csrf_token" (th_form t))) = Some (as_csrf_token x).
(** The middleware admitted the thread in a state [s] of the sessions. *)
Definition admission (s : AdminSt) (t : Thread) : Prop :=
  exists ht s' cx, admitted ht (url_path (raw_path t)) (rq_headers (th_request t)) s s' cx /\
    cx_admin_session cx = session_at (th_context t).
Definition cleared (past : AdminSt -> Prop) (t : Thread) : Prop :=
  passed (th_pc t) = true ->
  (exists s, past s /\ admission s t) /\ (rq_method (th_request t) = POST -> th_pc t <> ReadBody -> posted t).
(** A step after the checks changes neither what was checked nor goes back to it. *)
Definition keeps_request (t t' : Thread) : Prop :=
  th_request t' = th_request t /\ th_form t' = th_form t /\
  session_at (th_context t') = session_at (th_context t) /\
  (passed (th_pc t') = true -> passed (th_pc t) = true /\ th_pc t <> ReadBody).
Lemma session_response ctx ls : session_at (response_cookies mgr ctx ls).1 = session_at ctx.
Proof.
  unfold response_cookies, session_at, context_of. destruct (dget "set_cookies" ctx) as [[]|]; cbn; by rewrite ?dget_dset_other.
Qed.
Lemma step_keeps_request t p :
  th_pc t <> Copy -> th_pc t <> Authenticate -> th_pc t <> ReadBody -> keeps_request t (step t p).2.
Proof.
  intros H0 H1 H2. assert (forall k t', th_request t' = th_request t -> th_form t' = th_form t ->
    session_at (th_context t') = session_at (th_context t) ->
    (passed k = true -> passed (th_pc t) = true) -> keeps_request t (goto k t')) as Hk.
  { intros k t' E1 E2 E3 Hk. split_and!; try done. intros Hp. split; [by apply Hk|done]. }
  unfold step. destruct (th_pc t) as [| |l|l|l| | | | | | |[c|e]|c d|k| | |[|k ks]| |] eqn:Ek; try done;
    try (by apply Hk).
  - pose proof (session_response (th_context t) (pn_lists p)). destruct (response_cookies _ _ _). by apply Hk.
  - pose proof (session_response (th_context t) (pn_lists p)). destruct (response_cookies _ _ _). by apply Hk.
  - destruct (handle _ _ _ _) as [p' [[c|r]|e]]; [by apply Hk..|]. unfold fail_at. by apply (Hk FinalKeys t).
  - destruct (dmem k (router p)); by apply Hk.
  - destruct (rq_method _); [by apply Hk|]. destruct (response_cookies _ _ _). by apply Hk.
  - destruct (dmem k (router p)); [by apply Hk|]. by apply (Hk Done t).
  - split_and!; try done. cbn. by rewrite Ek.
Qed.
Lemma cleared_keeps past t t' : keeps_request t t' -> cleared past t -> cleared past t'.
Proof.
  intros (H1 & H2 & H3 & H4) H Hp. destruct (H4 Hp) as [H5 H6]. destruct (H H5) as [(s & Hs & ht & s' & cx & Ha & Hc) Hpost].
  split.
  - exists s. split; [done|]. exists ht, s', cx. unfold raw_path. rewrite H1, H3. by split.
  - rewrite H1. intros Hm _. unfold posted, raw_path. rewrite H1, H2, H3. by apply Hpost.
Qed.
Lemma same_token a b : validate_csrf_token (Some a) (Some b) = Ok true -> a = b.
Proof.
  unfold validate_csrf_token, compare_digest. cbn. destruct (negb _ || _); [done|].
  destruct (all_chars is_ascii a && _); [|done]. intros [= E]. by apply String.eqb_eq.
Qed.
Lemma cleared_read_body past t (p : P) : th_pc t = ReadBody -> cleared past t -> cleared past (read_body t p).
Proof.
  intros Ek H. assert (passed (th_pc t) = true) as Hp by by rewrite Ek.
  destruct (H Hp) as [(s & Hs & ht & s' & cx & Ha & Hc) _]. unfold read_body.
  destruct (read_form _) as [form|e]; [|done].
  destruct (process_post_body _ _ _) as [[ok cx']|e] eqn:Eb; [|done]. destruct ok; [|done]. intros _.
  assert (session_at (set_some "redirect_to" (cx_redirect_to cx') (th_context t)) = session_at (th_context t)) as Es.
  { unfold session_at, context_of, set_some. destruct (cx_redirect_to cx'); cbn; by rewrite ?dget_dset_other. }
  split.
  - exists s. split; [done|]. exists ht, s', cx. split; [done|]. rewrite Hc. symmetry. exact Es.
  - intros _ _. unfold posted. unfold process_post_body in Eb.
    change (raw_path _) with (rq_path (th_request t)). destruct (csrf_exempt _); [by left|]. right.
    change (cx_admin_session (context_of (th_context t) (pn_lists p))) with (session_at (th_context t)) in Eb. cbn [th_form setter goto eta_Thread].
    destruct (session_at (th_context t)) as [x|] eqn:Ex; [|done]. exists x.
    cbn. destruct (default [""] (dget "csrf_token" form)) as [|token rest] eqn:Ef; [done|].
    destruct (validate_csrf_token _ _) as [[|]|] eqn:Ev; try done. apply same_token in Ev as <-.
    split; [by rewrite <- Es in Ex|]. done.
Qed.
#[local] Instance wf_inv : PanelInv mgr (fun p : P => admin_wf mgr (pn_admin p)).
Proof.
  split; try done.
  - intros id p Hp. apply wp_zoom. eapply wp_mono; [by apply destroy_wf|]. by intros s' r (_ & H & _).
  - intros p Hp. unfold reopen. apply wp_bind, wp_zoom. eapply wp_mono; [by apply create_session_wp|].
    intros s' [x|e] [H _]; [|exact H]. apply wp_modify. exact H.
Qed.
Lemma authenticate_cleared past t (p : P) : admin_wf mgr (pn_admin p) -> past (pn_admin p) ->
  admin_wf mgr (pn_admin (authenticate mgr t p).1) /\ cleared past (authenticate mgr t p).2.
Proof.
  intros Hwf Hpast. unfold authenticate.
  assert (pn_admin (token_known p).1 = pn_admin p) as E.
  { apply (preserves_state (fun p' : P => pn_admin p' = pn_admin p)); [|done]. by apply token_known_keeps. }
  destruct (token_known p) as [p1 [ht|e]]; cbn [fst] in E; [|split; [cbn; by rewrite E|done]].
  unfold in_admin, zoom. rewrite E.
  pose proof (process_request_wp mgr ht (rq_path (th_request t)) (rq_headers (th_request t)) (pn_admin p) Hwf) as Hr.
  unfold wp in Hr. destruct (process_request _ _ _ _ _) as [a' [[[|] cx]|e]]; destruct Hr as [Hw Ha]; (split; [exact Hw|]); try done.
  intros _. split.
  - exists (pn_admin p). split; [done|]. exists ht, a', cx. split; [exact Ha|].
    unfold session_at, context_of. cbn. by rewrite dget_authenticated.
  - cbn. by intros ->.
Qed.
Lemma step_admin_wf t p : admin_wf mgr (pn_admin p) -> admin_wf mgr (pn_admin (step t p).1).
Proof.
  intros H. unfold step. destruct (th_pc t) as [| |l|l|l| | | | | | |[c|e]|c d|k| | |[|k ks]| |]; try exact H.
  - by apply (authenticate_cleared (fun _ => True)).
  - destruct (response_cookies _ _ _). exact H.
  - destruct (response_cookies _ _ _). exact H.
  - assert (admin_wf mgr (pn_admin (handle mgr audit_runtime_id t p).1)) as Hh.
    { apply (preserves_state (fun p : P => admin_wf mgr (pn_admin p))); [|done]. apply (handle_keeps mgr); apply _. }
    destruct (handle _ _ _ _) as [p' [[c|r]|e]]; exact Hh.
  - destruct (dmem k (router p)); exact H.
  - destruct (rq_method _); [exact H|]. destruct (response_cookies _ _ _). exact H.
  - destruct (dmem k (router p)); exact H.
Qed.
Lemma step_cleared past t p : admin_wf mgr (pn_admin p) -> past (pn_admin p) -> cleared past t ->
  cleared past (step t p).2.
Proof.
  intros Hwf Hpast H. destruct (decide (passed (th_pc (step t p).2) = true)) as [Hp|Hp]; [|by intros ?].
  assert (th_pc t <> Copy) as H0.
  { intros E. revert Hp. unfold step. by rewrite E. }
  assert (th_pc t = Authenticate \/ th_pc t = ReadBody \/ th_pc t <> Authenticate /\ th_pc t <> ReadBody) as [E|[E|[E1 E2]]].
  { destruct (th_pc t); auto. all: right; by right. }
  - unfold step. rewrite E. by apply authenticate_cleared.
  - unfold step. rewrite E. by apply cleared_read_body.
  - eapply cleared_keeps; [by apply step_keeps_request|done].
Qed.
(** The states of the sessions a run went through. *)
Definition visited (c0 c : Config) (s : AdminSt) : Prop :=
  exists c1 : Config, rtc server_step c0 c1 /\ rtc server_step c1 c /\ pn_admin (cf_panel c1) = s.
(** C39: Whatever the order of the steps of concurrent requests, the handler of a request
    runs only after the middleware admitted that request, in a state of the sessions
    the run went through: its path is public, or it carried a session that was
    valid then or was given one; an onboarding session only on an onboarding
    route; and for a POST, unless the path is exempt, the form held the
    anti-forgery token of that session. *)
Theorem handled_only_if_admitted c0 c i t :
  admin_wf mgr (pn_admin (cf_panel c0)) -> cf_threads c0 = [] -> rtc server_step c0 c ->
  cf_threads c !! i = Some t -> th_pc t = Handle ->
  (exists s, visited c0 c s /\ admission s t) /\ (rq_method (th_request t) = POST -> posted t).
Proof.
  intros Hwf Hnil Hr Hi Ht.
  assert (admin_wf mgr (pn_admin (cf_panel c)) /\ Forall (cleared (visited c0 c)) (cf_threads c)) as [_ Hall].
  { clear Hi Ht t i. revert c Hr. apply (rtc_ind_r (fun c => admin_wf mgr (pn_admin (cf_panel c)) /\
      Forall (cleared (visited c0 c)) (cf_threads c)) c0); [rewrite Hnil; by split|].
    intros c c' Hr Hs [H1 H2].
    assert (forall t, cleared (visited c0 c) t -> cleared (visited c0 c') t) as Hmono.
    { intros t H Hp. destruct (H Hp) as [(s & (c1 & Ha & Hb & Hc) & Hadm) Hpost]. split; [|done].
      exists s. split; [|done]. exists c1. split_and!; [done|by eapply rtc_r|done]. }
    assert (Forall (cleared (visited c0 c')) (cf_threads c)) as H3 by (eapply Forall_impl; [exact H2|exact Hmono]).
    assert (visited c0 c' (pn_admin (cf_panel c))) as Hv by (exists c; split_and!; [done|by apply rtc_once|done]).
    destruct Hs as [r c|i t p' t' c Hi E|s c]; cbn [cf_panel cf_threads].
    - split; [done|]. apply Forall_app. split; [done|]. by apply Forall_singleton.
    - pose proof (step_admin_wf t _ H1) as H4. pose proof (Forall_lookup_1 _ _ _ _ H3 Hi) as H5.
      pose proof (step_cleared _ t _ H1 Hv H5) as H6. rewrite E in H4, H6. split; [done|]. by apply Forall_insert.
    - by split. }
  pose proof (Forall_lookup_1 _ _ _ _ Hall Hi) as Hc. destruct Hc as [Hs Hp]; [by rewrite Ht|].
  split; [done|]. intros Hm. apply Hp; [done|]. by rewrite Ht.
Qed.
(** A schedule is a run, and so is the arrival of requests. *)
Lemma schedule_runs l c : rtc server_step c (run_schedule mgr audit_runtime_id l c).
Proof.
  revert c. induction l as [|i l IH]; intros c; [done|]. unfold run_schedule. cbn [foldl].
  destruct (cf_threads c !! i) as [t|] eqn:Ei; [|apply IH].
  destruct (step t (cf_panel c)) as [p' t'] eqn:Es. eapply rtc_l; [by eapply server_run|]. apply IH.
Qed.
Lemma arrivals_run l c : rtc server_step c (mkConfig (cf_panel c) (cf_threads c ++ (start <$> l))).
Proof.
  revert c. induction l as [|r l IH]; intros c; [destruct c as [p ts]; csimpl; by rewrite (right_id_L [] (++))|].
  eapply rtc_l; [apply (server_arrive _ _ r)|]. specialize (IH (mkConfig (cf_panel c) (cf_threads c ++ [start r]))).
  cbn [cf_panel cf_threads] in IH. by rewrite <- (assoc_L (++)) in IH.
Qed.
End Schedules.
