(* ===== verification/AdminExamples.v ===== *)
(** * The administration panel at work

    A panel with concrete services: the theorems on its requests applied to it, and
    schedules of two requests in which the shared context hands the session of one
    to the other. *)
From S2P Require Import Prelude Dict PyVal Effects PyStr PyBytes Json Identity.
From S2P Require Import Github Fabric Continuity Core Bootstrap GithubAuth Admin AdminRoutes AdminServer AdminFacts AdminSchedules.
From stdpp Require Import relations.

Module Panel.
(** A cookie header and a form of one field per part. *)
Definition after_equals (s : string) : string := default "" (last (split_at "=" s)).
Definition fields_of (s : string) : dict string (list string) :=
  (fun kv => (before "=" kv, [after_equals kv])) <$> split_at "&" s.
#[local] Instance env : AdminEnv := {|
  ad_clock n := Z.of_nat n;
  token_hex_16 n := "s" +:+ pretty n;
  token_hex_32 n := "c" +:+ pretty n;
  url_path := before "?";
  cookie_session_id h := Ok (Some (after_equals h));
  ad_isoformat := zstr |}.
#[local] Instance penv : PanelEnv := {|
  url_query _ := []; parse_qs := fields_of; template_error _ _ := None |}.
#[local] Instance floats : FloatOps := {| float_repr _ := ""; float_sum _ := f_of_Z 0 |}.
(** A GitHub manager that knows whether it has a token, and accepts any. *)
#[local] Instance github : GithubService bool := {|
  gh_has_token := gets id;
  gh_has_client_id := true;
  gh_status := b ← gets id;
               mret [("auth_status", VStr (if (b : bool) then "AUTHORIZED" else "UNAUTHORIZED"))];
  gh_store_token _ := modify (fun _ => true) ;; mret [("success", VBool true); ("error", VNone)];
  gh_initiate := mret None;
  gh_poll := mret [("status", VStr "NO_ACTIVE_FLOW")];
  gh_disconnect := modify (fun _ => false) |}.
Definition repository : DiscoveredRepository :=
  mkRepository (VStr "o/r") (VStr "r") (VStr "o") "public" (VBool false) (VStr "main") [].
#[local] Instance services : PanelServices unit := {|
  sv_github_client := mret tt;
  sv_discover := mret [repository];
  sv_fabric := mret tt;
  sv_probe_health := throw (OtherException "ConnectionError") "no network";
  sv_read_node_config := throw (OtherException "ConnectionError") "no network";
  sv_get_provenance _ := mret VNone;
  sv_user_orgs := mret (VList []);
  sv_engine _ := mkEngineView "ADMIN_MODE" None VNone VNone;
  sv_startup _ := mret tt;
  sv_spawn_verify _ _ := mret tt;
  sv_save_fabric _ _ := mret tt;
  sv_view _ _ := mret VNone |}.
Definition mgr : AdminSessionManager := mkManager "rt-1" 3600.
(** The session of an administrator, in the table of a panel whose clock stands
    before its expiry. *)
Definition session (id csrf : string) : AdminSession :=
  mkAdminSession id 0 3600000000 "rt-1" "ADMIN" "admin" csrf.
Definition sessions : dict string AdminSession := [("one", session "one" "t1"); ("two", session "two" "t2")].
Definition panel (token : bool) : Panel bool unit :=
  initial_panel (initial_context true true false true false) [] (mkAdmin sessions [] 0 []) (mkAudit None 0 []) token tt.
Definition get (path host : string) (cookie : option string) : Request :=
  mkRequest GET path (mkHeaders (Some host) cookie) "" "0" "".
Definition post (path host : string) (cookie : option string) (form : string) : Request :=
  mkRequest POST path (mkHeaders (Some host) cookie) "application/x-www-form-urlencoded"
    (pretty (String.length form)) form.
Abbreviation alone := (run_alone (G := bool) (S := unit) mgr "rt-1").
Abbreviation schedule := (run_schedule (G := bool) (S := unit) mgr "rt-1").
Definition remote : string := "panel.example".

Lemma panel_quiet token : quiet (router (panel token)).
Proof.
  split_and!; [apply (bool_decide_unpack _); vm_compute; exact I| |].
  - intros k Hk. repeat (apply elem_of_cons in Hk as [->|Hk]; [reflexivity|]). by apply not_elem_of_nil in Hk.
  - intros k Hk. repeat (apply elem_of_cons in Hk as [->|Hk]; [reflexivity|]). by apply not_elem_of_nil in Hk.
Qed.
(** ** A request run alone *)
(** A logout destroys the session and sends no cookie to clear it. *)
Definition logout : Request := post "/logout" remote (Some "admin_session_id=one") "csrf_token=t1".
Example logout_runs :
  let '(p, t) := alone 24 (start logout) (panel true) in
  th_pc t = Done /\ dget "one" (am_sessions (pn_admin p)) = None /\
  th_out t = [respond (CRedirect "/") []].
Proof. vm_compute. by split_and!. Qed.
(** The snapshot a new token's discovery puts in the context is gone with its
    request: the context holds the first one again. *)
Definition new_token : Request :=
  post "/github/token" remote (Some "admin_session_id=one") "csrf_token=t1&github_token=ghp".
Example new_snapshot_lost :
  let '(p, t) := alone 24 (start new_token) (panel true) in
  th_pc t = Done /\ length (pn_snapshots p) = 2 /\
  dget "bootstrap_snapshot" (router p) = Some (CSnapshot 0) /\
  (fun s => length (sn_repos s)) <$> pn_snapshots p !! 0 = Some 0.
Proof. vm_compute. by split_and!. Qed.

Lemma admitted_cookies_witness :
  let '(p, t) := alone 24 (start logout) (panel true) in Forall (answers (own_cookies mgr t)) (th_out t).
Proof.
  pose proof (admitted_cookies mgr "rt-1" logout (panel true) 24 (panel_quiet true)) as H.
  destruct (alone 24 (start logout) (panel true)) as [p t] eqn:E. apply H.
  - change t with (p, t).2. rewrite <- E. vm_compute. reflexivity.
  - change t with (p, t).2. rewrite <- E. intros Hs. apply (f_equal length) in Hs. vm_compute in Hs. discriminate Hs.
Defined.

(** ** Two requests at once *)
Definition arrived (l : list Request) : Config (G := bool) (S := unit) := mkConfig (panel true) (start <$> l).
Lemma arrived_runs l sched :
  rtc (server_step mgr "rt-1") (mkConfig (panel true) []) (schedule sched (arrived l)).
Proof.
  etrans; [apply (arrivals_run mgr "rt-1" l (mkConfig (panel true) []))|]. apply schedule_runs.
Qed.
Definition outputs (c : Config (G := bool) (S := unit)) : list (list (list string)) := (fun t => cookies_of <$> th_out t) <$> cf_threads c.
(** An administrator signs in from the machine itself while a stranger asks whether
    the panel is alive: the stranger's answer sets the cookie of the new session. *)
Definition sign_in : Request := get "/" "localhost:3643" None.
Definition probe : Request := get "/health/live" remote None.
Definition six_then_all : list nat := replicate 6 0 ++ replicate 20 1.
Theorem stranger_receives_session :
  let c := schedule six_then_all (arrived [sign_in; probe]) in
  outputs c = [[]; [[session_cookie "s1" 3600 true]]] /\
  (as_scope <$> dget "s1" (am_sessions (pn_admin (cf_panel c)))) = Some "ADMIN".
Proof. vm_compute. by split_and!. Qed.
(** The logout of one administrator, while another opens a page, ends the other's
    session and leaves its own. *)
Definition doctor : Request := get "/doctor" remote (Some "admin_session_id=two").
Theorem logout_ends_another_session :
  let c := schedule (replicate 5 0 ++ replicate 4 1 ++ replicate 20 0) (arrived [logout; doctor]) in
  dkeys (am_sessions (pn_admin (cf_panel c))) = ["one"].
Proof. vm_compute. reflexivity. Qed.
Lemma cookies_of_opened_sessions_witness :
  let c := schedule six_then_all (arrived [sign_in; probe]) in
  Forall (fun t => Forall (fun r => Forall (cookie_ok mgr (ticks (cf_panel c))) (cookies_of r)) (th_out t)) (cf_threads c).
Proof.
  intros c. apply Forall_forall. intros t Ht. apply Forall_forall. intros r Hr. revert t r Ht Hr. apply (cookies_of_opened_sessions mgr "rt-1" (mkConfig (panel true) [])); [|apply arrived_runs].
  split_and!; [|apply List.Forall_nil|apply List.Forall_nil].
  intros id Hin. exfalso. apply (list_elem_of_fmap_2 fst) in Hin. revert Hin. apply (bool_decide_unpack _). vm_compute. exact I.
Defined.
Lemma handled_only_if_admitted_witness :
  let c := schedule (replicate 5 0) (arrived [logout]) in
  match cf_threads c !! 0 with
  | Some t =>
      (exists s, visited mgr "rt-1" (mkConfig (panel true) []) c s /\ admission s t) /\
      (rq_method (th_request t) = POST -> posted t)
  | None => False
  end.
Proof.
  intros c. assert (is_Some (cf_threads c !! 0)) as [t Ht] by (vm_compute; by eexists). rewrite Ht. apply (handled_only_if_admitted mgr "rt-1" (mkConfig (panel true) []) c 0);
    [|reflexivity|apply arrived_runs|exact Ht|].
  - split_and!; [apply (bool_decide_unpack _); vm_compute; exact I|apply NoDup_nil_2| |done].
    intros id x Hx. cbn in Hx. repeat (case_decide; [subst; injection Hx as <-; split; [reflexivity|];
      split; [reflexivity|]; left; split; reflexivity|]). done.
  - assert ((th_pc <$> cf_threads c !! 0) = Some Handle) as E by (vm_compute; reflexivity).
    rewrite Ht in E. injection E as E. exact E.
Defined.
End Panel.
