(* ===== verification/PanelPages.v ===== *)
(** * The pages the routes answer with

    A page of AdminRoutes is the name of a template and its arguments; here it gets its text,
    for the templates whose arguments are values, and the search page is followed
    from the request to the markup. *)
From S2P Require Import Prelude Dict PyVal PyStr Json Effects Admin Secrets GithubAuth AdminRoutes Html Objects Templates TemplateFacts TemplateErrors ControlCenter.

Section Texts.
Context {float_ops : FloatOps} `{ObjectEnv}.
(** The rows of the audit table. *)
Definition as_row (v : pyval) : option (list pyval) := match v with VList l => Some l | _ => None end.

(** The templates called on values, by name. *)
Definition value_templates : dict string (list pyval -> option (result doc)) :=
  [("first_run_page", fun a => match a with
      | [VStr csrf; error; flow] => Some (first_run_page (PVal error) csrf (PVal flow)) | _ => None end);
   ("device_flow_page", fun a => match a with
      | [code; uri; VStr csrf] => Some (device_flow_page (PVal code) (PVal uri) csrf) | _ => None end);
   ("github_page", fun a => match a with
      | [status; error; VStr csrf] => Some (github_page (PVal status) (PVal error) csrf) | _ => None end);
   ("fabric_page", fun a => match a with
      | [status; VStr csrf] => Some (fabric_page (PVal status) csrf) | _ => None end);
   ("doctor_page", fun a => match a with
      | [d; VStr csrf] => Some (doctor_page (PVal d) csrf) | _ => None end);
   ("sessions_page", fun a => match a with
      | [VList l; VStr csrf] => Some (sessions_page (PVal <$> l) csrf) | _ => None end);
   ("operations_page", fun a => match a with
      | [VList l; VStr csrf] => Some (operations_page (PVal <$> l) csrf) | _ => None end);
   ("receipts_page", fun a => match a with
      | [VList l; VStr csrf] => Some (receipts_page (PVal <$> l) csrf) | _ => None end);
   ("executors_page", fun a => match a with
      | [VList l; VStr csrf] => Some (executors_page (PVal <$> l) csrf) | _ => None end);
   ("universe_organization_page", fun a => match a with
      | [VList l; VStr csrf] => Some (universe_organization_page (PVal <$> l) csrf) | _ => None end);
   ("universe_repositories_page", fun a => match a with
      | [VList l; VStr csrf] => Some (universe_repositories_page (PVal <$> l) csrf) | _ => None end);
   ("universe_resources_page", fun a => match a with
      | [VList l; VStr csrf] => Some (universe_resources_page (PVal <$> l) csrf) | _ => None end);
   ("infrastructure_topology_page", fun a => match a with
      | [gh; fab; mcp; VStr csrf] => Some (infrastructure_topology_page (PVal gh) (PVal fab) (PVal mcp) csrf)
      | _ => None end);
   ("audit_events_page", fun a => match a with
      | [VList l; VStr csrf] => rows ← mapM as_row l; Some (audit_events_page rows csrf) | _ => None end);
   ("audit_provenance_page", fun a => match a with
      | [d; VStr csrf] => Some (audit_provenance_page (PVal d) csrf) | _ => None end);
   ("search_page", fun a => match a with
      | [q; VStr csrf] => Some (search_page (PVal q) csrf) | _ => None end);
   (* called with two arguments, the token takes the place of the path *)
   ("generic_placeholder_page", fun a => match a with
      | [title; VStr path; VStr csrf] => Some (generic_placeholder_page (PVal title) path csrf)
      | [title; VStr csrf] => Some (generic_placeholder_page (PVal title) csrf "")
      | _ => None end);
   ("telemetry_live_page", fun a => match a with
      | [VStr csrf] => Some (telemetry_live_page csrf) | _ => None end);
   ("control_center_page", fun a => match a with
      | [VStr csrf] => Some (Ok (lit (control_center_page csrf))) | _ => None end)].
Definition value_template (template : string) (args : list pyval) : option (result doc) :=
  f ← dget template value_templates; f args.
(** The text of a page. *)
Fixpoint page_text (p : page) : option (result string) :=
  match p with
  | Page template args => e ← value_template template args; Some (let? d := e in Ok (text d))
  | WithSync p csrf_token =>
      e ← page_text p; Some (let? s := e in Ok (inject_sync_controls s csrf_token))
  end.
(** What such a template raises: [template_error] of the routes. *)
Definition value_template_error (template : string) (args : list pyval) : option exn :=
  match value_template template args with Some (Raise e) => Some e | _ => None end.
End Texts.

(** ** From the request to the markup *)
Section Search.
Context {env : AdminEnv} {penv : PanelEnv} {floats : FloatOps} `{ObjectEnv}.
Context {G S : Type} {github : GithubService G} {services : PanelServices S}.
#[local] Abbreviation P := (Panel G S).
(** The query of a search reaches the page as it is, where the browser reads markup. *)
Theorem search_reflects (p : P) path q :
  dget "q" (url_query path) = Some [q] ->
  (forall csrf, template_error "search_page" [VStr q; VStr csrf] = None) ->
  exists csrf d,
    handle_search path p = (p, Ok (BPage (Page "search_page" [VStr q; VStr csrf]))) /\
    page_text (Page "search_page" [VStr q; VStr csrf]) = Some (Ok (text d)) /\
    (plain csrf = true -> arrives csrf d q).
Proof.
  intros Hq Ht. unfold handle_search, first_value. rewrite Hq.
  set (session := match dget "admin_session" (pn_context p) with Some (CSession o) => o | _ => None end).
  exists (match session with Some x => as_csrf_token x | None => "" end). eexists. split_and!.
  - unfold render, call_template, mbind, M_bind, mret, M_ret. simpl. by rewrite Ht.
  - done.
  - intros Hp. by eapply search_arrives.
Qed.
End Search.

(** A query that is a script puts a script element on the page. *)
Module Search.
#[local] Instance no_floats : FloatOps := {| float_repr _ := ""; float_sum l := default (f_of_Z 0) (head l) |}.
#[local] Instance no_objects : ObjectEnv := {| obj_isoformat := zstr; obj_repr _ := "" |}.
Definition QUERY : string := "<script>steal()</script>".
Definition PAGE : string :=
  match page_text (Page "search_page" [VStr QUERY; VStr "4f2a"]) with Some (Ok s) => s | _ => "" end.
Example query_runs : contains ("Results for: " +:+ QUERY +:+ "</p>") PAGE = true.
Proof. by vm_compute. Qed.
(** A notice passes the token where the path is expected: its form carries none. *)
Definition NOTICE (csrf : string) : string :=
  match page_text (Page "generic_placeholder_page" [VStr "Account a1 not found"; VStr csrf]) with
  | Some (Ok s) => s | _ => "" end.
Example notice_unprotected :
  contains (quoted "name=~csrf_token~ value=~~") (NOTICE "4f2a") = true /\
  contains "4f2a" (NOTICE "4f2a") = false.
Proof. vm_compute. by split. Qed.
(** The page of a connected account: its form carries the token, its elements are closed. *)
Definition CONNECTED : pyval := VDict [("connected", VBool true); ("principal", VStr "octocat")].
Definition GITHUB : template_call := GithubPage (PVal CONNECTED) (PVal VNone).
Definition GITHUB_PAGE : doc := match run_template GITHUB "4f2a" with Ok d => d | _ => [] end.
End Search.
