(* ===== verification/Platform.v ===== *)
(** * Platforms, diagnostics and traces

    [runtime/platform/], [runtime/diagnostics/doctor.py], [runtime/telemetry/context.py] and
    [runtime/intelligence/telemetry.py].  The adapter of a platform is an interface with
    two implementations, the second of which inherits from the first. *)
From S2P Require Import Prelude Dict PyVal Effects PyPath PyStr Host Config Identity Intelligence.

(** ** Platforms *)
Class PlatformEnv := {
  platform_config :: ConfigEnv;
  (** [shutil.which] *)
  which : string -> option string;
  (** What [/proc/version] holds, when it is there. *)
  proc_version : option string }.
Record PlatformAdapter := mkAdapter {
  platform_name : string;
  is_supported : bool;
  get_service_manager : string;
  get_default_data_dir : string;
  get_secure_storage_path : string;
  get_shell_path : string;
  detect_git : option string;
  detect_wsl : bool }.
#[export] Instance eta_PlatformAdapter : Eta PlatformAdapter := fun r =>
  mkAdapter (platform_name r) (is_supported r) (get_service_manager r) (get_default_data_dir r)
    (get_secure_storage_path r) (get_shell_path r) (detect_git r) (detect_wsl r).
Section Adapters.
Context {env : PlatformEnv}.
Definition LinuxAdapter : PlatformAdapter := mkAdapter
  "linux"
  (lower platform_system =s "linux")
  (match which "systemctl" with Some p => if str_true p then "systemd" else "unknown" | None => "unknown" end)
  get_data_dir
  (path_join get_data_dir "secure")
  (env_or "SHELL" "/bin/bash")
  (which "git")
  false.
Definition wsl_detected : bool :=
  match environ "WSL_DISTRO_NAME" with
  | Some _ => true
  | None =>
      match proc_version with
      | Some s => contains "microsoft" (lower s) && contains "wsl2" (lower s)
      | None => false
      end
  end.
(** The methods [WSL2Adapter] overrides. *)
Definition WSL2Adapter : PlatformAdapter :=
  (LinuxAdapter <| platform_name := "wsl2" |>)
    <| is_supported := is_supported LinuxAdapter && wsl_detected |>
    <| detect_wsl := wsl_detected |>.

(** WSL2 is a Linux on which WSL is detected, and it keeps the rest of Linux. *)
Lemma wsl2_refines_linux :
  (is_supported WSL2Adapter = true <-> is_supported LinuxAdapter = true /\ detect_wsl WSL2Adapter = true) /\
  (((WSL2Adapter <| platform_name := "linux" |>) <| is_supported := is_supported LinuxAdapter |>)
     <| detect_wsl := false |>) = LinuxAdapter.
Proof. split; [apply andb_true_iff|done]. Qed.
End Adapters.

(** ** Diagnostics *)
Record DiagnosticCheck := mkDiagnostic { dc_name : string; dc_status : string; dc_message : string }.
(** How [git --version] ends: not found, or an exit status and its output. *)
Definition check_git (git : option (Z * string)) : DiagnosticCheck :=
  match git with
  | Some (0%Z, out) => mkDiagnostic "Git" "PASS" (strip out)
  | Some _ => mkDiagnostic "Git" "FAIL" "Git execution failed"
  | None => mkDiagnostic "Git" "FAIL" "Git not found"
  end.
Definition run_all (git : option (Z * string)) : list DiagnosticCheck :=
  [mkDiagnostic "Core" "PASS" "Core system initialized";
   mkDiagnostic "Identity" "PASS" "Identity provisioned";
   mkDiagnostic "Enrollment" "PASS" "Runtime enrolled";
   mkDiagnostic "Session" "PASS" "Session attached";
   mkDiagnostic "Capabilities" "PASS" "Capabilities loaded";
   mkDiagnostic "Tools" "PASS" "Tools accessible";
   mkDiagnostic "Workspace" "PASS" "Workspace operational";
   mkDiagnostic "Process Manager" "PASS" "Process manager healthy";
   mkDiagnostic "Filesystem" "PASS" "Filesystem read/write OK";
   mkDiagnostic "Shell" "PASS" "Default shell available";
   check_git git;
   mkDiagnostic "Secrets" "PASS" "Secrets backend operational";
   mkDiagnostic "Fabric" "FAIL" "Fabric reachable check deferred to bootstrap";
   mkDiagnostic "Updater" "PASS" "Updater available";
   mkDiagnostic "Journal" "PASS" "Journal append-only OK"].
(** Nothing but git is looked at: the failures are the fabric's, always, and git's. *)
Lemma diagnostics_constant git :
  filter (fun c => dc_status c <> "PASS") (run_all git) =
  filter (fun c => dc_status c <> "PASS") [check_git git]
    ++ [mkDiagnostic "Fabric" "FAIL" "Fabric reachable check deferred to bootstrap"].
Proof. destruct git as [[[] out]|]; reflexivity. Qed.

(** ** Traces *)
Record TraceContext := mkTrace { tr_trace_id : string; tr_span_id : string; tr_parent_span_id : option string }.
Section Traces.
Context {env : IdentityEnv}.
(** [_generate_id], drawing the [n]-th identifier *)
Definition generate_trace_id (prefix : string) (n : nat) : string := prefix +:+ "-" +:+ string_take 16 (id_uuid n).
Definition new_trace (n : nat) : TraceContext :=
  mkTrace (generate_trace_id "trc" n) (generate_trace_id "spn" (S n)) None.
Definition child_span (c : TraceContext) (n : nat) : TraceContext :=
  mkTrace (tr_trace_id c) (generate_trace_id "spn" n) (Some (tr_span_id c)).
(** The spans opened one in the other. *)
Fixpoint descend (c : TraceContext) (ticks : list nat) : list TraceContext :=
  match ticks with [] => [c] | n :: l => c :: descend (child_span c n) l end.
(** However deep, the spans of a trace carry its identifier and each names the one it is in. *)
Fixpoint linked (l : list TraceContext) : Prop :=
  match l with
  | a :: ((b :: _) as l') => tr_trace_id b = tr_trace_id a /\ tr_parent_span_id b = Some (tr_span_id a) /\ linked l'
  | _ => True
  end.
Lemma descend_head c ticks : exists l, descend c ticks = c :: l.
Proof. destruct ticks; by eexists. Qed.
Lemma spans_linked c ticks : linked (descend c ticks).
Proof.
  revert c. induction ticks as [|n l IH]; intros c; [done|]. specialize (IH (child_span c n)).
  simpl. destruct (descend_head (child_span c n) l) as [l' E]. rewrite E in IH |- *. by split_and!.
Qed.
End Traces.

(** ** The events of the assessment *)
(** [emit_capability_assessed]: the payload is built first, from attributes of the response that
    [CapabilityAssessmentResponse] does not have ([available], [resource_fit], [policy_fit]). *)
Definition emit_capability_assessed (has_collector : bool)
    (request : CapabilityAssessmentRequest) (response : CapabilityAssessmentResponse) : result unit :=
  if has_collector
  then raise AttributeError "'CapabilityAssessmentResponse' object has no attribute 'available'"
  else Ok tt.
