(* ===== verification/Cli.v ===== *)
(** * The command line

    [cli/main.py]: the commands over the files of the host, and the choice of one
    from the arguments.  File contents are texts, the process may read and write
    every file, and paths resolve lexically.  What the standard library and the
    machine answer is the class [CliEnv].  Of [start_admin_server]
    (runtime/admin/server.py) the model follows the configuration, the identity and
    the two sockets; the services between them are built without effect here. *)
From S2P Require Import Prelude Dict PyVal Effects PyPath PyStr PyBytes Json JsonLoad Host Config Identity Keys.

(** ** The machine *)
Class CliEnv := {
  cli_config :: ConfigEnv;
  cli_keys :: KeyEnv;
  cli_json :: JsonErrors;
  cli_floats :: FloatOps;
  cwd : string;
  (** [Path(__file__).resolve().parent.parent] *)
  runtime_root : string;
  sys_platform : string;
  platform_release : string;
  python_version : Z * Z;
  python_text : string;
  has_cryptography : bool;
  (** Binding a socket to a port of the loopback interface, on IPv4 and on IPv6. *)
  port_free : Z -> bool;
  port6_free : Z -> bool;
  yaml_safe_load : string -> yaml_file;
  (** What a command given to [os.system] does to the files. *)
  os_system : string -> fs -> fs }.

(** The files, what was printed, what the user is going to answer, and the addresses that
    were served. *)
Record Cli := mkCli {
  cl_host : Host;
  cl_out : list string;
  cl_answers : list string;
  cl_served : list (string * Z) }.
#[export] Instance eta_Cli : Eta Cli := fun r =>
  mkCli (cl_host r) (cl_out r) (cl_answers r) (cl_served r).
(** How a command ends: it returns, calls [sys.exit], or the process becomes another
    program. *)
Inductive outcome := Returned (code : option Z) | SysExit (code : Z) | Replaced (argv : list string).

Definition VERSION : string := "0.2.0".
Definition SYSTEM_UNIT : string := "/etc/systemd/system/anny-runtime.service".
Definition SYSTEM_LINK : string := "/usr/local/bin/anny-runtime".

Section Commands.
Context {env : CliEnv}.

(** ** Effects *)
Definition on_host {A} (m : M Host A) : M Cli A := zoom cl_host (fun h s => s <| cl_host := h |>) m.
Definition print (line : string) : M Cli unit := modify (fun s => s <| cl_out := cl_out s ++ [line] |>).
Fixpoint print_all (lines : list string) : M Cli unit :=
  match lines with [] => mret tt | l :: ls => print l ;; print_all ls end.
Definition input (prompt : string) : M Cli string :=
  print prompt ;;
  l ← gets cl_answers;
  match l with
  | [] => throw (OtherException "EOFError") "EOF when reading a line"
  | a :: l' => modify (fun s => s <| cl_answers := l' |>) ;; mret a
  end.
Definition resolved (p : string) : string := abspath cwd p.
Definition files : M Cli fs := gets (fun s => h_fs (cl_host s)).
Definition path_exists (p : string) : M Cli bool := f ← files; mret (exists_ f (resolved p)).
(** [open(p).read()] *)
Definition content_of (p : string) (f : fs) : result string :=
  match f !! resolved p with
  | Some (File content _ _) => Ok content
  | Some (Dir _ _ _) => raise OSError ("Is a directory: " +:+ p)
  | None => raise OSError ("No such file or directory: " +:+ p)
  end.
Definition read_text (p : string) : M Cli string := f ← files; of_result (content_of p f).
Definition load_json (p : string) : M Cli pyval := s ← read_text p; of_result (json_loads s).
Definition change_files (op : fs -> fs) : M Cli unit :=
  on_host (modify (fun h => h <| h_fs := op (h_fs h) |>)).
(** [p.chmod(mode)] *)
Definition chmod (mode : Z) (p : string) : M Cli unit :=
  f ← files;
  match f !! resolved p with
  | Some (File c _ t) => change_files <[resolved p := File c (S_IFREG + mode) t]>
  | Some (Dir _ z t) => change_files <[resolved p := Dir (S_IFDIR + mode) z t]>
  | None => throw OSError ("No such file or directory: " +:+ p)
  end.
(** [p.unlink()] *)
Definition unlink (p : string) : M Cli unit :=
  f ← files;
  match f !! resolved p with
  | Some (File _ _ _) => change_files (delete (resolved p))
  | Some (Dir _ _ _) => throw OSError ("Is a directory: " +:+ p)
  | None => throw OSError ("No such file or directory: " +:+ p)
  end.
(** [shutil.rmtree(p)] *)
Definition remove_tree (p : string) : M Cli unit :=
  f ← files;
  when (isfile f (resolved p)) (throw OSError ("Not a directory: " +:+ p)) ;;
  change_files (rmtree (resolved p)).
Definition draw {A} (g : nat -> A) : M Cli A :=
  on_host (fun h => (h <| h_tick := S (h_tick h) |>, Ok (g (h_tick h)))).

(** ** Paths *)
Definition identity_dir : string := path_join get_data_dir "identity".
Definition identity_file : string := path_join identity_dir "runtime_identity.json".
Definition key_file : string := path_join identity_dir "private_key.pem".
Definition is_system : bool := get_install_mode =s "system".
Definition home_path (rest : string) : string := path_join (pure_path home) rest.
Definition unit_path : string :=
  if is_system then SYSTEM_UNIT else home_path ".config/systemd/user/anny-runtime.service".
Definition link_path : string :=
  if is_system then SYSTEM_LINK else home_path ".local/bin/anny-runtime".

(** ** [version] and [status] *)
Definition cmd_version : M Cli outcome := print ("ANNY Runtime v" +:+ VERSION) ;; mret (Returned None).
(** [identity.get(k, 'UNKNOWN')] in an f-string *)
Definition shown_field (k : string) (identity : pyval) : result string :=
  let? v := py_get k (VStr "UNKNOWN") identity in Ok (py_str v).
Definition connected_line (label file : string) : M Cli unit :=
  b ← path_exists (path_join (path_join get_data_dir "secrets") file);
  print (label +:+ (if (b : bool) then "CONNECTED" else "NOT CONNECTED")).
Definition identity_lines : M Cli unit :=
  b ← path_exists identity_file;
  if (b : bool) then
    identity ← load_json identity_file;
    runtime_id ← of_result (shown_field "runtime_id" identity);
    print ("  Runtime ID:      " +:+ runtime_id) ;;
    installation_id ← of_result (shown_field "installation_id" identity);
    print ("  Installation ID: " +:+ installation_id) ;;
    print "  Identity:        READY"
  else print "  Identity:        NOT INITIALIZED".
Definition cmd_status : M Cli outcome :=
  print ("ANNY Runtime v" +:+ VERSION) ;;
  print ("Install Mode:    " +:+ get_install_mode) ;;
  print ("Data Directory:  " +:+ get_data_dir) ;;
  print ("Runtime Dir:     " +:+ get_runtime_dir) ;;
  port ← of_result get_admin_port;
  print ("Admin Port:      " +:+ zstr port) ;;
  print "" ;;
  identity_lines ;;
  connected_line "  GitHub:          " "github_credential.json" ;;
  connected_line "  Fabric:          " "fabric_registration.json" ;;
  print "" ;;
  mret (Returned None).

(** ** [doctor] *)
Definition check (name : string) (condition : bool) (detail : string) : M Cli bool :=
  print ("  [" +:+ (if condition then "PASS" else "FAIL") +:+ "] "
         +:+ (if condition then "✓" else "✗") +:+ " " +:+ name
         +:+ (if str_true detail then " — " +:+ detail else "")) ;;
  mret condition.
(** [oct(mode)[-3:]] *)
Definition last3 (s : string) : string := String.substring (String.length s - 3) 3 s.
Definition check_key : M Cli bool :=
  f ← files;
  match f !! resolved key_file with
  | Some n => let perms := last3 (oct (st_mode n)) in
              check "Private key permissions" (perms =s "600") ("mode=" +:+ perms)
  | None => check "Private key exists" false ""
  end.
(** Binding raises on a number that is not a port, which [except OSError] does not
    catch. *)
Definition bind_port (port : Z) : result bool :=
  if (65535 <? port)%Z then raise OverflowError "bind(): port must be 0-65535."
  else Ok (port_free port).
Definition python_ok : bool :=
  let '(major, minor) := python_version in
  ((3 <? major) || (major =? 3) && (11 <=? minor))%Z.
Definition failed (results : list bool) : nat := length (filter (fun b => b = false) results).
Definition cmd_doctor : M Cli outcome :=
  print ("ANNY Runtime Diagnostics v" +:+ VERSION) ;;
  print "" ;;
  c1 ← check "Operating System" (sys_platform =s "linux") (platform_system +:+ " " +:+ platform_release);
  c2 ← check "Python >= 3.11" python_ok (default "" (head (split_words "" python_text)));
  d ← path_exists get_data_dir;
  c3 ← check "Data directory exists" d get_data_dir;
  i ← path_exists identity_file;
  c4 ← check "Identity initialized" i "";
  c5 ← check_key;
  port ← of_result get_admin_port;
  free ← of_result (bind_port port);
  c6 ← check "Admin port available" free ("port=" +:+ zstr port);
  c7 ← check "Port 3434 not used" (negb (port =? 3434)%Z) "Reserved by CONRRAD";
  c8 ← (if has_cryptography then check "cryptography library" true ""
        else check "cryptography library" false "pip install cryptography>=41.0.0");
  u ← path_exists unit_path;
  c9 ← check "Systemd unit installed" u ("mode=" +:+ get_install_mode);
  sandboxes ← path_exists (path_join get_data_dir "sandboxes");
  c10 ← check "Sandbox directory" (sandboxes || true) "Will be created on first use";
  print "" ;;
  let fails := failed [c1; c2; c3; c4; c5; c6; c7; c8; c9; c10] in
  (if Nat.eqb fails 0 then print "  All checks passed."
   else print ("  " +:+ zstr (Z.of_nat fails) +:+ " check(s) failed.")) ;;
  mret (Returned (Some (if Nat.eqb fails 0 then 0 else 1)%Z)).

(** ** [identity-bootstrap] *)
(** [uuid.uuid4().hex[:16]] *)
Definition fresh_id (prefix : string) : M Cli string :=
  u ← draw id_uuid; mret (prefix +:+ string_take 16 u).
Definition identity_data (runtime_id installation_id public_key created_at : string) : dict string pyval :=
  [("runtime_id", VStr runtime_id); ("installation_id", VStr installation_id);
   ("public_key", VStr public_key); ("platform", VStr sys_platform);
   ("runtime_version", VStr VERSION); ("protocol_version", VStr "1.0");
   ("generation", VInt 1); ("created_at", VStr created_at)].
(** The identity made without [RuntimeIdentityManager]. *)
Definition manual_identity : M Cli outcome :=
  if has_cryptography then
    private_key ← draw new_private_key;
    let public_key := to_hex (public_key_of private_key) in
    on_host (os_write id_clock (resolved key_file) private_key) ;;
    chmod 384 key_file ;;
    runtime_id ← fresh_id "rt-";
    installation_id ← fresh_id "inst-";
    t ← on_host (now id_clock);
    on_host (os_write id_clock (resolved identity_file)
               (dumps_indent false 0 (VDict (identity_data runtime_id installation_id public_key (key_isoformat t))))) ;;
    print ("Identity created: " +:+ runtime_id) ;;
    print ("Installation ID:  " +:+ installation_id) ;;
    mret (Returned None)
  else
    print "Error: cryptography library not installed." ;;
    print "Run: pip install cryptography>=41.0.0" ;;
    mret (SysExit 1).
(** The class the command imports is not in its module (which defines
    [RuntimeIdentity]): the import fails and the fallback always runs. *)
Definition cmd_identity_bootstrap (force : bool) : M Cli outcome :=
  b ← path_exists identity_file;
  if (b : bool) && negb force then
    print "Identity already exists. Use --force to regenerate." ;; mret (Returned None)
  else
    on_host (os_makedirs id_clock 493 true (resolved identity_dir)) ;;
    manual_identity.

(** ** [server] *)
(** The identity directory as [RuntimeIdentity.load] reads it. *)
Definition stored_json (s : string) : json_text :=
  match json_loads s with Ok v => JValue v | Raise _ => if s =s "" then JEmpty else JInvalid end.
Definition key_dir (f : fs) : KeyDir :=
  let text p := match content_of p f with Ok s => Some s | Raise _ => None end in
  mkKeyDir (stored_json <$> text identity_file) (text key_file)
    (match f !! resolved key_file with Some n => st_mode n | None => 0 end) [].
Definition stored_config (f : fs) : yaml_file :=
  match f !! resolved config_path with Some (File c _ _) => yaml_safe_load c | _ => YMissing end.
(** [AdminServer.start]: the IPv4 socket, then the IPv6 one where there is one.  [None]
    when the first cannot be bound. *)
Definition bound (free : Z -> bool) (port : Z) : bool := (port <=? 65535)%Z && free port.
Definition start (port : Z) : option (list string) :=
  if bound port_free port then
    Some ("127.0.0.1" :: (if bound port6_free port then ["::1"] else []))
  else None.
(** [start_admin_server] from the configuration on: it serves until the keyboard interrupts
    it, and closes its sockets. *)
Definition start_admin_server (port : Z) : M Cli outcome :=
  f ← files;
  config ← of_result (load_config (stored_config f));
  identity ← of_result (load_identity (key_dir f));
  match start port with
  | Some addresses =>
      modify (fun s => s <| cl_served := cl_served s ++ ((fun a => (a, port)) <$> addresses) |>) ;;
      mret (Returned None)
  | None => mret (SysExit 1)
  end.
(** The default of [getattr] is computed although [args] always has a port.  The imports
    of [start_admin_server] need the cryptography package. *)
Definition cmd_server (port : Z) : M Cli outcome :=
  of_result get_admin_port ;;
  if has_cryptography then start_admin_server port else mret (SysExit 1).

(** ** [install] and [uninstall] *)
Definition cmd_install : M Cli outcome :=
  let script := path_join (path_join runtime_root "scripts") "install.sh" in
  b ← path_exists script;
  if (b : bool) then mret (Replaced ["bash"; "bash"; script])
  else print "Error: install.sh not found." ;; mret (SysExit 1).

Definition announcement : list string :=
  ["ANNY Runtime Uninstall"; ""; "This will remove:"; "  - Software:  " +:+ get_runtime_dir]
  ++ (if is_system then
        ["  - Systemd:   /etc/systemd/system/anny-runtime.service";
         "  - CLI:       /usr/local/bin/anny-runtime"]
      else
        ["  - Systemd:   ~/.config/systemd/user/anny-runtime.service";
         "  - CLI:       ~/.local/bin/anny-runtime"])
  ++ [""; "The following will be PRESERVED unless --purge is specified:";
      "  - Identity:  " +:+ get_data_dir +:+ "/identity";
      "  - Journal:   " +:+ get_data_dir +:+ "/journal";
      "  - Secrets:   " +:+ get_data_dir +:+ "/secrets"; ""].
Definition run_shell (command : string) : M Cli unit := change_files (os_system command).
Definition DISABLE : string :=
  if is_system then "sudo systemctl disable anny-runtime.service 2>/dev/null || true"
  else "systemctl --user disable anny-runtime.service 2>/dev/null || true".
(** What is removed where it exists: by a command of the system installation, by the
    process itself in the other. *)
Definition remove_file (p : string) : M Cli unit :=
  if is_system then run_shell ("sudo rm " +:+ p) else unlink p.
Definition remove_unit : M Cli unit :=
  b ← path_exists unit_path;
  when (b : bool) (run_shell DISABLE ;; remove_file unit_path ;; print "  Removed systemd unit.").
Definition remove_link : M Cli unit :=
  b ← path_exists link_path;
  when (b : bool) (remove_file link_path ;; print "  Removed CLI.").
Definition remove_software : M Cli unit :=
  b ← path_exists get_runtime_dir;
  when (b : bool)
    ((if is_system then run_shell ("sudo rm -rf " +:+ get_runtime_dir) else remove_tree get_runtime_dir) ;;
     print "  Removed software.").
Definition purge_state : M Cli unit :=
  print "" ;;
  print "  WARNING: Purging all state (identity, journal, secrets)..." ;;
  b ← path_exists get_data_dir;
  when (b : bool) (remove_tree get_data_dir ;; print "  State purged.").
Definition confirmed (yes : bool) : M Cli bool :=
  if yes then mret true
  else answer ← input "Proceed? [y/N] "; mret (lower answer =s "y").
Definition cmd_uninstall (yes purge : bool) : M Cli outcome :=
  print_all announcement ;;
  go ← confirmed yes;
  if (go : bool) then
    remove_unit ;; remove_link ;; remove_software ;;
    when purge purge_state ;;
    print "" ;;
    print "Uninstall complete." ;;
    mret (Returned None)
  else print "Cancelled." ;; mret (Returned None).

(** ** [main] *)
Inductive Command :=
  | Version | Status | Doctor | Install
  | Uninstall (yes purge : bool) | Server (port : Z) | IdentityBootstrap (force : bool).
(** The arguments in the spellings the parser declares; others, which the parser may accept
    as abbreviations, are not modelled.  [None]: the parser exits with status 2. *)
Definition odd_arguments {A} : result A := raise Unmodelled "arguments".
Fixpoint flags (known : list string) (args : list string) : result (list string) :=
  match args with
  | [] => Ok []
  | a :: args' => if str_in a known then let? l := flags known args' in Ok (a :: l) else odd_arguments
  end.
Definition port_of (args : list string) : result Z :=
  match args with
  | [] => Ok 3643%Z
  | ["--port"; p] => if str_true p && forall_chars decimal_digit p then int_of_digits p else odd_arguments
  | _ => odd_arguments
  end.
Definition parse_args (argv : list string) : result (option Command) :=
  match argv with
  | [] => Ok None
  | "version" :: args => let? _ := flags [] args in Ok (Some Version)
  | "status" :: args => let? _ := flags [] args in Ok (Some Status)
  | "doctor" :: args => let? _ := flags [] args in Ok (Some Doctor)
  | "install" :: args => let? _ := flags [] args in Ok (Some Install)
  | "uninstall" :: args =>
      let? l := flags ["--yes"; "-y"; "--purge"] args in
      Ok (Some (Uninstall (str_in "--yes" l || str_in "-y" l) (str_in "--purge" l)))
  | "server" :: args => let? p := port_of args in Ok (Some (Server p))
  | "identity-bootstrap" :: args =>
      let? l := flags ["--force"] args in Ok (Some (IdentityBootstrap (str_in "--force" l)))
  | a :: _ => if startswith "-" a then odd_arguments else Ok None
  end.
Definition run_command (c : Command) : M Cli outcome :=
  match c with
  | Version => cmd_version
  | Status => cmd_status
  | Doctor => cmd_doctor
  | Install => cmd_install
  | Uninstall yes purge => cmd_uninstall yes purge
  | Server port => cmd_server port
  | IdentityBootstrap force => cmd_identity_bootstrap force
  end.
(** How the process ends. *)
Inductive ending := Exited (status : Z) | Became (argv : list string) | Crashed (e : exn).
Definition ending_of (r : result outcome) : ending :=
  match r with
  | Ok (Returned code) => Exited (default 0%Z code)
  | Ok (SysExit code) => Exited code
  | Ok (Replaced argv) => Became argv
  | Raise e => Crashed e
  end.
Definition main (argv : list string) (s : Cli) : Cli * ending :=
  match parse_args argv with
  | Ok (Some c) => let '(s', r) := run_command c s in (s', ending_of r)
  | Ok None => (s, Exited 2)
  | Raise e => (s, Crashed e)
  end.
End Commands.
