(* ===== verification/Preflight.v ===== *)
(** * The dependency check of the installer

    [scripts/preflight_check.py]: every package the runtime and the command line import is
    declared, and every module can be imported.  The files are given with what the
    standard library's parser finds in them, and with what importing them comes to; sets are
    finite sets, printed in an order of their own. *)
From stdpp Require Import gmap.
From S2P Require Import Prelude Dict PyVal Effects PyPath PyStr Json.

(** ** Requirements *)
Definition in_range (a b : N) (c : ascii) : bool := let n := N_of_ascii c in ((a <=? n) && (n <=? b))%N.
(** [[a-zA-Z0-9_\-]] *)
Definition name_char (c : ascii) : bool :=
  in_range 97 122 c || in_range 65 90 c || in_range 48 57 c || (N_of_ascii c =? 95)%N || (N_of_ascii c =? 45)%N.
Definition extra_char (c : ascii) : bool := name_char c || (N_of_ascii c =? 44)%N.
Definition operator_char (c : ascii) : bool :=
  let n := N_of_ascii c in ((n =? 61) || (n =? 62) || (n =? 60) || (n =? 126))%N.
Fixpoint span (P : ascii -> bool) (s : string) : string * string :=
  match s with
  | String c s' => if P c then let '(a, b) := span P s' in (String c a, b) else ("", s)
  | "" => ("", "")
  end.
(** What may follow the name: nothing, or an operator and a version. *)
Definition version_part (s : string) : bool :=
  match s with String c _ => operator_char c | "" => true end.
Definition extras_part (s : string) : bool :=
  match s with
  | String "[" s' =>
      let '(extras, rest) := span extra_char s' in
      match rest with String "]" rest' => str_true extras && version_part rest' | _ => false end
  | _ => version_part s
  end.
(** [re.match(...).group(1)]: the characters after the name cannot be part of it, so the first
    way to read the line is the only one. *)
Definition requirement_name (line : string) : option string :=
  let '(name, rest) := span name_char line in
  if str_true name && extras_part rest then Some name else None.
Definition ignored (line : string) : bool := negb (str_true line) || startswith "#" line.
(** The packages of requirements.txt; an unreadable line ends the program. *)
Fixpoint parse_requirements (lines : list string) : string + list string :=
  match lines with
  | [] => inr []
  | l :: lines' =>
      let line := strip l in
      if ignored line then parse_requirements lines'
      else match requirement_name line with
           | None => inl ("REQUIREMENT_PARSE_UNKNOWN: " +:+ line)
           | Some name =>
               match parse_requirements lines' with
               | inl e => inl e
               | inr names => inr (lower name :: names)
               end
           end
  end.

(** ** Imports *)
(** The import statements of a file: [import a.b, c] and [from m import ...] with its level. *)
Inductive statement := Import (names : list string) | ImportFrom (module : option string) (level : nat).
Definition top_name (s : string) : string := default "" (head (split_at "." s)).
Definition imported_names (st : statement) : list string :=
  match st with
  | Import names => top_name <$> names
  | ImportFrom (Some m) 0 => if str_true m then [top_name m] else []
  | ImportFrom _ _ => []
  end.
(** A file under runtime or cli: its path in the repository, its statements or the error of the parser, and what
    importing it comes to. *)
Inductive import_outcome := Imported | ModuleNotFound (msg : string) | ImportFailed (msg : string)
  | Raised (cls msg : string).
Record SourceFile := mkSource {
  sf_path : string; sf_parsed : string + list statement; sf_outcome : import_outcome }.
Fixpoint all_imports (files : list SourceFile) : string + gset string :=
  match files with
  | [] => inr ∅
  | f :: files' =>
      match sf_parsed f with
      | inl e => inl ("STATIC_PARSE_ERROR in " +:+ sf_path f +:+ ": " +:+ e)
      | inr statements =>
          match all_imports files' with
          | inl e => inl e
          | inr names => inr (list_to_set (statements ≫= imported_names) ∪ names)
          end
      end
  end.
(** [rel_path.replace(os.sep, '.')[:-3]], without a final [.__init__] *)
Fixpoint dotted (s : string) : string :=
  match s with
  | String c s' => String (if Ascii.eqb c slash then "." else c)%char (dotted s')
  | "" => ""
  end.
Definition drop_end (n : nat) (s : string) : string := string_take (String.length s - n) s.
Definition ends_with (e s : string) : bool :=
  (String.length e <=? String.length s)%nat && (String.substring (String.length s - String.length e) (String.length e) s =s e).
Definition module_path (path : string) : string :=
  let m := drop_end 3 (dotted path) in if ends_with ".__init__" m then drop_end 9 m else m.

(** ** The check *)
Definition local_packages : gset string :=
  {["runtime"; "cli"; "contracts"; "adapters"; "audit"; "packaging"; "scripts"; "tests"]}.
Record Report := mkReport { rp_lines : list string; rp_status : Z }.
Section Check.
Context (stdlib : gset string) (inventory : dict string string).
Definition external (name : string) : bool :=
  negb (bool_decide (name ∈ stdlib)) && negb (bool_decide (name ∈ local_packages)).
(** The complaint about an import, and the package it uses. *)
Definition import_error (requirements : list string) (imp : string) : option string :=
  if external imp then
    match dget imp inventory with
    | None => Some ("DEPENDENCY_MAPPING_MISSING: Import '" +:+ imp +:+ "' is not in DEPENDENCY-INVENTORY.json")
    | Some pkg =>
        if str_in (lower pkg) requirements then None
        else Some ("DEPENDENCY_PREFLIGHT_FAILED: Import '" +:+ imp +:+ "' requires package '" +:+ pkg
                   +:+ "' which is NOT in requirements.txt.")
    end
  else None.
Definition used_package (imp : string) : option string :=
  if external imp then lower <$> dget imp inventory else None.
Definition unused_warning (used : list string) (req : string) : option string :=
  if str_in req used then None
  else Some ("DEPENDENCY_UNUSED: Requirement '" +:+ req +:+ "' in requirements.txt is not explicitly imported.").
Definition load_error (f : SourceFile) : option string :=
  let m := module_path (sf_path f) in
  match sf_outcome f with
  | Imported => None
  | ModuleNotFound e => Some ("DEPENDENCY_MISSING: " +:+ m +:+ " -> " +:+ e)
  | ImportFailed e => Some ("IMPORT_ERROR: " +:+ m +:+ " -> " +:+ e)
  | Raised cls e => Some ("IMPORT_RUNTIME_SIDE_EFFECT: " +:+ m +:+ " -> " +:+ e +:+ " (" +:+ cls +:+ ")")
  end.
Definition FAILED : string := "DEPENDENCY_PREFLIGHT_FAILED".
Definition run_preflight (requirement_lines : list string) (files : list SourceFile) : Report :=
  match parse_requirements requirement_lines with
  | inl e => mkReport [e] 1
  | inr requirements =>
      match all_imports files with
      | inl e => mkReport [e; FAILED] 1
      | inr imports =>
          let imports := elements imports in
          let requirements := elements (list_to_set requirements : gset string) in
          let errors := omap (import_error requirements) imports ++ omap load_error files in
          let warnings := omap (unused_warning (omap used_package imports)) requirements in
          let warned := (fun w => "DEPENDENCY_PREFLIGHT_WARNING: " +:+ w) <$> warnings in
          match errors with
          | [] => mkReport (warned ++ ["DEPENDENCY_PREFLIGHT_PASS"]) 0
          | _ => mkReport (warned ++ errors ++ [FAILED]) 1
          end
      end
  end.

(** ** What a pass means *)
Definition required (requirement_lines : list string) (pkg : string) : Prop :=
  exists line name, line ∈ requirement_lines /\ ignored (strip line) = false /\
    requirement_name (strip line) = Some name /\ lower pkg = lower name.
Definition imports_of (files : list SourceFile) (imp : string) : Prop :=
  exists f statements st, f ∈ files /\ sf_parsed f = inr statements /\ st ∈ statements /\ imp ∈ imported_names st.
Lemma parse_requirements_spec lines :
  match parse_requirements lines with
  | inl _ => exists line, line ∈ lines /\ ignored (strip line) = false /\ requirement_name (strip line) = None
  | inr names =>
      (forall line, line ∈ lines -> ignored (strip line) = true \/ is_Some (requirement_name (strip line))) /\
      forall n, n ∈ names <-> exists line name, line ∈ lines /\ ignored (strip line) = false /\
        requirement_name (strip line) = Some name /\ n = lower name
  end.
Proof.
  induction lines as [|l lines IH]; [split; [set_solver|set_solver]|].
  cbn [parse_requirements]. destruct (ignored (strip l)) eqn:Ei; [|destruct (requirement_name (strip l)) as [name|] eqn:En;
    [|exists l; split; [by left|done]]].
  - destruct (parse_requirements lines) as [e|names].
    + destruct IH as (line & ? & ?). exists line. split; [by right|done].
    + destruct IH as [H1 H2]. split.
      * intros line [->|H]%elem_of_cons; [by left|auto].
      * intros n. rewrite H2. split; intros (line & name & Hl & Hr); exists line, name; (split; [|done]).
        -- by right.
        -- apply elem_of_cons in Hl as [->|Hl]; [|done]. destruct Hr as (Hr & _). congruence.
  - destruct (parse_requirements lines) as [e|names].
    + destruct IH as (line & ? & ?). exists line. split; [by right|done].
    + destruct IH as [H1 H2]. split.
      * intros line [->|H]%elem_of_cons; [right; by eexists|auto].
      * intros n. rewrite elem_of_cons, H2. split.
        -- intros [->|(line & name' & Hl & Hr)]; [exists l, name; split; [by left|done]|].
           exists line, name'. split; [by right|done].
        -- intros (line & name' & Hl & Hr). apply elem_of_cons in Hl as [->|Hl].
           ++ left. destruct Hr as (_ & Hn & ->). congruence.
           ++ right. by exists line, name'.
Qed.
Lemma all_imports_spec files :
  match all_imports files with
  | inl _ => exists f e, f ∈ files /\ sf_parsed f = inl e
  | inr names => (forall f, f ∈ files -> exists l, sf_parsed f = inr l) /\
      forall imp, imp ∈ names <-> imports_of files imp
  end.
Proof.
  induction files as [|f files IH]; [split; [set_solver|unfold imports_of; set_solver]|].
  cbn [all_imports]. destruct (sf_parsed f) as [e|statements] eqn:Ef; [exists f, e; split; [by left|done]|].
  destruct (all_imports files) as [e|names].
  - destruct IH as (g & e' & ? & ?). exists g, e'. split; [by right|done].
  - destruct IH as [H1 H2]. split.
    + intros g [->|H]%elem_of_cons; [by eexists|auto].
    + intros imp. rewrite elem_of_union, elem_of_list_to_set, list_elem_of_bind, H2. split.
      * intros [(st & Hi & Hst)|(g & l & st & Hg & Hr)].
        -- exists f, statements, st. split; [by left|done].
        -- exists g, l, st. split; [by right|done].
      * intros (g & l & st & Hg & El & Hst & Hi). apply elem_of_cons in Hg as [->|Hg].
        -- left. exists st. split; [done|congruence].
        -- right. by exists g, l, st.
Qed.
Lemma omap_nil {A B} (f : A -> option B) l : omap f l = [] <-> forall x, x ∈ l -> f x = None.
Proof.
  induction l as [|x l IH]; csimpl; [set_solver|]. destruct (f x) eqn:E; split; try done.
  - intros H. specialize (H x ltac:(by left)). congruence.
  - intros H y [->|Hy]%elem_of_cons; [done|]. by apply IH.
  - intros H. apply IH. intros y Hy. apply H. by right.
Qed.
Lemma import_error_none requirement_lines names imp :
  (forall n, n ∈ names <-> exists line name, line ∈ requirement_lines /\ ignored (strip line) = false /\
     requirement_name (strip line) = Some name /\ n = lower name) ->
  import_error (elements (list_to_set names : gset string)) imp = None <->
  (external imp = true -> exists pkg, dget imp inventory = Some pkg /\ required requirement_lines pkg).
Proof.
  intros Hn. unfold import_error. destruct (external imp); [|by split].
  destruct (dget imp inventory) as [pkg|]; [|split; [done|intros H; destruct (H eq_refl) as (?&?&?); done]].
  assert (str_in (lower pkg) (elements (list_to_set names : gset string)) = true <-> required requirement_lines pkg) as Hs.
  { unfold str_in. rewrite bool_decide_eq_true, elem_of_elements, elem_of_list_to_set, Hn. done. }
  destruct (str_in (lower pkg) _).
  - split; [|done]. intros _ _. exists pkg. split; [done|by apply Hs].
  - split; [done|]. intros H. destruct (H eq_refl) as (p & E & Hp). simplify_eq. apply Hs in Hp. done.
Qed.
(** The check passes exactly when the requirements and the files can be read, every
    package that is imported and is neither of the standard library nor local is in the
    inventory under a required name, and every module can be imported. *)
Theorem preflight_passes_iff requirement_lines files :
  rp_status (run_preflight requirement_lines files) = 0%Z <->
  (forall line, line ∈ requirement_lines -> ignored (strip line) = true \/ is_Some (requirement_name (strip line))) /\
  (forall f, f ∈ files -> (exists l, sf_parsed f = inr l) /\ sf_outcome f = Imported) /\
  (forall imp, imports_of files imp -> external imp = true ->
     exists pkg, dget imp inventory = Some pkg /\ required requirement_lines pkg).
Proof.
  unfold run_preflight. pose proof (parse_requirements_spec requirement_lines) as HR.
  destruct (parse_requirements requirement_lines) as [e|names].
  { split; [done|]. intros (H & _). destruct HR as (line & Hl & Hi & Hn).
    destruct (H line Hl) as [?|[? ?]]; congruence. }
  destruct HR as [HR1 HR2]. pose proof (all_imports_spec files) as HF.
  destruct (all_imports files) as [e|imports].
  { split; [done|]. intros (_ & H & _). destruct HF as (f & e' & Hf & He).
    destruct (H f Hf) as [[l Hl] _]. congruence. }
  destruct HF as [HF1 HF2].
  set (errors := omap (import_error _) (elements imports) ++ omap load_error files).
  assert (errors = [] <-> (forall imp, imports_of files imp -> external imp = true ->
      exists pkg, dget imp inventory = Some pkg /\ required requirement_lines pkg) /\
      (forall f, f ∈ files -> sf_outcome f = Imported)) as He.
  { unfold errors. rewrite app_nil, !omap_nil. f_equiv.
    - setoid_rewrite elem_of_elements. setoid_rewrite HF2.
      split; intros H imp Hi; [by apply (import_error_none requirement_lines names); auto|].
      apply (import_error_none requirement_lines names); auto.
    - split; intros H f Hf; specialize (H f Hf); unfold load_error in *; by destruct (sf_outcome f). }
  assert (rp_status (match errors with [] => _ | _ => _ end) = 0%Z <-> errors = []) as ->
    by (destruct errors; split; (done || discriminate)).
  rewrite He. split.
  - intros [H1 H2]. split; [done|]. split; [auto|done].
  - intros (_ & H2 & H3). split; [done|]. intros f Hf. by apply H2.
Qed.
End Check.

(** The repository has no DEPENDENCY-INVENTORY.json, which is read as an empty one: then the check
    fails on the first package from outside. *)
Lemma no_inventory_fails stdlib requirement_lines files imp :
  imports_of files imp -> external stdlib imp = true ->
  rp_status (run_preflight stdlib [] requirement_lines files) <> 0%Z.
Proof.
  intros Hi He H. apply preflight_passes_iff in H as (_ & _ & H).
  by destruct (H imp Hi He) as (pkg & ? & _).
Qed.

Module PreflightExamples.
Definition stdlib : gset string := {["os"; "json"]}.
Definition files : list SourceFile :=
  [mkSource "runtime/secrets/__init__.py" (inr [Import ["os"; "yaml.nodes"]; ImportFrom (Some "runtime.core") 0; ImportFrom None 1]) Imported].
Definition lines : list string := ["# core"; "PyYAML>=6.0"; "mcp[cli]~=1.0"; ""].
Example passes :
  run_preflight stdlib [("yaml", "PyYAML")] lines files =
  mkReport ["DEPENDENCY_PREFLIGHT_WARNING: DEPENDENCY_UNUSED: Requirement 'mcp' in requirements.txt is not explicitly imported.";
            "DEPENDENCY_PREFLIGHT_PASS"] 0.
Proof. vm_compute. reflexivity. Qed.
Example fails_without_inventory :
  rp_status (run_preflight stdlib [] lines files) = 1%Z /\
  rp_status (run_preflight stdlib [("yaml", "PyYAML")] ["PyYAML ; extra"] files) = 1%Z /\
  module_path "runtime/secrets/__init__.py" = "runtime.secrets".
Proof. vm_compute. by split_and!. Qed.
End PreflightExamples.
