(* ===== verification/Witnesses.v ===== *)
(** * Concrete instances

    Instances of the interfaces (machine, registry host, executors, clients,
    git), and, for each theorem with hypotheses, concrete inputs at which they
    hold. *)
From S2P Require Import Prelude Dict PyVal Effects PyPath PyStr Json JsonLoad ExecModels Host Workspace.
From S2P Require Import Deterministic Registry Intelligence Orchestrator Mcp Telemetry Worker.
From S2P Require Import Continuity Mutation Manager Bridge Sync.

(** ** The instances *)
#[local] Instance w_floats : FloatOps := {
  float_repr _ := "0.0";
  float_sum l := foldl fadd (f_of_Z 0) l }.
#[local] Instance w_machine : Machine := {
  clock n := (1000 * Z.of_nat n)%Z;
  uuid_hex n := "0123456789abcdef0123456789ab" +:+ zstr (1000 + Z.of_nat n);
  cwd := "/srv";
  machine_floats := w_floats;
  isoformat z := zstr z;
  sha256 s := "sha:" +:+ s;
  git_run _ _ _ := raise OSError "no git";
  ephemeral_base := "/ws" }.
#[local] Instance w_io : RegistryIO := {
  reg_floats := w_floats;
  reg_errors _ := "Expecting value";
  reg_sha256 s := "sha:" +:+ s;
  reg_cwd := "/srv";
  write_fault _ := None;
  move_fault _ := None }.
(** The same host with a full disk for the recovery marker. *)
Definition w_io_full : RegistryIO := {|
  reg_floats := w_floats;
  reg_errors _ := "Expecting value";
  reg_sha256 s := "sha:" +:+ s;
  reg_cwd := "/srv";
  write_fault p := if p =s "/d/models.json.recovery.json" then Some "No space left" else None;
  move_fault _ := None |}.
#[local] Instance w_frontier : FrontierExecutor := {
  fe_is_available _ := true;
  fe_execute_plan _ _ := Ok [] }.
#[local] Instance w_clients : ToolClients := {
  has_github := false;
  github_get_file _ _ _ := raise OSError "no network";
  github_search_code _ _ := raise OSError "no network";
  has_fabric := false;
  fabric_get_resource _ := raise OSError "no network";
  fabric_not_found _ := false;
  fabric_register_resource _ _ _ _ _ _ := raise OSError "no network";
  stat_times _ := ("0", "0") }.
#[local] Instance w_model : ModelExecutor := {
  qwen_model_path := None;
  model_file_exists _ := false;
  model_execute _ _ := raise OSError "no model" }.
#[local] Instance w_git : GitHead := fun _ => "c0ffee".

(** ** Workspaces *)
Definition w_host : Host := mkHost {["/" := Dir 16877 0 (f_of_Z 0); "/ws" := Dir 16832 0 (f_of_Z 0)]} 0.
Lemma w_base_dir : is_dir_path (base_dir "/srv" "/ws").
Proof. exists ["ws"]. split; [done|]. split; [|reflexivity]. repeat constructor; vm_compute; done. Qed.

Lemma create_workspace_witness :
  wp (create_workspace clock "/srv" "/ws" "e1" "p1") w_host (fun h' r =>
    forall w, r = Ok w -> below "/ws" w = true /\ isdir (h_fs h') w = true).
Proof.
  eapply wp_mono; [apply (create_workspace_spec clock "/srv" "/ws" "e1" "p1" w_host eq_refl w_base_dir)|].
  intros h r [_ H] w Hw. by destruct (H w Hw) as (H1 & _ & H2 & _).
Defined.

(** ** The deterministic executor *)
Definition w_task (cap : string) (input : dict string pyval) : Task :=
  mkTask "t1" cap "acct" "p1" input [] 60000000 "keep" "journal" "ANNY" 0 None.
Definition w_context : TaskExecutionContext :=
  mkContext "e1" "t1" "acct" "p1" "filesystem.hash" "/ws/p1/e1" [] [] 60000000 [] "disabled"
    "read_only" ES_QUEUED VNone None None None None None None None None None None None None None
    None None None None (Some 1%Z).

Lemma execute_denied_path_witness :
  let task := w_task "filesystem.hash" [("path", VStr "/tmp/../root/.bashrc")] in
  path_denied (abspath cwd "/tmp/../root/.bashrc") = true /\
  wp (execute task) (mkExSt w_context w_host) (fun s' _ => c_status (ex_ctx s') <> ES_SUCCEEDED).
Proof.
  split; [vm_compute; reflexivity|].
  eapply wp_mono; [apply (execute_denied_path _ (mkExSt w_context w_host) "/tmp/../root/.bashrc")|];
    [reflexivity|reflexivity|reflexivity|vm_compute; reflexivity|].
  by intros s r [H _].
Defined.

(** ** The model registry *)
Definition w_path : string := "/d/models.json".
Definition w_empty : RegSt := mkRegSt empty_mem ∅.
(** The registry after its first construction. *)
Definition w_fresh : RegSt := (construct (Some w_path) "t" "t" w_empty).1.
Definition w_corrupt : RegSt := mkRegSt empty_mem {[w_path := Raw "{"]}.
Definition w_marked : RegSt :=
  mkRegSt empty_mem {[recovery_path w_path := Written (VDict [("state", VStr "BLOCKED_OR_UNKNOWN")])]}.

Ltac distinct_keys :=
  unfold dict_wf; refine (bool_decide_eq_true_1 _ _); vm_compute; reflexivity.
Lemma w_fresh_wf : mem_wf (r_mem w_fresh).
Proof.
  split_and!.
  - distinct_keys.
  - vm_compute. repeat constructor.
  - distinct_keys.
Qed.

Lemma registry_roundtrip_witness :
  length (models (r_mem w_fresh)) <> 0 /\
  load_data (build_data (r_mem w_fresh)) empty_mem = Ok (r_mem w_fresh).
Proof.
  split; [vm_compute; discriminate|]. apply (registry_roundtrip (r_mem w_fresh) empty_mem w_fresh_wf).
Defined.

Lemma construct_blocked_witness : exists s' msg,
  construct (Some w_path) "t" "t" w_marked = (s', raise RegistryRecoveryRequired msg)
  /\ r_disk s' = r_disk w_marked.
Proof. apply (construct_blocked w_path "t" "t" w_marked); vm_compute; reflexivity. Defined.


Lemma quarantine_window_witness :
  let c := @construct w_io_full (Some w_path) "t" "t" in
  wp c w_corrupt (fun s' r => r = raise OSError "No space left" /\
    c s' = @bootstrap w_io_full (Some w_path) (mkRegSt empty_mem (r_disk s'))).
Proof.
  eapply wp_mono; [apply (@quarantine_window w_io_full w_path "t" "t" w_corrupt (Raw "{")
    (Exn JSONDecodeError "Expecting value") "No space left"); (reflexivity || discriminate)|].
  intros s r [H1 H2]. split; [done|apply H2].
Defined.

Lemma registry_durable_witness :
  let s := Registry.run_ops w_path [Registry.OpUnregister "nanbeige-4.1"; Registry.OpAvailability "qwen3-8b" true] w_fresh in
  construct (Some w_path) "t2" "t2" (s <| r_mem := empty_mem |>) = (s, Ok tt).
Proof.
  apply (registry_durable w_path _ w_fresh "t2" "t2" empty_mem); [reflexivity|reflexivity|].
  split_and!; [apply w_fresh_wf|vm_compute; reflexivity|vm_compute; reflexivity].
Defined.

Definition w_attestation : RecoveryAttestation :=
  mkAttestation "rec-1" "h" "q" "authority" "RESTORE" ["e"] "d" [] ["v"] "t".
Lemma restore_iff_witness :
  wp (restore_from_attestation w_path w_attestation (fun _ => Ok true)) w_marked (fun s' r =>
    r <> Ok tt -> r_disk s' = r_disk w_marked).
Proof.
  eapply wp_mono; [apply (restore_iff w_path w_attestation (fun _ => Ok true) w_marked);
    reflexivity|].
  by intros s r (_ & _ & H).
Defined.

(** ** Routing *)
Definition w_profile : ImplementationProfile :=
  mkProfile "m1" ["document.classify"] "standard" [] [] [] true CERTIFIED [] [] None None None
    None "LOCAL_MODEL".
Definition w_layer : Layer :=
  mkLayer [("m1", w_profile)]
    [("b1", mkBenchmark "b1" "m1" "document.classify" "v1" (flit 9 10) (flit 9 10) (flit 1 1) [] 0
              CERTIFIED None)].
Definition w_request : CapabilityAssessmentRequest :=
  mkAssessmentRequest "document.classify" (flit 85 100) None None None.

Lemma assess_delegate_complete_witness :
  as_decision (assess_capability w_layer w_request None) = DELEGATE.
Proof.
  destruct (accepted_all w_layer w_request None) as [|c l] eqn:E; [vm_compute in E; discriminate|].
  refine (proj1 (assess_delegate_complete w_layer w_request None c _ _ _ _)).
  - vm_compute. repeat constructor.
  - reflexivity.
  - rewrite E. left.
  - vm_compute in E. injection E as <- _. vm_compute. reflexivity.
Defined.

Definition w_orchestrator : Orchestrator :=
  new_orchestrator cap_registry_init (r_mem w_fresh) w_layer.
Lemma plan_task_sound_witness :
  routing_sound w_orchestrator (plan_task_of (w_task "filesystem.hash" [])) default_policy false None
    (plan_task w_orchestrator (plan_task_of (w_task "filesystem.hash" [])) default_policy false None).2.
Proof.
  apply plan_task_sound.
  - apply w_fresh_wf.
  - split; [distinct_keys|vm_compute; repeat constructor].
Defined.

(** ** The gateway and telemetry *)
Definition w_gateway : Gateway := mkGateway tool_registry_init cap_registry_init [] [] w_host.
Definition w_tool_request (tool : string) : ToolRequest :=
  mkToolRequest "treq-1" tool tool "wrk-1" "e1" [("path", VStr "README.md")] 0 60000000 [].


Lemma repository_read_denied_witness :
  wp (invoke "/ws/p1/e1" "/d/fabric" true (w_tool_request "repository.read")) w_gateway
    (fun g' res => exists t, res = Ok t /\ tr_status t = TI_DENIED).
Proof. apply repository_read_denied; vm_compute; reflexivity. Defined.

Definition w_envelope : TelemetryEnvelope :=
  (create_envelope "evt-1" "0" "worker" "execution.started" "execution")
    <| te_metadata := [("api_key", VStr "s3cret"); ("model", VStr "qwen")] |>.
Lemma emit_ok_witness : collector_ok (emit true w_envelope (mkCollector [] [])).
Proof. apply emit_ok. split; [constructor|reflexivity]. Defined.

Definition w_xstate (st : string) : ExecState := mkExecState "OPS" "DETERMINISTIC" st None None 0.
(** A late event that says the execution failed. *)
Definition w_late : TelemetryEnvelope :=
  (w_envelope <| te_execution_id := Some "e1" |>) <| te_status := Some "FAILED" |>.
Lemma success_latched_witness : exists s',
  dget "e1" (foldl apply_event [("e1", w_xstate "SUCCEEDED")] [(w_late, 1%Z)])
    = Some s' /\ xs_status s' = "SUCCEEDED".
Proof. by apply (success_latched _ _ "e1" (w_xstate "SUCCEEDED")). Defined.

(** ** Workers *)
Definition w_worker (st : WorkerState) : WorkerDefinition :=
  mkWorkerDefinition "wrk-1" "e1" "t1" "acct" "p1" "filesystem.hash" "DETERMINISTIC"
    "deterministic-v1" None "/ws/p1/e1" 0 60000000 [] "disabled" "read_only" st None None None
    (Some "DETERMINISTIC") (Some "integrity").
Definition w_wkst (st : WorkerState) : WkSt :=
  mkWkSt [("wrk-1", w_worker st)] w_context w_gateway (mkCollector [] []).
Definition w_cap : CapabilityDefinition :=
  match cap_get "filesystem.hash" cap_registry_init with
  | Some c => c
  | None => mkCapabilityDefinition "" "" "" "" "" false false "" "" [] 0 0 false DETERMINISTIC None
              false "" "" false false
  end.

Lemma start_worker_settles_witness :
  wp (start_worker true true true "" "/d/fabric" true "wrk-1"
        (w_task "filesystem.hash" [("path", VStr "/root/x")]) w_cap) (w_wkst WS_CREATED)
    (fun s' r => r = Ok tt /\ Worker.settled "wrk-1" s').
Proof.
  eapply wp_mono; [exact (start_worker_settles true true true "" "/d/fabric" true "wrk-1"
    (w_worker WS_CREATED) _ _ (w_wkst WS_CREATED) eq_refl)|].
  intros s r H. exact H.
Defined.

Lemma cancel_terminate_witness :
  wp (cancel_worker true true "wrk-1") (w_wkst WS_SUCCEEDED)
    (fun s' r => r = Ok tt /\ s' = w_wkst WS_SUCCEEDED).
Proof.
  exact (proj1 (cancel_terminate_spec true true "wrk-1" (w_worker WS_SUCCEEDED)
    (w_wkst WS_SUCCEEDED) eq_refl)).
Defined.

(** ** The continuity journal *)
Definition w_record (cid mission step : string) : ContinuityRecord :=
  create_record cid "0" mission "t1" step "ANNY" "L0" "objective" (Some "e1").
Definition w_event (n : Z) (st : string) : EventRecord :=
  mkEvent "evt" n "0" "M1" "t1" "s1" None "ANNY" "L0" None "TASK_CREATED" "target" "intent" []
    None None None None [] "" st [] [] None None st st "PENDING" "NOT_CERTIFIED" [] None None None
    None None None None (Some "e1").
Definition w_engine (rf : list (line ContinuityRecord)) (ef : list (line EventRecord))
    (faults : list bool) : Engine :=
  mkEngine [] [] 0 [] CLEAN (Some rf) (Some ef) [] 0 faults.
Definition w_loaded (e : Engine) : Engine := (load "r" "e" e).1.
Definition w_ops : list Continuity.journal_op :=
  [OpSave (w_record "c2" "M1" "s1"); OpAppend (w_event 0 "FAILED"); OpAppend (w_event 0 "QUEUED")].
(** The second of three writes fails. *)
Definition w_clean : Engine :=
  w_loaded (w_engine [LGood (w_record "c1" "M1" "s1")] [LGood (w_event 1 "QUEUED")]
              [false; true; false]).


Lemma recovered_hides_quarantine_witness : exists e',
  load "r" "e" (w_engine [LBad "{" "Expecting value"] [LGood (w_event 0 "QUEUED")] [])
    = (e', Ok tt)
  /\ en_quarantined e' = [mkQuarantine "r" 1 "{" "Expecting value"] /\ en_corruption e' = RECOVERED.
Proof. apply (recovered_hides_quarantine _ _ _ _ (w_event 0 "QUEUED")); [simpl; lia|reflexivity..]. Defined.

Lemma reconstruct_spec_witness : exists d,
  reconstruct_execution "e1" w_clean = Some d /\ dget "events_count" d = Some (VInt 1).
Proof.
  destruct (reconstruct_spec "e1" w_clean) as [_ H]; [vm_compute; repeat split|].
  destruct (reconstruct_execution "e1" w_clean) as [d|] eqn:E; [|vm_compute in E; discriminate].
  exists d. split; [reflexivity|]. destruct (H d eq_refl) as (Hc & _). rewrite Hc.
  vm_compute. reflexivity.
Defined.

(** ** Mutations *)
Definition w_prepared : Engine :=
  (prepare_mutation "M1" "t1" "s1" "ANNY" "L0" "/repo" "main" "abc123" "why" "edit" "next" None
     (w_loaded (w_engine [LGood (w_record "c1" "M1" "s1")] [] []))).1.
Definition w_base : Engine := w_loaded (w_engine [LGood (w_record "c1" "M1" "s1")] [] []).

Ltac keyed_ok := split; [distinct_keys|vm_compute; repeat constructor].

Lemma reconcile_verdict_witness : exists e',
  reconcile w_prepared = (e', Ok RECONCILIATION_REQUIRED).
Proof.
  destruct (reconcile_verdict w_prepared) as (e' & st & H & Hst & Hc & _);
    [vm_compute; reflexivity|keyed_ok|].
  exists e'. rewrite H. destruct Hst as [->| ->]; [|reflexivity].
  exfalso. pose proof (proj1 Hc eq_refl) as HF. vm_compute in HF. inversion HF as [|? ? Hx]. discriminate Hx.
Defined.


(** A step with a finalized mutation. *)
Definition w_twice : Engine :=
  (finalize_mutation (default (w_event 0 "") (last (en_events w_prepared))) "def456" ["a.py"] [] []
     w_prepared).1.
Lemma second_orphan_missed_witness : exists e1 p e2,
  prepare_mutation "M1" "t1" "s1" "ANNY" "L0" "/repo" "main" "def456" "why" "edit" "next" None w_twice
    = (e1, Ok p)
  /\ ev_event_type p = MUTATION_PREPARED /\ reconcile e1 = (e2, Ok COHERENT).
Proof.
  destruct (last (step_records "M1" "s1" w_twice)) as [r|] eqn:E; [|vm_compute in E; discriminate].
  apply (second_orphan_missed _ _ _ _ _ _ _ _ _ _ _ _ w_twice r); [|keyed_ok|exact E| |].
  - vm_compute; reflexivity.
  - vm_compute. discriminate.
  - vm_compute. repeat constructor.
Defined.

Lemma two_phases_coherent_witness : exists e1 e2 p f,
  prepare_mutation "M1" "t1" "s1" "ANNY" "L0" "/repo" "main" "abc123" "why" "edit" "next" None w_base
    = (e1, Ok p)
  /\ finalize_mutation p "def456" ["a.py"] ["t"] [] e1 = (e2, Ok f)
  /\ forall q, cr_step_id q = "s1" -> incoherent (en_events e2) q = false.
Proof.
  destruct (two_phases_coherent "M1" "t1" "s1" "ANNY" "L0" "/repo" "main" "abc123" "why" "edit"
    "next" None w_base (w_record "c1" "M1" "s1") "def456" ["a.py"] ["t"] [])
    as (e1 & e2 & p & f & c & r & H1 & H2 & _ & _ & _ & _ & _ & _ & H);
    [vm_compute; reflexivity|keyed_ok|vm_compute; reflexivity|].
  exists e1, e2, p, f. auto.
Defined.

(** ** The manager *)
Definition w_mg (generation : Z) : MgSt :=
  mkMgSt [("e1", w_task "filesystem.hash" [("path", VStr "/root/x")])] [("e1", w_context)]
    [("wrk-1", w_worker WS_CREATED)] w_gateway (mkCollector [] []) w_orchestrator w_base generation.
Lemma w_synced : synced "r" "e" w_base.
Proof. constructor; vm_compute; repeat split. Qed.

Lemma stale_generation_fenced_witness :
  wp (execute_sync true true "/d/fabric" true true true "/d" "e1") (w_mg 2) (fun s' r =>
    exists c', r = Ok (Some c') /\ c_status c' = ES_FAILED /\ h_fs (mg_host s') = h_fs w_host).
Proof.
  eapply wp_mono; [apply (stale_generation_fenced true true "/d/fabric" true true true "/d" "r" "e"
    "e1" w_context (w_task "filesystem.hash" [("path", VStr "/root/x")]) (w_worker WS_CREATED) w_cap
    (w_mg 2) 1); try reflexivity; [apply w_synced|discriminate]|].
  intros s r (c' & v & H1 & _ & H2 & H3 & _). exists c'. injection H2 as H2 _. auto.
Defined.

#[local] Notation w_run generation :=
  (execute_sync true true "/d/fabric" true true true "/d" "e1" (w_mg generation)) (only parsing).
Lemma run_result {S A} (p : S * A) a : p.2 = a -> p = (p.1, a).
Proof. destruct p. by intros <-. Qed.
Lemma w_run_ok : w_run 1 = ((w_run 1).1, Ok None).
Proof. apply run_result. vm_compute. reflexivity. Qed.
Lemma execute_sync_returns_none_witness :
  w_run 1 = ((w_run 1).1, Ok None) /\ fenced true "e1" (w_mg 1) = false.
Proof.
  pose proof w_run_ok as H.
  split; [exact H|].
  pose proof (execute_sync_returns_none true true "/d/fabric" true true true "/d" "e1" (w_mg 1)
    (w_run 1).1 None H) as [_ Hf]. clear H. rename Hf into H.
  destruct (fenced true "e1" (w_mg 1)); [|reflexivity]. destruct (H eq_refl). discriminate.
Defined.


Definition w_reloaded : Engine := (load "r" "e" (mg_engine (w_run 1).1)).1.
Lemma w_reload : load "r" "e" (mg_engine (w_run 1).1) = (w_reloaded, Ok tt).
Proof. unfold w_reloaded. apply run_result. vm_compute. reflexivity. Qed.
Definition w_restarted : MgSt :=
  mkMgSt [] [] [] w_gateway (mkCollector [] []) w_orchestrator w_reloaded 2.
Lemma outcome_survives_restart_witness :
  wp (get_execution true "e1") w_restarted (fun _ r =>
    exists c2, r = Ok (Some c2) /\ c_status c2 = ES_FAILED).
Proof.
  assert (c_status <$> dget "e1" (mg_executions (w_run 1).1) = Some ES_FAILED) as Hc
    by (vm_compute; reflexivity).
  apply fmap_Some in Hc as (c & E & Hc). symmetry in Hc.
  eapply wp_mono; [refine (outcome_survives_restart true true "/d/fabric" true true true "/d" "r" "e"
    "e1" (w_mg 1) (w_run 1).1 c w_reloaded w_restarted _ _ _ E _ w_reload _ _)|].
  - reflexivity.
  - apply w_synced.
  - exact w_run_ok.
  - rewrite Hc. right. left.
  - reflexivity.
  - reflexivity.
  - intros s r (c2 & H1 & H2 & _). exists c2. split; [exact H1|rewrite H2; exact Hc].
Defined.

(** ** Synchronisation *)
#[local] Instance w_sync : SyncIO := {
  sync_floats := w_floats;
  sync_sha256 s := "sha:" +:+ s;
  fetch_bytes v := if truthy v then Ok "BYTES" else raise OSError "no url";
  token_hex n := "t" +:+ zstr (Z.of_nat n);
  sync_now n := zstr (Z.of_nat n) }.
Definition w_release : dict string pyval :=
  [("source", VStr "github:a/b"); ("candidate_version", VStr "v2"); ("authorized", VBool true);
   ("assets", VList [VDict [("name", VStr "x"); ("browser_download_url", VStr "https://x")]])].
Definition w_discover : option (result (dict string pyval)) := Some (Ok w_release).
Definition w_verifier := Some (candidate_verifier (Some "sha:BYTES")).
Definition w_staged : Service :=
  default (new_service [] "v1")
    (play_all w_verifier w_discover [AStart; ABody 0; AFinish 0; AStage; ABody 1]
       (new_service [] "v1")).
Lemma w_staged_reachable : reachable w_discover w_verifier "v1" w_staged.
Proof.
  apply (play_all_steps w_verifier w_discover "v1"
           [AStart; ABody 0; AFinish 0; AStage; ABody 1]).
  vm_compute. reflexivity.
Qed.
Definition w_staged_result : SyncResult :=
  default (new_result w_staged) (head (sv_heap w_staged)).
Lemma sync_never_activates_witness :
  length (sv_heap w_staged) = 1 /\ sv_local_version w_staged = "v1" /\
  (rollback w_staged).1 = w_staged.
Proof.
  split; [vm_compute; reflexivity|].
  destruct (sync_never_activates w_discover w_verifier "v1" w_staged w_staged_reachable)
    as (_ & _ & H1 & _ & H2). split; [exact H2|exact H1].
Defined.
Lemma staged_without_candidate_witness :
  exists s r, reachable w_discover None "v2" s /\ sv_heap s = [r] /\ sr_sync_state r = STAGED /\
    sr_digest r = VNone.
Proof.
  destruct (staged_without_candidate None w_release "v2" eq_refl eq_refl)
    as (s & r & H1 & H2 & H3 & _ & H4 & _).
  exists s, r. split; [exact H1|]. split; [exact H2|]. split; [exact H3|exact H4].
Defined.
