(* ===== verification/RuntimeWitnesses.v ===== *)
(** * Concrete instances, continued

    Instances of the interfaces of the identity, security, workspace, network
    and startup parts, and, for each of their theorems with hypotheses,
    concrete inputs at which they hold. *)
From S2P Require Import Prelude Dict PyVal Effects PyPath PyStr PyBytes Json JsonLoad ExecModels Host.
From S2P Require Import Registry Continuity Core Inventory Config Keys Github Fabric Bootstrap.
From S2P Require Import Identity Security Workspaces CustomerZero.

(** ** Sessions *)
#[local] Instance r_identity : IdentityEnv := {
  id_clock n := (1000 * Z.of_nat n)%Z;
  local_offset := 0%Z;
  id_uuid n := pretty n;
  ed25519_verify _ _ _ := true }.
Definition r_key : string := "00000000000000000000000000000000000000000000000000000000000000ff".
Definition r_enroll : list session_op :=
  [SEnroll (OpBegin r_key "alice" "acme" "00" "01"); SEnroll (OpRegister "anny-1");
   SEnroll (OpPair "rt-1"); SEnroll OpActivate;
   SAttach "alice" "acme" "acc" "prj" "anny-1" "full" []; SDetach "SES-0"].
Definition r_sessions : SessionSt :=
  run_sessions "rt-1" r_enroll (mkSessions [] (new_enrollment None) 0).
Definition r_lease : SessionLease :=
  mkLease "SES-0" "alice" "acme" "acc" "prj" "anny-1" "rt-1" "full" [] 1000 3600001000 SL_CLOSED.
Lemma session_never_revived_witness :
  get_session "SES-0" r_sessions = Some r_lease /\
  exists l', get_session "SES-0" (run_sessions "rt-1"
      [SHeartbeat "SES-0" 60; SAttach "alice" "acme" "acc" "prj" "anny-1" "full" []; SCleanup]
      r_sessions) = Some l' /\ lease_active l' = false.
Proof.
  split; [vm_compute; reflexivity|].
  destruct (session_never_revived "rt-1" ltac:(intros m n; apply (inj pretty))
    r_enroll
    [SHeartbeat "SES-0" 60; SAttach "alice" "acme" "acc" "prj" "anny-1" "full" []; SCleanup]
    (new_enrollment None) "SES-0" r_lease ltac:(vm_compute; reflexivity)) as (l' & H1 & H2 & _).
  exists l'. split; [exact H1|]. apply H2. reflexivity.
Defined.

(** ** Authorization *)
Definition r_context : ExecutionContext :=
  mkExecContext "acme" "acc" "prj" "anny-1" "rt-1" "SES-0" "alice" "OP-1" "EXEC-1" 7
    (mkMoment true 0) (mkMoment true 1000000) (Some "w1") {["FILESYSTEM_READ"]}.
Definition r_ops : list store_op :=
  [AGrant "acme" "alice" "FILESYSTEM_READ" "w1" 7; AGrant "acme" "bob" "SHELL_EXECUTE" "*" 7; ASave;
   ARevoke "acme" "bob" "SHELL_EXECUTE" "*"; ALoad].
Lemma store_refines_witness :
  Forall op_colon_free r_ops /\
  store_check (foldl (fun s op => run_store op s) (mkStore [] None) r_ops) r_context
    "FILESYSTEM_READ" =
  spec_check (foldl (fun g op => spec_op op g) (∅, None) r_ops).1 "acme" "alice" "FILESYSTEM_READ"
    "w1" 7.
Proof.
  assert (Forall op_colon_free r_ops) as H by (repeat constructor).
  split; [exact H|].
  apply (store_refines r_ops r_context "FILESYSTEM_READ" H); reflexivity.
Defined.

Definition r_store : AuthStore :=
  store_grant "acme" "alice" "FILESYSTEM_READ" "w1" 7 (mkStore [] None).
Definition r_tools : dict string (SecureManifest * handler nat) :=
  [("filesystem.read", (mkSecureManifest "filesystem.read" ["FILESYSTEM_READ"] true "READ",
      fun _ _ n => (S n, Ok VNone)))].

(** ** Workspaces *)
Definition r_workspace : GovernedWorkspace :=
  mkGW "w1" "globex" "prj" ["carol"] "" "" WS_READY 7 "/ws/w1" "0" None.
Definition r_ws : WsSt := mkWsSt [("w1", r_workspace)] (mkHost ∅ 0).
Lemma workspace_isolation_witness :
  may_use r_context r_workspace = false /\
  (run_ws (fun _ => 0%Z) "/" r_context (WDelete "notes.txt") r_ws).1 = r_ws.
Proof.
  split; [reflexivity|].
  pose proof (workspace_isolation (fun _ => 0%Z) "/" r_context (WDelete "notes.txt") r_ws r_workspace
    ltac:(reflexivity) ltac:(reflexivity)) as H.
  unfold wp in H. destruct (run_ws _ _ _ _ _) as [s' r]. destruct H as [-> _]. reflexivity.
Defined.

(** ** GitHub *)
#[local] Instance r_floats : FloatOps := {
  float_repr _ := "0.0";
  float_sum l := foldl fadd (f_of_Z 0) l }.
Definition r_contents : dict string pyval :=
  [("encoding", VStr "base64"); ("content", VStr ("aGVs" +:+ String "010" "bG8=" +:+ String "010" ""))].
Definition r_raw : string := dumps false (VDict r_contents).
(** A server that answers every request with one file. *)
#[local] Instance r_network : Network := {
  net_floats := r_floats;
  net_errors _ := "Expecting value";
  urlopen _ _ := HttpBody 200 r_raw }.
Definition r_client : GitHubClient := mkClient (Some "token") None None.
Lemma get_file_round_trip_witness :
  json_loads r_raw = Ok (VDict r_contents) /\
  (get_file r_client "acme" "fabric" "README.md" None []).2 = Ok (VStr "hello").
Proof.
  split; [reflexivity|].
  pose proof (get_file_round_trip r_client "acme" "fabric" "README.md" None "token" [] r_raw
    r_contents "hello" 200 r_raw ltac:(reflexivity) ltac:(reflexivity) ltac:(vm_compute; reflexivity)
    ltac:(discriminate) ltac:(vm_compute; reflexivity) ltac:(reflexivity)) as H.
  unfold wp in H. destruct (get_file _ _ _ _ _ _) as [s' r].
  apply H. eexists. split; [reflexivity|]. split; vm_compute; reflexivity.
Defined.

(** ** Startup *)
#[local] Instance r_fabric : FabricEnv := {
  fabric_network := r_network;
  fabric_now sent := Z.of_nat (length sent);
  fabric_isoformat z := zstr z;
  latency_ms _ := f_of_Z 1;
  hmac_sha256 key message := "hmac:" +:+ message }.
#[local] Instance r_registry : RegistryIO := {
  reg_floats := r_floats;
  reg_errors _ := "Expecting value";
  reg_sha256 s := "sha:" +:+ s;
  reg_cwd := "/srv";
  write_fault _ := None;
  move_fault _ := None }.
#[local] Instance r_config : ConfigEnv := {
  environ _ := None; home := "/root"; platform_system := "Linux"; has_yaml := true }.
#[local] Instance r_boot : BootEnv := {
  boot_fabric := r_fabric;
  boot_registry := r_registry;
  boot_config := r_config;
  importable _ := true;
  boot_files := ∅;
  boot_cwd := "/srv";
  critical_order := CRITICAL_CAPABILITIES;
  format_ms _ := "1.0ms";
  boot_started := "0";
  boot_completed := "1" }.
Definition r_core : CoreSt :=
  mkCore STOPPED (VInt 0) None None (mkEngine [] [] 0 [] CLEAN None None [] 0 []) false None [] 0 [].
Definition r_time (n : nat) : string := zstr (Z.of_nat n).
Definition r_key_dir : KeyDir := mkKeyDir None None 0 [].
Lemma startup_never_ready_witness :
  gen_ready 0 r_core /\
  exists s' r, startup r_time "/d/records.jsonl" "/d/events.jsonl"
      (engine_resolve "/d" r_key_dir (Some r_client) None [] []) r_core = (s', r) /\
    co_generation s' = VInt 1 /\ (co_state s' = ADMIN_MODE \/ co_state s' = RS_ERROR).
Proof.
  assert (gen_ready 0 r_core) as H by (split; [reflexivity|]; split; reflexivity).
  split; [exact H|].
  pose proof (startup_never_ready r_time "/d/records.jsonl" "/d/events.jsonl" "/d" r_key_dir
    (Some r_client) None [] [] 0 r_core H) as W.
  destruct (wp_elim _ _ _ W) as (s' & r & E & W1 & W2). exists s', r.
  split; [exact E|]. split; [exact W1|]. destruct W2 as [[_ W2]|(e & _ & W2)].
  - left; exact W2.
  - right; exact W2.
Defined.

(** ** The customer-zero bootstrap on a local repository *)
Definition r_file (text : string) : node := File text 33188 (f_of_Z 0).
Definition r_dir : node := Dir 16877 0 (f_of_Z 0).
#[local] Instance r_cz : CzEnv := {
  cz_network := r_network;
  yaml_load s :=
    if s =s "state" then Ok (VDict [("schema_version", VInt 1)])
    else if s =s "mission" then Ok (VDict [("mission_id", VStr "M1"); ("status", VStr "ACTIVE");
        ("scope", VList [VDict [("id", VStr "T1"); ("status", VStr "OPEN")]])])
    else if s =s "action" then Ok (VDict [("action", VStr "go on")])
    else raise ValueError "not YAML";
  cz_files := {[ "/op" := r_dir; "/op/BOOTSTRAP.md" := r_file "contract";
    "/op/constitution" := r_dir; "/op/os" := r_dir; "/op/evidence" := r_dir;
    "/op/state/CURRENT_STATE.yaml" := r_file "state";
    "/op/state/CURRENT_MISSION.yaml" := r_file "mission";
    "/op/state/NEXT_ACTION.yaml" := r_file "action" ]};
  cz_cwd := "/srv";
  cz_clock n := f_of_Z (Z.of_nat n) }.
(** A complete local repository without blockers is CONSISTENT, its absent
    optional stages listed as such; the seven events are emitted. *)
Example local_bootstrap_consistent :
  let '(s, r) := resolve_canonical (mkProvider None (Some "/op") "CONTROLLED_TEST")
                   (mkCz None [] (Some (mkBus [] [])) [] 0) in
  exists res, r = Ok res /\ bo_status res = CONSISTENT /\ bo_blockers res = [] /\
    last (bo_stages_completed res) = Some "14.RELEVANT_DOMAIN_STATE:OPTIONAL_ABSENT" /\
    length (bo_stages_completed res) = 15 /\
    option_map (fun b => length (bus_history b)) (cz_bus s) = Some 7 /\ cz_sent s = [].
Proof. vm_compute. eexists. repeat split. Qed.
