(* ===== verification/ServiceWitnesses.v ===== *)
(** * Concrete instances of the services

    Instances of the interfaces of the local model executor, the secrets and the
    browser broker, and, for each of their theorems with hypotheses, concrete
    inputs at which they hold. *)
From stdpp Require Import gmap.
From S2P Require Import Prelude Dict PyVal Effects PyStr PyBytes Json JsonLoad ExecModels Host.
From S2P Require Import Workspace Deterministic Mcp Telemetry Worker Qwen.
From S2P Require Import Config Identity Keys Secrets GithubAuth Broker BrokerGate BrokerClient.
From S2P Require Intelligence Compute ComputeFacts Benchmarks BenchmarkStore BenchmarkFacts.

(** ** The broker *)
Definition v_text (s : string) : pyval := VStr s.
Definition v_result (l : list (string * pyval)) : exchange := Answer [("result", VDict l)].
Definition v_value (v : pyval) : exchange := v_result [("result", VDict [("value", v)])].
(** A page with one form, whose submission sends one request. *)
Definition v_paused (url : string) : dict string pyval :=
  [("method", VStr "Fetch.requestPaused");
   ("params", VDict [("requestId", VStr "r1"); ("frameId", VStr "F");
     ("request", VDict [("method", VStr "POST"); ("url", VStr url)])])].
Definition v_script (m : Sent) : pyval :=
  match dget "expression" (st_params m) with
  | Some v => v
  | None => vget "functionDeclaration" (st_params m)
  end.
Definition v_exchange (sent : list Sent) : list (dict string pyval) * exchange :=
  match last sent with
  | None => ([], NoAnswer "nothing sent")
  | Some m =>
      let script := v_script m in
      if is_text "find" script then
        ([], v_result [("result", VDict [("objectId", VStr "array")])])
      else if is_text "readmark" script then ([], v_value (VStr "u"))
      else if is_text "form" script then
        ([], v_value (VDict [("action", VStr "https://a.example/b#top"); ("method", VStr "POST")]))
      else if is_text "submit" script then
        ([v_paused "https://elsewhere.example/b"; v_paused "https://a.example/b"],
         v_value (VDict [("success", VBool true)]))
      else if is_text "page" script then
        ([], v_value (VDict [("url", VStr "https://a.example/done")]))
      else if st_method m =s "Runtime.getProperties" then
        ([], if is_text "array" (vget "objectId" (st_params m))
             then v_result [("result", VList [VDict [("name", VStr "0");
                              ("value", VDict [("objectId", VStr "item")])]])]
             else v_result [("result", VList [VDict [("name", VStr "node");
                              ("value", VDict [("objectId", VStr "node")])]])])
      else if st_method m =s "DOM.describeNode" then
        ([], v_result [("node", VDict [("backendNodeId", VInt 7)])])
      else if st_method m =s "DOM.resolveNode" then
        ([], v_result [("object", VDict [("objectId", VStr "object")])])
      else if st_method m =s "Page.getFrameTree" then
        ([], v_result [("frameTree", VDict [("frame", VDict [("id", VStr "F")])])])
      else if st_method m =s "Page.createIsolatedWorld" then
        ([], v_result [("executionContextId", VInt 1)])
      else ([], v_result [])
  end.
#[local] Instance v_floats : FloatOps := {
  float_repr _ := "0.0"; float_sum _ := SpecFloat.S754_zero false }.
#[local] Instance v_errors : JsonErrors := fun _ => "not JSON".
#[local] Instance v_browser : BrowserWorld := {
  js s := match s with
          | FindElements _ _ _ _ => "find" | ReadFrameMark => "readmark" | ReadForm => "form"
          | SubmitForm => "submit" | ObservePageBriefly => "page" | _ => "other"
          end;
  Broker.set_text l := "{" +:+ str_join ", " l +:+ "}";
  bw_uuid _ := "u";
  bw_delay _ := 1%N;
  bw_alive _ _ := true;
  bw_wait _ _ := true;
  bw_connect _ := true;
  bw_exchange := v_exchange;
  bw_profile_dir := "/home/anny/.anny/browser-profiles/colab";
  bw_mkdir _ := Ok tt;
  bw_chrome_exists _ := true;
  bw_environ := [];
  bw_popen _ _ _ := Ok 100%Z;
  bw_xdotool_exists _ := false;
  bw_xdotool _ _ := Ok "" }.
Definition v_line (l : list (string * pyval)) : operation :=
  Line (dumps false (VDict l) +:+ newline).
Definition v_start : operation :=
  v_line [("command", VStr "START_BROWSER"); ("url", VStr "https://a.example/")].
Definition v_find : operation := v_line [("command", VStr "FIND"); ("query", VDict [])].
Definition v_submit : operation :=
  v_line [("command", VStr "SUBMIT"); ("target_id", VStr "bt_u"); ("auth_id", VStr "u")].
Definition v_operations : list operation :=
  [v_start; v_find; Authorize (VStr "bt_u") (VStr "u") (VInt 300); v_submit; v_submit; Close].
Definition v_broker : Broker :=
  mkBroker None BR_RUNNING B_CLOSED None false false None [] None [] [] [] 0 0.
Definition v_authorization : authorization :=
  mkAuth "bt_u" (Some "u") 300000000001 "POST" "https://a.example/b#top" "F" 2.
Lemma socket_never_submits_witness :
  bk_ledger (perform_all [v_start; v_find; v_submit] v_broker) = [] /\
  is_Some (dget "bt_u" (bk_targets (perform_all [v_start; v_find; v_submit] v_broker))).
Proof.
  split; [|vm_compute; eauto].
  refine (proj1 (socket_never_submits 1000 0 [v_start; v_find; v_submit] v_broker eq_refl _)).
  intros t s e H. repeat (apply elem_of_cons in H as [H|H]; [discriminate H|]).
  by apply elem_of_nil in H.
Defined.
Definition v_payload : dict string pyval :=
  [("command", VStr "NAVIGATE"); ("url", VStr "https://a.example/")].
Lemma request_arrives_witness :
  handle (encode_line (VDict v_payload)) v_broker = served "NAVIGATE" v_payload v_broker.
Proof.
  rewrite (request_arrives v_payload v_broker);
    [reflexivity|vm_compute; repeat split; repeat constructor; set_solver|vm_compute; lia].
Defined.

(** ** The local model *)
#[local] Instance v_machine : Machine := {
  clock n := Z.of_nat n; uuid_hex n := pretty n; cwd := "/srv"; machine_floats := v_floats;
  isoformat z := zstr z; sha256 s := "sha:" +:+ s;
  git_run _ _ _ := raise OSError "no git"; ephemeral_base := "/ws" }.
Definition v_answer : string :=
  dquote +:+ "class" +:+ dquote +:+ ": " +:+ dquote +:+ "public" +:+ dquote +:+ ", " +:+
  dquote +:+ "confidence" +:+ dquote +:+ ": 1, " +:+ dquote +:+ "reason_codes" +:+ dquote +:+
  ": []} done</think> again}".
#[local] Instance v_backend : ModelBackend := {
  mb_machine := v_machine;
  mb_errors := v_errors;
  mb_model_path := Some "/m.gguf";
  artifact p := if p =s "/m.gguf" then Some (Ok "weights") else None;
  wall_time n := f_of_Z (Z.of_nat n);
  resident_memory _ := 0%Z;
  cpu_percent := f_of_Z 0;
  load_model _ _ _ := Ok tt;
  run_model _ _ _ _ := Ok (mkCompletion v_answer 20 40);
  Qwen.set_text l := str_join ", " l }.
Definition v_task : Task :=
  mkTask "t1" "document.classify" "acc" "prj" [("text", VStr "hello")] [] 0 "ephemeral" "full" "me" 0 None.
Definition v_package : ContextPackage :=
  mkPackage v_task
    (initial_cap "document.classify" "Document Classify" "Classifies a document."
       true LOCAL_MODEL "document" "read" false false)
    [("text", VStr "hello")] [] [] "full" "e1".
Lemma qwen_execute_sound_witness :
  exists r, qwen_execute "/m.gguf" (Some "sha:weights") v_package = Ok r /\
    mr_status r = "SUCCEEDED" /\
    vouched_result "/m.gguf" (Some "sha:weights") v_package r.
Proof.
  destruct (qwen_execute "/m.gguf" (Some "sha:weights") v_package) as [r|e] eqn:E;
    [|exfalso; vm_compute in E; discriminate E].
  exists r. split; [reflexivity|]. split; [|apply (qwen_execute_sound _ _ _ _ E)].
  revert E. vm_compute. intros [= <-]. reflexivity.
Defined.

(** ** Secrets *)
(** A cipher that writes the key before the text. *)
Fixpoint v_strip (p s : string) : option string :=
  match p, s with
  | "", _ => Some s
  | String a p', String b s' => if Ascii.eqb a b then v_strip p' s' else None
  | _, "" => None
  end.
#[local] Instance v_crypto : Crypto := {
  fernet_encrypt key _ v := key +:+ v;
  fernet_decrypt key c := v_strip key c;
  sha256_digest s := s;
  creation_mode := 420%Z }.
Lemma v_cipher key (n : nat) v : fernet_decrypt key (fernet_encrypt key n v) = Some v.
Proof.
  change (v_strip key (key +:+ v) = Some v). induction key as [|c key IH]; [reflexivity|].
  rewrite string_app_cons. cbn [v_strip]. rewrite Ascii.eqb_refl. exact IH.
Defined.
Definition v_calls : list secret_call :=
  [CallStore "other" "x"; CallRetrieve "github-state"; CallDelete "other"; CallList].
Lemma secret_survives_witness :
  let '(d1, r1) := file_store "master" "github-access-token" "gho_1" (mkSecretDir ∅ 0 []) in
  let '(d2, _) := make_calls (file_backend "master") v_calls d1 in
  r1 = Ok true /\ kept "master" "github-access-token" "gho_1" d2 /\
  (file_retrieve "master" "github-access-token" d2).2 = Ok (Some "gho_1").
Proof.
  apply (secret_survives "master" v_cipher); [reflexivity|reflexivity|].
  repeat constructor; discriminate.
Defined.

(** ** Remote compute *)
(** A colab program that is not installed, and an MCP server that offers one
    tool. *)
Module RemoteCompute.
Import Compute ComputeFacts.
#[local] Instance v_colab : ColabWorld := {
  cw_floats := v_floats;
  cw_errors := v_errors;
  cw_run _ := CliMissing;
  cw_clock n := Z.of_nat n;
  cw_isoformat _ := "2026-01-01T00:00:00+00:00";
  cw_strftime _ := "20260101000000";
  cw_uuid8 _ := "abcd0123";
  cw_temp_file _ := Ok "/tmp/job.py";
  cw_unlink _ := Ok tt;
  cw_start _ := Ok tt;
  cw_call tool _ _ := Ok (mkToolReply false (Some (Some "true", "")));
  cw_tools _ := Ok ["help"; "run_python"];
  cw_set_text _ := "{}" }.
Definition v_context : provision_context := mkProvision [("transport_type", VStr "browser")] None.
Definition v_provider_calls : list provider_call :=
  [CProvision v_context; CProvision v_context; CSubmit (mkJob "j" "s" "w" 0 "PENDING" 1 (Some "print(1)"))].
(** The code of a job of the first session goes to the bridge of the second. *)
Lemma executed_on_current_bridge_witness :
  let c := make_provider_calls v_provider_calls (new_provider (fun _ => None) None) in
  (execute 0 0 c).2 = Ok 0 /\ sent_by_browser 0 0 c (execute 0 0 c).1 /\
  last (cb_calls (execute 0 0 c).1) = Some (1, "run_python", [("code", "print(1)")]).
Proof.
  split; [vm_compute; reflexivity|]. split; [|vm_compute; reflexivity].
  refine (proj2 (executed_on_current_bridge (fun _ => None) None v_provider_calls 0 0 _ 0 _)).
  vm_compute. reflexivity.
Defined.
Lemma ended_forever_witness :
  let c := make_provider_calls [CProvision v_context; CTerminate 0] (new_provider (fun _ => None) None) in
  Ended 0 c /\ Ended 0 (make_provider_calls v_provider_calls c).
Proof.
  assert (Ended 0 (make_provider_calls [CProvision v_context; CTerminate 0] (new_provider (fun _ => None) None)))
    as H by (eexists; split; vm_compute; reflexivity).
  split; [exact H|]. apply (ended_forever 0 _ v_provider_calls), H.
Defined.
End RemoteCompute.

(** ** Benchmark scorecards *)
Module Scorecards.
Import Benchmarks BenchmarkStore BenchmarkFacts.
(** Instants written in binary. *)
Fixpoint bits (p : positive) : string :=
  match p with xH => "" | xO p => String "0" (bits p) | xI p => String "1" (bits p) end.
Fixpoint of_bits (s : string) : positive :=
  match s with
  | "" => xH
  | String c s => if Ascii.eqb c "0" then xO (of_bits s) else xI (of_bits s)
  end.
Definition z_text (z : Z) : string :=
  match z with Z0 => "z" | Zpos p => String "p" (bits p) | Zneg p => String "n" (bits p) end.
Definition text_z (s : string) : option Z :=
  match s with
  | String c s => Some (if Ascii.eqb c "z" then 0 else if Ascii.eqb c "p" then Zpos (of_bits s) else Zneg (of_bits s))%Z
  | "" => None
  end.
#[local] Instance stamps : StampText := {| stamp_text := z_text; read_stamp := text_z |}.
Lemma of_bits_bits p : of_bits (utc_suffix (bits p)) = p.
Proof. induction p as [p IH|p IH|]; simpl; by rewrite ?IH. Qed.
Lemma stamps_ok : stamps_read.
Proof. intros [|p|p]; (split; [done|]); simpl; by rewrite ?of_bits_bits. Qed.
Definition card (id cap impl : string) : BenchmarkScorecard :=
  mkScorecard id cap impl "r1" "1.0" "1.0" (f_of_Z 1) (f_of_Z 1) (f_of_Z 0) (f_of_Z 0) (f_of_Z 0) (VDict [])
    Intelligence.CERTIFIED (VDict []) None (Some 7%Z).
Definition kept (sc : BenchmarkScorecard) : string * stored := (filename (sc_scorecard_id sc), Document (to_dict sc)).
Definition two_cards : BenchmarkStore :=
  new_store (list_to_map [kept (card "one" "c" "i"); kept (card "two" "c" "j")]) [].
Lemma two_cards_named : named two_cards.
Proof.
  intros name sc (f & Hl & _ & Hd). apply elem_of_list_to_map_2 in Hl.
  repeat (apply elem_of_cons in Hl as [E|Hl]; [injection E as -> ->; unfold decode_file in Hd;
    rewrite from_to_dict in Hd by apply stamps_ok; injection Hd as <-; reflexivity|]).
  by apply not_elem_of_nil in Hl.
Qed.
Lemma revocation_complete_witness : exists s' n, revoke "c" "i" two_cards = (s', Ok n) /\ named s'.
Proof.
  destruct (wp_elim _ _ _ (revocation_complete stamps_ok "c" "i" two_cards two_cards_named)) as (s' & [n|e] & E & H).
  - exists s', n. split; [exact E|]. apply (H n eq_refl).
  - exfalso. apply (f_equal snd) in E. vm_compute in E. discriminate E.
Defined.
End Scorecards.
